(* ===== verification/_CoqProject ===== *)
-Q . S2P
Prelude.v
PyValue.v
Sha256.v
Engine.v
Evaluator.v
EvaluatorData.v
EngineTheorems.v
OwnerEvents.v
OwnerEventsTheorems.v
LaunchLoop.v
Pilot.v
LaunchLoopEffects.v
LaunchLoopInvariant.v
LaunchLoopTheorems.v
Budgets.v
BudgetsTheorems.v
JsonText.v
JsonTextTheorems.v
JsonTree.v
Base64.v
Gateway.v
GatewayLedger.v
GatewayTheorems.v
ToolSchemas.v
ToolSchemasTheorems.v
DraftProvider.v
EventbriteDrafts.v
IterableDrafts.v
IterableTemplates.v
DraftRows.v
DraftReview.v
Crypto.v
SecretStore.v
DraftOperations.v
DraftWire.v
DraftAdapterTheorems.v
DraftPayloadTheorems.v
DraftSystem.v
DraftWorld.v
DraftEffects.v
DraftSystemTheorems.v
DraftReceiptTheorems.v
SecretStoreTheorems.v
Uuid.v
Broker.v
HermesClient.v
Transactions.v
BrokerEffects.v
BrokerTheorems.v
AgentRuns.v
AgentRunFacts.v
AgentRunEffects.v
AgentSystem.v
AgentRunTheorems.v
AgentWorld.v
AgentWitnesses.v
IdentityRows.v
RateLimits.v
SecurityEvents.v
KeyRing.v
Credentials.v
AdminSessions.v
Authentication.v
IdentityFacts.v
IdentityEffects.v
IdentityMarks.v
IdentitySystem.v
IdentityTheorems.v
IdentityWorld.v
RateLimitsTheorems.v
SecurityEventsTheorems.v
KeyRingTheorems.v
IdentityWitnesses.v
