(* ===== verification/Prelude.v ===== *)
(** * CivicLoop: a verification development (root file and prelude)

    CivicLoop prepares event campaigns: an engine builds a package from the facts of an
    event, people review it, a model drafts content through a budgeted gateway, and approved
    drafts are written to Eventbrite and Iterable with stored credentials.  This library
    models those parts from the Python source under src/ and proves what makes them correct.

    ** How the source is modelled

    A call that can raise returns [result E A]; a call that also changes state is a function
    of the state monad [ST S E A], whose [atomic] is a database transaction (an exception
    undoes it).  A table is a [gmap] from its primary key to a record of the columns that
    modelled code reads; a UUID key is the integer it denotes.  JSON values are [PyValue.json]
    (a dict keeps its order and has distinct keys), floats are binary64, text is
    [String.string] with one [ascii] per character, so text is ASCII where the code encodes
    it.  Times are integers, and the clock is part of the database or an argument.  Code
    outside src/ is a parameter: the time zone database and the IPv6 parser
    ([OwnerEvents.Platform]), AES-GCM with its round-trip and length laws ([Crypto.AESGCM]),
    a provider's server (an arbitrary function of the requests sent so far), the stack
    allowance of [json.loads] ([recursion]).  The interpreter's [json], [hashlib], [hmac] and
    base64 are modelled themselves: [JsonText], [Sha256], [Base64].

    ** The parts

    - [Prelude], [PyValue]: results, the state monad and its inversion and weakest
      precondition tactics; Python values, comparison, truth, strings, [json.dumps].
    - [Sha256], [JsonText], [Base64], [JsonTree]: hashing, [json.loads] (a scanner with fuel;
      [JsonTextTheorems] shows that the fuel given is never exhausted and that reading
      inverts printing), base64url, depth and counting of JSON trees.
    - [Engine] (backend/launchloop/engine.py), [Evaluator] with [EvaluatorData]
      (loops/launchloop/launchloop.py and its data): package construction and the labelled
      evaluation; [EngineTheorems].
    - [OwnerEvents] (backend/launchloop/owner_events.py): fact validation and the owner's
      package; [OwnerEventsTheorems].
    - [LaunchLoop] (backend/launchloop/models.py, services.py) and [Pilot] (pilot.py): the
      tables and operations of the review workflow; [LaunchLoopEffects] gives each operation
      its effect, [LaunchLoopInvariant] the invariant of reachable databases,
      [LaunchLoopTheorems] the properties.
    - [Budgets] (backend/agents/budgets.py, models.py): monthly budgets, reservations and
      their ledger; [BudgetsTheorems].
    - [Gateway] (deploy/litellm/gateway.py, assertions.py): signed assertions, the durable
      token ledger, the request sanitiser and the handler; [GatewayLedger] treats histories
      of the ledger, [GatewayTheorems] requests and responses.
    - [ToolSchemas] (backend/agents/tool_schemas.py): the broker's schemas and the canonical
      encoding every digest of the draft operations is taken over; [ToolSchemasTheorems].
    - [DraftProvider] (backend/integrations/types.py and the HTTP exchange the adapters
      share), [EventbriteDrafts], [IterableDrafts], [IterableTemplates] (the files of the
      same names): payloads, digests, and the adapters, whose requests are recorded in order.
      [DraftWire] gives rules for reasoning about what an adapter sends,
      [DraftAdapterTheorems] and [DraftPayloadTheorems] the facts about the adapters.
    - [DraftRows] (backend/integrations/models.py, with the columns read of agents/models.py
      and identity/models.py): the tables, the guards of [save()] and the constraints.
      [DraftReview] and [DraftOperations] (draft_operations.py): validation of an operation
      against the current workflow, submission, approval, claim, exchange, reconciliation.
      [Crypto] (crypto.py) and [SecretStore] (secret_store.py): credentials and leases.
    - [DraftSystem]: any number of dispatches interleave with requests, crashes and changes
      of the other tables; a claim, an exchange and the store of its outcome are separate
      steps, as the commits in the code separate them.  [DraftEffects] gives each step its
      effect on the rows; [DraftSystemTheorems], [DraftReceiptTheorems] and
      [SecretStoreTheorems] hold the properties.  [DraftWorld] is a concrete world in which
      the hypotheses hold.

    ** What is shown

    - Review: a completed workflow was approved by somebody else on the package it stores;
      the log is the history; decisions fail cleanly.
    - Money: a month is never overspent, the ledger is the history of its reservation, closed
      reservations are final; a run's tokens stay within its signed ceiling and an assertion
      is spent once.
    - Gateway: issued assertions verify, tool calls are answered in order, requests are
      bounded, responses carry no secret; two inputs escape the handler.
    - Packages: when a package is ready and when it raises, sponsor prices as exact floats,
      the evaluator's verdicts; what facts are accepted.
    - Draft operations: at most one write per operation, whatever interleaves, and only the
      reviewed one; nothing is sent without a live approval of the current review; success
      rests on the provider's read back, failure on the absence of a write; rows keep their
      history.  One flaw is exhibited: a failing dispatch can overwrite a confirmation.
    - Credentials: encryption round trips and binds identity, a lease exposes exactly the
      value its reference was given for, superseded references are refused for good.
    - Encodings: the canonical encoding is injective and its limits are exact, tool arguments
      are accepted exactly when they conform, reviewed payloads are final.

    ** Bounds and fuel

    [JsonText.loads] runs with twice the length of the text plus a constant as fuel, proved
    sufficient ([JsonFacts.loads_terminates]); [recursion] is the interpreter's own limit and
    stays a parameter.  Every other recursion is structural.  Sponsor prices are exact for
    tickets up to 1000 dollars.  The canonical encoding is at most 9 levels of containers
    high, so any [recursion] of at least 9 reads it back.

    ** Decisions worth knowing

    - Django loads a row's relations at their first use; [DraftReview.related] is that
      snapshot, taken when an operation is first validated.  What the code queries itself is
      read again.
    - An exchange reads the database at one moment: its guards are evaluated together, just
      before the first request.
    - A response with characters beyond ASCII is the error [NonAsciiResponse], which the
      handlers treat like any unexpected exception.
    - [load] and the queries assume what foreign keys guarantee and otherwise raise
      [DoesNotExist].

    ** Not modelled

    HTTP views and routing, Django settings and middleware (glue over the modelled services);
    serialisers of read-only views; the Celery tasks, the MCP broker and the capabilities of
    the agents app, and the identity services (planned next, in this order); loading of the
    key ring file; connection settings and health checks; the Hermes deployment and the
    gateway's child process (sockets, processes and containers); the Eventbrite import; the
    evaluation judge; telemetry; the frontend, migrations and operational scripts. *)

From stdpp Require Export base tactics option list gmap strings.
From Stdlib Require Export ZArith Lia.

#[global] Set Default Goal Selector "!".

Declare Scope py_scope.
Delimit Scope py_scope with py.

(** ** Results: a Python call either returns or raises *)

Inductive result (E A : Type) : Type :=
| Ok (a : A)
| Err (e : E).
Arguments Ok {E A} a.
Arguments Err {E A} e.

#[global] Instance result_ret (E : Type) : MRet (result E) := fun A a => Ok a.
#[global] Instance result_bind (E : Type) : MBind (result E) :=
  fun A B k m => match m with Ok a => k a | Err e => Err e end.
#[global] Instance result_fmap (E : Type) : FMap (result E) :=
  fun A B f m => match m with Ok a => Ok (f a) | Err e => Err e end.

#[global] Instance result_eq_dec (E A : Type) `{EqDecision E} `{EqDecision A} :
  EqDecision (result E A).
Proof. solve_decision. Defined.

(** [if c: raise e] *)
Definition raise_if {E : Type} (c : bool) (e : E) : result E () :=
  if c then Err e else Ok ().

Definition is_ok {E A : Type} (r : result E A) : bool :=
  match r with Ok _ => true | Err _ => false end.

(** [[f(x) for x in l]] where [f] may raise: left to right, the first error wins. *)
Fixpoint traverse {E A B : Type} (f : A -> result E B) (l : list A) : result E (list B) :=
  match l with
  | [] => Ok []
  | a :: l' => b ← f a; bs ← traverse f l'; Ok (b :: bs)
  end.

Lemma Ok_inj {E A : Type} (a b : A) : @Ok E A a = Ok b -> a = b.
Proof. congruence. Qed.

Lemma bind_result_ok {E A B : Type} (m : result E A) (k : A -> result E B) b :
  m ≫= k = Ok b -> exists a, m = Ok a /\ k a = Ok b.
Proof. destruct m; cbn; [eauto|discriminate]. Qed.

Lemma bind_result_err {E A B : Type} (m : result E A) (k : A -> result E B) e :
  m ≫= k = Err e -> m = Err e \/ exists a, m = Ok a /\ k a = Err e.
Proof. destruct m; cbn; [eauto|]. intros [= ->]. by left. Qed.

Lemma raise_if_inv {E : Type} c (e : E) u : raise_if c e = Ok u -> c = false.
Proof. by destruct c. Qed.

(** Walks through a result body down to the case that returns. *)
Ltac result_step H :=
  lazymatch type of H with
  | (raise_if ?c _ ≫= _) = Ok _ =>
      let u := fresh in apply bind_result_ok in H as (u & ?%raise_if_inv & H)
  | (_ ≫= _) = Ok _ => apply bind_result_ok in H as (? & ? & H)
  | match ?x with _ => _ end = Ok _ => destruct x eqn:?; try discriminate H
  end.

(** Inverts the body of a function of the result monad. *)
Ltac result_inv H := repeat (apply bind_result_ok in H as (? & ? & H)).

(** ** Stateful calls that may raise: state passing with exceptions.

    An exception leaves the state as it was when it was raised; [atomic] is
    Django's [transaction.atomic], which rolls the state back. *)

Definition ST (S E A : Type) : Type := S -> result E A * S.

#[global] Instance ST_ret (S E : Type) : MRet (ST S E) := fun A a s => (Ok a, s).
#[global] Instance ST_bind (S E : Type) : MBind (ST S E) :=
  fun A B k m s =>
    match m s with
    | (Ok a, s') => k a s'
    | (Err e, s') => (Err e, s')
    end.

Definition raise {S E A : Type} (e : E) : ST S E A := fun s => (Err e, s).
Definition get {S E : Type} : ST S E S := fun s => (Ok s, s).
Definition put {S E : Type} (s : S) : ST S E () := fun _ => (Ok (), s).
Definition modify {S E : Type} (f : S -> S) : ST S E () := fun s => (Ok (), f s).
Definition gets {S E A : Type} (f : S -> A) : ST S E A := fun s => (Ok (f s), s).
Definition lift {S E A : Type} (r : result E A) : ST S E A := fun s => (r, s).

(** [if c: raise e] in a stateful body. *)
Definition fail_if {S E : Type} (c : bool) (e : E) : ST S E () :=
  if c then raise e else mret ().

(** The value of an option or the given exception ([.get()] of a row). *)
Definition some_or {S E A : Type} (o : option A) (e : E) : ST S E A :=
  match o with Some a => mret a | None => raise e end.

Definition atomic {S E A : Type} (m : ST S E A) : ST S E A :=
  fun s => match m s with
           | (Ok a, s') => (Ok a, s')
           | (Err e, _) => (Err e, s)
           end.

(** A [for] loop over a list, threading the state. *)
Fixpoint for_each {S E A : Type} (l : list A) (body : A -> ST S E ()) : ST S E () :=
  match l with
  | [] => mret ()
  | a :: l' => _ ← body a; for_each l' body
  end.

(** A [for] loop that updates the state and a local variable. *)
Fixpoint fold_each {S E A B : Type} (b : B) (l : list A) (body : B -> A -> ST S E B) : ST S E B :=
  match l with
  | [] => mret b
  | a :: l' => b' ← body b a; fold_each b' l' body
  end.

(** A [for] loop over a list, threading an accumulator, where the body may raise. *)
Fixpoint fold_result {E A B : Type} (f : B -> A -> result E B) (b : B) (l : list A)
  : result E B :=
  match l with
  | [] => Ok b
  | a :: l' => b' ← f b a; fold_result f b' l'
  end.

(** ** Weakest preconditions for stateful calls *)

Definition wp {S E A : Type} (m : ST S E A) (Q : result E A -> S -> Prop) (s : S) : Prop :=
  Q (m s).1 (m s).2.

Section wp.
Context {S E : Type}.
Implicit Types (s : S) (e : E).

Lemma wp_ret {A} (a : A) (Q : result E A -> S -> Prop) s :
  Q (Ok a) s -> wp (mret a) Q s.
Proof. done. Qed.

Lemma wp_bind {A B} (m : ST S E A) (k : A -> ST S E B) Q s :
  wp m (fun r s' => match r with Ok a => wp (k a) Q s' | Err e => Q (Err e) s' end) s ->
  wp (m ≫= k) Q s.
Proof. unfold wp, mbind, ST_bind. by destruct (m s) as [[a|e] s']. Qed.

Lemma wp_raise {A} e (Q : result E A -> S -> Prop) s : Q (Err e) s -> wp (raise e) Q s.
Proof. done. Qed.

Lemma wp_get (Q : result E S -> S -> Prop) s : Q (Ok s) s -> wp get Q s.
Proof. done. Qed.

Lemma wp_gets {A} (f : S -> A) (Q : result E A -> S -> Prop) s :
  Q (Ok (f s)) s -> wp (gets f) Q s.
Proof. done. Qed.

Lemma wp_modify f (Q : result E () -> S -> Prop) s : Q (Ok ()) (f s) -> wp (modify f) Q s.
Proof. done. Qed.

Lemma wp_put s' (Q : result E () -> S -> Prop) s : Q (Ok ()) s' -> wp (put s') Q s.
Proof. done. Qed.

Lemma wp_lift {A} (r : result E A) (Q : result E A -> S -> Prop) s : Q r s -> wp (lift r) Q s.
Proof. done. Qed.

Lemma wp_fail_if c e (Q : result E () -> S -> Prop) s :
  (c = true -> Q (Err e) s) -> (c = false -> Q (Ok ()) s) -> wp (fail_if c e) Q s.
Proof. unfold wp. destruct c; cbn; auto. Qed.

Lemma wp_some_or {A} (o : option A) e (Q : result E A -> S -> Prop) s :
  (forall a, o = Some a -> Q (Ok a) s) -> (o = None -> Q (Err e) s) -> wp (some_or o e) Q s.
Proof. unfold wp. destruct o; cbn; auto. Qed.

(** A transaction: the body's errors are seen from the state before it. *)
Lemma wp_atomic {A} (m : ST S E A) (Q : result E A -> S -> Prop) s :
  wp m (fun r s' => match r with Ok a => Q (Ok a) s' | Err e => Q (Err e) s end) s ->
  wp (atomic m) Q s.
Proof. unfold wp, atomic. by destruct (m s) as [[a|e] s']. Qed.

Lemma wp_mono {A} (m : ST S E A) (P Q : result E A -> S -> Prop) s :
  (forall r s', P r s' -> Q r s') -> wp m P s -> wp m Q s.
Proof. unfold wp. eauto. Qed.

(** Turning a run of the program into a weakest-precondition goal and back. *)
Lemma wp_run {A} (m : ST S E A) (Q : result E A -> S -> Prop) s r s' :
  m s = (r, s') -> wp m Q s -> Q r s'.
Proof. unfold wp. by intros ->. Qed.

Lemma wp_for_each {A} (body : A -> ST S E ()) (I : list A -> S -> Prop)
    (Q : result E () -> S -> Prop) (l : list A) s :
  I l s ->
  (forall a l' s', I (a :: l') s' ->
     wp (body a) (fun r s'' => match r with Ok _ => I l' s'' | Err e => Q (Err e) s'' end) s') ->
  (forall s', I [] s' -> Q (Ok ()) s') ->
  wp (for_each l body) Q s.
Proof.
  intros HI Hstep Hend. revert s HI.
  induction l as [|a l IH]; intros s HI; cbn [for_each].
  - by apply wp_ret, Hend.
  - apply wp_bind. eapply wp_mono; [|by apply Hstep].
    intros [[]|e] s' Hs'; [by apply IH | done].
Qed.
End wp.

(** ** Inverting a run: what a successful (or failed) run went through *)

Section run_inv.
Context {S E : Type}.
Implicit Types (s : S) (e : E).

Lemma bind_ok_inv {A B} (m : ST S E A) (k : A -> ST S E B) s b s' :
  (m ≫= k) s = (Ok b, s') -> exists a s1, m s = (Ok a, s1) /\ k a s1 = (Ok b, s').
Proof. unfold mbind, ST_bind. destruct (m s) as [[a|e] s1]; [eauto|congruence]. Qed.

Lemma bind_err_inv {A B} (m : ST S E A) (k : A -> ST S E B) s e s' :
  (m ≫= k) s = (Err e, s') ->
  m s = (Err e, s') \/ exists a s1, m s = (Ok a, s1) /\ k a s1 = (Err e, s').
Proof.
  unfold mbind, ST_bind. destruct (m s) as [[a|e'] s1]; [eauto|].
  intros [= -> ->]. by left.
Qed.

Lemma ret_inv {A} (a : A) s (r : result E A) s' :
  (mret a : ST S E A) s = (r, s') -> r = Ok a /\ s' = s.
Proof. unfold mret, ST_ret. by intros [= <- <-]. Qed.

Lemma get_inv s (r : result E S) s' : get s = (r, s') -> r = Ok s /\ s' = s.
Proof. unfold get. by intros [= <- <-]. Qed.

Lemma gets_inv {A} (f : S -> A) s (r : result E A) s' :
  gets f s = (r, s') -> r = Ok (f s) /\ s' = s.
Proof. unfold gets. by intros [= <- <-]. Qed.

Lemma put_inv s1 s (r : result E ()) s' : put s1 s = (r, s') -> r = Ok () /\ s' = s1.
Proof. unfold put. by intros [= <- <-]. Qed.

Lemma modify_inv f s (r : result E ()) s' : modify f s = (r, s') -> r = Ok () /\ s' = f s.
Proof. unfold modify. by intros [= <- <-]. Qed.

Lemma lift_inv {A} (x : result E A) s r s' : lift x s = (r, s') -> r = x /\ s' = s.
Proof. unfold lift. by intros [= <- <-]. Qed.

Lemma raise_inv {A} e s (r : result E A) s' : raise e s = (r, s') -> r = Err e /\ s' = s.
Proof. unfold raise. by intros [= <- <-]. Qed.

Lemma fail_if_ok_inv c e s s' u :
  fail_if c e s = (Ok u, s') -> c = false /\ s' = s.
Proof. destruct c; cbn; [done|]. by intros [= _ <-]. Qed.

Lemma fail_if_err_inv c e s e' s' :
  fail_if c e s = (Err e', s') -> c = true /\ e' = e /\ s' = s.
Proof. destruct c; cbn; [|done]. by intros [= <- <-]. Qed.

Lemma some_or_ok_inv {A} (o : option A) e s a s' :
  some_or o e s = (Ok a, s') -> o = Some a /\ s' = s.
Proof. destruct o; cbn; [|done]. by intros [= <- <-]. Qed.

Lemma some_or_err_inv {A} (o : option A) e s e' s' :
  some_or o e s = (Err e', s') -> o = None /\ e' = e /\ s' = s.
Proof. destruct o; cbn; [done|]. by intros [= <- <-]. Qed.

Lemma atomic_ok_inv {A} (m : ST S E A) s a s' :
  atomic m s = (Ok a, s') -> m s = (Ok a, s').
Proof. unfold atomic. destruct (m s) as [[b|e'] s'']; congruence. Qed.

Lemma atomic_err_inv {A} (m : ST S E A) s e s' :
  atomic m s = (Err e, s') -> s' = s /\ exists s1, m s = (Err e, s1).
Proof.
  unfold atomic. destruct (m s) as [[b|e'] s'']; [congruence|].
  intros [= -> ->]. eauto.
Qed.
End run_inv.

Ltac run_step :=
  match goal with
  | H : (_ ≫= _) _ = (Ok _, _) |- _ => apply bind_ok_inv in H as (? & ? & ? & ?)
  | H : (_ ≫= _) _ = (Err _, _) |- _ => apply bind_err_inv in H as [?|(? & ? & ? & ?)]
  | H : mret _ _ = (_, _) |- _ => apply ret_inv in H as [? ?]
  | H : get _ = (_, _) |- _ => apply get_inv in H as [? ?]
  | H : gets _ _ = (_, _) |- _ => apply gets_inv in H as [? ?]
  | H : put _ _ = (_, _) |- _ => apply put_inv in H as [? ?]
  | H : modify _ _ = (_, _) |- _ => apply modify_inv in H as [? ?]
  | H : lift _ _ = (_, _) |- _ => apply lift_inv in H as [? ?]
  | H : raise _ _ = (_, _) |- _ => apply raise_inv in H as [? ?]
  | H : fail_if _ _ _ = (Ok _, _) |- _ => apply fail_if_ok_inv in H as [? ?]
  | H : fail_if _ _ _ = (Err _, _) |- _ => apply fail_if_err_inv in H as (? & ? & ?)
  | H : some_or _ _ _ = (Ok _, _) |- _ => apply some_or_ok_inv in H as [? ?]
  | H : some_or _ _ _ = (Err _, _) |- _ => apply some_or_err_inv in H as (? & ? & ?)
  | H : atomic _ _ = (Ok _, _) |- _ => apply atomic_ok_inv in H
  | H : @Ok _ _ _ = Ok _ |- _ => injection H as H
  | H : @Err _ _ _ = Err _ |- _ => injection H as H
  | H : @Ok _ _ _ = Err _ |- _ => discriminate H
  | H : @Err _ _ _ = Ok _ |- _ => discriminate H
  end.
(** Inverts every run in the context down to the guards and the final state. *)
Ltac run_inv := repeat (run_step; subst; cbn beta iota in * ).

(** An error never leaves a trace in a transaction. *)
Lemma atomic_err {S E A : Type} (m : ST S E A) s e s' :
  atomic m s = (Err e, s') -> s' = s.
Proof. unfold atomic. destruct (m s) as [[a|e'] s'']; congruence. Qed.

Lemma atomic_ok {S E A : Type} (m : ST S E A) s a s' :
  atomic m s = (Ok a, s') -> m s = (Ok a, s').
Proof. unfold atomic. destruct (m s) as [[b|e'] s'']; congruence. Qed.

(** One step of symbolic execution; it leaves the guards of the code as
    hypotheses and stops at anything that is not a monad operation. *)
Ltac wp_step :=
  lazymatch goal with
  | |- wp (_ ≫= _) _ _ => apply wp_bind
  | |- wp (mret _) _ _ => apply wp_ret
  | |- wp (raise _) _ _ => apply wp_raise
  | |- wp get _ _ => apply wp_get
  | |- wp (gets _) _ _ => apply wp_gets
  | |- wp (put _) _ _ => apply wp_put
  | |- wp (modify _) _ _ => apply wp_modify
  | |- wp (lift _) _ _ => apply wp_lift
  | |- wp (fail_if _ _) _ _ => apply wp_fail_if; intros ?
  | |- wp (some_or _ _) _ _ => apply wp_some_or; [intros ? ?|intros ?]
  | |- wp (atomic _) _ _ => apply wp_atomic
  | |- wp (if ?c then _ else _) _ _ => destruct c eqn:?
  | |- wp (match ?o with Some _ => _ | None => _ end) _ _ => destruct o eqn:?
  | |- wp (let '(_, _) := ?p in _) _ _ => destruct p eqn:?
  end.

Ltac wp_steps := repeat (wp_step; cbn beta iota).

(** ** Booleans of the code as propositions *)

Ltac bool_step :=
  match goal with
  | H : negb _ = true |- _ => apply negb_true_iff in H
  | H : negb _ = false |- _ => apply negb_false_iff in H
  | H : _ && _ = true |- _ => apply andb_true_iff in H as [? ?]
  | H : _ || _ = false |- _ => apply orb_false_iff in H as [? ?]
  | H : bool_decide _ = true |- _ => apply bool_decide_eq_true in H
  | H : bool_decide _ = false |- _ => apply bool_decide_eq_false in H
  | H : (_ =? _)%Z = true |- _ => apply Z.eqb_eq in H
  | H : (_ =? _)%Z = false |- _ => apply Z.eqb_neq in H
  | H : (_ <? _)%Z = true |- _ => apply Z.ltb_lt in H
  | H : (_ <? _)%Z = false |- _ => apply Z.ltb_ge in H
  | H : (_ <=? _)%Z = true |- _ => apply Z.leb_le in H
  | H : (_ <=? _)%Z = false |- _ => apply Z.leb_gt in H
  | H : String.eqb _ _ = true |- _ => apply String.eqb_eq in H
  | H : String.eqb _ _ = false |- _ => apply String.eqb_neq in H
  end.
Ltac bools := repeat bool_step.

(** A decidable closed goal, by evaluating its decision procedure. *)
Ltac by_decide := apply (bool_decide_unpack _); vm_compute; exact I.

Lemma forallb_map_ext {A B : Type} (f : B -> bool) (g : A -> bool) (h : A -> B) (l : list A) :
  (forall x, In x l -> f (h x) = g x) -> forallb f (map h l) = forallb g l.
Proof.
  induction l as [|x l IH]; intros Hx; cbn; [done|]. rewrite Hx by (by left). f_equal.
  apply IH. intros y Hy. apply Hx. by right.
Qed.
