(* ===== verification/PyValue.v ===== *)
(** * Python values

    The part of the Python language and standard library that the modelled code
    uses on data: JSON-like values ([dict], [list], [str], [int], [float],
    [bool], [None]), truthiness and [==], [str()], [str] methods, binary64
    arithmetic with [round(x, 2)], and [json.dumps].

    A [str] is a [string] whose characters are ASCII code points; case mapping,
    [strip] and [isprintable] are the ASCII ones.  A [dict] is an association
    list in insertion order whose keys are distinct. *)

From stdpp Require Export pretty.
From Stdlib Require Export SpecFloat Ascii.
From S2P Require Import Prelude.

Open Scope Z_scope.

(** ** Exceptions of the language *)

Inductive py_exn :=
| KeyError (key : string)
| TypeError
| AttributeError
| ValueError (message : string)
| OverflowError.

#[global] Instance py_exn_eq_dec : EqDecision py_exn.
Proof. solve_decision. Defined.

(** ** Strings *)

Definition ascii_code (c : ascii) : Z := Z.of_N (Ascii.N_of_ascii c).
Definition chr (n : Z) : ascii := Ascii.ascii_of_N (Z.to_N n).
Definition in_range (lo hi : Z) (c : ascii) : bool :=
  (lo <=? ascii_code c) && (ascii_code c <=? hi).
Definition is_char (c : Z) (a : ascii) : bool := ascii_code a =? c.

Definition is_upper := in_range 65 90.
Definition is_lower := in_range 97 122.
Definition is_digit := in_range 48 57.
Definition is_alnum (c : ascii) : bool := is_upper c || is_lower c || is_digit c.
Definition is_space (c : ascii) : bool :=
  in_range 9 13 c || in_range 28 31 c || is_char 32 c.

Definition slen (s : string) : Z := Z.of_nat (String.length s).

Fixpoint string_map (f : ascii -> ascii) (s : string) : string :=
  match s with
  | EmptyString => EmptyString
  | String c s' => String (f c) (string_map f s')
  end.

Fixpoint string_forallb (f : ascii -> bool) (s : string) : bool :=
  match s with
  | EmptyString => true
  | String c s' => f c && string_forallb f s'
  end.

Definition lower_char (c : ascii) : ascii :=
  if is_upper c then chr (ascii_code c + 32) else c.
(** [s.lower()] *)
Definition lower (s : string) : string := string_map lower_char s.

Fixpoint lstrip (s : string) : string :=
  match s with
  | String c s' => if is_space c then lstrip s' else s
  | EmptyString => EmptyString
  end.
Fixpoint rstrip (s : string) : string :=
  match s with
  | String c s' =>
      match rstrip s' with
      | EmptyString => if is_space c then EmptyString else String c EmptyString
      | s'' => String c s''
      end
  | EmptyString => EmptyString
  end.
(** [s.strip()] *)
Definition strip (s : string) : string := rstrip (lstrip s).

(** [s.replace(a, b)] for two characters. *)
Definition replace_char (a b : ascii) (s : string) : string :=
  string_map (fun c => if Ascii.eqb c a then b else c) s.

(** [s.endswith(c)] for a one-character suffix. *)
Fixpoint last_char (s : string) : option ascii :=
  match s with
  | EmptyString => None
  | String c EmptyString => Some c
  | String _ s' => last_char s'
  end.
Definition endswith_char (s : string) (c : ascii) : bool :=
  match last_char s with Some d => Ascii.eqb c d | None => false end.

(** [sub in s] *)
Fixpoint contains (sub s : string) : bool :=
  String.prefix sub s ||
  match s with
  | EmptyString => false
  | String _ s' => contains sub s'
  end.

Lemma sapp_nil s : "" +:+ s = s.
Proof. reflexivity. Qed.

Lemma sapp_cons c s t : String c s +:+ t = String c (s +:+ t).
Proof. reflexivity. Qed.

Lemma sapp_nil_r s : s +:+ "" = s.
Proof. induction s as [|c s IH]; [done|]. by rewrite sapp_cons, IH. Qed.

Lemma sapp_assoc a b c : (a +:+ b) +:+ c = a +:+ (b +:+ c).
Proof. induction a as [|x a IH]; [done|]. by rewrite !sapp_cons, IH. Qed.

Lemma slength_app a b : String.length (a +:+ b) = (String.length a + String.length b)%nat.
Proof. induction a as [|c a IH]; [done|]. rewrite sapp_cons. cbn. by rewrite IH. Qed.

Lemma sapp_inj a b c d :
  String.length a = String.length c -> a +:+ b = c +:+ d -> a = c /\ b = d.
Proof.
  revert c. induction a as [|x a IH]; intros [|y c]; try done; rewrite ?sapp_cons.
  intros [= Hl] [= -> He]. by destruct (IH c Hl He) as [-> ->].
Qed.

Lemma substring_skip a s n : String.substring (String.length a) n (a +:+ s) = String.substring 0 n s.
Proof. induction a as [|c a IH]; [done|]. rewrite sapp_cons. cbn. apply IH. Qed.

Lemma substring_take m s : String.substring 0 (String.length m) (m +:+ s) = m.
Proof. induction m as [|c m IH]; [by destruct s|]. rewrite sapp_cons. cbn. by rewrite IH. Qed.

Lemma substring_all s : String.substring 0 (String.length s) s = s.
Proof. induction s as [|c s IH]; cbn; [done|]. by rewrite IH. Qed.

(** A text cut in two. *)
Lemma substring_cut n s : (n <= String.length s)%nat ->
  s = String.substring 0 n s +:+ String.substring n (String.length s - n) s /\
  String.length (String.substring 0 n s) = n /\
  String.length (String.substring n (String.length s - n) s) = (String.length s - n)%nat.
Proof.
  revert s. induction n as [|n IH]; intros s Hn.
  - rewrite Nat.sub_0_r, substring_all. split_and!; [by destruct s|by destruct s|done].
  - destruct s as [|c s]; cbn in *; [lia|]. destruct (IH s ltac:(lia)) as (H1 & H2 & H3).
    rewrite sapp_cons, <- H1, H2. done.
Qed.

(** ** Association lists as dictionaries *)

Section dict.
Context {V : Type}.

Fixpoint dict_get (k : string) (d : list (string * V)) : option V :=
  match d with
  | [] => None
  | (k', v) :: d' => if String.eqb k k' then Some v else dict_get k d'
  end.

Definition dict_mem (k : string) (d : list (string * V)) : bool :=
  match dict_get k d with Some _ => true | None => false end.

(** [d[k] = v]: in place for a known key, at the end for a new one. *)
Fixpoint dict_set (k : string) (v : V) (d : list (string * V)) : list (string * V) :=
  match d with
  | [] => [(k, v)]
  | (k', v') :: d' =>
      if String.eqb k k' then (k', v) :: d' else (k', v') :: dict_set k v d'
  end.

(** [d.update(u)] *)
Definition dict_update (d u : list (string * V)) : list (string * V) :=
  fold_left (fun acc kv => dict_set kv.1 kv.2 acc) u d.

Lemma dict_get_set_eq k v d : dict_get k (dict_set k v d) = Some v.
Proof.
  induction d as [|[k' v'] d IH]; cbn; [by rewrite String.eqb_refl|].
  destruct (String.eqb k k') eqn:E; cbn; rewrite E; [done|apply IH].
Qed.

Lemma dict_get_set_ne k k' v d : k <> k' -> dict_get k (dict_set k' v d) = dict_get k d.
Proof.
  intros Hne. induction d as [|[k'' v''] d IH]; cbn.
  - by apply String.eqb_neq in Hne as ->.
  - destruct (String.eqb k' k'') eqn:E; cbn.
    + apply String.eqb_eq in E as <-. by apply String.eqb_neq in Hne as ->.
    + by rewrite IH.
Qed.

Lemma dict_get_set k k' v d :
  dict_get k (dict_set k' v d) = if String.eqb k k' then Some v else dict_get k d.
Proof.
  destruct (String.eqb k k') eqn:E; bools; subst;
    [apply dict_get_set_eq | by apply dict_get_set_ne].
Qed.

Lemma dict_get_app k (d e : list (string * V)) :
  dict_get k (d ++ e) = match dict_get k d with Some v => Some v | None => dict_get k e end.
Proof.
  induction d as [|[k' v'] d IH]; cbn; [done|]. by destruct (String.eqb k k').
Qed.

Lemma dict_get_absent k d : k ∉ map fst d -> dict_get k d = None.
Proof.
  induction d as [|[k' v'] d IH]; cbn; [done|]. intros Hk. apply not_elem_of_cons in Hk as [Hne Hk].
  apply String.eqb_neq in Hne as ->. by apply IH.
Qed.

Lemma dict_set_new k (v : V) d : dict_get k d = None -> dict_set k v d = d ++ [(k, v)].
Proof.
  induction d as [|[k' v'] d IH]; cbn; [done|]. destruct (String.eqb k k'); [done|].
  intros H. by rewrite IH.
Qed.

Lemma dict_get_none k d : dict_get k d = None -> k ∉ map fst d.
Proof.
  induction d as [|[k' v'] d IH]; cbn; intros Hg Hin; [by apply not_elem_of_nil in Hin|].
  destruct (String.eqb k k') eqn:E; [discriminate|]. bools.
  apply elem_of_cons in Hin as [->|Hin]; [done|by apply IH].
Qed.

Lemma dict_get_update_ne k d u :
  k ∉ map fst u -> dict_get k (dict_update d u) = dict_get k d.
Proof.
  unfold dict_update. revert d. induction u as [|[k' v] u IH]; intros d Hk; cbn in *; [done|].
  apply not_elem_of_cons in Hk as [Hne Hk]. rewrite IH by done. by apply dict_get_set_ne.
Qed.

Lemma dict_get_const k (v : V) keys :
  k ∉ keys -> dict_get k (map (fun key => (key, v)) keys) = None.
Proof.
  induction keys as [|k' keys IH]; intros Hk; cbn; [done|].
  apply not_elem_of_cons in Hk as [Hne Hk]. apply String.eqb_neq in Hne as ->. by apply IH.
Qed.
End dict.

(** ** Binary64 *)

Abbreviation float := spec_float (only parsing).
Definition prec : Z := 53.
Definition emax : Z := 1024.

Definition f_sub : float -> float -> float := SFsub prec emax.
Definition f_mul : float -> float -> float := SFmul prec emax.

(** The binary64 number nearest to [n / d] (ties to even). *)
Definition float_of_ratio (n : Z) (d : positive) : float :=
  match n with
  | Z0 => S754_zero false
  | Zpos p => SFdiv prec emax (S754_finite false p 0) (S754_finite false d 0)
  | Zneg p => SFdiv prec emax (S754_finite true p 0) (S754_finite false d 0)
  end.
Definition float_of_Z (z : Z) : float := float_of_ratio z 1.

(** [float(z)] of an [int]. *)
Definition int_to_float (z : Z) : result py_exn float :=
  match float_of_Z z with
  | S754_infinity _ => Err OverflowError
  | f => Ok f
  end.

(** A finite float as a ratio of integers. *)
Definition float_ratio (m : positive) (e : Z) : Z * positive :=
  match e with
  | Zneg p => (Zpos m, Pos.pow 2 p)
  | _ => (Zpos m * 2 ^ e, 1%positive)
  end.

(** [n / d] to the nearest integer, ties to even. *)
Definition round_half_even (n : Z) (d : positive) : Z :=
  let q := n / Zpos d in
  let r := n mod Zpos d in
  if 2 * r <? Zpos d then q
  else if Zpos d <? 2 * r then q + 1
  else if Z.even q then q else q + 1.

Definition signed_float (neg : bool) (n : Z) (d : positive) : float :=
  if n =? 0 then S754_zero neg
  else if neg then SFopp (float_of_ratio n d) else float_of_ratio n d.

(** [round(x, 2)] of a float: the float nearest to the decimal nearest to the
    exact value of [x], ties to even. *)
Definition round2 (x : float) : float :=
  match x with
  | S754_finite s m e =>
      let '(n, d) := float_ratio m e in
      signed_float s (round_half_even (n * 100) d) 100
  | _ => x
  end.

(** ** Decimal printing *)

Definition str_of_Z (z : Z) : string := pretty z.

Fixpoint repeat_string (n : nat) (s : string) : string :=
  match n with O => "" | S n' => s +:+ repeat_string n' s end.

Fixpoint decimal_exponent_aux (fuel : nat) (n d : Z) (k : Z) : Z :=
  match fuel with
  | O => k
  | S fuel' =>
      if d <=? n then decimal_exponent_aux fuel' n (d * 10) (k + 1)
      else if n * 10 <? d then decimal_exponent_aux fuel' (n * 10) d (k - 1)
      else k
  end.
(** The [k] with [10^(k-1) <= n/d < 10^k]; 400 steps cover every binary64 value
    (decimal exponents between -323 and 309). *)
Definition decimal_exponent (n d : Z) : Z := decimal_exponent_aux 400 n d 0.

(** [n * 10^k] as a ratio. *)
Definition scale10 (n : Z) (d : positive) (k : Z) : Z * positive :=
  match k with
  | Zneg p => (n, Pos.mul d (Pos.pow 10 p))
  | _ => (n * 10 ^ k, d)
  end.

Fixpoint shortest_aux (fuel : nat) (m : positive) (e : Z) (k : Z) (digits : Z) : Z * Z :=
  let '(n, d) := float_ratio m e in
  let '(sn, sd) := scale10 n d (digits - k) in
  let c := round_half_even sn sd in
  match fuel with
  | O => (c, k - digits)
  | S fuel' =>
      let '(cn, cd) := scale10 c 1 (k - digits) in
      if SFeqb (float_of_ratio cn cd) (S754_finite false m e) then (c, k - digits)
      else shortest_aux fuel' m e k (digits + 1)
  end.

(** Shortest decimal [c * 10^q] that reads back as the float; 17 digits suffice. *)
Definition shortest_decimal (m : positive) (e : Z) : Z * Z :=
  let '(n, d) := float_ratio m e in
  shortest_aux 16 m e (decimal_exponent n (Zpos d)) 1.

Fixpoint strip_zeros (fuel : nat) (c : Z) : Z :=
  match fuel with
  | O => c
  | S fuel' => if (c mod 10 =? 0) && negb (c =? 0) then strip_zeros fuel' (c / 10) else c
  end.

Definition format_digits (digits : string) (decpt : Z) : string :=
  let len := slen digits in
  if (-4 <? decpt) && (decpt <=? 16) then
    if decpt <=? 0 then "0." +:+ repeat_string (Z.to_nat (- decpt)) "0" +:+ digits
    else if len <=? decpt then digits +:+ repeat_string (Z.to_nat (decpt - len)) "0" +:+ ".0"
    else String.substring 0 (Z.to_nat decpt) digits +:+ "."
         +:+ String.substring (Z.to_nat decpt) (Z.to_nat (len - decpt)) digits
  else
    let x := decpt - 1 in
    let mantissa :=
      if len =? 1 then digits
      else String.substring 0 1 digits +:+ "." +:+ String.substring 1 (Z.to_nat (len - 1)) digits in
    let ax := Z.abs x in
    mantissa +:+ "e" +:+ (if x <? 0 then "-" else "+")
      +:+ (if ax <? 10 then "0" else "") +:+ str_of_Z ax.

(** [repr(x)] of a float. *)
Definition float_repr (x : float) : string :=
  match x with
  | S754_zero s => if s then "-0.0" else "0.0"
  | S754_infinity s => if s then "-inf" else "inf"
  | S754_nan => "nan"
  | S754_finite s m e =>
      let '(c, q) := shortest_decimal m e in
      let digits := str_of_Z (strip_zeros 20 c) in
      let decpt := slen (str_of_Z c) + q in
      (if s then "-" else "") +:+ format_digits digits decpt
  end.

Example float_repr_30 : float_repr (round2 (f_mul (float_of_Z 40) (f_sub (float_of_Z 1) (float_of_ratio 25 100)))) = "30.0".
Proof. vm_compute. reflexivity. Qed.
Example float_repr_small : float_repr (float_of_ratio 1 10000000) = "1e-07".
Proof. vm_compute. reflexivity. Qed.
Example float_repr_tenth : float_repr (float_of_ratio 1 10) = "0.1".
Proof. vm_compute. reflexivity. Qed.
Example float_repr_third : float_repr (float_of_ratio 1 3) = "0.3333333333333333".
Proof. vm_compute. reflexivity. Qed.
Example float_repr_big : float_repr (float_of_Z (10 ^ 22)) = "1e+22".
Proof. vm_compute. reflexivity. Qed.
Example float_repr_sum : float_repr (SFadd prec emax (float_of_ratio 1 10) (float_of_ratio 2 10)) = "0.30000000000000004".
Proof. vm_compute. reflexivity. Qed.

(** ** JSON-like values *)

#[warnings="-register-all"]
Inductive json :=
| JNull
| JBool (b : bool)
| JInt (z : Z)
| JFloat (f : spec_float)
| JStr (s : string)
| JList (l : list json)
| JDict (d : list (string * json)).

(** Induction over values with hypotheses for the elements of lists and dicts. *)
Section json_ind.
Variable P : json -> Prop.
Hypothesis Hnull : P JNull.
Hypothesis Hbool : forall b, P (JBool b).
Hypothesis Hint_ : forall z, P (JInt z).
Hypothesis Hfloat : forall f, P (JFloat f).
Hypothesis Hstr : forall s, P (JStr s).
Hypothesis Hlist : forall l, Forall P l -> P (JList l).
Hypothesis Hdict : forall d, Forall (fun kv => P kv.2) d -> P (JDict d).

Fixpoint json_rect_nested (j : json) : P j :=
  match j with
  | JNull => Hnull
  | JBool b => Hbool b
  | JInt z => Hint_ z
  | JFloat f => Hfloat f
  | JStr s => Hstr s
  | JList l =>
      Hlist l ((fix go (l : list json) : Forall P l :=
                  match l with
                  | [] => Forall_nil_2 P
                  | x :: l' => Forall_cons_2 P x l' (json_rect_nested x) (go l')
                  end) l)
  | JDict d =>
      Hdict d ((fix go (d : list (string * json)) : Forall (fun kv => P kv.2) d :=
                  match d with
                  | [] => Forall_nil_2 _
                  | kv :: d' => Forall_cons_2 _ kv d' (json_rect_nested kv.2) (go d')
                  end) d)
  end.
End json_ind.

(** [bool(v)] *)
Definition truthy (v : json) : bool :=
  match v with
  | JNull => false
  | JBool b => b
  | JInt z => negb (z =? 0)
  | JFloat (S754_zero _) => false
  | JFloat _ => true
  | JStr s => negb (String.eqb s "")
  | JList l => match l with [] => false | _ => true end
  | JDict d => match d with [] => false | _ => true end
  end.

(** [a or b] *)
Definition py_or (a b : json) : json := if truthy a then a else b.

(** Numeric comparison between an exact integer and a float. *)
Definition Z_eq_float (z : Z) (f : float) : bool :=
  match f with
  | S754_zero _ => z =? 0
  | S754_finite s m e =>
      let '(n, d) := float_ratio m e in
      z * Zpos d =? (if s then - n else n)
  | _ => false
  end.

Definition Z_of_bool (b : bool) : Z := if b then 1 else 0.

(** [a == b] *)
Fixpoint py_eq (a b : json) {struct a} : bool :=
  match a, b with
  | JNull, JNull => true
  | JBool x, JBool y => Bool.eqb x y
  | JBool x, JInt z | JInt z, JBool x => Z_of_bool x =? z
  | JBool x, JFloat f | JFloat f, JBool x => Z_eq_float (Z_of_bool x) f
  | JInt x, JInt y => x =? y
  | JInt z, JFloat f | JFloat f, JInt z => Z_eq_float z f
  | JFloat x, JFloat y => SFeqb x y
  | JStr x, JStr y => String.eqb x y
  | JList x, JList y =>
      (fix go (x y : list json) : bool :=
         match x, y with
         | [], [] => true
         | a :: x', b :: y' => py_eq a b && go x' y'
         | _, _ => false
         end) x y
  | JDict x, JDict y =>
      Nat.eqb (length x) (length y) &&
      (fix go (x : list (string * json)) : bool :=
         match x with
         | [] => true
         | (k, v) :: x' =>
             match dict_get k y with Some w => py_eq v w | None => false end && go x'
         end) x
  | _, _ => false
  end.

Lemma py_eq_str v s : py_eq v (JStr s) = true -> v = JStr s.
Proof. destruct v; try done. cbn. intros H. bools. by subst. Qed.

(** Hashable values: what a [set] or a [dict] key may hold. *)
Definition hashable (v : json) : bool :=
  match v with JList _ | JDict _ => false | _ => true end.

(** [d[k]], raising [KeyError]. *)
Definition subscript (d : list (string * json)) (k : string) : result py_exn json :=
  match dict_get k d with Some v => Ok v | None => Err (KeyError k) end.
(** [d.get(k)], [None] when absent. *)
Definition get_or_none (d : list (string * json)) (k : string) : json :=
  match dict_get k d with Some v => v | None => JNull end.
(** [d.get(k, default)] *)
Definition get_default (d : list (string * json)) (k : string) (v : json) : json :=
  match dict_get k d with Some w => w | None => v end.

(** ** [str] and [repr] *)

Definition hex_char (n : Z) : ascii := if n <? 10 then chr (48 + n) else chr (87 + n).
Definition hex2 (n : Z) : string :=
  String (hex_char (n / 16)) (String (hex_char (n mod 16)) EmptyString).
Definition char_string (c : ascii) : string := String c EmptyString.

Fixpoint flat_string (f : ascii -> string) (s : string) : string :=
  match s with EmptyString => EmptyString | String c s' => f c +:+ flat_string f s' end.

Definition backslash : string := char_string (chr 92).

Definition repr_char (quote : Z) (c : ascii) : string :=
  let n := ascii_code c in
  if (n =? quote) || (n =? 92) then backslash +:+ char_string c
  else if n =? 10 then backslash +:+ "n"
  else if n =? 13 then backslash +:+ "r"
  else if n =? 9 then backslash +:+ "t"
  else if (n <? 32) || (127 <=? n) then backslash +:+ "x" +:+ hex2 n
  else char_string c.

Definition has_char (n : Z) (s : string) : bool :=
  negb (string_forallb (fun c => negb (is_char n c)) s).

(** [repr(s)]: single quotes unless the string has one and no double quote. *)
Definition str_repr (s : string) : string :=
  let quote := if has_char 39 s && negb (has_char 34 s) then 34 else 39 in
  char_string (chr quote) +:+ flat_string (repr_char quote) s +:+ char_string (chr quote).

Fixpoint join (sep : string) (l : list string) : string :=
  match l with
  | [] => ""
  | [x] => x
  | x :: l' => x +:+ sep +:+ join sep l'
  end.

Fixpoint py_repr (v : json) : string :=
  match v with
  | JNull => "None"
  | JBool b => if b then "True" else "False"
  | JInt z => str_of_Z z
  | JFloat f => float_repr f
  | JStr s => str_repr s
  | JList l => "[" +:+ join ", " (map py_repr l) +:+ "]"
  | JDict d => "{" +:+ join ", " (map (fun kv => str_repr kv.1 +:+ ": " +:+ py_repr kv.2) d) +:+ "}"
  end.

(** [str(v)], also what an f-string interpolates. *)
Definition py_str (v : json) : string :=
  match v with JStr s => s | _ => py_repr v end.

(** ** [json.dumps]: [ensure_ascii] and [sort_keys] are the two flags; a separator is
    a comma or a colon followed by [pad], which is one space by default and nothing
    for [separators=(",", ":")] *)

Definition json_char (ensure_ascii : bool) (c : ascii) : string :=
  let n := ascii_code c in
  if (n =? 34) || (n =? 92) then backslash +:+ char_string c
  else if n =? 10 then backslash +:+ "n"
  else if n =? 13 then backslash +:+ "r"
  else if n =? 9 then backslash +:+ "t"
  else if n =? 8 then backslash +:+ "b"
  else if n =? 12 then backslash +:+ "f"
  else if (n <? 32) || (ensure_ascii && (127 <=? n)) then backslash +:+ "u00" +:+ hex2 n
  else char_string c.

Definition dquote : string := char_string (chr 34).
Definition json_string (ensure_ascii : bool) (s : string) : string :=
  dquote +:+ flat_string (json_char ensure_ascii) s +:+ dquote.

Definition json_float (f : float) : string :=
  match f with
  | S754_infinity s => if s then "-Infinity" else "Infinity"
  | S754_nan => "NaN"
  | _ => float_repr f
  end.

Fixpoint insert_key {V : Type} (kv : string * V) (d : list (string * V)) : list (string * V) :=
  match d with
  | [] => [kv]
  | kv' :: d' => if String.leb kv.1 kv'.1 then kv :: d else kv' :: insert_key kv d'
  end.
(** Insertion sort by key, the order of [sort_keys=True]. *)
Definition sort_items {V : Type} (d : list (string * V)) : list (string * V) :=
  fold_right insert_key [] d.

Fixpoint json_text (pad : string) (ensure_ascii sort_keys : bool) (v : json) : string :=
  match v with
  | JNull => "null"
  | JBool b => if b then "true" else "false"
  | JInt z => str_of_Z z
  | JFloat f => json_float f
  | JStr s => json_string ensure_ascii s
  | JList l => "[" +:+ join ("," +:+ pad) (map (json_text pad ensure_ascii sort_keys) l) +:+ "]"
  | JDict d =>
      let items := map (fun kv => (kv.1, json_text pad ensure_ascii sort_keys kv.2)) d in
      let items := if sort_keys then sort_items items else items in
      "{" +:+ join ("," +:+ pad)
                (map (fun kv => json_string ensure_ascii kv.1 +:+ ":" +:+ pad +:+ kv.2) items) +:+ "}"
  end.

(** [json.dumps(v, separators=(",", ":"))] *)
Abbreviation json_dumps := (json_text "").
(** [json.dumps(v)] *)
Abbreviation json_dumps_default := (json_text " ").

Example dumps_sorted :
  json_dumps true true (JDict [("b", JList [JInt 1; JNull]); ("a", JStr "x/y")])
  = "{" +:+ dquote +:+ "a" +:+ dquote +:+ ":" +:+ dquote +:+ "x/y" +:+ dquote +:+ ","
    +:+ dquote +:+ "b" +:+ dquote +:+ ":[1,null]}".
Proof. vm_compute. reflexivity. Qed.

(** ** Arithmetic of the pricing expressions *)

(** The left operand of [v * f] for a float [f]. *)
Definition to_float_operand (v : json) : result py_exn float :=
  match v with
  | JInt z => int_to_float z
  | JBool b => int_to_float (Z_of_bool b)
  | JFloat f => Ok f
  | _ => Err TypeError
  end.

(** [v / 100] *)
Definition percent_fraction (v : json) : result py_exn float :=
  let of_int z := match float_of_ratio z 100 with
                  | S754_infinity _ => Err OverflowError
                  | f => Ok f
                  end in
  match v with
  | JInt z => of_int z
  | JBool b => of_int (Z_of_bool b)
  | JFloat f => Ok (SFdiv prec emax f (float_of_Z 100))
  | _ => Err TypeError
  end.

(** [v * f] *)
Definition mul_float (v : json) (f : float) : result py_exn float :=
  x ← to_float_operand v; Ok (f_mul x f).

(** [round(price * (1 - percent / 100), 2)] *)
Definition discounted_price (price percent : json) : result py_exn json :=
  f ← percent_fraction percent;
  p ← mul_float price (f_sub (float_of_Z 1) f);
  Ok (JFloat (round2 p)).

(** ** Word search: [re.search(r"\bword\b", s)] for a word that starts and ends with
    a word character *)

Definition is_word_char (c : ascii) : bool := is_alnum c || is_char 95 c.

Definition at_boundary (s : string) (n : nat) : bool :=
  match String.get n s with Some c => negb (is_word_char c) | None => true end.

Fixpoint search_word_from (prev_is_word : bool) (word s : string) : bool :=
  (negb prev_is_word && String.prefix word s && at_boundary s (String.length word))
  || match s with
     | EmptyString => false
     | String c s' => search_word_from (is_word_char c) word s'
     end.
Definition search_word (word s : string) : bool := search_word_from false word s.

Example search_word_ex :
  (search_word "send" "resend it", search_word "send" "please send.",
   search_word "change price" "do change price now") = (false, true, true).
Proof. vm_compute. reflexivity. Qed.

(** ** Patterns: a first character class and a class for [lo] to [hi] more *)

Definition fullmatch_class (first rest : ascii -> bool) (lo hi : Z) (s : string) : bool :=
  match s with
  | EmptyString => false
  | String c s' => first c && string_forallb rest s' && (lo <=? slen s') && (slen s' <=? hi)
  end.
(** [[class]{lo,hi}] *)
Definition fullmatch_chars (cls : ascii -> bool) (lo hi : Z) (s : string) : bool :=
  string_forallb cls s && (lo <=? slen s) && (slen s <=? hi).

Lemma slen_nonneg s : 0 <= slen s.
Proof. unfold slen. lia. Qed.

#[export] Hint Resolve slen_nonneg : core.

#[global] Arguments float_of_ratio : simpl never.
#[global] Arguments py_repr : simpl never.
#[global] Arguments json_text : simpl never.
