(* ===== verification/Sha256.v ===== *)
(** * SHA-256 ([hashlib.sha256(...).hexdigest()])

    The hash the code uses to bind packages, scopes and approvals, written out
    over 32-bit words as integers, so that digests in the model are the digests
    the program computes. *)

From S2P Require Import Prelude PyValue.

Module Sha256.

Definition w32 (x : Z) : Z := Z.land x 4294967295.
Definition add32 (x y : Z) : Z := w32 (x + y).
Definition rotr (n x : Z) : Z := Z.lor (Z.shiftr x n) (w32 (Z.shiftl x (32 - n))).

Definition ch (x y z : Z) : Z := Z.lxor (Z.land x y) (Z.land (Z.lxor x 4294967295) z).
Definition maj (x y z : Z) : Z :=
  Z.lxor (Z.lxor (Z.land x y) (Z.land x z)) (Z.land y z).
Definition big0 (x : Z) : Z := Z.lxor (Z.lxor (rotr 2 x) (rotr 13 x)) (rotr 22 x).
Definition big1 (x : Z) : Z := Z.lxor (Z.lxor (rotr 6 x) (rotr 11 x)) (rotr 25 x).
Definition small0 (x : Z) : Z := Z.lxor (Z.lxor (rotr 7 x) (rotr 18 x)) (Z.shiftr x 3).
Definition small1 (x : Z) : Z := Z.lxor (Z.lxor (rotr 17 x) (rotr 19 x)) (Z.shiftr x 10).

(** *** The constants, computed from their definition in FIPS 180-4 *)

Definition is_prime (n : Z) : bool :=
  forallb (fun k => negb (n mod (Z.of_nat k + 2) =? 0)) (seq 0 (Z.to_nat (Z.sqrt n) - 1)).
(** The first 64 primes, of the numbers from 2 to 311. *)
Definition primes : list Z := List.filter is_prime (map (fun k => Z.of_nat k + 2) (seq 0 310)).

(** The largest [r < 2^b] with [r^3 <= n], bit by bit. *)
Fixpoint cube_root (b : nat) (n r : Z) : Z :=
  match b with
  | O => r
  | S b' =>
      let r' := r + 2 ^ Z.of_nat b' in
      cube_root b' n (if r' * r' * r' <=? n then r' else r)
  end.

(** The first 32 bits of the fractional parts of the cube roots of the primes, and
    of the square roots of the first eight. *)
Definition K : list Z :=
  Eval vm_compute in map (fun p => w32 (cube_root 40 (Z.shiftl p 96) 0)) primes.
Definition H0 : list Z :=
  Eval vm_compute in map (fun p => w32 (Z.sqrt (Z.shiftl p 64))) (take 8 primes).

(** Message schedule: the last 16 words, newest first, produce the next one. *)
Definition next_word (win : list Z) : Z :=
  add32 (add32 (small1 (nth 1 win 0)) (nth 6 win 0))
        (add32 (small0 (nth 14 win 0)) (nth 15 win 0)).
Fixpoint extend (n : nat) (win : list Z) : list Z :=
  match n with O => win | S n' => extend n' (next_word win :: win) end.
Definition schedule (block : list Z) : list Z := rev (extend 48 (rev block)).

Record regs := Regs { ra : Z; rb : Z; rc : Z; rd : Z; re : Z; rf : Z; rg : Z; rh : Z }.

Definition round_step (r : regs) (kw : Z * Z) : regs :=
  let t1 := add32 (add32 (rh r) (big1 (re r)))
                  (add32 (ch (re r) (rf r) (rg r)) (add32 kw.1 kw.2)) in
  let t2 := add32 (big0 (ra r)) (maj (ra r) (rb r) (rc r)) in
  Regs (add32 t1 t2) (ra r) (rb r) (rc r) (add32 (rd r) t1) (re r) (rf r) (rg r).

Definition regs_of (h : list Z) : regs :=
  Regs (nth 0 h 0) (nth 1 h 0) (nth 2 h 0) (nth 3 h 0)
       (nth 4 h 0) (nth 5 h 0) (nth 6 h 0) (nth 7 h 0).
Definition list_of (r : regs) : list Z :=
  [ra r; rb r; rc r; rd r; re r; rf r; rg r; rh r].

Definition compress (h : list Z) (block : list Z) : list Z :=
  zip_with add32 h (list_of (fold_left round_step (zip K (schedule block)) (regs_of h))).

Definition be32 (l : list Z) : Z := fold_left (fun acc b => acc * 256 + b) l 0.

Fixpoint chunks {A : Type} (fuel n : nat) (l : list A) : list (list A) :=
  match fuel, l with
  | O, _ | _, [] => []
  | S fuel', _ => take n l :: chunks fuel' n (drop n l)
  end.

Fixpoint be_bytes (n : nat) (x : Z) : list Z :=
  match n with O => [] | S n' => be_bytes n' (x / 256) ++ [x mod 256] end.

Definition pad (msg : list Z) : list Z :=
  let len := Z.of_nat (length msg) in
  let zeros := Z.to_nat ((55 - len) mod 64) in
  msg ++ [128] ++ replicate zeros 0 ++ be_bytes 8 (8 * len).

Definition digest (msg : list Z) : list Z :=
  let padded := pad msg in
  let blocks := chunks (length padded) 64 padded in
  let words b := map be32 (chunks 16 4 b) in
  concat (map (be_bytes 4) (fold_left (fun h b => compress h (words b)) blocks H0)).

Definition bytes_of_string (s : string) : list Z :=
  map ascii_code (String.list_ascii_of_string s).

Definition hex (l : list Z) : string := fold_right (fun b s => hex2 b +:+ s) "" l.

(** [hashlib.sha256(s.encode()).hexdigest()] *)
Definition sha256_hex (s : string) : string := hex (digest (bytes_of_string s)).

Example sha256_empty :
  sha256_hex "" = "e3b0c44298fc1c149afbf4c8996fb92427ae41e4649b934ca495991b7852b855".
Proof. vm_compute. reflexivity. Qed.
Example sha256_abc :
  sha256_hex "abc" = "ba7816bf8f01cfea414140de5dae2223b00361a396177a9cb410ff61f20015ad".
Proof. vm_compute. reflexivity. Qed.

(** ** HMAC ([hmac.digest(key, msg, "sha256")]) for keys of any length *)

Definition hmac_key (key : list Z) : list Z :=
  let k := if 64 <? Z.of_nat (length key) then digest key else key in
  k ++ replicate (64 - length k) 0.

Definition hmac (key msg : list Z) : list Z :=
  let k := hmac_key key in
  digest (map (fun b => Z.lxor b 0x5c) k
          ++ digest (map (fun b => Z.lxor b 0x36) k ++ msg)).

Example hmac_ex :
  hex (hmac (bytes_of_string "key")
            (bytes_of_string "The quick brown fox jumps over the lazy dog"))
  = "f7bc83f430538424b13298e6aa6fb143ef4d59a14946175997479dbc2d1a3cd8".
Proof. vm_compute. reflexivity. Qed.

(** The length of a digest does not depend on the message. *)
Lemma length_be_bytes n x : length (be_bytes n x) = n.
Proof.
  revert x. induction n as [|n IH]; intros x; cbn; [done|].
  rewrite length_app, IH. cbn. lia.
Qed.

(** Digests and codes are lists of bytes. *)
Definition is_byte (b : Z) : bool := (0 <=? b) && (b <=? 255).

Lemma be_bytes_byte n x : forallb is_byte (be_bytes n x) = true.
Proof.
  revert x. induction n as [|n IH]; intros x; cbn; [done|]. rewrite forallb_app, IH. cbn.
  pose proof (Z.mod_pos_bound x 256 ltac:(lia)). unfold is_byte.
  destruct (Z.leb_spec 0 (x mod 256)), (Z.leb_spec (x mod 256) 255); cbn; lia.
Qed.

Lemma digest_bytes msg : forallb is_byte (digest msg) = true.
Proof.
  unfold digest. generalize (fold_left (fun h b => compress h (map be32 (chunks 16 4 b)))
    (chunks (length (pad msg)) 64 (pad msg)) H0). intros l.
  induction l as [|w l IH]; [done|]. cbn [map concat]. by rewrite forallb_app, be_bytes_byte, IH.
Qed.

Lemma hmac_bytes key msg : forallb is_byte (hmac key msg) = true.
Proof. apply digest_bytes. Qed.

End Sha256.

#[global] Opaque Sha256.sha256_hex Sha256.hmac.
