(* ===== verification/Engine.v ===== *)
(** * The deterministic package engine (backend/launchloop/engine.py)

    [prepare_package] turns one event revision (a [dict]) into the review-only
    campaign package (a [dict]).  The definitions follow the body of the Python
    function statement by statement; an f-string is [py_str] of its parts and a
    missing key or an operand of the wrong type raises. *)

From S2P Require Import Prelude PyValue.

Module Engine.

Definition REQUIRED_FIELDS : list string :=
  ["title"; "city"; "date"; "start_time"; "end_time"; "timezone"; "venue_name";
   "venue_address"; "access_instructions"; "general_ticket_price"; "signup_url"].

Definition AUDIENCES : list ((string * string) * json) :=
  [(("NY", "US"),
    JDict [("id", JStr "new_york_active_members");
           ("name", JStr "New York Active Members");
           ("member_count", JInt 418);
           ("language", JStr "English")])].

Definition SPONSOR_DISCOUNTS : list (string * Z) :=
  [("platinum", 25); ("gold", 25); ("silver", 15); ("bronze", 15)].

(** [access if str(access).endswith((".", "!", "?")) else f"{access}."] *)
Definition access_sentence (access : json) : string :=
  let s := py_str access in
  if endswith_char s "."%char || endswith_char s "!"%char || endswith_char s "?"%char
  then s else s +:+ ".".

Definition draft (event : list (string * json)) (kind : string) : result py_exn json :=
  let venue := py_or (get_or_none event "venue_name") (JStr "[Venue TBD]") in
  let address := py_or (get_or_none event "venue_address") (JStr "[Venue Address TBD]") in
  let access :=
    py_or (get_or_none event "access_instructions") (JStr "[Access Instructions TBD]") in
  title ← subscript event "title";
  date ← subscript event "date";
  start_time ← subscript event "start_time";
  end_time ← subscript event "end_time";
  timezone ← subscript event "timezone";
  signup_url ← subscript event "signup_url";
  Ok (JDict
    [("subject", JStr (kind +:+ ": " +:+ py_str title));
     ("body", JStr (py_str title +:+ " is scheduled for " +:+ py_str date +:+ " from "
        +:+ py_str start_time +:+ " to " +:+ py_str end_time +:+ " " +:+ py_str timezone
        +:+ " at " +:+ py_str venue +:+ ". "
        +:+ "Address: " +:+ py_str address +:+ ". Access: " +:+ access_sentence access
        +:+ " Register: " +:+ py_str signup_url))]).

(** [event.get(field) in ("", None)] *)
Definition is_blank (event : list (string * json)) (field : string) : bool :=
  let v := get_or_none event field in
  py_eq v (JStr "") || py_eq v JNull.

Definition missing_fields (event : list (string * json)) : list string :=
  filter (fun field => is_blank event field = true) REQUIRED_FIELDS.

(** [AUDIENCES.get((event.get("region"), event.get("country")))] *)
Definition audience_for (event : list (string * json)) : result py_exn (option json) :=
  let region := get_or_none event "region" in
  let country := get_or_none event "country" in
  if negb (hashable region && hashable country) then Err TypeError
  else Ok (match region, country with
           | JStr r, JStr c =>
               snd <$> List.find (fun kv => String.eqb kv.1.1 r && String.eqb kv.1.2 c) AUDIENCES
           | _, _ => None
           end).

Definition sponsor_tier (event : list (string * json)) : string :=
  lower (py_str (get_default event "sponsor_tier" (JStr ""))).

Definition expected_discount (event : list (string * json)) : option Z :=
  dict_get (sponsor_tier event) SPONSOR_DISCOUNTS.

Definition actual_discount (event : list (string * json)) : json :=
  get_or_none event "sponsor_discount_percent".

Definition sponsor_passed (event : list (string * json)) : bool :=
  match expected_discount event with
  | Some d => py_eq (JInt d) (actual_discount event)
  | None => false
  end.

Definition question (field : string) : json :=
  let prompts :=
    [("venue_name", "What is the confirmed venue name?");
     ("venue_address", "What is the complete venue address?");
     ("access_instructions",
      "What arrival or accessibility instructions should guests receive?")] in
  JDict [("field", JStr field);
         ("prompt", JStr match dict_get field prompts with
                         | Some p => p
                         | None => "What is the confirmed "
                                   +:+ replace_char "_"%char " "%char field +:+ "?"
                         end)].

Definition package_status (missing : list string) (audience : option json) (passed : bool)
  : string :=
  match missing with
  | _ :: _ => "needs_input"
  | [] => if negb (bool_decide (is_Some audience)) || negb passed then "blocked"
          else "ready_for_review"
  end.

Definition lane_status (status : string) : string :=
  let lane := if String.eqb status "ready_for_review" then "complete" else "needs_input" in
  if String.eqb status "blocked" then "blocked" else lane.

Definition default_audience : json :=
  JDict [("id", JNull); ("name", JStr "Clarification required");
         ("member_count", JInt 0); ("language", JStr "Unknown")].

Definition social_body (event : list (string * json)) : result py_exn string :=
  title ← subscript event "title";
  city ← subscript event "city";
  date ← subscript event "date";
  signup_url ← subscript event "signup_url";
  Ok ("Join us for " +:+ py_str title +:+ " in " +:+ py_str city +:+ " on " +:+ py_str date
      +:+ ". " +:+ "Venue: "
      +:+ py_str (py_or (get_or_none event "venue_name") (JStr "[Venue TBD]")) +:+ ". "
      +:+ "Register: " +:+ py_str signup_url).

Definition sponsor_ticket_price (event : list (string * json)) : result py_exn json :=
  match expected_discount event with
  | Some d => price ← subscript event "general_ticket_price"; discounted_price price (JInt d)
  | None => Ok JNull
  end.

Definition opt_json {A : Type} (f : A -> json) (o : option A) : json :=
  match o with Some a => f a | None => JNull end.

Definition lanes (missing : list string) (lane : string) (matched : bool) : json :=
  JDict
    [("event_readiness", JDict
       [("label", JStr "Event Readiness");
        ("status", JStr (match missing with [] => "complete" | _ => "needs_input" end));
        ("summary", JStr (match missing with
                          | [] => "All required event facts are grounded."
                          | _ => str_of_Z (Z.of_nat (length missing))
                                 +:+ " event facts need an operator response."
                          end))]);
     ("campaign_composer", JDict
       [("label", JStr "Campaign Composer");
        ("status", JStr lane);
        ("summary", JStr "Prepared invitation, reminder, and social drafts.")]);
     ("audience_policy", JDict
       [("label", JStr "Audience and Policy");
        ("status", JStr (if matched then "complete" else "blocked"));
        ("summary", JStr
          (if matched
           then "Matched the approved New York audience and validated sponsor pricing."
           else "Audience or sponsor policy needs human review."))])].

Definition evidence : json :=
  JList [JStr "Read one immutable event revision.";
         JStr "Matched only an approved geography-specific audience.";
         JStr "Recomputed sponsor discount math deterministically.";
         JStr "Prepared review-only drafts; no external action was taken."].

Definition prepare_package (event : list (string * json)) : result py_exn json :=
  let missing := missing_fields event in
  audience ← audience_for event;
  let passed := sponsor_passed event in
  let questions := map question missing in
  let status := package_status missing audience passed in
  let lane := lane_status status in
  invitation ← draft event "Invitation";
  reminder ← draft event "Reminder";
  social ← social_body event;
  price ← sponsor_ticket_price event;
  Ok (JDict
    [("status", JStr status);
     ("missing_fields", JList (map JStr missing));
     ("questions", JList questions);
     ("assets", JDict [("invitation", invitation); ("reminder", reminder);
                       ("social", JDict [("body", JStr social)])]);
     ("audience", match audience with Some a => py_or a default_audience
                                    | None => default_audience end);
     ("sponsor", JDict
       [("passed", JBool passed);
        ("tier", JStr (sponsor_tier event));
        ("expected_discount_percent", opt_json JInt (expected_discount event));
        ("actual_discount_percent", actual_discount event);
        ("general_ticket_price", get_or_none event "general_ticket_price");
        ("sponsor_ticket_price", price)]);
     ("lanes", lanes missing lane
        (match audience with Some a => truthy a | None => false end && passed));
     ("evidence", evidence)]).

End Engine.
