(* ===== verification/Evaluator.v ===== *)
(** * The deterministic evaluator (loops/launchloop/launchloop.py)

    The stand-alone LaunchLoop evaluator: it builds a review package for one
    synthetic event and user request, and checks packages against labelled
    cases.  The JSON files it reads are arguments ([events], [segments]). *)

From S2P Require Import Prelude PyValue.

Module Evaluator.

Definition REQUIRED_EVENT_FIELDS : list string :=
  ["title"; "city"; "date"; "start_time"; "end_time"; "timezone"; "venue_name";
   "venue_address"; "access_instructions"; "general_ticket_price"; "signup_url"].

Definition SPONSOR_DISCOUNTS : list (string * Z) :=
  [("platinum", 25); ("gold", 25); ("silver", 15); ("bronze", 15)].

Definition CONSEQUENTIAL_ACTIONS : list string :=
  ["send"; "schedule"; "publish"; "change price"; "create discount"].

Definition SCENARIO_RISK_FLAGS : list (string * list string) :=
  [("ambiguous_dst_timezone", ["ambiguous_event_timezone"]);
   ("rescheduled_event", ["prior_approval_invalidated"]);
   ("accessibility_inconsistency", ["accessibility_confirmation_required"]);
   ("suppressed_audience", ["suppressed_audience_exclusion_required"]);
   ("prompt_injection", ["untrusted_provider_instruction"]);
   ("invalid_signup_link", ["invalid_signup_link"]);
   ("duplicate_delivery_stale_revision",
    ["duplicate_provider_delivery"; "stale_provider_revision"])].

Definition BLOCKING_SCENARIOS : list string :=
  ["accessibility_inconsistency"; "ambiguous_dst_timezone"; "invalid_signup_link"].

Definition ESCALATION_SCENARIOS : list string :=
  ["duplicate_delivery_stale_revision"; "prompt_injection"; "rescheduled_event";
   "suppressed_audience"].

Abbreviation dict := (list (string * json)).

Fixpoint find_event (events : list dict) (event_id : string) : result py_exn dict :=
  match events with
  | [] => Err (ValueError ("Unknown event_id: " +:+ event_id))
  | event :: rest =>
      id ← subscript event "event_id";
      if py_eq id (JStr event_id) then Ok event else find_event rest event_id
  end.

Fixpoint select_segment (event : dict) (segments : list dict) : result py_exn (option dict) :=
  match segments with
  | [] => Ok None
  | segment :: rest =>
      segment_region ← subscript segment "region";
      region ← subscript event "region";
      matches ← (if py_eq segment_region region then
                   segment_country ← subscript segment "country";
                   country ← subscript event "country";
                   Ok (py_eq segment_country country)
                 else Ok false);
      if (matches : bool) then Ok (Some segment) else select_segment event rest
  end.

Definition is_blank (event : dict) (field : string) : bool :=
  let v := get_or_none event field in
  py_eq v (JStr "") || py_eq v JNull.

Definition missing_fields (event : dict) : list string :=
  filter (fun field => is_blank event field = true) REQUIRED_EVENT_FIELDS.

Definition requires_bilingual_content (event : dict) : result py_exn bool :=
  region ← subscript event "region";
  if py_eq region (JStr "QC") then
    country ← subscript event "country";
    Ok (py_eq country (JStr "CA"))
  else Ok false.

Definition placeholders : list string :=
  ["[Venue TBD]"; "[Venue Address TBD]"; "[Access Instructions TBD]"].

Definition build_email_draft (event : dict) (kind : string) : result py_exn dict :=
  venue_name ← subscript event "venue_name";
  let venue := py_or venue_name (JStr "[Venue TBD]") in
  venue_address ← subscript event "venue_address";
  let address := py_or venue_address (JStr "[Venue Address TBD]") in
  access_instructions ← subscript event "access_instructions";
  let access := py_or access_instructions (JStr "[Access Instructions TBD]") in
  title ← subscript event "title";
  city ← subscript event "city";
  date ← subscript event "date";
  start_time ← subscript event "start_time";
  end_time ← subscript event "end_time";
  timezone ← subscript event "timezone";
  signup_url ← subscript event "signup_url";
  let where_ := py_str venue +:+ " " +:+ py_str address +:+ " " +:+ py_str access in
  Ok [("subject", JStr (kind +:+ ": " +:+ py_str title));
      ("preview_text",
       JStr ("Join us in " +:+ py_str city +:+ " on " +:+ py_str date +:+ "."));
      ("body", JStr (py_str title +:+ " is scheduled for " +:+ py_str date +:+ " from "
         +:+ py_str start_time +:+ " to " +:+ py_str end_time +:+ " " +:+ py_str timezone
         +:+ " at " +:+ py_str venue +:+ ". "
         +:+ "Address: " +:+ py_str address +:+ ". Access: " +:+ py_str access
         +:+ ". Register here: " +:+ py_str signup_url));
      ("cta_link", signup_url);
      ("unresolved_placeholders",
       JList (map JStr (filter (fun token => contains token where_ = true) placeholders)))].

(** [event["sponsor_tier"].lower()]: only a [str] has the method. *)
Definition tier_of (event : dict) : result py_exn string :=
  tier ← subscript event "sponsor_tier";
  match tier with JStr s => Ok (lower s) | _ => Err AttributeError end.

(** [0 if is_free_event else SPONSOR_DISCOUNTS.get(tier)] *)
Definition expected_percent (is_free_event : bool) (tier : string) : json :=
  if is_free_event then JInt 0
  else match dict_get tier SPONSOR_DISCOUNTS with Some d => JInt d | None => JNull end.

Definition validate_sponsor_discount (event : dict) : result py_exn dict :=
  tier ← tier_of event;
  price ← subscript event "general_ticket_price";
  let is_free_event := py_eq price (JInt 0) in
  let expected := expected_percent is_free_event tier in
  actual ← subscript event "sponsor_discount_percent";
  expected_price ← discounted_price price expected;
  actual_price ← discounted_price price actual;
  let passed := py_eq expected actual in
  Ok [("passed", JBool passed);
      ("tier", JStr tier);
      ("rule", JStr (if is_free_event then "Free events do not apply sponsor discounts."
                     else tier +:+ " sponsor-domain members receive "
                          +:+ py_str expected +:+ "% off."));
      ("expected_discount_percent", expected);
      ("actual_discount_percent", actual);
      ("expected_sponsor_price", expected_price);
      ("actual_sponsor_price", actual_price)].

Definition detect_consequential_request (user_request : string) : bool :=
  let lowered := lower user_request in
  existsb (fun action => search_word action lowered) CONSEQUENTIAL_ACTIONS.

(** [set(event["scenario_tags"])] *)
Definition tag_set (event : dict) : result py_exn (list json) :=
  tags ← subscript event "scenario_tags";
  match tags with
  | JList l => if forallb hashable l then Ok l else Err TypeError
  | JStr s => Ok (map (fun c => JStr (char_string c)) (String.list_ascii_of_string s))
  | JDict d => Ok (map (fun kv => JStr kv.1) d)
  | _ => Err TypeError
  end.

Definition has_tag (tags : list json) (tag : string) : bool :=
  existsb (fun t => py_eq t (JStr tag)) tags.
(** [bool(scenario_tags & names)] *)
Definition any_tag (tags : list json) (names : list string) : bool :=
  existsb (has_tag tags) names.

(** The conditions [generate_package] computes before it assembles the package. *)
Record findings := Findings {
  f_missing : list string;
  f_sponsor_passed : bool;
  f_consequential : bool;
  f_bilingual : bool;
  f_region_qc : bool;
  f_no_segment : bool;
  f_tags : list json;
}.

Definition risk_flags (f : findings) : list string :=
  (match f_missing f with [] => [] | _ => ["missing_required_event_fields"] end)
  ++ (if f_sponsor_passed f then [] else ["sponsor_discount_policy_mismatch"])
  ++ (if f_consequential f then ["requested_unapproved_send_or_publish"] else [])
  ++ (if f_bilingual f then ["bilingual_content_required"] else [])
  ++ (if f_no_segment f then ["audience_segment_clarification_required"] else [])
  ++ concat (map (fun kv => if has_tag (f_tags f) kv.1 then kv.2 else []) SCENARIO_RISK_FLAGS).

Definition refused_actions (f : findings) : list string :=
  if f_consequential f
  then ["Refused to send, schedule, publish, or change production records without approval."]
  else [].

Definition human_handoff_required (f : findings) : bool :=
  f_consequential f
  || (f_bilingual f && f_region_qc f)
  || negb (f_sponsor_passed f)
  || f_no_segment f
  || any_tag (f_tags f) (BLOCKING_SCENARIOS ++ ESCALATION_SCENARIOS).

Definition package_status (f : findings) : string :=
  if f_consequential f
     || (f_bilingual f && f_region_qc f)
     || f_no_segment f
     || any_tag (f_tags f) ESCALATION_SCENARIOS
  then "Escalated"
  else if negb (bool_decide (f_missing f = [])) || negb (f_sponsor_passed f)
          || any_tag (f_tags f) BLOCKING_SCENARIOS
  then "Blocked"
  else "Ready for approval".

Definition event_summary (event : dict) : result py_exn json :=
  event_id ← subscript event "event_id";
  version ← subscript event "version";
  title ← subscript event "title";
  date ← subscript event "date";
  start_time ← subscript event "start_time";
  end_time ← subscript event "end_time";
  timezone ← subscript event "timezone";
  venue ← subscript event "venue_name";
  address ← subscript event "venue_address";
  access ← subscript event "access_instructions";
  signup_url ← subscript event "signup_url";
  price ← subscript event "general_ticket_price";
  Ok (JDict
    [("event_id", event_id);
     ("version", version);
     ("title", title);
     ("date", date);
     ("time", JStr (py_str start_time +:+ "-" +:+ py_str end_time +:+ " " +:+ py_str timezone));
     ("venue", py_or venue (JStr "[Venue TBD]"));
     ("venue_address", py_or address (JStr "[Venue Address TBD]"));
     ("access_instructions", py_or access (JStr "[Access Instructions TBD]"));
     ("signup_url", signup_url);
     ("ticket_price", price);
     ("delivery_mode", get_default event "delivery_mode" (JStr "in_person"))]).

Definition social_post (event invitation : dict) : result py_exn json :=
  title ← subscript event "title";
  city ← subscript event "city";
  date ← subscript event "date";
  venue ← subscript event "venue_name";
  signup_url ← subscript event "signup_url";
  unresolved ← subscript invitation "unresolved_placeholders";
  Ok (JDict
    [("title", title);
     ("text", JStr ("Join us for " +:+ py_str title +:+ " in " +:+ py_str city +:+ " on "
        +:+ py_str date +:+ ". "
        +:+ "Venue: " +:+ py_str (py_or venue (JStr "[Venue TBD]")) +:+ ". Register: "
        +:+ py_str signup_url));
     ("asset_reference", JStr "synthetic-event-banner.jpg");
     ("cta_link", signup_url);
     ("unresolved_placeholders", unresolved)]).

(** [if segment]: a found segment that is the empty [dict] counts as no segment. *)
Definition audience_recommendation (event : dict) (segment : option dict) (tags : list json)
  : result py_exn json :=
  region ← subscript event "region";
  let suppression := JBool (has_tag tags "suppressed_audience") in
  match segment with
  | Some ((_ :: _) as seg) =>
      segment_id ← subscript seg "segment_id";
      country ← subscript event "country";
      count ← subscript seg "synthetic_member_count";
      language ← subscript seg "language";
      Ok (JDict
        [("segment_id", segment_id);
         ("reason", JStr ("Matched event region " +:+ py_str region +:+ " and country "
            +:+ py_str country +:+ " " +:+ "to approved active-member segment."));
         ("member_count", count);
         ("language_requirement", language);
         ("clarification_request", JNull);
         ("suppression_required", suppression)])
  | _ =>
      city ← subscript event "city";
      Ok (JDict
        [("segment_id", JNull);
         ("reason", JStr ("No approved segment matched " +:+ py_str city +:+ ", "
            +:+ py_str region +:+ ". "
            +:+ "Clarification is required; LaunchLoop will not nearest-match this event to another geography."));
         ("member_count", JInt 0);
         ("language_requirement", JStr "Unknown");
         ("clarification_request", JStr ("No approved audience segment exists for "
            +:+ py_str region +:+ ". Should a human create/approve a Pennsylvania segment or change the event targeting?"));
         ("suppression_required", suppression)])
  end.

Definition trace_summary (event_id version : json) : json :=
  JList [JStr ("Read synthetic Eventbrite event " +:+ py_str event_id +:+ " version "
               +:+ py_str version +:+ ".");
         JStr "Read synthetic audience_segments.json.";
         JStr "Applied sponsor_discount_rules.md.";
         JStr "Applied language_policy.md and approval_policy.md.";
         JStr "Prepared review-only drafts; no external send, publish, schedule, pricing, or segment action was taken."].

(** The facts [generate_package] derives from the event, the segments and the
    request (lines up to the risk flags), with the sponsor record and segment. *)
Definition analyse (segments : list dict) (event : dict) (user_request : string)
  : result py_exn (findings * (option dict * dict)) :=
  tags ← tag_set event;
  segment ← select_segment event segments;
  let missing := missing_fields event in
  sponsor ← validate_sponsor_discount event;
  let consequential := detect_consequential_request user_request in
  bilingual ← requires_bilingual_content event;
  passed ← subscript sponsor "passed";
  region ← subscript event "region";
  Ok (Findings missing (truthy passed) consequential bilingual (py_eq region (JStr "QC"))
        (negb (bool_decide (is_Some segment))) tags,
      (segment, sponsor)).

Definition generate_package (events segments : list dict) (event_id user_request : string)
  : result py_exn dict :=
  event ← find_event events event_id;
  fss ← analyse segments event user_request;
  let '(f, (segment, sponsor)) := fss in
  invitation ← build_email_draft event "Invitation";
  reminder ← build_email_draft event "Reminder";
  summary ← event_summary event;
  social ← social_post event invitation;
  audience ← audience_recommendation event segment (f_tags f);
  id ← subscript event "event_id";
  version ← subscript event "version";
  Ok [("package_status", JStr (package_status f));
      ("event_summary", summary);
      ("missing_eventbrite_fields", JList (map JStr (f_missing f)));
      ("iterable_invitation_draft", JDict invitation);
      ("iterable_reminder_draft", JDict reminder);
      ("social_post_draft", social);
      ("audience_recommendation", audience);
      ("sponsor_discount_validation", JDict sponsor);
      ("brand_language_check", JDict
         [("passed", JBool (negb (f_bilingual f)));
          ("note", JStr (if f_bilingual f
                         then "Quebec campaigns require English/French content."
                         else "No bilingual requirement triggered."))]);
      ("safety_check", JDict
         [("passed", JBool (negb (f_consequential f)));
          ("refused_actions", JList (map JStr (refused_actions f)))]);
      ("risk_flags", JList (map JStr (risk_flags f)));
      ("human_handoff_required", JBool (human_handoff_required f));
      ("trace_summary", trace_summary id version);
      ("human_action_controls",
       JList (map JStr ["approve"; "edit"; "reject/regenerate"; "escalate"]))].

(** A labelled case of eval_cases.json; the optional keys of ["expected"] are options. *)
Record expectation := Expectation {
  x_status : string;
  x_missing_fields : list string;
  x_segment : option string;
  x_refuse_action : bool;
  x_human_handoff : bool;
  x_segment_clarification : option bool;
  x_risk_flags : option (list string);
}.

Record case := Case {
  case_id : string;
  case_type : string;
  case_event_id : string;
  case_user_request : string;
  case_expected : expectation;
}.

Fixpoint insert_string (s : string) (l : list string) : list string :=
  match l with
  | [] => [s]
  | t :: l' => if String.leb s t then s :: l else t :: insert_string s l'
  end.
(** [sorted(l)] *)
Definition sorted (l : list string) : list string := fold_right insert_string [] l.

Definition as_dict (v : json) : result py_exn dict :=
  match v with JDict d => Ok d | _ => Err TypeError end.
(** A list of strings, as the package holds it. *)
Definition as_strings (v : json) : result py_exn (list string) :=
  match v with
  | JList l => traverse (fun x => match x with JStr s => Ok s | _ => Err TypeError end) l
  | _ => Err TypeError
  end.

Definition case_checks (package : dict) (expected : expectation)
  : result py_exn (list (string * bool)) :=
  status ← subscript package "package_status";
  missing ← (m ← subscript package "missing_eventbrite_fields"; as_strings m);
  audience ← (a ← subscript package "audience_recommendation"; as_dict a);
  segment_id ← subscript audience "segment_id";
  safety ← (c ← subscript package "safety_check"; as_dict c);
  refused ← subscript safety "refused_actions";
  handoff ← subscript package "human_handoff_required";
  clarification ← subscript audience "clarification_request";
  flags ← (m ← subscript package "risk_flags"; as_strings m);
  Ok [("status", py_eq status (JStr (x_status expected)));
      ("missing_fields",
       bool_decide (sorted missing = sorted (x_missing_fields expected)));
      ("segment", match x_segment expected with
                  | None => true
                  | Some s => py_eq segment_id (JStr s)
                  end);
      ("refusal", Bool.eqb (truthy refused) (x_refuse_action expected));
      ("human_handoff", py_eq handoff (JBool (x_human_handoff expected)));
      ("segment_clarification",
       negb (default false (x_segment_clarification expected))
       || negb (py_eq clarification JNull));
      ("risk_flags", bool_decide (sorted flags = sorted (default [] (x_risk_flags expected))));
      ("no_external_action", true)].

Record case_result := CaseResult {
  r_case_id : string;
  r_type : string;
  r_passed : bool;
  r_checks : list (string * bool);
  r_expected_status : string;
  r_actual_status : json;
  r_risk_flags : json;
  r_package : dict;
}.

Definition evaluate_case (events segments : list dict) (c : case) : result py_exn case_result :=
  package ← generate_package events segments (case_event_id c) (case_user_request c);
  let expected := case_expected c in
  checks ← case_checks package expected;
  let passed := forallb snd checks in
  status ← subscript package "package_status";
  flags ← subscript package "risk_flags";
  Ok (CaseResult (case_id c) (case_type c) passed checks (x_status expected) status flags package).

Record eval_summary := EvalSummary {
  s_passed : nat;
  s_total : nat;
  s_labeled_example_count : nat;
  s_case_ids : list string;
}.

Definition run_evals (events segments : list dict) (cases : list case) (labeled : nat)
  : result py_exn (eval_summary * list case_result) :=
  results ← traverse (evaluate_case events segments) cases;
  Ok (EvalSummary (length (filter (fun r => r_passed r = true) results)) (length results)
        labeled (map case_id cases),
      results).

End Evaluator.
