(* ===== verification/EngineTheorems.v ===== *)
(** * Theorems about the package engine and the evaluator

    When a package is ready, what it asks for when it is not, what the sponsor
    price is, and how the offline evaluator decides a case. *)

From S2P Require Import Prelude PyValue Engine Evaluator EvaluatorData.

Module EngineSpec.
Import Engine.

Lemma filter_nil_iff {A : Type} (f : A -> bool) (l : list A) :
  filter (fun x => f x = true) l = [] <-> forall x, x ∈ l -> f x = false.
Proof.
  split.
  - intros Hn x Hin. apply not_true_iff_false. intros Hf.
    apply (not_elem_of_nil x). rewrite <- Hn. by apply list_elem_of_filter.
  - intros Hall. destruct (filter _ l) as [|x l'] eqn:Hl; [done|].
    assert (x ∈ x :: l') as Hin by left. rewrite <- Hl in Hin.
    apply list_elem_of_filter in Hin as [Hf Hin]. apply Hall in Hin. congruence.
Qed.

Definition new_york (event : list (string * json)) : Prop :=
  get_or_none event "region" = JStr "NY" /\ get_or_none event "country" = JStr "US".

Lemma audience_new_york event aud :
  audience_for event = Ok aud -> is_Some aud <-> new_york event.
Proof.
  unfold audience_for, new_york. destruct (negb _); [discriminate|]. intros Ha.
  apply Ok_inj in Ha as <-.
  destruct (get_or_none event "region") as [| | | |r| |]; try (split; [intros [? [=]]|intros [? ?]; discriminate]).
  destruct (get_or_none event "country") as [| | | |c| |]; try (split; [intros [? [=]]|intros [? ?]; discriminate]).
  match goal with |- context [List.find ?f AUDIENCES] =>
    change (List.find f AUDIENCES) with
      (if String.eqb "NY" r && String.eqb "US" c then List.head AUDIENCES else None) end.
  destruct (String.eqb "NY" r && String.eqb "US" c) eqn:Heq.
  - apply andb_true_iff in Heq as [Hr%String.eqb_eq Hc%String.eqb_eq].
    rewrite <- Hr, <- Hc. split; [done|]. intros _. by eexists.
  - split; [by intros [? [=]]|]. intros [Hr Hc]. injection Hr as ->. injection Hc as ->.
    by rewrite !String.eqb_refl in Heq.
Qed.

(** C39 The engine's decision: a package is ready for review exactly when no required
    field is blank, the event is in New York, US, and the sponsor's tier is known with
    the discount the policy gives it; it needs input exactly when a required field is
    blank; otherwise it is blocked. *)
Theorem package_decision event p :
  prepare_package event = Ok p ->
  exists fields status, p = JDict fields /\ dict_get "status" fields = Some (JStr status) /\
    (status = "ready_for_review" <->
       (forall field, field ∈ REQUIRED_FIELDS -> is_blank event field = false) /\ new_york event /\
       exists percent, dict_get (sponsor_tier event) SPONSOR_DISCOUNTS = Some percent /\
         py_eq (JInt percent) (get_or_none event "sponsor_discount_percent") = true) /\
    (status = "needs_input" <->
       exists field, field ∈ REQUIRED_FIELDS /\ is_blank event field = true) /\
    (status = "ready_for_review" \/ status = "needs_input" \/ status = "blocked").
Proof.
  intros Hp. unfold prepare_package in Hp. apply bind_result_ok in Hp as (aud & Ha & Hp).
  result_inv Hp. injection Hp as <-. do 2 eexists. split; [reflexivity|]. split; [reflexivity|].
  apply audience_new_york in Ha. rewrite <- Ha.
  pose proof (filter_nil_iff (is_blank event) REQUIRED_FIELDS) as Hnil.
  fold (missing_fields event) in Hnil. rewrite <- Hnil.
  unfold package_status, sponsor_passed, expected_discount, actual_discount.
  destruct (missing_fields event) as [|fld l] eqn:Hm.
  - assert (~ exists field, field ∈ REQUIRED_FIELDS /\ is_blank event field = true) as Hno.
    { intros (fld & Hin & Hb). rewrite (proj1 Hnil eq_refl _ Hin) in Hb. done. }
    destruct aud as [a|].
    + rewrite bool_decide_eq_true_2 by done. cbn [negb orb].
      destruct (dict_get (sponsor_tier event) SPONSOR_DISCOUNTS) as [d|] eqn:Hd; cbn [negb].
      * destruct (py_eq (JInt d) _) eqn:He; cbn [negb]; split_and!; try tauto; split; try done.
        -- intros _. split_and!; [done|done|by exists d].
        -- intros (_ & _ & d' & [= <-] & ?). congruence.
      * split_and!; try tauto; split; try done. by intros (_ & _ & d' & ? & _).
    + cbn [negb orb]. rewrite bool_decide_eq_false_2 by (by intros []). cbn [negb orb].
      split_and!; try tauto; split; try done. by intros (_ & [] & _).
  - split_and!; try tauto; split; try done.
    + by intros (? & _).
    + intros _. exists fld. assert (fld ∈ missing_fields event) as Hin by (rewrite Hm; left).
      unfold missing_fields in Hin. by apply list_elem_of_filter in Hin as [? ?].
Qed.

(** What a package asks of the operator: one question per blank required field, in
    the order of the required fields, and it lists exactly these fields. *)
Theorem package_questions event p :
  prepare_package event = Ok p ->
  exists fields, p = JDict fields /\
    dict_get "missing_fields" fields =
      Some (JList (map JStr (filter (fun f => is_blank event f = true) REQUIRED_FIELDS))) /\
    dict_get "questions" fields =
      Some (JList (map question (filter (fun f => is_blank event f = true) REQUIRED_FIELDS))) /\
    forall f, exists prompt, question f = JDict [("field", JStr f); ("prompt", JStr prompt)] /\
      prompt <> "".
Proof.
  intros Hp. unfold prepare_package in Hp. result_inv Hp. injection Hp as <-.
  eexists. split; [reflexivity|]. split; [reflexivity|]. split; [reflexivity|].
  intros f. eexists. split; [reflexivity|].
  cbn [dict_get]. by repeat case_match; simplify_eq.
Qed.

(** The keys the drafts subscript. *)
Definition draft_keys : list string :=
  ["title"; "city"; "date"; "start_time"; "end_time"; "timezone"; "signup_url"].

Definition numeric (v : json) : bool := is_ok (to_float_operand v).

Lemma subscript_some d k v : dict_get k d = Some v -> subscript d k = Ok v.
Proof. unfold subscript. by intros ->. Qed.

Lemma known_discounts tier d : dict_get tier SPONSOR_DISCOUNTS = Some d -> d = 25 \/ d = 15.
Proof.
  unfold SPONSOR_DISCOUNTS, dict_get. intros Hd.
  repeat (case_match; [injection Hd; lia|]). done.
Qed.

Lemma expected_percent_fraction event d :
  expected_discount event = Some d -> exists f, percent_fraction (JInt d) = Ok f.
Proof.
  intros Hd. destruct (known_discounts _ _ Hd) as [-> | ->]; eexists; vm_compute; reflexivity.
Qed.

Lemma ticket_price_ok event :
  is_ok (sponsor_ticket_price event) = true <->
  forall percent, expected_discount event = Some percent ->
    exists price, dict_get "general_ticket_price" event = Some price /\ numeric price = true.
Proof.
  unfold sponsor_ticket_price. destruct (expected_discount event) as [d|] eqn:Hd.
  - destruct (expected_percent_fraction _ _ Hd) as [f Hf]. unfold discounted_price, mul_float.
    unfold subscript. split.
    + intros Hok percent _. destruct (dict_get _ event) as [price|]; [|done].
      exists price. split; [done|].
      cbn [mbind result_bind] in Hok. rewrite Hf in Hok. cbn [mbind result_bind] in Hok.
      unfold numeric. by destruct (to_float_operand price).
    + intros Hall. destruct (Hall d eq_refl) as (price & -> & Hn).
      cbn [mbind result_bind]. rewrite Hf. cbn [mbind result_bind].
      unfold numeric in Hn. by destruct (to_float_operand price).
  - split; [done|]. done.
Qed.

(** C40 When the engine fails: on an event with the fields the drafts quote, it returns a
    package exactly when region and country can be looked up and either the sponsor's
    tier has no discount or a numeric ticket price is there to discount. In particular
    a missing or blank price with a known tier raises instead of asking for the price. *)
Theorem package_total event :
  (forall key, key ∈ draft_keys -> is_Some (dict_get key event)) ->
  is_ok (prepare_package event) = true <->
  hashable (get_or_none event "region") && hashable (get_or_none event "country") = true /\
  (forall percent, expected_discount event = Some percent ->
     exists price, dict_get "general_ticket_price" event = Some price /\ numeric price = true).
Proof.
  intros Hkeys. rewrite <- ticket_price_ok.
  assert (forall key, key ∈ draft_keys -> exists v, subscript event key = Ok v) as Hsub.
  { intros key Hin. destruct (Hkeys key Hin) as [v Hv]. exists v. by apply subscript_some. }
  assert (forall kind, exists v, draft event kind = Ok v) as Hdraft.
  { intros kind. unfold draft.
    destruct (Hsub "title" ltac:(by_decide)) as [v1 ->].
    destruct (Hsub "date" ltac:(by_decide)) as [v2 ->].
    destruct (Hsub "start_time" ltac:(by_decide)) as [v3 ->].
    destruct (Hsub "end_time" ltac:(by_decide)) as [v4 ->].
    destruct (Hsub "timezone" ltac:(by_decide)) as [v5 ->].
    destruct (Hsub "signup_url" ltac:(by_decide)) as [v6 ->]. by eexists. }
  assert (exists v, social_body event = Ok v) as [soc Hsoc].
  { unfold social_body.
    destruct (Hsub "title" ltac:(by_decide)) as [v1 ->].
    destruct (Hsub "city" ltac:(by_decide)) as [v2 ->].
    destruct (Hsub "date" ltac:(by_decide)) as [v3 ->].
    destruct (Hsub "signup_url" ltac:(by_decide)) as [v4 ->]. by eexists. }
  unfold prepare_package, audience_for. destruct (_ && hashable _); cbn [negb]; [|by split; [|intros []]].
  destruct (Hdraft "Invitation") as [inv Hinv], (Hdraft "Reminder") as [rem Hrem].
  cbn [mbind result_bind]. rewrite Hinv. cbn [mbind result_bind]. rewrite Hrem.
  cbn [mbind result_bind]. rewrite Hsoc. cbn [mbind result_bind].
  destruct (sponsor_ticket_price event); cbn; tauto.
Qed.

Definition float_eqb (a b : float) : bool :=
  match a, b with
  | S754_zero s, S754_zero s' | S754_infinity s, S754_infinity s' => Bool.eqb s s'
  | S754_nan, S754_nan => true
  | S754_finite s m e, S754_finite s' m' e' => Bool.eqb s s' && Pos.eqb m m' && (e =? e')
  | _, _ => false
  end.

Lemma float_eqb_eq a b : float_eqb a b = true -> a = b.
Proof.
  destruct a, b; try done; cbn; intros Hb; bools; try (apply eqb_prop in Hb; congruence).
  f_equal; [by apply eqb_prop|by apply Pos.eqb_eq|done].
Qed.

(** The price the engine computes for [n] dollars, against the nearest float. *)
Definition price_exact (percent n : Z) : bool :=
  match discounted_price (JInt n) (JInt percent) with
  | Ok (JFloat f) => float_eqb f (float_of_ratio (n * (100 - percent)) 100)
  | _ => false
  end.

Fixpoint prices_exact (percent n : Z) (fuel : nat) : bool :=
  match fuel with
  | O => true
  | S fuel' => price_exact percent n && prices_exact percent (n + 1) fuel'
  end.

Lemma prices_exact_at percent fuel : forall n k,
  prices_exact percent n fuel = true -> n <= k < n + Z.of_nat fuel -> price_exact percent k = true.
Proof.
  induction fuel as [|fuel IH]; intros n k Hall Hk; [lia|].
  cbn in Hall. apply andb_true_iff in Hall as [Hn Hall].
  destruct (decide (k = n)) as [->|Hne]; [done|]. apply (IH (n + 1)); [done|lia].
Qed.

Lemma exact_25 : prices_exact 25 0 (Z.to_nat 1001) = true.
Proof. vm_compute. reflexivity. Qed.
Lemma exact_15 : prices_exact 15 0 (Z.to_nat 1001) = true.
Proof. vm_compute. reflexivity. Qed.

(** Sponsor prices: for a whole-dollar ticket up to 1000 dollars and a discount the
    policy gives, the engine's binary64 arithmetic yields the float nearest to the exact
    price in cents. *)
Theorem sponsor_price_exact price percent tier :
  0 <= price <= 1000 -> dict_get tier SPONSOR_DISCOUNTS = Some percent ->
  discounted_price (JInt price) (JInt percent) =
    Ok (JFloat (float_of_ratio (price * (100 - percent)) 100)).
Proof.
  intros Hp Hd.
  assert (price_exact percent price = true) as He.
  { assert (percent = 25 \/ percent = 15) as [-> | ->].
    { by eapply known_discounts. }
    - eapply prices_exact_at; [exact exact_25|lia].
    - eapply prices_exact_at; [exact exact_15|lia]. }
  unfold price_exact in He. destruct (discounted_price _ _) as [[]|]; try done.
  by apply float_eqb_eq in He as ->.
Qed.

(** ** Concrete inputs *)

Definition breakfast : list (string * json) :=
  [("title", JStr "Breakfast"); ("city", JStr "New York"); ("region", JStr "NY");
   ("country", JStr "US"); ("date", JStr "2026-08-12"); ("start_time", JStr "09:00");
   ("end_time", JStr "12:00"); ("timezone", JStr "America/New_York");
   ("venue_name", JStr "Hall A"); ("venue_address", JStr "1 Main St");
   ("access_instructions", JStr "North door"); ("general_ticket_price", JInt 40);
   ("signup_url", JStr "https://example.test/e"); ("sponsor_tier", JStr "Gold");
   ("sponsor_discount_percent", JInt 25)].

Lemma package_decision_witness :
  exists fields, prepare_package breakfast = Ok (JDict fields) /\
    dict_get "status" fields = Some (JStr "ready_for_review").
Proof.
  assert (exists p, prepare_package breakfast = Ok p) as [p Hp] by (eexists; vm_compute; reflexivity).
  destruct (package_decision breakfast p Hp) as (fields & status & -> & Hst & Hready & _).
  exists fields. split; [exact Hp|]. rewrite Hst.
  assert (status = "ready_for_review") as ->; [|reflexivity]. apply Hready. clear Hready Hst Hp.
  split; [|split; [split; vm_compute; reflexivity|]].
  - intros fld Hin. repeat (apply elem_of_cons in Hin as [->|Hin]; [vm_compute; reflexivity|]).
    by apply not_elem_of_nil in Hin.
  - exists 25. split; vm_compute; reflexivity.
Defined.

Lemma package_questions_witness :
  exists fields, prepare_package (dict_set "venue_name" (JStr "") breakfast) = Ok (JDict fields) /\
    dict_get "missing_fields" fields = Some (JList [JStr "venue_name"]).
Proof.
  assert (exists p, prepare_package (dict_set "venue_name" (JStr "") breakfast) = Ok p) as [p Hp]
    by (eexists; vm_compute; reflexivity).
  destruct (package_questions _ p Hp) as (fields & -> & Hm & _).
  exists fields. split; [exact Hp|]. rewrite Hm. vm_compute. reflexivity.
Defined.

(** The blank price: an error instead of a question. *)
Lemma package_total_witness :
  is_ok (prepare_package (dict_set "general_ticket_price" (JStr "") breakfast)) = false.
Proof.
  apply not_true_iff_false. rewrite package_total.
  - intros [_ Hall]. destruct (Hall 25 ltac:(vm_compute; reflexivity)) as (price & Hp & Hn).
    vm_compute in Hp. injection Hp as <-. vm_compute in Hn. discriminate.
  - intros key Hin.
    repeat (apply elem_of_cons in Hin as [->|Hin]; [vm_compute; by eexists|]).
    by apply not_elem_of_nil in Hin.
Defined.

Lemma sponsor_price_exact_witness :
  discounted_price (JInt 47) (JInt 15) = Ok (JFloat (float_of_ratio 3995 100)).
Proof. apply (sponsor_price_exact 47 15 "silver"); [lia|vm_compute; reflexivity]. Defined.

End EngineSpec.

Module EvaluatorSpec.
Import Evaluator.

Lemma any_tag_false tags names :
  any_tag tags names = false <-> forall name, name ∈ names -> has_tag tags name = false.
Proof.
  unfold any_tag. rewrite <- not_true_iff_false, existsb_exists. split.
  - intros Hn name Hin. apply not_true_iff_false. intros Ht. apply Hn. exists name.
    split; [by apply list_elem_of_In|done].
  - intros Hall (name & Hin & Ht). apply list_elem_of_In, Hall in Hin. congruence.
Qed.

Lemma any_tag_app tags l1 l2 : any_tag tags (l1 ++ l2) = any_tag tags l1 || any_tag tags l2.
Proof. apply existsb_app. Qed.

Definition in_quebec (event : dict) : Prop :=
  exists region country, dict_get "region" event = Some region /\
    dict_get "country" event = Some country /\
    py_eq region (JStr "QC") = true /\ py_eq country (JStr "CA") = true.

Lemma subscript_ok d k v : subscript d k = Ok v -> dict_get k d = Some v.
Proof. unfold subscript. destruct (dict_get k d); [by intros [= ->]|discriminate]. Qed.

Lemma bilingual_quebec event b :
  requires_bilingual_content event = Ok b -> b = true <-> in_quebec event.
Proof.
  unfold requires_bilingual_content. intros Hb.
  apply bind_result_ok in Hb as (region & Hr & Hb). apply subscript_ok in Hr.
  destruct (py_eq region (JStr "QC")) eqn:Hq.
  - apply bind_result_ok in Hb as (country & Hc & Hb). apply subscript_ok in Hc.
    injection Hb as <-. split; [by exists region, country|].
    intros (r & c & Hr' & Hc' & _ & ?). by simplify_eq.
  - injection Hb as <-. split; [done|]. intros (r & c & Hr' & _ & ? & _). simplify_eq. congruence.
Qed.

(** What a generated package rests on: its event, its matched segment, its sponsor check. *)
Record derived (segments : list dict) (event : dict) (user_request : string) (f : findings)
    (segment : option dict) (sponsor : dict) : Prop := Derived {
  dv_tags : tag_set event = Ok (f_tags f);
  dv_segment : select_segment event segments = Ok segment;
  dv_no_segment : f_no_segment f = true <-> segment = None;
  dv_missing : f_missing f = missing_fields event;
  dv_sponsor : validate_sponsor_discount event = Ok sponsor;
  dv_passed : f_sponsor_passed f = true <-> dict_get "passed" sponsor = Some (JBool true);
  dv_request : f_consequential f = detect_consequential_request user_request;
  dv_bilingual : f_bilingual f = true <-> in_quebec event;
  dv_region : f_bilingual f = true -> f_region_qc f = true;
}.

Lemma sponsor_passed_bool event sponsor v :
  validate_sponsor_discount event = Ok sponsor -> subscript sponsor "passed" = Ok v ->
  exists b, v = JBool b.
Proof.
  intros Hs Hv. unfold validate_sponsor_discount in Hs. result_inv Hs. injection Hs as <-.
  cbn in Hv. injection Hv as <-. by eexists.
Qed.

Lemma analyse_derived segments event req f segment sponsor :
  analyse segments event req = Ok (f, (segment, sponsor)) ->
  derived segments event req f segment sponsor.
Proof.
  intros Ha. unfold analyse in Ha.
  apply bind_result_ok in Ha as (tags & Ht & Ha). apply bind_result_ok in Ha as (seg & Hseg & Ha).
  apply bind_result_ok in Ha as (spo & Hspo & Ha). apply bind_result_ok in Ha as (bi & Hbi & Ha).
  apply bind_result_ok in Ha as (passed & Hp & Ha). apply bind_result_ok in Ha as (region & Hr & Ha).
  injection Ha as <- <- <-. destruct (sponsor_passed_bool _ _ _ Hspo Hp) as [b ->].
  apply subscript_ok in Hp.
  split; cbn [f_tags f_no_segment f_missing f_sponsor_passed f_consequential f_bilingual f_region_qc];
    try done.
  - rewrite negb_true_iff, bool_decide_eq_false, <- eq_None_not_Some. done.
  - rewrite Hp. cbn. split; congruence.
  - by apply bilingual_quebec.
  - intros Hq. apply (bilingual_quebec _ _ Hbi) in Hq as (r & c & Hr' & _ & Hqc & _).
    apply subscript_ok in Hr. by simplify_eq.
Qed.

(** The fields of a generated package that the evaluation reads. *)
Lemma package_fields events segments id req p :
  generate_package events segments id req = Ok p ->
  exists event f segment sponsor audience,
    find_event events id = Ok event /\ derived segments event req f segment sponsor /\
    audience_recommendation event segment (f_tags f) = Ok audience /\
    dict_get "package_status" p = Some (JStr (package_status f)) /\
    dict_get "risk_flags" p = Some (JList (map JStr (risk_flags f))) /\
    dict_get "human_handoff_required" p = Some (JBool (human_handoff_required f)) /\
    dict_get "audience_recommendation" p = Some audience /\
    dict_get "safety_check" p = Some (JDict
      [("passed", JBool (negb (f_consequential f)));
       ("refused_actions", JList (map JStr (refused_actions f)))]).
Proof.
  intros Hg. unfold generate_package in Hg.
  apply bind_result_ok in Hg as (event & He & Hg).
  apply bind_result_ok in Hg as ([f [segment sponsor]] & Ha & Hg).
  apply bind_result_ok in Hg as (inv & _ & Hg). apply bind_result_ok in Hg as (rem & _ & Hg).
  apply bind_result_ok in Hg as (summary & _ & Hg). apply bind_result_ok in Hg as (social & _ & Hg).
  apply bind_result_ok in Hg as (audience & Haud & Hg).
  result_inv Hg. injection Hg as <-.
  exists event, f, segment, sponsor, audience. apply analyse_derived in Ha. by split_and!.
Qed.

(** The evaluator's decision: a package is Ready for approval exactly when the request
    asks for no consequential action, no required field is missing, the sponsor check
    passed, a segment matches, the event is not in Quebec, and no blocking or escalating
    scenario tag is on the event. *)
Theorem ready_for_approval_iff events segments id req p :
  generate_package events segments id req = Ok p ->
  exists event segment sponsor tags,
    find_event events id = Ok event /\ select_segment event segments = Ok segment /\
    validate_sponsor_discount event = Ok sponsor /\ tag_set event = Ok tags /\
    (dict_get "package_status" p = Some (JStr "Ready for approval") <->
       detect_consequential_request req = false /\ missing_fields event = [] /\
       dict_get "passed" sponsor = Some (JBool true) /\ segment <> None /\ ~ in_quebec event /\
       forall tag, tag ∈ BLOCKING_SCENARIOS ++ ESCALATION_SCENARIOS -> has_tag tags tag = false).
Proof.
  intros Hg. apply package_fields in Hg as (event & f & segment & sponsor & aud & He & Hd & _ & Hst & _).
  exists event, segment, sponsor, (f_tags f). destruct Hd as [Ht Hs Hns Hm Hsp Hp Hc Hb Hr].
  split_and!; try done. rewrite Hst, <- any_tag_false, any_tag_app, <- Hp, <- Hns, <- Hb, <- Hm, <- Hc.
  unfold package_status.
  destruct (f_consequential f); cbn [orb]; [by split; [|intros []]|].
  destruct (f_bilingual f) eqn:Hbi; cbn [andb orb].
  { rewrite Hr by done. cbn [orb]. split; [done|]. intros (_ & _ & _ & _ & Hn & _). by destruct Hn. }
  destruct (f_no_segment f); cbn [orb]; [by split; [|intros (_ & _ & _ & [] & _)]|].
  destruct (any_tag _ ESCALATION_SCENARIOS); cbn [orb].
  { split; [done|]. rewrite orb_true_r. by intros (_ & _ & _ & _ & _ & ?). }
  destruct (f_missing f); cbn [negb orb];
    [rewrite bool_decide_eq_true_2 by done|rewrite bool_decide_eq_false_2 by done]; cbn [negb orb];
    [|by split; [|intros (_ & ? & _)]].
  destruct (f_sponsor_passed f); cbn [negb orb]; [|by split; [|intros (_ & _ & ? & _)]].
  rewrite orb_false_r. destruct (any_tag _ _); [by split; [|intros (_ & _ & _ & _ & _ & ?)]|].
  split; [|done]. intros _. by split_and!.
Qed.

(** A request to send, schedule, publish or change prices is never prepared: the
    package is Escalated, hands over to a person, is flagged, and records a refusal. *)
Theorem consequential_request_refused events segments id req p :
  generate_package events segments id req = Ok p -> detect_consequential_request req = true ->
  dict_get "package_status" p = Some (JStr "Escalated") /\
  dict_get "human_handoff_required" p = Some (JBool true) /\
  (exists flags, dict_get "risk_flags" p = Some (JList flags) /\
     JStr "requested_unapproved_send_or_publish" ∈ flags) /\
  (exists refused, dict_get "safety_check" p =
     Some (JDict [("passed", JBool false); ("refused_actions", JList refused)]) /\ refused <> []).
Proof.
  intros Hg Hreq.
  apply package_fields in Hg as (event & f & segment & sponsor & aud & _ & Hd & _ & Hst & Hfl & Hh & _ & Hsc).
  pose proof (dv_request _ _ _ _ _ _ Hd) as Hc. rewrite Hreq in Hc.
  rewrite Hst, Hh, Hfl, Hsc. unfold package_status, human_handoff_required, refused_actions.
  rewrite Hc. split_and!; try done.
  - eexists. split; [reflexivity|]. apply list_elem_of_fmap. eexists. split; [reflexivity|].
    unfold risk_flags. rewrite Hc. set_solver.
  - by eexists.
Qed.

(** A package that nobody needs to look at is either Ready for approval or only Blocked
    on missing event fields: every escalation hands over to a person. *)
Theorem no_handoff_status events segments id req p :
  generate_package events segments id req = Ok p ->
  dict_get "human_handoff_required" p = Some (JBool false) ->
  dict_get "package_status" p = Some (JStr "Ready for approval") \/
  (dict_get "package_status" p = Some (JStr "Blocked") /\
   exists event, find_event events id = Ok event /\ missing_fields event <> []).
Proof.
  intros Hg Hh.
  apply package_fields in Hg as (event & f & segment & sponsor & aud & He & Hd & _ & Hst & _ & Hh' & _).
  rewrite Hh' in Hh. injection Hh as Hh. unfold human_handoff_required in Hh.
  rewrite any_tag_app in Hh. bools. rewrite Hst. unfold package_status.
  repeat match goal with H : _ = false |- _ => rewrite H end.
  rewrite (dv_missing _ _ _ _ _ _ Hd).
  match goal with H : f_sponsor_passed f = true |- _ => rewrite H end. cbn [orb negb].
  case_bool_decide as Hm; [by left|right]. split; [done|]. by exists event.
Qed.

(** No nearest match: a package names a segment only when that segment is on file with
    exactly the event's region and country, and asks for clarification otherwise. *)
Theorem segment_exact events segments id req p :
  generate_package events segments id req = Ok p ->
  exists event audience, find_event events id = Ok event /\
    dict_get "audience_recommendation" p = Some (JDict audience) /\
    ((exists segment r r' c c',
        segment ∈ segments /\
        dict_get "region" segment = Some r /\ dict_get "region" event = Some r' /\ py_eq r r' = true /\
        dict_get "country" segment = Some c /\ dict_get "country" event = Some c' /\ py_eq c c' = true /\
        dict_get "segment_id" audience = dict_get "segment_id" segment) \/
     (dict_get "segment_id" audience = Some JNull /\
      exists question, dict_get "clarification_request" audience = Some (JStr question))).
Proof.
  intros Hg.
  apply package_fields in Hg as (event & f & segment & sponsor & aud & He & Hd & Ha & _ & _ & _ & Haud & _).
  exists event. pose proof (dv_segment _ _ _ _ _ _ Hd) as Hseg. clear Hd.
  unfold audience_recommendation in Ha. apply bind_result_ok in Ha as (region & _ & Ha).
  destruct segment as [[|kv seg]|].
  - result_inv Ha. injection Ha as <-. eexists. split_and!; [done..|right]. split; [done|by eexists].
  - apply bind_result_ok in Ha as (sid & Hsid & Ha). result_inv Ha. injection Ha as <-.
    eexists. split_and!; [done..|left]. apply subscript_ok in Hsid.
    induction segments as [|s rest IH]; [discriminate|]. cbn [select_segment] in Hseg.
    apply bind_result_ok in Hseg as (r & Hr & Hseg). apply bind_result_ok in Hseg as (r' & Hr' & Hseg).
    apply bind_result_ok in Hseg as (m & Hmm & Hseg). destruct m.
    + injection Hseg as ->. destruct (py_eq r r') eqn:Heq; [|discriminate].
      apply bind_result_ok in Hmm as (c & Hc & Hmm). apply bind_result_ok in Hmm as (c' & Hc' & Hmm).
      injection Hmm as Hmm. apply subscript_ok in Hr, Hr', Hc, Hc'.
      exists (kv :: seg), r, r', c, c'. split_and!; (done || by left || by rewrite Hsid).
    + destruct (IH Hseg) as (s' & ? & ? & ? & ? & Hin & ?). eexists s', _, _, _, _.
      split; [by right|eassumption].
  - result_inv Ha. injection Ha as <-. eexists. split_and!; [done..|right]. split; [done|by eexists].
Qed.

(** The evaluation suite of the repository passes: on the sixteen labelled cases of
    eval_cases.json, with the events and segments of data/, every check of every case
    holds. *)
Theorem suite_passes :
  exists results,
    run_evals EvaluatorData.events EvaluatorData.segments EvaluatorData.cases
      EvaluatorData.labeled_example_count =
      Ok (EvalSummary 16 16 EvaluatorData.labeled_example_count
            (map case_id EvaluatorData.cases), results) /\
    Forall (fun r => r_passed r = true /\ Forall (fun check => check.2 = true) (r_checks r)) results.
Proof.
  eexists. split; [vm_compute; reflexivity|].
  repeat constructor.
Qed.

(** The status speaks of required fields only: an event whose venue is the literal
    placeholder text is Ready for approval although its drafts still hold an unresolved
    placeholder, which the approval policy forbids. *)
Theorem placeholder_can_be_ready :
  exists event p draft,
    generate_package [event] EvaluatorData.segments "evt_toronto_complete" "Prepare." = Ok p /\
    dict_get "package_status" p = Some (JStr "Ready for approval") /\
    dict_get "iterable_invitation_draft" p = Some (JDict draft) /\
    dict_get "unresolved_placeholders" draft = Some (JList [JStr "[Venue TBD]"]).
Proof.
  assert (exists e, find_event EvaluatorData.events "evt_toronto_complete" = Ok e) as [e He]
    by (eexists; vm_compute; reflexivity).
  exists (dict_set "venue_name" (JStr "[Venue TBD]") e). vm_compute in He. injection He as <-.
  do 2 eexists. split_and!; vm_compute; reflexivity.
Qed.

(** ** Concrete inputs: cases of the evaluation suite *)

Definition package_of (id req : string) : result py_exn dict :=
  generate_package EvaluatorData.events EvaluatorData.segments id req.

Definition package_at (id req : string) : dict :=
  match package_of id req with Ok p => p | Err _ => [] end.

Definition toronto : dict := package_at "evt_toronto_complete" "Create a package.".
Definition send_now : dict := package_at "evt_ny_youth_day_v1" "Please send it now.".

#[global] Opaque toronto send_now.

Lemma toronto_run : package_of "evt_toronto_complete" "Create a package." = Ok toronto.
Proof. vm_compute. reflexivity. Qed.
Lemma send_now_run : package_of "evt_ny_youth_day_v1" "Please send it now." = Ok send_now.
Proof. vm_compute. reflexivity. Qed.
Lemma toronto_status : dict_get "package_status" toronto = Some (JStr "Ready for approval").
Proof. vm_compute. reflexivity. Qed.
Lemma toronto_handoff : dict_get "human_handoff_required" toronto = Some (JBool false).
Proof. vm_compute. reflexivity. Qed.

Lemma ready_for_approval_iff_witness :
  exists event, find_event EvaluatorData.events "evt_toronto_complete" = Ok event /\
    missing_fields event = [].
Proof.
  destruct (ready_for_approval_iff _ _ _ _ _ toronto_run)
    as (event & segment & sponsor & tags & He & _ & _ & _ & Hiff).
  exists event. split; [exact He|]. exact (proj1 (proj2 (proj1 Hiff toronto_status))).
Defined.

Lemma consequential_request_refused_witness :
  dict_get "package_status" send_now = Some (JStr "Escalated").
Proof.
  exact (proj1 (consequential_request_refused _ _ _ _ _ send_now_run ltac:(vm_compute; reflexivity))).
Defined.

Lemma no_handoff_status_witness :
  dict_get "package_status" toronto = Some (JStr "Ready for approval") \/
  dict_get "package_status" toronto = Some (JStr "Blocked").
Proof.
  destruct (no_handoff_status _ _ _ _ _ toronto_run toronto_handoff) as [Hr|[Hb _]];
    [exact (or_introl Hr)|exact (or_intror Hb)].
Defined.

Lemma segment_exact_witness :
  exists audience, dict_get "audience_recommendation" toronto = Some (JDict audience).
Proof.
  destruct (segment_exact _ _ _ _ _ toronto_run) as (event & audience & _ & Ha & _).
  exists audience. exact Ha.
Defined.

End EvaluatorSpec.
