(* ===== verification/OwnerEvents.v ===== *)
(** * Public event facts of the owner (backend/launchloop/owner_events.py)

    [validate_facts] checks a partial record of public event facts;
    [prepare_owner_package] turns a revision's snapshot into the owner's
    content-readiness package.  The time-zone database is an argument (a class):
    it is data of the platform.  So is the address parser behind a bracketed
    URL host. *)

From S2P Require Import Prelude PyValue Engine.

Module OwnerEvents.

(** ** Calendar dates and wall-clock times *)

Definition digit_value (c : ascii) : option Z :=
  if is_digit c then Some (ascii_code c - 48) else None.

Fixpoint digits_value (acc : Z) (s : string) : option Z :=
  match s with
  | EmptyString => Some acc
  | String c s' => d ← digit_value c; digits_value (acc * 10 + d) s'
  end.
(** [n] decimal digits at position [i]. *)
Definition field_at (i n : nat) (s : string) : option Z :=
  digits_value 0 (String.substring i n s).

Definition is_leap (y : Z) : bool :=
  (y mod 4 =? 0) && (negb (y mod 100 =? 0) || (y mod 400 =? 0)).
Definition days_in_month (y m : Z) : Z :=
  if m =? 2 then (if is_leap y then 29 else 28)
  else if (m =? 4) || (m =? 6) || (m =? 9) || (m =? 11) then 30 else 31.

(** [date.fromisoformat(s)] followed by the test that [isoformat()] gives [s]
    back: exactly the dates written YYYY-MM-DD, of the years 1 to 9999. *)
Definition parse_date (s : string) : option (Z * Z * Z) :=
  if (String.length s =? 10)%nat
     && String.eqb (String.substring 4 1 s) "-" && String.eqb (String.substring 7 1 s) "-"
  then
    y ← field_at 0 4 s; m ← field_at 5 2 s; d ← field_at 8 2 s;
    if (1 <=? y) && (1 <=? m) && (m <=? 12) && (1 <=? d) && (d <=? days_in_month y m)
    then Some (y, m, d) else None
  else None.

(** [time.fromisoformat(s).strftime("%H:%M") == s]: exactly HH:MM. *)
Definition parse_time (s : string) : option (Z * Z) :=
  if (String.length s =? 5)%nat && String.eqb (String.substring 2 1 s) ":" then
    h ← field_at 0 2 s; m ← field_at 3 2 s;
    if (h <=? 23) && (m <=? 59) then Some (h, m) else None
  else None.

(** Days from 0001-01-01 (day 1), the proleptic ordinal of [datetime.toordinal]. *)
Definition days_before_year (y : Z) : Z :=
  let p := y - 1 in p * 365 + p / 4 - p / 100 + p / 400.
Fixpoint days_before_month (y : Z) (m : nat) : Z :=
  match m with
  | O | S O => 0
  | S m' => days_before_month y m' + days_in_month y (Z.of_nat m')
  end.
Definition ordinal (ymd : Z * Z * Z) : Z :=
  let '(y, m, d) := ymd in days_before_year y + days_before_month y (Z.to_nat m) + d.
(** A naive [datetime] as seconds since ordinal 0. *)
Definition wall_seconds (ymd : Z * Z * Z) (hm : Z * Z) : Z :=
  ordinal ymd * 86400 + hm.1 * 3600 + hm.2 * 60.
Definition min_seconds : Z := ordinal (1, 1, 1) * 86400.
Definition max_seconds : Z := ordinal (9999, 12, 31) * 86400 + 86399.

Example ordinal_ex : ordinal (2026, 8, 12) = 739840.
Proof. reflexivity. Qed.

(** ** URLs *)

Definition drop_string (n : nat) (s : string) : string :=
  String.substring n (String.length s - n) s.

(** The part before the first character satisfying [f], and from it on. *)
Fixpoint span (f : ascii -> bool) (s : string) : string * string :=
  match s with
  | EmptyString => (EmptyString, EmptyString)
  | String c s' =>
      if f c then (EmptyString, s) else let '(a, b) := span f s' in (String c a, b)
  end.
(** [s.partition(c)]: before, whether found, after. *)
Definition partition (c : ascii) (s : string) : string * bool * string :=
  match span (Ascii.eqb c) s with
  | (a, EmptyString) => (a, false, "")
  | (a, String _ b) => (a, true, b)
  end.
Fixpoint string_rev (s : string) : string :=
  match s with EmptyString => "" | String c s' => string_rev s' +:+ char_string c end.
(** [s.rpartition(c)]: before, whether found, after (the whole when not found). *)
Definition rpartition (c : ascii) (s : string) : string * bool * string :=
  match span (Ascii.eqb c) (string_rev s) with
  | (a, EmptyString) => ("", false, s)
  | (a, String _ b) => (string_rev b, true, string_rev a)
  end.

Definition is_scheme_char (c : ascii) : bool :=
  is_alnum c || is_char 43 c || is_char 45 c || is_char 46 c.
Definition is_alpha (c : ascii) : bool := is_upper c || is_lower c.

Fixpoint string_filter (f : ascii -> bool) (s : string) : string :=
  match s with
  | EmptyString => EmptyString
  | String c s' => if f c then String c (string_filter f s') else string_filter f s'
  end.
Fixpoint lstrip_control (s : string) : string :=
  match s with
  | String c s' => if ascii_code c <=? 32 then lstrip_control s' else s
  | EmptyString => s
  end.

Class Platform := {
  (** [ZoneInfo(key)]: absent, or the zone's [utcoffset] of a wall time with
      [fold], and the wall time of a UTC instant (both in seconds). *)
  zone_info : string -> option ((Z -> bool -> Z) * (Z -> Z));
  (** [ipaddress.ip_address(host)] accepts [host] as a v6 address. *)
  bracketed_host_ok : string -> bool;
}.

Section facts.
Context `{Platform}.

(** [urlsplit(url)]: scheme and network location, or [ValueError]. *)
Definition urlsplit (url0 : string) : result py_exn (string * string) :=
  let url := string_filter (fun c => negb (is_char 9 c || is_char 10 c || is_char 13 c))
               (lstrip_control url0) in
  let '(before, found, after) := partition ":"%char url in
  let has_scheme :=
    found && match before with
             | String c _ => is_alpha c && string_forallb is_scheme_char before
             | EmptyString => false
             end in
  let '(scheme, rest) := if has_scheme then (lower before, after) else ("", url) in
  if String.prefix "//" rest then
    let netloc := (span (fun c => is_char 47 c || is_char 63 c || is_char 35 c)
                     (drop_string 2 rest)).1 in
    let opening := has_char 91 netloc in
    let closing := has_char 93 netloc in
    if negb (Bool.eqb opening closing) then Err (ValueError "Invalid IPv6 URL")
    else if opening then
      let host_and_port := (rpartition "@"%char netloc).2 in
      let '(before_bracket, have_open, bracketed) := partition "["%char host_and_port in
      let '(hostname, _, port) :=
        partition (if have_open then "]"%char else ":"%char)
                  (if have_open then bracketed else host_and_port) in
      if have_open && (negb (String.eqb before_bracket "")
                       || (negb (String.eqb port "") && negb (String.prefix ":" port)))
      then Err (ValueError "Invalid IPv6 URL")
      else if bracketed_host_ok hostname then Ok (scheme, netloc)
      else Err (ValueError "Invalid IPv6 URL")
    else Ok (scheme, netloc)
  else Ok (scheme, "").

Definition url_hostname (netloc : string) : string :=
  let hostinfo := (rpartition "@"%char netloc).2 in
  let '(_, have_open, bracketed) := partition "["%char hostinfo in
  if have_open then (partition "]"%char bracketed).1.1 else (partition ":"%char hostinfo).1.1.
(** [url.username or url.password] *)
Definition has_userinfo (netloc : string) : bool :=
  let '(userinfo, have_info, _) := rpartition "@"%char netloc in
  let '(username, _, password) := partition ":"%char userinfo in
  have_info && (negb (String.eqb username "") || negb (String.eqb password "")).

(** ** Facts *)

Definition FACT_FIELDS : list string :=
  ["title"; "date"; "start_time"; "end_time"; "timezone"; "city"; "region"; "country";
   "venue_name"; "venue_address"; "access_instructions"; "signup_url"].
Definition SCHEMA_ID : string := "owner_event_draft_v1".

Definition invalid_event_facts : py_exn := ValueError "invalid_event_facts".

Definition fact_limit (key : string) : Z :=
  if String.eqb key "access_instructions" then 2000
  else if String.eqb key "title" then 240
  else if String.eqb key "timezone" then 64
  else 500.

Fixpoint clean_facts (value : list (string * json)) : result py_exn (list (string * string)) :=
  match value with
  | [] => Ok []
  | (key, raw) :: rest =>
      match raw with
      | JStr s =>
          if fact_limit key <? slen s then Err invalid_event_facts
          else facts ← clean_facts rest; Ok ((key, strip s) :: facts)
      | _ => Err invalid_event_facts
      end
  end.

(** [facts.get(key)], [""] when absent: only its truthiness and text are used. *)
Definition fact (facts : list (string * string)) (key : string) : string :=
  default "" (dict_get key facts).
Definition has_fact (facts : list (string * string)) (key : string) : bool :=
  negb (String.eqb (fact facts key) "").

Definition check_date (facts : list (string * string)) : result py_exn () :=
  raise_if (has_fact facts "date" && negb (bool_decide (is_Some (parse_date (fact facts "date")))))
    invalid_event_facts.
Definition check_timezone (facts : list (string * string)) : result py_exn () :=
  raise_if (has_fact facts "timezone"
            && negb (bool_decide (is_Some (zone_info (fact facts "timezone")))))
    invalid_event_facts.
Definition check_time (facts : list (string * string)) (key : string) : result py_exn () :=
  raise_if (has_fact facts key && negb (bool_decide (is_Some (parse_time (fact facts key)))))
    invalid_event_facts.
Definition check_url (facts : list (string * string)) : result py_exn () :=
  if has_fact facts "signup_url" then
    parts ← urlsplit (fact facts "signup_url");
    let '(scheme, netloc) := parts in
    raise_if (negb (String.eqb scheme "https" || String.eqb scheme "http")
              || String.eqb (url_hostname netloc) "" || has_userinfo netloc)
      invalid_event_facts
  else Ok ().

(** One wall time of the event as a UTC instant: rejected when ambiguous or
    skipped by a clock change; [OverflowError] when the instant leaves the range
    of [datetime]. *)
Definition utc_point (zone : (Z -> bool -> Z) * (Z -> Z)) (local : Z) : result py_exn Z :=
  let '(utcoffset, fromutc) := zone in
  if negb (utcoffset local false =? utcoffset local true) then Err invalid_event_facts
  else
    let utc := local - utcoffset local false in
    if (utc <? min_seconds) || (max_seconds <? utc) then Err OverflowError
    else if negb (fromutc utc =? local) then Err invalid_event_facts
    else Ok utc.

Definition check_interval (facts : list (string * string)) : result py_exn () :=
  if forallb (has_fact facts) ["date"; "timezone"; "start_time"; "end_time"] then
    match parse_date (fact facts "date"), zone_info (fact facts "timezone"),
          parse_time (fact facts "start_time"), parse_time (fact facts "end_time") with
    | Some day, Some zone, Some start_time, Some end_time =>
        start ← utc_point zone (wall_seconds day start_time);
        stop ← utc_point zone (wall_seconds day end_time);
        raise_if (stop <=? start) invalid_event_facts
    | _, _, _, _ => Err invalid_event_facts
    end
  else Ok ().

Definition validate_facts (value : json) : result py_exn (list (string * string)) :=
  match value with
  | JDict d =>
      if forallb (fun kv => bool_decide (kv.1 ∈ FACT_FIELDS)) d then
        facts ← clean_facts d;
        _ ← check_date facts;
        _ ← check_timezone facts;
        _ ← check_time facts "start_time";
        _ ← check_time facts "end_time";
        _ ← check_url facts;
        _ ← check_interval facts;
        Ok facts
      else Err invalid_event_facts
  | _ => Err invalid_event_facts
  end.

(** ** The owner's package *)

Definition is_value_error (e : py_exn) : bool :=
  match e with ValueError _ => true | _ => false end.

(** The first loop: each fact on its own; a rejected one becomes blank. *)
Fixpoint collect_facts (snapshot : list (string * json)) (keys : list string)
  : result py_exn (list (string * string) * list string) :=
  match keys with
  | [] => Ok ([], [])
  | key :: rest =>
      match validate_facts (JDict [(key, get_default snapshot key (JStr ""))]) with
      | Ok facts => r ← collect_facts snapshot rest; Ok (facts ++ r.1, r.2)
      | Err e =>
          if is_value_error e
          then r ← collect_facts snapshot rest; Ok ((key, "") :: r.1, key :: r.2)
          else Err e
      end
  end.

Definition str_dict (facts : list (string * string)) : list (string * json) :=
  map (fun kv => (kv.1, JStr kv.2)) facts.

Definition owner_missing (facts : list (string * string)) (invalid : list string) : list string :=
  filter (fun key => has_fact facts key = false \/ key ∈ invalid) FACT_FIELDS.

Definition owner_question (key : string) : json :=
  JDict [("field", JStr key);
         ("prompt", JStr ("Confirm " +:+ replace_char "_"%char " "%char key +:+ "."))].

Definition owner_lanes (ready : bool) : json :=
  let status := JStr (if ready then "complete" else "needs_input") in
  JDict
    [("event_readiness", JDict
       [("label", JStr "Event Readiness"); ("status", status);
        ("summary", JStr (if ready then "Public event facts confirmed."
                          else "Confirm public event facts."))]);
     ("campaign_composer", JDict
       [("label", JStr "Content preparation"); ("status", status);
        ("summary", JStr "Event copy is for review only.")]);
     ("audience_policy", JDict
       [("label", JStr "Provider review"); ("status", JStr "needs_input");
        ("summary", JStr "Choose exact audience and suppression in provider request review.")])].

Definition prepare_owner_package (snapshot : list (string * json)) : result py_exn json :=
  r ← collect_facts snapshot FACT_FIELDS;
  let '(facts, invalid0) := r in
  let dict_facts := str_dict facts in
  invalid ← (match validate_facts (JDict dict_facts) with
             | Ok _ => Ok invalid0
             | Err e => if is_value_error e then Ok (invalid0 ++ ["start_time"; "end_time"])
                        else Err e
             end);
  let missing := owner_missing facts invalid in
  let ready := bool_decide (missing = []) in
  let status := if ready then "ready_for_review" else "needs_input" in
  invitation ← Engine.draft dict_facts "Invitation";
  reminder ← Engine.draft dict_facts "Reminder";
  title ← subscript dict_facts "title";
  date ← subscript dict_facts "date";
  signup_url ← subscript dict_facts "signup_url";
  Ok (JDict
    [("schema_id", JStr SCHEMA_ID);
     ("status", JStr status);
     ("missing_fields", JList (map JStr missing));
     ("questions", JList (map owner_question missing));
     ("assets", JDict
       [("invitation", invitation); ("reminder", reminder);
        ("social", JDict [("body", JStr (py_str title +:+ " on " +:+ py_str date +:+ ". "
                                         +:+ py_str signup_url))])]);
     ("audience", JDict
       [("id", JNull); ("name", JStr "Choose in provider review");
        ("member_count", JInt 0); ("language", JStr "Unspecified")]);
     ("sponsor", JDict
       [("passed", JBool false); ("tier", JStr ""); ("expected_discount_percent", JNull);
        ("actual_discount_percent", JNull); ("general_ticket_price", JNull);
        ("sponsor_ticket_price", JNull)]);
     ("lanes", owner_lanes ready);
     ("evidence", JList
       [JStr "Prepared only public event facts from the current revision.";
        JStr "No audience segmentation or sponsor policy was applied.";
        JStr "Provider operations require a separate exact owner request approval."])]).

End facts.
End OwnerEvents.
