(* ===== verification/OwnerEventsTheorems.v ===== *)
(** * Theorems about the owner's event facts

    What [validate_facts] accepts, that accepted facts are a fixed point of it, which
    errors it can raise, and when the owner's package is ready. *)

From S2P Require Import Prelude PyValue Engine OwnerEvents.

Module OwnerFacts.
Import OwnerEvents.

(** ** Stripping *)

Lemma rstrip_idempotent s : rstrip (rstrip s) = rstrip s.
Proof.
  induction s as [|c s IH]; [done|]. cbn. destruct (rstrip s) as [|c' s'] eqn:Hs.
  - destruct (is_space c) eqn:Hc; [done|]. cbn. by rewrite Hc.
  - cbn. cbn in IH. by rewrite IH.
Qed.

Lemma lstrip_head s : lstrip s = "" \/ exists c s', lstrip s = String c s' /\ is_space c = false.
Proof.
  induction s as [|c s IH]; [by left|]. cbn. destruct (is_space c) eqn:Hc; [done|].
  right. by exists c, s.
Qed.

Lemma rstrip_head c s : is_space c = false -> exists s', rstrip (String c s) = String c s'.
Proof. intros Hc. cbn. rewrite Hc. destruct (rstrip s); eauto. Qed.

Lemma strip_idempotent s : strip (strip s) = strip s.
Proof.
  unfold strip. destruct (lstrip_head s) as [->|(c & s' & -> & Hc)]; [done|].
  destruct (rstrip_head c s' Hc) as [s'' Hr].
  assert (lstrip (rstrip (String c s')) = rstrip (String c s')) as ->.
  { rewrite Hr. cbn. by rewrite Hc. }
  apply rstrip_idempotent.
Qed.

Lemma slen_cons c s : slen (String c s) = slen s + 1.
Proof. unfold slen. cbn. lia. Qed.

Lemma lstrip_len s : slen (lstrip s) <= slen s.
Proof.
  induction s as [|c s IH]; cbn [lstrip]; [lia|]. rewrite slen_cons.
  destruct (is_space c); rewrite ?slen_cons; lia.
Qed.

Lemma rstrip_len s : slen (rstrip s) <= slen s.
Proof.
  induction s as [|c s IH]; cbn [rstrip]; [lia|]. rewrite slen_cons.
  destruct (rstrip s); [destruct (is_space c)|]; rewrite ?slen_cons in *; unfold slen in *; cbn in *; lia.
Qed.

Lemma strip_len s : slen (strip s) <= slen s.
Proof. unfold strip. pose proof (rstrip_len (lstrip s)). pose proof (lstrip_len s). lia. Qed.

(** ** Cleaning *)

Definition clean_fact (kv : string * string) : Prop :=
  slen kv.2 <= fact_limit kv.1 /\ strip kv.2 = kv.2.

Lemma clean_facts_ok d facts :
  clean_facts d = Ok facts -> Forall clean_fact facts /\ map fst facts = map fst d.
Proof.
  revert facts. induction d as [|[k raw] d IH]; intros facts Hc; cbn in Hc.
  - injection Hc as <-. by split.
  - destruct raw as [| | | |s| |]; try discriminate. case_match eqn:Hl; [discriminate|].
    apply bind_result_ok in Hc as (facts' & Hc & Hr). injection Hr as <-.
    destruct (IH _ Hc) as [Hall Hk]. bools. split; [|cbn; by rewrite Hk].
    constructor; [|done]. split; cbn; [|apply strip_idempotent]. pose proof (strip_len s). lia.
Qed.

Lemma clean_facts_fixed facts :
  Forall clean_fact facts -> clean_facts (str_dict facts) = Ok facts.
Proof.
  induction 1 as [|[k s] facts [Hl Hs] Hall IH]; [done|]. cbn [fst snd] in *.
  change (str_dict ((k, s) :: facts)) with ((k, JStr s) :: str_dict facts). cbn [clean_facts].
  assert ((fact_limit k <? slen s) = false) as -> by (apply Z.ltb_ge; lia).
  rewrite IH. cbn. by rewrite Hs.
Qed.

Lemma keys_str_dict facts : map fst (str_dict facts) = map fst facts.
Proof. unfold str_dict. by rewrite map_map. Qed.

Section facts.
Context `{Platform}.

(** The facts are consistent: the tests of [validate_facts] after cleaning. *)
Definition consistent (facts : list (string * string)) : result py_exn () :=
  _ ← check_date facts; _ ← check_timezone facts; _ ← check_time facts "start_time";
  _ ← check_time facts "end_time"; _ ← check_url facts; check_interval facts.

Lemma validate_facts_inv value facts :
  validate_facts value = Ok facts ->
  exists d, value = JDict d /\ Forall (fun kv => kv.1 ∈ FACT_FIELDS) d /\
    clean_facts d = Ok facts /\ consistent facts = Ok ().
Proof.
  unfold validate_facts. destruct value as [| | | | | |d]; try discriminate.
  destruct (forallb _ d) eqn:Hall; [|discriminate]. intros Hv.
  apply bind_result_ok in Hv as (facts' & Hc & Hv). exists d. split; [done|].
  assert (consistent facts' = Ok () /\ facts' = facts) as [Hcons ->].
  { unfold consistent. repeat (apply bind_result_ok in Hv as ([] & -> & Hv)).
    injection Hv as <-. done. }
  split_and!; try done. rewrite Forall_forall. intros kv Hin. rewrite forallb_forall in Hall.
  apply list_elem_of_In, Hall in Hin. by bools.
Qed.

Lemma raise_if_ok c e u : @raise_if py_exn c e = Ok u -> c = false.
Proof. by destruct c. Qed.

Lemma has_fact_true facts key : has_fact facts key = true <-> fact facts key <> "".
Proof. unfold has_fact. by rewrite negb_true_iff, String.eqb_neq. Qed.

(** What accepted facts are: only the public fields, each a stripped string within its
    limit; a date, a time of day or a time zone that is present is a real one; and when
    the date, the zone and both times are present, the event starts before it ends as
    instants of UTC, at unambiguous wall times. *)
Theorem accepted_facts value facts :
  validate_facts value = Ok facts ->
  Forall (fun kv => kv.1 ∈ FACT_FIELDS /\ slen kv.2 <= fact_limit kv.1 /\ strip kv.2 = kv.2) facts /\
  (fact facts "date" <> "" -> is_Some (parse_date (fact facts "date"))) /\
  (fact facts "timezone" <> "" -> is_Some (zone_info (fact facts "timezone"))) /\
  (forall key, key = "start_time" \/ key = "end_time" -> fact facts key <> "" ->
     is_Some (parse_time (fact facts key))) /\
  ((forall key, key ∈ ["date"; "timezone"; "start_time"; "end_time"] -> fact facts key <> "") ->
   exists day utcoffset fromutc first last,
     parse_date (fact facts "date") = Some day /\
     zone_info (fact facts "timezone") = Some (utcoffset, fromutc) /\
     parse_time (fact facts "start_time") = Some first /\
     parse_time (fact facts "end_time") = Some last /\
     (forall time, time = first \/ time = last ->
        utcoffset (wall_seconds day time) true = utcoffset (wall_seconds day time) false /\
        fromutc (wall_seconds day time - utcoffset (wall_seconds day time) false) =
          wall_seconds day time) /\
     wall_seconds day first - utcoffset (wall_seconds day first) false <
     wall_seconds day last - utcoffset (wall_seconds day last) false).
Proof.
  intros Hv. apply validate_facts_inv in Hv as (d & -> & Hk & Hc & Hcons).
  apply clean_facts_ok in Hc as [Hclean Hkeys].
  unfold consistent in Hcons.
  apply bind_result_ok in Hcons as (? & Hd & Hcons). apply bind_result_ok in Hcons as (? & Htz & Hcons).
  apply bind_result_ok in Hcons as (? & Hts & Hcons). apply bind_result_ok in Hcons as (? & Hte & Hcons).
  apply bind_result_ok in Hcons as (? & _ & Hcons).
  apply raise_if_ok in Hd, Htz, Hts, Hte.
  split_and!.
  - apply Forall_forall. intros kv Hin. rewrite Forall_forall in Hclean. destruct (Hclean _ Hin).
    split_and!; try done. assert (kv.1 ∈ map fst facts) as Hkv by (apply list_elem_of_fmap; eauto).
    rewrite Hkeys in Hkv. apply list_elem_of_fmap in Hkv as (kv' & -> & Hin').
    rewrite Forall_forall in Hk. by apply Hk.
  - intros Hne%has_fact_true. rewrite Hne in Hd. cbn in Hd. by bools.
  - intros Hne%has_fact_true. rewrite Hne in Htz. cbn in Htz. by bools.
  - intros key [-> | ->] Hne%has_fact_true; [rewrite Hne in Hts|rewrite Hne in Hte];
      cbn in Hts, Hte; by bools.
  - intros Hall. unfold check_interval in Hcons.
    assert (forallb (has_fact facts) ["date"; "timezone"; "start_time"; "end_time"] = true) as Hf.
    { apply forallb_forall. intros key Hin. by apply has_fact_true, Hall, list_elem_of_In. }
    rewrite Hf in Hcons.
    destruct (parse_date _) as [day|], (zone_info _) as [[off from]|], (parse_time (fact facts "start_time")) as [t1|],
      (parse_time (fact facts "end_time")) as [t2|]; try discriminate.
    apply bind_result_ok in Hcons as (p1 & H1 & Hcons). apply bind_result_ok in Hcons as (p2 & H2 & Hcons).
    apply raise_if_ok in Hcons. bools. exists day, off, from, t1, t2. split_and!; try done.
    + intros time Ht. unfold utc_point in H1, H2.
      destruct Ht as [-> | ->]; [clear H2; rename H1 into H2|clear H1];
        repeat (case_match; [discriminate|]); bools; done.
    + unfold utc_point in H1, H2. repeat (case_match; try discriminate). simplify_eq. lia.
Qed.

(** Accepted facts are final: validating them again accepts them unchanged, so what the
    editor stores is what it shows. *)
Theorem validate_facts_idempotent value facts :
  validate_facts value = Ok facts -> validate_facts (JDict (str_dict facts)) = Ok facts.
Proof.
  intros Hv. apply validate_facts_inv in Hv as (d & -> & Hk & Hc & Hcons).
  apply clean_facts_ok in Hc as [Hclean Hkeys].
  assert (forallb (fun kv => bool_decide (kv.1 ∈ FACT_FIELDS)) (str_dict facts) = true) as Hall.
  { apply forallb_forall. intros kv Hin. apply bool_decide_eq_true.
    assert (kv.1 ∈ map fst (str_dict facts)) as Hkv
      by (apply list_elem_of_fmap; exists kv; split; [done|by apply list_elem_of_In]).
    rewrite keys_str_dict, Hkeys in Hkv.
    apply list_elem_of_fmap in Hkv as (kv' & -> & Hin').
    rewrite Forall_forall in Hk. by apply Hk. }
  unfold validate_facts. rewrite Hall, (clean_facts_fixed facts Hclean). cbn [mbind result_bind].
  unfold consistent in Hcons. repeat (apply bind_result_ok in Hcons as ([] & -> & Hcons)).
  cbn [mbind result_bind]. by rewrite Hcons.
Qed.

(** ** Errors *)

Definition fact_error (e : py_exn) : Prop := is_value_error e = true \/ e = OverflowError.

Lemma clean_facts_err d e : clean_facts d = Err e -> is_value_error e = true.
Proof.
  induction d as [|[k raw] d IH]; intros Hc; [discriminate|]. cbn in Hc.
  destruct raw; try (by injection Hc as <-). case_match; [by injection Hc as <-|].
  apply bind_result_err in Hc as [Hc|(? & _ & Hc)]; [by apply IH|discriminate].
Qed.

Lemma raise_if_err c e e' : @raise_if py_exn c e = Err e' -> e' = e.
Proof. destruct c; [by intros [= <-]|done]. Qed.

Lemma check_url_err facts e : check_url facts = Err e -> is_value_error e = true.
Proof.
  unfold check_url. destruct (has_fact _ _); [|discriminate]. intros Hc.
  apply bind_result_err in Hc as [Hu|([scheme netloc] & _ & Hu)].
  - unfold urlsplit in Hu. repeat (case_match; try discriminate; try (by injection Hu as <-)).
  - apply raise_if_err in Hu as ->. done.
Qed.

Lemma utc_point_err zone local e : utc_point zone local = Err e -> fact_error e.
Proof.
  unfold utc_point. destruct zone.
  repeat (case_match; try discriminate); intros [= <-]; ((by left) || by right).
Qed.

Lemma check_interval_err facts e : check_interval facts = Err e -> fact_error e.
Proof.
  unfold check_interval. destruct (forallb _ _); [|discriminate].
  repeat (case_match; try (intros [= <-]; by left)). intros Hc.
  apply bind_result_err in Hc as [Hc|(? & _ & Hc)]; [by eapply utc_point_err|].
  apply bind_result_err in Hc as [Hc|(? & _ & Hc)]; [by eapply utc_point_err|].
  apply raise_if_err in Hc as ->. by left.
Qed.

Lemma validate_facts_err value e : validate_facts value = Err e -> fact_error e.
Proof.
  unfold validate_facts. destruct value as [| | | | | |d]; try (intros [= <-]; by left).
  destruct (forallb _ d); [|intros [= <-]; by left]. intros Hv.
  apply bind_result_err in Hv as [Hv|(facts & _ & Hv)]; [left; by eapply clean_facts_err|].
  do 4 (apply bind_result_err in Hv as [Hv|(? & _ & Hv)]; [apply raise_if_err in Hv as ->; by left|]).
  apply bind_result_err in Hv as [Hv|(? & _ & Hv)]; [left; by eapply check_url_err|].
  apply bind_result_err in Hv as [Hv|(? & _ & Hv)]; [by eapply check_interval_err|discriminate].
Qed.

(** ** The owner's package *)

Definition raw_fact (snapshot : list (string * json)) (key : string) : string * json :=
  (key, get_default snapshot key (JStr "")).

(** The snapshot's public facts as one request body. *)
Definition public_body (snapshot : list (string * json)) : json :=
  JDict (map (raw_fact snapshot) FACT_FIELDS).

Lemma collect_facts_keys snapshot keys facts invalid :
  collect_facts snapshot keys = Ok (facts, invalid) ->
  map fst facts = keys /\ (forall key, key ∈ invalid -> key ∈ keys).
Proof.
  revert facts invalid. induction keys as [|key keys IH]; intros facts invalid Hc.
  - injection Hc as <- <-. by split.
  - cbn [collect_facts] in Hc. destruct (validate_facts _) as [fs|e] eqn:Hv.
    + apply bind_result_ok in Hc as ([fs' inv'] & Hc & Hr). injection Hr as <- <-.
      destruct (IH _ _ Hc) as [Hk Hi].
      apply validate_facts_inv in Hv as (d & [= <-] & _ & Hcl & _).
      apply clean_facts_ok in Hcl as [_ Hkeys]. rewrite map_app, Hkeys, Hk. split; [done|].
      intros k Hin. right. by apply Hi.
    + destruct (is_value_error e); [|discriminate].
      apply bind_result_ok in Hc as ([fs' inv'] & Hc & Hr). injection Hr as <- <-.
      destruct (IH _ _ Hc) as [Hk Hi]. split; [cbn; by rewrite Hk|].
      intros k Hin. apply elem_of_cons in Hin as [->|Hin]; [by left|right; by apply Hi].
Qed.

Lemma clean_single key raw fs :
  clean_facts [(key, raw)] = Ok fs -> exists v, fs = [(key, v)].
Proof.
  cbn. destruct raw; try discriminate. case_match; [discriminate|]. intros [= <-]. eauto.
Qed.

Lemma JDict_inj a b : JDict a = JDict b -> a = b.
Proof. congruence. Qed.

(** Cleaning a body cleans its entries. *)
Lemma clean_facts_each d facts :
  clean_facts d = Ok facts <-> Forall2 (fun kr kv => clean_facts [kr] = Ok [kv]) d facts.
Proof.
  revert facts. induction d as [|[k raw] d IH]; intros facts.
  - cbn. split; [intros [= <-]; constructor|]. by inversion 1.
  - split.
    + intros Hc. cbn in Hc. destruct raw as [| | | |s| |] eqn:Hraw; try discriminate.
      destruct (_ <? _) eqn:Hl; [discriminate|].
      apply bind_result_ok in Hc as (facts' & Hc & Hr). injection Hr as <-.
      constructor; [|by apply IH]. cbn. by rewrite Hl.
    + inversion 1 as [|kr kv d' facts' H1 H2]; subst. apply IH in H2.
      cbn in H1. cbn [clean_facts]. destruct raw; try discriminate.
      destruct (_ <? _); [discriminate|]. rewrite H2. cbn. by injection H1 as <-.
Qed.

(** Facts that are consistent together are consistent one by one. *)
Lemma consistent_single facts key v :
  consistent facts = Ok () -> dict_get key facts = Some v -> consistent [(key, v)] = Ok ().
Proof.
  intros Hc Hk. unfold consistent in *.
  assert (fact facts key = v) as Hf by (unfold fact; by rewrite Hk).
  assert (forall k, k <> key -> fact [(key, v)] k = "") as Hother.
  { intros k Hne. unfold fact. cbn. by apply String.eqb_neq in Hne as ->. }
  assert (fact [(key, v)] key = v) as Hsame by (unfold fact; cbn; by rewrite String.eqb_refl).
  apply bind_result_ok in Hc as ([] & Hd & Hc). apply bind_result_ok in Hc as ([] & Htz & Hc).
  apply bind_result_ok in Hc as ([] & Hts & Hc). apply bind_result_ok in Hc as ([] & Hte & Hc).
  apply bind_result_ok in Hc as ([] & Hu & _).
  assert (check_date [(key, v)] = Ok ()) as ->.
  { unfold check_date, has_fact in *. destruct (decide ("date" = key)) as [<-|Hne];
      [by rewrite Hsame, <- Hf|by rewrite Hother]. }
  assert (check_timezone [(key, v)] = Ok ()) as ->.
  { unfold check_timezone, has_fact in *. destruct (decide ("timezone" = key)) as [<-|Hne];
      [by rewrite Hsame, <- Hf|by rewrite Hother]. }
  assert (forall k, check_time facts k = Ok () -> check_time [(key, v)] k = Ok ()) as Htime.
  { intros k Ht. unfold check_time, has_fact in *. destruct (decide (k = key)) as [<-|Hne];
      [by rewrite Hsame, <- Hf|by rewrite Hother]. }
  assert (check_url [(key, v)] = Ok ()) as Hurl.
  { unfold check_url, has_fact in *. destruct (decide ("signup_url" = key)) as [<-|Hne];
      [by rewrite Hsame, <- Hf|by rewrite Hother]. }
  rewrite !Htime, Hurl by done. cbn [mbind result_bind]. unfold check_interval, has_fact.
  destruct (decide ("date" = key)) as [<-|Hne]; cbn [forallb].
  - rewrite (Hother "timezone") by done. cbn. by rewrite andb_false_r.
  - by rewrite (Hother "date").
Qed.

Lemma dict_get_nodup (facts : list (string * string)) key v :
  NoDup (map fst facts) -> (key, v) ∈ facts -> dict_get key facts = Some v.
Proof.
  induction facts as [|[k w] facts IH]; cbn; intros Hnd Hin; [by apply not_elem_of_nil in Hin|].
  apply NoDup_cons in Hnd as [Hni Hnd]. apply elem_of_cons in Hin as [[= -> ->]|Hin].
  - by rewrite String.eqb_refl.
  - assert (key <> k) as Hne.
    { intros ->. apply Hni. apply list_elem_of_fmap. by exists (k, v). }
    apply String.eqb_neq in Hne as ->. by apply IH.
Qed.

Lemma fact_fields_nodup : NoDup FACT_FIELDS.
Proof. by_decide. Qed.

(** Validating one fact on its own. *)
Lemma validate_single key raw kv :
  key ∈ FACT_FIELDS ->
  validate_facts (JDict [(key, raw)]) = Ok [kv] <->
  clean_facts [(key, raw)] = Ok [kv] /\ consistent [kv] = Ok ().
Proof.
  intros Hk. split.
  - intros Hv. apply validate_facts_inv in Hv as (d & [= <-] & _ & Hc & Hcons). done.
  - intros [Hc Hcons]. unfold validate_facts. cbn [forallb fst].
    rewrite bool_decide_eq_true_2 by done. cbn [andb]. rewrite Hc. cbn [mbind result_bind].
    unfold consistent in Hcons. repeat (apply bind_result_ok in Hcons as ([] & -> & Hcons)).
    cbn [mbind result_bind]. by rewrite Hcons.
Qed.

Lemma collect_valid snapshot keys facts :
  (forall key, key ∈ keys -> key ∈ FACT_FIELDS) ->
  collect_facts snapshot keys = Ok (facts, []) <->
  Forall2 (fun kr kv => clean_facts [kr] = Ok [kv] /\ consistent [kv] = Ok ())
    (map (raw_fact snapshot) keys) facts.
Proof.
  revert facts. induction keys as [|key keys IH]; intros facts Hin.
  - cbn. split; [intros [= <-]; constructor|]. by inversion 1.
  - assert (key ∈ FACT_FIELDS) as Hkey by (apply Hin; left).
    assert (forall k, k ∈ keys -> k ∈ FACT_FIELDS) as Hin' by (intros k ?; apply Hin; by right).
    cbn [map]. split.
    + intros Hc. cbn [collect_facts] in Hc. destruct (validate_facts _) as [fs|e] eqn:Hv.
      * apply bind_result_ok in Hc as ([fs' inv'] & Hc & Hr). cbn in Hr. injection Hr as <- ->.
        pose proof Hv as Hv'. apply validate_facts_inv in Hv' as (d & [= <-] & _ & Hcl & _).
        apply clean_single in Hcl as [v ->]. constructor; [by apply (validate_single key)|by apply IH].
      * destruct (is_value_error e); [|discriminate].
        by apply bind_result_ok in Hc as ([fs' inv'] & Hc & [=]).
    + inversion 1 as [|kr kv rest facts' H1 H2]; subst. apply (validate_single key) in H1; [|done].
      cbn [collect_facts]. rewrite H1. apply IH in H2; [|done]. rewrite H2. done.
Qed.

Lemma forall2_clean snapshot keys facts :
  Forall2 (fun kr kv => clean_facts [kr] = Ok [kv] /\ consistent [kv] = Ok ())
    (map (raw_fact snapshot) keys) facts ->
  clean_facts (map (raw_fact snapshot) keys) = Ok facts.
Proof. intros Hf. apply clean_facts_each. eapply Forall2_impl; [exact Hf|]. by intros ? ? []. Qed.

Lemma fields_body snapshot :
  forallb (fun kv => bool_decide (kv.1 ∈ FACT_FIELDS)) (map (raw_fact snapshot) FACT_FIELDS) = true.
Proof. reflexivity. Qed.

(** The public facts validate together exactly when each does and they do as a whole. *)
Lemma body_valid snapshot facts :
  validate_facts (public_body snapshot) = Ok facts <->
  collect_facts snapshot FACT_FIELDS = Ok (facts, []) /\
  validate_facts (JDict (str_dict facts)) = Ok facts.
Proof.
  rewrite collect_valid by done. split.
  - intros Hv. split; [|by eapply validate_facts_idempotent].
    apply validate_facts_inv in Hv as (d & Hd & _ & Hc & Hcons). apply JDict_inj in Hd as <-.
    pose proof (clean_facts_ok _ _ Hc) as [_ Hkeys].
    apply clean_facts_each in Hc. rewrite map_map in Hkeys. cbn in Hkeys.
    apply Forall2_same_length_lookup_2; [by eapply Forall2_length|].
    intros i kr [k v] Hi Hv. pose proof (Forall2_lookup_lr _ _ _ _ _ _ Hc Hi Hv) as Hcl.
    split; [exact Hcl|]. apply (consistent_single facts); [done|].
    apply dict_get_nodup; [|by eapply list_elem_of_lookup_2].
    rewrite Hkeys. exact fact_fields_nodup.
  - intros [Hf Hv]. apply forall2_clean in Hf.
    apply validate_facts_inv in Hv as (d & [= <-] & _ & _ & Hcons).
    unfold validate_facts, public_body. rewrite fields_body, Hf. cbn [mbind result_bind].
    unfold consistent in Hcons. repeat (apply bind_result_ok in Hcons as ([] & -> & Hcons)).
    cbn [mbind result_bind]. by rewrite Hcons.
Qed.

Lemma missing_nil facts invalid :
  owner_missing facts invalid = [] <->
  forall key, key ∈ FACT_FIELDS -> fact facts key <> "" /\ key ∉ invalid.
Proof.
  unfold owner_missing. split.
  - intros Hm key Hin. rewrite <- has_fact_true.
    assert (~ (has_fact facts key = false \/ key ∈ invalid)) as Hn.
    { intros Hor. eapply (not_elem_of_nil key). rewrite <- Hm. by apply list_elem_of_filter. }
    destruct (has_fact facts key); tauto.
  - intros Hall. destruct (filter _ _) as [|key l] eqn:Hf; [done|]. exfalso.
    assert (key ∈ key :: l) as Hin by left. rewrite <- Hf in Hin.
    apply list_elem_of_filter in Hin as [[Hb|Hb] Hin]; apply Hall in Hin as [Hne Hni]; [|done].
    apply has_fact_true in Hne. congruence.
Qed.

(** The owner's package is ready for review exactly when all twelve public facts are
    there and validate together; it never counts an audience. *)
Theorem owner_package_ready snapshot p :
  prepare_owner_package snapshot = Ok p ->
  exists fields status audience,
    p = JDict fields /\ dict_get "status" fields = Some (JStr status) /\
    (status = "ready_for_review" <->
       exists facts, validate_facts (public_body snapshot) = Ok facts /\
         forall key, key ∈ FACT_FIELDS -> fact facts key <> "") /\
    (status = "ready_for_review" \/ status = "needs_input") /\
    dict_get "audience" fields = Some (JDict audience) /\
    dict_get "member_count" audience = Some (JInt 0) /\ dict_get "id" audience = Some JNull.
Proof.
  intros Hp. unfold prepare_owner_package in Hp.
  apply bind_result_ok in Hp as ([facts invalid0] & Hc & Hp).
  apply bind_result_ok in Hp as (invalid & Hi & Hp).
  result_inv Hp. injection Hp as <-. do 3 eexists. split; [reflexivity|]. split; [reflexivity|].
  split; [|split; [case_bool_decide; auto|by split_and!]].
  assert (bool_decide (owner_missing facts invalid = []) = true <->
          exists facts, validate_facts (public_body snapshot) = Ok facts /\
            forall key, key ∈ FACT_FIELDS -> fact facts key <> "") as Hready;
    [|rewrite <- Hready; by destruct (bool_decide _)].
  rewrite bool_decide_eq_true, missing_nil.
  pose proof (collect_facts_keys _ _ _ _ Hc) as [Hkeys Hinv]. split.
  - intros Hall. exists facts. split; [|intros key Hin; by apply Hall]. apply body_valid.
    assert (invalid = invalid0 /\ exists fs, validate_facts (JDict (str_dict facts)) = Ok fs)
      as [-> [fs Hfs]].
    { destruct (validate_facts (JDict (str_dict facts))) as [fs|e]; [injection Hi as <-; eauto|].
      destruct (is_value_error e); [|discriminate]. injection Hi as <-.
      destruct (Hall "start_time" ltac:(by_decide)) as [_ Hni]. exfalso. apply Hni. apply elem_of_app; right; left. }
    assert (invalid0 = []) as ->.
    { destruct invalid0 as [|key l]; [done|]. destruct (Hall key) as [_ Hni]; [apply Hinv; left|].
      exfalso. apply Hni. left. }
    split; [done|]. apply (collect_valid _ _ _ (fun k Hk => Hk)) in Hc.
    apply forall2_clean, clean_facts_ok in Hc as [Hclean _].
    pose proof Hfs as Hfs'. apply validate_facts_inv in Hfs' as (d & [= <-] & _ & Hcl & _).
    rewrite clean_facts_fixed in Hcl by done. by injection Hcl as <-.
  - intros (facts' & Hv & Hall). apply body_valid in Hv as [Hc' Hv]. rewrite Hc in Hc'.
    injection Hc' as <- ->. rewrite Hv in Hi. injection Hi as <-.
    intros key Hin. split; [by apply Hall|by apply not_elem_of_nil].
Qed.

(** The one way preparing an owner's package fails: an instant outside the range of
    datetime. Every fact the validator rejects becomes a question instead, and no field
    the drafts quote is ever missing. *)
Theorem owner_package_errors snapshot e :
  prepare_owner_package snapshot = Err e -> e = OverflowError.
Proof.
  intros Hp. unfold prepare_owner_package in Hp.
  apply bind_result_err in Hp as [Hc|([facts invalid0] & Hc & Hp)].
  - clear -Hc. revert e Hc. generalize FACT_FIELDS. intros keys.
    induction keys as [|key keys IH]; intros e Hc; [discriminate|]. cbn [collect_facts] in Hc.
    destruct (validate_facts _) as [fs|e'] eqn:Hv.
    + apply bind_result_err in Hc as [Hc|(? & _ & ?)]; [by apply IH|discriminate].
    + apply validate_facts_err in Hv as [Hv|Hv].
      * rewrite Hv in Hc. apply bind_result_err in Hc as [Hc|(? & _ & ?)]; [by apply IH|discriminate].
      * subst. cbn in Hc. by injection Hc as <-.
  - apply collect_facts_keys in Hc as [Hkeys _].
    assert (forall key, key ∈ FACT_FIELDS -> exists v, subscript (str_dict facts) key = Ok v) as Hsub.
    { intros key Hin. rewrite <- Hkeys, <- keys_str_dict in Hin. unfold subscript.
      destruct (dict_get key (str_dict facts)) eqn:Hg; [eauto|].
      by apply dict_get_none in Hg. }
    destruct (Hsub "title" ltac:(by_decide)) as [v1 H1], (Hsub "date" ltac:(by_decide)) as [v2 H2],
      (Hsub "start_time" ltac:(by_decide)) as [v3 H3], (Hsub "end_time" ltac:(by_decide)) as [v4 H4],
      (Hsub "timezone" ltac:(by_decide)) as [v5 H5], (Hsub "signup_url" ltac:(by_decide)) as [v6 H6].
    apply bind_result_err in Hp as [Hi|(invalid & _ & Hp)].
    + destruct (validate_facts _) as [fs|e'] eqn:Hv; [discriminate|].
      apply validate_facts_err in Hv as [Hv|Hv]; [by rewrite Hv in Hi|].
      subst. cbn in Hi. by injection Hi as <-.
    + exfalso. unfold Engine.draft in Hp.
      repeat (first [rewrite H1 in Hp|rewrite H2 in Hp|rewrite H3 in Hp|rewrite H4 in Hp
                    |rewrite H5 in Hp|rewrite H6 in Hp]; cbn [mbind result_bind] in Hp).
      discriminate.
Qed.

End facts.

(** ** Concrete inputs: a platform with UTC and one zone ten hours ahead *)

#[local] Instance two_zones : Platform := {|
  zone_info key :=
    if String.eqb key "UTC" then Some ((fun _ _ => 0), (fun utc => utc))
    else if String.eqb key "Pacific/Guam" then Some ((fun _ _ => 36000), (fun utc => utc + 36000))
    else None;
  bracketed_host_ok _ := false;
|}.

Definition facts_on (day zone : string) : list (string * string) :=
  [("title", "Open house"); ("date", day); ("start_time", "09:00"); ("end_time", "11:30");
   ("timezone", zone); ("city", "Queens"); ("region", "NY"); ("country", "US");
   ("venue_name", "Hall"); ("venue_address", "1 Main St"); ("access_instructions", "Ring.");
   ("signup_url", "https://example.test/e")].

Definition open_house : list (string * string) := facts_on "2026-08-12" "UTC".

Lemma open_house_valid : validate_facts (JDict (str_dict open_house)) = Ok open_house.
Proof. vm_compute. reflexivity. Qed.

Lemma accepted_facts_witness : is_Some (parse_date "2026-08-12") /\ is_Some (zone_info "UTC").
Proof.
  destruct (accepted_facts _ _ open_house_valid) as (_ & Hd & Hz & _).
  split; [exact (Hd ltac:(done))|exact (Hz ltac:(done))].
Defined.

Lemma validate_facts_idempotent_witness :
  validate_facts (JDict (str_dict open_house)) = Ok open_house.
Proof.
  refine (validate_facts_idempotent
            (JDict [("title", JStr " Open house "); ("date", JStr "2026-08-12");
                    ("start_time", JStr "09:00"); ("end_time", JStr "11:30");
                    ("timezone", JStr "UTC"); ("city", JStr "Queens"); ("region", JStr "NY");
                    ("country", JStr "US"); ("venue_name", JStr "Hall");
                    ("venue_address", JStr "1 Main St"); ("access_instructions", JStr "Ring.");
                    ("signup_url", JStr "https://example.test/e")]) open_house _).
  vm_compute. reflexivity.
Defined.

Lemma owner_package_ready_witness :
  exists fields, prepare_owner_package (str_dict open_house) = Ok (JDict fields) /\
    dict_get "status" fields = Some (JStr "ready_for_review").
Proof.
  assert (exists p, prepare_owner_package (str_dict open_house) = Ok p) as [p Hp]
    by (eexists; vm_compute; reflexivity).
  destruct (owner_package_ready _ p Hp) as (fields & status & aud & -> & Hst & Hiff & _).
  exists fields. split; [exact Hp|]. rewrite Hst.
  assert (status = "ready_for_review") as ->; [|reflexivity]. apply Hiff.
  exists open_house. split; [vm_compute; reflexivity|]. intros key Hin.
  repeat (apply elem_of_cons in Hin as [->|Hin]; [vm_compute; discriminate|]).
  by apply not_elem_of_nil in Hin.
Defined.

(** The first day of the calendar in a zone ahead of UTC: not a [ValueError], so the
    handlers of the callers do not catch it. *)
Definition first_day : list (string * json) := str_dict (facts_on "0001-01-01" "Pacific/Guam").

Lemma owner_package_errors_witness :
  exists e, prepare_owner_package first_day = Err e /\ e = OverflowError.
Proof.
  assert (exists e, prepare_owner_package first_day = Err e) as [e He]
    by (eexists; vm_compute; reflexivity).
  exists e. exact (conj He (owner_package_errors first_day e He)).
Defined.

End OwnerFacts.
