(* ===== verification/LaunchLoop.v ===== *)
(** * The LaunchLoop workflow (backend/launchloop/models.py, services.py)

    The database tables of the app as one record, and the workflow services as
    transactions over it.  A primary key that the database or [uuid4] draws is
    taken from the counter [d_next]; automatic timestamps are left out, and the
    clock of [decide_approval] is an argument. *)

From S2P Require Import Prelude PyValue Sha256 Engine OwnerEvents.

Module LaunchLoop.

(** ** Tables *)

Inductive role := OPERATOR | APPROVER.
#[global] Instance role_eq_dec : EqDecision role.
Proof. solve_decision. Defined.

Record actor := Actor {
  a_slug : string;
  a_display_name : string;
  a_role : role;
  a_user : option Z;
}.

Record event := Event { e_slug : string; e_title : string }.

Record provider_event := ProviderEvent {
  s_provider_event_id : string;
  s_current_snapshot : option Z;
  s_local_event : option Z;
  s_available : bool;
}.

(** [start_at]/[end_at] as the texts the code derives from them: date and HH:MM. *)
Record provider_snapshot := ProviderEventSnapshot {
  p_source : Z;
  p_fingerprint : string;
  p_title : string;
  p_status : string;
  p_start : option (string * string);
  p_end : option (string * string);
  p_timezone : string;
}.

Record event_revision := EventRevision {
  r_event : Z;
  r_version : Z;
  r_snapshot : list (string * json);
  r_author : string;
  r_source_snapshot : option Z;
}.

Inductive wf_status := DRAFT | NEEDS_INPUT | READY_FOR_REVIEW | IN_REVIEW | APPROVED | COMPLETED.
#[global] Instance wf_status_eq_dec : EqDecision wf_status.
Proof. solve_decision. Defined.

Record workflow := Workflow {
  w_event : Z;
  w_revision : Z;
  w_status : wf_status;
  w_package : option json;
  w_package_hash : string;
  w_telemetry_traceparent : string;
}.

(** [from_status] is [""] ([None]) for the first transition. *)
Record transition := WorkflowTransition {
  t_workflow : Z;
  t_actor : string;
  t_from : option wf_status;
  t_to : wf_status;
  t_action : string;
  t_details : json;
}.

Inductive approval_status := A_PENDING | A_APPROVED | A_REJECTED.
#[global] Instance approval_status_eq_dec : EqDecision approval_status.
Proof. solve_decision. Defined.

Record approval_request := ApprovalRequest {
  q_workflow : Z;
  q_submitter : string;
  q_approver : option string;
  q_package_hash : string;
  q_status : approval_status;
  q_reason : string;
  q_decided_at : option Z;
}.

(** The only status of a [ConnectorExecution] is [delivered]. *)
Record connector_execution := ConnectorExecution {
  x_approval : Z;
  x_idempotency_key : string;
  x_receipt : json;
}.

(** [target_id]: the text of a row's key, or a fixed name. *)
Inductive audit_target := Row (id : Z) | Named (name : string).
#[global] Instance audit_target_eq_dec : EqDecision audit_target.
Proof. solve_decision. Defined.

Record audit_event := AuditEvent {
  u_actor : option string;
  u_action : string;
  u_target_type : string;
  u_target_id : audit_target;
  u_details : json;
}.

Record db := DB {
  d_users : gmap string Z;
  d_actors : gmap string actor;
  d_events : gmap Z event;
  d_sources : gmap Z provider_event;
  d_snapshots : gmap Z provider_snapshot;
  d_revisions : gmap Z event_revision;
  d_workflows : gmap Z workflow;
  d_transitions : list transition;
  d_approvals : gmap Z approval_request;
  d_executions : gmap Z connector_execution;
  d_audit : list audit_event;
  (** workflows with a queued or running agent run (rows of the agents app) *)
  d_active_runs : gset Z;
  d_next : Z;
}.

(** ** Errors *)

Inductive error :=
| DemoError (code message : string) (status : Z)
| IntegrityError (constraint : string)
| DoesNotExist (model : string)
| PyError (e : py_exn).

#[global] Instance error_eq_dec : EqDecision error.
Proof. solve_decision. Defined.

Abbreviation M := (ST db error).

Definition py {A : Type} (r : result py_exn A) : M A :=
  lift (match r with Ok a => Ok a | Err e => Err (PyError e) end).

(** ** Row updates *)

Definition set_users x d := DB x (d_actors d) (d_events d) (d_sources d) (d_snapshots d) (d_revisions d) (d_workflows d) (d_transitions d) (d_approvals d) (d_executions d) (d_audit d) (d_active_runs d) (d_next d).
Definition set_actors x d := DB (d_users d) x (d_events d) (d_sources d) (d_snapshots d) (d_revisions d) (d_workflows d) (d_transitions d) (d_approvals d) (d_executions d) (d_audit d) (d_active_runs d) (d_next d).
Definition set_events x d := DB (d_users d) (d_actors d) x (d_sources d) (d_snapshots d) (d_revisions d) (d_workflows d) (d_transitions d) (d_approvals d) (d_executions d) (d_audit d) (d_active_runs d) (d_next d).
Definition set_sources x d := DB (d_users d) (d_actors d) (d_events d) x (d_snapshots d) (d_revisions d) (d_workflows d) (d_transitions d) (d_approvals d) (d_executions d) (d_audit d) (d_active_runs d) (d_next d).
Definition set_revisions x d := DB (d_users d) (d_actors d) (d_events d) (d_sources d) (d_snapshots d) x (d_workflows d) (d_transitions d) (d_approvals d) (d_executions d) (d_audit d) (d_active_runs d) (d_next d).
Definition set_workflows x d := DB (d_users d) (d_actors d) (d_events d) (d_sources d) (d_snapshots d) (d_revisions d) x (d_transitions d) (d_approvals d) (d_executions d) (d_audit d) (d_active_runs d) (d_next d).
Definition set_transitions x d := DB (d_users d) (d_actors d) (d_events d) (d_sources d) (d_snapshots d) (d_revisions d) (d_workflows d) x (d_approvals d) (d_executions d) (d_audit d) (d_active_runs d) (d_next d).
Definition set_approvals x d := DB (d_users d) (d_actors d) (d_events d) (d_sources d) (d_snapshots d) (d_revisions d) (d_workflows d) (d_transitions d) x (d_executions d) (d_audit d) (d_active_runs d) (d_next d).
Definition set_executions x d := DB (d_users d) (d_actors d) (d_events d) (d_sources d) (d_snapshots d) (d_revisions d) (d_workflows d) (d_transitions d) (d_approvals d) x (d_audit d) (d_active_runs d) (d_next d).
Definition set_audit x d := DB (d_users d) (d_actors d) (d_events d) (d_sources d) (d_snapshots d) (d_revisions d) (d_workflows d) (d_transitions d) (d_approvals d) (d_executions d) x (d_active_runs d) (d_next d).
Definition set_next x d := DB (d_users d) (d_actors d) (d_events d) (d_sources d) (d_snapshots d) (d_revisions d) (d_workflows d) (d_transitions d) (d_approvals d) (d_executions d) (d_audit d) (d_active_runs d) x.

Definition fresh : M Z :=
  d ← get; _ ← put (set_next (d_next d + 1) d); mret (d_next d).

Definition any_row {V : Type} (m : gmap Z V) (f : V -> bool) : bool :=
  existsb (fun kv => f kv.2) (map_to_list m).

(** [Model.objects.filter(pred).delete()] *)
Definition keep {V : Type} (f : V -> bool) (m : gmap Z V) : gmap Z V :=
  filter (fun kv => f kv.2 = true) m.

(** [Workflow(..., revision, status, package, package_hash).save(...)] on a known row *)
Definition update_workflow (wid : Z) (f : workflow -> workflow) : M () :=
  modify (fun d => set_workflows (alter f wid (d_workflows d)) d).

Definition with_status (s : wf_status) (w : workflow) : workflow :=
  Workflow (w_event w) (w_revision w) s (w_package w) (w_package_hash w)
    (w_telemetry_traceparent w).
Definition with_package (p : option json) (h : string) (w : workflow) : workflow :=
  Workflow (w_event w) (w_revision w) (w_status w) p h (w_telemetry_traceparent w).
Definition with_revision (r : Z) (w : workflow) : workflow :=
  Workflow (w_event w) r (w_status w) (w_package w) (w_package_hash w)
    (w_telemetry_traceparent w).
Definition with_traceparent (t : string) (w : workflow) : workflow :=
  Workflow (w_event w) (w_revision w) (w_status w) (w_package w) (w_package_hash w) t.

Definition create_transition (t : transition) : M () :=
  modify (fun d => set_transitions (d_transitions d ++ [t]) d).

(** [Event.objects.create]: the slug is unique. *)
Definition create_event (slug title : string) : M Z :=
  d ← get;
  _ ← fail_if (any_row (d_events d) (fun e => String.eqb (e_slug e) slug))
        (IntegrityError "launchloop_event.slug");
  id ← fresh;
  _ ← modify (fun d => set_events (<[id := Event slug title]> (d_events d)) d);
  mret id.

(** [EventRevision.objects.create]: (event, version) is unique. *)
Definition create_revision (r : event_revision) : M Z :=
  d ← get;
  _ ← fail_if (any_row (d_revisions d)
                 (fun r' => (r_event r' =? r_event r) && (r_version r' =? r_version r)))
        (IntegrityError "launchloop_unique_event_revision");
  id ← fresh;
  _ ← modify (fun d => set_revisions (<[id := r]> (d_revisions d)) d);
  mret id.

(** [Workflow.objects.create(event=, revision=)]: one workflow per event. *)
Definition create_workflow (event_id revision_id : Z) : M Z :=
  d ← get;
  _ ← fail_if (any_row (d_workflows d) (fun w => w_event w =? event_id))
        (IntegrityError "launchloop_workflow.event_id");
  id ← fresh;
  _ ← modify (fun d => set_workflows
                (<[id := Workflow event_id revision_id DRAFT None "" ""]> (d_workflows d)) d);
  mret id.

(** [ApprovalRequest.objects.create]: one approval request per workflow. *)
Definition create_approval (q : approval_request) : M Z :=
  d ← get;
  _ ← fail_if (any_row (d_approvals d) (fun q' => q_workflow q' =? q_workflow q))
        (IntegrityError "launchloop_approvalrequest.workflow_id");
  id ← fresh;
  _ ← modify (fun d => set_approvals (<[id := q]> (d_approvals d)) d);
  mret id.

(** [ConnectorExecution.objects.create]: one per approval, unique idempotency key. *)
Definition create_execution (x : connector_execution) : M Z :=
  d ← get;
  _ ← fail_if (any_row (d_executions d)
                 (fun x' => (x_approval x' =? x_approval x)
                            || String.eqb (x_idempotency_key x') (x_idempotency_key x)))
        (IntegrityError "launchloop_connectorexecution");
  id ← fresh;
  _ ← modify (fun d => set_executions (<[id := x]> (d_executions d)) d);
  mret id.

Definition delete_approvals (f : approval_request -> bool) : M () :=
  modify (fun d =>
    let kept := keep (fun q => negb (f q)) (d_approvals d) in
    (* the executions of a deleted request cascade *)
    set_executions (keep (fun x => bool_decide (is_Some (kept !! x_approval x))) (d_executions d))
      (set_approvals kept d)).

(** ** Services *)

Definition NEW_YORK_EVENT : list (string * json) :=
  [("synthetic", JBool true);
   ("title", JStr "New York International Youth Day Networking Breakfast");
   ("city", JStr "New York");
   ("region", JStr "NY");
   ("country", JStr "US");
   ("date", JStr "2026-08-12");
   ("start_time", JStr "09:00");
   ("end_time", JStr "12:00");
   ("timezone", JStr "America/New_York");
   ("venue_name", JStr "");
   ("venue_address", JStr "");
   ("access_instructions", JStr "");
   ("description", JStr "A breakfast networking program for young nonprofit professionals.");
   ("general_ticket_price", JInt 40);
   ("signup_url", JStr "https://example.test/eventbrite/ny-youth-day");
   ("sponsor_tier", JStr "gold");
   ("sponsor_discount_percent", JInt 25)].

Definition DEMO_USERS : list (string * (string * role)) :=
  [("maya.operator", ("Maya Chen", OPERATOR)); ("jordan.approver", ("Jordan Brooks", APPROVER))].

(** [User.objects.get_or_create(username=...)]; names and password are not modelled. *)
Definition seed_demo_users : M () :=
  for_each (map fst DEMO_USERS) (fun username =>
    d ← get;
    match d_users d !! username with
    | Some _ => mret ()
    | None =>
        id ← fresh;
        modify (fun d => set_users (<[username := id]> (d_users d)) d)
    end).

Definition package_hash (package : json) : string :=
  Sha256.sha256_hex (json_dumps true true package).

Definition audit (actor : option string) (action target_type : string) (target_id : Z)
    (details : json) : M () :=
  modify (fun d => set_audit (d_audit d ++ [AuditEvent actor action target_type (Row target_id) details]) d).

(** [_transition]: saves the status, appends the transition and the audit event. *)
Definition move (wid : Z) (actor : string) (to_status : wf_status) (action : string)
    (details : json) : M () :=
  d ← get;
  w ← some_or (d_workflows d !! wid) (DoesNotExist "Workflow");
  let previous := w_status w in
  _ ← update_workflow wid (with_status to_status);
  _ ← create_transition (WorkflowTransition wid actor (Some previous) to_status action details);
  audit (Some actor) action "workflow" wid details.

(** [DemoActor.objects.update_or_create(slug=...)]: the user link is one-to-one. *)
Definition upsert_actor (a : actor) : M () :=
  d ← get;
  _ ← fail_if (existsb (fun kv => negb (String.eqb kv.1 (a_slug a))
                          && bool_decide (is_Some (a_user a) /\ a_user kv.2 = a_user a))
                 (map_to_list (d_actors d)))
        (IntegrityError "launchloop_demoactor.user_id");
  modify (fun d => set_actors (<[a_slug a := a]> (d_actors d)) d).

Definition is_demo_revision (r : event_revision) : bool :=
  (String.eqb (r_author r) "maya" || String.eqb (r_author r) "jordan")
  && negb (bool_decide (is_Some (r_source_snapshot r))).

Definition demo_event_ids (d : db) : gset Z :=
  list_to_set (map (fun kv => r_event kv.2)
                 (List.filter (fun kv => is_demo_revision kv.2) (map_to_list (d_revisions d)))).

Definition clear_demo : M () :=
  d ← get;
  let ids := demo_event_ids d in
  let in_ids e := bool_decide (e ∈ ids) in
  let demo_workflow wid :=
    match d_workflows d !! wid with Some w => in_ids (w_event w) | None => false end in
  _ ← delete_approvals (fun q => demo_workflow (q_workflow q));
  _ ← modify (fun d => set_transitions
        (List.filter (fun t => negb (demo_workflow (t_workflow t))) (d_transitions d)) d);
  _ ← modify (fun d => set_workflows (keep (fun w => negb (in_ids (w_event w))) (d_workflows d)) d);
  _ ← modify (fun d => set_revisions (keep (fun r => negb (in_ids (r_event r))) (d_revisions d)) d);
  modify (fun d => set_events (filter (fun kv => kv.1 ∉ ids) (d_events d)) d).

Definition reset_demo : M Z :=
  atomic (
    _ ← clear_demo;
    _ ← seed_demo_users;
    d ← get;
    _ ← upsert_actor (Actor "maya" "Maya Chen" OPERATOR (d_users d !! "maya.operator"));
    _ ← upsert_actor (Actor "jordan" "Jordan Brooks" APPROVER (d_users d !! "jordan.approver"));
    event_id ← create_event "ny-youth-day"
                 "New York International Youth Day Networking Breakfast";
    revision_id ← create_revision (EventRevision event_id 1 NEW_YORK_EVENT "maya" None);
    wid ← create_workflow event_id revision_id;
    let details := JDict [("revision", JInt 1)] in
    _ ← create_transition (WorkflowTransition wid "maya" None DRAFT "demo_reset" details);
    _ ← audit (Some "maya") "demo_reset" "workflow" wid details;
    mret wid).

(** [Workflow.objects.first()]: the smallest primary key. *)
Definition first_workflow (d : db) : option Z :=
  fold_right (fun kv acc => match acc with
                            | Some k => Some (Z.min kv.1 k)
                            | None => Some kv.1
                            end) None (map_to_list (d_workflows d)).

Definition current_workflow : M Z :=
  d ← get;
  match first_workflow d with Some wid => mret wid | None => reset_demo end.

Definition actor_for_user (user : Z) : M actor :=
  d ← get;
  some_or (snd <$> List.find (fun kv => bool_decide (a_user kv.2 = Some user))
                     (map_to_list (d_actors d)))
    (DemoError "demo_role_not_found"
       "This account is not assigned to the seeded demo workspace." 403).

Definition workflow_for (wid : Z) : M workflow :=
  d ← get;
  some_or (d_workflows d !! wid)
    (DemoError "workflow_not_found" "The workflow does not exist." 404).

Inductive kind := SYNTHETIC | EVENTBRITE | MANUAL | UNSUPPORTED.
#[global] Instance kind_eq_dec : EqDecision kind.
Proof. solve_decision. Defined.

Definition is_true (v : json) : bool := match v with JBool b => b | _ => false end.

(** [owner_events.source_kind] *)
Definition source_kind (r : event_revision) : kind :=
  if is_true (get_or_none (r_snapshot r) "synthetic") then SYNTHETIC
  else if bool_decide (is_Some (r_source_snapshot r)) then EVENTBRITE
  else if is_true (get_or_none (r_snapshot r) "owner_event") then MANUAL
  else UNSUPPORTED.

Section services.
Context `{OwnerEvents.Platform}.
(** The trace parent the telemetry runtime injects, [None] when it is disabled. *)
Context (telemetry : option string).

(** [workflow_operation]: entering it may save the workflow's trace parent. *)
Definition workflow_operation (wid : Z) (w : workflow) : M () :=
  match telemetry with
  | Some traceparent =>
      if String.eqb (w_telemetry_traceparent w) "" && negb (String.eqb traceparent "")
      then update_workflow wid (with_traceparent traceparent)
      else mret ()
  | None => mret ()
  end.

(** [Workflow.objects.select_for_update().select_related("revision").get(id=)] *)
Definition locked_workflow (wid : Z) : M (workflow * event_revision) :=
  d ← get;
  w ← some_or (d_workflows d !! wid) (DoesNotExist "Workflow");
  r ← some_or (d_revisions d !! w_revision w) (DoesNotExist "EventRevision");
  mret (w, r).

Definition make_package (r : event_revision) : result py_exn json :=
  if bool_decide (source_kind r = SYNTHETIC)
  then Engine.prepare_package (r_snapshot r)
  else OwnerEvents.prepare_owner_package (r_snapshot r).

Definition field (v : json) (k : string) : result py_exn json :=
  match v with JDict d => subscript d k | _ => Err TypeError end.

Definition run_workflow (wid : Z) (a : actor) : M () :=
  atomic (
    wr ← locked_workflow wid;
    let '(w, r) := wr in
    _ ← fail_if (negb (bool_decide (a_role a = OPERATOR)))
          (DemoError "operator_required" "Only the operator can run LaunchLoop." 403);
    _ ← fail_if (negb (bool_decide (w_status w = DRAFT)))
          (DemoError "invalid_workflow_state" "LaunchLoop can only run from Draft." 409);
    _ ← workflow_operation wid w;
    package ← py (make_package r);
    _ ← update_workflow wid (with_package (Some package) (package_hash package));
    status ← py (field package "status");
    let destination :=
      if py_eq status (JStr "ready_for_review") then READY_FOR_REVIEW else NEEDS_INPUT in
    missing ← py (field package "missing_fields");
    move wid (a_slug a) destination "launchloop_ran"
      (JDict [("revision", JInt (r_version r)); ("missing_fields", missing)])).

Definition required_answers : list string :=
  ["venue_name"; "venue_address"; "access_instructions"].

(** [str(answers.get(field, "")).strip()] *)
Definition answer_text (answers : list (string * json)) (fld : string) : string :=
  strip (py_str (get_default answers fld (JStr ""))).

Definition answered_fields (answers : list (string * json)) : list (string * json) :=
  map (fun fld => (fld, JStr (answer_text answers fld)))
    (filter (fun fld => answer_text answers fld <> "") required_answers).

Definition missing_answers (snapshot : list (string * json)) : list string :=
  filter (fun fld => answer_text snapshot fld = "") required_answers.

Definition answer_questions (wid : Z) (a : actor) (answers : list (string * json)) : M () :=
  atomic (
    wr ← locked_workflow wid;
    let '(w, r) := wr in
    _ ← fail_if (negb (bool_decide (source_kind r = SYNTHETIC)))
          (DemoError "synthetic_only" "Use the owner public event facts editor." 403);
    _ ← fail_if (negb (bool_decide (a_role a = OPERATOR)))
          (DemoError "operator_required" "Only the operator can resolve event facts." 403);
    _ ← fail_if (negb (bool_decide (w_status w = NEEDS_INPUT)))
          (DemoError "invalid_workflow_state" "This workflow is not waiting for input." 409);
    let answered := answered_fields answers in
    _ ← fail_if (bool_decide (length answered = 0%nat))
          (DemoError "answers_incomplete" "Save at least one event fact before continuing." 400);
    _ ← workflow_operation wid w;
    let snapshot := dict_update (r_snapshot r) answered in
    let missing := missing_answers snapshot in
    revision_id ← create_revision
      (EventRevision (w_event w) (r_version r + 1) snapshot (a_slug a) None);
    _ ← update_workflow wid (fun w => with_package None "" (with_revision revision_id w));
    _ ← delete_approvals (fun q => q_workflow q =? wid);
    let destination := match missing with [] => DRAFT | _ => NEEDS_INPUT end in
    move wid (a_slug a) destination
      (match missing with [] => "event_facts_resolved" | _ => "event_facts_saved" end)
      (JDict [("revision", JInt (r_version r + 1));
              ("fields", JList (map (fun kv => JStr kv.1) answered));
              ("missing_fields", JList (map JStr missing))])).

Definition submit_workflow (wid : Z) (a : actor) : M Z :=
  atomic (
    wr ← locked_workflow wid;
    let '(w, r) := wr in
    _ ← fail_if (negb (bool_decide (a_role a = OPERATOR)))
          (DemoError "operator_required" "Only the operator can submit this package." 403);
    _ ← fail_if (negb (bool_decide (source_kind r = SYNTHETIC)))
          (DemoError "synthetic_only" "Use the owner provider request review." 403);
    _ ← fail_if (negb (bool_decide (w_status w = READY_FOR_REVIEW))
                 || String.eqb (w_package_hash w) "")
          (DemoError "invalid_workflow_state" "Only a review-ready package can be submitted." 409);
    _ ← workflow_operation wid w;
    qid ← create_approval
      (ApprovalRequest wid (a_slug a) None (w_package_hash w) A_PENDING "" None);
    _ ← move wid (a_slug a) IN_REVIEW "package_submitted"
          (JDict [("package_hash", JStr (w_package_hash w))]);
    mret qid).

(** [int((workflow.package or {}).get("audience", {}).get("member_count", 0))]; a
    package's count is an [int], so [int()] of other types is left as an error. *)
Definition audience_count (package : option json) : result py_exn Z :=
  match package with
  | Some (JDict p) =>
      match get_default p "audience" (JDict []) with
      | JDict aud =>
          match get_default aud "member_count" (JInt 0) with
          | JInt z => Ok z
          | JBool b => Ok (Z_of_bool b)
          | _ => Err TypeError
          end
      | _ => Err AttributeError
      end
  | None => Ok 0
  | Some p => if truthy p then Err AttributeError else Ok 0
  end.

Definition receipt (audience : Z) : json :=
  JDict [("connector", JStr "sandbox_iterable");
         ("campaign", JStr "New York Youth Day invitation and reminder");
         ("audience_count", JInt audience);
         ("mode", JStr "simulation");
         ("external_actions", JInt 0);
         ("message", JStr "Sandbox delivery recorded. No email or social post was sent.")].

Definition save_approval (qid : Z) (q : approval_request) : M () :=
  modify (fun d => set_approvals (<[qid := q]> (d_approvals d)) d).

Definition decide_approval (now : Z) (qid : Z) (a : actor) (decision submitted_hash reason : string)
  : M () :=
  atomic (
    d ← get;
    q ← some_or (d_approvals d !! qid)
          (DemoError "approval_not_found" "The approval request does not exist." 404);
    wr ← locked_workflow (q_workflow q);
    let '(w, r) := wr in
    let wid := q_workflow q in
    _ ← fail_if (negb (bool_decide (source_kind r = SYNTHETIC)))
          (DemoError "synthetic_only" "Use the owner provider request review." 403);
    _ ← fail_if (String.eqb (a_slug a) (q_submitter q))
          (DemoError "self_approval_forbidden"
             "The package submitter cannot approve their own work." 403);
    _ ← fail_if (negb (bool_decide (a_role a = APPROVER)))
          (DemoError "approver_required" "An approver persona is required." 403);
    _ ← fail_if (negb (bool_decide (q_status q = A_PENDING)))
          (DemoError "approval_already_decided" "This request is already decided." 409);
    _ ← fail_if (negb (String.eqb submitted_hash (q_package_hash q)))
          (DemoError "package_hash_mismatch"
             "The package changed after review. Reload before deciding." 409);
    _ ← fail_if (negb (String.eqb decision "approve" || String.eqb decision "reject"))
          (DemoError "invalid_decision" "Decision must be approve or reject." 400);
    let decided status :=
      ApprovalRequest wid (q_submitter q) (Some (a_slug a)) (q_package_hash q) status reason
        (Some now) in
    _ ← workflow_operation wid w;
    if String.eqb decision "reject" then
      _ ← save_approval qid (decided A_REJECTED);
      _ ← update_workflow wid (with_package None "");
      move wid (a_slug a) NEEDS_INPUT "package_rejected" (JDict [("reason", JStr reason)])
    else
      _ ← save_approval qid (decided A_APPROVED);
      _ ← move wid (a_slug a) APPROVED "package_approved"
            (JDict [("package_hash", JStr (q_package_hash q))]);
      count ← py (audience_count (w_package w));
      _ ← create_execution
            (ConnectorExecution qid ("launchloop:" +:+ q_package_hash q) (receipt count));
      move wid (a_slug a) COMPLETED "sandbox_receipt_recorded"
        (JDict [("connector", JStr "sandbox_iterable"); ("audience_count", JInt count)])).

End services.
End LaunchLoop.
