(* ===== verification/Pilot.v ===== *)
(** * The owner's events (backend/launchloop/pilot.py)

    The operations of the authenticated owner on the workflow tables: selecting an
    Eventbrite event, editing public facts, starting a manual event.  The provider
    tables are filled by the refresh job, which is not modelled here. *)

From S2P Require Import Prelude PyValue OwnerEvents LaunchLoop.
Import LaunchLoop.

Module Pilot.

Definition SELECTABLE_STATUSES : list string := ["draft"; "live"].

(** What [owner_operator] reads of an administrator session. *)
Record administrator := Administrator {
  adm_profile_id : Z;
  adm_user : Z;
  adm_full_name : string;
  adm_username : string;
}.

Definition actor_of_user (d : db) (user : Z) : option actor :=
  snd <$> List.find (fun kv => bool_decide (a_user kv.2 = Some user)) (map_to_list (d_actors d)).

(** [DemoActor.objects.update_or_create(user=user, defaults={"slug": ...})]: the
    slug is the primary key, so a row found under another slug is inserted again
    and breaks the one-to-one user link. *)
Definition owner_operator (adm : administrator) : M actor :=
  d ← get;
  let slug := "owner-" +:+ str_of_Z (adm_profile_id adm) in
  let name := if String.eqb (adm_full_name adm) "" then adm_username adm else adm_full_name adm in
  let a := Actor slug name OPERATOR (Some (adm_user adm)) in
  _ ← fail_if (match actor_of_user d (adm_user adm) with
               | Some a' => negb (String.eqb (a_slug a') slug)
               | None => bool_decide (is_Some (d_actors d !! slug))
               end)
        (IntegrityError "launchloop_demoactor");
  _ ← modify (fun d => set_actors (<[slug := a]> (d_actors d)) d);
  mret a.

Definition value_error {A : Type} (code : string) : M A := raise (PyError (ValueError code)).
Definition reject_if (c : bool) (code : string) : M () := fail_if c (PyError (ValueError code)).

Definition imported_facts (s : provider_snapshot) : list (string * json) :=
  [("title", JStr (p_title s));
   ("city", JStr "");
   ("region", JStr "");
   ("country", JStr "");
   ("date", JStr (match p_start s with Some (day, _) => day | None => "" end));
   ("start_time", JStr (match p_start s with Some (_, hm) => hm | None => "" end));
   ("end_time", JStr (match p_end s with Some (_, hm) => hm | None => "" end));
   ("timezone", JStr (p_timezone s));
   ("venue_name", JStr "");
   ("venue_address", JStr "");
   ("access_instructions", JStr "");
   ("description",
    JStr "Imported from Eventbrite for local review. Provider text is not copied.");
   ("general_ticket_price", JInt 0);
   ("signup_url", JStr "");
   ("sponsor_tier", JStr "");
   ("sponsor_discount_percent", JInt 0)].

(** [(event.revisions.aggregate(value=Max("version"))["value"] or 0) + 1] *)
Definition next_version (d : db) (event_id : Z) : Z :=
  fold_right Z.max 0
    (map (fun kv => r_version kv.2)
       (List.filter (fun kv => r_event kv.2 =? event_id) (map_to_list (d_revisions d)))) + 1.

Definition workflow_of_event (d : db) (event_id : Z) : option (Z * workflow) :=
  List.find (fun kv => w_event kv.2 =? event_id) (map_to_list (d_workflows d)).

Definition set_title (title : string) (e : event) : event := Event (e_slug e) title.
Definition set_local_event (id : Z) (s : provider_event) : provider_event :=
  ProviderEvent (s_provider_event_id s) (s_current_snapshot s) (Some id) (s_available s).

Definition save_title (event_id : Z) (title : string) : M () :=
  modify (fun d => set_events (alter (set_title title) event_id (d_events d)) d).

(** A new revision becomes the workflow's, which goes back to Draft. *)
Definition restart (wid revision_id : Z) : M () :=
  update_workflow wid
    (fun w => with_package None "" (with_status DRAFT (with_revision revision_id w))).

Definition select_eventbrite_event (source_id : Z) (a : actor) : M Z :=
  atomic (
    d ← get;
    source ← some_or (d_sources d !! source_id) (PyError (ValueError "event_not_found"));
    let snapshot :=
      id ← s_current_snapshot source; s ← d_snapshots d !! id; Some (id, s) in
    match snapshot with
    | None => value_error "event_unavailable"
    | Some (snapshot_id, s) =>
        _ ← reject_if (negb (s_available source)
                       || negb (bool_decide (p_status s ∈ SELECTABLE_STATUSES)))
              "event_unavailable";
        event_id ← (match s_local_event source with
                    | None =>
                        id ← create_event ("eventbrite-" +:+ s_provider_event_id source) (p_title s);
                        _ ← modify (fun d => set_sources
                              (<[source_id := set_local_event id source]> (d_sources d)) d);
                        mret id
                    | Some id => _ ← save_title id (p_title s); mret id
                    end);
        d ← get;
        let found := workflow_of_event d event_id in
        let current_source :=
          wf ← found; r ← d_revisions d !! w_revision wf.2; r_source_snapshot r in
        match found with
        | Some (wid, w) =>
            if bool_decide (current_source = Some snapshot_id) then mret wid
            else
              _ ← reject_if (negb (bool_decide (w_status w = DRAFT \/ w_status w = NEEDS_INPUT)))
                    "review_in_progress";
              revision_id ← create_revision
                (EventRevision event_id (next_version d event_id) (imported_facts s) (a_slug a)
                   (Some snapshot_id));
              _ ← restart wid revision_id;
              _ ← create_transition (WorkflowTransition wid (a_slug a) (Some (w_status w)) DRAFT
                    "eventbrite_event_selected"
                    (JDict [("source_snapshot_id", JStr (str_of_Z snapshot_id))]));
              mret wid
        | None =>
            revision_id ← create_revision
              (EventRevision event_id (next_version d event_id) (imported_facts s) (a_slug a)
                 (Some snapshot_id));
            wid ← create_workflow event_id revision_id;
            _ ← create_transition (WorkflowTransition wid (a_slug a) None DRAFT
                  "eventbrite_event_selected"
                  (JDict [("source_snapshot_id", JStr (str_of_Z snapshot_id))]));
            mret wid
        end
    end).

Section facts.
Context `{OwnerEvents.Platform}.

Definition str_items (facts : list (string * string)) : list (string * json) :=
  map (fun kv => (kv.1, JStr kv.2)) facts.

Definition update_event_facts (wid : Z) (body : json) (a : actor) : M () :=
  atomic (
    wr ← locked_workflow wid;
    let '(w, r) := wr in
    _ ← reject_if (negb (bool_decide (source_kind r = MANUAL \/ source_kind r = EVENTBRITE)))
          "owner_event_required";
    _ ← reject_if (negb (String.eqb (r_author r) (a_slug a))
                   || negb (bool_decide (a_role a = OPERATOR)))
          "event_owner_required";
    d ← get;
    _ ← reject_if (bool_decide (wid ∈ d_active_runs d)) "review_in_progress";
    _ ← reject_if (negb (bool_decide (w_status w = DRAFT \/ w_status w = NEEDS_INPUT
                                      \/ w_status w = READY_FOR_REVIEW)))
          "review_in_progress";
    changes ← py (OwnerEvents.validate_facts body);
    _ ← reject_if (bool_decide (length changes = 0%nat)) "invalid_event_facts";
    let facts := dict_update (r_snapshot r) (str_items changes) in
    revision_id ← create_revision
      (EventRevision (w_event w) (r_version r + 1) facts (a_slug a) (r_source_snapshot r));
    _ ← restart wid revision_id;
    title ← py (subscript facts "title");
    _ ← save_title (w_event w) (py_str title);
    create_transition (WorkflowTransition wid (a_slug a) (Some (w_status w)) DRAFT
      "owner_event_facts_saved" (JDict [("revision", JInt (r_version r + 1))]))).

(** [slug_token] is [uuid.uuid4().hex[:20]]. *)
Definition start_manual_event (slug_token : string) (body : json) (a : actor) : M Z :=
  atomic (
    changes ← py (OwnerEvents.validate_facts body);
    let facts := dict_update (map (fun key => (key, JStr "")) OwnerEvents.FACT_FIELDS)
                   (str_items changes) in
    _ ← reject_if (negb (forallb (fun key => truthy (get_or_none facts key))
                           ["title"; "date"; "timezone"]))
          "invalid_event_brief";
    let facts := dict_set "owner_event" (JBool true) facts in
    event_id ← create_event ("manual-" +:+ slug_token) (py_str (get_or_none facts "title"));
    revision_id ← create_revision (EventRevision event_id 1 facts (a_slug a) None);
    wid ← create_workflow event_id revision_id;
    _ ← create_transition (WorkflowTransition wid (a_slug a) None DRAFT "manual_event_started"
          (JDict [("revision", JInt 1)]));
    mret wid).

End facts.
End Pilot.
