(* ===== verification/LaunchLoopEffects.v ===== *)
(** * What each workflow service does to the database

    Functional specifications of the operations of [LaunchLoop] and [Pilot]: a
    successful call passed the guards of the code and changed exactly the rows
    written here. *)

From S2P Require Import Prelude PyValue Sha256 Engine OwnerEvents LaunchLoop Pilot.
Import LaunchLoop.

Module Effects.

(** ** Maps *)

Lemma alter_some {V : Type} (m : gmap Z V) f k v :
  m !! k = Some v -> alter f k m = <[k := f v]> m.
Proof.
  intros Hk. apply map_eq. intros i. rewrite lookup_alter, lookup_insert.
  case_decide; subst; by rewrite ?Hk.
Qed.

Lemma alter_none {V : Type} (m : gmap Z V) f k : m !! k = None -> alter f k m = m.
Proof.
  intros Hk. apply map_eq. intros i. rewrite lookup_alter.
  case_decide; subst; by rewrite ?Hk.
Qed.

Lemma any_row_false {V : Type} (m : gmap Z V) f :
  any_row m f = false <-> forall k v, m !! k = Some v -> f v = false.
Proof.
  unfold any_row. rewrite <- not_true_iff_false, existsb_exists. split.
  - intros Hn k v Hk. apply not_true_iff_false. intros Hf. apply Hn. exists (k, v).
    split; [|done]. by apply list_elem_of_In, elem_of_map_to_list.
  - intros Hall ([k v] & Hin & Hf).
    apply list_elem_of_In, elem_of_map_to_list in Hin. apply Hall in Hin. cbn in Hf. congruence.
Qed.

Lemma any_row_true {V : Type} (m : gmap Z V) f :
  any_row m f = true <-> exists k v, m !! k = Some v /\ f v = true.
Proof.
  unfold any_row. rewrite existsb_exists. split.
  - intros ([k v] & Hin & Hf). apply list_elem_of_In, elem_of_map_to_list in Hin. eauto.
  - intros (k & v & Hk & Hf). exists (k, v). split; [|done].
    by apply list_elem_of_In, elem_of_map_to_list.
Qed.

Lemma lookup_keep {V : Type} (f : V -> bool) (m : gmap Z V) k v :
  keep f m !! k = Some v <-> m !! k = Some v /\ f v = true.
Proof. unfold keep. by rewrite map_lookup_filter_Some. Qed.

Lemma elem_of_demo_event_ids d e :
  e ∈ demo_event_ids d <->
  exists k r, d_revisions d !! k = Some r /\ is_demo_revision r = true /\ r_event r = e.
Proof.
  unfold demo_event_ids. rewrite elem_of_list_to_set, list_elem_of_In, in_map_iff. split.
  - intros ([k r] & He & Hin). apply filter_In in Hin as [Hin Hd].
    apply list_elem_of_In, elem_of_map_to_list in Hin. eauto.
  - intros (k & r & Hk & Hd & He). exists (k, r). split; [done|].
    apply filter_In. split; [|done]. by apply list_elem_of_In, elem_of_map_to_list.
Qed.

(** Projections of updated records, and nothing else. *)
Ltac db_simpl :=
  cbn [d_users d_actors d_events d_sources d_snapshots d_revisions d_workflows d_transitions
       d_approvals d_executions d_audit d_active_runs d_next
       set_users set_actors set_events set_sources set_revisions set_workflows set_transitions
       set_approvals set_executions set_audit set_next
       with_status with_package with_revision with_traceparent
       w_event w_revision w_status w_package w_package_hash w_telemetry_traceparent
       r_event r_version r_snapshot r_author r_source_snapshot
       q_workflow q_submitter q_approver q_package_hash q_status q_reason q_decided_at
       x_approval x_idempotency_key x_receipt
       t_workflow t_actor t_from t_to t_action t_details e_slug e_title fst snd] in * |- *.

(** ** Building blocks *)

(** One transition of a workflow, with its row, log entry and audit entry. *)
Definition advance (wid : Z) (w' : workflow) (t : transition) (u : audit_event) (d : db) : db :=
  set_audit (d_audit d ++ [u])
    (set_transitions (d_transitions d ++ [t])
       (set_workflows (<[wid := w']> (d_workflows d)) d)).

Definition log_entry (wid : Z) (a : string) (s s' : wf_status) (action : string) (details : json)
  : transition := WorkflowTransition wid a (Some s) s' action details.
Definition audit_entry (wid : Z) (a action : string) (details : json) : audit_event :=
  AuditEvent (Some a) action "workflow" (Row wid) details.

Lemma lookup_advance wid w' t u d : d_workflows (advance wid w' t u d) !! wid = Some w'.
Proof. apply lookup_insert_eq. Qed.

(** Both sides as explicit records; the rest of the goal is left as it is. *)
Ltac db_norm :=
  cbv [advance
       d_users d_actors d_events d_sources d_snapshots d_revisions d_workflows d_transitions
       d_approvals d_executions d_audit d_active_runs d_next
       set_users set_actors set_events set_sources set_revisions set_workflows set_transitions
       set_approvals set_executions set_audit set_next
       with_status with_package with_revision with_traceparent
       w_event w_revision w_status w_package w_package_hash w_telemetry_traceparent].

Lemma move_ok wid a s action details d u d' :
  move wid a s action details d = (Ok u, d') ->
  exists w, d_workflows d !! wid = Some w /\
    d' = advance wid (with_status s w) (log_entry wid a (w_status w) s action details)
           (audit_entry wid a action details) d.
Proof.
  intros Hm. unfold move, update_workflow, create_transition, audit in Hm. run_inv.
  eexists. split; [eassumption|]. unfold advance. cbn. by erewrite alter_some by eassumption.
Qed.

Lemma move_err wid a s action details d e d' :
  move wid a s action details d = (Err e, d') ->
  d_workflows d !! wid = None.
Proof. intros Hm. unfold move, update_workflow, create_transition, audit in Hm. by run_inv. Qed.

Lemma operation_ok tel wid w d u d' :
  workflow_operation tel wid w d = (Ok u, d') -> d_workflows d !! wid = Some w ->
  exists t, d' = set_workflows (<[wid := with_traceparent t w]> (d_workflows d)) d.
Proof.
  intros Ho Hw.
  assert (Hid : d = set_workflows
            (<[wid := with_traceparent (w_telemetry_traceparent w) w]> (d_workflows d)) d).
  { rewrite insert_id by (by destruct w). by destruct d. }
  unfold workflow_operation, update_workflow in Ho.
  destruct tel as [t|]; [destruct (_ && _)|]; run_inv; eauto.
  exists t. by erewrite alter_some by eassumption.
Qed.

Lemma operation_err tel wid w d e d' : workflow_operation tel wid w d <> (Err e, d').
Proof.
  intros Ho. unfold workflow_operation, update_workflow in Ho.
  destruct tel as [t|]; [destruct (_ && _)|]; run_inv.
Qed.

Lemma locked_ok wid d w r d' :
  locked_workflow wid d = (Ok (w, r), d') ->
  d' = d /\ d_workflows d !! wid = Some w /\ d_revisions d !! w_revision w = Some r.
Proof. intros Hl. unfold locked_workflow in Hl. run_inv. by simplify_eq. Qed.

Lemma py_ok {A : Type} (x : result py_exn A) d a d' : py x d = (Ok a, d') -> x = Ok a /\ d' = d.
Proof. intros Hp. unfold py in Hp. run_inv. destruct x; by simplify_eq. Qed.

Lemma py_err {A : Type} (x : result py_exn A) d e d' :
  py x d = (Err e, d') -> exists e', x = Err e' /\ e = PyError e' /\ d' = d.
Proof. intros Hp. unfold py in Hp. run_inv. destruct x; simplify_eq; eauto. Qed.

Lemma create_revision_ok r d id d' :
  create_revision r d = (Ok id, d') ->
  id = d_next d /\
  d' = set_revisions (<[id := r]> (d_revisions d)) (set_next (d_next d + 1) d) /\
  (forall k r', d_revisions d !! k = Some r' ->
     r_event r' = r_event r -> r_version r' <> r_version r).
Proof.
  intros Hc. unfold create_revision, fresh in Hc. run_inv.
  split_and!; [done..|]. intros k r' Hk He Hv.
  match goal with H : any_row _ _ = false |- _ => rewrite any_row_false in H; apply H in Hk end.
  rewrite He, Hv, !Z.eqb_refl in Hk. done.
Qed.

Lemma create_revision_err r d e d' :
  create_revision r d = (Err e, d') ->
  exists k r', d_revisions d !! k = Some r' /\ r_event r' = r_event r /\ r_version r' = r_version r.
Proof.
  intros Hc. unfold create_revision, fresh in Hc. run_inv.
  match goal with H : any_row _ _ = true |- _ => apply any_row_true in H as (k & r' & ? & ?) end.
  bools. eauto.
Qed.

Lemma create_event_ok slug title d id d' :
  create_event slug title d = (Ok id, d') ->
  id = d_next d /\
  d' = set_events (<[id := Event slug title]> (d_events d)) (set_next (d_next d + 1) d) /\
  (forall k e, d_events d !! k = Some e -> e_slug e <> slug).
Proof.
  intros Hc. unfold create_event, fresh in Hc. run_inv.
  split_and!; [done..|]. intros k e Hk <-.
  match goal with H : any_row _ _ = false |- _ => rewrite any_row_false in H; apply H in Hk end.
  by rewrite String.eqb_refl in Hk.
Qed.

Lemma create_event_err slug title d e d' :
  create_event slug title d = (Err e, d') ->
  exists k ev, d_events d !! k = Some ev /\ e_slug ev = slug.
Proof.
  intros Hc. unfold create_event, fresh in Hc. run_inv.
  match goal with H : any_row _ _ = true |- _ => apply any_row_true in H as (k & r' & ? & ?) end.
  bools. eauto.
Qed.

Lemma create_workflow_ok ev rev d id d' :
  create_workflow ev rev d = (Ok id, d') ->
  id = d_next d /\
  d' = set_workflows (<[id := Workflow ev rev DRAFT None "" ""]> (d_workflows d))
         (set_next (d_next d + 1) d) /\
  (forall k w, d_workflows d !! k = Some w -> w_event w <> ev).
Proof.
  intros Hc. unfold create_workflow, fresh in Hc. run_inv.
  split_and!; [done..|]. intros k w Hk <-.
  match goal with H : any_row _ _ = false |- _ => rewrite any_row_false in H; apply H in Hk end.
  by rewrite Z.eqb_refl in Hk.
Qed.

Lemma create_workflow_err ev rev d e d' :
  create_workflow ev rev d = (Err e, d') ->
  exists k w, d_workflows d !! k = Some w /\ w_event w = ev.
Proof.
  intros Hc. unfold create_workflow, fresh in Hc. run_inv.
  match goal with H : any_row _ _ = true |- _ => apply any_row_true in H as (k & r' & ? & ?) end.
  bools. eauto.
Qed.

Lemma create_approval_ok q d id d' :
  create_approval q d = (Ok id, d') ->
  id = d_next d /\
  d' = set_approvals (<[id := q]> (d_approvals d)) (set_next (d_next d + 1) d) /\
  (forall k q', d_approvals d !! k = Some q' -> q_workflow q' <> q_workflow q).
Proof.
  intros Hc. unfold create_approval, fresh in Hc. run_inv.
  split_and!; [done..|]. intros k q' Hk He.
  match goal with H : any_row _ _ = false |- _ => rewrite any_row_false in H; apply H in Hk end.
  by rewrite He, Z.eqb_refl in Hk.
Qed.

Lemma create_approval_err q d e d' :
  create_approval q d = (Err e, d') ->
  exists k q', d_approvals d !! k = Some q' /\ q_workflow q' = q_workflow q.
Proof.
  intros Hc. unfold create_approval, fresh in Hc. run_inv.
  match goal with H : any_row _ _ = true |- _ => apply any_row_true in H as (k & r' & ? & ?) end.
  bools. eauto.
Qed.

Lemma create_execution_ok x d id d' :
  create_execution x d = (Ok id, d') ->
  id = d_next d /\
  d' = set_executions (<[id := x]> (d_executions d)) (set_next (d_next d + 1) d) /\
  (forall k x', d_executions d !! k = Some x' -> x_approval x' <> x_approval x).
Proof.
  intros Hc. unfold create_execution, fresh in Hc. run_inv.
  split_and!; [done..|]. intros k x' Hk He.
  match goal with H : any_row _ _ = false |- _ => rewrite any_row_false in H; apply H in Hk end.
  by rewrite He, Z.eqb_refl in Hk.
Qed.

Lemma create_execution_err x d e d' :
  create_execution x d = (Err e, d') ->
  exists k x', d_executions d !! k = Some x' /\
    (x_approval x' = x_approval x \/ x_idempotency_key x' = x_idempotency_key x).
Proof.
  intros Hc. unfold create_execution, fresh in Hc. run_inv.
  match goal with H : any_row _ _ = true |- _ => apply any_row_true in H as (k & r' & ? & Ho) end.
  apply orb_true_iff in Ho as [?|?]; bools; eauto.
Qed.

(** ** Services *)

(** ** Resetting the demo *)

(** The database after the deletions of [reset_demo]. *)
Definition cleared (d : db) : db := (clear_demo d).2.

Lemma clear_demo_run d : clear_demo d = (Ok (), cleared d).
Proof. reflexivity. Qed.

Definition in_demo (d : db) (wid : Z) : Prop :=
  exists w, d_workflows d !! wid = Some w /\ w_event w ∈ demo_event_ids d.

Lemma cleared_workflow d k w :
  d_workflows (cleared d) !! k = Some w <->
  d_workflows d !! k = Some w /\ w_event w ∉ demo_event_ids d.
Proof.
  change (d_workflows (cleared d)) with
    (keep (fun w => negb (bool_decide (w_event w ∈ demo_event_ids d))) (d_workflows d)).
  rewrite lookup_keep, negb_true_iff, bool_decide_eq_false. done.
Qed.

Lemma cleared_revision d k r :
  d_revisions (cleared d) !! k = Some r <->
  d_revisions d !! k = Some r /\ r_event r ∉ demo_event_ids d.
Proof.
  change (d_revisions (cleared d)) with
    (keep (fun r => negb (bool_decide (r_event r ∈ demo_event_ids d))) (d_revisions d)).
  rewrite lookup_keep, negb_true_iff, bool_decide_eq_false. done.
Qed.

Lemma cleared_event d k e :
  d_events (cleared d) !! k = Some e <->
  d_events d !! k = Some e /\ k ∉ demo_event_ids d.
Proof.
  change (d_events (cleared d)) with
    (filter (fun kv : Z * event => kv.1 ∉ demo_event_ids d) (d_events d)).
  by rewrite map_lookup_filter_Some.
Qed.

Definition demo_workflow (d : db) (wid : Z) : bool :=
  match d_workflows d !! wid with
  | Some w => bool_decide (w_event w ∈ demo_event_ids d)
  | None => false
  end.

Lemma demo_workflow_true d wid : demo_workflow d wid = true <-> in_demo d wid.
Proof.
  unfold demo_workflow, in_demo. destruct (d_workflows d !! wid) as [w|].
  - rewrite bool_decide_eq_true. split; [by eauto|]. by intros (w' & [= <-] & ?).
  - split; [done|]. by intros (w' & ? & ?).
Qed.

Lemma cleared_approval d k q :
  d_approvals (cleared d) !! k = Some q <->
  d_approvals d !! k = Some q /\ ~ in_demo d (q_workflow q).
Proof.
  change (d_approvals (cleared d)) with
    (keep (fun q => negb (demo_workflow d (q_workflow q))) (d_approvals d)).
  rewrite lookup_keep, negb_true_iff, <- not_true_iff_false, demo_workflow_true. done.
Qed.

Lemma cleared_execution d k x :
  d_executions (cleared d) !! k = Some x <->
  d_executions d !! k = Some x /\ is_Some (d_approvals (cleared d) !! x_approval x).
Proof.
  change (d_executions (cleared d)) with
    (keep (fun x => bool_decide (is_Some (d_approvals (cleared d) !! x_approval x)))
       (d_executions d)).
  by rewrite lookup_keep, bool_decide_eq_true.
Qed.

Lemma cleared_transitions d :
  d_transitions (cleared d) =
  List.filter (fun t => negb (demo_workflow d (t_workflow t))) (d_transitions d).
Proof. reflexivity. Qed.

Lemma seed_demo_users_ok d u d' :
  seed_demo_users d = (Ok u, d') ->
  exists users n, d_next d <= n /\ d' = set_users users (set_next n d).
Proof.
  destruct d. intros Hs. unfold seed_demo_users, fresh in Hs.
  cbn [DEMO_USERS map for_each fst] in Hs. run_inv.
  repeat match goal with H : match ?x with Some _ => _ | None => _ end _ = _ |- _ => destruct x end;
    run_inv; db_simpl; eexists _, _; (split; [|db_norm; reflexivity]); lia.
Qed.

Lemma seed_demo_users_err d e d' : seed_demo_users d <> (Err e, d').
Proof.
  intros Hs. unfold seed_demo_users, fresh in Hs. cbn [DEMO_USERS map for_each fst] in Hs. run_inv;
  repeat match goal with H : match ?x with Some _ => _ | None => _ end _ = _ |- _ => destruct x end;
    run_inv.
Qed.

Definition maya (d : db) : actor :=
  Actor "maya" "Maya Chen" OPERATOR (d_users d !! "maya.operator").
Definition jordan (d : db) : actor :=
  Actor "jordan" "Jordan Brooks" APPROVER (d_users d !! "jordan.approver").

Definition reset_details : json := JDict [("revision", JInt 1)].

(** The rows [reset_demo] creates, [n] being the first key it draws for them. *)
Definition recreated (n : Z) (d : db) : db :=
  set_audit (d_audit d ++ [audit_entry (n + 2) "maya" "demo_reset" reset_details])
    (set_transitions
       (d_transitions d ++ [WorkflowTransition (n + 2) "maya" None DRAFT "demo_reset" reset_details])
       (set_workflows (<[n + 2 := Workflow n (n + 1) DRAFT None "" ""]> (d_workflows d))
          (set_revisions
             (<[n + 1 := EventRevision n 1 NEW_YORK_EVENT "maya" None]> (d_revisions d))
             (set_events
                (<[n := Event "ny-youth-day"
                          "New York International Youth Day Networking Breakfast"]> (d_events d))
                (set_next (n + 3) d))))).

Lemma reset_demo_ok d wid d' :
  reset_demo d = (Ok wid, d') ->
  exists n users actors, d_next d <= n /\ wid = n + 2 /\
    (forall k e, d_events (cleared d) !! k = Some e -> e_slug e <> "ny-youth-day") /\
    d' = recreated n (set_actors actors (set_users users (cleared d))).
Proof.
  intros Hr. unfold reset_demo in Hr. run_inv. rewrite clear_demo_run in *. simplify_eq.
  match goal with H : seed_demo_users _ = _ |- _ =>
    apply seed_demo_users_ok in H as (users & n & Hn & ->) end.
  unfold upsert_actor, create_transition, audit in *. run_inv.
  match goal with H : create_event _ _ _ = _ |- _ =>
    apply create_event_ok in H as (-> & -> & Hslug) end.
  match goal with H : create_revision _ _ = _ |- _ =>
    apply create_revision_ok in H as (-> & -> & _) end.
  match goal with H : create_workflow _ _ _ = _ |- _ =>
    apply create_workflow_ok in H as (-> & -> & _) end.
  run_inv.
  eexists n, users, _. split_and!; [done| |done|].
  - db_simpl. lia.
  - unfold recreated. db_norm. rewrite <- !Z.add_assoc. reflexivity.
Qed.

Section services.
Context `{OwnerEvents.Platform}.
Context (tel : option string).

Definition destination (status : json) : wf_status :=
  if py_eq status (JStr "ready_for_review") then READY_FOR_REVIEW else NEEDS_INPUT.

(** Common preparation of the specifications below: guards as propositions, the
    locked row, the trace parent. *)
Ltac service_inv :=
  run_inv;
  repeat match goal with p : workflow * event_revision |- _ => destruct p end;
  run_inv;
  repeat match goal with
  | H : locked_workflow _ _ = (Ok _, _) |- _ => apply locked_ok in H as (-> & ? & ?)
  end;
  bools;
  repeat match goal with
  | H : workflow_operation _ _ _ _ = (Ok _, _) |- _ =>
      apply operation_ok in H as [? ->]; [|done]
  end;
  repeat match goal with H : py _ _ = (Ok _, _) |- _ => apply py_ok in H as [? ->] end.

Lemma run_workflow_ok wid a d u d' :
  run_workflow tel wid a d = (Ok u, d') ->
  exists w r p status missing t,
    d_workflows d !! wid = Some w /\ d_revisions d !! w_revision w = Some r /\
    a_role a = OPERATOR /\ w_status w = DRAFT /\
    make_package r = Ok p /\ field p "status" = Ok status /\
    field p "missing_fields" = Ok missing /\
    let details := JDict [("revision", JInt (r_version r)); ("missing_fields", missing)] in
    d' = advance wid
           (Workflow (w_event w) (w_revision w) (destination status) (Some p) (package_hash p) t)
           (log_entry wid (a_slug a) DRAFT (destination status) "launchloop_ran" details)
           (audit_entry wid (a_slug a) "launchloop_ran" details) d.
Proof.
  intros Hr. unfold run_workflow, update_workflow in Hr. service_inv. run_inv.
  match goal with H : move _ _ _ _ _ _ = _ |- _ => apply move_ok in H as (w' & Hw' & ->) end.
  db_simpl. rewrite lookup_alter_eq, lookup_insert_eq in Hw'. injection Hw' as <-.
  match goal with H : w_status _ = DRAFT |- _ => pose proof H as Hst end.
  do 6 eexists. split_and!; try eassumption.
  unfold advance. db_simpl. erewrite alter_some by apply lookup_insert_eq.
  rewrite !insert_insert_eq, Hst. db_norm. reflexivity.
Qed.

(** The request rows of other workflows survive; those of [wid] go, with their
    executions. *)
Definition drop_approvals (wid : Z) (d : db) : db :=
  let kept := keep (fun q => negb (q_workflow q =? wid)) (d_approvals d) in
  set_executions (keep (fun x => bool_decide (is_Some (kept !! x_approval x))) (d_executions d))
    (set_approvals kept d).

Definition answer_destination (missing : list string) : wf_status :=
  match missing with [] => DRAFT | _ => NEEDS_INPUT end.
Definition answer_action (missing : list string) : string :=
  match missing with [] => "event_facts_resolved" | _ => "event_facts_saved" end.

Lemma answer_questions_ok wid a answers d u d' :
  answer_questions tel wid a answers d = (Ok u, d') ->
  exists w r t,
    d_workflows d !! wid = Some w /\ d_revisions d !! w_revision w = Some r /\
    source_kind r = SYNTHETIC /\ a_role a = OPERATOR /\ w_status w = NEEDS_INPUT /\
    answered_fields answers <> [] /\
    let snapshot := dict_update (r_snapshot r) (answered_fields answers) in
    let missing := missing_answers snapshot in
    let rev := EventRevision (w_event w) (r_version r + 1) snapshot (a_slug a) None in
    let details := JDict [("revision", JInt (r_version r + 1));
                          ("fields", JList (map (fun kv => JStr kv.1) (answered_fields answers)));
                          ("missing_fields", JList (map JStr missing))] in
    (forall k r', d_revisions d !! k = Some r' -> r_event r' = w_event w ->
       r_version r' <> r_version r + 1) /\
    d' = drop_approvals wid
           (advance wid (Workflow (w_event w) (d_next d) (answer_destination missing) None "" t)
              (log_entry wid (a_slug a) NEEDS_INPUT (answer_destination missing)
                 (answer_action missing) details)
              (audit_entry wid (a_slug a) (answer_action missing) details)
              (set_revisions (<[d_next d := rev]> (d_revisions d)) (set_next (d_next d + 1) d))).
Proof.
  intros Ha. unfold answer_questions, update_workflow, delete_approvals in Ha. service_inv.
  match goal with H : create_revision _ _ = _ |- _ =>
    apply create_revision_ok in H as (-> & -> & Hv) end.
  run_inv.
  match goal with H : move _ _ _ _ _ _ = _ |- _ => apply move_ok in H as (w' & Hw' & ->) end.
  db_simpl. rewrite lookup_alter_eq, lookup_insert_eq in Hw'. injection Hw' as <-.
  match goal with H : w_status _ = NEEDS_INPUT |- _ => pose proof H as Hst end.
  do 3 eexists. split_and!; try eassumption.
  - intros Hnil. by rewrite Hnil in *.
  - unfold advance, drop_approvals. db_simpl. erewrite alter_some by apply lookup_insert_eq.
    rewrite !insert_insert_eq, Hst. db_norm. reflexivity.
Qed.

Lemma submit_workflow_ok wid a d qid d' :
  submit_workflow tel wid a d = (Ok qid, d') ->
  exists w r t,
    d_workflows d !! wid = Some w /\ d_revisions d !! w_revision w = Some r /\
    source_kind r = SYNTHETIC /\ a_role a = OPERATOR /\ w_status w = READY_FOR_REVIEW /\
    w_package_hash w <> "" /\ qid = d_next d /\
    (forall k q', d_approvals d !! k = Some q' -> q_workflow q' <> wid) /\
    let details := JDict [("package_hash", JStr (w_package_hash w))] in
    d' = advance wid
           (Workflow (w_event w) (w_revision w) IN_REVIEW (w_package w) (w_package_hash w) t)
           (log_entry wid (a_slug a) READY_FOR_REVIEW IN_REVIEW "package_submitted" details)
           (audit_entry wid (a_slug a) "package_submitted" details)
           (set_approvals
              (<[qid := ApprovalRequest wid (a_slug a) None (w_package_hash w) A_PENDING "" None]>
                 (d_approvals d)) (set_next (d_next d + 1) d)).
Proof.
  intros Hs. unfold submit_workflow in Hs. service_inv.
  match goal with H : create_approval _ _ = _ |- _ =>
    apply create_approval_ok in H as (-> & -> & Hq) end.
  match goal with H : move _ _ _ _ _ _ = _ |- _ => apply move_ok in H as (w' & Hw' & ->) end.
  db_simpl. rewrite lookup_insert_eq in Hw'. injection Hw' as <-.
  match goal with H : w_status _ = READY_FOR_REVIEW |- _ => pose proof H as Hst end.
  run_inv. do 3 eexists. split_and!; try eassumption; [done|].
  unfold advance. db_simpl. rewrite !insert_insert_eq, Hst. db_norm. reflexivity.
Qed.

(** The request as a decision leaves it. *)
Definition decided (q : approval_request) (a : actor) (s : approval_status) (reason : string)
    (now : Z) : approval_request :=
  ApprovalRequest (q_workflow q) (q_submitter q) (Some (a_slug a)) (q_package_hash q) s reason
    (Some now).

(** The guards of [decide_approval]. *)
Definition decidable_by (d : db) (qid : Z) (a : actor) (submitted_hash : string)
    (q : approval_request) (w : workflow) (r : event_revision) : Prop :=
  d_approvals d !! qid = Some q /\ d_workflows d !! q_workflow q = Some w /\
  d_revisions d !! w_revision w = Some r /\ source_kind r = SYNTHETIC /\
  a_slug a <> q_submitter q /\ a_role a = APPROVER /\ q_status q = A_PENDING /\
  submitted_hash = q_package_hash q.

Lemma decide_approval_ok now qid a decision submitted_hash reason d u d' :
  decide_approval tel now qid a decision submitted_hash reason d = (Ok u, d') ->
  exists q w r t,
    decidable_by d qid a submitted_hash q w r /\
    let wid := q_workflow q in
    let saved s := set_approvals (<[qid := decided q a s reason now]> (d_approvals d)) d in
    (decision = "reject" /\
     let details := JDict [("reason", JStr reason)] in
     d' = advance wid (Workflow (w_event w) (w_revision w) NEEDS_INPUT None "" t)
            (log_entry wid (a_slug a) (w_status w) NEEDS_INPUT "package_rejected" details)
            (audit_entry wid (a_slug a) "package_rejected" details) (saved A_REJECTED)) \/
    (decision = "approve" /\ exists count,
     audience_count (w_package w) = Ok count /\
     (forall k x', d_executions d !! k = Some x' -> x_approval x' <> qid) /\
     let details := JDict [("package_hash", JStr (q_package_hash q))] in
     let approved :=
       advance wid (Workflow (w_event w) (w_revision w) APPROVED (w_package w) (w_package_hash w) t)
         (log_entry wid (a_slug a) (w_status w) APPROVED "package_approved" details)
         (audit_entry wid (a_slug a) "package_approved" details) (saved A_APPROVED) in
     let x := ConnectorExecution qid ("launchloop:" +:+ q_package_hash q) (receipt count) in
     let details' :=
       JDict [("connector", JStr "sandbox_iterable"); ("audience_count", JInt count)] in
     d' = advance wid
            (Workflow (w_event w) (w_revision w) COMPLETED (w_package w) (w_package_hash w) t)
            (log_entry wid (a_slug a) APPROVED COMPLETED "sandbox_receipt_recorded" details')
            (audit_entry wid (a_slug a) "sandbox_receipt_recorded" details')
            (set_executions (<[d_next d := x]> (d_executions d)) (set_next (d_next d + 1) approved))).
Proof.
  intros Hd. unfold decide_approval, save_approval, update_workflow in Hd. service_inv.
  destruct (String.eqb decision "reject") eqn:Hdec; service_inv; subst;
    repeat match goal with
    | H : move _ _ _ _ _ _ = _ |- _ => apply move_ok in H as (? & ? & ->)
    | H : create_execution _ _ = _ |- _ => apply create_execution_ok in H as (-> & -> & ?)
    end;
    do 4 eexists; (split; [split_and!; try eassumption; done|]); db_simpl.
  - left. split; [done|].
    match goal with H : alter _ _ _ !! _ = _ |- _ =>
      rewrite lookup_alter_eq, lookup_insert_eq in H; injection H as <- end.
    unfold advance. db_simpl. erewrite alter_some by apply lookup_insert_eq.
    rewrite !insert_insert_eq. db_norm. reflexivity.
  - right.
    match goal with H : d_workflows (advance _ _ _ _ _) !! _ = Some _ |- _ =>
      rewrite lookup_advance in H; injection H as <- end.
    match goal with H : <[_ := _]> _ !! _ = Some _ |- _ =>
      rewrite lookup_insert_eq in H; injection H as <- end.
    split.
    + match goal with H : (_ || _) = true |- _ => apply orb_true_iff in H as [?|?] end; by bools.
    + eexists. split_and!; [eassumption|done|].
      unfold advance. db_simpl. rewrite !insert_insert_eq. db_norm. reflexivity.
Qed.

(** ** The owner's events *)

Definition restarted (w : workflow) (rev : Z) : workflow :=
  Workflow (w_event w) rev DRAFT None "" (w_telemetry_traceparent w).

(** A new revision of a known workflow, which goes back to Draft. *)
Definition revised (wid : Z) (w : workflow) (rev : event_revision) (t : transition) (d : db) : db :=
  set_transitions (d_transitions d ++ [t])
    (set_workflows (<[wid := restarted w (d_next d)]> (d_workflows d))
       (set_revisions (<[d_next d := rev]> (d_revisions d)) (set_next (d_next d + 1) d))).

(** A new workflow at its first revision. *)
Definition started (event_id : Z) (rev : event_revision) (a action : string) (details : json)
    (d : db) : db :=
  set_transitions
    (d_transitions d ++ [WorkflowTransition (d_next d + 1) a None DRAFT action details])
    (set_workflows
       (<[d_next d + 1 := Workflow event_id (d_next d) DRAFT None "" ""]> (d_workflows d))
       (set_revisions (<[d_next d := rev]> (d_revisions d)) (set_next (d_next d + 2) d))).

(** The event of a selected source: found with its title refreshed, or created. *)
Inductive event_of_source (sid : Z) (src : provider_event) (s : provider_snapshot) (d : db)
  : Z -> db -> Prop :=
| source_titled id :
    s_local_event src = Some id ->
    event_of_source sid src s d id
      (set_events (alter (Pilot.set_title (p_title s)) id (d_events d)) d)
| source_created :
    s_local_event src = None ->
    (forall k e, d_events d !! k = Some e ->
       e_slug e <> "eventbrite-" +:+ s_provider_event_id src) ->
    event_of_source sid src s d (d_next d)
      (set_sources (<[sid := Pilot.set_local_event (d_next d) src]> (d_sources d))
         (set_events (<[d_next d := Event ("eventbrite-" +:+ s_provider_event_id src) (p_title s)]>
                        (d_events d)) (set_next (d_next d + 1) d))).

Definition imported_revision (d : db) (event_id snapshot_id : Z) (s : provider_snapshot) (a : actor)
  : event_revision :=
  EventRevision event_id (Pilot.next_version d event_id) (Pilot.imported_facts s) (a_slug a)
    (Some snapshot_id).

Lemma select_eventbrite_event_ok sid a d wid d' :
  Pilot.select_eventbrite_event sid a d = (Ok wid, d') ->
  exists src snapshot_id s event_id d1,
    d_sources d !! sid = Some src /\ s_available src = true /\
    s_current_snapshot src = Some snapshot_id /\ d_snapshots d !! snapshot_id = Some s /\
    p_status s ∈ Pilot.SELECTABLE_STATUSES /\ event_of_source sid src s d event_id d1 /\
    let details := JDict [("source_snapshot_id", JStr (str_of_Z snapshot_id))] in
    let rev := imported_revision d1 event_id snapshot_id s a in
    (exists w, Pilot.workflow_of_event d1 event_id = Some (wid, w) /\
       (d' = d1 \/
        ((w_status w = DRAFT \/ w_status w = NEEDS_INPUT) /\
         d' = revised wid w rev
                (log_entry wid (a_slug a) (w_status w) DRAFT "eventbrite_event_selected" details)
                d1))) \/
    (Pilot.workflow_of_event d1 event_id = None /\ wid = d_next d1 + 1 /\
     d' = started event_id rev (a_slug a) "eventbrite_event_selected" details d1).
Proof.
  intros Hs. unfold Pilot.select_eventbrite_event, Pilot.value_error, Pilot.reject_if in Hs.
  run_inv.
  match goal with H : d_sources _ !! _ = Some ?x |- _ => rename x into src end.
  match goal with H : _ = (Ok wid, d') |- _ => rename H into Hrun end.
  destruct (s_current_snapshot src) as [snapshot_id|] eqn:Hcur; cbn in *; [|by run_inv].
  destruct (d_snapshots d !! snapshot_id) as [s|] eqn:Hsnap; cbn in *; [|by run_inv].
  apply bind_ok_inv in Hrun as (? & ? & Hg & Hrun).
  apply fail_if_ok_inv in Hg as [Hg ->]. bools.
  apply bind_ok_inv in Hrun as (event_id & d1 & Hev & Hrun).
  exists src, snapshot_id, s, event_id, d1.
  assert (event_of_source sid src s d event_id d1) as Hsrc.
  { destruct (s_local_event src) eqn:Hloc; unfold Pilot.save_title in Hev; clear Hrun; run_inv.
    - by constructor.
    - match goal with H : create_event _ _ _ = _ |- _ =>
        apply create_event_ok in H as (-> & -> & Hslug) end.
      exact (source_created sid src s d Hloc Hslug). }
  split_and!; try done. clear Hev Hsrc.
  apply bind_ok_inv in Hrun as (? & ? & Hg & Hrun). apply get_inv in Hg as [[= ->] ->].
  destruct (Pilot.workflow_of_event d1 event_id) as [[wid0 w]|] eqn:Hw; cbn in Hrun.
  - left. case_bool_decide; run_inv; [eauto 10|]. bools.
    match goal with H : create_revision _ _ = _ |- _ =>
      apply create_revision_ok in H as (-> & -> & _) end.
    unfold Pilot.restart, update_workflow, create_transition in *. run_inv.
    exists w. split; [done|]. right. split; [done|].
    unfold revised. db_simpl. apply List.find_some in Hw as [Hw _].
    apply list_elem_of_In, elem_of_map_to_list in Hw.
    erewrite alter_some by eassumption. db_norm. reflexivity.
  - right. run_inv.
    match goal with H : create_revision _ _ = _ |- _ =>
      apply create_revision_ok in H as (-> & -> & _) end.
    match goal with H : create_workflow _ _ _ = _ |- _ =>
      apply create_workflow_ok in H as (-> & -> & _) end.
    unfold create_transition in *. run_inv. split_and!; [done|by db_simpl|].
    unfold started. db_norm. rewrite <- !Z.add_assoc. reflexivity.
Qed.

Lemma update_event_facts_ok wid body a d u d' :
  Pilot.update_event_facts wid body a d = (Ok u, d') ->
  exists w r changes title,
    d_workflows d !! wid = Some w /\ d_revisions d !! w_revision w = Some r /\
    (source_kind r = MANUAL \/ source_kind r = EVENTBRITE) /\
    r_author r = a_slug a /\ a_role a = OPERATOR /\ ~ (wid ∈ d_active_runs d) /\
    (w_status w = DRAFT \/ w_status w = NEEDS_INPUT \/ w_status w = READY_FOR_REVIEW) /\
    OwnerEvents.validate_facts body = Ok changes /\ changes <> [] /\
    let facts := dict_update (r_snapshot r) (Pilot.str_items changes) in
    subscript facts "title" = Ok title /\
    let rev := EventRevision (w_event w) (r_version r + 1) facts (a_slug a) (r_source_snapshot r) in
    let t := log_entry wid (a_slug a) (w_status w) DRAFT "owner_event_facts_saved"
               (JDict [("revision", JInt (r_version r + 1))]) in
    (forall k r', d_revisions d !! k = Some r' -> r_event r' = w_event w ->
       r_version r' <> r_version r + 1) /\
    d' = set_events (alter (Pilot.set_title (py_str title)) (w_event w) (d_events d))
           (revised wid w rev t d).
Proof.
  intros Hu. unfold Pilot.update_event_facts, Pilot.reject_if in Hu. service_inv.
  match goal with H : create_revision _ _ = _ |- _ =>
    apply create_revision_ok in H as (-> & -> & Hv) end.
  unfold Pilot.restart, Pilot.save_title, update_workflow, create_transition in *. run_inv.
  repeat match goal with H : py _ _ = (Ok _, _) |- _ => apply py_ok in H as [? ->] end.
  do 4 eexists. split_and!; try eassumption.
  { intros Hnil. subst. match goal with H : length [] <> _ |- _ => by apply H end. }
  unfold revised. db_simpl. erewrite (alter_some (d_workflows d)) by eassumption. db_norm. reflexivity.
Qed.

Definition manual_facts (changes : list (string * string)) : list (string * json) :=
  dict_set "owner_event" (JBool true)
    (dict_update (map (fun key => (key, JStr "")) OwnerEvents.FACT_FIELDS)
       (Pilot.str_items changes)).

Lemma start_manual_event_ok token body a d wid d' :
  Pilot.start_manual_event token body a d = (Ok wid, d') ->
  exists changes title,
    OwnerEvents.validate_facts body = Ok changes /\
    (forall k e, d_events d !! k = Some e -> e_slug e <> "manual-" +:+ token) /\
    wid = d_next d + 2 /\
    let rev := EventRevision (d_next d) 1 (manual_facts changes) (a_slug a) None in
    d' = started (d_next d) rev (a_slug a) "manual_event_started" (JDict [("revision", JInt 1)])
           (set_events (<[d_next d := Event ("manual-" +:+ token) title]> (d_events d))
              (set_next (d_next d + 1) d)).
Proof.
  intros Hs. unfold Pilot.start_manual_event, Pilot.reject_if in Hs. run_inv.
  repeat match goal with H : py _ _ = (Ok _, _) |- _ => apply py_ok in H as [? ->] end.
  run_inv.
  match goal with H : create_event _ _ _ = _ |- _ =>
    apply create_event_ok in H as (-> & -> & Hslug) end.
  match goal with H : create_revision _ _ = _ |- _ =>
    apply create_revision_ok in H as (-> & -> & _) end.
  match goal with H : create_workflow _ _ _ = _ |- _ =>
    apply create_workflow_ok in H as (-> & -> & _) end.
  unfold create_transition in *. run_inv.
  do 2 eexists. split_and!; [eassumption|eassumption|db_simpl; lia|].
  unfold started, manual_facts. db_norm. rewrite <- !Z.add_assoc. reflexivity.
Qed.

End services.
End Effects.
