(* ===== verification/LaunchLoopInvariant.v ===== *)
(** * Reachable databases of the LaunchLoop workflow

    The step relation of the workflow app (the demo services, the owner's
    operations and the changes other apps make to its tables), the invariant of
    its reachable databases, and its preservation by every step. *)

From S2P Require Import Prelude PyValue Sha256 Engine OwnerEvents LaunchLoop Pilot.
From S2P Require Import LaunchLoopEffects.
Import LaunchLoop Effects.

Module Review.

(** ** The life of a workflow, as its transition log records it *)

Definition edge (s : wf_status) (action : string) (s' : wf_status) : bool :=
  match s, s' with
  | DRAFT, READY_FOR_REVIEW | DRAFT, NEEDS_INPUT => String.eqb action "launchloop_ran"
  | NEEDS_INPUT, NEEDS_INPUT => String.eqb action "event_facts_saved"
  | NEEDS_INPUT, DRAFT =>
      String.eqb action "event_facts_resolved" || String.eqb action "eventbrite_event_selected"
      || String.eqb action "owner_event_facts_saved"
  | READY_FOR_REVIEW, IN_REVIEW => String.eqb action "package_submitted"
  | READY_FOR_REVIEW, DRAFT => String.eqb action "owner_event_facts_saved"
  | IN_REVIEW, NEEDS_INPUT => String.eqb action "package_rejected"
  | IN_REVIEW, APPROVED => String.eqb action "package_approved"
  | APPROVED, COMPLETED => String.eqb action "sandbox_receipt_recorded"
  | DRAFT, DRAFT =>
      String.eqb action "eventbrite_event_selected" || String.eqb action "owner_event_facts_saved"
  | _, _ => false
  end.

(** A log from the workflow's creation to its status: every entry starts where
    the previous one ended and takes an edge of the state machine. *)
Inductive history : list transition -> wf_status -> Prop :=
| history_start t : t_from t = None -> t_to t = DRAFT -> history [t] DRAFT
| history_step l s t :
    history l s -> t_from t = Some s -> edge s (t_action t) (t_to t) = true ->
    history (l ++ [t]) (t_to t).

Definition log_of (wid : Z) (l : list transition) : list transition :=
  List.filter (fun t => t_workflow t =? wid) l.

Lemma log_of_app wid l l' : log_of wid (l ++ l') = log_of wid l ++ log_of wid l'.
Proof. apply List.filter_app. Qed.

Lemma log_of_same wid t : t_workflow t = wid -> log_of wid [t] = [t].
Proof. intros <-. unfold log_of. cbn. by rewrite Z.eqb_refl. Qed.

Lemma log_of_other wid t : t_workflow t <> wid -> log_of wid [t] = [].
Proof. intros Hne. unfold log_of. cbn. by apply Z.eqb_neq in Hne as ->. Qed.

Lemma log_of_filter wid p l :
  (forall t, In t l -> t_workflow t = wid -> p t = true) ->
  log_of wid (List.filter p l) = log_of wid l.
Proof.
  unfold log_of. induction l as [|t l IH]; intros Hp; cbn; [done|].
  rewrite <- IH by (intros; apply Hp; [by right|done]).
  destruct (t_workflow t =? wid) eqn:E.
  - rewrite Hp; [cbn; by rewrite E|by left|by bools].
  - destruct (p t); cbn; by rewrite ?E.
Qed.

Section system.
Context `{OwnerEvents.Platform}.
Context (tel : option string).

(** ** Steps *)

(** The actors [owner_operator] makes: never the two demo personas. *)
Definition is_owner (a : actor) : Prop := exists n, a_slug a = "owner-" +:+ n.

(** What sign-in, the provider refresh and the agents app may change: users and
    actors, provider rows (a source keeps its local event) and active runs. *)
Definition environment_step (d d' : db) : Prop :=
  exists users actors sources snapshots active,
    (forall sid src id, sources !! sid = Some src -> s_local_event src = Some id ->
       exists src0, d_sources d !! sid = Some src0 /\ s_local_event src0 = Some id) /\
    d' = DB users actors (d_events d) sources snapshots (d_revisions d)
           (d_workflows d) (d_transitions d) (d_approvals d) (d_executions d) (d_audit d)
           active (d_next d).

Inductive step (d d' : db) : Prop :=
| step_reset wid : reset_demo d = (Ok wid, d') -> step d d'
| step_run wid a u : run_workflow tel wid a d = (Ok u, d') -> step d d'
| step_answer wid a answers u : answer_questions tel wid a answers d = (Ok u, d') -> step d d'
| step_submit wid a qid : submit_workflow tel wid a d = (Ok qid, d') -> step d d'
| step_decide now qid a decision h reason u :
    decide_approval tel now qid a decision h reason d = (Ok u, d') -> step d d'
| step_select sid a wid :
    is_owner a -> Pilot.select_eventbrite_event sid a d = (Ok wid, d') -> step d d'
| step_facts wid body a u :
    is_owner a -> Pilot.update_event_facts wid body a d = (Ok u, d') -> step d d'
| step_manual token body a wid :
    is_owner a -> Pilot.start_manual_event token body a d = (Ok wid, d') -> step d d'
| step_environment : environment_step d d' -> step d d'.

Definition empty_db : db := DB ∅ ∅ ∅ ∅ ∅ ∅ ∅ [] ∅ ∅ [] ∅ 1.

Definition reachable (d : db) : Prop := rtc step empty_db d.

(** ** The invariant *)

Definition prepared (w : workflow) (r : event_revision) (p : json) : Prop :=
  w_package w = Some p /\ w_package_hash w = package_hash p /\ make_package r = Ok p.

Definition review_ready (p : json) : Prop :=
  exists st, field p "status" = Ok st /\ py_eq st (JStr "ready_for_review") = true.

(** What a status says about the stored package. *)
Definition package_ok (w : workflow) (r : event_revision) : Prop :=
  match w_status w with
  | DRAFT => w_package w = None /\ w_package_hash w = ""
  | NEEDS_INPUT =>
      (w_package w = None /\ w_package_hash w = "") \/ exists p, prepared w r p
  | READY_FOR_REVIEW | IN_REVIEW | COMPLETED => exists p, prepared w r p /\ review_ready p
  | APPROVED => False
  end.

(** What an approval request says about its workflow. *)
Definition request_ok (q : approval_request) (w : workflow) (r : event_revision) : Prop :=
  source_kind r = SYNTHETIC /\
  match q_status q with
  | A_PENDING => w_status w = IN_REVIEW /\ q_package_hash q = w_package_hash w
  | A_APPROVED => w_status w = COMPLETED /\ q_package_hash q = w_package_hash w
  | A_REJECTED => w_status w = NEEDS_INPUT
  end.

Record wf_ok (d : db) (wid : Z) (w : workflow) (r : event_revision) : Prop := WfOk {
  ok_revision : d_revisions d !! w_revision w = Some r;
  ok_event : r_event r = w_event w;
  ok_latest : forall k r', d_revisions d !! k = Some r' -> r_event r' = w_event w ->
    r_version r' <= r_version r;
  ok_slug : exists e, d_events d !! w_event w = Some e /\
    (source_kind r = SYNTHETIC <-> e_slug e = "ny-youth-day");
  ok_package : package_ok w r;
  ok_requests : forall qid q, d_approvals d !! qid = Some q -> q_workflow q = wid ->
    request_ok q w r;
  ok_in_review : w_status w = IN_REVIEW -> exists qid q,
    d_approvals d !! qid = Some q /\ q_workflow q = wid /\ q_status q = A_PENDING;
  ok_completed : w_status w = COMPLETED -> exists qid q xid x,
    d_approvals d !! qid = Some q /\ q_workflow q = wid /\ q_status q = A_APPROVED /\
    d_executions d !! xid = Some x /\ x_approval x = qid;
  ok_history : history (log_of wid (d_transitions d)) (w_status w);
}.

(** A decided request was decided by somebody else than its submitter. *)
Definition four_eyes (q : approval_request) : Prop :=
  match q_status q with
  | A_PENDING => q_approver q = None
  | A_APPROVED | A_REJECTED => exists x, q_approver q = Some x /\ x <> q_submitter q
  end.

Definition execution_ok (d : db) (x : connector_execution) : Prop :=
  exists q count, d_approvals d !! x_approval x = Some q /\ q_status q = A_APPROVED /\
    x_idempotency_key x = "launchloop:" +:+ q_package_hash q /\ x_receipt x = receipt count.

Record fresh_ok (d : db) : Prop := FreshOk {
  fresh_events : forall k e, d_events d !! k = Some e -> k < d_next d;
  fresh_revisions : forall k r, d_revisions d !! k = Some r -> k < d_next d /\ r_event r < d_next d;
  fresh_workflows : forall k w, d_workflows d !! k = Some w -> k < d_next d;
  fresh_approvals : forall k q, d_approvals d !! k = Some q -> k < d_next d;
  fresh_executions : forall k x, d_executions d !! k = Some x -> k < d_next d;
  fresh_transitions : forall t, In t (d_transitions d) -> t_workflow t < d_next d;
}.

(** [X]: an event whose first revision is still to be written. *)
Record events_but (X : Z -> Prop) (d : db) : Prop := EventsBut {
  slug_unique : forall k e k' e', d_events d !! k = Some e -> d_events d !! k' = Some e' ->
    e_slug e = e_slug e' -> k = k';
  event_unique : forall k w k' w', d_workflows d !! k = Some w -> d_workflows d !! k' = Some w' ->
    w_event w = w_event w' -> k = k';
  demo_slug : forall k e, d_events d !! k = Some e -> e_slug e = "ny-youth-day" ->
    ~ X k -> k ∈ demo_event_ids d;
  demo_revision : forall k r, d_revisions d !! k = Some r -> is_demo_revision r = true ->
    exists e, d_events d !! r_event r = Some e /\ e_slug e = "ny-youth-day";
  source_event : forall sid src id, d_sources d !! sid = Some src -> s_local_event src = Some id ->
    exists e, d_events d !! id = Some e /\ e_slug e <> "ny-youth-day";
}.

Abbreviation events_ok := (events_but (fun _ => False)).

Record requests_ok (d : db) : Prop := RequestsOk {
  request_workflow : forall qid q, d_approvals d !! qid = Some q ->
    is_Some (d_workflows d !! q_workflow q) /\ four_eyes q;
  request_unique : forall qid q qid' q', d_approvals d !! qid = Some q ->
    d_approvals d !! qid' = Some q' -> q_workflow q = q_workflow q' -> qid = qid';
  executions_ok : forall xid x, d_executions d !! xid = Some x -> execution_ok d x;
}.

Record Inv (d : db) : Prop := MkInv {
  inv_fresh : fresh_ok d;
  inv_events : events_ok d;
  inv_requests : requests_ok d;
  inv_workflows : forall wid w, d_workflows d !! wid = Some w -> exists r, wf_ok d wid w r;
}.

(** ** Frame lemmas: what a step leaves alone *)

(** Case analysis on lookups in an updated table. *)
Ltac ins :=
  repeat match goal with
  | H : <[_ := _]> _ !! _ = Some _ |- _ => rewrite lookup_insert in H; case_decide; simplify_eq
  | H : is_Some (<[_ := _]> _ !! _) |- _ => rewrite lookup_insert in H; case_decide; simplify_eq
  end.

Lemma wf_ok_frame d d' wid w r :
  wf_ok d wid w r ->
  (forall e, d_events d !! w_event w = Some e ->
     exists e', d_events d' !! w_event w = Some e' /\ e_slug e' = e_slug e) ->
  d_revisions d' !! w_revision w = Some r ->
  (forall k r', d_revisions d' !! k = Some r' -> r_event r' = w_event w ->
     d_revisions d !! k = Some r') ->
  (forall qid q, q_workflow q = wid ->
     d_approvals d' !! qid = Some q <-> d_approvals d !! qid = Some q) ->
  (forall qid q xid x, d_approvals d !! qid = Some q -> q_workflow q = wid ->
     d_executions d !! xid = Some x -> x_approval x = qid -> d_executions d' !! xid = Some x) ->
  log_of wid (d_transitions d') = log_of wid (d_transitions d) ->
  wf_ok d' wid w r.
Proof.
  intros Hok Hev Hrev Hrevs Hap Hex Hlog. destruct Hok as [? ? Hl Hs ? Hq Hin Hc Hh].
  split; try done.
  - intros k r' Hk He. eapply Hl; [by eapply Hrevs|done].
  - destruct Hs as (e & He & Hsyn). apply Hev in He as (e' & ? & Heq).
    exists e'. by rewrite Heq.
  - intros qid q Hqid Hwid. eapply Hq; [|done]. by apply Hap.
  - intros Hst. destruct (Hin Hst) as (qid & q & ? & ? & ?).
    exists qid, q. split; [by apply Hap|done].
  - intros Hst. destruct (Hc Hst) as (qid & q & xid & x & ? & ? & ? & ? & ?).
    exists qid, q, xid, x. split_and!; try done; [by apply Hap|by eapply Hex].
  - by rewrite Hlog.
Qed.

(** The same workflow in another row of the same event, revision and log. *)
Lemma fresh_advance wid w t u d :
  fresh_ok d -> wid < d_next d -> t_workflow t = wid -> fresh_ok (advance wid w t u d).
Proof.
  intros Hf Hlt Ht. destruct Hf as [? ? Hw ? ? Htr]. split; try done.
  - intros k w' Hk. unfold advance in *. db_simpl. ins; [done|by eapply Hw].
  - intros t'. unfold advance. db_simpl. intros Hin. apply in_app_iff in Hin as [?|[<-|[]]]; [|lia].
    by apply Htr.
Qed.

Lemma events_advance wid w w' t u d :
  events_ok d -> d_workflows d !! wid = Some w -> w_event w' = w_event w ->
  events_ok (advance wid w' t u d).
Proof.
  intros He Hw Hev. destruct He as [? Hu ? ? ?]. split; try done.
  intros k v k' v' Hk Hk' Heq. unfold advance in *. db_simpl. ins.
  - done.
  - rewrite Hev in Heq. by eapply Hu.
  - rewrite Hev in Heq. by eapply Hu.
  - by eapply Hu.
Qed.

Lemma requests_advance wid w t u d : requests_ok d -> requests_ok (advance wid w t u d).
Proof.
  intros Hr. destruct Hr as [Hw ? ?]. split; try done.
  intros qid q Hq. destruct (Hw _ _ Hq) as [[v Hv] ?]. split; [|done].
  unfold advance. db_simpl. rewrite lookup_insert. case_decide; eauto.
Qed.

Lemma wf_ok_advance_other wid w0 t u d wid' w r :
  wid' <> wid -> t_workflow t = wid -> wf_ok d wid' w r ->
  wf_ok (advance wid w0 t u d) wid' w r.
Proof.
  intros Hne Ht Hok. eapply wf_ok_frame; [exact Hok|..]; try done.
  - intros e He. eauto.
  - by destruct Hok.
  - unfold advance. db_simpl.
    rewrite log_of_app, log_of_other, app_nil_r; [done|congruence].
Qed.

(** ** A new revision of a workflow's event *)

Definition with_new_revision (rev : event_revision) (d : db) : db :=
  set_revisions (<[d_next d := rev]> (d_revisions d)) (set_next (d_next d + 1) d).

Lemma fresh_new_revision rev d :
  fresh_ok d -> r_event rev < d_next d -> fresh_ok (with_new_revision rev d).
Proof.
  intros Hf Hlt. destruct Hf as [Hev Hr Hw Ha Hx Ht]. unfold with_new_revision.
  split; db_simpl.
  - intros k e Hk. specialize (Hev k e Hk). lia.
  - intros k r Hk. ins; [lia|]. specialize (Hr k r Hk). lia.
  - intros k w Hk. specialize (Hw k w Hk). lia.
  - intros k q Hk. specialize (Ha k q Hk). lia.
  - intros k x Hk. specialize (Hx k x Hk). lia.
  - intros t Hin. specialize (Ht t Hin). lia.
Qed.

Lemma demo_ids_new_revision rev d e :
  fresh_ok d -> e ∈ demo_event_ids d -> e ∈ demo_event_ids (with_new_revision rev d).
Proof.
  intros Hf. rewrite !elem_of_demo_event_ids. intros (k & r & Hk & Hd & He).
  exists k, r. split; [|done]. unfold with_new_revision. db_simpl.
  apply (fresh_revisions _ Hf) in Hk as Hlt. rewrite lookup_insert_ne; [done|lia].
Qed.

Lemma events_new_revision rev d :
  fresh_ok d -> events_ok d ->
  (is_demo_revision rev = true ->
     exists e, d_events d !! r_event rev = Some e /\ e_slug e = "ny-youth-day") ->
  events_ok (with_new_revision rev d).
Proof.
  intros Hf He Hrev. pose proof (demo_ids_new_revision rev d) as Hids.
  destruct He as [? ? Hs Hr ?]. split; try done.
  - intros k e Hk Hslug ?. apply Hids; [done|]. by eapply Hs.
  - intros k r Hk Hd. unfold with_new_revision in *. db_simpl. ins; [by apply Hrev|by eapply Hr].
Qed.

Lemma requests_new_revision rev d : requests_ok d -> requests_ok (with_new_revision rev d).
Proof. intros Hr. destruct Hr. by split. Qed.

Lemma wf_ok_new_revision_other rev d wid w r :
  fresh_ok d -> wf_ok d wid w r -> r_event rev <> w_event w ->
  wf_ok (with_new_revision rev d) wid w r.
Proof.
  intros Hf Hok Hne. eapply wf_ok_frame; [exact Hok|..]; try done.
  - intros e He. eauto.
  - unfold with_new_revision. db_simpl. pose proof (ok_revision _ _ _ _ Hok) as Hr.
    apply (fresh_revisions _ Hf) in Hr as Hlt. rewrite lookup_insert_ne; [done|lia].
  - intros k r' Hk He. unfold with_new_revision in Hk. db_simpl. by ins.
Qed.

(** ** The workflow a step moves *)

Lemma wf_ok_advance_same wid w w' r t u d d0 :
  wf_ok d0 wid w r ->
  d_revisions d !! w_revision w' = Some r -> d_events d = d_events d0 ->
  (forall k r', d_revisions d !! k = Some r' -> r_event r' = w_event w -> r_version r' <= r_version r) ->
  d_transitions d = d_transitions d0 ->
  w_event w' = w_event w -> package_ok w' r ->
  t_workflow t = wid -> t_from t = Some (w_status w) -> t_to t = w_status w' ->
  edge (w_status w) (t_action t) (t_to t) = true ->
  (forall qid q, d_approvals d !! qid = Some q -> q_workflow q = wid -> request_ok q w' r) ->
  (w_status w' = IN_REVIEW -> exists qid q,
     d_approvals d !! qid = Some q /\ q_workflow q = wid /\ q_status q = A_PENDING) ->
  (w_status w' = COMPLETED -> exists qid q xid x,
    d_approvals d !! qid = Some q /\ q_workflow q = wid /\ q_status q = A_APPROVED /\
    d_executions d !! xid = Some x /\ x_approval x = qid) ->
  wf_ok (advance wid w' t u d) wid w' r.
Proof.
  intros Hok Hrev Hevs Hlat Htr Hev Hpk Ht Hf Hto He Hq Hin Hco.
  split; unfold advance; db_simpl; rewrite ?Hevs; try done.
  - rewrite Hev. by destruct Hok.
  - rewrite Hev. done.
  - rewrite Hev. by destruct Hok.
  - rewrite log_of_app, log_of_same, Htr, <- Hto by done.
    eapply history_step; [by destruct Hok|done|done].
Qed.

(** In Draft and Ready for review no request is open. *)
Lemma no_requests d wid w r qid q :
  wf_ok d wid w r -> w_status w = DRAFT \/ w_status w = READY_FOR_REVIEW ->
  d_approvals d !! qid = Some q -> q_workflow q <> wid.
Proof.
  intros Hok Hst Hq Hwid. destruct (ok_requests _ _ _ _ Hok _ _ Hq Hwid) as [_ Hr].
  destruct Hst as [Hst|Hst]; rewrite Hst in Hr; destruct (q_status q);
    (done || by destruct Hr).
Qed.

Lemma the_workflow d wid w r :
  Inv d -> d_workflows d !! wid = Some w -> d_revisions d !! w_revision w = Some r ->
  wf_ok d wid w r.
Proof.
  intros HI Hw Hr. destruct (inv_workflows _ HI _ _ Hw) as [r' Hok].
  pose proof (ok_revision _ _ _ _ Hok). by simplify_eq.
Qed.

(** An advance within one event keeps the invariant when the moved row is right. *)
Lemma inv_advance d wid w w' t u r :
  Inv d -> d_workflows d !! wid = Some w -> w_event w' = w_event w -> t_workflow t = wid ->
  wf_ok (advance wid w' t u d) wid w' r -> Inv (advance wid w' t u d).
Proof.
  intros HI Hw Hev Ht Hok. destruct HI as [Hf He Hq Hwf].
  assert (wid < d_next d) as Hlt by (by eapply fresh_workflows).
  split; [by apply fresh_advance|by eapply events_advance|by apply requests_advance|].
  intros wid0 w0 Hl. unfold advance in Hl. db_simpl. ins; [eauto|].
  destruct (Hwf _ _ Hl) as [r0 ?]. exists r0. by apply wf_ok_advance_other.
Qed.

Lemma run_preserves d wid a u d' :
  Inv d -> run_workflow tel wid a d = (Ok u, d') -> Inv d'.
Proof.
  intros HI Hrun.
  apply run_workflow_ok in Hrun as (w & r & p & st & missing & t & Hw & Hr & _ & Hd & Hp & Hst & _ & ->).
  pose proof (the_workflow _ _ _ _ HI Hw Hr) as Hok.
  eapply inv_advance; try done.
  eapply wf_ok_advance_same; try done.
  - exact (ok_latest _ _ _ _ Hok).
  - unfold package_ok, destination. db_simpl.
    destruct (py_eq st _) eqn:Hready; [|right]; exists p; [|done].
    split; [done|]. exists st. done.
  - by rewrite Hd.
  - db_simpl. rewrite Hd. unfold destination. by destruct (py_eq st _).
  - intros qid q Hq Hwid. exfalso. eapply no_requests; eauto.
  - unfold destination. db_simpl. by destruct (py_eq st _).
  - unfold destination. db_simpl. by destruct (py_eq st _).
Qed.

(** ** Requests *)

Definition with_approval (qid : Z) (q : approval_request) (d : db) : db :=
  set_approvals (<[qid := q]> (d_approvals d)) d.

Lemma wf_ok_approval_other qid q d wid w r :
  wf_ok d wid w r -> q_workflow q <> wid ->
  (forall q0, d_approvals d !! qid = Some q0 -> q_workflow q0 <> wid) ->
  wf_ok (with_approval qid q d) wid w r.
Proof.
  intros Hok Hne Hold. eapply wf_ok_frame; [exact Hok|..]; try done.
  - intros e He. eauto.
  - by destruct Hok.
  - intros qid0 q0 Hq0. unfold with_approval. db_simpl. rewrite lookup_insert. case_decide; [|done].
    subst. split; [intros [= <-]; done|]. intros Hq. by apply Hold in Hq.
Qed.

Lemma submit_preserves d wid a qid d' :
  Inv d -> submit_workflow tel wid a d = (Ok qid, d') -> Inv d'.
Proof.
  intros HI Hrun.
  apply submit_workflow_ok in Hrun
    as (w & r & t & Hw & Hr & Hsyn & _ & Hst & _ & -> & Hnone & ->).
  pose proof (the_workflow _ _ _ _ HI Hw Hr) as Hok.
  destruct HI as [Hf He Hq Hwf].
  assert (wid < d_next d) as Hlt by (by eapply fresh_workflows).
  set (d1 := set_approvals _ _).
  assert (fresh_ok d1) as Hf1.
  { destruct Hf as [Hev Hre Hwo Ha Hx Htr]. subst d1. split; db_simpl.
    - intros k e Hk. specialize (Hev k e Hk). lia.
    - intros k r' Hk. specialize (Hre k r' Hk). lia.
    - intros k w' Hk. specialize (Hwo k w' Hk). lia.
    - intros k q' Hk. ins; [lia|]. specialize (Ha k q' Hk). lia.
    - intros k x Hk. specialize (Hx k x Hk). lia.
    - intros t' Hin. specialize (Htr t' Hin). lia. }
  assert (events_ok d1) as He1 by (by destruct He).
  assert (d_approvals d !! d_next d = None) as Hfree.
  { apply eq_None_not_Some. intros [q0 Hq0]. apply (fresh_approvals _ Hf) in Hq0. lia. }
  assert (requests_ok d1) as Hq1.
  { destruct Hq as [Hqw Hqu Hqx]. subst d1. split; db_simpl.
    - intros k q' Hk. ins; [|by eapply Hqw]. split; [eauto|done].
    - intros k q1 k' q2 Hk Hk' Heq. ins; [done| | |by eapply Hqu].
      + exfalso. by eapply Hnone.
      + exfalso. by eapply Hnone.
    - intros xid x Hx. destruct (Hqx _ _ Hx) as (q0 & count & Hq0 & ?).
      exists q0, count. split; [|done]. db_simpl. rewrite lookup_insert_ne; [done|congruence]. }
  split.
  - apply fresh_advance; [done|subst d1; db_simpl; lia|done].
  - by eapply events_advance.
  - by apply requests_advance.
  - intros wid0 w0 Hl. unfold advance in Hl. db_simpl. ins.
    + exists r. eapply wf_ok_advance_same; try done.
      * exact (ok_latest _ _ _ _ Hok).
      * pose proof (ok_package _ _ _ _ Hok) as Hpk. unfold package_ok in *. by rewrite Hst in Hpk.
      * by rewrite Hst.
      * db_simpl. by rewrite Hst.
      * intros qid' q' Hq'. subst d1. db_simpl. ins; intros Hwid; [|exfalso; by eapply Hnone].
        split; [done|by split].
      * intros _. subst d1. db_simpl. eexists (d_next d), _. by rewrite lookup_insert_eq.
    + destruct (Hwf _ _ Hl) as [r0 Hok0]. exists r0. apply wf_ok_advance_other; [done..|].
      eapply (wf_ok_approval_other (d_next d)
        (ApprovalRequest wid (a_slug a) None (w_package_hash w) A_PENDING "" None)) in Hok0;
        [|done|congruence].
      eapply wf_ok_frame; [exact Hok0|..]; try done; [by eauto|by destruct Hok0].
Qed.

(** ** Decisions *)

Lemma fresh_approval qid q q' d :
  fresh_ok d -> d_approvals d !! qid = Some q -> fresh_ok (with_approval qid q' d).
Proof.
  intros Hf Hq. destruct Hf as [? ? ? Ha ? ?]. split; try done.
  unfold with_approval. db_simpl. intros k q0 Hk. ins; by eapply Ha.
Qed.

Lemma requests_approval qid q q' d :
  requests_ok d -> d_approvals d !! qid = Some q -> q_status q = A_PENDING ->
  q_workflow q' = q_workflow q -> four_eyes q' ->
  requests_ok (with_approval qid q' d).
Proof.
  intros Hr Hq Hst Hwf Hfe. destruct Hr as [Hw Hu Hx]. unfold with_approval. split; db_simpl.
  - intros k q0 Hk. ins; [|by eapply Hw]. rewrite Hwf. split; [|done]. by eapply Hw.
  - intros k q1 k' q2 Hk Hk' Heq. ins; [done| | |by eapply Hu].
    + rewrite Hwf in Heq. by eapply Hu.
    + rewrite Hwf in Heq. by eapply Hu.
  - intros xid x Hxid. destruct (Hx _ _ Hxid) as (q0 & count & Hq0 & Happ & ?).
    exists q0, count. split; [|done]. db_simpl. rewrite lookup_insert_ne; [done|].
    intros Heq. rewrite <- Heq in Hq0. simplify_eq. congruence.
Qed.

Definition with_execution (x : connector_execution) (d : db) : db :=
  set_executions (<[d_next d := x]> (d_executions d)) (set_next (d_next d + 1) d).

Lemma fresh_execution x d : fresh_ok d -> fresh_ok (with_execution x d).
Proof.
  intros [Hev Hr Hw Ha Hx Ht]. unfold with_execution. split; db_simpl.
  - intros k e Hk. specialize (Hev k e Hk). lia.
  - intros k r Hk. specialize (Hr k r Hk). lia.
  - intros k w Hk. specialize (Hw k w Hk). lia.
  - intros k q Hk. specialize (Ha k q Hk). lia.
  - intros k x' Hk. ins; [lia|]. specialize (Hx k x' Hk). lia.
  - intros t Hin. specialize (Ht t Hin). lia.
Qed.

Lemma requests_execution x d :
  requests_ok d -> execution_ok d x -> requests_ok (with_execution x d).
Proof.
  intros [Hw Hu Hx] Hok. unfold with_execution. split; db_simpl; try done.
  intros xid x' Hk. ins; [done|by eapply Hx].
Qed.

Lemma wf_ok_execution_other x d wid w r :
  fresh_ok d -> wf_ok d wid w r -> wf_ok (with_execution x d) wid w r.
Proof.
  intros Hf Hok. eapply wf_ok_frame; [exact Hok|..]; try done; [by eauto|by destruct Hok|].
  intros qid q xid x' _ _ Hx _. unfold with_execution. db_simpl.
  apply (fresh_executions _ Hf) in Hx as Hlt. rewrite lookup_insert_ne; [done|lia].
Qed.

Lemma reject_preserves d wid q qid w r a h reason now t u tr :
  Inv d -> decidable_by d qid a h q w r -> q_workflow q = wid ->
  t_workflow t = wid -> t_from t = Some (w_status w) -> t_to t = NEEDS_INPUT ->
  t_action t = "package_rejected" ->
  Inv (advance wid (Workflow (w_event w) (w_revision w) NEEDS_INPUT None "" tr) t u
         (with_approval qid (decided q a A_REJECTED reason now) d)).
Proof.
  intros HI (Hq & Hw & Hr & Hsyn & Hne & _ & Hpend & _) Hwid Ht Hfrom Hto Hact.
  rewrite Hwid in *. pose proof (the_workflow _ _ _ _ HI Hw Hr) as Hok.
  destruct HI as [Hf He Hrq Hwf].
  destruct (ok_requests _ _ _ _ Hok _ _ Hq Hwid) as [_ Hst].
  rewrite Hpend in Hst. destruct Hst as [Hst _].
  assert (wid < d_next d) as Hlt by (by eapply fresh_workflows).
  split.
  - apply fresh_advance; [by eapply fresh_approval|done|done].
  - eapply events_advance; [by destruct He|exact Hw|done].
  - apply requests_advance. eapply requests_approval; try done. by exists (a_slug a).
  - intros wid0 w0 Hl. unfold advance in Hl. db_simpl. ins.
    + exists r. eapply wf_ok_advance_same; try done.
      * exact (ok_latest _ _ _ _ Hok).
      * by left.
      * by rewrite Hst, Hto, Hact.
      * intros qid' q' Hq'. unfold with_approval in Hq'. db_simpl.
        destruct (decide (qid = qid')) as [<-|Hqid];
          [rewrite lookup_insert_eq in Hq'; by simplify_eq|].
        rewrite lookup_insert_ne in Hq' by done. intros Hwid'. exfalso. apply Hqid. eapply request_unique; [done..|congruence].
    + destruct (Hwf _ _ Hl) as [r0 Hok0]. exists r0. apply wf_ok_advance_other; [done..|].
      apply wf_ok_approval_other; [done|by cbn|]. intros q0 Hq0. by simplify_eq.
Qed.

(** Approval takes two transitions, through Approved to Completed. *)
Lemma history_approve wid l t1 t2 :
  history (log_of wid l) IN_REVIEW ->
  t_workflow t1 = wid -> t_from t1 = Some IN_REVIEW -> t_to t1 = APPROVED ->
  t_action t1 = "package_approved" ->
  t_workflow t2 = wid -> t_from t2 = Some APPROVED -> t_to t2 = COMPLETED ->
  t_action t2 = "sandbox_receipt_recorded" ->
  history (log_of wid ((l ++ [t1]) ++ [t2])) COMPLETED.
Proof.
  intros Hh Hw1 Hf1 Ht1 Ha1 Hw2 Hf2 Ht2 Ha2.
  rewrite !log_of_app, !log_of_same by done.
  rewrite <- Ht2. eapply history_step; [|exact Hf2|by rewrite Ha2, Ht2].
  rewrite <- Ht1. eapply history_step; [exact Hh|exact Hf1|by rewrite Ha1, Ht1].
Qed.

Lemma approve_preserves d qid q w r a h reason now count t1 u1 t2 u2 tr w1 :
  Inv d -> decidable_by d qid a h q w r ->
  t_workflow t1 = q_workflow q -> t_from t1 = Some (w_status w) -> t_to t1 = APPROVED ->
  t_action t1 = "package_approved" ->
  t_workflow t2 = q_workflow q -> t_from t2 = Some APPROVED -> t_to t2 = COMPLETED ->
  t_action t2 = "sandbox_receipt_recorded" -> w_event w1 = w_event w ->
  Inv (advance (q_workflow q)
         (Workflow (w_event w) (w_revision w) COMPLETED (w_package w) (w_package_hash w) tr) t2 u2
         (with_execution
            (ConnectorExecution qid ("launchloop:" +:+ q_package_hash q) (receipt count))
            (advance (q_workflow q) w1 t1 u1
               (with_approval qid (decided q a A_APPROVED reason now) d)))).
Proof.
  intros HI (Hq & Hw & Hr & Hsyn & Hne & _ & Hpend & _) Hw1 Hf1 Ht1 Ha1 Hw2 Hf2 Ht2 Ha2 Hev.
  remember (q_workflow q) as wid eqn:Hwid.
  pose proof (the_workflow _ _ _ _ HI Hw Hr) as Hok.
  destruct HI as [Hf He Hrq Hwf].
  destruct (ok_requests _ _ _ _ Hok _ _ Hq (eq_sym Hwid)) as [_ Hst].
  rewrite Hpend in Hst. destruct Hst as [Hst Hhash].
  assert (wid < d_next d) as Hlt by (by eapply fresh_workflows).
  remember (decided q a A_APPROVED reason now) as q' eqn:Hq'.
  assert (q_workflow q' = wid) as Hwid' by (by subst).
  assert (fresh_ok (advance wid w1 t1 u1 (with_approval qid q' d))) as Hf1'.
  { apply fresh_advance; [by eapply fresh_approval|done|done]. }
  split.
  - apply fresh_advance; [by apply fresh_execution|unfold with_execution, advance, with_approval; db_simpl; lia|done].
  - eapply events_advance; [|by apply lookup_advance|done].
    assert (events_ok (advance wid w1 t1 u1 (with_approval qid q' d))) as [].
    { eapply events_advance; [by destruct He|exact Hw|done]. }
    by split.
  - apply requests_advance, requests_execution.
    + apply requests_advance. eapply requests_approval; try done; [by rewrite Hwid', Hwid|].
      subst q'. by exists (a_slug a).
    + exists q', count. unfold with_approval, advance. db_simpl.
      rewrite lookup_insert_eq. by subst q'.
  - intros wid0 w0 Hl. unfold advance, with_execution in Hl. db_simpl.
    destruct (decide (wid = wid0)) as [<-|Hwid0].
    + rewrite lookup_insert_eq in Hl. injection Hl as <-. exists r.
      destruct Hok as [? ? ? ? Hpk Hreq ? ? Hh]. unfold with_execution, advance, with_approval.
      split; db_simpl; try done.
      * unfold package_ok in *. rewrite Hst in Hpk. db_simpl. exact Hpk.
      * intros k q0 Hk Hk'. destruct (decide (qid = k)) as [<-|Hk0].
        -- rewrite lookup_insert_eq in Hk. injection Hk as <-. subst q'. done.
        -- rewrite lookup_insert_ne in Hk by done. exfalso. apply Hk0.
           eapply request_unique; [done..|congruence].
      * intros _. eexists qid, q', (d_next d), _.
        rewrite !lookup_insert_eq. by subst q'.
      * rewrite Hst in *. by apply history_approve.
    + rewrite !lookup_insert_ne in Hl by done.
      destruct (Hwf _ _ Hl) as [r0 Hok0]. exists r0.
      apply wf_ok_advance_other; [done..|]. apply wf_ok_execution_other; [done|].
      apply wf_ok_advance_other; [done..|].
      apply wf_ok_approval_other; [done|congruence|]. intros q0 Hq0. by simplify_eq.
Qed.

Lemma decide_preserves now d qid a decision h reason u d' :
  Inv d -> decide_approval tel now qid a decision h reason d = (Ok u, d') -> Inv d'.
Proof.
  intros HI Hrun.
  apply decide_approval_ok in Hrun as (q & w & r & t & Hd & [[_ ->]|(_ & count & _ & _ & ->)]).
  - by eapply reject_preserves.
  - by eapply approve_preserves.
Qed.

(** ** Revisions and new events *)

Definition is_synthetic (r : event_revision) : Prop := source_kind r = SYNTHETIC.

Definition revise (wid : Z) (w' : workflow) (rev : event_revision) (t : transition) (d : db) : db :=
  set_transitions (d_transitions d ++ [t])
    (set_workflows (<[wid := w']> (d_workflows d)) (with_new_revision rev d)).

Record revision_step (d : db) (wid : Z) (w : workflow) (r : event_revision) (w' : workflow)
    (rev : event_revision) (t : transition) : Prop := RevisionStep {
  rs_row : d_workflows d !! wid = Some w;
  rs_old : d_revisions d !! w_revision w = Some r;
  rs_quiet : forall qid q, d_approvals d !! qid = Some q -> q_workflow q <> wid;
  rs_event : r_event rev = w_event w;
  rs_version : r_version r < r_version rev;
  rs_kind : is_synthetic rev <-> is_synthetic r;
  rs_demo : is_demo_revision rev = true -> is_synthetic r;
  rs_w_event : w_event w' = w_event w;
  rs_w_revision : w_revision w' = d_next d;
  rs_w_package : w_package w' = None /\ w_package_hash w' = "";
  rs_w_status : w_status w' = DRAFT \/ w_status w' = NEEDS_INPUT;
  rs_log : t_workflow t = wid /\ t_from t = Some (w_status w) /\ t_to t = w_status w';
  rs_edge : edge (w_status w) (t_action t) (t_to t) = true;
}.

Lemma package_ok_blank w r :
  w_package w = None /\ w_package_hash w = "" ->
  w_status w = DRAFT \/ w_status w = NEEDS_INPUT -> package_ok w r.
Proof. intros Hp [Hs|Hs]; unfold package_ok; rewrite Hs; tauto. Qed.

Lemma wf_ok_revised d wid w r w' rev t :
  fresh_ok d -> wf_ok d wid w r -> revision_step d wid w r w' rev t ->
  wf_ok (revise wid w' rev t d) wid w' rev.
Proof.
  intros Hf Hok [Hw Hr Hq He Hv Hk _ Hwe Hwr Hp Hs (Ht & Hfrom & Hto) Hedge].
  destruct Hok as [_ Hre Hlat (e & Hev & Hsl) _ _ _ _ Hh].
  unfold revise, with_new_revision. split; db_simpl; rewrite ?Hwe, ?Hwr; try done.
  - apply lookup_insert_eq.
  - intros k r' Hkr Her. rewrite lookup_insert in Hkr. case_decide; simplify_eq; [lia|].
    specialize (Hlat _ _ Hkr Her). lia.
  - exists e. split; [done|]. by rewrite <- Hsl.
  - by apply package_ok_blank.
  - intros qid q Hqid Hwid. by apply Hq in Hqid.
  - intros Hin. rewrite Hin in Hs. by destruct Hs.
  - intros Hin. rewrite Hin in Hs. by destruct Hs.
  - rewrite log_of_app, log_of_same, <- Hto by done. by eapply history_step.
Qed.

Lemma inv_revise d wid w r w' rev t :
  Inv d -> revision_step d wid w r w' rev t -> Inv (revise wid w' rev t d).
Proof.
  intros HI Hrs. pose proof (the_workflow _ _ _ _ HI (rs_row _ _ _ _ _ _ _ Hrs)
    (rs_old _ _ _ _ _ _ _ Hrs)) as Hok.
  pose proof (wf_ok_revised _ _ _ _ _ _ _ (inv_fresh _ HI) Hok Hrs) as Hnew.
  destruct Hrs as [Hw Hr Hq He Hv Hk Hd Hwe Hwr Hp Hs (Ht & Hfrom & Hto) Hedge].
  destruct HI as [Hf Hev Hrq Hwf].
  assert (wid < d_next d) as Hlt by (by eapply fresh_workflows).
  assert (r_event rev < d_next d) as Hrl.
  { rewrite He, <- (ok_event _ _ _ _ Hok). by eapply fresh_revisions. }
  pose (u := AuditEvent None "" "" (Row 0) JNull).
  assert (fresh_ok (advance wid w' t u (with_new_revision rev d))) as Hf'.
  { apply fresh_advance; [by apply fresh_new_revision| |done].
    unfold with_new_revision. db_simpl. lia. }
  assert (events_ok (advance wid w' t u (with_new_revision rev d))) as Hev'.
  { eapply events_advance; [|exact Hw|done]. apply events_new_revision; [done..|].
    intros Hdm. destruct (ok_slug _ _ _ _ Hok) as (e & Hee & Hsl). exists e. rewrite He.
    split; [done|]. by apply Hsl, Hd. }
  assert (requests_ok (advance wid w' t u (with_new_revision rev d))) as Hrq'.
  { by apply requests_advance, requests_new_revision. }
  split; [by destruct Hf'|by destruct Hev'|by destruct Hrq'|].
  intros wid0 w0 Hl. unfold revise in Hl. db_simpl.
  destruct (decide (wid = wid0)) as [<-|Hne].
  - rewrite lookup_insert_eq in Hl. injection Hl as <-. eauto.
  - rewrite lookup_insert_ne in Hl by done.
    destruct (Hwf _ _ Hl) as [r0 Hok0]. exists r0.
    assert (wf_ok (advance wid w' t u (with_new_revision rev d)) wid0 w0 r0) as [].
    { apply wf_ok_advance_other; [done..|]. apply wf_ok_new_revision_other; [done..|].
      rewrite He. intros Heq. apply Hne. exact (event_unique _ _ Hev _ _ _ _ Hw Hl Heq). }
    by split.
Qed.

Lemma inv_audit l d : Inv d -> Inv (set_audit l d).
Proof.
  intros [Hf He Hq Hwf]. split; [by destruct Hf|by destruct He|by destruct Hq|].
  intros wid w Hw. destruct (Hwf wid w Hw) as [r Hok]. exists r. destruct Hok. by split.
Qed.

(** The requests of a workflow waiting for input may go. *)
Lemma inv_drop d wid w :
  Inv d -> d_workflows d !! wid = Some w -> w_status w = NEEDS_INPUT ->
  Inv (drop_approvals wid d).
Proof.
  intros [Hf He Hq Hwf] Hw Hst.
  assert (forall qid q, d_approvals (drop_approvals wid d) !! qid = Some q <->
            d_approvals d !! qid = Some q /\ q_workflow q <> wid) as Hkept.
  { intros qid q. unfold drop_approvals. db_simpl.
    by rewrite lookup_keep, negb_true_iff, Z.eqb_neq. }
  assert (forall xid x, d_executions (drop_approvals wid d) !! xid = Some x <->
            d_executions d !! xid = Some x /\
            is_Some (d_approvals (drop_approvals wid d) !! x_approval x)) as Hxkept.
  { intros xid x. unfold drop_approvals. db_simpl.
    by rewrite lookup_keep, bool_decide_eq_true. }
  split.
  - destruct Hf as [? ? ? Ha Hx ?]. split; try done.
    + intros k q Hk. apply Hkept in Hk as [Hk _]. by eapply Ha.
    + intros k x Hk. apply Hxkept in Hk as [Hk _]. by eapply Hx.
  - by destruct He.
  - destruct Hq as [Hqw Hqu Hqx]. split.
    + intros qid q Hk. apply Hkept in Hk as [Hk _]. by eapply Hqw.
    + intros qid q qid' q' Hk Hk'. apply Hkept in Hk as [Hk _]. apply Hkept in Hk' as [Hk' _].
      by eapply Hqu.
    + intros xid x Hk. apply Hxkept in Hk as [Hk [q Hs]].
      destruct (Hqx _ _ Hk) as (q0 & count & Hq0 & ?). exists q0, count. split; [|done].
      pose proof Hs as Hs'. apply Hkept in Hs' as [Hs' _]. congruence.
  - intros wid0 w0 Hl. destruct (Hwf _ _ Hl) as [r0 Hok0]. exists r0.
    destruct (decide (wid0 = wid)) as [->|Hne].
    + change (d_workflows d !! wid = Some w0) in Hl. rewrite Hw in Hl. injection Hl as <-.
      destruct Hok0. split; try done; [|by rewrite Hst..].
      intros qid q Hk. by apply Hkept in Hk as [_ ?].
    + eapply wf_ok_frame; [exact Hok0|..]; try done; [by eauto|by destruct Hok0| |].
      * intros qid q Hwid. rewrite Hkept. split; [by intros [? _]|]. split; congruence.
      * intros qid q xid x Hk Hwid Hx Hxq. apply Hxkept. split; [done|]. exists q.
        subst qid. apply Hkept. split; congruence.
Qed.

(** A fact edit never turns a synthetic revision into an owner's, or back. *)
Lemma source_kind_update r r' u :
  r_snapshot r' = dict_update (r_snapshot r) u -> "synthetic" ∉ map fst u ->
  is_synthetic r' <-> is_synthetic r.
Proof.
  intros Hs Hu. unfold is_synthetic, source_kind, get_or_none.
  rewrite Hs, (dict_get_update_ne "synthetic") by done.
  destruct (is_true _); [done|]. by repeat case_match.
Qed.

Lemma answered_not_synthetic answers : "synthetic" ∉ map fst (answered_fields answers).
Proof.
  intros Hin. unfold answered_fields in Hin. rewrite map_map in Hin.
  apply list_elem_of_fmap in Hin as (fld & Heq & Hin). cbn in Heq. subst.
  apply list_elem_of_filter in Hin as [_ Hin].
  revert Hin. change ("synthetic" ∉ required_answers). by_decide.
Qed.

Lemma answer_preserves d wid a answers u d' :
  Inv d -> answer_questions tel wid a answers d = (Ok u, d') -> Inv d'.
Proof.
  intros HI Hrun.
  apply answer_questions_ok in Hrun as (w & r & t & Hw & Hr & Hsyn & _ & Hst & _ & _ & ->).
  pose proof (inv_drop _ _ _ HI Hw Hst) as HId.
  match goal with |- Inv (drop_approvals _ (advance _ ?w' ?t' ?u' (set_revisions (<[_ := ?rev]> _) _))) =>
    change (Inv (set_audit (d_audit d ++ [u']) (revise wid w' rev t' (drop_approvals wid d)))) end.
  apply inv_audit. eapply (inv_revise _ wid w r); [done|].
  split; try done.
  - intros qid q Hq. unfold drop_approvals in Hq. db_simpl.
    apply lookup_keep in Hq as [_ Hq]. by bools.
  - db_simpl. lia.
  - eapply source_kind_update; [done|]. apply answered_not_synthetic.
  - unfold answer_destination. db_simpl. case_match; auto.
  - db_simpl. by rewrite Hst.
  - rewrite Hst. unfold answer_destination, answer_action. db_simpl. by case_match.
Qed.

Lemma inv_retitle id title d :
  Inv d -> Inv (set_events (alter (Pilot.set_title title) id (d_events d)) d).
Proof.
  intros [Hf He Hq Hwf].
  assert (forall k e', alter (Pilot.set_title title) id (d_events d) !! k = Some e' ->
            exists e, d_events d !! k = Some e /\ e_slug e' = e_slug e) as Hback.
  { intros k e' Hk. rewrite lookup_alter in Hk. case_decide; [subst|eauto].
    apply fmap_Some in Hk as (e & He0 & ->). by exists e. }
  assert (forall k e, d_events d !! k = Some e ->
            exists e', alter (Pilot.set_title title) id (d_events d) !! k = Some e' /\
                       e_slug e' = e_slug e) as Hforth.
  { intros k e Hk. rewrite lookup_alter. case_decide; subst; rewrite Hk; (eexists; split; reflexivity). }
  split.
  - destruct Hf as [Hfe ? ? ? ? ?]. split; try done.
    intros k e' Hk. apply Hback in Hk as (e & ? & _). by eapply Hfe.
  - destruct He as [Hs ? Hd Hr Hsrc]. split; db_simpl; try done.
    + intros k e1 k' e2 H1 H2 Heq. apply Hback in H1 as (e1' & ? & ?).
      apply Hback in H2 as (e2' & ? & ?). eapply Hs; [done..|congruence].
    + intros k e' Hk Hny ?. apply Hback in Hk as (e & ? & ?). eapply Hd; [done|congruence|done].
    + intros k r Hk Hdm. destruct (Hr _ _ Hk Hdm) as (e & He0 & ?).
      apply Hforth in He0 as (e' & ? & ?). exists e'. split; congruence.
    + intros sid src k Hk Hloc. destruct (Hsrc _ _ _ Hk Hloc) as (e & He0 & ?).
      apply Hforth in He0 as (e' & ? & ?). exists e'. split; congruence.
  - by destruct Hq.
  - intros wid w Hw. destruct (Hwf _ _ Hw) as [r Hok]. exists r.
    eapply wf_ok_frame; [exact Hok|..]; try done; [|by destruct Hok].
    intros e Hk. by apply Hforth.
Qed.

Lemma owner_not_demo a r : is_owner a -> r_author r = a_slug a -> is_demo_revision r = false.
Proof. intros [n Hn] Hr. unfold is_demo_revision. by rewrite Hr, Hn. Qed.

Lemma not_synthetic_quiet d wid w r qid q :
  wf_ok d wid w r -> ~ is_synthetic r -> d_approvals d !! qid = Some q -> q_workflow q <> wid.
Proof. intros Hok Hns Hq Hwid. by destruct (ok_requests _ _ _ _ Hok _ _ Hq Hwid). Qed.

Lemma not_synthetic_open d wid w r :
  wf_ok d wid w r -> ~ is_synthetic r -> w_status w <> IN_REVIEW /\ w_status w <> COMPLETED.
Proof.
  intros Hok Hns. split; intros Hst.
  - destruct (ok_in_review _ _ _ _ Hok Hst) as (qid & q & Hq & Hwid & _).
    by eapply not_synthetic_quiet.
  - destruct (ok_completed _ _ _ _ Hok Hst) as (qid & q & xid & x & Hq & Hwid & _).
    by eapply not_synthetic_quiet.
Qed.

(** A workflow begun on an event row, with the event's new revision. *)
Definition begin (rev : event_revision) (t : transition) (d : db) : db :=
  set_transitions (d_transitions d ++ [t])
    (set_workflows
       (<[d_next d + 1 := Workflow (r_event rev) (d_next d) DRAFT None "" ""]> (d_workflows d))
       (set_revisions (<[d_next d := rev]> (d_revisions d)) (set_next (d_next d + 2) d))).

Definition begun (d : db) (rev : event_revision) (t : transition) : Prop :=
  (forall k r, d_revisions d !! k = Some r -> r_event r = r_event rev -> r_version r <= r_version rev) /\
  (forall k w, d_workflows d !! k = Some w -> w_event w <> r_event rev) /\
  (exists e, d_events d !! r_event rev = Some e /\
     (is_synthetic rev <-> e_slug e = "ny-youth-day") /\
     (is_demo_revision rev = true <-> e_slug e = "ny-youth-day")) /\
  t_workflow t = d_next d + 1 /\ t_from t = None /\ t_to t = DRAFT.

Lemma fresh_begin rev t d :
  fresh_ok d -> r_event rev < d_next d -> t_workflow t = d_next d + 1 -> fresh_ok (begin rev t d).
Proof.
  intros [Hev Hr Hw Ha Hx Ht] Hlt Htw. unfold begin. split; db_simpl.
  - intros k e Hk. specialize (Hev k e Hk). lia.
  - intros k r Hk. ins; [lia|]. specialize (Hr k r Hk). lia.
  - intros k w Hk. ins; [lia|]. specialize (Hw k w Hk). lia.
  - intros k q Hk. specialize (Ha k q Hk). lia.
  - intros k x Hk. specialize (Hx k x Hk). lia.
  - intros t' Hin. apply in_app_iff in Hin as [Hin|[<-|[]]]; [|lia]. specialize (Ht t' Hin). lia.
Qed.

Lemma events_begin rev t d :
  fresh_ok d -> events_but (eq (r_event rev)) d -> begun d rev t -> events_ok (begin rev t d).
Proof.
  intros Hf [Hs Hu Hd Hr Hsrc] (_ & Hnew & (e & He & Hsyn & Hdm) & _).
  unfold begin. split; db_simpl; try done.
  - intros k w k' w' Hk Hk' Heq. ins; [done| | |by eapply Hu].
    + exfalso. by eapply Hnew.
    + exfalso. by eapply Hnew.
  - intros k e' Hk Hny _. rewrite elem_of_demo_event_ids. db_simpl.
    destruct (decide (r_event rev = k)) as [<-|Hne].
    + exists (d_next d), rev. rewrite lookup_insert_eq. simplify_eq. split_and!; [done| |done].
      by apply Hdm.
    + apply Hd in Hk; [|done..]. apply elem_of_demo_event_ids in Hk as (i & r & Hi & ? & ?).
      exists i, r. apply (fresh_revisions _ Hf) in Hi as Hlt.
      rewrite lookup_insert_ne; [done|lia].
  - intros k r Hk Hdr. ins; [|by eapply Hr]. exists e. split; [done|]. by apply Hdm.
Qed.

Lemma requests_begin rev t d : requests_ok d -> requests_ok (begin rev t d).
Proof.
  intros [Hw Hu Hx]. unfold begin. split; db_simpl; try done.
  intros qid q Hq. destruct (Hw _ _ Hq) as [[w Hl] ?]. split; [|done].
  rewrite lookup_insert. case_decide; eauto.
Qed.

Lemma wf_ok_begin_other rev t d wid w r :
  fresh_ok d -> wf_ok d wid w r -> wid < d_next d -> w_event w <> r_event rev ->
  t_workflow t = d_next d + 1 -> wf_ok (begin rev t d) wid w r.
Proof.
  intros Hf Hok Hlt Hne Ht. pose proof (ok_revision _ _ _ _ Hok) as Hr.
  apply (fresh_revisions _ Hf) in Hr as Hrl. unfold begin.
  eapply wf_ok_frame; [exact Hok|..]; try done; db_simpl.
  - intros e He. eauto.
  - rewrite lookup_insert_ne; [done|lia].
  - intros k r' Hk He. by ins.
  - rewrite log_of_app, log_of_other, app_nil_r; [done|lia].
Qed.

(** Nothing yet refers to a key that is not drawn. *)
Lemma log_of_fresh d wid : fresh_ok d -> d_next d <= wid -> log_of wid (d_transitions d) = [].
Proof.
  intros Hf Hle. unfold log_of.
  pose proof (fresh_transitions _ Hf) as Ht. induction (d_transitions d) as [|t l IH]; [done|].
  cbn. specialize (Ht t (or_introl eq_refl)) as Hlt.
  destruct (t_workflow t =? wid) eqn:E; [bools; lia|]. apply IH. intros t' ?. apply Ht. by right.
Qed.

Lemma wf_ok_begin_new rev t d :
  fresh_ok d -> requests_ok d -> begun d rev t ->
  wf_ok (begin rev t d) (d_next d + 1) (Workflow (r_event rev) (d_next d) DRAFT None "" "") rev.
Proof.
  intros Hf Hrq (Hlat & Hnew & (e & He & Hsyn & _) & Htw & Hfrom & Hto).
  unfold begin. split; db_simpl; try done.
  - apply lookup_insert_eq.
  - intros k r Hk Heq. ins; [done|]. by eapply Hlat.
  - by exists e.
  - intros qid q Hq Hwid. exfalso. destruct (request_workflow _ Hrq _ _ Hq) as [[w Hw] _].
    apply (fresh_workflows _ Hf) in Hw. lia.
  - rewrite log_of_app, log_of_same, log_of_fresh by (done || lia). by constructor.
Qed.

Lemma inv_begin rev t d :
  fresh_ok d -> events_but (eq (r_event rev)) d -> requests_ok d ->
  (forall wid w, d_workflows d !! wid = Some w -> exists r, wf_ok d wid w r) ->
  begun d rev t -> Inv (begin rev t d).
Proof.
  intros Hf He Hrq Hwf Hb. pose proof Hb as (_ & Hnew & (e & Hev & _) & Htw & _).
  split.
  - apply fresh_begin; [done| |done]. by eapply fresh_events.
  - by apply events_begin.
  - by apply requests_begin.
  - intros wid w Hl. unfold begin in Hl. db_simpl. ins.
    + exists rev. by apply wf_ok_begin_new.
    + destruct (Hwf _ _ Hl) as [r Hok]. exists r. apply wf_ok_begin_other; try done.
      * by eapply fresh_workflows.
      * by eapply Hnew.
Qed.

(** *** A new event row *)

Definition with_event (n : Z) (ev : event) (d : db) : db :=
  set_events (<[n := ev]> (d_events d)) (set_next (n + 1) d).

Lemma fresh_event n ev d : fresh_ok d -> d_next d <= n -> fresh_ok (with_event n ev d).
Proof.
  intros [Hev Hr Hw Ha Hx Ht] Hle. unfold with_event. split; db_simpl.
  - intros k e Hk. ins; [lia|]. specialize (Hev k e Hk). lia.
  - intros k r Hk. specialize (Hr k r Hk). lia.
  - intros k w Hk. specialize (Hw k w Hk). lia.
  - intros k q Hk. specialize (Ha k q Hk). lia.
  - intros k x Hk. specialize (Hx k x Hk). lia.
  - intros t Hin. specialize (Ht t Hin). lia.
Qed.

Lemma events_event n ev d :
  fresh_ok d -> events_ok d -> d_next d <= n ->
  (forall k e, d_events d !! k = Some e -> e_slug e <> e_slug ev) ->
  events_but (eq n) (with_event n ev d).
Proof.
  intros Hf [Hs Hu Hd Hr Hsrc] Hle Hnew.
  assert (forall k e, d_events d !! k = Some e -> <[n := ev]> (d_events d) !! k = Some e) as Hold.
  { intros k e Hk. apply (fresh_events _ Hf) in Hk as Hlt. rewrite lookup_insert_ne; [done|lia]. }
  unfold with_event. split; db_simpl; try done.
  - intros k e k' e' Hk Hk' Heq. ins; [done| | |by eapply Hs].
    + exfalso. by eapply Hnew.
    + exfalso. by eapply Hnew.
  - intros k e Hk Hny Hne. rewrite lookup_insert_ne in Hk by done.
    apply (Hd _ _ Hk Hny). tauto.
  - intros k r Hk Hdm. destruct (Hr _ _ Hk Hdm) as (e & ? & ?). eauto.
  - intros sid src k Hk Hloc. destruct (Hsrc _ _ _ Hk Hloc) as (e & ? & ?). eauto.
Qed.

Lemma wf_ok_event n ev d wid w r :
  fresh_ok d -> d_next d <= n -> wf_ok d wid w r -> wf_ok (with_event n ev d) wid w r.
Proof.
  intros Hf Hle Hok. eapply wf_ok_frame; [exact Hok|..]; try done; [|by destruct Hok].
  intros e He. exists e. unfold with_event. db_simpl.
  apply (fresh_events _ Hf) in He as Hlt. rewrite lookup_insert_ne; [done|lia].
Qed.

(** A workflow begun on a new event. *)
Lemma inv_new d n ev rev t :
  Inv d -> d_next d <= n -> (forall k e, d_events d !! k = Some e -> e_slug e <> e_slug ev) ->
  r_event rev = n -> (is_synthetic rev <-> e_slug ev = "ny-youth-day") ->
  (is_demo_revision rev = true <-> e_slug ev = "ny-youth-day") ->
  t_workflow t = n + 2 -> t_from t = None -> t_to t = DRAFT ->
  Inv (begin rev t (with_event n ev d)).
Proof.
  intros [Hf He Hrq Hwf] Hle Hslug Hrev Hsyn Hdm Htw Hfrom Hto.
  apply inv_begin.
  - by apply fresh_event.
  - rewrite Hrev. by apply events_event.
  - by destruct Hrq.
  - intros wid w Hw. destruct (Hwf _ _ Hw) as [r Hok]. exists r. by apply wf_ok_event.
  - unfold begun, with_event. db_simpl. rewrite Hrev. split_and!; try done.
    + intros k r Hk Hkr. apply (fresh_revisions _ Hf) in Hk. lia.
    + intros k w Hk Heq. destruct (Hwf _ _ Hk) as [r Hok]. pose proof (ok_revision _ _ _ _ Hok) as Hr.
      apply (fresh_revisions _ Hf) in Hr. rewrite (ok_event _ _ _ _ Hok) in Hr. lia.
    + exists ev. by rewrite lookup_insert_eq.
    + lia.
Qed.

(** *** The owner's steps *)

Lemma validated_fields body changes :
  OwnerEvents.validate_facts body = Ok changes ->
  Forall (fun kv => kv.1 ∈ OwnerEvents.FACT_FIELDS) changes.
Proof.
  unfold OwnerEvents.validate_facts. destruct body as [| | | | | |d]; try discriminate.
  destruct (forallb _ d) eqn:Hall; [|discriminate].
  intros Hv. apply bind_result_ok in Hv as (facts & Hc & Hv).
  repeat (apply bind_result_ok in Hv as (? & _ & Hv)). injection Hv as <-.
  clear - Hc Hall. revert facts Hc Hall. induction d as [|[k raw] d IH]; intros facts Hc Hall.
  - by injection Hc as <-.
  - cbn in Hc, Hall. apply andb_true_iff in Hall as [Hk Hall]. bools.
    destruct raw; try discriminate. case_match; [discriminate|].
    apply bind_result_ok in Hc as (facts' & Hc & Hr). injection Hr as <-.
    constructor; [done|by apply IH].
Qed.

Lemma fact_keys changes key :
  Forall (fun kv => kv.1 ∈ OwnerEvents.FACT_FIELDS) changes -> key ∉ OwnerEvents.FACT_FIELDS ->
  key ∉ map fst (Pilot.str_items changes).
Proof.
  intros Hall Hk Hin. unfold Pilot.str_items in Hin. rewrite map_map in Hin.
  apply list_elem_of_fmap in Hin as (kv & -> & Hin). rewrite Forall_forall in Hall.
  by apply Hk, Hall.
Qed.

Lemma fact_edit body changes :
  OwnerEvents.validate_facts body = Ok changes -> "synthetic" ∉ map fst (Pilot.str_items changes).
Proof. intros Hv. apply fact_keys; [by eapply validated_fields|by_decide]. Qed.

Lemma manual_preserves token body a d wid d' :
  is_owner a -> Inv d -> Pilot.start_manual_event token body a d = (Ok wid, d') -> Inv d'.
Proof.
  intros Ha HI Hrun.
  apply start_manual_event_ok in Hrun as (changes & title & Hv & Hslug & -> & ->).
  set (rev := EventRevision _ _ _ _ _). set (ev := Event _ _).
  assert (is_synthetic rev <-> e_slug ev = "ny-youth-day") as Hsyn.
  { split; [|done]. assert (dict_get "synthetic" (manual_facts changes) = None) as Hnone.
    { unfold manual_facts. rewrite dict_get_set_ne by done.
      rewrite (dict_get_update_ne "synthetic") by (by eapply fact_edit).
      by rewrite (dict_get_const "synthetic") by by_decide. }
    unfold is_synthetic, source_kind, get_or_none, rev. db_simpl. rewrite Hnone.
    cbn [is_true]. by repeat case_match. }
  assert (is_demo_revision rev = true <-> e_slug ev = "ny-youth-day") as Hdm.
  { split; [|done]. by rewrite (owner_not_demo a rev). }
  match goal with |- Inv (started _ _ ?who ?act ?det _) =>
    pose proof (inv_new d (d_next d) ev rev
      (WorkflowTransition (d_next d + 1 + 1) who None DRAFT act det) HI) as Hnew end.
  apply Hnew; try done; cbn [t_workflow]; lia.
Qed.

Lemma owner_revises d wid w r rev t act a details :
  Inv d -> is_owner a -> d_workflows d !! wid = Some w -> d_revisions d !! w_revision w = Some r ->
  ~ is_synthetic r -> ~ is_synthetic rev -> r_event rev = w_event w ->
  r_version r < r_version rev -> r_author rev = a_slug a ->
  edge (w_status w) act DRAFT = true ->
  t = log_entry wid (a_slug a) (w_status w) DRAFT act details ->
  Inv (revised wid w rev t d).
Proof.
  intros HI Ha Hw Hr Hns Hns' He Hv Hau Hedge ->.
  pose proof (the_workflow _ _ _ _ HI Hw Hr) as Hok.
  eapply (inv_revise d wid w r); [done|]. split; try done.
  - intros qid q Hq. by eapply not_synthetic_quiet.
  - intros Hdm. by rewrite (owner_not_demo a rev) in Hdm.
  - by left.
Qed.

Lemma facts_preserves wid body a d u d' :
  is_owner a -> Inv d -> Pilot.update_event_facts wid body a d = (Ok u, d') -> Inv d'.
Proof.
  intros Ha HI Hrun.
  apply update_event_facts_ok in Hrun
    as (w & r & changes & title & Hw & Hr & Hk & _ & _ & _ & Hst & Hv & _ & _ & _ & ->).
  assert (~ is_synthetic r) as Hns by (unfold is_synthetic; destruct Hk; congruence).
  match goal with |- Inv (set_events _ ?X) => apply (inv_retitle _ _ X) end.
  eapply owner_revises; try done.
  - intros Hsyn. apply Hns. revert Hsyn.
    match goal with |- is_synthetic ?rev -> _ =>
      apply (proj1 (source_kind_update r rev (Pilot.str_items changes) eq_refl
                      (fact_edit _ _ Hv))) end.
  - db_simpl. lia.
  - by destruct Hst as [->|[->| ->]].
Qed.

Lemma next_version_max d ev k r :
  d_revisions d !! k = Some r -> r_event r = ev -> r_version r < Pilot.next_version d ev.
Proof.
  intros Hk He. unfold Pilot.next_version.
  assert (In (k, r) (List.filter (fun kv => r_event kv.2 =? ev) (map_to_list (d_revisions d)))) as Hin.
  { apply filter_In. split; [by apply list_elem_of_In, elem_of_map_to_list|by apply Z.eqb_eq]. }
  induction (List.filter _ _) as [|kv l IH]; [done|]. cbn.
  destruct Hin as [->|Hin]; [|apply IH in Hin]; cbn in *; lia.
Qed.

Lemma next_version_max_le d ev k r :
  d_revisions d !! k = Some r -> r_event r = ev -> r_version r <= Pilot.next_version d ev.
Proof. intros Hk He. pose proof (next_version_max _ _ _ _ Hk He). lia. Qed.

(** The event of a source keeps the invariant, and is never the demo's. *)
Lemma source_event_inv sid src s d id d1 :
  Inv d -> d_sources d !! sid = Some src -> event_of_source sid src s d id d1 ->
  (forall k w, d_workflows d1 !! k = Some w -> exists r, wf_ok d1 k w r) /\
  fresh_ok d1 /\ requests_ok d1 /\ events_ok d1 /\
  exists e, d_events d1 !! id = Some e /\ e_slug e <> "ny-youth-day".
Proof.
  intros HI Hsrc [id' Hloc|Hloc Hslug].
  - apply (inv_retitle id' (p_title s)) in HI as HI1. destruct HI1 as [? ? ? ?].
    split_and!; try done.
    destruct (source_event _ _ (inv_events _ HI) _ _ _ Hsrc Hloc) as (e & He & Hne).
    exists (Pilot.set_title (p_title s) e). db_simpl. by rewrite lookup_alter_eq, He.
  - set (ev := Event _ _) in *. destruct HI as [Hf He Hrq Hwf].
    pose proof (fresh_event (d_next d) ev d Hf (Z.le_refl _)) as Hf1.
    pose proof (events_event (d_next d) ev d Hf He (Z.le_refl _) Hslug) as [Hs Hu Hd Hr Hso].
    split_and!.
    + intros k w Hk. destruct (Hwf _ _ Hk) as [r Hok]. exists r.
      eapply (wf_ok_event (d_next d) ev) in Hok; [|done..]. destruct Hok. by split.
    + destruct Hf1. by split.
    + by destruct Hrq.
    + split; try done.
      * intros k e Hk Hny _. apply (Hd _ _ Hk Hny). intros <-.
        db_simpl. rewrite lookup_insert_eq in Hk. injection Hk as <-. done.
      * intros sid' src' k Hk Hl. db_simpl. rewrite lookup_insert in Hk. case_decide.
        -- injection Hk as <-. injection Hl as <-. exists ev. by rewrite lookup_insert_eq.
        -- by eapply Hso.
    + exists ev. db_simpl. by rewrite lookup_insert_eq.
Qed.

Lemma imported_not_synthetic d id sn s a : ~ is_synthetic (imported_revision d id sn s a).
Proof. done. Qed.

Lemma select_preserves sid a d wid d' :
  is_owner a -> Inv d -> Pilot.select_eventbrite_event sid a d = (Ok wid, d') -> Inv d'.
Proof.
  intros Ha HI Hrun.
  apply select_eventbrite_event_ok in Hrun
    as (src & sn & s & id & d1 & Hsrc & _ & _ & _ & _ & Hev & Hcase).
  destruct (source_event_inv _ _ _ _ _ _ HI Hsrc Hev) as (Hwf & Hf & Hrq & He & e & Hid & Hne).
  assert (Inv d1) as HI1 by by split.
  destruct Hcase as [(w & Hw & [->|[Hst ->]])|(Hnone & -> & ->)]; [done| |].
  - apply List.find_some in Hw as [Hw Hwe].
    apply list_elem_of_In, elem_of_map_to_list in Hw. bools.
    destruct (Hwf _ _ Hw) as [r Hok].
    pose proof (ok_revision _ _ _ _ Hok) as Hr. cbn in Hwe.
    eapply owner_revises; try done.
    + intros Hsyn. destruct (ok_slug _ _ _ _ Hok) as (e' & He' & Hsl).
      apply Hsl in Hsyn. simplify_eq.
    + eapply next_version_max; [exact Hr|]. by rewrite (ok_event _ _ _ _ Hok).
    + by destruct Hst as [-> | ->].
  - apply (inv_begin (imported_revision d1 id sn s a)); try done.
    + destruct He as [? ? Hd ? ?]. split; try done. intros k e' Hk Hny _. apply (Hd _ _ Hk Hny). tauto.
    + unfold begun. split_and!; try done.
      * intros k r Hk Hkr. by eapply next_version_max_le.
      * intros k w Hk Hwe. unfold Pilot.workflow_of_event in Hnone.
        eapply (List.find_none _ _ ) with (x := (k, w)) in Hnone.
        -- cbn in Hnone. bools. done.
        -- by apply list_elem_of_In, elem_of_map_to_list.
      * exists e. split; [done|]. rewrite (owner_not_demo a) by done. split; [|done].
        split; [|done]. intros Hsyn. by apply imported_not_synthetic in Hsyn.
Qed.

(** *** The demo reset *)

Lemma inv_cleared d : Inv d -> Inv (cleared d).
Proof.
  intros [Hf He Hrq Hwf].
  assert (forall wid w, d_workflows (cleared d) !! wid = Some w -> ~ in_demo d wid) as Hout.
  { intros wid w Hw (w' & Hw' & Hin). apply cleared_workflow in Hw as [Hw Hni]. by simplify_eq. }
  assert (forall qid q wid w, d_workflows (cleared d) !! wid = Some w -> q_workflow q = wid ->
            d_approvals d !! qid = Some q -> d_approvals (cleared d) !! qid = Some q) as Hkeepq.
  { intros qid q wid w Hw Hwid Hq. apply cleared_approval. split; [done|].
    rewrite Hwid. by eapply Hout. }
  split.
  - destruct Hf as [Hev Hr Hw Ha Hx Ht]. split.
    + intros k e Hk. apply cleared_event in Hk as [Hk _]. by eapply Hev.
    + intros k r Hk. apply cleared_revision in Hk as [Hk _]. by eapply Hr.
    + intros k w Hk. apply cleared_workflow in Hk as [Hk _]. by eapply Hw.
    + intros k q Hk. apply cleared_approval in Hk as [Hk _]. by eapply Ha.
    + intros k x Hk. apply cleared_execution in Hk as [Hk _]. by eapply Hx.
    + intros t Hin. rewrite cleared_transitions in Hin. apply filter_In in Hin as [Hin _].
      by apply Ht.
  - destruct He as [Hs Hu Hd Hr Hsrc]. split.
    + intros k e k' e' Hk Hk'. apply cleared_event in Hk as [Hk _].
      apply cleared_event in Hk' as [Hk' _]. by eapply Hs.
    + intros k w k' w' Hk Hk'. apply cleared_workflow in Hk as [Hk _].
      apply cleared_workflow in Hk' as [Hk' _]. by eapply Hu.
    + intros k e Hk Hny Hx. apply cleared_event in Hk as [Hk Hni]. by destruct (Hni (Hd _ _ Hk Hny Hx)).
    + intros k r Hk Hdm. apply cleared_revision in Hk as [Hk Hni]. exfalso. apply Hni.
      apply elem_of_demo_event_ids. eauto.
    + intros sid src k Hk Hloc. destruct (Hsrc _ _ _ Hk Hloc) as (e & Hee & Hne).
      exists e. split; [|done]. apply cleared_event. split; [done|]. intros Hin.
      apply elem_of_demo_event_ids in Hin as (i & r & Hi & Hdm & Hre).
      destruct (Hr _ _ Hi Hdm) as (e' & He' & Hny). congruence.
  - destruct Hrq as [Hqw Hqu Hqx]. split.
    + intros qid q Hq. apply cleared_approval in Hq as [Hq Hno].
      destruct (Hqw _ _ Hq) as [[w Hw] ?]. split; [|done]. exists w. apply cleared_workflow.
      split; [done|]. intros Hin. apply Hno. by exists w.
    + intros qid q qid' q' Hq Hq'. apply cleared_approval in Hq as [Hq _].
      apply cleared_approval in Hq' as [Hq' _]. by eapply Hqu.
    + intros xid x Hx. apply cleared_execution in Hx as [Hx [q Hq]].
      destruct (Hqx _ _ Hx) as (q0 & count & Hq0 & ?). exists q0, count. split; [|done].
      pose proof Hq as Hq1. apply cleared_approval in Hq1 as [Hq1 _]. congruence.
  - intros wid w Hw. pose proof Hw as Hw'. apply cleared_workflow in Hw' as [Hw' Hni].
    destruct (Hwf _ _ Hw') as [r Hok]. exists r.
    eapply wf_ok_frame; [exact Hok|..].
    + intros e He0. exists e. split; [|done]. by apply cleared_event.
    + apply cleared_revision. split; [by destruct Hok|]. by rewrite (ok_event _ _ _ _ Hok).
    + intros k r' Hk _. by apply cleared_revision in Hk as [Hk _].
    + intros qid q Hwid. split; [by intros [? _]%cleared_approval|]. by eapply Hkeepq.
    + intros qid q xid x Hq Hwid Hx Hxq. apply cleared_execution. split; [done|].
      exists q. subst qid. by eapply Hkeepq.
    + rewrite cleared_transitions. apply log_of_filter. intros t _ Ht.
      apply negb_true_iff, not_true_iff_false. rewrite demo_workflow_true, Ht. by eapply Hout.
Qed.

Lemma reset_preserves d wid d' : Inv d -> reset_demo d = (Ok wid, d') -> Inv d'.
Proof.
  intros HI Hrun. apply reset_demo_ok in Hrun as (n & users & actors & Hle & -> & Hslug & ->).
  apply inv_cleared in HI.
  set (d0 := set_actors actors (set_users users (cleared d))).
  assert (Inv d0) as HI0.
  { destruct HI as [Hf He Hq Hwf]. split; [by destruct Hf|by destruct He|by destruct Hq|].
    intros k w Hw. destruct (Hwf k w Hw) as [r Hok]. exists r. destruct Hok. by split. }
  unfold recreated. apply inv_audit.
  match goal with |- Inv (set_transitions (_ ++ [?t]) (set_workflows _ (set_revisions
                            (<[_ := ?rev]> _) (set_events (<[_ := ?ev]> _) _)))) =>
    pose proof (inv_new d0 n ev rev t HI0) as Hnew end.
  replace (n + 2) with (n + 1 + 1) in * by lia. replace (n + 3) with (n + 1 + 2) by lia.
  apply Hnew; try done.
Qed.

Lemma environment_preserves d d' : Inv d -> environment_step d d' -> Inv d'.
Proof.
  intros [Hf He Hrq Hwf] (users & actors & sources & snapshots & active & Hsub & ->).
  split; [by destruct Hf| |by destruct Hrq|].
  - destruct He as [? ? ? ? Hso]. split; try done.
    intros sid src k Hk Hloc. destruct (Hsub _ _ _ Hk Hloc) as (src0 & ? & ?). by eapply Hso.
  - intros wid w Hw. destruct (Hwf wid w Hw) as [r Hok]. exists r. destruct Hok. by split.
Qed.

Lemma inv_empty : Inv empty_db.
Proof. split; [split|split|split|]; intros *; try (by rewrite ?lookup_empty); done. Qed.

Lemma step_preserves d d' : Inv d -> step d d' -> Inv d'.
Proof.
  intros HI Hs. destruct Hs;
    [by eapply reset_preserves|by eapply run_preserves|by eapply answer_preserves
    |by eapply submit_preserves|by eapply decide_preserves|by eapply select_preserves
    |by eapply facts_preserves|by eapply manual_preserves|by eapply environment_preserves].
Qed.

Lemma reachable_inv d : reachable d -> Inv d.
Proof.
  intros Hr. unfold reachable in Hr.
  apply (rtc_ind_r (fun d => Inv d) empty_db) in Hr; [done|exact inv_empty|].
  intros. by eapply step_preserves.
Qed.

End system.
End Review.
