(* ===== verification/LaunchLoopTheorems.v ===== *)
(** * Theorems about the LaunchLoop workflow

    What a person relies on: a completed workflow was reviewed by somebody else,
    on exactly the package it stores; the transition log is a path of the state
    machine; a service either does its work or leaves the database alone. *)

From S2P Require Import Prelude PyValue Sha256 Engine OwnerEvents LaunchLoop Pilot.
From S2P Require Import LaunchLoopEffects LaunchLoopInvariant.
Import LaunchLoop Effects Review.

Module Workflow.

(** A platform that knows the zone UTC only, for the concrete inputs below. *)
#[local] Instance utc_platform : OwnerEvents.Platform := {|
  OwnerEvents.zone_info key :=
    if String.eqb key "UTC" then Some ((fun _ _ => 0), (fun utc => utc)) else None;
  OwnerEvents.bracketed_host_ok _ := false;
|}.

(** ** A run of the demo *)

Definition maya_ : actor := Actor "maya" "Maya Chen" OPERATOR (Some 1).
Definition jordan_ : actor := Actor "jordan" "Jordan Brooks" APPROVER (Some 2).
Definition demo_answers : list (string * json) :=
  [("venue_name", JStr "Hall A"); ("venue_address", JStr "1 Main St");
   ("access_instructions", JStr "Use the north door")].

Definition d_reset : db := (reset_demo empty_db).2.
Definition d_ran : db := (run_workflow None 5 maya_ d_reset).2.
Definition d_answered : db := (answer_questions None 5 maya_ demo_answers d_ran).2.
Definition d_ready : db := (run_workflow None 5 maya_ d_answered).2.
Definition d_review : db := (submit_workflow None 5 maya_ d_ready).2.
Definition demo_hash : string := from_option w_package_hash "" (d_workflows d_review !! 5).
Definition d_done : db := (decide_approval None 0 7 jordan_ "approve" demo_hash "" d_review).2.

Definition demo_wid : Z := 5.
Definition demo_qid : Z := 7.

Section system.
Context `{OwnerEvents.Platform}.
Context (tel : option string).
Implicit Types (d : db) (wid qid : Z) (w : workflow) (r : event_revision) (q : approval_request).

(** ** Helper lemmas *)

Lemma draft_shape snapshot k : forall p, Engine.draft snapshot k = Ok p -> exists f, p = JDict f.
Proof. intros p Hp. unfold Engine.draft in Hp. repeat (apply bind_result_ok in Hp as (? & _ & Hp)).
  injection Hp as <-. eauto. Qed.

(** Whatever package is prepared, its audience size is an integer. *)
Lemma package_audience r p :
  make_package r = Ok p -> exists count, audience_count (Some p) = Ok count.
Proof.
  unfold make_package. case_bool_decide; intros Hp.
  - unfold Engine.prepare_package in Hp. apply bind_result_ok in Hp as (aud & Ha & Hp).
    repeat (apply bind_result_ok in Hp as (? & _ & Hp)). injection Hp as <-.
    unfold Engine.audience_for in Ha. destruct (negb _); [discriminate|]. injection Ha as <-.
    destruct (get_or_none _ "region"); try (exists 0; reflexivity).
    destruct (get_or_none _ "country"); try (exists 0; reflexivity).
    cbn [List.find Engine.AUDIENCES fst snd]. destruct (_ && _); eexists; reflexivity.
  - unfold OwnerEvents.prepare_owner_package in Hp.
    apply bind_result_ok in Hp as ([facts invalid] & _ & Hp).
    repeat (apply bind_result_ok in Hp as (? & _ & Hp)). injection Hp as <-. by exists 0.
Qed.

Lemma locked_err wid d e d' :
  locked_workflow wid d = (Err e, d') ->
  d_workflows d !! wid = None \/
  exists w, d_workflows d !! wid = Some w /\ d_revisions d !! w_revision w = None.
Proof. intros Hl. unfold locked_workflow in Hl. run_inv; eauto. Qed.

(** In a consistent database every row can be locked. *)
Lemma locked_total d wid w :
  Inv d -> d_workflows d !! wid = Some w ->
  exists r, locked_workflow wid d = (Ok (w, r), d) /\ wf_ok d wid w r.
Proof.
  intros HI Hw. destruct (inv_workflows _ HI _ _ Hw) as [r Hok]. exists r. split; [|done].
  pose proof (ok_revision _ _ _ _ Hok) as Hr. unfold locked_workflow.
  unfold mbind, ST_bind, get, some_or. rewrite Hw. cbn. by rewrite Hr.
Qed.

(** There is only one workflow whose facts are synthetic. *)
Lemma synthetic_unique d wid w r wid' w' r' :
  Inv d -> wf_ok d wid w r -> wf_ok d wid' w' r' ->
  d_workflows d !! wid = Some w -> d_workflows d !! wid' = Some w' ->
  is_synthetic r -> is_synthetic r' -> wid = wid'.
Proof.
  intros HI Hok Hok' Hw Hw' Hs Hs'.
  destruct (ok_slug _ _ _ _ Hok) as (e & He & Hny), (ok_slug _ _ _ _ Hok') as (e' & He' & Hny').
  apply Hny in Hs. apply Hny' in Hs'.
  eapply (event_unique _ _ (inv_events _ HI)); [exact Hw|exact Hw'|].
  eapply (slug_unique _ _ (inv_events _ HI)); [exact He|exact He'|congruence].
Qed.

(** Every request is for the synthetic workflow, so there is at most one. *)
Lemma request_single d qid q qid' q' :
  Inv d -> d_approvals d !! qid = Some q -> d_approvals d !! qid' = Some q' -> qid = qid'.
Proof.
  intros HI Hq Hq'.
  destruct (request_workflow _ (inv_requests _ HI) _ _ Hq) as [[w Hw] _].
  destruct (request_workflow _ (inv_requests _ HI) _ _ Hq') as [[w' Hw'] _].
  destruct (inv_workflows _ HI _ _ Hw) as [r Hok], (inv_workflows _ HI _ _ Hw') as [r' Hok'].
  destruct (ok_requests _ _ _ _ Hok _ _ Hq eq_refl) as [Hs _].
  destruct (ok_requests _ _ _ _ Hok' _ _ Hq' eq_refl) as [Hs' _].
  eapply (request_unique _ (inv_requests _ HI)); [exact Hq|exact Hq'|].
  by eapply (synthetic_unique d _ w r _ w' r').
Qed.

(** While a request is pending nothing was delivered, and the package under review
    has an audience size. *)
Lemma the_pending d qid q :
  Inv d -> d_approvals d !! qid = Some q -> q_status q = A_PENDING ->
  forall w r, d_workflows d !! q_workflow q = Some w -> wf_ok d (q_workflow q) w r ->
  (forall k x, d_executions d !! k <> Some x) /\
  exists count, audience_count (w_package w) = Ok count.
Proof.
  intros HI Hq Hp w r Hw Hok. split.
  - intros k x Hx. destruct (executions_ok _ (inv_requests _ HI) _ _ Hx) as (q0 & count & Hq0 & Ha & _).
    assert (x_approval x = qid) as <- by (by eapply request_single). congruence.
  - destruct (ok_requests _ _ _ _ Hok _ _ Hq eq_refl) as [_ Hrq]. rewrite Hp in Hrq.
    destruct Hrq as [Hst _]. pose proof (ok_package _ _ _ _ Hok) as Hpk.
    unfold package_ok in Hpk. rewrite Hst in Hpk. destruct Hpk as (p & (-> & _ & Hmk) & _).
    by eapply package_audience.
Qed.

Lemma lookup_altered {V : Type} (f : V -> V) k (v v0 : V) (m : gmap Z V) :
  m !! k = Some v0 -> f v0 = v -> alter f k m !! k = Some v.
Proof. intros Hk <-. by rewrite lookup_alter_eq, Hk. Qed.

(** ** Symbolic execution of the services *)

(** The outcomes a client is told about. *)
Definition clean {A : Type} (r : result error A) : Prop :=
  match r with
  | Ok _ => True
  | Err e => exists code message status, e = DemoError code message status
  end.

Lemma wp_value {A : Type} (m : M A) (Q : result error A -> db -> Prop) d a d' :
  m d = (Ok a, d') -> Q (Ok a) d' -> wp m Q d.
Proof. unfold wp. by intros ->. Qed.

Lemma wp_operation wid w (Q : result error () -> db -> Prop) d :
  d_workflows d !! wid = Some w ->
  (forall t, Q (Ok ()) (set_workflows (<[wid := with_traceparent t w]> (d_workflows d)) d)) ->
  wp (workflow_operation tel wid w) Q d.
Proof.
  intros Hw HQ. destruct (workflow_operation tel wid w d) as [[[]|e] d'] eqn:Ho.
  - apply operation_ok in Ho as Ho'; [|done]. destruct Ho' as [t ->]. by eapply wp_value.
  - by apply operation_err in Ho.
Qed.

Lemma wp_move wid w a s action details (Q : result error () -> db -> Prop) d :
  d_workflows d !! wid = Some w ->
  Q (Ok ()) (advance wid (with_status s w) (log_entry wid a (w_status w) s action details)
               (audit_entry wid a action details) d) ->
  wp (move wid a s action details) Q d.
Proof.
  intros Hw HQ. destruct (move wid a s action details d) as [[[]|e] d'] eqn:Hm.
  - apply move_ok in Hm as Hm'. destruct Hm' as (w' & Hw' & ->). simplify_eq. by eapply wp_value.
  - apply move_err in Hm. congruence.
Qed.

(** ** Properties *)

(** C2 A workflow that reached Completed was approved: the package it stores is the
    one its current revision prepares and was ready for review, its stored hash is the
    SHA-256 of that package's canonical JSON, the approved request names this hash, was
    decided by somebody other than its submitter, and its one receipt records a
    simulation with no external action. *)
Theorem completed_was_reviewed d wid w :
  reachable tel d -> d_workflows d !! wid = Some w -> w_status w = COMPLETED ->
  exists r p qid q approver xid x count,
    d_revisions d !! w_revision w = Some r /\ make_package r = Ok p /\ review_ready p /\
    w_package w = Some p /\ w_package_hash w = Sha256.sha256_hex (json_dumps true true p) /\
    d_approvals d !! qid = Some q /\ q_workflow q = wid /\ q_status q = A_APPROVED /\
    q_package_hash q = w_package_hash w /\
    q_approver q = Some approver /\ approver <> q_submitter q /\
    d_executions d !! xid = Some x /\ x_approval x = qid /\ x_receipt x = receipt count.
Proof.
  intros Hre Hw Hst. apply reachable_inv in Hre as HI.
  destruct (inv_workflows _ HI _ _ Hw) as [r Hok].
  pose proof (ok_package _ _ _ _ Hok) as Hp. unfold package_ok in Hp. rewrite Hst in Hp.
  destruct Hp as (p & (Hpk & Hh & Hmk) & Hrr).
  destruct (ok_completed _ _ _ _ Hok Hst) as (qid & q & xid & x & Hq & Hwid & Happ & Hx & Hxq).
  destruct (request_workflow _ (inv_requests _ HI) _ _ Hq) as [_ Hfe].
  unfold four_eyes in Hfe. rewrite Happ in Hfe. destruct Hfe as (ap & Hap & Hne).
  destruct (ok_requests _ _ _ _ Hok _ _ Hq Hwid) as [_ Hrq]. rewrite Happ in Hrq.
  destruct Hrq as [_ Hqh].
  destruct (executions_ok _ (inv_requests _ HI) _ _ Hx) as (q0 & count & _ & _ & _ & Hrc).
  exists r, p, qid, q, ap, xid, x, count. split_and!; try done. by destruct Hok.
Qed.

(** C34 The transition log of a workflow is a path of the state machine from its
    creation in Draft to the status the row holds. *)
Theorem log_is_history d wid w :
  reachable tel d -> d_workflows d !! wid = Some w ->
  history (log_of wid (d_transitions d)) (w_status w).
Proof.
  intros Hre Hw. apply reachable_inv in Hre as HI.
  destruct (inv_workflows _ HI _ _ Hw) as [r Hok]. by destruct Hok.
Qed.

(** A workflow is In review exactly while it has a pending request, which names the
    hash of the package a reviewer sees. *)
Theorem in_review_iff_pending d wid w :
  reachable tel d -> d_workflows d !! wid = Some w ->
  w_status w = IN_REVIEW <->
  exists qid q, d_approvals d !! qid = Some q /\ q_workflow q = wid /\ q_status q = A_PENDING /\
    q_approver q = None /\ q_package_hash q = w_package_hash w.
Proof.
  intros Hre Hw. apply reachable_inv in Hre as HI.
  destruct (inv_workflows _ HI _ _ Hw) as [r Hok]. split.
  - intros Hst. destruct (ok_in_review _ _ _ _ Hok Hst) as (qid & q & Hq & Hwid & Hp).
    destruct (request_workflow _ (inv_requests _ HI) _ _ Hq) as [_ Hfe].
    unfold four_eyes in Hfe. rewrite Hp in Hfe.
    destruct (ok_requests _ _ _ _ Hok _ _ Hq Hwid) as [_ Hrq]. rewrite Hp in Hrq.
    destruct Hrq. by exists qid, q.
  - intros (qid & q & Hq & Hwid & Hp & _).
    destruct (ok_requests _ _ _ _ Hok _ _ Hq Hwid) as [_ Hrq]. rewrite Hp in Hrq. by destruct Hrq.
Qed.

(** Only the synthetic demo event goes through the demo review: a workflow on an
    owner's or an Eventbrite event has no approval request and stays in Draft, Needs
    input or Ready for review. *)
Theorem owner_workflow_unreviewed d wid w r :
  reachable tel d -> d_workflows d !! wid = Some w -> d_revisions d !! w_revision w = Some r ->
  source_kind r <> SYNTHETIC ->
  (w_status w = DRAFT \/ w_status w = NEEDS_INPUT \/ w_status w = READY_FOR_REVIEW) /\
  forall qid q, d_approvals d !! qid = Some q -> q_workflow q <> wid.
Proof.
  intros Hre Hw Hr Hns. apply reachable_inv in Hre as HI.
  pose proof (the_workflow _ _ _ _ HI Hw Hr) as Hok. split.
  - destruct (not_synthetic_open _ _ _ _ Hok Hns) as [? ?].
    pose proof (ok_package _ _ _ _ Hok) as Hp. unfold package_ok in Hp.
    destruct (w_status w); tauto.
  - intros qid q. by eapply not_synthetic_quiet.
Qed.

(** Deciding a request never fails in an uncontrolled way: in a reachable database a
    decision either succeeds or raises one of the documented demo errors, and then the
    database is the one before the call. *)
Theorem decide_fails_cleanly now d qid a decision h reason e d' :
  reachable tel d -> decide_approval tel now qid a decision h reason d = (Err e, d') ->
  d' = d /\ exists code message status, e = DemoError code message status.
Proof.
  intros Hre Hrun. apply reachable_inv in Hre as HI.
  split; [by eapply atomic_err|].
  refine (wp_run _ (fun o _ => clean o) d _ _ Hrun _).
  unfold decide_approval. wp_steps; try by eexists _, _, _.
  match goal with Hq : d_approvals d !! qid = Some ?q |- _ =>
    destruct (request_workflow _ (inv_requests _ HI) _ _ Hq) as [[w Hw] _] end.
  destruct (locked_total _ _ _ HI Hw) as (r & Hl & Hok).
  apply (wp_value _ _ _ _ _ Hl). wp_steps; try by eexists _, _, _.
  bools.
  match goal with Hq : d_approvals d !! qid = Some _, Hs : q_status _ = A_PENDING |- _ =>
    destruct (the_pending _ _ _ HI Hq Hs _ _ Hw Hok) as (Hnx & count & Hcount) end.
  eapply wp_operation; [done|]; intros t; cbn beta iota;
    unfold save_approval, update_workflow; wp_steps.
  - eapply wp_move; [eapply lookup_altered; [apply lookup_insert_eq|reflexivity]|]. exact I.
  - eapply wp_move; [apply lookup_insert_eq|]. cbn beta iota. unfold py. wp_steps.
    rewrite Hcount. unfold create_execution, fresh. wp_steps.
    + exfalso. match goal with Hc : any_row _ _ = true |- _ =>
        apply any_row_true in Hc as (k & x & Hx & _); by apply (Hnx k x) end.
    + eapply wp_move; [apply lookup_advance|]. exact I.
Qed.

(** An approver's approval of a pending request goes through: when the guards hold in
    a reachable database, the call returns, the workflow is Completed with the package
    that was reviewed, and the request is approved in the approver's name. *)
Theorem approve_completes now d qid a h reason q w r :
  reachable tel d -> decidable_by d qid a h q w r ->
  exists d', decide_approval tel now qid a "approve" h reason d = (Ok (), d') /\
    (exists w', d_workflows d' !! q_workflow q = Some w' /\ w_status w' = COMPLETED /\
       w_package w' = w_package w /\ w_package_hash w' = w_package_hash w) /\
    d_approvals d' !! qid = Some (decided q a A_APPROVED reason now).
Proof.
  intros Hre (Hq & Hw & Hr & Hsyn & Hne & Hap & Hpe & Hh). apply reachable_inv in Hre as HI.
  destruct (locked_total _ _ _ HI Hw) as (r0 & Hl & Hok).
  pose proof (ok_revision _ _ _ _ Hok) as Hr0. simplify_eq.
  destruct (the_pending _ _ _ HI Hq Hpe _ _ Hw Hok) as (Hnx & count & Hcount).
  assert (exists d', decide_approval tel now qid a "approve" (q_package_hash q) reason d = (Ok (), d'))
    as [d' Hrun].
  { destruct (decide_approval _ _ _ _ _ _ _ _) as [[[]|e] d'] eqn:Hrun; [eauto|].
    enough (is_ok (Err e : result error ()) = true) by done.
    refine (wp_run _ (fun o _ => is_ok o = true) d _ _ Hrun _).
    unfold decide_approval. wp_steps; try (by bools); try congruence.
      assert (a0 = q) as -> by congruence.
      apply (wp_value _ _ _ _ _ Hl). cbn beta iota. wp_steps; try (by bools); try done.
      eapply wp_operation; [done|]; intros t; cbn beta iota.
      unfold save_approval, update_workflow. wp_steps; [discriminate|].
      eapply wp_move; [apply lookup_insert_eq|]. cbn beta iota. unfold py. wp_steps.
      rewrite Hcount. unfold create_execution, fresh. wp_steps.
      + exfalso. match goal with Hc : any_row _ _ = true |- _ =>
          apply any_row_true in Hc as (k & x & Hx & _); by apply (Hnx k x) end.
      + eapply wp_move; [apply lookup_advance|]. done. }
  exists d'. split; [done|].
  apply decide_approval_ok in Hrun as (q1 & w1 & r1 & t & (? & ? & _) & [[? _]|(_ & c & _ & _ & ->)]);
    [done|]. simplify_eq. split.
  - eexists. by rewrite lookup_advance.
  - unfold advance. db_simpl. by rewrite lookup_insert_eq.
Qed.

(** Submitting and answering an existing workflow in a reachable database never break
    a database constraint: the call succeeds or raises a documented demo error, and then
    nothing changed. *)
Theorem submit_and_answer_fail_cleanly d wid w a answers :
  reachable tel d -> d_workflows d !! wid = Some w ->
  (forall e d', submit_workflow tel wid a d = (Err e, d') -> d' = d /\ clean (Err e : result error ())) /\
  (forall e d', answer_questions tel wid a answers d = (Err e, d') ->
     d' = d /\ clean (Err e : result error ())).
Proof.
  intros Hre Hw. apply reachable_inv in Hre as HI.
  destruct (locked_total _ _ _ HI Hw) as (r & Hl & Hok).
  split; intros e d' Hrun; (split; [by eapply atomic_err|]);
    refine (wp_run _ (fun o _ => clean o) d _ _ Hrun _);
    [unfold submit_workflow|unfold answer_questions]; wp_step; wp_step;
    apply (wp_value _ _ _ _ _ Hl); cbn beta iota; wp_steps; try by eexists _, _, _.
  - eapply wp_operation; [done|]. intros t. cbn beta iota. unfold create_approval, fresh. wp_steps.
    + exfalso. bools. match goal with Hc : any_row _ _ = true |- _ =>
        apply any_row_true in Hc as (k & q & Hq & Hwid) end. bools.
      eapply no_requests; [exact Hok|by right|exact Hq|done].
    + eapply wp_move; [apply lookup_insert_eq|]. cbn beta iota. wp_steps. exact I.
  - eapply wp_operation; [done|]. intros t. cbn beta iota.
    unfold create_revision, update_workflow, delete_approvals, fresh. wp_steps.
    + exfalso. match goal with Hc : any_row _ _ = true |- _ =>
        apply any_row_true in Hc as (k & r' & Hk & Hv) end. bools. db_simpl.
      apply (ok_latest _ _ _ _ Hok) in Hk; [lia|done].
    + eapply wp_move; [eapply lookup_altered; [apply lookup_insert_eq|reflexivity]|]. exact I.
Qed.

(** Running LaunchLoop on a Draft stores the package of the current revision with its
    hash, moves to Ready for review exactly when the package says so (to Needs input
    otherwise), appends one transition, and changes no other workflow, no revision, no
    request and no receipt. *)
Theorem run_stores_package d wid a u d' :
  run_workflow tel wid a d = (Ok u, d') ->
  exists w r p status w',
    d_workflows d !! wid = Some w /\ w_status w = DRAFT /\
    d_revisions d !! w_revision w = Some r /\ make_package r = Ok p /\
    field p "status" = Ok status /\
    d_workflows d' !! wid = Some w' /\ w_package w' = Some p /\ w_package_hash w' = package_hash p /\
    w_status w' = (if py_eq status (JStr "ready_for_review") then READY_FOR_REVIEW else NEEDS_INPUT) /\
    (forall k, k <> wid -> d_workflows d' !! k = d_workflows d !! k) /\
    d_revisions d' = d_revisions d /\ d_approvals d' = d_approvals d /\
    d_executions d' = d_executions d /\
    exists t, d_transitions d' = d_transitions d ++ [t] /\ t_workflow t = wid /\
      t_from t = Some DRAFT /\ t_to t = w_status w'.
Proof.
  intros Hrun.
  apply run_workflow_ok in Hrun as (w & r & p & st & ms & t & Hw & Hr & _ & Hd & Hp & Hst & _ & ->).
  exists w, r, p, st. eexists. rewrite lookup_advance.
  split_and!; try done; [|by eexists].
  intros k Hk. unfold advance. db_simpl. by rewrite lookup_insert_ne.
Qed.

(** A stale answer never survives: answering facts writes a new revision one version
    up, leaves every earlier revision as it was, clears the prepared package and its
    hash, and drops the workflow's requests; the workflow goes back to Draft exactly
    when the three facts a guest needs are all present. *)
Theorem answer_invalidates_review d wid w a answers u d' :
  reachable tel d -> d_workflows d !! wid = Some w ->
  answer_questions tel wid a answers d = (Ok u, d') ->
  exists r rev w',
    d_revisions d !! w_revision w = Some r /\ d_workflows d' !! wid = Some w' /\
    d_revisions d' !! w_revision w' = Some rev /\ r_version rev = r_version r + 1 /\
    r_snapshot rev = dict_update (r_snapshot r) (answered_fields answers) /\
    (forall k r', d_revisions d !! k = Some r' -> d_revisions d' !! k = Some r') /\
    w_package w' = None /\ w_package_hash w' = "" /\
    (forall qid q, d_approvals d' !! qid = Some q -> q_workflow q <> wid) /\
    (w_status w' = DRAFT <->
     forall fld, fld ∈ required_answers -> answer_text (r_snapshot rev) fld <> "").
Proof.
  intros Hre Hw Hrun. apply reachable_inv in Hre as HI.
  apply answer_questions_ok in Hrun as (w0 & r & t & Hw0 & Hr & _ & _ & _ & _ & _ & ->). simplify_eq.
  exists r. unfold drop_approvals, advance. do 2 eexists. db_simpl.
  rewrite !lookup_insert_eq. split_and!; try done; db_simpl.
  - apply lookup_insert_eq.
  - done.
  - done.
  - intros k r' Hk. apply (fresh_revisions _ (inv_fresh _ HI)) in Hk as Hlt.
    rewrite lookup_insert_ne; [done|lia].
  - intros qid q Hq. apply lookup_keep in Hq as [_ Hq]. by bools.
  - unfold missing_answers. generalize (dict_update (r_snapshot r) (answered_fields answers)).
    intros snap. unfold answer_destination. split.
    + intros Hd fld Hin Hblank. destruct (filter _ _) eqn:Hf; [|discriminate].
      eapply (not_elem_of_nil fld). rewrite <- Hf. by apply list_elem_of_filter.
    + intros Hall. destruct (filter _ _) as [|fld l] eqn:Hf; [done|].
      assert (fld ∈ fld :: l) as Hin by (by left). rewrite <- Hf in Hin.
      apply list_elem_of_filter in Hin as [Hb Hin]. by apply Hall in Hin.
Qed.

End system.

(** ** The demo run, for the concrete inputs *)

Ltac by_run := vm_compute; reflexivity.

#[global] Opaque d_reset d_ran d_answered d_ready d_review d_done demo_hash.

Lemma reach_reset : reachable None d_reset.
Proof. apply rtc_once, (step_reset _ _ _ demo_wid). by_run. Qed.

Lemma reach_ran : reachable None d_ran.
Proof. eapply rtc_r; [exact reach_reset|]. apply (step_run _ _ _ demo_wid maya_ ()). by_run. Qed.

Lemma reach_answered : reachable None d_answered.
Proof.
  eapply rtc_r; [exact reach_ran|]. apply (step_answer _ _ _ demo_wid maya_ demo_answers ()). by_run.
Qed.

Lemma reach_ready : reachable None d_ready.
Proof. eapply rtc_r; [exact reach_answered|]. apply (step_run _ _ _ demo_wid maya_ ()). by_run. Qed.

Lemma reach_review : reachable None d_review.
Proof.
  eapply rtc_r; [exact reach_ready|]. apply (step_submit _ _ _ demo_wid maya_ demo_qid). by_run.
Qed.

Lemma reach_done : reachable None d_done.
Proof.
  eapply rtc_r; [exact reach_review|].
  apply (step_decide _ _ _ 0 demo_qid jordan_ "approve" demo_hash "" ()). by_run.
Qed.

Definition row (d : db) : workflow :=
  default (Workflow 0 0 DRAFT None "" "") (d_workflows d !! demo_wid).

Lemma completed_was_reviewed_witness : exists p,
  w_status (row d_done) = COMPLETED /\ w_package (row d_done) = Some p /\
  w_package_hash (row d_done) = Sha256.sha256_hex (json_dumps true true p).
Proof.
  destruct (completed_was_reviewed None d_done demo_wid (row d_done) reach_done
              ltac:(by_run) ltac:(by_run)) as (r & p & qid & q & ap & xid & x & c & Hall).
  exists p. split; [by_run|]. destruct Hall as (_ & _ & _ & Hp & Hh & _). exact (conj Hp Hh).
Defined.

Lemma log_is_history_witness :
  history (log_of demo_wid (d_transitions d_done)) (w_status (row d_done)).
Proof. exact (log_is_history None d_done demo_wid (row d_done) reach_done ltac:(by_run)). Defined.

Lemma in_review_iff_pending_witness : exists qid q,
  d_approvals d_review !! qid = Some q /\ q_status q = A_PENDING.
Proof.
  destruct (proj1 (in_review_iff_pending None d_review demo_wid (row d_review) reach_review
                     ltac:(by_run)) ltac:(by_run)) as (qid & q & Hq & _ & Hp & _).
  exact (ex_intro _ qid (ex_intro _ q (conj Hq Hp))).
Defined.

(** An owner's manual event, started on the empty database. *)
Definition owner_ : actor := Actor "owner-1" "Owner" OPERATOR (Some 9).
Definition manual_body : json :=
  JDict [("title", JStr "Open house"); ("date", JStr "2026-08-12"); ("timezone", JStr "UTC")].
Definition d_manual : db := (Pilot.start_manual_event "0123" manual_body owner_ empty_db).2.
Definition manual_row : workflow :=
  default (Workflow 0 0 DRAFT None "" "") (d_workflows d_manual !! 3).
Definition manual_rev : event_revision :=
  default (EventRevision 0 0 [] "" None) (d_revisions d_manual !! 2).

Lemma reach_manual : reachable None d_manual.
Proof.
  apply rtc_once. eapply (step_manual _ _ _ "0123" manual_body owner_ 3); [by exists "1"|]. by_run.
Qed.

Lemma owner_workflow_unreviewed_witness :
  source_kind manual_rev = MANUAL /\
  (w_status manual_row = DRAFT \/ w_status manual_row = NEEDS_INPUT
   \/ w_status manual_row = READY_FOR_REVIEW).
Proof.
  split; [by_run|].
  refine (proj1 (owner_workflow_unreviewed None d_manual 3 manual_row manual_rev reach_manual
                   ltac:(by_run) ltac:(by_run) _)).
  assert (source_kind manual_rev = MANUAL) as -> by by_run. done.
Defined.

(** The submitter cannot approve: the request stays as it was. *)
Lemma decide_fails_cleanly_witness :
  exists e, (decide_approval None 0 demo_qid maya_ "approve" demo_hash "" d_review).1 = Err e /\
    exists code message status, e = DemoError code message status.
Proof.
  eexists. split; [by_run|].
  eapply (proj2 (decide_fails_cleanly None 0 d_review demo_qid maya_ "approve" demo_hash "" _ d_review
                   reach_review ltac:(by_run))).
Defined.

Definition pending : approval_request :=
  default (ApprovalRequest 0 "" None "" A_PENDING "" None) (d_approvals d_review !! demo_qid).
Definition review_rev : event_revision :=
  default (EventRevision 0 0 [] "" None) (d_revisions d_review !! w_revision (row d_review)).

Lemma approve_completes_witness :
  exists d', decide_approval None 0 demo_qid jordan_ "approve" demo_hash "" d_review = (Ok (), d').
Proof.
  destruct (approve_completes None 0 d_review demo_qid jordan_ demo_hash "" pending (row d_review)
              review_rev reach_review) as (d' & Hrun & _); [|by exists d'].
  split_and!; by_run || (intros Heq; vm_compute in Heq; discriminate).
Defined.

Lemma submit_and_answer_fail_cleanly_witness : exists e1 d1 e2 d2,
  submit_workflow None demo_wid jordan_ d_ready = (Err e1, d1) /\ d1 = d_ready /\
  answer_questions None demo_wid maya_ [] d_ran = (Err e2, d2) /\ d2 = d_ran.
Proof.
  assert (exists e1 d1, submit_workflow None demo_wid jordan_ d_ready = (Err e1, d1))
    as (e1 & d1 & H1) by (do 2 eexists; by_run).
  assert (exists e2 d2, answer_questions None demo_wid maya_ [] d_ran = (Err e2, d2))
    as (e2 & d2 & H2) by (do 2 eexists; by_run).
  destruct (submit_and_answer_fail_cleanly None d_ready demo_wid (row d_ready) jordan_ []
              reach_ready ltac:(by_run)) as [Hs _].
  destruct (submit_and_answer_fail_cleanly None d_ran demo_wid (row d_ran) maya_ []
              reach_ran ltac:(by_run)) as [_ Ha].
  destruct (Hs _ _ H1) as [E1 _], (Ha _ _ H2) as [E2 _].
  exists e1, d1, e2, d2. exact (conj H1 (conj E1 (conj H2 E2))).
Defined.

Lemma run_stores_package_witness : w_status (row d_ran) = NEEDS_INPUT.
Proof.
  destruct (run_stores_package None d_reset demo_wid maya_ () d_ran ltac:(by_run))
    as (w & r & p & status & w' & Hall).
  by_run.
Defined.

Lemma answer_invalidates_review_witness :
  w_status (row d_answered) = DRAFT /\ w_package (row d_answered) = None.
Proof.
  destruct (answer_invalidates_review None d_ran demo_wid (row d_ran) maya_ demo_answers () d_answered
              reach_ran ltac:(by_run) ltac:(by_run)) as (r & rev & w' & Hall).
  split; by_run.
Defined.

End Workflow.
