(* ===== verification/Budgets.v ===== *)
(** * Model budgets (backend/agents/budgets.py and its tables in backend/agents/models.py)

    Reserving, settling, releasing, expiring and charging the budget of a run, as
    transactions over the budget tables.  A [datetime] is a count of microseconds
    since 1970 in UTC; [uuid4] keys come from the counter [b_next]; the runs whose
    reservations must not expire (rows of the run tables) are the set [b_held]. *)

From S2P Require Import Prelude PyValue.

Module Budgets.

(** ** Tables: the columns the budget code reads or writes *)

Inductive purpose := WORKFLOW | EVALUATION_JUDGE | FALLBACK.
#[global] Instance purpose_eq_dec : EqDecision purpose.
Proof. solve_decision. Defined.

Record model_profile := ModelProfile {
  pf_profile_id : string;
  pf_revision : Z;
  pf_purpose : purpose;
  pf_max_input_tokens : Z;
  pf_max_output_tokens : Z;
  pf_input_price : option Z;
  pf_output_price : option Z;
}.

Record routing_policy := RoutingPolicy {
  po_policy_id : string;
  po_revision : Z;
  po_purpose : purpose;
  po_model_profile : Z;
  po_per_run_limit : Z;
  po_monthly_limit : Z;
}.

(** [month] as (year, month): its day is always 1. *)
Record budget_period := BudgetPeriod {
  bp_month : Z * Z;
  bp_limit : Z;
  bp_reserved : Z;
  bp_settled : Z;
}.

Inductive status := RESERVED | SETTLED | RELEASED.
#[global] Instance status_eq_dec : EqDecision status.
Proof. solve_decision. Defined.

Record budget_reservation := BudgetReservation {
  br_run : Z;
  br_profile : Z;
  br_policy : Z;
  br_period : Z;
  br_estimated_input : Z;
  br_estimated_output : Z;
  br_reserved_cost : Z;
  br_settled_input : option Z;
  br_settled_output : option Z;
  br_settled_cost : option Z;
  br_status : status;
  br_expires_at : Z;
}.

Record ledger_record := BudgetLedgerRecord {
  lr_run : Z;
  lr_reservation : Z;
  lr_profile_id : string;
  lr_profile_revision : Z;
  lr_entry_type : status;
  lr_input_tokens : Z;
  lr_output_tokens : Z;
  lr_cost : Z;
}.

Record db := DB {
  b_profiles : gmap Z model_profile;
  b_policies : gmap Z routing_policy;
  b_periods : gmap Z budget_period;
  b_reservations : gmap Z budget_reservation;
  b_ledger : list ledger_record;
  b_held : gset Z;
  b_next : Z;
}.

Inductive error :=
| UnknownModelPrice (message : string)
| BudgetExhausted (message : string)
| BudgetRequestConflict (message : string)
| IntegrityError (constraint : string)
| DataError (column : string)
| DoesNotExist (model : string).
#[global] Instance error_eq_dec : EqDecision error.
Proof. solve_decision. Defined.

Abbreviation M := (ST db error).

Definition set_periods x d := DB (b_profiles d) (b_policies d) x (b_reservations d) (b_ledger d) (b_held d) (b_next d).
Definition set_reservations x d := DB (b_profiles d) (b_policies d) (b_periods d) x (b_ledger d) (b_held d) (b_next d).
Definition set_ledger x d := DB (b_profiles d) (b_policies d) (b_periods d) (b_reservations d) x (b_held d) (b_next d).
Definition set_next x d := DB (b_profiles d) (b_policies d) (b_periods d) (b_reservations d) (b_ledger d) (b_held d) x.

Definition fresh : M Z :=
  d ← get; _ ← put (set_next (b_next d + 1) d); mret (b_next d).

Definition find_row {V : Type} (m : gmap Z V) (f : V -> bool) : option (Z * V) :=
  List.find (fun kv => f kv.2) (map_to_list m).

(** ** Columns: a positive column refuses negative values and values out of range *)

Definition INT_MAX : Z := 2147483647.
Definition BIGINT_MAX : Z := 9223372036854775807.

Definition column (name : string) (upper v : Z) : M () :=
  _ ← fail_if (v <? 0) (IntegrityError name); fail_if (upper <? v) (DataError name).

(** [period.save(...)]: both counters are columns of the saved row. *)
Definition save_period (pid : Z) (p : budget_period) : M () :=
  _ ← column "reserved_microusd" BIGINT_MAX (bp_reserved p);
  _ ← column "settled_microusd" BIGINT_MAX (bp_settled p);
  modify (fun d => set_periods (<[pid := p]> (b_periods d)) d).

Definition save_reservation (rid : Z) (r : budget_reservation) : M () :=
  _ ← column "reserved_cost_microusd" BIGINT_MAX (br_reserved_cost r);
  _ ← column "settled_input_tokens" INT_MAX (default 0 (br_settled_input r));
  _ ← column "settled_output_tokens" INT_MAX (default 0 (br_settled_output r));
  _ ← column "settled_cost_microusd" BIGINT_MAX (default 0 (br_settled_cost r));
  modify (fun d => set_reservations (<[rid := r]> (b_reservations d)) d).

(** [BudgetReservation.objects.create]: one reservation per run. *)
Definition create_reservation (r : budget_reservation) : M Z :=
  d ← get;
  _ ← fail_if (bool_decide (is_Some (find_row (b_reservations d) (fun r' => br_run r' =? br_run r))))
        (IntegrityError "agents_budgetreservation.run_id");
  _ ← column "estimated_input_tokens" INT_MAX (br_estimated_input r);
  _ ← column "estimated_output_tokens" INT_MAX (br_estimated_output r);
  rid ← fresh;
  _ ← save_reservation rid r;
  mret rid.

(** [BudgetLedgerRecord.objects.create]: one record per run and entry type. *)
Definition create_ledger (l : ledger_record) : M () :=
  d ← get;
  _ ← fail_if (existsb (fun l' => (lr_run l' =? lr_run l)
                                  && bool_decide (lr_entry_type l' = lr_entry_type l)) (b_ledger d))
        (IntegrityError "agents_unique_run_ledger_entry_type");
  _ ← column "input_tokens" INT_MAX (lr_input_tokens l);
  _ ← column "output_tokens" INT_MAX (lr_output_tokens l);
  _ ← column "cost_microusd" BIGINT_MAX (lr_cost l);
  put (set_ledger (b_ledger d ++ [l]) d).

Definition get_profile (id : Z) : M model_profile :=
  d ← get; some_or (b_profiles d !! id) (DoesNotExist "ModelProfile").
Definition get_policy (id : Z) : M routing_policy :=
  d ← get; some_or (b_policies d !! id) (DoesNotExist "RoutingPolicy").
Definition get_period (id : Z) : M budget_period :=
  d ← get; some_or (b_periods d !! id) (DoesNotExist "BudgetPeriod").

(** ** Dates *)

(** The civil date of a day count since 1970-01-01, as year and month. *)
Definition civil_month (days : Z) : Z * Z :=
  let z := days + 719468 in
  let era := z / 146097 in
  let doe := z - era * 146097 in
  let yoe := (doe - doe / 1460 + doe / 36524 - doe / 146096) / 365 in
  let doy := doe - (365 * yoe + yoe / 4 - yoe / 100) in
  let mp := (5 * doy + 2) / 153 in
  let m := if mp <? 10 then mp + 3 else mp - 9 in
  (yoe + era * 400 + (if m <=? 2 then 1 else 0), m).

Definition DAY : Z := 86400 * 1000000.
Definition month_start (now : Z) : Z * Z := civil_month (now / DAY).

Example month_start_epoch : month_start 0 = (1970, 1).
Proof. reflexivity. Qed.
Example month_start_leap : month_start (11016 * DAY - 1) = (2000, 2).
Proof. reflexivity. Qed.
Example month_start_next : month_start (11017 * DAY) = (2000, 3).
Proof. reflexivity. Qed.

(** ** Costs *)

Definition cost_of (input_price output_price input_tokens output_tokens : Z) : Z :=
  (input_tokens * input_price + output_tokens * output_price + 999999) / 1000000.

Definition cost (profile : model_profile) (input_tokens output_tokens : Z) : M Z :=
  match pf_input_price profile, pf_output_price profile with
  | Some pi, Some po =>
      _ ← fail_if ((input_tokens <? 0) || (output_tokens <? 0))
            (BudgetRequestConflict "Token counts cannot be negative.");
      mret (cost_of pi po input_tokens output_tokens)
  | _, _ => raise (UnknownModelPrice "The selected model has no approved price.")
  end.

(** ** Services *)

Definition profile_and_policy (profile_id : string) (profile_revision : Z)
  : M ((Z * model_profile) * (Z * routing_policy)) :=
  let unknown := UnknownModelPrice "The selected model and price are not allowlisted." in
  d ← get;
  profile ← some_or (find_row (b_profiles d) (fun p =>
              String.eqb (pf_profile_id p) profile_id && (pf_revision p =? profile_revision)))
              unknown;
  policy ← some_or (find_row (b_policies d) (fun p =>
              (po_model_profile p =? profile.1)
              && bool_decide (po_purpose p = pf_purpose profile.2))) unknown;
  _ ← fail_if (negb (bool_decide (is_Some (pf_input_price profile.2)
                                  /\ is_Some (pf_output_price profile.2))))
        (UnknownModelPrice "The selected model has no approved price.");
  mret (profile, policy).

(** [BudgetPeriod.objects.get_or_create(month=...)], then the limit test. *)
Definition period_for_update (policy : routing_policy) (now : Z) : M (Z * budget_period) :=
  d ← get;
  let month := month_start now in
  period ← (match find_row (b_periods d) (fun p => bool_decide (bp_month p = month)) with
            | Some row => mret row
            | None =>
                let p := BudgetPeriod month (po_monthly_limit policy) 0 0 in
                pid ← fresh;
                _ ← save_period pid p;
                mret (pid, p)
            end);
  _ ← fail_if (negb (bp_limit period.2 =? po_monthly_limit policy))
        (BudgetRequestConflict "The monthly budget policy changed within an active period.");
  mret period.

Definition with_counters (reserved settled : Z) (p : budget_period) : budget_period :=
  BudgetPeriod (bp_month p) (bp_limit p) reserved settled.

Definition with_status (s : status) (r : budget_reservation) : budget_reservation :=
  BudgetReservation (br_run r) (br_profile r) (br_policy r) (br_period r) (br_estimated_input r)
    (br_estimated_output r) (br_reserved_cost r) (br_settled_input r) (br_settled_output r)
    (br_settled_cost r) s (br_expires_at r).

Definition settled_with (input output actual : Z) (r : budget_reservation) : budget_reservation :=
  BudgetReservation (br_run r) (br_profile r) (br_policy r) (br_period r) (br_estimated_input r)
    (br_estimated_output r) (br_reserved_cost r) (Some input) (Some output) (Some actual) SETTLED
    (br_expires_at r).

Definition ledger_entry (rid : Z) (r : budget_reservation) (p : model_profile) (s : status)
    (input output amount : Z) : ledger_record :=
  BudgetLedgerRecord (br_run r) rid (pf_profile_id p) (pf_revision p) s input output amount.

(** The expired rows of a period: reserved, past [expires_at], of no held run. *)
Definition is_expired (pid now : Z) (held : gset Z) (r : budget_reservation) : bool :=
  (br_period r =? pid) && bool_decide (br_status r = RESERVED) && (br_expires_at r <=? now)
  && negb (bool_decide (br_run r ∈ held)).

Definition expire_period_reservations (pid : Z) (period : budget_period) (now : Z) : M Z :=
  d ← get;
  let expired := List.filter (fun kv => is_expired pid now (b_held d) kv.2)
                   (map_to_list (b_reservations d)) in
  reserved ← fold_each (bp_reserved period) expired (fun reserved row =>
    let '(rid, r) := row in
    _ ← save_reservation rid (with_status RELEASED r);
    profile ← get_profile (br_profile r);
    _ ← create_ledger (ledger_entry rid r profile RELEASED 0 0 (br_reserved_cost r));
    mret (reserved - br_reserved_cost r));
  _ ← (match expired with
       | [] => mret ()
       | _ => save_period pid (with_counters reserved (bp_settled period) period)
       end);
  mret (Z.of_nat (length expired)).

Definition reservation_of (run : Z) (d : db) : option (Z * budget_reservation) :=
  find_row (b_reservations d) (fun r => br_run r =? run).

Definition FIFTEEN_MINUTES : Z := 15 * 60 * 1000000.

Definition reserve_budget (now run : Z) (profile_id : string)
    (profile_revision estimated_input estimated_output : Z) (expires_at : option Z) : M Z :=
  atomic (
    d ← get;
    match reservation_of run d with
    | Some (rid, existing) =>
        profile ← get_profile (br_profile existing);
        _ ← fail_if (negb (String.eqb (pf_profile_id profile) profile_id
                           && (pf_revision profile =? profile_revision)
                           && (br_estimated_input existing =? estimated_input)
                           && (br_estimated_output existing =? estimated_output)))
              (BudgetRequestConflict "The run already has a different budget request.");
        mret rid
    | None =>
        selected ← profile_and_policy profile_id profile_revision;
        let '((profile_pk, profile), (policy_pk, policy)) := selected in
        _ ← fail_if ((pf_max_input_tokens profile <? estimated_input)
                     || (pf_max_output_tokens profile <? estimated_output))
              (BudgetRequestConflict "Estimated tokens exceed the approved profile limit.");
        amount ← cost profile estimated_input estimated_output;
        _ ← fail_if (po_per_run_limit policy <? amount)
              (BudgetExhausted "The per-run budget is exhausted.");
        row ← period_for_update policy now;
        let '(pid, period) := row in
        _ ← expire_period_reservations pid period now;
        period ← get_period pid;
        _ ← fail_if (bp_limit period <? bp_reserved period + bp_settled period + amount)
              (BudgetExhausted "The monthly budget is exhausted.");
        let reservation :=
          BudgetReservation run profile_pk policy_pk pid estimated_input estimated_output amount
            None None None RESERVED (default (now + FIFTEEN_MINUTES) expires_at) in
        rid ← create_reservation reservation;
        _ ← save_period pid (with_counters (bp_reserved period + amount) (bp_settled period) period);
        _ ← create_ledger (ledger_entry rid reservation profile RESERVED
              estimated_input estimated_output amount);
        mret rid
    end).

Definition settle_budget (run input_tokens output_tokens : Z) : M Z :=
  atomic (
    d ← get;
    row ← some_or (reservation_of run d)
            (BudgetRequestConflict "The run has no budget reservation.");
    let '(rid, reservation) := row in
    _ ← fail_if (bool_decide (br_status reservation = RELEASED))
          (BudgetRequestConflict "The run budget reservation has expired.");
    if bool_decide (br_status reservation = SETTLED) then
      _ ← fail_if (negb (bool_decide (br_settled_input reservation = Some input_tokens))
                   || negb (bool_decide (br_settled_output reservation = Some output_tokens)))
            (BudgetRequestConflict "The run already has different settled usage.");
      mret rid
    else
      profile ← get_profile (br_profile reservation);
      actual ← cost profile input_tokens output_tokens;
      _ ← fail_if ((pf_max_input_tokens profile <? input_tokens)
                   || (pf_max_output_tokens profile <? output_tokens))
            (BudgetRequestConflict "Settled tokens exceed the approved profile limit.");
      policy ← get_policy (br_policy reservation);
      _ ← fail_if (po_per_run_limit policy <? actual)
            (BudgetExhausted "The per-run budget is exhausted.");
      period ← get_period (br_period reservation);
      _ ← fail_if (bp_limit period <? bp_settled period + bp_reserved period
                                      + (actual - br_reserved_cost reservation))
            (BudgetExhausted "The monthly budget is exhausted.");
      _ ← save_period (br_period reservation)
            (with_counters (bp_reserved period - br_reserved_cost reservation)
               (bp_settled period + actual) period);
      _ ← save_reservation rid (settled_with input_tokens output_tokens actual reservation);
      _ ← create_ledger (ledger_entry rid reservation profile SETTLED
            input_tokens output_tokens actual);
      mret rid).

(** [None] when the run has no reservation. *)
Definition release_budget (run : Z) : M (option Z) :=
  atomic (
    d ← get;
    match reservation_of run d with
    | None => mret None
    | Some (rid, reservation) =>
        if negb (bool_decide (br_status reservation = RESERVED)) then mret (Some rid)
        else
          period ← get_period (br_period reservation);
          _ ← save_period (br_period reservation)
                (with_counters (bp_reserved period - br_reserved_cost reservation)
                   (bp_settled period) period);
          _ ← save_reservation rid (with_status RELEASED reservation);
          profile ← get_profile (br_profile reservation);
          _ ← create_ledger (ledger_entry rid reservation profile RELEASED 0 0
                (br_reserved_cost reservation));
          mret (Some rid)
    end).

Definition charge_reserved_budget (run : Z) : M (option Z) :=
  atomic (
    d ← get;
    match reservation_of run d with
    | None => mret None
    | Some (rid, reservation) =>
        if negb (bool_decide (br_status reservation = RESERVED)) then mret (Some rid)
        else
          period ← get_period (br_period reservation);
          _ ← save_period (br_period reservation)
                (with_counters (bp_reserved period - br_reserved_cost reservation)
                   (bp_settled period + br_reserved_cost reservation) period);
          _ ← save_reservation rid
                (settled_with (br_estimated_input reservation) (br_estimated_output reservation)
                   (br_reserved_cost reservation) reservation);
          profile ← get_profile (br_profile reservation);
          _ ← create_ledger (ledger_entry rid reservation profile SETTLED
                (br_estimated_input reservation) (br_estimated_output reservation)
                (br_reserved_cost reservation));
          mret (Some rid)
    end).

(** The periods with a reservation that is past its expiry. *)
Definition due_periods (now : Z) (d : db) : list (Z * budget_period) :=
  List.filter (fun kv =>
      existsb (fun r => (br_period r.2 =? kv.1) && bool_decide (br_status r.2 = RESERVED)
                        && (br_expires_at r.2 <=? now)) (map_to_list (b_reservations d)))
    (map_to_list (b_periods d)).

Definition expire_reservations (now : Z) : M Z :=
  atomic (
    d ← get;
    fold_each 0 (due_periods now d) (fun total row =>
      expired ← expire_period_reservations row.1 row.2 now;
      mret (total + expired))).

End Budgets.
