(* ===== verification/BudgetsTheorems.v ===== *)
(** * Theorems about model budgets

    The invariant of the budget tables: the two counters of a period are the sums of
    its open and settled reservations and never exceed its limit together; the ledger
    is exactly the history of the reservations. *)

From S2P Require Import Prelude PyValue Budgets.
Import Budgets.

Module Ledger.

(** ** Sums over a table *)

Definition sum_map {V : Type} (f : V -> Z) (m : gmap Z V) : Z :=
  map_fold (fun _ v acc => f v + acc) 0 m.

Lemma sum_map_empty {V : Type} (f : V -> Z) : sum_map f ∅ = 0.
Proof. apply map_fold_empty. Qed.

Lemma sum_map_insert {V : Type} (f : V -> Z) m k v :
  m !! k = None -> sum_map f (<[k := v]> m) = f v + sum_map f m.
Proof. intros Hk. unfold sum_map.
  apply (map_fold_insert_L (fun _ v acc => f v + acc) 0 k v m); [intros; lia|done]. Qed.

Lemma sum_map_update {V : Type} (f : V -> Z) m k v v0 :
  m !! k = Some v0 -> sum_map f (<[k := v]> m) = sum_map f m - f v0 + f v.
Proof.
  intros Hk. rewrite <- (insert_delete_id m k v0) at 2 by done.
  rewrite <- insert_delete_eq, !sum_map_insert by apply lookup_delete_eq. lia.
Qed.

Lemma sum_map_nonneg {V : Type} (f : V -> Z) m :
  (forall k v, m !! k = Some v -> 0 <= f v) -> 0 <= sum_map f m.
Proof.
  induction m as [|k v m Hk IH] using map_ind; intros Hf.
  - by rewrite sum_map_empty.
  - rewrite sum_map_insert by done. pose proof (Hf k v (lookup_insert_eq _ _ _)).
    assert (0 <= sum_map f m); [|lia]. apply IH. intros k' v' Hk'. apply (Hf k').
    rewrite lookup_insert_ne; [done|congruence].
Qed.

Lemma sum_map_le {V : Type} (f : V -> Z) m k v :
  (forall k v, m !! k = Some v -> 0 <= f v) -> m !! k = Some v -> f v <= sum_map f m.
Proof.
  intros Hf Hk. rewrite <- (insert_delete_id m k v) by done.
  rewrite sum_map_insert by apply lookup_delete_eq.
  assert (0 <= sum_map f (delete k m)); [|lia]. apply sum_map_nonneg.
  intros k' v' Hk'. apply lookup_delete_Some in Hk' as [_ Hk']. by eapply Hf.
Qed.

(** ** The invariant *)

(** What a reservation holds of its period, and what it has spent of it. *)
Definition open_cost (pid : Z) (r : budget_reservation) : Z :=
  if (br_period r =? pid) && bool_decide (br_status r = RESERVED) then br_reserved_cost r else 0.
Definition spent_cost (pid : Z) (r : budget_reservation) : Z :=
  if (br_period r =? pid) && bool_decide (br_status r = SETTLED)
  then default 0 (br_settled_cost r) else 0.

Definition open_total (pid : Z) (d : db) : Z := sum_map (open_cost pid) (b_reservations d).
Definition spent_total (pid : Z) (d : db) : Z := sum_map (spent_cost pid) (b_reservations d).

(** The catalog: rows as the columns and the unique constraints of the tables allow. *)
Record catalog_ok (d : db) : Prop := CatalogOk {
  profile_columns : forall k p, b_profiles d !! k = Some p ->
    0 < pf_max_input_tokens p <= INT_MAX /\ 0 < pf_max_output_tokens p <= INT_MAX /\
    (forall v, pf_input_price p = Some v -> 0 <= v <= BIGINT_MAX) /\
    (forall v, pf_output_price p = Some v -> 0 <= v <= BIGINT_MAX);
  policy_columns : forall k p, b_policies d !! k = Some p ->
    0 < po_per_run_limit p <= BIGINT_MAX /\ 0 < po_monthly_limit p <= BIGINT_MAX;
}.

(** The ledger entries of a reservation are its history. *)
Definition history_of (rid : Z) (r : budget_reservation) (p : model_profile) : list ledger_record :=
  ledger_entry rid r p RESERVED (br_estimated_input r) (br_estimated_output r) (br_reserved_cost r)
  :: match br_status r with
     | RESERVED => []
     | SETTLED =>
         [ledger_entry rid r p SETTLED (default 0 (br_settled_input r))
            (default 0 (br_settled_output r)) (default 0 (br_settled_cost r))]
     | RELEASED => [ledger_entry rid r p RELEASED 0 0 (br_reserved_cost r)]
     end.

Definition entries_of (run : Z) (l : list ledger_record) : list ledger_record :=
  List.filter (fun e => lr_run e =? run) l.

Record reservation_ok (d : db) (rid : Z) (r : budget_reservation) : Prop := ReservationOk {
  ro_period : is_Some (b_periods d !! br_period r);
  ro_catalog : exists p q, b_profiles d !! br_profile r = Some p /\
    b_policies d !! br_policy r = Some q /\ 0 <= br_reserved_cost r <= po_per_run_limit q /\
    0 <= br_estimated_input r <= pf_max_input_tokens p /\
    0 <= br_estimated_output r <= pf_max_output_tokens p /\
    is_Some (pf_input_price p) /\ is_Some (pf_output_price p) /\
    (forall c, br_settled_cost r = Some c -> 0 <= c <= po_per_run_limit q) /\
    entries_of (br_run r) (b_ledger d) = history_of rid r p;
  ro_settled : br_status r = SETTLED <-> is_Some (br_settled_cost r);
  ro_tokens : 0 <= default 0 (br_settled_input r) <= INT_MAX /\
    0 <= default 0 (br_settled_output r) <= INT_MAX;
}.

(** [open] and [spent]: what the counters of a period owe to its reservations in the
    middle of a service. *)
Record Inv_but (open spent : Z -> Z) (d : db) : Prop := InvBut {
  inv_catalog : catalog_ok d;
  inv_periods : forall pid p, b_periods d !! pid = Some p ->
    bp_reserved p = open_total pid d + open pid /\ bp_settled p = spent_total pid d + spent pid /\
    bp_reserved p + bp_settled p <= bp_limit p <= BIGINT_MAX;
  inv_months : forall pid p pid' p', b_periods d !! pid = Some p -> b_periods d !! pid' = Some p' ->
    bp_month p = bp_month p' -> pid = pid';
  inv_reservations : forall rid r, b_reservations d !! rid = Some r -> reservation_ok d rid r;
  inv_runs : forall rid r rid' r', b_reservations d !! rid = Some r ->
    b_reservations d !! rid' = Some r' -> br_run r = br_run r' -> rid = rid';
  inv_ledger : forall e, In e (b_ledger d) ->
    exists rid r, b_reservations d !! rid = Some r /\ br_run r = lr_run e;
  inv_fresh : (forall k p, b_periods d !! k = Some p -> k < b_next d) /\
    (forall k r, b_reservations d !! k = Some r -> k < b_next d);
}.

Definition nothing (pid : Z) : Z := 0.
Abbreviation Inv := (Inv_but nothing nothing).

Ltac db_simpl :=
  cbn [b_profiles b_policies b_periods b_reservations b_ledger b_held b_next
       set_periods set_reservations set_ledger set_next
       bp_month bp_limit bp_reserved bp_settled with_counters
       br_run br_profile br_policy br_period br_estimated_input br_estimated_output
       br_reserved_cost br_settled_input br_settled_output br_settled_cost br_status br_expires_at
       with_status settled_with lr_run lr_entry_type lr_cost fst snd] in * |- *.

Section totals.
Context (d : db) (Hres : forall rid r, b_reservations d !! rid = Some r -> reservation_ok d rid r).

Lemma open_cost_nonneg pid rid r : b_reservations d !! rid = Some r -> 0 <= open_cost pid r.
Proof.
  intros Hr. destruct (Hres _ _ Hr) as [_ (p & q & _ & _ & ? & _) _ _]. unfold open_cost.
  destruct (_ && _); lia.
Qed.

Lemma spent_cost_nonneg pid rid r : b_reservations d !! rid = Some r -> 0 <= spent_cost pid r.
Proof.
  intros Hr. destruct (Hres _ _ Hr) as [_ (p & q & _ & _ & _ & _ & _ & _ & _ & Hc & _) _ _].
  unfold spent_cost. destruct (_ && _); [|lia].
  destruct (br_settled_cost r) as [c|]; cbn; [|lia]. by apply Hc.
Qed.

Lemma open_total_nonneg pid : 0 <= open_total pid d.
Proof. apply sum_map_nonneg. intros. by eapply open_cost_nonneg. Qed.
Lemma spent_total_nonneg pid : 0 <= spent_total pid d.
Proof. apply sum_map_nonneg. intros. by eapply spent_cost_nonneg. Qed.

Lemma open_total_ge rid r :
  b_reservations d !! rid = Some r -> br_status r = RESERVED ->
  br_reserved_cost r <= open_total (br_period r) d.
Proof.
  intros Hr Hst. etransitivity; [|eapply sum_map_le; [|exact Hr]].
  - unfold open_cost. rewrite Z.eqb_refl, bool_decide_eq_true_2 by done. done.
  - intros. by eapply open_cost_nonneg.
Qed.
End totals.

Lemma List_filter_nil {A : Type} (f : A -> bool) l :
  (forall x, In x l -> f x = false) -> List.filter f l = [].
Proof.
  induction l as [|x l IH]; intros Hall; [done|]. cbn. rewrite Hall by (by left).
  apply IH. intros y ?. apply Hall. by right.
Qed.

(** ** Finding a row *)

Lemma find_row_some {V : Type} (m : gmap Z V) f k v :
  find_row m f = Some (k, v) -> m !! k = Some v /\ f v = true.
Proof.
  unfold find_row. intros Hf. apply List.find_some in Hf as [Hin Hf].
  by apply list_elem_of_In, elem_of_map_to_list in Hin.
Qed.

Lemma find_row_none {V : Type} (m : gmap Z V) f k v :
  find_row m f = None -> m !! k = Some v -> f v = false.
Proof.
  unfold find_row. intros Hf Hk. apply (List.find_none _ _ Hf (k, v)).
  by apply list_elem_of_In, elem_of_map_to_list.
Qed.

Lemma reservation_of_some run d rid r :
  reservation_of run d = Some (rid, r) -> b_reservations d !! rid = Some r /\ br_run r = run.
Proof. intros Hf. apply find_row_some in Hf as [? ?]. bools. done. Qed.

Lemma reservation_of_known d rid r :
  Inv d -> b_reservations d !! rid = Some r -> reservation_of (br_run r) d = Some (rid, r).
Proof.
  intros HI Hr. destruct (reservation_of (br_run r) d) as [[rid' r']|] eqn:Hf.
  - apply reservation_of_some in Hf as [Hr' Heq].
    assert (rid' = rid) as -> by (by eapply inv_runs). congruence.
  - eapply find_row_none in Hf; [|exact Hr]. cbn in Hf. by rewrite Z.eqb_refl in Hf.
Qed.

(** ** What the steps of the services do to the invariant *)

Definition at_period (pid amount : Z) (f : Z -> Z) (k : Z) : Z :=
  f k + (if pid =? k then amount else 0).

(** A period row is saved with new counters. *)
Lemma inv_save_period open spent d pid p reserved settled :
  Inv_but open spent d -> b_periods d !! pid = Some p ->
  reserved + settled <= bp_limit p ->
  Inv_but (at_period pid (reserved - bp_reserved p) open)
          (at_period pid (settled - bp_settled p) spent)
    (set_periods (<[pid := with_counters reserved settled p]> (b_periods d)) d).
Proof.
  intros [Hc Hp Hm Hr Hrun Hl [Hf1 Hf2]] Hpid Hlim. split; db_simpl; try done.
  - destruct Hc. by split.
  - intros k q Hk. unfold at_period. rewrite lookup_insert in Hk. case_decide as Heq.
    + subst k. injection Hk as <-. db_simpl. destruct (Hp _ _ Hpid) as (H1 & H2 & H3).
      rewrite Z.eqb_refl. unfold open_total, spent_total in *. db_simpl. lia.
    + apply Z.eqb_neq in Heq as ->. destruct (Hp _ _ Hk) as (H1 & H2 & H3).
      unfold open_total, spent_total in *. db_simpl. lia.
  - intros k q k' q' Hk Hk' Heq. rewrite lookup_insert in Hk, Hk'.
    repeat case_decide; simplify_eq; try done; db_simpl; by eapply Hm.
  - intros rid r Hrid. destruct (Hr _ _ Hrid) as [Hper Hcat ? ?]. split; try done.
    db_simpl. rewrite lookup_insert. case_decide; [by eexists|done].
  - split; [|done]. intros k q Hk. rewrite lookup_insert in Hk. case_decide; simplify_eq;
      [by eapply Hf1|by eapply Hf1].
Qed.

Lemma entries_app run l l' : entries_of run (l ++ l') = entries_of run l ++ entries_of run l'.
Proof. apply List.filter_app. Qed.

Lemma entries_one run e :
  entries_of run [e] = if lr_run e =? run then [e] else [].
Proof. reflexivity. Qed.

(** An open reservation is closed: settled or released, with its ledger entry. *)
Lemma inv_close open spent d rid r r' p e :
  Inv_but open spent d -> b_reservations d !! rid = Some r -> br_status r = RESERVED ->
  b_profiles d !! br_profile r = Some p ->
  br_run r' = br_run r -> br_profile r' = br_profile r -> br_policy r' = br_policy r ->
  br_period r' = br_period r -> br_estimated_input r' = br_estimated_input r ->
  br_estimated_output r' = br_estimated_output r -> br_reserved_cost r' = br_reserved_cost r ->
  br_status r' <> RESERVED ->
  history_of rid r' p = history_of rid r p ++ [e] ->
  (br_status r' = SETTLED <-> is_Some (br_settled_cost r')) ->
  (forall q c, b_policies d !! br_policy r = Some q -> br_settled_cost r' = Some c ->
     0 <= c <= po_per_run_limit q) ->
  (0 <= default 0 (br_settled_input r') <= INT_MAX /\
   0 <= default 0 (br_settled_output r') <= INT_MAX) ->
  Inv_but (at_period (br_period r) (br_reserved_cost r) open)
          (at_period (br_period r) (- spent_cost (br_period r) r') spent)
    (set_ledger (b_ledger d ++ [e]) (set_reservations (<[rid := r']> (b_reservations d)) d)).
Proof.
  intros [Hc Hp Hm Hr Hrun Hl [Hf1 Hf2]] Hrid Hst Hpf E1 E2 E3 E4 E5 E6 E7 Hst' Hh Hset Hcost Htok.
  assert (lr_run e = br_run r) as Herun.
  { assert (In e (history_of rid r' p)) as Hin by (rewrite Hh; apply in_app_iff; right; by left).
    unfold history_of in Hin. destruct (br_status r'); cbn in Hin; intuition subst; cbn; done. }
  split; db_simpl; try done.
  - destruct Hc. by split.
  - intros k q Hk. destruct (Hp _ _ Hk) as (H1 & H2 & H3). unfold at_period, open_total, spent_total in *.
    db_simpl. rewrite !(sum_map_update _ _ _ _ _ Hrid).
    assert (open_cost k r = if br_period r =? k then br_reserved_cost r else 0) as ->.
    { unfold open_cost. rewrite Hst. destruct (_ =? _); done. }
    assert (open_cost k r' = 0) as ->.
    { unfold open_cost. rewrite (bool_decide_eq_false_2 (br_status r' = RESERVED)) by done.
      by rewrite andb_false_r. }
    assert (spent_cost k r = 0) as ->.
    { unfold spent_cost. rewrite Hst. by rewrite andb_false_r. }
    assert (spent_cost k r' = if br_period r =? k then spent_cost (br_period r) r' else 0) as ->.
    { unfold spent_cost. rewrite E4. destruct (br_period r =? k) eqn:Ek; [|done].
      by rewrite Z.eqb_refl. }
    destruct (br_period r =? k); lia.
  - intros rid0 r0 Hk. rewrite lookup_insert in Hk. case_decide as Heq; [subst rid0; injection Hk as <-|].
    + destruct (Hr _ _ Hrid) as [Hper (p0 & q & Hp0 & Hq & ? & ? & ? & ? & ? & _ & Hhist) _ _].
      split; db_simpl; rewrite ?E4; try done.
      exists p0, q. rewrite E1, E2, E3, E5, E6, E7, entries_app, entries_one, Herun, Z.eqb_refl, Hhist.
      assert (p0 = p) as -> by congruence. rewrite Hh. split_and!; try done; try lia.
      intros c Hc'. by eapply Hcost.
    + destruct (Hr _ _ Hk) as [Hper (p0 & q & Hp0 & Hq & ? & ? & ? & ? & ? & ? & Hhist) ? ?].
      split; db_simpl; try done. exists p0, q.
      assert (br_run r <> br_run r0) as Hne.
      { intros Heqr. apply Heq. by eapply Hrun. }
      rewrite entries_app, entries_one, Herun. apply Z.eqb_neq in Hne as ->.
      rewrite app_nil_r. split_and!; (done || lia).
  - intros k r0 k' r0' Hk Hk' Heq. rewrite lookup_insert in Hk, Hk'.
    repeat case_decide; simplify_eq; try done.
    + rewrite E1 in Heq. by eapply Hrun.
    + rewrite E1 in Heq. by eapply Hrun.
    + by eapply Hrun.
  - intros e0 Hin. apply in_app_iff in Hin as [Hin|[<-|[]]].
    + destruct (Hl _ Hin) as (k & r0 & Hk & Hrn). destruct (decide (rid = k)) as [<-|Hne].
      * exists rid, r'. rewrite lookup_insert_eq. split; [done|]. simplify_eq. congruence.
      * exists k, r0. by rewrite lookup_insert_ne.
    + exists rid, r'. rewrite lookup_insert_eq. split; [done|congruence].
  - split; [done|]. intros k r0 Hk. rewrite lookup_insert in Hk.
    case_decide; simplify_eq; by eapply Hf2.
Qed.

(** Debts that are the same at every period are the same. *)
Lemma inv_debts open spent open' spent' d :
  Inv_but open spent d -> (forall k, open k = open' k) -> (forall k, spent k = spent' k) ->
  Inv_but open' spent' d.
Proof.
  intros [? Hp ? ? ? ? ?] Ho Hs. split; try done.
  intros pid p Hpid. rewrite <- Ho, <- Hs. by apply Hp.
Qed.

(** A new reservation, with its first ledger entry. *)
Lemma inv_open open spent d r p q e :
  Inv_but open spent d -> (forall k r', b_reservations d !! k = Some r' -> br_run r' <> br_run r) ->
  is_Some (b_periods d !! br_period r) -> b_profiles d !! br_profile r = Some p ->
  b_policies d !! br_policy r = Some q -> br_status r = RESERVED -> br_settled_cost r = None ->
  br_settled_input r = None -> br_settled_output r = None ->
  is_Some (pf_input_price p) -> is_Some (pf_output_price p) ->
  0 <= br_reserved_cost r <= po_per_run_limit q ->
  0 <= br_estimated_input r <= pf_max_input_tokens p ->
  0 <= br_estimated_output r <= pf_max_output_tokens p ->
  e = ledger_entry (b_next d) r p RESERVED (br_estimated_input r) (br_estimated_output r)
        (br_reserved_cost r) ->
  Inv_but (at_period (br_period r) (- br_reserved_cost r) open) spent
    (set_ledger (b_ledger d ++ [e])
       (set_reservations (<[b_next d := r]> (b_reservations d)) (set_next (b_next d + 1) d))).
Proof.
  intros [Hc Hp Hm Hr Hrun Hl [Hf1 Hf2]] Hnew Hper Hpf Hpo Hst Hsc Hsi Hso Hpi Hpoo Hcost Hin Hout ->.
  assert (b_reservations d !! b_next d = None) as Hfree.
  { apply eq_None_not_Some. intros [r0 Hk]. apply Hf2 in Hk. lia. }
  assert (forall run, run <> br_run r -> entries_of run [ledger_entry (b_next d) r p RESERVED
            (br_estimated_input r) (br_estimated_output r) (br_reserved_cost r)] = []) as Hother.
  { intros run Hne. rewrite entries_one. cbn.
    by destruct (Z.eqb_spec (br_run r) run). }
  split; db_simpl; try done.
  - destruct Hc. by split.
  - intros k p0 Hk. destruct (Hp _ _ Hk) as (H1 & H2 & H3).
    unfold at_period, open_total, spent_total in *. db_simpl. rewrite !sum_map_insert by done.
    assert (spent_cost k r = 0) as -> by (unfold spent_cost; rewrite Hst; by rewrite andb_false_r).
    assert (open_cost k r = if br_period r =? k then br_reserved_cost r else 0) as ->.
    { unfold open_cost. rewrite Hst. by destruct (_ =? _). }
    destruct (br_period r =? k); lia.
  - intros rid r0 Hk. rewrite lookup_insert in Hk. case_decide as Heq.
    + subst rid. injection Hk as <-. split; db_simpl; rewrite ?Hsc, ?Hsi, ?Hso; try done.
      * exists p, q. split_and!; try done; try lia. unfold history_of. rewrite Hst, entries_app, entries_one.
        cbn [lr_run ledger_entry]. rewrite Z.eqb_refl.
        assert (entries_of (br_run r) (b_ledger d) = []) as ->; [|done].
        unfold entries_of. apply List_filter_nil. intros e He.
        destruct (Hl _ He) as (k & r0 & Hk & <-). apply Z.eqb_neq. by eapply Hnew.
      * split; [congruence|by intros []].
    + destruct (Hr _ _ Hk) as [Hper0 (p0 & q0 & Hp0 & Hq & ? & ? & ? & ? & ? & ? & Hhist) ? ?].
      split; db_simpl; try done. exists p0, q0.
      rewrite entries_app, Hother, app_nil_r by (by eapply Hnew). split_and!; (done || lia).
  - intros k r0 k' r0' Hk Hk' Heq. rewrite lookup_insert in Hk, Hk'.
    repeat case_decide; simplify_eq; try done.
    + exfalso. by eapply Hnew.
    + exfalso. by eapply Hnew.
    + by eapply Hrun.
  - intros e0 Hin0. apply in_app_iff in Hin0 as [Hin0|[<-|[]]].
    + destruct (Hl _ Hin0) as (k & r0 & Hk & Hrn). exists k, r0. rewrite lookup_insert_ne; [done|congruence].
    + exists (b_next d), r. by rewrite lookup_insert_eq.
  - split; intros k v Hk; [apply Hf1 in Hk; lia|].
    rewrite lookup_insert in Hk. case_decide; [lia|]. apply Hf2 in Hk. lia.
Qed.

(** ** Symbolic execution of the tables *)

Section wp.
Implicit Types (Q : result error () -> db -> Prop) (d : db).

Lemma wp_column name upper v Q d : 0 <= v <= upper -> Q (Ok ()) d -> wp (column name upper v) Q d.
Proof.
  intros Hv HQ. unfold column. wp_steps; bools; try lia. done.
Qed.

Lemma wp_save_period pid p Q d :
  0 <= bp_reserved p -> 0 <= bp_settled p -> bp_reserved p + bp_settled p <= BIGINT_MAX ->
  Q (Ok ()) (set_periods (<[pid := p]> (b_periods d)) d) -> wp (save_period pid p) Q d.
Proof.
  intros H1 H2 H3 HQ. unfold save_period. wp_steps. apply wp_column; [lia|]. wp_steps.
  apply wp_column; [lia|]. by wp_steps.
Qed.

Lemma wp_save_reservation rid r Q d :
  0 <= br_reserved_cost r <= BIGINT_MAX -> 0 <= default 0 (br_settled_input r) <= INT_MAX ->
  0 <= default 0 (br_settled_output r) <= INT_MAX ->
  0 <= default 0 (br_settled_cost r) <= BIGINT_MAX ->
  Q (Ok ()) (set_reservations (<[rid := r]> (b_reservations d)) d) -> wp (save_reservation rid r) Q d.
Proof.
  intros H1 H2 H3 H4 HQ. unfold save_reservation.
  do 4 (wp_step; apply wp_column; [done|cbn beta iota]). by wp_steps.
Qed.

Lemma wp_create_ledger e Q d :
  (forall e', In e' (b_ledger d) -> lr_run e' = lr_run e -> lr_entry_type e' <> lr_entry_type e) ->
  0 <= lr_input_tokens e <= INT_MAX -> 0 <= lr_output_tokens e <= INT_MAX ->
  0 <= lr_cost e <= BIGINT_MAX ->
  Q (Ok ()) (set_ledger (b_ledger d ++ [e]) d) -> wp (create_ledger e) Q d.
Proof.
  intros Hnew H1 H2 H3 HQ. unfold create_ledger. wp_step; wp_step; cbn beta iota. wp_step; wp_step.
  - match goal with Hx : existsb _ _ = true |- _ =>
      apply existsb_exists in Hx as (e' & Hin & Hx) end. bools. by destruct (Hnew e').
  - do 3 (wp_step; apply wp_column; [done|cbn beta iota]). by wp_steps.
Qed.

Lemma wp_get_row {V : Type} (m : db -> gmap Z V) id v name (Q : result error V -> db -> Prop) d :
  m d !! id = Some v -> Q (Ok v) d -> wp (d ← get; some_or (m d !! id) (DoesNotExist name)) Q d.
Proof. intros Hm HQ. wp_steps; [by simplify_eq|congruence]. Qed.

End wp.

(** ** Services *)

(** The errors a caller is told about. *)
Definition budget_error (e : error) : Prop :=
  match e with
  | UnknownModelPrice _ | BudgetExhausted _ | BudgetRequestConflict _ => True
  | _ => False
  end.

Definition outcome_or (bad : error -> Prop) {A : Type} (post : A -> db -> Prop) (o : result error A)
    (d' : db) : Prop :=
  match o with Ok a => Inv d' /\ post a d' | Err e => bad e end.
Abbreviation outcome := (outcome_or budget_error).
(** A service that never fails. *)
Abbreviation succeeds := (outcome_or (fun _ => False)).

Lemma no_close_entry open spent d rid r s e :
  Inv_but open spent d -> b_reservations d !! rid = Some r -> br_status r = RESERVED -> s <> RESERVED ->
  In e (b_ledger d) -> lr_run e = br_run r -> lr_entry_type e <> s.
Proof.
  intros HI Hr Hst Hs Hin Hrun.
  destruct (inv_reservations _ _ _ HI _ _ Hr) as [_ (p & q & _ & _ & _ & _ & _ & _ & _ & _ & Hh) _ _].
  assert (In e (entries_of (br_run r) (b_ledger d))) as He.
  { apply filter_In. split; [done|]. by apply Z.eqb_eq. }
  rewrite Hh in He. unfold history_of in He. rewrite Hst in He. destruct He as [<-|[]]. cbn. congruence.
Qed.

(** Closing a reservation together with its period's counters. *)
Lemma inv_closed d rid r r' p per e :
  Inv d -> b_reservations d !! rid = Some r -> br_status r = RESERVED ->
  b_profiles d !! br_profile r = Some p -> b_periods d !! br_period r = Some per ->
  br_run r' = br_run r -> br_profile r' = br_profile r -> br_policy r' = br_policy r ->
  br_period r' = br_period r -> br_estimated_input r' = br_estimated_input r ->
  br_estimated_output r' = br_estimated_output r -> br_reserved_cost r' = br_reserved_cost r ->
  br_status r' <> RESERVED -> history_of rid r' p = history_of rid r p ++ [e] ->
  (br_status r' = SETTLED <-> is_Some (br_settled_cost r')) ->
  (forall q c, b_policies d !! br_policy r = Some q -> br_settled_cost r' = Some c ->
     0 <= c <= po_per_run_limit q) ->
  (0 <= default 0 (br_settled_input r') <= INT_MAX /\
   0 <= default 0 (br_settled_output r') <= INT_MAX) ->
  let amount := spent_cost (br_period r) r' in
  bp_reserved per - br_reserved_cost r + (bp_settled per + amount) <= bp_limit per ->
  Inv (set_ledger (b_ledger d ++ [e])
         (set_reservations (<[rid := r']> (b_reservations d))
            (set_periods (<[br_period r := with_counters (bp_reserved per - br_reserved_cost r)
                                             (bp_settled per + amount) per]> (b_periods d)) d))).
Proof.
  intros HI Hr Hst Hpf Hper E1 E2 E3 E4 E5 E6 E7 Hst' Hh Hs Hc Ht amount Hlim.
  pose proof (inv_save_period _ _ d (br_period r) per (bp_reserved per - br_reserved_cost r)
    (bp_settled per + amount) HI Hper Hlim) as HI1.
  eapply (inv_close _ _ _ rid r r' p e) in HI1; try done.
  eapply inv_debts; [exact HI1|..]; intros k; unfold at_period, nothing; subst amount;
    destruct (br_period r =? k); lia.
Qed.

Lemma budget_error_atomic bad {A : Type} (m : M A) (post : A -> db -> Prop) d :
  Inv d -> wp m (outcome_or bad post) d -> wp (atomic m) (outcome_or bad post) d.
Proof.
  intros HI Hm. apply wp_atomic. eapply wp_mono; [|exact Hm]. by intros [].
Qed.

(** What is known of an open reservation. *)
Lemma open_facts d rid r :
  Inv d -> b_reservations d !! rid = Some r -> br_status r = RESERVED ->
  exists p q per, b_profiles d !! br_profile r = Some p /\ b_policies d !! br_policy r = Some q /\
    b_periods d !! br_period r = Some per /\ 0 <= br_reserved_cost r <= bp_reserved per /\
    br_reserved_cost r <= po_per_run_limit q /\
    0 <= bp_settled per /\ bp_reserved per + bp_settled per <= bp_limit per <= BIGINT_MAX /\
    0 <= br_estimated_input r <= pf_max_input_tokens p /\
    0 <= br_estimated_output r <= pf_max_output_tokens p /\
    br_settled_cost r = None.
Proof.
  intros HI Hr Hst. pose proof (inv_reservations _ _ _ HI) as Hres.
  destruct (Hres _ _ Hr) as [[per Hper] (p & q & Hp & Hq & ? & ? & ? & _ & _ & _ & _) Hs _].
  destruct (inv_periods _ _ _ HI _ _ Hper) as (K1 & K2 & K3).
  pose proof (open_total_ge d Hres _ _ Hr Hst). pose proof (spent_total_nonneg d Hres (br_period r)).
  unfold nothing in *. exists p, q, per. split_and!; try done; try lia.
  destruct (br_settled_cost r); [|done]. exfalso. assert (br_status r = SETTLED) by (by apply Hs). congruence.
Qed.

Lemma policy_max open spent d k q : Inv_but open spent d -> b_policies d !! k = Some q -> po_per_run_limit q <= BIGINT_MAX.
Proof. intros HI Hq. by destruct (policy_columns _ (inv_catalog _ _ _ HI) _ _ Hq) as [[_ ?] _]. Qed.

Lemma profile_max open spent d k p :
  Inv_but open spent d -> b_profiles d !! k = Some p ->
  pf_max_input_tokens p <= INT_MAX /\ pf_max_output_tokens p <= INT_MAX.
Proof. intros HI Hp. destruct (profile_columns _ (inv_catalog _ _ _ HI) _ _ Hp) as ([_ ?] & [_ ?] & _). done. Qed.

Lemma cost_of_nonneg pi po i o :
  0 <= pi -> 0 <= po -> 0 <= i -> 0 <= o -> 0 <= cost_of pi po i o.
Proof. intros. unfold cost_of. apply Z.div_pos; nia. Qed.

(** Releasing. *)
Definition released_post (run : Z) (d : db) (res : option Z) (d' : db) : Prop :=
  (res = None /\ reservation_of run d = None /\ d' = d) \/
  exists rid r, res = Some rid /\ reservation_of run d = Some (rid, r) /\
    ((br_status r <> RESERVED /\ d' = d) \/
     (br_status r = RESERVED /\
      b_reservations d' = <[rid := with_status RELEASED r]> (b_reservations d))).

Lemma release_spec run d :
  Inv d -> wp (release_budget run) (succeeds (released_post run d)) d.
Proof.
  intros HI. apply budget_error_atomic; [done|]. wp_step; wp_step; cbn beta iota.
  destruct (reservation_of run d) as [[rid r]|] eqn:Hf; [|wp_steps; split; [done|by left]].
  apply reservation_of_some in Hf as Hf'. destruct Hf' as [Hr Hrun].
  wp_step; [wp_steps; split; [done|]; right; bools; by exists rid, r; auto|]. bools.
  destruct (open_facts _ _ _ HI Hr ltac:(done)) as (p & q & per & Hp & Hq & Hper & ? & ? & ? & ? & ? & ? & Hsc).
  pose proof (policy_max _ _ _ _ _ HI Hq). destruct (ro_tokens _ _ _ (inv_reservations _ _ _ HI _ _ Hr)).
  wp_step. apply (wp_get_row b_periods _ per); [done|]. cbn beta iota.
  wp_step. apply wp_save_period; db_simpl; [lia..|].
  wp_step. apply wp_save_reservation; db_simpl; rewrite ?Hsc; [lia|done|done|unfold BIGINT_MAX; cbn; lia|].
  wp_step. apply (wp_get_row b_profiles _ p); [done|]. cbn beta iota.
  wp_step. apply wp_create_ledger; cbn [lr_run ledger_entry lr_entry_type lr_input_tokens lr_output_tokens lr_cost];
    [|unfold INT_MAX; lia|unfold INT_MAX; lia|lia|].
  { intros e' Hin Hrn. by eapply no_close_entry. }
  wp_steps. split; [|right; exists rid, r; split_and!; [done|done|right; by db_simpl]].
  assert (bp_settled per = bp_settled per + spent_cost (br_period r) (with_status RELEASED r)) as Hsp.
  { unfold spent_cost. db_simpl. rewrite (bool_decide_eq_false_2 (RELEASED = SETTLED)) by done.
    rewrite andb_false_r. lia. }
  rewrite Hsp. apply (inv_closed d rid r (with_status RELEASED r) p per); try done; db_simpl.
  - unfold history_of. db_simpl.
    match goal with H : br_status r = RESERVED |- _ => by rewrite H end.
  - split; [done|]. rewrite Hsc. by intros [].
  - intros q0 c _ Hc. congruence.
  - rewrite <- Hsp. lia.
Qed.

(** Settling a row: the part of the invariant that [settled_with] owes. *)
Lemma inv_settled d rid r p q per input output actual :
  Inv d -> b_reservations d !! rid = Some r -> br_status r = RESERVED ->
  b_profiles d !! br_profile r = Some p -> b_policies d !! br_policy r = Some q ->
  b_periods d !! br_period r = Some per ->
  0 <= actual <= po_per_run_limit q -> 0 <= input <= INT_MAX -> 0 <= output <= INT_MAX ->
  bp_reserved per - br_reserved_cost r + (bp_settled per + actual) <= bp_limit per ->
  Inv (set_ledger (b_ledger d ++ [ledger_entry rid r p SETTLED input output actual])
         (set_reservations (<[rid := settled_with input output actual r]> (b_reservations d))
            (set_periods (<[br_period r := with_counters (bp_reserved per - br_reserved_cost r)
                                             (bp_settled per + actual) per]> (b_periods d)) d))).
Proof.
  intros HI Hr Hst Hp Hq Hper Ha Hin Hout Hlim.
  assert (actual = spent_cost (br_period r) (settled_with input output actual r)) as Hsp.
  { unfold spent_cost. db_simpl. rewrite Z.eqb_refl. done. }
  rewrite Hsp at 3. apply (inv_closed d rid r (settled_with input output actual r) p per);
    try done; db_simpl.
  - unfold history_of. db_simpl. by rewrite Hst.
  - intros q' c Hq' [= <-]. by simplify_eq.
  - by rewrite <- Hsp.
Qed.

(** Charging. *)
Definition charged_post (run : Z) (d : db) (res : option Z) (d' : db) : Prop :=
  (res = None /\ reservation_of run d = None /\ d' = d) \/
  exists rid r, res = Some rid /\ reservation_of run d = Some (rid, r) /\
    ((br_status r <> RESERVED /\ d' = d) \/
     (br_status r = RESERVED /\
      b_reservations d' =
        <[rid := settled_with (br_estimated_input r) (br_estimated_output r) (br_reserved_cost r) r]>
          (b_reservations d))).

Lemma charge_spec run d :
  Inv d -> wp (charge_reserved_budget run) (succeeds (charged_post run d)) d.
Proof.
  intros HI. apply budget_error_atomic; [done|]. wp_step; wp_step; cbn beta iota.
  destruct (reservation_of run d) as [[rid r]|] eqn:Hf; [|wp_steps; split; [done|by left]].
  apply reservation_of_some in Hf as Hf'. destruct Hf' as [Hr Hrun].
  wp_step; [wp_steps; split; [done|]; right; bools; by exists rid, r; auto|]. bools.
  destruct (open_facts _ _ _ HI Hr ltac:(done)) as (p & q & per & Hp & Hq & Hper & ? & ? & ? & ? & ? & ? & Hsc).
  pose proof (policy_max _ _ _ _ _ HI Hq). destruct (profile_max _ _ _ _ _ HI Hp).
  wp_step. apply (wp_get_row b_periods _ per); [done|]. cbn beta iota.
  wp_step. apply wp_save_period; db_simpl; [lia..|].
  wp_step. apply wp_save_reservation; db_simpl; cbn [from_option]; unfold id; [lia..|].
  wp_step. apply (wp_get_row b_profiles _ p); [done|]. cbn beta iota.
  wp_step. apply wp_create_ledger; cbn [lr_run ledger_entry lr_entry_type lr_input_tokens lr_output_tokens lr_cost];
    [|lia|lia|lia|].
  { intros e' Hin Hrn. by eapply no_close_entry. }
  wp_steps. split; [|right; exists rid, r; split_and!; [done|done|right; by db_simpl]].
  apply (inv_settled d rid r p q per); try done; lia.
Qed.

(** Settling. *)
Definition settled_post (run input output : Z) (d : db) (rid : Z) (d' : db) : Prop :=
  exists r, reservation_of run d = Some (rid, r) /\
    ((br_status r = SETTLED /\ br_settled_input r = Some input /\
      br_settled_output r = Some output /\ d' = d) \/
     (br_status r = RESERVED /\ exists p pi po, b_profiles d !! br_profile r = Some p /\
      pf_input_price p = Some pi /\ pf_output_price p = Some po /\
      b_reservations d' =
        <[rid := settled_with input output (cost_of pi po input output) r]> (b_reservations d))).

Lemma wp_cost p i o Q d :
  (forall pi po, pf_input_price p = Some pi -> pf_output_price p = Some po -> 0 <= i -> 0 <= o ->
     Q (Ok (cost_of pi po i o)) d) ->
  (forall e, budget_error e -> Q (Err e) d) ->
  wp (cost p i o) Q d.
Proof.
  intros HQ He. unfold cost. repeat (case_match; wp_steps; try (by apply He)).
  bools. apply HQ; [done..|lia|lia].
Qed.

Lemma settle_spec run input output d :
  Inv d -> wp (settle_budget run input output) (outcome (settled_post run input output d)) d.
Proof.
  intros HI. apply budget_error_atomic; [done|]. wp_step; wp_step; cbn beta iota. wp_step; wp_step; [|done].
  cbn beta iota. match goal with H : reservation_of run d = Some ?row |- _ =>
    destruct row as [rid r]; rename H into Hf end.
  apply reservation_of_some in Hf as Hf'. destruct Hf' as [Hr Hrun].
  wp_step; wp_step; [done|]. cbn beta iota. wp_step.
  { wp_steps; [done|]. split; [done|]. exists r. split; [done|]. left. by bools. }
  bools. assert (br_status r = RESERVED) as Hst by (destruct (br_status r); done).
  destruct (open_facts _ _ _ HI Hr Hst) as (p & q & per & Hp & Hq & Hper & ? & ? & ? & ? & ? & ? & Hsc).
  pose proof (policy_max _ _ _ _ _ HI Hq). destruct (profile_max _ _ _ _ _ HI Hp) as [Hmi Hmo].
  destruct (profile_columns _ (inv_catalog _ _ _ HI) _ _ Hp) as (_ & _ & Hpi & Hpo).
  wp_step. apply (wp_get_row b_profiles _ p); [done|]. cbn beta iota.
  wp_step. apply wp_cost; [|done]. intros pi po Epi Epo Hi Ho. cbn beta iota.
  pose proof (cost_of_nonneg pi po input output (proj1 (Hpi _ Epi)) (proj1 (Hpo _ Epo)) Hi Ho) as Hcn.
  wp_step; wp_step; [done|]. cbn beta iota. bools.
  wp_step. apply (wp_get_row b_policies _ q); [done|]. cbn beta iota.
  wp_step; wp_step; [done|]. cbn beta iota. bools.
  wp_step. apply (wp_get_row b_periods _ per); [done|]. cbn beta iota.
  wp_step; wp_step; [done|]. cbn beta iota. bools.
  wp_step. apply wp_save_period; db_simpl; [lia..|].
  wp_step. apply wp_save_reservation; db_simpl; cbn [from_option]; unfold id; [lia..|].
  wp_step. apply wp_create_ledger; cbn [lr_run ledger_entry lr_entry_type lr_input_tokens lr_output_tokens lr_cost];
    [|lia|lia|lia|].
  { intros e' Hin Hrn. by eapply no_close_entry. }
  wp_steps. split; [apply (inv_settled d rid r p q per); try done; lia|].
  exists r. split; [done|]. right. split; [done|]. by exists p, pi, po.
Qed.

(** Expiring. *)
Lemma row_facts open spent d rid r :
  Inv_but open spent d -> b_reservations d !! rid = Some r -> br_status r = RESERVED ->
  exists p, b_profiles d !! br_profile r = Some p /\ 0 <= br_reserved_cost r <= BIGINT_MAX /\
    br_settled_cost r = None /\ 0 <= default 0 (br_settled_input r) <= INT_MAX /\
    0 <= default 0 (br_settled_output r) <= INT_MAX.
Proof.
  intros HI Hr Hst.
  destruct (inv_reservations _ _ _ HI _ _ Hr) as [_ (p & q & Hp & Hq & ? & _) Hs [? ?]].
  pose proof (policy_max _ _ _ _ _ HI Hq). exists p. split_and!; try done; try lia.
  destruct (br_settled_cost r); [|done]. exfalso. assert (br_status r = SETTLED) by (by apply Hs). congruence.
Qed.

(** What the loop over the expired rows of a period does. *)
Definition expired_loop (pid : Z) (l : list (Z * budget_reservation)) (acc done_ : Z) (d : db)
    (o : result error Z) (d' : db) : Prop :=
  exists total, o = Ok (acc - total) /\ (l = [] -> total = 0) /\ 0 <= total /\
    Inv_but (at_period pid (done_ + total) nothing) nothing d' /\
    b_periods d' = b_periods d /\ b_profiles d' = b_profiles d /\ b_policies d' = b_policies d /\
    b_held d' = b_held d /\ b_next d' = b_next d /\
    (forall rid r, In (rid, r) l -> b_reservations d' !! rid = Some (with_status RELEASED r)) /\
    (forall rid, rid ∉ map fst l -> b_reservations d' !! rid = b_reservations d !! rid).

Lemma expire_loop pid body l : forall d acc done_,
  (forall reserved row, body reserved row =
     (_ ← save_reservation row.1 (with_status RELEASED row.2);
      profile ← get_profile (br_profile row.2);
      _ ← create_ledger (ledger_entry row.1 row.2 profile RELEASED 0 0 (br_reserved_cost row.2));
      mret (reserved - br_reserved_cost row.2))) ->
  Inv_but (at_period pid done_ nothing) nothing d -> NoDup (map fst l) ->
  (forall rid r, In (rid, r) l ->
     b_reservations d !! rid = Some r /\ br_status r = RESERVED /\ br_period r = pid) ->
  wp (fold_each acc l body) (expired_loop pid l acc done_ d) d.
Proof.
  induction l as [|[rid r] l IH]; intros d acc done_ Hbody HI Hnd Hl.
  { apply wp_ret. exists 0. rewrite Z.sub_0_r, Z.add_0_r. by split_and!. }
  cbn [map fst] in Hnd. apply NoDup_cons in Hnd as [Hni Hnd].
  destruct (Hl rid r ltac:(by left)) as (Hr & Hst & Hpid).
  destruct (row_facts _ _ _ _ _ HI Hr Hst) as (p & Hp & Hcost & Hsc & Hti & Hto).
  cbn [fold_each]. rewrite Hbody. cbn [fst snd]. wp_step. wp_step.
  apply wp_save_reservation; db_simpl; rewrite ?Hsc; [done..|cbn; unfold BIGINT_MAX; lia|].
  wp_step. apply (wp_get_row b_profiles _ p); [done|]. cbn beta iota.
  wp_step. apply wp_create_ledger; cbn [lr_run ledger_entry lr_entry_type lr_input_tokens lr_output_tokens lr_cost];
    [|unfold INT_MAX; lia|unfold INT_MAX; lia|done|].
  { intros e' Hin Hrn. by eapply no_close_entry. }
  wp_step. set (e := ledger_entry _ _ _ _ _ _ _). set (d1 := set_ledger _ _).
  assert (Inv_but (at_period pid (done_ + br_reserved_cost r) nothing) nothing d1) as HI1.
  { eapply inv_debts.
    - subst d1. db_simpl.
      apply (inv_close _ _ d rid r (with_status RELEASED r) p e HI); try done; db_simpl.
      + unfold history_of. db_simpl. by rewrite Hst.
      + split; [done|]. rewrite Hsc. by intros [].
      + intros q c _ Hc. congruence.
    - intros k. unfold at_period, nothing. rewrite Hpid. destruct (pid =? k); lia.
    - intros k. unfold at_period, nothing, spent_cost. db_simpl.
      rewrite (bool_decide_eq_false_2 (RELEASED = SETTLED)), andb_false_r by done.
      by destruct (br_period r =? k). }
  eapply wp_mono; [|apply (IH d1 _ _ Hbody HI1 Hnd)].
  - intros o d' (total & -> & _ & Hpos & HI' & Hper & Hpf & Hpo & Hh & Hn & Hin & Hout).
    exists (br_reserved_cost r + total). rewrite Z.sub_add_distr, Z.add_assoc. split_and!; try done; try lia.
    + intros rid' r' [[= <- <-]|Hin']; [|by apply Hin]. rewrite Hout by done.
      subst d1. db_simpl. by rewrite lookup_insert_eq.
    + intros rid' Hni'. cbn in Hni'. apply not_elem_of_cons in Hni' as [Hne Hni'].
      rewrite Hout by done. subst d1. db_simpl. by rewrite lookup_insert_ne.
  - intros rid' r' Hin. destruct (Hl rid' r' ltac:(by right)) as (Hr' & ? & ?).
    split; [|done]. subst d1. db_simpl. rewrite lookup_insert_ne; [done|].
    intros ->. apply Hni. apply list_elem_of_fmap. exists (rid', r'). split; [done|by apply list_elem_of_In].
Qed.

(** The rows of an expired period. *)
Definition expire_rows (pid now : Z) (held : gset Z) (r : budget_reservation) : budget_reservation :=
  if is_expired pid now held r then with_status RELEASED r else r.

Definition expired_post (pid : Z) (p : budget_period) (now : Z) (d d' : db) : Prop :=
  Inv d' /\ b_profiles d' = b_profiles d /\ b_policies d' = b_policies d /\
  b_held d' = b_held d /\ b_next d' = b_next d /\
  b_reservations d' = expire_rows pid now (b_held d) <$> b_reservations d /\
  (exists reserved, b_periods d' !! pid = Some (with_counters reserved (bp_settled p) p)) /\
  (forall k, k <> pid -> b_periods d' !! k = b_periods d !! k).

Lemma filter_keys_nodup {V : Type} (f : Z * V -> bool) (m : gmap Z V) :
  NoDup (map fst (List.filter f (map_to_list m))).
Proof.
  pose proof (NoDup_fst_map_to_list m) as Hnd.
  induction (map_to_list m) as [|[k v] l IH]; [constructor|].
  cbn in Hnd |- *. apply NoDup_cons in Hnd as [Hni Hnd]. specialize (IH Hnd).
  destruct (f _); [|done]. cbn. apply NoDup_cons. split; [|done].
  intros Hin. apply Hni. apply list_elem_of_fmap in Hin as (kv & -> & Hin).
  apply list_elem_of_fmap. exists kv. split; [done|].
  apply list_elem_of_In. apply list_elem_of_In, filter_In in Hin as [? _]. done.
Qed.

Lemma expired_list pid now d :
  let l := List.filter (fun kv => is_expired pid now (b_held d) kv.2)
             (map_to_list (b_reservations d)) in
  NoDup (map fst l) /\
  (forall rid r, In (rid, r) l <->
     b_reservations d !! rid = Some r /\ is_expired pid now (b_held d) r = true).
Proof.
  cbn. split.
  - apply filter_keys_nodup.
  - intros rid r. rewrite filter_In. cbn. split; intros [Hin ?]; (split; [|done]).
    + by apply list_elem_of_In, elem_of_map_to_list in Hin.
    + by apply list_elem_of_In, elem_of_map_to_list.
Qed.

Lemma is_expired_facts pid now held r :
  is_expired pid now held r = true -> br_status r = RESERVED /\ br_period r = pid.
Proof. unfold is_expired. intros. by bools. Qed.

Lemma expire_period_spec pid p now d :
  Inv d -> b_periods d !! pid = Some p ->
  wp (expire_period_reservations pid p now) (fun o d' => exists n, o = Ok n /\ expired_post pid p now d d') d.
Proof.
  intros HI Hp. unfold expire_period_reservations. wp_step; wp_step; cbn beta iota.
  destruct (expired_list pid now d) as [Hnd Hin].
  set (l := List.filter _ _) in *.
  wp_step. eapply wp_mono; [|apply (expire_loop pid _ l d (bp_reserved p) 0)]; [| | |exact Hnd|].
  - intros o d1 (total & -> & Hnil & Hpos & HI1 & Hper & Hpf & Hpo & Hh & Hn & Hrel & Hkeep).
    assert (b_reservations d1 = expire_rows pid now (b_held d) <$> b_reservations d) as Hrows.
    { apply map_eq. intros rid. rewrite lookup_fmap.
      destruct (decide (rid ∈ map fst l)) as [Hil|Hnl].
      - apply list_elem_of_fmap in Hil as ([rid' r] & Heq & Hil). cbn in Heq. subst rid'.
        apply list_elem_of_In in Hil. rewrite (Hrel _ _ Hil). apply Hin in Hil as [-> He].
        cbn. unfold expire_rows. by rewrite He.
      - rewrite Hkeep by done. destruct (b_reservations d !! rid) as [r|] eqn:Hr; [|done]. cbn.
        unfold expire_rows. destruct (is_expired _ _ _ r) eqn:He; [|done]. exfalso. apply Hnl.
        apply list_elem_of_fmap. exists (rid, r). split; [done|]. by apply list_elem_of_In, Hin. }
    rewrite <- Hper in Hp. destruct (inv_periods _ _ _ HI1 _ _ Hp) as (K1 & K2 & K3).
    pose proof (open_total_nonneg d1 (inv_reservations _ _ _ HI1) pid) as K4.
    pose proof (spent_total_nonneg d1 (inv_reservations _ _ _ HI1) pid) as K5.
    unfold at_period, nothing in K1, K2. rewrite Z.eqb_refl in K1.
    wp_step. destruct l as [|row l'] eqn:Hl.
    + rewrite (Hnil eq_refl) in *.
      wp_steps. eexists. split; [reflexivity|]. unfold expired_post. split_and!; try done.
      * eapply inv_debts; [exact HI1|..]; intros k; unfold at_period, nothing; try lia.
        destruct (pid =? k); lia.
      * exists (bp_reserved p). rewrite Hp. by destruct p.
      * intros k _. by rewrite Hper.
    + apply wp_save_period; db_simpl; [lia..|]. wp_steps. eexists. split; [reflexivity|].
      unfold expired_post. db_simpl. split_and!; try done.
      * eapply inv_debts; [eapply inv_save_period; [exact HI1|exact Hp|lia]|..];
          intros k; unfold at_period, nothing; destruct (pid =? k); lia.
      * exists (bp_reserved p - total). by rewrite lookup_insert_eq.
      * intros k Hk. rewrite lookup_insert_ne by done. by rewrite Hper.
  - by intros reserved [rid r].
  - eapply inv_debts; [exact HI|..]; intros k; unfold at_period, nothing; destruct (pid =? k); lia.
  - intros rid r Hil. apply Hin in Hil as [? He]. split; [done|]. by eapply is_expired_facts.
Qed.

(** Reserving. *)
Lemma sum_map_zero {V : Type} (f : V -> Z) m :
  (forall k v, m !! k = Some v -> f v = 0) -> sum_map f m = 0.
Proof.
  induction m as [|k v m Hk IH] using map_ind; intros Hf; [apply sum_map_empty|].
  rewrite sum_map_insert by done. rewrite (Hf k v) by apply lookup_insert_eq.
  rewrite IH; [lia|]. intros k' v' Hk'. apply (Hf k'). rewrite lookup_insert_ne; [done|congruence].
Qed.

Definition period_post (policy : routing_policy) (now : Z) (d : db) (o : result error (Z * budget_period))
    (d' : db) : Prop :=
  match o with
  | Ok (pid, p) =>
      Inv d' /\ b_profiles d' = b_profiles d /\ b_policies d' = b_policies d /\
      b_held d' = b_held d /\ b_reservations d' = b_reservations d /\
      b_periods d' !! pid = Some p /\ bp_month p = month_start now /\
      bp_limit p = po_monthly_limit policy
  | Err e => budget_error e
  end.

Lemma inv_new_period d month limit :
  Inv d -> (forall k p, b_periods d !! k = Some p -> bp_month p <> month) ->
  0 < limit <= BIGINT_MAX ->
  Inv (set_periods (<[b_next d := BudgetPeriod month limit 0 0]> (b_periods d))
         (set_next (b_next d + 1) d)).
Proof.
  intros [Hc Hp Hm Hr Hrun Hl [Hf1 Hf2]] Hnew Hlim.
  assert (forall rid r, b_reservations d !! rid = Some r -> br_period r <> b_next d) as Hno.
  { intros rid r Hrid Heq. destruct (ro_period _ _ _ (Hr _ _ Hrid)) as [p Hk]. apply Hf1 in Hk. lia. }
  assert (b_periods d !! b_next d = None) as Hfree.
  { apply eq_None_not_Some. intros [p Hk]. apply Hf1 in Hk. lia. }
  split; db_simpl; try done.
  - destruct Hc. by split.
  - intros k p Hk. unfold open_total, spent_total, nothing in *. db_simpl.
    rewrite lookup_insert in Hk. case_decide as Heq; [|by apply Hp].
    subst k. injection Hk as <-. db_simpl.
    rewrite !sum_map_zero; [lia|..]; intros rid r Hrid; unfold spent_cost, open_cost;
      (destruct (Z.eqb_spec (br_period r) (b_next d)); [by apply Hno in Hrid|done]).
  - intros k p k' p' Hk Hk' Heq. rewrite lookup_insert in Hk, Hk'.
    repeat case_decide; simplify_eq; try done; db_simpl.
    + exfalso. eapply Hnew; [eassumption|done].
    + exfalso. eapply Hnew; [eassumption|done].
    + by eapply Hm.
  - intros rid r Hrid. destruct (Hr _ _ Hrid) as [Hper ? ? ?]. split; try done. db_simpl.
    rewrite lookup_insert_ne; [done|]. intros Heq. by eapply Hno.
  - split; intros k v Hk; [rewrite lookup_insert in Hk; case_decide; [lia|apply Hf1 in Hk; lia]|].
    apply Hf2 in Hk. lia.
Qed.

Lemma period_for_update_spec policy k now d :
  Inv d -> b_policies d !! k = Some policy ->
  wp (period_for_update policy now) (period_post policy now d) d.
Proof.
  intros HI Hpo. unfold period_for_update. wp_step; wp_step; cbn beta iota. wp_step.
  destruct (find_row _ _) as [[pid p]|] eqn:Hf.
  - apply find_row_some in Hf as [Hp Hmo]. bools. wp_steps; [done|]. bools. by split_and!.
  - unfold fresh. destruct (policy_columns _ (inv_catalog _ _ _ HI) _ _ Hpo) as [_ Hlim].
    wp_step. wp_steps. apply wp_save_period; db_simpl; [lia|lia|unfold BIGINT_MAX; lia|].
    wp_steps; [done|]. unfold period_post.
    split_and!; try done; [|by db_simpl; rewrite lookup_insert_eq].
    apply inv_new_period; [done| |done]. intros k' p' Hk' Hmo.
    eapply find_row_none in Hf; [|exact Hk']. by bools.
Qed.

(** The request is the one the existing reservation was made for. *)
Definition same_request (d : db) (r : budget_reservation) (profile_id : string)
    (revision input output : Z) : Prop :=
  exists p, b_profiles d !! br_profile r = Some p /\ pf_profile_id p = profile_id /\
    pf_revision p = revision /\ br_estimated_input r = input /\ br_estimated_output r = output.

Definition reserved_post (now run : Z) (profile_id : string) (revision input output : Z) (d : db)
    (rid : Z) (d' : db) : Prop :=
  (exists r, reservation_of run d = Some (rid, r) /\ d' = d /\
     same_request d r profile_id revision input output) \/
  (reservation_of run d = None /\
   exists r p pi po, b_reservations d' !! rid = Some r /\ b_reservations d !! rid = None /\
     b_profiles d !! br_profile r = Some p /\ pf_input_price p = Some pi /\ pf_output_price p = Some po /\
     br_run r = run /\ br_status r = RESERVED /\ br_reserved_cost r = cost_of pi po input output /\
     same_request d r profile_id revision input output /\
     (exists per, b_periods d' !! br_period r = Some per /\ bp_month per = month_start now) /\
     (forall rid', rid' <> rid -> b_reservations d' !! rid' =
        expire_rows (br_period r) now (b_held d) <$> (b_reservations d !! rid'))).

Lemma wp_profile_and_policy profile_id revision
    (Q : result error ((Z * model_profile) * (Z * routing_policy)) -> db -> Prop) d :
  (forall pk p qk q, b_profiles d !! pk = Some p -> b_policies d !! qk = Some q ->
     pf_profile_id p = profile_id -> pf_revision p = revision ->
     is_Some (pf_input_price p) -> is_Some (pf_output_price p) -> Q (Ok ((pk, p), (qk, q))) d) ->
  (forall e, budget_error e -> Q (Err e) d) ->
  wp (profile_and_policy profile_id revision) Q d.
Proof.
  intros HQ He. unfold profile_and_policy. wp_steps; try (by apply He). bools.
  repeat match goal with H : find_row _ _ = Some ?kv |- _ =>
    destruct kv; apply find_row_some in H as [? ?]; bools end.
  match goal with H : _ /\ _ |- _ => destruct H end. by apply HQ.
Qed.

Lemma reserve_spec now run profile_id revision input output expires d :
  Inv d ->
  wp (reserve_budget now run profile_id revision input output expires)
     (outcome (reserved_post now run profile_id revision input output d)) d.
Proof.
  intros HI. apply budget_error_atomic; [done|]. wp_step; wp_step; cbn beta iota.
  destruct (reservation_of run d) as [[rid r]|] eqn:Hf.
  { apply reservation_of_some in Hf as Hf'. destruct Hf' as [Hr Hrun].
    destruct (ro_catalog _ _ _ (inv_reservations _ _ _ HI _ _ Hr)) as (p & q & Hp & _).
    wp_step. apply (wp_get_row b_profiles _ p); [done|]. cbn beta iota.
    wp_steps; [done|]. split; [done|]. left. exists r. split_and!; try done. bools. by exists p. }
  wp_step. apply wp_profile_and_policy; [|done].
  intros pk p qk q Hp Hq Hid Hrev Hpi Hpo. cbn beta iota.
  destruct Hpi as [pi Hpi], Hpo as [po Hpo].
  pose proof (policy_max _ _ _ _ _ HI Hq) as Hqm. destruct (profile_max _ _ _ _ _ HI Hp) as [Hmi Hmo].
  destruct (profile_columns _ (inv_catalog _ _ _ HI) _ _ Hp) as (_ & _ & Hpi0 & Hpo0).
  wp_step; wp_step; [done|]. cbn beta iota. bools.
  wp_step. apply wp_cost; [|done]. intros pi' po' Epi Epo Hi Ho. cbn beta iota. simplify_eq.
  pose proof (cost_of_nonneg pi po input output (proj1 (Hpi0 _ Hpi)) (proj1 (Hpo0 _ Hpo)) Hi Ho) as Hcn.
  set (amount := cost_of pi po input output) in *.
  wp_step; wp_step; [done|]. cbn beta iota. bools.
  wp_step. eapply wp_mono; [|by eapply period_for_update_spec].
  intros [[pid per]|e] d1; [|done]. intros (HI1 & Epf & Epl & Eh & Er & Hper & Hmonth & Hlimit). cbn beta iota.
  wp_step. eapply wp_mono; [|by apply expire_period_spec].
  intros o d2 (n & -> & HI2 & Epf2 & Epl2 & Eh2 & En2 & Er2 & [reserved Hper2] & Hoth). cbn beta iota.
  wp_step. apply (wp_get_row b_periods _ (with_counters reserved (bp_settled per) per)); [done|].
  cbn beta iota. wp_step; wp_step; [done|]. cbn beta iota. bools. db_simpl.
  destruct (inv_periods _ _ _ HI2 _ _ Hper2) as (K1 & K2 & K3). db_simpl. unfold nothing in K1, K2.
  pose proof (open_total_nonneg d2 (inv_reservations _ _ _ HI2) pid) as K4.
  pose proof (spent_total_nonneg d2 (inv_reservations _ _ _ HI2) pid) as K5.
  set (r := BudgetReservation _ _ _ _ _ _ _ _ _ _ _ _).
  assert (forall k r', b_reservations d2 !! k = Some r' -> br_run r' <> run) as Hnew.
  { intros k r' Hk Hrun. rewrite Er2, Er, lookup_fmap in Hk.
    destruct (b_reservations d !! k) as [r0|] eqn:Hk0; [|done]. cbn in Hk. injection Hk as <-.
    eapply find_row_none in Hf; [|exact Hk0]. cbn in Hf.
    assert (br_run (expire_rows pid now (b_held d1) r0) = br_run r0) as Hrr
      by (unfold expire_rows; by destruct (is_expired _ _ _ _)).
    bools. congruence. }
  assert (b_reservations d2 !! b_next d2 = None) as Hfree.
  { apply eq_None_not_Some. intros [r0 Hk]. apply (proj2 (inv_fresh _ _ _ HI2)) in Hk. lia. }
  wp_step. unfold create_reservation, fresh. wp_step; wp_step; cbn beta iota. wp_step; wp_step.
  { exfalso. bools. match goal with H : is_Some _ |- _ => destruct H as [[k r'] Hk] end.
    apply find_row_some in Hk as [Hk Hrun]. bools. by eapply Hnew. }
  wp_step. apply wp_column; [subst r; db_simpl; lia|]. cbn beta iota.
  wp_step. apply wp_column; [subst r; db_simpl; lia|]. cbn beta iota. wp_steps.
  apply wp_save_reservation; subst r; db_simpl; cbn [from_option]; [lia|done|done|done|]. wp_steps.
  apply wp_save_period; db_simpl; [lia..|]. wp_steps.
  apply wp_create_ledger; cbn [lr_run ledger_entry lr_entry_type lr_input_tokens lr_output_tokens lr_cost];
    db_simpl; [|lia|lia|lia|].
  { intros e' Hin Hrn. exfalso. destruct (inv_ledger _ _ _ HI2 _ Hin) as (k & r' & Hk & Hrr).
    by apply (Hnew k r' Hk); rewrite Hrr. }
  wp_steps. set (r := BudgetReservation _ _ _ _ _ _ _ _ _ _ _ _).
  rewrite <- Epf, <- Epf2 in Hp. rewrite <- Epl, <- Epl2 in Hq. set (e := ledger_entry _ _ _ _ _ _ _).
  split.
  - assert (Inv_but (at_period pid (- amount) nothing) nothing
              (set_ledger (b_ledger d2 ++ [e])
                 (set_reservations (<[b_next d2 := r]> (b_reservations d2))
                    (set_next (b_next d2 + 1) d2)))) as HA.
    { apply (inv_open nothing nothing d2 r p q e HI2); subst r e; db_simpl; try done;
        (by eexists) || lia. }
    eapply (inv_save_period _ _ _ pid _ (reserved + amount) (bp_settled per)) in HA;
      [|exact Hper2|db_simpl; lia].
    eapply inv_debts; [exact HA|..]; intros k; unfold at_period, nothing; db_simpl;
      destruct (pid =? k); lia.
  - right. split; [done|]. exists r, p, pi, po. db_simpl. rewrite lookup_insert_eq.
    rewrite Epf2, Epf in Hp. subst r; db_simpl. split_and!; try done.
    + apply eq_None_not_Some. intros [r0 Hk]. rewrite <- Er in Hk.
      apply (proj2 (inv_fresh _ _ _ HI1)) in Hk. lia.
    + by exists p.
    + eexists. rewrite lookup_insert_eq. split; [done|]. by db_simpl.
    + intros rid' Hne. rewrite lookup_insert_ne by done. by rewrite Er2, Er, lookup_fmap, Eh.
Qed.

(** Expiring every period. *)
Definition expired_all (now : Z) (d : db) (d' : db) : Prop :=
  b_profiles d' = b_profiles d /\ b_policies d' = b_policies d /\ b_held d' = b_held d /\
  forall rid r, b_reservations d !! rid = Some r ->
    b_reservations d' !! rid = Some r \/
    (exists pid, is_expired pid now (b_held d) r = true) /\
    b_reservations d' !! rid = Some (with_status RELEASED r).

Lemma expired_all_refl now d : expired_all now d d.
Proof. split_and!; try done. intros. by left. Qed.

Lemma expired_all_step pid p now d d1 d2 :
  expired_all now d d1 -> expired_post pid p now d1 d2 -> expired_all now d d2.
Proof.
  intros (E1 & E2 & E3 & Hall) (_ & F1 & F2 & F3 & _ & F4 & _). split_and!; [congruence..|].
  intros rid r Hr. rewrite F4, lookup_fmap. unfold expire_rows.
  destruct (Hall _ _ Hr) as [-> | (Hex & ->)]; cbn.
  - rewrite E3. destruct (is_expired pid now (b_held d) r) eqn:He; [right|by left].
    split; [by exists pid|done].
  - right. split; [done|].
    assert (is_expired pid now (b_held d1) (with_status RELEASED r) = false) as ->; [|done].
    unfold is_expired. db_simpl. by rewrite (bool_decide_eq_false_2 (RELEASED = RESERVED)), andb_false_r.
Qed.

Lemma expire_all_loop now d l : forall d0 total,
  Inv d0 -> expired_all now d d0 ->
  (forall pid p, In (pid, p) l -> b_periods d0 !! pid = Some p) -> NoDup (map fst l) ->
  wp (fold_each total l (fun total row =>
        expired ← expire_period_reservations row.1 row.2 now; mret (total + expired)))
     (succeeds (fun _ d' => expired_all now d d')) d0.
Proof.
  induction l as [|[pid p] l IH]; intros d0 total HI0 Hex Hl Hnd.
  { apply wp_ret. by split. }
  cbn [fold_each map fst snd] in *. apply NoDup_cons in Hnd as [Hni Hnd].
  wp_step. wp_step. eapply wp_mono; [|apply expire_period_spec; [done|by apply Hl; left]].
  intros o d1 (n & -> & Hpost). cbn beta iota. wp_step.
  pose proof Hpost as (HI1 & _ & _ & _ & _ & _ & _ & Hoth).
  apply IH; [done|by eapply expired_all_step|intros pid' p' Hin|done].
  rewrite Hoth; [by apply Hl; right|]. intros ->. apply Hni.
  apply list_elem_of_fmap. exists (pid, p'). split; [done|by apply list_elem_of_In].
Qed.

Lemma expire_all_spec now d :
  Inv d -> wp (expire_reservations now) (succeeds (fun _ d' => expired_all now d d')) d.
Proof.
  intros HI. apply budget_error_atomic; [done|]. wp_step; wp_step; cbn beta iota.
  apply expire_all_loop; [done|apply expired_all_refl| |apply filter_keys_nodup].
  intros pid p Hin. apply filter_In in Hin as [Hin _].
  by apply list_elem_of_In, elem_of_map_to_list in Hin.
Qed.

(** ** Reachable tables *)

(** What the rest of the system may change: the catalog grows within its column
    constraints (rows are immutable), and runs start and finish. *)
Definition environment_step (d d' : db) : Prop :=
  exists profiles policies held,
    (forall k p, b_profiles d !! k = Some p -> profiles !! k = Some p) /\
    (forall k q, b_policies d !! k = Some q -> policies !! k = Some q) /\
    d' = DB profiles policies (b_periods d) (b_reservations d) (b_ledger d) held (b_next d) /\
    catalog_ok d'.

Inductive step (d d' : db) : Prop :=
| step_reserve now run profile_id revision input output expires rid :
    reserve_budget now run profile_id revision input output expires d = (Ok rid, d') -> step d d'
| step_settle run input output rid : settle_budget run input output d = (Ok rid, d') -> step d d'
| step_release run res : release_budget run d = (Ok res, d') -> step d d'
| step_charge run res : charge_reserved_budget run d = (Ok res, d') -> step d d'
| step_expire now n : expire_reservations now d = (Ok n, d') -> step d d'
| step_environment : environment_step d d' -> step d d'.

Definition empty_db : db := DB ∅ ∅ ∅ ∅ [] ∅ 1.
Definition reachable (d : db) : Prop := rtc step empty_db d.

Lemma outcome_run bad {A : Type} (m : M A) (post : A -> db -> Prop) d a d' :
  wp m (outcome_or bad post) d -> m d = (Ok a, d') -> Inv d' /\ post a d'.
Proof. intros Hwp Hm. exact (wp_run _ _ _ _ _ Hm Hwp). Qed.

Lemma outcome_error bad {A : Type} (m : M A) (post : A -> db -> Prop) d e d' :
  wp m (outcome_or bad post) d -> m d = (Err e, d') -> bad e.
Proof. intros Hwp Hm. exact (wp_run _ _ _ _ _ Hm Hwp). Qed.

Lemma inv_no_budget : Inv empty_db.
Proof. split; [split| | | | | |split]; intros *; by rewrite ?lookup_empty. Qed.

Lemma catalog_preserves d d' : Inv d -> environment_step d d' -> Inv d'.
Proof.
  intros [Hc Hp Hm Hr Hrun Hl Hf] (pf & pl & held & Hpf & Hpl & -> & Hcat).
  split; try done. intros rid r Hrid.
  destruct (Hr _ _ Hrid) as [Hper (p & q & Hp0 & Hq & Hrest) ? ?]. split; try done.
  exists p, q. split; [by apply Hpf|]. split; [by apply Hpl|]. done.
Qed.

Lemma step_inv d d' : Inv d -> step d d' -> Inv d'.
Proof.
  intros HI Hs. destruct Hs as [???????? H|???? H|?? H|?? H|?? H|H].
  - apply (outcome_run _ _ _ _ _ _ (reserve_spec _ _ _ _ _ _ _ _ HI) H).
  - apply (outcome_run _ _ _ _ _ _ (settle_spec _ _ _ _ HI) H).
  - apply (outcome_run _ _ _ _ _ _ (release_spec _ _ HI) H).
  - apply (outcome_run _ _ _ _ _ _ (charge_spec _ _ HI) H).
  - apply (outcome_run _ _ _ _ _ _ (expire_all_spec _ _ HI) H).
  - by eapply catalog_preserves.
Qed.

Lemma reachable_budget_inv d : reachable d -> Inv d.
Proof.
  intros Hr. unfold reachable in Hr.
  apply (rtc_ind_r (fun d => Inv d) empty_db) in Hr; [done|exact inv_no_budget|].
  clear d Hr. intros d d' _ Hs HI. by eapply step_inv.
Qed.

Lemma succeeds_run {A : Type} (m : M A) (post : A -> db -> Prop) d :
  wp m (succeeds post) d -> exists a d', m d = (Ok a, d').
Proof.
  unfold wp. destruct (m d) as [[a|e] d'] eqn:Hm; cbn; [|done]. intros _. by exists a, d'.
Qed.

(** ** Properties *)

(** C3 The money is never overspent: in every reachable state the open and settled costs of
    a month's reservations, added up over the reservation rows, are exactly the month's
    two counters, and together they stay within the month's limit. *)
Theorem budget_never_overspent d pid p :
  reachable d -> b_periods d !! pid = Some p ->
  bp_reserved p = open_total pid d /\ bp_settled p = spent_total pid d /\
  0 <= open_total pid d /\ 0 <= spent_total pid d /\
  open_total pid d + spent_total pid d <= bp_limit p.
Proof.
  intros Hr Hp. apply reachable_budget_inv in Hr as HI.
  destruct (inv_periods _ _ _ HI _ _ Hp) as (K1 & K2 & K3). unfold nothing in *.
  pose proof (open_total_nonneg d (inv_reservations _ _ _ HI) pid).
  pose proof (spent_total_nonneg d (inv_reservations _ _ _ HI) pid). lia.
Qed.

(** C35 The ledger reconciles: the ledger entries of a run are exactly the history of its one
    reservation (reserved, then settled or released at the stored amounts), and no entry
    belongs to a run without a reservation. *)
Theorem ledger_reconciles d :
  reachable d ->
  (forall rid r, b_reservations d !! rid = Some r ->
     exists p, b_profiles d !! br_profile r = Some p /\
       entries_of (br_run r) (b_ledger d) = history_of rid r p) /\
  (forall e, In e (b_ledger d) -> exists rid r, b_reservations d !! rid = Some r /\ br_run r = lr_run e) /\
  (forall rid r rid' r', b_reservations d !! rid = Some r -> b_reservations d !! rid' = Some r' ->
     br_run r = br_run r' -> rid = rid').
Proof.
  intros Hr. apply reachable_budget_inv in Hr as HI. split_and!.
  - intros rid r Hrid. destruct (ro_catalog _ _ _ (inv_reservations _ _ _ HI _ _ Hrid))
      as (p & q & Hp & _ & _ & _ & _ & _ & _ & _ & Hh). by exists p.
  - apply (inv_ledger _ _ _ HI).
  - apply (inv_runs _ _ _ HI).
Qed.

(** Budget services fail only by refusing: in a reachable state none of them breaks a
    constraint, overflows a column or misses a row; reserving and settling fail with one
    of the three budget errors and change nothing, and releasing, charging and expiring
    never fail. *)
Theorem budget_services_fail_cleanly d :
  reachable d ->
  (forall now run profile_id revision input output expires e d',
     reserve_budget now run profile_id revision input output expires d = (Err e, d') ->
     budget_error e /\ d' = d) /\
  (forall run input output e d',
     settle_budget run input output d = (Err e, d') -> budget_error e /\ d' = d) /\
  (forall run, exists res d', release_budget run d = (Ok res, d')) /\
  (forall run, exists res d', charge_reserved_budget run d = (Ok res, d')) /\
  (forall now, exists n d', expire_reservations now d = (Ok n, d')).
Proof.
  intros Hr. apply reachable_budget_inv in Hr as HI. split_and!.
  - intros now run pid rev i o ex e d' Hrun. split; [|by eapply atomic_err].
    exact (outcome_error _ _ _ _ _ _ (reserve_spec _ _ _ _ _ _ _ _ HI) Hrun).
  - intros run i o e d' Hrun. split; [|by eapply atomic_err].
    exact (outcome_error _ _ _ _ _ _ (settle_spec _ _ _ _ HI) Hrun).
  - intros run. apply (succeeds_run _ _ _ (release_spec run d HI)).
  - intros run. apply (succeeds_run _ _ _ (charge_spec run d HI)).
  - intros now. apply (succeeds_run _ _ _ (expire_all_spec now d HI)).
Qed.

(** A closed reservation is final: no step changes a settled or released reservation,
    and a step that touches an open one only settles or releases it: its run, profile,
    period, estimates and reserved cost stay. *)
Lemma step_final d d' rid r :
  Inv d -> step d d' -> b_reservations d !! rid = Some r ->
  exists r', b_reservations d' !! rid = Some r' /\
    (br_status r <> RESERVED -> r' = r) /\ (br_status r' = RESERVED -> r' = r) /\
    br_run r' = br_run r /\ br_profile r' = br_profile r /\ br_period r' = br_period r /\
    br_reserved_cost r' = br_reserved_cost r.
Proof.
  intros HI Hs Hr.
  assert (forall r', r' = r -> b_reservations d' !! rid = Some r' ->
    exists r', b_reservations d' !! rid = Some r' /\
    (br_status r <> RESERVED -> r' = r) /\ (br_status r' = RESERVED -> r' = r) /\
    br_run r' = br_run r /\ br_profile r' = br_profile r /\ br_period r' = br_period r /\
    br_reserved_cost r' = br_reserved_cost r) as Hsame by (intros ? -> ?; by exists r).
  assert (forall rid0 r0 r1, b_reservations d !! rid0 = Some r0 -> br_status r0 = RESERVED ->
    (r1 = with_status RELEASED r0 \/ exists i o c, r1 = settled_with i o c r0) ->
    b_reservations d' = <[rid0 := r1]> (b_reservations d) ->
    exists r', b_reservations d' !! rid = Some r' /\
    (br_status r <> RESERVED -> r' = r) /\ (br_status r' = RESERVED -> r' = r) /\
    br_run r' = br_run r /\ br_profile r' = br_profile r /\ br_period r' = br_period r /\
    br_reserved_cost r' = br_reserved_cost r) as Hclose.
  { intros rid0 r0 r1 Hr0 Hst Hr1 Hd'. destruct (decide (rid0 = rid)) as [->|Hne].
    - assert (r0 = r) as -> by congruence. exists r1. rewrite Hd', lookup_insert_eq.
      destruct Hr1 as [->|(i & o & c & ->)]; db_simpl; by split_and!.
    - apply (Hsame r); [done|]. by rewrite Hd', lookup_insert_ne. }
  destruct Hs as [now run pid rev i o ex rid0 H|run i o rid0 H|run res H|run res H|now n H|H].
  - apply (outcome_run _ _ _ _ _ _ (reserve_spec _ _ _ _ _ _ _ _ HI)) in H
      as [_ [(? & _ & -> & _)|(_ & r0 & p & pi & po & Hnew & Hnone & _ & _ & _ & _ & _ & _ & _ & _ & Hoth)]];
      [by apply (Hsame r)|].
    assert (rid <> rid0) as Hne by congruence. rewrite (Hoth _ Hne), Hr. cbn.
    unfold expire_rows. destruct (is_expired _ _ _ r) eqn:He; [|by exists r].
    apply is_expired_facts in He as [Hst _]. exists (with_status RELEASED r). by split_and!.
  - apply (outcome_run _ _ _ _ _ _ (settle_spec _ _ _ _ HI)) in H
      as [_ (r0 & Hf & [(_ & _ & _ & ->)|(Hst & p & pi & po & _ & _ & _ & Hd')])]; [by apply (Hsame r)|].
    apply reservation_of_some in Hf as [Hr0 _]. eapply Hclose; [exact Hr0|done|right; eauto|exact Hd'].
  - apply (outcome_run _ _ _ _ _ _ (release_spec _ _ HI)) in H
      as [_ [(_ & _ & ->)|(rid0 & r0 & _ & Hf & [[_ ->]|[Hst Hd']])]]; [by apply (Hsame r)..|].
    apply reservation_of_some in Hf as [Hr0 _]. eapply Hclose; [exact Hr0|done|by left|exact Hd'].
  - apply (outcome_run _ _ _ _ _ _ (charge_spec _ _ HI)) in H
      as [_ [(_ & _ & ->)|(rid0 & r0 & _ & Hf & [[_ ->]|[Hst Hd']])]]; [by apply (Hsame r)..|].
    apply reservation_of_some in Hf as [Hr0 _]. eapply Hclose; [exact Hr0|done|right; eauto|exact Hd'].
  - apply (outcome_run _ _ _ _ _ _ (expire_all_spec _ _ HI)) in H as [_ (_ & _ & _ & Hall)].
    destruct (Hall _ _ Hr) as [Hd'|([pid He] & Hd')]; [by apply (Hsame r)|].
    apply is_expired_facts in He as [Hst _]. exists (with_status RELEASED r). by split_and!.
  - destruct H as (pf & pl & held & _ & _ & -> & _). by apply (Hsame r).
Qed.

(** Reserving is idempotent: repeating the request of a run, at any time and whatever
    has happened to its reservation since, returns that reservation and changes nothing;
    a different request for the run is refused. *)
Theorem reserve_idempotent now d run rid r profile_id revision input output expires :
  reachable d -> reservation_of run d = Some (rid, r) ->
  (same_request d r profile_id revision input output ->
     reserve_budget now run profile_id revision input output expires d = (Ok rid, d)) /\
  (~ same_request d r profile_id revision input output ->
     exists message,
       reserve_budget now run profile_id revision input output expires d =
         (Err (BudgetRequestConflict message), d)).
Proof.
  intros Hre Hf. apply reachable_budget_inv in Hre as HI.
  apply reservation_of_some in Hf as Hf'. destruct Hf' as [Hr Hrun].
  destruct (ro_catalog _ _ _ (inv_reservations _ _ _ HI _ _ Hr)) as (p & q & Hp & _).
  split.
  - intros (p' & Hp' & <- & <- & <- & <-). assert (p' = p) as -> by congruence.
    unfold reserve_budget, atomic, get_profile, mbind, ST_bind, get. cbn beta iota. rewrite Hf.
    cbn beta iota. rewrite Hp. cbn [some_or mret ST_ret].
    by rewrite String.eqb_refl, !Z.eqb_refl.
  - intros Hn. eexists. unfold reserve_budget, atomic, get_profile, mbind, ST_bind, get.
    cbn beta iota. rewrite Hf. cbn beta iota. rewrite Hp. cbn [some_or mret ST_ret].
    destruct (negb _) eqn:Hc; [reflexivity|]. exfalso. apply Hn. bools. by exists p.
Qed.

(** A run is never charged below its price: the cost of a token count is the price per
    million rounded up to whole micro-dollars, and monotone in both counts. *)
Theorem cost_rounds_up pi po input output :
  let exact := input * pi + output * po in
  exact <= 1000000 * cost_of pi po input output < exact + 1000000 /\
  (0 <= pi -> 0 <= po -> forall input' output', input <= input' -> output <= output' ->
     cost_of pi po input output <= cost_of pi po input' output').
Proof.
  cbn. unfold cost_of. split.
  - pose proof (Z.div_mod (input * pi + output * po + 999999) 1000000 ltac:(lia)).
    pose proof (Z.mod_pos_bound (input * pi + output * po + 999999) 1000000 ltac:(lia)). lia.
  - intros Hpi Hpo input' output' Hi Ho. apply Z.div_le_mono; [lia|]. nia.
Qed.

(** ** A concrete run: one model, one month, one reservation that is settled *)

Definition judge : model_profile := ModelProfile "judge" 1 EVALUATION_JUDGE 8000 2000 (Some 150000) (Some 600000).
Definition judge_policy : routing_policy := RoutingPolicy "judge" 1 EVALUATION_JUDGE 1 500000 25000000.
Definition d_catalog : db := DB {[1 := judge]} {[1 := judge_policy]} ∅ ∅ [] ∅ 1.
Definition d_reserved : db := (reserve_budget 0 77 "judge" 1 1000 500 None d_catalog).2.
Definition d_settled : db := (settle_budget 77 900 200 d_reserved).2.

Lemma reach_catalog : reachable d_catalog.
Proof.
  apply rtc_once, step_environment. exists {[1 := judge]}, {[1 := judge_policy]}, ∅.
  split_and!; [by intros k p Hk|by intros k p Hk|reflexivity|].
  split; intros k v Hk; unfold d_catalog in Hk; db_simpl;
    apply lookup_singleton_Some in Hk as [<- <-]; cbn; unfold INT_MAX, BIGINT_MAX;
    split_and!; try lia; intros ? [= <-]; lia.
Qed.

Lemma reach_reserved : reachable d_reserved.
Proof.
  eapply rtc_r; [exact reach_catalog|].
  apply (step_reserve _ _ 0 77 "judge" 1 1000 500 None 2). vm_compute. reflexivity.
Qed.

Lemma reach_settled : reachable d_settled.
Proof.
  eapply rtc_r; [exact reach_reserved|].
  apply (step_settle _ _ 77 900 200 2). vm_compute. reflexivity.
Qed.

Definition period_row : budget_period := default (BudgetPeriod (0, 0) 0 0 0) (b_periods d_settled !! 1).
Definition open_row : budget_reservation :=
  default (BudgetReservation 0 0 0 0 0 0 0 None None None RESERVED 0) (b_reservations d_reserved !! 2).

Definition settled_row : budget_reservation := settled_with 900 200 255 open_row.

Lemma budget_never_overspent_witness :
  bp_settled period_row = 255 /\ spent_total 1 d_settled = 255.
Proof.
  destruct (budget_never_overspent d_settled 1 period_row reach_settled ltac:(vm_compute; reflexivity))
    as (_ & Hs & _).
  assert (bp_settled period_row = 255) as Hv by (vm_compute; reflexivity).
  split; [exact Hv|]. rewrite <- Hs. exact Hv.
Defined.

Lemma ledger_reconciles_witness : length (entries_of 77 (b_ledger d_settled)) = 2%nat.
Proof.
  destruct (ledger_reconciles d_settled reach_settled) as (Hh & _).
  destruct (Hh 2 settled_row ltac:(vm_compute; reflexivity))
    as (p & _ & He).
  change (br_run settled_row) with 77 in He.
  rewrite He. vm_compute. reflexivity.
Defined.

Lemma budget_services_fail_cleanly_witness :
  exists n d', expire_reservations (FIFTEEN_MINUTES + 1) d_reserved = (Ok n, d').
Proof.
  destruct (budget_services_fail_cleanly d_reserved reach_reserved) as (_ & _ & _ & _ & He).
  exact (He (FIFTEEN_MINUTES + 1)).
Defined.

Lemma reserve_idempotent_witness :
  reserve_budget 99 77 "judge" 1 1000 500 None d_reserved = (Ok 2, d_reserved).
Proof.
  destruct (reserve_idempotent 99 d_reserved 77 2 open_row "judge" 1 1000 500 None reach_reserved
              ltac:(vm_compute; reflexivity)) as [Hsame _].
  apply Hsame. exists judge. split_and!; vm_compute; reflexivity.
Defined.

Lemma cost_rounds_up_witness : cost_of 150000 600000 900 200 <= cost_of 150000 600000 901 200.
Proof. apply (proj2 (cost_rounds_up 150000 600000 900 200)); lia. Defined.

End Ledger.
