(* ===== verification/JsonText.v ===== *)
(** * JSON text: [json.loads], and its round trip with [json.dumps]

    The scanner of Python's [json] module in its strict default mode (white space,
    [NaN] and the infinities, numbers, escapes, later duplicate keys winning), over
    ASCII texts.  A text that writes a character above code point 127 is outside the
    strings of this development and is reported as [NonAsciiText]; [recursion] is the
    number of nested containers the interpreter's stack allows. *)

From S2P Require Import Prelude PyValue.

Module JsonText.

Inductive loads_error :=
| JSONDecodeError
| IntegerTooLong
| RecursionError
| NonAsciiText
| DuplicateKey
| OutOfFuel.
#[global] Instance loads_error_eq_dec : EqDecision loads_error.
Proof. solve_decision. Defined.

Abbreviation R := (result loads_error).

Definition is_json_space (c : ascii) : bool :=
  is_char 32 c || is_char 9 c || is_char 10 c || is_char 13 c.

Fixpoint skip_space (s : string) : string :=
  match s with
  | String c s' => if is_json_space c then skip_space s' else s
  | EmptyString => EmptyString
  end.

(** ** Strings *)

Definition hex_value (c : ascii) : option Z :=
  if is_digit c then Some (ascii_code c - 48)
  else if in_range 97 102 c then Some (ascii_code c - 87)
  else if in_range 65 70 c then Some (ascii_code c - 55)
  else None.

Definition hex4 (a b c d : ascii) : option Z :=
  x ← hex_value a; y ← hex_value b; z ← hex_value c; w ← hex_value d;
  Some (((x * 16 + y) * 16 + z) * 16 + w).

Definition simple_escape (c : ascii) : option Z :=
  let n := ascii_code c in
  if (n =? 34) || (n =? 92) || (n =? 47) then Some n
  else if n =? 98 then Some 8
  else if n =? 102 then Some 12
  else if n =? 110 then Some 10
  else if n =? 114 then Some 13
  else if n =? 116 then Some 9
  else None.

(** [scanstring]: the text after the opening quote, up to the closing one. *)
Fixpoint scan_string (s : string) : R (string * string) :=
  match s with
  | EmptyString => Err JSONDecodeError
  | String c s' =>
      if is_char 34 c then Ok (EmptyString, s')
      else if ascii_code c <=? 31 then Err JSONDecodeError
      else if is_char 92 c then
        match s' with
        | EmptyString => Err JSONDecodeError
        | String e s'' =>
            if is_char 117 e then
              match s'' with
              | String h1 (String h2 (String h3 (String h4 rest))) =>
                  match hex4 h1 h2 h3 h4 with
                  | None => Err JSONDecodeError
                  | Some n =>
                      if 127 <? n then Err NonAsciiText
                      else r ← scan_string rest; Ok (String (chr n) r.1, r.2)
                  end
              | _ => Err JSONDecodeError
              end
            else
              match simple_escape e with
              | None => Err JSONDecodeError
              | Some n => r ← scan_string s''; Ok (String (chr n) r.1, r.2)
              end
        end
      else r ← scan_string s'; Ok (String c r.1, r.2)
  end.

(** ** Numbers *)

Fixpoint span_digits (s : string) : string * string :=
  match s with
  | String c s' =>
      if is_digit c then let r := span_digits s' in (String c r.1, r.2) else (EmptyString, s)
  | EmptyString => (EmptyString, EmptyString)
  end.

Fixpoint digits_value (acc : Z) (s : string) : Z :=
  match s with
  | String c s' => digits_value (acc * 10 + (ascii_code c - 48)) s'
  | EmptyString => acc
  end.

Definition decimal_float (negative : bool) (m e : Z) : float :=
  if m =? 0 then S754_zero negative
  else
    let '(n, d) := scale10 m 1 e in
    let f := float_of_ratio n d in
    if negative then SFopp f else f.

(** The digits of a fraction, when a point is followed by a digit. *)
Definition scan_fraction (s : string) : string * string :=
  match s with
  | String c (String d _ as s') =>
      if is_char 46 c && is_digit d then span_digits s' else (EmptyString, s)
  | _ => (EmptyString, s)
  end.

(** The exponent, when [e] is followed by an optional sign and a digit. *)
Definition scan_exponent (s : string) : option Z * string :=
  match s with
  | String c s' =>
      if is_char 101 c || is_char 69 c then
        let '(sign, s'') :=
          match s' with
          | String g t => if is_char 45 g then (-1, t) else if is_char 43 g then (1, t) else (1, s')
          | EmptyString => (1, s')
          end in
        match span_digits s'' with
        | (EmptyString, _) => (None, s)
        | (ds, rest) => (Some (sign * digits_value 0 ds), rest)
        end
      else (None, s)
  | EmptyString => (None, s)
  end.

Definition MAX_STR_DIGITS : Z := 4300.

(** The magnitude that starts [s] (the sign has been read). *)
Definition scan_magnitude (negative : bool) (s : string) : R (json * string) :=
  match s with
  | String c s' =>
      if is_digit c then
        let '(int_digits, s1) :=
          if is_char 48 c then (String c EmptyString, s') else span_digits s in
        let '(fraction, s2) := scan_fraction s1 in
        let '(exponent, s3) := scan_exponent s2 in
        match fraction, exponent with
        | EmptyString, None =>
            if MAX_STR_DIGITS <? slen int_digits then Err IntegerTooLong
            else
              let n := digits_value 0 int_digits in
              Ok (JInt (if negative then - n else n), s3)
        | _, _ =>
            let m := digits_value 0 (int_digits +:+ fraction) in
            Ok (JFloat (decimal_float negative m (default 0 exponent - slen fraction)), s3)
        end
      else Err JSONDecodeError
  | EmptyString => Err JSONDecodeError
  end.

(** ** Values *)

Definition drop_prefix (p s : string) : string :=
  String.substring (String.length p) (String.length s - String.length p) s.

Definition scan_word (word : string) (v : json) (s : string) : R (json * string) :=
  if String.prefix word s then Ok (v, drop_prefix word s) else Err JSONDecodeError.

(** [null], [true], [false], the non-finite numbers and the other numbers. *)
Definition scan_atom (s : string) : R (json * string) :=
  match s with
  | EmptyString => Err JSONDecodeError
  | String c s' =>
      if is_char 110 c then scan_word "null" JNull s
      else if is_char 116 c then scan_word "true" (JBool true) s
      else if is_char 102 c then scan_word "false" (JBool false) s
      else if is_char 78 c then scan_word "NaN" (JFloat S754_nan) s
      else if is_char 73 c then scan_word "Infinity" (JFloat (S754_infinity false)) s
      else if is_char 45 c then
        if String.prefix "-Infinity" s then Ok (JFloat (S754_infinity true), drop_prefix "-Infinity" s)
        else scan_magnitude true s'
      else scan_magnitude false s
  end.

(** The members of an object in their order, once it is closed: [dict(pairs)], or the
    application's [object_pairs_hook] that refuses a repeated key. *)
Definition object_of (unique : bool) (pairs : list (string * json)) : R (list (string * json)) :=
  if unique && negb (bool_decide (NoDup (map fst pairs))) then Err DuplicateKey
  else Ok (dict_update [] pairs).

Section scan.
Context (unique : bool).

(** [scan_once]: the value that starts [s] and the text after it. *)
Fixpoint scan_value (fuel depth : nat) (s : string) {struct fuel} : R (json * string) :=
  match fuel with
  | O => Err OutOfFuel
  | S fuel' =>
      match s with
      | EmptyString => Err JSONDecodeError
      | String c s' =>
          if is_char 34 c then r ← scan_string s'; Ok (JStr r.1, r.2)
          else if is_char 123 c then
            match depth with
            | O => Err RecursionError
            | S depth' =>
                match skip_space s' with
                | EmptyString => Err JSONDecodeError
                | String c1 s1 =>
                    if is_char 125 c1 then Ok (JDict [], s1)
                    else r ← scan_members fuel' depth' [] (String c1 s1); Ok (JDict r.1, r.2)
                end
            end
          else if is_char 91 c then
            match depth with
            | O => Err RecursionError
            | S depth' =>
                match skip_space s' with
                | EmptyString => Err JSONDecodeError
                | String c1 s1 =>
                    if is_char 93 c1 then Ok (JList [], s1)
                    else r ← scan_elements fuel' depth' (String c1 s1); Ok (JList r.1, r.2)
                end
            end
          else scan_atom s
      end
  end
with scan_members (fuel depth : nat) (acc : list (string * json)) (s : string) {struct fuel}
  : R (list (string * json) * string) :=
  match fuel with
  | O => Err OutOfFuel
  | S fuel' =>
      match s with
      | EmptyString => Err JSONDecodeError
      | String c s' =>
          _ ← raise_if (negb (is_char 34 c)) JSONDecodeError;
          k ← scan_string s';
          match skip_space k.2 with
          | EmptyString => Err JSONDecodeError
          | String c2 s2 =>
              _ ← raise_if (negb (is_char 58 c2)) JSONDecodeError;
              v ← scan_value fuel' depth (skip_space s2);
              match skip_space v.2 with
              | EmptyString => Err JSONDecodeError
              | String c3 s3 =>
                  if is_char 125 c3 then d ← object_of unique (acc ++ [(k.1, v.1)]); Ok (d, s3)
                  else
                    _ ← raise_if (negb (is_char 44 c3)) JSONDecodeError;
                    scan_members fuel' depth (acc ++ [(k.1, v.1)]) (skip_space s3)
              end
          end
      end
  end
with scan_elements (fuel depth : nat) (s : string) {struct fuel} : R (list json * string) :=
  match fuel with
  | O => Err OutOfFuel
  | S fuel' =>
      v ← scan_value fuel' depth s;
      match skip_space v.2 with
      | EmptyString => Err JSONDecodeError
      | String c s' =>
          if is_char 93 c then Ok ([v.1], s')
          else
            _ ← raise_if (negb (is_char 44 c)) JSONDecodeError;
            r ← scan_elements fuel' depth (skip_space s');
            Ok (v.1 :: r.1, r.2)
      end
  end.

(** Two recursive calls for every character, and one. *)
Definition scan_fuel (s : string) : nat := 2 * String.length s + 1.

(** [json.loads(s)], with or without the hook. *)
Definition loads_with (recursion : nat) (s : string) : R json :=
  let s0 := skip_space s in
  r ← scan_value (scan_fuel s0) recursion s0;
  match skip_space r.2 with
  | EmptyString => Ok r.1
  | _ => Err JSONDecodeError
  end.

End scan.
Definition loads : nat -> string -> R json := loads_with false.
Definition loads_unique : nat -> string -> R json := loads_with true.

Definition string_of_bytes (l : list Z) : string :=
  String.string_of_list_ascii (map chr l).

(** [json.loads(b)] of UTF-8 bytes; a zero byte would announce another encoding. *)
Definition loads_bytes (recursion : nat) (l : list Z) : R json :=
  if forallb (fun b => (0 <? b) && (b <=? 127)) l then loads recursion (string_of_bytes l)
  else Err NonAsciiText.

Example loads_ex :
  loads 9 (json_dumps true false (JDict [("a", JList [JInt (-12); JFloat (float_of_ratio 3 2); JNull; JBool true]);
                                       ("b", JStr (char_string (chr 10) +:+ "x"))]))
  = Ok (JDict [("a", JList [JInt (-12); JFloat (float_of_ratio 3 2); JNull; JBool true]);
               ("b", JStr (char_string (chr 10) +:+ "x"))]).
Proof. vm_compute. reflexivity. Qed.
Definition twice : string := json_string true "a" +:+ ":1," +:+ json_string true "a" +:+ ":2".
Example loads_twice_ex :
  (loads 9 ("{" +:+ twice +:+ "}"), loads_unique 9 ("{" +:+ twice +:+ "}"), loads_unique 9 ("{" +:+ twice))
  = (Ok (JDict [("a", JInt 2)]), Err DuplicateKey, Err JSONDecodeError).
Proof. vm_compute. reflexivity. Qed.
Example loads_number_ex :
  (loads 9 "1e2", loads 9 "01", loads 9 "-", loads 9 " [1 , 2 ] ", loads 9 "[1,]", loads 9 "1.")
  = (Ok (JFloat (float_of_Z 100)), Err JSONDecodeError, Err JSONDecodeError,
     Ok (JList [JInt 1; JInt 2]), Err JSONDecodeError, Err JSONDecodeError).
Proof. vm_compute. reflexivity. Qed.

End JsonText.
