(* ===== verification/JsonTextTheorems.v ===== *)
(** * JSON text: what the scanner returns

    The scanner always terminates with the fuel [loads] gives it, and reading back
    what [json.dumps] prints returns the printed value. *)

From S2P Require Import Prelude PyValue Sha256 JsonText.

Module JsonFacts.
Import JsonText.

(** ** What a scan consumes *)

Lemma skip_space_len s : (String.length (skip_space s) <= String.length s)%nat.
Proof. induction s as [|c s IH]; cbn; [lia|]. destruct (is_json_space c); cbn; lia. Qed.

Lemma span_digits_len s : (String.length (span_digits s).2 <= String.length s)%nat.
Proof. induction s as [|c s IH]; cbn; [lia|]. destruct (is_digit c); cbn; lia. Qed.

Lemma scan_string_spec n s : (String.length s <= n)%nat ->
  match scan_string s with
  | Ok r => (String.length r.2 < String.length s)%nat
  | Err e => e <> OutOfFuel
  end.
Proof.
  revert s. induction n as [|n IH]; intros [|c s] Hn; cbn in *; try lia; try done.
  destruct (is_char 34 c); cbn; [lia|]. destruct (_ <=? 31); [done|].
  destruct (is_char 92 c); [destruct s as [|e s]; [done|]; destruct (is_char 117 e);
    [destruct s as [|h1 [|h2 [|h3 [|h4 s]]]]; try done; destruct (hex4 _ _ _ _); [|done];
     destruct (127 <? _); [done|] | destruct (simple_escape e); [|done]] |];
  cbn in *; (match goal with |- context [scan_string ?t] => specialize (IH t ltac:(lia));
     destruct (scan_string t); cbn in *; [lia|done] end).
Qed.

Lemma scan_fraction_len s : (String.length (scan_fraction s).2 <= String.length s)%nat.
Proof.
  unfold scan_fraction. destruct s as [|c [|d s]]; cbn [snd]; [lia..|].
  destruct (_ && _); cbn [snd]; [|lia]. pose proof (span_digits_len (String d s)). cbn in *. lia.
Qed.

Lemma scan_exponent_len s : (String.length (scan_exponent s).2 <= String.length s)%nat.
Proof.
  unfold scan_exponent. destruct s as [|c s]; cbn [snd]; [lia|].
  destruct (_ || _); [|cbn; lia].
  assert (exists sign t, (match s with
    | String g t => if is_char 45 g then (-1, t) else if is_char 43 g then (1, t) else (1, s)
    | EmptyString => (1, s) end) = (sign, t) /\ (String.length t <= String.length s)%nat)
    as (sign & t & -> & Ht).
  { destruct s as [|g s]; [by eexists _, _|].
    destruct (is_char 45 g); [|destruct (is_char 43 g)]; eexists _, _; split; try done; cbn; lia. }
  pose proof (span_digits_len t). destruct (span_digits t) as [[|d ds] rest]; cbn in *; lia.
Qed.

Lemma scan_magnitude_spec negative s :
  match scan_magnitude negative s with
  | Ok r => (String.length r.2 < String.length s)%nat
  | Err e => e <> OutOfFuel
  end.
Proof.
  unfold scan_magnitude. destruct s as [|c s]; [done|]. destruct (is_digit c) eqn:Hc; [|done].
  assert (exists ds s1, (if is_char 48 c then (String c EmptyString, s) else span_digits (String c s))
      = (ds, s1) /\ (String.length s1 <= String.length s)%nat) as (ds & s1 & -> & H1).
  { destruct (is_char 48 c); [by eexists _, _|]. cbn. rewrite Hc. eexists _, _. split; [done|].
    apply span_digits_len. }
  pose proof (scan_fraction_len s1). destruct (scan_fraction s1) as [fr s2].
  pose proof (scan_exponent_len s2). destruct (scan_exponent s2) as [ex s3]. cbn in *.
  destruct fr, ex; cbn; try lia. destruct (_ <? _); cbn; [done|lia].
Qed.

Lemma prefix_split p s : String.prefix p s = true -> s = p +:+ drop_prefix p s.
Proof.
  unfold drop_prefix. revert s. induction p as [|c p IH]; intros [|d s]; cbn; try done; rewrite ?sapp_nil.
  - intros _. by rewrite substring_all.
  - destruct (ascii_dec c d) as [->|]; [|done]. intros H. rewrite sapp_cons. f_equal. by apply IH.
Qed.

Lemma scan_word_spec word v s : word <> "" ->
  match scan_word word v s with
  | Ok r => (String.length r.2 < String.length s)%nat
  | Err e => e <> OutOfFuel
  end.
Proof.
  intros Hw. unfold scan_word. destruct (String.prefix word s) eqn:Hp; cbn; [|done].
  rewrite (prefix_split _ _ Hp) at 2. rewrite slength_app. destruct word; cbn; [done|lia].
Qed.

Lemma scan_atom_spec s :
  match scan_atom s with
  | Ok r => (String.length r.2 < String.length s)%nat
  | Err e => e <> OutOfFuel
  end.
Proof.
  unfold scan_atom. destruct s as [|c s]; [done|].
  repeat (match goal with |- context [if is_char ?k c then _ else _] =>
    destruct (is_char k c); [try by apply scan_word_spec|] end).
  - destruct (String.prefix _ _) eqn:Hp; cbn [snd].
    + rewrite (prefix_split _ _ Hp) at 2. rewrite slength_app. cbn. lia.
    + pose proof (scan_magnitude_spec true s). destruct (scan_magnitude _ _); [cbn; lia|done].
  - apply scan_magnitude_spec.
Qed.

(** ** Termination: the fuel of [loads] is enough *)

Section scan.
Context (unique : bool).
#[local] Abbreviation scan_value := (JsonText.scan_value unique).
#[local] Abbreviation scan_members := (JsonText.scan_members unique).
#[local] Abbreviation scan_elements := (JsonText.scan_elements unique).

Lemma object_of_error pairs e : object_of unique pairs = Err e -> e = DuplicateKey.
Proof. unfold object_of. by destruct (_ && _); intros [=]. Qed.

Lemma dict_update_fresh (d acc : list (string * json)) : NoDup (map fst (acc ++ d)) -> dict_update acc d = acc ++ d.
Proof.
  revert acc. induction d as [|[k v] d IH]; intros acc Hn; [by rewrite app_nil_r|].
  change (dict_update acc ((k, v) :: d)) with (dict_update (dict_set k v acc) d). rewrite dict_set_new.
  - rewrite IH; by rewrite <- app_assoc.
  - apply dict_get_absent. rewrite map_app in Hn. apply NoDup_app in Hn as (_ & Hn & _).
    intros Hin. apply (Hn k Hin). by left.
Qed.

Lemma object_of_distinct pairs : NoDup (map fst pairs) -> object_of unique pairs = Ok pairs.
Proof.
  intros Hn. unfold object_of. rewrite bool_decide_eq_true_2 by done. rewrite andb_false_r.
  f_equal. by apply (dict_update_fresh pairs []).
Qed.

Definition terminates {A : Type} (s : string) (r : R (A * string)) : Prop :=
  match r with
  | Ok r => (String.length r.2 < String.length s)%nat
  | Err e => e <> OutOfFuel
  end.

Lemma scan_terminates fuel :
  (forall depth s, (2 * String.length s + 1 <= fuel)%nat -> terminates s (scan_value fuel depth s)) /\
  (forall depth acc s, (2 * String.length s + 2 <= fuel)%nat ->
     terminates s (scan_members fuel depth acc s)) /\
  (forall depth s, (2 * String.length s + 2 <= fuel)%nat -> terminates s (scan_elements fuel depth s)).
Proof.
  induction fuel as [|fuel (IHv & IHm & IHe)]; [split_and!; intros; lia|]. split_and!.
  - intros depth [|c s] Hf; cbn [scan_value]; [done|]. cbn in Hf.
    destruct (is_char 34 c).
    { pose proof (scan_string_spec _ s (le_n _)). destruct (scan_string s); cbn in *; [lia|done]. }
    destruct (is_char 123 c); [|destruct (is_char 91 c)].
    + destruct depth as [|depth]; [done|]. pose proof (skip_space_len s).
      destruct (skip_space s) as [|c1 s1]; [done|]. cbn in *.
      destruct (is_char 125 c1); cbn; [lia|].
      specialize (IHm depth [] (String c1 s1) ltac:(cbn; lia)).
      destruct (scan_members _ _ _ _); cbn in *; [lia|done].
    + destruct depth as [|depth]; [done|]. pose proof (skip_space_len s).
      destruct (skip_space s) as [|c1 s1]; [done|]. cbn in *.
      destruct (is_char 93 c1); cbn; [lia|].
      specialize (IHe depth (String c1 s1) ltac:(cbn; lia)).
      destruct (scan_elements _ _ _); cbn in *; [lia|done].
    + apply scan_atom_spec.
  - intros depth acc [|c s] Hf; cbn [scan_members]; [done|]. cbn in Hf.
    destruct (is_char 34 c); cbn; [|done].
    pose proof (scan_string_spec _ s (le_n _)). destruct (scan_string s) as [k|e]; cbn in *; [|done].
    pose proof (skip_space_len k.2). destruct (skip_space k.2) as [|c2 s2]; [done|].
    destruct (is_char 58 c2); cbn in *; [|done].
    pose proof (skip_space_len s2). specialize (IHv depth (skip_space s2) ltac:(lia)).
    destruct (scan_value _ _ _) as [v|e]; cbn in *; [|done].
    pose proof (skip_space_len v.2). destruct (skip_space v.2) as [|c3 s3]; [done|]. cbn in *.
    destruct (is_char 125 c3); cbn.
    { destruct (object_of _ _) as [d|e] eqn:E; cbn; [lia|]. by rewrite (object_of_error _ _ E). }
    destruct (is_char 44 c3); cbn; [|done].
    pose proof (skip_space_len s3).
    specialize (IHm depth (acc ++ [(k.1, v.1)]) (skip_space s3) ltac:(lia)).
    destruct (scan_members _ _ _ _); cbn in *; [lia|done].
  - intros depth s Hf. cbn [scan_elements]. specialize (IHv depth s ltac:(lia)).
    destruct (scan_value _ _ _) as [v|e]; cbn in *; [|done].
    pose proof (skip_space_len v.2). destruct (skip_space v.2) as [|c s']; [done|]. cbn in *.
    destruct (is_char 93 c); cbn; [lia|]. destruct (is_char 44 c); cbn; [|done].
    pose proof (skip_space_len s'). specialize (IHe depth (skip_space s') ltac:(lia)).
    destruct (scan_elements _ _ _); cbn in *; [lia|done].
Qed.

(** More fuel does not change a result or an error. *)
Definition settled {A : Type} (r : R A) : Prop := r <> Err OutOfFuel.

Lemma settled_bind {A B : Type} (m m' : R A) (k k' : A -> R B) :
  (settled m -> m' = m) -> (forall a, settled (k a) -> k' a = k a) ->
  settled (m ≫= k) -> m' ≫= k' = m ≫= k.
Proof.
  intros Hm Hk Hs. destruct m as [a|e]; cbn in *.
  - rewrite (Hm ltac:(discriminate)). by apply Hk.
  - rewrite (Hm ltac:(intros [= ->]; by apply Hs)). done.
Qed.

Lemma scan_mono fuel :
  (forall depth s fuel', (fuel <= fuel')%nat ->
     settled (scan_value fuel depth s) -> scan_value fuel' depth s = scan_value fuel depth s) /\
  (forall depth acc s fuel', (fuel <= fuel')%nat ->
     settled (scan_members fuel depth acc s) ->
     scan_members fuel' depth acc s = scan_members fuel depth acc s) /\
  (forall depth s fuel', (fuel <= fuel')%nat ->
     settled (scan_elements fuel depth s) -> scan_elements fuel' depth s = scan_elements fuel depth s).
Proof.
  induction fuel as [|fuel (IHv & IHm & IHe)]; [split_and!; intros; by exfalso|]. split_and!.
  - intros depth [|c s] [|fuel'] Hle; try lia; cbn [scan_value]; [done|]. apply le_S_n in Hle.
    destruct (is_char 34 c); [done|]. destruct (is_char 123 c); [|destruct (is_char 91 c); [|done]];
      (destruct depth as [|depth]; [done|]; destruct (skip_space s) as [|c1 s1]; [done|]).
    + destruct (is_char 125 c1); [done|]. apply settled_bind; [by apply IHm|done].
    + destruct (is_char 93 c1); [done|]. apply settled_bind; [by apply IHe|done].
  - intros depth acc [|c s] [|fuel'] Hle; try lia; cbn [scan_members]; [done|]. apply le_S_n in Hle.
    apply settled_bind; [done|intros _]. apply settled_bind; [done|intros k].
    destruct (skip_space k.2) as [|c2 s2]; [done|]. apply settled_bind; [done|intros _].
    apply settled_bind; [by apply IHv|intros v].
    destruct (skip_space v.2) as [|c3 s3]; [done|]. destruct (is_char 125 c3); [done|].
    apply settled_bind; [done|intros _]. by apply IHm.
  - intros depth s [|fuel'] Hle; try lia. cbn [scan_elements]. apply le_S_n in Hle.
    apply settled_bind; [by apply IHv|intros v].
    destruct (skip_space v.2) as [|c s']; [done|]. destruct (is_char 93 c); [done|].
    apply settled_bind; [done|intros _]. apply settled_bind; [by apply IHe|done].
Qed.

(** A result at some fuel is the result at the fuel of [loads]. *)
Lemma scan_value_enough fuel depth s r :
  scan_value fuel depth s = Ok r -> scan_value (scan_fuel s) depth s = Ok r.
Proof.
  intros Hr. destruct (Nat.le_ge_cases fuel (scan_fuel s)) as [Hle|Hge].
  - rewrite (proj1 (scan_mono fuel)); [done..|]. by rewrite Hr.
  - rewrite <- Hr. symmetry. apply (proj1 (scan_mono _)); [done|]. intros Ho.
    pose proof (proj1 (scan_terminates (scan_fuel s)) depth s ltac:(unfold scan_fuel; lia)) as Ht.
    by rewrite Ho in Ht.
Qed.

Lemma scan_value_more fuel fuel' depth s r :
  scan_value fuel depth s = Ok r -> (fuel <= fuel')%nat -> scan_value fuel' depth s = Ok r.
Proof. intros Hr Hle. rewrite (proj1 (scan_mono fuel)); [done..|]. by rewrite Hr. Qed.

Lemma scan_members_more fuel fuel' depth acc s r :
  scan_members fuel depth acc s = Ok r -> (fuel <= fuel')%nat ->
  scan_members fuel' depth acc s = Ok r.
Proof. intros Hr Hle. rewrite (proj1 (proj2 (scan_mono fuel))); [done..|]. by rewrite Hr. Qed.

Lemma scan_elements_more fuel fuel' depth s r :
  scan_elements fuel depth s = Ok r -> (fuel <= fuel')%nat -> scan_elements fuel' depth s = Ok r.
Proof. intros Hr Hle. rewrite (proj2 (proj2 (scan_mono fuel))); [done..|]. by rewrite Hr. Qed.

(** ** Reading back a printed string *)

Definition ascii_only (s : string) : bool := string_forallb (fun c => ascii_code c <=? 127) s.

Lemma scan_json_char ea c t :
  (ascii_code c <=? 127) = true ->
  scan_string (json_char ea c +:+ t) = (r ← scan_string t; Ok (String c r.1, r.2)).
Proof.
  destruct c as [[] [] [] [] [] [] [] []]; intros Hc; try discriminate Hc; destruct ea; reflexivity.
Qed.

Lemma scan_flat_string ea s rest :
  ascii_only s = true -> scan_string (flat_string (json_char ea) s +:+ dquote +:+ rest) = Ok (s, rest).
Proof.
  induction s as [|c s IH]; intros Ha; [done|]. cbn in Ha. apply andb_true_iff in Ha as [Hc Ha].
  cbn [flat_string]. rewrite sapp_assoc, scan_json_char, IH by done. done.
Qed.

(** ** Reading back a printed integer *)

Definition starts_digit (s : string) : bool :=
  match s with String c _ => is_digit c | EmptyString => false end.

Lemma span_digits_app ds s :
  string_forallb is_digit ds = true -> starts_digit s = false -> span_digits (ds +:+ s) = (ds, s).
Proof.
  intros Hd Hs. induction ds as [|c ds IH]; cbn in Hd.
  - rewrite sapp_nil. destruct s as [|c s]; cbn in *; [done|]. by rewrite Hs.
  - apply andb_true_iff in Hd as [Hc Hd]. rewrite sapp_cons. cbn. by rewrite Hc, IH.
Qed.

Lemma digits_value_snoc acc ds c :
  digits_value acc (ds +:+ char_string c) = digits_value acc ds * 10 + (ascii_code c - 48).
Proof. revert acc. induction ds as [|d ds IH]; intros acc; [done|]. rewrite sapp_cons. cbn. apply IH. Qed.

Lemma string_forallb_app f a b : string_forallb f (a +:+ b) = string_forallb f a && string_forallb f b.
Proof. induction a as [|c a IH]; [done|]. rewrite sapp_cons. cbn. by rewrite IH, andb_assoc. Qed.

Lemma digit_char n : (n < 10)%N ->
  is_digit (pretty_N_char n) = true /\ ascii_code (pretty_N_char n) = 48 + Z.of_N n.
Proof.
  intros Hn. assert (forallb (fun k => is_digit (pretty_N_char (N.of_nat k))
    && (ascii_code (pretty_N_char (N.of_nat k)) =? 48 + Z.of_nat k)) (seq 0 10) = true) as H by reflexivity.
  rewrite forallb_forall in H. specialize (H (N.to_nat n) ltac:(apply in_seq; lia)).
  rewrite N2Nat.id in H. bools. split; [done|lia].
Qed.

(** The decimal digits of a positive number: no leading zero, and their value. *)
Lemma pretty_digits n s : (0 < n)%N ->
  exists c ds, pretty_N_go n s = String c ds +:+ s /\ is_digit c = true /\ is_char 48 c = false /\
    string_forallb is_digit ds = true /\ digits_value 0 (String c ds) = Z.of_N n.
Proof.
  revert s. induction (N.lt_wf_0 n) as [n _ IH]; intros s Hn.
  rewrite pretty_N_go_step by done.
  pose proof (N.mod_lt n 10 ltac:(done)) as Hm. destruct (digit_char _ Hm) as [Hd Hv].
  destruct (N.eq_dec (n / 10)%N 0%N) as [Hz|Hz].
  - rewrite Hz, pretty_N_go_0. assert ((n mod 10)%N = n) as Hn10.
    { pose proof (N.div_mod n 10%N). lia. }
    exists (pretty_N_char (n mod 10)%N), "". split_and!; [done|done| |done|].
    + unfold is_char. apply Z.eqb_neq. lia.
    + cbn. lia.
  - destruct (IH (n / 10)%N (N.div_lt n 10 Hn ltac:(done)) (String (pretty_N_char (n mod 10)%N) s))
      as (c & ds & -> & Hc & Hc0 & Hds & Hval); [by apply N.neq_0_lt_0|].
    exists c, (ds +:+ char_string (pretty_N_char (n mod 10)%N)). split_and!; [|done|done| |].
    + rewrite !sapp_cons, sapp_assoc. done.
    + rewrite string_forallb_app, Hds. cbn. by rewrite Hd.
    + rewrite <- sapp_cons, digits_value_snoc, Hval, Hv. pose proof (N.div_mod n 10%N). lia.
Qed.

(** What may follow a value inside a list or a dict, or at the end. *)
Definition ends (s : string) : bool :=
  match s with
  | String c _ => is_char 44 c || is_char 93 c || is_char 125 c
  | EmptyString => true
  end.

Lemma is_char_eq n c : is_char n c = true -> c = chr n.
Proof.
  unfold is_char, chr, ascii_code. intros H. bools. subst.
  by rewrite N2Z.id, ascii_N_embedding.
Qed.

Lemma ends_cases s : ends s = true ->
  s = "" \/ exists t, s = String (chr 44) t \/ s = String (chr 93) t \/ s = String (chr 125) t.
Proof.
  destruct s as [|c t]; [by left|]. intros H. right. exists t. cbn in H.
  apply orb_true_iff in H as [H|H]; [apply orb_true_iff in H as [H|H]|];
    apply is_char_eq in H as ->; auto.
Qed.

Lemma ends_numbers s : ends s = true ->
  starts_digit s = false /\ scan_fraction s = ("", s) /\ scan_exponent s = (None, s).
Proof.
  intros H. destruct (ends_cases s H) as [->|(t & [->|[->| ->]])]; split_and!; try done;
    by destruct t.
Qed.

Lemma digit_not_char n c : is_digit c = true -> (n <? 48) || (57 <? n) = true -> is_char n c = false.
Proof.
  unfold is_digit, in_range, is_char. intros Hd Hn. bools. apply Z.eqb_neq.
  apply orb_true_iff in Hn as [Hn|Hn]; bools; lia.
Qed.

Lemma scan_magnitude_digits negative c ds rest :
  is_digit c = true -> (is_char 48 c = true -> ds = "") -> string_forallb is_digit ds = true ->
  (slen (String c ds) <=? MAX_STR_DIGITS) = true -> ends rest = true ->
  scan_magnitude negative (String c ds +:+ rest) =
    Ok (JInt (if negative then - digits_value 0 (String c ds) else digits_value 0 (String c ds)), rest).
Proof.
  intros Hc H0 Hds Hlen He. destruct (ends_numbers _ He) as (Hs & Hf & Hx).
  rewrite sapp_cons. unfold scan_magnitude. rewrite Hc.
  assert ((if is_char 48 c then (String c EmptyString, ds +:+ rest) else span_digits (String c (ds +:+ rest)))
    = (String c ds, rest)) as ->.
  { destruct (is_char 48 c) eqn:E; [by rewrite H0 by done|].
    rewrite <- sapp_cons. apply span_digits_app; [|done]. cbn. by rewrite Hc. }
  rewrite Hf, Hx. bools. by destruct (Z.ltb_spec MAX_STR_DIGITS (slen (String c ds))); [lia|].
Qed.

Lemma str_of_pos p : exists c ds, str_of_Z (Zpos p) = String c ds /\ is_digit c = true /\
  is_char 48 c = false /\ string_forallb is_digit ds = true /\ digits_value 0 (String c ds) = Zpos p.
Proof.
  destruct (pretty_digits (Npos p) "") as (c & ds & H & ? & ? & ? & ?); [done|].
  exists c, ds. split_and!; try done. by rewrite sapp_nil_r in H.
Qed.

Lemma str_of_neg p : str_of_Z (Zneg p) = String "-" (str_of_Z (Zpos p)).
Proof. reflexivity. Qed.

Lemma scan_digit_atom c t : is_digit c = true -> scan_atom (String c t) = scan_magnitude false (String c t).
Proof. intros Hc. unfold scan_atom. by rewrite !(digit_not_char _ c Hc) by done. Qed.

Lemma prefix_cons a p b s :
  String.prefix (String a p) (String b s) = if ascii_dec a b then String.prefix p s else false.
Proof. reflexivity. Qed.

Lemma scan_minus_atom c t :
  is_digit c = true -> scan_atom (String "-" (String c t)) = scan_magnitude true (String c t).
Proof.
  intros Hc. assert (String.prefix "-Infinity" (String "-" (String c t)) = false) as Hp.
  { rewrite !prefix_cons. destruct (ascii_dec "I"%char c) as [<-|]; [discriminate Hc|done]. }
  unfold scan_atom. rewrite Hp. done.
Qed.

Lemma scan_int z rest :
  (slen (str_of_Z (Z.abs z)) <=? MAX_STR_DIGITS) = true -> ends rest = true ->
  scan_atom (str_of_Z z +:+ rest) = Ok (JInt z, rest).
Proof.
  intros Hlen He. destruct z as [|p|p].
  - change (str_of_Z 0) with "0" in *. rewrite sapp_cons, scan_digit_atom, <- sapp_cons by done.
    by apply scan_magnitude_digits.
  - change (Z.abs (Zpos p)) with (Zpos p) in Hlen. destruct (str_of_pos p) as (c & ds & Hp & Hc & H0 & Hds & Hv). rewrite Hp in *.
    rewrite sapp_cons, scan_digit_atom, <- sapp_cons by done.
    rewrite scan_magnitude_digits by (try done; by rewrite H0). by rewrite Hv.
  - change (Z.abs (Zneg p)) with (Zpos p) in Hlen. rewrite str_of_neg.
    destruct (str_of_pos p) as (c & ds & Hp & Hc & H0 & Hds & Hv). rewrite Hp in *.
    rewrite !sapp_cons, scan_minus_atom, <- sapp_cons by done.
    rewrite scan_magnitude_digits by (try done; by rewrite H0). by rewrite Hv.
Qed.

(** ** Reading back a printed value *)

(** The values that survive printing: ASCII strings and keys, distinct keys, integers
    within the interpreter's digit limit, no floats. *)
Fixpoint plain (v : json) : bool :=
  match v with
  | JNull | JBool _ => true
  | JInt z => slen (str_of_Z (Z.abs z)) <=? MAX_STR_DIGITS
  | JFloat _ => false
  | JStr s => ascii_only s
  | JList l => forallb plain l
  | JDict d => forallb (fun kv => ascii_only kv.1 && plain kv.2) d && bool_decide (NoDup (map fst d))
  end.

(** Nested containers. *)
Fixpoint height (v : json) : nat :=
  match v with
  | JList l => S (list_max (map height l))
  | JDict d => S (list_max (map (fun kv => height kv.2) d))
  | _ => 0
  end.

Section printing.
Context (pad : string) (Hpad : string_forallb is_json_space pad = true).

Definition printed (ea : bool) (kv : string * json) : string :=
  json_string ea kv.1 +:+ ":" +:+ pad +:+ json_text pad ea false kv.2.

Lemma dumps_list ea l :
  json_text pad ea false (JList l) = "[" +:+ join ("," +:+ pad) (map (json_text pad ea false) l) +:+ "]".
Proof. reflexivity. Qed.

Lemma dumps_dict ea d :
  json_text pad ea false (JDict d) = "{" +:+ join ("," +:+ pad) (map (printed ea) d) +:+ "}".
Proof.
  unfold json_text; fold json_text. rewrite map_map. do 3 f_equal.
Qed.

Lemma join_cons sep x y l : join sep (x :: y :: l) = x +:+ sep +:+ join sep (y :: l).
Proof. reflexivity. Qed.

(** A printed value starts with a character that is no space and closes nothing. *)
Definition opens (s : string) : Prop :=
  exists c t, s = String c t /\ is_json_space c = false /\ is_char 93 c = false /\ is_char 125 c = false.

Lemma opens_skip s t : opens s -> skip_space (s +:+ t) = s +:+ t.
Proof. intros (c & u & -> & Hc & _). rewrite sapp_cons. cbn. by rewrite Hc. Qed.

Lemma opens_digit c t : is_digit c = true -> opens (String c t).
Proof.
  intros Hc. exists c, t. split; [done|]. unfold is_json_space.
  by rewrite !(digit_not_char _ c Hc) by done.
Qed.

Lemma dumps_opens ea v : plain v = true -> opens (json_text pad ea false v).
Proof.
  destruct v as [|b|z|f|s|l|d]; intros Hp; try discriminate Hp;
    try (by eexists _, _); try (destruct b; by eexists _, _).
  destruct z as [|p|p]; [by eexists _, _| |by eexists _, _].
  change (json_text pad ea false (JInt (Zpos p))) with (str_of_Z (Zpos p)).
  destruct (str_of_pos p) as (c & ds & -> & Hc & _). by apply opens_digit.
Qed.

Lemma pad_skip t : skip_space (pad +:+ t) = skip_space t.
Proof.
  revert Hpad. induction pad as [|c p IH]; [done|]. cbn [string_forallb]. intros Hp. bools.
  rewrite sapp_cons. cbn [skip_space]. rewrite H. by apply IH.
Qed.

Lemma printed_opens ea kv : opens (printed ea kv).
Proof. by eexists _, _. Qed.

Lemma join_opens (l : list string) : l <> [] -> Forall opens l -> opens (join ("," +:+ pad) l).
Proof.
  intros Hne Hl. destruct l as [|x [|y l]]; [done|by inv Hl|]. inv Hl as [|? ? (c & t & -> & H) _].
  rewrite join_cons, sapp_cons. by exists c, (t +:+ ("," +:+ pad) +:+ join ("," +:+ pad) (y :: l)).
Qed.

Lemma dumps_all_open ea l : forallb plain l = true -> Forall opens (map (json_text pad ea false) l).
Proof.
  intros Hp. apply List.Forall_forall. intros s Hs. apply in_map_iff in Hs as (v & <- & Hv).
  apply dumps_opens. by apply (proj1 (forallb_forall _ _) Hp).
Qed.

Definition reads_back (ea : bool) (v : json) : Prop :=
  plain v = true -> forall depth rest, (height v <= depth)%nat -> ends rest = true ->
  exists fuel, scan_value fuel depth (json_text pad ea false v +:+ rest) = Ok (v, rest).

Lemma read_elements ea l depth rest :
  l <> [] -> Forall (reads_back ea) l -> forallb plain l = true -> (list_max (map height l) <= depth)%nat ->
  exists fuel, scan_elements fuel depth (join ("," +:+ pad) (map (json_text pad ea false) l) +:+ "]" +:+ rest)
               = Ok (l, rest).
Proof.
  intros Hne Hl. induction Hl as [|v l Hv Hl IH]; intros Hp Hh; [done|].
  cbn [forallb] in Hp. apply andb_true_iff in Hp as [Hpv Hp]. cbn [map list_max fold_right] in Hh.
  destruct l as [|w l].
  - destruct (Hv Hpv depth ("]" +:+ rest)) as [f Hf]; [lia|done|].
    exists (S f). cbn [map join scan_elements]. rewrite Hf. done.
  - destruct (Hv Hpv depth (String "," (pad +:+ join ("," +:+ pad) (map (json_text pad ea false) (w :: l)) +:+ "]" +:+ rest)))
      as [f Hf]; [lia|done|].
    destruct IH as [f' Hf']; [done|done|unfold list_max in *; lia|].
    exists (S (Nat.max f f')). cbn [map scan_elements]. rewrite join_cons, !sapp_assoc, (sapp_cons ","), sapp_nil.
    rewrite (scan_value_more f _ _ _ _ Hf) by lia. cbn [mbind result_bind fst snd].
    cbn [skip_space is_json_space is_char raise_if negb].
    change (is_json_space ",") with false. change (is_char 93 ",") with false.
    change (is_char 44 ",") with true. cbn [negb raise_if].
    rewrite pad_skip, opens_skip; [|apply join_opens; [done|]].
    + by rewrite (scan_elements_more f' _ _ _ _ Hf') by lia.
    + by apply dumps_all_open.
Qed.

Lemma printed_all_open ea d : Forall opens (map (printed ea) d).
Proof.
  apply List.Forall_forall. intros s Hs. apply in_map_iff in Hs as (? & <- & _). apply printed_opens.
Qed.

Lemma printed_app ea k v t :
  printed ea (k, v) +:+ t =
  String (chr 34) (flat_string (json_char ea) k +:+ dquote +:+ String ":" (pad +:+ json_text pad ea false v +:+ t)).
Proof. unfold printed, json_string. cbn [fst snd]. by rewrite !sapp_assoc. Qed.

(** One member of a printed dict, up to the character after its value. *)
Lemma scan_member ea k v fuel depth acc c t :
  ascii_only k = true -> plain v = true -> is_json_space c = false ->
  scan_value fuel depth (json_text pad ea false v +:+ String c t) = Ok (v, String c t) ->
  scan_members (S fuel) depth acc (printed ea (k, v) +:+ String c t) =
    if is_char 125 c then d ← object_of unique (acc ++ [(k, v)]); Ok (d, t)
    else _ ← raise_if (negb (is_char 44 c)) JSONDecodeError;
         scan_members fuel depth (acc ++ [(k, v)]) (skip_space t).
Proof.
  intros Hk Hv Hc Hf. rewrite printed_app. cbn [scan_members].
  change (is_char 34 (chr 34)) with true. cbn [negb raise_if mbind result_bind].
  rewrite scan_flat_string by done. cbn [mbind result_bind fst snd skip_space].
  change (is_json_space ":") with false. change (is_char 58 ":") with true.
  cbn [negb raise_if mbind result_bind].
  rewrite pad_skip, opens_skip by (by apply dumps_opens). rewrite Hf. cbn [mbind result_bind fst snd skip_space].
  by rewrite Hc.
Qed.

Lemma read_members ea d acc depth rest :
  d <> [] -> Forall (fun kv => reads_back ea kv.2) d ->
  forallb (fun kv => ascii_only kv.1 && plain kv.2) d = true -> NoDup (map fst (acc ++ d)) ->
  (list_max (map (fun kv => height kv.2) d) <= depth)%nat ->
  exists fuel, scan_members fuel depth acc (join ("," +:+ pad) (map (printed ea) d) +:+ "}" +:+ rest)
               = Ok (acc ++ d, rest).
Proof.
  intros Hne Hd. revert acc. induction Hd as [|[k v] d Hv Hd IH]; intros acc Hp Hn Hh; [done|].
  cbn [forallb fst snd] in Hp. apply andb_true_iff in Hp as [Hkv Hp].
  apply andb_true_iff in Hkv as [Hk Hpv]. cbn [map list_max fold_right fst snd] in Hh, Hv.
  destruct d as [|w d].
  - destruct (Hv Hpv depth ("}" +:+ rest)) as [f Hf]; [lia|done|].
    exists (S f). cbn [map join]. rewrite (scan_member ea k v f _ _ "}" rest) by done.
    cbn [is_char]. by rewrite object_of_distinct.
  - destruct (Hv Hpv depth (String "," (pad +:+ join ("," +:+ pad) (map (printed ea) (w :: d)) +:+ "}" +:+ rest)))
      as [f Hf]; [lia|done|].
    destruct (IH ltac:(done) (acc ++ [(k, v)])) as [f' Hf']; [done| |unfold list_max in *; lia|].
    { by rewrite <- app_assoc. }
    exists (S (Nat.max f f')). cbn [map]. rewrite join_cons, !sapp_assoc, (sapp_cons ","), sapp_nil.
    rewrite (scan_member ea k v (Nat.max f f') _ _ ","); [|done..|].
    + change (is_char 125 ",") with false. change (is_char 44 ",") with true.
      cbn [negb raise_if mbind result_bind].
      rewrite pad_skip, opens_skip by (by apply join_opens, (printed_all_open ea (w :: d))).
      rewrite (scan_members_more f' _ _ _ _ _ Hf') by lia. by rewrite <- app_assoc.
    + apply (scan_value_more f); [exact Hf|lia].
Qed.

Lemma drop_prefix_app p s : drop_prefix p (p +:+ s) = s.
Proof.
  unfold drop_prefix. induction p as [|c p IH]; [|exact IH].
  change (String.substring 0 (String.length s - 0) s = s). rewrite Nat.sub_0_r. apply substring_all.
Qed.

Lemma prefix_app p s : String.prefix p (p +:+ s) = true.
Proof.
  induction p as [|c p IH]; [by destruct s|]. rewrite sapp_cons, prefix_cons.
  by destruct (ascii_dec c c).
Qed.

Lemma scan_word_app word v s : scan_word word v (word +:+ s) = Ok (v, s).
Proof. unfold scan_word. by rewrite prefix_app, drop_prefix_app. Qed.

Lemma all_read_back ea v : reads_back ea v.
Proof.
  induction v as [|b|z|f|s|l IH|d IH] using json_rect_nested; intros Hp depth rest Hh He.
  - exists 1%nat. apply (scan_word_app "null").
  - exists 1%nat. destruct b; [apply (scan_word_app "true")|apply (scan_word_app "false")].
  - exists 1%nat. change (json_text pad ea false (JInt z)) with (str_of_Z z).
    rewrite <- (scan_int z rest) by done. destruct z as [|p|p]; [done| |done].
    destruct (str_of_pos p) as (c & ds & -> & Hc & _). rewrite sapp_cons. cbn [scan_value].
    by rewrite !(digit_not_char _ c Hc) by done.
  - done.
  - exists 1%nat. change (json_text pad ea false (JStr s)) with (json_string ea s).
    change (json_string ea s) with (String (chr 34) (flat_string (json_char ea) s +:+ dquote)).
    rewrite sapp_cons, sapp_assoc. cbn [scan_value].
    change (is_char 34 (chr 34)) with true. cbn beta iota. by rewrite scan_flat_string.
  - cbn in Hh. destruct depth as [|depth]; [lia|]. destruct l as [|v l]; [by exists 1%nat|].
    destruct (read_elements ea (v :: l) depth rest) as [f Hf]; [done|done|done|lia|].
    exists (S f). rewrite dumps_list, !sapp_assoc, sapp_cons, sapp_nil. cbn [scan_value].
    change (is_char 34 "[") with false. change (is_char 123 "[") with false.
    change (is_char 91 "[") with true. cbn beta iota.
    rewrite opens_skip by (apply join_opens; [done|by apply dumps_all_open]).
    destruct (join_opens (map (json_text pad ea false) (v :: l))) as (c & t & Hj & _ & Hc & _);
      [done|by apply dumps_all_open|].
    rewrite Hj, sapp_cons in *. by rewrite Hc, Hf.
  - cbn in Hh. destruct depth as [|depth]; [lia|]. destruct d as [|kv d]; [by exists 1%nat|].
    cbn [plain] in Hp. apply andb_true_iff in Hp as [Hp Hn]. apply bool_decide_eq_true in Hn.
    destruct (read_members ea (kv :: d) [] depth rest) as [f Hf]; [done|done|done|done|lia|].
    exists (S f). rewrite dumps_dict, !sapp_assoc, sapp_cons, sapp_nil. cbn [scan_value].
    change (is_char 34 "{") with false. change (is_char 123 "{") with true. cbn beta iota.
    pose proof (printed_all_open ea (kv :: d)) as Ho. rewrite opens_skip by (by apply join_opens).
    destruct (join_opens (map (printed ea) (kv :: d))) as (c & t & Hj & _ & _ & Hc); [done..|].
    rewrite Hj, sapp_cons in *. by rewrite Hc, Hf.
Qed.

End printing.
End scan.

(** ** Sorted keys *)

Fixpoint sort_deep (v : json) : json :=
  match v with
  | JList l => JList (map sort_deep l)
  | JDict d => JDict (sort_items (map (fun kv => (kv.1, sort_deep kv.2)) d))
  | _ => v
  end.

Lemma insert_key_map {V W : Type} (f : V -> W) kv (d : list (string * V)) :
  insert_key (kv.1, f kv.2) (map (fun kv => (kv.1, f kv.2)) d)
  = map (fun kv => (kv.1, f kv.2)) (insert_key kv d).
Proof. induction d as [|kv' d IH]; cbn; [done|]. destruct (String.leb _ _); cbn; [done|]. by rewrite IH. Qed.

Lemma sort_items_map {V W : Type} (f : V -> W) (d : list (string * V)) :
  sort_items (map (fun kv => (kv.1, f kv.2)) d) = map (fun kv => (kv.1, f kv.2)) (sort_items d).
Proof.
  induction d as [|kv d IH]; [done|]. cbn. unfold sort_items in IH. rewrite IH. apply insert_key_map.
Qed.

Lemma insert_key_perm {V : Type} kv (d : list (string * V)) : insert_key kv d ≡ₚ kv :: d.
Proof.
  induction d as [|kv' d IH]; cbn; [done|]. destruct (String.leb _ _); [done|]. rewrite IH. constructor.
Qed.

Lemma sort_items_perm {V : Type} (d : list (string * V)) : sort_items d ≡ₚ d.
Proof. induction d as [|kv d IH]; cbn; [done|]. by rewrite insert_key_perm, IH. Qed.

Lemma dumps_sorted_deep pad ea v : json_text pad ea true v = json_text pad ea false (sort_deep v).
Proof.
  induction v as [|b|z|f|s|l IH|d IH] using json_rect_nested; try done.
  - cbn [sort_deep]. rewrite dumps_list, map_map. unfold json_text; fold json_text. do 3 f_equal.
    apply map_ext_in. intros x Hx. by apply (proj1 (List.Forall_forall _ _) IH).
  - cbn [sort_deep]. rewrite dumps_dict, sort_items_map, map_map.
    unfold json_text; fold json_text. rewrite sort_items_map, map_map. do 3 f_equal.
    apply map_ext_in. intros x Hx. unfold printed. cbn [fst snd]. do 3 f_equal.
    apply (proj1 (List.Forall_forall _ _) IH). by apply (Permutation_in _ (sort_items_perm d)).
Qed.

Lemma forallb_perm {A : Type} (f : A -> bool) (l l' : list A) : l ≡ₚ l' -> forallb f l = forallb f l'.
Proof.
  intros H. apply eq_true_iff_eq. rewrite !forallb_forall. split; intros Hf x Hx; apply Hf;
    [by apply (Permutation_in _ (symmetry H))|by apply (Permutation_in _ H)].
Qed.

Lemma sorted_plain v : plain (sort_deep v) = plain v.
Proof.
  induction v as [|b|z|f|s|l IH|d IH] using json_rect_nested; try done; cbn [sort_deep plain].
  - apply forallb_map_ext. intros x Hx. by apply (proj1 (List.Forall_forall _ _) IH).
  - rewrite (forallb_perm _ _ _ (sort_items_perm _)). f_equal.
    + apply forallb_map_ext. intros x Hx. cbn [fst snd]. f_equal.
      by apply (proj1 (List.Forall_forall _ _) IH).
    + apply bool_decide_ext. rewrite (sort_items_perm _), map_map. done.
Qed.

Lemma list_max_le l n : (list_max l <= n)%nat <-> Forall (fun k => k <= n)%nat l.
Proof. apply List.list_max_le. Qed.

Lemma sorted_height v n : (height v <= n)%nat -> (height (sort_deep v) <= n)%nat.
Proof.
  revert n. induction v as [|b|z|f|s|l IH|d IH] using json_rect_nested; try done; cbn [sort_deep height];
    intros [|n]; intros Hn; try lia; apply le_S_n in Hn; apply le_n_S; rewrite list_max_le in *;
    rewrite Forall_map in *; rewrite ?Forall_map.
  - rewrite List.Forall_forall in *. intros x Hx. apply (IH x Hx). by apply Hn.
  - rewrite (sort_items_perm _), Forall_map. cbn [snd]. rewrite List.Forall_forall in *.
    intros x Hx. apply (IH x Hx). by apply Hn.
Qed.

(** ** The round trip *)

(** [json.loads] always returns: whatever the text and the stack allowance, the fuel of
    the model is never what stops it. *)
Lemma loads_terminates unique recursion s : loads_with unique recursion s <> Err OutOfFuel.
Proof.
  unfold loads_with. destruct (scan_terminates unique (scan_fuel (skip_space s))) as [Hv _].
  specialize (Hv recursion (skip_space s) ltac:(unfold scan_fuel; lia)).
  destruct (scan_value _ _ _ _) as [r|e]; cbn in *; [|by intros [=]].
  by destruct (skip_space r.2).
Qed.

(** Printing and reading back are inverse: for every value without floats whose strings
    are ASCII, whose dicts have distinct keys and whose integers are within the digit limit,
    [json.loads] of its [json.dumps], with either escaping and separators, is the value itself, or
    the value with every dict in key order when the keys were sorted. *)
Lemma loads_text unique pad recursion ea sk v :
  string_forallb is_json_space pad = true -> plain v = true -> (height v <= recursion)%nat ->
  loads_with unique recursion (json_text pad ea sk v) = Ok (if sk then sort_deep v else v).
Proof.
  intros Hpad Hp Hh. set (w := if sk then sort_deep v else v).
  assert (json_text pad ea sk v = json_text pad ea false w) as ->.
  { subst w. destruct sk; [apply dumps_sorted_deep|done]. }
  assert (plain w = true /\ (height w <= recursion)%nat) as [Hpw Hhw].
  { subst w. destruct sk; [|done]. rewrite sorted_plain. split; [done|by apply sorted_height]. }
  destruct (all_read_back unique pad Hpad ea w Hpw recursion "" Hhw eq_refl) as [fuel Hf].
  rewrite sapp_nil_r in Hf. unfold loads_with.
  pose proof (opens_skip _ "" (dumps_opens pad ea w Hpw)) as Hs. rewrite sapp_nil_r in Hs. rewrite Hs.
  by rewrite (scan_value_enough unique _ _ _ _ Hf).
Qed.

Lemma loads_dumps recursion ea sk v :
  plain v = true -> (height v <= recursion)%nat ->
  loads recursion (json_dumps ea sk v) = Ok (if sk then sort_deep v else v).
Proof. by apply loads_text. Qed.

(** ** The bytes of a printed value *)

(** With [ensure_ascii], the text has no zero byte and none above 127. *)
Definition text_char (c : ascii) : bool := (0 <? ascii_code c) && (ascii_code c <=? 127).

Lemma json_char_text c : (ascii_code c <=? 127) = true -> string_forallb text_char (json_char true c) = true.
Proof. destruct c as [[] [] [] [] [] [] [] []]; intros Hc; try discriminate Hc; reflexivity. Qed.

Lemma json_string_text s : ascii_only s = true -> string_forallb text_char (json_string true s) = true.
Proof.
  intros Ha. unfold json_string. rewrite !string_forallb_app.
  assert (string_forallb text_char (flat_string (json_char true) s) = true) as ->; [|done].
  induction s as [|c s IH]; [done|]. cbn in Ha. apply andb_true_iff in Ha as [Hc Ha].
  cbn [flat_string]. by rewrite string_forallb_app, json_char_text, IH.
Qed.

Lemma join_text sep l : string_forallb text_char sep = true ->
  Forall (fun s => string_forallb text_char s = true) l -> string_forallb text_char (join sep l) = true.
Proof.
  intros Hs. induction 1 as [|x [|y l] Hx Hl IH]; [done|done|].
  by rewrite join_cons, !string_forallb_app, Hx, Hs, IH.
Qed.

Lemma digits_text s : string_forallb is_digit s = true -> string_forallb text_char s = true.
Proof.
  induction s as [|c s IH]; cbn; [done|]. intros H. bools. rewrite IH by done.
  unfold is_digit, in_range, text_char in *. bools.
  destruct (Z.ltb_spec 0 (ascii_code c)), (Z.leb_spec (ascii_code c) 127); cbn; lia.
Qed.

Lemma int_text z : string_forallb text_char (str_of_Z z) = true.
Proof.
  destruct z as [|p|p]; [done| |rewrite str_of_neg; cbn [string_forallb]];
    destruct (str_of_pos p) as (c & ds & -> & Hc & _ & Hds & _);
    apply (digits_text (String c ds)); cbn; by rewrite Hc.
Qed.

Lemma dumps_text v : plain v = true -> string_forallb text_char (json_dumps true false v) = true.
Proof.
  induction v as [|b|z|f|s|l IH|d IH] using json_rect_nested; intros Hp; try done.
  - by destruct b.
  - apply int_text.
  - by apply json_string_text.
  - rewrite dumps_list, !string_forallb_app, join_text; [done|done|]. cbn in Hp.
    apply Forall_map. induction IH as [|x l Hx _ IH]; [constructor|]. cbn in Hp. bools.
    constructor; [by apply Hx|by apply IH].
  - rewrite dumps_dict, !string_forallb_app, join_text; [done|done|]. cbn in Hp. bools. clear H0.
    apply Forall_map. induction IH as [|[k x] d Hx _ IH]; [constructor|]. cbn in H. bools.
    constructor; [|by apply IH]. unfold printed. cbn [fst snd] in *.
    by rewrite !string_forallb_app, json_string_text, Hx.
Qed.

(** ** The length of a printed integer *)

Lemma digits_value_bound acc ds : 0 <= acc -> string_forallb is_digit ds = true ->
  acc * 10 ^ slen ds <= digits_value acc ds.
Proof.
  revert acc. induction ds as [|c ds IH]; intros acc Hacc Hds; cbn in *; [unfold slen; cbn; lia|].
  bools. unfold is_digit, in_range in H. bools.
  transitivity ((acc * 10 + (ascii_code c - 48)) * 10 ^ slen ds); [|apply IH; [lia|done]].
  replace (slen (String c ds)) with (Z.succ (slen ds)) by (unfold slen; cbn; lia).
  rewrite Z.pow_succ_r by apply slen_nonneg. pose proof (Z.pow_nonneg 10 (slen ds) ltac:(lia)). nia.
Qed.

Lemma str_of_Z_len z k : 0 < k -> 0 <= z < 10 ^ k -> slen (str_of_Z z) <= k.
Proof.
  intros Hk Hz. destruct z as [|p|p]; [unfold slen; cbn; lia| |lia].
  destruct (str_of_pos p) as (c & ds & Hs & Hc & H0 & Hds & Hv). rewrite Hs.
  cbn [digits_value] in Hv. unfold is_digit, in_range, is_char in *. bools.
  pose proof (digits_value_bound (0 * 10 + (ascii_code c - 48)) ds ltac:(lia) Hds) as Hb.
  assert (10 ^ slen ds < 10 ^ k) as Hlt.
  { pose proof (Z.pow_nonneg 10 (slen ds) ltac:(lia)). nia. }
  apply Z.pow_lt_mono_r_iff in Hlt; [|lia..].
  change (slen (String c ds)) with (Z.of_nat (S (String.length ds))). unfold slen in Hlt. lia.
Qed.

(** [s.encode().decode() == s] *)
Lemma string_of_bytes_of_string s : string_of_bytes (Sha256.bytes_of_string s) = s.
Proof.
  unfold string_of_bytes, Sha256.bytes_of_string. rewrite map_map.
  transitivity (String.string_of_list_ascii (String.list_ascii_of_string s));
    [|apply String.string_of_list_ascii_of_string].
  f_equal. rewrite <- (map_id (String.list_ascii_of_string s)) at 2. apply map_ext. intros c.
  unfold chr, ascii_code. by rewrite N2Z.id, ascii_N_embedding.
Qed.
Lemma bytes_of_string_inj s t : Sha256.bytes_of_string s = Sha256.bytes_of_string t -> s = t.
Proof. intros He. by rewrite <- (string_of_bytes_of_string s), He, string_of_bytes_of_string. Qed.

End JsonFacts.
