(* ===== verification/JsonTree.v ===== *)
(** * JSON values as trees: children, depth and counting *)

From S2P Require Import Prelude PyValue.

Module JsonTree.

(** The values directly inside a container. *)
Definition children (v : json) : option (list json) :=
  match v with
  | JList l => Some l
  | JDict d => Some (map snd d)
  | _ => None
  end.

Fixpoint sum (l : list Z) : Z := match l with [] => 0 | x :: l' => x + sum l' end.
Fixpoint deepest (l : list Z) : Z := match l with [] => 0 | x :: l' => Z.max (1 + x) (deepest l') end.

(** How deep the deepest node lies. *)
Fixpoint node_depth (v : json) : Z :=
  match v with
  | JList l => deepest (map node_depth l)
  | JDict d => deepest (map (fun kv => node_depth kv.2) d)
  | _ => 0
  end.

Lemma node_depth_children v :
  node_depth v = match children v with Some l => deepest (map node_depth l) | None => 0 end.
Proof. destruct v; try done. cbn. by rewrite map_map. Qed.

(** Induction over the children. *)
Lemma children_ind (P : json -> Prop) :
  (forall v, (forall l, children v = Some l -> Forall P l) -> P v) -> forall v, P v.
Proof.
  intros H v. induction v as [|b|z|f|s|l IH|d IH] using json_rect_nested; apply H; try done.
  - by intros ? [= <-].
  - intros ? [= <-]. by apply Forall_map.
Qed.

Lemma deepest_nonneg l : 0 <= deepest l.
Proof. induction l; cbn; lia. Qed.

Lemma node_depth_nonneg v : 0 <= node_depth v.
Proof. rewrite node_depth_children. destruct (children v); [apply deepest_nonneg|done]. Qed.

Lemma sum_of_nonneg {A : Type} (f : A -> Z) l : (forall x, 0 <= f x) -> 0 <= sum (map f l).
Proof. intros Hf. induction l as [|x l IH]; cbn; [done|]. specialize (Hf x). lia. Qed.

Lemma deepest_le l n : 0 <= n -> (deepest l <=? n) = forallb (fun x => 1 + x <=? n) l.
Proof.
  intros Hn. induction l as [|x l IH]; cbn; [by apply Z.leb_le|]. rewrite <- IH.
  destruct (Z.leb_spec (Z.max (1 + x) (deepest l)) n), (Z.leb_spec (1 + x) n), (Z.leb_spec (deepest l) n);
    cbn; lia.
Qed.

(** The depth limit seen from the children. *)
Lemma deepest_within l depth limit :
  depth <= limit ->
  (depth + deepest (map node_depth l) <=? limit) = forallb (fun v => depth + 1 + node_depth v <=? limit) l.
Proof.
  intros Hd.
  replace (depth + deepest (map node_depth l) <=? limit) with (deepest (map node_depth l) <=? limit - depth)
    by (destruct (Z.leb_spec (deepest (map node_depth l)) (limit - depth)),
          (Z.leb_spec (depth + deepest (map node_depth l)) limit); lia).
  rewrite deepest_le by lia.
  rewrite (forallb_map_ext _ (fun x => 1 + node_depth x <=? limit - depth) node_depth) by done.
  induction l as [|x l IH]; cbn; [done|]. rewrite IH. f_equal.
  destruct (Z.leb_spec (1 + node_depth x) (limit - depth)),
    (Z.leb_spec (depth + 1 + node_depth x) limit); lia.
Qed.

End JsonTree.
