(* ===== verification/Base64.v ===== *)
(** * Base 64 ([base64.urlsafe_b64encode], [base64.b64decode] strict and not)

    Bytes are integers from 0 to 255.  The decoders are the state machine of
    [binascii.a2b_base64] with and without [strict_mode], after [altchars=b"-_"] has
    been translated; both alphabets are accepted, as in the library. *)

From S2P Require Import Prelude PyValue Sha256.

Module Base64.
Import Sha256.

(** ** Encoding *)

Definition b64_char (n : Z) : ascii :=
  if n <? 26 then chr (65 + n)
  else if n <? 52 then chr (71 + n)
  else if n <? 62 then chr (n - 4)
  else if n =? 62 then "-"%char
  else "_"%char.

(** [urlsafe_b64encode(b).rstrip("=")]: the padding is never written. *)
Fixpoint encode (l : list Z) : string :=
  match l with
  | [] => EmptyString
  | [a] => String (b64_char (a / 4)) (String (b64_char (a mod 4 * 16)) EmptyString)
  | [a; b] =>
      String (b64_char (a / 4)) (String (b64_char (a mod 4 * 16 + b / 16))
        (String (b64_char (b mod 16 * 4)) EmptyString))
  | a :: b :: c :: l' =>
      String (b64_char (a / 4)) (String (b64_char (a mod 4 * 16 + b / 16))
        (String (b64_char (b mod 16 * 4 + c / 64)) (String (b64_char (c mod 64)) (encode l'))))
  end.

(** ** Decoding *)

Definition b64_value (c : ascii) : option Z :=
  let n := ascii_code c in
  if is_upper c then Some (n - 65)
  else if is_lower c then Some (n - 71)
  else if is_digit c then Some (n + 4)
  else if (n =? 45) || (n =? 43) then Some 62
  else if (n =? 95) || (n =? 47) then Some 63
  else None.

(** The loop of [a2b_base64]: position in the quad, bits left over, pads seen in the
    quad, and whether any padding has been seen.  [None] is [binascii.Error]. *)
Fixpoint a2b (quad left pads : Z) (padding : bool) (s : string) : option (list Z) :=
  match s with
  | EmptyString => if quad =? 0 then Some [] else None
  | String c s' =>
      if is_char 61 c then
        if (2 <=? quad) && (4 <=? quad + (pads + 1)) then
          match s' with EmptyString => Some [] | _ => None end
        else a2b quad left (if 2 <=? quad then pads + 1 else pads) true s'
      else
        match b64_value c with
        | None => None
        | Some v =>
            if padding then None
            else if quad =? 0 then a2b 1 v 0 false s'
            else if quad =? 1 then
              option_map (cons (left * 4 + v / 16)) (a2b 2 (v mod 16) 0 false s')
            else if quad =? 2 then
              option_map (cons (left * 16 + v / 4)) (a2b 3 (v mod 4) 0 false s')
            else option_map (cons (left * 64 + v)) (a2b 0 0 0 false s')
        end
  end.

Definition a2b_base64 (s : string) : option (list Z) :=
  match s with
  | String c _ => if is_char 61 c then None else a2b 0 0 0 false s
  | EmptyString => Some []
  end.

(** [b64decode(value + "=" * (-len(value) % 4), altchars=b"-_", validate=True)] *)
Definition decode (value : string) : option (list Z) :=
  a2b_base64 (value +:+ repeat_string (Z.to_nat (- slen value mod 4)) "=").

(** The same loop without [strict_mode]: characters of no alphabet are skipped, and what
    follows the padding is not read. *)
Fixpoint a2b_any (quad left pads : Z) (s : string) : option (list Z) :=
  match s with
  | EmptyString => if quad =? 0 then Some [] else None
  | String c s' =>
      if is_char 61 c then
        if (2 <=? quad) && (4 <=? quad + (pads + 1)) then Some []
        else a2b_any quad left (if 2 <=? quad then pads + 1 else pads) s'
      else
        match b64_value c with
        | None => a2b_any quad left pads s'
        | Some v =>
            if quad =? 0 then a2b_any 1 v 0 s'
            else if quad =? 1 then
              option_map (cons (left * 4 + v / 16)) (a2b_any 2 (v mod 16) 0 s')
            else if quad =? 2 then
              option_map (cons (left * 16 + v / 4)) (a2b_any 3 (v mod 4) 0 s')
            else option_map (cons (left * 64 + v)) (a2b_any 0 0 0 s')
        end
  end.

(** [urlsafe_b64decode(value + "=" * (-len(value) % 4))] *)
Definition urlsafe_decode (value : string) : option (list Z) :=
  a2b_any 0 0 0 (value +:+ repeat_string (Z.to_nat (- slen value mod 4)) "=").

Example encode_ex : encode [77; 97; 110; 77; 97] = "TWFuTWE".
Proof. reflexivity. Qed.
Example decode_ex : decode "TWFuTWE" = Some [77; 97; 110; 77; 97].
Proof. reflexivity. Qed.
Example decode_bad : (decode "T", decode "TW=u", decode "TW!u") = (None, None, None).
Proof. reflexivity. Qed.

(** ** Round trip *)

Lemma b64_value_char n : 0 <= n < 64 ->
  b64_value (b64_char n) = Some n /\ is_char 61 (b64_char n) = false /\ is_char 46 (b64_char n) = false.
Proof.
  intros Hn.
  assert (forallb (fun k => let n := Z.of_nat k in
    bool_decide (b64_value (b64_char n) = Some n) && negb (is_char 61 (b64_char n))
    && negb (is_char 46 (b64_char n))) (seq 0 64) = true) as H by (vm_compute; reflexivity).
  rewrite forallb_forall in H. specialize (H (Z.to_nat n)). rewrite Z2Nat.id in H by lia.
  specialize (H ltac:(apply in_seq; lia)). cbn beta zeta in H. bools. by split_and!.
Qed.

Lemma a2b_char quad left n s : 0 <= n < 64 ->
  a2b quad left 0 false (String (b64_char n) s) =
    if quad =? 0 then a2b 1 n 0 false s
    else if quad =? 1 then option_map (cons (left * 4 + n / 16)) (a2b 2 (n mod 16) 0 false s)
    else if quad =? 2 then option_map (cons (left * 16 + n / 4)) (a2b 3 (n mod 4) 0 false s)
    else option_map (cons (left * 64 + n)) (a2b 0 0 0 false s).
Proof. intros Hn. destruct (b64_value_char n Hn) as (Hv & Hp & _). cbn [a2b]. by rewrite Hp, Hv. Qed.

(** Lists of bytes, three at a time. *)
Lemma triples_ind (P : list Z -> Prop) :
  P [] -> (forall a, P [a]) -> (forall a b, P [a; b]) ->
  (forall a b c l, P l -> P (a :: b :: c :: l)) -> forall l, P l.
Proof.
  intros H0 H1 H2 H3. fix IH 1. intros [|a [|b [|c l]]]; [done..|]. apply H3, IH.
Qed.

Lemma div_small a n k : 0 <= a -> 0 < n -> a < k * n -> 0 <= a / n < k.
Proof.
  intros Ha Hn Hk. split; [by apply Z.div_pos|]. apply Z.div_lt_upper_bound; lia.
Qed.

Lemma pad2 left : a2b 2 left 0 false (repeat_string 2 "=") = Some [].
Proof. reflexivity. Qed.

Lemma pad1 left : a2b 3 left 0 false (repeat_string 1 "=") = Some [].
Proof. reflexivity. Qed.

Lemma a2b_encode l : forallb is_byte l = true ->
  a2b 0 0 0 false (encode l +:+ repeat_string (Z.to_nat (- slen (encode l) mod 4)) "=") = Some l.
Proof.
  induction l as [|a|a b|a b c l IH] using triples_ind; intros Hb; [done|..];
    cbn [forallb] in Hb; unfold is_byte in Hb; bools; cbn [encode];
    pose proof (div_small a 4 64 ltac:(lia) ltac:(lia) ltac:(lia));
    pose proof (Z.mod_pos_bound a 4 ltac:(lia)); pose proof (Z.div_mod a 4 ltac:(lia)).
  - change (Z.to_nat _) with 2%nat. rewrite !sapp_cons, sapp_nil, !a2b_char by lia.
    rewrite pad2. cbn -[Z.div Z.modulo Z.mul Z.add]. rewrite Z.div_mul by lia. do 2 f_equal. lia.
  - change (Z.to_nat _) with 1%nat.
    pose proof (div_small b 16 16 ltac:(lia) ltac:(lia) ltac:(lia)).
    pose proof (Z.mod_pos_bound b 16 ltac:(lia)). pose proof (Z.div_mod b 16 ltac:(lia)).
    rewrite !sapp_cons, sapp_nil, !a2b_char by lia. rewrite pad1. cbn -[Z.div Z.modulo Z.mul Z.add].
    rewrite Z.div_add_l, (Z.div_small (b / 16)) by lia.
    rewrite (Z.add_comm _ (b / 16)), Z.mod_add, (Z.mod_small (b / 16)), Z.div_mul by lia.
    do 3 f_equal; lia.
  - assert (slen (String (b64_char (a / 4)) (String (b64_char (a mod 4 * 16 + b / 16))
        (String (b64_char (b mod 16 * 4 + c / 64)) (String (b64_char (c mod 64)) (encode l)))))
        = slen (encode l) + 4) as -> by (unfold slen; cbn [String.length]; lia).
    replace (- (slen (encode l) + 4) mod 4) with (- slen (encode l) mod 4)
      by (rewrite <- (Z.mod_add (- (slen (encode l) + 4)) 1 4) by lia; f_equal; lia).
    pose proof (div_small b 16 16 ltac:(lia) ltac:(lia) ltac:(lia)).
    pose proof (Z.mod_pos_bound b 16 ltac:(lia)). pose proof (Z.div_mod b 16 ltac:(lia)).
    pose proof (div_small c 64 4 ltac:(lia) ltac:(lia) ltac:(lia)).
    pose proof (Z.mod_pos_bound c 64 ltac:(lia)). pose proof (Z.div_mod c 64 ltac:(lia)).
    rewrite !sapp_cons, !a2b_char by lia. cbn -[Z.div Z.modulo Z.mul Z.add slen].
    rewrite IH by done. cbn -[Z.div Z.modulo Z.mul Z.add].
    rewrite Z.div_add_l, (Z.div_small (b / 16)) by lia.
    rewrite (Z.add_comm _ (b / 16)), Z.mod_add, (Z.mod_small (b / 16)) by lia.
    rewrite Z.div_add_l, (Z.div_small (c / 64)) by lia.
    rewrite (Z.add_comm _ (c / 64)), Z.mod_add, (Z.mod_small (c / 64)) by lia.
    do 4 f_equal; lia.
Qed.

Lemma encode_head l : forallb is_byte l = true -> l <> [] ->
  exists c s, encode l = String c s /\ is_char 61 c = false.
Proof.
  intros Hb Hne. destruct l as [|a l]; [done|]. cbn [forallb] in Hb. unfold is_byte in Hb. bools.
  destruct (b64_value_char (a / 4)) as (_ & Hp & _); [apply div_small; lia|].
  destruct l as [|b [|c l]]; by eexists _, _.
Qed.

Lemma decode_encode l : forallb is_byte l = true -> decode (encode l) = Some l.
Proof.
  intros Hb. unfold decode. etrans; [|exact (a2b_encode l Hb)]. destruct l as [|a l]; [done|].
  destruct (encode_head (a :: l)) as (c & s & -> & Hc); [done..|]. rewrite sapp_cons.
  unfold a2b_base64. by rewrite Hc.
Qed.

(** What the strict decoder accepts, the other reads the same way. *)
Lemma a2b_any_strict s : forall quad left pads padding l,
  a2b quad left pads padding s = Some l -> a2b_any quad left pads s = Some l.
Proof.
  induction s as [|c s IH]; intros quad left pads padding l Hl; cbn in *; [done|].
  destruct (is_char 61 c).
  - destruct (_ && _); [by destruct s|]. by eapply IH.
  - destruct (b64_value c); [|done]. destruct padding; [done|].
    destruct (quad =? 0); [by eapply IH|]. destruct (quad =? 1); [|destruct (quad =? 2)];
      (destruct (a2b _ _ 0 false s) eqn:E; [|done]); apply IH in E; by rewrite E.
Qed.

Lemma urlsafe_decode_encode l : forallb is_byte l = true -> urlsafe_decode (encode l) = Some l.
Proof. intros Hb. eapply a2b_any_strict, a2b_encode, Hb. Qed.

(** The length of the encoding. *)
Lemma encode_length l : Z.of_nat (String.length (encode l)) = (Z.of_nat (length l) * 4 + 2) / 3.
Proof.
  induction l as [|a|a b|a b c l IH] using triples_ind; [done..|]. cbn [encode String.length length].
  replace (Z.of_nat (S (S (S (length l)))) * 4 + 2) with (Z.of_nat (length l) * 4 + 2 + 4 * 3) by lia.
  rewrite Z.div_add by lia. lia.
Qed.

(** A character outside the alphabet is in no encoding. *)
Lemma encode_absent n l : (forall v, 0 <= v < 64 -> is_char n (b64_char v) = false) ->
  forallb is_byte l = true -> has_char n (encode l) = false.
Proof.
  intros H. unfold has_char.
  induction l as [|a|a b|a b c l IH] using triples_ind; intros Hb; [done|..];
    cbn [forallb] in Hb; unfold is_byte in Hb; bools; cbn [encode string_forallb];
    pose proof (div_small a 4 64 ltac:(lia) ltac:(lia) ltac:(lia));
    pose proof (Z.mod_pos_bound a 4 ltac:(lia)).
  - by rewrite !H by lia.
  - pose proof (div_small b 16 16 ltac:(lia) ltac:(lia) ltac:(lia)).
    pose proof (Z.mod_pos_bound b 16 ltac:(lia)). by rewrite !H by lia.
  - pose proof (div_small b 16 16 ltac:(lia) ltac:(lia) ltac:(lia)).
    pose proof (Z.mod_pos_bound b 16 ltac:(lia)).
    pose proof (div_small c 64 4 ltac:(lia) ltac:(lia) ltac:(lia)).
    pose proof (Z.mod_pos_bound c 64 ltac:(lia)).
    rewrite !H by lia. by apply IH.
Qed.

(** The encoding has no dot, so that two encodings joined by one split back; and no padding. *)
Lemma encode_no_dot l : forallb is_byte l = true -> has_char 46 (encode l) = false.
Proof. apply encode_absent. intros n Hn. by destruct (b64_value_char n Hn) as (_ & _ & ?). Qed.
Lemma encode_no_padding l : forallb is_byte l = true -> has_char 61 (encode l) = false.
Proof. apply encode_absent. intros n Hn. by destruct (b64_value_char n Hn) as (_ & ? & _). Qed.

End Base64.
