(* ===== verification/Gateway.v ===== *)
(** * The model gateway (deploy/litellm/gateway.py and deploy/litellm/assertions.py)

    Everything between an inference request and the upstream call: the signed budget
    assertion, the durable budget ledger, the request sanitiser, the provider-neutral
    errors, the response check and the startup receipt.  Byte strings are lists of
    integers; the UTF-8 length of an ASCII string is its length.  Times are the whole
    seconds [int(now.astimezone(UTC).timestamp())]; [recursion] is the stack allowance of
    [json.loads]. *)

From S2P Require Import Prelude PyValue Sha256 JsonText Base64.

Module Gateway.
Import JsonText.

(** ** Constants (lines 26-83) *)

Definition INFERENCE_PATH : string := "/v1/chat/completions".
Definition MAX_TOOLS : Z := 8.
Definition MAX_TOOL_CALLS : Z := 16.
Definition MAX_TOOL_SCHEMA_BYTES : Z := 16384.
Definition MAX_TOOL_ARGUMENT_BYTES : Z := 16384.
Definition MAX_TOOL_PAYLOAD_BYTES : Z := 65536.
Definition MAX_MESSAGE_PAYLOAD_BYTES : Z := 196608.
Definition MAX_SCHEMA_DEPTH : Z := 8.
Definition MAX_SCHEMA_KEYS : Z := 256.
Definition MAX_REQUEST_DEPTH : Z := 16.
Definition MAX_REQUEST_CONTAINERS : Z := 512.
Definition MAX_TOOL_ARGUMENT_DEPTH : Z := 8.
Definition MAX_TOOL_ARGUMENT_CONTAINERS : Z := 128.
Definition ALLOWED_REQUEST_FIELDS : list string :=
  ["model"; "messages"; "max_tokens"; "temperature"; "top_p"; "stop"; "seed";
   "response_format"; "tools"; "tool_choice"; "stream"].
Definition ASSERTION_FIELDS : list string :=
  ["version"; "run_id"; "model_alias"; "token_ceiling"; "expires_at"; "nonce"].
Definition RECEIPT_FIELDS : list string :=
  ["schema_version"; "component"; "environment"; "operations_sha"; "target_index_digest";
   "target_platform_digest"; "expires_at"; "approval_digest"; "signature_status"; "files"].
Definition HANDOFF_FILES : list string :=
  ["provider-credential"; "litellm-master-key"; "gateway-token"; "budget-assertion-key"].
Definition RUN_TOMBSTONE_RETENTION_SECONDS : Z := 90 * 24 * 60 * 60.

(** ** Patterns *)

Definition one_of (chars : string) (c : ascii) : bool := has_char (ascii_code c) chars.
Definition RUN_ID_PATTERN : string -> bool :=
  fullmatch_class is_alnum (fun c => is_alnum c || one_of "_.:-" c) 0 127.
Definition NONCE_PATTERN : string -> bool :=
  fullmatch_class is_alnum (fun c => is_alnum c || one_of "_-" c) 15 127.
Definition TOOL_NAME_PATTERN : string -> bool :=
  fullmatch_chars (fun c => is_alnum c || one_of "_-" c) 1 64.
Definition TOOL_CALL_ID_PATTERN : string -> bool :=
  fullmatch_chars (fun c => is_alnum c || one_of "_.:-" c) 1 128.
Definition SCHEMA_KEY_PATTERN : string -> bool :=
  fullmatch_chars (fun c => is_alnum c || one_of "_$.-" c) 1 128.
Definition is_hex_lower (c : ascii) : bool := is_digit c || in_range 97 102 c.
Definition SHA_PATTERN : string -> bool := fullmatch_chars is_hex_lower 40 40.
Definition DIGEST_PATTERN (s : string) : bool :=
  String.prefix "sha256:" s && fullmatch_chars is_hex_lower 64 64 (drop_prefix "sha256:" s).

Inductive error :=
| PolicyError (message : string)
| RuntimeError (message : string)
| ValueError (message : string)
| TypeError
| OverflowError
| RecursionError
| OutsideModel.
#[global] Instance error_eq_dec : EqDecision error.
Proof. solve_decision. Defined.

Abbreviation R := (result error).

Record policy := GatewayPolicy {
  gp_alias : string;
  gp_max_tokens : Z;
  gp_timeout_seconds : Z;
}.

Record assertion := BudgetAssertion {
  ba_run_id : string;
  ba_model_alias : string;
  ba_token_ceiling : Z;
  ba_expires_at : Z;
  ba_nonce : string;
}.

(** ** Small validators *)

(** [set(d) == fields] *)
Definition same_keys (d : list (string * json)) (fields : list string) : bool :=
  forallb (fun kv => bool_decide (kv.1 ∈ fields)) d && forallb (fun f => dict_mem f d) fields.
(** [set(d) - fields] is empty *)
Definition keys_within (d : list (string * json)) (fields : list string) : bool :=
  forallb (fun kv => bool_decide (kv.1 ∈ fields)) d.

(** [v in names] for a set of strings: hashing a list or a dict raises. *)
Definition member_of (v : json) (names : gset string) : R bool :=
  if hashable v then Ok (match v with JStr s => bool_decide (s ∈ names) | _ => false end)
  else Err TypeError.

Definition is_str (v : json) : bool := match v with JStr _ => true | _ => false end.

Definition positive_integer (value : json) (label : string) (maximum : Z) : R Z :=
  match value with
  | JInt z => if (1 <=? z) && (z <=? maximum) then Ok z else Err (PolicyError (label +:+ " is invalid"))
  | _ => Err (PolicyError (label +:+ " is invalid"))
  end.

Definition float_leb (a b : float) : bool :=
  match SFcompare a b with Some Lt | Some Eq => true | _ => false end.

(** [float(value)] raises [OverflowError] for a huge [int]; [nan] is in no interval. *)
Definition bounded_number (value : json) (label : string) (minimum maximum : Z) : R float :=
  normalized ← (match value with
                | JInt z => match int_to_float z with Ok f => Ok f | Err _ => Err OverflowError end
                | JFloat f => Ok f
                | _ => Err (PolicyError (label +:+ " is invalid"))
                end);
  if float_leb (float_of_Z minimum) normalized && float_leb normalized (float_of_Z maximum)
  then Ok normalized
  else Err (PolicyError (label +:+ " is invalid")).

(** The value itself, [JNull] when [nullable]. *)
Definition bounded_string (nullable : bool) (value : json) (label : string) (maximum : Z) : R json :=
  match value with
  | JNull => if nullable then Ok JNull else Err (PolicyError (label +:+ " is invalid"))
  | JStr s => if maximum <? slen s then Err (PolicyError (label +:+ " is invalid")) else Ok value
  | _ => Err (PolicyError (label +:+ " is invalid"))
  end.

Definition is_finite (f : float) : bool :=
  match f with S754_infinity _ | S754_nan => false | _ => true end.

(** [json.dumps(v, allow_nan=False)] raises on a non-finite float. *)
Fixpoint all_finite (v : json) : bool :=
  match v with
  | JFloat f => is_finite f
  | JList l => forallb all_finite l
  | JDict d => forallb (fun kv => all_finite kv.2) d
  | _ => true
  end.

(** Returns the rebuilt value and the key count, the cell [key_count[0]]. *)
Fixpoint bounded_json_value (depth : Z) (value : json) (key_count : Z) {struct value} : R (json * Z) :=
  if MAX_SCHEMA_DEPTH <? depth then Err (PolicyError "tool schema depth is invalid")
  else
    match value with
    | JNull | JBool _ | JInt _ => Ok (value, key_count)
    | JStr s =>
        if 4096 <? slen s then Err (PolicyError "tool schema string is invalid")
        else Ok (value, key_count)
    | JFloat f =>
        if is_finite f then Ok (value, key_count)
        else Err (PolicyError "tool schema number is invalid")
    | JList l =>
        if 128 <? Z.of_nat (length l) then Err (PolicyError "tool schema list is invalid")
        else
          r ← (fix items (l : list json) (n : Z) : R (list json * Z) :=
                 match l with
                 | [] => Ok ([], n)
                 | x :: l' =>
                     a ← bounded_json_value (depth + 1) x n;
                     b ← items l' a.2;
                     Ok (a.1 :: b.1, b.2)
                 end) l key_count;
          Ok (JList r.1, r.2)
    | JDict d =>
        r ← (fix members (d : list (string * json)) (n : Z) : R (list (string * json) * Z) :=
               match d with
               | [] => Ok ([], n)
               | (k, x) :: d' =>
                   _ ← raise_if (negb (SCHEMA_KEY_PATTERN k)) (PolicyError "tool schema key is invalid");
                   _ ← raise_if (MAX_SCHEMA_KEYS <? n + 1) (PolicyError "tool schema has too many keys");
                   a ← bounded_json_value (depth + 1) x (n + 1);
                   b ← members d' a.2;
                   Ok ((k, a.1) :: b.1, b.2)
               end) d key_count;
        Ok (JDict r.1, r.2)
    end.

(** Returns the container count, the cell [containers[0]]. *)
Fixpoint validate_json_structure (maximum_depth maximum_containers : Z)
    (depth : Z) (value : json) (containers : Z) {struct value} : R Z :=
  if maximum_depth <? depth then Err (PolicyError "JSON depth is invalid")
  else
    match value with
    | JDict d =>
        _ ← raise_if (maximum_containers <? containers + 1)
              (PolicyError "JSON container count is invalid");
        (fix members (d : list (string * json)) (n : Z) : R Z :=
           match d with
           | [] => Ok n
           | (_, x) :: d' =>
               n' ← validate_json_structure maximum_depth maximum_containers (depth + 1) x n;
               members d' n'
           end) d (containers + 1)
    | JList l =>
        _ ← raise_if (maximum_containers <? containers + 1)
              (PolicyError "JSON container count is invalid");
        (fix items (l : list json) (n : Z) : R Z :=
           match l with
           | [] => Ok n
           | x :: l' =>
               n' ← validate_json_structure maximum_depth maximum_containers (depth + 1) x n;
               items l' n'
           end) l (containers + 1)
    | _ => Ok containers
    end.

(** ** Tools *)

(** [len(json.dumps(v, ensure_ascii=False, separators=(",", ":")).encode("utf-8"))] *)
Definition payload_size (v : json) : Z := slen (json_dumps false false v).

Definition tool_schema (value : json) : R json :=
  match value with
  | JDict d =>
      r ← bounded_json_value 1 value 0;
      _ ← raise_if (negb (match r.1 with JDict d' => py_eq (get_or_none d' "type") (JStr "object")
                                       | _ => false end))
            (PolicyError "tool schema root is invalid");
      _ ← raise_if (MAX_TOOL_SCHEMA_BYTES <? payload_size r.1) (PolicyError "tool schema is too large");
      Ok r.1
  | _ => Err (PolicyError "tool schema is invalid")
  end.

(** One tool: its rebuilt form and its name. *)
Definition tool_definition (names : gset string) (tool : json) : R (json * string) :=
  match tool with
  | JDict d =>
      _ ← raise_if (negb (same_keys d ["type"; "function"])) (PolicyError "tool fields are invalid");
      _ ← raise_if (negb (py_eq (get_or_none d "type") (JStr "function")))
            (PolicyError "tool type is invalid");
      match get_or_none d "function" with
      | JDict function =>
          _ ← raise_if (negb (forallb (fun k => dict_mem k function) ["name"; "parameters"]
                              && keys_within function ["name"; "description"; "parameters"]))
                (PolicyError "tool function fields are invalid");
          match get_or_none function "name" with
          | JStr name =>
              _ ← raise_if (negb (TOOL_NAME_PATTERN name)) (PolicyError "tool name is invalid");
              _ ← raise_if (bool_decide (name ∈ names)) (PolicyError "tool names must be unique");
              parameters ← tool_schema (get_or_none function "parameters");
              let rebuilt := [("name", JStr name); ("parameters", parameters)] in
              rebuilt ← (match dict_get "description" function with
                         | Some text =>
                             text ← bounded_string false text "tool description" 4096;
                             Ok (rebuilt ++ [("description", text)])
                         | None => Ok rebuilt
                         end);
              Ok (JDict [("type", JStr "function"); ("function", JDict rebuilt)], name)
          | _ => Err (PolicyError "tool name is invalid")
          end
      | _ => Err (PolicyError "tool function fields are invalid")
      end
  | _ => Err (PolicyError "tool fields are invalid")
  end.

Definition tool_step (acc : list json * gset string) (tool : json) : R (list json * gset string) :=
  r ← tool_definition acc.2 tool; Ok (acc.1 ++ [r.1], {[r.2]} ∪ acc.2).

Definition tools (value : json) : R (list json * gset string) :=
  match value with
  | JList l =>
      _ ← raise_if (negb ((1 <=? Z.of_nat (length l)) && (Z.of_nat (length l) <=? MAX_TOOLS)))
            (PolicyError "tools are invalid");
      r ← fold_result tool_step ([], ∅) l;
      _ ← raise_if (MAX_TOOL_PAYLOAD_BYTES <? payload_size (JList r.1))
            (PolicyError "tool payload is too large");
      Ok r
  | _ => Err (PolicyError "tools are invalid")
  end.

Definition tool_choice (value : json) (names : gset string) : R json :=
  let invalid := PolicyError "tool choice is invalid" in
  match value with
  | JStr s => if bool_decide (s ∈ ["auto"; "none"; "required"]) then Ok value else Err invalid
  | JDict d =>
      _ ← raise_if (negb (same_keys d ["type"; "function"])) invalid;
      _ ← raise_if (negb (py_eq (get_or_none d "type") (JStr "function"))) invalid;
      match get_or_none d "function" with
      | JDict function =>
          _ ← raise_if (negb (same_keys function ["name"])) invalid;
          known ← member_of (get_or_none function "name") names;
          _ ← raise_if (negb known) invalid;
          Ok (JDict [("type", JStr "function");
                     ("function", JDict [("name", get_or_none function "name")])])
      | _ => Err invalid
      end
  | _ => Err invalid
  end.

(** ** Messages *)

Section messages.
(** The stack allowance of [json.loads], and the declared tools. *)
Context (recursion : nat) (declared_tools : gset string).

(** The arguments of a call: decoded, checked and printed again. *)
Definition tool_arguments (arguments : json) : R string :=
  let invalid := PolicyError "tool call arguments are invalid" in
  match arguments with
  | JStr text =>
      _ ← raise_if (MAX_TOOL_ARGUMENT_BYTES <? slen text) invalid;
      decoded ← (match loads recursion text with
                 | Ok v => Ok v
                 | Err (JSONDecodeError | JsonText.RecursionError) => Err invalid
                 | Err IntegerTooLong => Err (ValueError "integer string conversion")
                 | Err (NonAsciiText | DuplicateKey | OutOfFuel) => Err OutsideModel
                 end);
      _ ← validate_json_structure MAX_TOOL_ARGUMENT_DEPTH MAX_TOOL_ARGUMENT_CONTAINERS 0 decoded 0;
      match decoded with
      | JDict _ =>
          _ ← raise_if (negb (all_finite decoded)) (ValueError "Out of range float values");
          Ok (json_dumps false false decoded)
      | _ => Err invalid
      end
  | _ => Err invalid
  end.

(** Adds the call's ID to [seen_call_ids]. *)
Definition tool_call (seen_call_ids : gset string) (value : json) : R (json * string) :=
  match value with
  | JDict d =>
      _ ← raise_if (negb (same_keys d ["id"; "type"; "function"])) (PolicyError "tool call fields are invalid");
      match get_or_none d "id" with
      | JStr call_id =>
          _ ← raise_if (negb (TOOL_CALL_ID_PATTERN call_id)) (PolicyError "tool call ID is invalid");
          _ ← raise_if (bool_decide (call_id ∈ seen_call_ids)) (PolicyError "tool call IDs must be unique");
          _ ← raise_if (negb (py_eq (get_or_none d "type") (JStr "function")))
                (PolicyError "tool call type is invalid");
          match get_or_none d "function" with
          | JDict function =>
              _ ← raise_if (negb (same_keys function ["name"; "arguments"]))
                    (PolicyError "tool call function fields are invalid");
              let name := get_or_none function "name" in
              known ← member_of name declared_tools;
              _ ← raise_if (negb known) (PolicyError "tool call references an undeclared tool");
              arguments ← tool_arguments (get_or_none function "arguments");
              Ok (JDict [("id", JStr call_id); ("type", JStr "function");
                         ("function", JDict [("name", name); ("arguments", JStr arguments)])], call_id)
          | _ => Err (PolicyError "tool call function fields are invalid")
          end
      | _ => Err (PolicyError "tool call ID is invalid")
      end
  | _ => Err (PolicyError "tool call fields are invalid")
  end.

Definition call_step (acc : list json * list string * gset string) (call : json)
  : R (list json * list string * gset string) :=
  let '(rebuilt, ids, seen) := acc in
  r ← tool_call seen call;
  Ok (rebuilt ++ [r.1], ids ++ [r.2], {[r.2]} ∪ seen).

(** The local variables of the loop of [_messages]. *)
Record message_state := MessageState {
  ms_result : list json;
  ms_seen : gset string;
  ms_resolved : gset string;
  ms_pending : list string;
}.

Definition plain_message (st : message_state) (message : list (string * json)) (role : json) : R message_state :=
  _ ← raise_if (negb (same_keys message ["role"; "content"])) (PolicyError "message fields are invalid");
  content ← bounded_string false (get_or_none message "content") "message content" 32768;
  Ok (MessageState (ms_result st ++ [JDict [("role", role); ("content", content)]])
        (ms_seen st) (ms_resolved st) (ms_pending st)).

Definition assistant_message (st : message_state) (message : list (string * json)) : R message_state :=
  _ ← raise_if (negb (keys_within message ["role"; "content"; "tool_calls"]))
        (PolicyError "message fields are invalid");
  calls ← (match get_or_none message "tool_calls" with
           | JNull => Ok []
           | JList l =>
               _ ← raise_if (negb ((1 <=? Z.of_nat (length l)) && (Z.of_nat (length l) <=? MAX_TOOL_CALLS)))
                     (PolicyError "assistant tool calls are invalid");
               Ok l
           | _ => Err (PolicyError "assistant tool calls are invalid")
           end);
  content ← bounded_string true (get_or_none message "content") "assistant content" 32768;
  _ ← raise_if (match content, calls with JNull, [] => true | _, _ => false end)
        (PolicyError "assistant content is invalid");
  let rebuilt := [("role", JStr "assistant"); ("content", content)] in
  match calls with
  | [] => Ok (MessageState (ms_result st ++ [JDict rebuilt]) (ms_seen st) (ms_resolved st) (ms_pending st))
  | _ =>
      r ← fold_result call_step ([], [], ms_seen st) calls;
      let '(rebuilt_calls, ids, seen) := r in
      Ok (MessageState (ms_result st ++ [JDict (rebuilt ++ [("tool_calls", JList rebuilt_calls)])])
            seen (ms_resolved st) ids)
  end.

Definition tool_message (st : message_state) (message : list (string * json)) : R message_state :=
  _ ← raise_if (negb (same_keys message ["role"; "tool_call_id"; "content"]))
        (PolicyError "message fields are invalid");
  match get_or_none message "tool_call_id" with
  | JStr call_id =>
      _ ← raise_if (negb (bool_decide (call_id ∈ ms_seen st)))
            (PolicyError "tool result must reference a prior tool call");
      match ms_pending st with
      | first :: rest =>
          _ ← raise_if (negb (String.eqb call_id first))
                (PolicyError "tool results must be contiguous and ordered");
          _ ← raise_if (bool_decide (call_id ∈ ms_resolved st))
                (PolicyError "tool call result must be unique");
          content ← bounded_string false (get_or_none message "content") "tool result content" 32768;
          Ok (MessageState
                (ms_result st ++ [JDict [("role", JStr "tool"); ("tool_call_id", JStr call_id);
                                         ("content", content)]])
                (ms_seen st) ({[call_id]} ∪ ms_resolved st) rest)
      | [] => Err (PolicyError "tool results must be contiguous and ordered")
      end
  | _ => Err (PolicyError "tool result must reference a prior tool call")
  end.

Definition message_step (st : message_state) (value : json) : R message_state :=
  match value with
  | JDict message =>
      let role := get_or_none message "role" in
      _ ← raise_if (match ms_pending st with [] => false | _ => negb (py_eq role (JStr "tool")) end)
            (PolicyError "tool results must be contiguous and ordered");
      plain ← member_of role {["system"; "user"]};
      if (plain : bool) then plain_message st message role
      else if py_eq role (JStr "assistant") then assistant_message st message
      else if py_eq role (JStr "tool") then tool_message st message
      else Err (PolicyError "message role is invalid")
  | _ => Err (PolicyError "message fields are invalid")
  end.

Definition messages (value : json) : R (list json) :=
  match value with
  | JList l =>
      _ ← raise_if (negb ((1 <=? Z.of_nat (length l)) && (Z.of_nat (length l) <=? 64)))
            (PolicyError "messages are invalid");
      st ← fold_result message_step (MessageState [] ∅ ∅ []) l;
      _ ← raise_if (negb (bool_decide (ms_seen st = ms_resolved st)))
            (PolicyError "every tool call must have exactly one result");
      _ ← raise_if (MAX_MESSAGE_PAYLOAD_BYTES <? payload_size (JList (ms_result st)))
            (PolicyError "message payload is too large");
      Ok (ms_result st)
  | _ => Err (PolicyError "messages are invalid")
  end.
End messages.

(** ** Requests *)

(** [sorted(unknown)[0]] *)
Definition least (first : string) (rest : list string) : string :=
  fold_left (fun m k => if String.leb k m then k else m) rest first.

Definition stop_values (stop : json) : R (list json) :=
  let invalid := PolicyError "stop is invalid" in
  match (match stop with JStr _ => JList [stop] | _ => stop end) with
  | JList values =>
      _ ← raise_if (negb ((1 <=? Z.of_nat (length values)) && (Z.of_nat (length values) <=? 4))
                    || existsb (fun v => match v with JStr s => 256 <? slen s | _ => true end) values)
            invalid;
      Ok values
  | _ => Err invalid
  end.

(** [if field in body: sanitized[field] = f(body[field])] *)
Definition optional_field (body : list (string * json)) (field : string) (f : json -> R json)
  : R (list (string * json)) :=
  match dict_get field body with
  | None => Ok []
  | Some v => w ← f v; Ok [(field, w)]
  end.

Definition sanitize_request (recursion : nat) (body : list (string * json)) (p : policy)
  : R (list (string * json)) :=
  _ ← (match List.filter (fun k => negb (bool_decide (k ∈ ALLOWED_REQUEST_FIELDS))) (map fst body) with
       | [] => Ok ()
       | k :: rest => Err (PolicyError ("unsupported request field: " +:+ least k rest))
       end);
  _ ← raise_if (negb (py_eq (get_or_none body "model") (JStr (gp_alias p))))
        (PolicyError "only the configured model alias is allowed");
  declared ← (match dict_get "tools" body with
              | None => Ok None
              | Some v => t ← tools v; Ok (Some t)
              end);
  let tool_names := match declared with Some t => t.2 | None => ∅ end in
  msgs ← messages recursion tool_names (get_or_none body "messages");
  max_tokens ← positive_integer (get_or_none body "max_tokens") "request token limit" (gp_max_tokens p);
  choice ← optional_field body "tool_choice" (fun v =>
             match declared with
             | None => Err (PolicyError "tool choice requires declared tools")
             | Some t => tool_choice v t.2
             end);
  _ ← raise_if (match dict_get "stream" body with
                | None | Some (JBool false) => false
                | Some _ => true
                end) (PolicyError "stream must be false");
  temperature ← optional_field body "temperature" (fun v => JFloat <$> bounded_number v "temperature" 0 2);
  top_p ← optional_field body "top_p" (fun v => JFloat <$> bounded_number v "top_p" 0 1);
  seed ← optional_field body "seed" (fun v =>
           match v with
           | JInt z => if 2 ^ 31 - 1 <? Z.abs z then Err (PolicyError "seed is invalid") else Ok v
           | _ => Err (PolicyError "seed is invalid")
           end);
  stop ← optional_field body "stop" (fun v => JList <$> stop_values v);
  format ← optional_field body "response_format" (fun v =>
             match v with
             | JDict _ =>
                 if py_eq v (JDict [("type", JStr "text")]) || py_eq v (JDict [("type", JStr "json_object")])
                 then Ok v else Err (PolicyError "response format is invalid")
             | _ => Err (PolicyError "response format is invalid")
             end);
  Ok ([("model", JStr (gp_alias p)); ("messages", JList msgs); ("max_tokens", JInt max_tokens)]
      ++ match declared with Some t => [("tools", JList t.1)] | None => [] end
      ++ choice ++ temperature ++ top_p ++ seed ++ stop ++ format).

(** ** Budget assertions *)

Fixpoint split_dot (s : string) : list string :=
  match s with
  | EmptyString => [EmptyString]
  | String c s' =>
      if is_char 46 c then EmptyString :: split_dot s'
      else match split_dot s' with
           | [] => [String c EmptyString]
           | x :: l => String c x :: l
           end
  end.

Definition b64decode (value : string) : R (list Z) :=
  match Base64.decode value with
  | Some b => Ok b
  | None => Err (PolicyError "budget assertion encoding is invalid")
  end.

(** [issue_budget_assertion] of assertions.py, for an aware [expires_at]. *)
Definition assertion_payload (run_id model_alias : string) (token_ceiling expires_at : Z)
    (nonce : string) : json :=
  JDict [("version", JInt 1); ("run_id", JStr run_id); ("model_alias", JStr model_alias);
         ("token_ceiling", JInt token_ceiling); ("expires_at", JInt expires_at); ("nonce", JStr nonce)].

Definition issue_budget_assertion (key : list Z) (run_id model_alias : string)
    (token_ceiling expires_at : Z) (nonce : string) : R string :=
  _ ← raise_if (Z.of_nat (length key) <? 32) (ValueError "budget assertion key is too short");
  _ ← raise_if (negb (RUN_ID_PATTERN run_id)) (ValueError "run ID is invalid");
  _ ← raise_if (negb (RUN_ID_PATTERN model_alias)) (ValueError "model alias is invalid");
  _ ← raise_if (negb (NONCE_PATTERN nonce)) (ValueError "budget assertion nonce is invalid");
  _ ← raise_if (negb ((1 <=? token_ceiling) && (token_ceiling <=? 100000)))
        (ValueError "token ceiling is invalid");
  let payload := Sha256.bytes_of_string
    (json_dumps true true (assertion_payload run_id model_alias token_ceiling expires_at nonce)) in
  Ok (Base64.encode payload +:+ "." +:+ Base64.encode (Sha256.hmac key payload)).

Definition verify_budget_assertion (recursion : nat) (value : string) (key : list Z) (alias : string)
    (current : Z) : R assertion :=
  _ ← raise_if (Z.of_nat (length key) <? 32) (PolicyError "budget assertion verifier is unavailable");
  match split_dot value with
  | [encoded_payload; encoded_signature] =>
      payload ← b64decode encoded_payload;
      signature ← b64decode encoded_signature;
      _ ← raise_if (negb (bool_decide (signature = Sha256.hmac key payload)))
            (PolicyError "budget assertion signature is invalid");
      decoded ← (match loads_bytes recursion payload with
                 | Ok v => Ok v
                 | Err JSONDecodeError => Err (PolicyError "budget assertion payload is invalid")
                 | Err IntegerTooLong => Err (ValueError "integer string conversion")
                 | Err JsonText.RecursionError => Err RecursionError
                 | Err (NonAsciiText | DuplicateKey | OutOfFuel) => Err OutsideModel
                 end);
      match decoded with
      | JDict d =>
          _ ← raise_if (negb (same_keys d ASSERTION_FIELDS)) (PolicyError "budget assertion fields are invalid");
          _ ← raise_if (negb (py_eq (get_or_none d "version") (JInt 1)))
                (PolicyError "budget assertion version is invalid");
          match get_or_none d "run_id" with
          | JStr run_id =>
              _ ← raise_if (negb (RUN_ID_PATTERN run_id)) (PolicyError "budget assertion run ID is invalid");
              _ ← raise_if (negb (py_eq (get_or_none d "model_alias") (JStr alias)))
                    (PolicyError "budget assertion model alias mismatch");
              match get_or_none d "nonce" with
              | JStr nonce =>
                  _ ← raise_if (negb (NONCE_PATTERN nonce)) (PolicyError "budget assertion nonce is invalid");
                  token_ceiling ← positive_integer (get_or_none d "token_ceiling")
                                    "budget token ceiling" 100000;
                  match get_or_none d "expires_at" with
                  | JInt expires_at =>
                      _ ← raise_if (expires_at <=? current) (PolicyError "budget assertion is expired");
                      _ ← raise_if (current + 300 <? expires_at)
                            (PolicyError "budget assertion lifetime is too long");
                      Ok (BudgetAssertion run_id alias token_ceiling expires_at nonce)
                  | _ => Err (PolicyError "budget assertion expiry is invalid")
                  end
              | _ => Err (PolicyError "budget assertion nonce is invalid")
              end
          | _ => Err (PolicyError "budget assertion run ID is invalid")
          end
      | _ => Err (PolicyError "budget assertion fields are invalid")
      end
  | _ => Err (PolicyError "budget assertion format is invalid")
  end.

(** ** The durable budget ledger: tables [runs] and [nonces] *)

Record run_row := RunRow {
  rr_model_alias : string;
  rr_token_ceiling : Z;
  rr_tokens_reserved : Z;
  rr_expires_at : Z;
  rr_retain_until : option Z;
}.

Record ledger := Ledger {
  gl_runs : gmap string run_row;
  gl_nonces : gmap string Z;
}.

(** [maximum_records] and [run_retention_seconds] of the ledger object. *)
Record ledger_bounds := LedgerBounds {
  lb_maximum_records : Z;
  lb_retention : Z;
}.

(** [DurableBudgetLedger.__init__] over the rows the file already has: old rows get a
    retention. *)
Definition backfill (retention : Z) (r : run_row) : run_row :=
  RunRow (rr_model_alias r) (rr_token_ceiling r) (rr_tokens_reserved r) (rr_expires_at r)
    (match rr_retain_until r with
     | Some t => Some t
     | None => Some (rr_expires_at r + retention)
     end).

Definition open_ledger (bounds : ledger_bounds) (existing : ledger) : R ledger :=
  _ ← raise_if (lb_maximum_records bounds <? 100) (ValueError "budget ledger bound is too small");
  _ ← raise_if (lb_retention bounds <? 24 * 60 * 60) (ValueError "run tombstone retention is too short");
  Ok (Ledger (backfill (lb_retention bounds) <$> gl_runs existing) (gl_nonces existing)).

Abbreviation M := (ST ledger error).

(** The two [DELETE] statements. *)
Definition retained (current : Z) (r : run_row) : bool :=
  match rr_retain_until r with Some t => current <? t | None => true end.
Definition purge (current : Z) (l : ledger) : ledger :=
  Ledger (filter (fun kv => retained current kv.2 = true) (gl_runs l))
         (filter (fun kv => (current <? kv.2) = true) (gl_nonces l)).

Definition set_runs (runs : gmap string run_row) (l : ledger) : ledger := Ledger runs (gl_nonces l).
Definition set_nonces (nonces : gmap string Z) (l : ledger) : ledger := Ledger (gl_runs l) nonces.

(** [UPDATE runs SET tokens_reserved = tokens_reserved + ?, expires_at = MAX(...)] *)
Definition charge (tokens expires_at : Z) (r : run_row) : run_row :=
  RunRow (rr_model_alias r) (rr_token_ceiling r) (rr_tokens_reserved r + tokens)
    (Z.max (rr_expires_at r) expires_at) (rr_retain_until r).

(** One transaction: any exception rolls everything back. *)
Definition reserve (bounds : ledger_bounds) (a : assertion) (requested_tokens current : Z) : M () :=
  atomic (
    _ ← modify (purge current);
    l ← get;
    _ ← fail_if (lb_maximum_records bounds <=? Z.of_nat (size (gl_nonces l)))
          (PolicyError "budget ledger capacity is exhausted");
    _ ← fail_if (bool_decide (is_Some (gl_nonces l !! ba_nonce a)))
          (PolicyError "budget assertion was replayed");
    _ ← modify (set_nonces (<[ba_nonce a := ba_expires_at a]> (gl_nonces l)));
    used ← (match gl_runs l !! ba_run_id a with
            | None =>
                _ ← fail_if (lb_maximum_records bounds <=? Z.of_nat (size (gl_runs l)))
                      (PolicyError "budget ledger capacity is exhausted");
                _ ← modify (set_runs (<[ba_run_id a :=
                      RunRow (ba_model_alias a) (ba_token_ceiling a) 0 (ba_expires_at a)
                        (Some (current + lb_retention bounds))]> (gl_runs l)));
                mret 0
            | Some run =>
                _ ← fail_if (rr_expires_at run <=? current) (PolicyError "run ID is retired");
                _ ← fail_if (negb (String.eqb (rr_model_alias run) (ba_model_alias a))
                             || negb (rr_token_ceiling run =? ba_token_ceiling a))
                      (PolicyError "run budget binding changed");
                mret (rr_tokens_reserved run)
            end);
    _ ← fail_if (ba_token_ceiling a - used <? requested_tokens)
          (PolicyError "run token budget exhausted");
    modify (fun l => set_runs (alter (charge requested_tokens (ba_expires_at a)) (ba_run_id a) (gl_runs l)) l)).

(** ** Preparing a request *)

Section server.
(** The attributes of the server object and the stack allowance of [json.loads]. *)
Context (recursion : nat) (assertion_key : list Z) (p : policy) (bounds : ledger_bounds).

Definition prepare_request (body : list (string * json)) (budget_assertion : string) (now : Z)
  : M (list (string * json)) :=
  sanitized ← lift (sanitize_request recursion body p);
  a ← lift (verify_budget_assertion recursion budget_assertion assertion_key (gp_alias p) now);
  max_tokens ← lift (match dict_get "max_tokens" sanitized with
                     | Some (JInt z) => Ok z
                     | _ => Err TypeError
                     end);
  _ ← reserve bounds a max_tokens now;
  mret (sanitized ++ [("timeout", JInt (gp_timeout_seconds p));
                      ("metadata", JDict [("civicloop_run_id", JStr (ba_run_id a));
                                          ("civicloop_run_token_ceiling", JInt (ba_token_ceiling a))])]).
End server.

(** ** Errors and secrets in responses *)

Definition provider_failure_is_retryable (status : Z) : bool :=
  (status =? 408) || (status =? 429) || (500 <=? status).

Definition provider_neutral_error (status : Z) : json :=
  let retryable := provider_failure_is_retryable status in
  JDict [("error", JDict
    [("code", JStr (if retryable then "model_provider_unavailable" else "model_request_rejected"));
     ("message", JStr (if retryable then "The model service is temporarily unavailable."
                       else "The model request could not be completed."));
     ("retryable", JBool retryable)])].

Definition has_secret (secrets : list string) (s : string) : bool :=
  existsb (fun secret => contains secret s) secrets.

Fixpoint contains_known_secret (secrets : list string) (value : json) : bool :=
  match value with
  | JStr s => has_secret secrets s
  | JList l => existsb (contains_known_secret secrets) l
  | JDict d => existsb (fun kv => has_secret secrets kv.1 || contains_known_secret secrets kv.2) d
  | _ => false
  end.

(** ** Handling a request: [_Handler.do_POST] *)

(** Python's [int(s)] of ASCII text: white space around, a sign, digits with single
    underscores between them. *)
Fixpoint int_digits (acc : option Z) (s : string) : option Z :=
  match s with
  | EmptyString => acc
  | String c s' =>
      if is_digit c then int_digits (Some (default 0 acc * 10 + (ascii_code c - 48))) s'
      else if is_char 95 c then
        match acc, s' with
        | Some _, String d _ => if is_digit d then int_digits acc s' else None
        | _, _ => None
        end
      else None
  end.
Definition py_int (s : string) : option Z :=
  match strip s with
  | String c s' =>
      if is_char 45 c then option_map Z.opp (int_digits None s')
      else if is_char 43 c then int_digits None s'
      else int_digits None (String c s')
  | EmptyString => None
  end.

Record http_request := HttpRequest {
  hr_path : string;
  hr_authorization : string;
  hr_content_length : string;
  hr_assertion : string;
  hr_body : list Z;
}.

(** What [urllib.request.urlopen] gives for the upstream call. *)
Inductive upstream_outcome :=
| HTTPError (code : Z)
| Unreachable
| Payload (body : list Z).

Record server := Server {
  sv_policy : policy;
  sv_bounds : ledger_bounds;
  sv_assertion_key : list Z;
  sv_client_token : string;
  sv_response_secrets : list string;
  sv_recursion : nat;
}.

Abbreviation response := (Z * json)%type.

(** Either an answer at once, or the request to send upstream. *)
Inductive admission :=
| Answer (r : response)
| Forward (prepared : list (string * json)).

Definition invalid_model_request : response :=
  (400, JDict [("error", JDict [("code", JStr "invalid_model_request");
                                ("message", JStr "The model request is invalid.")])]).

Definition decoded_body (sv : server) (rq : http_request) : R (list (string * json)) :=
  size ← (match py_int (hr_content_length rq) with
          | Some n => Ok n
          | None => Err (ValueError "invalid literal for int()")
          end);
  _ ← raise_if (negb ((1 <=? size) && (size <=? 262144))) (PolicyError "request size is invalid");
  body ← (match loads_bytes (sv_recursion sv) (take (Z.to_nat size) (hr_body rq)) with
          | Ok v => Ok v
          | Err (JSONDecodeError | IntegerTooLong) => Err (ValueError "json")
          | Err JsonText.RecursionError => Err RecursionError
          | Err (NonAsciiText | DuplicateKey | OutOfFuel) => Err OutsideModel
          end);
  match body with
  | JDict d =>
      _ ← validate_json_structure MAX_REQUEST_DEPTH MAX_REQUEST_CONTAINERS 0 body 0;
      Ok d
  | _ => Err (PolicyError "request body is invalid")
  end.

(** The [except] clause of the request phase. *)
Definition is_invalid_request (e : error) : bool :=
  match e with
  | PolicyError _ | ValueError _ | RecursionError => true
  | RuntimeError _ | TypeError | OverflowError | OutsideModel => false
  end.

Definition handled {A : Type} (m : M A) (recover : error -> option A) : M A :=
  fun l => match m l with
           | (Ok a, l') => (Ok a, l')
           | (Err e, l') => (match recover e with Some a => Ok a | None => Err e end, l')
           end.

(** Up to the inference slot, which is [busy] when a request holds it. *)
Definition receive (sv : server) (rq : http_request) (child_running busy : bool) (now : Z) : M admission :=
  if negb (String.eqb (hr_path rq) INFERENCE_PATH) then
    mret (Answer (404, JDict [("error", JDict [("code", JStr "route_not_found")])]))
  else if negb child_running then mret (Answer (503, provider_neutral_error 503))
  else if negb (String.eqb (hr_authorization rq) ("Bearer " +:+ sv_client_token sv)) then
    mret (Answer (401, JDict [("error", JDict [("code", JStr "unauthorized")])]))
  else
    handled
      (body ← lift (decoded_body sv rq);
       prepared ← prepare_request (sv_recursion sv) (sv_assertion_key sv) (sv_policy sv) (sv_bounds sv)
                    body (hr_assertion rq) now;
       mret (if busy : bool
             then Answer (429, JDict [("error", JDict [("code", JStr "model_gateway_busy");
                                                        ("retryable", JBool true)])])
             else Forward prepared))
      (fun e => if is_invalid_request e then Some (Answer invalid_model_request) else None).

(** The upstream phase: every failure is a provider-neutral error. *)
Definition finish (sv : server) (outcome : upstream_outcome) : R response :=
  let unavailable := (503, provider_neutral_error 503) in
  match outcome with
  | HTTPError code =>
      Ok (if provider_failure_is_retryable code then 503 else 502, provider_neutral_error code)
  | Unreachable => Ok unavailable
  | Payload payload =>
      if 1048576 <? Z.of_nat (length payload) then Ok unavailable
      else
        match loads_bytes (sv_recursion sv) payload with
        | Err (NonAsciiText | DuplicateKey | OutOfFuel) => Err OutsideModel
        | Err _ => Ok unavailable
        | Ok (JDict d as parsed) =>
            match validate_json_structure MAX_REQUEST_DEPTH MAX_REQUEST_CONTAINERS 0 parsed 0 with
            | Err _ => Ok unavailable
            | Ok _ =>
                if has_secret (sv_response_secrets sv) (string_of_bytes payload) then Ok unavailable
                else if contains_known_secret (sv_response_secrets sv) parsed then Ok unavailable
                else Ok (200, parsed)
            end
        | Ok _ => Ok unavailable
        end
  end.

(** The whole handler, for a free slot and an upstream service. *)
Definition do_POST (upstream : list (string * json) -> upstream_outcome) (sv : server)
    (rq : http_request) (child_running : bool) (now : Z) : M response :=
  a ← receive sv rq child_running false now;
  match a with
  | Answer r => mret r
  | Forward prepared => lift (finish sv (upstream prepared))
  end.

(** ** The startup receipt: the files next to it as the file system shows them *)

Record startup := Startup {
  su_plain : bool;                          (* absolute, a file, no symbolic link *)
  su_receipt : option string;               (* its text, [None] when unreadable *)
  su_candidate : string -> option (list Z); (* contents of a plain sibling file *)
}.

Definition verify_startup_receipt (recursion : nat) (st : startup)
    (operations_sha index_digest platform_digest : string) (current : Z) : R (list string) :=
  _ ← raise_if (negb (su_plain st)) (RuntimeError "model gateway startup receipt is unavailable");
  receipt ← (match su_receipt st with
             | None => Err (RuntimeError "model gateway startup receipt is invalid")
             | Some text =>
                 match loads recursion text with
                 | Ok v => Ok v
                 | Err JSONDecodeError => Err (RuntimeError "model gateway startup receipt is invalid")
                 | Err IntegerTooLong => Err (ValueError "integer string conversion")
                 | Err JsonText.RecursionError => Err RecursionError
                 | Err (NonAsciiText | DuplicateKey | OutOfFuel) => Err OutsideModel
                 end
             end);
  match receipt with
  | JDict d =>
      _ ← raise_if (negb (same_keys d RECEIPT_FIELDS))
            (RuntimeError "model gateway startup receipt fields are invalid");
      _ ← raise_if (existsb (fun kv => negb (py_eq (get_or_none d kv.1) kv.2))
                      [("schema_version", JInt 1); ("component", JStr "litellm");
                       ("environment", JStr "production"); ("operations_sha", JStr operations_sha);
                       ("target_index_digest", JStr index_digest);
                       ("target_platform_digest", JStr platform_digest);
                       ("signature_status", JStr "verified")])
            (RuntimeError "model gateway startup receipt binding is invalid");
      _ ← raise_if (negb (SHA_PATTERN operations_sha)) (RuntimeError "model gateway operations SHA is invalid");
      _ ← raise_if (negb (DIGEST_PATTERN index_digest) || negb (DIGEST_PATTERN platform_digest))
            (RuntimeError "model gateway image digest is invalid");
      _ ← (match get_or_none d "expires_at" with
           | JInt expires_at =>
               _ ← raise_if (expires_at <=? current) (RuntimeError "model gateway startup approval is expired");
               raise_if (current + 24 * 60 * 60 <? expires_at)
                 (RuntimeError "model gateway startup approval lifetime is invalid")
           | _ => Err (RuntimeError "model gateway startup approval is expired")
           end);
      _ ← raise_if (negb (match get_or_none d "approval_digest" with
                          | JStr s => DIGEST_PATTERN s | _ => false end))
            (RuntimeError "model gateway approval digest is invalid");
      match get_or_none d "files" with
      | JDict files =>
          _ ← raise_if (negb (same_keys files HANDOFF_FILES))
                (RuntimeError "model gateway handoff file receipt is invalid");
          traverse (fun name =>
            match su_candidate st name with
            | None => Err (RuntimeError "model gateway handoff file is unavailable")
            | Some content =>
                _ ← raise_if (negb (py_eq (get_or_none files name)
                                      (JStr ("sha256:" +:+ Sha256.hex (Sha256.digest content)))))
                      (RuntimeError "model gateway handoff file digest mismatch");
                Ok name
            end) HANDOFF_FILES
      | _ => Err (RuntimeError "model gateway handoff file receipt is invalid")
      end
  | _ => Err (RuntimeError "model gateway startup receipt fields are invalid")
  end.

End Gateway.
