(* ===== verification/GatewayLedger.v ===== *)
(** * The gateway's budget ledger: budgets hold and assertions are spent once

    A reservation as one step of the ledger, the history of the requests a gateway has
    admitted, and what every such history satisfies.  Each theorem is about the ledger
    reached from an empty file by admitted requests; a refused request leaves the ledger
    as it was. *)

From S2P Require Import Prelude PyValue Sha256 JsonText Base64 Gateway.

Module LedgerFacts.
Import JsonText Gateway.

(** ** One reservation *)

(** The row a reservation charges, in the ledger after the two [DELETE]s. *)
Definition charged_row (bounds : ledger_bounds) (a : assertion) (t : Z) (l : ledger) (r : run_row) : Prop :=
  match gl_runs l !! ba_run_id a with
  | None =>
      r = RunRow (ba_model_alias a) (ba_token_ceiling a) 0 (ba_expires_at a) (Some (t + lb_retention bounds))
      /\ Z.of_nat (size (gl_runs l)) < lb_maximum_records bounds
  | Some r' =>
      r = r' /\ t < rr_expires_at r /\ rr_model_alias r = ba_model_alias a
      /\ rr_token_ceiling r = ba_token_ceiling a
  end.

(** What a granted reservation of [n] tokens at time [t] does. *)
Record granted (bounds : ledger_bounds) (a : assertion) (n t : Z) (l l' : ledger) (r : run_row) : Prop :=
  Granted {
    gr_row : charged_row bounds a t (purge t l) r;
    gr_fresh : gl_nonces (purge t l) !! ba_nonce a = None;
    gr_room : Z.of_nat (size (gl_nonces (purge t l))) < lb_maximum_records bounds;
    gr_budget : rr_tokens_reserved r + n <= ba_token_ceiling a;
    gr_runs : gl_runs l' = <[ba_run_id a := charge n (ba_expires_at a) r]> (gl_runs (purge t l));
    gr_nonces : gl_nonces l' = <[ba_nonce a := ba_expires_at a]> (gl_nonces (purge t l));
  }.

Lemma reserve_granted bounds a n t l l' :
  reserve bounds a n t l = (Ok (), l') -> exists r, granted bounds a n t l l' r.
Proof.
  unfold reserve. intros H. apply atomic_ok_inv in H.
  apply bind_ok_inv in H as (? & ? & Hp & H). apply modify_inv in Hp as [_ ->].
  remember (purge t l) as l1 eqn:Hl1.
  apply bind_ok_inv in H as (? & ? & Hg & H). apply get_inv in Hg as [[= ->] ->].
  apply bind_ok_inv in H as (? & ? & Hc & H). apply fail_if_ok_inv in Hc as [Hroom ->].
  apply bind_ok_inv in H as (? & ? & Hc & H). apply fail_if_ok_inv in Hc as [Hfresh ->].
  apply bind_ok_inv in H as (? & ? & Hm & H). apply modify_inv in Hm as [_ ->].
  apply bind_ok_inv in H as (used & l2 & Hu & H).
  apply bind_ok_inv in H as (? & ? & Hc & H). apply fail_if_ok_inv in Hc as [Hbudget ->].
  apply modify_inv in H as [_ ->]. bools.
  assert (gl_nonces l1 !! ba_nonce a = None) as Hnone by (by apply eq_None_not_Some).
  destruct (gl_runs l1 !! ba_run_id a) as [r|] eqn:Hr.
  - apply bind_ok_inv in Hu as (? & ? & Hc & Hu). apply fail_if_ok_inv in Hc as [? ->].
    apply bind_ok_inv in Hu as (? & ? & Hc & Hu). apply fail_if_ok_inv in Hc as [? ->].
    apply ret_inv in Hu as [[= ->] ->]. bools. exists r. split; rewrite <- ?Hl1; try done; try lia.
    + unfold charged_row. by rewrite Hr.
    + cbn. apply map_eq. intros k. destruct (decide (k = ba_run_id a)) as [->|Hne].
      * by rewrite lookup_alter_eq, Hr, lookup_insert_eq.
      * by rewrite lookup_alter_ne, lookup_insert_ne.
  - apply bind_ok_inv in Hu as (? & ? & Hc & Hu). apply fail_if_ok_inv in Hc as [? ->].
    apply bind_ok_inv in Hu as (? & ? & Hm & Hu). apply modify_inv in Hm as [_ ->].
    apply ret_inv in Hu as [[= ->] ->]. bools. eexists. split; rewrite <- ?Hl1; try done.
    + unfold charged_row. rewrite Hr. by split; [reflexivity|].
    + cbn. lia.
    + cbn. apply map_eq. intros k. destruct (decide (k = ba_run_id a)) as [->|Hne].
      * by rewrite lookup_alter_eq, !lookup_insert_eq.
      * by rewrite lookup_alter_ne, !lookup_insert_ne.
Qed.

(** ** Accepted assertions *)

Lemma positive_integer_ok v label maximum n :
  positive_integer v label maximum = Ok n -> v = JInt n /\ 1 <= n <= maximum.
Proof.
  unfold positive_integer. destruct v; try done. destruct (_ && _) eqn:Hc; [|done].
  intros [= ->]. bools. split; [done|lia].
Qed.

(** What a verified assertion is: the fields of a payload signed with the key. *)
Record signed_fields (recursion : nat) (value : string) (key : list Z) (alias : string) (a : assertion)
  : Prop := SignedFields {
  sg_key : 32 <= Z.of_nat (length key);
  sg_payload : exists text signature payload d,
    split_dot value = [text; signature] /\ Base64.decode text = Some payload /\
    Base64.decode signature = Some (Sha256.hmac key payload) /\
    loads_bytes recursion payload = Ok (JDict d) /\
    get_or_none d "run_id" = JStr (ba_run_id a) /\ get_or_none d "nonce" = JStr (ba_nonce a) /\
    get_or_none d "token_ceiling" = JInt (ba_token_ceiling a) /\
    get_or_none d "expires_at" = JInt (ba_expires_at a) /\
    py_eq (get_or_none d "model_alias") (JStr alias) = true;
  sg_patterns : RUN_ID_PATTERN (ba_run_id a) = true /\ NONCE_PATTERN (ba_nonce a) = true;
  sg_alias : ba_model_alias a = alias;
  sg_ceiling : 1 <= ba_token_ceiling a <= 100000;
}.

Lemma b64decode_ok s b : b64decode s = Ok b -> Base64.decode s = Some b.
Proof. unfold b64decode. destruct (Base64.decode s); congruence. Qed.

Lemma verify_inv recursion value key alias t a :
  verify_budget_assertion recursion value key alias t = Ok a ->
  signed_fields recursion value key alias a /\ t < ba_expires_at a <= t + 300.
Proof.
  unfold verify_budget_assertion. intros H. do 4 (result_step H).
  apply bind_result_ok in H as (payload & Hp%b64decode_ok & H).
  apply bind_result_ok in H as (signature & Hs%b64decode_ok & H).
  result_step H.
  apply bind_result_ok in H as (decoded & Hd & H).
  repeat (result_step H). injection H as <-.
  match goal with Hx : positive_integer _ _ _ = Ok _ |- _ => apply positive_integer_ok in Hx as [? ?] end.
  bools. subst. split; [|cbn; lia]. split; cbn; [lia| |done..].
  do 4 eexists. split_and!; try done.
  destruct (loads_bytes recursion payload) as [v|[]]; congruence.
Qed.

(** The clock is the only reason for one assertion to have two verdicts. *)
Lemma signed_unique recursion value key alias a a' :
  signed_fields recursion value key alias a -> signed_fields recursion value key alias a' -> a = a'.
Proof.
  intros [_ (x1 & x2 & x3 & x4 & P1 & P2 & P3 & P4 & P5 & P6 & P7 & P8 & _) _ P9 _].
  intros [_ (y1 & y2 & y3 & y4 & Q1 & Q2 & Q3 & Q4 & Q5 & Q6 & Q7 & Q8 & _) _ Q9 _].
  destruct a, a'; cbn in *. congruence.
Qed.

(** ** Admitted requests *)

Lemma sanitized_tokens recursion body p s :
  sanitize_request recursion body p = Ok s ->
  exists n, dict_get "max_tokens" s = Some (JInt n) /\ 1 <= n <= gp_max_tokens p.
Proof.
  unfold sanitize_request. intros H. apply bind_result_ok in H as ([] & _ & H).
  repeat (apply bind_result_ok in H as (? & ? & H)). injection H as <-.
  match goal with Hx : positive_integer _ _ _ = Ok ?m |- _ =>
    exists m; apply positive_integer_ok in Hx as [_ ?] end.
  done.
Qed.

Lemma reserve_err bounds a n t l e l' : reserve bounds a n t l = (Err e, l') -> l' = l.
Proof. apply atomic_err. Qed.

Lemma prepare_ok recursion key p bounds body header t l prepared l' :
  prepare_request recursion key p bounds body header t l = (Ok prepared, l') ->
  exists s a n, sanitize_request recursion body p = Ok s /\
    verify_budget_assertion recursion header key (gp_alias p) t = Ok a /\
    dict_get "max_tokens" s = Some (JInt n) /\ 1 <= n <= gp_max_tokens p /\
    reserve bounds a n t l = (Ok (), l') /\
    prepared = s ++ [("timeout", JInt (gp_timeout_seconds p));
                     ("metadata", JDict [("civicloop_run_id", JStr (ba_run_id a));
                       ("civicloop_run_token_ceiling", JInt (ba_token_ceiling a))])].
Proof.
  unfold prepare_request. intros H.
  apply bind_ok_inv in H as (s & ? & Hs & H). apply lift_inv in Hs as [Hs ->]. symmetry in Hs.
  apply bind_ok_inv in H as (a & ? & Ha & H). apply lift_inv in Ha as [Ha ->]. symmetry in Ha.
  destruct (sanitized_tokens _ _ _ _ Hs) as (n & Hn & Hb). rewrite Hn in H.
  apply bind_ok_inv in H as (n' & ? & Hm & H). apply lift_inv in Hm as [[= ->] ->].
  apply bind_ok_inv in H as ([] & l2 & Hr & H). apply ret_inv in H as [[= ->] ->].
  exists s, a, n. split_and!; done || lia.
Qed.

Lemma prepare_err recursion key p bounds body header t l e l' :
  prepare_request recursion key p bounds body header t l = (Err e, l') -> l' = l.
Proof.
  unfold prepare_request. intros H.
  repeat (apply bind_err_inv in H as [H|(? & ? & Hr & H)];
    [try (apply lift_inv in H as [_ ->]; done); try by apply reserve_err in H
    | try (apply lift_inv in Hr as [_ ->])]).
  apply ret_inv in H as [[=] _].
Qed.

(** ** The history of a gateway *)

Section history.
Context (recursion : nat) (key : list Z) (p : policy) (bounds : ledger_bounds).

Record grant := Grant {
  g_header : string;
  g_assertion : assertion;
  g_tokens : Z;
  g_time : Z;
}.

(** A prepared request spends the tokens of its [max_tokens] under its assertion. *)
Definition grants (body : list (string * json)) (prepared : list (string * json)) (g : grant) : Prop :=
  verify_budget_assertion recursion (g_header g) key (gp_alias p) (g_time g) = Ok (g_assertion g) /\
  dict_get "max_tokens" prepared = Some (JInt (g_tokens g)).

(** The requests a gateway has prepared until time [t], oldest first, and its ledger: the
    clock goes forward, refused requests and restarts come in between. *)
Inductive history : Z -> list grant -> ledger -> Prop :=
| history_empty t : history t [] (Ledger ∅ ∅)
| history_grant t gs l body prepared g l' :
    history t gs l -> t <= g_time g ->
    prepare_request recursion key p bounds body (g_header g) (g_time g) l = (Ok prepared, l') ->
    grants body prepared g ->
    history (g_time g) (gs ++ [g]) l'
| history_refuse t gs l body header t' e l' :
    history t gs l -> t <= t' ->
    prepare_request recursion key p bounds body header t' l = (Err e, l') ->
    history t' gs l'
| history_restart t gs l l' :
    history t gs l -> open_ledger bounds l = Ok l' -> history t gs l'.

Definition of_run (run : string) (gs : list grant) : list grant :=
  List.filter (fun g => String.eqb (ba_run_id (g_assertion g)) run) gs.
Definition total (gs : list grant) : Z := fold_right (fun g n => g_tokens g + n) 0 gs.

(** What a run has spent, while the ledger remembers its first grant. *)
Definition budget_kept (t : Z) (gs : list grant) (l : ledger) (run : string) : Prop :=
  match of_run run gs with
  | [] => gl_runs l !! run = None
  | first :: _ =>
      t < g_time first + lb_retention bounds ->
      exists r, gl_runs l !! run = Some r /\ rr_retain_until r = Some (g_time first + lb_retention bounds) /\
        rr_tokens_reserved r = total (of_run run gs) /\ rr_tokens_reserved r <= rr_token_ceiling r /\
        Forall (fun g => ba_token_ceiling (g_assertion g) = rr_token_ceiling r
                         /\ ba_model_alias (g_assertion g) = rr_model_alias r) (of_run run gs)
  end.

Record remembers (t : Z) (gs : list grant) (l : ledger) : Prop := Remembers {
  rm_times : Forall (fun g => g_time g <= t /\ 1 <= g_tokens g <= gp_max_tokens p) gs;
  rm_signed : Forall (fun g => signed_fields recursion (g_header g) key (gp_alias p) (g_assertion g)
                               /\ g_time g < ba_expires_at (g_assertion g)) gs;
  rm_budget : forall run, budget_kept t gs l run;
  rm_retained : forall run r, gl_runs l !! run = Some r -> is_Some (rr_retain_until r);
  rm_nonces : Forall (fun g => t < ba_expires_at (g_assertion g) ->
      gl_nonces l !! ba_nonce (g_assertion g) = Some (ba_expires_at (g_assertion g))) gs;
  rm_once : NoDup (map g_header gs);
}.

Lemma lookup_purge_run t l run r :
  gl_runs (purge t l) !! run = Some r <-> gl_runs l !! run = Some r /\ retained t r = true.
Proof. cbn. rewrite map_lookup_filter_Some. done. Qed.

Lemma lookup_purge_nonce t l nonce e :
  gl_nonces (purge t l) !! nonce = Some e <-> gl_nonces l !! nonce = Some e /\ (t <? e) = true.
Proof. cbn. rewrite map_lookup_filter_Some. done. Qed.

Lemma total_app gs gs' : total (gs ++ gs') = total gs + total gs'.
Proof. unfold total. induction gs as [|g gs IH]; cbn; [done|]. rewrite IH. lia. Qed.

Lemma of_run_app run gs gs' : of_run run (gs ++ gs') = of_run run gs ++ of_run run gs'.
Proof. apply List.filter_app. Qed.

Lemma of_run_other run g : ba_run_id (g_assertion g) <> run -> of_run run [g] = [].
Proof. intros H. cbn. by apply String.eqb_neq in H as ->. Qed.

Lemma of_run_same g : of_run (ba_run_id (g_assertion g)) [g] = [g].
Proof. cbn. by rewrite String.eqb_refl. Qed.

(** Time passing only makes less to remember; the purge keeps it. *)
Lemma budget_kept_later t t' gs l run : t <= t' -> budget_kept t gs l run -> budget_kept t' gs l run.
Proof. unfold budget_kept. destruct (of_run run gs) as [|f fs]; [done|]. intros ? H ?. apply H. lia. Qed.

Lemma budget_kept_purge t gs l run : budget_kept t gs l run -> budget_kept t gs (purge t l) run.
Proof.
  unfold budget_kept. destruct (of_run run gs) as [|f fs].
  - intros H. cbn. rewrite map_lookup_filter_None. by left.
  - intros H Ht. destruct (H Ht) as (r & Hr & Hret & ? & ? & ?). exists r.
    split; [|by split_and!]. apply lookup_purge_run. split; [done|].
    unfold retained. rewrite Hret. by apply Z.ltb_lt.
Qed.

Lemma remembers_later t t' gs l : t <= t' -> remembers t gs l -> remembers t' gs l.
Proof.
  intros Hle [H1 H2 H3 H4 H5 H6]. split; try done.
  - eapply Forall_impl; [exact H1|]. cbn. lia.
  - intros run. by eapply budget_kept_later.
  - eapply Forall_impl; [exact H5|]. cbn. intros g Hg ?. apply Hg. lia.
Qed.

(** The run that is charged, and the others. *)
Lemma budget_kept_charge gs l l' g r run :
  (forall run, budget_kept (g_time g) gs l run) -> 1 <= g_tokens g ->
  granted bounds (g_assertion g) (g_tokens g) (g_time g) l l' r ->
  budget_kept (g_time g) (gs ++ [g]) l' run.
Proof.
  intros Hk Hn [Hrow _ _ Hb Hruns _]. specialize (Hk run). apply budget_kept_purge in Hk.
  unfold budget_kept in *. rewrite of_run_app.
  destruct (decide (ba_run_id (g_assertion g) = run)) as [<-|Hne].
  - rewrite of_run_same, Hruns, lookup_insert_eq. unfold charged_row in Hrow.
    destruct (of_run _ gs) as [|f fs] eqn:Hf; cbn [app].
    + rewrite Hk in Hrow. destruct Hrow as [-> _]. intros _. eexists. split; [done|]. cbn in *.
      split_and!; try done; [lia..|]. constructor; [done|constructor].
    + intros Ht. destruct (Hk Ht) as (r' & Hr' & Hret & Htot & Hmax & Hall). rewrite Hr' in Hrow.
      destruct Hrow as (-> & _ & Halias & Hceil). eexists. split; [done|]. cbn [charge rr_retain_until
        rr_tokens_reserved rr_token_ceiling rr_model_alias]. split_and!.
      * done.
      * change (f :: fs ++ [g]) with ((f :: fs) ++ [g]). rewrite total_app, Htot. cbn. lia.
      * lia.
      * change (f :: fs ++ [g]) with ((f :: fs) ++ [g]). apply Forall_app. split; [done|].
        constructor; [by split|constructor].
  - rewrite of_run_other, app_nil_r by done. rewrite Hruns, lookup_insert_ne by done. exact Hk.
Qed.

Lemma header_is_new t gs l g r l' :
  remembers t gs l -> signed_fields recursion (g_header g) key (gp_alias p) (g_assertion g) ->
  t <= g_time g -> g_time g < ba_expires_at (g_assertion g) ->
  granted bounds (g_assertion g) (g_tokens g) (g_time g) l l' r -> g_header g ∉ map g_header gs.
Proof.
  intros HR Hs Ht Hx HG Hin. apply list_elem_of_In, in_map_iff in Hin as (g' & Hh & Hg').
  pose proof (proj1 (List.Forall_forall _ _) (rm_signed _ _ _ HR) g' Hg') as [Hs' _]. cbn in Hs'.
  rewrite Hh in Hs'. pose proof (signed_unique _ _ _ _ _ _ Hs Hs') as Ha.
  pose proof (proj1 (List.Forall_forall _ _) (rm_nonces _ _ _ HR) g' Hg') as Hn. cbn in Hn.
  rewrite <- Ha in Hn. pose proof (gr_fresh _ _ _ _ _ _ _ HG) as Hf.
  assert (gl_nonces (purge (g_time g) l) !! ba_nonce (g_assertion g)
    = Some (ba_expires_at (g_assertion g))) as Hp; [|congruence].
  apply lookup_purge_nonce. split; [apply Hn; lia|]. by apply Z.ltb_lt.
Qed.

Lemma remembers_grant t gs l body prepared g l' :
  remembers t gs l -> t <= g_time g ->
  prepare_request recursion key p bounds body (g_header g) (g_time g) l = (Ok prepared, l') ->
  grants body prepared g -> remembers (g_time g) (gs ++ [g]) l'.
Proof.
  intros HR Ht Hp [Hv Hm]. apply prepare_ok in Hp as (s & a & n & Hs & Ha & Hn & Hb & Hr & ->).
  assert (a = g_assertion g) as -> by congruence. apply verify_inv in Hv as [Hsig Hx].
  assert (n = g_tokens g) as ->.
  { enough (dict_get "max_tokens" (s ++ [("timeout", JInt (gp_timeout_seconds p));
      ("metadata", JDict [("civicloop_run_id", JStr (ba_run_id (g_assertion g)));
        ("civicloop_run_token_ceiling", JInt (ba_token_ceiling (g_assertion g)))])])
      = Some (JInt n)) by congruence.
    by rewrite dict_get_app, Hn. }
  apply reserve_granted in Hr as [r HG]. pose proof (remembers_later _ _ _ _ Ht HR) as HL.
  split.
  - apply Forall_app. split; [apply HL|]. constructor; [lia|constructor].
  - apply Forall_app. split; [apply HL|]. constructor; [split; [done|lia]|constructor].
  - intros run. eapply budget_kept_charge; [apply HL|lia|exact HG].
  - intros run r'. rewrite (gr_runs _ _ _ _ _ _ _ HG). intros [[<- <-]|[_ Hr']]%lookup_insert_Some.
    + cbn. pose proof (gr_row _ _ _ _ _ _ _ HG) as Hrow. unfold charged_row in Hrow.
      destruct (gl_runs (purge _ l) !! _) as [r0|] eqn:Hr0.
      * destruct Hrow as (-> & _). apply lookup_purge_run in Hr0 as [Hr0 _].
        by apply (rm_retained _ _ _ HR _ _ Hr0).
      * destruct Hrow as [-> _]. by eexists.
    + apply lookup_purge_run in Hr' as [Hr' _]. by apply (rm_retained _ _ _ HR _ _ Hr').
  - rewrite (gr_nonces _ _ _ _ _ _ _ HG). apply Forall_app. split.
    + eapply Forall_impl; [apply (rm_nonces _ _ _ HL)|]. cbn. intros g' Hg' Hlt.
      specialize (Hg' Hlt). rewrite lookup_insert_ne.
      * apply lookup_purge_nonce. split; [done|by apply Z.ltb_lt].
      * intros He. pose proof (gr_fresh _ _ _ _ _ _ _ HG) as Hf.
        assert (gl_nonces (purge (g_time g) l) !! ba_nonce (g_assertion g')
          = Some (ba_expires_at (g_assertion g'))) as Hq.
        { apply lookup_purge_nonce. split; [done|by apply Z.ltb_lt]. }
        rewrite <- He in Hq. congruence.
    + constructor; [|constructor]. intros _. by rewrite lookup_insert_eq.
  - rewrite map_app. apply NoDup_app. split_and!; [apply HR| |apply NoDup_singleton].
    intros h Hin ->%list_elem_of_singleton. revert Hin.
    eapply header_is_new; [done|done|done|lia|exact HG].
Qed.

Lemma restart_same l l' :
  (forall run r, gl_runs l !! run = Some r -> is_Some (rr_retain_until r)) ->
  open_ledger bounds l = Ok l' -> l' = l.
Proof.
  intros Hret H. unfold open_ledger in H. do 2 (apply bind_result_ok in H as (? & _ & H)).
  injection H as <-. destruct l as [runs nonces]. cbn in *. f_equal. apply map_eq. intros k.
  rewrite lookup_fmap. destruct (runs !! k) as [r|] eqn:Hr; [|done]. cbn. f_equal.
  destruct (Hret _ _ Hr) as [u Hu]. destruct r; cbn in *. by rewrite Hu.
Qed.

Lemma history_remembers t gs l : history t gs l -> remembers t gs l.
Proof.
  induction 1 as [t|t gs l body prepared g l' _ IH Ht Hp Hg|t gs l body header t' e l' _ IH Ht Hp
                 |t gs l l' _ IH Ho].
  - split; try constructor. intros run r Hr. cbn in Hr. by rewrite lookup_empty in Hr.
  - by eapply remembers_grant.
  - apply prepare_err in Hp as ->. by eapply remembers_later.
  - apply restart_same in Ho as ->; [done|]. apply IH.
Qed.


End history.

(** ** A concrete history *)

Definition d_key : list Z := Sha256.bytes_of_string "0123456789abcdef0123456789abcdef".
Definition d_policy : policy := GatewayPolicy "civicloop-default" 2000 60.
Definition d_bounds : ledger_bounds := LedgerBounds 10000 RUN_TOMBSTONE_RETENTION_SECONDS.
Definition d_header : string := Eval vm_compute in
  match issue_budget_assertion d_key "run-1" "civicloop-default" 1000 1300 "nonce-0123456789" with
  | Ok s => s
  | Err _ => ""
  end.
Definition d_assertion : assertion := BudgetAssertion "run-1" "civicloop-default" 1000 1300 "nonce-0123456789".
Definition d_body : list (string * json) :=
  [("model", JStr "civicloop-default");
   ("messages", JList [JDict [("role", JStr "user"); ("content", JStr "Draft the post.")]]);
   ("max_tokens", JInt 600)].
Definition d_run := prepare_request 50 d_key d_policy d_bounds d_body d_header 1100 (Ledger ∅ ∅).
Definition d_prepared : list (string * json) := Eval vm_compute in
  match d_run.1 with Ok s => s | Err _ => [] end.
Definition d_ledger : ledger := Eval vm_compute in d_run.2.
Definition d_grant : grant := Grant d_header d_assertion 600 1100.

Lemma d_run_ok : prepare_request 50 d_key d_policy d_bounds d_body d_header 1100 (Ledger ∅ ∅)
  = (Ok d_prepared, d_ledger).
Proof. vm_compute. reflexivity. Qed.

Lemma d_grants : grants 50 d_key d_policy d_body d_prepared d_grant.
Proof. split; vm_compute; reflexivity. Qed.

Lemma d_history : history 50 d_key d_policy d_bounds 1100 [d_grant] d_ledger.
Proof.
  apply (history_grant 50 d_key d_policy d_bounds 1100 [] (Ledger ∅ ∅) d_body d_prepared d_grant).
  - apply history_empty.
  - cbn. lia.
  - exact d_run_ok.
  - exact d_grants.
Qed.



End LedgerFacts.
