(* ===== verification/GatewayTheorems.v ===== *)
(** * The model gateway: what an admitted request is, and what may leave the gateway

    The structural limits are exact, tool schemas pass unchanged, tool calls are answered
    in order, an issued assertion verifies, a refused request spends nothing and a
    response carries no known secret. *)

From S2P Require Import Prelude PyValue Sha256 JsonText JsonTextTheorems JsonTree Base64 Gateway GatewayLedger.

Module RequestFacts.
Import JsonTree JsonText JsonFacts Gateway LedgerFacts.

(** ** Structural limits *)

(** The number of containers of a value. *)
Fixpoint containers (v : json) : Z :=
  match v with
  | JList l => 1 + sum (map containers l)
  | JDict d => 1 + sum (map (fun kv => containers kv.2) d)
  | _ => 0
  end.

Lemma containers_children v :
  containers v = match children v with Some l => 1 + sum (map containers l) | None => 0 end.
Proof. destruct v; try done. cbn. by rewrite map_map. Qed.

Lemma containers_nonneg v : 0 <= containers v.
Proof.
  induction v as [v IH] using children_ind. rewrite containers_children.
  destruct (children v) as [l|] eqn:Hc; [|done]. specialize (IH l eq_refl). clear Hc. induction IH as [|x l Hx _ IH]; cbn in *; lia.
Qed.

(** The loops over the children, as one function. *)
Fixpoint structure_all (md mc depth : Z) (l : list json) (n : Z) : R Z :=
  match l with
  | [] => Ok n
  | x :: l' => n' ← validate_json_structure md mc depth x n; structure_all md mc depth l' n'
  end.

Lemma validate_children md mc depth v n :
  validate_json_structure md mc depth v n =
    if md <? depth then Err (PolicyError "JSON depth is invalid")
    else match children v with
         | None => Ok n
         | Some l =>
             _ ← raise_if (mc <? n + 1) (PolicyError "JSON container count is invalid");
             structure_all md mc (depth + 1) l (n + 1)
         end.
Proof.
  destruct v as [| | | | |l|d]; try done; cbn; destruct (md <? depth); try done;
    destruct (mc <? n + 1); try done; cbn; generalize (n + 1); clear.
  - induction l as [|x l IH]; intros n; [done|]. cbn.
    destruct (validate_json_structure _ _ _ x n); cbn; [apply IH|done].
  - induction d as [|[k x] d IH]; intros n; [done|]. cbn.
    destruct (validate_json_structure _ _ _ x n); cbn; [apply IH|done].
Qed.

(** The verdict of the check, at depth [depth] with [n] containers already counted. *)
Definition verdict (within : bool) (count : Z) (r : R Z) : Prop :=
  if within then r = Ok count else exists m, r = Err (PolicyError m).

Lemma structure_all_verdict md mc depth l :
  Forall (fun v => forall depth n, n <= mc ->
    verdict ((depth + node_depth v <=? md) && (n + containers v <=? mc)) (n + containers v)
      (validate_json_structure md mc depth v n)) l ->
  forall n, n <= mc ->
  verdict (forallb (fun v => depth + node_depth v <=? md) l && (n + sum (map containers l) <=? mc))
    (n + sum (map containers l)) (structure_all md mc depth l n).
Proof.
  induction 1 as [|v l Hv Hl IH]; intros n Hn; cbn.
  - rewrite Z.add_0_r. apply Z.leb_le in Hn as ->. done.
  - specialize (Hv depth n Hn). pose proof (containers_nonneg v).
    pose proof (sum_of_nonneg containers l containers_nonneg).
    unfold verdict in Hv. destruct (_ <=? md) eqn:Hd; cbn [andb] in *.
    + destruct (Z.leb_spec (n + containers v) mc) as [Hc|Hc].
      * rewrite Hv. cbn. rewrite Z.add_assoc. by apply IH.
      * destruct Hv as [m ->]. cbn.
        destruct (Z.leb_spec (n + (containers v + sum (map containers l))) mc); [lia|].
        rewrite andb_false_r. by exists m.
    + destruct Hv as [m ->]. by exists m.
Qed.

Lemma structure_verdict md mc v : forall depth n, n <= mc ->
  verdict ((depth + node_depth v <=? md) && (n + containers v <=? mc)) (n + containers v)
    (validate_json_structure md mc depth v n).
Proof.
  induction v as [v IH] using children_ind. intros depth n Hn.
  rewrite validate_children, containers_children, node_depth_children.
  destruct (Z.ltb_spec md depth) as [Hd|Hd].
  - assert (0 <= match children v with Some l => deepest (map node_depth l) | None => 0 end)
      by (destruct (children v); [apply deepest_nonneg|done]).
    destruct (Z.leb_spec (depth + match children v with Some l => deepest (map node_depth l) | None => 0 end) md);
      [lia|]. cbn. by eexists.
  - destruct (children v) as [l|] eqn:Hl.
    + specialize (IH l eq_refl).
      rewrite deepest_within by done.
      destruct (Z.ltb_spec mc (n + 1)) as [Hc|Hc]; cbn.
      * pose proof (sum_of_nonneg containers l containers_nonneg).
        destruct (Z.leb_spec (n + (1 + sum (map containers l))) mc); [lia|].
        rewrite andb_false_r. by eexists.
      * rewrite Z.add_assoc.
        by apply structure_all_verdict.
    + rewrite !Z.add_0_r. apply Z.leb_le in Hd as ->, Hn as ->. done.
Qed.

(** The structural limits are exact: the check of a request body, a response or tool
    arguments accepts a value exactly when its deepest node and its number of lists and
    dicts are within the limits; it then returns that number, and otherwise it refuses
    with a policy error. *)
Theorem structure_limits_exact maximum_depth maximum_containers v :
  0 <= maximum_containers ->
  if (node_depth v <=? maximum_depth) && (containers v <=? maximum_containers)
  then validate_json_structure maximum_depth maximum_containers 0 v 0 = Ok (containers v)
  else exists m, validate_json_structure maximum_depth maximum_containers 0 v 0 = Err (PolicyError m).
Proof. intros H. apply (structure_verdict maximum_depth maximum_containers v 0 0 H). Qed.

(** ** Tool schemas *)

(** The entries of all the dicts of a value. *)
Fixpoint schema_keys (v : json) : Z :=
  match v with
  | JList l => sum (map schema_keys l)
  | JDict d => Z.of_nat (length d) + sum (map (fun kv => schema_keys kv.2) d)
  | _ => 0
  end.

(** What the leaves, lists and keys of a schema may be. *)
Fixpoint schema_value (v : json) : bool :=
  match v with
  | JStr s => slen s <=? 4096
  | JFloat f => is_finite f
  | JList l => (Z.of_nat (length l) <=? 128) && forallb schema_value l
  | JDict d => forallb (fun kv => SCHEMA_KEY_PATTERN kv.1 && schema_value kv.2) d
  | _ => true
  end.

Lemma schema_keys_nonneg v : 0 <= schema_keys v.
Proof.
  induction v as [|b|z|f|s|l IH|d IH] using json_rect_nested; cbn; try lia.
  - induction IH; cbn in *; lia.
  - assert (0 <= sum (map (fun kv => schema_keys kv.2) d)); [|lia]. induction IH; cbn in *; lia.
Qed.

(** Acceptance of one value at a depth, with [n] keys before it. *)
Definition schema_accepts (v : json) : Prop := forall depth n v' n',
  n <= MAX_SCHEMA_KEYS -> bounded_json_value depth v n = Ok (v', n') ->
  v' = v /\ n' = n + schema_keys v /\ n' <= MAX_SCHEMA_KEYS /\ depth + node_depth v <= MAX_SCHEMA_DEPTH /\
  schema_value v = true.

Lemma ltb_false a b : (a <? b) = false -> (b <=? a) = true.
Proof. intros H. bools. by apply Z.leb_le. Qed.

Lemma schema_bounded v : schema_accepts v.
Proof.
  induction v as [|b|z|f|s|l IH|d IH] using json_rect_nested; intros depth n v' n' Hn H;
    cbn [bounded_json_value] in H; destruct (Z.ltb_spec MAX_SCHEMA_DEPTH depth) as [|Hd]; try discriminate H.
  - injection H as <- <-. cbn. split_and!; [done|lia..|done].
  - injection H as <- <-. cbn. split_and!; [done|lia..|done].
  - injection H as <- <-. cbn. split_and!; [done|lia..|done].
  - destruct (is_finite f) eqn:Hf; [|discriminate H]. injection H as <- <-. cbn.
    split_and!; [done|lia..|done].
  - destruct (4096 <? slen s) eqn:Hs; [discriminate H|]. injection H as <- <-. cbn.
    apply ltb_false in Hs. split_and!; [done|lia..|done].
  - destruct (128 <? _) eqn:Hlen; [discriminate H|]. apply ltb_false in Hlen.
    apply bind_result_ok in H as ([l' m] & H & [= <- <-]). cbn [schema_value node_depth schema_keys fst snd].
    rewrite Hlen. cbn [andb]. clear Hlen. revert n Hn l' m H. 
    induction IH as [|x l Hx _ IH]; intros n Hn l' m H.
    + injection H as <- <-. cbn. split_and!; [done|lia..|done].
    + apply bind_result_ok in H as ([x' k] & Ha & H). apply bind_result_ok in H as ([l2 k2] & Hb & [= <- <-]).
      destruct (Hx _ _ _ _ Hn Ha) as (-> & -> & Hk & Hdx & Hvx). cbn [fst snd] in *.
      destruct (IH _ Hk _ _ Hb) as ([= ->] & -> & Hk2 & Hdl & Hvl). cbn [sum map deepest forallb].
      rewrite Hvx, Hvl. split_and!; [done|lia..|done].
  - apply bind_result_ok in H as ([d' m] & H & [= <- <-]). cbn [schema_value node_depth schema_keys fst snd].
    revert n Hn d' m H. induction IH as [|[key x] d Hx _ IH]; intros n Hn d' m H.
    + injection H as <- <-. cbn. split_and!; [done|lia..|done].
    + apply bind_result_ok in H as (? & Hkey%raise_if_inv & H).
      apply bind_result_ok in H as (? & Hcount%raise_if_inv & H).
      apply bind_result_ok in H as ([x' k] & Ha & H). apply bind_result_ok in H as ([d2 k2] & Hb & [= <- <-]).
      bools. cbn [snd] in Hx. destruct (Hx _ _ _ _ Hcount Ha) as (-> & -> & Hk & Hdx & Hvx). cbn [fst snd] in *.
      destruct (IH _ Hk _ _ Hb) as ([= ->] & -> & Hk2 & Hdl & Hvl). cbn [sum map deepest forallb fst snd length].
      rewrite Hvx, Hvl, Hkey. split_and!; [done|lia..|done].
Qed.

(** A tool schema reaches the model unchanged or not at all: an accepted schema is the
    one that was sent, its root is an object, it is at most eight levels deep with at most
    256 keys in all, every key, string, number and list is within its bound, and its JSON
    text is at most 16384 bytes. *)
Theorem schema_passes_unchanged value result :
  tool_schema value = Ok result ->
  result = value /\ node_depth value < MAX_SCHEMA_DEPTH /\ schema_keys value <= MAX_SCHEMA_KEYS /\
  schema_value value = true /\ payload_size value <= MAX_TOOL_SCHEMA_BYTES /\
  exists d, value = JDict d /\ py_eq (get_or_none d "type") (JStr "object") = true.
Proof.
  unfold tool_schema. destruct value as [| | | | | |d]; try done. intros H.
  apply bind_result_ok in H as ([v n] & Hv & H).
  apply bind_result_ok in H as (? & Hroot%raise_if_inv & H).
  apply bind_result_ok in H as (? & Hsize%raise_if_inv & [= <-]). cbn [fst snd] in *.
  apply schema_bounded in Hv as (-> & -> & ? & ? & ?); [|done]. bools.
  split_and!; [done|lia..|done|lia|]. by exists d.
Qed.

(** ** Conversations *)

Section conversation.
Context (recursion : nat) (declared : gset string).

Record call := Call { c_id : string; c_name : string; c_arguments : string }.

(** The turns of a conversation: a message, or an assistant's calls with one result each. *)
Inductive turn :=
| Say (role : string) (content : string)
| Calls (content : json) (calls : list call) (results : list string).

Definition call_json (c : call) : json :=
  JDict [("id", JStr (c_id c)); ("type", JStr "function");
         ("function", JDict [("name", JStr (c_name c)); ("arguments", JStr (c_arguments c))])].
Definition result_json (c : call) (content : string) : json :=
  JDict [("role", JStr "tool"); ("tool_call_id", JStr (c_id c)); ("content", JStr content)].
Definition calls_json (content : json) (calls : list call) : json :=
  JDict [("role", JStr "assistant"); ("content", content); ("tool_calls", JList (map call_json calls))].

Definition render (t : turn) : list json :=
  match t with
  | Say role content => [JDict [("role", JStr role); ("content", JStr content)]]
  | Calls content calls results => calls_json content calls :: zip_with result_json calls results
  end.

Definition turn_ids (t : turn) : list string :=
  match t with Say _ _ => [] | Calls _ calls _ => map c_id calls end.

(** The arguments of a call are the text of a dict within the limits. *)
Definition call_ok (c : call) : Prop :=
  c_name c ∈ declared /\ TOOL_CALL_ID_PATTERN (c_id c) = true /\
  exists d, c_arguments c = json_dumps false false (JDict d) /\
    node_depth (JDict d) <= MAX_TOOL_ARGUMENT_DEPTH /\ containers (JDict d) <= MAX_TOOL_ARGUMENT_CONTAINERS.

Definition turn_ok (t : turn) : Prop :=
  match t with
  | Say role content => role ∈ ["system"; "user"; "assistant"] /\ slen content <= 32768
  | Calls content calls results =>
      (content = JNull \/ exists text, content = JStr text /\ slen text <= 32768) /\
      length results = length calls /\ 1 <= Z.of_nat (length calls) <= MAX_TOOL_CALLS /\
      Forall call_ok calls /\ Forall (fun r => slen r <= 32768) results
  end.

Definition transcript (ts : list turn) : list json := concat (map render ts).
Definition ids (ts : list turn) : list string := concat (map turn_ids ts).

Lemma transcript_snoc ts t : transcript (ts ++ [t]) = transcript ts ++ render t.
Proof. unfold transcript. rewrite map_app, concat_app. cbn. by rewrite app_nil_r. Qed.

Lemma ids_snoc ts t : ids (ts ++ [t]) = ids ts ++ turn_ids t.
Proof. unfold ids. rewrite map_app, concat_app. cbn. by rewrite app_nil_r. Qed.

(** *** One call *)

Lemma member_of_ok v names b : member_of v names = Ok b ->
  b = true -> exists s, v = JStr s /\ s ∈ names.
Proof.
  unfold member_of. destruct (hashable v); [|done]. intros [= <-] Hb.
  destruct v; try done. bools. eauto.
Qed.

Lemma tool_arguments_ok v text : tool_arguments recursion v = Ok text ->
  exists d, text = json_dumps false false (JDict d) /\
    node_depth (JDict d) <= MAX_TOOL_ARGUMENT_DEPTH /\ containers (JDict d) <= MAX_TOOL_ARGUMENT_CONTAINERS.
Proof.
  unfold tool_arguments. destruct v as [| | | |t| |]; try done. intros H.
  apply bind_result_ok in H as (? & _ & H). apply bind_result_ok in H as (w & _ & H).
  apply bind_result_ok in H as (k & Hk & H). destruct w as [| | | | | |d]; try discriminate H.
  apply bind_result_ok in H as (? & _ & [= <-]). exists d.
  pose proof (structure_limits_exact MAX_TOOL_ARGUMENT_DEPTH MAX_TOOL_ARGUMENT_CONTAINERS (JDict d)
    ltac:(done)) as Hs. destruct (_ && _) eqn:E; [by bools|]. destruct Hs as [m Hm]. congruence.
Qed.

Lemma tool_call_ok seen v r id : tool_call recursion declared seen v = Ok (r, id) ->
  exists c, r = call_json c /\ id = c_id c /\ (id ∉ seen) /\ call_ok c.
Proof.
  unfold tool_call. destruct v as [| | | | | |d]; try done. intros H.
  result_step H. destruct (get_or_none d "id") as [| | | |call_id| |]; try discriminate H.
  do 3 result_step H. destruct (get_or_none d "function") as [| | | | | |f]; try discriminate H.
  result_step H. apply bind_result_ok in H as (known & Hm & H). result_step H.
  apply bind_result_ok in H as (arguments & Ha & [= <- <-]). bools.
  destruct (member_of_ok _ _ _ Hm) as (name & Hname & Hin); [done|].
  apply tool_arguments_ok in Ha. exists (Call call_id name arguments). rewrite Hname. by split_and!.
Qed.

(** *** The calls of one message *)

Lemma calls_ok calls : forall acc ids0 seen r ids1 seen',
  fold_result (call_step recursion declared) (acc, ids0, seen) calls = Ok (r, ids1, seen') ->
  exists cs, r = acc ++ map call_json cs /\ ids1 = ids0 ++ map c_id cs /\
    seen' = list_to_set (map c_id cs) ∪ seen /\ NoDup (map c_id cs) /\
    (forall i, i ∈ map c_id cs -> i ∉ seen) /\ Forall call_ok cs /\ length cs = length calls.
Proof.
  induction calls as [|v calls IH]; intros acc ids0 seen r ids1 seen' H; cbn in H.
  - injection H as <- <- <-. exists []. cbn. rewrite !app_nil_r.
    split_and!; [done|done|set_solver|constructor| |constructor|done].
    intros i Hi. by apply not_elem_of_nil in Hi.
  - apply bind_result_ok in H as ([[acc1 ids2] seen2] & H1 & H). unfold call_step in H1.
    apply bind_result_ok in H1 as ([j i] & Hc & [= <- <- <-]). cbn [fst snd] in *.
    apply tool_call_ok in Hc as (c & -> & -> & Hnew & Hok).
    apply IH in H as (cs & -> & -> & -> & Hnd & Hfresh & Hall & Hlen). exists (c :: cs). cbn.
    rewrite <- !app_assoc. split_and!; [done|done|set_solver| | |by constructor|lia].
    + constructor; [|done]. intros Hin. apply (Hfresh _ Hin). set_solver.
    + intros i Hi. apply elem_of_cons in Hi as [->|Hi]; [done|]. intros Hs. apply (Hfresh _ Hi). set_solver.
Qed.

(** *** The loop over the messages *)

(** The calls that still wait for a result. *)
Inductive waiting (ts : list turn) : message_state -> Prop :=
| nothing_open :
    waiting ts (MessageState (transcript ts) (list_to_set (ids ts)) (list_to_set (ids ts)) [])
| calls_open content done_calls open results :
    turn_ok (Calls content (done_calls ++ open) (results ++ map (fun _ => "") open)) ->
    length results = length done_calls -> open <> [] ->
    NoDup (ids ts ++ map c_id (done_calls ++ open)) ->
    waiting ts (MessageState
      (transcript ts ++ calls_json content (done_calls ++ open) :: zip_with result_json done_calls results)
      (list_to_set (ids ts ++ map c_id (done_calls ++ open)))
      (list_to_set (ids ts ++ map c_id done_calls)) (map c_id open)).

Definition loop_state (st : message_state) : Prop :=
  exists ts, Forall turn_ok ts /\ NoDup (ids ts) /\ waiting ts st.

Lemma bounded_string_ok nullable v label n w : bounded_string nullable v label n = Ok w ->
  (w = JNull /\ nullable = true) \/ exists s, w = JStr s /\ slen s <= n.
Proof.
  unfold bounded_string. destruct v; try done.
  - destruct nullable; [|done]. intros [= <-]. by left.
  - destruct (n <? _) eqn:E; [done|]. intros [= <-]. bools. right. eauto.
Qed.

Lemma ids_list_to_set ts t :
  @list_to_set string (gset string) _ _ _ (ids (ts ++ [t])) = list_to_set (turn_ids t) ∪ list_to_set (ids ts).
Proof. rewrite ids_snoc, list_to_set_app_L. set_solver. Qed.

Lemma say_step ts role content :
  Forall turn_ok ts -> NoDup (ids ts) -> role ∈ ["system"; "user"; "assistant"] -> slen content <= 32768 ->
  loop_state (MessageState (transcript ts ++ [JDict [("role", JStr role); ("content", JStr content)]])
                (list_to_set (ids ts)) (list_to_set (ids ts)) []).
Proof.
  intros Hts Hnd Hr Hc. exists (ts ++ [Say role content]).
  assert (ids (ts ++ [Say role content]) = ids ts) as Hi by (rewrite ids_snoc; apply app_nil_r).
  split_and!.
  - apply Forall_app. split; [done|]. constructor; [by split|constructor].
  - by rewrite Hi.
  - pose proof (nothing_open (ts ++ [Say role content])) as H. by rewrite Hi, transcript_snoc in H.
Qed.

Lemma assistant_step ts message st' :
  Forall turn_ok ts -> NoDup (ids ts) ->
  assistant_message recursion declared
    (MessageState (transcript ts) (list_to_set (ids ts)) (list_to_set (ids ts)) []) message = Ok st' ->
  loop_state st'.
Proof.
  intros Hts Hnd H. unfold assistant_message in H. cbn [ms_result ms_seen ms_resolved ms_pending] in H.
  apply bind_result_ok in H as (? & _ & H). apply bind_result_ok in H as (calls & Hcalls & H).
  apply bind_result_ok in H as (content & Hcontent%bounded_string_ok & H).
  apply bind_result_ok in H as (? & Hsome%raise_if_inv & H).
  assert (calls = [] \/ 1 <= Z.of_nat (length calls) <= MAX_TOOL_CALLS) as Hlen.
  { destruct (get_or_none message "tool_calls") as [| | | | |l|]; try discriminate Hcalls.
    - injection Hcalls as <-. by left.
    - apply bind_result_ok in Hcalls as (? & Hl%raise_if_inv & [= <-]). right. bools. lia. }
  destruct calls as [|v calls].
  - destruct Hcontent as [[-> _]|(text & -> & Htext)]; [discriminate Hsome|].
    injection H as <-. apply say_step; try done. set_solver.
  - apply bind_result_ok in H as ([[rebuilt call_ids] seen] & Hloop & [= <-]).
    apply calls_ok in Hloop as (cs & -> & -> & -> & Hcs & Hnew & Hok & Hl). cbn [app].
    destruct Hlen as [|Hlen]; [done|]. destruct cs as [|c cs]; [done|].
    exists ts. split_and!; try done.
    assert (turn_ok (Calls content ([] ++ c :: cs) ([] ++ map (fun _ => "") (c :: cs)))) as Hturn.
    { cbn [app turn_ok]. split_and!.
      - destruct Hcontent as [[-> _]|?]; [by left|by right].
      - by rewrite length_map.
      - rewrite Hl. lia.
      - rewrite Hl. lia.
      - done.
      - apply Forall_map. by apply Forall_true. }
    assert (NoDup (ids ts ++ map c_id ([] ++ c :: cs))) as Hall.
    { apply NoDup_app. split_and!; [done| |done]. intros i Hi Hi'. apply (Hnew i Hi'). set_solver. }
    pose proof (calls_open ts content [] (c :: cs) [] Hturn eq_refl ltac:(done) Hall) as Hw.
    rewrite app_nil_r in Hw. cbn [app zip_with] in Hw.
    rewrite list_to_set_app_L, (union_comm_L (list_to_set (ids ts))) in Hw. exact Hw.
Qed.

Lemma tool_step_waiting ts st message st' :
  Forall turn_ok ts -> NoDup (ids ts) -> waiting ts st -> tool_message st message = Ok st' ->
  loop_state st'.
Proof.
  intros Hts Hnd Hw H. unfold tool_message in H. apply bind_result_ok in H as (? & _ & H).
  destruct (get_or_none message "tool_call_id") as [| | | |id| |]; try discriminate H.
  apply bind_result_ok in H as (? & _ & H).
  destruct Hw as [|content done_calls open results Hturn Hlen Hopen Hall];
    cbn [ms_result ms_seen ms_resolved ms_pending] in H; [done|].
  destruct open as [|c open]; [done|]. cbn [map] in H.
  apply bind_result_ok in H as (? & Hid%raise_if_inv & H). apply bind_result_ok in H as (? & _ & H).
  apply bind_result_ok in H as (text & Htext%bounded_string_ok & [= <-]).
  destruct Htext as [[_ ?]|(reply & -> & Hreply)]; [done|]. bools. subst id.
  change (done_calls ++ c :: open) with (done_calls ++ [c] ++ open) in *. rewrite app_assoc in *.
  assert (turn_ok (Calls content ((done_calls ++ [c]) ++ open) ((results ++ [reply]) ++ map (fun _ => "") open)))
    as Hturn'.
  { cbn [turn_ok map] in *. destruct Hturn as (? & Hl & ? & ? & Hr). split_and!; try done; try lia.
    - rewrite !length_app, length_map in *. cbn in *. rewrite length_map in Hl. lia.
    - apply Forall_app in Hr as [Hr _]. rewrite !Forall_app. split_and!; [done| |].
      + by constructor.
      + apply Forall_map. by apply Forall_true. }
  assert (zip_with result_json (done_calls ++ [c]) (results ++ [reply])
    = zip_with result_json done_calls results ++ [result_json c reply]) as Hzip.
  { by rewrite zip_with_app by done. }
  assert (@list_to_set string (gset string) _ _ _ (ids ts ++ map c_id (done_calls ++ [c]))
    = {[c_id c]} ∪ list_to_set (ids ts ++ map c_id done_calls)) as Hres.
  { rewrite map_app. cbn [map]. rewrite !list_to_set_app_L. set_solver. }
  assert (length (results ++ [reply]) = length (done_calls ++ [c])) as Hlen'
    by (rewrite !length_app; cbn; lia).
  destruct open as [|c' open].
  - rewrite app_nil_r in *. exists (ts ++ [Calls content (done_calls ++ [c]) (results ++ [reply])]).
    rewrite app_nil_r in Hturn'. split_and!.
    + apply Forall_app. split; [done|]. constructor; [done|constructor].
    + by rewrite ids_snoc.
    + pose proof (nothing_open (ts ++ [Calls content (done_calls ++ [c]) (results ++ [reply])])) as Hw.
      rewrite ids_snoc, transcript_snoc in Hw. cbn [turn_ids render] in Hw. rewrite Hzip in Hw.
      rewrite Hres in Hw at 2. rewrite app_comm_cons, app_assoc in Hw. exact Hw.
  - exists ts. split_and!; try done.
    pose proof (calls_open ts content (done_calls ++ [c]) (c' :: open) (results ++ [reply])
      Hturn' Hlen' ltac:(done) Hall) as Hw.
    rewrite Hzip, Hres in Hw. rewrite app_comm_cons, app_assoc in Hw. exact Hw.
Qed.

Lemma message_step_ok st v st' :
  loop_state st -> message_step recursion declared st v = Ok st' -> loop_state st'.
Proof.
  intros (ts & Hts & Hnd & Hw) H. unfold message_step in H.
  destruct v as [| | | | | |message]; try done.
  apply bind_result_ok in H as (? & Hpend%raise_if_inv & H).
  apply bind_result_ok in H as (plain & Hplain & H). destruct plain.
  - destruct (member_of_ok _ _ _ Hplain eq_refl) as (role & Hrole & Hin). rewrite Hrole in *.
    destruct Hw as [|content done_calls open results].
    + unfold plain_message in H. cbn [ms_result ms_seen ms_resolved ms_pending] in H.
      apply bind_result_ok in H as (? & _ & H).
      apply bind_result_ok in H as (text & [[_ ?]|(s & -> & Hs)]%bounded_string_ok & [= <-]); [done|].
      apply say_step; try done. set_solver.
    + destruct open as [|c open]; [done|]. cbn in Hpend. bools. subst. set_solver.
  - destruct (py_eq (get_or_none message "role") (JStr "assistant")) eqn:Ha.
    + apply py_eq_str in Ha. rewrite Ha in *. destruct Hw as [|content done_calls open results].
      * by eapply assistant_step.
      * by destruct open as [|c open].
    + destruct (py_eq _ _); [|done]. by eapply tool_step_waiting.
Qed.

(** Every tool call is answered exactly once and in order: an accepted conversation is a
    sequence of turns in which each message of tool calls is followed at once by its
    results, one for each call and in the order of the calls, and by nothing else; call IDs
    never repeat, every call names a declared tool, its arguments are the text of a dict
    within the limits, and the whole payload is within its bound. *)
Theorem tool_calls_answered_in_order value result :
  messages recursion declared value = Ok result ->
  exists turns, result = transcript turns /\ Forall turn_ok turns /\ NoDup (ids turns) /\
    payload_size (JList result) <= MAX_MESSAGE_PAYLOAD_BYTES.
Proof.
  intros H. unfold messages in H. destruct value as [| | | | |l|]; try done.
  apply bind_result_ok in H as (? & _ & H). apply bind_result_ok in H as (st & Hloop & H).
  apply bind_result_ok in H as (? & Hall%raise_if_inv & H).
  apply bind_result_ok in H as (? & Hsize%raise_if_inv & [= <-]). bools.
  assert (loop_state st) as (ts & Hts & Hnd & Hw).
  { assert (loop_state (MessageState [] ∅ ∅ [])) as H0.
    { exists []. split_and!; [constructor|constructor|apply (nothing_open [])]. }
    revert H0 Hloop. clear. generalize (MessageState [] ∅ ∅ []) as st0.
    induction l as [|v l IH]; intros st0 H0 Hl; [by injection Hl as <-|].
    cbn in Hl. apply bind_result_ok in Hl as (st1 & H1 & Hl). eapply IH; [|exact Hl].
    by eapply message_step_ok. }
  exists ts. destruct Hw as [|content done_calls open results _ _ Hopen Hall'].
  - by split_and!.
  - exfalso. cbn in Hall. destruct open as [|c open]; [done|].
    assert (c_id c ∈ ids ts ++ map c_id done_calls) as Hin.
    { apply (elem_of_list_to_set (C := gset string)). rewrite <- Hall.
      apply elem_of_list_to_set. rewrite map_app. set_solver. }
    rewrite map_app, app_assoc in Hall'. apply NoDup_app in Hall' as (_ & Hx & _).
    apply (Hx _ Hin). cbn. set_solver.
Qed.

End conversation.

(** ** The sanitised request *)

Lemma optional_ok body field f l :
  optional_field body field f = Ok l ->
  map fst l = (if dict_mem field body then [field] else []) /\
  (forall k, k <> field -> dict_get k l = None) /\
  (forall w, dict_get field l = Some w -> exists v, dict_get field body = Some v /\ f v = Ok w).
Proof.
  unfold optional_field, dict_mem. destruct (dict_get field body) as [v|].
  - intros H. apply bind_result_ok in H as (w & Hw & [= <-]). split_and!; [done| |].
    + intros k Hk. cbn. by apply String.eqb_neq in Hk as ->.
    + cbn. rewrite String.eqb_refl. intros ? [= <-]. eauto.
  - intros [= <-]. by split_and!.
Qed.

Lemma filter_cons_app {A : Type} (f : A -> bool) x l :
  List.filter f (x :: l) = (if f x then [x] else []) ++ List.filter f l.
Proof. cbn. by destruct (f x). Qed.

Definition OPTIONAL_FIELDS : list string :=
  ["tools"; "tool_choice"; "temperature"; "top_p"; "seed"; "stop"; "response_format"].

(** The bounds of one field of the request that is sent on. *)
Definition field_within (recursion : nat) (p : policy) (field : string) (v : json) : Prop :=
  (field = "model" -> v = JStr (gp_alias p)) /\
  (field = "max_tokens" -> exists n, v = JInt n /\ 1 <= n <= gp_max_tokens p) /\
  (field = "temperature" -> exists x, v = JFloat x /\ float_leb (float_of_Z 0) x = true
                            /\ float_leb x (float_of_Z 2) = true) /\
  (field = "top_p" -> exists x, v = JFloat x /\ float_leb (float_of_Z 0) x = true
                      /\ float_leb x (float_of_Z 1) = true) /\
  (field = "seed" -> exists n, v = JInt n /\ Z.abs n <= 2 ^ 31 - 1) /\
  (field = "stop" -> exists l, v = JList l /\ (1 <= length l <= 4)%nat /\
     Forall (fun x => exists t, x = JStr t /\ slen t <= 256) l) /\
  (field = "messages" -> exists l, v = JList l /\ payload_size v <= MAX_MESSAGE_PAYLOAD_BYTES) /\
  (field = "tools" -> exists l, v = JList l /\ (1 <= length l <= 8)%nat
                      /\ payload_size v <= MAX_TOOL_PAYLOAD_BYTES).

Lemma bounded_number_ok v label lo hi w :
  (JFloat <$> bounded_number v label lo hi) = Ok w ->
  exists x, w = JFloat x /\ float_leb (float_of_Z lo) x = true /\ float_leb x (float_of_Z hi) = true.
Proof.
  intros H. destruct (bounded_number v label lo hi) as [x|] eqn:Hb; [|done]. injection H as <-.
  exists x. split; [done|]. unfold bounded_number in Hb. apply bind_result_ok in Hb as (y & _ & Hb).
  destruct (_ && _) eqn:E; [|done]. injection Hb as <-. by apply andb_true_iff in E.
Qed.

Lemma stop_values_ok v w : (JList <$> stop_values v) = Ok w ->
  exists l, w = JList l /\ (1 <= length l <= 4)%nat /\ Forall (fun x => exists t, x = JStr t /\ slen t <= 256) l.
Proof.
  intros H. destruct (stop_values v) as [l|] eqn:Hs; [|done]. injection H as <-. exists l. split; [done|].
  unfold stop_values in Hs. destruct (match v with JStr _ => _ | _ => _ end) as [| | | | |l'|]; try discriminate Hs.
  apply bind_result_ok in Hs as (? & Hc%raise_if_inv & [= <-]). apply orb_false_iff in Hc as [Hlen Hall].
  bools. split; [lia|]. clear -Hall. induction l' as [|x l IH]; [constructor|]. cbn in Hall.
  apply orb_false_iff in Hall as [Hx Hl]. constructor; [|by apply IH].
  destruct x; try done. bools. eauto.
Qed.

Lemma fold_tools l : forall acc r, fold_result tool_step acc l = Ok r ->
  length r.1 = (length acc.1 + length l)%nat.
Proof.
  induction l as [|t l IH]; intros acc r H; cbn in H; [injection H as <-; cbn; lia|].
  apply bind_result_ok in H as (acc' & Ht & H). apply IH in H as ->. unfold tool_step in Ht.
  apply bind_result_ok in Ht as (? & _ & [= <-]). cbn. rewrite length_app. cbn. lia.
Qed.

Lemma tools_ok v r : tools v = Ok r ->
  (1 <= length r.1 <= 8)%nat /\ payload_size (JList r.1) <= MAX_TOOL_PAYLOAD_BYTES.
Proof.
  unfold tools. destruct v as [| | | | |l|]; try done. intros H.
  apply bind_result_ok in H as (? & Hlen%raise_if_inv & H). apply bind_result_ok in H as (r' & Hr & H).
  apply bind_result_ok in H as (? & Hs%raise_if_inv & [= <-]). apply fold_tools in Hr. cbn in Hr.
  bools. unfold MAX_TOOLS in *. lia.
Qed.

(** Only bounded, known fields are sent on: a request is refused if it has any field
    outside the allow list or asks for a stream; what is sent has the model alias, the
    messages, a token limit within the policy, and exactly those of the seven optional
    fields that the request has, each within its bound. *)
Theorem sanitized_request_bounded recursion body p s :
  sanitize_request recursion body p = Ok s ->
  (forall k, In k (map fst body) -> k ∈ ALLOWED_REQUEST_FIELDS) /\
  (dict_get "stream" body = None \/ dict_get "stream" body = Some (JBool false)) /\
  map fst s = ["model"; "messages"; "max_tokens"] ++ List.filter (fun f => dict_mem f body) OPTIONAL_FIELDS /\
  forall field v, dict_get field s = Some v -> field_within recursion p field v.
Proof.
  unfold sanitize_request. intros H. apply bind_result_ok in H as ([] & Hk & H).
  apply bind_result_ok in H as (? & _ & H). apply bind_result_ok in H as (declared & Hd & H).
  apply bind_result_ok in H as (msgs & Hm & H).
  apply bind_result_ok in H as (n & [_ Hn]%positive_integer_ok & H).
  apply bind_result_ok in H as (choice & [Kc [Oc _]]%optional_ok & H).
  apply bind_result_ok in H as (? & Hstream%raise_if_inv & H).
  apply bind_result_ok in H as (temperature & [Kt [Ot Vt]]%optional_ok & H).
  apply bind_result_ok in H as (top_p & [Kp [Op Vp]]%optional_ok & H).
  apply bind_result_ok in H as (seed & [Ks [Os Vs]]%optional_ok & H).
  apply bind_result_ok in H as (stop & [Ko [Oo Vo]]%optional_ok & H).
  apply bind_result_ok in H as (format & [Kf [Of _]]%optional_ok & H). apply Ok_inj in H as <-.
  set (declared_part := match declared with Some t => [("tools", JList t.1)] | None => [] end) in *.
  assert (map fst declared_part = if dict_mem "tools" body then ["tools"] else []) as Kd.
  { subst declared_part. unfold dict_mem. destruct (dict_get "tools" body).
    - apply bind_result_ok in Hd as (t & _ & [= <-]). done.
    - by injection Hd as <-. }
  split_and!.
  - intros k Hin. destruct (List.filter _ (map fst body)) eqn:Hf; [|discriminate Hk].
    destruct (decide (k ∈ ALLOWED_REQUEST_FIELDS)) as [|Hno]; [done|exfalso].
    assert (In k []) as []. rewrite <- Hf. apply filter_In. split; [done|].
    by rewrite bool_decide_eq_false_2.
  - destruct (dict_get "stream" body) as [[| [] | | | | |]|]; auto; discriminate Hstream.
  - rewrite !map_app, Kd, Kc, Kt, Kp, Ks, Ko, Kf. unfold OPTIONAL_FIELDS.
    by rewrite !filter_cons_app, app_nil_r.
  - intros field v Hv.
    assert (forall k, k <> "tools" -> dict_get k declared_part = None) as Od.
    { intros k Hk'. subst declared_part. destruct declared; [|done]. cbn.
      by apply String.eqb_neq in Hk' as ->. }
    rewrite !dict_get_app in Hv. unfold field_within.
    split_and!; intros ->; rewrite ?Od, ?Oc, ?Ot, ?Op, ?Os, ?Oo, ?Of in Hv by done; cbn in Hv.
    + congruence.
    + exists n. split; [congruence|done].
    + destruct (dict_get "temperature" temperature) as [w|] ; [|done]. injection Hv as <-.
      destruct (Vt _ eq_refl) as (y & _ & Hx). by apply bounded_number_ok in Hx.
    + destruct (dict_get "top_p" top_p) as [w|] ; [|done]. injection Hv as <-.
      destruct (Vp _ eq_refl) as (y & _ & Hx). by apply bounded_number_ok in Hx.
    + destruct (dict_get "seed" seed) as [w|] ; [|done]. injection Hv as <-.
      destruct (Vs _ eq_refl) as (y & _ & Hx). destruct y as [| |z| | | |]; try discriminate Hx.
      destruct (_ <? _) eqn:Hz in Hx; [discriminate Hx|]. injection Hx as <-. bools. by exists z.
    + destruct (dict_get "stop" stop) as [w|] ; [|done]. injection Hv as <-.
      destruct (Vo _ eq_refl) as (y & _ & Hx). by apply stop_values_ok in Hx.
    + exists msgs. injection Hv as <-. split; [done|].
      apply tool_calls_answered_in_order in Hm as (_ & _ & _ & _ & Hm). exact Hm.
    + subst declared_part. destruct declared as [t|]; cbn in Hv; [|done]. injection Hv as <-.
      exists t.1. split; [done|]. destruct (dict_get "tools" body); [|discriminate Hd].
      apply bind_result_ok in Hd as (t' & Ht & [= <-]). exact (tools_ok _ _ Ht).
Qed.

(** ** An issued assertion verifies *)

Lemma forallb_bytes f g s : (forall c, g c = true -> f (ascii_code c) = true) ->
  string_forallb g s = true -> forallb f (Sha256.bytes_of_string s) = true.
Proof.
  intros H. unfold Sha256.bytes_of_string. induction s as [|c s IH]; cbn; [done|].
  intros Hs. apply andb_true_iff in Hs as [Hc Hs]. by rewrite H, IH.
Qed.

Lemma text_is_bytes s : string_forallb text_char s = true ->
  forallb Sha256.is_byte (Sha256.bytes_of_string s) = true /\
  forallb (fun b => (0 <? b) && (b <=? 127)) (Sha256.bytes_of_string s) = true.
Proof.
  intros H. split; (eapply forallb_bytes; [|exact H]); [|done]. unfold text_char, Sha256.is_byte.
  intros c Hc. bools. destruct (Z.leb_spec 0 (ascii_code c)), (Z.leb_spec (ascii_code c) 255); cbn; lia.
Qed.

Lemma split_no_dot s : has_char 46 s = false -> split_dot s = [s].
Proof.
  unfold has_char. induction s as [|c s IH]; cbn; [done|]. intros H. bools. rewrite IH.
  - destruct (is_char 46 c); [done|done].
  - by apply negb_false_iff.
Qed.

Lemma split_dot_app a b : has_char 46 a = false -> has_char 46 b = false ->
  split_dot (a +:+ "." +:+ b) = [a; b].
Proof.
  intros Ha Hb. apply split_no_dot in Hb. unfold has_char in Ha.
  rewrite (sapp_cons "."), sapp_nil. induction a as [|c a IH]; rewrite ?sapp_nil, ?sapp_cons.
  - cbn. by rewrite Hb.
  - cbn [string_forallb split_dot] in *. bools. rewrite IH by (by apply negb_false_iff).
    by destruct (is_char 46 c).
Qed.

Lemma ascii_only_sub f s : (forall c, f c = true -> (ascii_code c <=? 127) = true) ->
  string_forallb f s = true -> ascii_only s = true.
Proof.
  intros H. induction s as [|c s IH]; cbn; [done|]. intros Hs. apply andb_true_iff in Hs as [Hc Hs].
  unfold ascii_only in *. by rewrite H, IH.
Qed.

Lemma alnum_ascii c : is_alnum c = true -> (ascii_code c <=? 127) = true.
Proof.
  unfold is_alnum, is_upper, is_lower, is_digit, in_range. intros H. apply Z.leb_le.
  repeat (apply orb_true_iff in H as [H|H]); bools; lia.
Qed.

Lemma class_ascii extra c : ascii_only extra = true ->
  is_alnum c || one_of extra c = true -> (ascii_code c <=? 127) = true.
Proof.
  intros Hx H. apply orb_true_iff in H as [H|H]; [by apply alnum_ascii|].
  unfold one_of, has_char in H. apply negb_true_iff in H. unfold ascii_only in Hx.
  induction extra as [|d extra IH]; [done|]. cbn in *. apply andb_true_iff in Hx as [Hd Hx].
  apply andb_false_iff in H as [H|H]; [|by apply IH].
  apply negb_false_iff in H. unfold is_char in H. bools. apply Z.leb_le. lia.
Qed.

Lemma pattern_ascii extra lo hi s : ascii_only extra = true ->
  fullmatch_class is_alnum (fun c => is_alnum c || one_of extra c) lo hi s = true -> ascii_only s = true.
Proof.
  intros Hx H. destruct s as [|c s]; [done|]. cbn in H. bools. cbn. rewrite alnum_ascii by done.
  eapply ascii_only_sub; [|eassumption]. intros d Hd. by eapply class_ascii.
Qed.

Lemma assertion_round_trip recursion key run_id alias ceiling expires_at nonce value now :
  issue_budget_assertion key run_id alias ceiling expires_at nonce = Ok value ->
  (1 <= recursion)%nat -> 0 <= expires_at < 10 ^ 12 -> now < expires_at <= now + 300 ->
  verify_budget_assertion recursion value key alias now =
    Ok (BudgetAssertion run_id alias ceiling expires_at nonce).
Proof.
  intros H Hrec Hexp Hnow. unfold issue_budget_assertion in H. do 5 result_step H. apply Ok_inj in H as <-.
  bools. set (v := assertion_payload run_id alias ceiling expires_at nonce) in *.
  assert (plain v = true) as Hplain.
  { subst v. cbn [plain assertion_payload forallb fst snd]. unfold RUN_ID_PATTERN, NONCE_PATTERN in *.
    rewrite !(pattern_ascii "_.:-" 0 127) by done. rewrite (pattern_ascii "_-" 15 127) by done.
    assert (forall z, 0 <= z < 10 ^ 12 -> (slen (str_of_Z (Z.abs z)) <=? MAX_STR_DIGITS) = true) as Hlen.
    { intros z Hz. rewrite Z.abs_eq by lia. apply Z.leb_le.
      pose proof (str_of_Z_len z 12 ltac:(lia) Hz). unfold MAX_STR_DIGITS. lia. }
    rewrite !Hlen by lia. reflexivity. }
  assert (json_dumps true true v = json_dumps true false (sort_deep v)) as Hsorted by apply dumps_sorted_deep.
  assert (string_forallb text_char (json_dumps true true v) = true) as Htext.
  { rewrite Hsorted. apply dumps_text. by rewrite sorted_plain. }
  destruct (text_is_bytes _ Htext) as [Hbytes Hascii].
  set (payload := Sha256.bytes_of_string (json_dumps true true v)) in *.
  assert (loads_bytes recursion payload = Ok (sort_deep v)) as Hloads.
  { unfold loads_bytes. rewrite Hascii. subst payload. rewrite string_of_bytes_of_string.
    by apply (loads_dumps recursion true true v). }
  unfold verify_budget_assertion. destruct (Z.ltb_spec (Z.of_nat (length key)) 32); [lia|].
  cbn [raise_if mbind result_bind].
  rewrite split_dot_app by (apply Base64.encode_no_dot; [done || apply Sha256.hmac_bytes]).
  unfold b64decode. rewrite !Base64.decode_encode by (done || apply Sha256.hmac_bytes).
  cbn [raise_if mbind result_bind]. rewrite bool_decide_eq_true_2 by done.
  cbn [negb raise_if mbind result_bind]. rewrite Hloads. cbn [mbind result_bind].
  change (sort_deep v) with (JDict
    [("expires_at", JInt expires_at); ("model_alias", JStr alias); ("nonce", JStr nonce);
     ("run_id", JStr run_id); ("token_ceiling", JInt ceiling); ("version", JInt 1)]).
  cbn beta iota. change (same_keys _ ASSERTION_FIELDS) with true. cbn [negb raise_if mbind result_bind].
  unfold get_or_none.
  cbn [dict_get String.eqb Ascii.eqb Bool.eqb py_eq Z.eqb Pos.eqb negb raise_if mbind result_bind].
  rewrite String.eqb_refl.
  repeat match goal with Hx : ?c = true |- context [negb ?c] => rewrite Hx end.
  cbn [negb raise_if mbind result_bind]. unfold positive_integer.
  destruct (Z.leb_spec 1 ceiling), (Z.leb_spec ceiling 100000); try lia.
  cbn [andb mbind result_bind].
  destruct (Z.leb_spec expires_at now), (Z.ltb_spec (now + 300) expires_at); try lia. reflexivity.
Qed.

(** C37 An issued assertion verifies: what [issue_budget_assertion] returns is accepted by the
    gateway with the same key and alias, at any time within five minutes before its
    expiry, and yields exactly the run, ceiling, expiry and nonce it was issued for. *)
Theorem issued_assertion_verifies recursion key run_id alias ceiling expires_at nonce value now :
  issue_budget_assertion key run_id alias ceiling expires_at nonce = Ok value ->
  (1 <= recursion)%nat -> 0 <= expires_at < 10 ^ 12 -> now < expires_at <= now + 300 ->
  verify_budget_assertion recursion value key alias now =
    Ok (BudgetAssertion run_id alias ceiling expires_at nonce).
Proof. apply assertion_round_trip. Qed.

(** ** The handler *)

Lemma handled_inv {A : Type} (m : M A) recover l r l' :
  handled m recover l = (r, l') ->
  (exists a, m l = (Ok a, l') /\ r = Ok a) \/
  (exists e, m l = (Err e, l') /\ r = match recover e with Some a => Ok a | None => Err e end).
Proof. unfold handled. destruct (m l) as [[a|e] l1]; intros [= <- <-]; eauto. Qed.

(** The request phase, past the route, the child and the token. *)
Lemma request_phase sv rq busy now l r l' :
  (body ← lift (decoded_body sv rq);
   prepared ← prepare_request (sv_recursion sv) (sv_assertion_key sv) (sv_policy sv) (sv_bounds sv)
                body (hr_assertion rq) now;
   mret (if busy : bool
         then Answer (429, JDict [("error", JDict [("code", JStr "model_gateway_busy");
                                                    ("retryable", JBool true)])])
         else Forward prepared)) l = (r, l') ->
  match r with
  | Err _ => l' = l
  | Ok (Answer a) => busy = true /\ a.1 = 429
  | Ok (Forward prepared) => busy = false /\ exists body,
      decoded_body sv rq = Ok body /\
      prepare_request (sv_recursion sv) (sv_assertion_key sv) (sv_policy sv) (sv_bounds sv)
        body (hr_assertion rq) now l = (Ok prepared, l')
  end.
Proof.
  intros H. destruct r as [a|e].
  - apply bind_ok_inv in H as (body & ? & Hb & H). apply lift_inv in Hb as [Hb ->].
    apply bind_ok_inv in H as (prepared & l1 & Hp & H). apply ret_inv in H as [[= ->] ->].
    destruct busy; [done|]. split; [done|]. by exists body.
  - apply bind_err_inv in H as [H|(body & ? & Hb & H)]; [by apply lift_inv in H as [_ ->]|].
    apply lift_inv in Hb as [_ ->]. apply bind_err_inv in H as [H|(? & ? & _ & H)].
    + by apply prepare_err in H.
    + by apply ret_inv in H as [[=] _].
Qed.


(** *** Secrets *)

(** Every string and every key of a value. *)
Fixpoint strings_of (v : json) : list string :=
  match v with
  | JStr s => [s]
  | JList l => concat (map strings_of l)
  | JDict d => concat (map (fun kv => kv.1 :: strings_of kv.2) d)
  | _ => []
  end.

Lemma existsb_app_concat {A B : Type} (f : B -> bool) (g : A -> list B) l :
  existsb f (concat (map g l)) = existsb (fun x => existsb f (g x)) l.
Proof. induction l as [|x l IH]; cbn; [done|]. by rewrite existsb_app, IH. Qed.

Lemma existsb_ext_in {A : Type} (f g : A -> bool) l :
  Forall (fun x => f x = g x) l -> existsb f l = existsb g l.
Proof. induction 1 as [|x l Hx _ IH]; cbn; [done|]. by rewrite Hx, IH. Qed.

Lemma known_secret_spec secrets v :
  contains_known_secret secrets v = existsb (has_secret secrets) (strings_of v).
Proof.
  induction v as [|b|z|f|s|l IH|d IH] using json_rect_nested; try done; cbn.
  - by rewrite orb_false_r.
  - rewrite existsb_app_concat. by apply existsb_ext_in.
  - rewrite existsb_app_concat. apply existsb_ext_in. eapply Forall_impl; [exact IH|].
    intros [k x] Hx. cbn in *. by rewrite Hx.
Qed.

Definition neutral (v : json) : Prop := v = provider_neutral_error 503 \/ v = provider_neutral_error 400.

(** Nothing of the provider leaves the gateway but a clean answer: a response to the
    client is either status 200 with exactly the JSON the provider sent, of bounded size
    and structure, where no secret occurs in the bytes nor in any decoded string or key,
    or status 502 or 503 with one of two constant bodies. *)
Theorem responses_are_clean sv outcome status v :
  finish sv outcome = Ok (status, v) ->
  (status = 200 /\ exists payload, outcome = Payload payload /\
     loads_bytes (sv_recursion sv) payload = Ok v /\ Z.of_nat (length payload) <= 1048576 /\
     node_depth v <= MAX_REQUEST_DEPTH /\ containers v <= MAX_REQUEST_CONTAINERS /\
     forall secret, In secret (sv_response_secrets sv) ->
       contains secret (string_of_bytes payload) = false /\
       forall s, In s (strings_of v) -> contains secret s = false) \/
  ((status = 502 \/ status = 503) /\ neutral v).
Proof.
  unfold finish. assert (forall P : Prop, Ok (503, provider_neutral_error 503) = @Ok error _ (status, v) ->
    P \/ ((status = 502 \/ status = 503) /\ neutral v)) as Hun.
  { intros P [= <- <-]. right. split; [by right|by left]. }
  destruct outcome as [code| |payload]; [|apply Hun|].
  - intros [= <- <-]. right. unfold neutral, provider_neutral_error.
    destruct (provider_failure_is_retryable code); cbn; auto.
  - destruct (1048576 <? _) eqn:Hlen; [apply Hun|].
    destruct (loads_bytes _ _) as [[| | | | | |d]|[]] eqn:Hl; try apply Hun; try done.
    pose proof (structure_limits_exact MAX_REQUEST_DEPTH MAX_REQUEST_CONTAINERS (JDict d) ltac:(done)) as Hs.
    destruct (_ && _) eqn:Hb; [|destruct Hs as [m ->]; apply Hun]. rewrite Hs. bools.
    destruct (has_secret _ (string_of_bytes payload)) eqn:Hraw; [apply Hun|].
    destruct (contains_known_secret _ _) eqn:Hin; [apply Hun|]. intros [= <- <-]. left.
    split; [done|]. exists payload. split_and!; try done; try lia. rewrite known_secret_spec in Hin.
    assert (forall secret s, In secret (sv_response_secrets sv) -> has_secret (sv_response_secrets sv) s = false ->
      contains secret s = false) as Hno.
    { intros secret s Hsec Hf. apply not_true_iff_false. intros Hc. apply not_true_iff_false in Hf.
      apply Hf, existsb_exists. eauto. }
    intros secret Hsec. split; [by apply Hno|]. intros s Hs'. apply Hno; [done|].
    apply not_true_iff_false. intros Hc. apply not_true_iff_false in Hin. apply Hin, existsb_exists. eauto.
Qed.

(** *** The startup receipt *)

Lemma traverse_all {E A : Type} (f : A -> result E A) l l' :
  (forall a b, f a = Ok b -> b = a) -> traverse f l = Ok l' ->
  l' = l /\ Forall (fun a => f a = Ok a) l.
Proof.
  intros Hf. revert l'. induction l as [|a l IH]; intros l' H; cbn in H; [by injection H as <-|].
  apply bind_result_ok in H as (b & Hb & H). apply bind_result_ok in H as (bs & Hbs & [= <-]).
  destruct (IH _ Hbs) as [-> Hall]. pose proof (Hf _ _ Hb) as ->. by repeat constructor.
Qed.

(** The gateway starts only on approved files: an accepted receipt binds the operations
    commit and both image digests, is valid now and for at most a day, names exactly the
    four handoff files, and each of them is a plain file next to it whose SHA-256 is the
    one in the receipt. *)
Theorem startup_files_approved recursion st sha index platform now names :
  verify_startup_receipt recursion st sha index platform now = Ok names ->
  su_plain st = true /\ names = HANDOFF_FILES /\
  SHA_PATTERN sha = true /\ DIGEST_PATTERN index = true /\ DIGEST_PATTERN platform = true /\
  exists text d files expires_at, su_receipt st = Some text /\ loads recursion text = Ok (JDict d) /\
    get_or_none d "operations_sha" = JStr sha /\ get_or_none d "target_index_digest" = JStr index /\
    get_or_none d "target_platform_digest" = JStr platform /\
    get_or_none d "expires_at" = JInt expires_at /\ now < expires_at <= now + 86400 /\
    get_or_none d "files" = JDict files /\
    forall name, In name HANDOFF_FILES -> exists content, su_candidate st name = Some content /\
      get_or_none files name = JStr ("sha256:" +:+ Sha256.hex (Sha256.digest content)).
Proof.
  unfold verify_startup_receipt. intros H. result_step H.
  apply bind_result_ok in H as (receipt & Hreceipt & H).
  destruct receipt as [| | | | | |d]; try discriminate H. result_step H.
  apply bind_result_ok in H as (u1 & Hbind%raise_if_inv & H). do 2 result_step H.
  apply bind_result_ok in H as (u2 & Hexp & H). result_step H.
  destruct (get_or_none d "files") as [| | | | | |files] eqn:Hfiles; try discriminate H. result_step H.
  apply traverse_all in H as [-> Hall].
  2:{ intros a b Hf. destruct (su_candidate st a); [|discriminate Hf].
      apply bind_result_ok in Hf as (? & _ & [= <-]). done. }
  destruct (get_or_none d "expires_at") as [| |expires_at| | | |] eqn:He; try discriminate Hexp.
  apply bind_result_ok in Hexp as (u3 & Hlow%raise_if_inv & Hhigh%raise_if_inv).
  cbn [existsb fst snd] in Hbind. bools. split_and!; try done.
  destruct (su_receipt st) as [text|] eqn:Htext; [|discriminate Hreceipt].
  exists text, d, files, expires_at. split_and!; try done; try lia; try by apply py_eq_str.
  - by destruct (loads recursion text) as [v|[]]; try discriminate Hreceipt; injection Hreceipt as ->.
  - intros name Hname. apply (proj1 (List.Forall_forall _ _) Hall) in Hname.
    destruct (su_candidate st name) as [content|]; [|discriminate Hname].
    apply bind_result_ok in Hname as (? & Hd%raise_if_inv & _). bools. exists content.
    split; [done|]. by apply py_eq_str.
Qed.

(** ** Concrete runs *)

Definition d_server : server := Server d_policy d_bounds d_key "client-token" ["provider-secret"] 50.
Definition post_of (body : list (string * json)) (header : string) : http_request :=
  let text := json_dumps true false (JDict body) in
  HttpRequest INFERENCE_PATH "Bearer client-token" (str_of_Z (slen text)) header (Sha256.bytes_of_string text).

(** Requests whose [role] is a list, and whose [temperature] is 10 to the 400. *)
Definition list_role : list (string * json) :=
  [("model", JStr "civicloop-default"); ("max_tokens", JInt 1);
   ("messages", JList [JDict [("role", JList []); ("content", JStr "x")]])].
Definition huge_temperature : list (string * json) := d_body ++ [("temperature", JInt (10 ^ 400))].

(** Two malformed requests escape the handler: a message whose role is a list and an
    integer temperature beyond binary64 raise [TypeError] and [OverflowError], which the
    handler does not catch, so the client gets no answer at all; the ledger stays as it
    was. *)
Theorem malformed_requests_escape :
  do_POST (fun _ => Unreachable) d_server (post_of list_role d_header) true 1100 (Ledger ∅ ∅)
    = (Err TypeError, Ledger ∅ ∅) /\
  do_POST (fun _ => Unreachable) d_server (post_of huge_temperature d_header) true 1100 (Ledger ∅ ∅)
    = (Err OverflowError, Ledger ∅ ∅).
Proof. split; vm_compute; reflexivity. Qed.


Lemma structure_limits_exact_witness :
  validate_json_structure 2 2 0 (JDict [("a", JList [JNull])]) 0 = Ok 2.
Proof. exact (structure_limits_exact 2 2 (JDict [("a", JList [JNull])]) ltac:(lia)). Defined.

Definition d_schema : json := JDict [("type", JStr "object"); ("properties", JDict [])].
Lemma schema_passes_unchanged_witness : schema_keys d_schema <= MAX_SCHEMA_KEYS.
Proof.
  assert (tool_schema d_schema = Ok d_schema) as Hs by (vm_compute; reflexivity).
  destruct (schema_passes_unchanged _ _ Hs) as (_ & _ & H & _). exact H.
Defined.

Definition d_conversation : json := JList
  [JDict [("role", JStr "user"); ("content", JStr "Look it up.")];
   JDict [("role", JStr "assistant"); ("tool_calls", JList
     [JDict [("id", JStr "call-1"); ("type", JStr "function");
             ("function", JDict [("name", JStr "lookup"); ("arguments", JStr "{ }")])]])];
   JDict [("role", JStr "tool"); ("tool_call_id", JStr "call-1"); ("content", JStr "found")]].
Definition d_messages : list json := Eval vm_compute in
  match messages 50 {["lookup"]} d_conversation with Ok l => l | Err _ => [] end.
Lemma tool_calls_answered_in_order_witness : payload_size (JList d_messages) <= MAX_MESSAGE_PAYLOAD_BYTES.
Proof.
  assert (messages 50 {["lookup"]} d_conversation = Ok d_messages) as Hm by (vm_compute; reflexivity).
  destruct (tool_calls_answered_in_order _ _ _ _ Hm) as (_ & _ & _ & _ & H). exact H.
Defined.

Definition d_sanitized : list (string * json) := Eval vm_compute in
  match sanitize_request 50 d_body d_policy with Ok s => s | Err _ => [] end.
Lemma sanitized_request_bounded_witness :
  dict_get "stream" d_body = None \/ dict_get "stream" d_body = Some (JBool false).
Proof.
  assert (sanitize_request 50 d_body d_policy = Ok d_sanitized) as Hs by (vm_compute; reflexivity).
  destruct (sanitized_request_bounded _ _ _ _ Hs) as (_ & H & _). exact H.
Defined.

Lemma issued_assertion_verifies_witness :
  verify_budget_assertion 50 d_header d_key "civicloop-default" 1100 = Ok d_assertion.
Proof.
  assert (issue_budget_assertion d_key "run-1" "civicloop-default" 1000 1300 "nonce-0123456789" = Ok d_header)
    as Hi by (vm_compute; reflexivity).
  apply (issued_assertion_verifies _ _ _ _ _ _ _ _ _ Hi); lia.
Defined.

Definition d_answer : json := JDict [("id", JStr "r1")].
Lemma responses_are_clean_witness :
  contains "provider-secret" (string_of_bytes (Sha256.bytes_of_string (json_dumps true false d_answer))) = false.
Proof.
  assert (finish d_server (Payload (Sha256.bytes_of_string (json_dumps true false d_answer)))
    = Ok (200, d_answer)) as Hf by (vm_compute; reflexivity).
  destruct (responses_are_clean _ _ _ _ Hf) as [(_ & payload & Hp & _ & _ & _ & _ & H)|[[H|H] _]];
    [|discriminate H..].
  injection Hp as <-.
  destruct (H "provider-secret") as [Hc _]; [by left|exact Hc].
Defined.

Definition d_digest : string := "sha256:" +:+ Sha256.hex (Sha256.digest [1; 2; 3]).
Definition d_sha : string := repeat_string 40 "a".
Definition d_receipt : json := JDict
  [("schema_version", JInt 1); ("component", JStr "litellm"); ("environment", JStr "production");
   ("operations_sha", JStr d_sha); ("target_index_digest", JStr d_digest);
   ("target_platform_digest", JStr d_digest); ("expires_at", JInt 2000); ("approval_digest", JStr d_digest);
   ("signature_status", JStr "verified");
   ("files", JDict (map (fun name => (name, JStr d_digest)) HANDOFF_FILES))].
Definition d_startup : startup := Startup true (Some (json_dumps true false d_receipt)) (fun _ => Some [1; 2; 3]).
Lemma startup_files_approved_witness : SHA_PATTERN d_sha = true.
Proof.
  assert (verify_startup_receipt 50 d_startup d_sha d_digest d_digest 1100 = Ok HANDOFF_FILES) as Hr
    by (vm_compute; reflexivity).
  destruct (startup_files_approved _ _ _ _ _ _ _ Hr) as (_ & _ & H & _). exact H.
Defined.

End RequestFacts.
