(* ===== verification/ToolSchemas.v ===== *)
(** * Tool arguments (backend/agents/tool_schemas.py)

    The schemas of the broker's tools, the bounded canonical encoding every digest of the
    application is taken over, and the validation of a value against a schema.  A UUID
    primary key is the integer it denotes; [uuid_text] is [str(uuid)]. *)

From S2P Require Import Prelude PyValue JsonText.

Module ToolSchemas.

(** ** [str(UUID)] *)

Fixpoint hex_digits (k : nat) (n : Z) : string :=
  match k with
  | O => ""
  | S k' => hex_digits k' (n / 16) +:+ char_string (hex_char (n mod 16))
  end.

(** The five groups of digits, joined by hyphens. *)
Fixpoint hyphenate (groups : list nat) (s : string) : string :=
  match groups with
  | [] => ""
  | [n] => String.substring 0 n s
  | n :: groups' =>
      String.substring 0 n s +:+ "-"
      +:+ hyphenate groups' (String.substring n (String.length s - n) s)
  end.
Definition uuid_text (id : Z) : string := hyphenate [8; 4; 4; 4; 12]%nat (hex_digits 32 id).

Definition is_hex_lower (c : ascii) : bool := is_digit c || in_range 97 102 c.

Fixpoint grouped (groups : list nat) (s : string) : bool :=
  match groups with
  | [] => String.eqb s ""
  | [n] => (String.length s =? n)%nat && string_forallb is_hex_lower s
  | n :: groups' =>
      (n <? String.length s)%nat
      && string_forallb is_hex_lower (String.substring 0 n s)
      && String.eqb (String.substring n 1 s) "-"
      && grouped groups' (String.substring (S n) (String.length s - S n) s)
  end.
(** [str(UUID(value)) == value]: the canonical spelling, whatever else [UUID] reads. *)
Definition is_uuid_text (s : string) : bool := grouped [8; 4; 4; 4; 12]%nat s.

Example uuid_ex :
  uuid_text 0x123456789abcdef0123456789abcdef = "01234567-89ab-cdef-0123-456789abcdef"
  /\ is_uuid_text (uuid_text 0x123456789abcdef0123456789abcdef) = true
  /\ is_uuid_text "0123456789ab-cdef-0123-456789abcdef-" = false
  /\ is_uuid_text "01234567-89AB-cdef-0123-456789abcdef" = false.
Proof. vm_compute. done. Qed.

(** ** Schemas *)

Inductive invalid := InvalidToolArguments.
#[global] Instance invalid_eq_dec : EqDecision invalid.
Proof. solve_decision. Defined.

Definition MAX_PAYLOAD_BYTES : Z := 65536.
Definition MAX_DEPTH : Z := 8.
Definition MAX_NODES : Z := 2048.

#[warnings="-register-all"]
Inductive schema :=
| SObject (properties : list (string * schema))
| SArray (minItems maxItems : Z) (items : schema)
| SString (minLength maxLength : Z) (pattern : option (string -> bool)) (format_uuid : bool)
| SInteger (minimum : Z).

Definition obj (properties : list (string * schema)) : schema := SObject properties.
Definition str_schema (maximum : Z) (pattern : option (string -> bool)) (format_uuid : bool) : schema :=
  SString 1 maximum pattern format_uuid.

Definition one_of (chars : string) (c : ascii) : bool := has_char (ascii_code c) chars.

Definition UUID_SCHEMA : schema := str_schema 36 None true.
Definition text (maximum : Z) : schema := str_schema maximum None false.
Definition COMMON : list (string * schema) :=
  [("workflow_id", UUID_SCHEMA);
   ("revision_id", SInteger 1);
   ("actor_id", str_schema 50
      (Some (fun s => negb (String.eqb s "") && string_forallb (fun c => is_alnum c || one_of "_-" c) s)) false);
   ("correlation_id", UUID_SCHEMA);
   ("request_id", UUID_SCHEMA);
   ("idempotency_key", str_schema 128
      (Some (fullmatch_class is_alnum (fun c => is_alnum c || one_of "._:-" c) 15 127)) false)].
Definition EMAIL : schema := obj [("subject", text 240); ("body", text 12000)].
Definition PROPOSAL : schema :=
  obj [("event_copy", text 12000); ("invitation", EMAIL); ("reminder", EMAIL);
       ("social", obj [("body", text 4000)])].
Definition QUESTION : schema :=
  obj [("field", str_schema 64
          (Some (fun s => negb (String.eqb s "") && string_forallb (fun c => is_lower c || is_char 95 c) s)) false);
       ("question", text 500)].
Definition EXTRAS : list (string * list (string * schema)) :=
  [("get_event_revision", []);
   ("get_policy_context", []);
   ("request_clarification", [("questions", SArray 1 12 QUESTION)]);
   ("propose_campaign_drafts", [("proposal", PROPOSAL)]);
   ("validate_proposal", [("proposal_id", UUID_SCHEMA)]);
   ("request_eventbrite_draft", [("proposal_id", UUID_SCHEMA)]);
   ("request_iterable_drafts", [("proposal_id", UUID_SCHEMA)]);
   ("get_operation_status", [("operation_id", UUID_SCHEMA)])].
Definition TOOL_SCHEMAS : list (string * schema) :=
  map (fun '(name, extra) => (name, obj (COMMON ++ extra))) EXTRAS.

(** ** [bounded_json] *)

(** The nodes counted so far go in and out, as the closure's [nonlocal nodes] does. *)
Fixpoint walk (item : json) (depth nodes : Z) {struct item} : result invalid Z :=
  let nodes := nodes + 1 in
  if (MAX_DEPTH <? depth) || (MAX_NODES <? nodes) then Err InvalidToolArguments
  else
    match item with
    | JDict d =>
        if (100 <? Z.of_nat (length d)) || existsb (fun kv => 128 <? slen kv.1) d
        then Err InvalidToolArguments
        else
          (fix go (d : list (string * json)) (nodes : Z) : result invalid Z :=
             match d with
             | [] => Ok nodes
             | kv :: d' => n ← walk kv.2 (depth + 1) nodes; go d' n
             end) d nodes
    | JList l =>
        if 100 <? Z.of_nat (length l) then Err InvalidToolArguments
        else
          (fix go (l : list json) (nodes : Z) : result invalid Z :=
             match l with
             | [] => Ok nodes
             | x :: l' => n ← walk x (depth + 1) nodes; go l' n
             end) l nodes
    | JStr s => if MAX_PAYLOAD_BYTES <? slen s then Err InvalidToolArguments else Ok nodes
    | _ => Ok nodes
    end.

(** What makes [json.dumps(..., allow_nan=False)] raise: a non-finite float, or an integer
    with more digits than the interpreter prints. *)
Fixpoint dumpable (v : json) : bool :=
  match v with
  | JInt z => slen (str_of_Z (Z.abs z)) <=? JsonText.MAX_STR_DIGITS
  | JFloat (S754_infinity _) | JFloat S754_nan => false
  | JList l => forallb dumpable l
  | JDict d => forallb (fun kv => dumpable kv.2) d
  | _ => true
  end.

Definition bounded_json (value : json) : result invalid string :=
  _ ← walk value 0 0;
  if dumpable value then
    let encoded := json_dumps true true value in
    if MAX_PAYLOAD_BYTES <? slen encoded then Err InvalidToolArguments else Ok encoded
  else Err InvalidToolArguments.

(** ** [validate] *)

(** [set(value) == set(properties)] for distinct keys on both sides. *)
Definition same_keys {V W : Type} (d : list (string * V)) (e : list (string * W)) : bool :=
  forallb (fun kv => dict_mem kv.1 e) d && forallb (fun kv => dict_mem kv.1 d) e.

Fixpoint validate (value : json) (s : schema) {struct s} : result invalid () :=
  match s, value with
  | SObject properties, JDict d =>
      if same_keys d properties then
        (fix go (ps : list (string * schema)) : result invalid () :=
           match ps with
           | [] => Ok ()
           | (key, child) :: ps' =>
               (* the keys are the same, so [value[key]] is there *)
               match dict_get key d with
               | Some v => _ ← validate v child; go ps'
               | None => Err InvalidToolArguments
               end
           end) properties
      else Err InvalidToolArguments
  | SArray minItems maxItems items, JList l =>
      if (minItems <=? Z.of_nat (length l)) && (Z.of_nat (length l) <=? maxItems) then
        (fix go (l : list json) : result invalid () :=
           match l with
           | [] => Ok ()
           | x :: l' => _ ← validate x items; go l'
           end) l
      else Err InvalidToolArguments
  | SString minLength maxLength pattern format_uuid, JStr t =>
      _ ← raise_if (negb ((minLength <=? slen t) && (slen t <=? maxLength))) InvalidToolArguments;
      _ ← raise_if (match pattern with Some p => negb (p t) | None => false end) InvalidToolArguments;
      raise_if (format_uuid && negb (is_uuid_text t)) InvalidToolArguments
  | SInteger minimum, JInt z =>
      raise_if ((z <? minimum) || (2 ^ 63 - 1 <? z)) InvalidToolArguments
  | _, _ => Err InvalidToolArguments
  end.

Definition validate_tool_arguments (tool_name : json) (arguments : json) : result invalid string :=
  encoded ← bounded_json arguments;
  match tool_name with
  | JStr name =>
      match dict_get name TOOL_SCHEMAS with
      | Some s => _ ← validate arguments s; Ok encoded
      | None => Err InvalidToolArguments
      end
  | _ => Err InvalidToolArguments
  end.

Definition mk_email (s b : string) : json := JDict [("subject", JStr s); ("body", JStr b)].
Example validate_ex :
  validate (JDict [("event_copy", JStr "x"); ("invitation", mk_email "s" "b");
                   ("social", JDict [("body", JStr "c")]); ("reminder", mk_email "s" "b")]) PROPOSAL = Ok ()
  /\ validate (JDict [("event_copy", JStr ""); ("invitation", mk_email "s" "b");
                   ("social", JDict [("body", JStr "c")]); ("reminder", mk_email "s" "b")]) PROPOSAL
     = Err InvalidToolArguments.
Proof. vm_compute. done. Qed.

End ToolSchemas.
