(* ===== verification/ToolSchemasTheorems.v ===== *)
(** * The canonical encoding and the tool schemas

    The limits of [bounded_json] are exactly what they say, its text determines the value,
    and the schema validation accepts exactly the values its schema describes. *)

From S2P Require Import Prelude PyValue JsonText JsonTextTheorems JsonTree ToolSchemas.

Module SchemaFacts.
Import JsonTree ToolSchemas JsonFacts.

(** ** [walk] against a direct description of the limits *)

(** The values inside a value, itself included. *)
Fixpoint node_count (v : json) : Z :=
  match v with
  | JList l => 1 + sum (map node_count l)
  | JDict d => 1 + sum (map (fun kv => node_count kv.2) d)
  | _ => 1
  end.

(** The limits on one container, its keys, or one string. *)
Definition own_size_ok (v : json) : bool :=
  match v with
  | JStr s => slen s <=? MAX_PAYLOAD_BYTES
  | JList l => Z.of_nat (length l) <=? 100
  | JDict d => (Z.of_nat (length d) <=? 100) && forallb (fun kv => slen kv.1 <=? 128) d
  | _ => true
  end.

(** The same limits everywhere inside. *)
Fixpoint sizes_ok (v : json) : bool :=
  own_size_ok v &&
  match v with
  | JList l => forallb sizes_ok l
  | JDict d => forallb (fun kv => sizes_ok kv.2) d
  | _ => true
  end.

Definition within (depth nodes : Z) (v : json) : bool :=
  (depth + node_depth v <=? MAX_DEPTH) && (nodes + node_count v <=? MAX_NODES) && sizes_ok v.

Lemma node_count_children v :
  node_count v = 1 + match children v with Some l => sum (map node_count l) | None => 0 end.
Proof. destruct v; try done. cbn. by rewrite map_map. Qed.

Lemma sizes_ok_children v :
  sizes_ok v = own_size_ok v && match children v with Some l => forallb sizes_ok l | None => true end.
Proof. destruct v as [| | | | | |d]; try done. cbn. by rewrite (forallb_map_ext _ (fun kv => sizes_ok kv.2) snd). Qed.

Lemma node_count_pos v : 1 <= node_count v.
Proof.
  induction v as [v IH] using children_ind. rewrite node_count_children.
  destruct (children v) as [l|]; [|lia]. specialize (IH l eq_refl).
  induction IH as [|x l Hx _ IHl]; cbn in *; lia.
Qed.

Lemma node_count_nonneg v : 0 <= node_count v.
Proof. pose proof (node_count_pos v). lia. Qed.

Lemma existsb_negb {A : Type} (f g : A -> bool) l :
  (forall x, g x = negb (f x)) -> existsb g l = negb (forallb f l).
Proof. intros Hg. induction l as [|x l IH]; cbn; [done|]. by rewrite Hg, IH, negb_andb. Qed.

(** The two loops over the children, as one function. *)
Fixpoint walk_all (l : list json) (depth nodes : Z) : result invalid Z :=
  match l with
  | [] => Ok nodes
  | x :: l' => n ← walk x depth nodes; walk_all l' depth n
  end.

Lemma walk_children v depth nodes :
  walk v depth nodes =
    if (MAX_DEPTH <? depth) || (MAX_NODES <? nodes + 1) || negb (own_size_ok v)
    then Err InvalidToolArguments
    else match children v with
         | None => Ok (nodes + 1)
         | Some l => walk_all l (depth + 1) (nodes + 1)
         end.
Proof.
  destruct v as [| | | |s|l|d]; cbn [walk children own_size_ok];
    destruct ((MAX_DEPTH <? depth) || (MAX_NODES <? nodes + 1)); try done; cbn [orb].
  - by rewrite Z.ltb_antisym.
  - rewrite Z.ltb_antisym. destruct (negb _); [done|]. generalize (nodes + 1).
    induction l as [|x l IH]; intros n; [done|]. cbn. destruct (walk x _ n); cbn; [apply IH|done].
  - rewrite Z.ltb_antisym, negb_andb.
    rewrite (existsb_negb (fun kv => slen kv.1 <=? 128)) by (intros kv; apply Z.ltb_antisym).
    destruct (_ || _); [done|]. generalize (nodes + 1).
    induction d as [|[k x] d IH]; intros n; [done|]. cbn. destruct (walk x _ n); cbn; [apply IH|done].
Qed.

Definition walks (v : json) : Prop :=
  forall depth nodes, nodes <= MAX_NODES ->
  walk v depth nodes = if within depth nodes v then Ok (nodes + node_count v) else Err InvalidToolArguments.

Lemma walk_all_within l depth :
  Forall walks l -> forall nodes, nodes <= MAX_NODES ->
  walk_all l depth nodes =
    if forallb (fun v => depth + node_depth v <=? MAX_DEPTH) l
       && (nodes + sum (map node_count l) <=? MAX_NODES) && forallb sizes_ok l
    then Ok (nodes + sum (map node_count l)) else Err InvalidToolArguments.
Proof.
  induction 1 as [|v l Hv Hl IH]; intros nodes Hn; cbn.
  - rewrite Z.add_0_r. by apply Z.leb_le in Hn as ->.
  - rewrite (Hv _ _ Hn). unfold within. pose proof (sum_of_nonneg node_count l node_count_nonneg).
    destruct (Z.leb_spec (depth + node_depth v) MAX_DEPTH); cbn [andb]; [|done].
    destruct (Z.leb_spec (nodes + node_count v) MAX_NODES); cbn [andb].
    + destruct (sizes_ok v); cbn; [|by rewrite andb_false_r]. rewrite IH by done. by rewrite Z.add_assoc.
    + destruct (Z.leb_spec (nodes + (node_count v + sum (map node_count l))) MAX_NODES); [lia|].
      by rewrite andb_false_r.
Qed.

Lemma walk_within v : walks v.
Proof.
  induction v as [v IH] using children_ind. intros depth nodes Hn. rewrite walk_children. unfold within.
  rewrite node_depth_children, node_count_children, sizes_ok_children.
  destruct (own_size_ok v); cbn [negb orb andb]; [|by rewrite orb_true_r, andb_false_r].
  rewrite orb_false_r. destruct (children v) as [l|] eqn:Hc.
  - pose proof (deepest_nonneg (map node_depth l)). pose proof (sum_of_nonneg node_count l node_count_nonneg).
    destruct (Z.ltb_spec MAX_DEPTH depth) as [Hd|Hd]; cbn [orb].
    { destruct (Z.leb_spec (depth + deepest (map node_depth l)) MAX_DEPTH); [lia|done]. }
    destruct (Z.ltb_spec MAX_NODES (nodes + 1)).
    { destruct (Z.leb_spec (nodes + (1 + sum (map node_count l))) MAX_NODES); [lia|]. by rewrite andb_false_r. }
    rewrite deepest_within, Z.add_assoc by done. apply walk_all_within; [by apply IH|done].
  - rewrite !Z.add_0_r, andb_true_r, !Z.ltb_antisym. by destruct (depth <=? _), (nodes + 1 <=? _).
Qed.

(** The canonical encoding is the sorted, compact JSON text, and is returned for exactly
    the values within the limits: at most 8 levels deep, 2048 values in all, 100 entries in
    every list and dict, keys of at most 128 and strings of at most 65536 characters, no
    value that JSON text cannot hold, and a text of at most 65536 bytes. *)
Lemma bounded_json_exact v t :
  bounded_json v = Ok t <->
  t = json_dumps true true v /\ node_depth v <= MAX_DEPTH /\ node_count v <= MAX_NODES /\
  sizes_ok v = true /\ dumpable v = true /\ slen t <= MAX_PAYLOAD_BYTES.
Proof.
  unfold bounded_json. rewrite (walk_within v 0 0) by done. unfold within. rewrite !Z.add_0_l.
  rewrite Z.ltb_antisym. split.
  - intros Hb. destruct (_ && _) eqn:Hw; [|done]. cbn in Hb. bools.
    destruct (dumpable v); [|done]. destruct (Z.leb_spec (slen (json_dumps true true v)) MAX_PAYLOAD_BYTES); [|done].
    by injection Hb as <-.
  - intros (-> & Hd & Hn & -> & -> & Ht). apply Z.leb_le in Hd as ->, Hn as ->, Ht as ->. done.
Qed.

(** ** The text determines the value *)

Lemma height_depth v : Z.of_nat (height v) <= 1 + node_depth v.
Proof.
  assert (forall l, Forall (fun v => Z.of_nat (height v) <= 1 + node_depth v) l ->
    Z.of_nat (S (list_max (map height l))) <= 1 + deepest (map node_depth l)) as Hl.
  { induction 1 as [|x l Hx _ IH]; [done|]. cbn [map deepest].
    change (list_max (height x :: map height l)) with (Nat.max (height x) (list_max (map height l))). lia. }
  induction v as [v IH] using children_ind. rewrite node_depth_children.
  destruct v as [| | | | |l|d]; try done; cbn [children height] in *.
  - by apply Hl, IH.
  - rewrite <- (map_map snd height). by apply Hl, IH.
Qed.

(** The canonical encoding loses nothing: for a value that JSON text can hold exactly (see
    [plain]), [json.loads] of the encoding is the value with its dicts in key order, so two
    such values have the same encoding, hence the same digest, only if they are equal up to
    the order of their keys. *)
Theorem canonical_encoding_injective v w t recursion :
  plain v = true -> plain w = true -> bounded_json v = Ok t -> (9 <= recursion)%nat ->
  JsonText.loads recursion t = Ok (sort_deep v) /\
  (bounded_json w = Ok t -> sort_deep v = sort_deep w).
Proof.
  intros Hv Hw Hb Hr.
  assert (forall x, plain x = true -> bounded_json x = Ok t -> JsonText.loads recursion t = Ok (sort_deep x)) as Hl.
  { intros x Hx Hxt. apply bounded_json_exact in Hxt as (-> & Hd & _). apply (loads_dumps recursion true true x Hx).
    pose proof (height_depth x). unfold MAX_DEPTH in Hd. lia. }
  split; [by apply Hl|]. intros Hwt. pose proof (Hl _ Hv Hb) as H1. rewrite (Hl _ Hw Hwt) in H1. congruence.
Qed.

(** ** The spelling of a UUID *)

Lemma hex_digits_length k n : String.length (hex_digits k n) = k.
Proof. revert n. induction k as [|k IH]; intros n; [done|]. cbn [hex_digits]. rewrite slength_app, IH. cbn. lia. Qed.

Lemma hex_char_inj a b : 0 <= a < 16 -> 0 <= b < 16 -> hex_char a = hex_char b -> a = b.
Proof.
  intros Ha Hb He. apply (f_equal ascii_code) in He. revert He.
  assert (forall x, 0 <= x < 16 -> ascii_code (hex_char x) = if x <? 10 then 48 + x else 87 + x) as Hc.
  { intros x Hx. assert (x = 0 \/ x = 1 \/ x = 2 \/ x = 3 \/ x = 4 \/ x = 5 \/ x = 6 \/ x = 7 \/ x = 8
      \/ x = 9 \/ x = 10 \/ x = 11 \/ x = 12 \/ x = 13 \/ x = 14 \/ x = 15) as Hcase by lia.
    repeat (destruct Hcase as [->|Hcase]; [done|]). by subst. }
  rewrite !Hc by done. destruct (Z.ltb_spec a 10), (Z.ltb_spec b 10); lia.
Qed.

Lemma hex_digits_inj k a b :
  0 <= a < 16 ^ Z.of_nat k -> 0 <= b < 16 ^ Z.of_nat k -> hex_digits k a = hex_digits k b -> a = b.
Proof.
  revert a b. induction k as [|k IH]; intros a b Ha Hb He; [cbn in *; lia|].
  rewrite Nat2Z.inj_succ, Z.pow_succ_r in Ha, Hb by lia. cbn [hex_digits] in He.
  apply sapp_inj in He as [Hq Hr]; [|by rewrite !hex_digits_length].
  injection Hr as Hr. apply hex_char_inj in Hr; [|by apply Z.mod_pos_bound..].
  assert (a / 16 = b / 16) as Hd.
  { apply IH; [| |done]; (split; [apply Z.div_pos; lia|apply Z.div_lt_upper_bound; lia]). }
  pose proof (Z.div_mod a 16). pose proof (Z.div_mod b 16). lia.
Qed.

Fixpoint total (groups : list nat) : nat := match groups with [] => 0 | n :: groups' => n + total groups' end.

Lemma hyphenate_inj groups s t :
  String.length s = total groups -> String.length t = total groups ->
  hyphenate groups s = hyphenate groups t -> s = t.
Proof.
  revert s t. induction groups as [|n groups IH]; intros s t Hs Ht He; [by destruct s, t|]. cbn [total] in *.
  destruct (substring_cut n s ltac:(lia)) as (Hs1 & Hs2 & Hs3).
  destruct (substring_cut n t ltac:(lia)) as (Ht1 & Ht2 & Ht3).
  destruct groups as [|m groups].
  - cbn [hyphenate total] in *. rewrite <- (substring_all s), <- (substring_all t), Hs, Ht, Nat.add_0_r. done.
  - change (hyphenate (n :: m :: groups)) with (fun s => String.substring 0 n s +:+ "-"
      +:+ hyphenate (m :: groups) (String.substring n (String.length s - n) s)) in He.
    cbn beta in He. apply sapp_inj in He as [Hh He]; [|congruence].
    injection He as He. apply IH in He; [|lia..]. rewrite Hs1, Ht1. by rewrite Hh, He.
Qed.

Lemma hyphenate_length groups s :
  String.length s = total groups -> String.length (hyphenate groups s) = (total groups + pred (length groups))%nat.
Proof.
  revert s. induction groups as [|n groups IH]; intros s Hs; [done|]. cbn [total] in *.
  destruct (substring_cut n s ltac:(lia)) as (_ & Hs2 & Hs3). destruct groups as [|m groups].
  - cbn [hyphenate total length pred] in *. lia.
  - change (hyphenate (n :: m :: groups) s) with (String.substring 0 n s +:+ "-"
      +:+ hyphenate (m :: groups) (String.substring n (String.length s - n) s)).
    rewrite !slength_app, Hs2, IH by lia. cbn. lia.
Qed.

(** [str] of a UUID has 36 characters and determines it. *)
Lemma uuid_text_length id : String.length (uuid_text id) = 36%nat.
Proof. unfold uuid_text. by rewrite hyphenate_length by apply hex_digits_length. Qed.

Lemma uuid_text_inj a b : 0 <= a < 2 ^ 128 -> 0 <= b < 2 ^ 128 -> uuid_text a = uuid_text b -> a = b.
Proof.
  intros Ha Hb He. apply hyphenate_inj in He; [|apply hex_digits_length..]. by apply (hex_digits_inj 32).
Qed.

(** ** Schemas as sets of values *)

(** What a schema says, without the order in which it is checked. *)
Inductive conforms : schema -> json -> Prop :=
| conforms_object properties d :
    (forall k, In k (map fst d) <-> In k (map fst properties)) ->
    (forall k child v, In (k, child) properties -> dict_get k d = Some v -> conforms child v) ->
    conforms (SObject properties) (JDict d)
| conforms_array minItems maxItems items l :
    minItems <= Z.of_nat (length l) <= maxItems ->
    (forall x, In x l -> conforms items x) ->
    conforms (SArray minItems maxItems items) (JList l)
| conforms_string minLength maxLength pattern format_uuid t :
    minLength <= slen t <= maxLength ->
    (forall p, pattern = Some p -> p t = true) ->
    (format_uuid = true -> is_uuid_text t = true) ->
    conforms (SString minLength maxLength pattern format_uuid) (JStr t)
| conforms_integer minimum z :
    minimum <= z < 2 ^ 63 -> conforms (SInteger minimum) (JInt z).

(** Induction over a schema. *)
Lemma schema_nested_ind (P : schema -> Prop)
  (Hobject : forall ps, Forall (fun kc => P kc.2) ps -> P (SObject ps))
  (Harray : forall lo hi items, P items -> P (SArray lo hi items))
  (Hstring : forall lo hi p u, P (SString lo hi p u))
  (Hinteger : forall lo, P (SInteger lo)) : forall s, P s.
Proof.
  fix IH 1. intros [ps|lo hi items|lo hi p u|lo]; [apply Hobject|by apply Harray, IH|apply Hstring|apply Hinteger].
  induction ps as [|[k c] ps IHps]; constructor; [apply IH|exact IHps].
Qed.

Lemma dict_mem_keys {V : Type} k (d : list (string * V)) : dict_mem k d = true <-> In k (map fst d).
Proof.
  unfold dict_mem. induction d as [|[k' v] d IH]; cbn; [done|].
  destruct (String.eqb_spec k k') as [->|Hk]; [naive_solver|]. rewrite IH. naive_solver.
Qed.

Lemma same_keys_spec {V W : Type} (d : list (string * V)) (e : list (string * W)) :
  same_keys d e = true <-> forall k, In k (map fst d) <-> In k (map fst e).
Proof.
  unfold same_keys. rewrite andb_true_iff, !forallb_forall.
  setoid_rewrite dict_mem_keys. setoid_rewrite in_map_iff. naive_solver.
Qed.

(** The loop over the properties. *)
Fixpoint validate_properties (d : list (string * json)) (ps : list (string * schema)) : result invalid () :=
  match ps with
  | [] => Ok ()
  | (key, child) :: ps' =>
      match dict_get key d with
      | Some v => _ ← validate v child; validate_properties d ps'
      | None => Err InvalidToolArguments
      end
  end.

Lemma validate_object d ps :
  validate (JDict d) (SObject ps) =
    if same_keys d ps then validate_properties d ps else Err InvalidToolArguments.
Proof.
  cbn. destruct (same_keys d ps); [|done]. induction ps as [|[k c] ps IH]; [done|]. cbn.
  destruct (dict_get k d); [|done]. destruct (validate _ c); [|done]. apply IH.
Qed.

Lemma validate_array lo hi items l :
  validate (JList l) (SArray lo hi items) =
    if (lo <=? Z.of_nat (length l)) && (Z.of_nat (length l) <=? hi)
    then if forallb (fun x => is_ok (validate x items)) l then Ok () else Err InvalidToolArguments
    else Err InvalidToolArguments.
Proof.
  cbn. destruct (_ && _); [|done]. induction l as [|x l IH]; [done|]. cbn.
  destruct (validate x items) as [[]|[]]; [apply IH|done].
Qed.

Lemma unit_ok (r : result invalid ()) : is_ok r = true <-> r = Ok ().
Proof. by destruct r as [[]|]. Qed.

Lemma dict_get_keys {V : Type} k (d : list (string * V)) : In k (map fst d) <-> exists v, dict_get k d = Some v.
Proof. rewrite <- dict_mem_keys. unfold dict_mem. destruct (dict_get k d); naive_solver. Qed.

Lemma validate_properties_spec d ps :
  Forall (fun kc => forall v, validate v kc.2 = Ok () <-> conforms kc.2 v) ps ->
  (forall k, In k (map fst ps) -> In k (map fst d)) ->
  validate_properties d ps = Ok () <->
  forall k child v, In (k, child) ps -> dict_get k d = Some v -> conforms child v.
Proof.
  induction 1 as [|[k c] ps Hc _ IH]; intros Hk; cbn in *; [naive_solver|].
  destruct (dict_get_keys k d) as [Hget _]. destruct (Hget (Hk k (or_introl eq_refl))) as [v Hv].
  rewrite Hv. specialize (IH (fun k' H' => Hk k' (or_intror H'))). split.
  - intros Hb k' child v' [[= <- <-]|Hin] Hv'.
    + apply Hc. apply bind_result_ok in Hb as ([] & Hb & _). congruence.
    + apply bind_result_ok in Hb as ([] & _ & Hb). by apply (proj1 IH Hb k' child v').
  - intros Hall. rewrite (proj2 (Hc v)) by (apply (Hall k c v); [by left|done]). cbn.
    apply IH. intros k' child v' Hin. apply (Hall k' child v'). by right.
Qed.

Lemma validate_conforms s v : validate v s = Ok () <-> conforms s v.
Proof.
  revert v. induction s as [ps IH|lo hi items IH|lo hi p u|lo] using schema_nested_ind; intros v.
  - destruct v as [| | | | | |d]; try (split; [by intros [=]|by inversion 1]).
    rewrite validate_object. destruct (same_keys d ps) eqn:Hk.
    + pose proof (proj1 (same_keys_spec d ps) Hk) as Hsame.
      rewrite validate_properties_spec; [|done|intros k; apply Hsame].
      split; [by constructor|by inversion 1].
    + split; [done|]. inversion 1 as [? ? Hs| | |]. apply same_keys_spec in Hs. congruence.
  - destruct v as [| | | | |l|]; try (split; [by intros [=]|by inversion 1]).
    rewrite validate_array. destruct (_ && _) eqn:Hlen.
    + destruct (forallb _ l) eqn:Hall.
      * split; [|done]. intros _. bools. constructor; [done|]. intros x Hx. apply IH, unit_ok.
        by apply (proj1 (forallb_forall _ l) Hall).
      * split; [done|]. inversion 1 as [|? ? ? ? _ Hc| |]; subst. exfalso.
        enough (forallb (fun x => is_ok (validate x items)) l = true) by congruence.
        apply forallb_forall. intros x Hx. by apply unit_ok, IH, Hc.
    + split; [done|]. inversion 1 as [|? ? ? ? [H1 H2]| |]; subst. apply Z.leb_le in H1, H2. by rewrite H1, H2 in Hlen.
  - destruct v as [| | | |t| |]; try (split; [by intros [=]|by inversion 1]). cbn [validate]. split.
    + intros Hv. apply bind_result_ok in Hv as (? & Hlen & Hv). apply bind_result_ok in Hv as (? & Hp & Hv).
      apply raise_if_inv in Hlen, Hp, Hv. bools. apply conforms_string; [lia| |].
      * intros q ->. by apply negb_false_iff.
      * intros ->. by apply negb_false_iff.
    + inversion 1 as [| |? ? ? ? ? [H1 H2] Hp Hu|]; subst. apply Z.leb_le in H1 as ->, H2 as ->.
      destruct p as [p|]; [rewrite (Hp p eq_refl)|]; (destruct u; [by rewrite Hu|done]).
  - destruct v as [| |z| | | |]; try (split; [by intros [=]|by inversion 1]). cbn [validate]. split.
    + intros Hv. apply raise_if_inv in Hv. bools. constructor. lia.
    + inversion 1; subst. destruct (Z.ltb_spec z lo), (Z.ltb_spec (2 ^ 63 - 1) z); try lia. done.
Qed.

(** C33 The arguments of a tool call are accepted exactly when the tool is one of the broker's,
    the arguments conform to its schema (the same keys and no others at every object, item
    counts, lengths and integers within their bounds, the pattern and the canonical UUID
    spelling where they are asked for) and they are within the limits of the canonical
    encoding: at most 8 levels deep, 2048 values in all, 100 entries in every list and dict,
    keys of at most 128 and strings of at most 65536 characters, no value that JSON text
    cannot hold, and a text of at most 65536 bytes, which is what is returned. *)
Theorem tool_arguments_exact tool arguments t :
  validate_tool_arguments tool arguments = Ok t <->
  t = json_dumps true true arguments /\
  (exists name s, tool = JStr name /\ dict_get name TOOL_SCHEMAS = Some s /\ conforms s arguments) /\
  node_depth arguments <= MAX_DEPTH /\ node_count arguments <= MAX_NODES /\ sizes_ok arguments = true /\
  dumpable arguments = true /\ slen t <= MAX_PAYLOAD_BYTES.
Proof.
  unfold validate_tool_arguments. split.
  - intros Hv. apply bind_result_ok in Hv as (t' & Hb & Hv).
    destruct tool as [| | | |name| |]; try done. destruct (dict_get name _) as [s|] eqn:Hs; [|done].
    apply bind_result_ok in Hv as ([] & Hv & [= ->]). apply bounded_json_exact in Hb as (-> & Hb).
    split; [done|]. split; [|done]. exists name, s. by rewrite <- validate_conforms.
  - intros (-> & (name & s & -> & Hs & Hc) & Hb).
    rewrite (proj2 (bounded_json_exact arguments _) (conj eq_refl Hb)). cbn -[TOOL_SCHEMAS]. rewrite Hs.
    by apply validate_conforms in Hc as ->.
Qed.

(** ** Witness *)

Definition question_call (question : string) : json :=
  JDict [("workflow_id", JStr (uuid_text 1)); ("revision_id", JInt 3); ("actor_id", JStr "maya");
         ("correlation_id", JStr (uuid_text 2)); ("request_id", JStr (uuid_text 4));
         ("idempotency_key", JStr "request-000000000001");
         ("questions", JList [JDict [("question", JStr question); ("field", JStr "venue_name")]])].

(** The call of a clarification, and the same one with two keys swapped. *)
Lemma canonical_encoding_injective_witness :
  exists t, validate_tool_arguments (JStr "request_clarification") (question_call "Where is it?") = Ok t /\
    JsonText.loads 9 t = Ok (sort_deep (question_call "Where is it?")) /\
    is_ok (bounded_json (JList [question_call "Where is it?"])) = true /\
    is_ok (validate_tool_arguments (JStr "request_clarification") (question_call "")) = false.
Proof.
  eexists. split; [vm_compute; reflexivity|]. split; [|by vm_compute].
  apply (canonical_encoding_injective (question_call "Where is it?") JNull); vm_compute; try reflexivity; lia.
Defined.

End SchemaFacts.
