(* ===== verification/DraftProvider.v ===== *)
(** * What the draft adapters share: exceptions, secret leases and one HTTP exchange
    (backend/integrations/types.py and the common body of the adapters' [_request] and [_token])

    A provider is an oracle from the requests sent so far and the next one to what
    [opener.open] and [response.read] do; the model keeps the requests in the order they
    are sent.  Times are integers.  [recursion] is the stack allowance of [json.loads]; a
    response that writes a character above code point 127 is outside the strings of this
    development and raises [NonAsciiResponse]. *)

From S2P Require Import Prelude PyValue JsonText LaunchLoop Budgets.

Module Provider.

Inductive exn :=
| EventbriteDraftError (category : string)
| IterableDraftError (category : string)
| SecretUnavailable
| IntegrationCryptoError
| InvalidToolArguments
| PermissionDenied (message : string)
| ValidationError (message : string)
| IntegrityError (constraint : string)
| DoesNotExist (model : string)
| AuthorizationDenied (stage : string)
| BudgetError (e : Budgets.error)
| SafeRunFailure (category status : string)
| WorkerFailure (category : string) (quarantine : bool)
| HermesAdmissionDenied
| HermesStartConflict
| Py (e : py_exn)
| NonAsciiResponse.
#[global] Instance exn_eq_dec : EqDecision exn.
Proof. solve_decision. Defined.

Definition py {A : Type} (r : result py_exn A) : result exn A :=
  match r with Ok a => Ok a | Err e => Err (Py e) end.

(** ** Secret leases (types.py) *)

Record SecretReference := Reference {
  ref_id : Z;
  ref_provider : string;
  ref_scope : string;
  ref_version : Z;
}.
#[global] Instance SecretReference_eq_dec : EqDecision SecretReference.
Proof. solve_decision. Defined.

(** [plaintext] is [None] once the buffer has been overwritten and dropped. *)
Record SecretLease := Lease {
  reference : SecretReference;
  caller_id : Z;
  workflow_id : option Z;
  purpose : string;
  expires_at : Z;
  plaintext : option (list Z);
  used : bool;
}.

Definition close_lease (l : SecretLease) : SecretLease :=
  Lease (reference l) (caller_id l) (workflow_id l) (purpose l) (expires_at l) None (used l).
Definition mark_used (l : SecretLease) : SecretLease :=
  Lease (reference l) (caller_id l) (workflow_id l) (purpose l) (expires_at l) (plaintext l) true.

(** ** The wire *)

Record request := Request {
  method : string;
  url : string;
  headers : list (string * string);
  data : option string;
}.

(** [opener.open] and the read of the body: a 2xx response, any other status, a timeout,
    or a failure of the connection. *)
Inductive transport :=
| Opened (status : Z) (body : list Z)
| HTTPError (code : Z)
| TimedOut
| NetworkFailure.

Record wire := Wire { sent : list request; lease : SecretLease }.
Abbreviation W := (ST wire exn).

Definition server : Type := list request -> request -> transport.

(** Runs [m] and then [f] on the state, whether [m] returns or raises. *)
Definition finally {S E A : Type} (m : ST S E A) (f : S -> S) : ST S E A :=
  fun s => let r := m s in (r.1, f r.2).

Definition on_lease (f : SecretLease -> SecretLease) (w : wire) : wire := Wire (sent w) (f (lease w)).

Section exchange.
Context (answer : server) (now : Z) (recursion : nat).

(** [SecretLease._ensure_available] *)
Definition ensure_available : W (list Z) :=
  w ← get;
  match plaintext (lease w) with
  | Some p =>
      if used (lease w) || (expires_at (lease w) <=? now)
      then _ ← modify (on_lease close_lease); raise SecretUnavailable
      else mret p
  | None => raise SecretUnavailable
  end.

(** [SecretLease.use]: one scoped operation on the plaintext, then the lease is destroyed. *)
Definition use {A : Type} (operation : list Z -> W A) : W A :=
  p ← ensure_available;
  _ ← modify (on_lease mark_used);
  finally (operation p) (on_lease close_lease).

Definition token_byte (b : Z) : bool := (33 <=? b) && (b <=? 126).

(** The adapters' [_token]: the checks on the lease and on the decoded token. *)
Definition with_token {A : Type} (fail : string -> exn) (provider write_purpose : string)
    (operation : string -> W A) : W A :=
  w ← get;
  _ ← fail_if (negb (String.eqb (ref_provider (reference (lease w))) provider)
               || negb (String.eqb (purpose (lease w)) write_purpose)
               || negb (bool_decide (is_Some (workflow_id (lease w)))))
        (fail "invalid_credential");
  use (fun view =>
    _ ← fail_if (bool_decide (view = []) || negb (forallb token_byte view)) (fail "invalid_credential");
    operation (JsonText.string_of_bytes view)).

(** The category of a rejected request. *)
Definition http_category (code : Z) : string :=
  if (300 <=? code) && (code <? 400) then "redirect"
  else if code =? 400 then "provider_validation"
  else if code =? 401 then "authentication"
  else if code =? 403 then "forbidden"
  else if code =? 404 then "not_found"
  else if code =? 429 then "rate_limited"
  else "provider_error".

(** What a response means: a JSON object, or the error the adapter raises. *)
Definition decode_response (fail : string -> exn) (max_bytes : Z) (t : transport)
  : result exn (list (string * json)) :=
  match t with
  | Opened status body =>
      let raw := take (Z.to_nat (max_bytes + 1)) body in
      if negb (status =? 200) then Err (fail "invalid_response")
      else if max_bytes <? Z.of_nat (length raw) then Err (fail "invalid_response")
      else
        match JsonText.loads_bytes recursion raw with
        | Ok (JDict d) => Ok d
        | Ok _ => Err (fail "invalid_response")
        | Err JsonText.NonAsciiText => Err NonAsciiResponse
        | Err _ => Err (fail "invalid_response")
        end
  | HTTPError code => Err (fail (http_category code))
  | TimedOut => Err (fail "timeout")
  | NetworkFailure => Err (fail "network")
  end.

(** One request on the wire, and its answer. *)
Definition exchange (fail : string -> exn) (max_bytes : Z) (r : request) : W (list (string * json)) :=
  w ← get;
  _ ← put (Wire (sent w ++ [r]) (lease w));
  lift (decode_response fail max_bytes (answer (sent w) r)).

End exchange.

(** [try: m except E as exc: handler(exc)] *)
Definition catch {S E A : Type} (m : ST S E A) (handler : E -> ST S E A) : ST S E A :=
  fun s => match m s with
           | (Ok a, s') => (Ok a, s')
           | (Err e, s') => handler e s'
           end.

(** The receipt of a draft adapter; the two dataclasses have the same fields. *)
Record receipt := Receipt {
  outcome : string;
  provider_id : option string;
  provider_status : option string;
  request_digest : string;
  readback : option string;
  error_category : option string;
}.
#[global] Instance receipt_eq_dec : EqDecision receipt.
Proof. solve_decision. Defined.

Definition json_option (o : option string) : json :=
  match o with Some s => JStr s | None => JNull end.
(** [asdict(receipt)] *)
Definition asdict (r : receipt) : json :=
  JDict [("outcome", JStr (outcome r)); ("provider_id", json_option (provider_id r));
         ("provider_status", json_option (provider_status r));
         ("request_digest", JStr (request_digest r)); ("readback_digest", json_option (readback r));
         ("error_category", json_option (error_category r))].

(** [_ID]: a decimal identifier of at most [n + 1] digits. *)
Definition is_identifier (n : Z) : string -> bool :=
  fullmatch_class (fun c => is_digit c && negb (is_char 48 c)) is_digit 0 n.

Definition is_hex_lower (c : ascii) : bool := is_digit c || in_range 97 102 c.
Definition is_digest : string -> bool := fullmatch_chars is_hex_lower 64 64.

(** The categories an adapter passes on to its caller: the provider refused the write. *)
Definition refused : list string :=
  ["provider_validation"; "authentication"; "forbidden"; "not_found"; "rate_limited"; "redirect"].

End Provider.
