(* ===== verification/EventbriteDrafts.v ===== *)
(** * Eventbrite drafts (backend/integrations/eventbrite_drafts.py)

    Payload validation, request and readback digests, and the adapter that creates,
    updates and reconciles a draft event.  The time zone database is an argument (the
    class [Platform] of OwnerEvents); the provider is the oracle of DraftProvider. *)

From S2P Require Import Prelude PyValue Sha256 JsonText OwnerEvents DraftProvider.

Module EventbriteDrafts.
Import Provider.

Definition BASE_URL : string := "https://www.eventbriteapi.com/v3".
Definition MAX_RESPONSE_BYTES : Z := 64 * 1024.
Definition MAX_REQUEST_BYTES : Z := 32 * 1024.
Definition FIELDS : list string :=
  ["name"; "summary"; "start"; "end"; "online_event"; "venue_id"; "listed"; "shareable"].

Definition invalid_request : exn := EventbriteDraftError "invalid_request".

Definition digest (value : json) : string := Sha256.sha256_hex (json_dumps false true value).

Definition identifier (value : json) : result exn string :=
  match value with
  | JStr s => if is_identifier 39 s then Ok s else Err invalid_request
  | _ => Err invalid_request
  end.

(** [set(d) == set(keys)] of a dict with distinct keys, for a list of distinct keys. *)
Definition has_keys {V : Type} (d : list (string * V)) (keys : list string) : bool :=
  forallb (fun kv => bool_decide (kv.1 ∈ keys)) d && forallb (fun k => dict_mem k d) keys.

(** ** [validate_payload] *)

Definition optional {A : Type} (d : list (string * json)) (key : string) (check : json -> result exn A)
  : result exn (option A) :=
  match dict_get key d with
  | None => Ok None
  | Some v => a ← check v; Ok (Some a)
  end.

Definition check_name (v : json) : result exn () :=
  match v with
  | JDict name =>
      raise_if (negb (has_keys name ["html"])
                || match dict_get "html" name with
                   | Some (JStr html) => String.eqb (strip html) "" || (200 <? slen html)
                   | _ => true
                   end) invalid_request
  | _ => Err invalid_request
  end.

Definition check_summary (v : json) : result exn () :=
  match v with
  | JStr s => raise_if (140 <? slen s) invalid_request
  | _ => Err invalid_request
  end.

(** The pattern and [datetime.strptime(s, "%Y-%m-%dT%H:%M:%SZ")], as seconds. *)
Definition parse_utc (s : string) : option Z :=
  if (String.length s =? 20)%nat && String.eqb (String.substring 10 1 s) "T"
     && String.eqb (String.substring 16 1 s) ":" && String.eqb (String.substring 19 1 s) "Z"
  then
    day ← OwnerEvents.parse_date (String.substring 0 10 s);
    time ← OwnerEvents.parse_time (String.substring 11 5 s);
    seconds ← OwnerEvents.field_at 17 2 s;
    if seconds <=? 59 then Some (OwnerEvents.wall_seconds day time + seconds) else None
  else None.

Section platform.
Context `{OwnerEvents.Platform}.

Definition check_when (v : json) : result exn Z :=
  match v with
  | JDict when_ =>
      _ ← raise_if (negb (has_keys when_ ["utc"; "timezone"])) invalid_request;
      match dict_get "utc" when_, dict_get "timezone" when_ with
      | Some (JStr utc), Some (JStr timezone) =>
          match parse_utc utc, OwnerEvents.zone_info timezone with
          | Some t, Some _ => Ok t
          | _, _ => Err invalid_request
          end
      | _, _ => Err invalid_request
      end
  | _ => Err invalid_request
  end.

Definition check_currency (v : json) : result exn () :=
  match v with
  | JStr s => raise_if (negb (fullmatch_chars is_upper 3 3 s)) invalid_request
  | _ => Err invalid_request
  end.

Definition check_online (v : json) : result exn () :=
  match v with JBool _ => Ok () | _ => Err invalid_request end.

Definition check_false (v : json) : result exn () :=
  match v with JBool false => Ok () | _ => Err invalid_request end.

Definition check_venue (event : list (string * json)) (v : json) : result exn () :=
  _ ← identifier v;
  raise_if (match dict_get "online_event" event with Some (JBool true) => true | _ => false end)
    invalid_request.

(** The checks on the [event] object, in the order of the code. *)
Definition check_event (event : list (string * json)) : result exn () :=
  _ ← optional event "name" check_name;
  _ ← optional event "summary" check_summary;
  start ← optional event "start" check_when;
  stop ← optional event "end" check_when;
  _ ← raise_if (negb (Bool.eqb (dict_mem "start" event) (dict_mem "end" event))) invalid_request;
  _ ← raise_if (match start, stop with Some s, Some e => e <=? s | _, _ => false end) invalid_request;
  _ ← optional event "currency" check_currency;
  _ ← optional event "online_event" check_online;
  _ ← optional event "listed" check_false;
  _ ← optional event "shareable" check_false;
  _ ← optional event "venue_id" (check_venue event);
  Ok ().

(** [event.setdefault(key, False)] *)
Definition setdefault_false (key : string) (event : list (string * json)) : list (string * json) :=
  if dict_mem key event then event else dict_set key (JBool false) event.

Definition allowed_fields (create : bool) : list string :=
  if create then FIELDS ++ ["currency"] else FIELDS.
Definition required_fields (create : bool) : list string :=
  if create then ["name"; "start"; "end"; "currency"] else [].

(** [json.loads] of a text that [json.dumps] wrote. *)
Definition reload (recursion : nat) (encoded : string) : result exn json :=
  match JsonText.loads recursion encoded with
  | Ok v => Ok v
  | Err e => Err (Py (ValueError "json"))
  end.

Section adapter.
Context (recursion : nat).

Definition validate_payload (payload : json) (create : bool) : result exn json :=
  match payload with
  | JDict d =>
      _ ← raise_if (negb (has_keys d ["event"])) invalid_request;
      match dict_get "event" d with
      | Some (JDict event) =>
          _ ← raise_if (bool_decide (event = [])
                        || negb (forallb (fun kv => bool_decide (kv.1 ∈ allowed_fields create)) event))
                invalid_request;
          _ ← raise_if (negb (forallb (fun k => dict_mem k event) (required_fields create)))
                invalid_request;
          _ ← check_event event;
          let encoded := json_dumps_default false false payload in
          _ ← raise_if (MAX_REQUEST_BYTES <? slen encoded) invalid_request;
          result ← reload recursion encoded;
          if create then
            match result with
            | JDict r =>
                event ← py (subscript r "event");
                match event with
                | JDict e =>
                    Ok (JDict (dict_set "event"
                          (JDict (setdefault_false "shareable" (setdefault_false "listed" e))) r))
                | _ => Err (Py AttributeError)
                end
            | _ => Err (Py TypeError)
            end
          else Ok result
      | _ => Err invalid_request
      end
  | _ => Err invalid_request
  end.

Definition compute_request_digest (action organization_id : string) (event_id : option string)
    (payload : json) : result exn string :=
  _ ← raise_if (negb (String.eqb action "create" || String.eqb action "update")) invalid_request;
  _ ← identifier (JStr organization_id);
  _ ← (if String.eqb action "update"
       then _ ← identifier (json_option event_id); Ok ()
       else raise_if (bool_decide (is_Some event_id)) invalid_request);
  validated ← validate_payload payload (String.eqb action "create");
  Ok (digest (JDict [("action", JStr action); ("organization_id", JStr organization_id);
                     ("event_id", json_option event_id); ("payload", validated)])).

Definition READBACK_FIELDS : list string :=
  ["changed"; "currency"; "end"; "id"; "listed"; "name"; "online_event"; "organization_id";
   "published"; "shareable"; "start"; "status"; "summary"; "venue_id"].
Definition readback_digest (event : list (string * json)) : string :=
  digest (JDict (map (fun key => (key, get_or_none event key)) READBACK_FIELDS)).

(** ** The adapter *)

Context (answer : server) (now : Z).

(** The part of [s] between [before] and [after], when it has that shape. *)
Definition between (before after s : string) : option string :=
  let n := (String.length s - String.length before - String.length after)%nat in
  let middle := String.substring (String.length before) n s in
  if String.eqb s (before +:+ middle +:+ after) then Some middle else None.

Definition allowed_request (method path : string) : bool :=
  ((String.eqb method "GET" || String.eqb method "POST")
   && match between "/events/" "/" path with Some id => is_identifier 39 id | None => false end)
  || (String.eqb method "POST"
      && match between "/organizations/" "/events/" path with
         | Some id => is_identifier 39 id
         | None => false
         end).

Definition request_ (method path token : string) (payload : option json) : W (list (string * json)) :=
  _ ← fail_if (negb (allowed_request method path)) invalid_request;
  exchange answer recursion EventbriteDraftError MAX_RESPONSE_BYTES
    (Request method (BASE_URL +:+ path)
       [("Authorization", "Bearer " +:+ token); ("Content-Type", "application/json")]
       (json_dumps_default true false <$> payload)).

Definition token_ {A : Type} (operation : string -> W A) : W A :=
  with_token now EventbriteDraftError "eventbrite" "eventbrite_draft_write" operation.

Definition is_none (v : json) : bool := match v with JNull => true | _ => false end.
Definition is_true (v : json) : bool := match v with JBool b => b | _ => false end.

Definition draft (event : list (string * json)) (organization_id : string) (event_id : option string)
  : result exn string :=
  provider_id ← identifier (get_or_none event "id");
  _ ← raise_if (match event_id with Some e => negb (String.eqb provider_id e) | None => false end
                || negb (py_eq (get_or_none event "organization_id") (JStr organization_id)))
        (EventbriteDraftError "identity_mismatch");
  _ ← raise_if (negb (py_eq (get_or_none event "status") (JStr "draft"))
                || negb (is_none (get_or_none event "published"))
                || is_true (get_or_none event "is_series")
                || is_true (get_or_none event "is_series_parent")
                || negb (is_none (get_or_none event "series_id")))
        (EventbriteDraftError "unsafe_provider_state");
  Ok provider_id.

(** One reviewed field against what the provider reads back: of an object, only the
    reviewed keys count. *)
Definition field_matches (event : list (string * json)) (key : string) (expected : json) : bool :=
  let actual := get_or_none event key in
  let actual :=
    match expected, actual with
    | JDict e, JDict a => JDict (map (fun kv => (kv.1, get_or_none a kv.1)) e)
    | _, _ => actual
    end in
  py_eq actual expected.

Definition event_of (payload : json) : result exn (list (string * json)) :=
  match payload with
  | JDict d =>
      event ← py (subscript d "event");
      match event with JDict e => Ok e | _ => Err (Py AttributeError) end
  | _ => Err (Py TypeError)
  end.

Definition unknown_receipt (event_id : option string) (request_digest category : string) : receipt :=
  Receipt "UNKNOWN" event_id None request_digest None (Some category).

(** [attempt m] hands the outcome of [m] to the code after the [try]. *)
Definition attempt {A : Type} (m : W A) : W (result exn A) :=
  fun s => let r := m s in (Ok r.1, r.2).

Definition confirm (token organization_id event_id : string) (payload : json) (request_digest : string)
  : W receipt :=
  r ← attempt (
    event ← request_ "GET" ("/events/" +:+ event_id +:+ "/") token None;
    _ ← lift (draft event organization_id (Some event_id));
    fields ← lift (event_of payload);
    _ ← fail_if (negb (forallb (fun kv => field_matches event kv.1 kv.2) fields))
          (EventbriteDraftError "readback_mismatch");
    mret event);
  match r with
  | Ok event =>
      mret (Receipt "CONFIRMED" (Some event_id) (Some "draft") request_digest
              (Some (readback_digest event)) None)
  | Err (EventbriteDraftError category) =>
      mret (unknown_receipt (Some event_id) request_digest category)
  | Err e => raise e
  end.

(** The handler around a write: a refusal is passed on, anything else is uncertain. *)
Definition write_failed (e : exn) (event_id : option string) (request_digest : string) : W receipt :=
  match e with
  | EventbriteDraftError category =>
      if bool_decide (category ∈ refused) then raise e
      else mret (unknown_receipt event_id request_digest category)
  | _ => raise e
  end.

Definition create (organization_id : string) (payload : json) : W receipt :=
  validated ← lift (validate_payload payload true);
  request_digest ← lift (compute_request_digest "create" organization_id None validated);
  token_ (fun token =>
    r ← attempt (request_ "POST" ("/organizations/" +:+ organization_id +:+ "/events/") token
                   (Some validated));
    match r with
    | Err e => write_failed e None request_digest
    | Ok event =>
        match identifier (get_or_none event "id") with
        | Err e => write_failed e None request_digest
        | Ok event_id =>
            match draft event organization_id (Some event_id) with
            | Err e => write_failed e (Some event_id) request_digest
            | Ok _ => confirm token organization_id event_id validated request_digest
            end
        end
    end).

Definition update (organization_id event_id : string) (payload : json)
    (expected_readback_digest : string) : W receipt :=
  validated ← lift (validate_payload payload false);
  request_digest ← lift (compute_request_digest "update" organization_id (Some event_id) validated);
  _ ← fail_if (negb (is_digest expected_readback_digest)) invalid_request;
  token_ (fun token =>
    let path := "/events/" +:+ event_id +:+ "/" in
    before ← request_ "GET" path token None;
    _ ← lift (draft before organization_id (Some event_id));
    _ ← fail_if (negb (String.eqb (readback_digest before) expected_readback_digest))
          (EventbriteDraftError "stale_revision");
    r ← attempt (
      event ← request_ "POST" path token (Some validated);
      lift (draft event organization_id (Some event_id)));
    match r with
    | Err e => write_failed e (Some event_id) request_digest
    | Ok _ => confirm token organization_id event_id validated request_digest
    end).

Definition reconcile (organization_id : string) (event_id : option string) (payload : json)
    (request_digest action : string) : W receipt :=
  validated ← lift (validate_payload payload (String.eqb action "create"));
  expected ← lift (compute_request_digest action organization_id
                     (if String.eqb action "update" then event_id else None) validated);
  _ ← fail_if (negb (String.eqb expected request_digest)) invalid_request;
  match event_id with
  | None => mret (unknown_receipt None expected "human_reconciliation_required")
  | Some id =>
      _ ← lift (identifier (JStr id));
      token_ (fun token => confirm token organization_id id validated expected)
  end.

End adapter.
End platform.
End EventbriteDrafts.
