(* ===== verification/IterableDrafts.v ===== *)
(** * Iterable campaigns (backend/integrations/iterable_drafts.py)

    Payload validation, digests and the adapter that creates and reconciles an
    unscheduled campaign.  The provider is the oracle of DraftProvider. *)

From S2P Require Import Prelude PyValue Sha256 JsonText OwnerEvents DraftProvider EventbriteDrafts.

Module IterableDrafts.
Import Provider.

Definition BASE_URLS : list (string * string) :=
  [("us", "https://api.iterable.com"); ("eu", "https://api.eu.iterable.com")].
Definition MAX_RESPONSE_BYTES : Z := 256 * 1024.
Definition MAX_REQUEST_BYTES : Z := 16 * 1024.
Definition FIELDS : list string :=
  ["name"; "templateId"; "listIds"; "suppressionListIds"; "scheduleSend"].
Definition CONTENT_FIELDS : list string :=
  ["bccEmails"; "cacheDataFeed"; "campaignDataFields"; "ccEmails"; "dataFeedId"; "dataFeedIds";
   "fromEmail"; "fromName"; "googleAnalyticsCampaignName"; "html"; "linkParams";
   "mergeDataFeedContext"; "messageTypeId"; "plainText"; "preheaderText"; "replyToEmail"; "subject"].
Definition CAMPAIGN_FIELDS : list string :=
  ["id"; "name"; "campaignState"; "messageMedium"; "type"; "startAt"; "endedAt"; "templateId";
   "listIds"; "suppressionListIds"; "updatedAt"; "workflowId"; "recurringCampaignId"].
Definition KNOWN_STATES : list string :=
  ["Draft"; "Ready"; "Scheduled"; "Running"; "Finished"; "Starting"; "Aborted"; "Recurring"; "Archived"].

Definition invalid_request : exn := IterableDraftError "invalid_request".

Definition digest (value : json) : string := Sha256.sha256_hex (json_dumps false true value).

Definition identifier (value : json) : result exn Z :=
  match value with
  | JInt z => if (0 <? z) && (z <=? 2 ^ 63 - 1) then Ok z else Err invalid_request
  | _ => Err invalid_request
  end.

(** The region's base URL. *)
Definition region_ (region : json) : result exn string :=
  match region with
  | JStr r => match dict_get r BASE_URLS with Some base => Ok base | None => Err invalid_request end
  | _ => Err invalid_request
  end.

(** A list of distinct identifiers, of at most 100. *)
Definition check_ids (nonempty : bool) (v : json) : result exn () :=
  match v with
  | JList ids =>
      _ ← raise_if ((100 <? Z.of_nat (length ids)) || (nonempty && bool_decide (length ids = 0%nat)))
            invalid_request;
      values ← traverse identifier ids;
      raise_if (negb (bool_decide (NoDup values))) invalid_request
  | _ => Err invalid_request
  end.

(** [v is False] *)
Definition is_false (v : json) : bool := match v with JBool false => true | _ => false end.

Section adapter.
Context (recursion : nat).

Definition validate_payload (payload : json) : result exn json :=
  match payload with
  | JDict d =>
      _ ← raise_if (negb (EventbriteDrafts.has_keys d FIELDS)) invalid_request;
      _ ← raise_if (match get_or_none d "name" with
                    | JStr name => String.eqb (strip name) "" || (200 <? slen name)
                    | _ => true
                    end || negb (is_false (get_or_none d "scheduleSend"))) invalid_request;
      _ ← identifier (get_or_none d "templateId");
      _ ← check_ids true (get_or_none d "listIds");
      _ ← check_ids false (get_or_none d "suppressionListIds");
      let encoded := json_dumps_default false false payload in
      _ ← raise_if (MAX_REQUEST_BYTES <? slen encoded) invalid_request;
      EventbriteDrafts.reload recursion encoded
  | _ => Err invalid_request
  end.

Definition compute_request_digest (region payload expected_template_digest : json) : result exn string :=
  _ ← raise_if (match expected_template_digest with JStr s => negb (is_digest s) | _ => true end)
        invalid_request;
  _ ← region_ region;
  validated ← validate_payload payload;
  Ok (digest (JDict [("region", region); ("payload", validated);
                     ("expected_template_digest", expected_template_digest)])).

Definition template_content_digest (template : list (string * json)) : string :=
  digest (JDict (map (fun key => (key, get_or_none template key)) CONTENT_FIELDS)).

Definition readback_digest (campaign : list (string * json)) (template_digest : string) : string :=
  digest (JDict [("campaign", JDict (map (fun key => (key, get_or_none campaign key)) CAMPAIGN_FIELDS));
                 ("template_digest", JStr template_digest)]).

(** ** The adapter *)

Context (answer : server) (now : Z).

(** What follows a fixed start of a path. *)
Definition after (start s : string) : option string :=
  if String.prefix start s then Some (JsonText.drop_prefix start s) else None.
Definition is_numeric_id (o : option string) : bool :=
  match o with Some s => is_identifier 18 s | None => false end.

Definition allowed_request (method path : string) : bool :=
  (String.eqb method "POST" && String.eqb path "/api/campaigns/create")
  || (String.eqb method "GET" && is_numeric_id (after "/api/campaigns/" path))
  || (String.eqb method "GET" && is_numeric_id (after "/api/templates/email/get?templateId=" path)).

(** One request; [check] is the payload's validation before a POST. *)
Definition send (allowed : string -> string -> bool) (check : json -> result exn json)
    (method path token : string) (region : json) (payload : option json) : W (list (string * json)) :=
  base ← lift (region_ region);
  _ ← fail_if (negb (allowed method path)) invalid_request;
  payload ← lift (if String.eqb method "POST"
                  then v ← check (default JNull payload); Ok (Some v)
                  else _ ← raise_if (bool_decide (is_Some payload)) invalid_request; Ok None);
  exchange answer recursion IterableDraftError MAX_RESPONSE_BYTES
    (Request method (base +:+ path) [("Api-Key", token); ("Content-Type", "application/json")]
       (json_dumps_default true false <$> payload)).

Definition request_ : string -> string -> string -> json -> option json -> W (list (string * json)) :=
  send allowed_request validate_payload.

Definition token_ {A : Type} (operation : string -> W A) : W A :=
  with_token now IterableDraftError "iterable" "iterable_draft_write" operation.

Definition is_int (v : json) (z : Z) : bool := match v with JInt y => y =? z | _ => false end.

Definition template_ (token : string) (region : json) (template_id : Z) : W string :=
  template ← request_ "GET" ("/api/templates/email/get?templateId=" +:+ str_of_Z template_id) token
               region None;
  _ ← fail_if (negb (is_int (get_or_none template "templateId") template_id))
        (IterableDraftError "identity_mismatch");
  mret (template_content_digest template).

(** [sorted(ids)] of integers. *)
Fixpoint insert_Z (z : Z) (l : list Z) : list Z :=
  match l with
  | [] => [z]
  | y :: l' => if z <=? y then z :: l else y :: insert_Z z l'
  end.
Definition sorted (l : list Z) : list Z := fold_right insert_Z [] l.

(** The integers of a list of [int]s. *)
Fixpoint ints (l : list json) : option (list Z) :=
  match l with
  | [] => Some []
  | JInt z :: l' => zs ← ints l'; Some (z :: zs)
  | _ => None
  end.
Definition ids_of (v : json) : option (list Z) := match v with JList l => ints l | _ => None end.

Definition same_ids (campaign payload : list (string * json)) (key : string) : bool :=
  match dict_get key campaign with
  | Some v => match ids_of v, ids_of (get_or_none payload key) with
              | Some l, Some m => bool_decide (sorted l = sorted m)
              | _, _ => false
              end
  | None => false
  end.

Definition fields_of (payload : json) : list (string * json) :=
  match payload with JDict d => d | _ => [] end.

Definition state_of (campaign : list (string * json)) : option string :=
  match get_or_none campaign "campaignState" with JStr s => Some s | _ => None end.

Definition unsafe_campaign (campaign : list (string * json)) : bool :=
  negb (bool_decide (state_of campaign = Some "Draft" \/ state_of campaign = Some "Ready"))
  || negb (py_eq (get_or_none campaign "type") (JStr "Blast"))
  || negb (py_eq (get_or_none campaign "messageMedium") (JStr "Email"))
  || negb (EventbriteDrafts.is_none (get_or_none campaign "startAt"))
  || negb (EventbriteDrafts.is_none (get_or_none campaign "endedAt"))
  || negb (EventbriteDrafts.is_none (get_or_none campaign "workflowId"))
  || negb (EventbriteDrafts.is_none (get_or_none campaign "recurringCampaignId")).

(** The checks on the campaign read back, in the order of the code. *)
Definition check_campaign (token : string) (region : json) (campaign_id : Z) (payload : json)
    (template_digest : string) (campaign : list (string * json)) : W () :=
  let fields := fields_of payload in
  _ ← fail_if (negb (is_int (get_or_none campaign "id") campaign_id))
        (IterableDraftError "identity_mismatch");
  _ ← fail_if (unsafe_campaign campaign) (IterableDraftError "unsafe_provider_state");
  _ ← fail_if (negb (py_eq (get_or_none campaign "name") (get_or_none fields "name")))
        (IterableDraftError "readback_mismatch");
  _ ← fail_if (negb (same_ids campaign fields "listIds" && same_ids campaign fields "suppressionListIds"))
        (IterableDraftError "readback_mismatch");
  match dict_get "templateId" campaign with
  | None => raise (IterableDraftError "unverifiable_template")
  | Some v =>
      copied_id ← lift (identifier v);
      actual ← template_ token region copied_id;
      fail_if (negb (String.eqb actual template_digest)) (IterableDraftError "readback_mismatch")
  end.

Definition unknown_receipt (provider_id status : option string) (request_digest category : string)
  : receipt :=
  Receipt "UNKNOWN" provider_id status request_digest None (Some category).

Definition known_state (status : option string) : option string :=
  match status with
  | Some s => if bool_decide (s ∈ KNOWN_STATES) then Some s else None
  | None => None
  end.

Definition confirm (token : string) (region : json) (campaign_id : Z) (payload : json)
    (request_digest template_digest : string) : W receipt :=
  let id := Some (str_of_Z campaign_id) in
  let failed status e :=
    match e with
    | IterableDraftError category => mret (unknown_receipt id (known_state status) request_digest category)
    | _ => raise e
    end in
  r ← EventbriteDrafts.attempt (request_ "GET" ("/api/campaigns/" +:+ str_of_Z campaign_id) token region None);
  match r with
  | Err e => failed None e
  | Ok campaign =>
      let status := state_of campaign in
      c ← EventbriteDrafts.attempt
            (check_campaign token region campaign_id payload template_digest campaign);
      match c with
      | Err e => failed status e
      | Ok _ =>
          mret (Receipt "CONFIRMED" id status request_digest
                  (Some (readback_digest campaign template_digest)) None)
      end
  end.

(** The handler around the POST: a refusal is passed on, anything else is uncertain. *)
Definition write_failed (e : exn) (request_digest : string) : W receipt :=
  match e with
  | IterableDraftError category =>
      if bool_decide (category ∈ refused) then raise e
      else mret (unknown_receipt None None request_digest category)
  | _ => raise e
  end.

Definition create (region payload expected_template_digest : json) : W receipt :=
  validated ← lift (validate_payload payload);
  request_digest ← lift (compute_request_digest region validated expected_template_digest);
  token_ (fun token =>
    template_id ← lift (identifier (get_or_none (fields_of validated) "templateId"));
    template_digest ← template_ token region template_id;
    _ ← fail_if (negb (py_eq (JStr template_digest) expected_template_digest))
          (IterableDraftError "stale_template");
    r ← EventbriteDrafts.attempt (
      result ← request_ "POST" "/api/campaigns/create" token region (Some validated);
      lift (identifier (get_or_none result "campaignId")));
    match r with
    | Err e => write_failed e request_digest
    | Ok campaign_id => confirm token region campaign_id validated request_digest template_digest
    end).

(** [int(campaign_id)] of a string of digits. *)
Definition int_of (s : string) : Z := JsonText.digits_value 0 s.

Definition reconcile (region : json) (campaign_id : option string) (payload : json)
    (request_digest : string) (expected_template_digest : json) : W receipt :=
  validated ← lift (validate_payload payload);
  digest ← lift (compute_request_digest region validated expected_template_digest);
  _ ← fail_if (negb (String.eqb digest request_digest)) invalid_request;
  match campaign_id with
  | None => mret (unknown_receipt None None digest "human_reconciliation_required")
  | Some id =>
      _ ← fail_if (negb (is_identifier 18 id)) invalid_request;
      identifier ← lift (identifier (JInt (int_of id)));
      token_ (fun token =>
        confirm token region identifier validated digest
          (match expected_template_digest with JStr s => s | _ => "" end))
  end.

End adapter.
End IterableDrafts.
