(* ===== verification/IterableTemplates.v ===== *)
(** * Iterable e-mail templates (backend/integrations/iterable_templates.py)

    The template a reviewed proposal becomes, its validation, and the adapter that creates
    and reconciles it.  An intent is given by its kind of operation, the content of its
    proposal and its primary key. *)

From S2P Require Import Prelude PyValue JsonText OwnerEvents ToolSchemas DraftProvider EventbriteDrafts IterableDrafts.

Module IterableTemplates.
Import Provider.

Definition invalid_request : exn := IterableDraftError "invalid_request".

Definition LEGACY_FIELDS : list string :=
  ["clientTemplateId"; "name"; "fromEmail"; "fromName"; "replyToEmail"; "subject"; "html";
   "plainText"; "messageTypeId"].
Definition FIELDS : list string := LEGACY_FIELDS ++ ["cacheDataFeed"].
Definition newline : string := char_string (chr 10).
Definition MARKETING_FOOTER : string :=
  newline +:+ "<p><a href=" +:+ dquote +:+ "{{unsubscribeUrl}}" +:+ dquote
  +:+ ">Unsubscribe</a><br>{{physicalAddress}}</p>".

Definition payload_version (payload : json) : result exn Z :=
  match payload with
  | JDict d =>
      if EventbriteDrafts.has_keys d LEGACY_FIELDS then Ok 1
      else if EventbriteDrafts.has_keys d FIELDS && IterableDrafts.is_false (get_or_none d "cacheDataFeed")
      then Ok 2
      else Err invalid_request
  | _ => Err invalid_request
  end.

(** [html.escape(s, quote=True)], character by character. *)
Definition escape_char (c : ascii) : string :=
  let n := ascii_code c in
  if n =? 38 then "&amp;"
  else if n =? 60 then "&lt;"
  else if n =? 62 then "&gt;"
  else if n =? 34 then "&quot;"
  else if n =? 39 then "&#x27;"
  else char_string c.
Definition html_escape (s : string) : string := flat_string escape_char s.

Definition plain_html (body : string) : string :=
  "<p>" +:+ flat_string (fun c => if is_char 10 c then "<br>" +:+ newline else char_string c)
              (html_escape body)
  +:+ "</p>".

Definition email_local : ascii -> bool :=
  fun c => is_alnum c || ToolSchemas.one_of ".!#$%&'*+/=?^_`{|}~-" c.
Definition email_domain : ascii -> bool := fun c => is_alnum c || ToolSchemas.one_of ".-" c.

(** The address pattern: one [@], and the domain's last label is alphabetic. *)
Definition is_email (s : string) : bool :=
  let '(local, found, domain) := OwnerEvents.partition "@"%char s in
  let '(name, dotted, label) := OwnerEvents.rpartition "."%char domain in
  found && dotted
  && negb (String.eqb local "") && string_forallb email_local local
  && negb (String.eqb name "") && string_forallb email_domain name
  && fullmatch_chars OwnerEvents.is_alpha 2 63 label.

Definition client_prefix : string := "civicloop-".
Definition is_client_id (s : string) : bool :=
  String.prefix client_prefix s && ToolSchemas.is_uuid_text (JsonText.drop_prefix client_prefix s).

(** The text of a field whose value is a string. *)
Definition text_of (d : list (string * json)) (key : string) : string :=
  match get_or_none d key with JStr s => s | _ => "" end.

Definition check_text (kv : string * json) : bool :=
  if String.eqb kv.1 "messageTypeId" || String.eqb kv.1 "cacheDataFeed" then true
  else match kv.2 with
       | JStr s => negb (String.eqb (strip s) "")
                   && (slen s <=? (if String.eqb kv.1 "html" then 30000 else 12000))
       | _ => false
       end.

Definition has_mark (s : string) : bool :=
  existsb (fun mark => contains mark s) ["{{"; "}}"; "[["; "]]"].

Definition no_control (s : string) : bool := string_forallb (fun c => 32 <=? ascii_code c) s.

Definition validate_template_payload (payload : json) : result exn json :=
  version ← payload_version payload;
  let d := IterableDrafts.fields_of payload in
  message_type ← IterableDrafts.identifier (get_or_none d "messageTypeId");
  _ ← raise_if (2 ^ 31 - 1 <? message_type) invalid_request;
  _ ← raise_if (negb (forallb check_text d)) invalid_request;
  _ ← raise_if (negb (is_client_id (text_of d "clientTemplateId"))) invalid_request;
  _ ← raise_if (negb (forallb (fun key => (slen (text_of d key) <=? 254) && is_email (text_of d key))
                        ["fromEmail"; "replyToEmail"])) invalid_request;
  _ ← raise_if (negb (forallb (fun key => (slen (text_of d key) <=? 240) && no_control (text_of d key))
                        ["fromName"; "subject"; "name"])) invalid_request;
  _ ← raise_if (has_mark (text_of d "plainText") || has_mark (text_of d "subject")) invalid_request;
  let expected_html := plain_html (text_of d "plainText")
                       +:+ (if version =? 2 then MARKETING_FOOTER else "") in
  _ ← raise_if (negb (String.eqb (text_of d "html") expected_html)) invalid_request;
  _ ← raise_if (65536 <? slen (json_dumps_default true false payload)) invalid_request;
  Ok payload.

Definition SENDER_FIELDS : list string := ["fromEmail"; "fromName"; "replyToEmail"; "messageTypeId"].

Definition proposal_kind (operation_kind : string) : option string :=
  dict_get operation_kind
    [("create_iterable_email_draft", "invitation"); ("create_iterable_reminder_draft", "reminder")].

(** [v[key]] of a value that should be a dict. *)
Definition item (v : json) (key : string) : result exn json :=
  match v with JDict d => py (subscript d key) | _ => Err (Py TypeError) end.

(** [html.escape] calls [replace] on its argument. *)
Definition plain_html_of (body : json) : result exn string :=
  match body with JStr s => Ok (plain_html s) | _ => Err (Py AttributeError) end.

Definition author_payload (operation_kind : string) (content : json) (pk : Z) (sender : json)
    (version : Z) : result exn json :=
  _ ← raise_if (negb ((version =? 1) || (version =? 2))) invalid_request;
  match sender with
  | JDict s =>
      _ ← raise_if (negb (EventbriteDrafts.has_keys s SENDER_FIELDS)) invalid_request;
      match proposal_kind operation_kind with
      | None => Err invalid_request
      | Some kind =>
          part ← item content kind;
          subject ← item part "subject";
          body ← item part "body";
          html ← plain_html_of body;
          validate_template_payload (JDict
            ([("clientTemplateId", JStr (client_prefix +:+ ToolSchemas.uuid_text pk));
              ("name", JStr ("CivicLoop " +:+ kind +:+ " " +:+ ToolSchemas.uuid_text pk))]
             ++ s
             ++ [("subject", subject); ("plainText", body);
                 ("html", JStr (html +:+ (if version =? 2 then MARKETING_FOOTER else "")))]
             ++ (if version =? 2 then [("cacheDataFeed", JBool false)] else [])))
      end
  | _ => Err invalid_request
  end.

Definition compute_request_digest (region payload : json) : result exn string :=
  _ ← IterableDrafts.region_ region;
  validated ← validate_template_payload payload;
  Ok (IterableDrafts.digest (JDict [("region", region); ("payload", validated)])).

Section adapter.
Context (recursion : nat) (answer : server) (now : Z).

Definition allowed_request (method path : string) : bool :=
  (String.eqb method "POST" && String.eqb path "/api/templates/email/upsert")
  || (String.eqb method "GET"
      && match IterableDrafts.after "/api/templates/getByClientTemplateId?clientTemplateId=civicloop-" path with
         | Some id => fullmatch_chars (fun c => is_hex_lower c || is_char 45 c) 36 36 id
         | None => false
         end)
  || (String.eqb method "GET"
      && IterableDrafts.is_numeric_id (IterableDrafts.after "/api/templates/email/get?templateId=" path)).

(** A POST carries a payload of the current version only. *)
Definition check_post (payload : json) : result exn json :=
  validated ← validate_template_payload payload;
  version ← payload_version validated;
  _ ← raise_if (negb (version =? 2)) invalid_request;
  Ok validated.

Definition request_ : string -> string -> string -> json -> option json -> W (list (string * json)) :=
  IterableDrafts.send recursion answer allowed_request check_post.

Definition lookup_ (token : string) (region : json) (client_id : string) : W (list (list (string * json))) :=
  result ← request_ "GET" ("/api/templates/getByClientTemplateId?clientTemplateId=" +:+ client_id)
             token region None;
  match get_or_none result "templates" with
  | JList entries =>
      _ ← fail_if (100 <? Z.of_nat (length entries)) (IterableDraftError "invalid_response");
      lift (traverse (fun entry =>
        match entry with
        | JDict e => _ ← IterableDrafts.identifier (get_or_none e "templateId"); Ok e
        | _ => Err (IterableDraftError "invalid_response")
        end) entries)
  | _ => raise (IterableDraftError "invalid_response")
  end.

(** Content nobody reviewed: recipients, data feeds and external fields. *)
Definition foreign_content (template : list (string * json)) : bool :=
  existsb (fun key =>
    let value := get_or_none template key in
    negb (EventbriteDrafts.is_none value || py_eq value (JList []) || py_eq value (JStr "")))
    ["bccEmails"; "ccEmails"; "dataFeedIds"; "dataFeedId"; "linkParams"; "googleAnalyticsCampaignName";
     "campaignDataFields"; "preheaderText"].
Definition feeds_enabled (template : list (string * json)) : bool :=
  existsb (fun key =>
    let value := get_or_none template key in
    negb (EventbriteDrafts.is_none value || IterableDrafts.is_false value))
    ["cacheDataFeed"; "mergeDataFeedContext"].

(** The owned template's identifier: the only entry under the client's name. *)
Definition find_template (token : string) (region : json) (client_id : string)
    (provider_id : option string) : W Z :=
  entries ← lookup_ token region client_id;
  match entries with
  | [entry] =>
      _ ← fail_if (negb (EventbriteDrafts.is_none (get_or_none entry "campaignId")))
            (IterableDraftError "identity_mismatch");
      template_id ← lift (IterableDrafts.identifier (get_or_none entry "templateId"));
      _ ← fail_if (match provider_id with
                   | Some p => negb (String.eqb p "") && negb (String.eqb (str_of_Z template_id) p)
                   | None => false
                   end) (IterableDraftError "identity_mismatch");
      mret template_id
  | _ => raise (IterableDraftError "identity_mismatch")
  end.

Definition check_template (token : string) (region payload : json) (template_id : Z)
  : W (list (string * json)) :=
  template ← request_ "GET" ("/api/templates/email/get?templateId=" +:+ str_of_Z template_id)
               token region None;
  _ ← fail_if (negb (IterableDrafts.is_int (get_or_none template "templateId") template_id))
        (IterableDraftError "identity_mismatch");
  _ ← fail_if (negb (forallb (fun kv => py_eq (get_or_none template kv.1) kv.2)
                       (IterableDrafts.fields_of payload))) (IterableDraftError "readback_mismatch");
  _ ← fail_if (foreign_content template) (IterableDraftError "readback_mismatch");
  _ ← fail_if (feeds_enabled template) (IterableDraftError "readback_mismatch");
  mret template.

Definition confirm (token : string) (region payload : json) (request_digest : string)
    (provider_id : option string) : W receipt :=
  let failed id e :=
    match e with
    | IterableDraftError category =>
        mret (IterableDrafts.unknown_receipt id None request_digest category)
    | _ => raise e
    end in
  r ← EventbriteDrafts.attempt
        (find_template token region (text_of (IterableDrafts.fields_of payload) "clientTemplateId")
           provider_id);
  match r with
  | Err e => failed provider_id e
  | Ok template_id =>
      let id := Some (str_of_Z template_id) in
      c ← EventbriteDrafts.attempt (check_template token region payload template_id);
      match c with
      | Err e => failed id e
      | Ok template =>
          mret (Receipt "CONFIRMED" id (Some "template") request_digest
                  (Some (IterableDrafts.template_content_digest template)) None)
      end
  end.

Definition create (region payload : json) : W receipt :=
  payload ← lift (validate_template_payload payload);
  version ← lift (payload_version payload);
  _ ← fail_if (negb (version =? 2)) invalid_request;
  request_digest ← lift (compute_request_digest region payload);
  IterableDrafts.token_ now (fun token =>
    entries ← lookup_ token region (text_of (IterableDrafts.fields_of payload) "clientTemplateId");
    _ ← fail_if (negb (bool_decide (length entries = 0%nat))) (IterableDraftError "unowned_collision");
    r ← EventbriteDrafts.attempt (request_ "POST" "/api/templates/email/upsert" token region (Some payload));
    match r with
    | Err (IterableDraftError category) =>
        mret (IterableDrafts.unknown_receipt None None request_digest category)
    | Err e => raise e
    | Ok _ => confirm token region payload request_digest None
    end).

Definition reconcile (region payload : json) (request_digest : string) (provider_id : option string)
  : W receipt :=
  payload ← lift (validate_template_payload payload);
  digest ← lift (compute_request_digest region payload);
  _ ← fail_if (negb (String.eqb digest request_digest)) invalid_request;
  IterableDrafts.token_ now (fun token => confirm token region payload digest provider_id).

End adapter.

Example author_ex :
  is_ok (author_payload "create_iterable_email_draft"
    (JDict [("invitation", JDict [("subject", JStr "Hello"); ("body", JStr ("a<b" +:+ newline +:+ "c"))])])
    5
    (JDict [("fromEmail", JStr "team@example.org"); ("fromName", JStr "Team");
            ("replyToEmail", JStr "team@example.org"); ("messageTypeId", JInt 7)]) 2) = true.
Proof. vm_compute. reflexivity. Qed.
Example html_ex : plain_html ("a&'b" +:+ newline) = "<p>a&amp;&#x27;b<br>" +:+ newline +:+ "</p>".
Proof. vm_compute. reflexivity. Qed.

End IterableTemplates.
