(* ===== verification/DraftRows.v ===== *)
(** * The tables of the draft operations (backend/integrations/models.py, agents/models.py,
    identity/models.py)

    The rows that submission, approval and dispatch read, and the two tables they write
    with the guards of [save()] and the database's check constraints.  Workflows,
    revisions and demo actors are the tables of LaunchLoop.  A primary key is an integer;
    columns that no modelled code reads are left out. *)

From S2P Require Import Prelude PyValue LaunchLoop Budgets DraftProvider.

Module Rows.
Import Provider.

(** ** identity *)

Record user := User { u_pk : Z; u_is_authenticated : bool; u_is_active : bool }.
#[global] Instance user_eq_dec : EqDecision user.
Proof. solve_decision. Defined.

Inductive profile_status := ENROLLMENT_REQUIRED | ACTIVE | RECOVERY_REQUIRED | DISABLED.
#[global] Instance profile_status_eq_dec : EqDecision profile_status.
Proof. solve_decision. Defined.

Record administrator_profile := AdministratorProfile { a_user : Z; a_status : profile_status }.

Record administrator_session := AdministratorSession {
  s_profile : Z;
  s_mfa_verified_at : option Z;
  s_absolute_expires_at : option Z;
  s_expires_at : option Z;
  s_revoked_at : option Z;
  s_recovery_restricted : bool;
}.

(** ** agents *)

Inductive run_status := QUEUED | RUNNING | R_SUCCEEDED | R_FAILED | CANCELLED.
#[global] Instance run_status_eq_dec : EqDecision run_status.
Proof. solve_decision. Defined.

Inductive privacy_mode := SYNTHETIC_FULL | PILOT_MINIMIZED | PRIVACY_DISABLED.
#[global] Instance privacy_mode_eq_dec : EqDecision privacy_mode.
Proof. solve_decision. Defined.

Record agent_run := AgentRun {
  r_workflow : Z;
  r_event_revision : Z;
  r_package_hash : string;
  r_hermes_lane : bool;
  r_routing_policy : Z;
  r_model_profile : Z;
  r_fixture_id : option string;
  r_fixture_revision : option Z;
  r_fixture_digest : option string;
  r_privacy_mode : privacy_mode;
  r_status : run_status;
  r_started_at : option Z;
  r_finished_at : option Z;
  r_failure_category : string;
  r_input_tokens : Z;
  r_output_tokens : Z;
  r_cost : Z;
}.

Record agent_run_event := AgentRunEvent {
  v_run : Z;
  v_sequence : Z;
  v_event_type : string;
  v_outcome : string;
  v_detail_digest : string;
}.

Record hermes_binding := HermesRunBinding {
  b_actor : string;
  b_owner_session : option Z;
  b_correlation_id : Z;
  b_revision_digest : string;
}.

Record run_control := AgentRunControl {
  k_cancel_requested_at : option Z;
  k_capability : option Z;
  k_lease_expires_at : option Z;
  k_admission_disabled : bool;
}.

(** The single row of the admission lane. *)
Record admission_lane := HermesAdmissionLane {
  l_active_run : option Z;
  l_admission_disabled : bool;
}.

Record start_receipt := HermesStartReceipt {
  t_owner : option Z;
  t_actor : string;
  t_workflow : Z;
  t_revision : Z;
  t_run : Z;
}.

Record workflow_capability := WorkflowCapability {
  c_token_digest : string;
  c_revision_digest : string;
  c_workflow : Z;
  c_revision : Z;
  c_actor : string;
  c_tools : list string;
  c_audience : string;
  c_issued_at : Z;
  c_expires_at : Z;
  c_revoked_at : option Z;
  c_correlation_id : option Z;
}.

Record mcp_invocation := MCPInvocation {
  j_capability : Z;
  j_request_id : Z;
  j_idempotency_digest : string;
  j_argument_digest : string;
  j_tool_name : string;
  j_result : json;
}.

Record mcp_submission := MCPSubmission {
  m_capability : Z;
  m_kind : string;
  m_content : json;
  m_digest : string;
}.

Record draft_operation := DraftOperation {
  i_workflow : Z;
  i_revision : Z;
  i_actor : string;
  i_proposal : Z;
  i_provider : string;
  i_operation_kind : string;
  i_action_digest : string;
  i_idempotency_key : string;
  i_status : string;
  i_approval : option Z;
  i_receipt : option json;
}.

(** ** integrations *)

Record encrypted_secret := EncryptedSecret {
  e_provider : string;
  e_scope : string;
  e_ciphertext : list Z;
  e_nonce : list Z;
  e_algorithm : string;
  e_key_id : string;
  e_envelope_version : Z;
  e_status : string;
  e_version : Z;
  e_replaced_at : option Z;
  e_disabled_at : option Z;
}.

Record integration_connection := IntegrationConnection {
  n_state : string;
  n_secret : option Z;
  n_configuration : list (string * json);
}.

Inductive status := PENDING | APPROVED | EXECUTING | SUCCEEDED | FAILED | UNKNOWN.
#[global] Instance status_eq_dec : EqDecision status.
Proof. solve_decision. Defined.

(** A row of [DraftExecution] or of [TemplateExecution]: the columns are the same. *)
Record execution := Execution {
  x_intent : Z;
  x_run : Z;
  x_submitter : Z;
  x_approver : option Z;
  x_action : string;
  x_organization_id : string;
  x_event_id : string;
  x_expected_readback_digest : string;
  x_provider_configuration : json;
  x_payload : json;
  x_request_digest : string;
  x_review_digest : string;
  x_status : status;
  x_receipt : option json;
  x_provider_id : string;
  x_error_category : string;
  x_approved_at : option Z;
  x_approval_session : option Z;
  x_claimed_at : option Z;
  x_completed_at : option Z;
}.

(** Which of the two tables. *)
Inductive model := DRAFT | TEMPLATE.
#[global] Instance model_eq_dec : EqDecision model.
Proof. solve_decision. Defined.

(** [invocations] and [run_events] are in the order of their rows. *)
Record db := DB {
  launch : LaunchLoop.db;
  users : gmap Z user;
  profiles : gmap Z administrator_profile;
  sessions : gmap Z administrator_session;
  capabilities : gmap Z workflow_capability;
  submissions : gmap Z mcp_submission;
  intents : gmap Z draft_operation;
  runs : gmap Z agent_run;
  bindings : gmap Z hermes_binding;
  controls : gmap Z run_control;
  lane : option admission_lane;
  run_events : list agent_run_event;
  receipts : gmap Z start_receipt;
  invocations : list mcp_invocation;
  budgets : Budgets.db;
  connections : gmap string integration_connection;
  secrets : gmap Z encrypted_secret;
  drafts : gmap Z execution;
  templates : gmap Z execution;
  environ : gmap string string;
  clock : Z;
  next_id : Z;
}.

Abbreviation M := (ST db exn).

Definition table (m : model) (d : db) : gmap Z execution :=
  match m with DRAFT => drafts d | TEMPLATE => templates d end.
Definition set_table (m : model) (t : gmap Z execution) (d : db) : db :=
  DB (launch d) (users d) (profiles d) (sessions d) (capabilities d) (submissions d) (intents d)
    (runs d) (bindings d) (controls d) (lane d) (run_events d) (receipts d) (invocations d)
    (budgets d) (connections d) (secrets d) (match m with DRAFT => t | TEMPLATE => drafts d end)
    (match m with DRAFT => templates d | TEMPLATE => t end) (environ d) (clock d) (next_id d).
Definition set_secrets (t : gmap Z encrypted_secret) (d : db) : db :=
  DB (launch d) (users d) (profiles d) (sessions d) (capabilities d) (submissions d) (intents d)
    (runs d) (bindings d) (controls d) (lane d) (run_events d) (receipts d) (invocations d)
    (budgets d) (connections d) t (drafts d) (templates d) (environ d) (clock d) (next_id d).
Definition set_launch (t : LaunchLoop.db) (d : db) : db :=
  DB t (users d) (profiles d) (sessions d) (capabilities d) (submissions d) (intents d) (runs d)
    (bindings d) (controls d) (lane d) (run_events d) (receipts d) (invocations d) (budgets d)
    (connections d) (secrets d) (drafts d) (templates d) (environ d) (clock d) (next_id d).
Definition set_capabilities (t : gmap Z workflow_capability) (d : db) : db :=
  DB (launch d) (users d) (profiles d) (sessions d) t (submissions d) (intents d) (runs d)
    (bindings d) (controls d) (lane d) (run_events d) (receipts d) (invocations d) (budgets d)
    (connections d) (secrets d) (drafts d) (templates d) (environ d) (clock d) (next_id d).
Definition set_submissions (t : gmap Z mcp_submission) (d : db) : db :=
  DB (launch d) (users d) (profiles d) (sessions d) (capabilities d) t (intents d) (runs d)
    (bindings d) (controls d) (lane d) (run_events d) (receipts d) (invocations d) (budgets d)
    (connections d) (secrets d) (drafts d) (templates d) (environ d) (clock d) (next_id d).
Definition set_intents (t : gmap Z draft_operation) (d : db) : db :=
  DB (launch d) (users d) (profiles d) (sessions d) (capabilities d) (submissions d) t (runs d)
    (bindings d) (controls d) (lane d) (run_events d) (receipts d) (invocations d) (budgets d)
    (connections d) (secrets d) (drafts d) (templates d) (environ d) (clock d) (next_id d).
Definition set_runs (t : gmap Z agent_run) (d : db) : db :=
  DB (launch d) (users d) (profiles d) (sessions d) (capabilities d) (submissions d) (intents d)
    t (bindings d) (controls d) (lane d) (run_events d) (receipts d) (invocations d) (budgets d)
    (connections d) (secrets d) (drafts d) (templates d) (environ d) (clock d) (next_id d).
Definition set_bindings (t : gmap Z hermes_binding) (d : db) : db :=
  DB (launch d) (users d) (profiles d) (sessions d) (capabilities d) (submissions d) (intents d)
    (runs d) t (controls d) (lane d) (run_events d) (receipts d) (invocations d) (budgets d)
    (connections d) (secrets d) (drafts d) (templates d) (environ d) (clock d) (next_id d).
Definition set_controls (t : gmap Z run_control) (d : db) : db :=
  DB (launch d) (users d) (profiles d) (sessions d) (capabilities d) (submissions d) (intents d)
    (runs d) (bindings d) t (lane d) (run_events d) (receipts d) (invocations d) (budgets d)
    (connections d) (secrets d) (drafts d) (templates d) (environ d) (clock d) (next_id d).
Definition set_lane (t : option admission_lane) (d : db) : db :=
  DB (launch d) (users d) (profiles d) (sessions d) (capabilities d) (submissions d) (intents d)
    (runs d) (bindings d) (controls d) t (run_events d) (receipts d) (invocations d) (budgets d)
    (connections d) (secrets d) (drafts d) (templates d) (environ d) (clock d) (next_id d).
Definition set_run_events (t : list agent_run_event) (d : db) : db :=
  DB (launch d) (users d) (profiles d) (sessions d) (capabilities d) (submissions d) (intents d)
    (runs d) (bindings d) (controls d) (lane d) t (receipts d) (invocations d) (budgets d)
    (connections d) (secrets d) (drafts d) (templates d) (environ d) (clock d) (next_id d).
Definition set_receipts (t : gmap Z start_receipt) (d : db) : db :=
  DB (launch d) (users d) (profiles d) (sessions d) (capabilities d) (submissions d) (intents d)
    (runs d) (bindings d) (controls d) (lane d) (run_events d) t (invocations d) (budgets d)
    (connections d) (secrets d) (drafts d) (templates d) (environ d) (clock d) (next_id d).
Definition set_invocations (t : list mcp_invocation) (d : db) : db :=
  DB (launch d) (users d) (profiles d) (sessions d) (capabilities d) (submissions d) (intents d)
    (runs d) (bindings d) (controls d) (lane d) (run_events d) (receipts d) t (budgets d)
    (connections d) (secrets d) (drafts d) (templates d) (environ d) (clock d) (next_id d).
Definition set_budgets (t : Budgets.db) (d : db) : db :=
  DB (launch d) (users d) (profiles d) (sessions d) (capabilities d) (submissions d) (intents d)
    (runs d) (bindings d) (controls d) (lane d) (run_events d) (receipts d) (invocations d) t
    (connections d) (secrets d) (drafts d) (templates d) (environ d) (clock d) (next_id d).
Definition set_next (n : Z) (d : db) : db :=
  DB (launch d) (users d) (profiles d) (sessions d) (capabilities d) (submissions d) (intents d)
    (runs d) (bindings d) (controls d) (lane d) (run_events d) (receipts d) (invocations d)
    (budgets d) (connections d) (secrets d) (drafts d) (templates d) (environ d) (clock d) n.

Definition fresh : M Z :=
  d ← get; _ ← put (set_next (next_id d + 1) d); mret (next_id d).

(** ** The constraints of the table *)

Definition isnull {A : Type} (o : option A) : bool := match o with None => true | Some _ => false end.

Definition approval_required (x : execution) : bool :=
  if bool_decide (x_status x = PENDING)
  then isnull (x_approver x) && isnull (x_approval_session x) && isnull (x_approved_at x)
       && isnull (x_claimed_at x)
  else negb (isnull (x_approver x)) && negb (isnull (x_approved_at x))
       && negb (isnull (x_approval_session x)).

Definition execution_lifecycle (x : execution) : bool :=
  match x_status x with
  | PENDING | APPROVED =>
      isnull (x_claimed_at x) && isnull (x_completed_at x) && isnull (x_receipt x)
      && String.eqb (x_provider_id x) "" && String.eqb (x_error_category x) ""
  | EXECUTING =>
      negb (isnull (x_claimed_at x)) && isnull (x_completed_at x) && isnull (x_receipt x)
      && String.eqb (x_error_category x) ""
  | UNKNOWN | FAILED => negb (isnull (x_claimed_at x)) && negb (isnull (x_completed_at x))
  | SUCCEEDED =>
      negb (isnull (x_claimed_at x)) && negb (isnull (x_completed_at x))
      && negb (isnull (x_receipt x)) && negb (String.eqb (x_provider_id x) "")
  end.

Definition constraints_hold (x : execution) : bool :=
  (String.eqb (x_action x) "create" || String.eqb (x_action x) "update")
  && approval_required x && execution_lifecycle x.

(** ** [save()] *)

(** The columns of the review: [fields] of [save]. *)
Definition same_review (old x : execution) : bool :=
  (x_intent old =? x_intent x) && (x_run old =? x_run x) && (x_submitter old =? x_submitter x)
  && String.eqb (x_action old) (x_action x)
  && String.eqb (x_organization_id old) (x_organization_id x)
  && String.eqb (x_event_id old) (x_event_id x)
  && String.eqb (x_expected_readback_digest old) (x_expected_readback_digest x)
  && py_eq (x_payload old) (x_payload x)
  && py_eq (x_provider_configuration old) (x_provider_configuration x)
  && String.eqb (x_request_digest old) (x_request_digest x)
  && String.eqb (x_review_digest old) (x_review_digest x).

(** The approval is kept once there is one (a primary key is never zero). *)
Definition same_approval (old x : execution) : bool :=
  isnull (x_approver old)
  || (bool_decide (x_approver old = x_approver x) && bool_decide (x_approved_at old = x_approved_at x)
      && bool_decide (x_approval_session old = x_approval_session x)).

Definition allowed (from to : status) : bool :=
  match from, to with
  | PENDING, (PENDING | APPROVED) => true
  | APPROVED, (APPROVED | EXECUTING) => true
  | EXECUTING, (EXECUTING | UNKNOWN | FAILED | SUCCEEDED) => true
  | UNKNOWN, (UNKNOWN | SUCCEEDED) => true
  | FAILED, FAILED => true
  | SUCCEEDED, SUCCEEDED => true
  | _, _ => false
  end.

Definition save_guard (m : model) (old x : execution) : result exn () :=
  _ ← raise_if (negb (same_review old x) || negb (same_approval old x))
        (ValidationError ((match m with DRAFT => "Draft" | TEMPLATE => "Template" end)
                          +:+ " execution review and approval are immutable."));
  raise_if (negb (allowed (x_status old) (x_status x))
            || (negb (isnull (x_claimed_at old)) && negb (bool_decide (x_claimed_at x = x_claimed_at old)))
            || (negb (isnull (x_completed_at old)) && isnull (x_completed_at x)))
    (ValidationError "Execution claim history cannot be reset.").

Definition put_row (m : model) (id : Z) (x : execution) : M () :=
  _ ← fail_if (negb (constraints_hold x)) (IntegrityError "integrations_execution_lifecycle");
  modify (fun d => set_table m (<[id := x]> (table m d)) d).

Definition save (m : model) (id : Z) (x : execution) : M () :=
  d ← get;
  _ ← (match table m d !! id with
       | Some old => lift (save_guard m old x)
       | None => fail_if (LaunchLoop.any_row (table m d) (fun y => x_intent y =? x_intent x))
                   (IntegrityError "intent_id")
       end);
  put_row m id x.

(** [Model.objects.create(...)] under a new key. *)
Definition create_row (m : model) (x : execution) : M Z :=
  id ← fresh; _ ← save m id x; mret id.

(** [Model.objects.filter(pk=).update(status=, error_category=, completed_at=)]: no
    [save()], so none of its guards. *)
Definition set_outcome (s : status) (category : string) (now : Z) (x : execution) : execution :=
  Execution (x_intent x) (x_run x) (x_submitter x) (x_approver x) (x_action x) (x_organization_id x)
    (x_event_id x) (x_expected_readback_digest x) (x_provider_configuration x) (x_payload x)
    (x_request_digest x) (x_review_digest x) s (x_receipt x) (x_provider_id x) category
    (x_approved_at x) (x_approval_session x) (x_claimed_at x) (Some now).
Definition update_row (m : model) (id : Z) (s : status) (category : string) : M () :=
  d ← get;
  match table m d !! id with
  | None => mret ()
  | Some x => put_row m id (set_outcome s category (clock d) x)
  end.

End Rows.
