(* ===== verification/DraftReview.v ===== *)
(** * Reviews (backend/integrations/draft_operations.py, lines 38-190 and 446-525)

    What a submitted operation must satisfy before it is approved, dispatched or
    reconciled: the accepted intent, the digests of the exact request and of the review,
    and the owner's session.

    Django loads the relations of a row once, at their first use; [related] is that
    snapshot, taken when an operation is validated for the first time.  Everything the
    code asks the database for by itself (the workflow, its revision, the actor, the
    owner's session, the template of a campaign) is read again at every validation. *)

From S2P Require Import Prelude PyValue Sha256 OwnerEvents LaunchLoop ToolSchemas DraftProvider EventbriteDrafts IterableDrafts IterableTemplates DraftRows.

Module Review.
Import Provider Rows.

Definition tool {A : Type} (r : result ToolSchemas.invalid A) : result exn A :=
  match r with Ok a => Ok a | Err _ => Err InvalidToolArguments end.

Definition digest (value : json) : result exn string :=
  text ← tool (ToolSchemas.bounded_json value); Ok (Sha256.sha256_hex text).

Definition denied {A : Type} (message : string) : M A := raise (PermissionDenied message).
Definition deny_if (c : bool) (message : string) : M () := fail_if c (PermissionDenied message).

Definition str_id (id : Z) : json := JStr (ToolSchemas.uuid_text id).

(** ** People *)

Definition signed_in (u : option user) : option user :=
  match u with
  | Some u => if u_is_authenticated u && u_is_active u then Some u else None
  | None => None
  end.

Definition actor_ (u : option user) (role : LaunchLoop.role) : M LaunchLoop.actor :=
  user ← some_or (signed_in u) (PermissionDenied "Authenticated active user required.");
  d ← get;
  some_or (snd <$> List.find (fun kv => bool_decide (LaunchLoop.a_user kv.2 = Some (u_pk user))
                                        && bool_decide (LaunchLoop.a_role kv.2 = role))
                     (map_to_list (LaunchLoop.d_actors (launch d))))
    (PermissionDenied "User-bound actor role required.").

Definition after_now (t : option Z) (now : Z) : bool :=
  match t with Some t => now <? t | None => false end.

(** The filter on [AdministratorSession] that every owner operation uses. *)
Definition full_session (d : db) (s : administrator_session) (p : administrator_profile) : bool :=
  bool_decide (a_status p = ACTIVE)
  && match users d !! a_user p with Some u => u_is_active u | None => false end
  && negb (s_recovery_restricted s)
  && isnull (s_revoked_at s)
  && after_now (s_expires_at s) (clock d)
  && after_now (s_absolute_expires_at s) (clock d)
  && negb (isnull (s_mfa_verified_at s)).

(** [_session]: the session's key when it is a full session of this user. *)
Definition session_ (u : option user) (session_id : Z) : M Z :=
  user ← some_or (signed_in u) (PermissionDenied "Authenticated owner required.");
  d ← get;
  match sessions d !! session_id with
  | Some s =>
      match profiles d !! s_profile s with
      | Some p =>
          _ ← deny_if (negb ((a_user p =? u_pk user) && full_session d s p))
                "Active full owner session required.";
          mret session_id
      | None => denied "Active full owner session required."
      end
  | None => denied "Active full owner session required."
  end.

(** ** The relations of an operation *)

Record related := Related {
  r_intent : draft_operation;
  r_proposal : mcp_submission;
  r_capability : workflow_capability;
  r_run : agent_run;
  r_binding : option hermes_binding;
  r_control : option run_control;
  r_submitter : user;
  r_approver : option user;
  r_session : option (administrator_session * administrator_profile);
}.

(** A foreign key always has its row ([on_delete=PROTECT]). *)
Definition load (x : execution) : M related :=
  d ← get;
  intent ← some_or (intents d !! x_intent x) (DoesNotExist "DraftOperation");
  proposal ← some_or (submissions d !! i_proposal intent) (DoesNotExist "MCPSubmission");
  capability ← some_or (capabilities d !! m_capability proposal) (DoesNotExist "WorkflowCapability");
  run ← some_or (runs d !! x_run x) (DoesNotExist "AgentRun");
  submitter ← some_or (users d !! x_submitter x) (DoesNotExist "User");
  mret (Related intent proposal capability run (bindings d !! x_run x) (controls d !! x_run x)
          submitter (approver ← x_approver x; users d !! approver)
          (id ← x_approval_session x; s ← sessions d !! id; p ← profiles d !! s_profile s; Some (s, p))).

(** ** [validate_intent] *)

Definition action_digest (workflow_id : Z) (revision_digest : string) (i : draft_operation)
    (p : mcp_submission) : result exn string :=
  digest (JDict [("workflow_id", str_id workflow_id); ("revision_id", JInt (i_revision i));
                 ("revision_digest", JStr revision_digest); ("provider", JStr (i_provider i));
                 ("operation_kind", JStr (i_operation_kind i));
                 ("proposal_digest", JStr (m_digest p))]).

Definition idempotency_digest (workflow_id : Z) (i : draft_operation) (action : string) : result exn string :=
  digest (JList [str_id workflow_id; JInt (i_revision i); JStr (i_actor i); JStr (i_operation_kind i);
                 JStr action]).

Definition known_operation (provider kind : string) : bool :=
  bool_decide ((provider, kind) ∈ [("eventbrite", "create_eventbrite_draft");
    ("iterable", "create_iterable_email_draft"); ("iterable", "create_iterable_reminder_draft")]).

Definition request_tool (provider : string) : string :=
  if String.eqb provider "eventbrite" then "request_eventbrite_draft" else "request_iterable_drafts".

Definition not_accepted : string := "Intent is not an accepted current provider proposal.".

(** The run and the capability against the intent; [capability_id] and [workflow_id] are
    the keys of their rows. *)
Definition run_mismatch (workflow_id : Z) (w : LaunchLoop.workflow) (run : agent_run) : bool :=
  negb (bool_decide (r_status run = R_SUCCEEDED)) || negb (r_hermes_lane run)
  || negb (r_workflow run =? workflow_id) || negb (r_event_revision run =? LaunchLoop.w_revision w)
  || negb (String.eqb (r_package_hash run) (LaunchLoop.w_package_hash w)).
Definition capability_mismatch (workflow_id : Z) (w : LaunchLoop.workflow) (i : draft_operation)
    (c : workflow_capability) (correlation : Z) (revision_digest : string) : bool :=
  negb (c_workflow c =? workflow_id) || negb (c_revision c =? LaunchLoop.w_revision w)
  || negb (String.eqb (c_actor c) (i_actor i)) || negb (String.eqb (c_audience c) "civicloop-hermes")
  || negb (bool_decide (c_correlation_id c = Some correlation))
  || negb (bool_decide (request_tool (i_provider i) ∈ c_tools c))
  || negb (String.eqb (c_revision_digest c) revision_digest).
Definition intent_mismatch (i : draft_operation) (action idem : string) : bool :=
  negb (known_operation (i_provider i) (i_operation_kind i))
  || negb (String.eqb (i_status i) "pending")
  || negb (isnull (i_approval i)) || negb (isnull (i_receipt i))
  || negb (String.eqb (i_action_digest i) action) || negb (String.eqb (i_idempotency_key i) idem).

Definition validate_intent (r : related) : M string :=
  let i := r_intent r in
  let p := r_proposal r in
  d ← get;
  w ← some_or (LaunchLoop.d_workflows (launch d) !! i_workflow i) (DoesNotExist "Workflow");
  revision ← some_or (LaunchLoop.d_revisions (launch d) !! LaunchLoop.w_revision w)
               (DoesNotExist "EventRevision");
  revision_digest ← lift (digest (JDict (LaunchLoop.r_snapshot revision)));
  action ← lift (action_digest (i_workflow i) revision_digest i p);
  idem ← lift (idempotency_digest (i_workflow i) i action);
  _ ← deny_if (run_mismatch (i_workflow i) w (r_run r)) not_accepted;
  binding ← some_or (r_binding r) (DoesNotExist "HermesRunBinding");
  _ ← deny_if (negb (String.eqb (b_actor binding) (i_actor i))
               || negb (String.eqb (b_revision_digest binding) revision_digest)) not_accepted;
  control ← some_or (r_control r) (DoesNotExist "AgentRunControl");
  _ ← deny_if (negb (bool_decide (k_capability control = Some (m_capability p)))
               || capability_mismatch (i_workflow i) w i (r_capability r) (b_correlation_id binding)
                    revision_digest
               || negb (i_revision i =? LaunchLoop.w_revision w)
               || negb (String.eqb (m_kind p) "proposal")) not_accepted;
  content ← lift (digest (m_content p));
  _ ← deny_if (negb (String.eqb (m_digest p) content) || intent_mismatch i action idem) not_accepted;
  _ ← deny_if (String.eqb (i_provider i) "iterable"
               && negb (is_ok (ToolSchemas.validate (m_content p) ToolSchemas.PROPOSAL)))
        "Accepted Iterable content schema required.";
  mret revision_digest.

(** ** The review of a request *)

Section platform.
Context `{OwnerEvents.Platform}.
Context (recursion : nat).

Definition review_digest (x : execution) (i : draft_operation) (revision_digest request : string)
  : result exn string :=
  digest (JDict [("intent", str_id (x_intent x)); ("run", str_id (x_run x));
                 ("revision", JInt (i_revision i)); ("revision_digest", JStr revision_digest);
                 ("action_digest", JStr (i_action_digest i));
                 ("idempotency_key", JStr (i_idempotency_key i));
                 ("request_digest", JStr request);
                 ("expected_readback_digest", JStr (x_expected_readback_digest x))]).

(** [event_id or None] *)
Definition or_none (s : string) : option string := if String.eqb s "" then None else Some s.

(** [_review] on the columns of an operation: the digests of the request and the review. *)
Definition review (x : execution) (r : related) : M (string * string) :=
  revision_digest ← validate_intent r;
  request ← lift (EventbriteDrafts.compute_request_digest recursion (x_action x) (x_organization_id x)
                    (or_none (x_event_id x)) (x_payload x));
  review ← lift (review_digest x (r_intent r) revision_digest request);
  mret (request, review).

Definition step_name (m : model) : string := match m with TEMPLATE => "template" | DRAFT => "campaign" end.

Definition iterable_review_digest (m : model) (x : execution) (i : draft_operation)
    (revision_digest request : string) : result exn string :=
  digest (JDict [("intent", str_id (x_intent x)); ("run", str_id (x_run x));
                 ("revision", JInt (i_revision i)); ("revision_digest", JStr revision_digest);
                 ("action_digest", JStr (i_action_digest i));
                 ("idempotency_key", JStr (i_idempotency_key i));
                 ("step", JStr (step_name m)); ("request_digest", JStr request)]).

(** The columns an Iterable operation leaves empty. *)
Definition create_only (x : execution) : bool :=
  String.eqb (x_action x) "create" && String.eqb (x_organization_id x) ""
  && String.eqb (x_event_id x) "" && String.eqb (x_expected_readback_digest x) "".

Definition configuration_of (x : execution) : M (list (string * json)) :=
  match x_provider_configuration x with
  | JDict c => mret c
  | _ => denied "Exact Iterable configuration required."
  end.

(** The common start of [_iterable_review]. *)
Definition iterable_start (x : execution) (r : related) : M (string * list (string * json)) :=
  revision_digest ← validate_intent r;
  configuration ← configuration_of x;
  _ ← deny_if (negb (create_only x)) "Iterable only supports create-only operations.";
  mret (revision_digest, configuration).

(** [{key: payload[key] for key in (...)}] *)
Definition sender_of (payload : json) : result exn json :=
  values ← traverse (fun key => v ← IterableTemplates.item payload key; Ok (key, v))
             ["fromEmail"; "fromName"; "replyToEmail"; "messageTypeId"];
  Ok (JDict values).

Definition template_review (x : execution) (r : related) : M (string * string) :=
  start ← iterable_start x r;
  let '(revision_digest, configuration) := start in
  _ ← deny_if (negb (EventbriteDrafts.has_keys configuration ["region"])) "Exact template region required.";
  sender ← lift (sender_of (x_payload x));
  version ← lift (IterableTemplates.payload_version (x_payload x));
  expected ← lift (IterableTemplates.author_payload (i_operation_kind (r_intent r))
                     (m_content (r_proposal r)) (x_intent x) sender version);
  _ ← deny_if (negb (py_eq (x_payload x) expected))
        "Template content must match the accepted Hermes proposal.";
  region ← lift (py (subscript configuration "region"));
  request ← lift (IterableTemplates.compute_request_digest region (x_payload x));
  review ← lift (iterable_review_digest TEMPLATE x (r_intent r) revision_digest request);
  mret (request, review).

(** ** [validate_execution] *)

(** [except EventbriteDraftError, IterableDraftError, KeyError, TypeError] *)
Definition payload_invalid {A : Type} (m : M A) : M A :=
  catch m (fun e =>
    match e with
    | EventbriteDraftError _ | IterableDraftError _ | Py (KeyError _) | Py TypeError =>
        denied "Reviewed provider payload is invalid."
    | _ => raise e
    end).

(** The proof of an approval that need not be live any more. *)
Definition approval_proof_ok (x : execution) (approver : user) (s : administrator_session)
    (p : administrator_profile) (approved_at : Z) : bool :=
  u_is_active approver && bool_decide (a_status p = ACTIVE)
  && bool_decide (x_approver x = Some (a_user p)) && negb (s_recovery_restricted s)
  && match s_mfa_verified_at s with Some t => t <=? approved_at | None => false end
  && after_now (s_expires_at s) approved_at && after_now (s_absolute_expires_at s) approved_at
  && match s_revoked_at s with Some t => approved_at <? t | None => true end.

(** The rest of [validate_execution], from the comparison of the digests on. *)
Definition check_reviewed (x : execution) (r : related) (live : bool) (computed : string * string) : M () :=
  let '(request, review) := computed in
  _ ← deny_if (negb (String.eqb request (x_request_digest x)) || negb (String.eqb review (x_review_digest x)))
        "Reviewed provider payload changed.";
  actor ← actor_ (Some (r_submitter r)) LaunchLoop.OPERATOR;
  _ ← deny_if (negb (String.eqb (LaunchLoop.a_slug actor) (i_actor (r_intent r))))
        "Execution submitter must match the accepted intent actor.";
  match x_approver x with
  | None => mret ()
  | Some _ =>
      session_id ← some_or (x_approval_session x) (PermissionDenied "Owner approval session proof required.");
      if live then _ ← session_ (r_approver r) session_id; mret ()
      else
        proof ← some_or (r_session r) (DoesNotExist "AdministratorSession");
        approver ← some_or (r_approver r) (DoesNotExist "User");
        approved_at ← some_or (x_approved_at x) (Py TypeError);
        deny_if (negb (approval_proof_ok x approver proof.1 proof.2 approved_at))
          "Original owner approval proof is invalid."
  end.

Definition validate_template (x : execution) (r : related) (live : bool) : M () :=
  computed ← payload_invalid (
    c ← template_review x r;
    version ← lift (if live then IterableTemplates.payload_version (x_payload x) else Ok 2);
    _ ← deny_if (negb (version =? 2)) "Prepare a new reviewed template with its marketing footer.";
    mret c);
  check_reviewed x r live computed.

(** [TemplateExecution.objects.get(intent=)] *)
Definition template_of (intent : Z) : M (Z * execution) :=
  d ← get;
  some_or (List.find (fun kv => x_intent kv.2 =? intent) (map_to_list (templates d)))
    (DoesNotExist "TemplateExecution").

(** The confirmed template a campaign is made from: its receipt and region, its number. *)
Definition template_confirmed (t : execution) (configuration : list (string * json)) : bool :=
  bool_decide (x_status t = SUCCEEDED)
  && match x_receipt t with
     | Some (JDict receipt) =>
         py_eq (get_or_none receipt "outcome") (JStr "CONFIRMED")
         && py_eq (get_or_none (IterableDrafts.fields_of (x_provider_configuration t)) "region")
              (get_or_none configuration "region")
         && py_eq (get_or_none receipt "readback_digest") (get_or_none configuration "expected_template_digest")
     | _ => false
     end.
Definition names_template (t : execution) (payload : list (string * json)) : bool :=
  match get_or_none payload "templateId" with
  | JInt id => String.eqb (str_of_Z id) (x_provider_id t)
  | _ => false
  end.
Definition unconfirmed : string := "Campaign requires the confirmed owned Hermes template.".

Definition campaign_review (x : execution) (r : related) : M (string * string) :=
  start ← iterable_start x r;
  let '(revision_digest, configuration) := start in
  _ ← deny_if (negb (EventbriteDrafts.has_keys configuration ["region"; "expected_template_digest"]))
        "Exact campaign region and template digest required.";
  t ← template_of (x_intent x);
  tr ← load t.2;
  _ ← validate_template t.2 tr false;
  _ ← deny_if (negb (template_confirmed t.2 configuration)) unconfirmed;
  payload ← (match x_payload x with JDict p => mret p | _ => raise (Py AttributeError) end);
  _ ← deny_if (negb (names_template t.2 payload)) unconfirmed;
  request ← lift (IterableDrafts.compute_request_digest recursion (get_or_none configuration "region")
                    (x_payload x) (get_or_none configuration "expected_template_digest"));
  review ← lift (iterable_review_digest DRAFT x (r_intent r) revision_digest request);
  mret (request, review).

(** An empty dict, or anything else that is falsy. *)
Definition eventbrite_review (x : execution) (r : related) : M (string * string) :=
  _ ← deny_if (truthy (x_provider_configuration x)) "Unexpected provider configuration.";
  review x r.

Definition validate_execution (m : model) (x : execution) (r : related) (live : bool) : M () :=
  if String.eqb (i_provider (r_intent r)) "iterable" then
    match m with
    | TEMPLATE => validate_template x r live
    | DRAFT => computed ← payload_invalid (campaign_review x r); check_reviewed x r live computed
    end
  else computed ← payload_invalid (eventbrite_review x r); check_reviewed x r live computed.

End platform.
End Review.
