(* ===== verification/Crypto.v ===== *)
(** * Envelope encryption of provider credentials (backend/integrations/crypto.py)

    AES-256-GCM is the [cryptography] package's: the class [AESGCM] states what the code
    relies on.  The key ring, already loaded, is an argument; reading and checking the key
    file is not modelled. *)

From S2P Require Import Prelude PyValue Sha256 ToolSchemas DraftProvider.

Module Crypto.
Import Provider.

Definition ALGORITHM : string := "AES-256-GCM".
Definition ENVELOPE_VERSION : Z := 1.
Definition MAX_SECRET_BYTES : Z := 16 * 1024.
Definition KEY_ID_PATTERN : string -> bool :=
  fullmatch_chars (fun c => is_alnum c || ToolSchemas.one_of "._-" c) 1 64.

Record IntegrationKeyRing := KeyRing { active_key_id : string; keys : gmap string (list Z) }.

Record EncryptedEnvelope := Envelope {
  version : Z;
  algorithm : string;
  key_id : string;
  nonce : list Z;
  ciphertext : list Z;
}.

(** [AESGCM(key).encrypt(nonce, data, aad)] and [.decrypt]: authenticated encryption with
    a tag of sixteen bytes; [decrypt] raises [InvalidTag] ([None]). *)
Class AESGCM := {
  seal : list Z -> list Z -> list Z -> list Z -> list Z;
  open : list Z -> list Z -> list Z -> list Z -> option (list Z);
  open_seal key nonce data aad : open key nonce (seal key nonce data aad) aad = Some data;
  seal_length key nonce data aad : length (seal key nonce data aad) = (length data + 16)%nat;
}.

Definition nul : string := char_string (chr 0).
Definition has_nul (s : string) : bool := has_char 0 s.

Definition aad (secret_id : Z) (provider scope key_id : string) : result exn (list Z) :=
  _ ← raise_if (String.eqb provider "" || String.eqb scope "" || has_nul provider || has_nul scope)
        (Py (ValueError "Invalid secret metadata"));
  let text := "civicloop.integrations.secret.v" +:+ str_of_Z ENVELOPE_VERSION
              +:+ nul +:+ ToolSchemas.uuid_text secret_id +:+ nul +:+ provider
              +:+ nul +:+ scope +:+ nul +:+ ALGORITHM +:+ nul +:+ key_id in
  (* [.encode("ascii")] *)
  _ ← raise_if (negb (string_forallb (fun c => ascii_code c <=? 127) text)) (Py (ValueError "ascii"));
  Ok (Sha256.bytes_of_string text).

(** [except Exception: raise IntegrationCryptoError() from None] *)
Definition crypto_error {A : Type} (r : result exn A) : result exn A :=
  match r with Ok a => Ok a | Err _ => Err IntegrationCryptoError end.

Section aead.
Context `{AESGCM} (ring : option IntegrationKeyRing).

Definition configured_key_ring : result exn IntegrationKeyRing :=
  match ring with Some r => Ok r | None => Err IntegrationCryptoError end.

Definition key_of (r : IntegrationKeyRing) (key_id : string) : result exn (list Z) :=
  match keys r !! key_id with Some k => Ok k | None => Err (Py (KeyError key_id)) end.

(** [random] is [secrets.token_bytes(12)]. *)
Definition encrypt_secret (random plaintext : list Z) (secret_id : Z) (provider scope : string)
  : result exn EncryptedEnvelope :=
  let size := Z.of_nat (length plaintext) in
  _ ← raise_if (negb ((1 <=? size) && (size <=? MAX_SECRET_BYTES))) IntegrationCryptoError;
  crypto_error (
    key_ring ← configured_key_ring;
    let key_id := active_key_id key_ring in
    key ← key_of key_ring key_id;
    a ← aad secret_id provider scope key_id;
    Ok (Envelope ENVELOPE_VERSION ALGORITHM key_id random (seal key random plaintext a))).

Definition decrypt_secret (envelope : EncryptedEnvelope) (secret_id : Z) (provider scope : string)
  : result exn (list Z) :=
  crypto_error (
    _ ← raise_if (negb (version envelope =? ENVELOPE_VERSION)
                  || negb (String.eqb (algorithm envelope) ALGORITHM))
          (Py (ValueError "Unsupported envelope"));
    _ ← raise_if (negb (KEY_ID_PATTERN (key_id envelope))) (Py (ValueError "Invalid key id"));
    _ ← raise_if (negb (length (nonce envelope) =? 12)%nat || (length (ciphertext envelope) <? 17)%nat)
          (Py (ValueError "Invalid encrypted value"));
    key_ring ← configured_key_ring;
    key ← key_of key_ring (key_id envelope);
    a ← aad secret_id provider scope (key_id envelope);
    match open key (nonce envelope) (ciphertext envelope) a with
    | Some plaintext => Ok plaintext
    | None => Err IntegrationCryptoError
    end).

End aead.
End Crypto.
