(* ===== verification/SecretStore.v ===== *)
(** * The credential store (backend/integrations/secret_store.py)

    Storing, replacing and disabling an encrypted credential, and the lease that exposes
    its plaintext to one validated operation.  A write lease names the claimed operation
    it is for, and is granted only after [validate_execution] has accepted it again. *)

From S2P Require Import Prelude PyValue OwnerEvents ToolSchemas Crypto DraftProvider DraftRows DraftReview.

Module SecretStore.
Import Provider Rows Review.

Definition MAX_LEASE_SECONDS : Z := 5 * 60.
Definition PURPOSE_PATTERN : string -> bool :=
  fullmatch_class is_lower (fun c => is_lower c || is_digit c || is_char 95 c) 0 63.
Definition CONNECTION_TEST_PURPOSE : string := "connection_test".
Definition EVENTBRITE_READ_PURPOSE : string := "eventbrite_metadata_read".
Definition EVALUATION_JUDGE_PURPOSE : string := "evaluation_judge".
Definition EVENTBRITE_WRITE_PURPOSE : string := "eventbrite_draft_write".
Definition ITERABLE_WRITE_PURPOSE : string := "iterable_draft_write".
Definition PROVIDERS : list string := ["eventbrite"; "groq"; "iterable"; "openai"].

Record SecretMetadata := Metadata {
  sm_id : Z;
  sm_provider : string;
  sm_scope : string;
  sm_status : string;
  sm_version : Z;
  sm_replaced_at : option Z;
  sm_disabled_at : option Z;
}.

Definition reference_ (id : Z) (s : encrypted_secret) : SecretReference :=
  Reference id (e_provider s) (e_scope s) (e_version s).
Definition envelope_ (s : encrypted_secret) : Crypto.EncryptedEnvelope :=
  Crypto.Envelope (e_envelope_version s) (e_algorithm s) (e_key_id s) (e_nonce s) (e_ciphertext s).

Definition validate_provider_and_scope (provider scope : string) : result exn () :=
  raise_if (negb (bool_decide (provider ∈ PROVIDERS)) || negb (PURPOSE_PATTERN scope)) SecretUnavailable.

Definition put_secret (id : Z) (s : encrypted_secret) : M () :=
  modify (fun d => set_secrets (<[id := s]> (secrets d)) d).

(** The row a reference names, whatever its version when [current_version] is off. *)
Definition secret_for_reference (reference : SecretReference) (current_version : bool)
  : M encrypted_secret :=
  d ← get;
  s ← some_or (secrets d !! ref_id reference) SecretUnavailable;
  _ ← fail_if (negb (String.eqb (e_provider s) (ref_provider reference))
               || negb (String.eqb (e_scope s) (ref_scope reference))
               || (current_version && negb (e_version s =? ref_version reference))) SecretUnavailable;
  mret s.

Section store.
Context `{OwnerEvents.Platform} `{Crypto.AESGCM} (recursion : nat) (ring : option Crypto.IntegrationKeyRing).

Definition put (random : list Z) (provider scope : string) (value : list Z) : M SecretReference :=
  _ ← lift (validate_provider_and_scope provider scope);
  secret_id ← fresh;
  envelope ← lift (Crypto.encrypt_secret ring random value secret_id provider scope);
  let s := EncryptedSecret provider scope (Crypto.ciphertext envelope) (Crypto.nonce envelope)
             (Crypto.algorithm envelope) (Crypto.key_id envelope) (Crypto.version envelope)
             "active" 1 None None in
  _ ← put_secret secret_id s;
  mret (reference_ secret_id s).

Definition replace (random : list Z) (reference : SecretReference) (value : list Z) : M SecretReference :=
  atomic (
    s ← secret_for_reference reference true;
    _ ← fail_if (negb (String.eqb (e_status s) "active")) SecretUnavailable;
    envelope ← lift (Crypto.encrypt_secret ring random value (ref_id reference) (e_provider s) (e_scope s));
    d ← get;
    let s' := EncryptedSecret (e_provider s) (e_scope s) (Crypto.ciphertext envelope)
                (Crypto.nonce envelope) (Crypto.algorithm envelope) (Crypto.key_id envelope)
                (Crypto.version envelope) (e_status s) (e_version s + 1) (Some (clock d))
                (e_disabled_at s) in
    _ ← put_secret (ref_id reference) s';
    mret (reference_ (ref_id reference) s')).

Definition disable (reference : SecretReference) : M () :=
  atomic (
    s ← secret_for_reference reference true;
    if String.eqb (e_status s) "disabled" then mret ()
    else
      d ← get;
      put_secret (ref_id reference)
        (EncryptedSecret (e_provider s) (e_scope s) (e_ciphertext s) (e_nonce s) (e_algorithm s)
           (e_key_id s) (e_envelope_version s) "disabled" (e_version s + 1) (e_replaced_at s)
           (Some (clock d)))).

Definition metadata (reference : SecretReference) : M SecretMetadata :=
  s ← secret_for_reference reference false;
  mret (Metadata (ref_id reference) (e_provider s) (e_scope s) (e_status s) (e_version s)
          (e_replaced_at s) (e_disabled_at s)).

(** ** Leases *)

(** A healthy connection of the provider that uses exactly this credential. *)
Definition healthy_connection (d : db) (provider : string) (reference : SecretReference)
  : option integration_connection :=
  match connections d !! provider with
  | Some n =>
      if String.eqb (n_state n) "healthy" && bool_decide (n_secret n = Some (ref_id reference))
         && match secrets d !! ref_id reference with
            | Some s => (e_version s =? ref_version reference) && String.eqb (e_status s) "active"
            | None => false
            end
      then Some n else None
  | None => None
  end.

(** The caller's full session, and the user it belongs to. *)
Definition caller_user (d : db) (caller : Z) : option Z :=
  match sessions d !! caller with
  | Some s =>
      match profiles d !! s_profile s with
      | Some p => if full_session d s p then Some (a_user p) else None
      | None => None
      end
  | None => None
  end.

(** The filter on the claimed operation: executing or unknown, of this workflow and
    provider, approved by the caller's user. *)
Definition claimed_for (d : db) (x : execution) (workflow user : Z) (provider : string) : bool :=
  match intents d !! x_intent x with
  | Some i => (i_workflow i =? workflow) && String.eqb (i_provider i) provider
  | None => false
  end
  && bool_decide (x_approver x = Some user)
  && bool_decide (x_status x = EXECUTING \/ x_status x = UNKNOWN)
  && negb (isnull (x_approved_at x)) && negb (isnull (x_claimed_at x))
  && (negb (String.eqb provider "iterable") || negb (isnull (x_approval_session x))).

(** [except Exception: raise SecretUnavailable() from None] *)
Definition unavailable {A : Type} (m : M A) : M A := catch m (fun _ => raise SecretUnavailable).

Definition kind_model (execution_kind : option string) : option model :=
  match execution_kind with
  | Some k => if String.eqb k "draft" then Some DRAFT
              else if String.eqb k "template" then Some TEMPLATE else None
  | None => None
  end.

(** The operation a write lease is for. *)
Definition claimed_operation (m : model) (provider : string) (reference : SecretReference)
    (caller workflow execution_id : Z) : M (integration_connection * execution) :=
  d ← get;
  connection ← some_or (healthy_connection d provider reference) SecretUnavailable;
  user ← some_or (caller_user d caller) SecretUnavailable;
  x ← some_or (table m d !! execution_id) SecretUnavailable;
  _ ← fail_if (negb (claimed_for d x workflow user provider)) SecretUnavailable;
  _ ← unavailable (r ← load x; validate_execution recursion m x r false);
  mret (connection, x).

Definition eventbrite_write_request (reference : SecretReference) (caller : Z) (workflow execution_id : option Z)
    (execution_kind : option string) : M () :=
  match workflow, execution_id, kind_model execution_kind with
  | Some w, Some e, Some DRAFT =>
      _ ← fail_if (negb (String.eqb (ref_provider reference) "eventbrite")) SecretUnavailable;
      _ ← claimed_operation DRAFT "eventbrite" reference caller w e;
      mret ()
  | _, _, _ => raise SecretUnavailable
  end.

Definition iterable_write_request (reference : SecretReference) (caller : Z) (workflow execution_id : option Z)
    (execution_kind : option string) : M () :=
  match workflow, execution_id, kind_model execution_kind with
  | Some w, Some e, Some m =>
      d ← get;
      _ ← fail_if (negb (String.eqb (ref_provider reference) "iterable")
                   || negb (bool_decide (environ d !! "CIVICLOOP_ITERABLE_DRAFT_WRITE_ENABLED" = Some "true")))
            SecretUnavailable;
      found ← claimed_operation m "iterable" reference caller w e;
      match x_provider_configuration found.2 with
      | JDict c =>
          fail_if (negb (py_eq (get_or_none c "region") (get_or_none (n_configuration found.1) "region")))
            SecretUnavailable
      | _ => raise SecretUnavailable
      end
  | _, _, _ => raise SecretUnavailable
  end.

Definition valid_purpose (reference : SecretReference) (workflow : option Z) (purpose : string) : bool :=
  (String.eqb purpose CONNECTION_TEST_PURPOSE && isnull workflow)
  || (String.eqb purpose EVENTBRITE_READ_PURPOSE && String.eqb (ref_provider reference) "eventbrite"
      && isnull workflow)
  || (String.eqb purpose EVALUATION_JUDGE_PURPOSE && String.eqb (ref_provider reference) "openai"
      && negb (isnull workflow))
  || (String.eqb purpose EVENTBRITE_WRITE_PURPOSE && String.eqb (ref_provider reference) "eventbrite"
      && negb (isnull workflow))
  || (String.eqb purpose ITERABLE_WRITE_PURPOSE && String.eqb (ref_provider reference) "iterable"
      && negb (isnull workflow)).

(** The last check: any live session of an active owner, whatever its second factor. *)
Definition live_session (d : db) (caller : Z) : bool :=
  match sessions d !! caller with
  | Some s =>
      match profiles d !! s_profile s with
      | Some p => bool_decide (a_status p = ACTIVE) && isnull (s_revoked_at s)
                  && after_now (s_expires_at s) (clock d) && after_now (s_absolute_expires_at s) (clock d)
      | None => false
      end
  | None => false
  end.

Definition validate_lease_request (reference : SecretReference) (caller : Z) (workflow : option Z)
    (purpose : string) (ttl : Z) (execution_id : option Z) (execution_kind : option string) : M () :=
  _ ← (if String.eqb purpose EVENTBRITE_WRITE_PURPOSE
       then eventbrite_write_request reference caller workflow execution_id execution_kind else mret ());
  _ ← (if String.eqb purpose ITERABLE_WRITE_PURPOSE
       then iterable_write_request reference caller workflow execution_id execution_kind else mret ());
  d ← get;
  fail_if (negb (valid_purpose reference workflow purpose)
           || negb ((0 <? ttl) && (ttl <=? MAX_LEASE_SECONDS)) || negb (live_session d caller))
    SecretUnavailable.

(** [_open_lease]: the second validation of a write, and the decryption. *)
Definition open_lease (reference : SecretReference) (caller : Z) (workflow : option Z)
    (purpose : string) (expires_at : Z) (execution_id : option Z) (execution_kind : option string)
  : M SecretLease :=
  _ ← (if String.eqb purpose EVENTBRITE_WRITE_PURPOSE || String.eqb purpose ITERABLE_WRITE_PURPOSE
       then validate_lease_request reference caller workflow purpose 1 execution_id execution_kind
       else mret ());
  d ← get;
  _ ← fail_if (expires_at <=? clock d) SecretUnavailable;
  s ← secret_for_reference reference true;
  _ ← fail_if (negb (String.eqb (e_status s) "active")) SecretUnavailable;
  plaintext ← lift (match Crypto.decrypt_secret ring (envelope_ s) (ref_id reference) (e_provider s) (e_scope s) with
                    | Ok p => Ok p
                    | Err _ => Err SecretUnavailable
                    end);
  mret (Lease (reference_ (ref_id reference) s) caller workflow purpose expires_at (Some plaintext) false).

(** [store.lease(...)] followed by the entry into its context. *)
Definition lease (reference : SecretReference) (caller : Z) (workflow : option Z) (purpose : string)
    (ttl : Z) (execution_id : option Z) (execution_kind : option string) : M SecretLease :=
  _ ← validate_lease_request reference caller workflow purpose ttl execution_id execution_kind;
  d ← get;
  open_lease reference caller workflow purpose (clock d + ttl) execution_id execution_kind.

End store.
End SecretStore.
