(* ===== verification/DraftOperations.v ===== *)
(** * Draft operations (backend/integrations/draft_operations.py)

    Submission, owner approval, dispatch and reconciliation of provider writes.  A
    dispatch is three steps, and other requests may run between them: the committed claim
    ([claim_draft], [claim_iterable]), the exchange with the provider under a lease
    ([exchange_draft], [exchange_iterable]), and the store of its outcome
    ([finish_draft], [finish_iterable]).  [execute_draft] and the other entry points run
    the three in a row. *)

From S2P Require Import Prelude PyValue OwnerEvents LaunchLoop ToolSchemas Crypto DraftProvider EventbriteDrafts IterableDrafts IterableTemplates DraftRows DraftReview SecretStore.

Module DraftOperations.
Import Provider Rows Review.

(** ** Changes of a row *)

Definition with_approval (user session now : Z) (x : execution) : execution :=
  Execution (x_intent x) (x_run x) (x_submitter x) (Some user) (x_action x) (x_organization_id x)
    (x_event_id x) (x_expected_readback_digest x) (x_provider_configuration x) (x_payload x)
    (x_request_digest x) (x_review_digest x) APPROVED (x_receipt x) (x_provider_id x)
    (x_error_category x) (Some now) (Some session) (x_claimed_at x) (x_completed_at x).

Definition with_claim (provider_id : string) (now : Z) (x : execution) : execution :=
  Execution (x_intent x) (x_run x) (x_submitter x) (x_approver x) (x_action x) (x_organization_id x)
    (x_event_id x) (x_expected_readback_digest x) (x_provider_configuration x) (x_payload x)
    (x_request_digest x) (x_review_digest x) EXECUTING (x_receipt x) provider_id
    (x_error_category x) (x_approved_at x) (x_approval_session x) (Some now) (x_completed_at x).

Definition text_or (o : option string) (s : string) : string :=
  match o with Some t => if String.eqb t "" then s else t | None => s end.

Definition with_receipt (r : receipt) (now : Z) (x : execution) : execution :=
  Execution (x_intent x) (x_run x) (x_submitter x) (x_approver x) (x_action x) (x_organization_id x)
    (x_event_id x) (x_expected_readback_digest x) (x_provider_configuration x) (x_payload x)
    (x_request_digest x) (x_review_digest x)
    (if String.eqb (outcome r) "CONFIRMED" then SUCCEEDED else UNKNOWN) (Some (asdict r))
    (text_or (provider_id r) (x_provider_id x)) (text_or (error_category r) "")
    (x_approved_at x) (x_approval_session x) (x_claimed_at x) (Some now).

Definition with_digests (digests : string * string) (x : execution) : execution :=
  Execution (x_intent x) (x_run x) (x_submitter x) (x_approver x) (x_action x) (x_organization_id x)
    (x_event_id x) (x_expected_readback_digest x) (x_provider_configuration x) (x_payload x)
    digests.1 digests.2 (x_status x) (x_receipt x) (x_provider_id x) (x_error_category x)
    (x_approved_at x) (x_approval_session x) (x_claimed_at x) (x_completed_at x).

Definition new_execution (intent run submitter : Z) (action organization_id event_id expected : string)
    (configuration payload : json) : execution :=
  Execution intent run submitter None action organization_id event_id expected configuration payload
    "" "" PENDING None "" "" None None None None.

(** A known optional string. *)
Definition filled (o : option string) : bool :=
  match o with Some s => negb (String.eqb s "") | None => false end.
Definition same_text (o : option string) (s : string) : bool :=
  match o with Some t => String.eqb t s | None => false end.

Definition get_row (m : model) (id : Z) : M execution :=
  d ← get;
  some_or (table m d !! id)
    (DoesNotExist (match m with DRAFT => "DraftExecution" | TEMPLATE => "TemplateExecution" end)).

Definition locked_workflow (r : related) : M () :=
  d ← get;
  _ ← some_or (LaunchLoop.d_workflows (launch d) !! i_workflow (r_intent r)) (DoesNotExist "Workflow");
  mret ().

(** [Model.objects.filter(intent=).first()] *)
Definition existing (m : model) (intent : Z) (d : db) : option (Z * execution) :=
  List.find (fun kv => x_intent kv.2 =? intent) (map_to_list (table m d)).

Section platform.
Context `{OwnerEvents.Platform} `{Crypto.AESGCM} (recursion : nat) (ring : option Crypto.IntegrationKeyRing).

(** ** Submission *)

(** The operation already submitted for the intent, or a new row. *)
Definition submit_once (m : model) (x : execution) (user : Z) (message : string) : M Z :=
  d ← get;
  match existing m (x_intent x) d with
  | Some (id, old) =>
      _ ← deny_if (negb (String.eqb (x_review_digest old) (x_review_digest x))
                   || negb (x_submitter old =? user)) message;
      mret id
  | None => create_row m x
  end.

Definition user_pk (u : option user) : Z := match u with Some u => u_pk u | None => 0 end.

(** [_new_iterable_operation] *)
Definition new_iterable_operation (m : model) (user : option user) (intent_id run_id : Z)
    (payload configuration : json) : M Z :=
  actor ← actor_ user LaunchLoop.OPERATOR;
  d ← get;
  intent ← some_or (intents d !! intent_id) (DoesNotExist "DraftOperation");
  _ ← some_or (LaunchLoop.d_workflows (launch d) !! i_workflow intent) (DoesNotExist "Workflow");
  _ ← deny_if (negb (String.eqb (i_provider intent) "iterable")
               || negb (String.eqb (LaunchLoop.a_slug actor) (i_actor intent)))
        "Accepted Iterable intent operator required.";
  let x := new_execution intent_id run_id (user_pk user) "create" "" "" "" configuration payload in
  r ← load x;
  digests ← catch (match m with
                   | TEMPLATE => template_review x r
                   | DRAFT => campaign_review recursion x r
                   end)
              (fun e =>
                match e with
                | IterableDraftError _ | Py (KeyError _) | Py TypeError | DoesNotExist "TemplateExecution" =>
                    denied "Invalid reviewed Iterable request."
                | _ => raise e
                end);
  submit_once m (with_digests digests x) (user_pk user) "Intent already submitted with another review.".

Definition submit_iterable_campaign (user : option user) (intent_id run_id : Z)
    (action organization_id event_id expected : string) (payload configuration : json) : M Z :=
  _ ← deny_if (negb (String.eqb action "create") || negb (String.eqb organization_id "")
               || negb (String.eqb event_id "") || negb (String.eqb expected ""))
        "Iterable campaign creation has no Eventbrite identity.";
  new_iterable_operation DRAFT user intent_id run_id payload configuration.

Definition submit_draft (user : option user) (intent_id run_id : Z) (action organization_id : string)
    (payload : json) (event_id expected : string) (configuration : json) : M Z :=
  atomic (
    d ← get;
    intent ← some_or (intents d !! intent_id) (DoesNotExist "DraftOperation");
    if String.eqb (i_provider intent) "iterable"
    then submit_iterable_campaign user intent_id run_id action organization_id event_id expected
           payload configuration
    else
      _ ← deny_if (truthy configuration) "Eventbrite does not accept Iterable configuration.";
      actor ← actor_ user LaunchLoop.OPERATOR;
      _ ← some_or (LaunchLoop.d_workflows (launch d) !! i_workflow intent) (DoesNotExist "Workflow");
      _ ← some_or (runs d !! run_id) (DoesNotExist "AgentRun");
      _ ← deny_if (negb (String.eqb (LaunchLoop.a_slug actor) (i_actor intent)))
            "Only the accepted intent operator can submit.";
      _ ← deny_if (String.eqb action "update" && negb (is_digest expected))
            "Update requires exact provider revision readback.";
      _ ← deny_if (String.eqb action "create" && negb (String.eqb expected ""))
            "Create has no existing provider revision.";
      validated ← lift (EventbriteDrafts.validate_payload recursion payload (String.eqb action "create"));
      let x := new_execution intent_id run_id (user_pk user) action organization_id event_id expected
                 (JDict []) validated in
      r ← load x;
      digests ← review recursion x r;
      submit_once DRAFT (with_digests digests x) (user_pk user)
        "Intent already submitted with a different review.").

Definition submit_template (user : option user) (intent_id run_id : Z) (sender region : json) : M Z :=
  atomic (
    d ← get;
    intent ← some_or (intents d !! intent_id) (DoesNotExist "DraftOperation");
    proposal ← some_or (submissions d !! i_proposal intent) (DoesNotExist "MCPSubmission");
    payload ← lift (match IterableTemplates.author_payload (i_operation_kind intent) (m_content proposal)
                            intent_id sender 2 with
                    | Err (IterableDraftError _) | Err (Py (KeyError _)) | Err (Py TypeError) =>
                        Err (PermissionDenied "Invalid template sender or Hermes content.")
                    | r => r
                    end);
    new_iterable_operation TEMPLATE user intent_id run_id payload (JDict [("region", region)])).

(** ** Approval *)

Definition approve (m : model) (user : option user) (session_id operation_id : Z)
    (review_digest : string) (revision_id : Z) : M Z :=
  atomic (
    session ← session_ user session_id;
    x ← get_row m operation_id;
    r ← load x;
    _ ← locked_workflow r;
    _ ← validate_execution recursion m x r true;
    _ ← deny_if (negb (bool_decide (x_status x = PENDING))
                 || negb (String.eqb review_digest (x_review_digest x))
                 || negb (revision_id =? i_revision (r_intent r)))
          (match m with DRAFT => "Exact current owner review required."
           | TEMPLATE => "Exact current owner template review required." end);
    d ← get;
    _ ← save m operation_id (with_approval (user_pk user) session (clock d) x);
    mret operation_id).
Definition approve_draft := approve DRAFT.
Definition approve_template := approve TEMPLATE.

(** ** Dispatch *)

(** A dispatch under way: the operation object with its loaded relations, who asked for
    it, and whether it only reconciles. *)
Record dispatch := Dispatch {
  p_model : model;
  p_id : Z;
  p_row : execution;
  p_related : related;
  p_user : option user;
  p_session : Z;
  p_reference : option SecretReference;
  p_reconcile : bool;
}.

Definition switched_on (variable message : string) : M () :=
  d ← get;
  deny_if (negb (bool_decide (environ d !! variable = Some "true"))) message.
Definition enabled : M () :=
  switched_on "CIVICLOOP_EVENTBRITE_DRAFT_WRITE_ENABLED" "Eventbrite draft writes are disabled.".
Definition iterable_enabled : M () :=
  switched_on "CIVICLOOP_ITERABLE_DRAFT_WRITE_ENABLED" "Iterable draft writes are disabled.".

Definition reference_of (provider : string) : M SecretReference :=
  d ← get;
  n ← some_or (connections d !! provider) (DoesNotExist "IntegrationConnection");
  match n_secret n with
  | None => denied "Healthy Eventbrite connection required."
  | Some id =>
      s ← some_or (secrets d !! id) (DoesNotExist "EncryptedSecret");
      _ ← deny_if (negb (String.eqb (n_state n) "healthy") || negb (String.eqb (e_status s) "active"))
            "Healthy Eventbrite connection required.";
      mret (SecretStore.reference_ id s)
  end.

(** [execute_draft] of an Eventbrite operation, up to the commit of the claim. *)
Definition claim_draft (user : option user) (session_id operation_id : Z) (in_atomic : bool) : M dispatch :=
  _ ← enabled;
  session ← session_ user session_id;
  reference ← reference_of "eventbrite";
  _ ← deny_if in_atomic "Dispatch requires an independent committed claim.";
  atomic (
    x ← get_row DRAFT operation_id;
    r ← load x;
    _ ← locked_workflow r;
    _ ← validate_execution recursion DRAFT x r true;
    _ ← deny_if (negb (bool_decide (x_approver x = Some (user_pk user))))
          "Dispatch must be bound to the approving owner.";
    _ ← deny_if (negb (bool_decide (x_status x = APPROVED))) "Operation cannot be dispatched again.";
    d ← get;
    let x' := with_claim (if String.eqb (x_action x) "update" then x_event_id x else x_provider_id x)
                (clock d) x in
    _ ← save DRAFT operation_id x';
    mret (Dispatch DRAFT operation_id x' r user session (Some reference) false)).

(** What a dispatch did: its outcome and the requests it sent. *)
Definition run_adapter (credential : SecretLease) (call : W receipt) : result exn receipt * list request :=
  let r := call (Wire [] credential) in (r.1, sent r.2).

(** The exchange of a dispatch: [guards] reads the database up to the lease, [call] is the
    adapter's method.  Neither writes. *)
Definition exchange_with (guards : M SecretLease) (call : W receipt) (d : db)
  : result exn receipt * list request :=
  match (guards d).1 with
  | Err e => (Err e, [])
  | Ok credential => run_adapter credential call
  end.

Definition write_lease (p : dispatch) (reference : SecretReference) (kind purpose : string) : M SecretLease :=
  SecretStore.lease recursion ring reference (p_session p) (Some (i_workflow (r_intent (p_related p))))
    purpose 60 (Some (p_id p)) (Some kind).

Section provider.
Context (answer : server) (now : Z).

Definition exchange_draft (p : dispatch) : db -> result exn receipt * list request :=
  let x := p_row p in
  exchange_with
    (reference ← (match p_reference p with Some r => mret r | None => reference_of "eventbrite" end);
     credential ← write_lease p reference "draft" "eventbrite_draft_write";
     _ ← (if p_reconcile p then mret ()
          else _ ← enabled; validate_execution recursion DRAFT x (p_related p) true);
     mret credential)
    (if p_reconcile p
     then EventbriteDrafts.reconcile recursion answer now (x_organization_id x) (Some (x_provider_id x))
            (x_payload x) (x_request_digest x) (x_action x)
     else if String.eqb (x_action x) "create"
     then EventbriteDrafts.create recursion answer now (x_organization_id x) (x_payload x)
     else EventbriteDrafts.update recursion answer now (x_organization_id x) (x_event_id x) (x_payload x)
            (x_expected_readback_digest x)).

End provider.

(** ** Receipts *)

Definition receipt_invalid (x : execution) (r : receipt) (update : bool) (statuses : list string) : bool :=
  negb (String.eqb (request_digest r) (x_request_digest x))
  || negb (String.eqb (outcome r) "CONFIRMED" || String.eqb (outcome r) "UNKNOWN")
  || (update && filled (provider_id r) && negb (same_text (provider_id r) (x_event_id x)))
  || (negb (String.eqb (x_provider_id x) "") && filled (provider_id r)
      && negb (same_text (provider_id r) (x_provider_id x)))
  || (String.eqb (outcome r) "CONFIRMED"
      && (negb (filled (provider_id r)) || negb (filled (readback r))
          || negb (match provider_status r with Some s => bool_decide (s ∈ statuses) | None => false end))).

Definition store_receipt_as (p : dispatch) (r : receipt) (update : bool) (statuses : list string)
    (message : string) : M Z :=
  _ ← fail_if (receipt_invalid (p_row p) r update statuses) (Py (ValueError message));
  d ← get;
  _ ← save (p_model p) (p_id p) (with_receipt r (clock d) (p_row p));
  mret (p_id p).

Definition store_receipt (p : dispatch) (r : receipt) : M Z :=
  store_receipt_as p r (String.eqb (x_action (p_row p)) "update") ["draft"] "Invalid typed draft receipt.".

Definition iterable_store_receipt (p : dispatch) (r : receipt) : M Z :=
  store_receipt_as p r false
    (match p_model p with TEMPLATE => ["template"] | DRAFT => ["Draft"; "Ready"] end)
    "Invalid typed Iterable receipt.".

(** The errors after which the provider certainly holds no new draft. *)
Definition definite : list string :=
  ["provider_validation"; "authentication"; "forbidden"; "not_found"; "rate_limited"; "redirect";
   "invalid_request"; "invalid_credential"; "stale_revision"; "unsafe_provider_state"; "identity_mismatch"].

Definition record_unconfirmed (p : dispatch) : M Z :=
  _ ← update_row (p_model p) (p_id p) UNKNOWN "dispatch_unconfirmed"; mret (p_id p).

(** The handlers around the exchange and the store of its receipt. *)
Definition draft_failed (p : dispatch) (e : exn) : M Z :=
  match e with
  | EventbriteDraftError category =>
      let known := bool_decide (category ∈ definite) in
      _ ← update_row (p_model p) (p_id p) (if known then FAILED else UNKNOWN)
            (if known then category else "dispatch_unconfirmed");
      mret (p_id p)
  | _ => record_unconfirmed p
  end.

Definition finish_draft (p : dispatch) (r : result exn receipt) : M Z :=
  match r with
  | Ok receipt => catch (store_receipt p receipt) (draft_failed p)
  | Err e => draft_failed p e
  end.

(** [reconcile_draft] of an Eventbrite operation, up to the lease. *)
Definition start_reconcile (user : option user) (session_id operation_id : Z) : M dispatch :=
  _ ← enabled;
  session ← session_ user session_id;
  x ← get_row DRAFT operation_id;
  r ← load x;
  _ ← validate_execution recursion DRAFT x r false;
  _ ← deny_if (negb (bool_decide (x_approver x = Some (user_pk user))))
        "Reconciliation must be bound to the approving owner.";
  _ ← deny_if (negb (bool_decide (x_status x = UNKNOWN \/ x_status x = EXECUTING))
               || String.eqb (x_provider_id x) "")
        "Reconciliation requires an already recorded provider ID.";
  mret (Dispatch DRAFT operation_id x r user session None true).

(** Nothing is caught around a reconciliation. *)
Definition finish_reconcile (p : dispatch) (r : result exn receipt) : M Z :=
  receipt ← lift r; store_receipt p receipt.

(** ** Iterable *)

(** [_execute_iterable], up to the end of the claiming transaction. *)
Definition claim_iterable (m : model) (user : option user) (session_id operation_id : Z)
    (in_atomic reconcile : bool) : M dispatch :=
  _ ← iterable_enabled;
  session ← session_ user session_id;
  _ ← deny_if in_atomic "Dispatch requires an independent committed claim.";
  atomic (
    x ← get_row m operation_id;
    r ← load x;
    _ ← locked_workflow r;
    _ ← validate_execution recursion m x r (negb reconcile);
    _ ← deny_if (negb (bool_decide (x_approver x = Some (user_pk user))))
          "Iterable dispatch requires the approving owner.";
    if reconcile then
      _ ← deny_if (negb (bool_decide (x_status x = UNKNOWN \/ x_status x = EXECUTING))
                   || isnull (x_claimed_at x))
            "Only a previously claimed write can reconcile.";
      _ ← deny_if (bool_decide (m = DRAFT) && String.eqb (x_provider_id x) "")
            "Campaign reconciliation requires its recorded ID.";
      mret (Dispatch m operation_id x r user session None true)
    else
      _ ← deny_if (negb (bool_decide (x_status x = APPROVED))) "Operation cannot be dispatched again.";
      d ← get;
      let x' := with_claim (x_provider_id x) (clock d) x in
      _ ← save m operation_id x';
      mret (Dispatch m operation_id x' r user session None false)).

(** [operation.provider_configuration[key]] *)
Definition configured (x : execution) (key : string) : result exn json :=
  IterableTemplates.item (x_provider_configuration x) key.

Definition exchange_kind (m : model) : string := match m with TEMPLATE => "template" | DRAFT => "draft" end.

Section provider.
Context (answer : server) (now : Z).

Definition iterable_call (p : dispatch) (region : json) : result exn (W receipt) :=
  let x := p_row p in
  match p_model p with
  | TEMPLATE =>
      Ok (if p_reconcile p
          then IterableTemplates.reconcile recursion answer now region (x_payload x) (x_request_digest x)
                 (or_none (x_provider_id x))
          else IterableTemplates.create recursion answer now region (x_payload x))
  | DRAFT =>
      expected ← configured x "expected_template_digest";
      Ok (if p_reconcile p
          then IterableDrafts.reconcile recursion answer now region (Some (x_provider_id x)) (x_payload x)
                 (x_request_digest x) expected
          else IterableDrafts.create recursion answer now region (x_payload x) expected)
  end.

Definition exchange_iterable (p : dispatch) : db -> result exn receipt * list request :=
  let x := p_row p in
  exchange_with
    (reference ← reference_of "iterable";
     d ← get;
     n ← some_or (connections d !! "iterable") (DoesNotExist "IntegrationConnection");
     region ← lift (configured x "region");
     _ ← deny_if (negb (py_eq (get_or_none (n_configuration n) "region") region))
           "Reviewed region does not match the healthy connection.";
     credential ← write_lease p reference (exchange_kind (p_model p)) "iterable_draft_write";
     _ ← iterable_enabled;
     _ ← session_ (p_user p) (p_session p);
     _ ← validate_execution recursion (p_model p) x (p_related p) (negb (p_reconcile p));
     mret credential)
    (call ← lift (region ← configured x "region"; iterable_call p region); call).

End provider.

Definition finish_iterable (p : dispatch) (r : result exn receipt) : M Z :=
  match r with
  | Ok receipt => catch (iterable_store_receipt p receipt) (fun _ => record_unconfirmed p)
  | Err _ => record_unconfirmed p
  end.

(** ** The entry points, run without interruption *)

Definition with_exchange (claim : M dispatch) (exchange : dispatch -> db -> result exn receipt * list request)
    (finish : dispatch -> result exn receipt -> M Z) : M Z :=
  p ← claim;
  d ← get;
  finish p (exchange p d).1.

(** Whether the operation belongs to Iterable, the first query of an entry point. *)
Definition for_iterable (operation_id : Z) : M bool :=
  x ← get_row DRAFT operation_id;
  d ← get;
  i ← some_or (intents d !! x_intent x) (DoesNotExist "DraftOperation");
  mret (String.eqb (i_provider i) "iterable").

Definition execute_iterable (answer : server) (now : Z) (m : model) (user : option user)
    (session_id operation_id : Z) (in_atomic reconcile : bool) : M Z :=
  with_exchange (claim_iterable m user session_id operation_id in_atomic reconcile)
    (exchange_iterable answer now) finish_iterable.

Definition execute_draft (answer : server) (now : Z) (user : option user) (session_id operation_id : Z)
    (in_atomic : bool) : M Z :=
  iterable ← for_iterable operation_id;
  if (iterable : bool) then execute_iterable answer now DRAFT user session_id operation_id in_atomic false
  else with_exchange (claim_draft user session_id operation_id in_atomic)
         (exchange_draft answer now) finish_draft.

Definition reconcile_draft (answer : server) (now : Z) (user : option user) (session_id operation_id : Z)
    (in_atomic : bool) : M Z :=
  _ ← deny_if in_atomic "Reconciliation requires an independent committed claim.";
  iterable ← for_iterable operation_id;
  if (iterable : bool) then execute_iterable answer now DRAFT user session_id operation_id in_atomic true
  else with_exchange (start_reconcile user session_id operation_id)
         (exchange_draft answer now) finish_reconcile.

Definition execute_template (answer : server) (now : Z) (user : option user) (session_id operation_id : Z)
    (in_atomic : bool) : M Z :=
  execute_iterable answer now TEMPLATE user session_id operation_id in_atomic false.
Definition reconcile_template (answer : server) (now : Z) (user : option user) (session_id operation_id : Z)
    (in_atomic : bool) : M Z :=
  execute_iterable answer now TEMPLATE user session_id operation_id in_atomic true.

End platform.
End DraftOperations.
