(* ===== verification/DraftWire.v ===== *)
(** * Reasoning about the wire

    [sends m h Q]: run after the requests [h], the adapter code [m] appends some requests
    [l] to the log and [Q l r] holds of them and of its result [r].  The rules follow the
    shape of the code, so the proofs about the adapters are symbolic executions. *)

From S2P Require Import Prelude PyValue JsonText DraftProvider EventbriteDrafts IterableDrafts.

Module Wire.
Import Provider.

Definition sends {A : Type} (m : W A) (h : list request)
    (Q : list request -> result exn A -> Prop) : Prop :=
  forall s, exists l, sent (m (Wire h s)).2 = h ++ l /\ Q l (m (Wire h s)).1.

Section rules.
Context {A B : Type}.
Implicit Types (h l : list request).

Lemma sends_mono (m : W A) h (P Q : list request -> result exn A -> Prop) :
  (forall l r, P l r -> Q l r) -> sends m h P -> sends m h Q.
Proof. intros HPQ Hm s. destruct (Hm s) as (l & Hl & HP). eauto. Qed.

Lemma sends_ret (a : A) h (Q : list request -> result exn A -> Prop) :
  Q [] (Ok a) -> sends (mret a) h Q.
Proof. intros HQ s. exists []. by rewrite app_nil_r. Qed.

Lemma sends_raise e h (Q : list request -> result exn A -> Prop) :
  Q [] (Err e) -> sends (raise e) h Q.
Proof. intros HQ s. exists []. by rewrite app_nil_r. Qed.

Lemma sends_lift (r : result exn A) h (Q : list request -> result exn A -> Prop) :
  Q [] r -> sends (lift r) h Q.
Proof. intros HQ s. exists []. by rewrite app_nil_r. Qed.

Lemma sends_bind (m : W A) (k : A -> W B) h Q :
  sends m h (fun l r =>
    match r with
    | Ok a => sends (k a) (h ++ l) (fun l' r' => Q (l ++ l') r')
    | Err e => Q l (Err e)
    end) ->
  sends (m ≫= k) h Q.
Proof.
  intros Hm s. destruct (Hm s) as (l & Hl & HQ). unfold mbind, ST_bind.
  destruct (m (Wire h s)) as [[a|e] w]; cbn [fst snd] in *; [|by exists l].
  destruct w as [h' s']. cbn [sent] in Hl. subst h'. destruct (HQ s') as (l' & Hl' & HQ').
  exists (l ++ l'). split; [by rewrite app_assoc|done].
Qed.

Lemma sends_attempt (m : W A) h (Q : list request -> result exn (result exn A) -> Prop) :
  sends m h (fun l r => Q l (Ok r)) -> sends (EventbriteDrafts.attempt m) h Q.
Proof. done. Qed.

Lemma sends_finally (m : W A) f h (Q : list request -> result exn A -> Prop) :
  (forall w, sent (f w) = sent w) -> sends m h Q -> sends (finally m f) h Q.
Proof.
  intros Hf Hm s. destruct (Hm s) as (l & Hl & HQ). exists l. unfold finally. cbn.
  by rewrite Hf.
Qed.
End rules.

Lemma sends_fail_if c e h (Q : list request -> result exn () -> Prop) :
  (c = true -> Q [] (Err e)) -> (c = false -> Q [] (Ok ())) -> sends (fail_if c e) h Q.
Proof. destruct c; [intros HQ _; by apply sends_raise, HQ|intros _ HQ; by apply sends_ret, HQ]. Qed.

Lemma sends_exchange answer recursion fail max_bytes r h
    (Q : list request -> result exn (list (string * json)) -> Prop) :
  Q [r] (decode_response recursion fail max_bytes (answer h r)) ->
  sends (exchange answer recursion fail max_bytes r) h Q.
Proof. intros HQ s. exists [r]. done. Qed.

(** A lease is refused before anything is sent, or used for the operation. *)
Lemma sends_use {A} now (operation : list Z -> W A) h (Q : list request -> result exn A -> Prop) :
  Q [] (Err SecretUnavailable) -> (forall p, sends (operation p) h Q) ->
  sends (use now operation) h Q.
Proof.
  intros He Hop s. unfold use, ensure_available, mbind, ST_bind, get. cbn.
  destruct (plaintext s) as [p|]; cbn; [|exists []; by rewrite app_nil_r].
  destruct (used s || (expires_at s <=? now)); cbn; [exists []; by rewrite app_nil_r|].
  change (Wire h (mark_used s)) with (on_lease mark_used (Wire h s)).
  by apply (sends_finally (operation p) (on_lease close_lease) h Q).
Qed.

Lemma sends_token {A} now fail provider write_purpose (operation : string -> W A) h
    (Q : list request -> result exn A -> Prop) :
  Q [] (Err (fail "invalid_credential")) -> Q [] (Err SecretUnavailable) ->
  (forall token, sends (operation token) h Q) ->
  sends (with_token now fail provider write_purpose operation) h Q.
Proof.
  intros Hc Hs Hop. unfold with_token. apply sends_bind. intros s. exists []. cbn.
  rewrite app_nil_r. split; [done|]. apply sends_bind, sends_fail_if; intros _; [done|].
  rewrite app_nil_r. apply sends_use; [done|]. intros p.
  apply sends_bind, sends_fail_if; intros _; [done|]. rewrite app_nil_r. apply Hop.
Qed.

(** What a successful exchange answered. *)
Lemma decode_ok recursion fail max_bytes t d :
  decode_response recursion fail max_bytes t = Ok d -> exists body, t = Opened 200 body.
Proof.
  destruct t as [st body| | |]; cbn; try done. destruct (Z.eqb_spec st 200) as [->|]; [eauto|done].
Qed.

(** An error category of an exchange that names a refusal is the status the provider sent. *)
Lemma decode_refused recursion fail max_bytes t e category :
  decode_response recursion fail max_bytes t = Err e -> e = fail category -> category ∈ refused ->
  (forall a b, fail a = fail b -> a = b) -> (forall a, fail a <> NonAsciiResponse) ->
  exists code, t = HTTPError code /\ http_category code = category.
Proof.
  intros Hd -> Hc Hinj Hne.
  assert (forall other, fail other = fail category -> bool_decide (other ∈ refused) = false -> False) as Hno.
  { intros other Ho%Hinj Hf. subst. by apply bool_decide_eq_false in Hf. }
  destruct t as [st body|code| |]; cbn in Hd.
  - exfalso. destruct (negb (st =? 200)); [injection Hd as Hd; exact (Hno _ Hd eq_refl)|].
    destruct (max_bytes <? _); [injection Hd as Hd; exact (Hno _ Hd eq_refl)|].
    destruct (JsonText.loads_bytes recursion _) as [[]|[]]; try done;
      injection Hd as Hd; first [exact (Hno _ Hd eq_refl) | by apply (Hne category)].
  - exists code. split; [done|]. injection Hd as Hd. by apply Hinj.
  - exfalso. injection Hd as Hd. exact (Hno _ Hd eq_refl).
  - exfalso. injection Hd as Hd. exact (Hno _ Hd eq_refl).
Qed.

End Wire.

(** One step of symbolic execution of adapter code. *)
Ltac sends_step :=
  lazymatch goal with
  | |- Wire.sends (_ ≫= _) _ _ => apply Wire.sends_bind
  | |- Wire.sends (mret _) _ _ => apply Wire.sends_ret
  | |- Wire.sends (raise _) _ _ => apply Wire.sends_raise
  | |- Wire.sends (lift _) _ _ => apply Wire.sends_lift
  | |- Wire.sends (fail_if _ _) _ _ => apply Wire.sends_fail_if; intros ?
  | |- Wire.sends (EventbriteDrafts.attempt _) _ _ => apply Wire.sends_attempt
  | |- Wire.sends (EventbriteDrafts.token_ _ _) _ _ => apply Wire.sends_token; [| |intros ?token]
  | |- Wire.sends (IterableDrafts.token_ _ _) _ _ => apply Wire.sends_token; [| |intros ?token]
  | |- Wire.sends (Provider.exchange _ _ _ _ _) _ _ => apply Wire.sends_exchange
  | |- match ?r with Ok _ => _ | Err _ => _ end => destruct r eqn:?
  | |- Wire.sends (match ?r with Ok _ => _ | Err _ => _ end) _ _ => destruct r eqn:?
  end; cbn beta iota; rewrite ?app_nil_r; cbn [app].
Ltac sends_steps := repeat sends_step.
