(* ===== verification/DraftAdapterTheorems.v ===== *)
(** * The draft adapters: what they send and what their receipts mean *)

From S2P Require Import Prelude PyValue Sha256 JsonText JsonTextTheorems OwnerEvents DraftProvider EventbriteDrafts IterableDrafts IterableTemplates DraftWire.

Module AdapterFacts.
Import Provider Wire.

(** ** Paths *)

Lemma between_app before after middle :
  EventbriteDrafts.between before after (before +:+ middle +:+ after) = Some middle.
Proof.
  unfold EventbriteDrafts.between. rewrite !slength_app.
  replace (_ + (_ + _) - _ - _)%nat with (String.length middle) by lia.
  by rewrite substring_skip, substring_take, String.eqb_refl.
Qed.

Section eventbrite.
Context `{OwnerEvents.Platform} (recursion : nat) (answer : server) (now : Z).
Import EventbriteDrafts.

Definition eb_request (method path token : string) (payload : option json) : request :=
  Request method (BASE_URL +:+ path)
    [("Authorization", "Bearer " +:+ token); ("Content-Type", "application/json")]
    (json_dumps_default true false <$> payload).
Definition event_path (id : string) : string := "/events/" +:+ id +:+ "/".
Definition events_path (organization : string) : string := "/organizations/" +:+ organization +:+ "/events/".
Definition eb_get (token id : string) : request := eb_request "GET" (event_path id) token None.

(** The answer to a request, as the adapter reads it. *)
Definition eb_answer (h : list request) (r : request) : result exn (list (string * json)) :=
  decode_response recursion EventbriteDraftError MAX_RESPONSE_BYTES (answer h r).

Lemma sends_request method path token payload h (Q : list request -> result exn (list (string * json)) -> Prop) :
  Q [] (Err invalid_request) ->
  (let r := eb_request method path token payload in Q [r] (eb_answer h r)) ->
  sends (request_ recursion answer method path token payload) h Q.
Proof. intros He Hq. unfold request_. sends_steps; done. Qed.

(** The event read back is the reviewed draft: same identity, a draft, every reviewed field. *)
Definition reviewed_draft (organization id : string) (payload : json) (event : list (string * json)) : Prop :=
  draft event organization (Some id) = Ok id /\
  exists fields, event_of payload = Ok fields /\
    forallb (fun kv => field_matches event kv.1 kv.2) fields = true.

(** What [confirm] sends, and its receipt. *)
Definition confirms (h : list request) (token organization id : string) (payload : json) (digest : string)
    (l : list request) (r : result exn receipt) : Prop :=
  (l = [] \/ l = [eb_get token id]) /\
  match r with
  | Ok rc =>
      request_digest rc = digest /\ provider_id rc = Some id /\
      (outcome rc = "UNKNOWN" \/
       outcome rc = "CONFIRMED" /\ provider_status rc = Some "draft" /\ l = [eb_get token id] /\
       exists event, eb_answer h (eb_get token id) = Ok event /\
         readback rc = Some (readback_digest event) /\ reviewed_draft organization id payload event)
  | Err e => forall category, e <> EventbriteDraftError category
  end.

Lemma draft_identity event organization id provider_id :
  draft event organization (Some id) = Ok provider_id -> provider_id = id.
Proof.
  unfold draft. intros Hd. result_inv Hd. apply Ok_inj in Hd as <-.
  apply raise_if_inv in H1. bools. done.
Qed.

Lemma confirm_sends h token organization id payload digest :
  sends (confirm recursion answer token organization id payload digest) h
    (confirms h token organization id payload digest).
Proof.
  unfold confirm. apply sends_bind, sends_attempt.
  assert (forall l e, (l = [] \/ l = [eb_get token id]) -> (forall c, e <> EventbriteDraftError c) ->
    confirms h token organization id payload digest l (Err e)) as Herr by (intros; split; done).
  assert (forall l c, (l = [] \/ l = [eb_get token id]) ->
    confirms h token organization id payload digest l (Ok (unknown_receipt (Some id) digest c))) as Hunk.
  { intros l c Hl. split; [done|]. split_and!; try done. by left. }
  assert (forall l e h', (l = [] \/ l = [eb_get token id]) ->
    sends match e with EventbriteDraftError c => mret (unknown_receipt (Some id) digest c) | _ => raise e end h'
      (fun l' r' => confirms h token organization id payload digest (l ++ l') r')) as Hfail.
  { intros l e h' Hl. destruct e; sends_step; first [by apply Hunk | by apply Herr]. }
  apply sends_bind, sends_request; [apply (Hfail []); by left|].
  cbn zeta. fold (event_path id). fold (eb_get token id).
  destruct (eb_answer h (eb_get token id)) as [event|e] eqn:Ha; [|apply (Hfail [_]); by right].
  cbn [app]. do 2 sends_step.
  destruct (draft event organization (Some id)) as [p|e] eqn:Hd; [|apply (Hfail [_]); by right].
  do 2 sends_step. destruct (event_of payload) as [fields|e] eqn:Hf; [|apply (Hfail [_]); by right].
  do 2 sends_step; [sends_step; apply (Hunk [_]); by right|]. do 2 sends_step. split; [by right|].
  pose proof (draft_identity _ _ _ _ Hd) as ->. split_and!; try done. right. split_and!; try done.
  exists event. split_and!; try done. split; [done|]. exists fields. split; [done|]. by bools.
Qed.

(** ** The protocol of a write

    A create sends nothing, or one POST and then at most one GET; what its caller learns
    is one of five outcomes. *)
Definition post_event (token organization : string) (v : json) : request :=
  eb_request "POST" (events_path organization) token (Some v).

(** The provider answered [r] with a refusal of the given category. *)
Definition refuses (h : list request) (r : request) (category : string) : Prop :=
  exists code, answer h r = HTTPError code /\ http_category code = category /\ category ∈ refused.

(** The outcomes of a write: [write] is its POST, sent after [before], and [organization],
    [id] what a confirmation reads back. *)
Inductive written (h : list request) (token organization : string) (v : json) (digest : string)
    (write : request) (event_id : option string) : list request -> result exn receipt -> Prop :=
| write_refused category :
    refuses h write category ->
    written h token organization v digest write event_id [write] (Err (EventbriteDraftError category))
| write_unreadable :
    eb_answer h write = Err NonAsciiResponse ->
    written h token organization v digest write event_id [write] (Err NonAsciiResponse)
| write_uncertain id category :
    category ∉ refused ->
    written h token organization v digest write event_id [write] (Ok (unknown_receipt id digest category))
| write_accepted event id l r :
    eb_answer h write = Ok event -> draft event organization (Some id) = Ok id ->
    match event_id with Some e => id = e | None => True end ->
    confirms (h ++ [write]) token organization id v digest l r ->
    written h token organization v digest write event_id (write :: l) r.

Lemma write_failed_spec h token organization v digest write event_id id e h' :
  (forall category, e = EventbriteDraftError category -> category ∈ refused -> refuses h write category) ->
  (e = NonAsciiResponse -> eb_answer h write = Err NonAsciiResponse) ->
  (e = NonAsciiResponse \/ exists category, e = EventbriteDraftError category) ->
  sends (write_failed e id digest) h'
    (fun l r => written h token organization v digest write event_id (write :: l) r).
Proof.
  intros Hr Hn [->|[category ->]]; cbn [write_failed].
  - sends_step. apply write_unreadable. by apply Hn.
  - destruct (bool_decide (category ∈ refused)) eqn:Hc; bools; sends_step.
    + apply write_refused. by apply Hr.
    + by apply write_uncertain.
Qed.

Lemma eb_answer_refused h r e category :
  eb_answer h r = Err e -> e = EventbriteDraftError category -> category ∈ refused -> refuses h r category.
Proof.
  intros Ha He Hc. destruct (decode_refused _ _ _ _ _ _ Ha He Hc) as (code & Ht & Hk);
    [by intros a b [=]|done|]. by exists code.
Qed.

Lemma eb_answer_error h r e : eb_answer h r = Err e ->
  e = NonAsciiResponse \/ exists category, e = EventbriteDraftError category.
Proof.
  unfold eb_answer, decode_response. destruct (answer h r) as [st body| | |]; [|by intros [= <-]; eauto..].
  destruct (negb _); [intros [= <-]; eauto|]. destruct (_ <? _); [intros [= <-]; eauto|].
  destruct (JsonText.loads_bytes _ _) as [[]|[]]; intros [= <-]; eauto.
Qed.

(** The errors of the checks on an event are never a refusal. *)
Lemma identifier_error v e : identifier v = Err e -> e = invalid_request.
Proof. destruct v; cbn; try (by intros [= <-]). destruct (is_identifier 39 s); [done|by intros [= <-]]. Qed.

Lemma draft_error event organization id e : draft event organization id = Err e ->
  exists category, e = EventbriteDraftError category /\ category ∉ refused.
Proof.
  unfold draft. intros Hd. apply bind_result_err in Hd as [Hd|(p & _ & Hd)].
  { apply identifier_error in Hd as ->. eexists. split; [done|]. by_decide. }
  apply bind_result_err in Hd as [Hd|(u & _ & Hd)].
  { unfold raise_if in Hd. destruct (_ || _); [injection Hd as <-|done]. eexists. split; [done|]. by_decide. }
  apply bind_result_err in Hd as [Hd|(u' & _ & [=])].
  unfold raise_if in Hd. destruct (_ || _ || _ || _ || _); [injection Hd as <-|done].
  eexists. split; [done|]. by_decide.
Qed.

Lemma write_failed_check h token organization v digest write event_id id category h' :
  category ∉ refused ->
  sends (write_failed (EventbriteDraftError category) id digest) h'
    (fun l r => written h token organization v digest write event_id (write :: l) r).
Proof.
  intros Hc. apply write_failed_spec; [|done|by right; eauto]. intros c [= <-] Hin. by destruct Hc.
Qed.

Lemma identifier_ok s id : identifier (JStr s) = Ok id -> id = s /\ is_identifier 39 s = true.
Proof. cbn. destruct (is_identifier 39 s); [by intros [= <-]|done]. Qed.

Lemma events_path_allowed organization :
  is_identifier 39 organization = true -> allowed_request "POST" (events_path organization) = true.
Proof.
  intros Ho. unfold allowed_request, events_path. rewrite (between_app "/organizations/"). rewrite Ho.
  by rewrite orb_true_r.
Qed.

Lemma event_path_allowed method id :
  is_identifier 39 id = true -> method = "GET" \/ method = "POST" ->
  allowed_request method (event_path id) = true.
Proof.
  intros Hi Hm. unfold allowed_request, event_path. rewrite (between_app "/events/"). rewrite Hi.
  by destruct Hm as [-> | ->].
Qed.

Lemma sends_allowed method path token payload h (Q : list request -> result exn (list (string * json)) -> Prop) :
  allowed_request method path = true ->
  (let r := eb_request method path token payload in Q [r] (eb_answer h r)) ->
  sends (request_ recursion answer method path token payload) h Q.
Proof.
  intros Ha Hq. unfold request_. rewrite Ha. apply sends_bind, sends_ret. rewrite app_nil_r.
  apply sends_exchange, Hq.
Qed.

Lemma digest_identifiers action organization event_id payload d :
  compute_request_digest recursion action organization event_id payload = Ok d ->
  is_identifier 39 organization = true /\
  (action = "update" -> exists e, event_id = Some e /\ is_identifier 39 e = true).
Proof.
  unfold compute_request_digest. intros Hd.
  apply bind_result_ok in Hd as (? & Ha & Hd). apply bind_result_ok in Hd as (o & Ho & Hd).
  apply identifier_ok in Ho as [-> Ho]. split; [done|]. intros ->.
  apply bind_result_ok in Hd as (? & Hi & Hd).
  change (String.eqb "update" "update") with true in Hi. cbn beta iota in Hi.
  apply bind_result_ok in Hi as (e & Hi & Hu). destruct event_id as [e'|]; [|done].
  apply identifier_ok in Hi as [_ Hi]. eauto.
Qed.

(** What a create sends and returns. *)
Definition created (organization : string) (payload : json) (h l : list request) (r : result exn receipt)
  : Prop :=
  (l = [] /\ exists e, r = Err e) \/
  exists token v digest,
    validate_payload recursion payload true = Ok v /\
    compute_request_digest recursion "create" organization None v = Ok digest /\
    written h token organization v digest (post_event token organization v) None l r.

Lemma create_sends organization payload h :
  sends (create recursion answer now organization payload) h (created organization payload h).
Proof.
  unfold create. do 2 sends_step.
  destruct (validate_payload _ payload true) as [v|e] eqn:Hv; [|by left; eauto].
  do 2 sends_step. destruct (compute_request_digest _ _ _ _ v) as [digest|e] eqn:Hd; [|by left; eauto].
  destruct (digest_identifiers _ _ _ _ _ Hd) as [Ho _].
  sends_step; [by left; eauto..|]. do 2 sends_step.
  apply sends_allowed; [by apply events_path_allowed|]. cbn zeta.
  fold (events_path organization). fold (post_event token organization v). set (write := post_event token organization v).
  assert (forall m : W receipt,
    sends m (h ++ [write]) (fun l r => written h token organization v digest write None (write :: l) r) ->
    sends m (h ++ [write]) (fun l r => created organization payload h ([write] ++ l) r)) as Hdone.
  { intros m. apply sends_mono. intros l r Hl. right. by exists token, v, digest. }
  destruct (eb_answer h write) as [event|e] eqn:Ha.
  - destruct (identifier (get_or_none event "id")) as [id|e] eqn:Hid.
    + destruct (draft event organization (Some id)) as [p|e] eqn:Hdr.
      * apply Hdone. pose proof (draft_identity _ _ _ _ Hdr) as ->.
        eapply sends_mono; [|apply confirm_sends]. intros l r Hc. by apply (write_accepted _ _ _ _ _ _ _ event id).
      * apply Hdone. destruct (draft_error _ _ _ _ Hdr) as (c & -> & Hc). by apply write_failed_check.
    + apply Hdone. apply identifier_error in Hid as ->. apply write_failed_check. by_decide.
  - apply Hdone, write_failed_spec.
    + intros c -> Hc. by apply (eb_answer_refused h write _ c Ha).
    + by intros ->.
    + by apply (eb_answer_error h write).
Qed.

(** What an update sends and returns: nothing, a read, or the read of exactly the reviewed
    revision followed by the write. *)
Definition patch_event (token id : string) (v : json) : request :=
  eb_request "POST" (event_path id) token (Some v).
Definition updated (organization id : string) (payload : json) (expected : string)
    (h l : list request) (r : result exn receipt) : Prop :=
  (l = [] /\ exists e, r = Err e) \/
  exists token v digest,
    validate_payload recursion payload false = Ok v /\
    compute_request_digest recursion "update" organization (Some id) v = Ok digest /\
    (l = [eb_get token id] /\ (exists e, r = Err e) \/
     exists before l', l = eb_get token id :: l' /\ eb_answer h (eb_get token id) = Ok before /\
       draft before organization (Some id) = Ok id /\ readback_digest before = expected /\
       written (h ++ [eb_get token id]) token organization v digest (patch_event token id v) (Some id) l' r).

Lemma update_sends organization id payload expected h :
  sends (update recursion answer now organization id payload expected) h
    (updated organization id payload expected h).
Proof.
  unfold update. do 2 sends_step.
  destruct (validate_payload _ payload false) as [v|e] eqn:Hv; [|by left; eauto].
  do 2 sends_step. destruct (compute_request_digest _ _ _ _ v) as [digest|e] eqn:Hd; [|by left; eauto].
  destruct (digest_identifiers _ _ _ _ _ Hd) as [Ho Hi]. destruct (Hi eq_refl) as (e & [= <-] & Hid). clear Hi.
  do 2 sends_step; [by left; eauto|]. sends_step; [by left; eauto..|]. sends_step.
  apply sends_allowed; [apply event_path_allowed; eauto|]. cbn zeta. fold (event_path id).
  fold (eb_get token id). set (read := eb_get token id).
  assert (forall e, updated organization id payload expected h [read] (Err e)) as Hread.
  { intros e. right. exists token, v, digest. split_and!; try done. left. eauto. }
  destruct (eb_answer h read) as [before|e] eqn:Ha; [|apply Hread]. do 2 sends_step.
  destruct (draft before organization (Some id)) as [p|e] eqn:Hdr; [|apply Hread].
  pose proof (draft_identity _ _ _ _ Hdr) as ->.
  do 2 sends_step; [apply Hread|]. do 2 sends_step.
  apply sends_bind, sends_allowed; [apply event_path_allowed; eauto|]. cbn zeta. fold (patch_event token id v).
  set (write := patch_event token id v).
  assert (forall (m : W receipt) h',
    sends m h' (fun l r => written (h ++ [read]) token organization v digest write (Some id) (write :: l) r) ->
    sends m h' (fun l r => updated organization id payload expected h ([read; write] ++ l) r)) as Hdone.
  { intros m h'. apply sends_mono. intros l r Hl. right. exists token, v, digest. split_and!; try done.
    right. exists before, (write :: l). split_and!; try done. by bools. }
  destruct (eb_answer (h ++ [read]) write) as [event|e] eqn:Hw.
  - sends_step. destruct (draft event organization (Some id)) as [p|e] eqn:Hde; apply Hdone.
    + pose proof (draft_identity _ _ _ _ Hde) as ->.
      eapply sends_mono; [|apply confirm_sends]. intros l r Hc. by apply (write_accepted _ _ _ _ _ _ _ event id).
    + destruct (draft_error _ _ _ _ Hde) as (c & -> & Hc). by apply write_failed_check.
  - apply Hdone, write_failed_spec.
    + intros c -> Hc. by apply (eb_answer_refused _ write _ c Hw).
    + by intros ->.
    + by apply (eb_answer_error (h ++ [read]) write).
Qed.

(** What a reconciliation sends and returns: at most one read, under the digest of the
    request it was asked about. *)
Definition reconciled (organization : string) (event_id : option string) (payload : json) (digest : string)
    (action : string) (h l : list request) (r : result exn receipt) : Prop :=
  (l = [] /\ match r with Ok rc => outcome rc = "UNKNOWN" /\ request_digest rc = digest | Err _ => True end) \/
  exists token v id, event_id = Some id /\
    validate_payload recursion payload (String.eqb action "create") = Ok v /\ confirms h token organization id v digest l r.

Lemma reconcile_sends organization event_id payload digest action h :
  sends (reconcile recursion answer now organization event_id payload digest action) h
    (reconciled organization event_id payload digest action h).
Proof.
  unfold reconcile. do 2 sends_step. destruct (validate_payload _ _ _) as [v|e] eqn:Hv; [|by left].
  do 2 sends_step. destruct (compute_request_digest _ _ _ _ _) as [d|e]; [|by left].
  do 2 sends_step; [by left|]. bools. subst. destruct event_id as [id|].
  - do 2 sends_step. destruct (identifier (JStr id)) as [i|e]; [|by left].
    sends_step; [by left..|]. eapply sends_mono; [|apply confirm_sends].
    intros l r Hc. right. by exists token, v, id.
  - sends_step. by left.
Qed.
End eventbrite.

(** ** Requests that write *)

Definition posts (l : list request) : list request :=
  List.filter (fun r => String.eqb (method r) "POST") l.

Lemma posts_app l l' : posts (l ++ l') = posts l ++ posts l'.
Proof. apply List.filter_app. Qed.

Section iterable.
Context (recursion : nat) (answer : server) (now : Z).
Import IterableDrafts.

Definition it_answer (h : list request) (r : request) : result exn (list (string * json)) :=
  decode_response recursion IterableDraftError MAX_RESPONSE_BYTES (answer h r).

Definition it_request (method base path token : string) (payload : option json) : request :=
  Request method (base +:+ path) [("Api-Key", token); ("Content-Type", "application/json")]
    (json_dumps_default true false <$> payload).

(** A GET sends one request, or none. *)
Lemma sends_get allowed check path token region h (Q : list request -> result exn (list (string * json)) -> Prop) :
  (forall category, Q [] (Err (IterableDraftError category))) ->
  (forall base, region_ region = Ok base ->
    let r := it_request "GET" base path token None in Q [r] (it_answer h r)) ->
  sends (send recursion answer allowed check "GET" path token region None) h Q.
Proof.
  intros He Hq. unfold send. do 2 sends_step. destruct (region_ region) as [base|e] eqn:Hr.
  - do 2 sends_step; [apply He|]. do 2 sends_step.
    change (bool_decide (is_Some None)) with false. cbn beta iota.
    apply sends_exchange. by apply Hq.
  - assert (e = invalid_request) as ->; [|apply He]. unfold region_ in Hr.
    destruct region; try (by injection Hr as <-). destruct (dict_get s BASE_URLS); [done|by injection Hr as <-].
Qed.


(** A POST: nothing, when the region or the payload is refused, or one request. *)
Lemma sends_post allowed check path token region payload h
    (Q : list request -> result exn (list (string * json)) -> Prop) :
  (forall e, Q [] (Err e)) ->
  (forall base v, region_ region = Ok base -> check payload = Ok v ->
    let r := it_request "POST" base path token (Some v) in Q [r] (it_answer h r)) ->
  sends (send recursion answer allowed check "POST" path token region (Some payload)) h Q.
Proof.
  intros He Hq. unfold send. do 2 sends_step. destruct (region_ region) as [base|e] eqn:Hr; [|apply He].
  do 2 sends_step; [apply He|]. do 2 sends_step. change (default JNull (Some payload)) with payload.
  change (String.eqb "POST" "POST") with true. cbn beta iota.
  destruct (check payload) as [v|e] eqn:Hc; [|apply He]. cbn [mbind result_bind].
  apply sends_exchange. by apply Hq.
Qed.

(** ** Campaigns *)

Definition template_path (id : Z) : string := "/api/templates/email/get?templateId=" +:+ str_of_Z id.
Definition campaign_path (id : Z) : string := "/api/campaigns/" +:+ str_of_Z id.

(** The provider answered a read of [path] with [answered]. *)
Definition read_back (region : json) (path token : string) (answered : list (string * json)) : Prop :=
  exists base h, region_ region = Ok base /\ it_answer h (it_request "GET" base path token None) = Ok answered.

Definition template_read (region : json) (token : string) (id : Z) (content : string) : Prop :=
  exists template, read_back region (template_path id) token template /\
    is_int (get_or_none template "templateId") id = true /\ template_content_digest template = content.

Lemma template_sends token region id h :
  sends (template_ recursion answer token region id) h (fun l r =>
    posts l = [] /\ match r with Ok content => template_read region token id content | Err _ => True end).
Proof.
  unfold template_. apply sends_bind, sends_get; [done|]. intros base Hb. cbn zeta.
  destruct (it_answer h _) as [template|e] eqn:Ha; [|done]. do 2 sends_step; [done|]. sends_step.
  split; [done|]. exists template. bools. split_and!; try done. by exists base, h.
Qed.

(** The campaign read back is the reviewed one: its identity, an unscheduled e-mail blast,
    the reviewed name and audience, and a copy of the reviewed template. *)
Definition reviewed_campaign (region : json) (token : string) (id : Z) (payload : json) (content : string)
    (campaign : list (string * json)) : Prop :=
  let fields := fields_of payload in
  is_int (get_or_none campaign "id") id = true /\ unsafe_campaign campaign = false /\
  py_eq (get_or_none campaign "name") (get_or_none fields "name") = true /\
  same_ids campaign fields "listIds" = true /\ same_ids campaign fields "suppressionListIds" = true /\
  exists v copied, dict_get "templateId" campaign = Some v /\ identifier v = Ok copied /\
    template_read region token copied content.

Lemma check_campaign_sends token region id payload content campaign h :
  sends (check_campaign recursion answer token region id payload content campaign) h (fun l r =>
    posts l = [] /\
    match r with Ok _ => reviewed_campaign region token id payload content campaign | Err _ => True end).
Proof.
  unfold check_campaign. do 4 (do 2 sends_step; [done|]). destruct (dict_get "templateId" campaign) as [v|] eqn:Hv; [|by sends_step].
  do 2 sends_step. destruct (identifier v) as [copied|e] eqn:Hc; [|done].
  sends_step. eapply sends_mono; [|apply template_sends]. intros l [actual|e] [Hl Ht]; [|done].
  sends_step; [done|]. split; [done|]. bools. subst.
  unfold reviewed_campaign. split_and!; try done. by exists v, copied.
Qed.

Definition confirmed_campaign (region : json) (token : string) (payload : json) (content : string)
    (rc : receipt) : Prop :=
  exists id campaign, read_back region (campaign_path id) token campaign /\
    reviewed_campaign region token id payload content campaign /\
    provider_id rc = Some (str_of_Z id) /\ provider_status rc = state_of campaign /\
    readback rc = Some (readback_digest campaign content).

(** A receipt for [digest] that confirms only what [evidence] was read back for. *)
Definition honest (digest : string) (evidence : receipt -> Prop) (r : result exn receipt) : Prop :=
  match r with
  | Ok rc => request_digest rc = digest /\
             (outcome rc = "UNKNOWN" \/ outcome rc = "CONFIRMED" /\ evidence rc)
  | Err _ => True
  end.

Definition reads (l : list request) : Prop := posts l = [].

Lemma campaign_confirm_sends token region id payload digest content h :
  sends (confirm recursion answer token region id payload digest content) h (fun l r =>
    reads l /\ honest digest (confirmed_campaign region token payload content) r).
Proof.
  unfold confirm. cbn zeta.
  assert (forall status e h', sends
    match e with
    | IterableDraftError category =>
        mret (unknown_receipt (Some (str_of_Z id)) (known_state status) digest category)
    | _ => raise e
    end h' (fun l r => l = [] /\ honest digest (confirmed_campaign region token payload content) r)) as Hfail.
  { intros status e h'. destruct e; sends_step; (split; [done|]); try done. split; [done|by left]. }
  apply sends_bind, sends_attempt, sends_get.
  { intros c. eapply sends_mono; [|apply (Hfail None (IterableDraftError c))].
    intros l r [-> Hr]. done. }
  intros base Hb. cbn zeta. fold (campaign_path id).
  destruct (it_answer h _) as [campaign|e] eqn:Ha.
  - sends_step. apply sends_attempt.
    eapply sends_mono; [|apply check_campaign_sends]. intros l [[]|e] [Hl Hc]; cbn beta iota.
    + sends_step. split; [done|]. split; [done|]. right. split; [done|]. exists id, campaign.
      split_and!; try done. by exists base, h.
    + eapply sends_mono; [|apply Hfail]. intros l' r [-> Hr]. rewrite app_nil_r. split; [|done]. done.
  - eapply sends_mono; [|apply Hfail]. intros l' r [-> Hr]. done.
Qed.

(** A write of an Iterable draft: nothing but reads, and then no confirmation; or exactly
    one POST, to [path] with the reviewed payload, and a confirmation only on evidence. *)
Definition writes_once (path : string) (region : json) (digest : string) (check : json -> result exn json)
    (payload : json) (evidence : receipt -> Prop) (l : list request) (r : result exn receipt) : Prop :=
  (reads l /\ (forall rc, r = Ok rc -> request_digest rc = digest /\ outcome rc = "UNKNOWN")) \/
  (exists base token v, region_ region = Ok base /\ check payload = Ok v /\
     posts l = [it_request "POST" base path token (Some v)] /\ honest digest evidence r).

Definition campaign_created (region payload expected : json) (l : list request) (r : result exn receipt)
  : Prop :=
  (l = [] /\ exists e, r = Err e) \/
  exists v digest token content, validate_payload recursion payload = Ok v /\
    compute_request_digest recursion region v expected = Ok digest /\
    writes_once "/api/campaigns/create" region digest (validate_payload recursion) v
      (fun rc => JStr content = expected /\ confirmed_campaign region token v content rc) l r.

Lemma str_py_eq s v : py_eq (JStr s) v = true -> v = JStr s.
Proof. destruct v; try done. cbn. intros H. bools. by subst. Qed.

Definition unconfirmed (digest : string) (r : result exn receipt) : Prop :=
  forall rc, r = Ok rc -> request_digest rc = digest /\ outcome rc = "UNKNOWN".

Lemma unconfirmed_honest digest evidence r : unconfirmed digest r -> honest digest evidence r.
Proof. intros Hr. destruct r as [rc|e]; [|done]. destruct (Hr rc eq_refl). split; [done|by left]. Qed.

(** The POST step of a create: [post] sends it or fails before, [k] goes on. *)
Lemma post_once {A} (post : W A) (k : result exn A -> W receipt) path token region digest check payload
    evidence h :
  sends post h (fun l r =>
    (l = [] /\ exists e, r = Err e) \/
    exists base v, region_ region = Ok base /\ check payload = Ok v /\
      l = [it_request "POST" base path token (Some v)]) ->
  (forall e h', sends (k (Err e)) h' (fun l r => l = [] /\ unconfirmed digest r)) ->
  (forall a h', sends (k (Ok a)) h' (fun l r => reads l /\ honest digest evidence r)) ->
  sends (EventbriteDrafts.attempt post ≫= k) h (writes_once path region digest check payload evidence).
Proof.
  intros Hpost Herr Hok. apply sends_bind, sends_attempt. eapply sends_mono; [|exact Hpost].
  intros l r [[-> [e ->]]|(base & v & Hb & Hv & ->)].
  - eapply sends_mono; [|apply Herr]. intros l r [-> Hr]. left. by split.
  - destruct r as [a|e].
    + eapply sends_mono; [|apply Hok]. intros l r [Hl Hr]. right. exists base, token, v.
      split_and!; try done. rewrite posts_app. unfold reads in Hl. by rewrite Hl.
    + eapply sends_mono; [|apply Herr]. intros l r [-> Hr]. right. exists base, token, v.
      split_and!; try done. by apply unconfirmed_honest.
Qed.

(** The handler of the POST never confirms. *)
Lemma write_failed_unconfirmed e digest h :
  sends (write_failed e digest) h (fun l r => l = [] /\ unconfirmed digest r).
Proof.
  destruct e; cbn [write_failed]; try (by sends_step).
  destruct (bool_decide (category ∈ refused)); sends_step; (split; [done|]); [by intros ?|].
  by intros rc [= <-].
Qed.

Lemma campaign_create_sends region payload expected h :
  sends (create recursion answer now region payload expected) h (campaign_created region payload expected).
Proof.
  unfold create. do 2 sends_step. destruct (validate_payload _ payload) as [v|e] eqn:Hv; [|by left; eauto].
  do 2 sends_step. destruct (compute_request_digest _ _ v _) as [digest|e] eqn:Hd; [|by left; eauto].
  sends_step; [by left; eauto..|]. do 2 sends_step.
  destruct (identifier (get_or_none (fields_of v) "templateId")) as [tid|e] eqn:Ht; [|by left; eauto].
  assert (forall l e, reads l -> campaign_created region payload expected l (Err e)) as Hread.
  { intros l e Hl. right. exists v, digest, token, "". split_and!; try done. left. by split. }
  sends_step. eapply sends_mono; [|apply template_sends]. intros l0 [content|e] [Hl0 _]; [|by apply Hread].
  do 2 sends_step; [by apply Hread|]. bools. apply str_py_eq in H as ->.
  set (evidence := fun rc => JStr content = JStr content /\ confirmed_campaign region token v content rc).
  eapply sends_mono; [|apply (post_once _ _ "/api/campaigns/create" token region digest
    (validate_payload recursion) v evidence)].
  - intros l r Hw. right. exists v, digest, token, content. split_and!; try done.
    unfold writes_once, reads in *. by rewrite posts_app, Hl0.
  - apply sends_bind, sends_post; [eauto|]. intros base w Hb Hw. cbn zeta.
    destruct (it_answer _ _) as [d|e]; [sends_step|]; right; by exists base, w.
  - intros e h'. apply write_failed_unconfirmed.
  - intros id h'. eapply sends_mono; [|apply campaign_confirm_sends].
    intros l [rc|e] [Hl Hr]; split; try done. destruct Hr as [Hr [Hu|[Hc He]]]; (split; [done|]); auto.
    right. by split.
Qed.

(** A reconciliation only reads. *)
Lemma campaign_reconcile_sends region campaign_id payload digest expected h :
  sends (reconcile recursion answer now region campaign_id payload digest expected) h (fun l r =>
    reads l /\ honest digest (fun rc => exists token v content, validate_payload recursion payload = Ok v /\
      JStr content = expected /\ confirmed_campaign region token v content rc) r).
Proof.
  unfold reconcile. do 2 sends_step. destruct (validate_payload _ payload) as [v|e] eqn:Hv; [|done].
  do 2 sends_step. destruct (compute_request_digest _ _ v _) as [d|e] eqn:Hd; [|done].
  do 2 sends_step; [done|]. bools. subst. destruct campaign_id as [id|].
  - do 2 sends_step; [done|]. do 2 sends_step. destruct (identifier _) as [i|e]; [|done].
    sends_step; [done..|]. eapply sends_mono; [|apply campaign_confirm_sends].
    intros l r [Hl Hr]. split; [done|]. destruct r as [rc|e]; [|done].
    destruct Hr as [Hr [Hu|[Hc He]]]; (split; [done|]); [by left|]. right. split; [done|].
    unfold compute_request_digest in Hd. destruct expected as [| | | |x| |]; try done. by exists token, v, x.
  - sends_step. split; [done|]. split; [done|by left].
Qed.

(** ** Templates *)

Definition lookup_path (client : string) : string :=
  "/api/templates/getByClientTemplateId?clientTemplateId=" +:+ client.

(** The reviewed template, found alone under its client's name and read back unchanged. *)
Definition confirmed_template (region : json) (token : string) (payload : json) (rc : receipt) : Prop :=
  exists id template found entry,
    read_back region (lookup_path (IterableTemplates.text_of (fields_of payload) "clientTemplateId")) token found /\
    get_or_none found "templates" = JList [JDict entry] /\ get_or_none entry "templateId" = JInt id /\
    get_or_none entry "campaignId" = JNull /\
    read_back region (template_path id) token template /\
    is_int (get_or_none template "templateId") id = true /\
    forallb (fun kv => py_eq (get_or_none template kv.1) kv.2) (fields_of payload) = true /\
    IterableTemplates.foreign_content template = false /\ IterableTemplates.feeds_enabled template = false /\
    provider_id rc = Some (str_of_Z id) /\ provider_status rc = Some "template" /\
    readback rc = Some (template_content_digest template).

Definition owned_template (region : json) (token client : string) (id : Z) : Prop :=
  exists found entry, read_back region (lookup_path client) token found /\
    get_or_none found "templates" = JList [JDict entry] /\ get_or_none entry "templateId" = JInt id /\
    get_or_none entry "campaignId" = JNull.

Lemma lookup_sends token region client h :
  sends (IterableTemplates.lookup_ recursion answer token region client) h (fun l r =>
    reads l /\ match r with
               | Ok entries => exists found, read_back region (lookup_path client) token found /\
                                get_or_none found "templates" = JList (map JDict entries)
               | Err _ => True
               end).
Proof.
  unfold IterableTemplates.lookup_. apply sends_bind, sends_get; [done|]. intros base Hb. cbn zeta.
  fold (lookup_path client). destruct (it_answer h _) as [found|e] eqn:Ha; [|done].
  destruct (get_or_none found "templates") as [| | | | |l|] eqn:Hl; try (by sends_step).
  do 2 sends_step; [done|]. sends_step. split; [done|].
  destruct (traverse _ l) as [entries|e] eqn:Ht; [|done].
  exists found. split; [by exists base, h|]. rewrite Hl. f_equal. clear Hl H. revert entries Ht.
  induction l as [|x l IH]; intros entries Ht; cbn in Ht; [by injection Ht as <-|].
  result_inv Ht. injection Ht as <-. cbn. rewrite (IH _ H0). f_equal.
  destruct x; try done. result_inv H. by injection H as <-.
Qed.

Lemma find_template_sends token region client provider h :
  sends (IterableTemplates.find_template recursion answer token region client provider) h (fun l r =>
    reads l /\ match r with Ok id => owned_template region token client id | Err _ => True end).
Proof.
  unfold IterableTemplates.find_template. sends_step. eapply sends_mono; [|apply lookup_sends].
  intros l [entries|e] [Hl Hf]; [|done]. destruct entries as [|entry [|]]; try (by sends_step).
  do 2 sends_step; [done|]. do 2 sends_step.
  destruct (identifier _) as [id|e] eqn:Hi; [|done]. do 2 sends_step; [done|]. sends_step. split; [done|].
  destruct Hf as (found & Hr & Hf). exists found, entry. split_and!; try done.
  - unfold identifier in Hi. destruct (get_or_none entry "templateId"); try done.
    destruct (_ && _); [by injection Hi as ->|done].
  - bools. by destruct (get_or_none entry "campaignId").
Qed.

Lemma check_template_sends token region payload id h :
  sends (IterableTemplates.check_template recursion answer token region payload id) h (fun l r =>
    reads l /\ match r with
               | Ok template => read_back region (template_path id) token template /\
                   is_int (get_or_none template "templateId") id = true /\
                   forallb (fun kv => py_eq (get_or_none template kv.1) kv.2) (fields_of payload) = true /\
                   IterableTemplates.foreign_content template = false /\
                   IterableTemplates.feeds_enabled template = false
               | Err _ => True
               end).
Proof.
  unfold IterableTemplates.check_template. apply sends_bind, sends_get; [done|]. intros base Hb. cbn zeta.
  destruct (it_answer h _) as [template|e] eqn:Ha; [|done].
  do 4 (do 2 sends_step; [done|]). sends_step. bools. split_and!; try done. by exists base, h.
Qed.

Lemma template_confirm_sends token region payload digest provider h :
  sends (IterableTemplates.confirm recursion answer token region payload digest provider) h (fun l r =>
    reads l /\ honest digest (confirmed_template region token payload) r).
Proof.
  unfold IterableTemplates.confirm. cbn zeta.
  assert (forall id e h', sends
    match e with
    | IterableDraftError category => mret (unknown_receipt id None digest category)
    | _ => raise e
    end h' (fun l r => l = [] /\ honest digest (confirmed_template region token payload) r)) as Hfail.
  { intros id e h'. destruct e; sends_step; (split; [done|]); try done. split; [done|by left]. }
  apply sends_bind, sends_attempt. eapply sends_mono; [|apply find_template_sends].
  intros l [id|e] [Hl Ho]; cbn beta iota.
  - apply sends_bind, sends_attempt. eapply sends_mono; [|apply check_template_sends].
    intros l' [template|e] [Hl' Ht]; cbn beta iota.
    + sends_step. split; [unfold reads in *; by rewrite posts_app, Hl|]. split; [done|]. right.
      split; [done|]. destruct Ho as (found & entry & ? & ? & ? & ?), Ht as (? & ? & ? & ? & ?).
      by exists id, template, found, entry.
    + eapply sends_mono; [|apply Hfail]. intros l'' r [-> Hr]. rewrite app_nil_r.
      split; [unfold reads in *; by rewrite posts_app, Hl|done].
  - eapply sends_mono; [|apply Hfail]. intros l'' r [-> Hr]. by rewrite app_nil_r.
Qed.

Definition template_created (region payload : json) (l : list request) (r : result exn receipt) : Prop :=
  (l = [] /\ exists e, r = Err e) \/
  exists v digest token, IterableTemplates.validate_template_payload payload = Ok v /\
    IterableTemplates.compute_request_digest region v = Ok digest /\
    writes_once "/api/templates/email/upsert" region digest IterableTemplates.check_post v
      (confirmed_template region token v) l r.

Lemma template_create_sends region payload h :
  sends (IterableTemplates.create recursion answer now region payload) h (template_created region payload).
Proof.
  unfold IterableTemplates.create. do 2 sends_step.
  destruct (IterableTemplates.validate_template_payload payload) as [v|e] eqn:Hv; [|by left; eauto].
  do 2 sends_step. destruct (IterableTemplates.payload_version v) as [n|e]; [|by left; eauto].
  do 2 sends_step; [by left; eauto|]. do 2 sends_step.
  destruct (IterableTemplates.compute_request_digest region v) as [digest|e] eqn:Hd; [|by left; eauto].
  sends_step; [by left; eauto..|].
  assert (forall l e, reads l -> template_created region payload l (Err e)) as Hread.
  { intros l e Hl. right. exists v, digest, token. split_and!; try done. left. by split. }
  sends_step. eapply sends_mono; [|apply lookup_sends]. intros l0 [entries|e] [Hl0 _]; [|by apply Hread].
  do 2 sends_step; [by apply Hread|].
  eapply sends_mono; [|apply (post_once _ _ "/api/templates/email/upsert" token region digest
    IterableTemplates.check_post v (confirmed_template region token v))].
  - intros l r Hw. right. exists v, digest, token. split_and!; try done.
    unfold writes_once, reads in *. by rewrite posts_app, Hl0.
  - apply sends_post; [eauto|]. intros base w Hb Hw. right. by exists base, w.
  - intros e h'. destruct e; sends_step; (split; [done|]); try (by intros ?). by intros rc [= <-].
  - intros a h'. apply template_confirm_sends.
Qed.

Lemma validated_template payload v : IterableTemplates.validate_template_payload payload = Ok v -> v = payload.
Proof.
  intros Hv. unfold IterableTemplates.validate_template_payload in Hv. repeat result_step Hv. by injection Hv as <-.
Qed.

Lemma template_reconcile_sends region payload digest provider h :
  sends (IterableTemplates.reconcile recursion answer now region payload digest provider) h (fun l r =>
    reads l /\ honest digest (fun rc => exists token, confirmed_template region token payload rc) r).
Proof.
  unfold IterableTemplates.reconcile. do 2 sends_step.
  destruct (IterableTemplates.validate_template_payload payload) as [v|e] eqn:Hv; [|done].
  apply validated_template in Hv as ->.
  do 2 sends_step. destruct (IterableTemplates.compute_request_digest region payload) as [d|e]; [|done].
  do 2 sends_step; [done|]. bools. subst. sends_step; [done..|].
  eapply sends_mono; [|apply template_confirm_sends]. intros l [rc|e] [Hl Hr]; (split; [done|]); [|done].
  destruct Hr as [Hr [Hu|[Hc He]]]; (split; [done|]); [by left|]. right. split; [done|]. by exists token.
Qed.
End iterable.
End AdapterFacts.
