(* ===== verification/DraftPayloadTheorems.v ===== *)
(** * Reviewed payloads are canonical

    The payload that submission validates, completes and stores is the payload the adapter
    validates again before it sends it. *)

From S2P Require Import Prelude PyValue Sha256 JsonText JsonTextTheorems OwnerEvents OwnerEventsTheorems DraftProvider EventbriteDrafts IterableDrafts.

Module PayloadFacts.
Import Provider EventbriteDrafts JsonFacts.

Section payload.
Context `{OwnerEvents.Platform} (recursion : nat).

(** [json.loads(json.dumps(v))] *)
Lemma reload_dumps v : plain v = true -> (height v <= recursion)%nat ->
  reload recursion (json_dumps_default false false v) = Ok v.
Proof. intros Hp Hh. unfold reload, JsonText.loads. by rewrite (loads_text false " " recursion false false v). Qed.

Lemma only_key {V : Type} k (d : list (string * V)) :
  has_keys d [k] = true -> NoDup (map fst d) -> exists v, d = [(k, v)].
Proof.
  unfold has_keys. intros Hk Hn. bools. destruct d as [|[k1 v1] [|[k2 v2] d]]; [done| |].
  - cbn in H0. bools. apply list_elem_of_singleton in H0 as ->. eauto.
  - cbn in H0, Hn. bools. apply list_elem_of_singleton in H0, H2. subst. inv Hn. set_solver.
Qed.

(** The defaults a create adds. *)
Definition completed (event : list (string * json)) : list (string * json) :=
  setdefault_false "shareable" (setdefault_false "listed" event).

Lemma setdefault_get k key event :
  dict_get k (setdefault_false key event) =
    if String.eqb k key then Some (default (JBool false) (dict_get key event)) else dict_get k event.
Proof.
  unfold setdefault_false, dict_mem. destruct (dict_get key event) as [v|] eqn:Hg.
  - destruct (String.eqb k key) eqn:E; bools; subst; by rewrite ?Hg.
  - by rewrite dict_get_set.
Qed.

Lemma completed_get k event : k <> "listed" -> k <> "shareable" ->
  dict_get k (completed event) = dict_get k event.
Proof.
  intros H1 H2. unfold completed. rewrite !setdefault_get.
  apply String.eqb_neq in H1 as ->. by apply String.eqb_neq in H2 as ->.
Qed.

Lemma completed_default k event : k = "listed" \/ k = "shareable" ->
  dict_get k (completed event) = Some (default (JBool false) (dict_get k event)).
Proof. unfold completed. intros [-> | ->]; rewrite !setdefault_get; reflexivity. Qed.

Lemma optional_default k event u : k = "listed" \/ k = "shareable" ->
  optional event k check_false = Ok u -> exists u', optional (completed event) k check_false = Ok u'.
Proof.
  intros Hk. unfold optional. rewrite completed_default by done. destruct (dict_get k event); cbn; eauto.
Qed.

(** A step of the checks whose outcome is known. *)
Ltac keep H := apply bind_result_ok in H as (? & -> & H); cbn [mbind result_bind].

Lemma check_completed event : check_event event = Ok () -> check_event (completed event) = Ok ().
Proof.
  intros Hc. unfold check_event in *.
  assert (forall A k (f : json -> result exn A), k <> "listed" -> k <> "shareable" ->
    optional (completed event) k f = optional event k f) as Ho.
  { intros A k f H1 H2. unfold optional. by rewrite completed_get. }
  assert (forall k, k <> "listed" -> k <> "shareable" -> dict_mem k (completed event) = dict_mem k event) as Hm.
  { intros k H1 H2. unfold dict_mem. by rewrite completed_get. }
  assert (forall v, check_venue (completed event) v = check_venue event v) as Hv.
  { intros v. unfold check_venue. by rewrite completed_get. }
  rewrite !Hm by done.
  rewrite (Ho _ "name" check_name) by done. keep Hc.
  rewrite (Ho _ "summary" check_summary) by done. keep Hc.
  rewrite (Ho _ "start" check_when) by done. keep Hc.
  rewrite (Ho _ "end" check_when) by done. do 3 keep Hc.
  rewrite (Ho _ "currency" check_currency) by done. keep Hc.
  rewrite (Ho _ "online_event" check_online) by done. keep Hc.
  apply bind_result_ok in Hc as (u1 & H1 & Hc). destruct (optional_default "listed" event u1) as [u1' ->]; auto.
  cbn [mbind result_bind].
  apply bind_result_ok in Hc as (u2 & H2 & Hc). destruct (optional_default "shareable" event u2) as [u2' ->]; auto.
  cbn [mbind result_bind]. rewrite (Ho _ "venue_id" (check_venue (completed event))) by done. unfold optional in *.
  destruct (dict_get "venue_id" event); [by rewrite Hv|done].
Qed.

(** What validation returns: the payload itself, with the defaults when it is for a create. *)
Lemma validate_payload_spec payload create q :
  plain payload = true -> (height payload <= recursion)%nat ->
  validate_payload recursion payload create = Ok q ->
  exists event, payload = JDict [("event", JDict event)] /\ event <> [] /\
    forallb (fun kv => bool_decide (kv.1 ∈ allowed_fields create)) event = true /\
    forallb (fun k => dict_mem k event) (required_fields create) = true /\
    check_event event = Ok () /\
    q = JDict [("event", JDict (if create then completed event else event))].
Proof.
  intros Hp Hh Hv. destruct payload as [| | | | | |d]; try done. cbn [validate_payload] in Hv.
  apply bind_result_ok in Hv as (? & Hk%raise_if_inv & Hv). apply negb_false_iff in Hk.
  assert (exists v, d = [("event", v)]) as [v ->].
  { cbn [plain] in Hp. bools. by apply only_key. }
  change (dict_get "event" [("event", v)]) with (Some v) in Hv. cbn beta iota in Hv.
  destruct v as [| | | | | |event]; try done.
  apply bind_result_ok in Hv as (? & Ha%raise_if_inv & Hv).
  apply bind_result_ok in Hv as (? & Hr%raise_if_inv & Hv). apply bind_result_ok in Hv as ([] & Hc & Hv). result_step Hv.
  rewrite reload_dumps in Hv by done. cbn [mbind result_bind] in Hv.
  exists event. bools. split_and!; try done. by destruct create; injection Hv as <-.
Qed.

Lemma setdefault_cases key event :
  setdefault_false key event = event \/
  dict_get key event = None /\ setdefault_false key event = event ++ [(key, JBool false)].
Proof.
  unfold setdefault_false, dict_mem. destruct (dict_get key event) eqn:Hg; [by left|].
  right. split; [done|]. by apply dict_set_new.
Qed.

Lemma setdefault_idem key event : dict_mem key event = true -> setdefault_false key event = event.
Proof. unfold setdefault_false. by intros ->. Qed.

Lemma completed_idem event : completed (completed event) = completed event.
Proof.
  unfold completed at 1. rewrite !setdefault_idem; [done|..]; unfold dict_mem.
  - by rewrite completed_default by auto.
  - rewrite setdefault_idem; unfold dict_mem; by rewrite completed_default by auto.
Qed.

(** A property of the members that the defaults have too. *)
Lemma completed_forallb (f : string * json -> bool) event :
  f ("listed", JBool false) = true -> f ("shareable", JBool false) = true ->
  forallb f event = true -> forallb f (completed event) = true.
Proof.
  intros H1 H2 Hf. unfold completed.
  assert (forall k e, f (k, JBool false) = true -> forallb f e = true ->
    forallb f (setdefault_false k e) = true) as Hs; [|by auto].
  intros k e Hk He. destruct (setdefault_cases k e) as [-> |[_ ->]]; [done|].
  rewrite forallb_app, He. cbn. by rewrite Hk.
Qed.

Lemma completed_nodup event : NoDup (map fst event) -> NoDup (map fst (completed event)).
Proof.
  assert (forall k e, NoDup (map fst e) -> NoDup (map fst (setdefault_false k e))) as Hs; [|by intros; apply Hs, Hs].
  intros k e Hn. destruct (setdefault_cases k e) as [-> |[Hk ->]]; [done|].
  rewrite map_app. apply NoDup_app. split_and!; [done| |apply NoDup_singleton].
  intros x Hx ->%list_elem_of_singleton. by apply dict_get_none in Hk.
Qed.

Lemma completed_plain event : plain (JDict event) = true -> plain (JDict (completed event)) = true.
Proof.
  cbn [plain]. intros Hp. bools. rewrite completed_forallb by done. apply bool_decide_eq_true.
  by apply completed_nodup.
Qed.

Lemma completed_height event n : (height (JDict event) <= n)%nat -> (height (JDict (completed event)) <= n)%nat.
Proof.
  destruct n as [|n]; cbn [height]; [lia|]. intros Hh. apply le_n_S. apply le_S_n in Hh. rewrite list_max_le in *.
  rewrite Forall_map in *. unfold completed.
  assert (forall k (e : list (string * json)), Forall (fun kv => height kv.2 <= n)%nat e ->
    Forall (fun kv => height kv.2 <= n)%nat (setdefault_false k e)) as Hs; [|by apply Hs, Hs].
  intros k e He. destruct (setdefault_cases k e) as [-> |[_ ->]]; [done|].
  apply Forall_app. split; [done|]. constructor; [cbn; lia|constructor].
Qed.

Lemma completed_mem k event : dict_mem k event = true -> dict_mem k (completed event) = true.
Proof.
  unfold dict_mem. destruct (decide (k = "listed")); [by rewrite completed_default by auto|].
  destruct (decide (k = "shareable")); [by rewrite completed_default by auto|]. by rewrite completed_get.
Qed.

Lemma required_completed keys event :
  forallb (fun k => dict_mem k event) keys = true -> forallb (fun k => dict_mem k (completed event)) keys = true.
Proof. rewrite !forallb_forall. intros Hf k Hk. by apply completed_mem, Hf. Qed.

(** Validation of a payload of the right shape. *)
Lemma validate_payload_intro event create :
  let payload := JDict [("event", JDict event)] in
  plain payload = true -> (height payload <= recursion)%nat -> event <> [] ->
  forallb (fun kv => bool_decide (kv.1 ∈ allowed_fields create)) event = true ->
  forallb (fun k => dict_mem k event) (required_fields create) = true ->
  check_event event = Ok () ->
  slen (json_dumps_default false false payload) <= MAX_REQUEST_BYTES ->
  validate_payload recursion payload create =
    Ok (JDict [("event", JDict (if create then completed event else event))]).
Proof.
  intros payload Hp Hh Hne Ha Hr Hc Hs. unfold payload in *. unfold validate_payload.
  change (has_keys [("event", JDict event)] ["event"]) with true.
  cbn [negb raise_if mbind result_bind]. change (dict_get "event" [("event", JDict event)]) with (Some (JDict event)).
  cbn beta iota. rewrite Ha, Hr, Hc. rewrite bool_decide_eq_false_2 by done.
  cbn [negb orb raise_if mbind result_bind]. apply Z.ltb_ge in Hs. rewrite Hs.
  cbn [raise_if mbind result_bind]. rewrite reload_dumps by done. by destruct create.
Qed.

Lemma validated_again payload create q :
  plain payload = true -> (height payload <= recursion)%nat ->
  validate_payload recursion payload create = Ok q ->
  slen (json_dumps_default false false q) <= MAX_REQUEST_BYTES ->
  validate_payload recursion q create = Ok q.
Proof.
  intros Hp Hh Hv Hs. destruct (validate_payload_spec _ _ _ Hp Hh Hv) as (event & -> & Hne & Ha & Hr & Hc & ->).
  assert (plain (JDict event) = true) as Hpe.
  { cbn [plain forallb fst snd] in Hp. apply andb_true_iff in Hp as [Hp _]. rewrite andb_true_r in Hp.
    by apply andb_true_iff in Hp as [_ Hp]. }
  destruct create; [|by apply validate_payload_intro].
  rewrite validate_payload_intro; [by rewrite completed_idem|..]; try done.
  - cbn [plain forallb fst snd map]. change (ascii_only "event") with true.
    pose proof (completed_plain event Hpe) as Hcp. cbn [plain] in Hcp. by rewrite Hcp.
  - pose proof (completed_height event (pred recursion)) as Hch.
    change ((S (Nat.max (height (JDict event)) 0) <= recursion)%nat) in Hh.
    change ((S (Nat.max (height (JDict (completed event))) 0) <= recursion)%nat).
    specialize (Hch ltac:(lia)). lia.
  - intros Hnil. destruct event as [|[k v] event]; [done|]. pose proof (completed_mem k ((k, v) :: event)) as Hm.
    rewrite Hnil in Hm. unfold dict_mem in Hm. cbn in Hm. rewrite String.eqb_refl in Hm. by specialize (Hm eq_refl).
  - by apply completed_forallb.
  - by apply required_completed.
  - by apply check_completed.
Qed.

(** The payload that validation returns is final: validating it again changes nothing, and
    every digest of the request is the same for the submitted payload and for the stored
    one, so what the owner approved is what the adapter recomputes before sending. *)
Theorem reviewed_payload_is_final payload action q :
  plain payload = true -> (height payload <= recursion)%nat ->
  validate_payload recursion payload (String.eqb action "create") = Ok q ->
  slen (json_dumps_default false false q) <= MAX_REQUEST_BYTES ->
  validate_payload recursion q (String.eqb action "create") = Ok q /\
  forall organization event_id,
    compute_request_digest recursion action organization event_id q =
    compute_request_digest recursion action organization event_id payload.
Proof.
  intros Hp Hh Hv Hs. pose proof (validated_again _ _ _ Hp Hh Hv Hs) as Hq. split; [done|].
  intros organization event_id. unfold compute_request_digest. by rewrite Hv, Hq.
Qed.
End payload.

(** A draft event as an operator submits it: two fields are completed. *)
Definition submitted_payload : json :=
  JDict [("event", JDict
    [("name", JDict [("html", JStr "Open house")]);
     ("start", JDict [("utc", JStr "2026-08-12T09:00:00Z"); ("timezone", JStr "UTC")]);
     ("end", JDict [("utc", JStr "2026-08-12T11:00:00Z"); ("timezone", JStr "UTC")]);
     ("currency", JStr "USD")])].

Lemma reviewed_payload_is_final_witness :
  exists q, @validate_payload OwnerFacts.two_zones 5 submitted_payload true = Ok q /\
    q <> submitted_payload /\ @validate_payload OwnerFacts.two_zones 5 q true = Ok q.
Proof.
  eexists. split; [vm_compute; reflexivity|]. split; [by vm_compute|].
  apply (@reviewed_payload_is_final OwnerFacts.two_zones 5 submitted_payload "create");
    vm_compute; try reflexivity; try lia; discriminate.
Defined.

End PayloadFacts.
