(* ===== verification/DraftSystem.v ===== *)
(** * The draft operations as a concurrent system

    Any number of requests, claims, exchanges with the provider and stores of their
    outcomes interleave; a worker may die at any point, and every other table may change
    between two steps.  [trace] records which operation sent which request. *)

From S2P Require Import Prelude PyValue OwnerEvents LaunchLoop ToolSchemas Crypto DraftProvider EventbriteDrafts IterableDrafts IterableTemplates DraftRows DraftReview SecretStore DraftOperations.

Module System.
Import Provider Rows Review DraftOperations.

(** Which service a dispatch goes through. *)
Inductive lane := EVENTBRITE | ITERABLE.

(** A dispatch under way, and the outcome of its exchange once there is one. *)
Record thread := Thread {
  t_lane : lane;
  t_dispatch : dispatch;
  t_answer : option (result exn receipt);
}.

Record system := System {
  state : db;
  threads : list thread;
  trace : list (model * Z * request);
}.

Section platform.
Context `{OwnerEvents.Platform} `{Crypto.AESGCM} (recursion : nat) (ring : option Crypto.IntegrationKeyRing).

(** The requests that never talk to a provider. *)
Inductive is_request : M Z -> Prop :=
| request_submit_draft user intent_id run_id action organization payload event_id expected configuration :
    is_request (submit_draft recursion user intent_id run_id action organization payload event_id
                  expected configuration)
| request_submit_template user intent_id run_id sender region :
    is_request (submit_template recursion user intent_id run_id sender region)
| request_approve m user session operation digest revision :
    is_request (approve recursion m user session operation digest revision).

(** The first steps of a dispatch. *)
Inductive is_claim : lane -> M dispatch -> Prop :=
| claim_eventbrite user session operation in_atomic :
    is_claim EVENTBRITE (claim_draft recursion user session operation in_atomic)
| claim_reconcile user session operation :
    is_claim EVENTBRITE (start_reconcile recursion user session operation)
| claim_of_iterable m user session operation in_atomic reconcile :
    is_claim ITERABLE (claim_iterable recursion m user session operation in_atomic reconcile).

Definition exchange_of (l : lane) (answer : server) (now : Z) (p : dispatch)
  : db -> result exn receipt * list request :=
  match l with
  | EVENTBRITE => exchange_draft recursion ring answer now p
  | ITERABLE => exchange_iterable recursion ring answer now p
  end.

Definition finish_of (l : lane) (p : dispatch) (r : result exn receipt) : M Z :=
  match l with
  | EVENTBRITE => if p_reconcile p then finish_reconcile p r else finish_draft p r
  | ITERABLE => finish_iterable p r
  end.

Definition tag (p : dispatch) (r : request) : model * Z * request := (p_model p, p_id p, r).

Inductive step : system -> system -> Prop :=
| step_request s op r d :
    is_request op -> op (state s) = (r, d) -> step s (System d (threads s) (trace s))
| step_claim s l c p d :
    is_claim l c -> c (state s) = (Ok p, d) ->
    step s (System d (threads s ++ [Thread l p None]) (trace s))
| step_exchange s before l p after answer now r sent :
    threads s = before ++ Thread l p None :: after ->
    exchange_of l answer now p (state s) = (r, sent) ->
    step s (System (state s) (before ++ Thread l p (Some r) :: after) (trace s ++ map (tag p) sent))
| step_finish s before l p after r r' d :
    threads s = before ++ Thread l p (Some r) :: after ->
    finish_of l p r (state s) = (r', d) ->
    step s (System d (before ++ after) (trace s))
| step_crash s before t after :
    threads s = before ++ t :: after -> step s (System (state s) (before ++ after) (trace s))
| step_environment s d :
    drafts d = drafts (state s) -> templates d = templates (state s) -> next_id (state s) <= next_id d ->
    step s (System d (threads s) (trace s)).

Definition initial (s : system) : Prop :=
  drafts (state s) = ∅ /\ templates (state s) = ∅ /\ threads s = [] /\ trace s = [].

Definition reachable (s : system) : Prop := exists s0, initial s0 /\ rtc step s0 s.

End platform.
End System.
