(* ===== verification/DraftWorld.v ===== *)
(** * A concrete world for the draft operations

    One operator, one owner with a full session, one accepted Eventbrite proposal and one
    stored credential; a provider that creates and reads back the reviewed draft; and the
    run of an operation from its submission to its confirmation. *)

From S2P Require Import Prelude PyValue Sha256 JsonText OwnerEvents OwnerEventsTheorems LaunchLoop Budgets ToolSchemas Crypto DraftProvider EventbriteDrafts IterableDrafts IterableTemplates DraftRows DraftReview SecretStore DraftOperations DraftSystem.

Module World.
Import Provider Rows Review DraftOperations System.

#[export] Existing Instance OwnerFacts.two_zones.

(** A toy cipher that satisfies the laws: the plaintext and a tag of sixteen zeros. *)
Definition toy_open (key nonce data aad : list Z) : option (list Z) := Some (take (length data - 16) data).
Lemma toy_open_seal (key nonce data aad : list Z) :
  toy_open key nonce (data ++ replicate 16 0) aad = Some data.
Proof.
  unfold toy_open. rewrite length_app, length_replicate. f_equal. apply take_app_length'. lia.
Qed.
Lemma toy_length (key nonce data aad : list Z) : length (data ++ replicate 16 0) = (length data + 16)%nat.
Proof. by rewrite length_app, length_replicate. Qed.
#[export] Instance toy_cipher : Crypto.AESGCM := {|
  Crypto.seal _ _ data _ := data ++ replicate 16 0;
  Crypto.open := toy_open;
  Crypto.open_seal := toy_open_seal;
  Crypto.seal_length := toy_length;
|}.
Definition toy_ring : option Crypto.IntegrationKeyRing :=
  Some (Crypto.KeyRing "k1" {["k1" := replicate 32 7]}).

Definition text_of (r : result exn string) : string := match r with Ok s => s | Err _ => "" end.
Definition after {A : Type} (m : M A) (d : db) : db := (m d).2.

(** ** The rows *)

Definition snapshot : list (string * json) := [("title", JStr "Open house")].
Definition content : json :=
  JDict [("event_copy", JStr "Join us."); ("invitation", ToolSchemas.mk_email "Come" "Join us.");
         ("reminder", ToolSchemas.mk_email "Soon" "See you."); ("social", JDict [("body", JStr "Join.")])].
Definition revision_digest : string := Eval vm_compute in text_of (digest (JDict snapshot)).

Definition proposal : mcp_submission := Eval vm_compute in MCPSubmission 40 "proposal" content (text_of (digest content)).
Definition bare_intent (action idem : string) : draft_operation :=
  DraftOperation 100 7 "maya" 41 "eventbrite" "create_eventbrite_draft" action idem "pending" None None.
Definition action : string := Eval vm_compute in text_of (action_digest 100 revision_digest (bare_intent "" "") proposal).
Definition intent : draft_operation := Eval vm_compute in
  bare_intent action (text_of (idempotency_digest 100 (bare_intent action "") action)).

Definition demo : LaunchLoop.db :=
  LaunchLoop.DB {["maya" := 1]}
    {["maya" := LaunchLoop.Actor "maya" "Maya" LaunchLoop.OPERATOR (Some 1)]}
    ∅ ∅ ∅ {[7 := LaunchLoop.EventRevision 5 1 snapshot "maya" None]}
    {[100 := LaunchLoop.Workflow 5 7 LaunchLoop.READY_FOR_REVIEW None "package" ""]} [] ∅ ∅ [] ∅ 1000.

Definition capability : workflow_capability :=
  WorkflowCapability "" revision_digest 100 7 "maya" ["request_eventbrite_draft"] "civicloop-hermes"
    500 600 (Some 550) (Some 6).
Definition run : agent_run :=
  AgentRun 100 7 "package" true 1 1 None None None PILOT_MINIMIZED R_SUCCEEDED (Some 500) (Some 550) "" 10 20 30.
Definition binding : hermes_binding := HermesRunBinding "maya" (Some 20) 6 revision_digest.
Definition control : run_control := AgentRunControl None (Some 40) (Some 600) false.

Definition world0 : db :=
  DB demo {[1 := User 1 true true; 2 := User 2 true true]}
    {[2 := AdministratorProfile 2 ACTIVE]}
    {[20 := AdministratorSession 2 (Some 10) (Some 9000) (Some 9000) None false]}
    {[40 := capability]} {[41 := proposal]} {[42 := intent]} {[43 := run]}
    {[43 := binding]} {[43 := control]} (Some (HermesAdmissionLane None false)) [] ∅ []
    (Budgets.DB ∅ ∅ ∅ ∅ [] ∅ 1)
    {["eventbrite" := IntegrationConnection "healthy" (Some 50) []]}
    ∅ ∅ ∅ {["CIVICLOOP_EVENTBRITE_DRAFT_WRITE_ENABLED" := "true"]} 1000 50.

Definition token : list Z := Sha256.bytes_of_string "secret-token".
Definition world : db := Eval vm_compute in after (SecretStore.put toy_ring (replicate 12 1) "eventbrite" "drafts" token) world0.

(** ** The provider *)

Definition fields : list (string * json) :=
  [("name", JDict [("html", JStr "Open house")]);
   ("start", JDict [("utc", JStr "2026-08-12T09:00:00Z"); ("timezone", JStr "UTC")]);
   ("end", JDict [("utc", JStr "2026-08-12T11:00:00Z"); ("timezone", JStr "UTC")]);
   ("currency", JStr "USD")].
Definition payload : json := JDict [("event", JDict fields)].
Definition created_event : json :=
  JDict ([("id", JStr "123"); ("organization_id", JStr "77"); ("status", JStr "draft");
          ("listed", JBool false); ("shareable", JBool false)] ++ fields).
Definition eventbrite : server := fun _ _ =>
  Opened 200 (Sha256.bytes_of_string (json_dumps true false created_event)).
(** ** One operation *)

Definition operator : option user := Some (User 1 true true).
Definition owner : option user := Some (User 2 true true).

Definition submission : M Z :=
  submit_draft 20 operator 42 43 "create" "77" payload "" "" (JDict []).
Definition submitted : db := Eval vm_compute in after submission world.
Definition operation : Z := 51.
Definition row_in (d : db) : execution :=
  match drafts d !! operation with Some x => x | None => new_execution 0 0 0 "" "" "" "" JNull JNull end.
Definition approval : M Z := approve 20 DRAFT owner 20 operation (x_review_digest (row_in submitted)) 7.
Definition approved : db := Eval vm_compute in after approval submitted.
Definition claiming : M dispatch := claim_draft 20 owner 20 operation false.
Definition claimed : db := Eval vm_compute in after claiming approved.


(** The operation object of the dispatch, with the relations loaded at its claim. *)
Definition relations : related :=
  Related intent proposal capability run (Some binding) (Some control) (User 1 true true)
    (Some (User 2 true true))
    (Some (AdministratorSession 2 (Some 10) (Some 9000) (Some 9000) None false, AdministratorProfile 2 ACTIVE)).
Definition credential : SecretReference := Reference 50 "eventbrite" "drafts" 1.
Definition dispatched : dispatch :=
  Dispatch DRAFT operation (row_in claimed) relations owner 20 (Some credential) false.

Definition exchanged (answer : server) : result exn receipt * list request :=
  exchange_draft 20 toy_ring answer 1010 dispatched claimed.
Definition finished (answer : server) : db := after (finish_draft dispatched (exchanged answer).1) claimed.

Lemma submission_runs : submission world = (Ok operation, submitted).
Proof. vm_compute. reflexivity. Qed.
Lemma approval_runs : approval submitted = (Ok operation, approved).
Proof. vm_compute. reflexivity. Qed.
Lemma claiming_runs : claiming approved = (Ok dispatched, claimed).
Proof. vm_compute. reflexivity. Qed.

(** The provider rejects the payload. *)
Definition refusing : server := fun _ _ => HTTPError 400.

(** The outcomes of the two exchanges, evaluated once. *)
Definition exchanged_ok : result exn receipt * list request := Eval vm_compute in exchanged eventbrite.
Definition exchanged_refused : result exn receipt * list request := Eval vm_compute in exchanged refusing.
Lemma exchanged_ok_eq : exchanged eventbrite = exchanged_ok.
Proof. vm_compute. reflexivity. Qed.
Lemma exchanged_refused_eq : exchanged refusing = exchanged_refused.
Proof. vm_compute. reflexivity. Qed.
Definition finished_ok : db := Eval vm_compute in after (finish_draft dispatched exchanged_ok.1) claimed.
Definition finished_refused : db := Eval vm_compute in after (finish_draft dispatched exchanged_refused.1) claimed.
Lemma finish_ok : finish_draft dispatched exchanged_ok.1 claimed = (Ok operation, finished_ok).
Proof. vm_compute. reflexivity. Qed.
Lemma finish_refusal : finish_draft dispatched exchanged_refused.1 claimed = (Ok operation, finished_refused).
Proof. vm_compute. reflexivity. Qed.

#[local] Opaque exchanged_ok exchanged_refused finished_ok finished_refused claimed dispatched finish_draft.
Lemma finished_ok_eq : finished eventbrite = finished_ok.
Proof. unfold finished, after. by rewrite exchanged_ok_eq, finish_ok. Qed.
Lemma finished_refused_eq : finished refusing = finished_refused.
Proof. unfold finished, after. by rewrite exchanged_refused_eq, finish_refusal. Qed.
Lemma finish_runs : finish_draft dispatched (exchanged eventbrite).1 claimed = (Ok operation, finished eventbrite).
Proof. rewrite finished_ok_eq, exchanged_ok_eq. exact finish_ok. Qed.
Lemma finish_refused : finish_draft dispatched (exchanged refusing).1 claimed = (Ok operation, finished refusing).
Proof. rewrite finished_refused_eq, exchanged_refused_eq. exact finish_refusal. Qed.
#[local] Transparent exchanged_ok exchanged_refused finished_ok finished_refused claimed dispatched finish_draft.

(** The same operation as a run of the system. *)
Definition s_start : system := System world [] [].
Definition s_submitted : system := System submitted [] [].
Definition s_approved : system := System approved [] [].
Definition s_claimed : system := System claimed [Thread EVENTBRITE dispatched None] [].
Definition s_exchanged (answer : server) : system :=
  System claimed [Thread EVENTBRITE dispatched (Some (exchanged answer).1)]
    (map (tag dispatched) (exchanged answer).2).
Definition s_finished (answer : server) : system :=
  System (finished answer) [] (map (tag dispatched) (exchanged answer).2).

Abbreviation steps := (step 20 toy_ring).

#[local] Opaque world submitted approved claimed dispatched finished exchanged.

Lemma request_made op d r d' :
  is_request 20 op -> op d = (r, d') -> steps (System d [] []) (System d' [] []).
Proof. intros Hop Hr. exact (step_request 20 toy_ring (System d [] []) op r d' Hop Hr). Qed.

Lemma submission_step : steps s_start s_submitted.
Proof. apply (request_made submission _ (Ok operation)); [apply request_submit_draft|exact submission_runs]. Qed.
Lemma approval_step : steps s_submitted s_approved.
Proof. apply (request_made approval _ (Ok operation)); [apply request_approve|exact approval_runs]. Qed.
Lemma claiming_step : steps s_approved s_claimed.
Proof.
  exact (step_claim 20 toy_ring s_approved EVENTBRITE claiming dispatched claimed
           (claim_eventbrite 20 owner 20 operation false) claiming_runs).
Qed.

Lemma run_claimed : reachable 20 toy_ring s_claimed.
Proof.
  exists s_start. split.
  - unfold initial, s_start. cbn [state threads trace]. split_and!; [by vm_compute..|done|done].
  - eapply rtc_l; [exact submission_step|]. eapply rtc_l; [exact approval_step|]. apply rtc_once, claiming_step.
Qed.

Lemma exchanged_eq answer :
  exchange_draft 20 toy_ring answer 1010 dispatched claimed = ((exchanged answer).1, (exchanged answer).2).
Proof. Transparent exchanged. unfold exchanged. by destruct (exchange_draft _ _ _ _ _ _). Qed.
#[local] Opaque exchanged.

Lemma claimed_row : drafts claimed !! operation = Some (row_in claimed).
Proof. vm_compute. reflexivity. Qed.
Lemma finished_row : drafts (finished eventbrite) !! operation = Some (row_in (finished eventbrite)).
Proof. rewrite finished_ok_eq. vm_compute. reflexivity. Qed.
Lemma refused_row : drafts (finished refusing) !! operation = Some (row_in (finished refusing)).
Proof. rewrite finished_refused_eq. vm_compute. reflexivity. Qed.

Lemma run_exchanged answer : steps s_claimed (s_exchanged answer).
Proof.
  refine (step_exchange 20 toy_ring s_claimed [] EVENTBRITE dispatched [] answer 1010
            (exchanged answer).1 (exchanged answer).2 eq_refl _).
  unfold s_claimed. cbn [exchange_of state]. apply exchanged_eq.
Qed.

Lemma run_finished : steps (s_exchanged eventbrite) (s_finished eventbrite).
Proof.
  exact (step_finish 20 toy_ring (s_exchanged eventbrite) [] EVENTBRITE dispatched []
           (exchanged eventbrite).1 (Ok operation) (finished eventbrite) eq_refl finish_runs).
Qed.

Lemma reach_finished : reachable 20 toy_ring (s_finished eventbrite).
Proof.
  destruct run_claimed as (s0 & Hs0 & Hs). exists s0. split; [done|].
  eapply rtc_r; [eapply rtc_r; [exact Hs|apply run_exchanged]|exact run_finished].
Qed.

(** ** An update whose dispatch is slower than its reconciliation *)

Definition update_fields : list (string * json) := [("name", JDict [("html", JStr "Open house")])].
Definition read_event : list (string * json) :=
  match created_event with JDict d => d | _ => [] end.
Definition update_submission : M Z :=
  submit_draft 20 operator 42 43 "update" "77" (JDict [("event", JDict update_fields)]) "123"
    (EventbriteDrafts.readback_digest read_event) (JDict []).
Definition u_submitted : db := Eval vm_compute in after update_submission world.
Definition u_approval : M Z := approve 20 DRAFT owner 20 operation (x_review_digest (row_in u_submitted)) 7.
Definition u_approved : db := Eval vm_compute in after u_approval u_submitted.
Definition u_claimed : db := Eval vm_compute in after claiming u_approved.
Definition u_reconciling : M dispatch := start_reconcile 20 owner 20 operation.

Definition slow : dispatch :=
  Dispatch DRAFT operation (row_in u_claimed) relations owner 20 (Some credential) false.
Definition quick : dispatch := Dispatch DRAFT operation (row_in u_claimed) relations owner 20 None true.
Definition timeout : server := fun _ _ => TimedOut.
Definition slow_result : result exn receipt * list request :=
  Eval vm_compute in exchange_draft 20 toy_ring timeout 1010 slow u_claimed.
Definition quick_result : result exn receipt * list request :=
  Eval vm_compute in exchange_draft 20 toy_ring eventbrite 1010 quick u_claimed.
Definition u_confirmed : db := Eval vm_compute in after (finish_reconcile quick quick_result.1) u_claimed.

Lemma u_submission_runs : update_submission world = (Ok operation, u_submitted).
Proof. vm_compute. reflexivity. Qed.
Lemma u_approval_runs : u_approval u_submitted = (Ok operation, u_approved).
Proof. vm_compute. reflexivity. Qed.
Lemma u_claiming_runs : claiming u_approved = (Ok slow, u_claimed).
Proof. vm_compute. reflexivity. Qed.
Lemma u_reconciling_runs : u_reconciling u_claimed = (Ok quick, u_claimed).
Proof. vm_compute. reflexivity. Qed.
Lemma slow_runs :
  exchange_draft 20 toy_ring timeout 1010 slow u_claimed
  = (Err (EventbriteDraftError "timeout"), slow_result.2).
Proof. vm_compute. reflexivity. Qed.
Lemma quick_runs :
  exchange_draft 20 toy_ring eventbrite 1010 quick u_claimed = (quick_result.1, quick_result.2).
Proof. vm_compute. reflexivity. Qed.
Lemma u_confirmed_runs : finish_reconcile quick quick_result.1 u_claimed = (Ok operation, u_confirmed).
Proof. vm_compute. reflexivity. Qed.
Lemma u_confirmed_row : x_status (row_in u_confirmed) = SUCCEEDED.
Proof. vm_compute. reflexivity. Qed.

#[local] Opaque u_submitted u_approved u_claimed slow quick slow_result quick_result u_confirmed.

Definition s_racing : system :=
  System u_confirmed [Thread EVENTBRITE slow (Some (Err (EventbriteDraftError "timeout")))]
    (map (tag slow) slow_result.2 ++ map (tag quick) quick_result.2).

(** The dispatch has failed but not stored it; the reconciliation has stored its success. *)
Lemma reach_racing : reachable 20 toy_ring s_racing.
Proof.
  exists s_start. split.
  - unfold initial, s_start. cbn [state threads trace]. split_and!; [by vm_compute..|done|done].
  - eapply rtc_l; [apply (request_made update_submission _ (Ok operation)); [apply request_submit_draft|
                     exact u_submission_runs]|].
    eapply rtc_l; [apply (request_made u_approval _ (Ok operation)); [apply request_approve|
                     exact u_approval_runs]|].
    eapply rtc_l; [exact (step_claim 20 toy_ring (System u_approved [] []) EVENTBRITE claiming slow u_claimed
                     (claim_eventbrite 20 owner 20 operation false) u_claiming_runs)|].
    eapply rtc_l; [exact (step_claim 20 toy_ring (System u_claimed [Thread EVENTBRITE slow None] [])
                     EVENTBRITE u_reconciling quick u_claimed
                     (claim_reconcile 20 owner 20 operation) u_reconciling_runs)|].
    eapply rtc_l; [exact (step_exchange 20 toy_ring
                     (System u_claimed [Thread EVENTBRITE slow None; Thread EVENTBRITE quick None] [])
                     [] EVENTBRITE slow [Thread EVENTBRITE quick None] timeout 1010 _ _ eq_refl slow_runs)|].
    eapply rtc_l; [exact (step_exchange 20 toy_ring
                     (System u_claimed [Thread EVENTBRITE slow (Some (Err (EventbriteDraftError "timeout")));
                        Thread EVENTBRITE quick None] (map (tag slow) slow_result.2))
                     [Thread EVENTBRITE slow (Some (Err (EventbriteDraftError "timeout")))] EVENTBRITE quick []
                     eventbrite 1010 _ _ eq_refl quick_runs)|].
    apply rtc_once.
    exact (step_finish 20 toy_ring
             (System u_claimed [Thread EVENTBRITE slow (Some (Err (EventbriteDraftError "timeout")));
                Thread EVENTBRITE quick (Some quick_result.1)]
                (map (tag slow) slow_result.2 ++ map (tag quick) quick_result.2))
             [Thread EVENTBRITE slow (Some (Err (EventbriteDraftError "timeout")))] EVENTBRITE quick []
             quick_result.1 (Ok operation) u_confirmed eq_refl u_confirmed_runs).
Qed.

End World.
