(* ===== verification/DraftEffects.v ===== *)
(** * What each draft operation does to the tables

    The checks read only; a submission inserts one pending row; an approval, a claim and
    the store of an outcome each change one row. *)

From S2P Require Import Prelude PyValue OwnerEvents LaunchLoop ToolSchemas Crypto DraftProvider EventbriteDrafts IterableDrafts IterableTemplates DraftRows DraftReview SecretStore DraftOperations DraftSystem.

Module Effects.
Import Provider Rows Review DraftOperations System.

(** ** Code that only reads *)

Definition readonly {A : Type} (m : M A) : Prop := forall d, (m d).2 = d.

Create HintDb readonly.

Lemma ro_ret {A} (a : A) : readonly (mret a).
Proof. done. Qed.
Lemma ro_raise {A} e : readonly (raise e : M A).
Proof. done. Qed.
Lemma ro_get : readonly (get : M db).
Proof. done. Qed.
Lemma ro_lift {A} (r : result exn A) : readonly (lift r).
Proof. done. Qed.
Lemma ro_fail_if c e : readonly (fail_if c e).
Proof. by destruct c. Qed.
Lemma ro_some_or {A} (o : option A) e : readonly (some_or o e).
Proof. by destruct o. Qed.
Lemma ro_bind {A B} (m : M A) (k : A -> M B) :
  readonly m -> (forall a, readonly (k a)) -> readonly (m ≫= k).
Proof.
  intros Hm Hk d. unfold mbind, ST_bind. specialize (Hm d).
  destruct (m d) as [[a|e] d1]; cbn in *; [by rewrite Hk|done].
Qed.
Lemma ro_catch {A} (m : M A) h : readonly m -> (forall e, readonly (h e)) -> readonly (catch m h).
Proof.
  intros Hm Hh d. unfold catch. specialize (Hm d).
  destruct (m d) as [[a|e] d1]; cbn in *; [done|by rewrite Hh].
Qed.

#[export] Hint Resolve ro_ret ro_raise ro_get ro_lift ro_fail_if ro_some_or : readonly.

(** Follows the shape of the code. *)
Ltac readonly_step :=
  match goal with
  | |- readonly (_ ≫= _) => apply ro_bind; [|intros ?]
  | |- readonly (catch _ _) => apply ro_catch; [|intros ?]
  | |- readonly (match ?x with _ => _ end) => destruct x
  | |- readonly _ => solve [auto with readonly]
  end.
Ltac solve_readonly := unfold deny_if, denied; repeat readonly_step.

Lemma readonly_ok {A} (m : M A) d a d' : readonly m -> m d = (Ok a, d') -> d' = d.
Proof. intros Hm Hr. specialize (Hm d). by rewrite Hr in Hm. Qed.

(** Skips one reading step at the head of a successful run. *)
Ltac skip_read H :=
  let a := fresh "a" in let s := fresh "s" in let Hm := fresh "Hread" in
  apply bind_ok_inv in H as (a & s & Hm & H);
  let E := fresh in
  assert (E := Hm); eapply readonly_ok in E; [|solve [solve_readonly]]; subst s.

Section platform.
Context `{OwnerEvents.Platform} `{Crypto.AESGCM} (recursion : nat) (ring : option Crypto.IntegrationKeyRing).

Lemma ro_actor u role : readonly (actor_ u role).
Proof. unfold actor_. solve_readonly. Qed.
Lemma ro_session u id : readonly (session_ u id).
Proof. unfold session_. solve_readonly. Qed.
Lemma ro_load x : readonly (load x).
Proof. unfold load. solve_readonly. Qed.
#[local] Hint Resolve ro_actor ro_session ro_load : readonly.

Lemma ro_validate_intent r : readonly (validate_intent r).
Proof. unfold validate_intent. solve_readonly. Qed.
#[local] Hint Resolve ro_validate_intent : readonly.

Lemma ro_iterable_start x r : readonly (iterable_start x r).
Proof. unfold iterable_start, configuration_of. solve_readonly. Qed.
#[local] Hint Resolve ro_iterable_start : readonly.

Lemma ro_check_reviewed x r live c : readonly (check_reviewed x r live c).
Proof. unfold check_reviewed. solve_readonly. Qed.
#[local] Hint Resolve ro_check_reviewed : readonly.

Lemma ro_template_review x r : readonly (template_review x r).
Proof. unfold template_review. solve_readonly. Qed.
#[local] Hint Resolve ro_template_review : readonly.

Lemma ro_payload_invalid {A} (m : M A) : readonly m -> readonly (payload_invalid m).
Proof. intros Hm. unfold payload_invalid. apply ro_catch; [done|]. intros e. solve_readonly. Qed.

Lemma ro_validate_template x r live : readonly (validate_template x r live).
Proof.
  unfold validate_template. apply ro_bind; [|intros c; solve_readonly].
  apply ro_payload_invalid. solve_readonly.
Qed.
#[local] Hint Resolve ro_validate_template : readonly.

Lemma ro_campaign_review x r : readonly (campaign_review recursion x r).
Proof. unfold campaign_review, template_of. solve_readonly. Qed.
Lemma ro_review x r : readonly (review recursion x r).
Proof. unfold review. solve_readonly. Qed.
#[local] Hint Resolve ro_campaign_review ro_review : readonly.

Lemma ro_validate_execution m x r live : readonly (validate_execution recursion m x r live).
Proof.
  unfold validate_execution, eventbrite_review.
  destruct (String.eqb _ "iterable"); [destruct m|]; solve_readonly; apply ro_payload_invalid; solve_readonly.
Qed.
#[local] Hint Resolve ro_validate_execution : readonly.

Lemma ro_get_row m id : readonly (get_row m id).
Proof. unfold get_row. solve_readonly. Qed.
Lemma ro_locked_workflow r : readonly (locked_workflow r).
Proof. unfold locked_workflow. solve_readonly. Qed.
Lemma ro_switched_on v msg : readonly (switched_on v msg).
Proof. unfold switched_on. solve_readonly. Qed.
Lemma ro_reference_of p : readonly (reference_of p).
Proof. unfold reference_of. solve_readonly. Qed.
Lemma ro_enabled : readonly enabled.
Proof. apply ro_switched_on. Qed.
Lemma ro_iterable_enabled : readonly iterable_enabled.
Proof. apply ro_switched_on. Qed.
#[local] Hint Resolve ro_get_row ro_locked_workflow ro_enabled ro_iterable_enabled ro_reference_of : readonly.


(** ** Writes *)

Lemma save_guard_none m id x d :
  table m d !! id = None -> forall u d', save m id x d = (Ok u, d') ->
  d' = set_table m (<[id := x]> (table m d)) d /\ constraints_hold x = true.
Proof.
  intros Hn u d' Hs. unfold save, put_row in Hs. run_inv. rewrite Hn in *. run_inv. by bools.
Qed.

Lemma save_some m id old x d u d' :
  table m d !! id = Some old -> save m id x d = (Ok u, d') ->
  d' = set_table m (<[id := x]> (table m d)) d /\ constraints_hold x = true /\ save_guard m old x = Ok ().
Proof.
  intros Hn Hs. unfold save, put_row in Hs. run_inv. rewrite Hn in *. run_inv. bools.
  split_and!; try done. by destruct (save_guard m old x) as [[]|].
Qed.

Lemma save_err m id x d e d' : save m id x d = (Err e, d') -> d' = d.
Proof.
  unfold save, put_row. intros Hs. run_inv; try done;
    (destruct (table m _ !! id); run_inv; done).
Qed.

(** A new pending row under a fresh key. *)
Definition inserted (d : db) (m : model) (x : execution) (d' : db) : Prop :=
  x_status x = PENDING /\ d' = set_table m (<[next_id d := x]> (table m d)) (set_next (next_id d + 1) d).

(** One row of one table replaced. *)
Definition replaced (d : db) (m : model) (id : Z) (old new : execution) (d' : db) : Prop :=
  table m d !! id = Some old /\ d' = set_table m (<[id := new]> (table m d)) d.

Lemma submit_once_effect m x user msg d id d' :
  x_status x = PENDING -> table m d !! next_id d = None ->
  submit_once m x user msg d = (Ok id, d') ->
  d' = d \/ id = next_id d /\ inserted d m x d'.
Proof.
  intros Hp Hf Hs. unfold submit_once in Hs.
  apply bind_ok_inv in Hs as (d0 & d1 & Hg & Hs). apply get_inv in Hg as [[= ->] ->].
  destruct (existing m (x_intent x) d) as [[i old]|].
  - left. unfold deny_if in Hs. by run_inv.
  - right. unfold create_row, fresh in Hs.
    apply bind_ok_inv in Hs as (i & d1 & Hfr & Hs). run_inv.
    match goal with Hs : save _ _ _ _ = _ |- _ => apply save_guard_none in Hs as [-> _]; [|by destruct m] end.
    split; [done|]. split; [done|]. by destruct m.
Qed.

Lemma get_row_ok m id d x d' : get_row m id d = (Ok x, d') -> table m d !! id = Some x.
Proof. unfold get_row. intros Hg. by run_inv. Qed.

(** The save of a known row. *)
Ltac take_save :=
  match goal with
  | Hs : save _ _ _ _ = (Ok _, _) |- _ => eapply save_some in Hs as (-> & _ & _); [|eassumption]
  end.

(** The claim of a row: approved before, executing and claimed after. *)
Definition claimed_row (d : db) (p : dispatch) (d' : db) : Prop :=
  exists x provider now, replaced d (p_model p) (p_id p) x (p_row p) d' /\ x_status x = APPROVED /\
    p_row p = with_claim provider now x.

(** A dispatch for a row that is claimed already. *)
Definition reconciles_row (d : db) (p : dispatch) : Prop :=
  table (p_model p) d !! p_id p = Some (p_row p) /\
  (x_status (p_row p) = UNKNOWN \/ x_status (p_row p) = EXECUTING).

Lemma new_iterable_effect m user intent run payload configuration d id d' :
  table m d !! next_id d = None ->
  new_iterable_operation recursion m user intent run payload configuration d = (Ok id, d') ->
  d' = d \/ exists x, inserted d m x d'.
Proof.
  intros Hf Hs. unfold new_iterable_operation in Hs. do 6 skip_read Hs.
  apply bind_ok_inv in Hs as (digests & d1 & Hc & Hs). apply readonly_ok in Hc as ->.
  - apply submit_once_effect in Hs as [-> |[_ Hs]]; [by left| |done|done]. right. eauto.
  - apply ro_catch; [destruct m; solve_readonly|]. intros e. solve_readonly.
Qed.

Lemma request_effect op d r d' :
  (forall m, table m d !! next_id d = None) -> is_request recursion op -> op d = (r, d') ->
  d' = d \/ (exists m x, inserted d m x d') \/
  exists m id old user session now, replaced d m id old (with_approval user session now old) d' /\
    x_status old = PENDING.
Proof.
  intros Hf Hop Hr. destruct r as [id|e]; [|left; destruct Hop; by apply atomic_err in Hr].
  destruct Hop; apply atomic_ok in Hr.
  - do 2 skip_read Hr. destruct (String.eqb (i_provider a0) "iterable").
    + unfold submit_iterable_campaign in Hr. skip_read Hr.
      apply new_iterable_effect in Hr as [-> |[x Hx]]; eauto.
    + do 10 skip_read Hr. apply submit_once_effect in Hr as [-> |[_ Hr]]; eauto.
  - do 4 skip_read Hr. apply new_iterable_effect in Hr as [-> |[x Hx]]; eauto.
  - do 7 skip_read Hr. apply get_row_ok in Hread0. unfold deny_if in Hread4. run_inv. bools.
    right; right. take_save.
    eexists m, operation, a0, _, _, _. by repeat split.
Qed.

Lemma claim_effect l c d p d' :
  is_claim recursion l c -> c d = (Ok p, d') ->
  if p_reconcile p then d' = d /\ reconciles_row d p else claimed_row d p d'.
Proof.
  intros Hc Hr. destruct Hc.
  - do 4 skip_read Hr. apply atomic_ok in Hr. do 7 skip_read Hr.
    apply get_row_ok in Hread3. unfold deny_if in *. run_inv. bools. cbn [p_reconcile p_model p_id p_row].
    take_save. eexists _, _, _. by repeat split.
  - do 7 skip_read Hr. apply get_row_ok in Hread1. unfold deny_if in *. run_inv. by bools.
  - do 3 skip_read Hr. apply atomic_ok in Hr. do 5 skip_read Hr.
    apply get_row_ok in Hread2. destruct reconcile.
    + do 2 skip_read Hr. unfold deny_if in *. run_inv. by bools.
    + do 2 skip_read Hr. unfold deny_if in *. run_inv. bools. cbn [p_reconcile p_model p_id p_row].
      take_save. eexists _, _, _. by repeat split.
Qed.

(** ** The store of an outcome *)

(** What may become of the row of a finished dispatch: the object of the dispatch with its
    receipt, past the guards of [save]; or the row itself, marked without them. *)
Definition outcome_row (p : dispatch) (old new : execution) : Prop :=
  (exists rc now, new = with_receipt rc now (p_row p) /\ save_guard (p_model p) old new = Ok ()) \/
  (exists st category now, new = set_outcome st category now old /\ (st = FAILED \/ st = UNKNOWN)).

Definition finished_row (d : db) (p : dispatch) (old : execution) (d' : db) : Prop :=
  d' = d \/ exists new, replaced d (p_model p) (p_id p) old new d' /\ outcome_row p old new /\
                      constraints_hold new = true.

Lemma store_effect p rc update statuses msg d r d' old :
  table (p_model p) d !! p_id p = Some old ->
  store_receipt_as p rc update statuses msg d = (r, d') ->
  match r with
  | Err _ => d' = d
  | Ok _ => finished_row d p old d'
  end.
Proof.
  intros Ho Hs. unfold store_receipt_as in Hs. destruct r as [id|e].
  - run_inv. match goal with Hs : save _ _ _ _ = _ |- _ => eapply save_some in Hs as (-> & Hc & Hg) end;
      [|eassumption]. right. eexists. split; [by split|]. split; [|done]. left. eauto.
  - run_inv; try done. by eapply save_err.
Qed.

Lemma update_effect (p : dispatch) s category d r d' old :
  table (p_model p) d !! p_id p = Some old -> s = FAILED \/ s = UNKNOWN ->
  update_row (p_model p) (p_id p) s category d = (r, d') -> finished_row d p old d'.
Proof.
  intros Ho Hst Hu. unfold update_row, put_row, mbind, ST_bind, get in Hu. rewrite Ho in Hu.
  unfold fail_if, modify, raise in Hu. destruct (constraints_hold _) eqn:Hc; cbn in Hu; [|left; congruence].
  right. exists (set_outcome s category (clock d) old).
  split; [split; [done|congruence]|]. split; [|done]. right. eauto.
Qed.

Lemma failed_effect (p : dispatch) e d r d' old :
  table (p_model p) d !! p_id p = Some old -> draft_failed p e d = (r, d') -> finished_row d p old d'.
Proof.
  intros Ho Hf.
  assert (forall s category, s = FAILED \/ s = UNKNOWN ->
    (_ ← update_row (p_model p) (p_id p) s category; mret (p_id p)) d = (r, d') -> finished_row d p old d') as Hu.
  { intros s category Hst Hu. unfold mbind, ST_bind, mret, ST_ret in Hu.
    destruct (update_row (p_model p) (p_id p) s category d) as [[u|e'] d1] eqn:E;
      (assert (d1 = d') as -> by (cbn in Hu; congruence)); by eapply update_effect. }
  destruct e; try (by eapply Hu; [by right|exact Hf]). cbn [draft_failed] in Hf.
  destruct (bool_decide _); eapply Hu; try exact Hf; auto.
Qed.

Lemma record_effect (p : dispatch) d r d' old :
  table (p_model p) d !! p_id p = Some old -> record_unconfirmed p d = (r, d') -> finished_row d p old d'.
Proof. intros Ho Hr. by apply (failed_effect p SecretUnavailable d r d' old). Qed.

Lemma finish_effect l p r d r' d' old :
  table (p_model p) d !! p_id p = Some old -> finish_of l p r d = (r', d') -> finished_row d p old d'.
Proof.
  intros Ho Hf.
  assert (forall u st m h, (forall e d1 d2 r1, h e d1 = (r1, d2) -> table (p_model p) d1 !! p_id p = Some old ->
      finished_row d1 p old d2) -> forall rc, catch (store_receipt_as p rc u st m) h d = (r', d') ->
      finished_row d p old d') as Hcatch.
  { intros u st m h Hh rc Hc. unfold catch in Hc.
    destruct (store_receipt_as p rc u st m d) as [[id|e] d1] eqn:E; pose proof (store_effect _ _ _ _ _ _ _ _ _ Ho E) as He.
    - assert (d1 = d') as -> by congruence. done.
    - cbn in He. subst d1. by apply (Hh e d d' r'). }
  destruct l; cbn [finish_of] in Hf; [destruct (p_reconcile p)|].
  - unfold finish_reconcile, mbind, ST_bind, lift in Hf. destruct r as [rc|e]; [|left; congruence].
    pose proof (store_effect _ _ _ _ _ _ _ _ _ Ho Hf) as He. destruct r'; [done|by left].
  - destruct r as [rc|e]; cbn [finish_draft] in Hf; [|by eapply failed_effect].
    unfold store_receipt in Hf. eapply Hcatch; [|exact Hf]. intros e d1 d2 r1 H1 H2. by eapply failed_effect.
  - destruct r as [rc|e]; cbn [finish_iterable] in Hf; [|by eapply record_effect].
    unfold iterable_store_receipt in Hf. eapply Hcatch; [|exact Hf]. intros e d1 d2 r1 H1 H2.
    by eapply record_effect.
Qed.

(** ** What the guards of an exchange have checked *)

(** The digests of the request and of its review, computed from the current database. *)
Definition current_review (m : model) (x : execution) (r : related) : M (string * string) :=
  if String.eqb (i_provider (r_intent r)) "iterable" then
    match m with TEMPLATE => template_review x r | DRAFT => campaign_review recursion x r end
  else eventbrite_review recursion x r.

Lemma payload_invalid_ok {A} (m : M A) d a d' : payload_invalid m d = (Ok a, d') -> m d = (Ok a, d').
Proof.
  unfold payload_invalid, catch. destruct (m d) as [[b|e] d1]; [done|].
  destruct e; try done. by destruct e.
Qed.

Lemma ro_current_review m x r : readonly (current_review m x r).
Proof. unfold current_review, eventbrite_review. destruct (String.eqb _ _); [destruct m|]; solve_readonly. Qed.

Lemma validated_review m x r live d u d' :
  validate_execution recursion m x r live d = (Ok u, d') ->
  exists computed, current_review m x r d = (Ok computed, d) /\ check_reviewed x r live computed d = (Ok u, d).
Proof.
  intros Hv. pose proof (readonly_ok _ _ _ _ (ro_validate_execution m x r live) Hv) as ->.
  pose proof (ro_current_review m x r) as Hro. specialize (Hro d). revert Hro Hv.
  unfold validate_execution, current_review. destruct (String.eqb _ "iterable"); [destruct m|]; intros Hro Hv.
  - apply bind_ok_inv in Hv as (c & d1 & Hc & Hv). apply payload_invalid_ok in Hc. rewrite Hc in *. cbn in Hro. subst. eauto.
  - unfold validate_template in Hv. apply bind_ok_inv in Hv as (c & d1 & Hc & Hv). apply payload_invalid_ok in Hc.
    apply bind_ok_inv in Hc as (c' & d2 & Hc & Hm). rewrite Hc in *. cbn in Hro. subst.
    unfold deny_if in Hm. run_inv. eauto.
  - apply bind_ok_inv in Hv as (c & d1 & Hc & Hv). apply payload_invalid_ok in Hc. rewrite Hc in *. cbn in Hro. subst. eauto.
Qed.

(** A live session of the approver, and the digests the owner approved. *)
Definition live_approval (d : db) (x : execution) (r : related) : Prop :=
  exists id s profile u, x_approval_session x = Some id /\ r_approver r = Some u /\ u_is_active u = true /\
    sessions d !! id = Some s /\ profiles d !! s_profile s = Some profile /\ a_user profile = u_pk u /\
    full_session d s profile = true.

Lemma session_ok u id d id' d' :
  session_ u id d = (Ok id', d') -> exists s profile v, u = Some v /\ u_is_active v = true /\
    sessions d !! id = Some s /\ profiles d !! s_profile s = Some profile /\ a_user profile = u_pk v /\
    full_session d s profile = true.
Proof.
  unfold session_. intros Hs. apply bind_ok_inv in Hs as (v & d1 & Hv & Hs).
  apply some_or_ok_inv in Hv as [Hv ->]. apply bind_ok_inv in Hs as (d2 & d3 & Hg & Hs).
  apply get_inv in Hg as [[= ->] ->]. destruct (sessions d !! id) as [s|] eqn:E; [|done].
  destruct (profiles d !! s_profile s) as [p|] eqn:Ep; [|done]. unfold deny_if in Hs. run_inv. bools.
  unfold signed_in in Hv. destruct u as [u|]; [|done].
  destruct (u_is_authenticated u && u_is_active u) eqn:Ha; [|done]. injection Hv as ->. bools.
  by exists s, p, v.
Qed.

Lemma live_check x r computed d u d' :
  x_approver x <> None -> check_reviewed x r true computed d = (Ok u, d') ->
  computed = (x_request_digest x, x_review_digest x) /\ live_approval d x r.
Proof.
  intros Ha Hc. unfold check_reviewed in Hc. destruct computed as [request review].
  do 3 skip_read Hc. unfold deny_if in Hread. run_inv. bools. split; [congruence|].
  destruct (x_approver x); [|done]. apply bind_ok_inv in Hc as (id & d1 & Hid & Hc).
  apply some_or_ok_inv in Hid as [Hid ->]. apply bind_ok_inv in Hc as (id' & d1 & Hs & _).
  apply session_ok in Hs as (s & p & v & ? & ? & ? & ? & ? & ?). by exists id, s, p, v.
Qed.

(** ** Leases *)

Lemma ro_claimed_operation m provider reference caller workflow id :
  readonly (SecretStore.claimed_operation recursion m provider reference caller workflow id).
Proof.
  unfold SecretStore.claimed_operation, SecretStore.unavailable.
  solve_readonly.
Qed.
#[local] Hint Resolve ro_claimed_operation : readonly.

Lemma ro_validate_lease_request reference caller workflow purpose ttl id kind :
  readonly (SecretStore.validate_lease_request recursion reference caller workflow purpose ttl id kind).
Proof.
  unfold SecretStore.validate_lease_request, SecretStore.eventbrite_write_request,
    SecretStore.iterable_write_request. solve_readonly.
Qed.
#[local] Hint Resolve ro_validate_lease_request : readonly.

Lemma ro_lease reference caller workflow purpose ttl id kind :
  readonly (SecretStore.lease recursion ring reference caller workflow purpose ttl id kind).
Proof.
  unfold SecretStore.lease, SecretStore.open_lease, SecretStore.secret_for_reference. solve_readonly.
Qed.

(** The operation that a write lease was granted for. *)
Definition lease_operation (d : db) (m : model) (provider : string) (caller workflow id : Z) : Prop :=
  exists x user, table m d !! id = Some x /\ SecretStore.caller_user d caller = Some user /\
    SecretStore.claimed_for d x workflow user provider = true.

Lemma claimed_operation_ok m provider reference caller workflow id d r d' :
  SecretStore.claimed_operation recursion m provider reference caller workflow id d = (Ok r, d') ->
  lease_operation d m provider caller workflow id.
Proof.
  intros Hc. unfold SecretStore.claimed_operation in Hc.
  apply bind_ok_inv in Hc as (d0 & d1 & Hg & Hc). apply get_inv in Hg as [[= ->] ->].
  apply bind_ok_inv in Hc as (n & d1 & Hn & Hc). apply some_or_ok_inv in Hn as [_ ->].
  apply bind_ok_inv in Hc as (user & d1 & Hu & Hc). apply some_or_ok_inv in Hu as [Hu ->].
  apply bind_ok_inv in Hc as (x & d1 & Hx & Hc). apply some_or_ok_inv in Hx as [Hx ->].
  apply bind_ok_inv in Hc as (? & d1 & Hf & _). apply fail_if_ok_inv in Hf as [Hf _]. apply negb_false_iff in Hf.
  by exists x, user.
Qed.

(** The service's name of its lane: the provider and its write purpose. *)
Definition lane_provider (l : lane) : string := match l with EVENTBRITE => "eventbrite" | ITERABLE => "iterable" end.
Definition lane_purpose (l : lane) : string :=
  match l with EVENTBRITE => "eventbrite_draft_write" | ITERABLE => "iterable_draft_write" end.

Lemma write_lease_ok l p reference d credential d' :
  (l = EVENTBRITE -> p_model p = DRAFT) ->
  write_lease recursion ring p reference (exchange_kind (p_model p)) (lane_purpose l) d = (Ok credential, d') ->
  lease_operation d (p_model p) (lane_provider l) (p_session p) (i_workflow (r_intent (p_related p))) (p_id p).
Proof.
  intros Hm Hl. unfold write_lease, SecretStore.lease in Hl. apply bind_ok_inv in Hl as (u & d1 & Hv & _).
  unfold SecretStore.validate_lease_request in Hv. apply bind_ok_inv in Hv as (u1 & d2 & He & Hv).
  destruct l; cbn [lane_purpose lane_provider] in *.
  - rewrite Hm in * by done. cbn [exchange_kind] in He. unfold SecretStore.eventbrite_write_request in He.
    change (String.eqb _ SecretStore.EVENTBRITE_WRITE_PURPOSE) with true in He. cbn beta iota in He.
    change (SecretStore.kind_model (Some "draft")) with (Some DRAFT) in He. cbn beta iota in He.
    apply bind_ok_inv in He as (? & d3 & Hf & He). apply fail_if_ok_inv in Hf as [_ ->].
    apply bind_ok_inv in He as (r & d3 & Hc & _). by eapply claimed_operation_ok.
  - change (String.eqb "iterable_draft_write" SecretStore.EVENTBRITE_WRITE_PURPOSE) with false in He.
    cbn beta iota in He. apply ret_inv in He as [_ ->]. apply bind_ok_inv in Hv as (u2 & d3 & He & _).
    change (String.eqb _ SecretStore.ITERABLE_WRITE_PURPOSE) with true in He. cbn beta iota in He.
    unfold SecretStore.iterable_write_request in He.
    assert (SecretStore.kind_model (Some (exchange_kind (p_model p))) = Some (p_model p)) as Hk by (by destruct (p_model p)).
    rewrite Hk in He. skip_read He. apply get_inv in Hread as [[= ->] _].
    apply bind_ok_inv in He as (? & d4 & Hf & He). apply fail_if_ok_inv in Hf as [_ ->].
    apply bind_ok_inv in He as (r & d4 & Hc & _). by eapply claimed_operation_ok.
Qed.
End platform.

#[export] Hint Resolve ro_actor ro_session ro_load ro_validate_intent ro_validate_execution ro_get_row
  ro_locked_workflow ro_enabled ro_iterable_enabled ro_reference_of ro_lease : readonly.
End Effects.
