(* ===== verification/DraftSystemTheorems.v ===== *)
(** * Provider writes happen at most once, and only as reviewed *)

From S2P Require Import Prelude PyValue OwnerEvents LaunchLoop ToolSchemas Crypto DraftProvider EventbriteDrafts IterableDrafts IterableTemplates DraftRows DraftReview SecretStore DraftOperations DraftSystem DraftWire DraftAdapterTheorems DraftEffects DraftWorld.

Module AtMostOnce.
Import Provider Rows Review DraftOperations System Wire AdapterFacts Effects.

Section platform.
Context `{OwnerEvents.Platform} `{Crypto.AESGCM} (recursion : nat) (ring : option Crypto.IntegrationKeyRing).

(** ** What an exchange may write *)

(** The reviewed write of an operation: the POST its row describes. *)
Definition reviewed_write (l : lane) (m : model) (x : execution) (w : request) : Prop :=
  match l, m with
  | EVENTBRITE, _ =>
      exists token v,
        if String.eqb (x_action x) "create"
        then EventbriteDrafts.validate_payload recursion (x_payload x) true = Ok v /\
             w = post_event token (x_organization_id x) v
        else EventbriteDrafts.validate_payload recursion (x_payload x) false = Ok v /\
             w = patch_event token (x_event_id x) v
  | ITERABLE, DRAFT =>
      exists region base token v v', configured x "region" = Ok region /\
        IterableDrafts.region_ region = Ok base /\
        IterableDrafts.validate_payload recursion (x_payload x) = Ok v /\
        IterableDrafts.validate_payload recursion v = Ok v' /\
        w = it_request "POST" base "/api/campaigns/create" token (Some v')
  | ITERABLE, TEMPLATE =>
      exists region base token v v', configured x "region" = Ok region /\
        IterableDrafts.region_ region = Ok base /\
        IterableTemplates.validate_template_payload (x_payload x) = Ok v /\
        IterableTemplates.check_post v = Ok v' /\
        w = it_request "POST" base "/api/templates/email/upsert" token (Some v')
  end.

Lemma run_sends (call : W receipt) credential (Q : list request -> result exn receipt -> Prop) :
  sends call [] Q -> Q (run_adapter credential call).2 (run_adapter credential call).1.
Proof. intros Hs. destruct (Hs credential) as (l & Hl & HQ). unfold run_adapter. cbn in *. by rewrite Hl. Qed.

Lemma confirms_reads answer h token organization id v digest l r :
  confirms recursion answer h token organization id v digest l r -> posts l = [].
Proof. by intros [[-> | ->] _]. Qed.

Lemma written_posts answer h token organization v digest write event_id l r :
  method write = "POST" ->
  written recursion answer h token organization v digest write event_id l r -> posts l = [write].
Proof.
  intros Hm Hw. assert (forall l', posts l' = [] -> posts (write :: l') = [write]) as Hp.
  { intros l' Hl'. unfold posts in *. cbn. rewrite Hm. cbn. by rewrite Hl'. }
  destruct Hw as [| | |event id l r ? ? ? Hc]; apply Hp; try done. by apply confirms_reads in Hc.
Qed.

Lemma exchange_draft_writes answer now p d r sent :
  exchange_draft recursion ring answer now p d = (r, sent) ->
  posts sent = [] \/
  p_reconcile p = false /\ exists w, posts sent = [w] /\ reviewed_write EVENTBRITE (p_model p) (p_row p) w.
Proof.
  unfold exchange_draft, exchange_with. destruct ((_ : M SecretLease) d).1 as [credential|e]; [|intros [= <- <-]; by left].
  cbn zeta. intros Hr. assert (sent = (run_adapter credential
    (if p_reconcile p
     then EventbriteDrafts.reconcile recursion answer now (x_organization_id (p_row p)) (Some (x_provider_id (p_row p)))
            (x_payload (p_row p)) (x_request_digest (p_row p)) (x_action (p_row p))
     else if String.eqb (x_action (p_row p)) "create"
     then EventbriteDrafts.create recursion answer now (x_organization_id (p_row p)) (x_payload (p_row p))
     else EventbriteDrafts.update recursion answer now (x_organization_id (p_row p)) (x_event_id (p_row p))
            (x_payload (p_row p)) (x_expected_readback_digest (p_row p)))).2) as -> by (by rewrite Hr).
  clear Hr. destruct (p_reconcile p).
  - pose proof (run_sends _ credential _ (reconcile_sends recursion answer now (x_organization_id (p_row p))
      (Some (x_provider_id (p_row p))) (x_payload (p_row p)) (x_request_digest (p_row p)) (x_action (p_row p)) [])) as Hs.
    left. destruct Hs as [[-> _]|(? & ? & ? & _ & _ & Hc)]; [done|]. by apply confirms_reads in Hc.
  - unfold reviewed_write. destruct (String.eqb (x_action (p_row p)) "create").
    + pose proof (run_sends _ credential _ (create_sends recursion answer now (x_organization_id (p_row p))
        (x_payload (p_row p)) [])) as [[-> _]|(token & v & digest & Hv & _ & Hw)]; [by left|]. right. split; [done|].
      apply written_posts in Hw; [|done]. eexists. split; [exact Hw|]. by exists token, v.
    + pose proof (run_sends _ credential _ (update_sends recursion answer now (x_organization_id (p_row p))
        (x_event_id (p_row p)) (x_payload (p_row p)) (x_expected_readback_digest (p_row p)) []))
        as [[-> _]|(token & v & digest & Hv & _ & [[-> _]|(before & l' & -> & _ & _ & _ & Hw)])]; [by left..|].
      right. split; [done|]. apply written_posts in Hw; [|done]. eexists. split; [exact Hw|]. by exists token, v.
Qed.

Lemma writes_once_posts path region digest check payload evidence l r :
  writes_once path region digest check payload evidence l r ->
  posts l = [] \/ exists base token v, IterableDrafts.region_ region = Ok base /\ check payload = Ok v /\
    posts l = [it_request "POST" base path token (Some v)].
Proof. intros [[Hl _]|(base & token & v & ? & ? & ? & _)]; [by left|]. right. by exists base, token, v. Qed.


Lemma iterable_call_writes answer now p region call credential :
  configured (p_row p) "region" = Ok region -> iterable_call recursion answer now p region = Ok call ->
  posts (run_adapter credential call).2 = [] \/
  p_reconcile p = false /\ exists w, posts (run_adapter credential call).2 = [w] /\
    reviewed_write ITERABLE (p_model p) (p_row p) w.
Proof.
  intros Hr Hc. unfold iterable_call in Hc. unfold reviewed_write. rewrite Hr.
  destruct (p_model p).
  - apply bind_result_ok in Hc as (expected & _ & Hc). injection Hc as <-. destruct (p_reconcile p).
    + left. by destruct (run_sends _ credential _ (campaign_reconcile_sends recursion answer now region
        (Some (x_provider_id (p_row p))) (x_payload (p_row p)) (x_request_digest (p_row p)) expected [])).
    + destruct (run_sends _ credential _ (campaign_create_sends recursion answer now region
        (x_payload (p_row p)) expected [])) as [[-> _]|(v & digest & token & content & Hv & _ & Hw)]; [by left|].
      apply writes_once_posts in Hw as [Hw|(base & t & v' & ? & ? & Hw)]; [by left|]. right. split; [done|].
      eexists. split; [exact Hw|]. by exists region, base, t, v, v'.
  - injection Hc as <-. destruct (p_reconcile p).
    + left. by destruct (run_sends _ credential _ (template_reconcile_sends recursion answer now region
        (x_payload (p_row p)) (x_request_digest (p_row p)) (or_none (x_provider_id (p_row p))) [])).
    + destruct (run_sends _ credential _ (template_create_sends recursion answer now region
        (x_payload (p_row p)) [])) as [[-> _]|(v & digest & token & Hv & _ & Hw)]; [by left|].
      apply writes_once_posts in Hw as [Hw|(base & t & v' & ? & ? & Hw)]; [by left|]. right. split; [done|].
      eexists. split; [exact Hw|]. by exists region, base, t, v, v'.
Qed.

Lemma exchange_iterable_writes answer now p d r sent :
  exchange_iterable recursion ring answer now p d = (r, sent) ->
  posts sent = [] \/
  p_reconcile p = false /\ exists w, posts sent = [w] /\ reviewed_write ITERABLE (p_model p) (p_row p) w.
Proof.
  unfold exchange_iterable, exchange_with. destruct ((_ : M SecretLease) d).1 as [credential|e]; [|intros [= <- <-]; by left].
  destruct (configured (p_row p) "region") as [region|e] eqn:Hg; [|intros [= <- <-]; by left].
  cbn [mbind result_bind]. destruct (iterable_call recursion answer now p region) as [call|e] eqn:Hc;
    [|intros [= <- <-]; by left].
  intros Hr. pose proof (iterable_call_writes _ _ _ _ _ credential Hg Hc) as Hw.
  change ((call ← lift (Ok call); call)) with (fun s => call s) in Hr.
  change (run_adapter credential (fun s => call s)) with (run_adapter credential call) in Hr.
  by rewrite Hr in Hw.
Qed.

Lemma exchange_writes l answer now p d r sent :
  exchange_of recursion ring l answer now p d = (r, sent) ->
  posts sent = [] \/
  p_reconcile p = false /\ exists w, posts sent = [w] /\ reviewed_write l (p_model p) (p_row p) w.
Proof. destruct l; [apply exchange_draft_writes|apply exchange_iterable_writes]. Qed.

(** ** The history of a row *)

Definition core (x : execution) :=
  (x_intent x, x_run x, x_submitter x, x_action x, x_organization_id x, x_event_id x,
   x_expected_readback_digest x, x_provider_configuration x, x_payload x, x_request_digest x, x_review_digest x).
Definition approval (x : execution) := (x_approver x, x_approved_at x, x_approval_session x).

(** Neither claimed nor beyond. *)
Definition unclaimed (x : execution) : Prop := x_status x = PENDING \/ x_status x = APPROVED.

(** What the statuses of a row can do: the machine of [save], and the marks that the
    failure handlers leave on a claimed row without it. *)
Definition lifecycle (from to : status) : bool :=
  allowed from to ||
  match from with
  | EXECUTING | SUCCEEDED | FAILED | UNKNOWN => bool_decide (to = FAILED \/ to = UNKNOWN)
  | PENDING | APPROVED => false
  end.

Definition evolves (old new : execution) : Prop :=
  core new = core old /\ (x_status old <> PENDING -> approval new = approval old) /\
  (~ unclaimed old -> x_claimed_at new = x_claimed_at old /\ ~ unclaimed new) /\
  lifecycle (x_status old) (x_status new) = true.

Lemma evolves_refl x : evolves x x.
Proof. split_and!; try done. unfold lifecycle. by destruct (x_status x). Qed.

(** The object a dispatch holds agrees with the row it was read from. *)
Definition holds (p : dispatch) (x : execution) : Prop :=
  core (p_row p) = core x /\ approval (p_row p) = approval x /\ x_claimed_at (p_row p) = x_claimed_at x /\
  ~ unclaimed x.

Lemma holds_evolves p x y : holds p x -> evolves x y -> holds p y.
Proof.
  intros (Hc & Ha & Ht & Hu) (Ec & Ea & Et & _). destruct (Et Hu) as [Ht' Hu'].
  assert (x_status x <> PENDING) as Hs by (intros E; apply Hu; by left).
  unfold holds. rewrite Ec, Ht', (Ea Hs). done.
Qed.

Lemma outcome_evolves p old new :
  holds p old -> outcome_row p old new -> evolves old new.
Proof.
  intros (Hc & Ha & Ht & Hu) [(rc & now & -> & Hg)|(st & category & now & -> & Hst)].
  - unfold save_guard in Hg. apply bind_result_ok in Hg as (? & _ & Hg). apply raise_if_inv in Hg. bools.
    split_and!; [exact Hc|done| |unfold lifecycle; by rewrite H1].
    intros _. split; [exact Ht|]. intros [Hs|Hs]; cbn in Hs; by destruct (String.eqb _ _).
  - split_and!; try done.
    + intros _. split; [done|]. intros [Hs|Hs]; cbn in Hs; subst; by destruct Hst.
    + unfold lifecycle, unclaimed in *. cbn [x_status set_outcome].
      destruct (x_status old); try (by exfalso; auto); rewrite bool_decide_eq_true_2 by done; apply orb_true_r.
Qed.

(** ** The invariant *)

Definition row (s : system) (m : model) (id : Z) : option execution := table m (state s) !! id.

(** A claimed write that has not been exchanged yet. *)
Definition writes (m : model) (id : Z) (t : thread) : bool :=
  bool_decide (p_model (t_dispatch t) = m) && (p_id (t_dispatch t) =? id)
  && negb (p_reconcile (t_dispatch t)) && isnull (t_answer t).
Definition writers (m : model) (id : Z) (ts : list thread) : nat := length (List.filter (writes m id) ts).

(** The requests that wrote for an operation. *)
Definition writes_of (m : model) (id : Z) (tr : list (model * Z * request)) : list request :=
  posts (map snd (List.filter (fun e => bool_decide (e.1 = (m, id))) tr)).

Record inv (s : system) : Prop := {
  inv_fresh m id x : row s m id = Some x -> id < next_id (state s);
  inv_holds t : In t (threads s) ->
    exists x, row s (p_model (t_dispatch t)) (p_id (t_dispatch t)) = Some x /\ holds (t_dispatch t) x;
  inv_once m id : (length (writes_of m id (trace s)) + writers m id (threads s) <= 1)%nat;
  inv_quiet m id : (forall x, row s m id = Some x -> unclaimed x) ->
    writes_of m id (trace s) = [] /\ writers m id (threads s) = 0%nat;
  inv_reviewed m id w : In w (writes_of m id (trace s)) ->
    exists x l, row s m id = Some x /\ reviewed_write l m x w;
}.

(** The rows of a state and of the next one: old rows evolve, new ones are pending and
    take the next key. *)
Definition rows_evolve (s s' : system) : Prop :=
  (forall m id x, row s m id = Some x -> exists x', row s' m id = Some x' /\ evolves x x') /\
  (forall m id x', row s' m id = Some x' -> row s m id = None ->
     x_status x' = PENDING /\ id < next_id (state s')) /\
  next_id (state s) <= next_id (state s').

Lemma table_set m m' t d : table m (set_table m' t d) = if bool_decide (m = m') then t else table m d.
Proof. by destruct m, m'. Qed.

Lemma row_replaced s m id old new ts tr d m' id' :
  replaced (state s) m id old new d ->
  row (System d ts tr) m' id' = if bool_decide (m' = m /\ id' = id) then Some new else row s m' id'.
Proof.
  intros [Ho ->]. unfold row. cbn [state]. rewrite table_set.
  destruct (decide (m' = m)) as [->|Hm].
  - rewrite bool_decide_eq_true_2 by done. destruct (decide (id' = id)) as [->|Hi].
    + rewrite bool_decide_eq_true_2 by done. apply lookup_insert_eq.
    + rewrite bool_decide_eq_false_2 by (by intros [_ ?]). by apply lookup_insert_ne.
  - rewrite (bool_decide_eq_false_2 (m' = m)) by done. by rewrite bool_decide_eq_false_2 by (by intros [? _]).
Qed.

Lemma replaced_evolves s m id old new ts tr d :
  replaced (state s) m id old new d -> evolves old new -> rows_evolve s (System d ts tr).
Proof.
  intros Hr He. split_and!; [| |by destruct Hr as [_ ->], m].
  - intros m' id' x Hx. rewrite (row_replaced _ _ _ _ _ _ _ _ _ _ Hr).
    destruct (bool_decide_reflect (m' = m /\ id' = id)) as [[-> ->]|_]; [|exists x; split; [done|apply evolves_refl]].
    destruct Hr as [Ho _]. unfold row in Hx. rewrite Ho in Hx. injection Hx as <-. eauto.
  - intros m' id' x' Hx' Hx. rewrite (row_replaced _ _ _ _ _ _ _ _ _ _ Hr) in Hx'.
    destruct (bool_decide_reflect (m' = m /\ id' = id)) as [[-> ->]|_]; [|congruence].
    destruct Hr as [Ho _]. unfold row in Hx. congruence.
Qed.

Lemma same_rows s ts tr d :
  (forall m, table m d = table m (state s)) -> next_id (state s) <= next_id d ->
  rows_evolve s (System d ts tr).
Proof.
  intros Ht Hn. split_and!; unfold row; cbn [state]; [| |done].
  - intros m id x Hx. rewrite Ht. exists x. split; [done|apply evolves_refl].
  - intros m id x' Hx' Hx. rewrite Ht in Hx'. congruence.
Qed.

Lemma inserted_evolves s m x ts tr d :
  table m (state s) !! next_id (state s) = None -> inserted (state s) m x d -> rows_evolve s (System d ts tr).
Proof.
  intros Hn [Hp ->]. unfold rows_evolve, row. cbn [state].
  assert (forall m', table m' (set_next (next_id (state s) + 1) (state s)) = table m' (state s)) as Ht by (by destruct m').
  split_and!; [| |destruct m; cbn; lia].
  - intros m' id' x' Hx'. rewrite table_set. destruct (bool_decide_reflect (m' = m)) as [->|_].
    + rewrite lookup_insert_ne by congruence. exists x'. split; [done|apply evolves_refl].
    + rewrite Ht. exists x'. split; [done|apply evolves_refl].
  - intros m' id' x' Hx' Hx. rewrite table_set in Hx'. destruct (bool_decide_reflect (m' = m)) as [->|_].
    + destruct (decide (id' = next_id (state s))) as [->|Hi].
      * rewrite lookup_insert_eq in Hx'. injection Hx' as <-. split; [done|]. destruct m; cbn; lia.
      * rewrite lookup_insert_ne in Hx' by done. congruence.
    + rewrite Ht in Hx'. congruence.
Qed.

Lemma approval_evolves old user session now :
  x_status old = PENDING -> evolves old (with_approval user session now old).
Proof.
  intros Hp. split; [done|]. split; [by intros []|].
  split; [intros Hu; destruct Hu; by left|unfold lifecycle; cbn; by rewrite Hp].
Qed.

Lemma claim_evolves old provider now :
  x_status old = APPROVED -> evolves old (with_claim provider now old).
Proof.
  intros Hp. split; [done|]. split; [done|].
  split; [intros Hu; destruct Hu; by right|unfold lifecycle; cbn; by rewrite Hp].
Qed.

Lemma step_rows s s' : inv s -> step recursion ring s s' -> rows_evolve s s'.
Proof.
  intros Hi Hs. destruct Hs as [s op r d Hop Hr|s l c p d Hc Hr|s before l p after answer now r sent Ht Hx
    |s before l p after r r' d Ht Hf|s before t after Ht|s d Hd Ht Hn].
  - assert (forall m, table m (state s) !! next_id (state s) = None) as Hf.
    { intros m. destruct (table m (state s) !! next_id (state s)) as [x|] eqn:E; [|done].
      apply (inv_fresh s Hi) in E. lia. }
    destruct (request_effect recursion op _ _ _ Hf Hop Hr) as [-> |[(m & x & Hx)|(m & id & old & u & se & now & Hx & Hp)]].
    + by apply same_rows.
    + by apply (inserted_evolves s m x).
    + eapply replaced_evolves; [exact Hx|by apply approval_evolves].
  - pose proof (claim_effect recursion _ _ _ _ _ Hc Hr) as He. destruct (p_reconcile p).
    + destruct He as [-> _]. by apply same_rows.
    + destruct He as (x & provider & now & Hx & Hp & Hrow). eapply replaced_evolves; [exact Hx|].
      rewrite Hrow. by apply claim_evolves.
  - by apply same_rows.
  - destruct (inv_holds s Hi (Thread l p (Some r))) as (x & Hx & Hh); [rewrite Ht; apply in_elt|].
    destruct (finish_effect _ _ _ _ _ _ _ Hx Hf) as [-> |(new & Hrep & Ho & _)]; [by apply same_rows|].
    eapply replaced_evolves; [exact Hrep|by eapply outcome_evolves].
  - by apply same_rows.
  - apply same_rows; [|done]. by intros [].
Qed.

(** *** Counting *)

Lemma writers_app m id ts ts' : writers m id (ts ++ ts') = (writers m id ts + writers m id ts')%nat.
Proof. unfold writers. by rewrite List.filter_app, length_app. Qed.

Lemma writers_cons m id t ts : writers m id (t :: ts) = ((if writes m id t then 1 else 0) + writers m id ts)%nat.
Proof. unfold writers. cbn. by destruct (writes m id t). Qed.

Lemma writes_of_app m id tr tr' : writes_of m id (tr ++ tr') = writes_of m id tr ++ writes_of m id tr'.
Proof. unfold writes_of. by rewrite List.filter_app, map_app, posts_app. Qed.

Lemma writes_of_tag m id p sent :
  writes_of m id (map (tag p) sent) = if bool_decide ((p_model p, p_id p) = (m, id)) then posts sent else [].
Proof.
  unfold writes_of. induction sent as [|r sent IH]; [by destruct (bool_decide _)|]. cbn [map List.filter tag fst].
  destruct (bool_decide ((p_model p, p_id p) = (m, id))) eqn:E; [|exact IH].
  cbn [map snd]. unfold posts in *. cbn. by rewrite IH.
Qed.

Lemma reviewed_write_core l m x y w : core x = core y -> reviewed_write l m x w -> reviewed_write l m y w.
Proof.
  unfold core. intros [= ? ? ? Ha Ho He ? Hc Hp ? ?]. unfold reviewed_write, configured.
  by rewrite Ha, Ho, He, Hc, Hp.
Qed.

(** An operation without claimed row had none before. *)
Lemma quiet_before s s' m id :
  rows_evolve s s' -> (forall x, row s' m id = Some x -> unclaimed x) ->
  forall x, row s m id = Some x -> unclaimed x.
Proof.
  intros (Hr & _) Hq x Hx. destruct (Hr _ _ _ Hx) as (x' & Hx' & _ & _ & Hc & _).
  destruct (decide (x_status x = PENDING)); [by left|]. destruct (decide (x_status x = APPROVED)); [by right|].
  exfalso. apply (Hc ltac:(by intros [])). by apply Hq.
Qed.

Lemma claim_holds s l c p d ts tr :
  is_claim recursion l c -> c (state s) = (Ok p, d) ->
  exists x, row (System d ts tr) (p_model p) (p_id p) = Some x /\ holds p x.
Proof.
  intros Hc Hr. pose proof (claim_effect recursion _ _ _ _ _ Hc Hr) as He. unfold row. cbn [state].
  destruct (p_reconcile p).
  - destruct He as [-> [Hx Hs]]. exists (p_row p). split; [done|]. split_and!; try done.
    intros [Hu|Hu]; rewrite Hu in Hs; by destruct Hs.
  - destruct He as (x & provider & now & [Hx ->] & Hp & Hrow). exists (p_row p).
    rewrite table_set, bool_decide_eq_true_2, lookup_insert_eq by done. split; [done|].
    split_and!; try done. rewrite Hrow. by intros [].
Qed.

Lemma step_threads s s' t : step recursion ring s s' -> In t (threads s') ->
  (exists t0, In t0 (threads s) /\ t_dispatch t0 = t_dispatch t) \/
  (exists x, row s' (p_model (t_dispatch t)) (p_id (t_dispatch t)) = Some x /\ holds (t_dispatch t) x).
Proof.
  intros Hs Hin. destruct Hs as [s op r d Hop Hr|s l c p d Hc Hr|s before l p after answer now r sent Ht Hx
    |s before l p after r r' d Ht Hf|s before t0 after Ht|s d Hd Ht Hn]; cbn [threads] in Hin.
  - left. eauto.
  - apply in_app_iff in Hin as [Hin|[<-|[]]]; [left; eauto|right]. by eapply claim_holds.
  - left. apply in_app_iff in Hin as [Hin|[<-|Hin]].
    + exists t. split; [|done]. rewrite Ht. apply in_app_iff. by left.
    + exists (Thread l p None). split; [|done]. rewrite Ht. apply in_elt.
    + exists t. split; [|done]. rewrite Ht. apply in_app_iff. right. by right.
  - left. exists t. split; [|done]. rewrite Ht. apply in_app_iff in Hin as [Hin|Hin]; apply in_app_iff;
      [by left|right; by right].
  - left. exists t. split; [|done]. rewrite Ht. apply in_app_iff in Hin as [Hin|Hin]; apply in_app_iff;
      [by left|right; by right].
  - left. eauto.
Qed.

(** How the counts of an operation can change in a step. *)
Lemma step_counts s s' m id : inv s -> step recursion ring s s' ->
  let n := writers m id (threads s) in
  let n' := writers m id (threads s') in
  (writes_of m id (trace s') = writes_of m id (trace s) /\ (n' <= n)%nat) \/
  (writes_of m id (trace s') = writes_of m id (trace s) /\ n' = S n /\
     (exists x, row s m id = Some x /\ x_status x = APPROVED) /\
     (exists x, row s' m id = Some x /\ ~ unclaimed x)) \/
  (exists w, writes_of m id (trace s') = writes_of m id (trace s) ++ [w] /\ n = S n' /\
     exists x l, row s m id = Some x /\ reviewed_write l m x w).
Proof.
  intros Hi Hs. destruct Hs as [s op r d Hop Hr|s l c p d Hc Hr|s before l p after answer now r sent Ht Hx
    |s before l p after r r' d Ht Hf|s before t0 after Ht|s d Hd Ht Hn]; cbn [threads trace]; cbn zeta.
  - by left.
  - rewrite writers_app, writers_cons. cbn [writers List.filter length].
    destruct (writes m id (Thread l p None)) eqn:Hw; [|left; split; [done|unfold writers; cbn; lia]].
    unfold writes in Hw. cbn [t_dispatch t_answer isnull] in Hw. bools. subst.
    right; left. split; [done|]. split; [unfold writers; cbn; lia|].
    pose proof (claim_effect recursion _ _ _ _ _ Hc Hr) as He.
    match goal with Hf : p_reconcile p = false |- _ => rewrite Hf in He end.
    destruct He as (x & provider & now & [Hx _] & Hp & _). split; [by exists x|].
    destruct (claim_holds s l c p d (threads s ++ [Thread l p None]) (trace s) Hc Hr) as (y & Hy & Hh).
    exists y. split; [done|]. by destruct Hh as (_ & _ & _ & Hu).
  - rewrite Ht, !writers_app, !writers_cons, writes_of_app, writes_of_tag.
    assert (writes m id (Thread l p (Some r)) = false) as -> by (unfold writes; cbn; by rewrite andb_false_r).
    destruct (exchange_writes _ _ _ _ _ _ _ Hx) as [Hp|(Hp & w & Hw & Hrev)].
    + left. rewrite Hp. split; [destruct (bool_decide _); by rewrite app_nil_r|lia].
    + unfold writes. cbn [t_dispatch t_answer isnull]. rewrite Hp. cbn [negb]. rewrite !andb_true_r.
      destruct (bool_decide_reflect ((p_model p, p_id p) = (m, id))) as [[= <- <-]|Hne].
      * rewrite bool_decide_eq_true_2, Z.eqb_refl by done. cbn [andb]. right; right. exists w. rewrite Hw.
        split; [done|]. split; [lia|].
        destruct (inv_holds s Hi (Thread l p None)) as (x & Hrow & Hc & _); [rewrite Ht; apply in_elt|].
        exists x, l. split; [done|]. by apply (reviewed_write_core _ _ (p_row p)).
      * left. rewrite app_nil_r. split; [done|]. lia.
  - left. split; [done|]. rewrite Ht, !writers_app, writers_cons. lia.
  - left. split; [done|]. rewrite Ht, !writers_app, writers_cons. lia.
  - by left.
Qed.

Lemma inv_step s s' : inv s -> step recursion ring s s' -> inv s'.
Proof.
  intros Hi Hs. pose proof (step_rows _ _ Hi Hs) as Hr. pose proof Hr as (Hold & Hnew & Hnext).
  assert (forall m id x, row s m id = Some x -> unclaimed x -> writes_of m id (trace s) = [] /\
    writers m id (threads s) = 0%nat) as Hz.
  { intros m id x Hx Hu. apply (inv_quiet s Hi). intros y Hy. congruence. }
  split.
  - intros m id x' Hx'. destruct (row s m id) as [x|] eqn:E; [|by apply (Hnew _ _ _ Hx' E)].
    apply (inv_fresh s Hi) in E. lia.
  - intros t Hin. destruct (step_threads _ _ _ Hs Hin) as [(t0 & Ht0 & <-)|Hx]; [|done].
    destruct (inv_holds s Hi t0 Ht0) as (x & Hx & Hh). destruct (Hold _ _ _ Hx) as (x' & Hx' & He).
    exists x'. split; [done|by eapply holds_evolves].
  - intros m id. pose proof (inv_once s Hi m id) as Ho.
    destruct (step_counts s s' m id Hi Hs) as [[-> Hn]|[(-> & Hn & (x & Hx & Hp) & _)|(w & -> & Hn & _)]].
    + lia.
    + destruct (Hz m id x Hx) as [Hz1 Hz2]; [by right|]. rewrite Hz1, Hz2 in *. cbn in *. lia.
    + rewrite length_app. cbn. lia.
  - intros m id Hq. destruct (inv_quiet s Hi m id) as [Hw Hn]; [by eapply quiet_before|].
    destruct (step_counts s s' m id Hi Hs) as [[-> Hn']|[(-> & Hn' & _ & (x & Hx & Hp))|(w & -> & Hn' & _)]].
    + split; [done|lia].
    + by apply Hp in Hq.
    + lia.
  - intros m id w Hin. assert (forall x l, row s m id = Some x -> reviewed_write l m x w ->
      exists x l, row s' m id = Some x /\ reviewed_write l m x w) as Hkeep.
    { intros x l Hx Hw. destruct (Hold _ _ _ Hx) as (x' & Hx' & Hc & _). exists x', l. split; [done|].
      by apply (reviewed_write_core _ _ x). }
    destruct (step_counts s s' m id Hi Hs) as [[Hw _]|[(Hw & _)|(w' & Hw & _ & x & l & Hx & Hrev)]]; rewrite Hw in Hin.
    + destruct (inv_reviewed s Hi m id w Hin) as (x & l & Hx & Hrev). eauto.
    + destruct (inv_reviewed s Hi m id w Hin) as (x & l & Hx & Hrev). eauto.
    + apply in_app_iff in Hin as [Hin|[<-|[]]]; [|eauto].
      destruct (inv_reviewed s Hi m id w Hin) as (y & l' & Hy & Hrev'). eauto.
Qed.

Lemma inv_initial s : initial s -> inv s.
Proof.
  intros (Hd & Ht & Hth & Htr). unfold row in *.
  assert (forall m id, row s m id = None) as Hn.
  { intros [] id; unfold row; cbn; by rewrite ?Hd, ?Ht. }
  split.
  - intros m id x Hx. by rewrite Hn in Hx.
  - intros t. by rewrite Hth.
  - intros m id. rewrite Hth, Htr. cbn. lia.
  - intros m id _. by rewrite Hth, Htr.
  - intros m id w. by rewrite Htr.
Qed.

Lemma inv_reachable s : reachable recursion ring s -> inv s.
Proof.
  intros (s0 & Hs0 & Hs). apply inv_initial in Hs0. induction Hs as [|s1 s2 s3 Hs _ IH]; [done|].
  by apply IH, (inv_step s1).
Qed.

(** ** The properties *)

(** C1 In every reachable state, whatever the interleaving of submissions, approvals, claims,
    exchanges, reconciliations, crashes and changes of the other tables, at most one request
    that writes was ever sent to a provider for an operation; and if one was sent, it is the
    reviewed request of the operation's row, which is claimed. *)
Theorem written_at_most_once s m id :
  reachable recursion ring s ->
  writes_of m id (trace s) = [] \/
  exists w x l, writes_of m id (trace s) = [w] /\ row s m id = Some x /\ ~ unclaimed x /\
    reviewed_write l m x w.
Proof.
  intros Hr. apply inv_reachable in Hr as Hi. pose proof (inv_once s Hi m id) as Ho.
  destruct (writes_of m id (trace s)) as [|w [|w' ws]] eqn:Hw; [by left| |cbn in Ho; lia].
  destruct (inv_reviewed s Hi m id w) as (x & l & Hx & Hrev); [rewrite Hw; by left|].
  right. exists w, x, l. split_and!; try done. intros Hu.
  destruct (inv_quiet s Hi m id) as [Hq _]; [intros y Hy; congruence|]. congruence.
Qed.

(** No step of the system loses an operation or changes what was reviewed: every row keeps
    its intent, run, submitter, action, provider identity, payload and digests, keeps its
    approver, approval time and session once approved and its claim time once claimed, and
    its status moves along the machine of [save] or, on a claimed row, to a failure mark. *)
Theorem history_is_kept s s' m id x :
  reachable recursion ring s -> step recursion ring s s' -> row s m id = Some x ->
  exists x', row s' m id = Some x' /\ evolves x x'.
Proof.
  intros Hr Hs Hx. apply inv_reachable in Hr. destruct (step_rows s s' Hr Hs) as (Hold & _).
  by apply Hold.
Qed.

(** The switch of a lane. *)
Definition lane_switch (l : lane) : string :=
  match l with
  | EVENTBRITE => "CIVICLOOP_EVENTBRITE_DRAFT_WRITE_ENABLED"
  | ITERABLE => "CIVICLOOP_ITERABLE_DRAFT_WRITE_ENABLED"
  end.

Lemma switched_on_ok v msg d u d' : switched_on v msg d = (Ok u, d') -> environ d !! v = Some "true".
Proof. unfold switched_on, deny_if. intros Hs. run_inv. by bools. Qed.

(** What was checked between the lease of a write and its first request. *)
Definition write_guards (l : lane) (p : dispatch) (d : db) : Prop :=
  environ d !! lane_switch l = Some "true" /\
  lease_operation d (p_model p) (lane_provider l) (p_session p) (i_workflow (r_intent (p_related p))) (p_id p) /\
  current_review recursion (p_model p) (p_row p) (p_related p) d =
    (Ok (x_request_digest (p_row p), x_review_digest (p_row p)), d) /\
  live_approval d (p_row p) (p_related p).

Lemma validated_guards l p d u d' :
  x_approver (p_row p) <> None -> environ d !! lane_switch l = Some "true" ->
  lease_operation d (p_model p) (lane_provider l) (p_session p) (i_workflow (r_intent (p_related p))) (p_id p) ->
  validate_execution recursion (p_model p) (p_row p) (p_related p) true d = (Ok u, d') -> write_guards l p d.
Proof.
  intros Ha He Hl Hv. destruct (validated_review _ _ _ _ _ _ _ _ Hv) as (computed & Hc & Hr).
  apply live_check in Hr as [-> Hlive]; [|done]. by split_and!.
Qed.

Lemma eventbrite_guards answer now p d r sent :
  p_model p = DRAFT -> x_approver (p_row p) <> None -> p_reconcile p = false ->
  exchange_draft recursion ring answer now p d = (r, sent) -> sent = [] \/ write_guards EVENTBRITE p d.
Proof.
  intros Hm Ha Hp Hx. unfold exchange_draft, exchange_with in Hx. cbn zeta in Hx. rewrite Hp in Hx.
  destruct ((_ : M SecretLease) d) as [[credential|e] d1] eqn:Hg; [right|left; cbn in Hx; congruence].
  clear Hx. apply bind_ok_inv in Hg as (reference & d2 & Href & Hg).
  assert (d2 = d) as -> by (eapply readonly_ok; [|exact Href]; destruct (p_reference p); solve_readonly).
  apply bind_ok_inv in Hg as (c & d2 & Hl & Hg).
  assert (d2 = d) as -> by (eapply readonly_ok; [|exact Hl]; unfold write_lease; solve_readonly).
  apply bind_ok_inv in Hg as (u & d2 & Hv & _). apply bind_ok_inv in Hv as (u' & d3 & Hs & Hv).
  assert (d3 = d) as -> by (eapply readonly_ok; [|exact Hs]; solve_readonly).
  eapply (validated_guards EVENTBRITE); [done| | |by rewrite Hm].
  - unfold enabled in Hs. by eapply switched_on_ok.
  - apply (write_lease_ok recursion ring EVENTBRITE p reference d c d); [done|]. by rewrite Hm.
Qed.

Lemma iterable_guards answer now p d r sent :
  x_approver (p_row p) <> None -> p_reconcile p = false ->
  exchange_iterable recursion ring answer now p d = (r, sent) -> sent = [] \/ write_guards ITERABLE p d.
Proof.
  intros Ha Hp Hx. unfold exchange_iterable, exchange_with in Hx. cbn zeta in Hx.
  destruct ((_ : M SecretLease) d) as [[credential|e] d1] eqn:Hg; [right|left; cbn in Hx; congruence].
  clear Hx. do 5 skip_read Hg. apply bind_ok_inv in Hg as (c & d2 & Hl & Hg).
  assert (d2 = d) as -> by (eapply readonly_ok; [|exact Hl]; unfold write_lease; solve_readonly).
  do 3 skip_read Hg. rewrite Hp in Hread6. eapply (validated_guards ITERABLE); [done| | |done].
  - unfold iterable_enabled in Hread4. by eapply switched_on_ok.
  - by apply (write_lease_ok recursion ring ITERABLE p a d c d).
Qed.

(** C5 Before a dispatch of an approved operation sends anything, in the state in which it does:
    the lane is switched on; the row is still executing or unknown and was approved by the
    user whose full session holds the lease; the approver's own session is live; and the
    digests of the request and of its review, recomputed from the current workflow and
    revision, are the ones the owner approved. *)
Theorem write_needs_live_approval l answer now p d r sent :
  (l = EVENTBRITE -> p_model p = DRAFT) -> x_approver (p_row p) <> None -> p_reconcile p = false ->
  exchange_of recursion ring l answer now p d = (r, sent) -> sent <> [] -> write_guards l p d.
Proof.
  intros Hm Ha Hp Hx Hs. destruct l; cbn [exchange_of] in Hx.
  - by destruct (eventbrite_guards answer now p d r sent (Hm eq_refl) Ha Hp Hx).
  - by destruct (iterable_guards answer now p d r sent Ha Hp Hx).
Qed.

(** The failure handlers bypass the guard of [save]: whatever the status of the row has
    become, also a confirmed success recorded by a concurrent reconciliation, a dispatch
    that ends in an error overwrites it with a failure mark, and keeps the confirming
    receipt in the row. *)
Theorem confirmation_can_be_overwritten p e d old :
  table (p_model p) d !! p_id p = Some old -> p_reconcile p = false -> constraints_hold old = true ->
  x_status old = SUCCEEDED ->
  exists new d', finish_of EVENTBRITE p (Err e) d = (Ok (p_id p), d') /\
    table (p_model p) d' !! p_id p = Some new /\
    (x_status new = UNKNOWN \/ x_status new = FAILED) /\ x_receipt new = x_receipt old.
Proof.
  intros Ho Hp Hc Hs. cbn [finish_of]. rewrite Hp. cbn [finish_draft].
  assert (forall st category, st = UNKNOWN \/ st = FAILED ->
    constraints_hold (set_outcome st category (clock d) old) = true) as Hk.
  { intros st category Hst. revert Hc. unfold constraints_hold, approval_required, execution_lifecycle.
    rewrite Hs. cbn [x_status set_outcome x_action x_approver x_approved_at x_approval_session x_claimed_at
      x_completed_at]. destruct (String.eqb _ _ || String.eqb _ _); [|done].
    destruct Hst as [-> | ->]; cbn [bool_decide decide_rel];
      destruct (x_approver old), (x_approved_at old), (x_approval_session old), (x_claimed_at old); done. }
  assert (forall st category, st = UNKNOWN \/ st = FAILED ->
    exists d', (_ ← update_row (p_model p) (p_id p) st category; mret (p_id p)) d = (Ok (p_id p), d') /\
      table (p_model p) d' !! p_id p = Some (set_outcome st category (clock d) old)) as Hu.
  { intros st category Hst. eexists. unfold update_row, put_row, mbind, ST_bind, get. rewrite Ho.
    unfold fail_if. rewrite (Hk st category Hst). cbn [negb]. unfold mret, ST_ret, modify. split; [done|].
    rewrite table_set, bool_decide_eq_true_2 by done. apply lookup_insert_eq. }
  assert (exists st category, (st = UNKNOWN \/ st = FAILED) /\
    draft_failed p e d = (_ ← update_row (p_model p) (p_id p) st category; mret (p_id p)) d) as (st & category & Hst & ->).
  { destruct e; try (by exists UNKNOWN, "dispatch_unconfirmed"; auto). cbn [draft_failed].
    destruct (bool_decide (category ∈ definite)); eexists _, _; (split; [|done]); auto. }
  destruct (Hu st category Hst) as (d' & -> & Hd'). exists (set_outcome st category (clock d) old), d'. done.
Qed.
End platform.

(** ** Witnesses *)

Import World.

Lemma finished_write : writes_of DRAFT operation (trace (s_finished eventbrite)) <> [].
Proof. by vm_compute. Qed.

(** The run of DraftWorld: one POST, and it is the reviewed one. *)
Lemma written_at_most_once_witness :
  exists w x l, writes_of DRAFT operation (trace (s_finished eventbrite)) = [w] /\
    row (s_finished eventbrite) DRAFT operation = Some x /\ ~ unclaimed x /\ reviewed_write 20 l DRAFT x w.
Proof.
  destruct (written_at_most_once 20 toy_ring (s_finished eventbrite) DRAFT operation reach_finished)
    as [Hno|Hw]; [by destruct (finished_write Hno)|exact Hw].
Defined.

Lemma reach_exchanged : reachable 20 toy_ring (s_exchanged eventbrite).
Proof.
  destruct run_claimed as (s0 & Hs0 & Hs). exists s0. split; [done|].
  eapply rtc_r; [exact Hs|apply run_exchanged].
Qed.

Lemma history_is_kept_witness :
  exists x', row (s_finished eventbrite) DRAFT operation = Some x' /\ evolves (row_in claimed) x'.
Proof.
  exact (history_is_kept 20 toy_ring (s_exchanged eventbrite) (s_finished eventbrite) DRAFT operation
           (row_in claimed) reach_exchanged run_finished claimed_row).
Defined.

Lemma write_needs_live_approval_witness : write_guards 20 EVENTBRITE dispatched claimed.
Proof.
  apply (write_needs_live_approval 20 toy_ring EVENTBRITE eventbrite 1010 dispatched claimed
           (exchanged eventbrite).1 (exchanged eventbrite).2).
  - intros _. vm_compute. reflexivity.
  - vm_compute. discriminate.
  - vm_compute. reflexivity.
  - exact (exchanged_eq eventbrite).
  - vm_compute. discriminate.
Defined.

(** A reachable state in which the failing dispatch is about to overwrite the confirmation. *)
Lemma confirmation_can_be_overwritten_witness :
  reachable 20 toy_ring s_racing /\ x_status (row_in u_confirmed) = SUCCEEDED /\
  exists new d',
    finish_of EVENTBRITE slow (Err (EventbriteDraftError "timeout")) u_confirmed = (Ok operation, d') /\
    drafts d' !! operation = Some new /\ (x_status new = UNKNOWN \/ x_status new = FAILED) /\
    x_receipt new = x_receipt (row_in u_confirmed).
Proof.
  split; [exact reach_racing|]. split; [exact u_confirmed_row|].
  apply (confirmation_can_be_overwritten slow (EventbriteDraftError "timeout") u_confirmed (row_in u_confirmed));
    vm_compute; reflexivity.
Defined.

End AtMostOnce.
