(* ===== verification/DraftReceiptTheorems.v ===== *)
(** * What a stored outcome says about the provider *)

From S2P Require Import Prelude PyValue OwnerEvents LaunchLoop ToolSchemas Crypto DraftProvider EventbriteDrafts IterableDrafts IterableTemplates DraftRows DraftReview SecretStore DraftOperations DraftSystem DraftWire DraftAdapterTheorems DraftEffects DraftWorld.

Module Receipts.
Import Provider Rows Review DraftOperations System Wire AdapterFacts Effects.

Section platform.
Context `{OwnerEvents.Platform} `{Crypto.AESGCM} (recursion : nat) (ring : option Crypto.IntegrationKeyRing).

(** ** From an exchange to the adapter's call *)

Lemma exchange_sends guards (call : W receipt) d (Q : list request -> result exn receipt -> Prop) r sent :
  exchange_with guards call d = (r, sent) -> (forall e, Q [] (Err e)) -> sends call [] Q -> Q sent r.
Proof.
  unfold exchange_with. destruct (guards d).1 as [credential|e]; [|by intros [= <- <-]].
  unfold run_adapter. intros [= <- <-] _ Hs. destruct (Hs credential) as (l & Hl & HQ). by rewrite Hl.
Qed.

(** What a confirmation of a dispatch rests on: the provider's own answer. *)
Definition evidence (l : lane) (answer : server) (p : dispatch) (sent : list request) (rc : receipt) : Prop :=
  let x := p_row p in
  match l, p_model p with
  | EVENTBRITE, _ =>
      exists token id v event before,
        EventbriteDrafts.validate_payload recursion (x_payload x) (String.eqb (x_action x) "create") = Ok v /\
        sent = before ++ [eb_get token id] /\
        eb_answer recursion answer before (eb_get token id) = Ok event /\
        reviewed_draft (x_organization_id x) id v event /\
        provider_id rc = Some id /\ readback rc = Some (EventbriteDrafts.readback_digest event) /\
        (p_reconcile p = true -> id = x_provider_id x) /\
        (p_reconcile p = false -> x_action x <> "create" -> id = x_event_id x)
  | ITERABLE, DRAFT =>
      exists token region content v,
        configured x "region" = Ok region /\ configured x "expected_template_digest" = Ok (JStr content) /\
        IterableDrafts.validate_payload recursion (x_payload x) = Ok v /\
        confirmed_campaign recursion answer region token v content rc
  | ITERABLE, TEMPLATE =>
      exists token region, configured x "region" = Ok region /\
        confirmed_template recursion answer region token (x_payload x) rc
  end.

Definition confirmed_only_with (E : list request -> receipt -> Prop) (l : list request) (r : result exn receipt)
  : Prop :=
  forall rc, r = Ok rc -> outcome rc = "CONFIRMED" -> E l rc.

Lemma confirms_evidence answer before token organization id v digest l rc :
  confirms recursion answer before token organization id v digest l (Ok rc) -> outcome rc = "CONFIRMED" ->
  exists event, l = [eb_get token id] /\ eb_answer recursion answer before (eb_get token id) = Ok event /\
    reviewed_draft organization id v event /\ provider_id rc = Some id /\
    readback rc = Some (EventbriteDrafts.readback_digest event).
Proof.
  intros (_ & _ & Hp & [Hu|(_ & _ & Hl & event & Ha & Hb & Hr)]) Hc; [congruence|]. by exists event.
Qed.

Lemma written_evidence answer h token organization v digest write event_id l rc :
  written recursion answer h token organization v digest write event_id l (Ok rc) -> outcome rc = "CONFIRMED" ->
  exists id event, l = [write; eb_get token id] /\
    eb_answer recursion answer (h ++ [write]) (eb_get token id) = Ok event /\
    reviewed_draft organization id v event /\ provider_id rc = Some id /\
    readback rc = Some (EventbriteDrafts.readback_digest event) /\
    match event_id with Some e => id = e | None => True end.
Proof.
  inversion 1 as [| | |event id l' r Ha Hd He Hc]; subst; intros Hout; [done|].
  destruct (confirms_evidence _ _ _ _ _ _ _ _ _ Hc Hout) as (read & -> & Hr).
  exists id, read. naive_solver.
Qed.

Lemma draft_confirmed answer now p d r sent :
  exchange_draft recursion ring answer now p d = (r, sent) ->
  confirmed_only_with (evidence EVENTBRITE answer p) sent r.
Proof.
  unfold exchange_draft, evidence. cbn zeta. intros Hx.
  eapply (exchange_sends _ _ _ (confirmed_only_with _)) in Hx; [exact Hx|by intros e rc [=]|]. clear Hx.
  destruct (p_reconcile p); [|destruct (String.eqb_spec (x_action (p_row p)) "create") as [Ha|Ha]].
  - eapply sends_mono; [|apply reconcile_sends].
    intros l r' [[_ Hr]|(token & v & id & [= <-] & Hv & Hc)] rc -> Hout; [naive_solver congruence|].
    destruct (confirms_evidence _ _ _ _ _ _ _ _ _ Hc Hout) as (event & -> & Hr).
    exists token, (x_provider_id (p_row p)), v, event, []. naive_solver.
  - eapply sends_mono; [|apply create_sends].
    intros l r' [[_ [e ->]]|(token & v & digest & Hv & _ & Hw)] rc; [done|]. intros -> Hout.
    destruct (written_evidence _ _ _ _ _ _ _ _ _ _ Hw Hout) as (id & event & -> & Hr).
    exists token, id, v, event, [post_event token (x_organization_id (p_row p)) v]. naive_solver.
  - eapply sends_mono; [|apply update_sends].
    intros l r' [[_ [e ->]]|(token & v & digest & Hv & _ & [[_ [e ->]]|(b & l' & -> & _ & _ & _ & Hw)])] rc;
      [done..|]. intros -> Hout.
    destruct (written_evidence _ _ _ _ _ _ _ _ _ _ Hw Hout) as (id & event & -> & Hr).
    eexists token, id, v, event, [_; _]. split_and!; naive_solver.
Qed.

Lemma honest_confirmed digest E r rc : honest digest E r -> r = Ok rc -> outcome rc = "CONFIRMED" -> E rc.
Proof. intros Hh -> Hc. destruct Hh as [_ [Hu|[_ He]]]; [congruence|done]. Qed.

Lemma writes_once_confirmed path region digest check payload E l rc :
  writes_once path region digest check payload E l (Ok rc) -> outcome rc = "CONFIRMED" -> E rc.
Proof.
  intros [[_ Hu]|(base & token & v & _ & _ & _ & Hh)] Hc; [destruct (Hu rc eq_refl); congruence|].
  by apply (honest_confirmed digest E (Ok rc)).
Qed.

Lemma iterable_confirmed answer now p d r sent :
  exchange_iterable recursion ring answer now p d = (r, sent) ->
  confirmed_only_with (evidence ITERABLE answer p) sent r.
Proof.
  unfold exchange_iterable, evidence. cbn zeta. intros Hx.
  eapply (exchange_sends _ _ _ (confirmed_only_with _)) in Hx; [exact Hx|by intros e rc [=]|]. clear Hx.
  do 2 sends_step. destruct (configured (p_row p) "region") as [region|e] eqn:Hg; cbn [mbind result_bind];
    [|by intros rc [=]].
  destruct (iterable_call recursion answer now p region) as [call|e] eqn:Hc; [|by intros rc [=]].
  unfold iterable_call in Hc. destruct (p_model p).
  - apply bind_result_ok in Hc as (expected & He & [= <-]). rewrite He. destruct (p_reconcile p).
    + eapply sends_mono; [|apply campaign_reconcile_sends]. intros l r' [_ Hh] rc Hr Ho.
      destruct (honest_confirmed _ _ _ _ Hh Hr Ho) as (token & v & content & Hv & <- & Hev).
      by exists token, region, content, v.
    + eapply sends_mono; [|apply campaign_create_sends].
      intros l r' [[_ [e ->]]|(v & digest & token & content & Hv & _ & Hw)] rc; [done|]. intros -> Ho.
      destruct (writes_once_confirmed _ _ _ _ _ _ _ _ Hw Ho) as [<- Hev]. by exists token, region, content, v.
  - injection Hc as <-. destruct (p_reconcile p).
    + eapply sends_mono; [|apply template_reconcile_sends]. intros l r' [_ Hh] rc Hr Ho.
      destruct (honest_confirmed _ _ _ _ Hh Hr Ho) as (token & Hev). by exists token, region.
    + eapply sends_mono; [|apply template_create_sends].
      intros l r' [[_ [e ->]]|(v & digest & token & Hv & _ & Hw)] rc; [done|]. intros -> Ho.
      apply validated_template in Hv as ->. exists token, region. split; [done|].
      by apply (writes_once_confirmed _ _ _ _ _ _ _ _ Hw Ho).
Qed.

(** ** What an exchange that raised did *)

(** No request that writes was sent, or it was the last one and the provider refused it. *)
Definition not_written (answer : server) (sent : list request) (category : string) : Prop :=
  posts sent = [] \/
  exists before write, sent = before ++ [write] /\ posts before = [] /\ refuses answer before write category.

Definition raised_only_if (P : list request -> string -> Prop) (l : list request) (r : result exn receipt) : Prop :=
  forall c, r = Err (EventbriteDraftError c) -> P l c.

Lemma raised_unwritten answer h token organization v digest write event_id l category :
  posts h = [] ->
  written recursion answer h token organization v digest write event_id l (Err (EventbriteDraftError category)) ->
  not_written answer (h ++ l) category.
Proof.
  intros Hh. inversion 1 as [c Hr| | |event id l' r Ha Hd He Hc]; subst.
  - right. by exists h, write.
  - destruct Hc as [_ Hc]. by destruct (Hc category).
Qed.

Lemma draft_raised answer now p d category sent :
  exchange_draft recursion ring answer now p d = (Err (EventbriteDraftError category), sent) ->
  not_written answer sent category.
Proof.
  unfold exchange_draft. cbn zeta. intros Hx.
  eapply (exchange_sends _ _ _ (raised_only_if (not_written answer))) in Hx;
    [by apply Hx|by intros e c _; left|]. clear Hx.
  destruct (p_reconcile p); [|destruct (String.eqb (x_action (p_row p)) "create")].
  - eapply sends_mono; [|apply reconcile_sends].
    intros l r [[-> _]|(token & v & id & _ & _ & [Hl _])] c _; left; [done|]. by destruct Hl as [-> | ->].
  - eapply sends_mono; [|apply create_sends].
    intros l r [[-> _]|(token & v & digest & _ & _ & Hw)] c; [by left|]. intros ->.
    exact (raised_unwritten answer [] _ _ _ _ _ _ _ _ eq_refl Hw).
  - eapply sends_mono; [|apply update_sends].
    intros l r [[-> _]|(token & v & digest & _ & _ & [[-> _]|(b & l' & -> & _ & _ & _ & Hw)])] c; [by left..|].
    intros ->. exact (raised_unwritten answer [eb_get token _] _ _ _ _ _ _ _ _ eq_refl Hw).
Qed.

(** ** What the row of a finished dispatch becomes *)

Abbreviation row_of p d := (table (p_model p) d !! p_id p).

Definition valid_receipt (x : execution) (rc : receipt) : Prop :=
  request_digest rc = x_request_digest x /\ (outcome rc = "CONFIRMED" -> filled (provider_id rc) = true).

Inductive stored (l : lane) (p : dispatch) (r : result exn receipt) (old : execution) (now : Z) : execution -> Prop :=
| stored_nothing : stored l p r old now old
| stored_receipt rc :
    r = Ok rc -> valid_receipt (p_row p) rc -> stored l p r old now (with_receipt rc now (p_row p))
| stored_unknown category : stored l p r old now (set_outcome UNKNOWN category now old)
| stored_failed category :
    l = EVENTBRITE -> r = Err (EventbriteDraftError category) -> category ∈ definite ->
    stored l p r old now (set_outcome FAILED category now old).

Lemma save_guard_error m old x e : save_guard m old x = Err e -> exists message, e = ValidationError message.
Proof.
  unfold save_guard. intros Hg. apply bind_result_err in Hg as [Hg|(? & _ & Hg)]; unfold raise_if in Hg;
    (destruct (_ || _); [injection Hg as <-; eauto|done]).
Qed.

Lemma store_stored p rc u st msg d r d' old :
  row_of p d = Some old -> store_receipt_as p rc u st msg d = (r, d') ->
  match r with
  | Ok _ => row_of p d' = Some (with_receipt rc (clock d) (p_row p)) /\ valid_receipt (p_row p) rc
  | Err e => d' = d /\ forall category, e <> EventbriteDraftError category
  end.
Proof.
  intros Ho Hs. unfold store_receipt_as in Hs. destruct r as [id|e].
  - run_inv. match goal with Hs : save _ _ _ _ = _ |- _ => eapply save_some in Hs as (-> & _ & _) end; [|eassumption].
    split; [by destruct (p_model p); apply lookup_insert_eq|].
    match goal with Hi : receipt_invalid _ _ _ _ = false |- _ => unfold receipt_invalid in Hi end. bools.
    split; [done|]. intros Hc.
    match goal with Hf : (String.eqb (outcome rc) "CONFIRMED") && _ = false |- _ => rewrite Hc in Hf; cbn in Hf end.
    by bools.
  - apply bind_err_inv in Hs as [Hs|(? & d1 & Hf & Hs)].
    { apply fail_if_err_inv in Hs as (_ & -> & ->). done. }
    apply fail_if_ok_inv in Hf as [_ ->]. apply bind_err_inv in Hs as [Hs|(d0 & d1 & Hg & Hs)]; [done|].
    apply get_inv in Hg as [[= ->] ->]. apply bind_err_inv in Hs as [Hs|(? & d1 & _ & Hs)]; [|done].
    split; [by eapply save_err|]. unfold save, put_row in Hs. intros category ->. run_inv; [|done].
    rewrite Ho in *. run_inv. match goal with Hg : _ = save_guard _ _ _ |- _ => symmetry in Hg end.
    match goal with Hg : save_guard _ _ _ = _ |- _ => by destruct (save_guard_error _ _ _ _ Hg) end.
Qed.

Lemma update_stored (p : dispatch) st category d r d' old :
  row_of p d = Some old ->
  (_ ← update_row (p_model p) (p_id p) st category; mret (p_id p)) d = (r, d') ->
  row_of p d' = Some old \/ row_of p d' = Some (set_outcome st category (clock d) old).
Proof.
  intros Ho. unfold update_row, put_row, mbind, ST_bind, get, fail_if, modify, raise. rewrite Ho.
  destruct (constraints_hold _); cbn; intros [= <- <-]; [right|by left].
  by destruct (p_model p); apply lookup_insert_eq.
Qed.

Lemma failed_stored l (p : dispatch) e d r d' old :
  l = EVENTBRITE -> row_of p d = Some old -> draft_failed p e d = (r, d') ->
  exists new, row_of p d' = Some new /\ stored l p (Err e) old (clock d) new.
Proof.
  intros Hl Ho Hf. destruct e; cbn [draft_failed] in Hf; try (
    apply update_stored with (old := old) in Hf as [Hf|Hf]; [| |done];
    eexists; (split; [exact Hf|constructor])).
  destruct (bool_decide (category ∈ definite)) eqn:Hc; bools;
    (apply update_stored with (old := old) in Hf as [Hf|Hf]; [| |done]);
    eexists; (split; [exact Hf|]); by constructor.
Qed.

Lemma stored_raised l p r old now e new :
  (forall category, e <> EventbriteDraftError category) ->
  stored l p (Err e) old now new -> stored l p r old now new.
Proof. intros He. destruct 1; try constructor; naive_solver. Qed.

Lemma finish_stored l p r d r' d' old :
  row_of p d = Some old -> finish_of l p r d = (r', d') ->
  exists new, row_of p d' = Some new /\ stored l p r old (clock d) new.
Proof.
  intros Ho Hf.
  assert (forall rc u st m h, r = Ok rc ->
    (forall e r1 d1, h e d = (r1, d1) -> (forall c, e <> EventbriteDraftError c) ->
       exists new, row_of p d1 = Some new /\ stored l p r old (clock d) new) ->
    catch (store_receipt_as p rc u st m) h d = (r', d') ->
    exists new, row_of p d' = Some new /\ stored l p r old (clock d) new) as Hcatch.
  { intros rc u st m h -> Hh Hc. unfold catch in Hc.
    destruct (store_receipt_as p rc u st m d) as [[id|e] d1] eqn:E;
      pose proof (store_stored _ _ _ _ _ _ _ _ _ Ho E) as [Hs Hv].
    - injection Hc as <- <-. eexists. split; [exact Hs|]. by constructor.
    - cbn in Hs. subst d1. by apply (Hh e r'). }
  assert (exists new, row_of p d = Some new /\ stored l p r old (clock d) new) as Hsame
    by (exists old; split; [done|constructor]).
  destruct l; cbn [finish_of] in Hf; [destruct (p_reconcile p)|].
  - unfold finish_reconcile, mbind, ST_bind, lift in Hf. destruct r as [rc|e]; [|by injection Hf as <- <-].
    destruct r' as [id|e]; pose proof (store_stored _ _ _ _ _ _ _ _ _ Ho Hf) as [Hs Hv]; [|cbn in Hs; by subst d'].
    eexists. split; [exact Hs|]. by constructor.
  - destruct r as [rc|e]; cbn [finish_draft] in Hf; [|by eapply failed_stored].
    refine (Hcatch _ _ _ _ _ eq_refl _ Hf). intros e r1 d1 Hd He.
    destruct (failed_stored EVENTBRITE p e d r1 d1 old eq_refl Ho Hd) as (new & Hn & Hs).
    exists new. split; [done|]. by eapply stored_raised.
  - assert (forall r1 d1, record_unconfirmed p d = (r1, d1) ->
      exists new, row_of p d1 = Some new /\ stored ITERABLE p r old (clock d) new) as Hrec.
    { intros r1 d1 Hr. apply update_stored with (old := old) in Hr as [Hr|Hr]; [| |done];
        eexists; (split; [exact Hr|constructor]). }
    destruct r as [rc|e]; cbn [finish_iterable] in Hf; [|by eapply Hrec].
    refine (Hcatch _ _ _ _ _ eq_refl _ Hf). intros e r1 d1 Hd _. by eapply Hrec.
Qed.


(** C7 An operation becomes failed only when the provider certainly holds no new draft: no
    request that writes was sent in the exchange of that dispatch, or the only one was its
    last and the provider refused it with the recorded status.  Every other error leaves the
    operation unknown, never failed. *)
Theorem failed_was_not_written l answer now p d0 d r sent r' d' old new :
  exchange_of recursion ring l answer now p d0 = (r, sent) ->
  finish_of l p r d = (r', d') -> row_of p d = Some old -> row_of p d' = Some new ->
  x_status old <> FAILED -> x_status new = FAILED ->
  exists category, x_error_category new = category /\ category ∈ definite /\ not_written answer sent category.
Proof.
  intros Hx Hf Ho Hn Hold Hnew. destruct (finish_stored _ _ _ _ _ _ _ Ho Hf) as (new' & Hn' & Hs).
  assert (new' = new) as -> by congruence.
  destruct Hs as [|rc _ _| |category -> -> Hc]; [done| |done|].
  - cbn in Hnew. by destruct (String.eqb _ _).
  - exists category. split_and!; try done. by eapply draft_raised.
Qed.

End platform.

(** ** Witnesses *)

Import World.


Lemma failed_was_not_written_witness :
  exists category, x_error_category (row_in (finished refusing)) = category /\ category ∈ definite /\
    not_written refusing (exchanged refusing).2 category.
Proof.
  apply (failed_was_not_written 20 toy_ring EVENTBRITE refusing 1010 dispatched claimed claimed
           (exchanged refusing).1 (exchanged refusing).2 (Ok operation) (finished refusing)
           (row_in claimed) (row_in (finished refusing)));
    [exact (exchanged_eq refusing)|exact finish_refused|exact claimed_row|exact refused_row| |];
    vm_compute; [discriminate|reflexivity].
Defined.

End Receipts.
