(* ===== verification/SecretStoreTheorems.v ===== *)
(** * Stored credentials: round trip, currency of a lease, and superseded references *)

From S2P Require Import Prelude PyValue Sha256 JsonTextTheorems OwnerEvents LaunchLoop ToolSchemas ToolSchemasTheorems Crypto DraftProvider DraftRows DraftReview SecretStore DraftOperations DraftSystem DraftEffects DraftWorld.

Module SecretFacts.
Import Provider Rows Review SecretStore Effects.

Section store.
Context `{OwnerEvents.Platform} `{Crypto.AESGCM} (recursion : nat).

(** ** Envelopes *)

(** What loading a key ring checks of the key it makes active. *)
Definition ring_ok (ring : Crypto.IntegrationKeyRing) : Prop :=
  Crypto.KEY_ID_PATTERN (Crypto.active_key_id ring) = true.

(** A later key ring keeps the keys; another one may be active. *)
Definition rotated (ring ring' : Crypto.IntegrationKeyRing) : Prop :=
  Crypto.keys ring ⊆ Crypto.keys ring'.

Lemma crypto_error_ok {A} (r : result exn A) a : Crypto.crypto_error r = Ok a -> r = Ok a.
Proof. by destruct r. Qed.

Lemma encrypted ring random value id provider scope envelope :
  Crypto.encrypt_secret (Some ring) random value id provider scope = Ok envelope ->
  exists key a,
    Crypto.keys ring !! Crypto.active_key_id ring = Some key /\
    Crypto.aad id provider scope (Crypto.active_key_id ring) = Ok a /\ value <> [] /\
    envelope = Crypto.Envelope Crypto.ENVELOPE_VERSION Crypto.ALGORITHM (Crypto.active_key_id ring) random
                 (Crypto.seal key random value a).
Proof.
  unfold Crypto.encrypt_secret. cbn zeta. intros He. apply bind_result_ok in He as (? & Hsize & He).
  apply raise_if_inv in Hsize. apply crypto_error_ok in He. cbn in He.
  apply bind_result_ok in He as (key & Hk & He). apply bind_result_ok in He as (a & Ha & [= <-]).
  exists key, a. unfold Crypto.key_of in Hk. destruct (_ !! _) as [k|]; [|done]. apply Ok_inj in Hk as <-.
  split_and!; try done. intros ->. done.
Qed.

(** The associated data has the fields one after the other, separated by zero bytes, which
    none of them contains. *)
Lemma nul_split a b c d :
  Crypto.has_nul a = false -> Crypto.has_nul c = false ->
  a +:+ Crypto.nul +:+ b = c +:+ Crypto.nul +:+ d -> a = c /\ b = d.
Proof.
  revert c. induction a as [|x a IH]; intros [|y c] Ha Hc; cbn in Ha, Hc; bools;
    intros He; injection He; intros.
  - by subst.
  - by subst.
  - by subst.
  - subst y. unfold Crypto.has_nul, has_char in *. cbn [string_forallb] in Ha, Hc. bools.
    edestruct (IH c) as [-> ->]; [by apply negb_false_iff..|done|done].
Qed.

Lemma aad_ok id provider scope key_id a :
  Crypto.aad id provider scope key_id = Ok a ->
  Crypto.has_nul provider = false /\ Crypto.has_nul scope = false /\
  a = Sha256.bytes_of_string ("civicloop.integrations.secret.v" +:+ str_of_Z Crypto.ENVELOPE_VERSION
        +:+ Crypto.nul +:+ ToolSchemas.uuid_text id +:+ Crypto.nul +:+ provider +:+ Crypto.nul +:+ scope
        +:+ Crypto.nul +:+ Crypto.ALGORITHM +:+ Crypto.nul +:+ key_id).
Proof.
  unfold Crypto.aad. intros Ha. apply bind_result_ok in Ha as (? & Hm & Ha).
  apply bind_result_ok in Ha as (? & _ & [= <-]). apply raise_if_inv in Hm. by bools.
Qed.

Lemma aad_binds id provider scope key_id id' provider' scope' key_id' a :
  0 <= id < 2 ^ 128 -> 0 <= id' < 2 ^ 128 ->
  Crypto.aad id provider scope key_id = Ok a -> Crypto.aad id' provider' scope' key_id' = Ok a ->
  id' = id /\ provider' = provider /\ scope' = scope /\ key_id' = key_id.
Proof.
  intros Hid Hid' Ha Ha'. apply aad_ok in Ha as (Hp & Hs & ->), Ha' as (Hp' & Hs' & He).
  apply JsonFacts.bytes_of_string_inj in He. do 3 (apply sapp_inj in He as [_ He]; [|done]).
  apply sapp_inj in He as [Hu He]; [|by rewrite !SchemaFacts.uuid_text_length].
  apply sapp_inj in He as [_ He]; [|done]. apply nul_split in He as [-> He]; [|done..].
  apply nul_split in He as [-> He]; [|done..]. do 2 (apply sapp_inj in He as [_ He]; [|done]). subst.
  split_and!; try done. by apply SchemaFacts.uuid_text_inj.
Qed.

Lemma decrypts ring ring' random value id provider scope envelope :
  ring_ok ring -> rotated ring ring' -> length random = 12%nat ->
  Crypto.encrypt_secret (Some ring) random value id provider scope = Ok envelope ->
  Crypto.decrypt_secret (Some ring') envelope id provider scope = Ok value.
Proof.
  intros Hr Hrot Hn He. apply encrypted in He as (key & a & Hk & Ha & Hv & ->). unfold Crypto.decrypt_secret.
  cbn [Crypto.version Crypto.algorithm Crypto.key_id Crypto.nonce Crypto.ciphertext].
  rewrite Hr, Hn, Crypto.seal_length. destruct value as [|b value]; [done|].
  replace (length (b :: value) + 16 <? 17)%nat with false by (symmetry; apply Nat.ltb_ge; cbn; lia).
  change (negb (Crypto.ENVELOPE_VERSION =? Crypto.ENVELOPE_VERSION)) with false.
  rewrite String.eqb_refl, Nat.eqb_refl. cbn [orb negb raise_if mbind result_bind Crypto.configured_key_ring].
  unfold Crypto.key_of. rewrite (lookup_weaken _ _ _ _ Hk Hrot). cbn [mbind result_bind].
  rewrite Ha. cbn [mbind result_bind]. by rewrite Crypto.open_seal.
Qed.

(** C32 What is encrypted for a credential decrypts to the same bytes, also under a later key
    ring with another active key that keeps the old ones; and it is bound to that credential:
    the data authenticated with it are those of no other identifier, provider, scope or key. *)
Theorem secret_round_trip ring ring' random value id provider scope envelope :
  ring_ok ring -> rotated ring ring' -> length random = 12%nat -> 0 <= id < 2 ^ 128 ->
  Crypto.encrypt_secret (Some ring) random value id provider scope = Ok envelope ->
  Crypto.decrypt_secret (Some ring') envelope id provider scope = Ok value /\
  exists key a, Crypto.ciphertext envelope = Crypto.seal key random value a /\
    forall id' provider' scope' key_id', 0 <= id' < 2 ^ 128 ->
      Crypto.aad id' provider' scope' key_id' = Ok a ->
      id' = id /\ provider' = provider /\ scope' = scope /\ key_id' = Crypto.key_id envelope.
Proof.
  intros Hr Hrot Hn Hid He. split; [by eapply decrypts|].
  apply encrypted in He as (key & a & _ & Ha & _ & ->). exists key, a. split; [done|].
  intros id' p' s' k' Hid' Ha'. exact (aad_binds id provider scope _ id' p' s' k' a Hid Hid' Ha Ha').
Qed.

(** ** The store over time *)

(** Storing, replacing and disabling credentials, in any order, with anything else that
    leaves the credentials alone in between. *)
Inductive store_step (ring : option Crypto.IntegrationKeyRing) (d d' : db) : Prop :=
| step_put random provider scope value r :
    SecretStore.put ring random provider scope value d = (r, d') -> store_step ring d d'
| step_replace random reference value r :
    replace ring random reference value d = (r, d') -> store_step ring d d'
| step_disable reference r : disable reference d = (r, d') -> store_step ring d d'
| step_other : secrets d' = secrets d -> next_id d <= next_id d' -> store_step ring d d'.

(** Keys are handed out once. *)
Definition keys_fresh (d : db) : Prop := forall id s, secrets d !! id = Some s -> id < next_id d.

(** What a row may become: itself, or a row of a later version. *)
Definition later (s s' : encrypted_secret) : Prop := s' = s \/ e_version s < e_version s'.

Lemma later_trans s1 s2 s3 : later s1 s2 -> later s2 s3 -> later s1 s3.
Proof. unfold later. intros [->|H1] [->|H2]; auto. right. lia. Qed.

Definition grows (d d' : db) : Prop :=
  keys_fresh d' /\ next_id d <= next_id d' /\
  forall id s, secrets d !! id = Some s -> exists s', secrets d' !! id = Some s' /\ later s s'.

Lemma grows_refl d : keys_fresh d -> grows d d.
Proof. intros Hf. split_and!; [done|done|]. intros id s Hs. exists s. split; [done|by left]. Qed.

Lemma put_secret_grows d id s old :
  keys_fresh d -> secrets d !! id = Some old -> later old s -> grows d (set_secrets (<[id := s]> (secrets d)) d).
Proof.
  intros Hf Ho Hl. split_and!; [|done|].
  - intros id' s'. cbn. destruct (decide (id' = id)) as [->|Hne].
    + intros _. by apply (Hf id old).
    + rewrite lookup_insert_ne by done. apply Hf.
  - intros id' s' Hs'. cbn. destruct (decide (id' = id)) as [->|Hne].
    + rewrite lookup_insert_eq. exists s. split; [done|]. congruence.
    + rewrite lookup_insert_ne by done. exists s'. split; [done|by left].
Qed.

(** The row a reference names, at its version. *)
Definition current (d : db) (reference : SecretReference) (s : encrypted_secret) : Prop :=
  secrets d !! ref_id reference = Some s /\ e_provider s = ref_provider reference /\
  e_scope s = ref_scope reference /\ e_version s = ref_version reference.

Lemma for_reference_ok reference d s d' :
  secret_for_reference reference true d = (Ok s, d') -> d' = d /\ current d reference s.
Proof.
  unfold secret_for_reference. intros Hs. run_inv. bools. cbn in *. bools. unfold current. done.
Qed.

Lemma for_reference_current reference d s :
  current d reference s -> secret_for_reference reference true d = (Ok s, d).
Proof.
  intros (Hs & Hp & Hsc & Hv). unfold secret_for_reference, mbind, ST_bind, get, some_or, fail_if.
  rewrite Hs. cbn. by rewrite Hp, Hsc, Hv, !String.eqb_refl, Z.eqb_refl.
Qed.

Lemma for_reference_err reference d e d' :
  secret_for_reference reference true d = (Err e, d') ->
  d' = d /\ e = SecretUnavailable /\ forall s, ~ current d reference s.
Proof.
  unfold secret_for_reference. intros Hs. run_inv.
  - split_and!; [done..|]. intros s (Hs & _). congruence.
  - split_and!; [done..|]. intros s (Hs & Hp & Hsc & Hv).
    match goal with H1 : secrets _ !! _ = Some ?a |- _ => assert (a = s) as -> by congruence end.
    rewrite Hp, Hsc, Hv, !String.eqb_refl, Z.eqb_refl in *. done.
Qed.

(** What a successful store or replacement leaves behind. *)
Definition holds_value (ring : option Crypto.IntegrationKeyRing) (random : list Z) (d : db) (reference : SecretReference)
    (value : list Z) : Prop :=
  exists s, current d reference s /\ e_status s = "active" /\
    Crypto.encrypt_secret ring random value (ref_id reference) (e_provider s) (e_scope s) = Ok (envelope_ s).

Lemma put_ok ring random provider scope value d reference d' :
  keys_fresh d -> SecretStore.put ring random provider scope value d = (Ok reference, d') ->
  grows d d' /\ holds_value ring random d' reference value.
Proof.
  unfold SecretStore.put, fresh, put_secret. intros Hf Hp. run_inv.
  match goal with He : _ = Crypto.encrypt_secret _ _ _ _ _ _ |- _ => rename He into Henc end.
  split; [split_and!; [| cbn; lia|]|].
  - intros id s. cbn. destruct (decide (id = next_id d)) as [->|Hne]; [intros _; lia|].
    rewrite lookup_insert_ne by done. intros Hs. pose proof (Hf _ _ Hs). lia.
  - intros id s Hs. cbn. pose proof (Hf _ _ Hs). rewrite lookup_insert_ne by lia. exists s. split; [done|by left].
  - eexists. split; [split; [apply lookup_insert_eq|done]|]. split; [done|].
    cbn. rewrite <- Henc. by destruct x3.
Qed.

Lemma put_err ring random provider scope value d e d' :
  keys_fresh d -> SecretStore.put ring random provider scope value d = (Err e, d') -> grows d d'.
Proof.
  unfold SecretStore.put, fresh, put_secret. intros Hf Hp.
  assert (grows d (set_next (next_id d + 1) d)) as Hg.
  { split_and!; [|cbn; lia|intros id s Hs; exists s; split; [done|by left]].
    intros id s Hs. pose proof (Hf id s Hs). cbn. lia. }
  run_inv; try done; by apply grows_refl.
Qed.

Lemma replace_ok ring random reference value d reference' d' :
  keys_fresh d -> replace ring random reference value d = (Ok reference', d') ->
  grows d d' /\ holds_value ring random d' reference' value /\
  exists s, current d' reference' s /\ ref_id reference' = ref_id reference /\
            ref_version reference < ref_version reference'.
Proof.
  unfold replace, put_secret. intros Hf Hr. run_inv.
  match goal with Hs : secret_for_reference _ _ _ = _ |- _ => apply for_reference_ok in Hs as [-> Hc] end.
  bools. destruct Hc as (Hs & Hp & Hsc & Hv).
  match goal with He : _ = Crypto.encrypt_secret _ _ _ _ _ _ |- _ => rename He into Henc end.
  split_and!.
  - eapply put_secret_grows; [done|exact Hs|]. right. cbn. lia.
  - eexists. split; [split; [apply lookup_insert_eq|done]|]. split; [done|].
    cbn. rewrite <- Henc. by match goal with |- Ok ?v = _ => destruct v end.
  - eexists. split; [split; [apply lookup_insert_eq|done]|]. cbn. split; [done|lia].
Qed.

Lemma replace_err ring random reference value d e d' :
  replace ring random reference value d = (Err e, d') -> d' = d.
Proof. apply atomic_err. Qed.

(** A disabled credential, or a reference of an earlier version. *)
Definition superseded (d : db) (reference : SecretReference) : Prop :=
  exists s, secrets d !! ref_id reference = Some s /\
    (ref_version reference < e_version s \/ ref_version reference = e_version s /\ e_status s = "disabled").

Lemma disable_ok reference d u d' :
  keys_fresh d -> disable reference d = (Ok u, d') -> grows d d' /\ superseded d' reference.
Proof.
  unfold disable, put_secret. intros Hf Hr. run_inv.
  match goal with Hs : secret_for_reference _ _ _ = _ |- _ => apply for_reference_ok in Hs as [-> Hc] end.
  destruct Hc as (Hs & Hp & Hsc & Hv). destruct (String.eqb (e_status _) "disabled") eqn:Hst; run_inv.
  - split; [by apply grows_refl|]. eexists. split; [exact Hs|]. bools. right. by split.
  - split; [eapply put_secret_grows; [done|exact Hs|right; cbn; lia]|].
    eexists. split; [apply lookup_insert_eq|]. left. cbn. lia.
Qed.

Lemma step_grows ring d d' : keys_fresh d -> store_step ring d d' -> grows d d'.
Proof.
  intros Hf. destruct 1 as [random provider scope value [r|e] Hp|random reference value [r|e] Hr
                          |reference [u|e] Hd|Hs Hn].
  - by apply (put_ok ring random provider scope value d r d' Hf Hp).
  - by eapply put_err.
  - by apply (replace_ok ring random reference value d r d' Hf Hr).
  - apply replace_err in Hr as ->. by apply grows_refl.
  - by apply (disable_ok reference d u d' Hf Hd).
  - apply atomic_err in Hd as ->. by apply grows_refl.
  - split_and!; [|done|].
    + intros id s. rewrite Hs. intros Hl. pose proof (Hf id s Hl). lia.
    + intros id s Hl. exists s. rewrite Hs. split; [done|by left].
Qed.

Lemma run_grows ring d d' : keys_fresh d -> rtc (store_step ring) d d' -> grows d d'.
Proof.
  intros Hf Hr. induction Hr as [d|d1 d2 d3 Hs _ IH]; [by apply grows_refl|].
  destruct (step_grows ring d1 d2 Hf Hs) as (Hf2 & Hn & Hg). destruct (IH Hf2) as (Hf3 & Hn' & Hg').
  split_and!; [done|lia|]. intros id s Hl. destruct (Hg id s Hl) as (s2 & Hl2 & H12).
  destruct (Hg' id s2 Hl2) as (s3 & Hl3 & H23). exists s3. split; [done|]. by eapply later_trans.
Qed.

(** ** Leases *)

Lemma open_lease_ok ring reference caller workflow purpose expires execution_id kind d l d' :
  open_lease recursion ring reference caller workflow purpose expires execution_id kind d = (Ok l, d') ->
  d' = d /\ exists s p, current d reference s /\ e_status s = "active" /\ clock d < expires /\
    Crypto.decrypt_secret ring (envelope_ s) (ref_id reference) (e_provider s) (e_scope s) = Ok p /\
    l = Lease reference caller workflow purpose expires (Some p) false.
Proof.
  unfold open_lease. intros Hl. apply bind_ok_inv in Hl as (u & d1 & Hv & Hl).
  assert (d1 = d) as -> by (eapply readonly_ok; [|exact Hv]; destruct (_ || _); [apply ro_validate_lease_request|apply ro_ret]).
  run_inv. match goal with Hs : secret_for_reference _ _ _ = _ |- _ => apply for_reference_ok in Hs as [-> Hc] end.
  bools. split; [done|]. match goal with Hs : e_status ?s = _ |- _ => exists s end.
  match goal with Hm : Ok ?p = match ?r with _ => _ end |- _ => exists p; destruct r as [q|]; [injection Hm as ->|done] end.
  pose proof Hc as (Hs & Hp & Hsc & Hv'). split_and!; try done. f_equal. unfold reference_. rewrite Hp, Hsc, Hv'.
  by destruct reference.
Qed.

Lemma lease_ok ring reference caller workflow purpose ttl execution_id kind d l d' :
  lease recursion ring reference caller workflow purpose ttl execution_id kind d = (Ok l, d') ->
  d' = d /\ exists s p, current d reference s /\ e_status s = "active" /\ 0 < ttl /\
    Crypto.decrypt_secret ring (envelope_ s) (ref_id reference) (e_provider s) (e_scope s) = Ok p /\
    l = Lease reference caller workflow purpose (clock d + ttl) (Some p) false.
Proof.
  unfold lease. intros Hl. apply bind_ok_inv in Hl as (u & d1 & Hv & Hl).
  assert (d1 = d) as -> by (eapply readonly_ok; [apply ro_validate_lease_request|exact Hv]).
  apply bind_ok_inv in Hl as (d2 & d3 & Hg & Hl). apply get_inv in Hg as [[= ->] ->].
  apply open_lease_ok in Hl as (-> & s & p & Hc & Ha & Ht & Hp & ->). split; [done|].
  exists s, p. split_and!; try done. lia.
Qed.

(** Decryption of the envelope of an encryption. *)
Lemma decrypts_to ring random value id provider scope envelope p :
  Crypto.encrypt_secret ring random value id provider scope = Ok envelope ->
  Crypto.decrypt_secret ring envelope id provider scope = Ok p -> p = value.
Proof.
  destruct ring as [r|]; [|unfold Crypto.encrypt_secret; cbn zeta; intros He; by repeat result_step He].
  intros He. apply encrypted in He as (key & a & Hk & Ha & _ & ->). unfold Crypto.decrypt_secret. intros Hd.
  apply crypto_error_ok in Hd. apply bind_result_ok in Hd as (? & _ & Hd). apply bind_result_ok in Hd as (? & _ & Hd).
  apply bind_result_ok in Hd as (? & _ & Hd). cbn [mbind result_bind Crypto.configured_key_ring] in Hd.
  unfold Crypto.key_of in Hd. cbn [Crypto.key_id Crypto.nonce Crypto.ciphertext] in Hd. rewrite Hk in Hd.
  cbn [mbind result_bind] in Hd. rewrite Ha in Hd. cbn [mbind result_bind] in Hd.
  rewrite Crypto.open_seal in Hd. congruence.
Qed.

(** The second validation of a write lease repeats the first. *)
Lemma validated_twice reference caller workflow purpose ttl execution_id kind d u :
  validate_lease_request recursion reference caller workflow purpose ttl execution_id kind d = (Ok u, d) ->
  0 < ttl /\
  validate_lease_request recursion reference caller workflow purpose 1 execution_id kind d = (Ok u, d).
Proof.
  unfold validate_lease_request. intros Hv. apply bind_ok_inv in Hv as (u1 & d1 & Hv1 & Hv).
  assert (d1 = d) as ->.
  { eapply readonly_ok; [|exact Hv1]. destruct (String.eqb _ _); [|apply ro_ret].
    unfold eventbrite_write_request. solve_readonly. apply ro_claimed_operation. }
  apply bind_ok_inv in Hv as (u2 & d1 & Hv2 & Hv).
  assert (d1 = d) as ->.
  { eapply readonly_ok; [|exact Hv2]. destruct (String.eqb _ _); [|apply ro_ret].
    unfold iterable_write_request. solve_readonly. apply ro_claimed_operation. }
  run_inv. bools.
  split; [lia|]. unfold mbind, ST_bind. rewrite Hv1. destruct u1, u2, u. rewrite Hv2. unfold get, fail_if.
  match goal with Hp : valid_purpose _ _ _ = true, Hl : live_session _ _ = true |- _ => by rewrite Hp, Hl end.
Qed.

(** The credential that [reference] names was stored, or replaced, with [value]. *)
Definition stores (ring : option Crypto.IntegrationKeyRing) (random value : list Z) (d : db)
    (reference : SecretReference) (d' : db) : Prop :=
  (exists provider scope, SecretStore.put ring random provider scope value d = (Ok reference, d')) \/
  (exists before, replace ring random before value d = (Ok reference, d')).

Lemma stores_ok ring random value d reference d' :
  keys_fresh d -> stores ring random value d reference d' ->
  grows d d' /\ holds_value ring random d' reference value.
Proof.
  intros Hf [(provider & scope & Hp)|(before & Hr)]; [by eapply put_ok|].
  by destruct (replace_ok _ _ _ _ _ _ _ Hf Hr) as (Hg & Hh & _).
Qed.

Lemma current_unchanged d d' reference s s' :
  grows d d' -> current d reference s -> current d' reference s' -> s' = s.
Proof.
  intros (_ & _ & Hg) (Hs & _ & _ & Hv) (Hs' & _ & _ & Hv'). destruct (Hg _ _ Hs) as (s2 & Hs2 & [->|Hl]);
    [congruence|]. assert (s2 = s') as -> by congruence. lia.
Qed.

(** C31 A lease exposes exactly the value that was stored under its reference: however the
    store goes on after a value is stored or replaced, a lease of that reference is granted
    only while it is current, changes nothing, is unused, expires within five minutes and
    holds that value; and it is granted whenever its request is valid, unless the credential
    has been replaced or disabled in the meantime. *)
Theorem leased_value_is_current ring random value d0 reference d1 d2 caller workflow purpose ttl
    execution_id kind :
  ring_ok ring -> length random = 12%nat -> keys_fresh d0 ->
  stores (Some ring) random value d0 reference d1 -> rtc (store_step (Some ring)) d1 d2 ->
  let leased := lease recursion (Some ring) reference caller workflow purpose ttl execution_id kind d2 in
  (forall l d3, leased = (Ok l, d3) ->
     d3 = d2 /\ l = Lease reference caller workflow purpose (clock d2 + ttl) (Some value) false /\ 0 < ttl) /\
  (validate_lease_request recursion reference caller workflow purpose ttl execution_id kind d2 = (Ok (), d2) ->
   superseded d2 reference \/ exists l, leased = (Ok l, d2)).
Proof.
  intros Hr Hn Hf Hst Hrun. cbn zeta. destruct (stores_ok _ _ _ _ _ _ Hf Hst) as (Hg & s & Hc & Ha & He).
  pose proof (run_grows _ _ _ (proj1 Hg) Hrun) as Hg2.
  pose proof (decrypts ring ring random value (ref_id reference) (e_provider s) (e_scope s) (envelope_ s)
    Hr (reflexivity (R:=(⊆)) (Crypto.keys ring)) Hn He) as Hd. split.
  - intros l d3 Hl. apply lease_ok in Hl as (-> & s' & p & Hc' & _ & Ht & Hp & ->).
    pose proof (current_unchanged _ _ _ _ _ Hg2 Hc Hc') as ->. rewrite Hd in Hp. injection Hp as <-. done.
  - intros Hv. destruct Hg2 as (_ & _ & Hg2). destruct Hc as (Hs & Hp & Hsc & Hver).
    destruct (Hg2 _ _ Hs) as (s' & Hs' & [->|Hl]); [right|left; exists s'; split; [done|left; lia]].
    destruct (validated_twice _ _ _ _ _ _ _ _ _ Hv) as [Ht Hv1]. eexists.
    unfold lease, open_lease, mbind, ST_bind. rewrite Hv. unfold get, fail_if.
    assert ((if String.eqb purpose EVENTBRITE_WRITE_PURPOSE || String.eqb purpose ITERABLE_WRITE_PURPOSE
             then validate_lease_request recursion reference caller workflow purpose 1 execution_id kind
             else mret ()) d2 = (Ok (), d2)) as -> by (by destruct (_ || _)).
    replace (clock d2 + ttl <=? clock d2) with false by (symmetry; apply Z.leb_gt; lia).
    unfold mret, ST_ret. cbn beta iota. rewrite (for_reference_current reference d2 s) by done. cbn beta iota.
    rewrite Ha, Hd. done.
Qed.

Lemma superseded_grows d d' reference : grows d d' -> superseded d reference -> superseded d' reference.
Proof.
  intros (_ & _ & Hg) (s & Hs & Hd). destruct (Hg _ _ Hs) as (s' & Hs' & Hl). exists s'.
  split; [done|]. destruct Hl as [->|Hl]; [done|]. left. destruct Hd as [Hd|[Hd _]]; lia.
Qed.

(** A reference dies with its credential's version: once the credential was replaced or
    disabled through it, and however the store goes on, nothing is leased under the old
    reference and nothing is replaced through it, whoever asks and whatever for; the one
    operation it may still name, disabling, then changes nothing. *)
Theorem superseded_reference_refused ring random value d0 reference d1 d2 :
  keys_fresh d0 ->
  ((exists reference', replace ring random reference value d0 = (Ok reference', d1)) \/
   disable reference d0 = (Ok (), d1)) ->
  rtc (store_step ring) d1 d2 ->
  (forall caller workflow purpose ttl execution_id kind,
     exists e, (lease recursion ring reference caller workflow purpose ttl execution_id kind d2).1 = Err e) /\
  (forall random' value', replace ring random' reference value' d2 = (Err SecretUnavailable, d2)) /\
  (disable reference d2).2 = d2.
Proof.
  intros Hf Hop Hrun.
  assert (keys_fresh d1 /\ superseded d1 reference) as [Hf1 Hd1].
  { destruct Hop as [(reference' & Hr)|Hd].
    - destruct (replace_ok _ _ _ _ _ _ _ Hf Hr) as ((Hf1 & _) & _ & s & (Hs & _ & _ & Hv) & Hid & Hlt).
      split; [done|]. exists s. rewrite <- Hid. split; [done|]. left. lia.
    - destruct (disable_ok _ _ _ _ Hf Hd) as [(Hf1 & _) Hs]. by split. }
  pose proof (superseded_grows _ _ _ (run_grows _ _ _ Hf1 Hrun) Hd1) as (s & Hs & Hd).
  assert (forall s', current d2 reference s' -> e_status s' = "disabled") as Hdead.
  { intros s' (Hs' & _ & _ & Hv). assert (s' = s) as -> by congruence. destruct Hd as [Hd|[_ Hd]]; [lia|done]. }
  split_and!.
  - intros. destruct (lease _ _ _ _ _ _ _ _ _ _) as [[l|e] d3] eqn:Hl; [|by exists e].
    apply lease_ok in Hl as (-> & s' & p & Hc & Ha & _). specialize (Hdead _ Hc). congruence.
  - intros random' value'. unfold replace, atomic, mbind, ST_bind.
    destruct (secret_for_reference reference true d2) as [[s'|e] d3] eqn:E.
    + apply for_reference_ok in E as [-> Hc]. rewrite (Hdead _ Hc). done.
    + by apply for_reference_err in E as (-> & -> & _).
  - unfold disable, atomic, mbind, ST_bind.
    destruct (secret_for_reference reference true d2) as [[s'|e] d3] eqn:E.
    + apply for_reference_ok in E as [-> Hc]. by rewrite (Hdead _ Hc).
    + by apply for_reference_err in E as (-> & -> & _).
Qed.

End store.

(** ** Witnesses *)

Import World.

Definition ring : Crypto.IntegrationKeyRing := Crypto.KeyRing "k1" {["k1" := replicate 32 7]}.
Definition stored_in : db := after (SecretStore.put (Some ring) (replicate 12 1) "eventbrite" "drafts" token) world0.

Lemma fresh_keys : keys_fresh world0.
Proof. by intros id s Hs. Qed.
Lemma put_runs :
  SecretStore.put (Some ring) (replicate 12 1) "eventbrite" "drafts" token world0 = (Ok credential, stored_in).
Proof. vm_compute. reflexivity. Qed.

Lemma secret_round_trip_witness :
  exists envelope, Crypto.encrypt_secret (Some ring) (replicate 12 1) token 50 "eventbrite" "drafts" = Ok envelope /\
    Crypto.decrypt_secret
      (Some (Crypto.KeyRing "k2" {["k1" := replicate 32 7; "k2" := replicate 32 9]})) envelope 50
      "eventbrite" "drafts" = Ok token.
Proof.
  eexists. split; [vm_compute; reflexivity|].
  refine (proj1 (secret_round_trip ring _ (replicate 12 1) token 50 "eventbrite" "drafts" _ _ _ _ _ _)).
  - reflexivity.
  - apply map_singleton_subseteq_l. reflexivity.
  - reflexivity.
  - lia.
  - vm_compute. reflexivity.
Defined.

(** The credential of DraftWorld, leased for a test of the connection. *)
Lemma leased_value_is_current_witness :
  exists l, lease 20 (Some ring) credential 20 None "connection_test" 60 None None stored_in = (Ok l, stored_in) /\
    l = Lease credential 20 None "connection_test" 1060 (Some token) false.
Proof.
  destruct (leased_value_is_current 20 ring (replicate 12 1) token world0 credential stored_in stored_in 20 None
    "connection_test" 60 None None) as [Hvalue Hgranted];
    [reflexivity|reflexivity|exact fresh_keys| |reflexivity|].
  - left. exists "eventbrite", "drafts". exact put_runs.
  - destruct Hgranted as [(s & Hs & Hd)|[l Hl]]; [vm_compute; reflexivity| |].
    + exfalso. vm_compute in Hs. injection Hs as <-. by destruct Hd as [Hd|[_ Hd]].
    + exists l. split; [exact Hl|]. destruct (Hvalue l stored_in Hl) as (_ & -> & _). vm_compute. reflexivity.
Defined.

Lemma superseded_reference_refused_witness :
  exists reference' d1, replace (Some ring) (replicate 12 2) credential [65] stored_in = (Ok reference', d1) /\
    (forall random value, replace (Some ring) random credential value d1 = (Err SecretUnavailable, d1)).
Proof.
  eexists _, _. split; [vm_compute; reflexivity|].
  refine (proj1 (proj2 (superseded_reference_refused 20 (Some ring) (replicate 12 2) [65] stored_in credential _ _
    _ _ (rtc_refl _ _)))).
  - exact (proj1 (proj1 (put_ok _ _ _ _ _ _ _ _ fresh_keys put_runs))).
  - left. eexists. vm_compute. reflexivity.
Defined.

End SecretFacts.
