(* ===== verification/Uuid.v ===== *)
(** * UUIDs ([uuid.UUID], [uuid.uuid5]) over SHA-1

    A UUID is the integer it denotes.  [of_text] reads the canonical spelling that
    [ToolSchemas.uuid_text] writes; [uuid5] is the name-based identifier the application
    derives from a correlation identifier or from the digest of a call. *)

From S2P Require Import Prelude PyValue Sha256 JsonText ToolSchemas ToolSchemasTheorems.

Module Uuid.
Import Sha256 ToolSchemas SchemaFacts.

(** ** SHA-1, on the words of SHA-256 *)

Definition rotl (n x : Z) : Z := Z.lor (w32 (Z.shiftl x n)) (Z.shiftr x (32 - n)).
Definition SHA1_INIT : list Z := [0x67452301; 0xefcdab89; 0x98badcfe; 0x10325476; 0xc3d2e1f0].

(** The last 16 words, newest first, produce the next one. *)
Fixpoint sha1_extend (n : nat) (win : list Z) : list Z :=
  match n with
  | O => win
  | S n' =>
      sha1_extend n' (rotl 1 (Z.lxor (Z.lxor (nth 2 win 0) (nth 7 win 0))
                                     (Z.lxor (nth 13 win 0) (nth 15 win 0))) :: win)
  end.

(** The round's function and constant. *)
Definition sha1_mix (t b c d : Z) : Z * Z :=
  if t <? 20 then (Z.lxor d (Z.land b (Z.lxor c d)), 0x5a827999)
  else if t <? 40 then (Z.lxor (Z.lxor b c) d, 0x6ed9eba1)
  else if t <? 60 then (maj b c d, 0x8f1bbcdc)
  else (Z.lxor (Z.lxor b c) d, 0xca62c1d6).

Definition sha1_round (r : list Z) (tw : nat * Z) : list Z :=
  match r with
  | [a; b; c; d; e] =>
      let '(f, k) := sha1_mix (Z.of_nat tw.1) b c d in
      [add32 (add32 (rotl 5 a) f) (add32 e (add32 k tw.2)); a; rotl 30 b; c; d]
  | _ => r
  end.

Definition sha1_compress (h block : list Z) : list Z :=
  let words := rev (sha1_extend 64 (rev block)) in
  zip_with add32 h (fold_left sha1_round (zip (seq 0 80) words) h).

Definition sha1 (msg : list Z) : list Z :=
  let padded := pad msg in
  let blocks := chunks (length padded) 64 padded in
  concat (map (be_bytes 4)
            (fold_left (fun h b => sha1_compress h (map be32 (chunks 16 4 b))) blocks SHA1_INIT)).

Example sha1_abc : hex (sha1 (bytes_of_string "abc")) = "a9993e364706816aba3e25717850c26c9cd0d89d".
Proof. vm_compute. reflexivity. Qed.

(** ** [uuid5(NAMESPACE_URL, name)] *)

Definition NAMESPACE_URL : list Z := be_bytes 16 0x6ba7b8119dad11d180b400c04fd430c8.

(** The first 16 bytes of the hash, with the variant and the version written over them. *)
Definition set_version (n : Z) : Z :=
  Z.lor (Z.land (Z.lor (Z.land n (Z.lxor (2 ^ 128 - 1) (Z.shiftl 0xc000 48))) (Z.shiftl 0x8000 48))
                (Z.lxor (2 ^ 128 - 1) (Z.shiftl 0xf000 64)))
        (Z.shiftl 5 76).
Definition uuid5 (name : string) : Z := set_version (be32 (take 16 (sha1 (NAMESPACE_URL ++ bytes_of_string name)))).

Example uuid5_ex :
  uuid_text (uuid5 "urn:civicloop:run:00000000-0000-4000-8000-000000000001") = "f51c3810-07be-5d32-9441-0000dd32e632".
Proof. vm_compute. reflexivity. Qed.

(** ** Reading the canonical spelling: [UUID(text).int] *)

Fixpoint hex_number (acc : Z) (s : string) : Z :=
  match s with
  | EmptyString => acc
  | String c s' =>
      match JsonText.hex_value c with
      | Some v => hex_number (acc * 16 + v) s'
      | None => hex_number acc s'
      end
  end.
Definition of_text (s : string) : Z := hex_number 0 s.

Lemma hex_number_app acc s t : hex_number acc (s +:+ t) = hex_number (hex_number acc s) t.
Proof.
  revert acc. induction s as [|c s IH]; intros acc; [done|]. rewrite sapp_cons. cbn.
  destruct (JsonText.hex_value c); apply IH.
Qed.

(** The sixteen digits. *)
Lemma hex_char_value v : 0 <= v < 16 ->
  is_hex_lower (hex_char v) = true /\ JsonText.hex_value (hex_char v) = Some v.
Proof.
  intros Hv. assert (In v (map Z.of_nat (seq 0 16))) as Hin.
  { apply in_map_iff. exists (Z.to_nat v). rewrite Z2Nat.id by lia. split; [done|]. apply in_seq. lia. }
  clear Hv. revert v Hin. apply List.Forall_forall. by repeat constructor.
Qed.

(** A property of all characters, by cases. *)
Lemma every_char (P : ascii -> bool) :
  forallb (fun n => P (Ascii.ascii_of_nat n)) (seq 0 256) = true -> forall c, P c = true.
Proof.
  rewrite forallb_forall. intros Hall c. rewrite <- (Ascii.ascii_nat_embedding c). apply Hall, in_seq.
  pose proof (Ascii.nat_ascii_bounded c). lia.
Qed.

Lemma hex_lower_value c : is_hex_lower c = true ->
  exists v, 0 <= v < 16 /\ JsonText.hex_value c = Some v /\ hex_char v = c.
Proof.
  intros Hc.
  pose proof (every_char (fun c => negb (is_hex_lower c) || match JsonText.hex_value c with
    | Some v => (0 <=? v) && (v <? 16) && Ascii.eqb (hex_char v) c | None => false end)
    ltac:(vm_compute; reflexivity) c) as Hall.
  cbn beta in Hall. rewrite Hc in Hall. cbn [negb orb] in Hall.
  destruct (JsonText.hex_value c) as [v|]; [|done]. bools. exists v.
  split_and!; [lia..|done|]. by apply Ascii.eqb_eq.
Qed.

Lemma hex_number_digits k n : 0 <= n < 16 ^ Z.of_nat k -> forall acc,
  hex_number acc (hex_digits k n) = acc * 16 ^ Z.of_nat k + n.
Proof.
  revert n. induction k as [|k IH]; intros n Hn acc; [cbn in *; lia|].
  rewrite Nat2Z.inj_succ, Z.pow_succ_r in * by lia. cbn [hex_digits]. rewrite hex_number_app, IH.
  - cbn. destruct (hex_char_value (n mod 16)) as [_ ->]; [by apply Z.mod_pos_bound|].
    pose proof (Z.div_mod n 16). lia.
  - split; [apply Z.div_pos; lia|apply Z.div_lt_upper_bound; lia].
Qed.

(** A digest cut into groups and joined by hyphens, and read back. *)
Fixpoint ungroup (groups : list nat) (s : string) : string :=
  match groups with
  | [] => ""
  | [n] => s
  | n :: groups' =>
      String.substring 0 n s +:+ ungroup groups' (String.substring (S n) (String.length s - S n) s)
  end.

Lemma substring_hex a b s : string_forallb is_hex_lower s = true ->
  string_forallb is_hex_lower (String.substring a b s) = true.
Proof.
  revert a b. induction s as [|c s IH]; intros a b Hs; [by destruct a, b|]. cbn in *. bools.
  destruct a as [|a], b as [|b]; cbn; try done; rewrite ?IH by done; by rewrite ?andb_true_r.
Qed.

Lemma forallb_sapp f s t : string_forallb f (s +:+ t) = string_forallb f s && string_forallb f t.
Proof. induction s as [|c s IH]; [done|]. rewrite sapp_cons. cbn. by rewrite IH, andb_assoc. Qed.

(** A text with a given character at place [n]. *)
Lemma substring_split n s c : (n < String.length s)%nat -> String.substring n 1 s = String c "" ->
  exists h t, s = h +:+ String c t /\ String.length h = n.
Proof.
  revert s. induction n as [|n IH]; intros s Hn Hc; (destruct s as [|x s]; [cbn in *; lia|]); cbn in Hn, Hc.
  - exists "", s. by destruct s; injection Hc as ->.
  - destruct (IH s ltac:(lia) Hc) as (h & t & -> & <-). by exists (String x h), t.
Qed.

Lemma substring_after h c t :
  String.substring (S (String.length h)) (String.length (h +:+ String c t) - S (String.length h)) (h +:+ String c t) = t.
Proof.
  rewrite slength_app. cbn [String.length]. replace (_ + S _ - S _)%nat with (String.length t) by lia.
  induction h as [|x h IH]; [apply substring_all|]. rewrite sapp_cons. apply IH.
Qed.

Lemma ungroup_cons n m groups s :
  ungroup (n :: m :: groups) s = String.substring 0 n s
    +:+ ungroup (m :: groups) (String.substring (S n) (String.length s - S n) s).
Proof. reflexivity. Qed.
Lemma hyphenate_cons n m groups s :
  hyphenate (n :: m :: groups) s = String.substring 0 n s +:+ "-"
    +:+ hyphenate (m :: groups) (String.substring n (String.length s - n) s).
Proof. reflexivity. Qed.
Lemma grouped_cons n m groups s :
  grouped (n :: m :: groups) s =
    (n <? String.length s)%nat && string_forallb is_hex_lower (String.substring 0 n s)
    && String.eqb (String.substring n 1 s) "-"
    && grouped (m :: groups) (String.substring (S n) (String.length s - S n) s).
Proof. reflexivity. Qed.

Lemma grouped_ungroup groups s acc : grouped groups s = true ->
  hyphenate groups (ungroup groups s) = s /\ String.length (ungroup groups s) = total groups /\
  string_forallb is_hex_lower (ungroup groups s) = true /\
  hex_number acc (ungroup groups s) = hex_number acc s.
Proof.
  revert s acc. induction groups as [|n groups IH]; intros s acc Hg.
  { cbn in *. apply String.eqb_eq in Hg. by subst. }
  destruct groups as [|m groups].
  - cbn in *. bools. apply Nat.eqb_eq in H. subst n. rewrite substring_all, Nat.add_0_r. done.
  - rewrite grouped_cons in Hg. rewrite ungroup_cons, hyphenate_cons. bools. apply Nat.ltb_lt in H.
    destruct (substring_split n s "-"%char) as (h & t & -> & <-); [done..|].
    rewrite substring_after, substring_take in *.
    destruct (IH t (hex_number acc h)) as (IH1 & IH2 & IH3 & IH4); [done|].
    rewrite substring_take, substring_skip, slength_app, Nat.add_sub_swap, Nat.sub_diag, Nat.add_0_l by lia.
    rewrite substring_all, IH1, IH2, forallb_sapp, IH3, !hex_number_app, IH4. by rewrite H3.
Qed.

Lemma sapp_snoc s : s = "" \/ exists t c, s = t +:+ char_string c.
Proof.
  induction s as [|c s IH]; [by left|]. right. destruct IH as [->|(t & d & ->)].
  - by exists "", c.
  - by exists (String c t), d.
Qed.

Lemma hex_digits_number k s : String.length s = k -> string_forallb is_hex_lower s = true ->
  0 <= hex_number 0 s < 16 ^ Z.of_nat k /\ hex_digits k (hex_number 0 s) = s.
Proof.
  revert s. induction k as [|k IH]; intros s Hl Hs; [by destruct s|].
  destruct (sapp_snoc s) as [->|(t & c & ->)]; [done|]. rewrite slength_app in Hl. cbn in Hl.
  rewrite forallb_sapp in Hs. cbn in Hs. bools.
  destruct (IH t) as [Hb Ht]; [lia|done|]. destruct (hex_lower_value c) as (v & Hv & Hc & He); [done|].
  rewrite hex_number_app. cbn. rewrite Hc. rewrite Nat2Z.inj_succ, Z.pow_succ_r by lia. split; [lia|].
  rewrite (Z.mul_comm _ 16), Z.add_comm, Z.mul_comm, Z.div_add, Z.mod_add, Z.div_small, Z.mod_small, He by lia.
  by rewrite Z.add_0_l, Ht.
Qed.

Lemma hex_digits_hex k n : string_forallb is_hex_lower (hex_digits k n) = true.
Proof.
  revert n. induction k as [|k IH]; intros n; [done|]. cbn [hex_digits]. rewrite forallb_sapp, IH. cbn.
  destruct (hex_char_value (n mod 16)) as [-> _]; [by apply Z.mod_pos_bound|done].
Qed.

Lemma grouped_join m groups h r :
  grouped (String.length h :: m :: groups) (h +:+ "-" +:+ r) =
    string_forallb is_hex_lower h && grouped (m :: groups) r.
Proof.
  rewrite grouped_cons, (sapp_cons "-"%char ""), sapp_nil, substring_take, substring_after.
  replace (String.substring (String.length h) 1 (h +:+ String "-" r)) with "-"
    by (induction h; [by destruct r|done]).
  rewrite slength_app. cbn [String.length].
  destruct (Nat.ltb_spec (String.length h) (String.length h + S (String.length r))%nat); [|lia].
  by rewrite andb_true_r.
Qed.

Lemma grouped_hyphenate groups s : String.length s = total groups -> string_forallb is_hex_lower s = true ->
  grouped groups (hyphenate groups s) = true.
Proof.
  revert s. induction groups as [|n groups IH]; intros s Hs Hx; [by destruct s|]. destruct groups as [|m groups].
  - cbn in *. rewrite Nat.add_0_r in Hs. rewrite <- Hs, substring_all, Nat.eqb_refl. done.
  - destruct (substring_cut n s ltac:(cbn in *; lia)) as (_ & Hn & Hr). rewrite hyphenate_cons.
    rewrite <- Hn at 1. rewrite grouped_join, substring_hex, IH by (try apply substring_hex; cbn in *; try lia; done).
    done.
Qed.

Lemma uuid_text_is_uuid id : is_uuid_text (uuid_text id) = true.
Proof. apply grouped_hyphenate; [apply hex_digits_length|apply hex_digits_hex]. Qed.

(** Reading and writing a UUID are inverse. *)
Lemma text_of_text s : is_uuid_text s = true -> uuid_text (of_text s) = s /\ 0 <= of_text s < 2 ^ 128.
Proof.
  intros Hs. destruct (grouped_ungroup _ s 0 Hs) as (Hh & Hl & Hx & Hn).
  destruct (hex_digits_number 32 _ Hl Hx) as [Hb He]. rewrite Hn in *. unfold uuid_text, of_text.
  rewrite He. by split.
Qed.

Lemma of_text_text id : 0 <= id < 2 ^ 128 -> of_text (uuid_text id) = id.
Proof.
  intros Hid. destruct (text_of_text (uuid_text id)) as [He Hb]; [apply uuid_text_is_uuid|].
  by apply uuid_text_inj.
Qed.

(** ** Any spelling: [UUID(text)] *)

(** [s.replace(p, "")] for a text [p] that is not empty; [skip] characters belong to an occurrence. *)
Fixpoint remove_text (p : string) (skip : nat) (s : string) : string :=
  match s with
  | EmptyString => EmptyString
  | String c s' =>
      match skip with
      | S k => remove_text p k s'
      | O => if String.prefix p s then remove_text p (String.length p - 1) s' else String c (remove_text p O s')
      end
  end.

(** [s.strip("{}")] *)
Definition is_brace (c : ascii) : bool := is_char 123 c || is_char 125 c.
Fixpoint lstrip_braces (s : string) : string :=
  match s with
  | EmptyString => EmptyString
  | String c s' => if is_brace c then lstrip_braces s' else s
  end.
Fixpoint rstrip_braces (s : string) : string :=
  match s with
  | EmptyString => EmptyString
  | String c s' =>
      match rstrip_braces s' with
      | EmptyString => if is_brace c then EmptyString else String c EmptyString
      | t => String c t
      end
  end.

(** [int(s, 16)] *)
Fixpoint int_digits (after_digit : bool) (acc : Z) (s : string) : option Z :=
  match s with
  | EmptyString => if after_digit then Some acc else None
  | String c s' =>
      if is_char 95 c then if after_digit then int_digits false acc s' else None
      else match JsonText.hex_value c with Some v => int_digits true (acc * 16 + v) s' | None => None end
  end.
Definition drop_char (n : Z) (s : string) : string :=
  match s with String c s' => if is_char n c then s' else s | EmptyString => s end.
Definition int16 (s : string) : option Z :=
  let s := strip s in
  let negative := match s with String c _ => is_char 45 c | EmptyString => false end in
  let s := if negative then drop_char 45 s else drop_char 43 s in
  let s := if String.prefix "0x" s || String.prefix "0X" s
           then drop_char 95 (JsonText.drop_prefix "0x" s) else s in
  v ← int_digits false 0 s; Some (if negative then - v else v).

Definition parse (s : string) : option Z :=
  let hex := remove_text "-" 0 (rstrip_braces (lstrip_braces (remove_text "uuid:" 0 (remove_text "urn:" 0 s)))) in
  if negb (slen hex =? 32) then None
  else v ← int16 hex; if (0 <=? v) && (v <? 2 ^ 128) then Some v else None.

Lemma parse_spellings :
  parse "urn:uuid:{F51C3810-07be-5d32-9441-0000dd32e632}" = parse "f51c381007be5d3294410000dd32e632" /\
  parse "f51c3810-07be-5d32-9441" = None /\ parse "0xf_1c381007be5d3294410000dd32e6" = Some 0xf1c381007be5d3294410000dd32e6.
Proof. by vm_compute. Qed.

(** What the canonical spelling is made of. *)
Definition uuid_char (c : ascii) : bool := is_hex_lower c || is_char 45 c.

Lemma uuid_char_facts c : uuid_char c = true ->
  is_brace c = false /\ is_char 117 c = false /\ is_char 95 c = false /\ is_char 43 c = false /\
  is_char 120 c = false /\ is_char 88 c = false /\ is_space c = false.
Proof.
  intros Hc. pose proof (every_char (fun c => negb (uuid_char c) || (negb (is_brace c) && negb (is_char 117 c)
    && negb (is_char 95 c) && negb (is_char 43 c) && negb (is_char 120 c) && negb (is_char 88 c) && negb (is_space c)))
    ltac:(vm_compute; reflexivity) c) as Hall.
  cbn beta in Hall. rewrite Hc in Hall. cbn [negb orb] in Hall. by bools.
Qed.

Lemma remove_absent x p s : (forall c, uuid_char c = true -> Ascii.eqb x c = false) ->
  string_forallb uuid_char s = true -> remove_text (String x p) 0 s = s.
Proof.
  intros Hx. induction s as [|c s IH]; [done|]. intros Hs. cbn [string_forallb] in Hs. bools.
  cbn [remove_text String.prefix]. destruct (Ascii.ascii_dec x c) as [->|]; [|by rewrite IH].
  specialize (Hx c H). by rewrite Ascii.eqb_refl in Hx.
Qed.

Lemma strip_braces_id s : string_forallb uuid_char s = true -> lstrip_braces s = s /\ rstrip_braces s = s.
Proof.
  intros Hs. split; [destruct s; cbn in *; [done|]; bools; by destruct (uuid_char_facts _ H) as [-> _]|].
  induction s as [|c s IH]; [done|]. cbn in *. bools. rewrite IH by done.
  destruct (uuid_char_facts _ H) as [-> _]. by destruct s.
Qed.

Lemma remove_hyphens_hex h r : string_forallb is_hex_lower h = true ->
  remove_text "-" 0 (h +:+ r) = h +:+ remove_text "-" 0 r.
Proof.
  induction h as [|c h IH]; [done|]. rewrite !sapp_cons. cbn [string_forallb]. intros Hc. bools.
  cbn [remove_text String.prefix]. destruct (Ascii.ascii_dec "-" c) as [<-|]; [by vm_compute in H|]. by rewrite IH.
Qed.

Lemma remove_hyphen r : remove_text "-" 0 ("-" +:+ r) = remove_text "-" 0 r.
Proof. rewrite sapp_cons, sapp_nil. cbn [remove_text String.prefix]. by destruct (Ascii.ascii_dec "-" "-"), r. Qed.

Lemma remove_hyphens groups s : String.length s = total groups -> string_forallb is_hex_lower s = true ->
  remove_text "-" 0 (hyphenate groups s) = s.
Proof.
  revert s. induction groups as [|n groups IH]; intros s Hs Hx; [by destruct s|]. destruct groups as [|m groups].
  - cbn in *. rewrite Nat.add_0_r in Hs. rewrite <- Hs, substring_all.
    pose proof (remove_hyphens_hex s "" Hx) as He. by rewrite !sapp_nil_r in He.
  - destruct (substring_cut n s ltac:(cbn in *; lia)) as (Hn & Hn' & Hr). rewrite hyphenate_cons.
    rewrite remove_hyphens_hex by (by apply substring_hex).
    rewrite remove_hyphen, IH; [done| |by apply substring_hex].
    cbn in *. lia.
Qed.

Lemma int_digits_hex s acc b : string_forallb is_hex_lower s = true -> (s = "" -> b = true) ->
  int_digits b acc s = Some (hex_number acc s).
Proof.
  revert acc b. induction s as [|c s IH]; intros acc b Hs Hb; [by rewrite Hb|]. cbn [string_forallb] in Hs. bools.
  destruct (uuid_char_facts c ltac:(unfold uuid_char; by rewrite H)) as (_ & _ & Hu & _).
  destruct (hex_lower_value c H) as (v & _ & Hv & _). cbn. rewrite Hu, Hv. by apply IH.
Qed.

Lemma hyphenate_chars groups s : string_forallb is_hex_lower s = true ->
  string_forallb uuid_char (hyphenate groups s) = true.
Proof.
  assert (forall s, string_forallb is_hex_lower s = true -> string_forallb uuid_char s = true) as Hsub.
  { clear. induction s as [|c s IH]; [done|]. cbn. intros Hs. bools. unfold uuid_char. rewrite H; cbn; by apply IH. }
  revert s. induction groups as [|n groups IH]; intros s Hs; [done|]. destruct groups as [|m groups]; [by apply Hsub, substring_hex|].
  rewrite hyphenate_cons, !forallb_sapp, IH by (by apply substring_hex). rewrite Hsub by (by apply substring_hex). done.
Qed.

Lemma strip_hex s : string_forallb is_hex_lower s = true -> strip s = s.
Proof.
  intros Hs. assert (lstrip s = s) as Hl.
  { destruct s as [|c s]; [done|]. cbn in *. bools.
    destruct (uuid_char_facts c ltac:(unfold uuid_char; by rewrite H)) as (_ & _ & _ & _ & _ & _ & ->). done. }
  unfold strip. rewrite Hl. clear Hl. induction s as [|c s IH]; [done|]. cbn in *. bools. rewrite IH by done.
  destruct (uuid_char_facts c ltac:(unfold uuid_char; by rewrite H)) as (_ & _ & _ & _ & _ & _ & ->). by destruct s.
Qed.

Lemma int16_hex s : string_forallb is_hex_lower s = true -> (2 <= String.length s)%nat -> int16 s = Some (hex_number 0 s).
Proof.
  intros Hs Hl. unfold int16. rewrite strip_hex by done. destruct s as [|c [|c' s]]; cbn in Hl; try lia.
  cbn [string_forallb] in Hs. bools.
  assert (is_char 45 c = false /\ is_char 43 c = false /\ Ascii.eqb "x" c' = false /\ Ascii.eqb "X" c' = false) as (E1 & E2 & E3 & E4).
  { pose proof (every_char (fun c => negb (is_hex_lower c) || (negb (is_char 45 c) && negb (is_char 43 c)
      && negb (Ascii.eqb "x" c) && negb (Ascii.eqb "X" c))) ltac:(vm_compute; reflexivity)) as Hall.
    pose proof (Hall c) as H1'. pose proof (Hall c') as H2'. cbn beta in *. rewrite H, H1 in *. cbn [negb orb] in *. by bools. }
  rewrite E1. cbn [drop_char]. rewrite E2. cbn [String.prefix].
  assert ((if Ascii.ascii_dec "0" c then if Ascii.ascii_dec "x" c' then String.prefix "" s else false else false) = false) as ->.
  { destruct (Ascii.ascii_dec "0" c); [|done]. destruct (Ascii.ascii_dec "x" c') as [<-|]; [|done]. by rewrite Ascii.eqb_refl in E3. }
  assert ((if Ascii.ascii_dec "0" c then if Ascii.ascii_dec "X" c' then String.prefix "" s else false else false) = false) as ->.
  { destruct (Ascii.ascii_dec "0" c); [|done]. destruct (Ascii.ascii_dec "X" c') as [<-|]; [|done]. by rewrite Ascii.eqb_refl in E4. }
  cbn [orb]. rewrite int_digits_hex; [done| |done]. cbn. by rewrite H, H1.
Qed.

(** The canonical spelling parses to what it writes. *)
Lemma parse_text id : 0 <= id < 2 ^ 128 -> parse (uuid_text id) = Some id.
Proof.
  intros Hid. pose proof (hex_digits_hex 32 id) as Hh. pose proof (hex_digits_length 32 id) as Hl.
  pose proof (hyphenate_chars [8; 4; 4; 4; 12]%nat _ Hh) as Hc.
  assert (forall c, uuid_char c = true -> Ascii.eqb "u" c = false) as Hu.
  { intros c Hx. destruct (Ascii.eqb_spec "u" c) as [<-|]; [by vm_compute in Hx|done]. }
  assert (remove_text "-" 0 (rstrip_braces (lstrip_braces (remove_text "uuid:" 0 (remove_text "urn:" 0 (uuid_text id)))))
    = hex_digits 32 id) as E.
  { unfold uuid_text. rewrite (remove_absent "u" "rn:"), (remove_absent "u" "uid:") by assumption. destruct (strip_braces_id _ Hc) as [-> ->].
    by apply remove_hyphens. }
  unfold parse. rewrite E. unfold slen. rewrite Hl.
  change (negb (Z.of_nat 32 =? 32)) with false. cbn iota. rewrite int16_hex by (try assumption; lia).
  pose proof (hex_number_digits 32 id Hid 0) as Hn. rewrite Z.add_0_l in Hn. rewrite Hn.
  destruct Hid as [H1 H2]. apply Z.leb_le in H1. apply Z.ltb_lt in H2. unfold mbind, option_bind. by rewrite H1, H2.
Qed.
End Uuid.
