(* ===== verification/Broker.v ===== *)
(** * Capabilities and the tool broker (backend/agents/capabilities.py, mcp.py)

    The server issues a short-lived bearer token for one revision of a workflow; the broker
    runs a tool only for a call that carries the service's identity, a live token and the
    arguments of the token's scope.  The signer of the tokens is django.core.signing, a
    parameter with its law; [nonce] is what [secrets.token_urlsafe] draws; the clock is the
    database's, in microseconds.  The trace of a call ([mcp_trace_binding] and its span)
    only reads and is left out. *)

From S2P Require Import Prelude PyValue Sha256 Base64 JsonText OwnerEvents LaunchLoop ToolSchemas Uuid DraftProvider EventbriteDrafts IterableDrafts IterableTemplates DraftRows DraftReview.

(** [signing.Signer(salt=..., sep=".")]: [unsign] tells whether the text is accepted, and
    the signature is a separator and 43 characters of base 64. *)
Class Signer := {
  sign : string -> string;
  unsign : string -> bool;
  unsign_sign : forall value, unsign (sign value) = true;
  sign_length : forall value, slen (sign value) = slen value + 44;
}.

Module Broker.
Import Provider Rows Review.

(** ** Capabilities *)

Definition AUDIENCE : string := "civicloop-hermes".
Definition TOOLS : list string :=
  ["get_event_revision"; "get_policy_context"; "request_clarification"; "propose_campaign_drafts";
   "validate_proposal"; "request_eventbrite_draft"; "request_iterable_drafts"; "get_operation_status"].

Definition SECOND : Z := 1000000.
Definition failed : exn := AuthorizationDenied "authorization_failed".

Definition token_digest (token : string) : string := Sha256.sha256_hex token.

(** [AuditEvent.objects.create] *)
Definition audit (actor : option string) (action target_type : string) (target : LaunchLoop.audit_target)
    (details : json) : M () :=
  modify (fun d => set_launch (LaunchLoop.set_audit (LaunchLoop.d_audit (launch d)
    ++ [LaunchLoop.AuditEvent actor action target_type target details]) (launch d)) d).

(** The actor has an active user and the role of an operator. *)
Definition active_operator (d : db) (slug : string) : bool :=
  match LaunchLoop.d_actors (launch d) !! slug with
  | Some a =>
      bool_decide (LaunchLoop.a_role a = LaunchLoop.OPERATOR)
      && match u ← LaunchLoop.a_user a; users d !! u with Some u => u_is_active u | None => false end
  | None => false
  end.

Definition workflow_row (d : db) (id : Z) : option (LaunchLoop.workflow * LaunchLoop.event_revision) :=
  w ← LaunchLoop.d_workflows (launch d) !! id;
  r ← LaunchLoop.d_revisions (launch d) !! LaunchLoop.w_revision w;
  Some (w, r).

Definition find_capability (d : db) (digest : string) : option (Z * workflow_capability) :=
  List.find (fun kv => String.eqb (c_token_digest kv.2) digest) (map_to_list (capabilities d)).

(** [WorkflowCapability(...).save()]: the digest of the token is unique. *)
Definition create_capability (c : workflow_capability) : M Z :=
  d ← get;
  _ ← fail_if (bool_decide (is_Some (find_capability d (c_token_digest c)))) (IntegrityError "token_digest");
  id ← fresh;
  _ ← modify (fun d => set_capabilities (<[id := c]> (capabilities d)) d);
  mret id.

(** [sorted(tools)] *)
Definition sorted_names (l : list string) : list string := map fst (sort_items (map (fun s => (s, ())) l)).

Definition subset_of_tools (l : list string) : bool := forallb (fun t => bool_decide (t ∈ TOOLS)) l.

Definition revoke_at (now : Z) (c : workflow_capability) : workflow_capability :=
  WorkflowCapability (c_token_digest c) (c_revision_digest c) (c_workflow c) (c_revision c) (c_actor c)
    (c_tools c) (c_audience c) (c_issued_at c) (c_expires_at c) (Some now) (c_correlation_id c).
Definition correlate (id : Z) (c : workflow_capability) : workflow_capability :=
  WorkflowCapability (c_token_digest c) (c_revision_digest c) (c_workflow c) (c_revision c) (c_actor c)
    (c_tools c) (c_audience c) (c_issued_at c) (c_expires_at c) (c_revoked_at c) (Some id).
Definition save_capability (id : Z) (c : workflow_capability) : M () :=
  modify (fun d => set_capabilities (<[id := c]> (capabilities d)) d).

Definition capability_details (id : Z) : json := JDict [("capability_id", str_id id)].

(** The capabilities are revoked once the row is found, again and again if asked to. *)
Definition revoke_workflow_capability (capability : string) : M () :=
  atomic (
    d ← get;
    row ← some_or (find_capability d (token_digest capability)) failed;
    let '(id, record) := row in
    _ ← save_capability id (revoke_at (clock d) record);
    audit (Some (c_actor record)) "mcp.capability_revoked" "workflow" (LaunchLoop.Row (c_workflow record))
      (capability_details id)).

Section signer.
Context `{Signer}.

Definition verify_token (token : string) : result exn () :=
  if String.prefix "cap_" token then
    match Base64.urlsafe_decode (JsonText.drop_prefix "cap_" token) with
    | Some signed => raise_if (negb (unsign (JsonText.string_of_bytes signed))) failed
    | None => Err failed
    end
  else Err failed.

(** The bearer token of a nonce. *)
Definition token_of (nonce : string) : string :=
  "cap_" +:+ Base64.encode (Sha256.bytes_of_string (sign nonce)).

Definition issue_workflow_capability (nonce : string) (workflow_id revision_id : Z) (actor_id : string)
    (tools : list string) (lifetime_seconds : Z) : M string :=
  atomic (
    _ ← fail_if (negb ((1 <=? lifetime_seconds) && (lifetime_seconds <=? 300))
                 || bool_decide (tools = []) || negb (subset_of_tools tools)) failed;
    d ← get;
    wr ← some_or (workflow_row d workflow_id) failed;
    let '(w, r) := wr in
    _ ← fail_if (negb (LaunchLoop.w_revision w =? revision_id)
                 || negb (LaunchLoop.r_event r =? LaunchLoop.w_event w)
                 || negb (active_operator d actor_id)) failed;
    let token := token_of nonce in
    revision_digest ← lift (digest (JDict (LaunchLoop.r_snapshot r)));
    id ← create_capability
      (WorkflowCapability (token_digest token) revision_digest workflow_id revision_id actor_id
        (sorted_names tools) AUDIENCE (clock d) (clock d + lifetime_seconds * SECOND) None None);
    _ ← audit (Some actor_id) "mcp.capability_issued" "workflow" (LaunchLoop.Row workflow_id)
          (capability_details id);
    mret token).

(** ** The broker: identity, token and arguments *)

Definition broker_denial (stage : string) : exn := AuthorizationDenied stage.

Definition is_bytes_space (b : Z) : bool := ((9 <=? b) && (b <=? 13)) || (b =? 32).
Fixpoint bytes_lstrip (l : list Z) : list Z :=
  match l with
  | b :: l' => if is_bytes_space b then bytes_lstrip l' else l
  | [] => []
  end.
Definition bytes_strip (l : list Z) : list Z := rev (bytes_lstrip (rev (bytes_lstrip l))).

Definition text_bytes (v : json) : list Z := match v with JStr s => Sha256.bytes_of_string s | _ => [] end.

(** The bytes of the service token file, [None] when it cannot be read. *)
Context (token_file : option (list Z)).

Definition authenticate_service (service_identity : json) : result exn () :=
  let valid :=
    match token_file with
    | Some content =>
        let expected := bytes_strip (take 257 content) in
        (32 <=? Z.of_nat (length expected)) && (Z.of_nat (length expected) <=? 256)
        && bool_decide (expected = text_bytes service_identity)
    | None => false
    end in
  raise_if (negb valid) (broker_denial "service_identity").

Definition MAX_TOKEN : Z := 160.
Definition bearer (capability : json) : result exn string :=
  match capability with
  | JStr s => if MAX_TOKEN <? slen s then Err failed else Ok s
  | _ => Err failed
  end.

(** The value of an argument; the tool's schema has checked that it is there. *)
Definition arg (arguments : json) (key : string) : json :=
  match arguments with JDict d => get_or_none d key | _ => JNull end.
Definition text_arg (arguments : json) (key : string) : string :=
  match arg arguments key with JStr s => s | _ => "" end.
Definition uuid_arg (arguments : json) (key : string) : Z := Uuid.of_text (text_arg arguments key).

(** [bind_call_metadata]: retry identifiers for a call that brings none. *)
Definition bind_call_metadata (capability tool_name : string) (arguments : list (string * json))
  : result exn (list (string * json)) :=
  if dict_mem "request_id" arguments || dict_mem "idempotency_key" arguments then Ok arguments
  else
    key ← digest (JList [JStr (token_digest capability); JStr tool_name; JDict arguments]);
    Ok (dict_update arguments
          [("request_id", str_id (Uuid.uuid5 ("urn:civicloop:mcp-call:" +:+ key)));
           ("idempotency_key", JStr key)]).

(** ** What a capability allows now *)

Definition live (now : Z) (c : workflow_capability) : bool :=
  String.eqb (c_audience c) AUDIENCE && isnull (c_revoked_at c)
  && (c_issued_at c <=? now) && (now <? c_expires_at c)
  && (0 <? c_expires_at c - c_issued_at c) && (c_expires_at c - c_issued_at c <=? 300 * SECOND).

(** The workflow is still at the revision the capability was issued for. *)
Definition revision_current (c : workflow_capability) (w : LaunchLoop.workflow)
    (r : LaunchLoop.event_revision) (current_digest : string) : bool :=
  (LaunchLoop.w_revision w =? c_revision c) && String.eqb current_digest (c_revision_digest c)
  && (LaunchLoop.w_event w =? LaunchLoop.r_event r).

Definition bound_tool_context (token : json) : M (option json * list string) :=
  token ← lift (bearer token);
  _ ← lift (verify_token token);
  d ← get;
  row ← some_or (find_capability d (token_digest token)) failed;
  let '(_, c) := row in
  _ ← fail_if (negb (live (clock d) c) || bool_decide (c_tools c = []) || negb (subset_of_tools (c_tools c))
               || negb (active_operator d (c_actor c))) failed;
  wr ← some_or (workflow_row d (c_workflow c)) (DoesNotExist "Workflow");
  let '(w, r) := wr in
  current ← lift (digest (JDict (LaunchLoop.r_snapshot r)));
  _ ← fail_if (negb (revision_current c w r current)) failed;
  mret (option_map (fun id => JDict [("workflow_id", str_id (c_workflow c)); ("revision_id", JInt (c_revision c));
                                     ("actor_id", JStr (c_actor c)); ("correlation_id", str_id id)])
          (c_correlation_id c),
        c_tools c).

(** ** The tools *)

Definition audit_call (id : Z) (c : workflow_capability) (action tool_name : string) (arguments : json) : M () :=
  audit (Some (c_actor c)) action "workflow" (LaunchLoop.Row (c_workflow c))
    (JDict [("capability_id", str_id id); ("tool", JStr tool_name);
            ("correlation_id", arg arguments "correlation_id"); ("request_id", arg arguments "request_id")]).

Definition same_scope (c c' : workflow_capability) : bool :=
  (c_workflow c' =? c_workflow c) && (c_revision c' =? c_revision c)
  && String.eqb (c_revision_digest c') (c_revision_digest c) && String.eqb (c_actor c') (c_actor c).

(** [_proposal] *)
Definition find_proposal (arguments : json) (c : workflow_capability) : M (Z * mcp_submission) :=
  d ← get;
  let id := uuid_arg arguments "proposal_id" in
  p ← some_or (p ← submissions d !! id;
               c' ← capabilities d !! m_capability p;
               if String.eqb (m_kind p) "proposal" && same_scope c c' then Some p else None)
        (broker_denial "proposal_unavailable");
  content ← lift (digest (m_content p));
  _ ← fail_if (negb (String.eqb (m_digest p) content)) (broker_denial "proposal_integrity");
  mret (id, p).

Definition operation_payload (id : Z) (o : draft_operation) : json :=
  JDict [("operation_id", str_id id); ("workflow_id", str_id (i_workflow o));
         ("revision_id", JInt (i_revision o)); ("provider", JStr (i_provider o));
         ("operation_kind", JStr (i_operation_kind o)); ("action_digest", JStr (i_action_digest o));
         ("idempotency_key", JStr (i_idempotency_key o)); ("status", JStr (i_status o));
         ("approval", JNull); ("receipt", JNull); ("schema_version", JStr "1.0")].

Definition allowed_facts : list string :=
  ["title"; "date"; "start_time"; "end_time"; "timezone"; "venue_name"; "venue_address";
   "access_instructions"; "signup_url"; "city"; "region"; "country"].
Definition public_fact (kv : string * json) : bool :=
  bool_decide (kv.1 ∈ allowed_facts) && match kv.2 with JStr s => slen s <=? 4000 | _ => false end.

Definition is_synthetic (r : LaunchLoop.event_revision) : bool :=
  bool_decide (LaunchLoop.source_kind r = LaunchLoop.SYNTHETIC).

Definition policy_context (r : LaunchLoop.event_revision) : json :=
  JDict [("policy_version", JStr "mcp-drafts-v1"); ("provider_execution_allowed", JBool false);
         ("approval_required", JStr (if is_synthetic r then "four_eyes_exact_revision_and_action_digest"
            else "owner_exact_revision_and_action_digest_audience_policy_review"));
         ("prohibited_actions", JList (map JStr ["publish"; "schedule"; "send"; "ticket_economics";
            "create_segment"; "export_constituents"]))].

(** [MCPSubmission.objects.create] *)
Definition submit (capability : Z) (kind : string) (content : json) : M json :=
  text ← lift (digest content);
  id ← fresh;
  _ ← modify (fun d => set_submissions (<[id := MCPSubmission capability kind content text]> (submissions d)) d);
  mret (JDict [(kind +:+ "_id", str_id id); (kind +:+ "_digest", JStr text);
               ("status", JStr "pending"); ("content_trust", JStr "untrusted")]).

Definition operation_kinds (provider : string) : list string :=
  if String.eqb provider "eventbrite" then ["create_eventbrite_draft"]
  else ["create_iterable_email_draft"; "create_iterable_reminder_draft"].

(** A new operation of a proposal, before its digests are filled in. *)
Definition new_intent (c : workflow_capability) (proposal : Z) (provider kind action idem : string) : draft_operation :=
  DraftOperation (c_workflow c) (c_revision c) (c_actor c) proposal provider kind action idem "pending" None None.

(** [DraftOperation.objects.get_or_create(idempotency_key=...)] *)
Definition get_or_create_intent (o : draft_operation) : M (Z * draft_operation) :=
  d ← get;
  match List.find (fun kv => String.eqb (i_idempotency_key kv.2) (i_idempotency_key o)) (map_to_list (intents d)) with
  | Some row => mret row
  | None =>
      id ← fresh;
      _ ← modify (fun d => set_intents (<[id := o]> (intents d)) d);
      mret (id, o)
  end.

Definition request_operation (c : workflow_capability) (proposal : Z * mcp_submission) (provider kind : string)
  : M json :=
  action ← lift (action_digest (c_workflow c) (c_revision_digest c)
                   (new_intent c proposal.1 provider kind "" "") proposal.2);
  idem ← lift (idempotency_digest (c_workflow c) (new_intent c proposal.1 provider kind action "") action);
  row ← get_or_create_intent (new_intent c proposal.1 provider kind action idem);
  mret (operation_payload row.1 row.2).

Definition request_operations (c : workflow_capability) (proposal : Z * mcp_submission) (provider : string) : M json :=
  operations ← fold_each [] (operation_kinds provider) (fun operations kind =>
    o ← request_operation c proposal provider kind; mret (operations ++ [o]));
  mret (JDict [("operations", JList operations)]).

Definition operation_in_scope (d : db) (c : workflow_capability) (o : draft_operation) : bool :=
  (i_workflow o =? c_workflow c) && (i_revision o =? c_revision c) && String.eqb (i_actor o) (c_actor c)
  && match p ← submissions d !! i_proposal o; capabilities d !! m_capability p with
     | Some c' => String.eqb (c_revision_digest c') (c_revision_digest c)
     | None => false
     end.

Definition execute (tool_name : string) (arguments : json) (id : Z) (c : workflow_capability)
    (w : LaunchLoop.workflow) (r : LaunchLoop.event_revision) : M json :=
  if String.eqb tool_name "get_event_revision" then
    _ ← lift (tool (ToolSchemas.bounded_json (JDict (LaunchLoop.r_snapshot r))));
    mret (JDict [("revision_id", JInt (LaunchLoop.w_revision w));
                 ("event", JDict (List.filter public_fact (LaunchLoop.r_snapshot r)));
                 ("content_trust", JStr "untrusted")])
  else if String.eqb tool_name "get_policy_context" then mret (policy_context r)
  else if String.eqb tool_name "request_clarification" then submit id "clarification" (arg arguments "questions")
  else if String.eqb tool_name "propose_campaign_drafts" then submit id "proposal" (arg arguments "proposal")
  else if String.eqb tool_name "get_operation_status" then
    d ← get;
    let operation := uuid_arg arguments "operation_id" in
    o ← some_or (o ← intents d !! operation; if operation_in_scope d c o then Some o else None)
          (broker_denial "operation_unavailable");
    mret (operation_payload operation o)
  else
    proposal ← find_proposal arguments c;
    if String.eqb tool_name "validate_proposal" then
      _ ← lift (tool (ToolSchemas.validate (m_content proposal.2) ToolSchemas.PROPOSAL));
      mret (JDict [("proposal_id", str_id proposal.1); ("schema_valid", JBool true);
                   ("execution_authorized", JBool false);
                   ("required_review", JStr (if is_synthetic r then "deterministic_policy_and_four_eyes"
                      else "owner_exact_draft_approval_and_deferred_audience_policy"))])
    else
      request_operations c proposal
        (if String.eqb tool_name "request_eventbrite_draft" then "eventbrite" else "iterable").

(** ** One invocation *)

Definition result_with (result correlation : json) : json :=
  match result with JDict fields => JDict (dict_set "correlation_id" correlation fields) | _ => result end.

Definition invoke (tool_name : string) (arguments : json) (id : Z) (c : workflow_capability)
    (w : LaunchLoop.workflow) (r : LaunchLoop.event_revision) (encoded : string) : M json :=
  let argument_digest := Sha256.sha256_hex encoded in
  idem ← lift (digest (JList [str_id id; arg arguments "idempotency_key"]));
  let request := uuid_arg arguments "request_id" in
  d ← get;
  match List.find (fun j => (j_request_id j =? request) || String.eqb (j_idempotency_digest j) idem) (invocations d) with
  | Some existing =>
      _ ← fail_if (negb (j_capability existing =? id) || negb (String.eqb (j_tool_name existing) tool_name)
                   || negb (String.eqb (j_argument_digest existing) argument_digest)
                   || negb (String.eqb (j_idempotency_digest existing) idem))
            (broker_denial "invocation_replay_conflict");
      _ ← audit_call id c "mcp.tool_replayed" tool_name arguments;
      mret (j_result existing)
  | None =>
      result ← execute tool_name arguments id c w r;
      let result := result_with result (arg arguments "correlation_id") in
      _ ← lift (tool (ToolSchemas.bounded_json result));
      _ ← modify (fun d => set_invocations (invocations d
            ++ [MCPInvocation id request idem argument_digest tool_name result]) d);
      _ ← audit_call id c "mcp.tool_succeeded" tool_name arguments;
      mret result
  end.

(** The first check of [_dispatch]: the capability and the arguments name the same scope. *)
Definition in_scope (d : db) (c : workflow_capability) (tool_name : string) (arguments : json) : bool :=
  live (clock d) c && bool_decide (tool_name ∈ c_tools c)
  && py_eq (str_id (c_workflow c)) (arg arguments "workflow_id")
  && py_eq (JInt (c_revision c)) (arg arguments "revision_id")
  && py_eq (JStr (c_actor c)) (arg arguments "actor_id")
  && active_operator d (c_actor c).

Definition correlated (c : workflow_capability) (arguments : json) : bool :=
  match c_correlation_id c with
  | Some id => py_eq (str_id id) (arg arguments "correlation_id")
  | None => true
  end.

(** [_dispatch] *)
Definition dispatch (tool_name : string) (arguments : json) (token encoded : string) : M json :=
  atomic (
    d ← get;
    row ← some_or (find_capability d (token_digest token)) (broker_denial "capability_scope");
    let '(id, c) := row in
    _ ← fail_if (negb (in_scope d c tool_name arguments)) (broker_denial "capability_scope");
    wr ← some_or (workflow_row d (c_workflow c)) (DoesNotExist "Workflow");
    let '(w, r) := wr in
    current ← lift (digest (JDict (LaunchLoop.r_snapshot r)));
    _ ← fail_if (negb (revision_current c w r current) || negb (correlated c arguments))
          (broker_denial "revision_scope");
    let c' := if isnull (c_correlation_id c) then correlate (uuid_arg arguments "correlation_id") c else c in
    _ ← (if isnull (c_correlation_id c) then save_capability id c' else mret ());
    invoke tool_name arguments id c' w r encoded).

Definition tool_text (v : json) : string := match v with JStr s => s | _ => "" end.
Definition tool_label (v : json) : string :=
  match v with JStr s => if bool_decide (s ∈ TOOLS) then s else "unknown" | _ => "unknown" end.

(** [dispatch_mcp_tool]: a refusal is recorded outside the transaction that failed. *)
Definition dispatch_mcp_tool (tool_name arguments service_identity capability : json) : M json :=
  catch (
    _ ← lift (authenticate_service service_identity);
    token ← lift (bearer capability);
    _ ← lift (verify_token token);
    encoded ← lift (tool (ToolSchemas.validate_tool_arguments tool_name arguments));
    dispatch (tool_text tool_name) arguments token encoded)
  (fun e =>
    match e with
    | AuthorizationDenied stage =>
        _ ← audit None "mcp.tool_denied" "mcp" (LaunchLoop.Named "broker")
              (JDict [("reason", JStr "authorization_failed"); ("stage", JStr stage);
                      ("tool", JStr (tool_label tool_name))]);
        raise e
    | InvalidToolArguments =>
        _ ← audit None "mcp.tool_invalid" "mcp" (LaunchLoop.Named "broker")
              (JDict [("reason", JStr "invalid_arguments")]);
        raise e
    | _ => raise e
    end).

End signer.
End Broker.
