(* ===== verification/HermesClient.v ===== *)
(** * The worker's client of the Hermes adapter (backend/agents/hermes.py)

    What the client checks before it sends a run to the adapter, the request it sends, and
    what it accepts of the answer.  The sockets, the threads and the deadline of [_request]
    are the environment's: a request has a [reply].  The settings of the client are
    arguments. *)

From S2P Require Import Prelude PyValue Sha256 JsonText OwnerEvents LaunchLoop Budgets ToolSchemas Uuid DraftProvider EventbriteDrafts IterableDrafts IterableTemplates DraftRows DraftReview Broker.

Module HermesClient.
Import Provider Rows Review ToolSchemas.

Definition MAX_BODY_BYTES : Z := 32768.
Definition MODEL_ALIAS : string := "civicloop-default".
Definition CATEGORIES : list string :=
  ["budget_exhausted"; "cancelled"; "dependency_unavailable"; "invalid_output"; "provider_unavailable"; "timeout"].

(** [SafeRunFailure(category, status=status)] *)
Definition safe_failure (category status : string) : exn :=
  if bool_decide (category ∈ CATEGORIES) && (String.eqb status "failed" || String.eqb status "cancelled")
  then SafeRunFailure category status else SafeRunFailure "dependency_unavailable" "failed".
Definition unavailable : exn := safe_failure "dependency_unavailable" "failed".
Definition invalid_output : exn := safe_failure "invalid_output" "failed".

(** What [_request] brings back, or the failure it raises. *)
Inductive reply :=
| Answered (status : Z) (raw : list Z)
| Broken (category status : string).

Record client := Client { timeout_seconds : Z; max_inferences : Z }.

(** The rows of a run, as the worker's object holds them. *)
Record loaded_run := LoadedRun {
  run_id : Z;
  row : agent_run;
  binding : hermes_binding;
  profile : Budgets.model_profile;
  policy : Budgets.routing_policy;
}.

Definition run_key (correlation_id : Z) : Z :=
  Uuid.uuid5 ("urn:civicloop:run:" +:+ uuid_text correlation_id).
(** [_run_id] *)
Definition run_text (r : loaded_run) : string := uuid_text (run_key (b_correlation_id (binding r))).

(** ** Before the request *)

(** [re.fullmatch(r"cap_[\w-]{43,125}", capability, re.ASCII)] *)
Definition token_char (c : ascii) : bool := is_word_char c || is_char 45 c.
Definition is_token (s : string) : bool :=
  String.prefix "cap_" s && fullmatch_chars token_char 43 125 (JsonText.drop_prefix "cap_" s).

Definition all_tools (l : list string) : bool :=
  (length l =? length Broker.TOOLS)%nat && forallb (fun t => bool_decide (t ∈ l)) Broker.TOOLS
  && Broker.subset_of_tools l.

(** [_load_capability] *)
Definition usable_capability (d : db) (r : loaded_run) (digest : string) (c : workflow_capability) : bool :=
  String.eqb (c_token_digest c) digest && (c_workflow c =? r_workflow (row r))
  && (c_revision c =? r_event_revision (row r)) && String.eqb (c_revision_digest c) (b_revision_digest (binding r))
  && String.eqb (c_actor c) (b_actor (binding r))
  && bool_decide (c_correlation_id c = Some (b_correlation_id (binding r)))
  && isnull (c_revoked_at c) && String.eqb (c_audience c) "civicloop-hermes" && (clock d <? c_expires_at c).
Definition load_capability (r : loaded_run) (token : string) : M Z :=
  d ← get;
  c ← some_or (List.find (fun kv => usable_capability d r (Sha256.sha256_hex token) kv.2)
                 (map_to_list (capabilities d))) unavailable;
  _ ← fail_if (negb (all_tools (c_tools c.2))) unavailable;
  mret (c_expires_at c.2).

(** [_load_reservation] *)
Definition open_reservation (now : Z) (r : loaded_run) (b : Budgets.budget_reservation) : bool :=
  (Budgets.br_run b =? run_id r) && (Budgets.br_profile b =? r_model_profile (row r))
  && (Budgets.br_policy b =? r_routing_policy (row r))
  && bool_decide (Budgets.br_status b = Budgets.RESERVED) && (now <? Budgets.br_expires_at b).
Definition load_reservation (r : loaded_run) : M Budgets.budget_reservation :=
  d ← get;
  b ← some_or (Budgets.find_row (Budgets.b_reservations (budgets d)) (open_reservation (clock d) r))
        (safe_failure "budget_exhausted" "failed");
  _ ← fail_if (Budgets.br_reserved_cost b.2 <=? 0) (safe_failure "budget_exhausted" "failed");
  mret b.2.

Record run_budgets := RunBudgets {
  max_input_tokens : Z;
  max_output_tokens : Z;
  max_cost_microusd : Z;
  timeout : Z;
}.
Definition budgets_json (b : run_budgets) : list (string * json) :=
  [("max_input_tokens", JInt (max_input_tokens b)); ("max_output_tokens", JInt (max_output_tokens b));
   ("max_cost_microusd", JInt (max_cost_microusd b)); ("timeout_seconds", JInt (timeout b))].
Definition within (v ceiling : Z) : bool := (1 <=? v) && (v <=? ceiling).
Definition within_ceilings (b : run_budgets) : bool :=
  within (max_input_tokens b) 1000000 && within (max_output_tokens b) 100000
  && within (max_cost_microusd b) 1000000000 && within (timeout b) 300.

(** The body of the request. *)
Definition request_body (r : loaded_run) (token : string) (b : run_budgets) : json :=
  JDict [("schema_version", JStr "1.0"); ("workflow_id", str_id (r_workflow (row r)));
         ("revision_id", JInt (r_event_revision (row r))); ("actor_id", JStr (b_actor (binding r)));
         ("correlation_id", str_id (b_correlation_id (binding r))); ("capability_token", JStr token);
         ("model_alias", JStr MODEL_ALIAS); ("budgets", JDict (budgets_json b))].

(** The binding header: what the adapter may do for this run; [expiry] stands for its text. *)
Definition request_scope (c : client) (r : loaded_run) (b : run_budgets) (expiry : json) : json :=
  JDict ([("run_id", JStr (run_text r)); ("workflow_id", str_id (r_workflow (row r)));
          ("revision_id", JInt (r_event_revision (row r)));
          ("revision_digest", JStr (b_revision_digest (binding r))); ("actor_id", JStr (b_actor (binding r)));
          ("model_alias", JStr MODEL_ALIAS); ("expires_at", expiry); ("max_inferences", JInt (max_inferences c))]
         ++ take 3 (budgets_json b)).

Record prepared := Prepared {
  allowance : run_budgets;
  expires : Z;
  body : json;
}.

(** [execute], up to the request. *)
Definition prepare (c : client) (r : loaded_run) (token : string) : M prepared :=
  _ ← fail_if (negb (is_token token)) unavailable;
  reservation ← load_reservation r;
  let allowance :=
    RunBudgets (Budgets.pf_max_input_tokens (profile r)) (Budgets.pf_max_output_tokens (profile r))
      (Z.min (Budgets.po_per_run_limit (policy r)) (Budgets.br_reserved_cost reservation))
      (timeout_seconds c) in
  _ ← fail_if (negb (within_ceilings allowance)) unavailable;
  capability_expiry ← load_capability r token;
  d ← get;
  let expiry := Z.min capability_expiry
                  (Z.min (Budgets.br_expires_at reservation) (clock d + timeout_seconds c * Broker.SECOND)) in
  _ ← fail_if (expiry - clock d <=? 0) (safe_failure "timeout" "failed");
  let body := request_body r token allowance in
  _ ← fail_if (MAX_BODY_BYTES <? slen (json_dumps true false body)) unavailable;
  mret (Prepared allowance expiry body).

(** ** After the answer *)

Section answer.
Context (recursion : nat).

(** [_decode] *)
Definition decode (raw : list Z) : result exn (list (string * json)) :=
  let n := Z.of_nat (length raw) in
  if negb ((0 <? n) && (n <=? MAX_BODY_BYTES)) then Err invalid_output
  else if negb (forallb (fun b => (0 <=? b) && (b <=? 127)) raw) then Err NonAsciiResponse
  else
    match JsonText.loads_unique recursion (JsonText.string_of_bytes raw) with
    | Ok (JDict d) => Ok d
    | Err (JsonText.NonAsciiText | JsonText.OutOfFuel) => Err NonAsciiResponse
    | _ => Err invalid_output
    end.

(** [_cost(run.model_profile, input, output)] *)
Definition run_cost (p : Budgets.model_profile) (input output : Z) : result Budgets.error Z :=
  (Budgets.cost p input output (Budgets.DB ∅ ∅ ∅ ∅ [] ∅ 1)).1.

Definition same_keys (d : list (string * json)) (keys : list string) : bool :=
  EventbriteDrafts.has_keys d keys.

(** The cost is the client's own computation when the adapter reports tokens only. *)
Definition add_cost (p : Budgets.model_profile) (value : list (string * json)) : result exn (list (string * json)) :=
  match get_or_none value "usage" with
  | JDict usage =>
      if same_keys usage ["input_tokens"; "output_tokens"] then
        match get_or_none usage "input_tokens", get_or_none usage "output_tokens" with
        | JInt input, JInt output =>
            if (input <? 0) || (output <? 0) then Err invalid_output
            else
              match run_cost p input output with
              | Ok cost => Ok (dict_set "usage" (JDict (dict_set "cost_microusd" (JInt cost) usage)) value)
              | Err _ => Err invalid_output
              end
        | _, _ => Err invalid_output
        end
      else Ok value
  | _ => Ok value
  end.

Definition result_fields : list string :=
  ["schema_version"; "run_id"; "workflow_id"; "revision_id"; "status"; "proposal_references"; "usage"; "failure_category"].

Definition is_int (v : json) (p : Z -> bool) : bool := match v with JInt z => p z | _ => false end.
Definition is_text (v : json) (p : string -> bool) : bool := match v with JStr s => p s | _ => false end.

(** The answer is about this run. *)
Definition names_run (r : loaded_run) (value : list (string * json)) : bool :=
  let at_ := get_or_none value in
  same_keys value result_fields && py_eq (at_ "schema_version") (JStr "1.0")
  && py_eq (at_ "run_id") (JStr (run_text r)) && py_eq (at_ "workflow_id") (str_id (r_workflow (row r)))
  && is_int (at_ "revision_id") (fun z => z =? r_event_revision (row r))
  && is_text (at_ "status") (fun s => bool_decide (s ∈ ["succeeded"; "failed"; "cancelled"])).

Definition bounded_usage (b : run_budgets) (usage : json) : bool :=
  match usage with
  | JDict u =>
      same_keys u ["input_tokens"; "output_tokens"; "cost_microusd"]
      && is_int (get_or_none u "input_tokens") (fun z => (0 <=? z) && (z <=? max_input_tokens b))
      && is_int (get_or_none u "output_tokens") (fun z => (0 <=? z) && (z <=? max_output_tokens b))
      && is_int (get_or_none u "cost_microusd") (fun z => (0 <=? z) && (z <=? max_cost_microusd b))
  | _ => false
  end.

(** A failure: no proposals, and a category that agrees with the status. *)
Definition failure_ok (status : json) (references category : json) : bool :=
  py_eq references (JList [])
  && is_text category (fun k =>
       bool_decide (k ∈ "capability_rejected" :: CATEGORIES)
       && negb (py_eq status (JStr "cancelled") && negb (String.eqb k "cancelled"))
       && negb (py_eq status (JStr "failed") && String.eqb k "cancelled")).

Definition schema_char (c : ascii) : bool := is_alnum c || ToolSchemas.one_of "._:-" c.
(** [urn:civicloop:schema:[A-Za-z0-9._:-]{1,135}] *)
Definition is_schema_id (s : string) : bool :=
  String.prefix "urn:civicloop:schema:" s
  && fullmatch_chars schema_char 1 135 (JsonText.drop_prefix "urn:civicloop:schema:" s).

Definition reference_ok (v : json) : bool :=
  match v with
  | JDict d =>
      same_keys d ["proposal_id"; "schema_id"; "proposal_digest"]
      && is_text (get_or_none d "proposal_id") ToolSchemas.is_uuid_text
      && is_text (get_or_none d "schema_id") is_schema_id
      && is_text (get_or_none d "proposal_digest") is_digest
  | _ => false
  end.
Definition reference_id (v : json) : string :=
  match v with JDict d => match get_or_none d "proposal_id" with JStr s => s | _ => "" end | _ => "" end.

Definition success_ok (references category : json) : bool :=
  match category, references with
  | JNull, JList l =>
      (1 <=? Z.of_nat (length l)) && (Z.of_nat (length l) <=? 20) && forallb reference_ok l
      && bool_decide (NoDup (map reference_id l))
  | _, _ => false
  end.

(** [HermesClient._validate_result] *)
Definition validate_result (r : loaded_run) (b : run_budgets) (value : list (string * json)) : result exn () :=
  let at_ := get_or_none value in
  raise_if (negb (names_run r value && bounded_usage b (at_ "usage")
                  && (if py_eq (at_ "status") (JStr "succeeded")
                      then success_ok (at_ "proposal_references") (at_ "failure_category")
                      else failure_ok (at_ "status") (at_ "proposal_references") (at_ "failure_category"))))
    invalid_output.

(** [cancel]: the adapter's acknowledgement, and the end of the execution's own exchange. *)
Definition cancel (r : loaded_run) (answer : reply) (retired : bool) : result exn () :=
  match answer with
  | Answered 200 raw =>
      match decode raw with
      | Ok d =>
          raise_if (negb (py_eq (JDict d) (JDict [("schema_version", JStr "1.0"); ("run_id", JStr (run_text r));
                                                   ("status", JStr "cancelled")]) && retired)) unavailable
      | Err NonAsciiResponse => Err NonAsciiResponse
      | Err _ => Err unavailable
      end
  | _ => Err unavailable
  end.

(** [execute], from the answer of the request on.  [cancelled] is what [should_cancel] says
    at the end, [None] when it raises; [ack] is the outcome of [cancel]. *)
Definition conclude (r : loaded_run) (p : prepared) (answer : reply) (cancelled : option bool)
    (ack : result exn ()) : result exn (list (string * json)) :=
  match answer with
  | Broken category status => _ ← ack; Err (safe_failure category status)
  | Answered code raw =>
      match cancelled with
      | None => _ ← ack; Err unavailable
      | Some true => _ ← ack; Err (safe_failure "cancelled" "cancelled")
      | Some false =>
          _ ← raise_if (negb (code =? 200)) unavailable;
          value ← decode raw;
          value ← add_cost (profile r) value;
          _ ← validate_result r (allowance p) value;
          Ok value
      end
  end.

End answer.
End HermesClient.
