(* ===== verification/Transactions.v ===== *)
(** * Reasoning about transactions: rows found by a column, and relations every run keeps *)

From S2P Require Import Prelude PyValue BudgetsTheorems DraftProvider DraftRows DraftEffects.

Module Transactions.
Import Provider Rows.

(** ** [filter(column=value).first()] *)

Definition first_row {V : Type} (m : gmap Z V) (f : V -> bool) : option (Z * V) :=
  List.find (fun kv => f kv.2) (map_to_list m).

Section rows.
Context {V : Type} (m : gmap Z V) (f : V -> bool).
Lemma first_row_some k v : first_row m f = Some (k, v) -> m !! k = Some v /\ f v = true.
Proof. apply Ledger.find_row_some. Qed.
Lemma first_row_none k v : first_row m f = None -> m !! k = Some v -> f v = false.
Proof. apply Ledger.find_row_none. Qed.
(** The only row that satisfies the filter is the one it finds. *)
Lemma first_row_known k v :
  (forall k' v', m !! k' = Some v' -> f v' = true -> k' = k) -> m !! k = Some v -> f v = true ->
  first_row m f = Some (k, v).
Proof.
  intros Hu Hk Hf. destruct (first_row m f) as [[k' v']|] eqn:E.
  - apply first_row_some in E as [Hk' Hf']. pose proof (Hu k' v' Hk' Hf'). subst. congruence.
  - by rewrite (first_row_none k v E Hk) in Hf.
Qed.
Lemma no_row_false k v : LaunchLoop.LaunchLoop.any_row m f = false -> m !! k = Some v -> f v = false.
Proof.
  unfold LaunchLoop.LaunchLoop.any_row. intros Ha Hk. apply not_true_iff_false. intros Hf.
  apply not_true_iff_false in Ha. apply Ha, existsb_exists. exists (k, v). split; [|done].
  by apply list_elem_of_In, elem_of_map_to_list.
Qed.
End rows.

(** ** Relations between the states before and after a run, whatever it returns *)

Definition moves {S E A : Type} (R : S -> S -> Prop) (m : ST S E A) : Prop := forall s, R s (m s).2.

Create HintDb moves.

Section moves.
Context {S E : Type} (R : S -> S -> Prop) `{PR : !PreOrder R}.

Lemma moves_ret {A} (a : A) : moves R (mret a : ST S E A).
Proof. intros s. reflexivity. Qed.
Lemma moves_raise {A} e : moves R (raise e : ST S E A).
Proof. intros s. reflexivity. Qed.
Lemma moves_get : moves R (get : ST S E S).
Proof. intros s. reflexivity. Qed.
Lemma moves_lift {A} (r : result E A) : moves R (lift r).
Proof. intros s. reflexivity. Qed.
Lemma moves_fail_if c e : moves R (fail_if c e : ST S E ()).
Proof. intros s. destruct c; reflexivity. Qed.
Lemma moves_some_or {A} (o : option A) e : moves R (some_or o e : ST S E A).
Proof. intros s. destruct o; reflexivity. Qed.
Lemma moves_bind {A B} (m : ST S E A) (k : A -> ST S E B) :
  moves R m -> (forall a, moves R (k a)) -> moves R (m ≫= k).
Proof.
  intros Hm Hk s. unfold mbind, ST_bind. specialize (Hm s). destruct (m s) as [[a|e] s1]; [|done].
  etrans; [exact Hm|apply Hk].
Qed.
Lemma moves_catch {A} (m : ST S E A) h : moves R m -> (forall e, moves R (h e)) -> moves R (catch m h).
Proof.
  intros Hm Hh s. unfold catch. specialize (Hm s). destruct (m s) as [[a|e] s1]; [done|].
  etrans; [exact Hm|apply Hh].
Qed.
Lemma moves_atomic {A} (m : ST S E A) : moves R m -> moves R (atomic m).
Proof. intros Hm s. unfold atomic. specialize (Hm s). destruct (m s) as [[a|e] s1]; [done|reflexivity]. Qed.
Lemma moves_fold {A B} (body : B -> A -> ST S E B) l :
  (forall b a, moves R (body b a)) -> forall b, moves R (fold_each b l body).
Proof.
  intros Hb. induction l as [|a l IH]; intros b; cbn; [apply moves_ret|].
  apply moves_bind; [apply Hb|intros b'; apply IH].
Qed.
Lemma moves_for_each {A} (body : A -> ST S E ()) l : (forall a, moves R (body a)) -> moves R (for_each l body).
Proof.
  intros Hb. induction l as [|a l IH]; cbn; [apply moves_ret|]. apply moves_bind; [apply Hb|intros _; apply IH].
Qed.
Lemma moves_modify f : (forall s, R s (f s)) -> moves R (modify f : ST S E ()).
Proof. intros Hf s. apply Hf. Qed.
Lemma moves_run {A} (m : ST S E A) s r s' : moves R m -> m s = (r, s') -> R s s'.
Proof. intros Hm Hr. specialize (Hm s). by rewrite Hr in Hm. Qed.
End moves.

(** The same at one state, where what has been read is known. *)
Lemma moved_bind {S E A B : Type} (R : S -> S -> Prop) `{!PreOrder R} (m : ST S E A) (k : A -> ST S E B) s :
  R s (m s).2 -> (forall a s1, m s = (Ok a, s1) -> R s1 (k a s1).2) -> R s ((m ≫= k) s).2.
Proof.
  intros Hm Hk. unfold mbind, ST_bind. destruct (m s) as [[a|e] s1]; [|done]. etrans; [exact Hm|by apply Hk].
Qed.
Lemma moved_atomic {S E A : Type} (R : S -> S -> Prop) `{!PreOrder R} (m : ST S E A) s :
  R s (m s).2 -> R s (atomic m s).2.
Proof. intros Hm. unfold atomic. destruct (m s) as [[a|e] s1]; [done|reflexivity]. Qed.

(** Code that only reads moves along any reflexive relation. *)
Lemma moves_readonly {A} (R : db -> db -> Prop) `{!PreOrder R} (m : M A) : Effects.readonly m -> moves R m.
Proof. intros Hm d. by rewrite Hm. Qed.

(** Follows the shape of the code; what writes is left to the hints. *)
Ltac moves_step :=
  match goal with
  | |- moves _ (_ ≫= _) => apply moves_bind; [exact _| |intros ?]
  | |- moves _ (mret _) => apply moves_ret; exact _
  | |- moves _ (raise _) => apply moves_raise; exact _
  | |- moves _ get => apply moves_get; exact _
  | |- moves _ (lift _) => apply moves_lift; exact _
  | |- moves _ (fail_if _ _) => apply moves_fail_if; exact _
  | |- moves _ (some_or _ _) => apply moves_some_or; exact _
  | |- moves _ (catch _ _) => apply moves_catch; [exact _| |intros ?]
  | |- moves _ (atomic _) => apply moves_atomic; [exact _|]
  | |- moves _ (fold_each _ _ _) => apply moves_fold; [exact _|intros ? ?]
  | |- moves _ (for_each _ _) => apply moves_for_each; [exact _|intros ?]
  | |- moves _ (match ?x with _ => _ end) => destruct x
  | |- moves _ _ => solve [auto with moves]
  end.
Ltac solve_moves := repeat moves_step.

(** ** The errors that code may raise *)

Definition raises {S E A : Type} (P : E -> Prop) (m : ST S E A) : Prop := forall s e s', m s = (Err e, s') -> P e.

Create HintDb raises.

Section raises.
Context {S E : Type} (P : E -> Prop).

Lemma raises_ret {A} (a : A) : raises P (mret a : ST S E A).
Proof. by intros s e s' [= ?]. Qed.
Lemma raises_get : raises P (get : ST S E S).
Proof. by intros s e s' [= ?]. Qed.
Lemma raises_modify f : raises P (modify f : ST S E ()).
Proof. by intros s e s' [= ?]. Qed.
Lemma raises_raise {A} e : P e -> raises P (raise e : ST S E A).
Proof. by intros He s e' s' [= <- _]. Qed.
Lemma raises_lift {A} (r : result E A) : (forall e, r = Err e -> P e) -> raises P (lift r : ST S E A).
Proof. intros Hr s e s' [= -> _]. by apply Hr. Qed.
Lemma raises_fail_if c e : P e -> raises P (fail_if c e : ST S E ()).
Proof. intros He s e' s'. destruct c; [|done]. by intros [= <- _]. Qed.
Lemma raises_some_or {A} (o : option A) e : P e -> raises P (some_or o e : ST S E A).
Proof. intros He s e' s'. destruct o; [done|]. by intros [= <- _]. Qed.
Lemma raises_bind {A B} (m : ST S E A) (k : A -> ST S E B) :
  raises P m -> (forall a, raises P (k a)) -> raises P (m ≫= k).
Proof. intros Hm Hk s e s' [Hr|(a & s1 & _ & Hr)]%bind_err_inv; [by eapply Hm|by eapply Hk]. Qed.
Lemma raises_catch {A} (m : ST S E A) h : (forall e, raises P (h e)) -> raises P (catch m h).
Proof. intros Hh s e s'. unfold catch. destruct (m s) as [[a|e1] s1]; [done|]. apply Hh. Qed.
Lemma raises_atomic {A} (m : ST S E A) : raises P m -> raises P (atomic m).
Proof. intros Hm s e s' [_ (s1 & Hr)]%atomic_err_inv. by eapply Hm. Qed.
Lemma raises_fold {A B} (body : B -> A -> ST S E B) l :
  (forall b a, raises P (body b a)) -> forall b, raises P (fold_each b l body).
Proof. intros Hb. induction l as [|a l IH]; intros b; cbn; [apply raises_ret|by apply raises_bind]. Qed.
Lemma raises_for_each {A} (body : A -> ST S E ()) l : (forall a, raises P (body a)) -> raises P (for_each l body).
Proof. intros Hb. induction l as [|a l IH]; cbn; [apply raises_ret|by apply raises_bind]. Qed.
End raises.

(** Follows the shape of the code; the errors themselves are left to [done]. *)
Ltac raises_step :=
  match goal with
  | |- raises _ (_ ≫= _) => apply raises_bind; [|intros ?]
  | |- raises _ (mret _) => apply raises_ret
  | |- raises _ (raise _) => apply raises_raise
  | |- raises _ get => apply raises_get
  | |- raises _ (modify _) => apply raises_modify
  | |- raises _ (fail_if _ _) => apply raises_fail_if
  | |- raises _ (some_or _ _) => apply raises_some_or
  | |- raises _ (catch _ _) => apply raises_catch; intros ?
  | |- raises _ (atomic _) => apply raises_atomic
  | |- raises _ (fold_each _ _ _) => apply raises_fold; intros ? ?
  | |- raises _ (for_each _ _) => apply raises_for_each; intros ?
  | |- raises _ (match ?x with _ => _ end) => destruct x
  | |- raises _ _ => solve [auto with raises]
  end.
Ltac solve_raises := repeat raises_step; try done.

End Transactions.
