(* ===== verification/BrokerEffects.v ===== *)
(** * What the broker's calls do to the tables

    Which tables a call may write, the invariant of the broker's rows, and that every call
    keeps it and only adds rows. *)

From S2P Require Import Prelude PyValue Sha256 Base64 JsonText JsonTextTheorems OwnerEvents LaunchLoop ToolSchemas ToolSchemasTheorems Uuid DraftProvider EventbriteDrafts IterableDrafts IterableTemplates DraftRows DraftReview DraftEffects Transactions Broker.

Module BrokerFacts.
Import Provider Rows Review Broker Transactions Effects.

(** ** Rows found by a column *)

Lemma find_capability_some d digest id c :
  find_capability d digest = Some (id, c) -> capabilities d !! id = Some c /\ c_token_digest c = digest.
Proof.
  intros Hf. apply (first_row_some _ (fun c => String.eqb (c_token_digest c) digest)) in Hf as [Hc He].
  by apply String.eqb_eq in He.
Qed.

Lemma find_capability_none d digest id c :
  find_capability d digest = None -> capabilities d !! id = Some c -> c_token_digest c <> digest.
Proof.
  intros Hf Hc. pose proof (first_row_none _ (fun c => String.eqb (c_token_digest c) digest) _ _ Hf Hc) as He.
  by apply String.eqb_neq in He.
Qed.

(** ** What the broker writes *)

Definition rebuilt (log : list LaunchLoop.audit_event) (caps : gmap Z workflow_capability)
    (subs : gmap Z mcp_submission) (ints : gmap Z draft_operation) (invs : list mcp_invocation) (n : Z) (d : db) : db :=
  set_next n (set_invocations invs (set_intents ints (set_submissions subs (set_capabilities caps
    (set_launch (LaunchLoop.set_audit (LaunchLoop.d_audit (launch d) ++ log) (launch d)) d))))).

(** Only the broker's tables, the audit log and the counter of the keys change; the log grows. *)
Definition touches (d d' : db) : Prop :=
  exists log caps subs ints invs n, d' = rebuilt log caps subs ints invs n d.

Lemma touches_refl d : touches d d.
Proof.
  exists [], (capabilities d), (submissions d), (intents d), (invocations d), (next_id d).
  unfold rebuilt. rewrite app_nil_r. by destruct d as [[]].
Qed.
Lemma touches_trans d1 d2 d3 : touches d1 d2 -> touches d2 d3 -> touches d1 d3.
Proof.
  intros (l1 & ? & ? & ? & ? & ? & ->) (l2 & caps & subs & ints & invs & n & ->).
  exists (l1 ++ l2), caps, subs, ints, invs, n. unfold rebuilt. cbn. by rewrite app_assoc.
Qed.
#[export] Instance touches_preorder : PreOrder touches.
Proof. split; [exact touches_refl|exact touches_trans]. Qed.

Lemma touches_audit a act t g v : moves touches (audit a act t g v).
Proof.
  apply moves_modify. intros [[]]. unfold touches, rebuilt; cbn. by eexists _, _, _, _, _, _.
Qed.
Lemma touches_tables (f : db -> db) :
  (forall d, exists caps subs ints invs n, f d = set_next n (set_invocations invs (set_intents ints
     (set_submissions subs (set_capabilities caps d))))) -> moves touches (modify f : M ()).
Proof.
  intros Hf. apply moves_modify. intros d. destruct (Hf d) as (caps & subs & ints & invs & n & ->).
  exists [], caps, subs, ints, invs, n. unfold rebuilt. rewrite app_nil_r. by destruct d as [[]].
Qed.
Lemma touches_fresh : moves touches fresh.
Proof.
  intros d. exists [], (capabilities d), (submissions d), (intents d), (invocations d), (next_id d + 1).
  unfold rebuilt. rewrite app_nil_r. by destruct d as [[]].
Qed.
Lemma touches_capabilities f : moves touches (modify (fun d => set_capabilities (f d) d) : M ()).
Proof. apply touches_tables. intros d. exists (f d), (submissions d), (intents d), (invocations d), (next_id d). by destruct d. Qed.
Lemma touches_submissions f : moves touches (modify (fun d => set_submissions (f d) d) : M ()).
Proof. apply touches_tables. intros d. exists (capabilities d), (f d), (intents d), (invocations d), (next_id d). by destruct d. Qed.
Lemma touches_intents f : moves touches (modify (fun d => set_intents (f d) d) : M ()).
Proof. apply touches_tables. intros d. exists (capabilities d), (submissions d), (f d), (invocations d), (next_id d). by destruct d. Qed.
Lemma touches_invocations f : moves touches (modify (fun d => set_invocations (f d) d) : M ()).
Proof. apply touches_tables. intros d. exists (capabilities d), (submissions d), (intents d), (f d), (next_id d). by destruct d. Qed.
Lemma touches_save_capability id c : moves touches (save_capability id c).
Proof. apply (touches_capabilities (fun d => <[id := c]> (capabilities d))). Qed.
#[local] Hint Resolve touches_audit touches_fresh touches_save_capability : moves.
Ltac touches_write :=
  match goal with
  | |- moves _ (modify (fun d => set_capabilities (@?f d) d)) => apply (touches_capabilities f)
  | |- moves _ (modify (fun d => set_submissions (@?f d) d)) => apply (touches_submissions f)
  | |- moves _ (modify (fun d => set_intents (@?f d) d)) => apply (touches_intents f)
  | |- moves _ (modify (fun d => set_invocations (@?f d) d)) => apply (touches_invocations f)
  end.
#[local] Hint Extern 2 (moves touches (modify _)) => touches_write : moves.

Section signer.
Context `{Signer} (token_file : option (list Z)).

Lemma touches_submit cap kind content : moves touches (submit cap kind content).
Proof. unfold submit. solve_moves. Qed.
Lemma touches_get_or_create o : moves touches (get_or_create_intent o).
Proof. unfold get_or_create_intent. solve_moves. Qed.
#[local] Hint Resolve touches_submit touches_get_or_create : moves.
Lemma touches_request c p provider : moves touches (request_operations c p provider).
Proof. unfold request_operations, request_operation. solve_moves. Qed.
#[local] Hint Resolve touches_request : moves.
Lemma touches_execute t a id c w r : moves touches (execute t a id c w r).
Proof. unfold execute, find_proposal. solve_moves. Qed.
#[local] Hint Resolve touches_execute : moves.
Lemma touches_invoke t a id c w r e : moves touches (invoke t a id c w r e).
Proof. unfold invoke, audit_call. solve_moves. Qed.
#[local] Hint Resolve touches_invoke : moves.
Lemma touches_dispatch t a token e : moves touches (dispatch t a token e).
Proof. unfold dispatch. solve_moves. Qed.
#[local] Hint Resolve touches_dispatch : moves.
Lemma touches_call t a s c : moves touches (dispatch_mcp_tool token_file t a s c).
Proof. unfold dispatch_mcp_tool. solve_moves. Qed.
End signer.

(** ** The invariant of the broker's tables *)

(** An operation the broker wrote: pending, for a known draft, made from a proposal of the
    same scope, and carrying its own digests. *)
Record intent_ok (d : db) (i : draft_operation) : Prop := IntentOk {
  io_known : known_operation (i_provider i) (i_operation_kind i) = true;
  io_status : i_status i = "pending";
  io_approval : i_approval i = None;
  io_receipt : i_receipt i = None;
  io_origin : exists p c,
    submissions d !! i_proposal i = Some p /\ m_kind p = "proposal" /\
    capabilities d !! m_capability p = Some c /\
    c_workflow c = i_workflow i /\ c_revision c = i_revision i /\ c_actor c = i_actor i /\
    action_digest (i_workflow i) (c_revision_digest c) i p = Ok (i_action_digest i) /\
    idempotency_digest (i_workflow i) i (i_action_digest i) = Ok (i_idempotency_key i);
}.

Record broker_ok (d : db) : Prop := BrokerOk {
  bo_capability_keys : forall id c, capabilities d !! id = Some c -> id < next_id d;
  bo_submission_keys : forall id p, submissions d !! id = Some p -> id < next_id d;
  bo_intent_keys : forall id i, intents d !! id = Some i -> id < next_id d;
  bo_tokens : forall id id' c c', capabilities d !! id = Some c -> capabilities d !! id' = Some c' ->
    c_token_digest c = c_token_digest c' -> id = id';
  bo_submissions : forall id p, submissions d !! id = Some p ->
    digest (m_content p) = Ok (m_digest p) /\ is_Some (capabilities d !! m_capability p);
  bo_intents : forall id i, intents d !! id = Some i -> intent_ok d i;
  bo_intent_unique : forall id id' i i', intents d !! id = Some i -> intents d !! id' = Some i' ->
    i_idempotency_key i = i_idempotency_key i' -> id = id';
  bo_requests : NoDup (map j_request_id (invocations d));
  bo_idempotency : NoDup (map j_idempotency_digest (invocations d));
}.

(** The columns of a capability that never change, and the ones that are set once. *)
Definition same_identity (c c' : workflow_capability) : Prop :=
  c_token_digest c' = c_token_digest c /\ c_revision_digest c' = c_revision_digest c /\
  c_workflow c' = c_workflow c /\ c_revision c' = c_revision c /\ c_actor c' = c_actor c /\
  c_tools c' = c_tools c /\ c_audience c' = c_audience c /\ c_issued_at c' = c_issued_at c /\
  c_expires_at c' = c_expires_at c.
Definition renewed (c c' : workflow_capability) : Prop :=
  same_identity c c' /\ (is_Some (c_revoked_at c) -> is_Some (c_revoked_at c')) /\
  (forall x, c_correlation_id c = Some x -> c_correlation_id c' = Some x).

(** Rows are only added; a capability keeps its identity and its revocation. *)
Record extends (d d' : db) : Prop := Extends {
  ex_capabilities : forall id c, capabilities d !! id = Some c ->
    exists c', capabilities d' !! id = Some c' /\ renewed c c';
  ex_submissions : submissions d ⊆ submissions d';
  ex_intents : intents d ⊆ intents d';
  ex_invocations : invocations d `prefix_of` invocations d';
  ex_next : next_id d <= next_id d';
}.

(** The token of a capability finds it. *)
Lemma find_capability_known d id c digest :
  broker_ok d -> capabilities d !! id = Some c -> c_token_digest c = digest -> find_capability d digest = Some (id, c).
Proof.
  intros Hd Hc He. apply (first_row_known _ (fun c => String.eqb (c_token_digest c) digest)); [|done|by apply String.eqb_eq].
  intros k c' Hk Hk'. apply String.eqb_eq in Hk'. apply (bo_tokens _ Hd k id c' c); [done..|congruence].
Qed.

Lemma same_identity_refl c : same_identity c c.
Proof. done. Qed.
Lemma renewed_refl c : renewed c c.
Proof. by repeat split. Qed.
Lemma renewed_correlate id c : c_correlation_id c = None -> renewed c (correlate id c).
Proof. intros Hn. split_and!; [done|done|]. intros x Hx. congruence. Qed.
Lemma renewed_revoke t c : renewed c (revoke_at t c).
Proof. split_and!; [done| |done]. intros _. by eexists. Qed.
Lemma renewed_trans a b c : renewed a b -> renewed b c -> renewed a c.
Proof. intros (Hi & Hr & Hx) (Hi' & Hr' & Hx'). unfold renewed, same_identity in *. split_and!; [naive_solver congruence..|auto|auto]. Qed.
#[export] Instance extends_preorder : PreOrder extends.
Proof.
  split.
  - intros d. split; [eauto using renewed_refl|done..|lia].
  - intros a b c H1 H2. split.
    + intros id x Hx. destruct (ex_capabilities _ _ H1 id x Hx) as (y & Hy & Hxy).
      destruct (ex_capabilities _ _ H2 id y Hy) as (z & Hz & Hyz). eauto using renewed_trans.
    + etrans; [apply H1|apply H2].
    + etrans; [apply H1|apply H2].
    + etrans; [apply H1|apply H2].
    + etrans; [apply H1|apply H2].
Qed.

(** A run from a good state ends in a good state that extends it. *)
Definition keeps (d d' : db) : Prop := broker_ok d -> broker_ok d' /\ extends d d'.
#[export] Instance keeps_preorder : PreOrder keeps.
Proof.
  split.
  - intros d Hd. by split.
  - intros a b c H1 H2 Ha. destruct (H1 Ha) as [Hb Hab]. destruct (H2 Hb) as [Hc Hbc].
    split; [done|by etrans].
Qed.

(** What an operation's goodness depends on. *)
Lemma intent_ok_extends d d' i :
  (forall id c, capabilities d !! id = Some c -> exists c', capabilities d' !! id = Some c' /\ same_identity c c') ->
  submissions d ⊆ submissions d' -> intent_ok d i -> intent_ok d' i.
Proof.
  intros Hc Hs [? ? ? ? (p & c & Hp & Hk & Hcc & ? & ? & ? & ? & ?)]. split; [done..|].
  destruct (Hc _ _ Hcc) as (c' & Hc' & Hi). unfold same_identity in Hi.
  destruct Hi as (? & Hd & ? & ? & ? & _).
  exists p, c'. split_and!; try congruence. by eapply lookup_weaken.
Qed.

(** A change of other tables. *)
Lemma keeps_elsewhere d d' :
  capabilities d' = capabilities d -> submissions d' = submissions d -> intents d' = intents d ->
  invocations d' = invocations d -> next_id d <= next_id d' -> keeps d d'.
Proof.
  intros Hc Hs Hi Hv Hn Hd. split.
  - destruct Hd. split; rewrite ?Hc, ?Hs, ?Hi, ?Hv; eauto with lia.
    + intros id c Hid. specialize (bo_capability_keys0 id c Hid). lia.
    + intros id c Hid. specialize (bo_submission_keys0 id c Hid). lia.
    + intros id c Hid. specialize (bo_intent_keys0 id c Hid). lia.
    + intros id i Hid. eapply intent_ok_extends; [| |by eapply bo_intents0].
      * rewrite Hc. eauto using same_identity_refl.
      * by rewrite Hs.
  - split; rewrite ?Hc, ?Hs, ?Hi, ?Hv; eauto using renewed_refl.
Qed.

Lemma keeps_fresh : moves keeps fresh.
Proof. intros d. apply keeps_elsewhere; try done. change (next_id d <= next_id d + 1). lia. Qed.
Lemma keeps_audit a act t g v : moves keeps (audit a act t g v).
Proof. intros d. by apply keeps_elsewhere. Qed.
#[local] Hint Resolve keeps_fresh keeps_audit : moves.

(** A capability that is updated in place. *)
Lemma keeps_capability id c c' d :
  capabilities d !! id = Some c -> renewed c c' -> keeps d (save_capability id c' d).2.
Proof.
  intros Hc Hr Hd.
  assert (forall k x, capabilities d !! k = Some x ->
    exists x', <[id := c']> (capabilities d) !! k = Some x' /\ renewed x x') as Hx.
  { intros k x Hk. destruct (decide (k = id)) as [->|Hne].
    - exists c'. rewrite lookup_insert_eq. split; [done|]. by simplify_eq.
    - exists x. rewrite lookup_insert_ne by done. by split; [|apply renewed_refl]. }
  split; [|split; cbn; [exact Hx|done..|lia]].
  assert (forall k x, <[id := c']> (capabilities d) !! k = Some x -> exists y, capabilities d !! k = Some y /\
    c_token_digest x = c_token_digest y) as Hback.
  { intros k x Hk. destruct (decide (k = id)) as [->|Hne].
    - rewrite lookup_insert_eq in Hk. simplify_eq. exists c. destruct Hr as [(Ht & _) _]. by split.
    - rewrite lookup_insert_ne in Hk by done. by exists x. }
  destruct Hd. split; cbn; eauto.
  - intros k x Hk. destruct (Hback k x Hk) as (y & Hy & _). by eapply bo_capability_keys0.
  - intros k k' x x' Hk Hk' He. destruct (Hback _ _ Hk) as (y & Hy & Hxy), (Hback _ _ Hk') as (y' & Hy' & Hxy').
    eapply bo_tokens0; [exact Hy|exact Hy'|congruence].
  - intros k p Hp. destruct (bo_submissions0 k p Hp) as [? [x Hxs]]. split; [done|].
    destruct (Hx _ _ Hxs) as (? & -> & _). done.
  - intros k i Hi. apply (intent_ok_extends d); [|done|by eapply bo_intents0]. cbn.
    intros k' x Hk'. destruct (Hx _ _ Hk') as (x' & ? & [? _]). eauto.
Qed.

(** A new row under the next key. *)
Lemma fresh_absent {V : Type} (m : gmap Z V) n : (forall id v, m !! id = Some v -> id < n) -> m !! n = None.
Proof. intros Hm. destruct (m !! n) as [v|] eqn:E; [|done]. specialize (Hm n v E). lia. Qed.

Lemma insert_cases {V : Type} (m : gmap Z V) n v id x :
  <[n := v]> m !! id = Some x -> (id = n /\ x = v) \/ m !! id = Some x.
Proof.
  destruct (decide (id = n)) as [->|Hne]; [rewrite lookup_insert_eq|rewrite lookup_insert_ne by done]; [|by right].
  intros [= ->]. by left.
Qed.

Definition with_submission (p : mcp_submission) (d : db) : db :=
  set_submissions (<[next_id d := p]> (submissions d)) (set_next (next_id d + 1) d).
Definition with_intent (i : draft_operation) (d : db) : db :=
  set_intents (<[next_id d := i]> (intents d)) (set_next (next_id d + 1) d).
Definition with_capability (c : workflow_capability) (d : db) : db :=
  set_capabilities (<[next_id d := c]> (capabilities d)) (set_next (next_id d + 1) d).

Ltac next_keys H :=
  let Hrow := fresh in intros ? ? Hrow; cbn in *; apply insert_cases in Hrow as [[-> _]|Hrow]; [lia|apply H in Hrow; lia].

Lemma keeps_submission p d :
  digest (m_content p) = Ok (m_digest p) -> is_Some (capabilities d !! m_capability p) -> keeps d (with_submission p d).
Proof.
  intros Hp Hc Hd.
  assert (submissions d ⊆ <[next_id d := p]> (submissions d)) as Hsub.
  { apply insert_subseteq, fresh_absent, bo_submission_keys, Hd. }
  split; [|split; cbn; [eauto using renewed_refl|done..|lia]].
  destruct Hd. split; cbn; eauto.
  - intros id c Hid. specialize (bo_capability_keys0 id c Hid). lia.
  - next_keys bo_submission_keys0.
  - intros id c Hid. specialize (bo_intent_keys0 id c Hid). lia.
  - intros id q Hq. apply insert_cases in Hq as [[-> ->]|Hq]; eauto.
  - intros id i Hi. apply (intent_ok_extends d); eauto using same_identity_refl.
Qed.

Lemma keeps_intent i d :
  intent_ok d i -> (forall id i', intents d !! id = Some i' -> i_idempotency_key i' <> i_idempotency_key i) ->
  keeps d (with_intent i d).
Proof.
  intros Hi Hu Hd.
  assert (intents d ⊆ <[next_id d := i]> (intents d)) as Hsub.
  { apply insert_subseteq, fresh_absent, bo_intent_keys, Hd. }
  split; [|split; cbn; [eauto using renewed_refl|done..|lia]].
  destruct Hd. split; cbn; eauto.
  - intros id c Hid. specialize (bo_capability_keys0 id c Hid). lia.
  - intros id c Hid. specialize (bo_submission_keys0 id c Hid). lia.
  - next_keys bo_intent_keys0.
  - intros id j Hj. apply (intent_ok_extends d); eauto using same_identity_refl.
    apply insert_cases in Hj as [[-> ->]|Hj]; eauto.
  - intros id id' j j' Hj Hj' He. apply insert_cases in Hj as [[-> ->]|Hj], Hj' as [[-> ->]|Hj']; try done.
    + by destruct (Hu _ _ Hj').
    + by destruct (Hu _ _ Hj).
    + by eapply bo_intent_unique0.
Qed.

Lemma keeps_new_capability c d :
  (forall id c', capabilities d !! id = Some c' -> c_token_digest c' <> c_token_digest c) ->
  keeps d (with_capability c d).
Proof.
  intros Hu Hd. pose proof (fresh_absent _ _ (bo_capability_keys _ Hd)) as Hn.
  assert (forall id x, capabilities d !! id = Some x -> <[next_id d := c]> (capabilities d) !! id = Some x) as Hx.
  { intros id x Hx. rewrite lookup_insert_ne; [done|]. congruence. }
  split; [|split; cbn; [eauto using renewed_refl|done..|lia]].
  destruct Hd. split; cbn; eauto.
  - next_keys bo_capability_keys0.
  - intros id x Hid. specialize (bo_submission_keys0 id x Hid). lia.
  - intros id x Hid. specialize (bo_intent_keys0 id x Hid). lia.
  - intros id id' x x' H1 H2 He. apply insert_cases in H1 as [[-> ->]|H1], H2 as [[-> ->]|H2]; try done.
    + by destruct (Hu _ _ H2).
    + by destruct (Hu _ _ H1).
    + by eapply bo_tokens0.
  - intros id p Hp. destruct (bo_submissions0 id p Hp) as [? [x Hxs]]. split; [done|]. rewrite (Hx _ _ Hxs). done.
  - intros id i Hi. apply (intent_ok_extends d); eauto using same_identity_refl.
Qed.

Lemma keeps_invocation j d :
  j_request_id j ∉ map j_request_id (invocations d) ->
  j_idempotency_digest j ∉ map j_idempotency_digest (invocations d) ->
  keeps d (set_invocations (invocations d ++ [j]) d).
Proof.
  intros Hr Hi Hd. split; [|split; cbn; [eauto using renewed_refl|done..|by eexists|lia]].
  destruct Hd. split; cbn; eauto.
  - intros id i Hid. apply (intent_ok_extends d); eauto using same_identity_refl.
  - rewrite map_app. apply NoDup_app. split_and!; [done| |apply NoDup_singleton].
    intros x Hx ->%list_elem_of_singleton. done.
  - rewrite map_app. apply NoDup_app. split_and!; [done| |apply NoDup_singleton].
    intros x Hx ->%list_elem_of_singleton. done.
Qed.

(** ** Every broker call keeps the invariant *)

(** One read: the state stays and the continuation runs from it. *)
Ltac read_step :=
  match goal with
  | |- keeps ?d ((get ≫= _) ?d).2 => apply moved_bind; [exact _|reflexivity|intros ? ? [[= ->] ->]%get_inv; cbn beta]
  | |- keeps ?d ((lift _ ≫= _) ?d).2 =>
      apply moved_bind; [exact _|reflexivity|intros ? ? [? ->]%lift_inv; cbn beta]
  | |- keeps ?d ((fail_if _ _ ≫= _) ?d).2 =>
      apply moved_bind; [exact _|apply moves_fail_if; exact _|intros ? ? [? ->]%fail_if_ok_inv; cbn beta]
  | |- keeps ?d ((some_or _ _ ≫= _) ?d).2 =>
      apply moved_bind; [exact _|apply moves_some_or; exact _|intros ? ? [? ->]%some_or_ok_inv; cbn beta]
  end.

Lemma fresh_run d r d' : fresh d = (r, d') -> r = Ok (next_id d) /\ d' = set_next (next_id d + 1) d.
Proof. intros [= <- <-]. done. Qed.

Lemma keeps_submit cap kind content d :
  is_Some (capabilities d !! cap) -> keeps d (submit cap kind content d).2.
Proof.
  intros Hc. unfold submit. apply moved_bind; [exact _|reflexivity|].
  intros text d1 [Ht ->]%lift_inv. symmetry in Ht.
  apply (keeps_submission (MCPSubmission cap kind content text)); done.
Qed.

Lemma operation_kind_known provider kind :
  provider = "eventbrite" \/ provider = "iterable" -> kind ∈ operation_kinds provider ->
  known_operation provider kind = true.
Proof.
  intros [-> | ->] Hk; cbn in Hk; rewrite ?elem_of_cons in Hk;
    destruct_or! Hk; subst; try (by vm_compute); by apply not_elem_of_nil in Hk.
Qed.

(** A proposal of the scope of [c]. *)
Definition proposal_of (d : db) (c : workflow_capability) (pid : Z) (p : mcp_submission) : Prop :=
  submissions d !! pid = Some p /\ m_kind p = "proposal" /\
  exists c', capabilities d !! m_capability p = Some c' /\ same_scope c c' = true.

Lemma proposal_of_extends d d' c pid p : extends d d' -> proposal_of d c pid p -> proposal_of d' c pid p.
Proof.
  intros He (Hp & Hk & c' & Hc & Hs). split_and!; [eapply lookup_weaken; [exact Hp|apply He]|done|].
  destruct (ex_capabilities _ _ He _ _ Hc) as (c2 & Hc2 & [(_ & H1 & H2 & H3 & H4 & _) _]).
  exists c2. split; [done|]. unfold same_scope in *. by rewrite H1, H2, H3, H4.
Qed.

Lemma new_intent_ok d c pid p provider kind action idem :
  proposal_of d c pid p -> known_operation provider kind = true ->
  action_digest (c_workflow c) (c_revision_digest c) (new_intent c pid provider kind "" "") p = Ok action ->
  idempotency_digest (c_workflow c) (new_intent c pid provider kind action "") action = Ok idem ->
  intent_ok d (new_intent c pid provider kind action idem).
Proof.
  intros (Hp & Hk & c' & Hc & Hs) Hn Ha Hi. unfold same_scope in Hs. bools. split; [done..|].
  exists p, c'. split_and!; cbn; try done. by replace (c_revision_digest c') with (c_revision_digest c) by done.
Qed.

Lemma keeps_request c pid p provider kind d :
  proposal_of d c pid p -> known_operation provider kind = true ->
  keeps d (request_operation c (pid, p) provider kind d).2.
Proof.
  intros Hp Hk. unfold request_operation. cbn [fst snd]. do 2 read_step.
  apply moved_bind; [exact _| |intros ? ? ?; reflexivity].
  unfold get_or_create_intent. read_step.
  destruct (List.find _ _) as [row|] eqn:Hf; [reflexivity|].
  apply (keeps_intent (new_intent c pid provider kind a a0)).
  - by eapply new_intent_ok.
  - intros id i Hi He.
    pose proof (first_row_none _ (fun i => String.eqb (i_idempotency_key i) a0) _ _ Hf Hi) as Hn.
    cbn in He, Hn. by rewrite He, String.eqb_refl in Hn.
Qed.

(** The continuation of a successful step runs from a state that extends the first. *)
Lemma keeps_bind {A B} (m : M A) (k : A -> M B) d :
  keeps d (m d).2 ->
  (forall a d1, m d = (Ok a, d1) -> broker_ok d -> extends d d1 -> keeps d1 (k a d1).2) ->
  keeps d ((m ≫= k) d).2.
Proof.
  intros Hm Hk Hd. destruct (Hm Hd) as [Hd1 He]. unfold mbind, ST_bind.
  destruct (m d) as [[a|e] d1] eqn:Hr; cbn in *; [|done].
  destruct (Hk a d1 eq_refl Hd He Hd1) as [Hd2 He2]. split; [done|by etrans].
Qed.

Lemma keeps_requests c pid p provider d :
  provider = "eventbrite" \/ provider = "iterable" -> proposal_of d c pid p ->
  keeps d (request_operations c (pid, p) provider d).2.
Proof.
  intros Hpr Hp. unfold request_operations.
  apply moved_bind; [exact _| |intros ? ? ?; reflexivity].
  assert (forall kind, kind ∈ operation_kinds provider -> known_operation provider kind = true) as Hks
    by (intros; by apply operation_kind_known).
  assert (forall kinds acc d, (forall kind, kind ∈ kinds -> known_operation provider kind = true) ->
    proposal_of d c pid p -> keeps d (fold_each acc kinds (fun operations kind =>
      o ← request_operation c (pid, p) provider kind; mret (operations ++ [o])) d).2) as Hfold; [|by apply Hfold].
  induction kinds as [|kind kinds IH]; intros acc d0 Hk Hp0; [reflexivity|]. cbn [fold_each].
  apply keeps_bind.
  - apply moved_bind; [exact _| |intros ? ? ?; reflexivity]. apply keeps_request; [done|]. apply Hk. by left.
  - intros acc' d1 Hr Hd0 He. apply IH; [intros k Hin; apply Hk; by right|by eapply proposal_of_extends].
Qed.

Lemma find_proposal_run arguments c d pid p d' :
  find_proposal arguments c d = (Ok (pid, p), d') -> d' = d /\ proposal_of d c pid p.
Proof.
  unfold find_proposal. intros Hr. run_inv. split; [done|].
  destruct (submissions _ !! _) as [q|] eqn:Hq; [|done]. cbn in H0.
  destruct (capabilities _ !! _) as [c'|] eqn:Hc; [|done]. cbn in H0.
  destruct (String.eqb_spec (m_kind q) "proposal"), (same_scope c c') eqn:Hs; try done.
  cbn in H0. simplify_eq. split_and!; eauto.
Qed.

Lemma readonly_find_proposal arguments c : readonly (find_proposal arguments c).
Proof. unfold find_proposal. solve_readonly. Qed.

Lemma keeps_execute t a id c w r d :
  is_Some (capabilities d !! id) -> keeps d (execute t a id c w r d).2.
Proof.
  intros Hc. unfold execute.
  repeat match goal with |- context [if String.eqb t ?s then _ else _] => destruct (String.eqb_spec t s) as [->|?] end;
    try (by apply keeps_submit); try (apply moves_readonly; [exact _|solve_readonly]; fail).
  all: apply keeps_bind; [apply moves_readonly; [exact _|apply readonly_find_proposal]|];
    intros [pid p] d1 [-> Hp]%find_proposal_run Hd _.
  - apply moves_readonly; [exact _|solve_readonly].
  - apply keeps_requests; [by left|done].
  - apply keeps_requests; [by right|done].
Qed.

(** The row of an invocation that is asked for again. *)
Definition matches (request : Z) (idem : string) (j : mcp_invocation) : bool :=
  (j_request_id j =? request) || String.eqb (j_idempotency_digest j) idem.

Lemma no_match request idem l : List.find (matches request idem) l = None ->
  request ∉ map j_request_id l /\ idem ∉ map j_idempotency_digest l.
Proof.
  intros Hf. split; intros Hin; apply list_elem_of_In, in_map_iff in Hin as (j & <- & Hj);
    pose proof (List.find_none _ _ Hf j Hj) as Hm; unfold matches in Hm; bools; done.
Qed.

Lemma execute_invocations t a id c w r d v d' :
  execute t a id c w r d = (v, d') -> invocations d' = invocations d.
Proof.
  pose (R := fun d d' : db => invocations d' = invocations d).
  assert (PreOrder R) as HR by (split; [done|intros x y z; unfold R; congruence]).
  intros Hr. change (R d d'). eapply moves_run; [|exact Hr].
  unfold execute, find_proposal, submit, request_operations, request_operation, get_or_create_intent.
  solve_moves; by intros ?.
Qed.

Lemma keeps_invoke t a id c w r encoded d :
  is_Some (capabilities d !! id) -> keeps d (invoke t a id c w r encoded d).2.
Proof.
  intros Hc. unfold invoke. do 2 read_step. fold (matches (uuid_arg a "request_id") a0).
  destruct (List.find _ _) as [j|] eqn:Hf.
  - read_step. apply moved_bind; [exact _|apply keeps_audit|intros ? ? ?; reflexivity].
  - apply no_match in Hf as [Hf1 Hf2]. apply keeps_bind; [by apply keeps_execute|].
    intros v d1 Hr Hd He. apply execute_invocations in Hr. read_step.
    apply moved_bind; [exact _| |].
    + cbn. apply keeps_invocation; cbn; by rewrite Hr.
    + intros ? ? ?. apply moved_bind; [exact _|apply keeps_audit|intros ? ? ?; reflexivity].
Qed.

Lemma keeps_dispatch t a token encoded d : keeps d (dispatch t a token encoded d).2.
Proof.
  unfold dispatch. apply moved_atomic; [exact _|]. do 2 read_step. destruct a0 as [id c]. do 2 read_step.
  apply find_capability_some in H as [Hc _]. destruct a1 as [w r]. do 2 read_step.
  destruct (isnull (c_correlation_id c)) eqn:Hnull.
  - apply keeps_bind; [apply (keeps_capability id c); [done|];
      apply renewed_correlate; by destruct (c_correlation_id c)|].
    intros ? d1 Hr Hd He. destruct (ex_capabilities _ _ He _ _ Hc) as (x & Hx & _). by apply keeps_invoke.
  - apply moved_bind; [exact _|reflexivity|]. intros ? d1 [_ ->]%ret_inv. by apply keeps_invoke.
Qed.

Section signer.
Context `{Signer} (token_file : option (list Z)).

(** Every call leaves the tables in order and only adds to them, refused or not. *)
Lemma keeps_call t a s c : moves keeps (dispatch_mcp_tool token_file t a s c).
Proof.
  unfold dispatch_mcp_tool. apply moves_catch; [exact _| |intros e; solve_moves].
  solve_moves. intros d. apply keeps_dispatch.
Qed.

Lemma keeps_create c : moves keeps (create_capability c).
Proof.
  intros d. unfold create_capability. do 2 read_step. change (keeps d (with_capability c d)).
  apply keeps_new_capability. intros id c' Hc' He. bools.
  destruct (find_capability d (c_token_digest c)) eqn:Hf; [by destruct H0; eauto|].
  by apply (find_capability_none d _ id c' Hf Hc').
Qed.

Lemma keeps_issue nonce w r a tools lifetime : moves keeps (issue_workflow_capability nonce w r a tools lifetime).
Proof.
  intros d. unfold issue_workflow_capability. apply moved_atomic; [exact _|]. do 3 read_step.
  destruct a1 as [wf rev]. do 2 read_step.
  apply moved_bind; [exact _|apply keeps_create|intros ? ? ?].
  apply moved_bind; [exact _|apply keeps_audit|intros ? ? ?; reflexivity].
Qed.

(** A token that is issued: the row, and what it was issued for. *)
Lemma issue_ok nonce w rev a tools lifetime d token d' :
  issue_workflow_capability nonce w rev a tools lifetime d = (Ok token, d') ->
  exists wf r text log,
    token = token_of nonce /\ 1 <= lifetime <= 300 /\ tools <> [] /\ subset_of_tools tools = true /\
    workflow_row d w = Some (wf, r) /\ LaunchLoop.w_revision wf = rev /\
    LaunchLoop.r_event r = LaunchLoop.w_event wf /\ active_operator d a = true /\
    digest (JDict (LaunchLoop.r_snapshot r)) = Ok text /\
    (forall id c, capabilities d !! id = Some c -> c_token_digest c <> token_digest token) /\
    d' = set_launch (LaunchLoop.set_audit log (launch d)) (with_capability
      (WorkflowCapability (token_digest token) text w rev a (sorted_names tools) AUDIENCE (clock d)
         (clock d + lifetime * SECOND) None None) d).
Proof.
  intros Hr. unfold issue_workflow_capability in Hr. apply atomic_ok_inv in Hr.
  apply bind_ok_inv in Hr as ([] & ? & [Hg ->]%fail_if_ok_inv & Hr).
  apply bind_ok_inv in Hr as (? & ? & [[= ->] ->]%get_inv & Hr).
  apply bind_ok_inv in Hr as ([wf r] & ? & [Hw ->]%some_or_ok_inv & Hr).
  apply bind_ok_inv in Hr as ([] & ? & [Hs ->]%fail_if_ok_inv & Hr).
  apply bind_ok_inv in Hr as (text & ? & [Hx ->]%lift_inv & Hr).
  apply bind_ok_inv in Hr as (id & d0 & Hc & Hr). unfold audit in Hr. run_inv.
  unfold create_capability, fresh in Hc. run_inv. bools.
  match goal with |- context [set_launch (LaunchLoop.set_audit ?log _) _] => exists wf, r, text, log end.
  split_and!; try done; [lia..|].
  intros k c Hk He. match goal with H : ~ is_Some _ |- _ => apply H end. cbn.
  destruct (find_capability d _) as [row|] eqn:Hf; [by eexists|]. by destruct (find_capability_none d _ k c Hf Hk).
Qed.

Lemma keeps_revoke token : moves keeps (revoke_workflow_capability token).
Proof.
  intros d. unfold revoke_workflow_capability. apply moved_atomic; [exact _|]. do 2 read_step. destruct a as [id c].
  apply find_capability_some in H0 as [Hc _]. apply moved_bind; [exact _| |intros ? ? ?; apply keeps_audit].
  apply (keeps_capability id c); [done|apply renewed_revoke].
Qed.
End signer.

End BrokerFacts.
