(* ===== verification/BrokerTheorems.v ===== *)
(** * Theorems about capabilities and the tool broker *)

From S2P Require Import Prelude PyValue Sha256 Base64 JsonText JsonTextTheorems OwnerEvents LaunchLoop ToolSchemas ToolSchemasTheorems Uuid DraftProvider EventbriteDrafts IterableDrafts IterableTemplates DraftRows DraftReview DraftEffects Transactions Broker BrokerEffects.

Module BrokerSafety.
Import Provider Rows Review Broker Transactions Effects BrokerFacts.

Lemma catch_ok_inv {A} (m : M A) h d a d' :
  catch m h d = (Ok a, d') -> m d = (Ok a, d') \/ exists e d1, m d = (Err e, d1) /\ h e d1 = (Ok a, d').
Proof. unfold catch. destruct (m d) as [[x|e] d1]; [by left|right; eauto]. Qed.

Section signer.
Context `{Signer} (token_file : option (list Z)).
#[local] Abbreviation call := (dispatch_mcp_tool token_file).

(** ** The gate of a call *)

(** What [_dispatch] requires of the tables before it runs a tool. *)
Record admissible (d : db) (tool_name token : string) (arguments : json) (id : Z) (c : workflow_capability)
    (w : LaunchLoop.workflow) (r : LaunchLoop.event_revision) : Prop := Admissible {
  ad_token : find_capability d (token_digest token) = Some (id, c);
  ad_scope : in_scope d c tool_name arguments = true;
  ad_workflow : workflow_row d (c_workflow c) = Some (w, r);
  ad_revision : exists current, digest (JDict (LaunchLoop.r_snapshot r)) = Ok current /\
    revision_current c w r current = true;
  ad_correlated : correlated c arguments = true;
}.

(** The capability as the tool sees it, its correlation bound. *)
Definition bound (arguments : json) (c : workflow_capability) : workflow_capability :=
  if isnull (c_correlation_id c) then correlate (uuid_arg arguments "correlation_id") c else c.
Definition bind_correlation (arguments : json) (id : Z) (c : workflow_capability) (d : db) : db :=
  if isnull (c_correlation_id c) then set_capabilities (<[id := bound arguments c]> (capabilities d)) d else d.

Lemma dispatch_admitted t a token encoded d id c w r :
  admissible d t token a id c w r ->
  dispatch t a token encoded d =
    atomic (fun d => invoke t a id (bound a c) w r encoded (bind_correlation a id c d)) d.
Proof.
  intros [Ht Hs Hw (current & Hd & Hr) Hc]. unfold dispatch, atomic, mbind, ST_bind, get, some_or. rewrite Ht.
  cbn [mret ST_ret]. unfold fail_if at 1. rewrite Hs. cbn [negb mret ST_ret]. rewrite Hw. cbn [mret ST_ret].
  unfold lift at 1. rewrite Hd. unfold fail_if. rewrite Hr, Hc. cbn [negb orb mret ST_ret].
  unfold bind_correlation, bound. by destruct (isnull (c_correlation_id c)).
Qed.

Lemma dispatch_gate t a token encoded d v d' :
  dispatch t a token encoded d = (Ok v, d') -> exists id c w r, admissible d t token a id c w r.
Proof.
  unfold dispatch. intros Hr. run_inv.
  match goal with x : Z * workflow_capability |- _ => destruct x as [id c] end. run_inv.
  match goal with x : LaunchLoop.workflow * LaunchLoop.event_revision |- _ => destruct x as [w r] end. run_inv. bools.
  exists id, c, w, r. by split; eauto.
Qed.

(** A call that succeeds: the identity, the token and the arguments are accepted, and the
    tool runs under its capability. *)
Lemma call_ok_inv t a s cap d v d' :
  call t a s cap d = (Ok v, d') ->
  authenticate_service token_file s = Ok () /\
  exists token encoded id c w r, cap = JStr token /\ slen token <= MAX_TOKEN /\ verify_token token = Ok () /\
    ToolSchemas.validate_tool_arguments t a = Ok encoded /\
    admissible d (tool_text t) token a id c w r /\
    invoke (tool_text t) a id (bound a c) w r encoded (bind_correlation a id c d) = (Ok v, d').
Proof.
  unfold dispatch_mcp_tool. intros Hr. apply catch_ok_inv in Hr as [Hr|(e & d1 & _ & Hr)].
  2: { destruct e; run_inv. }
  apply bind_ok_inv in Hr as ([] & ? & [Hs ->]%lift_inv & Hr). split; [done|].
  apply bind_ok_inv in Hr as (token & ? & [Hb ->]%lift_inv & Hr).
  apply bind_ok_inv in Hr as ([] & ? & [Hv ->]%lift_inv & Hr).
  apply bind_ok_inv in Hr as (encoded & ? & [He ->]%lift_inv & Hr).
  unfold bearer in Hb. destruct cap as [| | | |text| |]; try done.
  destruct (Z.ltb_spec MAX_TOKEN (slen text)); [done|]. injection Hb as ->.
  unfold tool in He. destruct (ToolSchemas.validate_tool_arguments t a) as [encoded'|] eqn:Hva; [|done].
  injection He as ->. destruct (dispatch_gate _ _ _ _ _ _ _ Hr) as (id & c & w & r & Ha).
  exists text, encoded', id, c, w, r. split_and!; try done.
  rewrite (dispatch_admitted _ _ _ _ _ _ _ _ _ Ha) in Hr. by apply atomic_ok_inv in Hr.
Qed.

(** ** Refused calls *)

Definition logged (u : LaunchLoop.audit_event) (d : db) : db :=
  set_launch (LaunchLoop.set_audit (LaunchLoop.d_audit (launch d) ++ [u]) (launch d)) d.

(** What a refusal leaves: one event without an actor, or nothing. *)
Definition recorded (tool_name : json) (e : exn) (d : db) : db :=
  match e with
  | AuthorizationDenied stage =>
      logged (LaunchLoop.AuditEvent None "mcp.tool_denied" "mcp" (LaunchLoop.Named "broker")
        (JDict [("reason", JStr "authorization_failed"); ("stage", JStr stage);
                ("tool", JStr (tool_label tool_name))])) d
  | InvalidToolArguments =>
      logged (LaunchLoop.AuditEvent None "mcp.tool_invalid" "mcp" (LaunchLoop.Named "broker")
        (JDict [("reason", JStr "invalid_arguments")])) d
  | _ => d
  end.

Lemma lift_err_same {A B} (r : result exn A) (k : A -> M B) d e d' :
  (lift r ≫= k) d = (Err e, d') -> d' = d \/ exists a, r = Ok a /\ k a d = (Err e, d').
Proof. destruct r as [a|x]; cbn; [right; eauto|]. intros [= _ <-]. by left. Qed.

(** C17 A call that is refused, for whatever reason and at whatever point, changes nothing but
    the log: a denial and a malformed call leave one event that names neither the caller nor
    its arguments, and any other failure leaves nothing. *)
Theorem refused_call_is_only_recorded t a s cap d e d' :
  call t a s cap d = (Err e, d') -> d' = recorded t e d.
Proof.
  unfold dispatch_mcp_tool, catch. intros Hr.
  match type of Hr with context [match ?m d with _ => _ end] => destruct (m d) as [[v|x] d1] eqn:Hm end; [done|].
  assert (d1 = d) as ->.
  { apply lift_err_same in Hm as [Hm|([] & _ & Hm)]; [done|].
    apply lift_err_same in Hm as [Hm|(token & _ & Hm)]; [done|].
    apply lift_err_same in Hm as [Hm|([] & _ & Hm)]; [done|].
    apply lift_err_same in Hm as [Hm|(encoded & _ & Hm)]; [done|]. by apply atomic_err in Hm. }
  destruct x; unfold audit in *; run_inv; done.
Qed.

(** ** What a successful call may do *)

(** New rows carry the capability, or its scope. *)
Definition scoped (id : Z) (c : workflow_capability) (d d' : db) : Prop :=
  (forall k p, submissions d' !! k = Some p -> submissions d !! k = Some p \/ m_capability p = id) /\
  (forall k i, intents d' !! k = Some i -> intents d !! k = Some i \/
    (i_workflow i = c_workflow c /\ i_revision i = c_revision c /\ i_actor i = c_actor c /\
     i_status i = "pending" /\ i_approval i = None /\ i_receipt i = None)).

#[local] Instance scoped_preorder id c : PreOrder (scoped id c).
Proof.
  split; [by intros d; split; auto|]. intros x y z [H1 H2] [H3 H4]. split; [intros k p Hp|intros k i Hi].
  - destruct (H3 k p Hp); auto.
  - destruct (H4 k i Hi); auto.
Qed.

Lemma scoped_elsewhere id c d d' : submissions d' = submissions d -> intents d' = intents d -> scoped id c d d'.
Proof. intros Hs Hi. unfold scoped. rewrite Hs, Hi. auto. Qed.

Lemma scoped_modify id c f : (forall d, scoped id c d (f d)) -> moves (scoped id c) (modify f : M ()).
Proof. intros Hf d. apply Hf. Qed.

Lemma scoped_execute t a id c w r : moves (scoped id c) (execute t a id c w r).
Proof.
  assert (moves (scoped id c) fresh) as Hfresh by (intros d; by apply scoped_elsewhere).
  unfold execute, find_proposal, submit, request_operations, request_operation, get_or_create_intent.
  repeat match goal with
  | |- moves _ (modify _) => apply scoped_modify; intros d; split; cbn; intros k x Hx; auto;
      apply insert_cases in Hx as [[-> ->]|Hx]; auto; right; by repeat split
  | |- moves _ _ => first [exact Hfresh | moves_step]
  end.
Qed.

Lemma scoped_invoke t a id c w r encoded : moves (scoped id c) (invoke t a id c w r encoded).
Proof.
  pose proof (scoped_execute t a id c w r) as He. unfold invoke, audit_call, audit.
  repeat match goal with
  | |- moves _ (modify _) => apply scoped_modify; intros d; by apply scoped_elsewhere
  | |- moves _ _ => first [exact He | moves_step]
  end.
Qed.

Lemma bound_identity a c : same_identity c (bound a c).
Proof. unfold bound. by destruct (isnull _). Qed.

(** What a call is allowed by: a live capability that lists the tool, for exactly the scope of
    the arguments, at the current revision. *)
Record authorised (d : db) (t token : string) (a : json) (id : Z) (c : workflow_capability)
    (w : LaunchLoop.workflow) (r : LaunchLoop.event_revision) : Prop := Authorised {
  au_token : capabilities d !! id = Some c /\ c_token_digest c = token_digest token;
  au_live : c_revoked_at c = None /\ c_issued_at c <= clock d < c_expires_at c /\
    c_expires_at c <= c_issued_at c + 300 * SECOND;
  au_tool : t ∈ c_tools c;
  au_arguments : arg a "workflow_id" = str_id (c_workflow c) /\ arg a "actor_id" = JStr (c_actor c) /\
    py_eq (JInt (c_revision c)) (arg a "revision_id") = true;
  au_operator : exists actor pk u, LaunchLoop.d_actors (launch d) !! c_actor c = Some actor /\
    LaunchLoop.a_role actor = LaunchLoop.OPERATOR /\ LaunchLoop.a_user actor = Some pk /\
    users d !! pk = Some u /\ u_is_active u = true;
  au_workflow : LaunchLoop.d_workflows (launch d) !! c_workflow c = Some w /\
    LaunchLoop.d_revisions (launch d) !! c_revision c = Some r;
  au_revision : LaunchLoop.w_revision w = c_revision c /\ LaunchLoop.w_event w = LaunchLoop.r_event r /\
    digest (JDict (LaunchLoop.r_snapshot r)) = Ok (c_revision_digest c);
  au_correlated : forall x, c_correlation_id c = Some x -> arg a "correlation_id" = str_id x;
}.

Lemma py_eq_text s v : py_eq (JStr s) v = true -> v = JStr s.
Proof. destruct v; cbn; try done. intros E. bools. by subst. Qed.

Lemma active_operator_spec d slug : active_operator d slug = true ->
  exists actor pk u, LaunchLoop.d_actors (launch d) !! slug = Some actor /\
    LaunchLoop.a_role actor = LaunchLoop.OPERATOR /\ LaunchLoop.a_user actor = Some pk /\
    users d !! pk = Some u /\ u_is_active u = true.
Proof.
  unfold active_operator. destruct (_ !! slug) as [actor|]; [|done].
  destruct (LaunchLoop.a_user actor) as [pk|] eqn:Hp; cbn.
  2: { intros E. by bools. }
  destruct (users d !! pk) as [u|] eqn:Hu; intros E; bools; [by exists actor, pk, u|done].
Qed.

Lemma workflow_row_spec d id w r : workflow_row d id = Some (w, r) ->
  LaunchLoop.d_workflows (launch d) !! id = Some w /\ LaunchLoop.d_revisions (launch d) !! LaunchLoop.w_revision w = Some r.
Proof.
  unfold workflow_row. destruct (_ !! id) as [w'|]; [|done]. cbn.
  destruct (LaunchLoop.d_revisions _ !! _) as [r'|] eqn:Hr; [|done]. cbn. by intros [= -> ->].
Qed.

Lemma admissible_authorised d t token a id c w r : admissible d t token a id c w r -> authorised d t token a id c w r.
Proof.
  intros [Hf Hs Hw (current & Hd & Hr) Hc]. apply find_capability_some in Hf. apply workflow_row_spec in Hw as [Hw Hv].
  unfold in_scope, live, revision_current, correlated in *. bools. subst.
  match goal with H : active_operator _ _ = true |- _ => apply active_operator_spec in H end.
  repeat match goal with H : py_eq (str_id _) _ = true |- _ => apply py_eq_text in H | H : py_eq (JStr _) _ = true |- _ => apply py_eq_text in H end.
  split; try done.
  - split; [by destruct (c_revoked_at c)|]. unfold SECOND in *. lia.
  - split; congruence.
  - intros x Hx. rewrite Hx in Hc. by apply py_eq_text in Hc.
Qed.

(** C8 A tool call succeeds only with the service's identity and a live, unrevoked token whose
    capability lists the tool and names exactly the workflow, the revision (still current and
    unchanged) and the active operator of the arguments.  It writes only the broker's own
    tables: every new submission carries that capability and every new operation is pending
    and of that workflow, revision and actor. *)
Theorem only_scoped_calls_act t a s cap d v d' :
  call t a s cap d = (Ok v, d') ->
  authenticate_service token_file s = Ok () /\ touches d d' /\
  exists token id c w r, cap = JStr token /\ verify_token token = Ok () /\
    is_ok (ToolSchemas.validate_tool_arguments t a) = true /\
    authorised d (tool_text t) token a id c w r /\ scoped id c d d'.
Proof.
  intros Hr. pose proof (moves_run _ _ _ _ _ (touches_call token_file t a s cap) Hr) as Ht.
  apply call_ok_inv in Hr as (Hs & token & encoded & id & c & w & r & -> & _ & Hv & He & Ha & Hr).
  split_and!; [done..|]. exists token, id, c, w, r.
  split_and!; [done..|by rewrite He|by apply admissible_authorised|].
  apply (moves_run _ _ _ _ _ (scoped_invoke _ _ _ _ _ _ _)) in Hr.
  unfold scoped in *. destruct (bound_identity a c) as (_ & _ & Hw & Hre & Hac & _). rewrite Hw, Hre, Hac in Hr.
  unfold bind_correlation in Hr. by destruct (isnull _).
Qed.


(** ** Replays *)

(** The row a repeated call is answered from. *)
Definition answered_by (t : string) (a : json) (id : Z) (encoded : string) (v : json) (d : db) : Prop :=
  exists idem j, digest (JList [str_id id; arg a "idempotency_key"]) = Ok idem /\
    List.find (matches (uuid_arg a "request_id") idem) (invocations d) = Some j /\
    j_capability j = id /\ j_tool_name j = t /\ j_argument_digest j = Sha256.sha256_hex encoded /\
    j_idempotency_digest j = idem /\ j_result j = v.

Lemma find_app {A : Type} (f : A -> bool) l l' x :
  List.find f l = Some x -> List.find f (l ++ l') = Some x.
Proof. induction l as [|y l IH]; cbn; [done|]. by destruct (f y). Qed.
Lemma find_snoc {A : Type} (f : A -> bool) l x :
  List.find f l = None -> f x = true -> List.find f (l ++ [x]) = Some x.
Proof. induction l as [|y l IH]; cbn; [by intros _ ->|]. by destruct (f y). Qed.

Lemma answered_by_prefix t a id encoded v d d' :
  invocations d `prefix_of` invocations d' -> answered_by t a id encoded v d -> answered_by t a id encoded v d'.
Proof.
  intros [l Hl] (idem & j & Hi & Hf & Hj). exists idem, j. rewrite Hl. split_and!; [done| |apply Hj..].
  by apply find_app.
Qed.

Lemma invoke_answers t a id c w r encoded d v d' :
  invoke t a id c w r encoded d = (Ok v, d') -> answered_by t a id encoded v d'.
Proof.
  unfold invoke. intros Hr.
  apply bind_ok_inv in Hr as (idem & ? & [Hi ->]%lift_inv & Hr).
  apply bind_ok_inv in Hr as (? & ? & [[= ->] ->]%get_inv & Hr). exists idem. cbn beta in Hr.
  fold (matches (uuid_arg a "request_id") idem) in Hr.
  destruct (List.find _ _) as [j|] eqn:Hf.
  - apply bind_ok_inv in Hr as ([] & ? & [Hm ->]%fail_if_ok_inv & Hr). unfold audit_call, audit in Hr. run_inv. bools.
    exists j. by split_and!.
  - apply bind_ok_inv in Hr as (res & d1 & He & Hr). apply execute_invocations in He.
    unfold audit_call, audit in Hr. run_inv.
    eexists (MCPInvocation id (uuid_arg a "request_id") idem (Sha256.sha256_hex encoded) t _).
    split_and!; try done. cbn. rewrite He. apply find_snoc; [done|]. unfold matches. cbn. by rewrite Z.eqb_refl.
Qed.

(** The event of a replay. *)
Definition replayed (t : string) (a : json) (id : Z) (c : workflow_capability) : LaunchLoop.audit_event :=
  LaunchLoop.AuditEvent (Some (c_actor c)) "mcp.tool_replayed" "workflow" (LaunchLoop.Row (c_workflow c))
    (JDict [("capability_id", str_id id); ("tool", JStr t); ("correlation_id", arg a "correlation_id");
            ("request_id", arg a "request_id")]).

Lemma invoke_replays t a id c w r encoded v d :
  answered_by t a id encoded v d -> invoke t a id c w r encoded d = (Ok v, logged (replayed t a id c) d).
Proof.
  intros (idem & j & Hi & Hf & Hc & Ht & Ha & Hd & Hv). unfold invoke, mbind, ST_bind, lift, get.
  rewrite Hi. fold (matches (uuid_arg a "request_id") idem). rewrite Hf, Hc, Ht, Ha, Hd.
  rewrite Z.eqb_refl, !String.eqb_refl. by rewrite <- Hv.
Qed.

(** What a later state knows of the capability of a call. *)
Lemma later_capability d1 d2 id id' c0 c token :
  extends d1 d2 -> broker_ok d2 -> capabilities d1 !! id = Some c0 -> c_token_digest c0 = token_digest token ->
  find_capability d2 (token_digest token) = Some (id', c) -> id' = id /\ renewed c0 c.
Proof.
  intros He Hd2 Hc0 Ht Hf. apply find_capability_some in Hf as [Hc Hcd].
  destruct (ex_capabilities _ _ He _ _ Hc0) as (c2 & Hc2 & Hren).
  assert (id' = id) as ->.
  { apply (bo_tokens _ Hd2 _ _ _ _ Hc Hc2). destruct Hren as [(Hx & _) _]. congruence. }
  split; [done|]. congruence.
Qed.

(** The capability of a successful call is bound to its correlation afterwards. *)
Lemma call_binds t a s token d v d' :
  broker_ok d -> call t a s (JStr token) d = (Ok v, d') ->
  exists id c encoded, capabilities d' !! id = Some c /\ c_token_digest c = token_digest token /\
    is_Some (c_correlation_id c) /\ ToolSchemas.validate_tool_arguments t a = Ok encoded /\
    answered_by (tool_text t) a id encoded v d' /\
    authenticate_service token_file s = Ok () /\ slen token <= MAX_TOKEN /\ verify_token token = Ok ().
Proof.
  intros Hd Hr. apply call_ok_inv in Hr as (Hs & ? & encoded & id & c & w & r & [= <-] & Hl & Hv & He & Ha & Hr).
  destruct Ha as [Ht _ _ _ _]. apply find_capability_some in Ht as [Hc Ht].
  assert (broker_ok (bind_correlation a id c d) /\ capabilities (bind_correlation a id c d) !! id = Some (bound a c)
    /\ is_Some (c_correlation_id (bound a c))) as (Hd1 & Hc1 & Hx).
  { unfold bind_correlation, bound. destruct (c_correlation_id c) eqn:Hcor; cbn; [by rewrite Hcor|].
    rewrite lookup_insert_eq. split_and!; [|done|by eexists].
    apply (keeps_capability id c); [done| |done]. by apply renewed_correlate. }
  pose proof (keeps_invoke (tool_text t) a id (bound a c) w r encoded _ (ltac:(by eexists)) Hd1) as [_ Hext].
  rewrite Hr in Hext. destruct (ex_capabilities _ _ Hext _ _ Hc1) as (c2 & Hc2 & Hi & _ & Hcor).
  exists id, c2, encoded. split_and!; try done.
  - destruct Hi as [-> _]. by destruct (bound_identity a c) as [-> _].
  - destruct Hx as [x Hx]. exists x. by apply Hcor.
  - by apply invoke_answers in Hr.
Qed.

(** C14 A repeated call is answered, not executed: whatever has happened to the tables since
    the first call succeeded, the same call gives the same result again and adds one event to
    the log, no submission, operation or invocation. *)
Theorem replayed_call_answers_alike t a s token v d d1 d2 id c w r :
  broker_ok d -> call t a s (JStr token) d = (Ok v, d1) ->
  extends d1 d2 -> broker_ok d2 -> admissible d2 (tool_text t) token a id c w r ->
  call t a s (JStr token) d2 = (Ok v, logged (replayed (tool_text t) a id c) d2).
Proof.
  intros Hd Hr He Hd2 Ha.
  destruct (call_binds _ _ _ _ _ _ _ Hd Hr) as (id0 & c0 & encoded & Hc0 & Ht0 & [x Hx] & Hva & Han & Hs & Hl & Hv).
  destruct (later_capability _ _ _ _ _ _ _ He Hd2 Hc0 Ht0 (ad_token _ _ _ _ _ _ _ _ Ha)) as [-> (_ & _ & Hcor)].
  specialize (Hcor x Hx). eapply answered_by_prefix in Han; [|apply He].
  unfold dispatch_mcp_tool, catch, bearer, mbind, ST_bind, lift. rewrite Hs.
  destruct (Z.ltb_spec MAX_TOKEN (slen token)); [lia|]. rewrite Hv. unfold tool. rewrite Hva.
  rewrite (dispatch_admitted _ _ _ _ _ _ _ _ _ Ha). unfold bind_correlation, bound. rewrite Hcor. cbn [isnull].
  unfold atomic. by rewrite (invoke_replays _ _ _ _ _ _ _ _ _ Han).
Qed.

(** C15 A revoked token opens nothing any more: from the revocation on, in every later state
    of the tables, no tool call with it succeeds and no context is bound to it. *)
Theorem revoked_token_is_refused token d d1 d2 t a s :
  broker_ok d -> revoke_workflow_capability token d = (Ok (), d1) -> extends d1 d2 -> broker_ok d2 ->
  is_ok (call t a s (JStr token) d2).1 = false /\ is_ok (bound_tool_context (JStr token) d2).1 = false.
Proof.
  intros Hd Hr He Hd2.
  assert (exists id c, capabilities d1 !! id = Some c /\ c_token_digest c = token_digest token /\
    is_Some (c_revoked_at c)) as (id0 & c0 & Hc0 & Ht0 & Hrev).
  { unfold revoke_workflow_capability in Hr. apply atomic_ok_inv in Hr.
    apply bind_ok_inv in Hr as (? & ? & [[= ->] ->]%get_inv & Hr).
    apply bind_ok_inv in Hr as ([id c] & ? & [Hf ->]%some_or_ok_inv & Hr).
    apply find_capability_some in Hf as [Hc Ht]. unfold save_capability, audit in Hr. run_inv.
    exists id, (revoke_at (clock d) c). cbn. rewrite lookup_insert_eq. split_and!; [done..|by eexists]. }
  assert (forall id c, find_capability d2 (token_digest token) = Some (id, c) -> live (clock d2) c = false) as Hdead.
  { intros id c Hf. destruct (later_capability _ _ _ _ _ _ _ He Hd2 Hc0 Ht0 Hf) as [-> (_ & Hkeep & _)].
    unfold live. destruct (Hkeep Hrev) as [x ->]. cbn. by rewrite andb_false_r. }
  split.
  - destruct (call t a s (JStr token) d2) as [[v|e] d3] eqn:Hcall; [|done].
    apply call_ok_inv in Hcall as (_ & ? & ? & id & c & w & r & [= <-] & _ & _ & _ & [Hf Hs _ _ _] & _).
    unfold in_scope in Hs. by rewrite (Hdead _ _ Hf) in Hs.
  - destruct (bound_tool_context (JStr token) d2) as [[v|e] d3] eqn:Hcall; [|done].
    unfold bound_tool_context in Hcall. apply bind_ok_inv in Hcall as (text & ? & [Hb ->]%lift_inv & Hcall).
    unfold bearer in Hb. destruct (_ <? _); [done|]. injection Hb as ->.
    apply bind_ok_inv in Hcall as ([] & ? & [_ ->]%lift_inv & Hcall).
    apply bind_ok_inv in Hcall as (? & ? & [[= ->] ->]%get_inv & Hcall).
    apply bind_ok_inv in Hcall as ([id c] & ? & [Hf ->]%some_or_ok_inv & Hcall).
    apply bind_ok_inv in Hcall as ([] & ? & [Hg _]%fail_if_ok_inv & Hcall).
    by rewrite (Hdead _ _ Hf) in Hg.
Qed.


(** ** Issued tokens *)

Lemma bytes_of_string_length s : length (Sha256.bytes_of_string s) = String.length s.
Proof. unfold Sha256.bytes_of_string. rewrite length_map. induction s; cbn; congruence. Qed.
Lemma bytes_of_string_bytes s : forallb Sha256.is_byte (Sha256.bytes_of_string s) = true.
Proof.
  unfold Sha256.bytes_of_string. induction s as [|c s IH]; [done|]. cbn. rewrite IH, andb_true_r.
  unfold Sha256.is_byte, ascii_code. pose proof (Ascii.N_ascii_bounded c).
  destruct (Z.leb_spec 0 (Z.of_N (Ascii.N_of_ascii c))), (Z.leb_spec (Z.of_N (Ascii.N_of_ascii c)) 255); cbn; lia.
Qed.

Lemma token_accepted nonce : slen nonce = 43 ->
  bearer (JStr (token_of nonce)) = Ok (token_of nonce) /\ verify_token (token_of nonce) = Ok ().
Proof.
  intros Hn. pose proof (sign_length nonce) as Hs. rewrite Hn in Hs.
  assert (Z.of_nat (length (Sha256.bytes_of_string (sign nonce))) = 87) as Hb.
  { rewrite bytes_of_string_length. exact Hs. }
  split.
  - unfold bearer, token_of. unfold slen. rewrite slength_app, Nat2Z.inj_add, Base64.encode_length, Hb. done.
  - unfold verify_token, token_of. rewrite JsonFacts.prefix_app, JsonFacts.drop_prefix_app.
    rewrite Base64.urlsafe_decode_encode by apply bytes_of_string_bytes.
    by rewrite JsonFacts.string_of_bytes_of_string, unsign_sign.
Qed.

Lemma sorted_names_perm l : sorted_names l ≡ₚ l.
Proof.
  unfold sorted_names. rewrite JsonFacts.sort_items_perm, map_map. cbn. by rewrite map_id.
Qed.

(** C16 An issued token is accepted: for a nonce of the length that [token_urlsafe(32)] draws,
    the token passes the broker's checks and opens exactly the tools it was issued for, with
    no correlation chosen yet. *)
Theorem issued_token_is_bound nonce w r a tools lifetime token d d1 :
  broker_ok d -> slen nonce = 43 ->
  issue_workflow_capability nonce w r a tools lifetime d = (Ok token, d1) ->
  bound_tool_context (JStr token) d1 = (Ok (None, sorted_names tools), d1).
Proof.
  intros Hd Hn Hr. pose proof (moves_run _ _ _ _ _ (keeps_issue nonce w r a tools lifetime) Hr Hd) as [Hd1 _].
  apply issue_ok in Hr as (wf & rev & text & log & -> & Hl & Ht & Hsub & Hw & Hrev & Hev & Hop & Hx & _ & ->).
  match goal with |- bound_tool_context _ ?d' = _ => set (d1 := d') in * end.
  match type of d1 with _ => match eval unfold d1 in d1 with context [with_capability ?x _] => set (c := x) in * end end.
  assert (find_capability d1 (token_digest (token_of nonce)) = Some (next_id d, c)) as Hf
    by (apply find_capability_known; [done|apply lookup_insert_eq|done]).
  destruct (token_accepted nonce Hn) as [Hbe Hv].
  unfold bound_tool_context, mbind, ST_bind, lift, get, some_or. rewrite Hbe, Hv, Hf.
  assert (live (clock d1) c = true) as Hlive.
  { unfold live. rewrite !andb_true_iff. split_and!; try (subst c; done); subst c; cbn; unfold SECOND;
      rewrite ?Z.ltb_lt, ?Z.leb_le; lia. }
  assert (c_tools c <> []) as Hne.
  { subst c. cbn. intros He. pose proof (sorted_names_perm tools) as Hp. rewrite He in Hp.
    by apply Permutation_nil_l in Hp. }
  assert (subset_of_tools (c_tools c) = true) as Hsubc.
  { subst c. cbn. unfold subset_of_tools in *. by rewrite (JsonFacts.forallb_perm _ _ _ (sorted_names_perm tools)). }
  cbn [mret ST_ret]. unfold fail_if. rewrite Hlive, Hsubc, (bool_decide_eq_false_2 _ Hne).
  replace (active_operator d1 (c_actor c)) with true by done. cbn [negb orb mret ST_ret].
  replace (workflow_row d1 (c_workflow c)) with (Some (wf, rev)) by done. cbn [mret ST_ret].
  rewrite Hx. unfold revision_current.
  replace (LaunchLoop.w_revision wf =? c_revision c) with true by (symmetry; by apply Z.eqb_eq).
  replace (String.eqb text (c_revision_digest c)) with true by (symmetry; apply String.eqb_refl).
  replace (LaunchLoop.w_event wf =? LaunchLoop.r_event rev) with true by (symmetry; by apply Z.eqb_eq).
  done.
Qed.

(** ** Requested operations *)

Lemma request_again c pid p provider kind d v d1 d2 :
  request_operation c (pid, p) provider kind d = (Ok v, d1) -> extends d1 d2 -> broker_ok d2 ->
  request_operation c (pid, p) provider kind d2 = (Ok v, d2).
Proof.
  unfold request_operation. cbn [fst snd]. intros Hr He Hd2.
  apply bind_ok_inv in Hr as (action & ? & [Ha ->]%lift_inv & Hr).
  apply bind_ok_inv in Hr as (idem & ? & [Hi ->]%lift_inv & Hr).
  apply bind_ok_inv in Hr as ([id o] & d3 & Hg & [[= ->] ->]%ret_inv).
  assert (intents d3 !! id = Some o /\ i_idempotency_key o = idem) as [Ho Hk].
  { unfold get_or_create_intent in Hg. apply bind_ok_inv in Hg as (? & ? & [[= ->] ->]%get_inv & Hg).
    destruct (List.find _ _) as [row|] eqn:Hf.
    - run_inv. apply (first_row_some _ (fun i => String.eqb (i_idempotency_key i) idem)) in Hf as [? Hf].
      by apply String.eqb_eq in Hf.
    - unfold fresh in Hg. run_inv. cbn. by rewrite lookup_insert_eq. }
  pose proof (lookup_weaken _ _ _ _ Ho (ex_intents _ _ He)) as Ho2.
  unfold mbind, ST_bind, lift. rewrite <- Ha, <- Hi. unfold get_or_create_intent, mbind, ST_bind, get.
  assert (List.find (fun kv => String.eqb (i_idempotency_key kv.2)
    (i_idempotency_key (new_intent c pid provider kind action idem))) (map_to_list (intents d2)) = Some (id, o)) as ->.
  { apply (first_row_known _ (fun i => String.eqb (i_idempotency_key i) idem)); [|done|by apply String.eqb_eq].
    intros k i Hki He'. apply String.eqb_eq in He'. apply (bo_intent_unique _ Hd2 _ _ _ _ Hki Ho2). congruence. }
  done.
Qed.

(** Asking again for the operations of a proposal finds the ones that are there: in any
    later state the request answers the same operations and changes nothing. *)
Theorem repeated_request_finds_its_operations c pid p provider d v d1 d2 :
  broker_ok d -> provider = "eventbrite" \/ provider = "iterable" -> proposal_of d c pid p ->
  request_operations c (pid, p) provider d = (Ok v, d1) -> extends d1 d2 -> broker_ok d2 ->
  request_operations c (pid, p) provider d2 = (Ok v, d2).
Proof.
  unfold request_operations. intros Hd Hpr Hp Hr He Hd2.
  apply bind_ok_inv in Hr as (l & d3 & Hr & [[= ->] ->]%ret_inv).
  assert (forall kind, kind ∈ operation_kinds provider -> known_operation provider kind = true) as Hks
    by (intros; by apply operation_kind_known).
  assert (forall kinds acc l d, (forall kind, kind ∈ kinds -> known_operation provider kind = true) ->
    broker_ok d -> proposal_of d c pid p ->
    fold_each acc kinds (fun operations kind => o ← request_operation c (pid, p) provider kind; mret (operations ++ [o])) d
      = (Ok l, d3) ->
    fold_each acc kinds (fun operations kind => o ← request_operation c (pid, p) provider kind; mret (operations ++ [o])) d2
      = (Ok l, d2) /\ broker_ok d3 /\ extends d d3) as Hfold.
  2: { unfold mbind at 1, ST_bind at 1. by rewrite (proj1 (Hfold _ _ _ _ Hks Hd Hp Hr)). }
  clear Hr Hd Hp l. induction kinds as [|kind kinds IH]; intros acc l d0 Hk Hd Hp Hr; cbn [fold_each] in *.
  { run_inv. by split_and!. }
  apply bind_ok_inv in Hr as (acc' & d4 & Hone & Hr).
  apply bind_ok_inv in Hone as (o & d5 & Hone & [[= ->] ->]%ret_inv).
  pose proof (keeps_request c pid p provider kind d0 Hp (Hk kind ltac:(by left)) Hd) as [Hd5 He5].
  rewrite Hone in Hd5, He5. cbn in Hd5, He5.
  destruct (IH (acc ++ [o]) l d5) as (Hrest & Hd3 & He3); [intros k Hin; apply Hk; by right|done|
    by eapply proposal_of_extends|done|].
  split_and!; [|done|by etrans].
  unfold mbind, ST_bind. rewrite (request_again _ _ _ _ _ _ _ _ d2 Hone) by (try done; by etrans).
  exact Hrest.
Qed.

End signer.
End BrokerSafety.
