(* ===== verification/AgentRuns.v ===== *)
(** * Agent runs (backend/agents/tasks.py and the run tables of backend/agents/models.py)

    Admission of a run into the single Hermes lane, the worker that executes it, and its
    cancellation, as transactions over the shared tables.  A worker is two transactions
    with the adapter's exchange between them, so that everything else may happen there;
    its local variables are the record [worker].  Telemetry is left out; the settings are
    arguments; [Celery]'s delivery of the task is an argument of [dispatch_run]. *)

From S2P Require Import Prelude PyValue Sha256 JsonText Engine OwnerEvents LaunchLoop Budgets ToolSchemas Uuid DraftProvider EventbriteDrafts IterableDrafts IterableTemplates DraftRows DraftReview Broker HermesClient.

Module AgentRuns.
Import Provider Rows Review.

(** ** Constants and settings *)

Definition PROPOSAL_SCHEMA_ID : string := "urn:civicloop:schema:campaign-proposal:v1.0".
Definition FIXTURE_ID : string := "launchloop_synthetic_v1".
Definition FIXTURE_REVISION : Z := 3.
Definition FIXTURE_DIGEST : string := "815d14762306d96bdc6449eb58a3e5739fb0ad95e08dc70b9025bd2cc8099d5f".

Record settings := Settings {
  hermes_enabled : bool;
  hermes_profile_id : string;
  hermes_profile_revision : Z;
  hermes_timeout : Z;
  hermes_max_inferences : Z;
}.

(** [status in ACTIVE] *)
Definition active (r : agent_run) : bool := match r_status r with QUEUED | RUNNING => true | _ => false end.
Definition run_values (s : run_status) : string :=
  match s with
  | QUEUED => "queued" | RUNNING => "running" | R_SUCCEEDED => "succeeded"
  | R_FAILED => "failed" | CANCELLED => "cancelled"
  end.
(** [AgentRun.FailureCategory.values] *)
Definition FAILURE_CATEGORIES : list string := HermesClient.CATEGORIES.

(** ** [AgentRun.save] *)

(** [immutable_binding_fields] *)
Definition same_binding (old r : agent_run) : bool :=
  Bool.eqb (r_hermes_lane old) (r_hermes_lane r) && (r_workflow old =? r_workflow r)
  && (r_event_revision old =? r_event_revision r) && String.eqb (r_package_hash old) (r_package_hash r)
  && (r_routing_policy old =? r_routing_policy r) && (r_model_profile old =? r_model_profile r)
  && bool_decide (r_fixture_id old = r_fixture_id r) && bool_decide (r_fixture_revision old = r_fixture_revision r)
  && bool_decide (r_fixture_digest old = r_fixture_digest r)
  && bool_decide (r_privacy_mode old = r_privacy_mode r).

Definition no_fixture (r : agent_run) : bool :=
  isnull (r_fixture_id r) && isnull (r_fixture_revision r) && isnull (r_fixture_digest r).
(** [all(fixture)]: present and not falsy. *)
Definition full_fixture (r : agent_run) : bool :=
  match r_fixture_id r, r_fixture_revision r, r_fixture_digest r with
  | Some i, Some v, Some g => negb (String.eqb i "") && negb (v =? 0) && negb (String.eqb g "")
  | _, _, _ => false
  end.
Definition provenance_ok (r : agent_run) : bool :=
  negb (r_hermes_lane r)
  || match r_privacy_mode r with
     | PILOT_MINIMIZED => no_fixture r
     | SYNTHETIC_FULL => full_fixture r
     | PRIVACY_DISABLED => false
     end.

(** The dates and the category that each status requires. *)
Definition lifecycle_ok (r : agent_run) : bool :=
  match r_status r with
  | QUEUED => isnull (r_started_at r) && isnull (r_finished_at r) && String.eqb (r_failure_category r) ""
  | RUNNING => negb (isnull (r_started_at r)) && isnull (r_finished_at r) && String.eqb (r_failure_category r) ""
  | R_SUCCEEDED =>
      negb (isnull (r_started_at r)) && negb (isnull (r_finished_at r)) && String.eqb (r_failure_category r) ""
  | R_FAILED =>
      negb (isnull (r_started_at r)) && negb (isnull (r_finished_at r))
      && negb (String.eqb (r_failure_category r) "")
  | CANCELLED => negb (isnull (r_finished_at r)) && String.eqb (r_failure_category r) "cancelled"
  end.

(** [clean]: the revision is of the workflow's event, and the profile is the policy's. *)
Definition belongs (d : db) (r : agent_run) : bool :=
  match Broker.workflow_row d (r_workflow r), LaunchLoop.d_revisions (launch d) !! r_event_revision r,
        Budgets.b_policies (budgets d) !! r_routing_policy r with
  | Some (w, _), Some revision, Some p =>
      (LaunchLoop.r_event revision =? LaunchLoop.w_event w)
      && (Budgets.po_model_profile p =? r_model_profile r)
  | _, _, _ => false
  end.

(** [agents_one_active_hermes_run] *)
Definition other_active (d : db) (id : Z) (r : agent_run) : bool :=
  r_hermes_lane r && active r
  && existsb (fun kv => negb (kv.1 =? id) && r_hermes_lane kv.2 && active kv.2) (map_to_list (runs d)).

Definition full_clean (d : db) (id : Z) (r : agent_run) : bool :=
  provenance_ok r && belongs d r && lifecycle_ok r && negb (other_active d id r)
  && (String.eqb (r_failure_category r) "" || bool_decide (r_failure_category r ∈ FAILURE_CATEGORIES)).

Definition save_run (id : Z) (r : agent_run) : M () :=
  d ← get;
  _ ← (match runs d !! id with
       | Some old => fail_if (negb (same_binding old r)) (Py (ValueError "AgentRun binding is immutable after creation."))
       | None => mret ()
       end);
  _ ← fail_if (negb (full_clean d id r)) (ValidationError "AgentRun");
  modify (fun d => set_runs (<[id := r]> (runs d)) d).

(** [AgentRun.objects.create(id=...)] *)
Definition create_run (id : Z) (r : agent_run) : M () :=
  d ← get;
  _ ← fail_if (bool_decide (is_Some (runs d !! id))) (ValidationError "AgentRun.id");
  save_run id r.

Definition with_outcome (s : run_status) (started finished : option Z) (category : string)
    (input output cost : Z) (r : agent_run) : agent_run :=
  AgentRun (r_workflow r) (r_event_revision r) (r_package_hash r) (r_hermes_lane r) (r_routing_policy r)
    (r_model_profile r) (r_fixture_id r) (r_fixture_revision r) (r_fixture_digest r) (r_privacy_mode r)
    s started finished category input output cost.

(** ** The other tables of a run *)

(** [HermesRunBinding.objects.create]: one per run, and the correlation is unique. *)
Definition create_binding (run : Z) (event_revision : Z) (b : hermes_binding) : M () :=
  d ← get;
  _ ← fail_if (bool_decide (is_Some (bindings d !! run))
               || LaunchLoop.any_row (bindings d) (fun b' => b_correlation_id b' =? b_correlation_id b))
        (IntegrityError "agents_hermesrunbinding");
  revision ← some_or (LaunchLoop.d_revisions (launch d) !! event_revision) (DoesNotExist "EventRevision");
  text ← lift (digest (JDict (LaunchLoop.r_snapshot revision)));
  modify (fun d => set_bindings
    (<[run := HermesRunBinding (b_actor b) (b_owner_session b) (b_correlation_id b) text]> (bindings d)) d).

Definition create_control (run : Z) (k : run_control) : M () :=
  d ← get;
  _ ← fail_if (bool_decide (is_Some (controls d !! run))) (IntegrityError "agents_agentruncontrol.run_id");
  modify (fun d => set_controls (<[run := k]> (controls d)) d).
Definition save_control (run : Z) (k : run_control) : M () :=
  modify (fun d => set_controls (<[run := k]> (controls d)) d).
Definition save_lane (l : admission_lane) : M () := modify (set_lane (Some l)).

Definition cancel_at (t : Z) (k : run_control) : run_control :=
  AgentRunControl (Some t) (k_capability k) (k_lease_expires_at k) (k_admission_disabled k).
Definition quarantined (k : run_control) : run_control :=
  AgentRunControl (k_cancel_requested_at k) (k_capability k) (k_lease_expires_at k) true.
Definition holding (capability : Z) (k : run_control) : run_control :=
  AgentRunControl (k_cancel_requested_at k) (Some capability) (k_lease_expires_at k) (k_admission_disabled k).
Definition closed (l : admission_lane) : admission_lane := HermesAdmissionLane (l_active_run l) true.
Definition holds (run : option Z) (l : admission_lane) : admission_lane :=
  HermesAdmissionLane run (l_admission_disabled l).

(** [_lane]: the row is made when it is missing. *)
Definition lane_row : M admission_lane :=
  d ← get;
  match lane d with
  | Some l => mret l
  | None => _ ← save_lane (HermesAdmissionLane None false); mret (HermesAdmissionLane None false)
  end.

(** [_owns_run]: a run without its authority rows closes the admissions. *)
Definition owns_run (id : Z) (r : agent_run) (l : admission_lane) : M bool :=
  if negb (r_hermes_lane r) then mret false
  else
    d ← get;
    if negb (isnull (bindings d !! id)) && negb (isnull (controls d !! id)) then mret true
    else _ ← save_lane (closed l); mret false.

(** ** Budgets inside the shared database *)

(** The runs whose reservations do not expire, as [_expire_period_reservations] selects them. *)
Definition held_runs (d : db) : gset Z :=
  list_to_set (map fst (List.filter (fun kv =>
    r_hermes_lane kv.2
    && (active kv.2 || match controls d !! kv.1 with Some k => k_admission_disabled k | None => false end))
    (map_to_list (runs d)))).
Definition budget_view (d : db) : Budgets.db :=
  let b := budgets d in
  Budgets.DB (Budgets.b_profiles b) (Budgets.b_policies b) (Budgets.b_periods b) (Budgets.b_reservations b)
    (Budgets.b_ledger b) (held_runs d) (Budgets.b_next b).
Definition budget {A : Type} (m : Budgets.M A) : M A :=
  fun d =>
    match m (budget_view d) with
    | (Ok a, b) => (Ok a, set_budgets b d)
    | (Err e, b) => (Err (BudgetError e), set_budgets b d)
    end.
Definition reservation_row (id : Z) : M Budgets.budget_reservation :=
  d ← get; some_or (Budgets.b_reservations (budgets d) !! id) (DoesNotExist "BudgetReservation").

(** ** Readiness *)

(** [except AttributeError, KeyError, TypeError, ValueError: return False] *)
Definition or_false (r : result py_exn bool) : result exn bool :=
  match r with
  | Ok b => Ok b
  | Err OverflowError => Err (Py OverflowError)
  | Err _ => Ok false
  end.

Definition package_status (package : option json) : result py_exn json :=
  match package with Some (JDict p) => Ok (get_or_none p "status") | _ => Err AttributeError end.
Definition reviewable (s : LaunchLoop.wf_status) : bool :=
  match s with LaunchLoop.READY_FOR_REVIEW | LaunchLoop.IN_REVIEW => true | _ => false end.

(** The stored package is what the facts give now, and its hash is the stored hash. *)
Definition package_current (w : LaunchLoop.workflow) (prepared : result py_exn json)
    (expected_hash : option string) : result py_exn bool :=
  status ← package_status (LaunchLoop.w_package w);
  if negb (py_eq status (JStr "ready_for_review")) then Ok false
  else
    package ← prepared;
    match LaunchLoop.w_package w with
    | Some stored =>
        Ok (py_eq package stored && String.eqb (LaunchLoop.package_hash stored) (LaunchLoop.w_package_hash w)
            && match expected_hash with Some h => String.eqb h (LaunchLoop.w_package_hash w) | None => true end)
    | None => Ok false
    end.

Definition at_revision (w : LaunchLoop.workflow) (r : LaunchLoop.event_revision) (revision_id : Z) : bool :=
  (LaunchLoop.w_revision w =? revision_id) && (LaunchLoop.r_event r =? LaunchLoop.w_event w).

Section platform.
Context `{OwnerEvents.Platform} `{Signer} (conf : settings) (recursion : nat).

(** [_ready] *)
Definition ready (w : LaunchLoop.workflow) (r : LaunchLoop.event_revision) (revision_id : Z)
    (expected_hash : option string) : result exn bool :=
  or_false (
    if negb (at_revision w r revision_id
             && LaunchLoop.is_true (get_or_none (LaunchLoop.r_snapshot r) "synthetic")
             && reviewable (LaunchLoop.w_status w)) then Ok false
    else package_current w (Engine.prepare_package (LaunchLoop.r_snapshot r)) expected_hash).

Definition is_live (r : LaunchLoop.event_revision) : bool :=
  match LaunchLoop.source_kind r with LaunchLoop.MANUAL | LaunchLoop.EVENTBRITE => true | _ => false end.

(** [owner_events.owner_session] *)
Definition owner_session (d : db) (actor : LaunchLoop.actor) (session_id : option Z) : option Z :=
  id ← session_id;
  s ← sessions d !! id;
  p ← profiles d !! s_profile s;
  if bool_decide (LaunchLoop.a_user actor = Some (a_user p)) && full_session d s p then Some id else None.

(** [_owner_ready] *)
Definition owner_ready (w : LaunchLoop.workflow) (r : LaunchLoop.event_revision) (revision_id : Z)
    (actor : string) (session : option Z) (expected_hash : option string) : result exn bool :=
  or_false (
    if negb (negb (isnull session) && is_live r && String.eqb (LaunchLoop.r_author r) actor
             && at_revision w r revision_id && reviewable (LaunchLoop.w_status w)) then Ok false
    else package_current w (OwnerEvents.prepare_owner_package (LaunchLoop.r_snapshot r)) expected_hash).

Definition get_actor (d : db) (slug : string) : M LaunchLoop.actor :=
  some_or (LaunchLoop.d_actors (launch d) !! slug) (DoesNotExist "DemoActor").

(** [_run_ready] *)
Definition run_ready (d : db) (run : agent_run) (b : hermes_binding) (w : LaunchLoop.workflow)
    (r : LaunchLoop.event_revision) : M bool :=
  if bool_decide (r_privacy_mode run = PILOT_MINIMIZED) then
    if negb (no_fixture run) then mret false
    else
      actor ← get_actor d (b_actor b);
      lift (owner_ready w r (r_event_revision run) (b_actor b) (owner_session d actor (b_owner_session b))
              (Some (r_package_hash run)))
  else if bool_decide (r_privacy_mode run = SYNTHETIC_FULL) && isnull (b_owner_session b)
          && bool_decide (r_fixture_id run = Some FIXTURE_ID)
          && bool_decide (r_fixture_revision run = Some FIXTURE_REVISION)
          && bool_decide (r_fixture_digest run = Some FIXTURE_DIGEST)
  then lift (ready w r (r_event_revision run) (Some (r_package_hash run)))
  else mret false.

(** ** Events *)

Definition last_sequence (d : db) (run : Z) : Z :=
  fold_right (fun v acc => if v_run v =? run then Z.max (v_sequence v) acc else acc) 0 (run_events d).

(** [_event]: appended, with the next number of its run. *)
Definition event (run : Z) (actor : string) (event_type outcome : string) : M () :=
  d ← get;
  let sequence := last_sequence d run + 1 in
  text ← lift (digest (JDict [("event_type", JStr event_type); ("outcome", JStr outcome)]));
  _ ← modify (fun d => set_run_events (run_events d ++ [AgentRunEvent run sequence event_type outcome text]) d);
  Broker.audit (Some actor) ("hermes." +:+ event_type) "agent_run" (LaunchLoop.Row run)
    (JDict [("outcome", JStr outcome); ("sequence", JInt sequence)]).

Definition get_run (id : Z) : M agent_run :=
  d ← get; some_or (runs d !! id) (DoesNotExist "AgentRun").
Definition get_binding (id : Z) : M hermes_binding :=
  d ← get; some_or (bindings d !! id) (DoesNotExist "HermesRunBinding").
Definition get_control (id : Z) : M run_control :=
  d ← get; some_or (controls d !! id) (DoesNotExist "AgentRunControl").
Definition get_workflow (id : Z) : M (LaunchLoop.workflow * LaunchLoop.event_revision) :=
  d ← get; some_or (Broker.workflow_row d id) (DoesNotExist "Workflow").

(** ** Admission *)

(** [_timeout] *)
Definition timeout_setting : result exn Z :=
  _ ← raise_if (negb ((1 <=? hermes_timeout conf) && (hermes_timeout conf <=? 300))) HermesAdmissionDenied;
  _ ← raise_if (negb ((1 <=? hermes_max_inferences conf) && (hermes_max_inferences conf <=? 8)))
        HermesAdmissionDenied;
  Ok (hermes_timeout conf).

(** Another run is in the lane, or the lane is closed. *)
Definition lane_busy (d : db) (l : admission_lane) : bool :=
  negb (hermes_enabled conf) || l_admission_disabled l
  || LaunchLoop.any_row (controls d) k_admission_disabled
  || negb (isnull (l_active_run l))
  || existsb (fun kv => match runs d !! kv.1 with Some r => active r | None => false end) (map_to_list (bindings d)).

Definition queued_run (live : bool) (workflow_id : Z) (w : LaunchLoop.workflow) (profile policy : Z) : agent_run :=
  AgentRun workflow_id (LaunchLoop.w_revision w) (LaunchLoop.w_package_hash w) true policy profile
    (if live then None else Some FIXTURE_ID) (if live then None else Some FIXTURE_REVISION)
    (if live then None else Some FIXTURE_DIGEST) (if live then PILOT_MINIMIZED else SYNTHETIC_FULL)
    QUEUED None None "" 0 0 0.

(** The profile and its policy: both for the purpose [workflow]. *)
Definition workflow_profile : M ((Z * Budgets.model_profile) * Z) :=
  d ← get;
  profile ← some_or (Budgets.find_row (Budgets.b_profiles (budgets d)) (fun p =>
      String.eqb (Budgets.pf_profile_id p) (hermes_profile_id conf)
      && (Budgets.pf_revision p =? hermes_profile_revision conf)
      && bool_decide (Budgets.pf_purpose p = Budgets.WORKFLOW))) (DoesNotExist "ModelProfile");
  policy ← some_or (Budgets.find_row (Budgets.b_policies (budgets d)) (fun p =>
      (Budgets.po_model_profile p =? profile.1) && bool_decide (Budgets.po_purpose p = Budgets.WORKFLOW)))
      (DoesNotExist "RoutingPolicy");
  mret (profile, policy.1).

(** [except (..., BudgetError, DatabaseError, AttributeError, ValueError, TypeError)] *)
Definition admission_error (e : exn) : bool :=
  match e with
  | DoesNotExist m => bool_decide (m ∈ ["Workflow"; "DemoActor"; "ModelProfile"; "RoutingPolicy"])
  | BudgetError _ | IntegrityError _ => true
  | Py AttributeError | Py (ValueError _) | Py TypeError => true
  | _ => false
  end.
Definition or_denied {A : Type} (caught : exn -> bool) (m : M A) : M A :=
  catch m (fun e => if caught e then raise HermesAdmissionDenied else raise e).

Definition queue_hermes_run (workflow_id revision_id : Z) (actor_slug : string) (owner_session_id : option Z)
  : M Z :=
  or_denied admission_error (atomic (
    l ← lane_row;
    d ← get;
    _ ← fail_if (lane_busy d l) HermesAdmissionDenied;
    timeout ← lift timeout_setting;
    wr ← get_workflow workflow_id;
    let '(w, r) := wr in
    actor ← get_actor d actor_slug;
    let live := negb (bool_decide (LaunchLoop.source_kind r = LaunchLoop.SYNTHETIC)) in
    let session := if live then owner_session d actor owner_session_id else None in
    is_ready ← lift (if live then owner_ready w r revision_id actor_slug session None
                     else ready w r revision_id None);
    _ ← fail_if (negb (Broker.active_operator d actor_slug) || negb is_ready) HermesAdmissionDenied;
    selected ← workflow_profile;
    let '((profile_pk, profile), policy_pk) := selected in
    correlation_id ← fresh;
    let run_id := HermesClient.run_key correlation_id in
    let lease := clock d + timeout * Broker.SECOND in
    _ ← budget (Budgets.reserve_budget (clock d) run_id (Budgets.pf_profile_id profile)
          (Budgets.pf_revision profile) (Budgets.pf_max_input_tokens profile)
          (Budgets.pf_max_output_tokens profile) (Some lease));
    _ ← create_run run_id (queued_run live workflow_id w profile_pk policy_pk);
    _ ← create_binding run_id (LaunchLoop.w_revision w) (HermesRunBinding actor_slug session correlation_id "");
    _ ← create_control run_id (AgentRunControl None None (Some lease) false);
    _ ← save_lane (holds (Some run_id) l);
    _ ← event run_id actor_slug "queued" "accepted";
    mret run_id)).

(** ** The end of a run *)

(** [_revoke_record] *)
Definition revoke_record (k : run_control) : M () :=
  match k_capability k with
  | None => mret ()
  | Some id =>
      d ← get;
      c ← some_or (capabilities d !! id) (DoesNotExist "WorkflowCapability");
      if isnull (c_revoked_at c) then
        _ ← Broker.save_capability id (Broker.revoke_at (clock d) c);
        Broker.audit (Some (c_actor c)) "mcp.capability_revoked" "workflow" (LaunchLoop.Row (c_workflow c))
          (Broker.capability_details id)
      else mret ()
  end.

(** [try: with transaction.atomic(): m except Exception: fallback] *)
Definition attempt {A : Type} (m : M A) (fallback : M A) : M A := catch (atomic m) (fun _ => fallback).

Definition quarantine_run (id : Z) : M () :=
  modify (fun d => set_controls (alter quarantined id (controls d)) d).

(** The accounting of [_terminal]: the reservation when it could be closed, and the lane. *)
Definition account (id : Z) (l : admission_lane) (billable : bool)
  : M (option Budgets.budget_reservation * admission_lane) :=
  attempt (
    closed_as ← budget ((if billable then Budgets.charge_reserved_budget else Budgets.release_budget) id);
    match closed_as with
    | Some rid => b ← reservation_row rid; mret (Some b, l)
    | None => mret (None, l)
    end)
    (_ ← quarantine_run id; mret (None, closed l)).

Definition usage_of (b : option Budgets.budget_reservation) (r : agent_run) : Z * Z * Z :=
  match b with
  | Some b =>
      match Budgets.br_settled_cost b with
      | Some cost => (default 0 (Budgets.br_settled_input b), default 0 (Budgets.br_settled_output b), cost)
      | None => (r_input_tokens r, r_output_tokens r, r_cost r)
      end
  | None => (r_input_tokens r, r_output_tokens r, r_cost r)
  end.

Definition is_cancelled (category : string) : run_status :=
  if String.eqb category "cancelled" then CANCELLED else R_FAILED.

(** [_terminal] *)
Definition terminal (id : Z) (r : agent_run) (actor : string) (l : admission_lane) (category : string)
    (billable : bool) : M () :=
  accounted ← account id l billable;
  let '(b, l) := accounted in
  d ← get;
  let '(input, output, cost) := usage_of b r in
  let s := is_cancelled category in
  _ ← save_run id (with_outcome s (Some (default (clock d) (r_started_at r))) (Some (clock d)) category
                     input output cost r);
  _ ← event id actor (run_values s) category;
  save_lane (if bool_decide (l_active_run l = Some id) then holds None l else l).

(** [_finish]: the category it records, or nothing when there was nothing to finish. *)
Definition finish (id : Z) (category : string) (billable cleanup_ok : bool) : M (option string) :=
  atomic (
    l ← lane_row;
    r ← get_run id;
    owned ← owns_run id r l;
    if negb owned || negb (active r) then mret None
    else
      k ← get_control id;
      b ← get_binding id;
      let unsafe := bool_decide (r_status r = RUNNING) && negb billable in
      let billable := billable || unsafe in
      let cleanup_ok := cleanup_ok && negb unsafe in
      cleanup_ok ← attempt (_ ← revoke_record k; mret cleanup_ok) (mret false);
      let l := if negb cleanup_ok then closed l else l in
      _ ← (if negb cleanup_ok then save_control id (quarantined k) else mret ());
      let category :=
        if cleanup_ok && negb (isnull (k_cancel_requested_at k)) then "cancelled" else category in
      _ ← terminal id r (b_actor b) l category billable;
      mret (Some category)).

(** [cancel_hermes_run] *)
Definition cancel_hermes_run (id : Z) : M Z :=
  atomic (
    l ← lane_row;
    r ← get_run id;
    owned ← owns_run id r l;
    if negb owned || negb (active r) then mret id
    else
      k ← get_control id;
      if negb (isnull (k_cancel_requested_at k)) then mret id
      else
        b ← get_binding id;
        d ← get;
        let k := cancel_at (clock d) k in
        _ ← save_control id k;
        l ← attempt (_ ← revoke_record k; mret l)
              (_ ← save_lane (closed l); _ ← save_control id (quarantined k); mret (closed l));
        _ ← event id (b_actor b) "cancel_requested" "accepted";
        _ ← (if bool_decide (r_status r = QUEUED) then terminal id r (b_actor b) l "cancelled" false else mret ());
        mret id).

(** [_dispatch], after the commit: a task that cannot be delivered ends its run. *)
Definition dispatch_run (delivered : bool) (id : Z) : M () :=
  if delivered then mret () else _ ← finish id "dependency_unavailable" false true; mret ().

(** [start_hermes_run]: the run, and whether it was queued by this call. *)
Definition receipt_conflict (receipt : start_receipt) (owner : option Z) (actor : string)
    (workflow_id revision_id : Z) : bool :=
  negb (bool_decide (t_owner receipt = owner)) || negb (String.eqb (t_actor receipt) actor)
  || negb (t_workflow receipt =? workflow_id) || negb (t_revision receipt =? revision_id).

Definition database_error (e : exn) : bool :=
  match e with IntegrityError _ => true | _ => false end.

Definition start_hermes_run (idempotency_key workflow_id revision_id : Z) (actor_slug : string)
    (owner_session_id : option Z) (delivered : bool) : M Z :=
  _ ← fail_if (revision_id <? 1) HermesAdmissionDenied;
  or_denied database_error (
    started ← atomic (
      _ ← lane_row;
      d ← get;
      actor ← some_or (LaunchLoop.d_actors (launch d) !! actor_slug) HermesAdmissionDenied;
      _ ← fail_if (negb (Broker.active_operator d actor_slug)) HermesAdmissionDenied;
      match receipts d !! idempotency_key with
      | Some receipt =>
          _ ← fail_if (receipt_conflict receipt (LaunchLoop.a_user actor) actor_slug workflow_id revision_id)
                HermesStartConflict;
          mret (t_run receipt, false)
      | None =>
          run ← queue_hermes_run workflow_id revision_id actor_slug owner_session_id;
          d ← get;
          _ ← fail_if (LaunchLoop.any_row (receipts d) (fun t => t_run t =? run)) (IntegrityError "run_id");
          _ ← modify (fun d => set_receipts (<[idempotency_key :=
                HermesStartReceipt (LaunchLoop.a_user actor) actor_slug workflow_id revision_id run]> (receipts d)) d);
          mret (run, true)
      end);
    _ ← (if negb (snd started) then mret () else dispatch_run delivered (fst started));
    mret (fst started)).

(** ** The checks of a worker *)

Definition worker_failure {A : Type} (category : string) : M A := raise (WorkerFailure category false).

(** The conditions of [_check] on the capability. *)
Definition capability_valid (now : Z) (c : workflow_capability) (run : agent_run) (b : hermes_binding) : bool :=
  isnull (c_revoked_at c) && (now <? c_expires_at c)
  && bool_decide (c_correlation_id c = Some (b_correlation_id b))
  && String.eqb (c_revision_digest c) (b_revision_digest b)
  && (c_workflow c =? r_workflow run) && (c_revision c =? r_event_revision run)
  && String.eqb (c_actor c) (b_actor b).

(** [_check] *)
Definition check (run : agent_run) (k : run_control) (b : hermes_binding) (w : LaunchLoop.workflow)
    (r : LaunchLoop.event_revision) (capability : option workflow_capability) : M () :=
  d ← get;
  _ ← fail_if (negb (isnull (k_cancel_requested_at k)) || negb (hermes_enabled conf)) (WorkerFailure "cancelled" false);
  _ ← fail_if (match k_lease_expires_at k with Some t => t <=? clock d | None => true end)
        (WorkerFailure "timeout" false);
  _ ← fail_if (negb (Broker.active_operator d (b_actor b))) (WorkerFailure "invalid_output" false);
  is_ready ← run_ready d run b w r;
  _ ← fail_if (negb is_ready) (WorkerFailure "invalid_output" false);
  current ← lift (digest (JDict (LaunchLoop.r_snapshot r)));
  _ ← fail_if (negb (String.eqb current (b_revision_digest b))) (WorkerFailure "invalid_output" false);
  match capability with
  | Some c => fail_if (negb (capability_valid (clock d) c run b)) (WorkerFailure "invalid_output" false)
  | None => mret ()
  end.

(** [should_cancel_hermes_run] *)
Definition should_cancel_hermes_run (id : Z) : M bool :=
  run ← get_run id;
  b ← get_binding id;
  k ← get_control id;
  wr ← get_workflow (r_workflow run);
  d ← get;
  catch (
    _ ← check run k b wr.1 wr.2 (c ← k_capability k; capabilities d !! c);
    mret (negb (bool_decide (r_status run = RUNNING))))
    (fun e => match e with WorkerFailure _ _ => mret true | _ => raise e end).

(** ** [_validate_result] *)

Definition field (res : list (string * json)) (key : string) : result exn json :=
  py (subscript res key).

(** One reference to a proposal: its row, its schema and both digests. *)
Definition check_reference (capability : option Z) (reference : json) : M Z :=
  pid ← lift (IterableTemplates.item reference "proposal_id");
  schema ← lift (IterableTemplates.item reference "schema_id");
  text ← lift (IterableTemplates.item reference "proposal_digest");
  d ← get;
  let id := match pid with JStr s => Uuid.of_text s | _ => -1 end in
  match submissions d !! id with
  | Some p =>
      content ← lift (digest (m_content p));
      _ ← fail_if (negb (bool_decide (Some (m_capability p) = capability)) || negb (String.eqb (m_kind p) "proposal")
                   || negb (py_eq schema (JStr PROPOSAL_SCHEMA_ID)) || negb (py_eq text (JStr (m_digest p)))
                   || negb (String.eqb content (m_digest p))) (WorkerFailure "invalid_output" false);
      _ ← lift (tool (ToolSchemas.validate (m_content p) ToolSchemas.PROPOSAL));
      mret id
  | None => worker_failure "invalid_output"
  end.

Definition required_operations : list (string * string) :=
  [("eventbrite", "create_eventbrite_draft"); ("iterable", "create_iterable_email_draft");
   ("iterable", "create_iterable_reminder_draft")].

(** The operations whose proposal was submitted with the run's capability. *)
Definition run_operations (d : db) (capability : option Z) : list draft_operation :=
  map snd (List.filter (fun kv =>
    match submissions d !! i_proposal kv.2 with
    | Some p => bool_decide (Some (m_capability p) = capability)
    | None => false
    end) (map_to_list (intents d))).

Definition check_operation (run : agent_run) (b : hermes_binding) (proposal_ids : list Z) (o : draft_operation) : M () :=
  _ ← fail_if (negb (bool_decide (i_proposal o ∈ proposal_ids)) || negb (i_workflow o =? r_workflow run)
               || negb (i_revision o =? r_event_revision run) || negb (String.eqb (i_actor o) (b_actor b))
               || negb (String.eqb (i_status o) "pending") || negb (isnull (i_approval o))
               || negb (isnull (i_receipt o))
               || negb (bool_decide ((i_provider o, i_operation_kind o) ∈ required_operations)))
        (WorkerFailure "invalid_output" false);
  d ← get;
  p ← some_or (submissions d !! i_proposal o) (DoesNotExist "MCPSubmission");
  action ← lift (action_digest (r_workflow run) (b_revision_digest b) o p);
  idem ← lift (idempotency_digest (r_workflow run) o action);
  fail_if (negb (String.eqb (i_action_digest o) action) || negb (String.eqb (i_idempotency_key o) idem))
    (WorkerFailure "invalid_output" false).

(** Live work is one proposal with each required operation once. *)
Definition complete_set (proposal_ids : list Z) (operations : list draft_operation) : bool :=
  (length proposal_ids =? 1)%nat && (length operations =? length required_operations)%nat
  && forallb (fun p => existsb (fun o => bool_decide ((i_provider o, i_operation_kind o) = p)) operations)
       required_operations.

Definition int_of (v : json) : result exn Z := match v with JInt z => Ok z | _ => Err (Py TypeError) end.
Definition usage_field (res : list (string * json)) (key : string) : result exn Z :=
  usage ← field res "usage"; v ← IterableTemplates.item usage key; int_of v.

Definition failure_category (res : list (string * json)) : string :=
  match get_or_none res "failure_category" with
  | JStr s => if bool_decide (s ∈ FAILURE_CATEGORIES) then s else "invalid_output"
  | _ => "invalid_output"
  end.

Definition validate_result (id : Z) (run : agent_run) (b : hermes_binding) (k : run_control)
    (res : list (string * json)) : M () :=
  run_id ← lift (field res "run_id");
  workflow_id ← lift (field res "workflow_id");
  revision_id ← lift (field res "revision_id");
  _ ← fail_if (negb (py_eq run_id (str_id id)) || negb (py_eq workflow_id (str_id (r_workflow run)))
               || negb (py_eq revision_id (JInt (r_event_revision run)))) (WorkerFailure "invalid_output" false);
  status ← lift (field res "status");
  _ ← fail_if (negb (py_eq status (JStr "succeeded"))) (WorkerFailure (failure_category res) false);
  references ← lift (field res "proposal_references");
  references ← lift (match references with JList l => Ok l | JNull => Ok [] | _ => Err (Py TypeError) end);
  _ ← fail_if (bool_decide (references = [])
               || negb (bool_decide (NoDup (map HermesClient.reference_id references))))
        (WorkerFailure "invalid_output" false);
  proposal_ids ← fold_each [] references (fun ids reference =>
    pid ← check_reference (k_capability k) reference; mret (ids ++ [pid]));
  d ← get;
  let operations := run_operations d (k_capability k) in
  _ ← for_each operations (check_operation run b proposal_ids);
  revision ← some_or (LaunchLoop.d_revisions (launch d) !! r_event_revision run) (DoesNotExist "EventRevision");
  _ ← fail_if (is_live revision && negb (complete_set proposal_ids operations)) (WorkerFailure "invalid_output" false);
  input ← lift (usage_field res "input_tokens");
  output ← lift (usage_field res "output_tokens");
  cost ← lift (usage_field res "cost_microusd");
  profile ← some_or (Budgets.b_profiles (budgets d) !! r_model_profile run) (DoesNotExist "ModelProfile");
  expected ← budget (Budgets.cost profile input output);
  fail_if (negb (cost =? expected)) (WorkerFailure "invalid_output" false).

(** ** The worker *)

(** The local variables of [_execute_hermes_run] after its first transaction. *)
Record worker := Worker { w_run : Z; w_token : string }.

(** What the first transaction comes to: the task has nothing to do, the run is running, or
    the body raised [e], with [billable] and [redelivery] as they were set. *)
Inductive begun :=
| Nothing
| Started (w : worker)
| Raised (e : exn) (billable : bool).

Definition start_attempt (id : Z) (run : agent_run) (l : admission_lane) (client : option HermesClient.client)
    (nonce : string) : M begun :=
  k ← get_control id;
  b ← get_binding id;
  wr ← get_workflow (r_workflow run);
  let '(w, r) := wr in
  _ ← fail_if (negb (bool_decide (l_active_run l = Some id)) || l_admission_disabled l || k_admission_disabled k)
        (WorkerFailure "dependency_unavailable" false);
  _ ← check run k b w r None;
  _ ← some_or client HermesClient.unavailable;
  d ← get;
  let remaining := Z.max 1 ((default 0 (k_lease_expires_at k) - clock d) / Broker.SECOND) in
  token ← Broker.issue_workflow_capability nonce (r_workflow run) (r_event_revision run) (b_actor b)
            Broker.TOOLS (Z.min remaining 300);
  d ← get;
  row ← some_or (Broker.find_capability d (Broker.token_digest token)) (DoesNotExist "WorkflowCapability");
  let '(cid, c) := row in
  _ ← Broker.save_capability cid (Broker.correlate (b_correlation_id b) c);
  _ ← save_control id (holding cid k);
  _ ← save_run id (with_outcome RUNNING (Some (clock d)) (r_finished_at run) (r_failure_category run)
                     (r_input_tokens run) (r_output_tokens run) (r_cost run) run);
  _ ← event id (b_actor b) "running" "started";
  mret (Started (Worker id token)).

(** The first transaction.  A run that is already running was delivered twice: its
    process may still be alive, so the failure is billable. *)
Definition begin_run (id : Z) (client : option HermesClient.client) (nonce : string) : M begun :=
  d ← get;
  let redelivery := match runs d !! id with Some run => bool_decide (r_status run = RUNNING) | None => false end in
  catch (atomic (
      l ← lane_row;
      run ← get_run id;
      owned ← owns_run id run l;
      if negb owned || negb (active run) then mret Nothing
      else if bool_decide (r_status run = RUNNING) then worker_failure "dependency_unavailable"
      else start_attempt id run l client nonce))
    (fun e => match e with
              | DoesNotExist m => if String.eqb m "AgentRun" then mret Nothing else mret (Raised e redelivery)
              | _ => mret (Raised e redelivery)
              end).

(** [except WorkerFailure: raise except Exception: raise WorkerFailure("invalid_output")] *)
Definition or_invalid {A : Type} (m : M A) : M A :=
  catch m (fun e => match e with WorkerFailure _ _ => raise e | _ => worker_failure "invalid_output" end).

(** The second transaction, on an answer the client accepted. *)
Definition complete_run (w : worker) (res : list (string * json)) : M () :=
  atomic (
    l ← lane_row;
    run ← get_run (w_run w);
    _ ← fail_if (negb (bool_decide (r_status run = RUNNING))) (WorkerFailure "invalid_output" false);
    k ← get_control (w_run w);
    b ← get_binding (w_run w);
    d ← get;
    c ← some_or (c ← k_capability k; capabilities d !! c) (DoesNotExist "WorkflowCapability");
    wr ← get_workflow (r_workflow run);
    _ ← fail_if (l_admission_disabled l || negb (bool_decide (l_active_run l = Some (w_run w))))
          (WorkerFailure "dependency_unavailable" false);
    _ ← check run k b wr.1 wr.2 (Some c);
    _ ← or_invalid (validate_result (w_run w) run b k res);
    _ ← catch (Broker.revoke_workflow_capability (w_token w))
          (fun _ => raise (WorkerFailure "dependency_unavailable" true));
    input ← lift (usage_field res "input_tokens");
    output ← lift (usage_field res "output_tokens");
    rid ← budget (Budgets.settle_budget (w_run w) input output);
    settlement ← reservation_row rid;
    _ ← save_run (w_run w) (with_outcome R_SUCCEEDED (r_started_at run) (Some (clock d)) (r_failure_category run)
          (default 0 (Budgets.br_settled_input settlement)) (default 0 (Budgets.br_settled_output settlement))
          (default 0 (Budgets.br_settled_cost settlement)) run);
    _ ← event (w_run w) (b_actor b) "succeeded" "accepted";
    save_lane (holds None l)).

(** [getattr(error, "category", ...)] among the known categories. *)
Definition category_of (e : exn) : string :=
  match e with
  | WorkerFailure category _ | SafeRunFailure category _ =>
      if bool_decide (category ∈ FAILURE_CATEGORIES) then category else "invalid_output"
  | _ => "dependency_unavailable"
  end.
Definition quarantines (e : exn) : bool := match e with WorkerFailure _ q => q | _ => false end.

(** The handler: [ack] is what [client.cancel(run)] came to, [None] without a client. *)
Definition handle_failure (id : Z) (e : exn) (billable redelivery : bool) (ack : option (result exn ())) : M () :=
  let cleanup_ok :=
    if billable then
      match ack with Some (Ok _) => negb redelivery && negb (quarantines e) | _ => false end
    else true in
  _ ← finish id (category_of e) billable cleanup_ok;
  mret ().

(** [should_cancel()] as the client asks it: [None] when it raises. *)
Definition ask (id : Z) : M (option bool) :=
  catch (cancelled ← should_cancel_hermes_run id; mret (Some cancelled)) (fun _ => mret None).

(** [_execute_hermes_run]: the first transaction; the client's exchange, during which
    [elsewhere] happens to the tables; the second transaction or the handler. *)
Definition worker_exchange (client : HermesClient.client) (w : worker) (run : HermesClient.loaded_run)
    (elsewhere : db -> db) (answer : HermesClient.reply) (ack : result exn ())
  : M (list (string * json)) :=
  cancelled ← ask (w_run w);
  _ ← fail_if (bool_decide (cancelled = None)) HermesClient.unavailable;
  _ ← fail_if (bool_decide (cancelled = Some true)) (HermesClient.safe_failure "cancelled" "cancelled");
  p ← HermesClient.prepare client run (w_token w);
  _ ← modify elsewhere;
  cancelled ← ask (w_run w);
  lift (HermesClient.conclude recursion run p answer cancelled ack).

Definition load_run (id : Z) : M HermesClient.loaded_run :=
  run ← get_run id;
  b ← get_binding id;
  d ← get;
  profile ← some_or (Budgets.b_profiles (budgets d) !! r_model_profile run) (DoesNotExist "ModelProfile");
  policy ← some_or (Budgets.b_policies (budgets d) !! r_routing_policy run) (DoesNotExist "RoutingPolicy");
  mret (HermesClient.LoadedRun id run b profile policy).

Definition execute_hermes_run (id : Z) (client : option HermesClient.client) (nonce : string)
    (elsewhere : db -> db) (answer : HermesClient.reply) (ack : option (result exn ())) : M () :=
  started ← begin_run id client nonce;
  match started, client with
  | Nothing, _ => mret ()
  | Raised e billable, _ => handle_failure id e billable billable ack
  | Started w, Some client =>
      catch (
        run ← load_run id;
        res ← worker_exchange client w run elsewhere answer (default (Err HermesClient.unavailable) ack);
        complete_run w res)
        (fun e => match e with
                  | DoesNotExist m =>
                      if String.eqb m "AgentRun" then mret () else handle_failure id e true false ack
                  | _ => handle_failure id e true false ack
                  end)
  | Started _, None => mret ()
  end.

End platform.
End AgentRuns.
