(* ===== verification/AgentRunFacts.v ===== *)
(** * The invariant of the agent runs

    What the budget services do to the reservations of a run, the writes of the steps of
    AgentRuns, the invariant of the run tables ([runs_ok]), what every transaction keeps
    ([advances]), and the two ways a transaction may change the tables: beside the runs
    ([aside]) or at one active run ([shift]). *)

From S2P Require Import Prelude PyValue Sha256 JsonText OwnerEvents LaunchLoop Budgets BudgetsTheorems ToolSchemas Uuid DraftProvider EventbriteDrafts IterableDrafts IterableTemplates DraftRows DraftReview DraftEffects Transactions Broker BrokerEffects HermesClient AgentRuns.

Module RunFacts.
Import Provider Rows Review Transactions Effects BrokerFacts AgentRuns.

(** ** Reservations *)

Definition reservations_of (d : db) : gmap Z Budgets.budget_reservation := Budgets.b_reservations (budgets d).

(** No reservation of the run is open. *)
Definition closed_run (run : Z) (b : Budgets.db) : Prop :=
  forall rid r, Budgets.b_reservations b !! rid = Some r -> Budgets.br_run r = run ->
    Budgets.br_status r <> Budgets.RESERVED.

(** Closed rows stay as they are, and new rows are of the runs [new]. *)
Record carries (new : Z -> Prop) (b b' : Budgets.db) : Prop := Carries {
  ca_final : forall rid r, Budgets.b_reservations b !! rid = Some r -> Budgets.br_status r <> Budgets.RESERVED ->
    Budgets.b_reservations b' !! rid = Some r;
  ca_back : forall rid r', Budgets.b_reservations b' !! rid = Some r' ->
    (exists r, Budgets.b_reservations b !! rid = Some r /\ Budgets.br_run r' = Budgets.br_run r) \/
    new (Budgets.br_run r');
}.

Lemma carries_refl new b : carries new b b.
Proof. split; [done|]. intros rid r Hr. left. by exists r. Qed.

Lemma carries_closed new b b' run : carries new b b' -> ~ new run -> closed_run run b -> closed_run run b'.
Proof.
  intros [Hf Hb] Hn Hc rid r' Hr' Hrun. destruct (Hb _ _ Hr') as [(r & Hr & He)|Hnew]; [|congruence].
  assert (Budgets.br_status r <> Budgets.RESERVED) as Hs by (apply (Hc rid); congruence).
  pose proof (Hf _ _ Hr Hs). congruence.
Qed.

Lemma ledger_view d : Ledger.Inv (budgets d) -> Ledger.Inv (budget_view d).
Proof.
  intros HI. apply (Ledger.catalog_preserves (budgets d)); [done|]. unfold Ledger.environment_step, budget_view.
  eexists _, _, _. split_and!; [|done..|]; [done|]. destruct (Ledger.inv_catalog _ _ _ HI). by split.
Qed.

(** A row that is closed in place. *)
Lemma carries_close b b' rid r r' new :
  Budgets.b_reservations b !! rid = Some r -> Budgets.br_status r = Budgets.RESERVED ->
  Budgets.br_run r' = Budgets.br_run r ->
  Budgets.b_reservations b' = <[rid := r']> (Budgets.b_reservations b) -> carries new b b'.
Proof.
  intros Hr Hs Hrun Hb. split; intros k x Hx; rewrite Hb in *.
  - intros Hc. rewrite lookup_insert_ne; [done|]. congruence.
  - left. apply insert_cases in Hx as [[-> ->]|Hx]; eauto.
Qed.

(** What the services come to on the reservations. *)
Definition charged (run : Z) (b : Budgets.db) (o : option Z) (b' : Budgets.db) : Prop :=
  Ledger.Inv b' /\ carries (fun _ => False) b b' /\ closed_run run b' /\
  (forall rid, o = Some rid -> is_Some (Budgets.b_reservations b' !! rid)).

Lemma closed_after b b' rid r r' run :
  Ledger.Inv b -> Budgets.b_reservations b !! rid = Some r -> Budgets.br_run r = run ->
  Budgets.br_status r' <> Budgets.RESERVED ->
  Budgets.b_reservations b' = <[rid := r']> (Budgets.b_reservations b) -> closed_run run b'.
Proof.
  intros HI Hr Hrun Hs Hb k x Hx Hxr. rewrite Hb in Hx.
  destruct (decide (k = rid)) as [->|Hne]; [rewrite lookup_insert_eq in Hx; by simplify_eq|].
  rewrite lookup_insert_ne in Hx by done. destruct Hne. apply (Ledger.inv_runs _ _ _ HI _ _ _ _ Hx Hr). congruence.
Qed.

Lemma closed_same b rid r run :
  Ledger.Inv b -> Budgets.b_reservations b !! rid = Some r -> Budgets.br_run r = run ->
  Budgets.br_status r <> Budgets.RESERVED -> closed_run run b.
Proof.
  intros HI Hr Hrun Hs k x Hx Hxr. assert (k = rid) as -> by (apply (Ledger.inv_runs _ _ _ HI _ _ _ _ Hx Hr); congruence).
  congruence.
Qed.

Lemma none_closed b run : Budgets.reservation_of run b = None -> closed_run run b.
Proof.
  intros Hn k x Hx Hxr. pose proof (Ledger.find_row_none _ _ _ _ Hn Hx) as Hf. cbn in Hf. by bools.
Qed.

(** The shape of both outcomes: nothing, a closed row, or an open row that is closed. *)
Lemma closes_charged run b o b' :
  Ledger.Inv b -> Ledger.Inv b' ->
  (o = None /\ Budgets.reservation_of run b = None /\ b' = b) \/
  (exists rid r, o = Some rid /\ Budgets.reservation_of run b = Some (rid, r) /\
    ((Budgets.br_status r <> Budgets.RESERVED /\ b' = b) \/
     (Budgets.br_status r = Budgets.RESERVED /\ exists r', Budgets.br_run r' = Budgets.br_run r /\
      Budgets.br_status r' <> Budgets.RESERVED /\
      Budgets.b_reservations b' = <[rid := r']> (Budgets.b_reservations b)))) ->
  charged run b o b'.
Proof.
  intros HI HI' Hp. split; [done|].
  destruct Hp as [(-> & Hn & ->)|(rid & r & -> & Hf & Hp)]; [split_and!; [apply carries_refl|by apply none_closed|done]|].
  apply Ledger.reservation_of_some in Hf as [Hr Hrun]. destruct Hp as [[Hs ->]|(Hs & r' & Hrr & Hs' & Hb)].
  - split_and!; [apply carries_refl|by eapply closed_same|]. intros ? [= <-]. by exists r.
  - split_and!; [by apply (carries_close b b' rid r r')|by apply (closed_after b b' rid r r')|]. intros ? [= <-]. rewrite Hb, lookup_insert_eq. by eexists.
Qed.

Lemma close_run run (billable : bool) b :
  Ledger.Inv b ->
  exists o b', (if billable then Budgets.charge_reserved_budget else Budgets.release_budget) run b = (Ok o, b') /\
    charged run b o b'.
Proof.
  intros HI. destruct billable.
  - pose proof (Ledger.charge_spec run b HI) as Hw. destruct (Ledger.succeeds_run _ _ _ Hw) as (o & b' & Hr).
    exists o, b'. split; [done|]. destruct (Ledger.outcome_run _ _ _ _ _ _ Hw Hr) as [HI' Hp].
    apply closes_charged; [done..|]. destruct Hp as [Hp|(rid & r & ? & ? & [Hp|[? Hb]])]; [by left|by right; exists rid, r; auto|].
    right. exists rid, r. split_and!; [done..|]. right. split; [done|]. eexists. by split; [|split; [|exact Hb]].
  - pose proof (Ledger.release_spec run b HI) as Hw. destruct (Ledger.succeeds_run _ _ _ Hw) as (o & b' & Hr).
    exists o, b'. split; [done|]. destruct (Ledger.outcome_run _ _ _ _ _ _ Hw Hr) as [HI' Hp].
    apply closes_charged; [done..|]. destruct Hp as [Hp|(rid & r & ? & ? & [Hp|[? Hb]])]; [by left|by right; exists rid, r; auto|].
    right. exists rid, r. split_and!; [done..|]. right. split; [done|]. eexists. by split; [|split; [|exact Hb]].
Qed.

Definition settled_as (run input output : Z) (b : Budgets.budget_reservation) : Prop :=
  Budgets.br_run b = run /\ Budgets.br_status b = Budgets.SETTLED /\
  Budgets.br_settled_input b = Some input /\ Budgets.br_settled_output b = Some output /\
  is_Some (Budgets.br_settled_cost b).

Lemma settle_run run input output b rid b' :
  Ledger.Inv b -> Budgets.settle_budget run input output b = (Ok rid, b') ->
  Ledger.Inv b' /\ carries (fun _ => False) b b' /\ closed_run run b' /\
  exists r, Budgets.b_reservations b' !! rid = Some r /\ settled_as run input output r.
Proof.
  intros HI Hr. destruct (Ledger.outcome_run _ _ _ _ _ _ (Ledger.settle_spec run input output b HI) Hr)
    as [HI' (r & Hf & Hp)]. split; [done|].
  apply Ledger.reservation_of_some in Hf as [Hrid Hrun].
  destruct Hp as [(Hs & Hi & Ho & ->)|(Hs & p & pi & po & _ & _ & _ & Hb)].
  - split_and!; [apply carries_refl|apply (closed_same b rid r); [done..|congruence]|].
    exists r. split; [done|]. split_and!; try done.
    by apply (Ledger.ro_settled _ _ _ (Ledger.inv_reservations _ _ _ HI _ _ Hrid)).
  - set (r' := Budgets.settled_with _ _ _ r) in Hb.
    split_and!; [by apply (carries_close b b' rid r r')|by apply (closed_after b b' rid r r')|].
    exists r'. rewrite Hb, lookup_insert_eq. split; [done|]. by split_and!.
Qed.

Lemma reserve_run now run profile_id revision input output expires b rid b' :
  Ledger.Inv b -> Budgets.reserve_budget now run profile_id revision input output expires b = (Ok rid, b') ->
  Ledger.Inv b' /\ carries (fun run' => run' = run) b b'.
Proof.
  intros HI Hr. pose proof (Ledger.step_reserve b b' _ _ _ _ _ _ _ _ Hr) as Hstep.
  destruct (Ledger.outcome_run _ _ _ _ _ _ (Ledger.reserve_spec now run profile_id revision input output expires b HI) Hr)
    as [HI' Hp]. split; [done|]. split.
  - intros k r Hk Hs. destruct (Ledger.step_final b b' k r HI Hstep Hk) as (r' & Hr' & He & _).
    by rewrite (He Hs) in Hr'.
  - intros k r' Hk. destruct Hp as [(r & _ & -> & _)|(_ & r & ? & ? & ? & Hnew & Hnone & _ & _ & _ & Hrun & _ & _ & _ & _ & Hoth)].
    { left. by exists r'. }
    destruct (decide (k = rid)) as [->|Hne]; [right; congruence|]. left. rewrite (Hoth _ Hne) in Hk.
    destruct (Budgets.b_reservations b !! k) as [row|]; [|done]. exists row. split; [done|]. cbn in Hk.
    injection Hk as <-. unfold Ledger.expire_rows. by destruct (Budgets.is_expired _ _ _ _).
Qed.

(** ** The services inside the shared database *)

Lemma carries_view new d b : carries new (budget_view d) b -> carries new (budgets d) b.
Proof. intros [H1 H2]. by split. Qed.
Lemma charged_view run d o b : charged run (budget_view d) o b -> charged run (budgets d) o b.
Proof. intros (? & ? & ?). split_and!; [done|by apply carries_view|apply H1..]. Qed.

Lemma budget_ok_inv {A} (m : Budgets.M A) d a d' :
  budget m d = (Ok a, d') -> exists b, m (budget_view d) = (Ok a, b) /\ d' = set_budgets b d.
Proof. unfold budget. destruct (m _) as [[x|e] b]; [|done]. intros [= -> <-]. eauto. Qed.

(** ** The writes of the transactions *)

Lemma isnull_false {A : Type} (o : option A) : isnull o = false -> is_Some o.
Proof. destruct o; [by eexists|done]. Qed.

Definition lane_or (d : db) : admission_lane := default (HermesAdmissionLane None false) (lane d).

Lemma set_lane_same d l : lane d = Some l -> set_lane (Some l) d = d.
Proof. destruct d. cbn. by intros ->. Qed.

Lemma lane_row_run d : lane_row d = (Ok (lane_or d), set_lane (Some (lane_or d)) d).
Proof.
  unfold lane_row, lane_or, save_lane, mbind, ST_bind, get. destruct (lane d) as [l|] eqn:Hl; [|done].
  cbn. by rewrite (set_lane_same d l Hl).
Qed.

Definition logged (log : list LaunchLoop.audit_event) (d : db) : db :=
  set_launch (LaunchLoop.set_audit log (launch d)) d.
Lemma logged_same d : logged (LaunchLoop.d_audit (launch d)) d = d.
Proof. by destruct d as [[]]. Qed.

Lemma event_ok id actor t o d u d' :
  event id actor t o d = (Ok u, d') -> exists evs log, d' = logged log (set_run_events evs d).
Proof. unfold event, Broker.audit, logged. intros Hr. run_inv. by eexists _, _. Qed.

(** Reading a row that has to be there. *)
Ltac read_row := intros Hr; apply bind_ok_inv in Hr as (? & ? & [[= ->] ->]%get_inv & [? ->]%some_or_ok_inv); done.
Lemma get_run_ok id d r d' : get_run id d = (Ok r, d') -> runs d !! id = Some r /\ d' = d.
Proof. read_row. Qed.
Lemma get_binding_ok id d b d' : get_binding id d = (Ok b, d') -> bindings d !! id = Some b /\ d' = d.
Proof. read_row. Qed.
Lemma get_control_ok id d k d' : get_control id d = (Ok k, d') -> controls d !! id = Some k /\ d' = d.
Proof. read_row. Qed.
Lemma get_workflow_ok id d w d' : get_workflow id d = (Ok w, d') -> Broker.workflow_row d id = Some w /\ d' = d.
Proof. read_row. Qed.

Lemma save_run_ok id r d u d' :
  save_run id r d = (Ok u, d') ->
  full_clean d id r = true /\ d' = set_runs (<[id := r]> (runs d)) d /\
  (forall old, runs d !! id = Some old -> same_binding old r = true).
Proof.
  unfold save_run. intros Hr. apply bind_ok_inv in Hr as (x & d1 & [[= ->] ->]%get_inv & Hr).
  apply bind_ok_inv in Hr as ([] & d2 & Hg & Hr).
  destruct (runs d !! id) as [old|] eqn:Ho; run_inv; bools; split_and!; try done. by intros ? [= <-].
Qed.

(** A capability keeps its identity, and its revocation. *)
Definition renews (m m' : gmap Z workflow_capability) : Prop :=
  forall id c, m !! id = Some c -> exists c', m' !! id = Some c' /\ renewed c c'.
Definition revoked (m : gmap Z workflow_capability) (id : Z) : Prop :=
  exists c, m !! id = Some c /\ is_Some (c_revoked_at c).
Lemma renews_refl m : renews m m.
Proof. intros id c Hc. exists c. split; [done|apply renewed_refl]. Qed.
Lemma renews_insert m id c c' : m !! id = Some c -> renewed c c' -> renews m (<[id := c']> m).
Proof.
  intros Hc Hr k x Hk. destruct (decide (k = id)) as [->|Hne].
  - exists c'. rewrite lookup_insert_eq. by simplify_eq.
  - exists x. rewrite lookup_insert_ne by done. split; [done|apply renewed_refl].
Qed.
Lemma renews_revoked m m' id : renews m m' -> revoked m id -> revoked m' id.
Proof. intros Hm (c & Hc & Hr). destruct (Hm _ _ Hc) as (c' & Hc' & _ & Hk & _). exists c'. split; [done|by apply Hk]. Qed.

(** [revoke_record] *)
Lemma revoke_record_ok k d u d' :
  revoke_record k d = (Ok u, d') ->
  exists caps log, d' = logged log (set_capabilities caps d) /\ renews (capabilities d) caps /\
    (forall id, k_capability k = Some id -> revoked caps id).
Proof.
  unfold revoke_record, Broker.save_capability, Broker.audit. intros Hr.
  assert (logged (LaunchLoop.d_audit (launch d)) (set_capabilities (capabilities d) d) = d) as Hsame by (by destruct d as [[]]).
  destruct (k_capability k) as [id|]; [|run_inv; exists (capabilities d), (LaunchLoop.d_audit (launch d)); split_and!;
    [done|apply renews_refl|done]].
  apply bind_ok_inv in Hr as (x & d1 & [[= ->] ->]%get_inv & Hr).
  apply bind_ok_inv in Hr as (c & d1 & [Hc ->]%some_or_ok_inv & Hr).
  destruct (c_revoked_at c) eqn:Hrev; cbn [isnull] in Hr; run_inv.
  - exists (capabilities d), (LaunchLoop.d_audit (launch d)). split_and!; [done|apply renews_refl|].
    intros ? [= <-]. exists c. split; [done|]. rewrite Hrev. by eexists.
  - eexists (<[id := Broker.revoke_at (clock d) c]> (capabilities d)), _. split_and!; [done| |].
    + apply (renews_insert _ _ c); [done|apply renewed_revoke].
    + intros ? [= <-]. eexists. rewrite lookup_insert_eq. split; [done|by eexists].
Qed.

(** The accounting of the end of a run never fails: the reservation of the run is closed. *)
Lemma account_ok id l (billable : bool) d b l' d' :
  Ledger.Inv (budgets d) -> account id l billable d = (Ok (b, l'), d') ->
  exists o bud, l' = l /\ d' = set_budgets bud d /\ charged id (budgets d) o bud.
Proof.
  intros HI. destruct (close_run id billable (budget_view d) (ledger_view d HI)) as (o & bud & Hc & Hch).
  unfold account, attempt, catch, atomic, mbind, ST_bind. unfold budget at 1.
  replace ((if billable then Budgets.charge_reserved_budget id else Budgets.release_budget id) (budget_view d))
    with ((if billable then Budgets.charge_reserved_budget else Budgets.release_budget) id (budget_view d)) by (by destruct billable).
  rewrite Hc. destruct o as [rid|]; cbn.
  - destruct (proj2 (proj2 (proj2 Hch)) rid eq_refl) as [row Hrow].
    unfold reservation_row, mbind, ST_bind, get, some_or. cbn. rewrite Hrow. cbn. intros [= <- <- <-].
    by exists (Some rid), bud; split_and!; [..|apply charged_view].
  - intros [= <- <- <-]. by exists None, bud; split_and!; [..|apply charged_view].
Qed.

(** The row of a run after its end. *)
Definition ended (r r' : agent_run) (s : run_status) : Prop :=
  exists started finished category input output cost,
    r' = with_outcome s started finished category input output cost r.

Lemma terminal_ok id r actor l category billable d u d' :
  Ledger.Inv (budgets d) -> terminal id r actor l category billable d = (Ok u, d') ->
  exists o bud evs log r', charged id (budgets d) o bud /\ ended r r' (is_cancelled category) /\
    full_clean (set_budgets bud d) id r' = true /\
    d' = set_lane (Some (if bool_decide (l_active_run l = Some id) then holds None l else l))
           (logged log (set_run_events evs (set_runs (<[id := r']> (runs d)) (set_budgets bud d)))).
Proof.
  intros HI Hr. unfold terminal in Hr. apply bind_ok_inv in Hr as ([b l'] & d1 & Ha & Hr).
  apply account_ok in Ha as (o & bud & -> & -> & Hc); [|done].
  apply bind_ok_inv in Hr as (x & d2 & [[= ->] ->]%get_inv & Hr).
  destruct (usage_of b r) as [[input output] cost].
  apply bind_ok_inv in Hr as ([] & d2 & (Hf & -> & _)%save_run_ok & Hr).
  apply bind_ok_inv in Hr as ([] & d3 & (evs & log & ->)%event_ok & Hr).
  unfold save_lane in Hr. run_inv. eexists o, bud, evs, log, _.
  split_and!; [done| |exact Hf|done]. by eexists _, _, _, _, _, _.
Qed.

(** ** The invariant of the run tables *)

Definition hermes (d : db) (id : Z) (r : agent_run) : Prop := runs d !! id = Some r /\ r_hermes_lane r = true.

(** The capability was issued for the run, with every tool. *)
Definition authorises (c : workflow_capability) (r : agent_run) (b : hermes_binding) : Prop :=
  c_workflow c = r_workflow r /\ c_revision c = r_event_revision r /\ c_actor c = b_actor b /\
  c_revision_digest c = b_revision_digest b /\ c_correlation_id c = Some (b_correlation_id b) /\
  c_tools c = Broker.sorted_names Broker.TOOLS /\ c_audience c = Broker.AUDIENCE.

(** The authority rows of a run agree with its status. *)
Record authority_ok (d : db) (r : agent_run) (b : hermes_binding) (k : run_control) : Prop := AuthorityOk {
  au_queued : r_status r = QUEUED -> k_capability k = None;
  au_started : r_status r = RUNNING \/ r_status r = R_SUCCEEDED -> is_Some (k_capability k);
  au_issued : forall c, k_capability k = Some c -> exists cap, capabilities d !! c = Some cap /\ authorises cap r b;
  au_revoked : active r = false -> forall c, k_capability k = Some c ->
    revoked (capabilities d) c \/ (r_status r <> R_SUCCEEDED /\ k_admission_disabled k = true);
  au_closed : k_admission_disabled k = true -> l_admission_disabled (lane_or d) = true;
}.

Record run_ok (d : db) (id : Z) (r : agent_run) : Prop := RunOk {
  ro_row : lifecycle_ok r = true /\ provenance_ok r = true;
  ro_authority : exists b k, bindings d !! id = Some b /\ controls d !! id = Some k /\ authority_ok d r b k;
  ro_lane : active r = true <-> l_active_run (lane_or d) = Some id;
  ro_budget : active r = false -> closed_run id (budgets d);
  ro_settled : r_status r = R_SUCCEEDED -> exists rid row, reservations_of d !! rid = Some row /\
    settled_as id (r_input_tokens r) (r_output_tokens r) row /\ Budgets.br_settled_cost row = Some (r_cost r);
}.

Record runs_ok (d : db) : Prop := RunsOk {
  rk_budget : Ledger.Inv (budgets d);
  rk_runs : forall id r, hermes d id r -> run_ok d id r;
  rk_holder : forall id, l_active_run (lane_or d) = Some id -> exists r, hermes d id r /\ active r = true;
}.

(** ** What every transaction keeps *)

Definition disabled (d : db) : Prop := l_admission_disabled (lane_or d) = true.

(** Runs keep what they are bound to, and an ended run its row; a run whose cancellation has
    been requested does not succeed; the control of a run keeps its capability and its
    cancellation; a closed lane stays closed and admits no run. *)
Record advances (d d' : db) : Prop := Advances {
  ad_runs : forall id r, hermes d id r ->
    exists r', hermes d' id r' /\ same_binding r r' = true /\ (active r = false -> r' = r) /\
      (r_status r' = R_SUCCEEDED -> r_status r <> R_SUCCEEDED ->
       forall k, controls d !! id = Some k -> k_cancel_requested_at k = None);
  ad_bindings : bindings d ⊆ bindings d';
  ad_controls : forall id k, controls d !! id = Some k ->
    exists k', controls d' !! id = Some k' /\
      (forall c, k_capability k = Some c -> k_capability k' = Some c) /\
      (is_Some (k_cancel_requested_at k) -> is_Some (k_cancel_requested_at k'));
  ad_disabled : disabled d -> disabled d';
  ad_admits : disabled d -> forall id r', hermes d' id r' -> exists r, hermes d id r;
  ad_extends : extends d d';
}.

Lemma same_binding_refl r : same_binding r r = true.
Proof.
  unfold same_binding. rewrite !Z.eqb_refl, String.eqb_refl, Bool.eqb_reflx.
  by rewrite !bool_decide_eq_true_2 by done.
Qed.
Lemma same_binding_columns r r' : same_binding r r' = true ->
  r_hermes_lane r' = r_hermes_lane r /\ r_workflow r' = r_workflow r /\ r_event_revision r' = r_event_revision r /\
  r_package_hash r' = r_package_hash r /\ r_routing_policy r' = r_routing_policy r /\
  r_model_profile r' = r_model_profile r /\ r_fixture_id r' = r_fixture_id r /\
  r_fixture_revision r' = r_fixture_revision r /\ r_fixture_digest r' = r_fixture_digest r /\
  r_privacy_mode r' = r_privacy_mode r.
Proof. unfold same_binding. intros Hs. bools. apply Bool.eqb_prop in H. by split_and!. Qed.
Lemma same_binding_trans a b c : same_binding a b = true -> same_binding b c = true -> same_binding a c = true.
Proof.
  intros H1 H2. apply same_binding_columns in H1, H2. unfold same_binding. destruct_and!.
  rewrite !andb_true_iff. split_and!; try (apply bool_decide_eq_true; congruence); try (apply Z.eqb_eq; congruence);
    try (apply String.eqb_eq; congruence). apply Bool.eqb_true_iff. congruence.
Qed.

Lemma advances_refl d : advances d d.
Proof.
  split; [|done| |done|by eauto|reflexivity].
  - intros id r Hr. exists r. by split_and!; [|apply same_binding_refl|..].
  - intros id k Hk. by exists k.
Qed.

Lemma advances_trans a b c : advances a b -> advances b c -> advances a c.
Proof.
  intros H1 H2. split.
  - intros id r Hr. destruct (ad_runs _ _ H1 id r Hr) as (r1 & Hr1 & Hb1 & Hf1 & Hs1).
    destruct (ad_runs _ _ H2 id r1 Hr1) as (r2 & Hr2 & Hb2 & Hf2 & Hs2). exists r2.
    split_and!; [done|by eapply same_binding_trans| |].
    + intros Ha. rewrite Hf1 in * by done. auto.
    + intros Hx Hn k Hk. destruct (decide (r_status r1 = R_SUCCEEDED)) as [He|He]; [by apply Hs1|].
      destruct (ad_controls _ _ H1 id k Hk) as (k1 & Hk1 & _ & Hc1). specialize (Hs2 Hx He k1 Hk1).
      destruct (k_cancel_requested_at k); [|done]. destruct (Hc1 ltac:(by eexists)). congruence.
  - etrans; [apply H1|apply H2].
  - intros id k Hk. destruct (ad_controls _ _ H1 id k Hk) as (k1 & Hk1 & Hc1 & Hx1).
    destruct (ad_controls _ _ H2 id k1 Hk1) as (k2 & Hk2 & Hc2 & Hx2). exists k2. split_and!; auto.
  - intros Hd. by apply (ad_disabled _ _ H2), (ad_disabled _ _ H1).
  - intros Hd id r Hr. destruct (ad_admits _ _ H2 (ad_disabled _ _ H1 Hd) id r Hr) as (r1 & Hr1).
    by apply (ad_admits _ _ H1 Hd id r1).
  - etrans; [apply H1|apply H2].
Qed.
#[export] Instance advances_preorder : PreOrder advances.
Proof. split; [exact advances_refl|exact advances_trans]. Qed.

(** The tables are in order, and stay so. *)
Definition agent_ok (d : db) : Prop := broker_ok d /\ runs_ok d.
Definition preserves (d d' : db) : Prop := agent_ok d -> agent_ok d' /\ advances d d'.
#[export] Instance preserves_preorder : PreOrder preserves.
Proof.
  split; [by intros d Hd; split|]. intros a b c H1 H2 Ha. destruct (H1 Ha) as [Hb H3], (H2 Hb) as [Hc H4].
  split; [done|by etrans].
Qed.

Lemma moves_transaction {A} (R : db -> db -> Prop) `{!PreOrder R} (m : M A) :
  (forall d a d', m d = (Ok a, d') -> R d d') -> moves R (atomic m).
Proof. intros Hm d. unfold atomic. destruct (m d) as [[a|e] d'] eqn:Hr; [by eapply Hm|reflexivity]. Qed.

(** ** What happens elsewhere *)

(** The Hermes runs and their rows are untouched: capabilities are only renewed, and
    reservations are only made for other runs. *)
Record aside (d d' : db) : Prop := Aside {
  as_runs : forall id r, hermes d id r <-> hermes d' id r;
  as_bindings : bindings d' = bindings d;
  as_controls : controls d' = controls d;
  as_lane : lane_or d' = lane_or d;
  as_caps : renews (capabilities d) (capabilities d');
  as_budget : Ledger.Inv (budgets d) -> Ledger.Inv (budgets d') /\
    carries (fun run => forall r, ~ hermes d run r) (budgets d) (budgets d');
}.

Lemma authorises_renewed c c' r b : renewed c c' -> authorises c r b -> authorises c' r b.
Proof.
  intros [(_ & H2 & H3 & H4 & H5 & H6 & H7 & _) [_ Hx]] (? & ? & ? & ? & Hc & ? & ?).
  unfold authorises. rewrite H2, H3, H4, H5, H6, H7. split_and!; try done. by apply Hx.
Qed.

(** The authority rows of a run depend on its capability and on the lane being closed. *)
Lemma authority_aside d d' r b k :
  renews (capabilities d) (capabilities d') -> (disabled d -> disabled d') ->
  authority_ok d r b k -> authority_ok d' r b k.
Proof.
  intros Hc Hl [Hq Hst Hi Hrev Hcl]. split; [done|done| | |].
  - intros c Hk. destruct (Hi c Hk) as (cap & Hcap & Hau). destruct (Hc _ _ Hcap) as (cap' & Hcap' & Hren).
    exists cap'. split; [done|]. by eapply authorises_renewed.
  - intros Ha c Hk. destruct (Hrev Ha c Hk) as [Hx|Hx]; [left|by right]. by eapply renews_revoked.
  - intros Hx. by apply Hl, Hcl.
Qed.

(** So does an ended run on its reservation. *)
Lemma settled_aside d d' new r id :
  carries new (budgets d) (budgets d') ->
  (exists rid row, reservations_of d !! rid = Some row /\
    settled_as id (r_input_tokens r) (r_output_tokens r) row /\ Budgets.br_settled_cost row = Some (r_cost r)) ->
  exists rid row, reservations_of d' !! rid = Some row /\
    settled_as id (r_input_tokens r) (r_output_tokens r) row /\ Budgets.br_settled_cost row = Some (r_cost r).
Proof.
  intros Hc (rid & row & Hr & Hs & Hx). exists rid, row. split_and!; [|done..].
  apply (ca_final _ _ _ Hc); [done|]. destruct Hs as (_ & -> & _). done.
Qed.

Lemma aside_runs d d' : aside d d' -> runs_ok d -> runs_ok d'.
Proof.
  intros [Hr Hb Hc Hl Hca Hbu] [HI Hok Hh]. destruct (Hbu HI) as [HI' Hcar]. split; [done| |].
  - intros id r Hx. apply Hr in Hx. destruct (Hok id r Hx) as [Hrow (b & k & Hbi & Hk & Hau) Hlane Hbud Hset].
    split; [done| |by rewrite Hl| |].
    + exists b, k. rewrite Hb, Hc. split_and!; [done..|]. apply (authority_aside d); [done| |done].
      unfold disabled. by rewrite Hl.
    + intros Ha. apply (carries_closed _ _ _ _ Hcar); [|by apply Hbud]. intros Hn. by apply (Hn r).
    + intros Hs. by apply (settled_aside d d' _ r id Hcar), Hset.
  - intros id. rewrite Hl. intros Hx. destruct (Hh id Hx) as (r & Hx' & Ha). exists r. by rewrite <- Hr.
Qed.

Lemma aside_advances d d' : aside d d' -> extends d d' -> advances d d'.
Proof.
  intros [Hr Hb Hc Hl _ _] He. split; [|by rewrite Hb| |unfold disabled; by rewrite Hl| |done].
  - intros id r Hx. exists r. split_and!; [by apply Hr|apply same_binding_refl|done..].
  - intros id k Hk. exists k. by rewrite Hc.
  - intros _ id r Hx. exists r. by apply Hr.
Qed.

Lemma aside_preserves d d' : aside d d' -> keeps d d' -> preserves d d'.
Proof.
  intros Ha Hk [Hb Hr]. destruct (Hk Hb) as [Hb' He]. split; [split; [done|by eapply aside_runs]|by apply aside_advances].
Qed.

(** ** A transition of one run *)

(** Only the row of one run, its control, the lane, the reservations and the capabilities
    change, and the run was active. *)
Record shift (id : Z) (r r' : agent_run) (k k' : run_control) (d d' : db) : Prop := Shift {
  sh_hermes : hermes d id r;
  sh_active : active r = true;
  sh_control : controls d !! id = Some k;
  sh_runs : runs d' = <[id := r']> (runs d);
  sh_bindings : bindings d' = bindings d;
  sh_controls : controls d' = <[id := k']> (controls d);
  sh_caps : renews (capabilities d) (capabilities d');
  sh_budget : Ledger.Inv (budgets d');
  sh_carries : carries (fun _ => False) (budgets d) (budgets d');
  sh_lane : l_active_run (lane_or d') = if active r' then Some id else None;
  sh_disabled : disabled d -> disabled d';
  sh_binding : same_binding r r' = true;
  sh_capability : forall c, k_capability k = Some c -> k_capability k' = Some c;
  sh_cancel : is_Some (k_cancel_requested_at k) -> is_Some (k_cancel_requested_at k');
  sh_success : r_status r' = R_SUCCEEDED -> k_cancel_requested_at k = None;
}.

Section shift.
Context (id : Z) (r r' : agent_run) (k k' : run_control) (d d' : db).
Context (Hd : runs_ok d) (Hs : shift id r r' k k' d d').

Lemma shift_hermes id2 r2 : id2 <> id -> hermes d' id2 r2 <-> hermes d id2 r2.
Proof. intros Hne. unfold hermes. rewrite (sh_runs _ _ _ _ _ _ _ Hs), lookup_insert_ne by done. done. Qed.
Lemma shift_row : hermes d' id r'.
Proof.
  split; [rewrite (sh_runs _ _ _ _ _ _ _ Hs); apply lookup_insert_eq|].
  destruct (same_binding_columns _ _ (sh_binding _ _ _ _ _ _ _ Hs)) as [-> _]. apply (sh_hermes _ _ _ _ _ _ _ Hs).
Qed.
Lemma shift_held : l_active_run (lane_or d) = Some id.
Proof. apply (ro_lane d id r (rk_runs _ Hd id r (sh_hermes _ _ _ _ _ _ _ Hs))), (sh_active _ _ _ _ _ _ _ Hs). Qed.

Lemma shift_other id2 r2 : id2 <> id -> run_ok d id2 r2 -> run_ok d' id2 r2.
Proof.
  intros Hne [Hrow (b & k2 & Hb & Hk & Hau) Hlane Hbud Hset].
  assert (active r2 = false) as Ha.
  { destruct (active r2); [|done]. pose proof (proj1 Hlane eq_refl). pose proof shift_held. congruence. }
  split; [done| | |intros _|].
  - exists b, k2. rewrite (sh_bindings _ _ _ _ _ _ _ Hs), (sh_controls _ _ _ _ _ _ _ Hs), lookup_insert_ne by done.
    split_and!; [done..|]. apply (authority_aside d); [apply (sh_caps _ _ _ _ _ _ _ Hs)|apply (sh_disabled _ _ _ _ _ _ _ Hs)|done].
  - rewrite Ha, (sh_lane _ _ _ _ _ _ _ Hs). split; [done|]. destruct (active r'); [|done]. intros [= ->]. done.
  - eapply carries_closed; [apply (sh_carries _ _ _ _ _ _ _ Hs)|by intros []|by apply Hbud].
  - intros Hx. by apply (settled_aside d d' _ r2 id2 (sh_carries _ _ _ _ _ _ _ Hs)), Hset.
Qed.

Lemma shift_ok : run_ok d' id r' -> runs_ok d'.
Proof.
  intros Hok. split; [apply (sh_budget _ _ _ _ _ _ _ Hs)| |].
  - intros id2 r2 Hr2. destruct (decide (id2 = id)) as [->|Hne].
    + destruct shift_row as [Hx _], Hr2 as [Hy _]. congruence.
    + apply shift_hermes in Hr2; [|done]. apply shift_other; [done|]. by apply (rk_runs _ Hd).
  - intros id2. rewrite (sh_lane _ _ _ _ _ _ _ Hs). destruct (active r') eqn:Ha; [|done]. intros [= <-].
    exists r'. split; [apply shift_row|done].
Qed.

Lemma shift_advances : extends d d' -> advances d d'.
Proof.
  intros He. split; [|by rewrite (sh_bindings _ _ _ _ _ _ _ Hs)| |apply (sh_disabled _ _ _ _ _ _ _ Hs)| |done].
  - intros id2 r2 Hr2. destruct (decide (id2 = id)) as [->|Hne].
    + exists r'. pose proof (sh_hermes _ _ _ _ _ _ _ Hs) as [Hr _]. destruct Hr2 as [Hr2 _].
      assert (r2 = r) as -> by congruence. split_and!; [apply shift_row|apply (sh_binding _ _ _ _ _ _ _ Hs)| |].
      * by rewrite (sh_active _ _ _ _ _ _ _ Hs).
      * intros Hx _ k2 Hk2. rewrite (sh_control _ _ _ _ _ _ _ Hs) in Hk2. injection Hk2 as <-.
        by apply (sh_success _ _ _ _ _ _ _ Hs).
    + exists r2. split_and!; [by apply shift_hermes|apply same_binding_refl|done..].
  - intros id2 k2 Hk2. rewrite (sh_controls _ _ _ _ _ _ _ Hs). destruct (decide (id2 = id)) as [->|Hne].
    + exists k'. rewrite lookup_insert_eq. pose proof (sh_control _ _ _ _ _ _ _ Hs).
      assert (k2 = k) as -> by congruence. split_and!; [done|apply (sh_capability _ _ _ _ _ _ _ Hs)|apply (sh_cancel _ _ _ _ _ _ _ Hs)].
    + exists k2. by rewrite lookup_insert_ne.
  - intros _ id2 r2 Hr2. destruct (decide (id2 = id)) as [->|Hne]; [exists r; apply (sh_hermes _ _ _ _ _ _ _ Hs)|].
    exists r2. by apply shift_hermes.
Qed.
End shift.

End RunFacts.
