(* ===== verification/AgentRunEffects.v ===== *)
(** * The transactions of the agent runs keep their invariant

    For each transaction of AgentRuns and for the broker's calls: what it writes, that it
    leaves the tables in order, and that it only advances them. *)

From S2P Require Import Prelude PyValue Sha256 JsonText OwnerEvents LaunchLoop Budgets BudgetsTheorems ToolSchemas Uuid DraftProvider EventbriteDrafts IterableDrafts IterableTemplates DraftRows DraftReview DraftEffects Transactions Broker BrokerEffects HermesClient AgentRuns AgentRunFacts.

Module RunEffects.
Import Provider Rows Review Transactions Effects BrokerFacts AgentRuns RunFacts.

(** ** The broker's rows across the transactions *)

Lemma keeps_modify (f : db -> db) :
  (forall d, capabilities (f d) = capabilities d /\ submissions (f d) = submissions d /\ intents (f d) = intents d /\
     invocations (f d) = invocations d /\ next_id (f d) = next_id d) -> moves keeps (modify f : M ()).
Proof. intros Hf. apply moves_modify. intros d. destruct (Hf d) as (? & ? & ? & ? & ?). apply keeps_elsewhere; try done. lia. Qed.
Ltac keeps_write := apply keeps_modify; intros ?; done.
Lemma keeps_budget {A} (m : Budgets.M A) : moves keeps (budget m).
Proof. intros d. unfold budget. destruct (m _) as [[a|e] b]; by apply keeps_elsewhere. Qed.
Lemma keeps_save_run id r : moves keeps (save_run id r).
Proof. unfold save_run. repeat first [keeps_write | moves_step]. Qed.
Lemma keeps_save_lane l : moves keeps (save_lane l).
Proof. keeps_write. Qed.
Lemma keeps_save_control id k : moves keeps (save_control id k).
Proof. keeps_write. Qed.
Lemma keeps_event id a t o : moves keeps (event id a t o).
Proof. unfold event, Broker.audit. repeat first [keeps_write | moves_step]. Qed.
Lemma keeps_lane_row : moves keeps lane_row.
Proof. unfold lane_row, save_lane. repeat first [keeps_write | moves_step]. Qed.
Lemma keeps_quarantine id : moves keeps (quarantine_run id).
Proof. keeps_write. Qed.
Lemma keeps_revoke_record k : moves keeps (revoke_record k).
Proof.
  intros d. unfold revoke_record. destruct (k_capability k) as [id|]; [|reflexivity].
  apply moved_bind; [exact _|reflexivity|]. intros ? ? [[= ->] ->]%get_inv.
  apply moved_bind; [exact _|apply moves_some_or; exact _|]. intros c ? [Hc ->]%some_or_ok_inv.
  destruct (isnull (c_revoked_at c)); [|reflexivity].
  apply moved_bind; [exact _| |intros ? ? ?; apply keeps_audit].
  apply (keeps_capability id c); [done|apply renewed_revoke].
Qed.
#[export] Hint Resolve keeps_save_run keeps_save_lane keeps_save_control keeps_event keeps_lane_row
  keeps_quarantine keeps_revoke_record keeps_fresh keeps_audit : moves.
#[export] Hint Extern 1 (moves _ (budget _)) => apply keeps_budget : moves.

Lemma keeps_account id l billable : moves keeps (account id l billable).
Proof. unfold account, attempt, reservation_row. solve_moves. Qed.
#[export] Hint Resolve keeps_account : moves.
Lemma keeps_terminal id r a l c b : moves keeps (terminal id r a l c b).
Proof. unfold terminal. solve_moves. Qed.
#[export] Hint Resolve keeps_terminal : moves.
Lemma keeps_owns id r l : moves keeps (owns_run id r l).
Proof. unfold owns_run. solve_moves. Qed.
#[export] Hint Resolve keeps_owns : moves.
Lemma keeps_finish id c b o : moves keeps (finish id c b o).
Proof. unfold finish, attempt, get_run, get_control, get_binding. solve_moves. Qed.
#[export] Hint Resolve keeps_finish : moves.
Lemma keeps_cancel id : moves keeps (cancel_hermes_run id).
Proof. unfold cancel_hermes_run, attempt, get_run, get_control, get_binding. solve_moves. Qed.

(** ** The end of a run *)

Lemma transaction_preserves {A} (m : M A) :
  moves keeps (atomic m) ->
  (forall d a d', runs_ok d -> m d = (Ok a, d') -> runs_ok d' /\ (extends d d' -> advances d d')) ->
  moves preserves (atomic m).
Proof.
  intros Hk Hm d [Hb Hr]. destruct (Hk d Hb) as [Hb' He]. unfold atomic in *.
  destruct (m d) as [[a|e] d'] eqn:Hrun; cbn in *; [|by split].
  destruct (Hm d a d' Hr Hrun) as [Hr' Ha]. split; [done|]. by apply Ha.
Qed.

(** The lane, once its row is there. *)
Definition with_lane (d : db) : db := set_lane (Some (lane_or d)) d.
Lemma aside_lane d : aside d (with_lane d).
Proof. split; [done..|apply renews_refl|]. intros HI. split; [done|apply carries_refl]. Qed.

Lemma owns_run_ok id r l d : runs_ok d -> runs d !! id = Some r ->
  owns_run id r l d = (Ok (r_hermes_lane r), d).
Proof.
  intros Hd Hr. unfold owns_run. destruct (r_hermes_lane r) eqn:Hh; [|done]. cbn [negb].
  destruct (ro_authority _ _ _ (rk_runs _ Hd id r (conj Hr Hh))) as (b & k & Hb & Hk & _).
  unfold mbind, ST_bind, get. by rewrite Hb, Hk.
Qed.

(** [_revoke_record] inside its own savepoint, and what is left when it fails. *)
Lemma attempt_ok_inv {A} (m f : M A) d a d' :
  attempt m f d = (Ok a, d') -> m d = (Ok a, d') \/ f d = (Ok a, d').
Proof.
  unfold attempt, catch, atomic. destruct (m d) as [[x|e] d1]; [by left|by right].
Qed.

Lemma revoked_or_not k {A} (a b : A) d x d' :
  attempt (_ ← revoke_record k; mret a) (mret b) d = (Ok x, d') ->
  exists caps log, d' = logged log (set_capabilities caps d) /\ renews (capabilities d) caps /\
    ((x = a /\ forall id, k_capability k = Some id -> revoked caps id) \/ (x = b /\ caps = capabilities d)).
Proof.
  intros [Hr|Hr]%attempt_ok_inv.
  - apply bind_ok_inv in Hr as ([] & d1 & (caps & log & -> & Hren & Hrev)%revoke_record_ok & [[= ->] ->]%ret_inv).
    exists caps, log. split_and!; [done..|by left].
  - apply ret_inv in Hr as [[= ->] ->]. exists (capabilities d), (LaunchLoop.d_audit (launch d)).
    split_and!; [by destruct d as [[]]|apply renews_refl|by right].
Qed.

Lemma active_cases r : active r = true -> r_status r = QUEUED \/ r_status r = RUNNING.
Proof. unfold active. destruct (r_status r); [by left|by right|done..]. Qed.

Lemma ended_columns r r' s : ended r r' s -> r_status r' = s /\ same_binding r r' = true.
Proof. intros (? & ? & ? & ? & ? & ? & ->). split; [done|]. exact (same_binding_refl r). Qed.

Lemma is_cancelled_ended c : is_cancelled c <> R_SUCCEEDED /\ (is_cancelled c = CANCELLED \/ is_cancelled c = R_FAILED).
Proof. unfold is_cancelled. destruct (String.eqb c "cancelled"); auto. Qed.

Lemma full_clean_row d id r : full_clean d id r = true -> lifecycle_ok r = true /\ provenance_ok r = true.
Proof. unfold full_clean. intros Hf. bools. done. Qed.

(** The invariant of a run that [_terminal] has ended: its capability is revoked, or its
    control is quarantined and the lane closed. *)
Lemma ended_ok d id r r' b k k' c :
  ended r r' (is_cancelled c) -> lifecycle_ok r' = true /\ provenance_ok r' = true ->
  bindings d !! id = Some b -> controls d !! id = Some k' -> k_capability k' = k_capability k ->
  (forall cid, k_capability k = Some cid -> exists cap, capabilities d !! cid = Some cap /\ authorises cap r b) ->
  (forall cid, k_capability k = Some cid -> revoked (capabilities d) cid \/ k_admission_disabled k' = true) ->
  (k_admission_disabled k' = true -> l_admission_disabled (lane_or d) = true) ->
  l_active_run (lane_or d) <> Some id -> closed_run id (budgets d) -> run_ok d id r'.
Proof.
  intros He Hrow Hb Hk Hcap Hau Hrev Hdis Hl Hbud. destruct (ended_columns _ _ _ He) as [Hs Hsb].
  destruct (same_binding_columns _ _ Hsb) as (_ & Hw & Hr & _).
  destruct (is_cancelled_ended c) as [Hns Hst].
  assert (active r' = false) as Ha by (unfold active; rewrite Hs; by destruct Hst as [-> | ->]).
  split; [done| |by rewrite Ha|done|by rewrite Hs].
  exists b, k'. split_and!; [done..|]. split; rewrite ?Hs, ?Hcap.
  - by destruct Hst as [-> | ->].
  - destruct Hst as [-> | ->]; by intros [|].
  - intros cid Hc. destruct (Hau cid Hc) as (cap & Hcap' & Hx). exists cap. split; [done|].
    unfold authorises in *. by rewrite Hw, Hr.
  - intros _ cid Hc. destruct (Hrev cid Hc); [by left|right]. by split.
  - done.
Qed.

(** What [finish] and the cancellation of a queued run come to. *)
Lemma end_shift id r r' b k k' l' c caps log log' evs bud o d d' :
  runs_ok d -> hermes d id r -> active r = true -> bindings d !! id = Some b -> controls d !! id = Some k ->
  renews (capabilities d) caps ->
  (forall cid, k_capability k = Some cid -> revoked caps cid \/ k_admission_disabled k' = true) ->
  k_capability k' = k_capability k -> (is_Some (k_cancel_requested_at k) -> is_Some (k_cancel_requested_at k')) ->
  (k_admission_disabled k' = true -> l_admission_disabled l' = true) ->
  (disabled d -> l_admission_disabled l' = true) -> l_active_run l' = Some id ->
  charged id (budgets d) o bud -> ended r r' (is_cancelled c) -> lifecycle_ok r' = true /\ provenance_ok r' = true ->
  d' = set_lane (Some (holds None l')) (logged log (set_run_events evs (set_runs (<[id := r']> (runs d))
         (set_budgets bud (set_controls (<[id := k']> (controls d)) (logged log' (set_capabilities caps d))))))) ->
  runs_ok d' /\ (extends d d' -> advances d d').
Proof.
  intros Hd Hr Ha Hb Hk Hca Hrev Hcap Hcan Hdis Hmon Hl (HI & Hcar & Hcl & _) He Hrow ->.
  match goal with |- runs_ok ?x /\ _ => set (d' := x) end.
  destruct (ended_columns _ _ _ He) as [Hs Hsb]. destruct (is_cancelled_ended c) as [_ Hst].
  destruct (ro_authority _ _ _ (rk_runs _ Hd id r Hr)) as (b0 & k0 & Hb0 & Hk0 & Hau). simplify_eq.
  assert (active r' = false) as Ha' by (unfold active; rewrite Hs; by destruct Hst as [-> | ->]).
  assert (shift id r r' k k' d d') as Hsh.
  { split; try done; [by rewrite Ha'|by rewrite Hcap|]. rewrite Hs. by destruct Hst as [-> | ->]. }
  split; [|by apply shift_advances with (1 := Hsh)]. apply (shift_ok _ _ _ _ _ _ _ Hd Hsh).
  apply (ended_ok d' id r r' b k k' c); try done; [cbn; apply lookup_insert_eq| ].
  intros cid Hc. destruct (au_issued _ _ _ _ Hau cid Hc) as (cap & Hx & Hy).
  destruct (Hca _ _ Hx) as (cap' & Hx' & Hren). exists cap'. split; [done|]. by eapply authorises_renewed.
Qed.

(** Nothing to finish, or the writes of the end. *)
Lemma finish_writes id c billable ok d a d' :
  runs_ok d -> finish id c billable ok d = (Ok a, d') ->
  exists r, runs d !! id = Some r /\
    ((negb (r_hermes_lane r) || negb (active r) = true /\ d' = with_lane d) \/
     (r_hermes_lane r = true /\ active r = true /\ exists b k clean caps category o bud evs log log' r',
        bindings d !! id = Some b /\ controls d !! id = Some k /\ renews (capabilities d) caps /\
        (clean = true -> forall cid, k_capability k = Some cid -> revoked caps cid) /\
        charged id (budgets d) o bud /\ ended r r' (is_cancelled category) /\
        (lifecycle_ok r' = true /\ provenance_ok r' = true) /\
        d' = set_lane (Some (holds None (if negb clean then closed (lane_or d) else lane_or d)))
               (logged log (set_run_events evs (set_runs (<[id := r']> (runs d)) (set_budgets bud
                 (set_controls (<[id := if clean then k else quarantined k]> (controls d))
                   (logged log' (set_capabilities caps (with_lane d)))))))))).
Proof.
  intros Hd Hr. unfold finish in Hr. apply atomic_ok_inv in Hr.
  apply bind_ok_inv in Hr as (l & d0 & Hl & Hr). rewrite lane_row_run in Hl. injection Hl as <- <-. fold (with_lane d) in Hr.
  apply bind_ok_inv in Hr as (r & ? & [Hrow ->]%get_run_ok & Hr). cbn in Hrow. exists r. split; [done|].
  apply bind_ok_inv in Hr as (owned & ? & Ho & Hr). rewrite (owns_run_ok id r _ _ (aside_runs _ _ (aside_lane d) Hd) Hrow) in Ho.
  injection Ho as <- <-.
  destruct (negb (r_hermes_lane r) || negb (active r)) eqn:Hidle; [left; by run_inv|right].
  apply orb_false_iff in Hidle as [Hh Ha]. apply negb_false_iff in Hh, Ha. split_and!; [done..|].
  assert (l_active_run (lane_or d) = Some id) as Hheld by (by apply (ro_lane _ _ _ (rk_runs _ Hd id r (conj Hrow Hh)))).
  apply bind_ok_inv in Hr as (k & ? & [Hk ->]%get_control_ok & Hr).
  apply bind_ok_inv in Hr as (b & ? & [Hb ->]%get_binding_ok & Hr).
  apply bind_ok_inv in Hr as (clean & ? & (caps & log' & -> & Hren & Hcases)%revoked_or_not & Hr).
  apply bind_ok_inv in Hr as ([] & d6 & Hsave & Hr).
  assert (d6 = set_controls (<[id := if clean then k else quarantined k]> (controls d))
    (logged log' (set_capabilities caps (with_lane d)))) as ->.
  { destruct clean; cbn in *; unfold save_control in *; [apply ret_inv in Hsave as [_ ->]|by apply modify_inv in Hsave as [_ ->]].
    rewrite insert_id by done. by destruct d as [[]]. }
  apply bind_ok_inv in Hr as ([] & d7 & (o & bud & evs & log & r' & Hch & He & Hf & ->)%terminal_ok & [[= ->] ->]%ret_inv);
    [|apply Hd].
  exists b, k, clean, caps. eexists. exists o, bud, evs, log, log', r'. do 3 (split; [done|]).
  split; [|split; [exact Hch|split; [exact He|split; [by eapply full_clean_row|]]]].
  - intros -> cid Hcid. destruct Hcases as [[_ Hx]|[? _]]; [auto|done].
  - rewrite bool_decide_eq_true_2 by (by destruct clean). done.
Qed.

Lemma preserves_finish id c billable ok : moves preserves (finish id c billable ok).
Proof.
  intros d [Hbr Hd]. destruct (keeps_finish id c billable ok d Hbr) as [Hbr' He].
  destruct (finish id c billable ok d) as [[a|e] d'] eqn:Hr; cbn in *.
  2: { unfold finish in Hr. apply atomic_err in Hr as ->. by split. }
  destruct (finish_writes id c billable ok d a d' Hd Hr) as (r & Hrow & [[_ ->]|(Hh & Ha & b & k & clean & caps & cat & o & bud & evs & log
    & log' & r' & Hb & Hk & Hren & Hrev & Hch & Hend & Hlife & Hd')]).
  { split; [split; [done|exact (aside_runs _ _ (aside_lane d) Hd)]|by apply aside_advances; [apply aside_lane|]]. }
  pose proof (rk_runs _ Hd id r (conj Hrow Hh)) as Hok.
  assert (l_active_run (lane_or d) = Some id) as Hheld by (by apply (ro_lane _ _ _ Hok)).
  edestruct (end_shift id r r' b k (if clean then k else quarantined k) (if negb clean then closed (lane_or d) else lane_or d)
    cat caps log log' evs bud o d d' Hd (conj Hrow Hh) Ha Hb Hk Hren) as [Hd2 Hadv]; try done.
  all: try (by destruct clean).
  - intros cid Hcid. destruct clean; [left; by apply Hrev|by right].
  - destruct clean; [|done]. destruct (ro_authority _ _ _ Hok) as (? & ? & _ & Hk' & Hau). simplify_eq. apply Hau.
  - split; [by split|by apply Hadv].
Qed.

(** ** Cancellation *)

(** The request of a cancellation: recorded, and the capability revoked or the lane closed. *)
Lemma cancel_attempt id k d l d1 :
  attempt (_ ← revoke_record (cancel_at (clock (with_lane d)) k); mret (lane_or d))
    (_ ← save_lane (closed (lane_or d)); _ ← save_control id (quarantined (cancel_at (clock (with_lane d)) k));
     mret (closed (lane_or d)))
    (set_controls (<[id := cancel_at (clock (with_lane d)) k]> (controls (with_lane d))) (with_lane d)) = (Ok l, d1) ->
  exists k' caps log, d1 = set_lane (Some l) (set_controls (<[id := k']> (controls d)) (logged log (set_capabilities caps d))) /\
    renews (capabilities d) caps /\ k_capability k' = k_capability k /\ is_Some (k_cancel_requested_at k') /\
    l_active_run l = l_active_run (lane_or d) /\
    ((k_admission_disabled k' = k_admission_disabled k /\ l = lane_or d /\
      forall c, k_capability k = Some c -> revoked caps c) \/
     (k_admission_disabled k' = true /\ l_admission_disabled l = true)).
Proof.
  intros [Hr|Hr]%attempt_ok_inv.
  - apply bind_ok_inv in Hr as ([] & d2 & (caps & log & -> & Hren & Hrev)%revoke_record_ok & [[= ->] ->]%ret_inv).
    exists (cancel_at (clock d) k), caps, log. split_and!; try done. by left.
  - unfold save_lane, save_control in Hr. run_inv.
    exists (quarantined (cancel_at (clock d) k)), (capabilities d), (LaunchLoop.d_audit (launch d)).
    split_and!; try done; [|apply renews_refl|by right].
    cbn. rewrite insert_insert_eq. by destruct d as [[]].
Qed.

(** A running run that is asked to stop. *)
Lemma running_shift id r b k k' l caps d d' :
  runs_ok d -> hermes d id r -> r_status r = RUNNING -> bindings d !! id = Some b -> controls d !! id = Some k ->
  renews (capabilities d) caps -> k_capability k' = k_capability k ->
  is_Some (k_cancel_requested_at k') -> (k_admission_disabled k' = true -> l_admission_disabled l = true) ->
  (disabled d -> l_admission_disabled l = true) -> l_active_run l = Some id ->
  runs d' = runs d -> bindings d' = bindings d -> budgets d' = budgets d ->
  lane d' = Some l -> controls d' = <[id := k']> (controls d) -> capabilities d' = caps ->
  runs_ok d' /\ (extends d d' -> advances d d').
Proof.
  intros Hd Hr Hrun Hb Hk Hca Hcap Hcan Hdis Hmon Hl Er Eb Ebu El Ek Ec.
  assert (active r = true) as Ha by (unfold active; by rewrite Hrun).
  assert (lane_or d' = l) as Elo by (unfold lane_or; by rewrite El).
  destruct (rk_runs _ Hd id r Hr) as [Hrow (b0 & k0 & Hb0 & Hk0 & Hau) Hlane Hbud Hset].
  assert (shift id r r k k' d d') as Hsh.
  { split; rewrite ?Er, ?Eb, ?Ek, ?Ec, ?Ebu, ?Elo, ?Ha; try done.
    - by rewrite insert_id by apply Hr.
    - apply (rk_budget _ Hd).
    - apply carries_refl.
    - unfold disabled. by rewrite Elo.
    - apply same_binding_refl.
    - by rewrite Hcap.
    - by rewrite Hrun. }
  split; [|by apply shift_advances with (1 := Hsh)]. apply (shift_ok _ _ _ _ _ _ _ Hd Hsh).
  simplify_eq. split; [done| |by rewrite Ha|by rewrite Ha|by rewrite Hrun].
  exists b, k'. rewrite Eb, Ek, lookup_insert_eq. split_and!; [done..|].
  assert (authority_ok d' r b k) as [Hq Hst Hi _ _].
  { by apply (authority_aside d). }
  split; rewrite ?Hcap; try done. by rewrite Ha.
Qed.

Lemma preserves_cancel id : moves preserves (cancel_hermes_run id).
Proof.
  unfold cancel_hermes_run. apply transaction_preserves; [apply keeps_cancel|]. intros d a d' Hd Hr.
  apply bind_ok_inv in Hr as (l & d0 & Hl & Hr). rewrite lane_row_run in Hl. injection Hl as <- <-.
  apply bind_ok_inv in Hr as (r & ? & [Hrow ->]%get_run_ok & Hr). cbn in Hrow.
  pose proof (aside_runs _ _ (aside_lane d) Hd) as Hd0. fold (with_lane d) in Hr.
  apply bind_ok_inv in Hr as (owned & ? & Ho & Hr). rewrite (owns_run_ok id r) in Ho by done. injection Ho as <- <-.
  assert (runs_ok (with_lane d) /\ (extends d (with_lane d) -> advances d (with_lane d))) as Hsame
    by (split; [done|apply aside_advances, aside_lane]).
  destruct (negb (r_hermes_lane r) || negb (active r)) eqn:Hidle; [by run_inv|].
  apply orb_false_iff in Hidle as [Hh Ha]. apply negb_false_iff in Hh, Ha.
  pose proof (rk_runs _ Hd id r (conj Hrow Hh)) as Hok.
  assert (l_active_run (lane_or d) = Some id) as Hheld by (by apply (ro_lane _ _ _ Hok)).
  apply bind_ok_inv in Hr as (k & ? & [Hk ->]%get_control_ok & Hr). cbn in Hk.
  destruct (negb (isnull (k_cancel_requested_at k))) eqn:Hcan; [by run_inv|].
  apply bind_ok_inv in Hr as (b & ? & [Hb ->]%get_binding_ok & Hr). cbn in Hb.
  apply bind_ok_inv in Hr as (? & ? & [[= ->] ->]%get_inv & Hr).
  apply bind_ok_inv in Hr as ([] & ? & [_ ->]%modify_inv & Hr).
  apply bind_ok_inv in Hr as (l & d1 & Hat & Hr).
  apply bind_ok_inv in Hr as ([] & d2 & (evs & log & ->)%event_ok & Hr).
  apply cancel_attempt in Hat as (k' & caps & log' & -> & Hren & Hcap & Hcan' & Hla & Hcases).
  apply bind_ok_inv in Hr as ([] & d2 & Hr & [_ ->]%ret_inv).
  destruct (ro_authority _ _ _ Hok) as (b0 & k0 & Hb0 & Hk0 & Hau). simplify_eq.
  assert (k_admission_disabled k' = true -> l_admission_disabled l = true) as Hdis.
  { destruct Hcases as [(Hx & -> & _)|[_ Hx]]; [|done]. rewrite Hx. apply Hau. }
  assert (disabled d -> l_admission_disabled l = true) as Hmon by (by destruct Hcases as [(_ & -> & _)|[_ Hx]]).
  destruct (bool_decide (r_status r = QUEUED)) eqn:Hq; bools.
  - apply terminal_ok in Hr as (o & bud & evs' & log2 & r' & Hch & He & Hf & ->); [|apply Hd].
    rewrite bool_decide_eq_true_2 by congruence.
    eapply (end_shift id r r' _ _ k' l _ caps log2 log' evs' bud o d _ Hd (conj Hrow Hh) Ha Hb Hk Hren); try done.
    + intros cid Hcid. rewrite (au_queued _ _ _ _ Hau Hq) in Hcid. done.
    + congruence.
    + by eapply full_clean_row.
  - run_inv. destruct (active_cases r Ha) as [|Hrun]; [done|].
    eapply (running_shift id r _ _ k' l caps d _ Hd (conj Hrow Hh) Hrun Hb Hk Hren); try done. congruence.
Qed.

(** ** Admission *)

Section platform.
Context `{OwnerEvents.Platform} `{Signer} (conf : settings) (recursion : nat).

Lemma keeps_create_run id r : moves keeps (create_run id r).
Proof. unfold create_run. solve_moves. Qed.
Lemma keeps_create_binding id v b : moves keeps (create_binding id v b).
Proof. unfold create_binding. repeat first [keeps_write | moves_step]. Qed.
Lemma keeps_create_control id k : moves keeps (create_control id k).
Proof. unfold create_control. repeat first [keeps_write | moves_step]. Qed.
#[local] Hint Resolve keeps_create_run keeps_create_binding keeps_create_control : moves.
Lemma keeps_queue w v a s : moves keeps (queue_hermes_run conf w v a s).
Proof. unfold queue_hermes_run, or_denied, get_workflow, get_actor, workflow_profile. solve_moves. Qed.

Lemma get_actor_ok d0 a d x d' : get_actor d0 a d = (Ok x, d') -> d' = d.
Proof. unfold get_actor. by intros [_ ->]%some_or_ok_inv. Qed.
Lemma workflow_profile_ok d x d' : workflow_profile conf d = (Ok x, d') -> d' = d.
Proof. unfold workflow_profile. intros Hr. by run_inv. Qed.

(** The writes of an admission. *)
Lemma queue_writes w v a s d id d' :
  runs_ok d -> queue_hermes_run conf w v a s d = (Ok id, d') ->
  exists r b k bud evs log n,
    ~ disabled d /\ l_active_run (lane_or d) = None /\
    runs d !! id = None /\ bindings d !! id = None /\ controls d !! id = None /\
    r_hermes_lane r = true /\ r_status r = QUEUED /\ (lifecycle_ok r = true /\ provenance_ok r = true) /\
    k_capability k = None /\ k_admission_disabled k = false /\
    Ledger.Inv bud /\ carries (fun run => run = id) (budgets d) bud /\
    d' = logged log (set_run_events evs (set_lane (Some (holds (Some id) (lane_or d)))
           (set_controls (<[id := k]> (controls d)) (set_bindings (<[id := b]> (bindings d))
              (set_runs (<[id := r]> (runs d)) (set_budgets bud (set_next n (with_lane d)))))))).
Proof.
  intros Hd Hr. unfold queue_hermes_run, or_denied, catch in Hr.
  match type of Hr with context [match ?m d with _ => _ end] => destruct (m d) as [[x|e] d1] eqn:Hm end.
  2: { destruct (admission_error e); by apply raise_inv in Hr as [? _]. }
  injection Hr as -> ->. apply atomic_ok_inv in Hm.
  apply bind_ok_inv in Hm as (l & d0 & Hl & Hm). rewrite lane_row_run in Hl. injection Hl as <- <-.
  apply bind_ok_inv in Hm as (? & ? & [[= ->] ->]%get_inv & Hm).
  apply bind_ok_inv in Hm as ([] & ? & [Hbusy ->]%fail_if_ok_inv & Hm).
  apply bind_ok_inv in Hm as (timeout & ? & [_ ->]%lift_inv & Hm).
  apply bind_ok_inv in Hm as ([wf rev] & ? & [_ ->]%get_workflow_ok & Hm).
  apply bind_ok_inv in Hm as (actor & ? & ->%get_actor_ok & Hm).
  apply bind_ok_inv in Hm as (is_ready & ? & [_ ->]%lift_inv & Hm).
  apply bind_ok_inv in Hm as ([] & ? & [_ ->]%fail_if_ok_inv & Hm).
  apply bind_ok_inv in Hm as ([[pk profile] policy] & ? & ->%workflow_profile_ok & Hm).
  apply bind_ok_inv in Hm as (correlation & ? & [[= ->] ->]%fresh_run & Hm).
  fold (with_lane d) in Hm.
  match type of Hm with context [HermesClient.run_key ?c] => generalize dependent (HermesClient.run_key c) end.
  intros run Hm.
  apply bind_ok_inv in Hm as (rid & ? & (bud & Hbud & ->)%budget_ok_inv & Hm).
  apply reserve_run in Hbud as [HI Hcar]; [|apply ledger_view, Hd].
  apply bind_ok_inv in Hm as ([] & ? & Hcr & Hm). unfold create_run in Hcr.
  apply bind_ok_inv in Hcr as (? & ? & [[= ->] ->]%get_inv & Hcr).
  apply bind_ok_inv in Hcr as ([] & ? & [Hnew ->]%fail_if_ok_inv & (Hf & -> & _)%save_run_ok).
  apply bind_ok_inv in Hm as ([] & ? & Hcb & Hm). unfold create_binding in Hcb.
  apply bind_ok_inv in Hcb as (? & ? & [[= ->] ->]%get_inv & Hcb).
  apply bind_ok_inv in Hcb as ([] & ? & [Hnewb ->]%fail_if_ok_inv & Hcb).
  apply bind_ok_inv in Hcb as (snap & ? & [_ ->]%some_or_ok_inv & Hcb).
  apply bind_ok_inv in Hcb as (text & ? & [_ ->]%lift_inv & [_ ->]%modify_inv).
  apply bind_ok_inv in Hm as ([] & ? & Hcc & Hm). unfold create_control in Hcc.
  apply bind_ok_inv in Hcc as (? & ? & [[= ->] ->]%get_inv & Hcc).
  apply bind_ok_inv in Hcc as ([] & ? & [Hnewk ->]%fail_if_ok_inv & [_ ->]%modify_inv).
  apply bind_ok_inv in Hm as ([] & ? & [_ ->]%modify_inv & Hm).
  apply bind_ok_inv in Hm as ([] & ? & (evs & log & ->)%event_ok & [[= ->] ->]%ret_inv).
  cbn in Hnew, Hnewb, Hnewk. unfold lane_busy in Hbusy. bools. cbn in *.
  pose proof (full_clean_row _ _ _ Hf) as Hlife. apply carries_view in Hcar. clear Hf.
  match goal with |- context [<[run := queued_run ?x w wf pk policy]>] =>
    remember (queued_run x w wf pk policy) as r eqn:Hr end.
  eexists r, _, _, bud, evs, log, _.
  do 12 (split; [shelve|]). reflexivity.
  Unshelve. all: try done.
  - unfold disabled. congruence.
  - by destruct (l_active_run (lane_or d)).
  - by apply eq_None_not_Some.
  - by apply eq_None_not_Some.
  - by apply eq_None_not_Some.
  - by subst r.
  - by subst r.
Qed.

Lemma queue_runs w v a s d id d' :
  runs_ok d -> queue_hermes_run conf w v a s d = (Ok id, d') -> runs_ok d' /\ (extends d d' -> advances d d').
Proof.
  intros Hd (r & b & k & bud & evs & log & n & Hdis & Hfree & Hr & Hb & Hk & Hh & Hq & Hrow & Hcap & Hdk & HI & Hcar & ->)
    %queue_writes; [|done].
  match goal with |- runs_ok ?x /\ _ => set (d' := x) end.
  assert (active r = true) as Ha by (unfold active; by rewrite Hq).
  assert (forall id2 r2, id2 <> id -> hermes d' id2 r2 <-> hermes d id2 r2) as Hother
    by (intros id2 r2 Hne; unfold hermes; cbn; by rewrite lookup_insert_ne).
  assert (hermes d' id r) as Hnew by (split; [apply lookup_insert_eq|done]).
  assert (forall r0, ~ hermes d id r0) as Hnone by (intros r0 [Hx _]; congruence).
  split; [split; [done| |]|intros He; split; [| | | | |done]].
  - intros id2 r2 Hr2. destruct (decide (id2 = id)) as [->|Hne].
    + assert (r2 = r) as -> by (destruct Hr2, Hnew; congruence). split; [done| |by rewrite Ha|by rewrite Ha|by rewrite Hq].
      exists b, k. cbn. rewrite !lookup_insert_eq. split_and!; [done..|].
      split; rewrite ?Hq, ?Hcap, ?Hdk; try done. by intros [|].
    + apply Hother in Hr2; [|done]. destruct (rk_runs _ Hd id2 r2 Hr2) as [Hrow2 (b2 & k2 & Hb2 & Hk2 & Hau) Hlane Hbud Hset].
      assert (active r2 = false) as Ha2.
      { destruct (active r2); [|done]. pose proof (proj1 Hlane eq_refl). congruence. }
      split; [done| | |intros _|].
      * exists b2, k2. cbn. rewrite !lookup_insert_ne by done. split_and!; [done..|].
        apply (authority_aside d); [apply renews_refl|done|done].
      * rewrite Ha2. split; [done|]. cbn. congruence.
      * apply (carries_closed _ _ _ _ Hcar); [done|by apply Hbud].
      * intros Hx. by apply (settled_aside d d' _ r2 id2 Hcar), Hset.
  - intros id2. cbn. intros [= <-]. by exists r.
  - intros id2 r2 Hr2. exists r2. split_and!; [|apply same_binding_refl|done..]. apply Hother; [|done].
    intros ->. by apply (Hnone r2).
  - cbn. by apply insert_subseteq.
  - intros id2 k2 Hk2. exists k2. cbn. rewrite lookup_insert_ne by congruence. done.
  - done.
  - done.
Qed.

Lemma preserves_queue w v a s : moves preserves (queue_hermes_run conf w v a s).
Proof.
  intros d [Hb Hr]. pose proof (keeps_queue w v a s d Hb) as [Hb' He].
  destruct (queue_hermes_run conf w v a s d) as [[id|e] d'] eqn:Hq; cbn in *.
  - destruct (queue_runs _ _ _ _ _ _ _ Hr Hq) as [Hr' Ha]. split; [done|]. by apply Ha.
  - assert (d' = d) as ->; [|by split]. unfold queue_hermes_run, or_denied, catch in Hq.
    match type of Hq with context [match ?m d with _ => _ end] => destruct (m d) as [[x|e'] d1] eqn:Hm end; [done|].
    apply atomic_err in Hm as ->. destruct (admission_error e'); by apply raise_inv in Hq as [_ ->].
Qed.

Lemma preserves_lane_row : moves preserves lane_row.
Proof.
  intros d. rewrite lane_row_run. apply aside_preserves; [apply aside_lane|by apply keeps_elsewhere].
Qed.

(** Tables that the invariant does not mention. *)
Lemma aside_elsewhere d d' :
  runs d' = runs d -> bindings d' = bindings d -> controls d' = controls d -> lane d' = lane d ->
  capabilities d' = capabilities d -> budgets d' = budgets d -> aside d d'.
Proof.
  intros Hr Hb Hc Hl Hca Hbu. split; [|done|done|unfold lane_or; by rewrite Hl|rewrite Hca; apply renews_refl|].
  - intros id r. unfold hermes. by rewrite Hr.
  - rewrite Hbu. intros HI. split; [done|apply carries_refl].
Qed.
Lemma preserves_receipts f : moves preserves (modify (fun d => set_receipts (f d) d) : M ()).
Proof. apply moves_modify. intros d. apply aside_preserves; [by apply aside_elsewhere|by apply keeps_elsewhere]. Qed.
#[local] Hint Resolve preserves_lane_row preserves_queue preserves_finish : moves.

Lemma preserves_dispatch delivered id : moves preserves (dispatch_run delivered id).
Proof. unfold dispatch_run. solve_moves. Qed.
#[local] Hint Resolve preserves_dispatch : moves.

Lemma preserves_start key w v a s delivered : moves preserves (start_hermes_run conf key w v a s delivered).
Proof.
  unfold start_hermes_run, or_denied.
  repeat match goal with
  | |- moves _ (modify _) => apply (preserves_receipts (fun d => <[key := _]> (receipts d)))
  | |- moves _ _ => moves_step
  end.
Qed.

(** ** The checks of a worker *)

Lemma readonly_ready run b w r d : readonly (run_ready d run b w r).
Proof. unfold run_ready, get_actor. solve_readonly. Qed.

Lemma check_ok run k b w r capability d u d' :
  check conf run k b w r capability d = (Ok u, d') ->
  d' = d /\ k_cancel_requested_at k = None /\ hermes_enabled conf = true /\
  (exists t, k_lease_expires_at k = Some t /\ clock d < t) /\
  Broker.active_operator d (b_actor b) = true /\ (run_ready d run b w r d).1 = Ok true /\
  digest (JDict (LaunchLoop.r_snapshot r)) = Ok (b_revision_digest b) /\
  (forall c, capability = Some c -> capability_valid (clock d) c run b = true).
Proof.
  unfold check. intros Hr. apply bind_ok_inv in Hr as (? & ? & [[= ->] ->]%get_inv & Hr).
  apply bind_ok_inv in Hr as ([] & ? & [Hc ->]%fail_if_ok_inv & Hr).
  apply bind_ok_inv in Hr as ([] & ? & [Hl ->]%fail_if_ok_inv & Hr).
  apply bind_ok_inv in Hr as ([] & ? & [Ho ->]%fail_if_ok_inv & Hr).
  apply bind_ok_inv in Hr as (is_ready & d1 & Hready & Hr).
  assert (d1 = d) as -> by (pose proof (readonly_ready run b w r d d) as Hd; by rewrite Hready in Hd).
  apply bind_ok_inv in Hr as ([] & ? & [Hi ->]%fail_if_ok_inv & Hr).
  apply bind_ok_inv in Hr as (text & ? & [Hx ->]%lift_inv & Hr).
  apply bind_ok_inv in Hr as ([] & ? & [Ht ->]%fail_if_ok_inv & Hr). bools. subst.
  destruct (k_cancel_requested_at k); [done|]. destruct (k_lease_expires_at k) as [t|]; [|done].
  rewrite Hready. split_and!; try done.
  - destruct capability as [c|]; [by apply fail_if_ok_inv in Hr as [_ ->]|by apply ret_inv in Hr as [_ ->]].
  - exists t. split; [done|]. by apply Z.leb_gt.
  - intros c ->. apply fail_if_ok_inv in Hr as [Hv _]. by bools.
Qed.


(** ** The start of a worker *)

(** The worker's token is the token of the run's capability. *)
Definition works (w : worker) (d : db) : Prop :=
  exists k id c, controls d !! w_run w = Some k /\ k_capability k = Some id /\
    capabilities d !! id = Some c /\ c_token_digest c = Broker.token_digest (w_token w).

Lemma works_advances w d d' : advances d d' -> works w d -> works w d'.
Proof.
  intros Ha (k & id & c & Hk & Hid & Hc & Ht). destruct (ad_controls _ _ Ha _ _ Hk) as (k' & Hk' & Hcap & _).
  destruct (ex_capabilities _ _ (ad_extends _ _ Ha) _ _ Hc) as (c' & Hc' & [(Ht' & _) _]).
  exists k', id, c'. split_and!; [done|by apply Hcap|done|congruence].
Qed.

Lemma attempt_writes id run l client nonce d x d' :
  agent_ok d -> start_attempt conf id run l client nonce d = (Ok x, d') ->
  exists b k cap r',
    x = Started (Worker id (Broker.token_of nonce)) /\
    l_active_run l = Some id /\ l_admission_disabled l = false /\ is_Some client /\
    bindings d !! id = Some b /\ controls d !! id = Some k /\ k_cancel_requested_at k = None /\
    authorises cap run b /\ c_token_digest cap = Broker.token_digest (Broker.token_of nonce) /\
    capabilities d !! next_id d = None /\
    r_status r' = RUNNING /\ same_binding run r' = true /\ lifecycle_ok r' = true /\ provenance_ok r' = true /\
    runs d' = <[id := r']> (runs d) /\ bindings d' = bindings d /\
    controls d' = <[id := holding (next_id d) k]> (controls d) /\ lane d' = lane d /\
    capabilities d' = <[next_id d := cap]> (capabilities d) /\ budgets d' = budgets d /\ keeps d d'.
Proof.
  intros [Hbr Hd] Hr. unfold start_attempt in Hr.
  apply bind_ok_inv in Hr as (k & ? & [Hk ->]%get_control_ok & Hr).
  apply bind_ok_inv in Hr as (b & ? & [Hb ->]%get_binding_ok & Hr).
  apply bind_ok_inv in Hr as ([w r] & ? & [Hw ->]%get_workflow_ok & Hr).
  apply bind_ok_inv in Hr as ([] & ? & [Hl ->]%fail_if_ok_inv & Hr).
  apply bind_ok_inv in Hr as ([] & ? & (-> & Hcan & _ & _ & _ & _ & Hdig & _)%check_ok & Hr).
  apply bind_ok_inv in Hr as (cl & ? & [Hcl ->]%some_or_ok_inv & Hr).
  apply bind_ok_inv in Hr as (? & ? & [[= ->] ->]%get_inv & Hr).
  apply bind_ok_inv in Hr as (token & d1 & Hi & Hr).
  pose proof (moves_run _ _ _ _ _ (keeps_issue _ _ _ _ _ _) Hi Hbr) as [Hbr1 He1].
  apply issue_ok in Hi as (wf & rv & text & log1 & -> & _ & _ & _ & Hw' & _ & _ & _ & Hx & Hnew & Hd1).
  rewrite Hw' in Hw. injection Hw as -> ->. rewrite Hdig in Hx. injection Hx as <-.
  match type of Hd1 with context [with_capability ?row _] => set (c := row) in Hd1 end.
  assert (capabilities d1 !! next_id d = Some c) as Hc1 by (subst d1; apply lookup_insert_eq).
  apply bind_ok_inv in Hr as (? & ? & [[= ->] ->]%get_inv & Hr).
  apply bind_ok_inv in Hr as (row & ? & [Hf ->]%some_or_ok_inv & Hr).
  rewrite (find_capability_known d1 (next_id d) c (Broker.token_digest (Broker.token_of nonce)) Hbr1 Hc1 eq_refl) in Hf. injection Hf as <-.
  apply bind_ok_inv in Hr as ([] & d2 & Hsc & Hr).
  pose proof (keeps_capability (next_id d) c (Broker.correlate (b_correlation_id b) c) d1 Hc1 (renewed_correlate _ c eq_refl)) as Hk2.
  rewrite Hsc in Hk2. unfold Broker.save_capability in Hsc. apply modify_inv in Hsc as [_ ->].
  apply bind_ok_inv in Hr as ([] & ? & [_ ->]%modify_inv & Hr).
  apply bind_ok_inv in Hr as ([] & ? & (Hfc & -> & _)%save_run_ok & Hr).
  apply bind_ok_inv in Hr as ([] & ? & (evs & log & ->)%event_ok & [[= ->] ->]%ret_inv).
  bools. apply full_clean_row in Hfc as [Hlife Hprov].
  exists b, k, (Broker.correlate (b_correlation_id b) c).
  match goal with |- context [<[id := ?row]> _] => match row with with_outcome _ _ _ _ _ _ _ _ => exists row end end.
  assert (capabilities d !! next_id d = None) as Hfree by (apply fresh_absent, bo_capability_keys, Hbr).
  split_and!; try done; cbn [runs bindings controls lane capabilities budgets logged set_launch set_run_events set_runs set_controls set_capabilities].
  all: try (by subst d1).
  - exact (same_binding_refl run).
  - subst d1. apply insert_insert_eq.
  - intros _. destruct (Hk2 Hbr1) as [Hbr2 He2]. cbn [snd] in *.
    match goal with |- broker_ok ?x /\ _ => assert (keeps (set_capabilities
      (<[next_id d := Broker.correlate (b_correlation_id b) c]> (capabilities d1)) d1) x) as Hk3 end.
    { by apply keeps_elsewhere. }
    destruct (Hk3 Hbr2) as [Hbr3 He3]. split; [done|]. etrans; [exact He1|]. by etrans.
Qed.

Lemma attempt_shift id run l client nonce d x d' :
  agent_ok d -> hermes d id run -> r_status run = QUEUED -> lane_or d = l -> lane d = Some l ->
  start_attempt conf id run l client nonce d = (Ok x, d') ->
  agent_ok d' /\ advances d d' /\ x = Started (Worker id (Broker.token_of nonce)) /\ is_Some client /\
  (exists r, hermes d' id r) /\ works (Worker id (Broker.token_of nonce)) d'.
Proof.
  intros [Hbr Hd] Hrun Hq Hl Hlane Hr. assert (active run = true) as Ha by (unfold active; by rewrite Hq).
  apply attempt_writes in Hr as (b & k & cap & r' & -> & Hheld & Hopen & Hcl & Hb & Hk & Hcan & Hau & Ht & Hfree & Hs
    & Hsb & Hlife & Hprov & Er & Eb & Ek & El & Ec & Ebu & Hkeep); [|by split].
  destruct (Hkeep Hbr) as [Hbr' He].
  destruct (rk_runs _ Hd id run Hrun) as [Hrow (b0 & k0 & Hb0 & Hk0 & Hau0) Hln Hbud Hset]. simplify_eq.
  assert (lane_or d' = lane_or d) as Elo by (unfold lane_or; by rewrite El).
  assert (active r' = true) as Ha' by (unfold active; by rewrite Hs).
  assert (renews (capabilities d) (capabilities d')) as Hren.
  { intros i c Hc. exists c. rewrite Ec, lookup_insert_ne by congruence. split; [done|apply renewed_refl]. }
  assert (shift id run r' k (holding (next_id d) k) d d') as Hsh.
  { split; rewrite ?Er, ?Eb, ?Ek, ?Ebu, ?Ha', ?Elo; try done.
    - apply Hd.
    - apply carries_refl.
    - unfold disabled. by rewrite Elo.
    - intros c Hc. pose proof (au_queued _ _ _ _ Hau0 Hq). congruence. }
  split; [split; [done|]|split; [by apply shift_advances with (1 := Hsh)|split; [done|split; [done|split; [|]]]]].
  - apply (shift_ok _ _ _ _ _ _ _ Hd Hsh). destruct (same_binding_columns _ _ Hsb) as (_ & Hw & Hv & _).
    split; [done| |by rewrite Ha', Elo|by rewrite Ha'|by rewrite Hs].
    exists b, (holding (next_id d) k). rewrite Eb, Ek, lookup_insert_eq. split_and!; [done..|]. split; rewrite ?Hs.
    + done.
    + intros _. by eexists.
    + intros c [= <-]. exists cap. rewrite Ec, lookup_insert_eq. split; [done|]. unfold authorises in *. by rewrite Hw, Hv.
    + by rewrite Ha'.
    + rewrite Elo. apply (au_closed _ _ _ _ Hau0).
  - exists r'. by apply (shift_row _ _ _ _ _ _ _ Hsh).
  - exists (holding (next_id d) k), (next_id d), cap. cbn [w_run w_token]. rewrite Ek, Ec, !lookup_insert_eq. done.
Qed.

(** A task that begins leaves the tables in order, and its worker holds its run's token. *)
Lemma begin_ok id client nonce d x d' :
  agent_ok d -> begin_run conf id client nonce d = (x, d') ->
  agent_ok d' /\ advances d d' /\ (forall w, x = Ok (Started w) -> w_run w = id /\ is_Some client /\ (exists r, hermes d' id r) /\ works w d').
Proof.
  intros Hd. unfold begin_run, mbind at 1, ST_bind at 1, get at 1, catch.
  match goal with |- context [match ?m d with _ => _ end] => destruct (m d) as [[y|e] d1] eqn:Hm end.
  2: { apply atomic_err in Hm as ->. intros Hr.
       assert (d' = d /\ exists z, x = Ok z /\ forall w, z <> Started w) as [-> (z & -> & Hz)].
       { repeat case_match; apply ret_inv in Hr as [-> ->]; eauto. }
       split_and!; [apply Hd..|reflexivity|]. intros w [= ->]. by destruct (Hz w). }
  intros [= <- <-]. apply atomic_ok_inv in Hm.
  apply bind_ok_inv in Hm as (l & d0 & Hl & Hm). rewrite lane_row_run in Hl. injection Hl as <- <-.
  apply bind_ok_inv in Hm as (r & ? & [Hrow ->]%get_run_ok & Hm). cbn in Hrow.
  fold (with_lane d) in Hm.
  destruct (preserves_lane_row d Hd) as [Hd0 Had]. rewrite lane_row_run in Hd0, Had. cbn [snd] in Hd0, Had.
  apply bind_ok_inv in Hm as (owned & ? & Ho & Hm). rewrite (owns_run_ok id r) in Ho by (done || apply Hd0).
  injection Ho as <- <-.
  destruct (negb (r_hermes_lane r) || negb (active r)) eqn:Hidle.
  { apply ret_inv in Hm as [[= ->] ->]. by split_and!. }
  apply orb_false_iff in Hidle as [Hh Ha]. apply negb_false_iff in Hh, Ha.
  destruct (bool_decide (r_status r = RUNNING)) eqn:Hrun; [by apply raise_inv in Hm as [? _]|]. bools.
  destruct (active_cases r Ha) as [Hq|]; [|done].
  apply attempt_shift in Hm as (Hd' & Had' & -> & Hcl & Hex & Hw); try done.
  split_and!; [apply Hd'..|by etrans|]. by intros w [= <-].
Qed.

(** ** The end of a worker *)

(** Looking at the reservations does not change them. *)
Definition viewed (d : db) : db := set_budgets (budget_view d) d.
Definition looks (d d' : db) : Prop := d' = d \/ d' = viewed d.
#[local] Instance looks_preorder : PreOrder looks.
Proof.
  split; [by left|]. intros a b c [-> | ->] [-> | ->]; [by left|by right|by right|right].
  done.
Qed.

Lemma looks_cost profile input output : moves looks (budget (Budgets.cost profile input output)).
Proof.
  intros d. unfold budget, Budgets.cost.
  destruct (Budgets.pf_input_price profile), (Budgets.pf_output_price profile); try (by right).
  unfold mbind, ST_bind, fail_if. destruct (_ || _); by right.
Qed.
Lemma looks_validate id run b k res : moves looks (validate_result id run b k res).
Proof.
  unfold validate_result, check_reference, check_operation, worker_failure.
  repeat first [apply looks_cost | moves_step].
Qed.
Lemma looks_or_invalid {A} (m : M A) : moves looks m -> moves looks (or_invalid m).
Proof. intros Hm. unfold or_invalid, worker_failure. solve_moves. Qed.

Lemma looks_tables d d' : looks d d' ->
  runs d' = runs d /\ bindings d' = bindings d /\ controls d' = controls d /\ lane d' = lane d /\
  capabilities d' = capabilities d /\ submissions d' = submissions d /\ intents d' = intents d /\
  launch d' = launch d /\ clock d' = clock d /\ reservations_of d' = reservations_of d /\
  invocations d' = invocations d /\ next_id d' = next_id d.
Proof. by intros [-> | ->]. Qed.

Lemma or_invalid_ok {A} (m : M A) d a d' : or_invalid m d = (Ok a, d') -> m d = (Ok a, d').
Proof.
  unfold or_invalid, worker_failure, catch. destruct (m d) as [[x|e] d1]; [done|].
  destruct e; intros Hr; by apply raise_inv in Hr as [? _].
Qed.

(** What a completion writes. *)
Record written (id : Z) (res : list (string * json)) (run r' : agent_run) (cid : Z) (c : workflow_capability)
    (rid : Z) (row : Budgets.budget_reservation) (d d' : db) : Prop := Written {
  wr_input : usage_field res "input_tokens" = Ok (r_input_tokens r');
  wr_output : usage_field res "output_tokens" = Ok (r_output_tokens r');
  wr_budget : Ledger.Inv (budgets d');
  wr_carries : carries (fun _ => False) (budgets d) (budgets d');
  wr_closed : closed_run id (budgets d');
  wr_reservation : reservations_of d' !! rid = Some row;
  wr_settled : settled_as id (r_input_tokens r') (r_output_tokens r') row /\
    Budgets.br_settled_cost row = Some (r_cost r');
  wr_status : r_status r' = R_SUCCEEDED;
  wr_binding : same_binding run r' = true;
  wr_row : lifecycle_ok r' = true /\ provenance_ok r' = true;
  wr_runs : runs d' = <[id := r']> (runs d);
  wr_bindings : bindings d' = bindings d;
  wr_controls : controls d' = controls d;
  wr_lane : lane d' = Some (holds None (lane_or d));
  wr_caps : capabilities d' = <[cid := Broker.revoke_at (clock d) c]> (capabilities d);
  wr_submissions : submissions d' = submissions d;
  wr_intents : intents d' = intents d;
  wr_invocations : invocations d' = invocations d;
  wr_next : next_id d' = next_id d;
  wr_launch : exists log, launch d' = LaunchLoop.set_audit log (launch d);
}.

(** What a completion has found. *)
Record completed (w : worker) (res : list (string * json)) (d d' : db)
    (run : agent_run) (b : hermes_binding) (k : run_control) (cid : Z) (c : workflow_capability)
    (wf : LaunchLoop.workflow) (r : LaunchLoop.event_revision) : Prop := Completed {
  cp_run : runs d !! w_run w = Some run;
  cp_running : r_status run = RUNNING;
  cp_binding : bindings d !! w_run w = Some b;
  cp_control : controls d !! w_run w = Some k;
  cp_capability : k_capability k = Some cid /\ capabilities d !! cid = Some c;
  cp_workflow : Broker.workflow_row d (r_workflow run) = Some (wf, r);
  cp_open : ~ disabled d;
  cp_held : l_active_run (lane_or d) = Some (w_run w);
  cp_current : k_cancel_requested_at k = None /\ (run_ready (with_lane d) run b wf r (with_lane d)).1 = Ok true /\
    digest (JDict (LaunchLoop.r_snapshot r)) = Ok (b_revision_digest b);
  cp_valid : capability_valid (clock d) c run b = true;
  cp_result : (validate_result (w_run w) run b k res (with_lane d)).1 = Ok ();
  cp_writes : exists r' rid row, written (w_run w) res run r' cid c rid row d d';
}.

(** The revocation of the worker's token, in a state whose capabilities are those of [d]. *)
Lemma revoke_writes d d1 token cid c u d2 :
  broker_ok d -> capabilities d1 = capabilities d -> capabilities d !! cid = Some c ->
  c_token_digest c = Broker.token_digest token ->
  catch (Broker.revoke_workflow_capability token) (fun _ => raise (WorkerFailure "dependency_unavailable" true)) d1
    = (Ok u, d2) ->
  exists log, d2 = logged log (set_capabilities (<[cid := Broker.revoke_at (clock d1) c]> (capabilities d)) d1).
Proof.
  intros Hbr Ec Hc Ht Hr. unfold catch in Hr.
  destruct (Broker.revoke_workflow_capability token d1) as [[[]|e] d3] eqn:Hrv; [|by apply raise_inv in Hr as [? _]].
  injection Hr as _ <-. unfold Broker.revoke_workflow_capability in Hrv. apply atomic_ok_inv in Hrv.
  apply bind_ok_inv in Hrv as (? & ? & [[= ->] ->]%get_inv & Hrv).
  apply bind_ok_inv in Hrv as (row & ? & [Hf ->]%some_or_ok_inv & Hrv).
  assert (Broker.find_capability d1 (Broker.token_digest token) = Some (cid, c)) as Hf'.
  { unfold Broker.find_capability. rewrite Ec. by apply find_capability_known. }
  rewrite Hf' in Hf. injection Hf as <-. unfold Broker.save_capability, Broker.audit in Hrv.
  apply bind_ok_inv in Hrv as ([] & ? & [_ ->]%modify_inv & [_ ->]%modify_inv). rewrite Ec. by eexists.
Qed.

(** The settlement, and the row of the run that succeeded. *)
Lemma settle_writes id run actor l now input output d u d' :
  Ledger.Inv (budgets d) -> runs d !! id = Some run ->
  (rid ← budget (Budgets.settle_budget id input output);
   settlement ← reservation_row rid;
   _ ← save_run id (with_outcome R_SUCCEEDED (r_started_at run) (Some now) (r_failure_category run)
         (default 0 (Budgets.br_settled_input settlement)) (default 0 (Budgets.br_settled_output settlement))
         (default 0 (Budgets.br_settled_cost settlement)) run);
   _ ← event id actor "succeeded" "accepted";
   save_lane (holds None l)) d = (Ok u, d') ->
  exists rid row bud evs log r',
    Ledger.Inv bud /\ carries (fun _ => False) (budgets d) bud /\ closed_run id bud /\
    Budgets.b_reservations bud !! rid = Some row /\ settled_as id input output row /\
    r_status r' = R_SUCCEEDED /\ r_input_tokens r' = input /\ r_output_tokens r' = output /\
    Budgets.br_settled_cost row = Some (r_cost r') /\ same_binding run r' = true /\
    (lifecycle_ok r' = true /\ provenance_ok r' = true) /\
    d' = set_lane (Some (holds None l)) (logged log (set_run_events evs
           (set_runs (<[id := r']> (runs d)) (set_budgets bud d)))).
Proof.
  intros HI Hrow Hr. apply bind_ok_inv in Hr as (rid & ? & (bud & Hbud & ->)%budget_ok_inv & Hr).
  apply settle_run in Hbud as (HI' & Hcar & Hcl & row & Hrid & Hset); [|by apply ledger_view].
  apply bind_ok_inv in Hr as (row' & ? & Hrr & Hr). unfold reservation_row in Hrr.
  apply bind_ok_inv in Hrr as (? & ? & [[= ->] ->]%get_inv & [Hrr ->]%some_or_ok_inv). cbn in Hrr.
  rewrite Hrid in Hrr. injection Hrr as <-.
  apply bind_ok_inv in Hr as ([] & ? & (Hf & -> & Hsb)%save_run_ok & Hr).
  apply bind_ok_inv in Hr as ([] & ? & (evs & log & ->)%event_ok & [_ ->]%modify_inv).
  apply full_clean_row in Hf. apply Hsb in Hrow. pose proof Hset as (_ & _ & Hi & Ho & [cost Hcost]).
  rewrite Hi, Ho, Hcost in *. cbn [default from_option Datatypes.id] in *.
  eexists rid, row, bud, evs, log, _. split_and!; [..|reflexivity]; try done; [by apply carries_view|apply Hf|apply Hf].
Qed.

Lemma complete_writes w res d u d' :
  agent_ok d -> works w d -> complete_run conf w res d = (Ok u, d') ->
  exists run b k cid c wf r, completed w res d d' run b k cid c wf r.
Proof.
  intros [Hbr Hd] (k0 & cid & c0 & Hk0 & Hcid & Hc0 & Htok) Hr. unfold complete_run in Hr. apply atomic_ok_inv in Hr.
  apply bind_ok_inv in Hr as (l & d0 & Hl & Hr). rewrite lane_row_run in Hl. injection Hl as <- <-.
  fold (with_lane d) in Hr.
  apply bind_ok_inv in Hr as (run & ? & [Hrow ->]%get_run_ok & Hr). cbn in Hrow.
  apply bind_ok_inv in Hr as ([] & ? & [Hrun ->]%fail_if_ok_inv & Hr).
  apply bind_ok_inv in Hr as (k & ? & [Hk ->]%get_control_ok & Hr). cbn in Hk.
  apply bind_ok_inv in Hr as (b & ? & [Hb ->]%get_binding_ok & Hr). cbn in Hb.
  apply bind_ok_inv in Hr as (? & ? & [[= ->] ->]%get_inv & Hr).
  apply bind_ok_inv in Hr as (c & ? & [Hc ->]%some_or_ok_inv & Hr).
  apply bind_ok_inv in Hr as ([wf r] & ? & [Hw ->]%get_workflow_ok & Hr).
  apply bind_ok_inv in Hr as ([] & ? & [Hlane ->]%fail_if_ok_inv & Hr).
  apply bind_ok_inv in Hr as ([] & ? & (-> & Hcan & _ & _ & _ & Hready & Hdig & Hval)%check_ok & Hr).
  specialize (Hval c eq_refl). simplify_eq. rewrite Hcid in Hc. cbn in Hc. simplify_eq.
  apply bind_ok_inv in Hr as ([] & d1 & Hv & Hr). apply or_invalid_ok in Hv.
  pose proof (moves_run _ _ _ _ _ (looks_validate _ _ _ _ _) Hv) as Hlook.
  destruct (looks_tables _ _ Hlook) as (E1 & E2 & E3 & E4 & E5 & E6 & E7 & E8 & E9 & E10 & E11 & E12).
  cbn [with_lane set_lane runs bindings controls lane capabilities submissions intents launch clock] in *.
  apply bind_ok_inv in Hr as ([] & d2 & Hrev & Hr).
  apply (revoke_writes d d1 _ cid c0) in Hrev as (log' & ->); [|done..].
  apply bind_ok_inv in Hr as (input & ? & [Hin ->]%lift_inv & Hr).
  apply bind_ok_inv in Hr as (output & ? & [Hout ->]%lift_inv & Hr).
  bools.
  apply settle_writes in Hr as (rid & row & bud & evs & log & r' & HI & Hcar & Hcl & Hrid & Hset & Hs & Hi & Ho & Hc
    & Hsb & Hlife & ->); [| |by rewrite <- Hrow, <- E1].
  2: { destruct Hlook as [-> | ->]; [apply Hd|apply ledger_view, Hd]. }
  exists run, b, k0, cid, c0, wf, r. split; try done; [by apply not_true_iff_false|by rewrite Hv|].
  exists r', rid, row. subst input output.
  split; cbn [runs bindings controls lane capabilities budgets submissions intents launch logged invocations next_id
    set_launch set_run_events set_runs set_controls set_capabilities set_lane set_budgets];
    rewrite ?E1, ?E9, ?E8; try done.
  - destruct Hcar as [Hx Hy]. destruct Hlook as [-> | ->]; by split.
  - by eexists.
Qed.

(** A completion leaves the tables in order. *)
Lemma completed_shift w res d d' run b k cid c wf r r' rid row :
  agent_ok d -> completed w res d d' run b k cid c wf r -> written (w_run w) res run r' cid c rid row d d' ->
  agent_ok d' /\ advances d d'.
Proof.
  intros [Hbr Hd] [Hrow Hrun Hb Hk [Hcap Hc] Hw Hopen Hheld [Hcan _] _ _ _] [_ _ HI Hcar Hcl Hres Hset Hs Hsb Hlife Er Eb Ek El Ec
    Esub Eint Einv En _].
  destruct (rk_holder _ Hd _ Hheld) as (r0 & [Hr0 Hh] & _). rewrite Hrow in Hr0. injection Hr0 as <-.
  assert (active run = true) as Ha by (unfold active; by rewrite Hrun).
  assert (active r' = false) as Ha' by (unfold active; by rewrite Hs).
  assert (lane_or d' = holds None (lane_or d)) as Elo by (unfold lane_or at 1; by rewrite El).
  assert (renewed c (Broker.revoke_at (clock d) c)) as Hren by apply renewed_revoke.
  assert (renews (capabilities d) (capabilities d')) as Hrens by (rewrite Ec; by apply (renews_insert _ _ c)).
  destruct (rk_runs _ Hd _ run (conj Hrow Hh)) as [_ (b0 & k0 & Hb0 & Hk0 & Hau) _ _ _]. simplify_eq.
  assert (shift (w_run w) run r' k k d d') as Hsh.
  { split; rewrite ?Eb, ?Ek, ?Ha', ?Elo; try done. by rewrite insert_id. }
  assert (broker_ok d' /\ extends d d') as [Hbr' He].
  { destruct (keeps_capability cid c _ d Hc Hren Hbr) as [Hbr1 He1].
    destruct (keeps_elsewhere (Broker.save_capability cid (Broker.revoke_at (clock d) c) d).2 d'
      Ec Esub Eint Einv ltac:(rewrite En; cbn; lia) Hbr1) as [Hbr2 He2]. split; [done|by etrans]. }
  split; [split; [done|]|by apply shift_advances with (1 := Hsh)].
  apply (shift_ok _ _ _ _ _ _ _ Hd Hsh). destruct (same_binding_columns _ _ Hsb) as (_ & Ew & Ev & _).
  split; [done| |by rewrite Ha', Elo|done|intros _; by exists rid, row].
  exists b, k. rewrite Eb, Ek. split_and!; [done..|]. split; rewrite ?Hs, ?Elo.
  - done.
  - intros _. by eexists.
  - intros c' Hc'. destruct (au_issued _ _ _ _ Hau c' Hc') as (cap & Hx & Hy).
    destruct (Hrens _ _ Hx) as (cap' & Hx' & Hren'). exists cap'. split; [done|].
    apply (authorises_renewed cap cap'); [done|]. unfold authorises in *. by rewrite Ew, Ev.
  - intros _ c' Hc'. left. assert (c' = cid) as -> by congruence. exists (Broker.revoke_at (clock d) c).
    rewrite Ec, lookup_insert_eq. split; [done|by eexists].
  - apply (au_closed _ _ _ _ Hau).
Qed.

Lemma preserves_complete w res d : works w d -> preserves d (complete_run conf w res d).2.
Proof.
  intros Hw Hd. destruct (complete_run conf w res d) as [[u|e] d'] eqn:Hr; cbn.
  - destruct (complete_writes _ _ _ _ _ Hd Hw Hr) as (run & b & k & cid & c & wf & r & Hc).
    destruct (cp_writes _ _ _ _ _ _ _ _ _ _ _ Hc) as (r' & rid & row & Hwr). by eapply completed_shift.
  - unfold complete_run in Hr. apply atomic_err in Hr as ->. by split.
Qed.

Lemma preserves_handle id e billable redelivery ack : moves preserves (handle_failure id e billable redelivery ack).
Proof. unfold handle_failure. solve_moves. Qed.

(** ** The broker's calls *)

Lemma preserves_call token_file t a s c : moves preserves (Broker.dispatch_mcp_tool token_file t a s c).
Proof.
  intros d [Hbr Hd]. destruct (keeps_call token_file t a s c d Hbr) as [Hbr' He].
  destruct (touches_call token_file t a s c d) as (log & caps & subs & ints & invs & n & Ed).
  set (d' := (Broker.dispatch_mcp_tool token_file t a s c d).2) in *.
  assert (aside d d') as Ha.
  { split; try (by rewrite Ed).
    - intros id x Hx. apply (ex_capabilities _ _ He _ _ Hx).
    - intros HI. rewrite Ed. split; [done|apply carries_refl]. }
  split; [split; [done|by eapply aside_runs]|by apply aside_advances].
Qed.
End platform.

End RunEffects.
