(* ===== verification/AgentSystem.v ===== *)
(** * The agent runs as a system

    Requests, tool calls, workers and the rest of the application take turns on the shared
    tables: one step is one transaction (or one request made of several).  A worker is
    known by the token it was given. *)

From S2P Require Import Prelude PyValue Sha256 JsonText OwnerEvents LaunchLoop Budgets BudgetsTheorems ToolSchemas Uuid DraftProvider EventbriteDrafts IterableDrafts IterableTemplates DraftRows DraftReview DraftEffects Transactions Broker BrokerEffects HermesClient AgentRuns AgentRunFacts AgentRunEffects.

Module AgentSystem.
Import Provider Rows Review Transactions Effects BrokerFacts AgentRuns RunFacts RunEffects.

(** What the rest of the application may do: everything but write the rows of the Hermes
    runs and of the broker; its budget services are for other runs. *)
Record elsewhere (d d' : db) : Prop := Elsewhere {
  ew_runs : forall id r, hermes d id r <-> hermes d' id r;
  ew_bindings : bindings d' = bindings d;
  ew_controls : controls d' = controls d;
  ew_lane : lane d' = lane d;
  ew_capabilities : capabilities d' = capabilities d;
  ew_submissions : submissions d' = submissions d;
  ew_intents : intents d' = intents d;
  ew_invocations : invocations d' = invocations d;
  ew_budget : budgets d' = budgets d \/
    (Ledger.step (budget_view d) (budgets d') /\
     forall rid r, reservations_of d' !! rid = Some r -> reservations_of d !! rid = None ->
       forall x, ~ hermes d (Budgets.br_run r) x);
  ew_next : next_id d <= next_id d';
}.

Lemma elsewhere_aside d d' : elsewhere d d' -> aside d d'.
Proof.
  intros He. split; [apply He|apply He|apply He|unfold lane_or; by rewrite (ew_lane _ _ He)| |].
  - rewrite (ew_capabilities _ _ He). apply renews_refl.
  - intros HI. destruct (ew_budget _ _ He) as [-> |[Hs Hnew]]; [split; [done|apply carries_refl]|].
    pose proof (ledger_view d HI) as HIv. split; [by apply (Ledger.step_inv _ _ HIv)|]. split.
    + intros rid r Hr Hc. destruct (Ledger.step_final _ _ rid r HIv Hs Hr) as (r' & Hr' & Hsame & _).
      by rewrite (Hsame Hc) in Hr'.
    + intros rid r' Hr'. destruct (reservations_of d !! rid) as [r|] eqn:Hr; [left|right; by eapply Hnew].
      exists r. split; [done|]. destruct (Ledger.step_final _ _ rid r HIv Hs Hr) as (r2 & Hr2 & _ & _ & Hrun & _).
      unfold reservations_of in *. congruence.
Qed.

Lemma preserves_elsewhere d d' : elsewhere d d' -> preserves d d'.
Proof.
  intros He. apply aside_preserves; [by apply elsewhere_aside|].
  by apply keeps_elsewhere; destruct He.
Qed.

Record system := System { tables : db; workers : list worker }.

Section platform.
Context `{OwnerEvents.Platform} `{Signer} (conf : settings) (token_file : option (list Z)).

(** One step; the result of a request is returned to its caller. *)
Inductive step : system -> system -> Prop :=
| step_start s key workflow revision actor session delivered r d :
    start_hermes_run conf key workflow revision actor session delivered (tables s) = (r, d) ->
    step s (System d (workers s))
| step_cancel s id r d : cancel_hermes_run id (tables s) = (r, d) -> step s (System d (workers s))
| step_call s tool arguments identity capability r d :
    Broker.dispatch_mcp_tool token_file tool arguments identity capability (tables s) = (r, d) ->
    step s (System d (workers s))
| step_begin s id client nonce w d :
    begin_run conf id client nonce (tables s) = (Ok (Started w), d) -> step s (System d (w :: workers s))
| step_skip s id client nonce r d :
    begin_run conf id client nonce (tables s) = (r, d) -> (forall w, r <> Ok (Started w)) ->
    step s (System d (workers s))
| step_complete s w res r d :
    w ∈ workers s -> complete_run conf w res (tables s) = (r, d) -> step s (System d (workers s))
| step_fail s id e billable redelivery ack r d :
    handle_failure id e billable redelivery ack (tables s) = (r, d) -> step s (System d (workers s))
| step_elsewhere s d : elsewhere (tables s) d -> step s (System d (workers s)).

Definition initial (s : system) : Prop :=
  workers s = [] /\ (forall id r, ~ hermes (tables s) id r) /\ l_active_run (lane_or (tables s)) = None /\
  capabilities (tables s) = ∅ /\ submissions (tables s) = ∅ /\ intents (tables s) = ∅ /\
  invocations (tables s) = [] /\ Ledger.reachable (budgets (tables s)).
Definition reachable (s : system) : Prop := exists s0, initial s0 /\ rtc step s0 s.

(** ** The invariant *)

Definition system_ok (s : system) : Prop := agent_ok (tables s) /\ forall w, w ∈ workers s -> works w (tables s).

Lemma initial_ok s : initial s -> system_ok s.
Proof.
  intros (Hw & Hr & Hl & Hc & Hs & Hi & Hv & Hb). split; [split|].
  - split; rewrite ?Hc, ?Hs, ?Hi, ?Hv; try (intros *; by rewrite ?lookup_empty); apply NoDup_nil_2.
  - split; [by apply Ledger.reachable_budget_inv|by intros id r Hx; destruct (Hr id r)|by rewrite Hl].
  - rewrite Hw. by intros w Hx%not_elem_of_nil.
Qed.

Lemma step_moves s s' : system_ok s -> step s s' -> system_ok s' /\ advances (tables s) (tables s').
Proof.
  intros [Hok Hw] Hs.
  assert (forall d, preserves (tables s) d ->
    system_ok (System d (workers s)) /\ advances (tables s) d) as Hkeep.
  { intros d Hp. destruct (Hp Hok) as [Hok' Ha]. split; [split; [done|]|done].
    intros w Hin. by apply (works_advances w (tables s)), Hw. }
  destruct Hs as [s key wf rev a ss del r d Hr|s id r d Hr|s t a i c r d Hr|s id cl n w d Hr|s id cl n r d Hr _|s w res r d Hin Hr
    |s id e b red ack r d Hr|s d He].
  - apply Hkeep. by apply (moves_run _ _ _ _ _ (preserves_start conf key wf rev a ss del) Hr).
  - apply Hkeep. by apply (moves_run _ _ _ _ _ (preserves_cancel id) Hr).
  - apply Hkeep. by apply (moves_run _ _ _ _ _ (preserves_call token_file t a i c) Hr).
  - destruct (begin_ok conf id cl n _ _ _ Hok Hr) as (Hok' & Ha & Hnew). destruct (Hnew w eq_refl) as (_ & _ & _ & Hww).
    split; [split; [done|]|done]. intros w' [-> |Hin]%elem_of_cons; [done|]. by apply (works_advances w' (tables s)), Hw.
  - destruct (begin_ok conf id cl n _ _ _ Hok Hr) as (Hok' & Ha & _). apply Hkeep. by intros _.
  - apply Hkeep. pose proof (preserves_complete conf w res (tables s) (Hw w Hin)) as Hp. by rewrite Hr in Hp.
  - apply Hkeep. by apply (moves_run _ _ _ _ _ (preserves_handle id e b red ack) Hr).
  - by apply Hkeep, preserves_elsewhere.
Qed.

Lemma steps_move s s' : system_ok s -> rtc step s s' -> system_ok s' /\ advances (tables s) (tables s').
Proof.
  intros Hok Hs. induction Hs as [s|s s1 s2 Hstep _ IH]; [split; [done|reflexivity]|].
  destruct (step_moves _ _ Hok Hstep) as [Hok1 Ha1], (IH Hok1) as [Hok2 Ha2]. split; [done|by etrans].
Qed.

Lemma reachable_ok s : reachable s -> system_ok s.
Proof. intros (s0 & Hi & Hs). by apply (steps_move s0 s); [apply initial_ok|]. Qed.

End platform.
End AgentSystem.
