(* ===== verification/AgentRunTheorems.v ===== *)
(** * Theorems about the agent runs *)

From S2P Require Import Prelude PyValue Sha256 Base64 JsonText JsonTextTheorems OwnerEvents LaunchLoop Budgets BudgetsTheorems ToolSchemas Uuid DraftProvider EventbriteDrafts IterableDrafts IterableTemplates DraftRows DraftReview DraftEffects Transactions Broker BrokerEffects HermesClient AgentRuns AgentRunFacts AgentRunEffects AgentSystem.

Module RunSafety.
Import Provider Rows Review Transactions Effects BrokerFacts AgentRuns RunFacts RunEffects AgentSystem.

Section platform.
Context `{OwnerEvents.Platform} `{Signer} (conf : settings) (token_file : option (list Z)) (recursion : nat).
#[local] Abbreviation steps := (step conf token_file).
#[local] Abbreviation reached := (reachable conf token_file).

(** ** The lane *)

(** C9 One run at a time: in every reachable state at most one Hermes run is queued or
    running, and it is the one the lane names. *)
Theorem one_run_at_a_time s id id' r r' :
  reached s -> hermes (tables s) id r -> hermes (tables s) id' r' ->
  active r = true -> active r' = true ->
  id = id' /\ l_active_run (lane_or (tables s)) = Some id.
Proof.
  intros [[_ Hok] _]%reachable_ok Hr Hr' Ha Ha'.
  apply (ro_lane _ _ _ (rk_runs _ Hok _ _ Hr)) in Ha. apply (ro_lane _ _ _ (rk_runs _ Hok _ _ Hr')) in Ha'.
  split; [congruence|done].
Qed.

(** A closed lane stays closed: once admissions are disabled, every later Hermes run is one
    that was there, and none that had ended starts again. *)
Theorem closed_lane_admits_nothing s s' id r' :
  reached s -> disabled (tables s) -> rtc steps s s' -> hermes (tables s') id r' ->
  disabled (tables s') /\ exists r, hermes (tables s) id r /\ (active r = false -> r' = r).
Proof.
  intros Hok%reachable_ok Hd Hs Hr'. destruct (steps_move _ _ _ _ Hok Hs) as [_ Ha].
  split; [by apply (ad_disabled _ _ Ha)|]. destruct (ad_admits _ _ Ha Hd id r' Hr') as (r & Hr).
  exists r. split; [done|]. intros Hx. destruct (ad_runs _ _ Ha id r Hr) as (r2 & Hr2 & _ & Hsame & _).
  rewrite <- (Hsame Hx). destruct Hr2, Hr'. congruence.
Qed.

(** ** The end of a run *)

(** A run that has ended is final: no request, worker or call changes its row, and what a
    run is bound to never changes. *)
Theorem ended_run_is_final s s' id r :
  reached s -> rtc steps s s' -> hermes (tables s) id r ->
  exists r', hermes (tables s') id r' /\ same_binding r r' = true /\ (active r = false -> r' = r).
Proof.
  intros Hok%reachable_ok Hs Hr. destruct (steps_move _ _ _ _ Hok Hs) as [_ Ha].
  destruct (ad_runs _ _ Ha id r Hr) as (r' & ? & ? & ? & _). by exists r'.
Qed.


(** C12 A cancelled run does not succeed: from the request of its cancellation on, whatever its
    worker does, an active run never becomes a succeeded one. *)
Theorem cancelled_run_never_succeeds s s' id r k r' :
  reached s -> hermes (tables s) id r -> active r = true -> controls (tables s) !! id = Some k ->
  is_Some (k_cancel_requested_at k) -> rtc steps s s' -> hermes (tables s') id r' ->
  r_status r' <> R_SUCCEEDED.
Proof.
  intros Hok%reachable_ok Hr Ha Hk [t Ht] Hs [Hr' _] Hx. destruct (steps_move _ _ _ _ Hok Hs) as [_ Had].
  destruct (ad_runs _ _ Had id r Hr) as (r2 & [Hr2 _] & _ & _ & Hsucc). simplify_eq.
  assert (r_status r <> R_SUCCEEDED) as Hn by (intros He; unfold active in Ha; by rewrite He in Ha).
  specialize (Hsucc Hx Hn k Hk). congruence.
Qed.

(** The rows of a run are well formed: in every reachable state its dates and its category
    fit its status, it has its provenance, its binding and its control, and it holds a
    capability, issued for exactly its workflow, revision, actor and correlation, from its
    start on and not before. *)
Theorem runs_are_well_formed s id r :
  reached s -> hermes (tables s) id r ->
  lifecycle_ok r = true /\ provenance_ok r = true /\
  exists b k, bindings (tables s) !! id = Some b /\ controls (tables s) !! id = Some k /\
    (r_status r = QUEUED -> k_capability k = None) /\
    (r_status r = RUNNING \/ r_status r = R_SUCCEEDED -> is_Some (k_capability k)) /\
    (forall c, k_capability k = Some c -> exists cap, capabilities (tables s) !! c = Some cap /\ authorises cap r b).
Proof.
  intros [[_ Hok] _]%reachable_ok Hr. destruct (rk_runs _ Hok _ _ Hr) as [[Hl Hp] (b & k & Hb & Hk & Hau) _ _ _].
  split_and!; [done..|]. exists b, k. split_and!; [done..|apply Hau|apply Hau|apply Hau].
Qed.

(** ** From an accepted run to the review of its operations *)

Lemma or_false_true r : or_false r = Ok true -> r = Ok true.
Proof. destruct r as [[|]|[]]; try done. Qed.

Lemma package_current_hash w prepared h :
  package_current w prepared (Some h) = Ok true -> h = LaunchLoop.w_package_hash w.
Proof.
  unfold package_current. intros Hp. apply bind_result_ok in Hp as (status & _ & Hp).
  destruct (negb _); [done|]. apply bind_result_ok in Hp as (package & _ & Hp).
  destruct (LaunchLoop.w_package w); [|done]. injection Hp as Hp. bools. done.
Qed.

(** A run that is ready is at the workflow's revision, with the workflow's package. *)
Lemma run_ready_current d0 run b w r d :
  (run_ready d0 run b w r d).1 = Ok true ->
  at_revision w r (r_event_revision run) = true /\ r_package_hash run = LaunchLoop.w_package_hash w.
Proof.
  unfold run_ready. destruct (bool_decide (r_privacy_mode run = PILOT_MINIMIZED)).
  - destruct (negb (no_fixture run)); [done|]. unfold get_actor, mbind, ST_bind, some_or.
    destruct (LaunchLoop.d_actors (launch d0) !! b_actor b); cbn; [|done]. intros Hr%or_false_true.
    destruct (negb _) eqn:Hg; [done|]. bools. split; [done|]. by apply package_current_hash in Hr.
  - destruct (_ && _); [|done]. cbn. intros Hr%or_false_true.
    destruct (negb _) eqn:Hg; [done|]. bools. split; [done|]. by apply package_current_hash in Hr.
Qed.

(** A proposal that the worker has checked. *)
Definition good_proposal (d : db) (capability : option Z) (pid : Z) : Prop :=
  exists p, submissions d !! pid = Some p /\ Some (m_capability p) = capability /\ m_kind p = "proposal" /\
    digest (m_content p) = Ok (m_digest p) /\
    is_ok (ToolSchemas.validate (m_content p) ToolSchemas.PROPOSAL) = true.

Lemma check_reference_ok capability reference d pid d' :
  check_reference capability reference d = (Ok pid, d') -> d' = d /\ good_proposal d capability pid.
Proof.
  unfold check_reference, worker_failure. intros Hr.
  apply bind_ok_inv in Hr as (x & ? & [_ ->]%lift_inv & Hr).
  apply bind_ok_inv in Hr as (schema & ? & [_ ->]%lift_inv & Hr).
  apply bind_ok_inv in Hr as (text & ? & [_ ->]%lift_inv & Hr).
  apply bind_ok_inv in Hr as (? & ? & [[= ->] ->]%get_inv & Hr).
  destruct (submissions d !! _) as [p|] eqn:Hp; [|by apply raise_inv in Hr as [? _]].
  apply bind_ok_inv in Hr as (content & ? & [Hc ->]%lift_inv & Hr).
  apply bind_ok_inv in Hr as ([] & ? & [Hg ->]%fail_if_ok_inv & Hr).
  apply bind_ok_inv in Hr as ([] & ? & [Hv ->]%lift_inv & [[= ->] ->]%ret_inv). bools.
  split; [done|]. exists p. split_and!; try done; [congruence|].
  unfold tool in Hv. by destruct (ToolSchemas.validate _ _) as [[]|].
Qed.

Lemma check_references_ok capability references d : forall acc ids d',
  fold_each acc references (fun ids reference => pid ← check_reference capability reference; mret (ids ++ [pid])) d
    = (Ok ids, d') ->
  Forall (good_proposal d capability) acc -> d' = d /\ Forall (good_proposal d capability) ids.
Proof.
  induction references as [|x references IH]; intros acc ids d' Hr Hacc; cbn [fold_each] in Hr.
  { apply ret_inv in Hr as [[= ->] ->]. done. }
  apply bind_ok_inv in Hr as (acc' & d1 & Hx & Hr).
  apply bind_ok_inv in Hx as (pid & d2 & [-> Hg]%check_reference_ok & [[= ->] ->]%ret_inv).
  apply (IH _ _ _ Hr). apply Forall_app. split; [done|]. by apply Forall_singleton.
Qed.

(** An operation that the worker has checked. *)
Record good_operation (d : db) (run : agent_run) (b : hermes_binding) (ids : list Z) (o : draft_operation) : Prop :=
  GoodOperation {
  go_proposal : i_proposal o ∈ ids;
  go_scope : i_workflow o = r_workflow run /\ i_revision o = r_event_revision run /\ i_actor o = b_actor b;
  go_open : i_status o = "pending" /\ i_approval o = None /\ i_receipt o = None;
  go_kind : (i_provider o, i_operation_kind o) ∈ required_operations;
  go_digests : exists p, submissions d !! i_proposal o = Some p /\
    action_digest (r_workflow run) (b_revision_digest b) o p = Ok (i_action_digest o) /\
    idempotency_digest (r_workflow run) o (i_action_digest o) = Ok (i_idempotency_key o);
}.

Lemma check_operation_ok run b ids o d u d' :
  check_operation run b ids o d = (Ok u, d') -> d' = d /\ good_operation d run b ids o.
Proof.
  unfold check_operation. intros Hr. apply bind_ok_inv in Hr as ([] & ? & [Hg ->]%fail_if_ok_inv & Hr).
  apply bind_ok_inv in Hr as (? & ? & [[= ->] ->]%get_inv & Hr).
  apply bind_ok_inv in Hr as (p & ? & [Hp ->]%some_or_ok_inv & Hr).
  apply bind_ok_inv in Hr as (action & ? & [Ha ->]%lift_inv & Hr).
  apply bind_ok_inv in Hr as (idem & ? & [Hi ->]%lift_inv & [Hd ->]%fail_if_ok_inv). bools. subst.
  split; [done|]. split; try done.
  - split_and!; [done| |]; [by destruct (i_approval o)|by destruct (i_receipt o)].
  - exists p. by split_and!.
Qed.

Lemma check_operations_ok run b ids l d u d' :
  for_each l (check_operation run b ids) d = (Ok u, d') -> d' = d /\ Forall (good_operation d run b ids) l.
Proof.
  revert u d'. induction l as [|o l IH]; intros u d' Hr; cbn [for_each] in Hr.
  { apply ret_inv in Hr as [_ ->]. done. }
  apply bind_ok_inv in Hr as ([] & d1 & [-> Ho]%check_operation_ok & Hr). apply IH in Hr as [-> Hl]. by split; [|constructor].
Qed.

Lemma validate_result_ok id run b k res d u d' :
  validate_result id run b k res d = (Ok u, d') ->
  exists ids, Forall (good_proposal d (k_capability k)) ids /\
    Forall (good_operation d run b ids) (run_operations d (k_capability k)) /\
    (exists rv, LaunchLoop.d_revisions (launch d) !! r_event_revision run = Some rv /\
      (is_live rv = true -> complete_set ids (run_operations d (k_capability k)) = true)).
Proof.
  unfold validate_result. intros Hr. do 3 apply bind_ok_inv in Hr as (? & ? & [_ ->]%lift_inv & Hr).
  apply bind_ok_inv in Hr as ([] & ? & [_ ->]%fail_if_ok_inv & Hr).
  apply bind_ok_inv in Hr as (status & ? & [_ ->]%lift_inv & Hr).
  apply bind_ok_inv in Hr as ([] & ? & [_ ->]%fail_if_ok_inv & Hr).
  do 2 apply bind_ok_inv in Hr as (? & ? & [_ ->]%lift_inv & Hr).
  apply bind_ok_inv in Hr as ([] & ? & [_ ->]%fail_if_ok_inv & Hr).
  apply bind_ok_inv in Hr as (ids & d1 & Hf & Hr). apply check_references_ok in Hf as [-> Hids]; [|by constructor].
  apply bind_ok_inv in Hr as (? & ? & [[= ->] ->]%get_inv & Hr).
  apply bind_ok_inv in Hr as ([] & ? & [-> Hops]%check_operations_ok & Hr).
  apply bind_ok_inv in Hr as (rv & ? & [Hrv ->]%some_or_ok_inv & Hr).
  apply bind_ok_inv in Hr as ([] & ? & [Hl ->]%fail_if_ok_inv & _).
  exists ids. split_and!; [done..|]. exists rv. split; [done|]. intros Hlive. rewrite Hlive in Hl. cbn in Hl. by bools.
Qed.

(** What the review of an operation asks of its rows. *)
Record reviewable (d : db) (w : LaunchLoop.workflow) (rv : LaunchLoop.event_revision) (run : agent_run)
    (b : hermes_binding) (k : run_control) (o : draft_operation) (p : mcp_submission) (cap : workflow_capability)
  : Prop := Reviewable {
  rw_workflow : Broker.workflow_row d (r_workflow run) = Some (w, rv);
  rw_revision : LaunchLoop.w_revision w = r_event_revision run;
  rw_package : r_package_hash run = LaunchLoop.w_package_hash w;
  rw_digest : digest (JDict (LaunchLoop.r_snapshot rv)) = Ok (b_revision_digest b);
  rw_run : r_status run = R_SUCCEEDED /\ r_hermes_lane run = true;
  rw_capability : k_capability k = Some (m_capability p) /\ authorises cap run b;
  rw_proposal : submissions d !! i_proposal o = Some p;
  rw_kind : m_kind p = "proposal" /\ digest (m_content p) = Ok (m_digest p) /\
    is_ok (ToolSchemas.validate (m_content p) ToolSchemas.PROPOSAL) = true;
  rw_operation : exists ids, good_operation d run b ids o;
}.

Lemma known_tool provider kind :
  (provider, kind) ∈ required_operations ->
  known_operation provider kind = true /\ request_tool provider ∈ Broker.sorted_names Broker.TOOLS.
Proof.
  unfold required_operations. rewrite !elem_of_cons. intros Hk.
  destruct Hk as [[= -> ->]|[[= -> ->]|[[= -> ->]|Hk%not_elem_of_nil]]]; [| | |done]; (split; [by vm_compute|]);
    apply (bool_decide_unpack _); by vm_compute.
Qed.

Lemma reviewable_validates d w rv run b k o p cap submitter approver session :
  reviewable d w rv run b k o p cap ->
  validate_intent (Related o p cap run (Some b) (Some k) submitter approver session) d = (Ok (b_revision_digest b), d).
Proof.
  intros [Hw Hrev Hpk Hdig [Hs Hh] [Hk Hau] Hp (Hm & Hc & Hv) (ids & [_ (Ei & Er & Ea) (Es & Eap & Erc) Hkind (p' & Hp' & Hact & Hid)])].
  rewrite Hp in Hp'. injection Hp' as <-. destruct (known_tool _ _ Hkind) as [Hkn Htool].
  destruct Hau as (A1 & A2 & A3 & A4 & A5 & A6 & A7).
  unfold Broker.workflow_row in Hw. rewrite <- Ei in Hw.
  destruct (LaunchLoop.d_workflows (launch d) !! i_workflow o) as [w'|] eqn:Hwf; [|done]. cbn in Hw.
  destruct (LaunchLoop.d_revisions (launch d) !! LaunchLoop.w_revision w') as [rv'|] eqn:Hrv; [|done].
  cbn in Hw. injection Hw as -> ->. unfold validate_intent, mbind, ST_bind, get, some_or, lift, deny_if, denied.
  cbn [r_intent r_proposal r_run r_binding r_control r_capability]. rewrite Hwf. cbn [mret ST_ret]. rewrite Hrv. cbn [mret ST_ret].
  rewrite Hdig, Ei, Hact, Hid.
  assert (run_mismatch (r_workflow run) w run = false) as ->.
  { unfold run_mismatch. rewrite Hs, Hh, Hrev, Hpk, !Z.eqb_refl, String.eqb_refl. done. }
  cbn [mret ST_ret]. rewrite Ea, String.eqb_refl, String.eqb_refl. cbn [negb orb mret ST_ret].
  assert (capability_mismatch (r_workflow run) w o cap (b_correlation_id b) (b_revision_digest b) = false) as ->.
  { unfold capability_mismatch. rewrite A1, A2, A3, A4, A5, A6, A7, Hrev, Ea, !Z.eqb_refl, !String.eqb_refl.
    rewrite !bool_decide_eq_true_2 by done. done. }
  rewrite Hk, Er, Hrev, Z.eqb_refl, Hm, String.eqb_refl, bool_decide_eq_true_2 by done. cbn [negb orb mret ST_ret].
  rewrite Hc. cbn [mret ST_ret]. rewrite String.eqb_refl.
  assert (intent_mismatch o (i_action_digest o) (i_idempotency_key o) = false) as ->.
  { unfold intent_mismatch. by rewrite Hkn, Es, Eap, Erc, !String.eqb_refl. }
  cbn [negb orb mret ST_ret]. rewrite Hv, andb_false_r. done.
Qed.

(** The operations of a run that has just been accepted are reviewable. *)
Lemma accepted_reviewable w res d d' run b k cid c wf rv r' rid row :
  agent_ok d -> completed w res d d' run b k cid c wf rv -> written (w_run w) res run r' cid c rid row d d' ->
  hermes d' (w_run w) r' /\ bindings d' !! w_run w = Some b /\ controls d' !! w_run w = Some k /\
  (exists ids, is_live rv = true -> complete_set ids (run_operations d' (Some cid)) = true) /\
  forall o, o ∈ run_operations d' (Some cid) -> exists p cap,
    capabilities d' !! m_capability p = Some cap /\ reviewable d' wf rv r' b k o p cap.
Proof.
  intros [_ Hd] [Hrow Hrun Hb Hk [Hcap Hc] Hw Hopen Hheld (Hcan & Hready & Hdig) Hval Hres _]
    [_ _ _ _ _ _ _ Hs Hsb _ Er Eb Ek _ Ec Esub Eint _ _ [log El]].
  destruct (rk_holder _ Hd _ Hheld) as (r0 & [Hr0 Hh] & _). rewrite Hrow in Hr0. injection Hr0 as <-.
  destruct (rk_runs _ Hd _ run (conj Hrow Hh)) as [_ (b0 & k0 & Hb0 & Hk0 & Hau) _ _ _].
  rewrite Hb in Hb0. rewrite Hk in Hk0. injection Hb0 as <-. injection Hk0 as <-.
  destruct (au_issued _ _ _ _ Hau cid Hcap) as (cap & Hcx & Hauth). rewrite Hc in Hcx. injection Hcx as <-.
  destruct (same_binding_columns _ _ Hsb) as (Eh & Ew & Ev & Ep & _).
  apply run_ready_current in Hready as [Hat Hpk]. unfold at_revision in Hat. bools.
  destruct (validate_result (w_run w) run b k res (with_lane d)) as [x d1] eqn:Hvr. cbn in Hres. subst x.
  apply validate_result_ok in Hvr as (ids & Hids & Hops & (rv' & Hrv' & Hlive)).
  change (launch (with_lane d)) with (launch d) in Hrv'. rewrite Hcap in *.
  assert (run_operations (with_lane d) (Some cid) = run_operations d' (Some cid)) as Eops
    by (unfold run_operations; by rewrite Eint, Esub).
  rewrite Eops in *.
  assert (rv' = rv) as ->.
  { unfold Broker.workflow_row in Hw. destruct (LaunchLoop.d_workflows (launch d) !! _) as [wf'|]; [|done]. cbn in Hw.
    destruct (LaunchLoop.d_revisions (launch d) !! LaunchLoop.w_revision wf') as [x|] eqn:Hx; [|done]. cbn in Hw.
    injection Hw as -> ->. congruence. }
  split_and!; [split; [rewrite Er; apply lookup_insert_eq|congruence]|by rewrite Eb|by rewrite Ek|by exists ids|].
  intros o Ho. rewrite Forall_forall in Hops. specialize (Hops o Ho).
  destruct Hops as [Hin Hscope Hop Hkind Hdigs].
  rewrite Forall_forall in Hids. destruct (Hids _ Hin) as (p & Hp & Hpc & Hm & Hcont & Hvalid). injection Hpc as Hpc.
  change (submissions (with_lane d)) with (submissions d) in *.
  exists p, (Broker.revoke_at (clock d) c). split; [rewrite Ec, Hpc; apply lookup_insert_eq|].
  assert (authorises (Broker.revoke_at (clock d) c) r' b) as Hauth'.
  { unfold authorises in *. by rewrite Ew, Ev. }
  split; rewrite ?Ew, ?Ev, ?Ep, ?Esub; try done.
  - unfold Broker.workflow_row in *. rewrite El. exact Hw.
  - split; congruence.
  - split; [congruence|done].
  - exists ids. split; rewrite ?Ew, ?Ev, ?Esub; done.
Qed.

(** What is reviewable stays so while the workflow is at the same revision and package. *)
Lemma reviewable_later d d' wf rv run b k o p cap :
  advances d d' -> Broker.workflow_row d' (r_workflow run) = Broker.workflow_row d (r_workflow run) ->
  capabilities d !! m_capability p = Some cap -> reviewable d wf rv run b k o p cap ->
  exists cap' , capabilities d' !! m_capability p = Some cap' /\ forall k',
    k_capability k' = k_capability k -> reviewable d' wf rv run b k' o p cap'.
Proof.
  intros Ha Hw Hcap [Rw Rrev Rpk Rdig Rrun [Rk Rau] Rp Rkind (ids & [Gin Gsc Gop Gk (p' & Hp' & Hdigs)])].
  pose proof (ad_extends _ _ Ha) as He. destruct (ex_capabilities _ _ He _ _ Hcap) as (cap' & Hcap' & Hren).
  exists cap'. split; [done|]. intros k' Hk'. split; try done.
  - congruence.
  - split; [congruence|by eapply authorises_renewed].
  - eapply lookup_weaken; [exact Rp|apply He].
  - exists ids. split; try done. exists p'. split; [|done]. eapply lookup_weaken; [exact Hp'|apply He].
Qed.

(** C10 What the agent is accepted with, the owner can review: when a worker's result is
    accepted, every operation requested with the run's capability passes the validation that
    the review of a draft starts with, then and in every later state in which the workflow is
    still at that revision and package. *)
Theorem accepted_operations_pass_review s w res u d s' :
  reached s -> w ∈ workers s -> complete_run conf w res (tables s) = (Ok u, d) ->
  rtc steps (System d (workers s)) s' ->
  (forall id, Broker.workflow_row (tables s') id = Broker.workflow_row d id) ->
  exists run b k cid, hermes (tables s') (w_run w) run /\ r_status run = R_SUCCEEDED /\
    bindings (tables s') !! w_run w = Some b /\ controls (tables s') !! w_run w = Some k /\
    k_capability k = Some cid /\
    forall o, o ∈ run_operations d (Some cid) -> exists p cap,
      submissions (tables s') !! i_proposal o = Some p /\ capabilities (tables s') !! m_capability p = Some cap /\
      forall submitter approver session,
        validate_intent (Related o p cap run (Some b) (Some k) submitter approver session) (tables s')
          = (Ok (b_revision_digest b), tables s').
Proof.
  intros [Hok Hw]%reachable_ok Hin Hr Hs Hwf.
  destruct (complete_writes conf w res _ u d Hok (Hw w Hin) Hr) as (run & b & k & cid & c & wf & rv & Hc).
  destruct (cp_writes _ _ _ _ _ _ _ _ _ _ _ Hc) as (r' & rid & row & Hwr).
  destruct (completed_shift _ _ _ _ _ _ _ _ _ _ _ _ _ _ Hok Hc Hwr) as [Hok' Ha].
  destruct (accepted_reviewable _ _ _ _ _ _ _ _ _ _ _ _ _ _ Hok Hc Hwr) as (Hrun & Hb & Hk & _ & Hops).
  assert (system_ok (System d (workers s))) as Hsok.
  { split; [done|]. intros w' Hin'. by apply (works_advances w' (tables s)), Hw. }
  destruct (steps_move _ _ _ _ Hsok Hs) as [_ Ha2]. cbn [tables] in Ha2.
  pose proof (wr_status _ _ _ _ _ _ _ _ _ _ Hwr) as Hst.
  destruct (ad_runs _ _ Ha2 _ _ Hrun) as (r2 & Hr2 & _ & Hsame & _).
  rewrite Hsame in Hr2 by (unfold active; by rewrite Hst). clear Hsame.
  destruct (ad_controls _ _ Ha2 _ _ Hk) as (k2 & Hk2 & Hkc & _).
  destruct (cp_capability _ _ _ _ _ _ _ _ _ _ _ Hc) as [Hcap _].
  exists r', b, k2, cid. split_and!; try done; [|by apply Hkc|].
  { eapply lookup_weaken; [exact Hb|apply Ha2]. }
  intros o Ho. destruct (Hops o Ho) as (p & cap & Hpc & Hrv).
  destruct (reviewable_later d (tables s') wf rv r' b k o p cap Ha2 (Hwf _) Hpc Hrv) as (cap' & Hcap' & Hrv').
  assert (k_capability k2 = k_capability k) as Ek by (rewrite Hcap; by apply Hkc).
  specialize (Hrv' k2 Ek). exists p, cap'. split_and!; [apply (rw_proposal _ _ _ _ _ _ _ _ _ Hrv')|done|].
  intros su ap ss. by eapply reviewable_validates.
Qed.

(** ** A worker ends its run *)

(** Nothing but looking for the run itself reports it missing. *)
Definition missing : exn := DoesNotExist "AgentRun".
#[local] Abbreviation present := (raises (fun e => e <> missing)).

Lemma digest_present v e : digest v = Err e -> e <> missing.
Proof. unfold digest, tool. destruct (ToolSchemas.bounded_json v); cbn; [done|]. by intros [= <-]. Qed.
Lemma present_digest v : present (lift (digest v) : M string).
Proof. apply raises_lift. intros e. apply digest_present. Qed.
Lemma present_ready run b w r d : present (run_ready d run b w r).
Proof.
  assert (forall r e, or_false r = Err e -> e <> missing) as Hor by (by intros [[|]|[]] e; intros [= <-]).
  unfold run_ready, get_actor. solve_raises; apply raises_lift; apply Hor.
Qed.
#[local] Hint Resolve present_digest present_ready : raises.
Lemma present_check run k b w r c : present (check conf run k b w r c).
Proof. unfold check. solve_raises. Qed.
Lemma present_event id a t o : present (event id a t o).
Proof. unfold event, Broker.audit. solve_raises. Qed.
Lemma present_save_run id r : present (save_run id r).
Proof. unfold save_run. solve_raises. Qed.
Lemma present_issue nonce w v a t l : present (Broker.issue_workflow_capability nonce w v a t l).
Proof. unfold Broker.issue_workflow_capability, Broker.create_capability, Broker.audit, fresh, put. solve_raises. Qed.
Lemma present_budget {A} (m : Budgets.M A) : present (budget m).
Proof. intros d e d'. unfold budget. destruct (m _) as [[a|x] b]; [done|]. by intros [= <- _]. Qed.
#[local] Hint Resolve present_check present_event present_save_run present_issue : raises.
#[local] Hint Extern 1 (raises _ (budget _)) => apply present_budget : raises.
Lemma present_attempt id run l client nonce : present (start_attempt conf id run l client nonce).
Proof.
  unfold start_attempt, get_control, get_binding, get_workflow, Broker.save_capability, save_control.
  solve_raises.
Qed.

(** What the beginning of a worker that does nothing has found: no such run to execute. *)
Lemma begin_nothing id client nonce d d' r :
  agent_ok d -> begin_run conf id client nonce d = (Ok Nothing, d') -> hermes d' id r -> active r = false.
Proof.
  intros Hd Hb Hr. unfold begin_run, mbind at 1, ST_bind at 1, get at 1, catch in Hb.
  match type of Hb with context [match ?m d with _ => _ end] => destruct (m d) as [[y|e] d1] eqn:Hm end.
  - injection Hb as -> ->. apply atomic_ok_inv in Hm.
    apply bind_ok_inv in Hm as (l & d0 & Hl & Hm). rewrite lane_row_run in Hl. injection Hl as <- <-. fold (with_lane d) in Hm.
    apply bind_ok_inv in Hm as (r' & ? & [Hrow ->]%get_run_ok & Hm). cbn in Hrow.
    destruct (preserves_lane_row d Hd) as [[_ Hd0] _]. rewrite lane_row_run in Hd0. cbn [snd] in Hd0.
    apply bind_ok_inv in Hm as (owned & ? & Ho & Hm). rewrite (owns_run_ok id r') in Ho by done. injection Ho as <- <-.
    destruct (negb (r_hermes_lane r') || negb (active r')) eqn:Hidle.
    + apply ret_inv in Hm as [_ ->]. destruct Hr as [Hr Hh]. cbn in Hr. simplify_eq. rewrite Hh in Hidle. by apply negb_true_iff in Hidle.
    + destruct (bool_decide _); [by apply raise_inv in Hm as [? _]|].
      destruct (preserves_lane_row d Hd) as [Hd1 _]. rewrite lane_row_run in Hd1. cbn [snd] in Hd1.
      by apply attempt_writes in Hm as (? & ? & ? & ? & ? & _).
  - apply atomic_err_inv in Hm as [-> (d2 & Hm)].
    assert (d' = d /\ e = missing) as [-> ->].
    { repeat case_match; try by apply ret_inv in Hb as [? _].
      apply ret_inv in Hb as [_ ->]. split; [done|]. f_equal. by apply String.eqb_eq. }
    exfalso. apply bind_err_inv in Hm as [Hm|(l & d0 & Hl & Hm)]; [by rewrite lane_row_run in Hm|].
    rewrite lane_row_run in Hl. injection Hl as <- <-. fold (with_lane d) in Hm.
    apply bind_err_inv in Hm as [Hm|(r' & ? & [Hrow ->]%get_run_ok & Hm)].
    { unfold get_run, mbind, ST_bind, get, some_or in Hm. cbn in Hm. destruct Hr as [Hr _]. by rewrite Hr in Hm. }
    assert (missing <> missing); [|done].
    eapply (raises_bind (fun e => e <> missing) (owns_run id r' (lane_or d))); [| |exact Hm].
    + unfold owns_run, save_lane. solve_raises.
    + intros owned. cbn beta. destruct (negb owned || negb (active r')); [solve_raises|].
      destruct (bool_decide _); [unfold worker_failure; solve_raises|apply present_attempt].
Qed.

(** [finish] leaves no active run behind. *)
Lemma finish_ends id c billable ok d x d' r :
  agent_ok d -> finish id c billable ok d = (Ok x, d') -> hermes d' id r -> active r = false.
Proof.
  intros [_ Hd] Hf [Hr Hh]. destruct (finish_writes _ _ _ _ _ _ _ Hd Hf) as (r0 & Hrow & [[Hidle ->]|(_ & _ & b & k & clean & caps
    & cat & o & bud & evs & log & log' & r' & _ & _ & _ & _ & _ & He & _ & ->)]); cbn in Hr.
  - simplify_eq. rewrite Hh in Hidle. by apply negb_true_iff in Hidle.
  - rewrite lookup_insert_eq in Hr. injection Hr as <-. destruct (ended_columns _ _ _ He) as [Hs _].
    unfold active. rewrite Hs. by destruct (is_cancelled_ended cat) as [_ [-> | ->]].
Qed.
Lemma handle_ends id e billable redelivery ack d u d' r :
  agent_ok d -> handle_failure id e billable redelivery ack d = (Ok u, d') -> hermes d' id r -> active r = false.
Proof.
  intros Hd Hh. unfold handle_failure in Hh. apply bind_ok_inv in Hh as (x & d1 & Hf & [_ ->]%ret_inv). by eapply finish_ends.
Qed.

Lemma complete_ends w res d u d' r :
  agent_ok d -> works w d -> complete_run conf w res d = (Ok u, d') -> hermes d' (w_run w) r -> active r = false.
Proof.
  intros Hd Hw Hr [Hx _]. destruct (complete_writes _ _ _ _ _ _ Hd Hw Hr) as (run & b & k & cid & c & wf & rv & Hc).
  destruct (cp_writes _ _ _ _ _ _ _ _ _ _ _ Hc) as (r' & rid & row & Hwr).
  rewrite (wr_runs _ _ _ _ _ _ _ _ _ _ Hwr), lookup_insert_eq in Hx. injection Hx as <-.
  unfold active. by rewrite (wr_status _ _ _ _ _ _ _ _ _ _ Hwr).
Qed.

(** The run of a worker does not go missing. *)
Lemma found_run id d e d' : is_Some (runs d !! id) -> get_run id d = (Err e, d') -> False.
Proof. intros [r Hr]. unfold get_run, mbind, ST_bind, get, some_or. cbn. by rewrite Hr. Qed.

Lemma readonly_load id : readonly (load_run id).
Proof. unfold load_run, get_run, get_binding. solve_readonly. Qed.

Lemma load_found id d e d' : is_Some (runs d !! id) -> load_run id d = (Err e, d') -> e <> missing.
Proof.
  intros Hr Hl. unfold load_run in Hl. apply bind_err_inv in Hl as [Hl|(r & d1 & _ & Hl)]; [by apply found_run in Hl|].
  cbn beta in Hl. match type of Hl with ?m _ = _ => assert (present m) as Hp; [|exact (Hp _ _ _ Hl)] end.
  unfold get_binding. solve_raises.
Qed.

Lemma safe_present category status : HermesClient.safe_failure category status <> missing.
Proof. unfold HermesClient.safe_failure. by destruct (_ && _). Qed.
#[local] Hint Resolve safe_present : raises.
#[local] Hint Extern 1 (HermesClient.unavailable <> missing) => apply safe_present : raises.
#[local] Hint Extern 1 (HermesClient.invalid_output <> missing) => apply safe_present : raises.

Lemma decode_present raw e : HermesClient.decode recursion raw = Err e -> e <> missing.
Proof.
  unfold HermesClient.decode. repeat case_match; intros [= <-]; try done; apply safe_present.
Qed.

Lemma conclude_present run p answer cancelled ack e :
  ack <> Err missing -> HermesClient.conclude recursion run p answer cancelled ack = Err e -> e <> missing.
Proof.
  intros Hack. unfold HermesClient.conclude.
  assert (forall A (k : result exn A) e, (forall e, k = Err e -> e <> missing) -> (_ ← ack; k) = Err e -> e <> missing) as Hk.
  { intros A k x Hk. destruct ack as [[]|y]; cbn; [by apply Hk|]. intros [= <-]. congruence. }
  destruct answer as [code raw|category status].
  2: { apply Hk. intros x [= <-]. apply safe_present. }
  destruct cancelled as [[|]|].
  1, 3: apply Hk; intros x [= <-]; apply safe_present.
  unfold raise_if. destruct (negb (code =? 200)); cbn; [intros [= <-]; apply safe_present|].
  destruct (HermesClient.decode recursion raw) as [value|x] eqn:Hd; cbn; [|intros [= <-]; by apply decode_present in Hd].
  destruct (HermesClient.add_cost _ value) as [value'|x] eqn:Ha; cbn.
  - unfold HermesClient.validate_result, raise_if. destruct (negb _); cbn; [|done]. intros [= <-]. apply safe_present.
  - intros [= <-]. unfold HermesClient.add_cost in Ha. repeat case_match; try done; injection Ha as <-; apply safe_present.
Qed.

Lemma readonly_ask id : readonly (ask conf id).
Proof.
  unfold ask, should_cancel_hermes_run, get_run, get_binding, get_control, get_workflow, check, run_ready, get_actor.
  solve_readonly.
Qed.
Lemma present_ask id : present (ask conf id).
Proof. unfold ask. solve_raises. Qed.
Lemma readonly_prepare c run token : readonly (HermesClient.prepare c run token).
Proof. unfold HermesClient.prepare, HermesClient.load_reservation, HermesClient.load_capability. solve_readonly. Qed.
Lemma present_prepare c run token : present (HermesClient.prepare c run token).
Proof.
  unfold HermesClient.prepare, HermesClient.load_reservation, HermesClient.load_capability.
  solve_raises; auto with raises.
Qed.
#[local] Hint Resolve present_ask present_prepare : raises.

Lemma preserves_exchange client w run elsewhere answer ack :
  (forall d, preserves d (elsewhere d)) ->
  moves preserves (worker_exchange conf recursion client w run elsewhere answer ack).
Proof.
  intros He. unfold worker_exchange.
  repeat match goal with
  | |- moves _ (ask _ _) => apply moves_readonly; [exact _|apply readonly_ask]
  | |- moves _ (HermesClient.prepare _ _ _) => apply moves_readonly; [exact _|apply readonly_prepare]
  | |- moves _ (modify _) => apply moves_modify, He
  | |- moves _ _ => moves_step
  end.
Qed.
Lemma present_exchange client w run elsewhere answer ack :
  ack <> Err missing -> present (worker_exchange conf recursion client w run elsewhere answer ack).
Proof.
  intros Ha. unfold worker_exchange. solve_raises; auto with raises.
  apply raises_lift. intros e. by apply conclude_present.
Qed.

Lemma usage_present res key : present (lift (usage_field res key) : M Z).
Proof.
  apply raises_lift. intros e. unfold usage_field, field, IterableTemplates.item, int_of, py.
  destruct (subscript res "usage") as [usage|]; cbn; [|by intros [= <-]].
  destruct usage; cbn; try by intros [= <-]. destruct (subscript _ key) as [v|]; cbn; [|by intros [= <-]].
  destruct v; by intros [= <-].
Qed.
#[local] Hint Resolve usage_present : raises.

Lemma complete_found w res d e d' : is_Some (runs d !! w_run w) -> complete_run conf w res d = (Err e, d') -> e <> missing.
Proof.
  intros Hrun Hr. unfold complete_run in Hr. apply atomic_err_inv in Hr as [_ (d1 & Hr)].
  apply bind_err_inv in Hr as [Hr|(l & d0 & Hl & Hr)]; [by rewrite lane_row_run in Hr|].
  rewrite lane_row_run in Hl. injection Hl as <- <-.
  apply bind_err_inv in Hr as [Hr|(r & d2 & _ & Hr)]; [by apply found_run in Hr|].
  cbn beta in Hr. match type of Hr with ?m _ = _ => assert (present m) as Hp; [|exact (Hp _ _ _ Hr)] end.
  unfold get_control, get_binding, get_workflow, or_invalid, worker_failure, reservation_row, save_lane. solve_raises.
Qed.

(** C13 A worker never leaves its run running: when the execution of a run returns, whatever
    the adapter answered or failed to answer and whatever else happened to the tables
    meanwhile, the run has ended. *)
Theorem worker_ends_its_run id client nonce elsewhere answer ack d u d' r :
  agent_ok d -> (forall d, preserves d (elsewhere d)) -> ack <> Some (Err missing) ->
  execute_hermes_run conf recursion id client nonce elsewhere answer ack d = (Ok u, d') ->
  hermes d' id r -> active r = false.
Proof.
  intros Hd He Hack Hr Hh. unfold execute_hermes_run in Hr. apply bind_ok_inv in Hr as (started & d1 & Hb & Hr).
  destruct (begin_ok conf id client nonce d _ d1 Hd Hb) as (Hd1 & Had & Hw).
  destruct started as [|w|e billable]; [apply ret_inv in Hr as [_ ->]; exact (begin_nothing _ _ _ _ _ _ Hd Hb Hh)| |by eapply handle_ends].
  destruct (Hw w eq_refl) as (Hid & [cl ->] & (r1 & Hr1) & Hww).
  assert (forall d2, advances d1 d2 -> is_Some (runs d2 !! id)) as Hfound.
  { intros d2 Ha. destruct (ad_runs _ _ Ha id r1 Hr1) as (r2 & [Hr2 _] & _). by exists r2. }
  unfold catch in Hr. match type of Hr with context [match ?m d1 with _ => _ end] => destruct (m d1) as [[x|e] d2] eqn:Hm end.
  - injection Hr as _ ->. apply bind_ok_inv in Hm as (run & d3 & Hl & Hm).
    assert (d3 = d1) as -> by (pose proof (readonly_load id d1) as Hro; by rewrite Hl in Hro).
    apply bind_ok_inv in Hm as (res & d4 & Hx & Hm).
    pose proof (moves_run _ _ _ _ _ (preserves_exchange cl w run elsewhere answer (default (Err HermesClient.unavailable) ack) He) Hx Hd1)
      as [Hd4 Ha4].
    rewrite <- Hid in Hh. apply (complete_ends w res d4 x d' r Hd4); [|done|done]. by apply (works_advances w d1).
  - assert (agent_ok d2 /\ e <> missing) as [Hd2 Hne].
    { apply bind_err_inv in Hm as [Hl|(run & d3 & Hl & Hm)].
      { split; [|apply (load_found id d1 e d2); [by apply Hfound|done]].
        assert (d2 = d1) as -> by (pose proof (readonly_load id d1) as Hro; by rewrite Hl in Hro). done. }
      assert (d3 = d1) as -> by (pose proof (readonly_load id d1) as Hro; by rewrite Hl in Hro).
      pose proof (preserves_exchange cl w run elsewhere answer (default (Err HermesClient.unavailable) ack) He) as Hex.
      apply bind_err_inv in Hm as [Hx|(res & d4 & Hx & Hm)]; destruct (moves_run _ _ _ _ _ Hex Hx Hd1) as [Hd4 Ha4].
      - split; [done|]. apply (present_exchange cl w run elsewhere answer (default (Err HermesClient.unavailable) ack)) in Hx; [done|].
        destruct ack as [y|]; cbn; [congruence|done].
      - assert (d2 = d4) as -> by (unfold complete_run in Hm; by apply atomic_err in Hm). split; [done|].
        apply (complete_found w res d4 e d4); [rewrite Hid; by apply Hfound|done]. }
    assert (handle_failure id e true false ack d2 = (Ok u, d')) as Hhf.
    { destruct e; try exact Hr. match type of Hne with DoesNotExist ?name <> _ =>
        destruct (String.eqb_spec name "AgentRun") as [->|]; [by destruct Hne|exact Hr] end. }
    by apply (handle_ends id e true false ack d2 u d').
Qed.

(** ** An execution is made of steps *)

Lemma exchange_state client w run elsewhere answer ack d :
  (worker_exchange conf recursion client w run elsewhere answer ack d).2 = d \/
  (worker_exchange conf recursion client w run elsewhere answer ack d).2 = elsewhere d.
Proof.
  destruct (worker_exchange conf recursion client w run elsewhere answer ack d) as [r d'] eqn:Hr. cbn.
  assert (forall {A} (m : M A) (k : A -> M (list (string * json))) d, readonly m ->
    (m ≫= k) d = (r, d') -> d' = d \/ exists a, k a d = (r, d')) as Hro.
  { intros A m k d0 Hm. unfold mbind, ST_bind. specialize (Hm d0). destruct (m d0) as [[a|e] d1]; cbn in Hm; subst d1; [eauto|].
    intros [= _ <-]. by left. }
  unfold worker_exchange in Hr.
  apply Hro in Hr as [->|(c & Hr)]; [by left| |apply readonly_ask].
  apply Hro in Hr as [->|([] & Hr)]; [by left| |apply ro_fail_if].
  apply Hro in Hr as [->|([] & Hr)]; [by left| |apply ro_fail_if].
  apply Hro in Hr as [->|(p & Hr)]; [by left| |apply readonly_prepare].
  unfold mbind at 1, ST_bind at 1, modify in Hr.
  apply Hro in Hr as [->|(c' & Hr)]; [by right| |apply readonly_ask].
  apply lift_inv in Hr as [_ ->]. by right.
Qed.

Lemma begin_worker id client nonce d w d' : begin_run conf id client nonce d = (Ok (Started w), d') -> w_run w = id.
Proof.
  unfold begin_run, mbind at 1, ST_bind at 1, get at 1, catch.
  match goal with |- context [match ?m d with _ => _ end] => destruct (m d) as [[y|e] d1] eqn:Hm end.
  2: { repeat case_match; by intros [? _]%ret_inv. }
  intros [= -> <-]. apply atomic_ok_inv in Hm. do 3 apply bind_ok_inv in Hm as (? & ? & _ & Hm).
  destruct (_ || _) in Hm; [by apply ret_inv in Hm as [? _]|].
  destruct (bool_decide _) in Hm; [by apply raise_inv in Hm as [? _]|]. unfold start_attempt in Hm.
  repeat first [apply bind_ok_inv in Hm as (? & ? & _ & Hm)
    | match type of Hm with (let '(_, _) := ?x in _) _ = _ => destruct x end].
  by apply ret_inv in Hm as [[= ->] _].
Qed.

Lemma exchange_steps client w elsewhere answer ack d ws r d' :
  (forall d ws, rtc steps (System d ws) (System (elsewhere d) ws)) -> w ∈ ws ->
  (run ← load_run (w_run w); res ← worker_exchange conf recursion client w run elsewhere answer ack; complete_run conf w res) d
    = (r, d') ->
  rtc steps (System d ws) (System d' ws).
Proof.
  intros He Hw Hr. unfold mbind, ST_bind in Hr. pose proof (readonly_load (w_run w) d) as Hro.
  destruct (load_run (w_run w) d) as [[run|e] d0]; cbn in Hro; subst d0; [|by injection Hr as _ <-].
  destruct (worker_exchange conf recursion client w run elsewhere answer ack d) as [x d1] eqn:Hx.
  assert (rtc steps (System d ws) (System d1 ws)) as Hs.
  { pose proof (exchange_state client w run elsewhere answer ack d) as Hex. rewrite Hx in Hex. cbn in Hex.
    destruct Hex as [-> | ->]; [reflexivity|apply He]. }
  destruct x as [res|e]; [|by injection Hr as _ <-].
  eapply rtc_r; [exact Hs|]. exact (step_complete _ _ (System d1 ws) w res r d' Hw Hr).
Qed.

(** An execution is made of the system's steps: what a worker does to the tables, however
    its execution ends, is a begin, what happens elsewhere during the exchange, and a
    completion or a failure; so the theorems about the steps are theorems about it. *)
Theorem execution_is_steps s id client nonce elsewhere answer ack r d' :
  (forall d ws, rtc steps (System d ws) (System (elsewhere d) ws)) ->
  execute_hermes_run conf recursion id client nonce elsewhere answer ack (tables s) = (r, d') ->
  exists ws, rtc steps s (System d' ws).
Proof.
  intros He Hr. unfold execute_hermes_run, mbind at 1, ST_bind at 1 in Hr.
  destruct (begin_run conf id client nonce (tables s)) as [[started|e] d1] eqn:Hb.
  2: { injection Hr as <- <-. exists (workers s). apply rtc_once. by eapply step_skip. }
  assert (forall e billable redelivery r d d' ws, handle_failure id e billable redelivery ack d = (r, d') ->
    rtc steps (System d ws) (System d' ws)) as Hfail
    by (intros e b red r0 d d0 ws Hf; apply rtc_once; exact (step_fail _ _ (System d ws) _ _ _ _ _ _ _ Hf)).
  destruct started as [|w|e billable].
  - injection Hr as <- <-. exists (workers s). apply rtc_once. by eapply step_skip.
  - assert (steps s (System d1 (w :: workers s))) as Hs1 by (by eapply step_begin).
    destruct client as [cl|]; [|injection Hr as <- <-; exists (w :: workers s); by apply rtc_once].
    exists (w :: workers s). eapply rtc_l; [exact Hs1|]. unfold catch in Hr.
    pose proof (begin_worker _ _ _ _ _ _ Hb) as <-.
    match type of Hr with context [match ?m d1 with _ => _ end] => destruct (m d1) as [x d2] eqn:Hm end.
    etrans; [eapply exchange_steps; [exact He|by left|exact Hm]|].
    destruct x as [u|e]; [by injection Hr as <- <-|].
    destruct e; try (by eapply Hfail).
    match type of Hm with _ = (Err (DoesNotExist ?name), _) => destruct (String.eqb name "AgentRun") end;
      [by injection Hr as <- <-|by eapply Hfail].
  - exists (workers s). eapply rtc_l; [by eapply step_skip|]. by eapply Hfail.
Qed.

(** ** Starting again *)

(** The rows that a repeated start looks at. *)
Definition same_receipts (d d' : db) : Prop :=
  receipts d' = receipts d /\ LaunchLoop.d_actors (launch d') = LaunchLoop.d_actors (launch d).
#[local] Instance same_receipts_preorder : PreOrder same_receipts.
Proof. split; [done|]. intros x y z [] []. split; congruence. Qed.

Lemma same_receipts_budget {A} (m : Budgets.M A) : moves same_receipts (budget m).
Proof. intros d. unfold budget. by destruct (m _) as [[a|e] b]. Qed.
Lemma same_receipts_fresh : moves same_receipts fresh.
Proof. by intros d. Qed.
Ltac receipts_step :=
  match goal with
  | |- moves _ (modify _) => apply moves_modify; intros ?; done
  | |- moves _ (budget _) => apply same_receipts_budget
  | |- moves _ fresh => apply same_receipts_fresh
  | |- moves _ _ => moves_step
  end.
Lemma same_receipts_finish id c b o : moves same_receipts (finish id c b o).
Proof.
  unfold finish, terminal, account, attempt, owns_run, lane_row, revoke_record, get_run, get_control, get_binding, event, save_run,
    save_lane, save_control, quarantine_run, reservation_row, Broker.audit, Broker.save_capability. repeat receipts_step.
Qed.
Lemma same_receipts_queue w v a s : moves same_receipts (queue_hermes_run conf w v a s).
Proof.
  unfold queue_hermes_run, or_denied, lane_row, get_workflow, get_actor, workflow_profile, create_run, create_binding, create_control,
    event, save_run, save_lane, Broker.audit. repeat receipts_step.
Qed.

Lemma start_receipt key w v a s delivered d run d1 :
  start_hermes_run conf key w v a s delivered d = (Ok run, d1) ->
  exists actor receipt, LaunchLoop.d_actors (launch d1) !! a = Some actor /\ receipts d1 !! key = Some receipt /\
    receipt_conflict receipt (LaunchLoop.a_user actor) a w v = false /\ t_run receipt = run /\ 1 <= v.
Proof.
  unfold start_hermes_run, or_denied. intros Hr. apply bind_ok_inv in Hr as ([] & ? & [Hv ->]%fail_if_ok_inv & Hr).
  apply Z.ltb_ge in Hv. unfold catch in Hr.
  match type of Hr with context [match ?m d with _ => _ end] => destruct (m d) as [[x|e] d2] eqn:Hm end.
  2: { destruct (database_error e); by apply raise_inv in Hr as [? _]. }
  injection Hr as -> ->. apply bind_ok_inv in Hm as ([id started] & d2 & Hm & Hr). apply atomic_ok_inv in Hm.
  apply bind_ok_inv in Hm as (l & d0 & Hl & Hm). rewrite lane_row_run in Hl. injection Hl as _ <-.
  apply bind_ok_inv in Hm as (? & ? & [[= ->] ->]%get_inv & Hm).
  apply bind_ok_inv in Hm as (actor & ? & [Ha ->]%some_or_ok_inv & Hm). cbn in Ha.
  apply bind_ok_inv in Hm as ([] & ? & [_ ->]%fail_if_ok_inv & Hm). cbn [snd fst] in Hr.
  assert (exists receipt, LaunchLoop.d_actors (launch d2) !! a = Some actor /\ receipts d2 !! key = Some receipt /\
    receipt_conflict receipt (LaunchLoop.a_user actor) a w v = false /\ t_run receipt = id) as (receipt & Ha2 & Hr2 & Hc & Ht).
  { cbn [receipts set_lane] in Hm. destruct (receipts d !! key) as [receipt|] eqn:Hk.
    - apply bind_ok_inv in Hm as ([] & ? & [Hc ->]%fail_if_ok_inv & [[= -> ->] ->]%ret_inv). by exists receipt.
    - apply bind_ok_inv in Hm as (run' & d3 & Hq & Hm). pose proof (moves_run _ _ _ _ _ (same_receipts_queue w v a s) Hq) as [_ Hact].
      apply bind_ok_inv in Hm as (? & ? & [[= ->] ->]%get_inv & Hm).
      apply bind_ok_inv in Hm as ([] & ? & [_ ->]%fail_if_ok_inv & Hm).
      apply bind_ok_inv in Hm as ([] & ? & [_ ->]%modify_inv & [[= -> ->] ->]%ret_inv).
      eexists. cbn. rewrite Hact, lookup_insert_eq. split_and!; [done..| |done].
      unfold receipt_conflict. cbn. by rewrite bool_decide_eq_true_2, String.eqb_refl, !Z.eqb_refl. }
  exists actor, receipt. apply bind_ok_inv in Hr as ([] & d3 & Hdis & [[= ->] ->]%ret_inv).
  assert (same_receipts d2 d3) as [E1 E2].
  { destruct (negb started); [by apply ret_inv in Hdis as [_ ->]|]. unfold dispatch_run in Hdis.
    destruct delivered; [by apply ret_inv in Hdis as [_ ->]|].
    apply bind_ok_inv in Hdis as (x & d4 & Hf & [_ ->]%ret_inv). exact (moves_run _ _ _ _ _ (same_receipts_finish _ _ _ _) Hf). }
  rewrite E1, E2. by split_and!.
Qed.

(** Starting again with the same key is answered with the same run: once a start has
    succeeded, the same request finds its receipt and queues nothing, whatever has become of
    the run since. *)
Theorem repeated_start_finds_its_run key w v a s delivered d run d1 d2 s' delivered' :
  start_hermes_run conf key w v a s delivered d = (Ok run, d1) ->
  receipts d2 !! key = receipts d1 !! key ->
  LaunchLoop.d_actors (launch d2) !! a = LaunchLoop.d_actors (launch d1) !! a -> Broker.active_operator d2 a = true ->
  start_hermes_run conf key w v a s' delivered' d2 = (Ok run, with_lane d2).
Proof.
  intros (actor & receipt & Ha & Hr & Hc & Ht & Hv)%start_receipt Er Ea Hop.
  unfold start_hermes_run, or_denied, catch, atomic, mbind, ST_bind, fail_if at 1, some_or.
  destruct (Z.ltb_spec v 1); [lia|]. cbn [mret ST_ret]. rewrite lane_row_run. cbn [get].
  change (LaunchLoop.d_actors (launch (set_lane (Some (lane_or d2)) d2))) with (LaunchLoop.d_actors (launch d2)).
  rewrite Ea, Ha. cbn [mret ST_ret]. unfold fail_if. change (Broker.active_operator (set_lane _ d2) a) with (Broker.active_operator d2 a).
  rewrite Hop. cbn [negb mret ST_ret]. change (receipts (set_lane _ d2)) with (receipts d2). rewrite Er, Hr, Hc.
  cbn. by rewrite Ht.
Qed.

(** ** What the client accepts *)

Lemma client_prepare_ok client run token d p d' :
  HermesClient.prepare client run token d = (Ok p, d') ->
  d' = d /\ exists rid reservation, Budgets.b_reservations (budgets d) !! rid = Some reservation /\
    HermesClient.open_reservation (clock d) run reservation = true /\
    HermesClient.max_input_tokens (HermesClient.allowance p) = Budgets.pf_max_input_tokens (HermesClient.profile run) /\
    HermesClient.max_output_tokens (HermesClient.allowance p) = Budgets.pf_max_output_tokens (HermesClient.profile run) /\
    HermesClient.max_cost_microusd (HermesClient.allowance p) =
      Z.min (Budgets.po_per_run_limit (HermesClient.policy run)) (Budgets.br_reserved_cost reservation) /\
    HermesClient.within_ceilings (HermesClient.allowance p) = true /\
    slen (json_dumps true false (HermesClient.body p)) <= HermesClient.MAX_BODY_BYTES /\ clock d < HermesClient.expires p.
Proof.
  unfold HermesClient.prepare. intros Hr. apply bind_ok_inv in Hr as ([] & ? & [_ ->]%fail_if_ok_inv & Hr).
  apply bind_ok_inv in Hr as (reservation & d1 & Hres & Hr). unfold HermesClient.load_reservation in Hres.
  apply bind_ok_inv in Hres as (? & ? & [[= ->] ->]%get_inv & Hres).
  apply bind_ok_inv in Hres as ([rid row] & ? & [Hf ->]%some_or_ok_inv & Hres).
  apply bind_ok_inv in Hres as ([] & ? & [_ ->]%fail_if_ok_inv & [[= ->] ->]%ret_inv).
  apply Ledger.find_row_some in Hf as [Hrow Hopen].
  apply bind_ok_inv in Hr as ([] & ? & [Hw ->]%fail_if_ok_inv & Hr).
  apply bind_ok_inv in Hr as (expiry & d1 & Hcap & Hr). unfold HermesClient.load_capability in Hcap.
  apply bind_ok_inv in Hcap as (? & ? & [[= ->] ->]%get_inv & Hcap).
  apply bind_ok_inv in Hcap as (c & ? & [_ ->]%some_or_ok_inv & Hcap).
  apply bind_ok_inv in Hcap as ([] & ? & [_ ->]%fail_if_ok_inv & [[= ->] ->]%ret_inv).
  apply bind_ok_inv in Hr as (? & ? & [[= ->] ->]%get_inv & Hr).
  apply bind_ok_inv in Hr as ([] & ? & [He ->]%fail_if_ok_inv & Hr).
  apply bind_ok_inv in Hr as ([] & ? & [Hb ->]%fail_if_ok_inv & [[= ->] ->]%ret_inv).
  apply Z.ltb_ge in Hb. apply Z.leb_gt in He. apply negb_false_iff in Hw. split; [done|].
  exists rid, row. cbn in *. split_and!; try done. lia.
Qed.

Lemma is_int_true v f : HermesClient.is_int v f = true -> exists z, v = JInt z /\ f z = true.
Proof. destruct v; try done. cbn. eauto. Qed.

Lemma conclude_ok run p answer cancelled ack value :
  HermesClient.conclude recursion run p answer cancelled ack = Ok value ->
  cancelled = Some false /\ (exists raw, answer = HermesClient.Answered 200 raw) /\
  HermesClient.names_run run value = true /\
  HermesClient.bounded_usage (HermesClient.allowance p) (get_or_none value "usage") = true /\
  (py_eq (get_or_none value "status") (JStr "succeeded") = true ->
   HermesClient.success_ok (get_or_none value "proposal_references") (get_or_none value "failure_category") = true).
Proof.
  unfold HermesClient.conclude. destruct answer as [code raw|category status].
  2: { destruct ack; by intros [=]. }
  destruct cancelled as [[|]|]; [by destruct ack| |by destruct ack]. intros Hr.
  apply bind_result_ok in Hr as ([] & Hc & Hr). apply raise_if_inv in Hc.
  apply bind_result_ok in Hr as (v1 & _ & Hr). apply bind_result_ok in Hr as (v2 & _ & Hr).
  apply bind_result_ok in Hr as ([] & Hv & [= ->]). unfold HermesClient.validate_result in Hv. apply raise_if_inv in Hv.
  bools. subst code. split_and!; try done; [by eexists|]. intros Hs. by rewrite Hs in *.
Qed.

(** C18 What the client accepts of the adapter is within the run's allowance: an accepted
    answer is about this run, its tokens are within the profile's limits, and its cost is
    within the policy's limit and the open reservation of the run. *)
Theorem accepted_answer_is_bounded client run token d p d' answer cancelled ack value :
  HermesClient.prepare client run token d = (Ok p, d') ->
  HermesClient.conclude recursion run p answer cancelled ack = Ok value ->
  HermesClient.names_run run value = true /\ cancelled = Some false /\
  exists rid reservation input output cost,
    Budgets.b_reservations (budgets d) !! rid = Some reservation /\
    HermesClient.open_reservation (clock d) run reservation = true /\
    usage_field value "input_tokens" = Ok input /\ usage_field value "output_tokens" = Ok output /\
    usage_field value "cost_microusd" = Ok cost /\
    0 <= input <= Budgets.pf_max_input_tokens (HermesClient.profile run) /\
    0 <= output <= Budgets.pf_max_output_tokens (HermesClient.profile run) /\
    0 <= cost <= Z.min (Budgets.po_per_run_limit (HermesClient.policy run)) (Budgets.br_reserved_cost reservation).
Proof.
  intros (_ & rid & reservation & Hrow & Hopen & Ei & Eo & Ec & _)%client_prepare_ok (Hcan & _ & Hn & Hu & _)%conclude_ok.
  split_and!; [done..|]. unfold HermesClient.bounded_usage in Hu. unfold usage_field, field, subscript, IterableTemplates.item.
  unfold get_or_none at 1 in Hu. destruct (dict_get "usage" value) as [usage|]; [|done]. cbn.
  destruct usage as [| | | | | |u]; try done. bools.
  repeat match goal with H : HermesClient.is_int _ _ = true |- _ => apply is_int_true in H as (? & H & ?); bools end.
  unfold get_or_none in *.
  destruct (dict_get "input_tokens" u) as [vi|] eqn:E1; [|done]. destruct (dict_get "output_tokens" u) as [vo|] eqn:E2; [|done].
  destruct (dict_get "cost_microusd" u) as [vc|] eqn:E3; [|done]. subst. eexists rid, reservation, _, _, _.
  unfold subscript. rewrite E1, E2, E3. cbn. split_and!; try done; lia.
Qed.

End platform.
End RunSafety.
