(* ===== verification/AgentWorld.v ===== *)
(** * A concrete run of the agent

    One operator, one synthetic workflow that is ready for review, one model profile; a toy
    signer that satisfies the laws; and a run from its start through the tool calls of its
    agent to its accepted result, with the ends that other runs take. *)

From S2P Require Import Prelude PyValue Sha256 Base64 JsonText Engine OwnerEvents OwnerEventsTheorems LaunchLoop Budgets BudgetsTheorems ToolSchemas Uuid DraftProvider EventbriteDrafts IterableDrafts IterableTemplates DraftRows DraftReview DraftEffects Transactions Broker BrokerEffects HermesClient AgentRuns AgentRunFacts AgentRunEffects AgentSystem.

Module AgentWorld.
Import Provider Rows Review Transactions Effects BrokerFacts AgentRuns RunFacts RunEffects AgentSystem.

#[export] Existing Instance OwnerFacts.two_zones.

Definition signature : string := ".aaaaaaaaaaaaaaaaaaaaaaaaaaaaaaaaaaaaaaaaaaa".
Lemma toy_sign_length value : slen (value +:+ signature) = slen value + 44.
Proof. unfold slen. rewrite slength_app. cbn. lia. Qed.
#[export] Instance toy_signer : Signer := {|
  sign value := value +:+ signature;
  unsign _ := true;
  unsign_sign _ := eq_refl;
  sign_length := toy_sign_length;
|}.

Definition conf : settings := Settings true "hermes" 1 60 4.
Definition token_file : option (list Z) := Some (replicate 32 120).
Definition identity : json := JStr "xxxxxxxxxxxxxxxxxxxxxxxxxxxxxxxx".
Definition nonce : string := "nnnnnnnnnnnnnnnnnnnnnnnnnnnnnnnnnnnnnnnnnnn".
Definition ok_or {A : Type} (a : A) (r : result exn A) : A := match r with Ok x => x | Err _ => a end.

(** ** The rows *)

Definition snapshot : list (string * json) :=
  [("synthetic", JBool true); ("title", JStr "Open house"); ("city", JStr "New York"); ("region", JStr "NY");
   ("country", JStr "US"); ("date", JStr "2026-08-12"); ("start_time", JStr "09:00"); ("end_time", JStr "11:00");
   ("timezone", JStr "America/New_York"); ("venue_name", JStr "Hall"); ("venue_address", JStr "1 Main St");
   ("access_instructions", JStr "Ring."); ("general_ticket_price", JInt 40); ("signup_url", JStr "https://e.org");
   ("sponsor_tier", JStr "gold"); ("sponsor_discount_percent", JInt 25)].
Definition package : json := Eval vm_compute in
  match Engine.prepare_package snapshot with Ok p => p | Err _ => JNull end.
Definition package_hash : string := Eval vm_compute in LaunchLoop.package_hash package.

Definition demo : LaunchLoop.db :=
  LaunchLoop.DB {["maya" := 1]}
    {["maya" := LaunchLoop.Actor "maya" "Maya" LaunchLoop.OPERATOR (Some 1)]}
    ∅ ∅ ∅ {[7 := LaunchLoop.EventRevision 5 1 snapshot "maya" None]}
    {[100 := LaunchLoop.Workflow 5 7 LaunchLoop.READY_FOR_REVIEW (Some package) package_hash ""]} [] ∅ ∅ [] ∅ 1000.

Definition profile : Budgets.model_profile := Budgets.ModelProfile "hermes" 1 Budgets.WORKFLOW 8000 2000 (Some 150000) (Some 600000).
Definition policy : Budgets.routing_policy := Budgets.RoutingPolicy "hermes" 1 Budgets.WORKFLOW 1 500000 25000000.
Definition catalog : Budgets.db := Budgets.DB {[1 := profile]} {[1 := policy]} ∅ ∅ [] ∅ 1.

Definition world : db :=
  DB demo {[1 := User 1 true true]} ∅ ∅ ∅ ∅ ∅ ∅ ∅ ∅ None [] ∅ [] catalog ∅ ∅ ∅ ∅ ∅ 1000 50.

(** ** The run *)

Abbreviation starting delivered := (start_hermes_run conf 500 100 7 "maya" None delivered).
Definition run_id : Z := Eval vm_compute in ok_or 0 (starting true world).1.
Definition queued : db := Eval vm_compute in (starting true world).2.
Definition undelivered : db := Eval vm_compute in (starting false world).2.

Definition client : option HermesClient.client := Some (HermesClient.Client 60 4).
Definition token : string := Eval vm_compute in Broker.token_of nonce.
Definition w : worker := Worker run_id token.
Definition running : db := Eval vm_compute in (begin_run conf run_id client nonce queued).2.
Definition stopping : db := Eval vm_compute in (cancel_hermes_run run_id running).2.

(** The agent's calls. *)
Definition call_arguments (request key : string) (extra : list (string * json)) : json :=
  JDict ([("workflow_id", str_id 100); ("revision_id", JInt 7); ("actor_id", JStr "maya");
          ("correlation_id", str_id 50); ("request_id", JStr request); ("idempotency_key", JStr key)] ++ extra).
Definition content : json :=
  JDict [("event_copy", JStr "Join us."); ("invitation", ToolSchemas.mk_email "Come" "Join us.");
         ("reminder", ToolSchemas.mk_email "Soon" "See you."); ("social", JDict [("body", JStr "Join.")])].
Definition proposing : json := call_arguments "00000000-0000-0000-0000-000000000901" "propose-campaign-1" [("proposal", content)].
Abbreviation calling tool arguments := (Broker.dispatch_mcp_tool token_file (JStr tool) arguments identity (JStr token)).
Definition proposed : db := Eval vm_compute in (calling "propose_campaign_drafts" proposing running).2.
Definition proposal_id : Z := 52.
Definition requesting : json :=
  call_arguments "00000000-0000-0000-0000-000000000902" "request-drafts-01" [("proposal_id", str_id proposal_id)].
Definition requested : db := Eval vm_compute in (calling "request_eventbrite_draft" requesting proposed).2.

(** The answer that the worker accepts. *)
Definition res : list (string * json) := Eval vm_compute in
  [("run_id", str_id run_id); ("workflow_id", str_id 100); ("revision_id", JInt 7); ("status", JStr "succeeded");
   ("proposal_references", JList [JDict [("proposal_id", str_id proposal_id); ("schema_id", JStr PROPOSAL_SCHEMA_ID);
      ("proposal_digest", JStr (match submissions proposed !! proposal_id with Some p => m_digest p | None => "" end))]]);
   ("usage", JDict [("input_tokens", JInt 100); ("output_tokens", JInt 50); ("cost_microusd", JInt 45)]);
   ("failure_category", JNull)].
Definition succeeded : db := Eval vm_compute in (complete_run conf w res requested).2.

(** A whole execution: the agent makes its two calls while the client waits, and the adapter
    answers with their outcome. *)
Definition agent (d : db) : db := (calling "request_eventbrite_draft" requesting (calling "propose_campaign_drafts" proposing d).2).2.
Definition answer : HermesClient.reply := Eval vm_compute in
  HermesClient.Answered 200 (Sha256.bytes_of_string (json_dumps true false (JDict (("schema_version", JStr "1.0") ::
    map (fun kv => if String.eqb kv.1 "usage" then ("usage", JDict [("input_tokens", JInt 100); ("output_tokens", JInt 50)]) else kv) res)))).
Abbreviation executing := (execute_hermes_run conf 1000 run_id client nonce agent answer (Some (Ok ()))).

(** A worker that is delivered twice. *)
Definition stopped : db := Eval vm_compute in (handle_failure run_id HermesClient.unavailable true true None running).2.

(** ** The run is a run of the system *)

Lemma queued_ok : starting true world = (Ok run_id, queued).
Proof. by vm_compute. Qed.
Lemma undelivered_ok : starting false world = (Ok run_id, undelivered).
Proof. by vm_compute. Qed.
Lemma running_ok : begin_run conf run_id client nonce queued = (Ok (Started w), running).
Proof. by vm_compute. Qed.
Lemma stopping_ok : exists n, cancel_hermes_run run_id running = (Ok n, stopping).
Proof. eexists. by vm_compute. Qed.
Lemma proposed_ok : exists v, calling "propose_campaign_drafts" proposing running = (Ok v, proposed).
Proof. eexists. by vm_compute. Qed.
Lemma requested_ok : exists v, calling "request_eventbrite_draft" requesting proposed = (Ok v, requested).
Proof. eexists. by vm_compute. Qed.
Lemma succeeded_ok : complete_run conf w res requested = (Ok (), succeeded).
Proof. by vm_compute. Qed.
Lemma executing_ok : executing queued = (Ok (), succeeded).
Proof. by vm_compute. Qed.
Lemma stopped_ok : handle_failure run_id HermesClient.unavailable true true None running = (Ok (), stopped).
Proof. by vm_compute. Qed.

Lemma catalog_reachable : Ledger.reachable catalog.
Proof.
  apply rtc_once, Ledger.step_environment. exists {[1 := profile]}, {[1 := policy]}, ∅.
  split_and!; [by intros k p Hk|by intros k p Hk|reflexivity|].
  split; intros k v Hk; unfold catalog in Hk; cbn in Hk;
    apply lookup_singleton_Some in Hk as [<- <-]; cbn; unfold Budgets.INT_MAX, Budgets.BIGINT_MAX;
    split_and!; try lia; intros ? [= <-]; lia.
Qed.

#[local] Abbreviation reached d ws := (reachable conf token_file (System d ws)).

Lemma reached_world : reached world [].
Proof.
  exists (System world []). split; [|reflexivity]. unfold initial. split_and!; try reflexivity.
  - by intros id r [Hr _].
  - exact catalog_reachable.
Qed.
Lemma reached_next s s' : reachable conf token_file s -> step conf token_file s s' -> reachable conf token_file s'.
Proof. intros (s0 & Hi & Hs) Hn. exists s0. split; [done|]. by eapply rtc_r. Qed.
Lemma reached_queued : reached queued [].
Proof. eapply reached_next; [exact reached_world|]. eapply (step_start _ _ (System world [])). exact queued_ok. Qed.
Lemma reached_undelivered : reached undelivered [].
Proof. eapply reached_next; [exact reached_world|]. eapply (step_start _ _ (System world [])). exact undelivered_ok. Qed.
Lemma reached_running : reached running [w].
Proof. eapply reached_next; [exact reached_queued|]. eapply (step_begin _ _ (System queued [])). exact running_ok. Qed.
Lemma reached_stopping : reached stopping [w].
Proof.
  eapply reached_next; [exact reached_running|]. destruct stopping_ok as [n Hs].
  eapply (step_cancel _ _ (System running [w])). exact Hs.
Qed.
Lemma reached_proposed : reached proposed [w].
Proof.
  eapply reached_next; [exact reached_running|]. destruct proposed_ok as [v Hs].
  eapply (step_call _ _ (System running [w])). exact Hs.
Qed.
Lemma reached_requested : reached requested [w].
Proof.
  eapply reached_next; [exact reached_proposed|]. destruct requested_ok as [v Hs].
  eapply (step_call _ _ (System proposed [w])). exact Hs.
Qed.
Lemma reached_succeeded : reached succeeded [w].
Proof.
  eapply reached_next; [exact reached_requested|].
  eapply (step_complete _ _ (System requested [w])); [by left|exact succeeded_ok].
Qed.
Lemma reached_stopped : reached stopped [w].
Proof.
  eapply reached_next; [exact reached_running|].
  eapply (step_fail _ _ (System running [w]) run_id HermesClient.unavailable true true None). exact stopped_ok.
Qed.
End AgentWorld.
