(* ===== verification/AgentWitnesses.v ===== *)
(** * The theorems of the broker and of the runs, at the concrete run *)

From S2P Require Import Prelude PyValue Sha256 Base64 JsonText Engine OwnerEvents LaunchLoop Budgets BudgetsTheorems ToolSchemas Uuid DraftProvider EventbriteDrafts IterableDrafts IterableTemplates DraftRows DraftReview DraftEffects Transactions Broker BrokerEffects BrokerTheorems HermesClient AgentRuns AgentRunFacts AgentRunEffects AgentSystem AgentRunTheorems AgentWorld.

Module AgentWitnesses.
Import Provider Rows Review Transactions Effects BrokerFacts BrokerSafety AgentRuns RunFacts RunEffects AgentSystem RunSafety AgentWorld.

(** ** Shared facts *)

Lemma ok_at d ws : reachable conf token_file (System d ws) -> agent_ok d.
Proof. by intros [? _]%reachable_ok. Qed.
Lemma broker_at d ws : reachable conf token_file (System d ws) -> broker_ok d.
Proof. by intros [? _]%ok_at. Qed.

(** The row of a run. *)
Definition run_of (d : db) : agent_run := default (queued_run false 0 (LaunchLoop.Workflow 0 0 LaunchLoop.READY_FOR_REVIEW None "" "") 0 0) (runs d !! run_id).
Lemma hermes_at d : bool_decide (is_Some (runs d !! run_id)) && r_hermes_lane (run_of d) = true -> hermes d run_id (run_of d).
Proof. unfold run_of. intros [[r Hr]%bool_decide_eq_true Hh]%andb_true_iff. by rewrite Hr in *. Qed.
Definition control_of (d : db) : run_control := default (AgentRunControl None None None false) (controls d !! run_id).

(** The capability of the run, and the rows of its workflow. *)
Definition capability_id : Z := 51.
Definition capability_of (d : db) : workflow_capability :=
  default (WorkflowCapability "" "" 0 0 "" [] "" 0 0 None None) (capabilities d !! capability_id).
Definition workflow : LaunchLoop.workflow := Eval vm_compute in
  default (LaunchLoop.Workflow 0 0 LaunchLoop.READY_FOR_REVIEW None "" "") (LaunchLoop.d_workflows demo !! 100).
Definition revision : LaunchLoop.event_revision := LaunchLoop.EventRevision 5 1 snapshot "maya" None.

(** A call that is refused: a tool that does not exist. *)
Definition denied : db := Eval vm_compute in (calling "delete_event" proposing running).2.
(** The same call twice. *)
Definition replay : db := Eval vm_compute in (calling "propose_campaign_drafts" proposing requested).2.
Definition revoking : db := Eval vm_compute in (Broker.revoke_workflow_capability token running).2.
Definition issuing (d : db) : result exn string * db := Broker.issue_workflow_capability nonce 100 7 "maya" ["validate_proposal"] 300 d.
Definition issued : db := Eval vm_compute in (issuing world).2.

(** ** The broker *)

Lemma refused_call_is_only_recorded_witness : exists e, (calling "delete_event" proposing running) = (Err e, denied) /\ denied = recorded (JStr "delete_event") e running.
Proof.
  eexists. split; [by vm_compute|].
  apply (refused_call_is_only_recorded token_file (JStr "delete_event") proposing identity (JStr token)). by vm_compute.
Defined.

Lemma only_scoped_calls_act_witness : exists v, calling "propose_campaign_drafts" proposing running = (Ok v, proposed) /\ touches running proposed.
Proof.
  eexists. split; [by vm_compute|].
  eapply (only_scoped_calls_act token_file (JStr "propose_campaign_drafts") proposing identity (JStr token) running). by vm_compute.
Defined.

(** What has happened between two states of the run. *)
Lemma later d d' ws ws' : reachable conf token_file (System d ws) ->
  rtc (step conf token_file) (System d ws) (System d' ws') -> extends d d'.
Proof. intros Hr%reachable_ok Hs. apply (steps_move _ _ _ _ Hr Hs). Qed.
Lemma since_proposed : rtc (step conf token_file) (System proposed [w]) (System requested [w]).
Proof.
  apply rtc_once. destruct requested_ok as [v Hs]. eapply (step_call _ _ (System proposed [w])). exact Hs.
Qed.

Lemma admissible_requested : admissible requested "propose_campaign_drafts" token proposing capability_id (capability_of requested) workflow revision.
Proof. split; [by vm_compute..| |by vm_compute]. eexists. split; by vm_compute. Qed.

Lemma replayed_call_answers_alike_witness : exists v,
  calling "propose_campaign_drafts" proposing running = (Ok v, proposed) /\
  calling "propose_campaign_drafts" proposing requested =
    (Ok v, BrokerSafety.logged (replayed "propose_campaign_drafts" proposing capability_id (capability_of requested)) requested).
Proof.
  eexists. split; [by vm_compute|].
  apply (replayed_call_answers_alike token_file (JStr "propose_campaign_drafts") proposing identity token _ running proposed requested
    capability_id (capability_of requested) workflow revision).
  - exact (broker_at _ _ reached_running).
  - by vm_compute.
  - exact (later _ _ _ _ reached_proposed since_proposed).
  - exact (broker_at _ _ reached_requested).
  - exact admissible_requested.
Defined.

Lemma revoking_ok : Broker.revoke_workflow_capability token running = (Ok (), revoking).
Proof. by vm_compute. Qed.
Lemma revoked_token_is_refused_witness :
  is_ok (calling "propose_campaign_drafts" proposing revoking).1 = false /\ is_ok (Broker.bound_tool_context (JStr token) revoking).1 = false.
Proof.
  apply (revoked_token_is_refused token_file token running revoking revoking (JStr "propose_campaign_drafts") proposing identity).
  - exact (broker_at _ _ reached_running).
  - exact revoking_ok.
  - reflexivity.
  - exact (proj1 (moves_run _ _ _ _ _ (keeps_revoke token) revoking_ok (broker_at _ _ reached_running))).
Defined.

Lemma issued_token_is_bound_witness :
  issuing world = (Ok token, issued) /\ Broker.bound_tool_context (JStr token) issued = (Ok (None, ["validate_proposal"]), issued).
Proof.
  split; [by vm_compute|].
  apply (issued_token_is_bound nonce 100 7 "maya" ["validate_proposal"] 300 token world).
  - exact (broker_at _ _ reached_world).
  - by vm_compute.
  - by vm_compute.
Defined.

Definition proposal : mcp_submission := default (MCPSubmission 0 "" JNull "") (submissions proposed !! proposal_id).
Definition asking (d : db) : result exn json * db :=
  Broker.request_operations (capability_of proposed) (proposal_id, proposal) "eventbrite" d.
Definition asked : db := Eval vm_compute in (asking proposed).2.
Lemma proposal_proposed : proposal_of proposed (capability_of proposed) proposal_id proposal.
Proof. split_and!; [by vm_compute..|]. exists (capability_of proposed). by vm_compute. Qed.
Lemma asked_keeps : broker_ok asked.
Proof.
  assert (asked = (asking proposed).2) as -> by (by vm_compute).
  exact (proj1 (keeps_requests (capability_of proposed) proposal_id proposal "eventbrite" proposed (or_introl eq_refl) proposal_proposed
    (broker_at _ _ reached_proposed))).
Qed.
Lemma repeated_request_finds_its_operations_witness : exists v, asking proposed = (Ok v, asked) /\ asking asked = (Ok v, asked).
Proof.
  eexists. split; [by vm_compute|].
  unfold asking.
  apply (repeated_request_finds_its_operations (capability_of proposed) proposal_id proposal "eventbrite" proposed _ asked asked).
  - exact (broker_at _ _ reached_proposed).
  - by left.
  - exact proposal_proposed.
  - by vm_compute.
  - reflexivity.
  - exact asked_keeps.
Defined.

(** ** The runs *)

Lemma hermes_running : hermes running run_id (run_of running).
Proof. apply hermes_at. by vm_compute. Qed.
Lemma hermes_undelivered : hermes undelivered run_id (run_of undelivered).
Proof. apply hermes_at. by vm_compute. Qed.
Lemma hermes_stopping : hermes stopping run_id (run_of stopping).
Proof. apply hermes_at. by vm_compute. Qed.
Lemma hermes_stopped : hermes stopped run_id (run_of stopped).
Proof. apply hermes_at. by vm_compute. Qed.
Lemma hermes_succeeded : hermes succeeded run_id (run_of succeeded).
Proof. apply hermes_at. by vm_compute. Qed.
#[local] Abbreviation steps := (step conf token_file).

Lemma one_run_at_a_time_witness :
  active (run_of running) = true /\ run_id = run_id /\ l_active_run (lane_or running) = Some run_id.
Proof.
  split; [by vm_compute|]. apply (one_run_at_a_time conf token_file (System running [w]) run_id run_id (run_of running) (run_of running)).
  - exact reached_running.
  - exact hermes_running.
  - exact hermes_running.
  - by vm_compute.
  - by vm_compute.
Defined.

Lemma closed_lane_admits_nothing_witness : disabled stopped /\
  disabled stopped /\ exists r, hermes stopped run_id r /\ (active r = false -> run_of stopped = r).
Proof.
  assert (disabled stopped) as Hd by (by vm_compute). split; [exact Hd|].
  exact (closed_lane_admits_nothing conf token_file (System stopped [w]) (System stopped [w]) run_id (run_of stopped)
    reached_stopped Hd (rtc_refl _ _) hermes_stopped).
Defined.

Lemma to_stopped : rtc steps (System running [w]) (System stopped [w]).
Proof.
  apply rtc_once. eapply (step_fail _ _ (System running [w]) run_id HermesClient.unavailable true true None). exact stopped_ok.
Qed.
Lemma to_succeeded : rtc steps (System requested [w]) (System succeeded [w]).
Proof. apply rtc_once. eapply (step_complete _ _ (System requested [w])); [by left|exact succeeded_ok]. Qed.

Lemma ended_run_is_final_witness :
  active (run_of undelivered) = false /\
  exists r', hermes undelivered run_id r' /\ same_binding (run_of undelivered) r' = true /\
    (active (run_of undelivered) = false -> r' = run_of undelivered).
Proof.
  split; [by vm_compute|].
  exact (ended_run_is_final conf token_file (System undelivered []) (System undelivered []) run_id _
    reached_undelivered (rtc_refl _ _) hermes_undelivered).
Defined.


Lemma cancelled_run_never_succeeds_witness :
  is_Some (k_cancel_requested_at (control_of stopping)) /\ r_status (run_of stopping) <> R_SUCCEEDED.
Proof.
  assert (is_Some (k_cancel_requested_at (control_of stopping))) as Hk by (by eexists; vm_compute).
  split; [exact Hk|].
  refine (cancelled_run_never_succeeds conf token_file (System stopping [w]) (System stopping [w]) run_id (run_of stopping)
    (control_of stopping) (run_of stopping) reached_stopping hermes_stopping _ _ Hk (rtc_refl _ _) hermes_stopping); by vm_compute.
Defined.

Lemma runs_are_well_formed_witness : lifecycle_ok (run_of succeeded) = true.
Proof.
  exact (proj1 (runs_are_well_formed conf token_file (System succeeded [w]) run_id (run_of succeeded) reached_succeeded hermes_succeeded)).
Defined.

Lemma accepted_operations_pass_review_witness :
  length (run_operations succeeded (Some capability_id)) = 1%nat /\
  exists run b k cid, hermes succeeded run_id run /\ r_status run = R_SUCCEEDED /\
    bindings succeeded !! run_id = Some b /\ controls succeeded !! run_id = Some k /\ k_capability k = Some cid /\
    forall o, o ∈ run_operations succeeded (Some cid) -> exists p cap,
      submissions succeeded !! i_proposal o = Some p /\ capabilities succeeded !! m_capability p = Some cap /\
      forall submitter approver session,
        validate_intent (Related o p cap run (Some b) (Some k) submitter approver session) succeeded
          = (Ok (b_revision_digest b), succeeded).
Proof.
  split; [by vm_compute|].
  exact (accepted_operations_pass_review conf token_file (System requested [w]) w res () succeeded (System succeeded [w])
    reached_requested (list_elem_of_here w []) succeeded_ok (rtc_refl _ _) (fun _ => eq_refl)).
Defined.

Lemma agent_preserves d : preserves d (agent d).
Proof.
  unfold agent. etrans; [|apply preserves_call]. apply preserves_call.
Qed.
Lemma worker_ends_its_run_witness : executing queued = (Ok (), succeeded) /\ active (run_of succeeded) = false.
Proof.
  split; [exact executing_ok|].
  refine (worker_ends_its_run conf 1000 run_id client nonce agent answer (Some (Ok ())) queued () succeeded (run_of succeeded)
    (ok_at _ _ reached_queued) agent_preserves _ executing_ok hermes_succeeded). done.
Defined.

Lemma agent_steps d ws : rtc steps (System d ws) (System (agent d) ws).
Proof.
  unfold agent. set (d1 := (Broker.dispatch_mcp_tool token_file (JStr "propose_campaign_drafts") proposing identity (JStr token) d).2).
  eapply rtc_l; [|apply rtc_once].
  - eapply (step_call _ _ (System d ws)). apply surjective_pairing.
  - eapply (step_call _ _ (System d1 ws)). apply surjective_pairing.
Qed.
Lemma execution_is_steps_witness : exists ws, rtc steps (System queued []) (System succeeded ws).
Proof.
  exact (execution_is_steps conf token_file 1000 (System queued []) run_id client nonce agent answer (Some (Ok ())) (Ok ()) succeeded
    agent_steps executing_ok).
Defined.

Lemma repeated_start_finds_its_run_witness :
  starting true world = (Ok run_id, queued) /\ starting false succeeded = (Ok run_id, with_lane succeeded).
Proof.
  split; [exact queued_ok|].
  refine (repeated_start_finds_its_run conf 500 100 7 "maya" None true world run_id queued succeeded None false queued_ok _ _ _);
    by vm_compute.
Defined.

Definition loaded : HermesClient.loaded_run := Eval vm_compute in
  ok_or (HermesClient.LoadedRun 0 (run_of running) (HermesRunBinding "" None 0 "") profile policy) (load_run run_id running).1.
Definition request : HermesClient.prepared := Eval vm_compute in
  ok_or (HermesClient.Prepared (HermesClient.RunBudgets 0 0 0 0) 0 JNull) (HermesClient.prepare (HermesClient.Client 60 4) loaded token running).1.
Definition accepted : list (string * json) := Eval vm_compute in
  match HermesClient.conclude 1000 loaded request answer (Some false) (Ok ()) with Ok v => v | Err _ => [] end.
Lemma accepted_answer_is_bounded_witness : HermesClient.names_run loaded accepted = true.
Proof.
  refine (proj1 (accepted_answer_is_bounded 1000 (HermesClient.Client 60 4) loaded token running request running answer (Some false) (Ok ())
    accepted _ _)); by vm_compute.
Defined.
End AgentWitnesses.
