(* ===== verification/IdentityRows.v ===== *)
(** * The tables and requests of the identity app (backend/identity/models.py, exceptions.py,
    request_context.py)

    One request works on the tables and on its own session object; a transaction that raises
    undoes its changes of the tables and not those of the object.  The session framework is
    Django's: the class [Sessions] states what the code relies on.  Times are microseconds. *)

From S2P Require Import Prelude PyValue ToolSchemas DraftRows.

Module IdentityRows.
Export (hints) Rows.

(** ** Exceptions *)

Inductive exn :=
| IdentityError (message : string)
| IdentityCryptoError
| IdentityUnavailable
| IdentityRateLimited (retry_after_seconds : Z)
| IdentityFreshnessRequired
| IdentityCredentialMismatch
| IdentityValidationError (message : string)
| DoesNotExist (model : string)
| IntegrityError (constraint : string)
| SessionError
| Exhausted
| Py (e : py_exn).

(** [except IdentityError] *)
Definition is_identity_error (e : exn) : bool :=
  match e with
  | IdentityError _ | IdentityCryptoError | IdentityUnavailable | IdentityRateLimited _
  | IdentityFreshnessRequired | IdentityCredentialMismatch | IdentityValidationError _ => true
  | _ => false
  end.

(** ** Rows *)

(** The columns of [auth.User]. *)
Record user := User { u_username : string; u_email : string; u_password : string; u_is_active : bool }.

Abbreviation profile := Rows.administrator_profile.

Record totp_device := AdministratorTOTPDevice {
  v_user : Z;
  v_profile : Z;
  v_name : string;
  v_confirmed : bool;
  v_seed_envelope : json;
  v_drift : Z;
  v_last_t : Z;
  v_failures : Z;
  v_failed_at : option Z;
  v_created_at : Z;
  v_confirmed_at : option Z;
  v_last_used_at : option Z;
  v_replaced_at : option Z;
  v_disabled_at : option Z;
}.
(** [digits] and [step], which the constraints fix. *)
Definition DIGITS : Z := 6.
Definition STEP : Z := 30.

Record recovery_code := RecoveryCode {
  y_profile : Z;
  y_batch : Z;
  y_public_id : string;
  y_encoded_secret : string;
  y_consumed_at : option Z;
  y_invalidated_at : option Z;
}.

Record admin_session := AdministratorSession {
  z_profile : Z;
  z_session_key : string;
  z_authenticated_at : option Z;
  z_last_activity_at : option Z;
  z_mfa_verified_at : option Z;
  z_fresh_verified_at : option Z;
  z_absolute_expires_at : option Z;
  z_expires_at : option Z;
  z_revoked_at : option Z;
  z_device_label : string;
  z_user_agent : string;
  z_source_ip : option string;
  z_recovery_restricted : bool;
}.

Inductive outcome := SUCCESS | FAILURE | DENIED | UNAVAILABLE.
#[export] Instance outcome_eq_dec : EqDecision outcome.
Proof. solve_decision. Defined.

Record security_event := AdministratorSecurityEvent {
  e_id : Z;
  e_profile : option Z;
  e_user : option Z;
  e_action : string;
  e_outcome : outcome;
  e_target_type : string;
  e_target_id : string;
  e_details : json;
  e_source_ip : option string;
  e_session_id : option Z;
  e_created_at : Z;
}.

Abbreviation items := (list (string * json)).

(** [stored] is [django_session]; [cache] maps a key to its value and its expiry. *)
Record db := DB {
  users : gmap Z user;
  profiles : gmap Z profile;
  devices : gmap Z totp_device;
  codes : gmap Z recovery_code;
  sessions : gmap Z admin_session;
  events : list security_event;
  stored : gmap string items;
  cache : gmap string (Z * Z);
  clock : Z;
  next_id : Z;
}.

Definition set_users t d := DB t (profiles d) (devices d) (codes d) (sessions d) (events d) (stored d) (cache d) (clock d) (next_id d).
Definition set_profiles t d := DB (users d) t (devices d) (codes d) (sessions d) (events d) (stored d) (cache d) (clock d) (next_id d).
Definition set_devices t d := DB (users d) (profiles d) t (codes d) (sessions d) (events d) (stored d) (cache d) (clock d) (next_id d).
Definition set_codes t d := DB (users d) (profiles d) (devices d) t (sessions d) (events d) (stored d) (cache d) (clock d) (next_id d).
Definition set_sessions t d := DB (users d) (profiles d) (devices d) (codes d) t (events d) (stored d) (cache d) (clock d) (next_id d).
Definition set_events t d := DB (users d) (profiles d) (devices d) (codes d) (sessions d) t (stored d) (cache d) (clock d) (next_id d).
Definition set_stored t d := DB (users d) (profiles d) (devices d) (codes d) (sessions d) (events d) t (cache d) (clock d) (next_id d).
Definition set_cache t d := DB (users d) (profiles d) (devices d) (codes d) (sessions d) (events d) (stored d) t (clock d) (next_id d).
Definition set_next n d := DB (users d) (profiles d) (devices d) (codes d) (sessions d) (events d) (stored d) (cache d) (clock d) n.

(** ** One request *)

(** [request.session] *)
Record browser := Browser { s_key : option string; s_items : items }.

Record state := State { tables : db; session : browser }.
Definition M := ST state exn.

Definition lookup_tables {A : Type} (f : db -> A) : M A := gets (fun s => f (tables s)).
Abbreviation tables_now := (lookup_tables (fun d => d)).
Definition write (f : db -> db) : M () := modify (fun s => State (f (tables s)) (session s)).
Definition now : M Z := lookup_tables clock.
(** [uuid4()] *)
Definition fresh : M Z := fun s => (Ok (next_id (tables s)), State (set_next (next_id (tables s) + 1) (tables s)) (session s)).

(** [with transaction.atomic()]: a rollback brings the tables back, and neither the cache, which
    is another server, nor the identifiers that were drawn. *)
Definition undo (d d' : db) : db := set_next (next_id d') (set_cache (cache d') d).
Definition transaction {A : Type} (m : M A) : M A := fun s =>
  match m s with
  | (Ok a, s') => (Ok a, s')
  | (Err e, s') => (Err e, State (undo (tables s) (tables s')) (session s'))
  end.

(** ** The session framework *)

Inductive session_call :=
| Save
| CycleKey
| Flush
| SetExpiry
| Login (user : Z)
| Logout
| UpdateAuthHash (user : Z).

(** A call changes the session object and [django_session]; what it leaves under a key of
    the application was there before; [save] stores the object under its key; a login gives
    an object that nobody is logged in with a key that was not in use. *)
Class Sessions := {
  call_session : session_call -> browser -> gmap string items -> result exn (browser * gmap string items);
  load_session : gmap string items -> option string -> browser;
  call_keeps call b m b' m' key v : call_session call b m = Ok (b', m') -> key <> "_session_expiry" ->
    String.prefix "_auth_user_" key = false ->
    (dict_get key (s_items b') = Some v -> dict_get key (s_items b) = Some v) /\
    (forall k data, m' !! k = Some data -> dict_get key data = Some v ->
       dict_get key (s_items b) = Some v \/ m !! k = Some data);
  save_key b m b' m' : call_session Save b m = Ok (b', m') -> is_Some (s_key b') /\ s_items b' = s_items b;
  flush_items call b m b' m' : call_session call b m = Ok (b', m') -> call = Flush \/ call = Logout ->
    b' = Browser None [];
  load_stored m cookie key v : dict_get key (s_items (load_session m cookie)) = Some v ->
    exists k data, cookie = Some k /\ m !! k = Some data /\ dict_get key data = Some v;
}.

Definition call `{Sessions} (c : session_call) : M () := fun s =>
  match call_session c (session s) (stored (tables s)) with
  | Ok (b, m) => (Ok (), State (set_stored m (tables s)) b)
  | Err e => (Err e, s)
  end.

Definition session_item (key : string) (s : state) : option json := dict_get key (s_items (session s)).
(** [request.session[key] = v] and [request.session.pop(key, None)] *)
Definition set_item (key : string) (v : json) : M () :=
  modify (fun s => State (tables s) (Browser (s_key (session s)) (dict_set key v (s_items (session s))))).
Definition pop_item (key : string) : M () :=
  modify (fun s => State (tables s)
    (Browser (s_key (session s)) (List.filter (fun kv => negb (String.eqb kv.1 key)) (s_items (session s))))).

(** [Session.objects.filter(session_key__in=keys).delete()] *)
Definition delete_stored (keys : list string) : M () :=
  write (fun d => set_stored (filter (fun kv => kv.1 ∉ keys) (stored d)) d).

(** ** Rows by condition *)

Section rows.
Context {V : Type}.
Definition rows_where (f : V -> bool) (m : gmap Z V) : list (Z * V) := List.filter (fun kv => f kv.2) (map_to_list m).
(** [.filter(...).update(...)] *)
Definition update_where (f : V -> bool) (g : V -> V) (m : gmap Z V) : gmap Z V :=
  (fun v => if f v then g v else v) <$> m.
Definition any_row (f : V -> bool) (m : gmap Z V) : bool := existsb (fun kv => f kv.2) (map_to_list m).
End rows.

(** ** [source_ip] *)

(** [ipaddress.ip_address(value).compressed] *)
Class Addresses := { ip_address : string -> option string }.

Record http_request := Request {
  REMOTE_ADDR : option string;
  HTTP_X_FORWARDED_FOR : option string;
  HTTP_USER_AGENT : option string;
}.

Section address.
Context `{Addresses} (trusted_proxies : gset string).
Definition normalized_ip (value : option string) : option string :=
  match value with
  | Some s =>
      if String.eqb s "" || negb (String.eqb s (strip s)) || has_char 44 s then None else ip_address s
  | None => None
  end.
Definition source_ip (request : http_request) : option string :=
  match normalized_ip (REMOTE_ADDR request) with
  | None => None
  | Some peer => if bool_decide (peer ∈ trusted_proxies) then normalized_ip (HTTP_X_FORWARDED_FOR request) else Some peer
  end.
End address.

(** ** Settings (backend/civicloop/settings.py) *)

Definition SECOND : Z := 1000000.
Definition ADMIN_PREAUTH_SECONDS : Z := 5 * 60.
Definition ADMIN_IDLE_SECONDS : Z := 30 * 60.
Definition ADMIN_ABSOLUTE_SECONDS : Z := 12 * 60 * 60.
Definition ADMIN_FRESH_SECONDS : Z := 10 * 60.
Definition ADMIN_ACTIVITY_UPDATE_SECONDS : Z := 60.

End IdentityRows.
