(* ===== verification/RateLimits.v ===== *)
(** * Attempt counters (backend/identity/rate_limits.py, backend/integrations/rate_limits.py)

    A counter lives in Django's cache under a digest of who is counted.  The cache is a
    service: the class [Cache] states what [add], [incr], [get], [set] and [delete] do to an
    entry that is there and not expired; any of them may fail. *)

From S2P Require Import Prelude PyValue Sha256 ToolSchemas DraftRows IdentityRows.

Module RateLimits.
Import IdentityRows.

Abbreviation entries := (gmap string (Z * Z)).

(** The entry of a key, when it has not expired. *)
Definition live (m : entries) (now : Z) (key : string) : option (Z * Z) :=
  match m !! key with Some (v, e) => if now <? e then Some (v, e) else None | None => None end.

(** Each operation fails ([None]) or returns its result and the entries. *)
Class Cache := {
  cache_add : string -> Z -> Z -> Z -> entries -> option (bool * entries);
  cache_incr : string -> Z -> entries -> option (Z * entries);
  cache_get : string -> Z -> entries -> option (option Z);
  cache_set : string -> Z -> Z -> Z -> entries -> option entries;
  cache_delete : string -> entries -> option entries;
  add_law key v timeout now m b m' : cache_add key v timeout now m = Some (b, m') ->
    (b = true /\ live m now key = None /\ m' = <[key := (v, now + timeout * SECOND)]> m) \/
    (b = false /\ is_Some (live m now key) /\ m' = m);
  incr_law key now m n m' : cache_incr key now m = Some (n, m') ->
    exists v e, live m now key = Some (v, e) /\ n = v + 1 /\ m' = <[key := (v + 1, e)]> m;
  get_law key now m v : cache_get key now m = Some v -> v = fst <$> live m now key;
  set_law key v timeout now m m' : cache_set key v timeout now m = Some m' ->
    m' = <[key := (v, now + timeout * SECOND)]> m;
  delete_law key m m' : cache_delete key m = Some m' -> m' = delete key m;
}.

(** [hmac.new(SECRET_KEY, label + "\0" + "\0".join(values), sha256).hexdigest()] *)
Definition scope_digest (secret_key label : string) (values : list string) : string :=
  Sha256.hex (Sha256.hmac (Sha256.bytes_of_string secret_key)
    (Sha256.bytes_of_string (label +:+ char_string (chr 0) +:+ join (char_string (chr 0)) values))).

Section cache.
Context `{Cache}.

(** [added = cache.add(key, 1, timeout); 1 if added else cache.incr(key)] *)
Definition count_attempt (key : string) (window now : Z) (m : entries) : option (Z * entries) :=
  match cache_add key 1 window now m with
  | None => None
  | Some (true, m) => Some (1, m)
  | Some (false, m) => cache_incr key now m
  end.

(** ** identity/rate_limits.py *)

Definition PASSWORD_LIMIT : Z := 5.
Definition PASSWORD_WINDOW_SECONDS : Z := 5 * 60.
Definition RECOVERY_LIMIT : Z := 5.
Definition RECOVERY_WINDOW_SECONDS : Z := 15 * 60.

Section identity.
Context (secret_key : string).

Definition scope_key (kind : string) (values : list string) : string :=
  "civicloop:identity:rate:" +:+ kind +:+ ":" +:+ scope_digest secret_key "civicloop.identity.rate.v1" values.

Definition check_limit (key : string) (maximum window : Z) : M string :=
  d ← tables_now;
  match count_attempt key window (clock d) (cache d) with
  | None => raise IdentityUnavailable
  | Some (n, m) =>
      _ ← write (set_cache m);
      _ ← fail_if (maximum <? n) (IdentityRateLimited window);
      mret key
  end.

Definition check_password_limit (normalized_owner : string) (source_ip : option string) : M string :=
  check_limit (scope_key "password" [strip (lower normalized_owner); default "unknown" source_ip])
    PASSWORD_LIMIT PASSWORD_WINDOW_SECONDS.
Definition check_recovery_limit (owner_id : Z) (source_ip : option string) : M string :=
  check_limit (scope_key "recovery" [ToolSchemas.uuid_text owner_id; default "unknown" source_ip])
    RECOVERY_LIMIT RECOVERY_WINDOW_SECONDS.
Definition record_limit_success (key : string) : M () :=
  d ← tables_now;
  match cache_delete key (cache d) with
  | None => raise IdentityUnavailable
  | Some m => write (set_cache m)
  end.
End identity.

(** ** integrations/rate_limits.py *)

Inductive limit_error := IntegrationRateLimited (retry_after_seconds : Z) (newly_limited : bool) | IntegrationRateLimitUnavailable.
Inductive integration_action := CREDENTIAL | CONFIGURATION | TEST | DISABLE.
Definition action_text (a : integration_action) : string :=
  match a with CREDENTIAL => "credential" | CONFIGURATION => "configuration" | TEST => "test" | DISABLE => "disable" end.
Record rate_limit := RateLimit { maximum : Z; window_seconds : Z }.
Definition LIMITS (a : integration_action) : rate_limit :=
  match a with
  | CREDENTIAL => RateLimit 5 (5 * 60)
  | CONFIGURATION => RateLimit 20 60
  | TEST => RateLimit 10 60
  | DISABLE => RateLimit 5 (5 * 60)
  end.

Section integrations.
Context (secret_key : string).
Definition integration_scope (a : integration_action) (owner_id : Z) (provider : string) (source_ip : option string) : string :=
  "civicloop:integrations:rate:" +:+ action_text a +:+ ":"
  +:+ scope_digest secret_key "civicloop.integrations.rate.v1"
        [ToolSchemas.uuid_text owner_id; provider; default "unknown" source_ip].

Definition or_unavailable {A : Type} (o : option A) : ST entries limit_error A := some_or o IntegrationRateLimitUnavailable.
(** An operation of the cache as a step of its state. *)
Definition on_cache {A : Type} (f : entries -> option (A * entries)) : ST entries limit_error A := fun m =>
  match f m with Some (a, m') => (Ok a, m') | None => (Err IntegrationRateLimitUnavailable, m) end.

Definition check_integration_limit (a : integration_action) (owner_id : Z) (provider : string)
    (source_ip : option string) (now : Z) : ST entries limit_error string :=
  let limit := LIMITS a in
  let base := integration_scope a owner_id provider source_ip in
  let counter := base +:+ ":count" in
  let blocked := base +:+ ":blocked" in
  m ← get;
  b ← or_unavailable (cache_get blocked now m);
  _ ← fail_if (bool_decide (is_Some b)) (IntegrationRateLimited (window_seconds limit) false);
  n ← on_cache (count_attempt counter (window_seconds limit) now);
  if maximum limit <? n then
    _ ← on_cache (fun m => m' ← cache_set counter (maximum limit + 1) (window_seconds limit) now m; Some ((), m'));
    newly ← on_cache (cache_add blocked (window_seconds limit) (window_seconds limit) now);
    raise (IntegrationRateLimited (window_seconds limit) newly)
  else mret base.
End integrations.

End cache.
End RateLimits.
