(* ===== verification/SecurityEvents.v ===== *)
(** * The security log of the owner (backend/identity/services/security.py)

    What an event may record, how it is appended, and the pages it is read in.  Signing of
    cursors and [parse_datetime] are Django's: the class [Cursors] states what is relied on. *)

From stdpp Require Import sorting.
From S2P Require Import Prelude PyValue ToolSchemas Uuid DraftRows IdentityRows.

Module SecurityEvents.
Import IdentityRows.

(** ** Details *)

Definition SENSITIVE_DETAIL_KEYS : list string :=
  ["authorization"; "ciphertext"; "cookie"; "encrypted_seed"; "key_id"; "manual_secret"; "otp"; "password";
   "recovery_code"; "recovery_codes"; "secret"; "seed"; "session_key"; "token"; "totp"; "totp_token"; "user_agent"].
Definition ACTION_PATTERN : string -> bool :=
  fullmatch_chars (fun c => is_lower c || is_digit c || ToolSchemas.one_of "_.-" c) 1 100.
Definition DETAIL_KEY_PATTERN : string -> bool :=
  fullmatch_chars (fun c => is_alnum c || ToolSchemas.one_of "_.-" c) 1 64.
Definition MAX_DETAIL_DEPTH : Z := 3.
Definition MAX_DETAIL_ITEMS : Z := 50.
Definition MAX_DETAIL_STRING_LENGTH : Z := 256.
Definition MAX_SERIALIZED_DETAIL_BYTES : Z := 4096.

Definition invalid_details : exn := IdentityError "Security event details are invalid.".

(** [key.casefold().replace("-", "_").replace(".", "_")] *)
Definition normalized_key (key : string) : string :=
  replace_char "." "_" (replace_char "-" "_" (lower key)).
Definition key_allowed (key : string) : bool :=
  DETAIL_KEY_PATTERN key && negb (bool_decide (normalized_key key ∈ SENSITIVE_DETAIL_KEYS)).

(** [_sanitize_detail]: the value and the shared counter. *)
Fixpoint sanitize_detail (v : json) (depth count : Z) : result exn (json * Z) :=
  let count := count + 1 in
  if (MAX_DETAIL_ITEMS <? count) || (MAX_DETAIL_DEPTH <? depth) then Err invalid_details
  else
    match v with
    | JNull | JBool _ | JInt _ => Ok (v, count)
    | JStr s => if MAX_DETAIL_STRING_LENGTH <? slen s then Err invalid_details else Ok (v, count)
    | JList l =>
        (fix each (l : list json) (done : list json) (count : Z) : result exn (json * Z) :=
           match l with
           | [] => Ok (JList done, count)
           | x :: l' =>
               match sanitize_detail x (depth + 1) count with
               | Ok (y, count) => each l' (done ++ [y]) count
               | Err e => Err e
               end
           end) l [] count
    | JDict d =>
        (fix each (d : list (string * json)) (done : list (string * json)) (count : Z) : result exn (json * Z) :=
           match d with
           | [] => Ok (JDict done, count)
           | (key, x) :: d' =>
               if negb (key_allowed key) then Err invalid_details
               else
                 match sanitize_detail x (depth + 1) count with
                 | Ok (y, count) => each d' (dict_set key y done) count
                 | Err e => Err e
                 end
           end) d [] count
    | JFloat _ => Err invalid_details
    end.

Definition safe_details (details : json) : result exn json :=
  v ← sanitize_detail (py_or details (JDict [])) 0 0;
  let '(sanitized, _) := v in
  match sanitized with
  | JDict _ =>
      if MAX_SERIALIZED_DETAIL_BYTES <? slen (json_dumps true false sanitized) then Err invalid_details else Ok sanitized
  | _ => Err invalid_details
  end.

(** ** [record_security_event] *)

(** [owner]: the profile and its user. *)
Definition record_security_event (action : string) (outcome : outcome) (owner : option (Z * profile))
    (source_ip : option string) (session_id : option Z) (target_type target_id : string) (details : json) : M Z :=
  _ ← fail_if (negb (ACTION_PATTERN action)) (IdentityError "Security event action is invalid.");
  _ ← fail_if ((64 <? slen target_type) || (100 <? slen target_id)) (IdentityError "Security event target is invalid.");
  details ← lift (safe_details details);
  id ← fresh;
  d ← tables_now;
  _ ← write (set_events (events d ++ [AdministratorSecurityEvent id (fst <$> owner)
        (Rows.a_user ∘ snd <$> owner) action outcome target_type target_id details source_ip session_id (clock d)]));
  mret id.

(** ** Pages *)

(** [datetime.max], in microseconds since 1970. *)
Definition MAX_DATETIME : Z := 253402300799999999.

Class Cursors := {
  isoformat : Z -> string;
  (** The instant, and whether the text names an offset; [None] also for a ValueError. *)
  parse_datetime : string -> option (Z * bool);
  signing_dumps : string -> json -> string;
  signing_loads : string -> string -> option json;
  parse_isoformat t : 0 <= t <= MAX_DATETIME -> parse_datetime (isoformat t) = Some (t, true);
  loads_dumps salt a b : signing_loads salt (signing_dumps salt (JList [JStr a; JStr b])) = Some (JList [JStr a; JStr b]);
}.
Definition CURSOR_SALT : string := "civicloop.identity.security-events.v1".

Section cursors.
Context `{Cursors}.

Definition encode_cursor (salt : string) (e : security_event) : string :=
  signing_dumps salt (JList [JStr (isoformat (e_created_at e)); JStr (ToolSchemas.uuid_text (e_id e))]).

Definition cursor_invalid : exn := IdentityError "Security event cursor is invalid.".
Definition decode_cursor (cursor : string) : result exn (Z * Z) :=
  match signing_loads CURSOR_SALT cursor with
  | Some (JList [created_at; event_id]) =>
      match match created_at with JStr s => parse_datetime s | _ => None end,
            match event_id with JStr s => Uuid.parse s | _ => None end with
      | Some (t, true), Some id => Ok (t, id)
      | _, _ => Err cursor_invalid
      end
  | _ => Err cursor_invalid
  end.

(** [order_by("-created_at", "-id")] *)
Definition newer (e e' : security_event) : Prop :=
  e_created_at e' < e_created_at e \/ (e_created_at e' = e_created_at e /\ e_id e' <= e_id e).
#[export] Instance newer_dec e e' : Decision (newer e e').
Proof. unfold newer. apply _. Defined.
Definition newest_first (l : list security_event) : list security_event := merge_sort newer l.

(** [Q(created_at__lt=t) | Q(created_at=t, id__lt=id)] *)
Definition before (t id : Z) (e : security_event) : bool :=
  (e_created_at e <? t) || ((e_created_at e =? t) && (e_id e <? id)).

Record security_event_page := SecurityEventPage { page_events : list security_event; next_cursor : option string }.

Definition owned_by (owner : Z) (e : security_event) : bool := bool_decide (e_profile e = Some owner).

(** A page of the rows of a query, newest first. *)
Definition page_of (salt : string) (limit : Z) (rows : list security_event) : security_event_page :=
  let n := Z.to_nat limit in
  let rows := take (S n) (newest_first rows) in
  let page := take n rows in
  SecurityEventPage page
    (if (n <? length rows)%nat then match last page with Some e => Some (encode_cursor salt e) | None => None end else None).

Definition list_security_events (owner : Z) (cursor : option string) (limit : Z) : M security_event_page :=
  _ ← fail_if (negb ((1 <=? limit) && (limit <=? 100))) (IdentityError "Security event page size is invalid.");
  d ← tables_now;
  let query := List.filter (owned_by owner) (events d) in
  match cursor with
  | None => mret (page_of CURSOR_SALT limit query)
  | Some cursor =>
      at_ ← lift (decode_cursor cursor);
      mret (page_of CURSOR_SALT limit (List.filter (before at_.1 at_.2) query))
  end.

End cursors.
End SecurityEvents.
