(* ===== verification/KeyRing.v ===== *)
(** * Key rings and the encryption of authenticator seeds (backend/identity/crypto.py, and the
    loading half of backend/integrations/crypto.py, which is the same code)

    [load_key_ring] is given the bytes of the key file, [None] when it cannot be read or its
    permissions are unsafe.  AES-GCM is the class [Crypto.AESGCM]. *)

From S2P Require Import Prelude PyValue Sha256 Base64 JsonText ToolSchemas DraftProvider EventbriteDrafts Crypto DraftRows IdentityRows.

Module KeyRing.
Import IdentityRows.

Definition MAX_KEY_RING_BYTES : Z := 64 * 1024.
Definition MAX_KEYS : Z := 16.
Definition KEY_RING_FIELDS : list string := ["active_key_id"; "keys"].

(** What the handler catches, and what it does not. *)
Inductive ring_failure := Refused | Escaped (e : JsonText.loads_error).

Definition decode_base64url (value : string) : option (list Z) :=
  if String.eqb value "" || has_char 61 value then None else Base64.decode value.
(** [urlsafe_b64encode(value).rstrip(b"=")] *)
Definition encode_base64url (l : list Z) : string := Base64.encode l.

Definition read_entry (kv : string * json) : result ring_failure (string * list Z) :=
  match kv.2 with
  | JStr encoded =>
      if negb (Crypto.KEY_ID_PATTERN kv.1) then Err Refused
      else
        match decode_base64url encoded with
        | Some key => if (length key =? 32)%nat then Ok (kv.1, key) else Err Refused
        | None => Err Refused
        end
  | _ => Err Refused
  end.

(** [json.loads(raw, object_pairs_hook=_reject_duplicate_keys)] *)
Definition read_json (recursion : nat) (raw : list Z) : result ring_failure json :=
  if negb (forallb (fun b => (0 <? b) && (b <=? 127)) raw) then Err (Escaped JsonText.NonAsciiText)
  else
    match JsonText.loads_unique recursion (JsonText.string_of_bytes raw) with
    | Ok v => Ok v
    | Err JsonText.RecursionError => Err (Escaped JsonText.RecursionError)
    | Err JsonText.OutOfFuel => Err (Escaped JsonText.OutOfFuel)
    | Err _ => Err Refused
    end.

Definition load_key_ring (recursion : nat) (raw : option (list Z)) : result ring_failure Crypto.IntegrationKeyRing :=
  match raw with
  | None => Err Refused
  | Some raw =>
      _ ← raise_if (MAX_KEY_RING_BYTES <? Z.of_nat (length raw)) Refused;
      parsed ← read_json recursion raw;
      match parsed with
      | JDict d =>
          _ ← raise_if (negb (EventbriteDrafts.has_keys d KEY_RING_FIELDS)) Refused;
          match get_or_none d "active_key_id", get_or_none d "keys" with
          | JStr active, JDict raw_keys =>
              _ ← raise_if (negb (Crypto.KEY_ID_PATTERN active)
                            || negb ((1 <=? Z.of_nat (length raw_keys)) && (Z.of_nat (length raw_keys) <=? MAX_KEYS))
                            || negb (dict_mem active raw_keys)) Refused;
              entries ← traverse read_entry raw_keys;
              Ok (Crypto.KeyRing active (list_to_map entries))
          | _, _ => Err Refused
          end
      | _ => Err Refused
      end
  end.

(** ** Authenticator seeds *)

Definition MAX_TOTP_SEED_BYTES : Z := 128.
Definition ENVELOPE_FIELDS : list string := ["version"; "algorithm"; "key_id"; "nonce"; "ciphertext"].

Definition nul : string := char_string (chr 0).
Definition totp_aad (owner_id device_id : Z) : list Z :=
  Sha256.bytes_of_string ("civicloop.identity.totp-seed.v1" +:+ nul +:+ ToolSchemas.uuid_text owner_id
    +:+ nul +:+ ToolSchemas.uuid_text device_id).

Section aead.
Context `{Crypto.AESGCM} (ring : option Crypto.IntegrationKeyRing).

(** [random] is [secrets.token_bytes(12)]. *)
Definition encrypt_totp_seed (random seed : list Z) (owner_id device_id : Z) : result exn json :=
  let size := Z.of_nat (length seed) in
  if negb ((1 <=? size) && (size <=? MAX_TOTP_SEED_BYTES)) then Err IdentityCryptoError
  else
    match ring with
    | None => Err IdentityCryptoError
    | Some ring =>
        match Crypto.keys ring !! Crypto.active_key_id ring with
        | None => Err IdentityCryptoError
        | Some key =>
            Ok (JDict [("version", JInt 1); ("algorithm", JStr "AES-256-GCM"); ("key_id", JStr (Crypto.active_key_id ring));
                       ("nonce", JStr (encode_base64url random));
                       ("ciphertext", JStr (encode_base64url (Crypto.seal key random seed (totp_aad owner_id device_id))))])
        end
    end.

Definition decrypt_totp_seed (envelope : json) (owner_id device_id : Z) : result exn (list Z) :=
  match envelope with
  | JDict d =>
      if negb (EventbriteDrafts.has_keys d ENVELOPE_FIELDS)
         || negb (py_eq (get_or_none d "version") (JInt 1)) || negb (py_eq (get_or_none d "algorithm") (JStr "AES-256-GCM"))
      then Err IdentityCryptoError
      else
        match get_or_none d "key_id", get_or_none d "nonce", get_or_none d "ciphertext", ring with
        | JStr key_id, JStr nonce, JStr ciphertext, Some ring =>
            match Crypto.keys ring !! key_id, decode_base64url nonce, decode_base64url ciphertext with
            | Some key, Some nonce, Some ciphertext =>
                if negb (length nonce =? 12)%nat || (length ciphertext <? 17)%nat then Err IdentityCryptoError
                else
                  match Crypto.open key nonce ciphertext (totp_aad owner_id device_id) with
                  | Some seed => Ok seed
                  | None => Err IdentityCryptoError
                  end
            | _, _, _ => Err IdentityCryptoError
            end
        | _, _, _, _ => Err IdentityCryptoError
        end
  | _ => Err IdentityCryptoError
  end.

End aead.
End KeyRing.
