(* ===== verification/Credentials.v ===== *)
(** * Authenticators, recovery codes and the owner's account (backend/identity/services/credentials.py)

    Password hashing and validation are Django's and the one-time password generator is
    django-otp's: the classes [Passwords] and [OneTimePasswords] state what is relied on.
    Random choices are arguments. *)

From S2P Require Import Prelude PyValue JsonText ToolSchemas DraftProvider Crypto KeyRing DraftRows IdentityRows SecurityEvents.

Module Credentials.
Import IdentityRows SecurityEvents.

(** ** What the libraries do *)

(** [TOTP(seed, step, 0, digits, drift)] with its time set to the instant: [verify(token,
    tolerance, min_t)] and then [t()] and [drift].  A verified counter is no less than
    [min_t], and is the one of the instant, off by the drift. *)
Class OneTimePasswords := {
  totp_verify (seed : list Z) (step digits drift instant token tolerance min_t : Z) : option (Z * Z);
  totp_minimum seed step digits drift instant token tolerance min_t t drift' :
    totp_verify seed step digits drift instant token tolerance min_t = Some (t, drift') -> min_t <= t;
  totp_counter seed step digits drift instant token tolerance min_t t drift' :
    totp_verify seed step digits drift instant token tolerance min_t = Some (t, drift') ->
    t = instant / SECOND / step + drift' /\ drift - tolerance <= drift' <= drift + tolerance;
}.

Class Passwords := {
  check_password : string -> string -> bool;
  make_password : string -> string -> string;
  authenticate : gmap Z user -> string -> string -> option Z;
  password_errors : string -> user -> list string;
  user_errors : gmap Z user -> user -> list string;
  normalize_username : string -> string;
  normalize_email : string -> string;
  check_make salt p : check_password p (make_password salt p) = true;
  authenticate_law us name p u : authenticate us name p = Some u ->
    exists row, us !! u = Some row /\ u_is_active row = true /\ check_password p (u_password row) = true;
}.

Definition verification_failed : exn := IdentityError "Verification failed.".

(** ** Texts *)

Definition RECOVERY_ALPHABET : string := "ABCDEFGHIJKLMNOPQRSTUVWXYZ234567".
Definition base32_char (n : Z) : ascii := if n <? 26 then chr (65 + n) else chr (24 + n).

(** [base64.b32encode(value).rstrip(b"=")]: five bits at a time, the last filled with zeros. *)
Fixpoint base32_bits (bits n : Z) (l : list Z) : string :=
  match l with
  | [] => if n =? 0 then "" else String (base32_char (Z.shiftl bits (5 - n))) ""
  | b :: l' =>
      let bits := bits * 256 + b in
      let n := n + 8 in
      if 10 <=? n then
        String (base32_char (Z.shiftr bits (n - 5)))
          (String (base32_char (Z.shiftr bits (n - 10) mod 32)) (base32_bits (bits mod 2 ^ (n - 10)) (n - 10) l'))
      else String (base32_char (Z.shiftr bits (n - 5))) (base32_bits (bits mod 2 ^ (n - 5)) (n - 5) l')
  end.
Definition base32 (l : list Z) : string := base32_bits 0 0 l.

(** [quote(s, safe="")] and [urlencode] *)
Definition upper_char (c : ascii) : ascii := if is_lower c then chr (ascii_code c - 32) else c.
Definition upper (s : string) : string := string_map upper_char s.
Definition quote_char (c : ascii) : string :=
  if is_alnum c || ToolSchemas.one_of "_.-~" c then char_string c
  else "%" +:+ upper (hex2 (ascii_code c)).
Definition quote (s : string) : string := flat_string quote_char s.
Definition quote_plus (s : string) : string :=
  flat_string (fun c => if is_char 32 c then "+" else quote_char c) s.
Definition urlencode (l : list (string * string)) : string :=
  join "&" (map (fun kv => quote_plus kv.1 +:+ "=" +:+ quote_plus kv.2) l).

(** ** Authenticators *)

Record TOTPEnrollment := Enrollment { device : Z; otpauth_uri : string; manual_secret : string }.

Definition disable_device (t : Z) (v : totp_device) : totp_device :=
  AdministratorTOTPDevice (v_user v) (v_profile v) (v_name v) (v_confirmed v) (v_seed_envelope v) (v_drift v) (v_last_t v)
    (v_failures v) (v_failed_at v) (v_created_at v) (v_confirmed_at v) (v_last_used_at v) (v_replaced_at v) (Some t).
Definition reset_device (t : Z) (v : totp_device) : totp_device :=
  AdministratorTOTPDevice (v_user v) (v_profile v) (v_name v) false (v_seed_envelope v) (v_drift v) (v_last_t v)
    (v_failures v) (v_failed_at v) (v_created_at v) (v_confirmed_at v) (v_last_used_at v) (v_replaced_at v) (Some t).
Definition replace_device (t : Z) (v : totp_device) : totp_device :=
  AdministratorTOTPDevice (v_user v) (v_profile v) (v_name v) false (v_seed_envelope v) (v_drift v) (v_last_t v)
    (v_failures v) (v_failed_at v) (v_created_at v) (v_confirmed_at v) (v_last_used_at v) (Some t) (Some t).
Definition confirm_device (t : Z) (v : totp_device) : totp_device :=
  AdministratorTOTPDevice (v_user v) (v_profile v) (v_name v) true (v_seed_envelope v) (v_drift v) (v_last_t v)
    (v_failures v) (v_failed_at v) (v_created_at v) (Some t) (v_last_used_at v) (v_replaced_at v) (v_disabled_at v).
Definition fail_device (t : Z) (v : totp_device) : totp_device :=
  AdministratorTOTPDevice (v_user v) (v_profile v) (v_name v) (v_confirmed v) (v_seed_envelope v) (v_drift v) (v_last_t v)
    (v_failures v + 1) (Some t) (v_created_at v) (v_confirmed_at v) (v_last_used_at v) (v_replaced_at v) (v_disabled_at v).
Definition use_device (counter drift t : Z) (v : totp_device) : totp_device :=
  AdministratorTOTPDevice (v_user v) (v_profile v) (v_name v) (v_confirmed v) (v_seed_envelope v) drift counter
    0 None (v_created_at v) (v_confirmed_at v) (Some t) (v_replaced_at v) (v_disabled_at v).

Definition throttle_delay (failures : Z) : Z := 2 ^ (failures - 1) * SECOND.
Definition throttle_allows (v : totp_device) (now : Z) : result exn bool :=
  match v_failed_at v with
  | Some t =>
      if v_failures v =? 0 then Ok true
      else if MAX_DATETIME <? t + throttle_delay (v_failures v) then Err (Py OverflowError)
      else Ok (t + throttle_delay (v_failures v) <=? now)
  | None => Ok true
  end.

Definition put_device (id : Z) (v : totp_device) : M () := write (fun d => set_devices (<[id := v]> (devices d)) d).
Definition get_device (id : Z) : M totp_device :=
  d ← tables_now; some_or (devices d !! id) (DoesNotExist "AdministratorTOTPDevice").

Section credentials.
Context `{Crypto.AESGCM} `{OneTimePasswords} `{Passwords} (ring : option Crypto.IntegrationKeyRing).

(** [nonce] and [seed] are the random bytes of the envelope and of the secret. *)
Definition begin_totp_enrollment (p : Z * profile) (label : string) (at_ : Z) (nonce seed : list Z) : M TOTPEnrollment :=
  transaction (
    let normalized_label := strip label in
    _ ← fail_if (negb ((1 <=? slen normalized_label) && (slen normalized_label <=? 64)))
          (IdentityError "Authenticator label is invalid.");
    _ ← write (fun d => set_devices (update_where
          (fun v => (v_profile v =? p.1) && negb (v_confirmed v) && Rows.isnull (v_disabled_at v)) (disable_device at_) (devices d)) d);
    device_id ← fresh;
    let manual_secret := base32 seed in
    envelope ← lift (KeyRing.encrypt_totp_seed ring nonce seed p.1 device_id);
    d ← tables_now;
    u ← some_or (users d !! Rows.a_user p.2) (DoesNotExist "User");
    _ ← put_device device_id (AdministratorTOTPDevice (Rows.a_user p.2) p.1 normalized_label false envelope 0 (-1) 0 None
          (clock d) None None None None);
    let query := urlencode [("secret", manual_secret); ("issuer", "CivicLoop"); ("algorithm", "SHA1"); ("digits", "6");
                            ("period", "30")] in
    mret (Enrollment device_id ("otpauth://totp/" +:+ quote ("CivicLoop:" +:+ u_username u) +:+ "?" +:+ query) manual_secret)).

(** [re.fullmatch(r"[0-9]{6}", token)] *)
Definition is_code (token : string) : bool := fullmatch_chars is_digit 6 6 token.

Definition verify_code (v : totp_device) (id : Z) (token : string) (at_ : Z) : result exn (option (Z * Z)) :=
  if is_code token then
    seed ← KeyRing.decrypt_totp_seed ring (v_seed_envelope v) (v_profile v) id;
    Ok (totp_verify seed STEP DIGITS (v_drift v) at_ (JsonText.digits_value 0 token) 1 (v_last_t v + 1))
  else Ok None.

(** [_verify_totp_transaction] *)
Definition verify_totp_transaction (id : Z) (token : string) (at_ : Z) (allow_unconfirmed : bool) : M bool :=
  transaction (
    v ← get_device id;
    if negb (Rows.isnull (v_disabled_at v)) || negb (Rows.isnull (v_replaced_at v)) || (negb (v_confirmed v) && negb allow_unconfirmed)
    then mret false
    else
      allowed ← lift (throttle_allows v at_);
      if negb allowed then mret false
      else
        verified ← lift (verify_code v id token at_);
        match verified with
        | None => _ ← put_device id (fail_device at_ v); mret false
        | Some (counter, drift) => _ ← put_device id (use_device counter drift at_ v); mret true
        end).

Definition verify_totp (id : Z) (token : string) (at_ : Z) (allow_unconfirmed : bool) : M () :=
  verified ← verify_totp_transaction id token at_ allow_unconfirmed;
  fail_if (negb verified) verification_failed.

(** ** Recovery codes *)

Definition consume_code (t : Z) (y : recovery_code) : recovery_code :=
  RecoveryCode (y_profile y) (y_batch y) (y_public_id y) (y_encoded_secret y) (Some t) (y_invalidated_at y).
Definition invalidate_code (t : Z) (y : recovery_code) : recovery_code :=
  RecoveryCode (y_profile y) (y_batch y) (y_public_id y) (y_encoded_secret y) (y_consumed_at y) (Some t).

Definition public_id_taken (d : db) (candidate : string) : bool :=
  any_row (fun y => String.eqb (y_public_id y) candidate) (codes d).

(** [_new_public_recovery_id]: the first of the candidates drawn that is free. *)
Fixpoint new_public_recovery_id (d : db) (reserved : list string) (draws : list string) : result exn string :=
  match draws with
  | [] => Err Exhausted
  | candidate :: draws =>
      if bool_decide (candidate ∈ reserved) || public_id_taken d candidate then new_public_recovery_id d reserved draws
      else Ok candidate
  end.

(** What is drawn for one code: candidates for its public part, its secret, the salt of its hash. *)
Record code_draw := CodeDraw { draws : list string; secret_bytes : list Z; salt : string }.

Definition BATCH_SIZE : nat := 10.

Definition create_code (y : recovery_code) : M () :=
  d ← tables_now;
  _ ← fail_if (public_id_taken d (y_public_id y)) (IntegrityError "RecoveryCode.public_id");
  id ← fresh;
  write (fun d => set_codes (<[id := y]> (codes d)) d).

Definition generate_recovery_batch (owner : Z) (at_ : Z) (draw : nat -> code_draw) : M (list string) :=
  transaction (
    _ ← write (fun d => set_codes (update_where
          (fun y => (y_profile y =? owner) && Rows.isnull (y_consumed_at y) && Rows.isnull (y_invalidated_at y))
          (invalidate_code at_) (codes d)) d);
    batch_id ← fresh;
    made ← fold_each [] (seq 0 BATCH_SIZE) (fun made i =>
      d ← tables_now;
      public_id ← lift (new_public_recovery_id d (map (y_public_id ∘ snd) made) (draws (draw i)));
      let plaintext := public_id +:+ "-" +:+ base32 (secret_bytes (draw i)) in
      mret (made ++ [(plaintext, RecoveryCode owner batch_id public_id (make_password (salt (draw i)) plaintext) None None)]));
    _ ← for_each (map snd made) create_code;
    mret (map fst made)).

Definition base32_upper (c : ascii) : bool := is_upper c || in_range 50 55 c.
(** [RECOVERY_CODE_PATTERN]: the public part, when the text has the shape of a code. *)
Definition recovery_code_pattern (s : string) : option string :=
  let public_id := String.substring 0 8 s in
  if (slen s =? 35) && string_forallb base32_upper public_id && String.eqb (String.substring 8 1 s) "-"
     && string_forallb base32_upper (String.substring 9 26 s)
  then Some public_id else None.

(** A code that does not match is compared with a dummy hash, for its duration only. *)
Definition consume_recovery_code (owner : Z) (presented_code : string) (at_ : Z) : M Z :=
  transaction (
    let normalized := upper (strip presented_code) in
    public_id ← some_or (recovery_code_pattern normalized) verification_failed;
    d ← tables_now;
    row ← some_or (List.find (fun kv => (y_profile kv.2 =? owner) && String.eqb (y_public_id kv.2) public_id
                     && Rows.isnull (y_consumed_at kv.2) && Rows.isnull (y_invalidated_at kv.2)) (map_to_list (codes d)))
            verification_failed;
    let '(id, y) := row in
    _ ← fail_if (negb (check_password normalized (y_encoded_secret y))) verification_failed;
    _ ← write (fun d => set_codes (<[id := consume_code at_ y]> (codes d)) d);
    mret id).

(** ** The owner's account *)

Definition enabled_owner (d : db) : bool := any_row (fun p => negb (bool_decide (Rows.a_status p = Rows.DISABLED))) (profiles d).

(** [profile.save(update_fields=("status", ...))]: one enabled owner. *)
Definition save_status (owner : Z) (s : Rows.profile_status) : M () :=
  d ← tables_now;
  p ← some_or (profiles d !! owner) (DoesNotExist "AdministratorProfile");
  _ ← fail_if (negb (bool_decide (s = Rows.DISABLED)) &&
               existsb (fun kv => negb (kv.1 =? owner) && negb (bool_decide (Rows.a_status kv.2 = Rows.DISABLED)))
                 (map_to_list (profiles d))) (IntegrityError "identity_one_enabled_owner");
  write (fun d => set_profiles (<[owner := Rows.AdministratorProfile (Rows.a_user p) s]> (profiles d)) d).

(** [user.save()] of a new user and [AdministratorProfile.objects.create]. *)
Definition create_user (u : user) : M Z :=
  d ← tables_now;
  _ ← fail_if (any_row (fun v => String.eqb (u_username v) (u_username u)) (users d)) (IntegrityError "User.username");
  id ← fresh;
  _ ← write (fun d => set_users (<[id := u]> (users d)) d);
  mret id.
Definition create_profile (p : profile) : M Z :=
  d ← tables_now;
  _ ← fail_if (any_row (fun q => Rows.a_user q =? Rows.a_user p) (profiles d)) (IntegrityError "AdministratorProfile.user");
  _ ← fail_if (negb (bool_decide (Rows.a_status p = Rows.DISABLED)) && enabled_owner d) (IntegrityError "identity_one_enabled_owner");
  id ← fresh;
  _ ← write (fun d => set_profiles (<[id := p]> (profiles d)) d);
  mret id.

Definition owner_exists : exn := IdentityError "An enabled owner already exists.".
Definition or_owner_exists {A : Type} (m : M A) : M A :=
  Provider.catch m (fun e => match e with IntegrityError _ => raise owner_exists | _ => raise e end).

Definition bootstrap_owner (username email password salt : string) : M Z :=
  transaction (
    d ← tables_now;
    _ ← fail_if (enabled_owner d) owner_exists;
    let u := User (normalize_username (strip username)) (normalize_email (strip email)) "" true in
    let errors := match user_errors (users d) u with [] => password_errors password u | l => l end in
    _ ← fail_if (negb (bool_decide (errors = []))) (IdentityError (join " " errors));
    let u := User (u_username u) (u_email u) (make_password salt password) true in
    owner ← or_owner_exists (
      uid ← create_user u;
      let p := Rows.AdministratorProfile uid Rows.ENROLLMENT_REQUIRED in
      pid ← create_profile p;
      mret (pid, p));
    _ ← record_security_event "owner_bootstrapped" SUCCESS (Some owner) None None "administrator_profile"
          (ToolSchemas.uuid_text owner.1) (JDict [("method", JStr "interactive_management_command")]);
    mret owner.1).

Definition revoke_at (t : Z) (z : admin_session) : admin_session :=
  AdministratorSession (z_profile z) (z_session_key z) (z_authenticated_at z) (z_last_activity_at z) (z_mfa_verified_at z)
    (z_fresh_verified_at z) (z_absolute_expires_at z) (z_expires_at z) (Some t) (z_device_label z) (z_user_agent z)
    (z_source_ip z) (z_recovery_restricted z).

(** The sessions that a query selects are revoked and their rows of [django_session] deleted;
    the number of them. *)
Definition revoke_where (select : Z -> admin_session -> bool) (at_ : Z) : M Z :=
  d ← tables_now;
  let chosen := List.filter (fun kv => select kv.1 kv.2) (map_to_list (sessions d)) in
  _ ← write (fun d => set_sessions (map_imap (fun id z => Some (if select id z then revoke_at at_ z else z)) (sessions d)) d);
  _ ← delete_stored (map (fun kv => z_session_key kv.2) chosen);
  mret (Z.of_nat (length chosen)).
Definition live_of (owner : Z) (_ : Z) (z : admin_session) : bool := (z_profile z =? owner) && Rows.isnull (z_revoked_at z).

Definition count_where {V : Type} (f : V -> bool) (m : gmap Z V) : Z := Z.of_nat (length (rows_where f m)).

Definition reset_owner_mfa (p : Z * profile) (confirmed_username : string) : M () :=
  transaction (
    d ← tables_now;
    u ← some_or (users d !! Rows.a_user p.2) (DoesNotExist "User");
    _ ← fail_if (negb (String.eqb confirmed_username (u_username u)))
          (IdentityError "Confirmation did not match the owner username.");
    at_ ← now;
    revoked ← revoke_where (live_of p.1) at_;
    let open_device v := (v_profile v =? p.1) && Rows.isnull (v_disabled_at v) in
    let open_code y := (y_profile y =? p.1) && Rows.isnull (y_invalidated_at y) in
    _ ← write (fun d => set_devices (update_where open_device (reset_device at_) (devices d)) d);
    _ ← write (fun d => set_codes (update_where open_code (invalidate_code at_) (codes d)) d);
    _ ← save_status p.1 Rows.ENROLLMENT_REQUIRED;
    _ ← record_security_event "owner_mfa_reset" SUCCESS (Some p) None None "administrator_profile"
          (ToolSchemas.uuid_text p.1)
          (JDict [("method", JStr "interactive_management_command"); ("revoked_session_count", JInt revoked);
                  ("disabled_device_count", JInt (count_where open_device (devices d)));
                  ("invalidated_code_count", JInt (count_where open_code (codes d)))]);
    mret ()).

End credentials.
End Credentials.
