(* ===== verification/AdminSessions.v ===== *)
(** * The sessions of the owner (backend/identity/services/sessions.py, security_actions.py,
    middleware.py and the purge command)

    An administrator session is a row beside Django's session row: it is established after a
    verification, enforced on every request, rotated, made fresh and revoked. *)

From S2P Require Import Prelude PyValue ToolSchemas Uuid DraftProvider DraftRows IdentityRows RateLimits SecurityEvents Crypto KeyRing Credentials.

Module AdminSessions.
Import IdentityRows SecurityEvents Credentials.

Definition ADMIN_SESSION_KEY : string := "civicloop_admin_session_id".

(** A row and its key: the [metadata] that requests carry. *)
Abbreviation metadata := (Z * admin_session)%type.

Definition administrator_session_is_fresh (z : admin_session) (checked_at : Z) : bool :=
  match z_fresh_verified_at z with
  | Some t => (t <=? checked_at) && (checked_at <? t + ADMIN_FRESH_SECONDS * SECOND)
  | None => false
  end.

Definition browser_metadata (request : http_request) : string * string :=
  let agent := String.substring 0 512 (default "" (HTTP_USER_AGENT request)) in
  let label := strip (String.substring 0 160 agent) in
  (if String.eqb label "" then "Unknown browser" else label, agent).

(** ** Columns that are saved *)

Definition with_key (key : string) (z : admin_session) : admin_session :=
  AdministratorSession (z_profile z) key (z_authenticated_at z) (z_last_activity_at z) (z_mfa_verified_at z)
    (z_fresh_verified_at z) (z_absolute_expires_at z) (z_expires_at z) (z_revoked_at z) (z_device_label z) (z_user_agent z)
    (z_source_ip z) (z_recovery_restricted z).
Definition with_fresh (t : option Z) (z : admin_session) : admin_session :=
  AdministratorSession (z_profile z) (z_session_key z) (z_authenticated_at z) (z_last_activity_at z) (z_mfa_verified_at z)
    t (z_absolute_expires_at z) (z_expires_at z) (z_revoked_at z) (z_device_label z) (z_user_agent z)
    (z_source_ip z) (z_recovery_restricted z).
Definition with_activity (t expires : Z) (ip : option string) (z : admin_session) : admin_session :=
  AdministratorSession (z_profile z) (z_session_key z) (z_authenticated_at z) (Some t) (z_mfa_verified_at z)
    (z_fresh_verified_at z) (z_absolute_expires_at z) (Some expires) (z_revoked_at z) (z_device_label z) (z_user_agent z)
    ip (z_recovery_restricted z).
Definition unrestricted (t : Z) (z : admin_session) : admin_session :=
  AdministratorSession (z_profile z) (z_session_key z) (z_authenticated_at z) (z_last_activity_at z) (Some t)
    (z_fresh_verified_at z) (z_absolute_expires_at z) (z_expires_at z) (z_revoked_at z) (z_device_label z) (z_user_agent z)
    (z_source_ip z) false.

Definition get_session (id : Z) : M admin_session :=
  d ← tables_now; some_or (sessions d !! id) (DoesNotExist "AdministratorSession").
(** [save(update_fields=...)]: the columns that [f] sets. *)
Definition update_session (id : Z) (f : admin_session -> admin_session) : M () :=
  write (fun d => set_sessions (alter f id (sessions d)) d).
(** The session key is unique. *)
Definition key_taken (d : db) (id : Z) (key : string) : bool :=
  existsb (fun kv => negb (kv.1 =? id) && String.eqb (z_session_key kv.2) key) (map_to_list (sessions d)).
Definition check_key (id : Z) (key : option string) : M string :=
  key ← some_or key (IntegrityError "AdministratorSession.session_key");
  d ← tables_now;
  _ ← fail_if (key_taken d id key) (IntegrityError "AdministratorSession.session_key");
  mret key.
Definition session_key : M (option string) := gets (fun s => s_key (session s)).

Section sessions.
Context `{Sessions} `{Addresses} (trusted_proxies : gset string).
#[local] Abbreviation ip request := (source_ip trusted_proxies request).

Definition establish_administrator_session (request : http_request) (owner : Z) (mfa_verified_at : option Z)
    (recovery_restricted : bool) : M metadata :=
  transaction (
    key ← session_key;
    _ ← (if Rows.isnull key then call Save else mret ());
    let '(label, user_agent) := browser_metadata request in
    at_ ← now;
    let authenticated_at := default at_ mfa_verified_at in
    let absolute_expiry := authenticated_at + ADMIN_ABSOLUTE_SECONDS * SECOND in
    let idle_expiry := Z.min (authenticated_at + ADMIN_IDLE_SECONDS * SECOND) absolute_expiry in
    key ← session_key;
    id ← fresh;
    key ← check_key id key;
    let z := AdministratorSession owner key (Some authenticated_at) (Some authenticated_at) mfa_verified_at None
               (Some absolute_expiry) (Some idle_expiry) None label user_agent (ip request) recovery_restricted in
    _ ← write (fun d => set_sessions (<[id := z]> (sessions d)) d);
    _ ← set_item ADMIN_SESSION_KEY (JStr (ToolSchemas.uuid_text id));
    _ ← call SetExpiry;
    _ ← call Save;
    mret (id, z)).

(** The new key, which the row is given. *)
Definition rotate_administrator_session (id : Z) : M () :=
  transaction (
    _ ← get_session id;
    _ ← call CycleKey;
    _ ← set_item ADMIN_SESSION_KEY (JStr (ToolSchemas.uuid_text id));
    _ ← call SetExpiry;
    _ ← call Save;
    key ← session_key;
    key ← check_key id key;
    update_session id (with_key key)).

Definition invalidate_request_session (m : option metadata) (at_ : Z) : M () :=
  _ ← match m with
      | Some (id, z) =>
          if Rows.isnull (z_revoked_at z)
          then update_session id (fun z => if Rows.isnull (z_revoked_at z) then revoke_at at_ z else z)
          else mret ()
      | None => mret ()
      end;
  call Logout.

Definition expired (t : option Z) (now : Z) : bool := match t with Some t => t <=? now | None => true end.

(** The row that the session object names. *)
Definition named_session (owner : Z) (d : db) (item : option json) : option metadata :=
  match item with
  | Some (JStr text) =>
      id ← Uuid.parse text;
      z ← sessions d !! id;
      if z_profile z =? owner then Some (id, z) else None
  | _ => None
  end.

Definition session_invalid (m : option metadata) (key : option string) (checked_at : Z) (p : profile) : bool :=
  match m with
  | None => true
  | Some (_, z) =>
      negb (bool_decide (key = Some (z_session_key z))) || negb (Rows.isnull (z_revoked_at z))
      || expired (z_expires_at z) checked_at || expired (z_absolute_expires_at z) checked_at
      || bool_decide (Rows.a_status p = Rows.DISABLED)
  end.

Definition profile_of_user (d : db) (user : Z) : option (Z * profile) :=
  List.find (fun kv => Rows.a_user kv.2 =? user) (map_to_list (profiles d)).

(** [user] is [request.user] when it is authenticated. *)
Definition enforce_administrator_session (enabled : bool) (user : option Z) (request : http_request) : M (option metadata) :=
  if negb enabled then mret None
  else
    match user with
    | None => mret None
    | Some user =>
        d ← tables_now;
        match profile_of_user d user with
        | None => mret None
        | Some (owner, p) =>
            checked_at ← now;
            item ← gets (session_item ADMIN_SESSION_KEY);
            key ← session_key;
            let m := named_session owner d item in
            if session_invalid m key checked_at p then
              _ ← invalidate_request_session m checked_at;
              mret None
            else
              match m with
              | None => mret None
              | Some (id, z) =>
                  let idle := match z_last_activity_at z with
                              | Some t => ADMIN_ACTIVITY_UPDATE_SECONDS * SECOND <=? checked_at - t
                              | None => true
                              end in
                  if idle then
                    let expires := Z.min (checked_at + ADMIN_IDLE_SECONDS * SECOND) (default 0 (z_absolute_expires_at z)) in
                    _ ← update_session id (with_activity checked_at expires (ip request));
                    mret (Some (id, with_activity checked_at expires (ip request) z))
                  else mret (Some (id, z))
              end
        end
    end.

Definition revoke_session (owner : Z * profile) (public_id : Z) (actor_session_id : option Z) : M metadata :=
  transaction (
    z ← get_session public_id;
    _ ← fail_if (negb (z_profile z =? owner.1)) (DoesNotExist "AdministratorSession");
    at_ ← now;
    let z' := if Rows.isnull (z_revoked_at z) then revoke_at at_ z else z in
    _ ← update_session public_id (fun z => if Rows.isnull (z_revoked_at z) then revoke_at at_ z else z);
    _ ← delete_stored [z_session_key z];
    _ ← record_security_event "owner_session_revoked" SUCCESS (Some owner) None actor_session_id "administrator_session"
          (ToolSchemas.uuid_text public_id) JNull;
    mret (public_id, z')).

(** ** security_actions.py *)

Definition require_fresh_administrator (z : admin_session) : M () :=
  at_ ← now;
  fail_if (z_recovery_restricted z || negb (administrator_session_is_fresh z at_)) IdentityFreshnessRequired.

(** The profile of a row, with its user. *)
Definition profile_of (owner : Z) : M (Z * profile) :=
  d ← tables_now; p ← some_or (profiles d !! owner) (DoesNotExist "AdministratorProfile"); mret (owner, p).

Definition others_of (owner current : Z) (id : Z) (z : admin_session) : bool := live_of owner id z && negb (id =? current).
Definition revoke_others (owner current at_ : Z) : M Z := revoke_where (others_of owner current) at_.

Definition revoked_details (n : Z) : json := JDict [("revoked_session_count", JInt n)].

Context `{Passwords}.

Definition change_password (request : http_request) (id : Z) (current_password new_password salt : string) : M Z :=
  transaction (
    z ← get_session id;
    _ ← require_fresh_administrator z;
    p ← profile_of (z_profile z);
    d ← tables_now;
    u ← some_or (users d !! Rows.a_user p.2) (DoesNotExist "User");
    _ ← fail_if (negb (check_password current_password (u_password u))) IdentityCredentialMismatch;
    let errors := password_errors new_password u in
    _ ← fail_if (negb (bool_decide (errors = []))) (IdentityValidationError (join " " errors));
    let u' := User (u_username u) (u_email u) (make_password salt new_password) (u_is_active u) in
    _ ← write (fun d => set_users (<[Rows.a_user p.2 := u']> (users d)) d);
    at_ ← now;
    revoked ← revoke_others p.1 id at_;
    _ ← call (UpdateAuthHash (Rows.a_user p.2));
    key ← session_key;
    key ← check_key id key;
    _ ← update_session id (fun z => with_fresh None (with_key key z));
    _ ← record_security_event "owner_password_changed" SUCCESS (Some p) (ip request) (Some id) "" "" (revoked_details revoked);
    mret revoked).

Definition regenerate_recovery_codes (request : http_request) (id : Z) (draw : nat -> code_draw) : M (list string * Z) :=
  transaction (
    z ← get_session id;
    _ ← require_fresh_administrator z;
    p ← profile_of (z_profile z);
    at_ ← now;
    recovery_codes ← generate_recovery_batch p.1 at_ draw;
    revoked ← revoke_others p.1 id at_;
    _ ← rotate_administrator_session id;
    _ ← update_session id (with_fresh None);
    _ ← record_security_event "owner_recovery_codes_regenerated" SUCCESS (Some p) (ip request) (Some id) "" ""
          (revoked_details revoked);
    mret (recovery_codes, revoked)).

(** [m] is the request's [metadata] and its profile. *)
Definition revoke_owned_session (owner : Z * profile) (id target_id : Z) : M bool :=
  transaction (
    revoked ← revoke_session owner target_id (Some id);
    let is_current := revoked.1 =? id in
    _ ← (if is_current then call Flush else mret ());
    mret is_current).

Definition revoke_other_sessions (request : http_request) (id : Z) : M Z :=
  transaction (
    z ← get_session id;
    _ ← require_fresh_administrator z;
    p ← profile_of (z_profile z);
    at_ ← now;
    revoked ← revoke_others p.1 id at_;
    _ ← update_session id (with_fresh None);
    _ ← record_security_event "owner_other_sessions_revoked" SUCCESS (Some p) (ip request) (Some id) "" ""
          (revoked_details revoked);
    mret revoked).

(** ** middleware.py and the purge command *)

Definition RECOVERY_ROUTE_ALLOWLIST : list string :=
  ["admin-auth-logout"; "admin-security-status"; "admin-totp-confirmation"; "admin-totp-enrollment"].
(** Whether [process_view] lets the request through to its view. *)
Definition process_view (enabled : bool) (m : option metadata) (view_name : string) : bool :=
  negb (enabled && match m with Some (_, z) => z_recovery_restricted z | None => false end
        && negb (bool_decide (view_name ∈ RECOVERY_ROUTE_ALLOWLIST))).

(** [old] are the keys of the rows of [django_session] that have expired. *)
Definition purge (old : list string) : M Z :=
  transaction (
    at_ ← now;
    _ ← delete_stored old;
    expired_count ← revoke_where (fun _ z => Rows.isnull (z_revoked_at z)
                      && (expired (z_expires_at z) at_ || expired (z_absolute_expires_at z) at_)) at_;
    d ← tables_now;
    let orphan z := Rows.isnull (z_revoked_at z) && Rows.isnull (stored d !! z_session_key z) in
    _ ← write (fun d => set_sessions (update_where orphan (revoke_at at_) (sessions d)) d);
    mret (expired_count + count_where orphan (sessions d))).

End sessions.
End AdminSessions.
