(* ===== verification/Authentication.v ===== *)
(** * Signing in, enrolling and recovering (backend/identity/services/authentication.py)

    A profile that a request has loaded is the pair of its key and the row as it was read: the
    checks that the code makes on the loaded object are made on that row.  What commits before
    the next transaction of the same request is a definition of its own. *)

From S2P Require Import Prelude PyValue ToolSchemas Uuid DraftProvider EventbriteDrafts DraftRows IdentityRows RateLimits SecurityEvents Crypto KeyRing Credentials AdminSessions.

Module Authentication.
Import IdentityRows RateLimits SecurityEvents Credentials AdminSessions.

Definition PREAUTH_SESSION_KEY : string := "civicloop_admin_preauth".
Definition PREAUTH_STAGE : string := "password_verified".
Definition PREAUTH_FIELDS : list string := ["owner_id"; "stage"; "issued_at"; "expires_at"; "correlation_id"].

Abbreviation loaded_profile := (Z * profile)%type.

Record EnrollmentConfirmation := Confirmation { confirmed_session : metadata; recovery_codes : list string }.

Definition set_recovery (restricted : bool) (t : option Z) (z : admin_session) : admin_session :=
  AdministratorSession (z_profile z) (z_session_key z) (z_authenticated_at z) (z_last_activity_at z) t
    (z_fresh_verified_at z) (z_absolute_expires_at z) (z_expires_at z) (z_revoked_at z) (z_device_label z) (z_user_agent z)
    (z_source_ip z) restricted.

Section authentication.
Context `{Sessions} `{Addresses} `{Cache} `{Cursors} `{Crypto.AESGCM} `{OneTimePasswords} `{Passwords}.
Context (trusted_proxies : gset string) (secret_key : string) (ring : option Crypto.IntegrationKeyRing).
#[local] Abbreviation ip request := (source_ip trusted_proxies request).

(** ** The password *)

Definition eligible_profile (d : db) (user : option Z) : option loaded_profile :=
  u ← user;
  p ← profile_of_user d u;
  if bool_decide (Rows.a_status p.2 = Rows.DISABLED) then None else Some p.

(** What the session remembers of a verified password. *)
Definition preauthentication (owner at_ correlation : Z) : json :=
  JDict [("owner_id", JStr (ToolSchemas.uuid_text owner)); ("stage", JStr PREAUTH_STAGE);
         ("issued_at", JStr (isoformat at_));
         ("expires_at", JStr (isoformat (at_ + ADMIN_PREAUTH_SECONDS * SECOND)));
         ("correlation_id", JStr (ToolSchemas.uuid_text correlation))].

Definition password_event (request : http_request) (outcome : outcome) (owner : option loaded_profile) : M Z :=
  record_security_event "owner_password_verified" outcome owner (ip request) None "" "" JNull.

Definition verify_owner_password (request : http_request) (username password : string) : M (option (loaded_profile * string)) :=
  let normalized_username := strip username in
  scope ← check_password_limit secret_key normalized_username (ip request);
  d ← tables_now;
  match eligible_profile d (authenticate (users d) normalized_username password) with
  | None => _ ← password_event request FAILURE None; mret None
  | Some p =>
      _ ← record_limit_success scope;
      at_ ← now;
      _ ← call Flush;
      correlation ← fresh;
      _ ← set_item PREAUTH_SESSION_KEY (preauthentication p.1 at_ correlation);
      _ ← call Save;
      _ ← password_event request SUCCESS (Some p);
      mret (Some (p, if bool_decide (Rows.a_status p.2 = Rows.ACTIVE) then "verify_totp" else "enroll_totp"))
  end.

(** The session's word of a verified password, when it is well formed and of the last minutes. *)
Definition preauthentication_valid (at_ : Z) (value : option json) : option (list (string * json)) :=
  match value with
  | Some (JDict d) =>
      if negb (EventbriteDrafts.has_keys d PREAUTH_FIELDS) then None
      else
        match get_or_none d "owner_id", get_or_none d "stage", get_or_none d "issued_at", get_or_none d "expires_at",
              get_or_none d "correlation_id" with
        | JStr owner, JStr stage, JStr issued, JStr expires, JStr correlation =>
            match Uuid.parse owner, Uuid.parse correlation, parse_datetime issued, parse_datetime expires with
            | Some _, Some _, Some (issued_at, true), Some (expires_at, true) =>
                if negb (String.eqb stage PREAUTH_STAGE) || (at_ <? issued_at) || (expires_at <=? at_)
                   || (ADMIN_PREAUTH_SECONDS * SECOND <? expires_at - issued_at)
                then None else Some d
            | _, _, _, _ => None
            end
        | _, _, _, _, _ => None
        end
  | _ => None
  end.

Definition valid_preauthentication : M (option (list (string * json))) :=
  value ← gets (session_item PREAUTH_SESSION_KEY);
  at_ ← now;
  match preauthentication_valid at_ value with
  | Some d => mret (Some d)
  | None => _ ← pop_item PREAUTH_SESSION_KEY; mret None
  end.

Definition preauthenticated_profile : M (option loaded_profile) :=
  found ← valid_preauthentication;
  match found with
  | None => mret None
  | Some fields =>
      d ← tables_now;
      let p := match get_or_none fields "owner_id" with
               | JStr text =>
                   id ← Uuid.parse text;
                   p ← profiles d !! id;
                   if bool_decide (Rows.a_status p = Rows.DISABLED) then None else Some (id, p)
               | _ => None
               end in
      match p with
      | Some p => mret (Some p)
      | None => _ ← pop_item PREAUTH_SESSION_KEY; mret None
      end
  end.

(** ** The authenticator *)

Definition totp_event (request : http_request) (outcome : outcome) (owner : loaded_profile) (session_id : option Z) : M Z :=
  record_security_event "owner_totp_verified" outcome (Some owner) (ip request) session_id "" "" JNull.

Definition establish_totp_session (request : http_request) (p : loaded_profile) (verified_at : Z) : M metadata :=
  transaction (
    _ ← call (Login (Rows.a_user p.2));
    _ ← pop_item PREAUTH_SESSION_KEY;
    m ← establish_administrator_session trusted_proxies request p.1 (Some verified_at) false;
    _ ← totp_event request SUCCESS p (Some m.1);
    mret m).

(** [order_by("-confirmed_at", "-created_at").first()]: a missing date comes first. *)
Definition later_device (v v' : totp_device) : bool :=
  match v_confirmed_at v, v_confirmed_at v' with
  | None, Some _ => true
  | Some _, None => false
  | Some t, Some t' => (t' <? t) || ((t =? t') && (v_created_at v' <? v_created_at v))
  | None, None => v_created_at v' <? v_created_at v
  end.
Definition newest_device (f : totp_device -> bool) (m : gmap Z totp_device) : option (Z * totp_device) :=
  fold_left (fun best kv => match best with
                            | Some b => if later_device kv.2 b.2 then Some kv else Some b
                            | None => Some kv
                            end) (rows_where f m) None.
Definition usable_device (owner : Z) (v : totp_device) : bool :=
  (v_profile v =? owner) && v_confirmed v && Rows.isnull (v_disabled_at v) && Rows.isnull (v_replaced_at v).

(** [try: ... except IdentityError: record; raise] *)
Definition or_record {A : Type} (m : M A) (record : M Z) : M A :=
  Provider.catch m (fun e => if is_identity_error e then _ ← record; raise e else raise e).

(** [complete_totp_authentication], up to the verified code. *)
Definition verify_owner_totp (request : http_request) (p : loaded_profile) (token : string) : M Z :=
  _ ← fail_if (negb (bool_decide (Rows.a_status p.2 = Rows.ACTIVE))) verification_failed;
  d ← tables_now;
  at_ ← now;
  match newest_device (usable_device p.1) (devices d) with
  | None => _ ← totp_event request FAILURE p None; raise verification_failed
  | Some (id, _) =>
      _ ← or_record (verify_totp ring id token at_ false) (totp_event request FAILURE p None);
      mret at_
  end.

Definition complete_totp_authentication (request : http_request) (p : loaded_profile) (token : string) : M metadata :=
  at_ ← verify_owner_totp request p token;
  establish_totp_session request p at_.

(** ** Recovery *)

Definition recovery_event (request : http_request) (outcome : outcome) (owner : loaded_profile) (session_id : option Z)
    (details : json) : M Z :=
  record_security_event "owner_recovery_verified" outcome (Some owner) (ip request) session_id "" "" details.

(** The code's outcome: consumed, or refused with an [IdentityError]. *)
Definition try_recovery_code (owner : Z) (recovery_code : string) (at_ : Z) : M bool :=
  Provider.catch (_ ← consume_recovery_code owner recovery_code at_; mret true)
    (fun e => if is_identity_error e then mret false else raise e).

Definition complete_recovery_authentication_transaction (request : http_request) (p : loaded_profile)
    (recovery_code : string) : M (option metadata) :=
  transaction (
    _ ← fail_if (negb (bool_decide (Rows.a_status p.2 = Rows.ACTIVE))) verification_failed;
    scope ← check_recovery_limit secret_key p.1 (ip request);
    at_ ← now;
    consumed ← try_recovery_code p.1 recovery_code at_;
    if negb consumed then _ ← recovery_event request FAILURE p None JNull; mret None
    else
      _ ← record_limit_success scope;
      revoked ← revoke_where (live_of p.1) at_;
      _ ← save_status p.1 Rows.RECOVERY_REQUIRED;
      _ ← call (Login (Rows.a_user p.2));
      _ ← pop_item PREAUTH_SESSION_KEY;
      m ← establish_administrator_session trusted_proxies request p.1 None true;
      _ ← recovery_event request SUCCESS p (Some m.1) (revoked_details revoked);
      mret (Some m)).

Definition complete_recovery_authentication (request : http_request) (p : loaded_profile) (recovery_code : string)
  : M metadata :=
  m ← complete_recovery_authentication_transaction request p recovery_code;
  some_or m verification_failed.

(** ** Leaving *)

(** [m] is [request.administrator_session]. *)
Definition logout_administrator (request : http_request) (m : option metadata) : M bool :=
  transaction (
    match m with
    | None =>
        preauth ← gets (session_item PREAUTH_SESSION_KEY);
        match preauth with
        | Some _ => _ ← call Flush; mret true
        | None => mret false
        end
    | Some (id, _) =>
        at_ ← now;
        z ← get_session id;
        _ ← (if Rows.isnull (z_revoked_at z) then update_session id (revoke_at at_) else mret ());
        p ← profile_of (z_profile z);
        _ ← record_security_event "owner_logout" SUCCESS (Some p) (ip request) (Some id) "" "" JNull;
        _ ← call Logout;
        mret true
    end).

(** ** Enrolment *)

(** The profile of a recovering session, or of a verified password before any enrolment.
    [p] is [metadata.profile]. *)
Definition enrollment_profile (m : option (metadata * loaded_profile)) : M (option loaded_profile) :=
  let recovering := match m with
                    | Some ((_, z), p) => z_recovery_restricted z && bool_decide (Rows.a_status p.2 = Rows.RECOVERY_REQUIRED)
                    | None => false
                    end in
  match m with
  | Some (_, p) => if recovering then mret (Some p) else
      found ← preauthenticated_profile;
      mret (found ≫= fun p => if bool_decide (Rows.a_status p.2 = Rows.ENROLLMENT_REQUIRED) then Some p else None)
  | None =>
      found ← preauthenticated_profile;
      mret (found ≫= fun p => if bool_decide (Rows.a_status p.2 = Rows.ENROLLMENT_REQUIRED) then Some p else None)
  end.

Definition device_event (request : http_request) (action : string) (outcome : outcome) (owner : loaded_profile)
    (session_id : option Z) (device : Z) (details : json) : M Z :=
  record_security_event action outcome (Some owner) (ip request) session_id "totp_device" (ToolSchemas.uuid_text device) details.

Definition start_totp_enrollment (request : http_request) (p : loaded_profile) (session_id : option Z) (label : string)
    (nonce seed : list Z) : M TOTPEnrollment :=
  transaction (
    at_ ← now;
    enrollment ← begin_totp_enrollment ring p label at_ nonce seed;
    _ ← device_event request "owner_totp_enrollment_started" SUCCESS p session_id (device enrollment) JNull;
    mret enrollment).

Definition get_profile (owner : Z) : M loaded_profile := profile_of owner.

Definition complete_initial_enrollment (request : http_request) (p : loaded_profile) (device_id at_ : Z)
    (draw : nat -> code_draw) : M EnrollmentConfirmation :=
  transaction (
    locked ← get_profile p.1;
    v ← get_device device_id;
    _ ← fail_if (negb (bool_decide (Rows.a_status locked.2 = Rows.ENROLLMENT_REQUIRED)) || negb (v_profile v =? locked.1)
                 || v_confirmed v || negb (Rows.isnull (v_disabled_at v))) verification_failed;
    _ ← put_device device_id (confirm_device at_ v);
    made ← generate_recovery_batch locked.1 at_ draw;
    _ ← save_status locked.1 Rows.ACTIVE;
    _ ← call (Login (Rows.a_user locked.2));
    _ ← pop_item PREAUTH_SESSION_KEY;
    m ← establish_administrator_session trusted_proxies request locked.1 (Some at_) false;
    _ ← device_event request "owner_totp_enrollment_confirmed" SUCCESS locked (Some m.1) device_id JNull;
    mret (Confirmation m made)).

Definition complete_recovery_enrollment (request : http_request) (p : loaded_profile) (device_id id at_ : Z)
    (draw : nat -> code_draw) : M EnrollmentConfirmation :=
  transaction (
    locked ← get_profile p.1;
    v ← get_device device_id;
    z ← get_session id;
    _ ← fail_if (negb (bool_decide (Rows.a_status locked.2 = Rows.RECOVERY_REQUIRED)) || negb (z_recovery_restricted z)
                 || negb (Rows.isnull (z_revoked_at z)) || negb (v_profile v =? locked.1)
                 || v_confirmed v || negb (Rows.isnull (v_disabled_at v))) verification_failed;
    _ ← write (fun d => set_devices (map_imap (fun k w => Some (
          if (v_profile w =? locked.1) && v_confirmed w && Rows.isnull (v_disabled_at w) && negb (k =? device_id)
          then replace_device at_ w else w)) (devices d)) d);
    _ ← put_device device_id (confirm_device at_ v);
    made ← generate_recovery_batch locked.1 at_ draw;
    revoked ← revoke_others locked.1 id at_;
    _ ← save_status locked.1 Rows.ACTIVE;
    _ ← update_session id (set_recovery false (Some at_));
    _ ← rotate_administrator_session id;
    z ← get_session id;
    _ ← device_event request "owner_totp_enrollment_confirmed" SUCCESS locked (Some id) device_id
          (JDict [("revoked_session_count", JInt revoked); ("recovery_completed", JBool true)]);
    mret (Confirmation (id, z) made)).

(** [confirm_totp_enrollment], up to the verified code. *)
Definition verify_enrollment (request : http_request) (p : loaded_profile) (m : option metadata) (device_id : Z)
    (token : string) : M Z :=
  d ← tables_now;
  _ ← some_or (v ← devices d !! device_id;
               if (v_profile v =? p.1) && negb (v_confirmed v) && Rows.isnull (v_disabled_at v) && Rows.isnull (v_replaced_at v)
               then Some v else None) verification_failed;
  at_ ← now;
  _ ← or_record (verify_totp ring device_id token at_ true)
        (device_event request "owner_totp_enrollment_confirmed" FAILURE p (fst <$> m) device_id JNull);
  mret at_.

(** The transaction that the loaded profile calls for. *)
Definition complete_enrollment (request : http_request) (p : loaded_profile) (m : option metadata) (device_id at_ : Z)
    (draw : nat -> code_draw) : M EnrollmentConfirmation :=
  match Rows.a_status p.2, m with
  | Rows.ENROLLMENT_REQUIRED, _ => complete_initial_enrollment request p device_id at_ draw
  | Rows.RECOVERY_REQUIRED, Some (id, z) =>
      if z_recovery_restricted z then complete_recovery_enrollment request p device_id id at_ draw
      else raise verification_failed
  | _, _ => raise verification_failed
  end.

Definition confirm_totp_enrollment (request : http_request) (p : loaded_profile) (m : option metadata) (device_id : Z)
    (token : string) (draw : nat -> code_draw) : M EnrollmentConfirmation :=
  at_ ← verify_enrollment request p m device_id token;
  complete_enrollment request p m device_id at_ draw.

(** ** Fresh verification *)

Definition fresh_event (request : http_request) (outcome : outcome) (owner : loaded_profile) (id : Z) : M Z :=
  record_security_event "owner_fresh_verification" outcome (Some owner) (ip request) (Some id) "" "" JNull.

(** Up to the verified code; [p] is [metadata.profile]. *)
Definition verify_fresh (request : http_request) (id : Z) (p : loaded_profile) (password token : string) : M (string * Z) :=
  d ← tables_now;
  u ← some_or (users d !! Rows.a_user p.2) (DoesNotExist "User");
  scope ← check_password_limit secret_key (u_username u) (ip request);
  let password_valid := check_password password (u_password u) in
  match newest_device (usable_device p.1) (devices d), password_valid with
  | Some (device_id, _), true =>
      at_ ← now;
      _ ← or_record (verify_totp ring device_id token at_ false) (fresh_event request FAILURE p id);
      mret (scope, at_)
  | _, _ => _ ← fresh_event request FAILURE p id; raise verification_failed
  end.

Definition grant_fresh (request : http_request) (id : Z) (p : loaded_profile) (scope : string) (at_ : Z) : M () :=
  _ ← record_limit_success scope;
  transaction (
    _ ← rotate_administrator_session id;
    _ ← update_session id (with_fresh (Some at_));
    _ ← fresh_event request SUCCESS p id;
    mret ()).

Definition fresh_reauthenticate (request : http_request) (id : Z) (p : loaded_profile) (password token : string) : M () :=
  verified ← verify_fresh request id p password token;
  grant_fresh request id p verified.1 verified.2.

End authentication.
End Authentication.
