(* ===== verification/IdentityFacts.v ===== *)
(** * The invariant of the identity tables, and how rows age

    What every call keeps ([tables_ok]), what it may do to a row that is there ([advances]),
    and the rules that follow the shape of the code. *)

From S2P Require Import Prelude PyValue ToolSchemas DraftProvider DraftRows IdentityRows RateLimits SecurityEvents Crypto KeyRing Credentials AdminSessions Transactions.

Module IdentityFacts.
Import Provider IdentityRows SecurityEvents Credentials AdminSessions Transactions.

(** ** Rows that are well formed at an instant *)

Definition session_ok (now : Z) (z : admin_session) : Prop :=
  exists authenticated activity expires,
    z_authenticated_at z = Some authenticated /\ z_last_activity_at z = Some activity /\
    z_absolute_expires_at z = Some (authenticated + ADMIN_ABSOLUTE_SECONDS * SECOND) /\
    z_expires_at z = Some expires /\ authenticated <= activity <= now /\
    expires <= activity + ADMIN_IDLE_SECONDS * SECOND /\
    expires <= authenticated + ADMIN_ABSOLUTE_SECONDS * SECOND.

(** The n-th failure in a row is at least [2^(n-1) - 1] seconds after the creation. *)
Definition throttled (now : Z) (v : totp_device) : Prop :=
  v_created_at v <= now /\
  (v_failures v = 0 \/
   exists t, v_failed_at v = Some t /\ 0 < v_failures v /\ t <= now /\
     v_created_at v + (2 ^ (v_failures v - 1) - 1) * SECOND <= t).

Definition device_ok (now : Z) (v : totp_device) : Prop :=
  throttled now v /\ (v_disabled_at v = None -> v_replaced_at v = None).

Definition enabled (p : profile) : bool := negb (bool_decide (Rows.a_status p = Rows.DISABLED)).

(** The rows of a map hold a predicate, or have different values of a column. *)
Definition every {V : Type} (P : V -> Prop) (m : gmap Z V) : Prop := forall id v, m !! id = Some v -> P v.
Definition distinct {V A : Type} (f : V -> option A) (m : gmap Z V) : Prop :=
  forall id id' v v' a, m !! id = Some v -> m !! id' = Some v' -> f v = Some a -> f v' = Some a -> id = id'.
Definition below {V : Type} (n : Z) (m : gmap Z V) : Prop := forall id v, m !! id = Some v -> id < n.

Record tables_ok (d : db) : Prop := TablesOk {
  ok_sessions : every (session_ok (clock d)) (sessions d);
  ok_keys : distinct (Some ∘ z_session_key) (sessions d);
  ok_devices : every (device_ok (clock d)) (devices d);
  ok_owner : distinct (fun p => if enabled p then Some () else None) (profiles d);
  ok_accounts : distinct (Some ∘ Rows.a_user) (profiles d);
  ok_public_ids : distinct (Some ∘ y_public_id) (codes d);
  ok_session_ids : below (next_id d) (sessions d);
  ok_device_ids : below (next_id d) (devices d);
  ok_code_ids : below (next_id d) (codes d);
  ok_profile_ids : below (next_id d) (profiles d);
  ok_user_ids : below (next_id d) (users d);
}.

(** ** How a row may change *)

(** A date that is set once. *)
Definition sticky {A : Type} (o o' : option A) : Prop := forall a, o = Some a -> o' = Some a.

Record session_ages (z z' : admin_session) : Prop := SessionAges {
  sa_profile : z_profile z' = z_profile z;
  sa_authenticated : z_authenticated_at z' = z_authenticated_at z;
  sa_absolute : z_absolute_expires_at z' = z_absolute_expires_at z;
  sa_revoked : sticky (z_revoked_at z) (z_revoked_at z');
  sa_restricted : z_recovery_restricted z = false -> z_recovery_restricted z' = false;
}.
Record device_ages (v v' : totp_device) : Prop := DeviceAges {
  da_profile : v_profile v' = v_profile v;
  da_seed : v_seed_envelope v' = v_seed_envelope v;
  da_created : v_created_at v' = v_created_at v;
  da_counter : v_last_t v <= v_last_t v';
  da_replaced : sticky (v_replaced_at v) (v_replaced_at v');
  da_disabled : sticky (v_disabled_at v) (v_disabled_at v');
}.
Record code_ages (y y' : recovery_code) : Prop := CodeAges {
  ca_profile : y_profile y' = y_profile y;
  ca_public_id : y_public_id y' = y_public_id y;
  ca_secret : y_encoded_secret y' = y_encoded_secret y;
  ca_consumed : sticky (y_consumed_at y) (y_consumed_at y');
  ca_invalidated : sticky (y_invalidated_at y) (y_invalidated_at y');
}.
Definition profile_ages (p p' : profile) : Prop := Rows.a_user p' = Rows.a_user p.
Definition user_ages (u u' : user) : Prop := u_username u' = u_username u.

(** Every row is still there, changed as the relation says. *)
Definition follows {V : Type} (R : V -> V -> Prop) (m m' : gmap Z V) : Prop :=
  forall id v, m !! id = Some v -> exists v', m' !! id = Some v' /\ R v v'.

Record advances (d d' : db) : Prop := Advances {
  adv_users : follows user_ages (users d) (users d');
  adv_profiles : follows profile_ages (profiles d) (profiles d');
  adv_devices : follows device_ages (devices d) (devices d');
  adv_codes : follows code_ages (codes d) (codes d');
  adv_sessions : follows session_ages (sessions d) (sessions d');
  adv_events : events d `prefix_of` events d';
  adv_clock : clock d <= clock d';
  adv_next : next_id d <= next_id d';
}.

#[export] Instance sticky_preorder {A} : PreOrder (@sticky A).
Proof. split; [by intros o a|intros o1 o2 o3 H1 H2 a Ha; by apply H2, H1]. Qed.
#[export] Instance session_ages_preorder : PreOrder session_ages.
Proof.
  split; [by split; try reflexivity|]. intros z1 z2 z3 [P1 A1 B1 C1 D1] [P2 A2 B2 C2 D2].
  split; [congruence|congruence|congruence|by etrans|by auto].
Qed.
#[export] Instance device_ages_preorder : PreOrder device_ages.
Proof.
  split; [by split; try reflexivity|]. intros v1 v2 v3 [P1 S1 A1 B1 C1 D1] [P2 S2 A2 B2 C2 D2].
  split; [congruence|congruence|congruence|lia|by etrans|by etrans].
Qed.
#[export] Instance code_ages_preorder : PreOrder code_ages.
Proof.
  split; [by split; try reflexivity|]. intros y1 y2 y3 [P1 A1 B1 C1 D1] [P2 A2 B2 C2 D2].
  split; [congruence|congruence|congruence|by etrans|by etrans].
Qed.
#[export] Instance profile_ages_preorder : PreOrder profile_ages.
Proof. split; [done|intros p1 p2 p3 H1 H2; unfold profile_ages in *; congruence]. Qed.
#[export] Instance user_ages_preorder : PreOrder user_ages.
Proof. split; [done|intros p1 p2 p3 H1 H2; unfold user_ages in *; congruence]. Qed.
#[export] Instance follows_preorder {V} (R : V -> V -> Prop) `{!PreOrder R} : PreOrder (follows R).
Proof.
  split; [intros m id v Hv; by exists v|]. intros m1 m2 m3 H1 H2 id v Hv.
  destruct (H1 id v Hv) as (v2 & Hv2 & ?), (H2 id v2 Hv2) as (v3 & Hv3 & ?). exists v3. split; [done|by etrans].
Qed.
#[export] Instance advances_preorder : PreOrder advances.
Proof.
  split; [by split; try reflexivity|]. intros d1 d2 d3 [] []. split; try (by etrans); lia.
Qed.

(** ** What a run preserves *)

Definition preserves (s s' : state) : Prop :=
  tables_ok (tables s) -> tables_ok (tables s') /\ advances (tables s) (tables s').
#[export] Instance preserves_preorder : PreOrder preserves.
Proof.
  split; [by intros s Hok; split|]. intros s1 s2 s3 H1 H2 Hok.
  destruct (H1 Hok) as [Hok2 ?], (H2 Hok2) as [Hok3 ?]. split; [done|by etrans].
Qed.

(** Rows that only get older, with the column of a uniqueness constraint unchanged. *)
Lemma every_follows {V} (P : V -> Prop) (m m' : gmap Z V) :
  (forall id v', m' !! id = Some v' -> exists v, m !! id = Some v /\ (P v -> P v')) -> every P m -> every P m'.
Proof. intros Hm He id v' Hv'. destruct (Hm id v' Hv') as (v & Hv & Himp). by apply Himp, (He id). Qed.
Lemma every_mono {V} (P Q : V -> Prop) (m : gmap Z V) : (forall v, P v -> Q v) -> every P m -> every Q m.
Proof. intros Hpq He id v Hv. by apply Hpq, (He id). Qed.
Lemma below_mono {V} n n' (m : gmap Z V) : n <= n' -> below n m -> below n' m.
Proof. intros Hn Hb id v Hv. specialize (Hb id v Hv). lia. Qed.

Lemma session_ok_later t t' z : t <= t' -> session_ok t z -> session_ok t' z.
Proof. intros Ht (a & b & e & ? & ? & ? & ? & ? & ? & ?). exists a, b, e. repeat split; try done; lia. Qed.
Lemma throttled_later t t' v : t <= t' -> throttled t v -> throttled t' v.
Proof. intros Ht [Hc [?|(f & ? & ? & ? & ?)]]; split; [lia|by left|lia|right; exists f; repeat split; try done; lia]. Qed.

Lemma device_ok_later t t' v : t <= t' -> device_ok t v -> device_ok t' v.
Proof. intros Ht [Hv ?]. split; [by eapply throttled_later|done]. Qed.

(** The same domain, every row changed in one way. *)
Definition reworks {V} (Q : V -> V -> Prop) (m m' : gmap Z V) : Prop := forall id, option_Forall2 Q (m !! id) (m' !! id).

Section reworks.
Context {V : Type} (Q : V -> V -> Prop) (m m' : gmap Z V) (Hr : reworks Q m m').
Lemma reworks_back id v' : m' !! id = Some v' -> exists v, m !! id = Some v /\ Q v v'.
Proof. intros Hv'. pose proof (Hr id) as Ho. rewrite Hv' in Ho. inversion Ho. eauto. Qed.
Lemma reworks_there id v : m !! id = Some v -> exists v', m' !! id = Some v' /\ Q v v'.
Proof. intros Hv. pose proof (Hr id) as Ho. rewrite Hv in Ho. inversion Ho. eauto. Qed.
Lemma reworks_follows (R : V -> V -> Prop) : (forall v v', Q v v' -> R v v') -> follows R m m'.
Proof. intros Hq id v Hv. destruct (reworks_there id v Hv) as (v' & ? & ?). eauto. Qed.
Lemma reworks_every (P : V -> Prop) : (forall v v', Q v v' -> P v -> P v') -> every P m -> every P m'.
Proof. intros Hq He id v' Hv'. destruct (reworks_back id v' Hv') as (v & Hv & ?). eapply Hq; [done|by eapply He]. Qed.
Lemma reworks_distinct {A} (f : V -> option A) : (forall v v', Q v v' -> f v' = f v) -> distinct f m -> distinct f m'.
Proof.
  intros Hq Hd i i' v v' a Hv Hv' Ha Ha'.
  destruct (reworks_back i v Hv) as (w & Hw & Hvw), (reworks_back i' v' Hv') as (w' & Hw' & Hvw').
  rewrite (Hq _ _ Hvw) in Ha. rewrite (Hq _ _ Hvw') in Ha'. by apply (Hd i i' w w' a).
Qed.
Lemma reworks_below n : below n m -> below n m'.
Proof. intros Hb id v' Hv'. destruct (reworks_back id v' Hv') as (v & Hv & _). by eapply Hb. Qed.
End reworks.

Lemma reworks_imap {V} (Q : V -> V -> Prop) (g : Z -> V -> V) m :
  (forall id v, m !! id = Some v -> Q v (g id v)) -> reworks Q m (map_imap (fun id v => Some (g id v)) m).
Proof.
  intros Hq id. rewrite map_lookup_imap. destruct (m !! id) as [v|] eqn:Hv; cbn; [|constructor]. constructor. by apply Hq.
Qed.
Lemma reworks_where {V} (Q : V -> V -> Prop) `{!Reflexive Q} f (g : V -> V) m :
  (forall v, f v = true -> Q v (g v)) -> reworks Q m (update_where f g m).
Proof.
  intros Hq id. unfold update_where. rewrite lookup_fmap. destruct (m !! id) as [v|]; cbn; [|constructor]. constructor.
  destruct (f v) eqn:Hf; [by apply Hq|done].
Qed.
Lemma reworks_alter {V} (Q : V -> V -> Prop) `{!Reflexive Q} (g : V -> V) id m :
  (forall v, m !! id = Some v -> Q v (g v)) -> reworks Q m (alter g id m).
Proof.
  intros Hq i. destruct (decide (i = id)) as [-> |Hne].
  - rewrite lookup_alter_eq. destruct (m !! id) as [v|] eqn:Hv; cbn; constructor. by apply Hq.
  - rewrite lookup_alter_ne by congruence. destruct (m !! i); by constructor.
Qed.
Lemma reworks_insert {V} (Q : V -> V -> Prop) `{!Reflexive Q} id v v' m :
  m !! id = Some v -> Q v v' -> reworks Q m (<[id := v']> m).
Proof.
  intros Hv Hq i. destruct (decide (i = id)) as [-> |Hne].
  - rewrite lookup_insert_eq, Hv. by constructor.
  - rewrite lookup_insert_ne by congruence. destruct (m !! i); by constructor.
Qed.

(** A row under a new identifier. *)
Section insert.
Context {V : Type} (m : gmap Z V) (n id : Z) (v : V) (Hb : below n m) (Hid : n <= id).
Lemma below_fresh : m !! id = None.
Proof. destruct (m !! id) as [w|] eqn:Hw; [|done]. specialize (Hb id w Hw). lia. Qed.
Lemma insert_every P : P v -> every P m -> every P (<[id := v]> m).
Proof. intros Hv He i w [[<- <-]|[_ Hw]]%lookup_insert_Some; [done|by eapply He]. Qed.
Lemma insert_below n' : id < n' -> n <= n' -> below n' (<[id := v]> m).
Proof. intros Hlt Hle i w [[<- _]|[_ Hw]]%lookup_insert_Some; [done|]. specialize (Hb i w Hw). lia. Qed.
Lemma insert_follows (R : V -> V -> Prop) `{!Reflexive R} : follows R m (<[id := v]> m).
Proof.
  intros i w Hw. exists w. split; [|done]. rewrite lookup_insert_ne; [done|].
  intros <-. by rewrite below_fresh in Hw.
Qed.
End insert.
Lemma insert_distinct {V A} (f : V -> option A) (m : gmap Z V) id v :
  (forall i w a, m !! i = Some w -> i <> id -> f w = Some a -> f v = Some a -> False) -> distinct f m ->
  distinct f (<[id := v]> m).
Proof.
  intros Hn Hd i i' w w' a Hw Hw' Ha Ha'.
  apply lookup_insert_Some in Hw as [[<- <-]|[Hne Hw]]; apply lookup_insert_Some in Hw' as [[<- <-]|[Hne' Hw']].
  - done.
  - by destruct (Hn i' w' a).
  - by destruct (Hn i w a).
  - by apply (Hd i i' w w' a).
Qed.

(** ** Inverting a run *)

Lemma transaction_ok {A} (m : M A) s a s' : transaction m s = (Ok a, s') -> m s = (Ok a, s').
Proof. unfold transaction. by destruct (m s) as [[b|e] s1]. Qed.
Lemma transaction_err {A} (m : M A) s e s' : transaction m s = (Err e, s') ->
  exists s1, m s = (Err e, s1) /\ s' = State (undo (tables s) (tables s1)) (session s1).
Proof. unfold transaction. destruct (m s) as [[b|e'] s1]; [done|]. intros [= -> <-]. by exists s1. Qed.
Lemma lookup_run {A} (f : db -> A) s r s' : lookup_tables f s = (r, s') -> r = Ok (f (tables s)) /\ s' = s.
Proof. by intros [= <- <-]. Qed.
Lemma now_run s r s' : now s = (r, s') -> r = Ok (clock (tables s)) /\ s' = s.
Proof. by intros [= <- <-]. Qed.
Lemma write_run f s r s' : write f s = (r, s') -> r = Ok () /\ s' = State (f (tables s)) (session s).
Proof. by intros [= <- <-]. Qed.
Lemma next_id_run s r s' : IdentityRows.fresh s = (r, s') ->
  r = Ok (next_id (tables s)) /\ s' = State (set_next (next_id (tables s) + 1) (tables s)) (session s).
Proof. by intros [= <- <-]. Qed.
Lemma key_run s r s' : session_key s = (r, s') -> r = Ok (s_key (session s)) /\ s' = s.
Proof. by intros [= <- <-]. Qed.
Lemma call_run `{Sessions} c s u s' : call c s = (Ok u, s') ->
  exists b m, call_session c (session s) (stored (tables s)) = Ok (b, m) /\ s' = State (set_stored m (tables s)) b.
Proof. unfold call. destruct (call_session _ _ _) as [[b m]|e]; [|done]. intros [= <-]. by exists b, m. Qed.
Lemma set_item_run key v s r s' : set_item key v s = (r, s') ->
  r = Ok () /\ s' = State (tables s) (Browser (s_key (session s)) (dict_set key v (s_items (session s)))).
Proof. by intros [= <- <-]. Qed.
Lemma pop_item_run key s r s' : pop_item key s = (r, s') -> r = Ok () /\
  s' = State (tables s) (Browser (s_key (session s)) (List.filter (fun kv => negb (String.eqb kv.1 key)) (s_items (session s)))).
Proof. by intros [= <- <-]. Qed.
Lemma delete_run keys s r s' : delete_stored keys s = (r, s') ->
  r = Ok () /\ s' = State (set_stored (filter (fun kv => kv.1 ∉ keys) (stored (tables s))) (tables s)) (session s).
Proof. by intros [= <- <-]. Qed.
Lemma put_device_run id v s r s' : put_device id v s = (r, s') ->
  r = Ok () /\ s' = State (set_devices (<[id := v]> (devices (tables s))) (tables s)) (session s).
Proof. by intros [= <- <-]. Qed.
Lemma get_device_run id s v s' : get_device id s = (Ok v, s') -> devices (tables s) !! id = Some v /\ s' = s.
Proof. unfold get_device, lookup_tables. intros Hr. by run_inv. Qed.
Lemma get_session_run id s z s' : get_session id s = (Ok z, s') -> sessions (tables s) !! id = Some z /\ s' = s.
Proof. unfold get_session, lookup_tables. intros Hr. by run_inv. Qed.
Lemma update_session_run id f s r s' : update_session id f s = (r, s') ->
  r = Ok () /\ s' = State (set_sessions (alter f id (sessions (tables s))) (tables s)) (session s).
Proof. by intros [= <- <-]. Qed.
Lemma profile_of_run owner s p s' : profile_of owner s = (Ok p, s') ->
  p.1 = owner /\ profiles (tables s) !! owner = Some p.2 /\ s' = s.
Proof. unfold profile_of, lookup_tables. intros Hr. run_inv. done. Qed.

Ltac tables_step :=
  match goal with
  | H : transaction _ _ = (Ok _, _) |- _ => apply transaction_ok in H
  | H : transaction _ _ = (Err _, _) |- _ => apply transaction_err in H as (? & ? & ?)
  | H : lookup_tables _ _ = (_, _) |- _ => apply lookup_run in H as [? ?]
  | H : now _ = (_, _) |- _ => apply now_run in H as [? ?]
  | H : write _ _ = (_, _) |- _ => apply write_run in H as [? ?]
  | H : IdentityRows.fresh _ = (_, _) |- _ => apply next_id_run in H as [? ?]
  | H : session_key _ = (_, _) |- _ => apply key_run in H as [? ?]
  | H : set_item _ _ _ = (_, _) |- _ => apply set_item_run in H as [? ?]
  | H : pop_item _ _ = (_, _) |- _ => apply pop_item_run in H as [? ?]
  | H : delete_stored _ _ = (_, _) |- _ => apply delete_run in H as [? ?]
  | H : put_device _ _ _ = (_, _) |- _ => apply put_device_run in H as [? ?]
  | H : get_device _ _ = (Ok _, _) |- _ => apply get_device_run in H as [? ?]
  | H : get_session _ _ = (Ok _, _) |- _ => apply get_session_run in H as [? ?]
  | H : update_session _ _ _ = (_, _) |- _ => apply update_session_run in H as [? ?]
  | H : profile_of _ _ = (Ok _, _) |- _ => apply profile_of_run in H as (? & ? & ?)
  | H : (let '(_, _) := ?p in _) _ = (_, _) |- _ => destruct p as [? ?]
  | _ => run_step
  end.
(** [run_inv] for the calls on the identity tables. *)
Ltac tables_inv := repeat (tables_step; subst; cbn beta iota zeta in * ).

End IdentityFacts.
