(* ===== verification/IdentityEffects.v ===== *)
(** * The identity services keep the invariant of their tables

    For each call of Credentials, AdminSessions and Authentication: from tables in order it
    leaves tables in order, and every row that was there has only aged. *)

From S2P Require Import Prelude PyValue ToolSchemas Uuid DraftProvider EventbriteDrafts DraftRows IdentityRows RateLimits SecurityEvents Crypto KeyRing Credentials AdminSessions Authentication Transactions IdentityFacts.

Module IdentityEffects.
Import Provider IdentityRows RateLimits SecurityEvents Credentials AdminSessions Authentication Transactions IdentityFacts.

(** ** Writes *)

Definition session_turns (now : Z) (z z' : admin_session) : Prop :=
  session_ages z z' /\ z_session_key z' = z_session_key z /\ (session_ok now z -> session_ok now z').
Definition device_turns (now : Z) (v v' : totp_device) : Prop :=
  device_ages v v' /\ (device_ok now v -> device_ok now v').
#[export] Instance session_turns_refl now : Reflexive (session_turns now).
Proof. by intros z. Qed.
#[export] Instance device_turns_refl now : Reflexive (device_turns now).
Proof. by intros v. Qed.

Lemma preserves_sessions s m :
  reworks (session_turns (clock (tables s))) (sessions (tables s)) m ->
  preserves s (State (set_sessions m (tables s)) (session s)).
Proof.
  intros Hr Hok. destruct Hok. split; split; try done; cbn.
  - eapply reworks_every; [exact Hr| |done]. by intros ? ? (_ & _ & ?).
  - eapply reworks_distinct; [exact Hr| |done]. intros ? ? (_ & Hk & _). cbn. by rewrite Hk.
  - by eapply reworks_below.
  - eapply reworks_follows; [exact Hr|]. by intros ? ? [? _].
Qed.
Lemma preserves_devices s m :
  reworks (device_turns (clock (tables s))) (devices (tables s)) m ->
  preserves s (State (set_devices m (tables s)) (session s)).
Proof.
  intros Hr Hok. destruct Hok. split; split; try done; cbn.
  - eapply reworks_every; [exact Hr| |done]. by intros ? ? (_ & ?).
  - by eapply reworks_below.
  - eapply reworks_follows; [exact Hr|]. by intros ? ? [? _].
Qed.
Lemma preserves_codes s m :
  reworks code_ages (codes (tables s)) m -> preserves s (State (set_codes m (tables s)) (session s)).
Proof.
  intros Hr Hok. destruct Hok. split; split; try done; cbn.
  - eapply reworks_distinct; [exact Hr| |done]. intros ? ? []. cbn. congruence.
  - by eapply reworks_below.
  - by eapply reworks_follows.
Qed.
(** The other tables. *)
Lemma preserves_aside s d b :
  users d = users (tables s) -> profiles d = profiles (tables s) -> devices d = devices (tables s) ->
  codes d = codes (tables s) -> sessions d = sessions (tables s) -> events (tables s) `prefix_of` events d ->
  clock d = clock (tables s) -> next_id (tables s) <= next_id d -> preserves s (State d b).
Proof.
  intros Hu Hp Hv Hy Hz He Hc Hn Hok. destruct Hok. split; split; cbn; rewrite ?Hu, ?Hp, ?Hv, ?Hy, ?Hz, ?Hc; try done.
  all: by eapply below_mono.
Qed.

(** ** Rules *)

Lemma moves_gets {A} (f : state -> A) : moves preserves (gets f : M A).
Proof. intros s. reflexivity. Qed.
Lemma moves_lookup {A} (f : db -> A) : moves preserves (lookup_tables f).
Proof. intros s. reflexivity. Qed.
Lemma moves_now : moves preserves now.
Proof. intros s. reflexivity. Qed.
Lemma moves_key : moves preserves session_key.
Proof. intros s. reflexivity. Qed.
Lemma moves_fresh : moves preserves IdentityRows.fresh.
Proof. intros s. apply preserves_aside; cbn; try done. lia. Qed.
Lemma moves_item key v : moves preserves (set_item key v).
Proof. intros s. by apply preserves_aside. Qed.
Lemma moves_pop key : moves preserves (pop_item key).
Proof. intros s. by apply preserves_aside. Qed.
Lemma moves_delete keys : moves preserves (delete_stored keys).
Proof. intros s. by apply preserves_aside. Qed.
Lemma moves_cache m : moves preserves (write (set_cache m)).
Proof. intros s. by apply preserves_aside. Qed.
Lemma moves_call `{Sessions} c : moves preserves (call c).
Proof. intros s. unfold call. destruct (call_session _ _ _) as [[]|]; [by apply preserves_aside|reflexivity]. Qed.
Lemma moved_transaction {A} (m : M A) s : preserves s (m s).2 -> preserves s (transaction m s).2.
Proof.
  intros Hm. unfold transaction. destruct (m s) as [[a|e] s']; [done|].
  intros Hok. destruct (Hm Hok) as [_ Ha]. revert Hok. apply preserves_aside; try done. apply Ha.
Qed.
Lemma moves_rolled_back {A} (m : M A) : moves preserves m -> moves preserves (transaction m).
Proof. intros Hm s. apply moved_transaction, Hm. Qed.
#[export] Hint Resolve moves_gets moves_lookup moves_now moves_key moves_fresh moves_item moves_pop moves_delete
  moves_cache moves_call : moves.

Lemma moved {A} (m : M A) s : moves preserves m -> preserves s (m s).2.
Proof. intros Hm. apply Hm. Qed.
Lemma moves_at {A} (R : state -> state -> Prop) (m : M A) s : moves R m -> R s (m s).2.
Proof. intros Hm. apply Hm. Qed.
(** Reading the tables first. *)
Lemma moved_tables {A} (k : db -> M A) s0 s :
  preserves s0 (k (tables s) s).2 -> preserves s0 ((d ← tables_now; k d) s).2.
Proof. done. Qed.
Ltac keeps_step :=
  match goal with
  | |- moves _ (transaction _) => apply moves_rolled_back
  | |- moves _ (let _ := _ in _) => cbv zeta
  | |- moves _ _ => moves_step
  end.
Ltac solve_keeps := repeat keeps_step.

Lemma moves_event a o w ip sid tt ti v : moves preserves (record_security_event a o w ip sid tt ti v).
Proof.
  unfold record_security_event. do 3 (apply moves_bind; [exact _|solve_keeps|intros ?]).
  apply moves_bind; [exact _|solve_keeps|intros id].
  intros s. apply moved_tables.
  apply (moved_bind preserves); [ |reflexivity]. apply preserves_aside; try done. by eexists.
Qed.
Lemma moves_get_session id : moves preserves (get_session id).
Proof. unfold get_session. solve_keeps. Qed.
Lemma moves_get_device id : moves preserves (get_device id).
Proof. unfold get_device. solve_keeps. Qed.
Lemma moves_profile_of owner : moves preserves (profile_of owner).
Proof. unfold profile_of. solve_keeps. Qed.
#[export] Hint Resolve moves_event moves_get_session moves_get_device moves_profile_of : moves.

(** ** Sessions *)

Lemma moves_revoke_where select t :
  (forall id z, select id z = true -> z_revoked_at z = None) -> moves preserves (revoke_where select t).
Proof.
  intros Hs s. unfold revoke_where. apply moved_tables.
  lazy zeta. apply (moved_bind preserves); [ |intros [] s1 _; apply moved; solve_keeps].
  apply preserves_sessions, reworks_imap. intros id z _. destruct (select id z) eqn:Hz; [|done].
  pose proof (Hs id z Hz) as Hn. split; [split; try done; cbn; rewrite Hn; by intros ?|done].
Qed.

Lemma moves_revoke_live owner t : moves preserves (revoke_where (live_of owner) t).
Proof. apply moves_revoke_where. unfold live_of. intros id z Hz. bools. by destruct (z_revoked_at z). Qed.
Lemma moves_revoke_others owner current t : moves preserves (revoke_others owner current t).
Proof. apply moves_revoke_where. unfold others_of, live_of. intros id z Hz. bools. by destruct (z_revoked_at z). Qed.
#[export] Hint Resolve moves_revoke_live moves_revoke_others : moves.

Lemma moved_update id f s :
  (forall z, sessions (tables s) !! id = Some z -> session_turns (clock (tables s)) z (f z)) ->
  preserves s (update_session id f s).2.
Proof. intros Hf. apply preserves_sessions. by apply reworks_alter. Qed.
Lemma moves_update id f : (forall now z, session_turns now z (f z)) -> moves preserves (update_session id f).
Proof. intros Hf s. by apply moved_update. Qed.
Lemma moves_with_fresh id t : moves preserves (update_session id (with_fresh t)).
Proof. by apply moves_update. Qed.
Lemma moves_revoke_once id t :
  moves preserves (update_session id (fun z => if Rows.isnull (z_revoked_at z) then revoke_at t z else z)).
Proof.
  apply moves_update. intros now z. destruct (z_revoked_at z) eqn:Hn; [done|].
  split; [split; try done; cbn; rewrite Hn; by intros ?|done].
Qed.
Lemma moves_set_recovery id t : moves preserves (update_session id (set_recovery false t)).
Proof. by apply moves_update. Qed.
#[export] Hint Resolve moves_with_fresh moves_revoke_once moves_set_recovery : moves.

Lemma key_free d id key id' z :
  key_taken d id key = false -> sessions d !! id' = Some z -> id' <> id -> z_session_key z <> key.
Proof.
  unfold key_taken. intros Hk Hz Hne He. apply not_true_iff_false in Hk. apply Hk, existsb_exists. exists (id', z).
  split; [by apply list_elem_of_In, elem_of_map_to_list|]. cbn. apply andb_true_iff. split.
  - apply negb_true_iff. by apply Z.eqb_neq.
  - by apply String.eqb_eq.
Qed.
Lemma check_key_ok id key k s s' :
  check_key id key s = (Ok k, s') -> s' = s /\ key = Some k /\ key_taken (tables s) id k = false.
Proof.
  unfold check_key, lookup_tables. intros Hc. run_inv. done.
Qed.
Lemma moves_check_key id key : moves preserves (check_key id key).
Proof. unfold check_key. solve_keeps. Qed.
#[export] Hint Resolve moves_check_key : moves.

(** The key of a row changes to one that no other row has. *)
Lemma moved_with_key id key f s :
  key_taken (tables s) id key = false -> (forall now z, session_turns now (with_key key z) (f z)) ->
  preserves s (update_session id f s).2.
Proof.
  intros Hk Hf Hok. cbn. pose proof Hok as Hok0. destruct Hok. split; [split|split]; try done; cbn.
  - intros i z Hz. destruct (decide (i = id)) as [-> |Hne].
    + rewrite lookup_alter_eq in Hz. apply fmap_Some in Hz as (z0 & Hz0 & ->).
      destruct (Hf (clock (tables s)) z0) as (_ & _ & Hso). apply Hso. by apply (ok_sessions0 id z0).
    + rewrite lookup_alter_ne in Hz by congruence. by apply (ok_sessions0 i).
  - assert (forall i z, alter f id (sessions (tables s)) !! i = Some z ->
      exists z0, sessions (tables s) !! i = Some z0 /\ z_session_key z = (if decide (i = id) then key else z_session_key z0)) as Hback.
    { intros i z Hz. destruct (decide (i = id)) as [-> |Hne].
      - rewrite lookup_alter_eq in Hz. apply fmap_Some in Hz as (z0 & Hz0 & ->). exists z0. split; [done|].
        by destruct (Hf 0 z0) as (_ & -> & _).
      - rewrite lookup_alter_ne in Hz by congruence. by exists z. }
    intros i i' z z' a Hz Hz' [= <-] [= He]. apply Hback in Hz as (w & Hw & Hkz), Hz' as (w' & Hw' & Hkz').
    destruct (decide (i = id)) as [-> |Hi], (decide (i' = id)) as [-> |Hi']; try done.
    + destruct (key_free _ _ _ _ _ Hk Hw' Hi'). congruence.
    + destruct (key_free _ _ _ _ _ Hk Hw Hi). congruence.
    + apply (ok_keys0 i i' w w' (z_session_key w)); try done. cbn. congruence.
  - intros i z Hz. apply lookup_alter_Some in Hz as [(-> & w & Hw & _)|[_ Hw]]; by eapply ok_session_ids0.
  - apply (reworks_follows (fun z z' => session_ages z z')); [|done]. apply reworks_alter; [by intros ?|]. intros z _.
    destruct (Hf 0 z) as (Ha & _ & _). etrans; [|exact Ha]. by split.
Qed.

Lemma moves_rotate `{Sessions} id : moves preserves (rotate_administrator_session id).
Proof.
  apply moves_rolled_back. unfold get_session. do 5 (apply moves_bind; [exact _|solve_keeps|intros ?]).
  apply moves_bind; [exact _|solve_keeps|intros key].
  intros s. apply (moved_bind preserves); [apply moved; solve_keeps|].
  intros k s1 (-> & _ & Hk)%check_key_ok. by apply (moved_with_key id k).
Qed.
#[export] Hint Resolve moves_rotate : moves.

(** A call that is given an instant of the past. *)
Definition since (t : Z) (s s' : state) : Prop := t <= clock (tables s) -> preserves s s'.
#[export] Instance since_preorder t : PreOrder (since t).
Proof.
  split; [by intros s _|]. intros s1 s2 s3 H1 H2 Ht Hok. destruct (H1 Ht Hok) as [Hok2 Ha].
  destruct H2 as [Hok3 ?]; [pose proof (adv_clock _ _ Ha); lia|done|]. split; [done|by etrans].
Qed.
Lemma since_any {A} t (m : M A) : moves preserves m -> moves (since t) m.
Proof. intros Hm s _. apply Hm. Qed.
Lemma since_transaction {A} t (m : M A) : moves (since t) m -> moves (since t) (transaction m).
Proof. intros Hm s Ht. by apply moved_transaction, Hm. Qed.
Lemma moved_any {A} t (m : M A) s : moves preserves m -> since t s (m s).2.
Proof. intros Hm _. apply Hm. Qed.
Ltac since_step :=
  match goal with
  | |- moves _ _ => solve [auto with moves]
  | |- moves _ (transaction _) => apply since_transaction
  | |- moves _ (let _ := _ in _) => cbv zeta
  | |- moves _ (_ ≫= _) => apply moves_bind; [exact _| |intros ?]
  | |- moves _ _ => solve [apply since_any; solve_keeps]
  | |- moves _ (match ?x with _ => _ end) => destruct x
  end.
Ltac solve_since := repeat since_step.

Section sessions.
Context `{Sessions} `{Addresses} (proxies : gset string).

Lemma preserves_new_session s key z b :
  key_taken (tables s) (next_id (tables s)) key = false -> z_session_key z = key ->
  session_ok (clock (tables s)) z ->
  preserves s (State (set_sessions (<[next_id (tables s) := z]> (sessions (tables s)))
                        (set_next (next_id (tables s) + 1) (tables s))) b).
Proof.
  intros Hk Hz Hs Hok. pose proof (ok_session_ids _ Hok) as Hb. destruct Hok. split; split; cbn; try done.
  - by apply insert_every.
  - apply insert_distinct; [|done]. intros i w a Hw Hne [= <-] [= He].
    apply (key_free _ _ _ _ _ Hk Hw Hne). congruence.
  - apply (insert_below _ (next_id (tables s))); [done|lia..].
  - apply (below_mono (next_id (tables s))); [cbn; lia|done].
  - apply (below_mono (next_id (tables s))); [cbn; lia|done].
  - apply (below_mono (next_id (tables s))); [cbn; lia|done].
  - apply (below_mono (next_id (tables s))); [cbn; lia|done].
  - by apply (insert_follows _ (next_id (tables s))).
  - lia.
Qed.

Lemma session_ok_new now t key owner mfa label agent ip r :
  t <= now ->
  session_ok now (AdministratorSession owner key (Some t) (Some t) mfa None (Some (t + ADMIN_ABSOLUTE_SECONDS * SECOND))
    (Some (Z.min (t + ADMIN_IDLE_SECONDS * SECOND) (t + ADMIN_ABSOLUTE_SECONDS * SECOND))) None label agent ip r).
Proof. intros Ht. eexists t, t, _. repeat split; try done; lia. Qed.

Lemma moved_new_session {A} s key (row : string -> Z -> admin_session) (k : string -> Z -> M A) :
  (forall key id, z_session_key (row key id) = key /\ session_ok (clock (tables s)) (row key id)) ->
  (forall key id, moves preserves (k key id)) ->
  preserves s ((id ← IdentityRows.fresh; key ← check_key id key;
    _ ← write (fun d => set_sessions (<[id := row key id]> (sessions d)) d); k key id) s).2.
Proof.
  intros Hrow Hk. set (s1 := (IdentityRows.fresh s).2). unfold mbind at 1, ST_bind at 1.
  change (preserves s (((key ← check_key (next_id (tables s)) key;
    _ ← write (fun d => set_sessions (<[next_id (tables s) := row key (next_id (tables s))]> (sessions d)) d);
    k key (next_id (tables s))) s1).2)).
  unfold mbind at 1, ST_bind at 1. destruct (check_key _ _ s1) as [[key'|e] s2] eqn:Hc.
  - apply check_key_ok in Hc as (-> & -> & Hc). etrans; [|exact (Hk key' (next_id (tables s)) _)].
    apply (preserves_new_session s key'); [exact Hc|apply Hrow..].
  - etrans; [apply moves_fresh|]. exact (moves_run _ _ _ _ _ (moves_check_key _ _) Hc).
Qed.

Lemma moves_establish request owner mfa r t :
  (forall t', mfa = Some t' -> t' = t) ->
  moves (since t) (establish_administrator_session proxies request owner mfa r).
Proof.
  intros Hm. apply since_transaction. do 2 (apply moves_bind; [exact _|solve_since|intros ?]).
  destruct (browser_metadata request) as [label agent]. intros s Ht. cbn beta zeta.
  apply (moved_bind preserves); [reflexivity|]. intros at_ s1 [= <- <-].
  apply (moved_bind preserves); [reflexivity|]. intros key s1 [= <- <-].
  set (z0 := default _ mfa).
  assert (z0 <= clock (tables s)) as Hz0. { unfold z0. destruct mfa as [t'|]; cbn; [rewrite (Hm t' eq_refl)|]; lia. }
  apply moved_new_session; [|intros ? ?; solve_keeps].
  intros k id. split; [done|]. by apply session_ok_new.
Qed.

End sessions.

(** ** Authenticators *)

Lemma moved_put_device id v v' s :
  devices (tables s) !! id = Some v -> device_turns (clock (tables s)) v v' -> preserves s (put_device id v' s).2.
Proof. intros Hv Ht. apply preserves_devices. by apply (reworks_insert _ id v). Qed.
Lemma moves_devices_where f g :
  (forall now v, f v = true -> device_turns now v (g v)) ->
  moves preserves (write (fun d => set_devices (update_where f g (devices d)) d)).
Proof. intros Hf s. apply preserves_devices, reworks_where; auto with typeclass_instances. Qed.
Lemma disable_turns now t v : v_disabled_at v = None -> device_turns now v (disable_device t v).
Proof. intros Hn. split; [|by intros [? ?]; split]. split; try done; cbn; rewrite Hn; by intros ?. Qed.
Lemma reset_turns now t v : v_disabled_at v = None -> device_turns now v (reset_device t v).
Proof. intros Hn. split; [|by intros [? ?]; split]. split; try done; cbn; rewrite Hn; by intros ?. Qed.
Lemma replace_turns now t v : v_disabled_at v = None -> v_replaced_at v = None -> device_turns now v (replace_device t v).
Proof. intros Hn Hr. split; [|by intros [? ?]; split]. split; try done; cbn; by rewrite ?Hn, ?Hr; intros ?. Qed.
Lemma confirm_turns now t v : device_turns now v (confirm_device t v).
Proof. split; [by split|]. by intros [? ?]. Qed.

Lemma preserves_new_device s v b :
  v_failures v = 0 -> v_created_at v <= clock (tables s) -> v_replaced_at v = None ->
  preserves s (State (set_devices (<[next_id (tables s) := v]> (devices (tables s)))
                        (set_next (next_id (tables s) + 1) (tables s))) b).
Proof.
  intros Hf Hc Hr Hok. pose proof (ok_device_ids _ Hok) as Hb. destruct Hok. split; split; cbn; try done.
  - apply insert_every; [|done]. split; [|done]. split; [done|by left].
  - apply (below_mono (next_id (tables s))); [cbn; lia|done].
  - apply (insert_below _ (next_id (tables s))); [done|lia..].
  - apply (below_mono (next_id (tables s))); [cbn; lia|done].
  - apply (below_mono (next_id (tables s))); [cbn; lia|done].
  - apply (below_mono (next_id (tables s))); [cbn; lia|done].
  - by apply (insert_follows _ (next_id (tables s))).
  - lia.
Qed.

Section credentials.
Context `{Crypto.AESGCM} `{OneTimePasswords} `{Passwords} (ring : option Crypto.IntegrationKeyRing).

Lemma moves_begin p label at_ nonce seed : moves preserves (begin_totp_enrollment ring p label at_ nonce seed).
Proof.
  apply moves_rolled_back. cbn zeta. apply moves_bind; [exact _|solve_keeps|intros ?]. apply moves_bind; [exact _| |intros _].
  { apply moves_devices_where. intros now v Hv. bools. apply disable_turns. by destruct (v_disabled_at v). }
  intros s. unfold mbind at 1, ST_bind at 1. cbn [IdentityRows.fresh]. unfold mbind at 1, ST_bind at 1, lift.
  destruct (KeyRing.encrypt_totp_seed _ _ _ _ _) as [envelope|e]; [|apply moves_fresh].
  apply moved_tables. unfold mbind at 1, ST_bind at 1. cbn [tables].
  destruct (users _ !! _) as [u|]; [|apply moves_fresh].
  by apply (preserves_new_device s).
Qed.

(** The next failure doubles the distance from the creation. *)
Lemma throttled_fail now at_ v :
  throttled now v -> throttle_allows v at_ = Ok true -> v_created_at v <= at_ -> at_ <= now -> throttled now (fail_device at_ v).
Proof.
  intros [Hc Hf] Ha Hat Hnow. split; [done|]. right. exists at_. cbn. split; [done|].
  destruct Hf as [Hf|(t & Ht & Hpos & _ & Hle)].
  - rewrite Hf. repeat split; try lia.
  - unfold throttle_allows in Ha. rewrite Ht in Ha. destruct (_ =? 0) eqn:Hz; [apply Z.eqb_eq in Hz; lia|].
    destruct (MAX_DATETIME <? _); [done|]. injection Ha as Ha%Z.leb_le. unfold throttle_delay in Ha.
    repeat split; try lia. replace (v_failures v + 1 - 1) with (Z.succ (v_failures v - 1)) by lia.
    rewrite Z.pow_succ_r by lia. unfold SECOND in *. lia.
Qed.

Lemma verify_code_counter v id token at_ counter drift :
  verify_code ring v id token at_ = Ok (Some (counter, drift)) -> v_last_t v < counter.
Proof.
  unfold verify_code. destruct (is_code token); [|done]. intros (seed & _ & [= Hv])%bind_result_ok.
  apply totp_minimum in Hv. lia.
Qed.

Lemma moved_verify_transaction id token at_ allow s :
  at_ <= clock (tables s) -> (forall v, devices (tables s) !! id = Some v -> v_created_at v <= at_) ->
  preserves s (verify_totp_transaction ring id token at_ allow s).2.
Proof.
  intros Hat Hcreated. apply moved_transaction.
  apply (moved_bind preserves); [apply moved; unfold get_device; solve_keeps|].
  intros v s1 Hv. unfold get_device, lookup_tables in Hv. run_inv. specialize (Hcreated v ltac:(done)).
  destruct (_ || _); [reflexivity|].
  apply (moved_bind preserves); [reflexivity|]. intros allowed s1 Ha. run_inv. destruct allowed; [|reflexivity]. cbn [negb].
  apply (moved_bind preserves); [reflexivity|]. intros code s1 Hcode. run_inv.
  intros Hok. destruct code as [[counter drift]|]; revert Hok.
  - apply (moved_bind preserves); [|reflexivity]. eapply moved_put_device; [done|].
    pose proof (verify_code_counter _ _ _ _ _ _ ltac:(done)). split; [split; try done; cbn; lia|].
    intros [[Hc _] Hd]. split; [|done]. split; [done|by left].
  - intros Hok. revert Hok. apply (moved_bind preserves); [|reflexivity]. eapply moved_put_device; [done|].
    split; [by split; try reflexivity|]. intros [Ht Hd]. split; [by apply throttled_fail|done].
Qed.

(** ** Recovery codes *)

Lemma moves_codes_where f t :
  (forall y, f y = true -> y_invalidated_at y = None) ->
  moves preserves (write (fun d => set_codes (update_where f (invalidate_code t) (codes d)) d)).
Proof.
  intros Hf s. apply preserves_codes, reworks_where; [exact _|]. intros y Hy. split; try done; cbn.
  rewrite (Hf y Hy). by intros ?.
Qed.

Lemma public_id_free d id y candidate :
  public_id_taken d candidate = false -> codes d !! id = Some y -> y_public_id y <> candidate.
Proof.
  unfold public_id_taken, any_row. intros Ht Hy He. apply not_true_iff_false in Ht. apply Ht, existsb_exists. exists (id, y).
  split; [by apply list_elem_of_In, elem_of_map_to_list|]. by apply String.eqb_eq.
Qed.

Lemma preserves_new_code s y b :
  public_id_taken (tables s) (y_public_id y) = false ->
  preserves s (State (set_codes (<[next_id (tables s) := y]> (codes (tables s)))
                        (set_next (next_id (tables s) + 1) (tables s))) b).
Proof.
  intros Ht Hok. pose proof (ok_code_ids _ Hok) as Hb. destruct Hok. split; split; cbn; try done.
  - apply insert_distinct; [|done]. intros i w a Hw _ [= <-] [= He]. by apply (public_id_free _ _ _ _ Ht Hw).
  - apply (below_mono (next_id (tables s))); [lia|done].
  - apply (below_mono (next_id (tables s))); [lia|done].
  - apply (insert_below _ (next_id (tables s))); [done|lia..].
  - apply (below_mono (next_id (tables s))); [lia|done].
  - apply (below_mono (next_id (tables s))); [lia|done].
  - by apply (insert_follows _ (next_id (tables s))).
  - lia.
Qed.
Lemma moves_create_code y : moves preserves (create_code y).
Proof.
  intros s. apply moved_tables. destruct (public_id_taken _ _) eqn:Ht; [reflexivity|]. by apply (preserves_new_code s).
Qed.
#[local] Hint Resolve moves_create_code : moves.

Lemma moves_generate owner t draw : moves preserves (generate_recovery_batch owner t draw).
Proof.
  apply moves_rolled_back. apply moves_bind; [exact _| |intros _; solve_keeps].
  apply moves_codes_where. intros y Hy. bools. by destruct (y_invalidated_at y).
Qed.

Lemma code_found (d : db) (f : Z * recovery_code -> bool) id y :
  List.find f (map_to_list (codes d)) = Some (id, y) -> codes d !! id = Some y /\ f (id, y) = true.
Proof. intros [Hin Hf]%find_some. split; [|done]. by apply elem_of_map_to_list, list_elem_of_In. Qed.

(** A code that is accepted was live, and is consumed. *)
Lemma consume_runs owner presented t s id s' :
  consume_recovery_code owner presented t s = (Ok id, s') ->
  exists y, codes (tables s) !! id = Some y /\ y_profile y = owner /\ y_consumed_at y = None /\
    y_invalidated_at y = None /\ check_password (upper (strip presented)) (y_encoded_secret y) = true /\
    s' = State (set_codes (<[id := consume_code t y]> (codes (tables s))) (tables s)) (session s).
Proof.
  intros Hr. unfold consume_recovery_code in Hr. tables_inv.
  match goal with Hf : find _ _ = Some (_, ?r) |- _ => destruct (code_found _ _ _ _ Hf) as [Hy Hc]; exists r; set (y := r) in * end.
  cbn in Hc. bools. destruct (y_consumed_at y), (y_invalidated_at y); done.
Qed.
Lemma moves_consume owner presented t : moves preserves (consume_recovery_code owner presented t).
Proof.
  intros s. destruct (consume_recovery_code owner presented t s) as [[id|e] s'] eqn:Hr.
  - destruct (consume_runs _ _ _ _ _ _ Hr) as (y & Hy & _ & Hn & _ & _ & ->). apply preserves_codes.
    apply (reworks_insert _ id y); [done|]. split; try done; cbn. rewrite Hn. by intros ?.
  - unfold consume_recovery_code in Hr. apply transaction_err in Hr as (s1 & Hr & ->).
    enough (s1 = s) as -> by by apply preserves_aside. by tables_inv.
Qed.

(** ** The owner's account *)

Lemma others_disabled d owner id p :
  existsb (fun kv => negb (kv.1 =? owner) && negb (bool_decide (Rows.a_status kv.2 = Rows.DISABLED)))
    (map_to_list (profiles d)) = false ->
  profiles d !! id = Some p -> id <> owner -> enabled p = false.
Proof.
  intros He Hp Hne. apply not_true_iff_false. intros Hen. apply not_true_iff_false in He. apply He, existsb_exists.
  exists (id, p). split; [by apply list_elem_of_In, elem_of_map_to_list|]. cbn.
  apply andb_true_iff. split; [|done]. by apply negb_true_iff, Z.eqb_neq.
Qed.
Lemma moves_save_status owner status : moves preserves (save_status owner status).
Proof.
  intros s. apply moved_tables. unfold some_or. destruct (profiles (tables s) !! owner) as [p|] eqn:Hp; [|reflexivity].
  unfold mbind at 1, ST_bind at 1. cbn [mret ST_ret]. unfold mbind at 1, ST_bind at 1, fail_if.
  destruct (negb (bool_decide _) && _) eqn:Hc; [reflexivity|]. cbn.
  intros Hok. pose proof (ok_profile_ids _ Hok) as Hb. destruct Hok.
  set (p' := Rows.AdministratorProfile (Rows.a_user p) status).
  split; split; cbn; try done.
  - apply insert_distinct; [|done]. intros i w a Hw Hne Ha Ha'. 
    destruct (enabled p') eqn:He; [|done]. unfold enabled in He. cbn in He. rewrite He in Hc. cbn in Hc.
    by rewrite (others_disabled _ _ _ _ Hc Hw Hne) in Ha.
  - apply (reworks_distinct profile_ages (profiles (tables s))); [|by intros ? ? Ha; cbn; rewrite Ha|done].
    by apply (reworks_insert _ owner p).
  - apply (reworks_below profile_ages (profiles (tables s))); [|done]. by apply (reworks_insert _ owner p).
  - apply (reworks_follows profile_ages); [|done]. by apply (reworks_insert _ owner p).
Qed.

Lemma enabled_none d id p : enabled_owner d = false -> profiles d !! id = Some p -> enabled p = false.
Proof.
  unfold enabled_owner, any_row. intros He Hp. apply not_true_iff_false. intros Hen. apply not_true_iff_false in He.
  apply He, existsb_exists. exists (id, p). split; [by apply list_elem_of_In, elem_of_map_to_list|done].
Qed.
Lemma user_free d id p u :
  any_row (fun q => Rows.a_user q =? u) (profiles d) = false -> profiles d !! id = Some p -> Rows.a_user p <> u.
Proof.
  unfold any_row. intros Ht Hp He. apply not_true_iff_false in Ht. apply Ht, existsb_exists. exists (id, p).
  split; [by apply list_elem_of_In, elem_of_map_to_list|]. by apply Z.eqb_eq.
Qed.
Lemma preserves_new_profile s p b :
  any_row (fun q => Rows.a_user q =? Rows.a_user p) (profiles (tables s)) = false ->
  enabled p && enabled_owner (tables s) = false ->
  preserves s (State (set_profiles (<[next_id (tables s) := p]> (profiles (tables s)))
                        (set_next (next_id (tables s) + 1) (tables s))) b).
Proof.
  intros Hu He Hok. pose proof (ok_profile_ids _ Hok) as Hb. destruct Hok. split; split; cbn; try done.
  - apply insert_distinct; [|done]. intros i w a Hw _ Hi Hp. destruct (enabled p); [|done]. cbn in He.
    by rewrite (enabled_none _ _ _ He Hw) in Hi.
  - apply insert_distinct; [|done]. intros i w a Hw _ [= <-] [= He']. by apply (user_free _ _ _ _ Hu Hw).
  - apply (below_mono (next_id (tables s))); [lia|done].
  - apply (below_mono (next_id (tables s))); [lia|done].
  - apply (below_mono (next_id (tables s))); [lia|done].
  - apply (insert_below _ (next_id (tables s))); [done|lia..].
  - apply (below_mono (next_id (tables s))); [lia|done].
  - by apply (insert_follows _ (next_id (tables s))).
  - lia.
Qed.
Lemma preserves_new_user s u b :
  preserves s (State (set_users (<[next_id (tables s) := u]> (users (tables s)))
                        (set_next (next_id (tables s) + 1) (tables s))) b).
Proof.
  intros Hok. pose proof (ok_user_ids _ Hok) as Hb. destruct Hok. split; split; cbn; try done.
  - apply (below_mono (next_id (tables s))); [lia|done].
  - apply (below_mono (next_id (tables s))); [lia|done].
  - apply (below_mono (next_id (tables s))); [lia|done].
  - apply (below_mono (next_id (tables s))); [lia|done].
  - apply (insert_below _ (next_id (tables s))); [done|lia..].
  - by apply (insert_follows _ (next_id (tables s))).
  - lia.
Qed.
Lemma moves_create_profile p : moves preserves (create_profile p).
Proof.
  intros s. apply moved_tables. destruct (any_row _ _) eqn:Hu; [reflexivity|].
  unfold mbind at 1, ST_bind at 1. cbn [fail_if mret ST_ret]. unfold mbind at 1, ST_bind at 1, fail_if.
  destruct (negb _ && _) eqn:He; [reflexivity|]. by apply (preserves_new_profile s).
Qed.
Lemma moves_create_user u : moves preserves (create_user u).
Proof.
  intros s. apply moved_tables. destruct (any_row _ _) eqn:Hu; [reflexivity|]. apply (preserves_new_user s).
Qed.
Lemma preserves_password s id u p b :
  users (tables s) !! id = Some u ->
  preserves s (State (set_users (<[id := User (u_username u) (u_email u) p (u_is_active u)]> (users (tables s))) (tables s)) b).
Proof.
  intros Hu Hok. destruct Hok. split; split; cbn; try done.
  - apply (reworks_below user_ages (users (tables s))); [|done]. by apply (reworks_insert _ id u).
  - apply (reworks_follows user_ages); [|done]. by apply (reworks_insert _ id u).
Qed.

#[local] Hint Resolve moves_generate moves_consume moves_save_status moves_create_profile moves_create_user moves_begin : moves.

Lemma moves_bootstrap username email password salt : moves preserves (bootstrap_owner username email password salt).
Proof. unfold bootstrap_owner, or_owner_exists. solve_keeps. Qed.
Lemma moves_reset p confirmed : moves preserves (reset_owner_mfa p confirmed).
Proof.
  apply moves_rolled_back. do 4 (apply moves_bind; [exact _|solve_keeps|intros ?]).
  apply moves_bind; [exact _|solve_keeps|intros revoked]. cbn zeta.
  apply moves_bind; [exact _| |intros _].
  { apply moves_devices_where. intros now v Hv. bools. apply reset_turns. by destruct (v_disabled_at v). }
  apply moves_bind; [exact _| |intros _; solve_keeps].
  apply moves_codes_where. intros y Hy. bools. by destruct (y_invalidated_at y).
Qed.

End credentials.
#[export] Hint Resolve moves_generate moves_consume moves_save_status moves_begin moves_bootstrap moves_reset : moves.

(** ** Requests of a signed-in owner *)

Section requests.
Context `{Sessions} `{Addresses} `{Passwords} (proxies : gset string).

Lemma moves_invalidate m t : moves preserves (invalidate_request_session m t).
Proof. unfold invalidate_request_session. solve_keeps. Qed.
#[local] Hint Resolve moves_invalidate : moves.

Lemma named_session_some owner d item id z :
  named_session owner d item = Some (id, z) -> sessions d !! id = Some z /\ z_profile z = owner.
Proof.
  unfold named_session. destruct item as [[]|]; try done. intros (i & _ & (w & Hw & Hn)%bind_Some)%bind_Some.
  destruct (z_profile w =? owner) eqn:Ho; [|done]. injection Hn as <- <-. by apply Z.eqb_eq in Ho.
Qed.

Lemma active_turns t ip z expires :
  expires = Z.min (t + ADMIN_IDLE_SECONDS * SECOND) (default 0 (z_absolute_expires_at z)) ->
  session_turns t z (with_activity t expires ip z).
Proof.
  intros ->. split; [by split; try reflexivity|]. split; [done|]. intros (a & b & e & Ha & Hb & Habs & He & Ho & Hi & Hx).
  exists a, t, (Z.min (t + ADMIN_IDLE_SECONDS * SECOND) (default 0 (z_absolute_expires_at z))). cbn.
  rewrite Habs. cbn. repeat split; try done; lia.
Qed.

Lemma moves_enforce enabled user request : moves preserves (enforce_administrator_session proxies enabled user request).
Proof.
  intros s. unfold enforce_administrator_session. destruct (negb enabled); [reflexivity|]. destruct user as [user|]; [|reflexivity].
  apply moved_tables. destruct (profile_of_user _ _) as [[owner p]|]; [|reflexivity].
  apply (moved_bind preserves); [reflexivity|]. intros at_ s1 Hn. tables_inv.
  apply (moved_bind preserves); [reflexivity|]. intros item s1 Hn. tables_inv.
  apply (moved_bind preserves); [reflexivity|]. intros key s1 Hn. tables_inv. cbn zeta.
  destruct (session_invalid _ _ _ _); [apply moved; solve_keeps|].
  destruct (named_session _ _ _) as [[id z]|] eqn:Hz; [|reflexivity]. apply named_session_some in Hz as [Hz _].
  destruct (match z_last_activity_at z with Some _ => _ | None => _ end); [|reflexivity].
  apply (moved_bind preserves); [|reflexivity]. apply moved_update. intros z' Hz'. simplify_eq. by apply active_turns.
Qed.

Lemma moves_revoke owner id actor : moves preserves (revoke_session owner id actor).
Proof. unfold revoke_session. solve_keeps. Qed.
#[local] Hint Resolve moves_revoke : moves.

Lemma moves_change_password request id current new salt : moves preserves (change_password proxies request id current new salt).
Proof.
  apply moves_rolled_back. unfold require_fresh_administrator, profile_of, get_session.
  do 3 (apply moves_bind; [exact _|solve_keeps|intros ?]). intros s. apply moved_tables.
  apply (moved_bind preserves); [apply moved; solve_keeps|]. intros u s1 Hu. tables_inv.
  apply (moved_bind preserves); [apply moved; solve_keeps|]. intros [] s1 Hr. tables_inv. cbn zeta.
  apply (moved_bind preserves); [apply moved; solve_keeps|]. intros [] s1 Hr. tables_inv.
  apply (moved_bind preserves); [by apply preserves_password|]. intros [] s1 _. revert s1.
  change (moves preserves (at_ ← now; revoked ← revoke_others a1.1 id at_; _ ← call (UpdateAuthHash (Rows.a_user a1.2));
    key ← session_key; key ← check_key id key; _ ← update_session id (fun z => with_fresh None (with_key key z));
    _ ← record_security_event "owner_password_changed" SUCCESS (Some a1) (source_ip proxies request) (Some id) "" ""
      (revoked_details revoked); mret revoked)).
  do 4 (apply moves_bind; [exact _|solve_keeps|intros ?]). intros s1.
  apply (moved_bind preserves); [apply moved; solve_keeps|]. intros k s2 (-> & _ & Hk)%check_key_ok.
  apply (moved_bind preserves); [by apply (moved_with_key id k)|]. intros [] s2 _. apply moved. solve_keeps.
Qed.

Lemma moves_regenerate request id draw : moves preserves (regenerate_recovery_codes proxies request id draw).
Proof. unfold regenerate_recovery_codes, require_fresh_administrator, profile_of, get_session. solve_keeps. Qed.
Lemma moves_revoke_owned owner id target : moves preserves (revoke_owned_session owner id target).
Proof. unfold revoke_owned_session. solve_keeps. Qed.
Lemma moves_revoke_other request id : moves preserves (revoke_other_sessions proxies request id).
Proof. unfold revoke_other_sessions, require_fresh_administrator, profile_of, get_session. solve_keeps. Qed.
Lemma moves_purge old : moves preserves (purge old).
Proof.
  apply moves_rolled_back. do 2 (apply moves_bind; [exact _|solve_keeps|intros ?]).
  apply moves_bind; [exact _| |intros n].
  { apply moves_revoke_where. intros id z Hz. bools. by destruct (z_revoked_at z). }
  intros s. apply moved_tables. cbn zeta. apply (moved_bind preserves); [|reflexivity].
  apply preserves_sessions, reworks_where; [exact _|]. intros z Hz. bools. destruct (z_revoked_at z) eqn:Hn; [done|].
  split; [split; try done; cbn; rewrite Hn; by intros ?|done].
Qed.

End requests.
#[export] Hint Resolve moves_invalidate moves_enforce moves_revoke moves_change_password moves_regenerate moves_revoke_owned
  moves_revoke_other moves_purge : moves.

(** ** Signing in *)

Section authentication.
Context `{Sessions} `{Addresses} `{Cache} `{Cursors} `{Crypto.AESGCM} `{OneTimePasswords} `{Passwords}.
Context (proxies : gset string) (secret_key : string) (ring : option Crypto.IntegrationKeyRing).

Lemma moves_check_limit key maximum window : moves preserves (check_limit key maximum window).
Proof. unfold check_limit. solve_keeps. Qed.
Lemma moves_limit_success key : moves preserves (record_limit_success key).
Proof. unfold record_limit_success. solve_keeps. Qed.
#[local] Hint Resolve moves_check_limit moves_limit_success : moves.

Lemma moves_verify_password request username password :
  moves preserves (verify_owner_password proxies secret_key request username password).
Proof. unfold verify_owner_password, check_password_limit, password_event. solve_keeps. Qed.
Lemma moves_preauthenticated : moves preserves preauthenticated_profile.
Proof. unfold preauthenticated_profile, valid_preauthentication. solve_keeps. Qed.
#[local] Hint Resolve moves_preauthenticated : moves.
Lemma moves_enrollment_profile m : moves preserves (enrollment_profile m).
Proof. unfold enrollment_profile. solve_keeps. Qed.

Lemma since_establish request owner t r : moves (since t) (establish_administrator_session proxies request owner (Some t) r).
Proof. apply moves_establish. by intros t' [= ->]. Qed.
Lemma moves_establish_now request owner r : moves preserves (establish_administrator_session proxies request owner None r).
Proof. intros s. by apply (moves_establish proxies request owner None r (clock (tables s))). Qed.
#[local] Hint Resolve since_establish moves_establish_now : moves.

Lemma moves_totp_session request p t : moves (since t) (establish_totp_session proxies request p t).
Proof. unfold establish_totp_session, totp_event. solve_since. Qed.

(** The device of a verification was read before its instant. *)
Lemma moved_verify id token at_ allow s :
  at_ = clock (tables s) -> preserves s (verify_totp ring id token at_ allow s).2.
Proof.
  intros -> Hok. revert Hok. apply (moved_bind preserves).
  - intros Hok. apply moved_verify_transaction; [lia| |done]. intros v Hv. by apply (ok_devices _ Hok id v Hv).
  - intros b s1 _. apply moved. solve_keeps.
Qed.
Lemma moved_or_record {A} (m : M A) record s :
  preserves s (m s).2 -> moves preserves record -> preserves s (or_record m record s).2.
Proof.
  intros Hm Hr. unfold or_record, catch. destruct (m s) as [[a|e] s1]; [done|]. etrans; [exact Hm|].
  apply (moved (if is_identity_error e then _ else _)). solve_keeps.
Qed.

Lemma moves_verify_totp request p token : moves preserves (verify_owner_totp proxies ring request p token).
Proof.
  unfold verify_owner_totp. apply moves_bind; [exact _|solve_keeps|intros _]. intros s. apply moved_tables.
  apply (moved_bind preserves); [reflexivity|]. intros at_ s1 Hn. tables_inv.
  destruct (newest_device _ _) as [[id v]|]; [|apply moved; unfold totp_event; solve_keeps].
  apply (moved_bind preserves); [|intros ? s1 _; apply moved; solve_keeps].
  apply moved_or_record; [by apply moved_verify|apply moves_event].
Qed.

Lemma moves_try_code owner code at_ : moves preserves (try_recovery_code owner code at_).
Proof. unfold try_recovery_code. solve_keeps. Qed.
#[local] Hint Resolve moves_try_code : moves.
Lemma moves_recovery request p code :
  moves preserves (complete_recovery_authentication_transaction proxies secret_key request p code).
Proof. unfold complete_recovery_authentication_transaction, check_recovery_limit, recovery_event. solve_keeps. Qed.

Lemma moves_logout request m : moves preserves (logout_administrator proxies request m).
Proof.
  unfold logout_administrator. apply moves_rolled_back. destruct m as [[id z0]|]; [|solve_keeps].
  apply moves_bind; [exact _|solve_keeps|intros at_]. intros s.
  apply (moved_bind preserves); [apply moved; solve_keeps|]. intros z s1 Hz. tables_inv.
  apply (moved_bind preserves); [|intros ? s1 _; apply moved; solve_keeps].
  destruct (z_revoked_at z) eqn:Hn; [reflexivity|]. apply moved_update. intros z' Hz'. simplify_eq.
  split; [split; try done; cbn; rewrite Hn; by intros ?|done].
Qed.

Lemma moves_start request p sid label nonce seed : moves preserves (start_totp_enrollment proxies ring request p sid label nonce seed).
Proof. unfold start_totp_enrollment, device_event. solve_keeps. Qed.

Lemma moved_since {A} t (m : M A) s : moves (since t) m -> since t s (m s).2.
Proof. intros Hm. apply Hm. Qed.

Lemma moves_initial request p device_id at_ draw :
  moves (since at_) (complete_initial_enrollment proxies request p device_id at_ draw).
Proof.
  apply since_transaction. apply moves_bind; [exact _|solve_since|intros locked]. intros s.
  apply (moved_bind (since at_)); [apply moved_any; solve_keeps|]. intros v s1 Hv. tables_inv.
  apply (moved_bind (since at_)); [apply moved_any; solve_keeps|]. intros [] s1 Hf. tables_inv.
  apply (moved_bind (since at_)).
  { intros _. eapply moved_put_device; [done|apply confirm_turns]. }
  intros [] s1 _. apply moved_since. unfold device_event. solve_since.
Qed.

Lemma moves_recovered request p device_id id at_ draw :
  moves preserves (complete_recovery_enrollment proxies request p device_id id at_ draw).
Proof.
  apply moves_rolled_back. apply moves_bind; [exact _|solve_keeps|intros locked]. intros s.
  apply (moved_bind preserves); [apply moved; solve_keeps|]. intros v s1 Hv. tables_inv.
  apply (moved_bind preserves); [apply moved; solve_keeps|]. intros z s1 Hz. tables_inv.
  apply (moved_bind preserves); [apply moved; solve_keeps|]. intros [] s1 Hf. tables_inv.
  apply (moved_bind preserves).
  { intros Hok. pose proof (ok_devices _ Hok) as Hdev. revert Hok. apply preserves_devices, reworks_imap. intros k w Hw. cbn.
    destruct (_ && _ && _ && _) eqn:Hc; [|done]. bools. destruct (v_disabled_at w) eqn:Hd; [done|].
    apply replace_turns; [done|]. by apply (Hdev k w Hw). }
  intros [] s1 Hw. tables_inv. apply (moved_bind preserves).
  { eapply moved_put_device; [|apply (confirm_turns _ at_ v)]. cbn. rewrite map_lookup_imap.
    match goal with Hd : devices _ !! device_id = Some v |- _ => rewrite Hd end. cbn.
    by rewrite Z.eqb_refl, andb_false_r. }
  intros [] s1 _. apply moved. unfold device_event. solve_keeps.
Qed.

Lemma moves_enroll request p m device_id at_ draw :
  moves (since at_) (complete_enrollment proxies request p m device_id at_ draw).
Proof.
  pose proof (fun i => since_any at_ _ (moves_recovered request p device_id i at_ draw)).
  pose proof (moves_initial request p device_id at_ draw). unfold complete_enrollment. solve_since.
Qed.

Lemma moves_verify_enrollment request p m device_id token :
  moves preserves (verify_enrollment proxies ring request p m device_id token).
Proof.
  intros s. unfold verify_enrollment. apply moved_tables. apply (moved_bind preserves); [apply moved; solve_keeps|].
  intros v s1 Hv. tables_inv. apply (moved_bind preserves); [reflexivity|]. intros at_ s1 Hn. tables_inv.
  apply (moved_bind preserves); [|intros ? s1 _; apply moved; solve_keeps].
  apply moved_or_record; [by apply moved_verify|apply moves_event].
Qed.

Lemma moves_verify_fresh request id p password token :
  moves preserves (verify_fresh proxies secret_key ring request id p password token).
Proof.
  intros s. unfold verify_fresh, check_password_limit. apply moved_tables. apply (moved_bind preserves); [apply moved; solve_keeps|].
  intros u s1 Hu. tables_inv. apply (moved_bind preserves); [apply moved; solve_keeps|]. intros scope s1 _. cbv zeta.
  destruct (newest_device _ _) as [[device_id v]|]; [|apply moved; unfold fresh_event; solve_keeps].
  destruct (check_password _ _); [|apply moved; unfold fresh_event; solve_keeps].
  apply (moved_bind preserves); [reflexivity|]. intros at_ s2 Hn. tables_inv.
  apply (moved_bind preserves); [|intros ? s2 _; apply moved; solve_keeps].
  apply moved_or_record; [by apply moved_verify|apply moves_event].
Qed.
Lemma moves_grant_fresh request id p scope at_ : moves preserves (grant_fresh proxies request id p scope at_).
Proof. unfold grant_fresh, fresh_event. solve_keeps. Qed.

End authentication.
#[export] Hint Resolve moves_check_limit moves_limit_success moves_verify_password moves_enrollment_profile moves_recovery
  moves_logout moves_start moves_verify_totp moves_verify_enrollment moves_verify_fresh moves_grant_fresh : moves.

End IdentityEffects.
