(* ===== verification/IdentityMarks.v ===== *)
(** * Who verified the session: the marks of a session row

    A session is marked with the instant of its second factor, with its last fresh
    verification, and with whether it is restricted to recovery.  Only four calls write a mark
    that was not there; each of them is given an instant or leaves a restricted session. *)

From S2P Require Import Prelude PyValue ToolSchemas Uuid DraftProvider EventbriteDrafts DraftRows IdentityRows RateLimits SecurityEvents Crypto KeyRing Credentials AdminSessions Authentication Transactions IdentityFacts IdentityEffects.

Module IdentityMarks.
Import Provider IdentityRows RateLimits SecurityEvents Credentials AdminSessions Authentication Transactions IdentityFacts IdentityEffects.

(** ** Calls that write no mark *)

Record same_marks (z z' : admin_session) : Prop := SameMarks {
  sm_profile : z_profile z' = z_profile z;
  sm_mfa : z_mfa_verified_at z' = z_mfa_verified_at z;
  sm_restricted : z_recovery_restricted z' = z_recovery_restricted z;
  sm_fresh : forall t, z_fresh_verified_at z' = Some t -> z_fresh_verified_at z = Some t;
}.
#[export] Instance same_marks_preorder : PreOrder same_marks.
Proof. split; [by intros z|]. intros z1 z2 z3 [] []. split; try congruence. auto. Qed.

Definition unmarked (s s' : state) : Prop := reworks same_marks (sessions (tables s)) (sessions (tables s')).
#[export] Instance unmarked_preorder : PreOrder unmarked.
Proof.
  split; [intros s id; destruct (_ !! _); by constructor|]. intros s1 s2 s3 H1 H2 id. specialize (H1 id). specialize (H2 id).
  destruct H1 as [z1 z2 H1|]; inversion H2 as [? z3 Hz|]; subst; constructor. by etrans.
Qed.

Lemma unmarked_rows s s' : sessions (tables s') = sessions (tables s) -> unmarked s s'.
Proof. intros He id. rewrite He. destruct (_ !! _); by constructor. Qed.
Lemma unmarked_write f : (forall d, sessions (f d) = sessions d) -> moves unmarked (write f).
Proof. intros Hf s. apply unmarked_rows, Hf. Qed.
Lemma unmarked_transaction {A} (m : M A) : moves unmarked m -> moves unmarked (transaction m).
Proof. intros Hm s. specialize (Hm s). unfold transaction. destruct (m s) as [[a|e] s']; [done|by apply unmarked_rows]. Qed.
Lemma unmarked_gets {A} (f : state -> A) : moves unmarked (gets f : M A).
Proof. intros s. reflexivity. Qed.
Lemma unmarked_lookup {A} (f : db -> A) : moves unmarked (lookup_tables f).
Proof. intros s. reflexivity. Qed.
Lemma unmarked_fresh : moves unmarked IdentityRows.fresh.
Proof. intros s. by apply unmarked_rows. Qed.
Lemma unmarked_item key v : moves unmarked (set_item key v).
Proof. intros s. by apply unmarked_rows. Qed.
Lemma unmarked_pop key : moves unmarked (pop_item key).
Proof. intros s. by apply unmarked_rows. Qed.
Lemma unmarked_call `{Sessions} c : moves unmarked (call c).
Proof. intros s. unfold call. destruct (call_session _ _ _) as [[]|]; by apply unmarked_rows. Qed.
Lemma unmarked_update id f : (forall z, same_marks z (f z)) -> moves unmarked (update_session id f).
Proof. intros Hf s. by apply (reworks_alter same_marks). Qed.
Lemma revoke_same t z : same_marks z (revoke_at t z).
Proof. by split. Qed.
Lemma unmarked_revoke select t : moves unmarked (revoke_where select t).
Proof.
  intros s. unfold revoke_where. unfold mbind at 1, ST_bind at 1. cbn.
  apply (reworks_imap same_marks). intros id z _. destruct (select id z); [apply revoke_same|reflexivity].
Qed.
#[export] Hint Resolve unmarked_gets unmarked_lookup unmarked_fresh unmarked_item unmarked_pop unmarked_call unmarked_revoke : moves.
#[export] Hint Extern 1 (moves unmarked (write _)) => apply unmarked_write; done : moves.
#[export] Hint Extern 1 (moves unmarked (put_device _ _)) => apply unmarked_write; done : moves.
#[export] Hint Extern 1 (moves unmarked (delete_stored _)) => apply unmarked_write; done : moves.
#[export] Hint Extern 1 (moves unmarked now) => apply unmarked_lookup : moves.
#[export] Hint Extern 1 (moves unmarked session_key) => apply unmarked_gets : moves.
#[export] Hint Extern 1 (moves unmarked (update_session _ _)) =>
  apply unmarked_update; let z := fresh in intros z; try destruct (Rows.isnull (z_revoked_at z)); by split : moves.

Ltac mark_step :=
  match goal with
  | |- moves _ _ => solve [auto with moves]
  | |- moves _ (transaction _) => apply unmarked_transaction
  | |- moves _ (let _ := _ in _) => cbv zeta
  | |- moves _ (if ?c then _ else _) => destruct c
  | |- moves _ _ => moves_step
  end.
Ltac solve_marks := repeat mark_step.

Lemma unmarked_event a o w ip sid tt ti v : moves unmarked (record_security_event a o w ip sid tt ti v).
Proof. unfold record_security_event. solve_marks. Qed.
Lemma unmarked_get_session id : moves unmarked (get_session id).
Proof. unfold get_session. solve_marks. Qed.
Lemma unmarked_get_device id : moves unmarked (get_device id).
Proof. unfold get_device. solve_marks. Qed.
Lemma unmarked_profile_of owner : moves unmarked (profile_of owner).
Proof. unfold profile_of. solve_marks. Qed.
Lemma unmarked_check_key id key : moves unmarked (check_key id key).
Proof. unfold check_key. solve_marks. Qed.
#[export] Hint Resolve unmarked_event unmarked_get_session unmarked_get_device unmarked_profile_of unmarked_check_key : moves.
Lemma unmarked_rotate `{Sessions} id : moves unmarked (rotate_administrator_session id).
Proof. unfold rotate_administrator_session. solve_marks. Qed.
#[export] Hint Resolve unmarked_rotate : moves.

Section credentials.
Context `{Crypto.AESGCM} `{OneTimePasswords} `{Passwords} (ring : option Crypto.IntegrationKeyRing).

Lemma unmarked_verify_transaction id token at_ allow : moves unmarked (verify_totp_transaction ring id token at_ allow).
Proof. unfold verify_totp_transaction. solve_marks. Qed.
#[local] Hint Resolve unmarked_verify_transaction : moves.
Lemma unmarked_verify id token at_ allow : moves unmarked (verify_totp ring id token at_ allow).
Proof. unfold verify_totp. solve_marks. Qed.
Lemma unmarked_begin p label at_ nonce seed : moves unmarked (begin_totp_enrollment ring p label at_ nonce seed).
Proof. unfold begin_totp_enrollment. solve_marks. Qed.
Lemma unmarked_generate owner t draw : moves unmarked (generate_recovery_batch owner t draw).
Proof. unfold generate_recovery_batch, create_code. solve_marks. Qed.
Lemma unmarked_consume owner presented t : moves unmarked (consume_recovery_code owner presented t).
Proof. unfold consume_recovery_code. solve_marks. Qed.
Lemma unmarked_save_status owner status : moves unmarked (save_status owner status).
Proof. unfold save_status. solve_marks. Qed.
#[local] Hint Resolve unmarked_save_status : moves.
Lemma unmarked_bootstrap username email password salt : moves unmarked (bootstrap_owner username email password salt).
Proof. unfold bootstrap_owner, or_owner_exists, create_user, create_profile. solve_marks. Qed.
Lemma unmarked_reset p confirmed : moves unmarked (reset_owner_mfa p confirmed).
Proof. unfold reset_owner_mfa. solve_marks. Qed.
End credentials.
#[export] Hint Resolve unmarked_verify_transaction unmarked_verify unmarked_begin unmarked_generate unmarked_consume
  unmarked_save_status unmarked_bootstrap unmarked_reset : moves.

Section requests.
Context `{Sessions} `{Addresses} `{Cache} `{Cursors} `{Crypto.AESGCM} `{OneTimePasswords} `{Passwords}.
Context (proxies : gset string) (secret_key : string) (ring : option Crypto.IntegrationKeyRing).

Lemma unmarked_enforce enabled user request : moves unmarked (enforce_administrator_session proxies enabled user request).
Proof. unfold enforce_administrator_session, invalidate_request_session. solve_marks. Qed.
Lemma unmarked_change request id current new salt : moves unmarked (change_password proxies request id current new salt).
Proof. unfold change_password, require_fresh_administrator, revoke_others. solve_marks. Qed.
Lemma unmarked_regenerate request id draw : moves unmarked (regenerate_recovery_codes proxies request id draw).
Proof. unfold regenerate_recovery_codes, require_fresh_administrator, revoke_others. solve_marks. Qed.
Lemma unmarked_revoke_owned owner id target : moves unmarked (revoke_owned_session owner id target).
Proof. unfold revoke_owned_session, revoke_session. solve_marks. Qed.
Lemma unmarked_revoke_other request id : moves unmarked (revoke_other_sessions proxies request id).
Proof. unfold revoke_other_sessions, require_fresh_administrator, revoke_others. solve_marks. Qed.

Lemma unmarked_purge old : moves unmarked (purge old).
Proof.
  unfold purge. apply unmarked_transaction. do 4 (apply moves_bind; [exact _|solve_marks|intros ?]).
  cbv zeta. apply moves_bind; [exact _| |intros ?; solve_marks].
  intros s. apply (reworks_where same_marks). intros z _. apply revoke_same.
Qed.
Lemma unmarked_limit key maximum window : moves unmarked (check_limit key maximum window).
Proof. unfold check_limit. solve_marks. Qed.
Lemma unmarked_success key : moves unmarked (record_limit_success key).
Proof. unfold record_limit_success. solve_marks. Qed.
#[local] Hint Resolve unmarked_limit unmarked_success : moves.
Lemma unmarked_password request username password :
  moves unmarked (verify_owner_password proxies secret_key request username password).
Proof. unfold verify_owner_password, check_password_limit, password_event. solve_marks. Qed.
Lemma unmarked_enrollment_profile m : moves unmarked (enrollment_profile m).
Proof. unfold enrollment_profile, preauthenticated_profile, valid_preauthentication. solve_marks. Qed.
Lemma unmarked_or_record {A} (m : M A) record : moves unmarked m -> moves unmarked record -> moves unmarked (or_record m record).
Proof. intros ? ?. unfold or_record. solve_marks. Qed.
#[local] Hint Resolve unmarked_or_record : moves.
Lemma unmarked_totp request p token : moves unmarked (verify_owner_totp proxies ring request p token).
Proof. unfold verify_owner_totp, totp_event. solve_marks. Qed.
Lemma unmarked_confirm request p m device_id token : moves unmarked (verify_enrollment proxies ring request p m device_id token).
Proof. unfold verify_enrollment, device_event. solve_marks. Qed.
Lemma unmarked_verify_fresh request id p password token :
  moves unmarked (verify_fresh proxies secret_key ring request id p password token).
Proof. unfold verify_fresh, check_password_limit, fresh_event. solve_marks. Qed.
Lemma unmarked_logout request m : moves unmarked (logout_administrator proxies request m).
Proof. unfold logout_administrator. solve_marks. Qed.
Lemma unmarked_start request p sid label nonce seed :
  moves unmarked (start_totp_enrollment proxies ring request p sid label nonce seed).
Proof. unfold start_totp_enrollment, device_event. solve_marks. Qed.

(** ** Calls that write a mark *)

Variable proved : Z -> Z -> Prop.

(** The marks of a row are instants that are proved for its profile. *)
Definition marks_ok (z : admin_session) : Prop :=
  match z_mfa_verified_at z with Some t => proved (z_profile z) t | None => z_recovery_restricted z = true end /\
  forall t, z_fresh_verified_at z = Some t -> proved (z_profile z) t.
Definition marked (s : state) : Prop := every marks_ok (sessions (tables s)).
Definition marking (s s' : state) : Prop := marked s -> marked s'.
#[export] Instance marking_preorder : PreOrder marking.
Proof. split; [by intros s ?|]. intros s1 s2 s3 H1' H2' ?. by apply H2', H1'. Qed.

Lemma same_marks_ok z z' : same_marks z z' -> marks_ok z -> marks_ok z'.
Proof. intros [Hp Hm Hr Hf] [Ha Hb]. unfold marks_ok. rewrite Hp, Hm, Hr. split; [done|]. intros t Ht. by apply Hb, Hf. Qed.
Lemma marking_any {A} (m : M A) : moves unmarked m -> moves marking m.
Proof. intros Hm s Hs. exact (reworks_every _ _ _ (Hm s) _ same_marks_ok Hs). Qed.
Lemma marking_transaction {A} (m : M A) : moves marking m -> moves marking (transaction m).
Proof. intros Hm s Hs. specialize (Hm s Hs). unfold transaction. by destruct (m s) as [[a|e] s']. Qed.
Lemma marking_insert id z : marks_ok z -> moves marking (write (fun d => set_sessions (<[id := z]> (sessions d)) d)).
Proof. intros Hz s Hs. by apply insert_every. Qed.
Lemma marking_update id f s :
  (forall z, sessions (tables s) !! id = Some z -> marks_ok z -> marks_ok (f z)) -> marking s (update_session id f s).2.
Proof.
  intros Hf Hs i z. cbn. destruct (decide (i = id)) as [-> |Hne].
  - rewrite lookup_alter_eq. intros (z0 & Hz0 & ->)%fmap_Some. apply Hf; [done|by apply (Hs id)].
  - rewrite lookup_alter_ne by congruence. apply Hs.
Qed.
Ltac marking_step :=
  match goal with
  | |- moves _ _ => solve [auto with moves]
  | |- moves _ (transaction _) => apply marking_transaction
  | |- moves _ (let _ := _ in _) => cbv zeta
  | |- moves _ (_ ≫= _) => apply moves_bind; [exact _| |intros ?]
  | |- moves _ _ => solve [apply marking_any; solve_marks]
  | |- moves _ (match ?x with _ => _ end) => destruct x
  end.
Ltac solve_marking := repeat marking_step.

Lemma marking_establish request owner mfa r :
  match mfa with Some t => proved owner t | None => r = true end ->
  moves marking (establish_administrator_session proxies request owner mfa r).
Proof.
  intros Hm. unfold establish_administrator_session. solve_marking.
  apply marking_insert. split; [done|by intros t].
Qed.

#[local] Hint Resolve marking_establish : moves.

Lemma marking_totp_session request p t :
  proved p.1 t -> moves marking (establish_totp_session proxies request p t).
Proof.
  intros Hp. pose proof (marking_establish request p.1 (Some t) false Hp). unfold establish_totp_session, totp_event. solve_marking.
Qed.
Lemma marking_recovery request p code : moves marking (complete_recovery_authentication proxies secret_key request p code).
Proof.
  pose proof (marking_establish request p.1 None true eq_refl).
  unfold complete_recovery_authentication, complete_recovery_authentication_transaction, check_recovery_limit, recovery_event,
    try_recovery_code. solve_marking.
Qed.
Lemma marking_initial request p device_id at_ draw :
  proved p.1 at_ -> moves marking (complete_initial_enrollment proxies request p device_id at_ draw).
Proof.
  intros Hp. apply marking_transaction. intros s. apply (moved_bind marking).
  { by apply (marking_any _ (unmarked_profile_of p.1)). }
  intros locked s1 (Hl & _ & _)%profile_of_run. rewrite <- Hl in Hp. pose proof (marking_establish request locked.1 (Some at_) false Hp).
  apply (moves_at marking). unfold device_event. solve_marking.
Qed.

(** The session of a request belongs to the profile that the request works on. *)
Definition carried_by (owner id : Z) (s : state) : Prop :=
  forall z, sessions (tables s) !! id = Some z -> z_profile z = owner.
Lemma carried_unmarked owner id s s' : unmarked s s' -> carried_by owner id s -> carried_by owner id s'.
Proof.
  intros Hu Hc z' Hz'. destruct (reworks_back _ _ _ Hu id z' Hz') as (z & Hz & Hs). rewrite (sm_profile _ _ Hs). by apply Hc.
Qed.
(** A relation that also follows whose session it is. *)
Definition carrying (owner id : Z) (s s' : state) : Prop := carried_by owner id s -> marked s -> carried_by owner id s' /\ marked s'.
#[export] Instance carrying_preorder owner id : PreOrder (carrying owner id).
Proof. split; [by intros s ? ?|]. intros s1 s2 s3 H1' H2' Hc Hm. destruct (H1' Hc Hm). by apply H2'. Qed.
Lemma carrying_any {A} owner id (m : M A) : moves unmarked m -> moves (carrying owner id) m.
Proof. intros Hu s Hc Hm. split; [exact (carried_unmarked _ _ _ _ (Hu s) Hc)|exact (marking_any m Hu s Hm)]. Qed.
Lemma carrying_update owner id f :
  (forall z, z_profile z = owner -> marks_ok z -> marks_ok (f z) /\ z_profile (f z) = owner) ->
  moves (carrying owner id) (update_session id f).
Proof.
  intros Hf s Hc Hm. split.
  - intros z. cbn. rewrite lookup_alter_eq. intros (z0 & Hz0 & ->)%fmap_Some. by apply Hf; [apply Hc|apply (Hm id)].
  - revert Hm. apply marking_update. intros z Hz Hz'. by apply Hf; [apply Hc|].
Qed.
Lemma carrying_transaction {A} owner id (m : M A) : moves (carrying owner id) m -> moves (carrying owner id) (transaction m).
Proof. intros Hm s Hc Hs. destruct (Hm s Hc Hs). unfold transaction. by destruct (m s) as [[a|e] s']. Qed.
Ltac carrying_step :=
  match goal with
  | |- moves _ _ => solve [auto with moves]
  | |- moves _ (transaction _) => apply carrying_transaction
  | |- moves _ (let _ := _ in _) => cbv zeta
  | |- moves _ (_ ≫= _) => apply moves_bind; [exact _| |intros ?]
  | |- moves _ _ => solve [apply carrying_any; solve_marks]
  | |- moves _ (match ?x with _ => _ end) => destruct x
  end.
Ltac solve_carrying := repeat carrying_step.

Lemma carrying_recovered request p device_id id at_ draw :
  proved p.1 at_ -> moves (carrying p.1 id) (complete_recovery_enrollment proxies request p device_id id at_ draw).
Proof.
  intros Hp. unfold complete_recovery_enrollment, device_event, revoke_others, get_profile. solve_carrying.
  apply carrying_update. intros z Hz [_ Hf]. split; [|done]. split; [cbn; by rewrite Hz|done].
Qed.
Lemma carrying_grant request id p scope at_ :
  proved p.1 at_ -> moves (carrying p.1 id) (grant_fresh proxies request id p scope at_).
Proof.
  intros Hp. unfold grant_fresh, fresh_event. solve_carrying.
  apply carrying_update. intros z Hz [Hm Hf]. split; [|done]. split; [done|]. cbn. rewrite Hz. by intros t [= <-].
Qed.

Lemma marked_enroll request p m device_id at_ draw s :
  proved p.1 at_ ->
  (forall id z, m = Some (id, z) -> Rows.a_status p.2 = Rows.RECOVERY_REQUIRED -> carried_by p.1 id s) ->
  marking s (complete_enrollment proxies request p m device_id at_ draw s).2.
Proof.
  intros Hp Hc Hm. unfold complete_enrollment. destruct (Rows.a_status p.2) eqn:Hs; try done.
  - revert Hm. by apply marking_initial.
  - destruct m as [[id z]|]; [|done]. destruct (z_recovery_restricted z); [|done].
    destruct (carrying_recovered request p device_id id at_ draw Hp s); [by eapply Hc|done|done].
Qed.

End requests.
#[export] Hint Resolve unmarked_enforce unmarked_change unmarked_regenerate unmarked_revoke_owned unmarked_revoke_other
  unmarked_purge unmarked_limit unmarked_success unmarked_password unmarked_enrollment_profile unmarked_totp
  unmarked_confirm unmarked_verify_fresh unmarked_logout unmarked_start : moves.

End IdentityMarks.
