(* ===== verification/IdentitySystem.v ===== *)
(** * The owner's identity as a system

    Requests, management commands and the clock take turns on the shared tables: one step is
    one call of a service, made with any session object, on a profile that may have been read
    long before.  A verification and what it is used for are different steps; between them the
    request holds the instant of the verification. *)

From Stdlib Require Import Sorted.
From S2P Require Import Prelude PyValue ToolSchemas Uuid DraftProvider EventbriteDrafts DraftRows IdentityRows RateLimits SecurityEvents Crypto KeyRing Credentials AdminSessions Authentication Transactions IdentityFacts IdentityEffects IdentityMarks.

Module IdentitySystem.
Import Provider IdentityRows RateLimits SecurityEvents Credentials AdminSessions Authentication Transactions IdentityFacts IdentityEffects IdentityMarks.

(** ** The history of accepted codes *)

Record accepted := Accepted { c_device : Z; c_counter : Z; c_owner : Z; c_at : option Z }.

(** The devices whose counter has grown. *)
Definition accepted_of (d : db) (kv : Z * totp_device) : list accepted :=
  match devices d !! kv.1 with
  | Some v => if v_last_t v <? v_last_t kv.2 then [Accepted kv.1 (v_last_t kv.2) (v_profile kv.2) (v_last_used_at kv.2)] else []
  | None => []
  end.
Definition accepted_between (d d' : db) : list accepted := concat (map (accepted_of d) (map_to_list (devices d'))).

(** What a request may do with a code that was accepted. *)
Inductive purpose := SignIn | Enrol | Fresh.
Record verification := Verified { w_purpose : purpose; w_owner : Z; w_at : Z }.

Record system := System { rows : db; history : list accepted; verified : list verification }.
Definition after (s : system) (d : db) (new : list verification) : system :=
  System d (accepted_between (rows s) d ++ history s) (new ++ verified s).

Definition set_clock (t : Z) (d : db) : db :=
  DB (users d) (profiles d) (devices d) (codes d) (sessions d) (events d) (stored d) (cache d) t (next_id d).

Section services.
Context `{Sessions} `{Addresses} `{Cache} `{Cursors} `{Crypto.AESGCM} `{OneTimePasswords} `{Passwords}.
Context (proxies : gset string) (secret_key : string) (ring : option Crypto.IntegrationKeyRing).

(** The calls that need no verification of the request itself, or make their own. *)
Inductive service (d : db) : forall {A}, M A -> Prop :=
| sv_password request username password : service d (verify_owner_password proxies secret_key request username password)
| sv_preauthenticated m : service d (enrollment_profile m)
| sv_code id token at_ allow : at_ <= clock d -> (forall v, devices d !! id = Some v -> v_created_at v <= at_) ->
    service d (verify_totp_transaction ring id token at_ allow)
| sv_recovery request p code : service d (complete_recovery_authentication proxies secret_key request p code)
| sv_logout request m : service d (logout_administrator proxies request m)
| sv_start request p sid label nonce seed : service d (start_totp_enrollment proxies ring request p sid label nonce seed)
| sv_enforce enabled user request : service d (enforce_administrator_session proxies enabled user request)
| sv_change request id current new salt : service d (change_password proxies request id current new salt)
| sv_regenerate request id draw : service d (regenerate_recovery_codes proxies request id draw)
| sv_revoke owner id target : service d (revoke_owned_session owner id target)
| sv_revoke_other request id : service d (revoke_other_sessions proxies request id)
| sv_purge old : service d (purge old)
| sv_bootstrap username email password salt : service d (bootstrap_owner username email password salt)
| sv_reset p confirmed : service d (reset_owner_mfa p confirmed)
| sv_event a o w ip sid tt ti v : service d (record_security_event a o w ip sid tt ti v)
| sv_limit key maximum window : service d (check_limit key maximum window)
| sv_framework c : service d (call c).

Inductive step (s : system) : system -> Prop :=
| step_service {A} (m : M A) b r s1 :
    service (rows s) m -> m (State (rows s) b) = (r, s1) -> step s (after s (tables s1) [])
| step_totp request p token b r s1 :
    verify_owner_totp proxies ring request p token (State (rows s) b) = (r, s1) ->
    step s (after s (tables s1) (match r with Ok t => [Verified SignIn p.1 t] | Err _ => [] end))
| step_confirm request p m device_id token b r s1 :
    verify_enrollment proxies ring request p m device_id token (State (rows s) b) = (r, s1) ->
    step s (after s (tables s1) (match r with Ok t => [Verified Enrol p.1 t] | Err _ => [] end))
| step_fresh request id p password token b r s1 :
    verify_fresh proxies secret_key ring request id p password token (State (rows s) b) = (r, s1) ->
    step s (after s (tables s1) (match r with Ok v => [Verified Fresh p.1 v.2] | Err _ => [] end))
| step_sign_in request p t b r s1 :
    Verified SignIn p.1 t ∈ verified s ->
    establish_totp_session proxies request p t (State (rows s) b) = (r, s1) -> step s (after s (tables s1) [])
| step_enrol request p m device_id t draw b r s1 :
    Verified Enrol p.1 t ∈ verified s ->
    (forall id z, m = Some (id, z) -> Rows.a_status p.2 = Rows.RECOVERY_REQUIRED -> carried_by p.1 id (State (rows s) b)) ->
    complete_enrollment proxies request p m device_id t draw (State (rows s) b) = (r, s1) -> step s (after s (tables s1) [])
| step_grant request id p scope t b r s1 :
    Verified Fresh p.1 t ∈ verified s -> carried_by p.1 id (State (rows s) b) ->
    grant_fresh proxies request id p scope t (State (rows s) b) = (r, s1) -> step s (after s (tables s1) [])
| step_tick t : clock (rows s) <= t -> step s (after s (set_clock t (rows s)) []).

(** A new installation. *)
Definition initial (s : system) : Prop :=
  users (rows s) = ∅ /\ profiles (rows s) = ∅ /\ devices (rows s) = ∅ /\ codes (rows s) = ∅ /\ sessions (rows s) = ∅ /\
  events (rows s) = [] /\ history s = [] /\ verified s = [].
Definition reachable (s : system) : Prop := exists s0, initial s0 /\ rtc step s0 s.

End services.

(** ** The invariant *)

Section history.
Context (d d' : db).
Lemma accepted_between_elem a : a ∈ accepted_between d d' <-> exists v v',
  devices d !! c_device a = Some v /\ devices d' !! c_device a = Some v' /\ v_last_t v < v_last_t v' /\
  a = Accepted (c_device a) (v_last_t v') (v_profile v') (v_last_used_at v').
Proof.
  unfold accepted_between. rewrite list_elem_of_In, in_concat. split.
  - intros (l & ([id v'] & <- & Hin%list_elem_of_In%elem_of_map_to_list)%in_map_iff & Ha). unfold accepted_of in Ha. cbn in Ha.
    destruct (devices d !! id) as [v|] eqn:Hv; [|done]. destruct (_ <? _) eqn:Hlt; [|done]. destruct Ha as [<-|[]]. bools.
    by exists v, v'.
  - intros (v & v' & Hv & Hv' & Hlt & ->). cbn in *. eexists. split.
    + apply in_map, list_elem_of_In, elem_of_map_to_list, Hv'.
    + unfold accepted_of. cbn. rewrite Hv. apply Z.ltb_lt in Hlt. rewrite Hlt. by left.
Qed.
Lemma accepted_between_devices : NoDup (map c_device (accepted_between d d')).
Proof.
  unfold accepted_between. pose proof (NoDup_fst_map_to_list (devices d')) as Hn. induction (map_to_list (devices d')) as [|[id v] l IH].
  { apply NoDup_nil_2. }
  cbn in *. apply NoDup_cons in Hn as [Hnin Hn]. rewrite map_app. apply NoDup_app. split; [|split; [|by apply IH]].
  - unfold accepted_of. cbn. destruct (devices d !! id); [|apply NoDup_nil_2].
    destruct (_ <? _); [apply NoDup_singleton|apply NoDup_nil_2].
  - intros x Hx Hx'. destruct Hnin. apply list_elem_of_In in Hx, Hx'. apply in_map_iff in Hx as (a & <- & Ha).
    assert (c_device a = id) as Hi.
    { unfold accepted_of in Ha. cbn in Ha. destruct (devices d !! id); [|done]. destruct (_ <? _); [|done].
      by destruct Ha as [<-|[]]. }
    apply in_map_iff in Hx' as (a' & He & Ha'). apply in_concat in Ha' as (l' & (kv & <- & Hin)%in_map_iff & Ha').
    assert (c_device a' = kv.1) as Hk.
    { unfold accepted_of in Ha'. destruct (devices d !! kv.1); [|done]. destruct (_ <? _); [|done]. by destruct Ha' as [<-|[]]. }
    rewrite Hi in He. rewrite <- He, Hk. apply list_elem_of_In, in_map, Hin.
Qed.
End history.

(** A newer acceptance by the same device is of a greater counter. *)
Definition newer_code (a a' : accepted) : Prop := c_device a = c_device a' -> c_counter a' < c_counter a.

Definition counted (d : db) (a : accepted) : Prop :=
  exists v, devices d !! c_device a = Some v /\ c_counter a <= v_last_t v /\ v_profile v = c_owner a.

(** An accepted code of an authenticator of the owner, used at the instant. *)
Definition proved (h : list accepted) (owner t : Z) : Prop := exists a, a ∈ h /\ c_owner a = owner /\ c_at a = Some t.

Record system_ok (s : system) : Prop := SystemOk {
  sy_tables : tables_ok (rows s);
  sy_counted : forall a, a ∈ history s -> counted (rows s) a;
  sy_sorted : StronglySorted newer_code (history s);
  sy_verified : forall w, w ∈ verified s -> w_at w <= clock (rows s) /\ proved (history s) (w_owner w) (w_at w);
  sy_marks : every (marks_ok (proved (history s))) (sessions (rows s));
}.

Lemma proved_app h h' owner t : proved h owner t -> proved (h' ++ h) owner t.
Proof. intros (a & Ha & ?). exists a. split; [|done]. apply elem_of_app. by right. Qed.
Lemma marks_ok_mono (Q Q' : Z -> Z -> Prop) z : (forall o t, Q o t -> Q' o t) -> marks_ok Q z -> marks_ok Q' z.
Proof. intros Hq [Hm Hf]. split; [destruct (z_mfa_verified_at z); auto|auto]. Qed.

Lemma sorted_app {A} (R : A -> A -> Prop) l l' :
  StronglySorted R l -> StronglySorted R l' -> (forall x y, x ∈ l -> y ∈ l' -> R x y) -> StronglySorted R (l ++ l').
Proof.
  intros Hl Hl' Hx. induction Hl as [|x l Hl IH Hf]; [done|]. cbn. constructor.
  - apply IH. intros a b Ha Hb. apply Hx; [by right|done].
  - apply List.Forall_forall. intros y Hy. apply in_app_or in Hy as [Hy|Hy].
    + rewrite List.Forall_forall in Hf. by apply Hf.
    + apply Hx; [by left|by apply list_elem_of_In].
Qed.
Lemma sorted_distinct (l : list accepted) : NoDup (map c_device l) -> StronglySorted newer_code l.
Proof.
  induction l as [|a l IH]; intros Hn; constructor; cbn in Hn; apply NoDup_cons in Hn as [Hnin Hn]; [by apply IH|].
  apply List.Forall_forall. intros b Hb He. destruct Hnin. rewrite He. by apply list_elem_of_In, in_map.
Qed.

(** What one step does: the tables advance, the new verifications are proved, the marks too. *)
Lemma after_ok s d new :
  system_ok s -> tables_ok d -> advances (rows s) d ->
  (forall w, w ∈ new -> w_at w <= clock d /\ proved (accepted_between (rows s) d) (w_owner w) (w_at w)) ->
  every (marks_ok (proved (accepted_between (rows s) d ++ history s))) (sessions d) ->
  system_ok (after s d new).
Proof.
  intros [Ht Hc Hs Hv Hm] Hok Ha Hnew Hmarks. split; cbn; try done.
  - intros a [Hin|Hin]%elem_of_app.
    + apply accepted_between_elem in Hin as (v & v' & _ & Hv' & _ & ->). cbn. exists v'. split; [done|]. cbn. split; [lia|done].
    + destruct (Hc a Hin) as (v & Hv1 & Hle & Hp). destruct (adv_devices _ _ Ha _ _ Hv1) as (v' & Hv' & [Hp' _ _ Hle' _ _]).
      exists v'. split; [done|]. split; [lia|congruence].
  - apply sorted_app; [apply sorted_distinct, accepted_between_devices|done|].
    intros a b Hin Hb He. apply accepted_between_elem in Hin as (v & v' & Hv1 & _ & Hlt & ->). cbn in *.
    destruct (Hc b Hb) as (w & Hw & Hle & _). rewrite <- He in Hw. simplify_eq. lia.
  - intros w [Hw|Hw]%elem_of_app.
    + destruct (Hnew w Hw) as [Hle (a & Hin & Hp)]. split; [done|]. exists a. split; [|done]. apply elem_of_app. by left.
    + destruct (Hv w Hw) as [Hle Hp]. split; [pose proof (adv_clock _ _ Ha); lia|by apply proved_app].
Qed.

(** ** The steps keep it *)

Section steps.
Context `{Sessions} `{Addresses} `{Cache} `{Cursors} `{Crypto.AESGCM} `{OneTimePasswords} `{Passwords}.
Context (proxies : gset string) (secret_key : string) (ring : option Crypto.IntegrationKeyRing).

Lemma moves_complete_recovery request p code :
  moves preserves (complete_recovery_authentication proxies secret_key request p code).
Proof. unfold complete_recovery_authentication. pose proof (moves_recovery proxies secret_key request p code). solve_keeps. Qed.

Lemma service_moves d {A} (m : M A) b :
  service proxies secret_key ring d m ->
  preserves (State d b) (m (State d b)).2 /\ forall Q, marking Q (State d b) (m (State d b)).2.
Proof.
  assert (forall B (n : M B), moves preserves n -> moves unmarked n ->
    preserves (State d b) (n (State d b)).2 /\ forall Q, marking Q (State d b) (n (State d b)).2) as Hboth.
  { intros B n Hp Hu. split; [apply Hp|]. intros Q. by apply (marking_any Q n Hu). }
  destruct 1; try (apply Hboth; solve [auto with moves]).
  - split; [by apply moved_verify_transaction|]. intros Q. by apply (marking_any Q _ (unmarked_verify_transaction ring id token at_ allow)).
  - split; [apply moves_complete_recovery|]. intros Q. apply (marking_recovery proxies secret_key Q).
Qed.

(** *** What a verification is worth *)

Lemma or_record_ok {A} (m : M A) record s a s' : or_record m record s = (Ok a, s') -> m s = (Ok a, s').
Proof.
  unfold or_record, catch. destruct (m s) as [[b|e] s1]; [done|]. destruct (is_identity_error e); [|done].
  intros Hr. by tables_inv.
Qed.

(** A code is accepted by a usable device whose throttle allows it, for a new counter. *)
Lemma verify_totp_runs id token at_ allow s u s' :
  verify_totp ring id token at_ allow s = (Ok u, s') ->
  exists v counter drift, devices (tables s) !! id = Some v /\
    v_disabled_at v = None /\ v_replaced_at v = None /\ (v_confirmed v || allow = true) /\ throttle_allows v at_ = Ok true /\
    verify_code ring v id token at_ = Ok (Some (counter, drift)) /\
    s' = State (set_devices (<[id := use_device counter drift at_ v]> (devices (tables s))) (tables s)) (session s).
Proof.
  unfold verify_totp, verify_totp_transaction. intros Hr. tables_inv.
  match goal with Hb : negb ?b = false |- _ => destruct b; [clear Hb|done] end.
  destruct (_ || _) eqn:Hg; [by tables_inv|]. tables_inv.
  match goal with Hb : (if negb ?b then _ else _) _ = _ |- _ => destruct b; cbn [negb] in Hb; [|by tables_inv] end.
  tables_inv. match goal with Hb : (match ?o with Some _ => _ | None => _ end) _ = _ |- _ => destruct o as [[counter drift]|] end.
  - tables_inv. eexists _, counter, drift. bools. destruct (v_disabled_at _) eqn:?, (v_replaced_at _) eqn:?; try done.
    repeat split; try done. destruct (v_confirmed _); [done|]. by destruct allow.
  - by tables_inv.
Qed.

Lemma newest_device_some f m id v : newest_device f m = Some (id, v) -> m !! id = Some v /\ f v = true.
Proof.
  unfold newest_device. assert (forall l best,
    (forall kv, kv ∈ l -> m !! kv.1 = Some kv.2 /\ f kv.2 = true) ->
    (forall b, best = Some b -> m !! b.1 = Some b.2 /\ f b.2 = true) ->
    forall b, fold_left (fun best kv => match best with Some b => if later_device kv.2 b.2 then Some kv else Some b | None => Some kv end)
      l best = Some b -> m !! b.1 = Some b.2 /\ f b.2 = true) as Hfold.
  { induction l as [|kv l IH]; intros best Hl Hbest b; cbn; [by apply Hbest|].
    apply IH; [intros x Hx; apply Hl; by right|]. intros x Hx. destruct best as [b0|].
    - destruct (later_device _ _); injection Hx as <-; [apply Hl; by left|by apply Hbest].
    - injection Hx as <-. apply Hl. by left. }
  intros Hn. refine (Hfold _ None _ _ (id, v) Hn); [|done]. intros [k w] Hin. unfold rows_where in Hin.
  apply list_elem_of_In, filter_In in Hin as [Hin Hf]. split; [by apply elem_of_map_to_list, list_elem_of_In|done].
Qed.

Lemma verified_device d d' id v counter drift at_ owner :
  devices d !! id = Some v -> v_profile v = owner -> v_last_t v < counter ->
  devices d' = <[id := use_device counter drift at_ v]> (devices d) ->
  proved (accepted_between d d') owner at_.
Proof.
  intros Hv <- Hlt Hd. exists (Accepted id counter (v_profile v) (Some at_)). split; [|done].
  apply accepted_between_elem. exists v, (use_device counter drift at_ v). rewrite Hd. cbn. by rewrite lookup_insert_eq.
Qed.

Ltac accept :=
  match goal with Hv : or_record (verify_totp _ _ _ _ _) _ _ = (Ok _, _) |- _ =>
    apply or_record_ok, verify_totp_runs in Hv as (v & counter & drift & Hv & _ & _ & _ & _ & Hc & ->) end.
Lemma owner_totp_proves request p token d b t s' :
  verify_owner_totp proxies ring request p token (State d b) = (Ok t, s') ->
  t <= clock (tables s') /\ proved (accepted_between d (tables s')) p.1 t.
Proof.
  unfold verify_owner_totp. intros Hr. tables_inv. destruct (newest_device _ _) as [[id v0]|] eqn:Hn; [|by tables_inv].
  tables_inv. accept. cbn in *. apply newest_device_some in Hn as [Hd Hu]. simplify_eq. split; [lia|].
  unfold usable_device in Hu. bools. by eapply verified_device; [done|done|eapply verify_code_counter|].
Qed.
Lemma enrollment_proves request p m device_id token d b t s' :
  verify_enrollment proxies ring request p m device_id token (State d b) = (Ok t, s') ->
  t <= clock (tables s') /\ proved (accepted_between d (tables s')) p.1 t.
Proof.
  unfold verify_enrollment. intros Hr. tables_inv. accept. cbn in *. split; [lia|].
  match goal with Ho : (_ ≫= _) = Some _ |- _ => apply bind_Some in Ho as (v0 & Hd & Hu) end. simplify_eq.
  destruct (_ && _ && _ && _) eqn:Hc'; [|done]. bools. by eapply verified_device; [done|done|eapply verify_code_counter|].
Qed.
Lemma fresh_proves request id p password token d b w s' :
  verify_fresh proxies secret_key ring request id p password token (State d b) = (Ok w, s') ->
  w.2 <= clock (tables s') /\ proved (accepted_between d (tables s')) p.1 w.2.
Proof.
  unfold verify_fresh. intros Hr. tables_inv. destruct (newest_device _ _) as [[did v0]|] eqn:Hn; [|by tables_inv].
  destruct (check_password _ _); [|by tables_inv]. tables_inv. accept. cbn in *.
  apply newest_device_some in Hn as [Hd Hu]. unfold check_password_limit, check_limit in *. tables_inv.
  destruct (count_attempt _ _ _ _) as [[n mc]|]; [|by tables_inv]. tables_inv. cbn in *. simplify_eq. split; [lia|].
  unfold usable_device in Hu. bools. by eapply verified_device; [done|done|eapply verify_code_counter|].
Qed.

(** *** Every step *)

Abbreviation step := (step proxies secret_key ring).

Lemma marks_after s d b (new : list accepted) s1 :
  every (marks_ok (proved (history s))) (sessions d) -> marking (proved (new ++ history s)) (State d b) s1 ->
  every (marks_ok (proved (new ++ history s))) (sessions (tables s1)).
Proof. intros Hm Hmark. apply Hmark. eapply every_mono; [|exact Hm]. intros z. apply marks_ok_mono. apply proved_app. Qed.

Lemma step_run s {A} (m : M A) b r s1 new :
  system_ok s -> m (State (rows s) b) = (r, s1) -> preserves (State (rows s) b) (m (State (rows s) b)).2 ->
  (forall h, (forall o t, proved (history s) o t -> proved h o t) -> marking (proved h) (State (rows s) b) (m (State (rows s) b)).2) ->
  (forall w, w ∈ new -> w_at w <= clock (tables s1) /\ proved (accepted_between (rows s) (tables s1)) (w_owner w) (w_at w)) ->
  system_ok (after s (tables s1) new) /\ advances (rows s) (tables s1).
Proof.
  intros Hs Hr Hp Hm Hn. rewrite Hr in Hp, Hm. destruct (Hp (sy_tables _ Hs)) as [Hok Ha]. split; [|done].
  apply after_ok; try done. eapply (marks_after s _ b); [apply Hs|]. apply Hm. intros o t. apply proved_app.
Qed.

Lemma step_ok s s' : system_ok s -> step s s' -> system_ok s' /\ advances (rows s) (rows s').
Proof.
  intros Hs Hstep. pose proof (sy_verified _ Hs) as Hv.
  destruct Hstep as [A m b r s1 Hm Hr|request p token b r s1 Hr|request p m did token b r s1 Hr|request id p pw token b r s1 Hr
    |request p t b r s1 Hw Hr|request p m did t draw b r s1 Hw Hc Hr|request id p scope t b r s1 Hw Hc Hr|t Ht].
  - destruct (service_moves _ m b Hm) as [Hp Hq]. apply (step_run s m b r); try done. by intros w Hw%not_elem_of_nil.
  - apply (step_run s _ b r s1 _ Hs Hr); [by apply moves_verify_totp| |].
    + intros h _. by apply marking_any; auto with moves.
    + destruct r as [t|]; [|by intros w Hw%not_elem_of_nil]. intros w ->%list_elem_of_singleton. by apply owner_totp_proves in Hr.
  - apply (step_run s _ b r s1 _ Hs Hr); [by apply moves_verify_enrollment| |].
    + intros h _. by apply marking_any; auto with moves.
    + destruct r as [t|]; [|by intros w Hw%not_elem_of_nil]. intros w ->%list_elem_of_singleton. by apply enrollment_proves in Hr.
  - apply (step_run s _ b r s1 _ Hs Hr); [by apply moves_verify_fresh| |].
    + intros h _. by apply marking_any; auto with moves.
    + destruct r as [t|]; [|by intros w Hw%not_elem_of_nil]. intros w ->%list_elem_of_singleton. by apply fresh_proves in Hr.
  - destruct (Hv _ Hw) as [Hle Hp]. cbn in *. apply (step_run s _ b r s1 _ Hs Hr); [by apply (moves_totp_session proxies request p t)| |].
    + intros h Hh. apply marking_totp_session. by apply Hh.
    + by intros w Hw'%not_elem_of_nil.
  - destruct (Hv _ Hw) as [Hle Hp]. cbn in *. apply (step_run s _ b r s1 _ Hs Hr).
    + by apply (moves_enroll proxies request p m did t draw).
    + intros h Hh. apply marked_enroll; [by apply Hh|done].
    + by intros w Hw'%not_elem_of_nil.
  - destruct (Hv _ Hw) as [Hle Hp]. cbn in *. apply (step_run s _ b r s1 _ Hs Hr).
    + by apply moves_grant_fresh.
    + intros h Hh Hm. by apply (carrying_grant proxies (proved h) request id p scope t (Hh _ _ Hp) (State (rows s) b)).
    + by intros w Hw'%not_elem_of_nil.
  - assert (tables_ok (set_clock t (rows s))) as Hok.
    { destruct (sy_tables _ Hs). split; cbn; try done.
      - eapply every_mono; [|done]. intros z. by apply session_ok_later.
      - eapply every_mono; [|done]. intros v. by apply device_ok_later. }
    assert (advances (rows s) (set_clock t (rows s))) as Ha by (by split; cbn; try reflexivity).
    split; [|done]. apply after_ok; try done; [by intros w Hw%not_elem_of_nil|].
    cbn. eapply every_mono; [|apply (sy_marks _ Hs)]. intros z. apply marks_ok_mono. intros o t0. apply proved_app.
Qed.

Lemma steps_ok s s' : system_ok s -> rtc step s s' -> system_ok s' /\ advances (rows s) (rows s').
Proof.
  intros Hok Hs. induction Hs as [s|s s1 s2 Hstep _ IH]; [split; [done|reflexivity]|].
  destruct (step_ok _ _ Hok Hstep) as [Hok1 Ha1], (IH Hok1) as [Hok2 Ha2]. split; [done|by etrans].
Qed.

Lemma empty_sound s : initial s -> system_ok s.
Proof.
  intros (Hu & Hp & Hv & Hy & Hz & _ & Hh & Hw). split; rewrite ?Hh, ?Hw, ?Hz.
  - split; rewrite ?Hu, ?Hp, ?Hv, ?Hy, ?Hz; try (by intros ? ? ?%lookup_empty_Some); by intros ? ? ? ? ? ?%lookup_empty_Some.
  - by intros a Ha%not_elem_of_nil.
  - constructor.
  - by intros w Hx%not_elem_of_nil.
  - by intros ? ? ?%lookup_empty_Some.
Qed.

Lemma reachable_sound s : reachable proxies secret_key ring s -> system_ok s.
Proof. intros (s0 & Hi & Hs). by apply (steps_ok s0 s); [apply empty_sound|]. Qed.

(** The tables between two moments of a run. *)
Lemma later_ok s s' : reachable proxies secret_key ring s -> rtc step s s' -> system_ok s' /\ advances (rows s) (rows s').
Proof. intros Hr. apply steps_ok. by apply reachable_sound. Qed.

End steps.
End IdentitySystem.
