(* ===== verification/IdentityTheorems.v ===== *)
(** * What the owner's identity promises

    Properties of every reachable state of IdentitySystem, whatever interleaves. *)

From S2P Require Import Prelude PyValue ToolSchemas Uuid DraftProvider EventbriteDrafts DraftRows IdentityRows RateLimits SecurityEvents Crypto KeyRing Credentials AdminSessions Authentication Transactions IdentityFacts IdentityEffects IdentityMarks IdentitySystem.

Module IdentitySafety.
Import Provider IdentityRows RateLimits SecurityEvents Credentials AdminSessions Authentication Transactions IdentityFacts IdentityEffects IdentityMarks IdentitySystem.

(** ** Runs taken apart *)

Section runs.
Context `{Sessions} `{Addresses} (proxies : gset string).

Lemma profile_of_user_some d user owner p :
  profile_of_user d user = Some (owner, p) -> profiles d !! owner = Some p /\ Rows.a_user p = user.
Proof.
  unfold profile_of_user. intros [Hin Hu]%find_some. split; [by apply elem_of_map_to_list, list_elem_of_In|].
  by apply Z.eqb_eq in Hu.
Qed.

Lemma expired_false o t : expired o t = false -> exists e, o = Some e /\ t < e.
Proof. destruct o as [e|]; [|done]. cbn. intros He%Z.leb_gt. by exists e. Qed.

(** What [enforce_administrator_session] has checked when it returns a session. *)
Lemma enforce_runs user request d b id z s1 :
  enforce_administrator_session proxies true (Some user) request (State d b) = (Ok (Some (id, z)), s1) ->
  exists z0 p, sessions d !! id = Some z0 /\ profiles d !! z_profile z0 = Some p /\ Rows.a_user p = user /\
    Rows.a_status p <> Rows.DISABLED /\ s_key b = Some (z_session_key z0) /\ z_revoked_at z0 = None /\
    expired (z_expires_at z0) (clock d) = false /\ expired (z_absolute_expires_at z0) (clock d) = false /\
    (z = z0 \/ exists expires, z = with_activity (clock d) expires (source_ip proxies request) z0) /\
    sessions (tables s1) !! id = Some z.
Proof.
  unfold enforce_administrator_session. cbn [negb]. intros Hr. tables_inv.
  destruct (profile_of_user _ _) as [[owner p]|] eqn:Hp; [|by tables_inv]. tables_inv.
  destruct (session_invalid _ _ _ _) eqn:Hi; [by tables_inv|].
  destruct (named_session _ _ _) as [[id' z0]|] eqn:Hn; [|by tables_inv].
  apply profile_of_user_some in Hp as [Hp Hu]. apply named_session_some in Hn as [Hz Ho].
  unfold session_invalid in Hi. bools. destruct (z_revoked_at z0) eqn:Hrev; [done|]. cbn in *.
  destruct (match z_last_activity_at z0 with Some _ => _ | None => _ end); tables_inv; simplify_eq.
  - eexists z0, p. repeat split; try done; [right; by eexists|]. cbn. by rewrite lookup_alter_eq, Hz.
  - eexists _, p. repeat split; try done. by left.
Qed.

Lemma revoke_where_run select t s n s' :
  revoke_where select t s = (Ok n, s') ->
  sessions (tables s') = map_imap (fun id z => Some (if select id z then revoke_at t z else z)) (sessions (tables s)) /\
  codes (tables s') = codes (tables s) /\ profiles (tables s') = profiles (tables s) /\ clock (tables s') = clock (tables s) /\
  next_id (tables s') = next_id (tables s).
Proof. unfold revoke_where. intros Hr. by tables_inv. Qed.

(** Every session of the profile but one is revoked. *)
Definition only_session (owner id : Z) (d : db) : Prop :=
  forall id' z, sessions d !! id' = Some z -> z_profile z = owner -> id' <> id -> z_revoked_at z <> None.

Lemma revoke_others_only owner id t s n s' : revoke_others owner id t s = (Ok n, s') -> only_session owner id (tables s').
Proof.
  unfold revoke_others. intros (Hs & _ & _ & _ & _)%revoke_where_run. intros id' z. rewrite Hs, map_lookup_imap. intros (w & _ & [= <-])%bind_Some Hp Hne.
  destruct (others_of _ _ _ _) eqn:Ho; [done|]. unfold others_of, live_of in Ho.
  destruct (z_revoked_at w) eqn:Hr; [done|]. rewrite Hp, Z.eqb_refl in Ho. cbn in Ho. bools. done.
Qed.

Lemma only_session_kept owner id s s' :
  unmarked s s' -> advances (tables s) (tables s') -> only_session owner id (tables s) -> only_session owner id (tables s').
Proof.
  intros Hu Ha Ho id' z' Hz' Hp Hne Hr. destruct (reworks_back _ _ _ Hu id' z' Hz') as (z & Hz & Hs).
  destruct (adv_sessions _ _ Ha _ _ Hz) as (z2 & Hz2 & Hage). rewrite Hz' in Hz2. injection Hz2 as <-.
  rewrite (sm_profile _ _ Hs) in Hp. destruct (z_revoked_at z) as [t|] eqn:Ht; [|by apply (Ho id' z)].
  by rewrite (sa_revoked _ _ Hage t Ht) in Hr.
Qed.

(** The new row of a session, and nothing else of the tables but Django's sessions. *)
Lemma establish_run request owner mfa r s id z s' :
  establish_administrator_session proxies request owner mfa r s = (Ok (id, z), s') ->
  id = next_id (tables s) /\ z_profile z = owner /\ z_mfa_verified_at z = mfa /\ z_recovery_restricted z = r /\
  z_revoked_at z = None /\ z_fresh_verified_at z = None /\ sessions (tables s') = <[id := z]> (sessions (tables s)) /\
  codes (tables s') = codes (tables s) /\ profiles (tables s') = profiles (tables s) /\ devices (tables s') = devices (tables s).
Proof.
  unfold establish_administrator_session. intros Hr. apply transaction_ok in Hr.
  apply bind_ok_inv in Hr as (key & s1 & [= <- <-] & Hr). apply bind_ok_inv in Hr as ([] & s1 & Hsave & Hr).
  assert (exists m b, s1 = State (set_stored m (tables s)) b) as (m & b & ->).
  { destruct (Rows.isnull _); [apply call_run in Hsave as (b & m & _ & ->); by exists m, b|]. apply ret_inv in Hsave as [_ ->].
    exists (stored (tables s)), (session s). by destruct s as [[] ?]. }
  clear Hsave. destruct (browser_metadata request) as [label agent].
  tables_inv. match goal with Hk : check_key _ _ _ = _ |- _ => apply check_key_ok in Hk as (-> & _ & _) end. tables_inv.
  repeat match goal with Hc : call _ _ = _ |- _ => apply call_run in Hc as (? & ? & _ & ->) end. tables_inv. done.
Qed.

End runs.

(** *** Recovery *)

Section recovery.
Context `{Sessions} `{Addresses} `{Cache} `{Passwords} (proxies : gset string) (secret_key : string).

Lemma check_limit_run key maximum window s k s' :
  check_limit key maximum window s = (Ok k, s') -> exists m, s' = State (set_cache m (tables s)) (session s).
Proof.
  unfold check_limit. intros Hr. tables_inv. destruct (count_attempt _ _ _ _) as [[n m]|]; [|by tables_inv]. tables_inv. by exists m.
Qed.
Lemma limit_success_run key s u s' : record_limit_success key s = (Ok u, s') -> exists m, s' = State (set_cache m (tables s)) (session s).
Proof.
  unfold record_limit_success. intros Hr. tables_inv. destruct (cache_delete _ _) as [m|]; [|by tables_inv]. tables_inv. by exists m.
Qed.
Lemma caught_ok {S E A : Type} (m : ST S E A) h s a s' :
  catch m h s = (Ok a, s') -> m s = (Ok a, s') \/ exists e s1, m s = (Err e, s1) /\ h e s1 = (Ok a, s').
Proof. unfold catch. destruct (m s) as [[b|e] s1]; [by left|]. intros Hh. right. by exists e, s1. Qed.
Lemma try_code_run owner code t s s' :
  try_recovery_code owner code t s = (Ok true, s') -> exists id, consume_recovery_code owner code t s = (Ok id, s').
Proof.
  unfold try_recovery_code. intros Hr. apply caught_ok in Hr as [Hr|(e & s1 & _ & Hr)].
  - apply bind_ok_inv in Hr as (id & s2 & Hc & [= <-]). by exists id.
  - destruct (is_identity_error e); by tables_inv.
Qed.
Lemma save_status_run owner status s u s' :
  save_status owner status s = (Ok u, s') -> exists p, profiles (tables s) !! owner = Some p /\
    s' = State (set_profiles (<[owner := Rows.AdministratorProfile (Rows.a_user p) status]> (profiles (tables s))) (tables s)) (session s).
Proof. unfold save_status. intros Hr. tables_inv. eauto. Qed.
Lemma event_run a o w ip sid tt ti v s n s' :
  record_security_event a o w ip sid tt ti v s = (Ok n, s') ->
  sessions (tables s') = sessions (tables s) /\ codes (tables s') = codes (tables s) /\
  profiles (tables s') = profiles (tables s) /\ devices (tables s') = devices (tables s).
Proof. unfold record_security_event. intros Hr. by tables_inv. Qed.

(** A recovery that succeeds: the code, the sessions that were live, the new session. *)
Lemma recovery_runs request p code d b id z s' :
  complete_recovery_authentication proxies secret_key request p code (State d b) = (Ok (id, z), s') ->
  Rows.a_status p.2 = Rows.ACTIVE /\
  (exists cid y, codes d !! cid = Some y /\ y_profile y = p.1 /\ y_consumed_at y = None /\ y_invalidated_at y = None /\
     check_password (upper (strip code)) (y_encoded_secret y) = true /\
     codes (tables s') = <[cid := consume_code (clock d) y]> (codes d)) /\
  (exists q, profiles (tables s') !! p.1 = Some q /\ Rows.a_status q = Rows.RECOVERY_REQUIRED) /\
  next_id d <= id /\ z_profile z = p.1 /\ z_mfa_verified_at z = None /\ z_recovery_restricted z = true /\ z_revoked_at z = None /\
  sessions (tables s') = <[id := z]> (map_imap (fun id z => Some (if live_of p.1 id z then revoke_at (clock d) z else z)) (sessions d)).
Proof.
  unfold complete_recovery_authentication, complete_recovery_authentication_transaction. intros Hr. tables_inv.
  unfold check_recovery_limit in *. match goal with Hl : check_limit _ _ _ _ = _ |- _ => apply check_limit_run in Hl as (m & ->) end.
  tables_inv. cbn in *. match goal with Hb : (if negb ?b then _ else _) _ = _ |- _ => destruct b eqn:?; cbn [negb] in Hb; [|by tables_inv] end.
  subst. match goal with Ht : try_recovery_code _ _ _ _ = _ |- _ => apply try_code_run in Ht as (cid & Ht); apply consume_runs in Ht as (y & Hy & Hyp & Hyc & Hyi & Hpw & ->) end.
  cbn in *. tables_inv. match goal with Hl : record_limit_success _ _ = _ |- _ => apply limit_success_run in Hl as (m2 & ->) end.
  tables_inv. match goal with He : recovery_event _ _ _ _ _ _ _ = _ |- _ => apply event_run in He as (Es & Ec & Ep & _) end.
  match goal with He : establish_administrator_session _ _ _ _ _ _ = _ |- _ =>
    apply establish_run in He as (-> & Hzp & Hzm & Hzr & Hzv & _ & Ss & Sc & Sp & _) end.
  match goal with Hc : call _ _ = _ |- _ => apply call_run in Hc as (b2 & m3 & _ & ->) end.
  match goal with Hs : save_status _ _ _ = _ |- _ => apply save_status_run in Hs as (q & Hq & ->) end.
  match goal with Hv : revoke_where _ _ _ = _ |- _ => apply revoke_where_run in Hv as (Rs & Rc & Rp & _ & Rn) end.
  cbn in *. rewrite Es, Ec, Ep, Ss, Sc, Sp, Rs, Rc, Rn. cbn. split; [by bools|]. split; [by exists cid, y|].
  split; [eexists; split; [by rewrite lookup_insert_eq|done]|]. repeat split; try done; lia.
Qed.
End recovery.

(** *** Actions that need a fresh verification *)

Section sensitive.
Context `{Sessions} `{Addresses} `{Passwords} (proxies : gset string).

Inductive sensitive (id : Z) : forall {A}, M A -> Prop :=
| sensitive_password request current new salt : sensitive id (change_password proxies request id current new salt)
| sensitive_codes request draw : sensitive id (regenerate_recovery_codes proxies request id draw)
| sensitive_sessions request : sensitive id (revoke_other_sessions proxies request id).

(** The session that the action runs on is fresh and not restricted. *)
Definition fresh_session (d : db) (z : admin_session) (t : Z) : Prop :=
  z_recovery_restricted z = false /\ z_fresh_verified_at z = Some t /\ t <= clock d < t + 10 * 60 * SECOND.
Lemma require_fresh_run z s u s' : require_fresh_administrator z s = (Ok u, s') ->
  s' = s /\ exists t, fresh_session (tables s) z t.
Proof.
  unfold require_fresh_administrator. intros Hr. tables_inv. bools. split; [done|].
  unfold administrator_session_is_fresh in *. destruct (z_fresh_verified_at z) as [t|] eqn:Ht; [|done]. bools. exists t.
  unfold ADMIN_FRESH_SECONDS in *. repeat split; try done; lia.
Qed.

(** What is left when the action has run on the session [id]. *)
Definition spent (owner id : Z) (d : db) : Prop :=
  only_session owner id d /\ exists z, sessions d !! id = Some z /\ z_fresh_verified_at z = None.
Lemma spent_update owner id f d d' :
  only_session owner id d -> is_Some (sessions d !! id) ->
  (forall z, z_fresh_verified_at (f z) = None) ->
  sessions d' = alter f id (sessions d) -> spent owner id d'.
Proof.
  intros Ho [z Hz] Hf Hd. split.
  - intros i w. rewrite Hd. intros Hw Hp Hne. rewrite lookup_alter_ne in Hw by congruence. by apply (Ho i w).
  - exists (f z). by rewrite Hd, lookup_alter_eq, Hz.
Qed.

(** From the revocation of the others to the end of the action. *)
Lemma unspent_tail owner id t s s1 n s2 :
  tables_ok (tables s) -> revoke_others owner id t s = (Ok n, s1) -> preserves s1 s2 -> unmarked s1 s2 ->
  is_Some (sessions (tables s) !! id) -> only_session owner id (tables s2) /\ is_Some (sessions (tables s2) !! id).
Proof.
  intros Hok Hr Hp Hu [z Hz]. pose proof (moves_run _ _ _ _ _ (moves_revoke_others owner id t) Hr Hok) as [Hok1 Ha1].
  destruct (Hp Hok1) as [_ Ha2]. split; [eapply only_session_kept; [done|done|by eapply revoke_others_only]|].
  destruct (adv_sessions _ _ Ha1 _ _ Hz) as (z1 & Hz1 & _), (adv_sessions _ _ Ha2 _ _ Hz1) as (z2 & Hz2 & _). by exists z2.
Qed.

(** The guards of an action, and its last event. *)
Ltac start Hs :=
  tables_inv;
  let t := fresh "t" in let Hf := fresh in
  match goal with Hr : require_fresh_administrator _ _ = _ |- _ => apply require_fresh_run in Hr as (-> & t & Hf) end;
  cbn in *; tables_inv; cbn in *;
  match goal with Hz : sessions _ !! _ = Some ?z, Hp : ?p.1 = z_profile ?z |- _ =>
    exists z, t; rename Hz into Hs; split; [exact Hs|]; split; [exact Hf|]; rewrite <- Hp end.
Ltac take_event Hev :=
  match goal with He : record_security_event _ _ _ _ _ _ _ _ _ = _ |- _ => apply event_run in He as (Hev & _); cbn in Hev end.

Lemma sensitive_runs {A} id (m : M A) d b r s' :
  tables_ok d -> sensitive id m -> m (State d b) = (Ok r, s') ->
  exists z t, sessions d !! id = Some z /\ fresh_session d z t /\ spent (z_profile z) id (tables s').
Proof.
  intros Hok Hs. revert r. destruct Hs as [request current new salt|request draw|request]; intros r Hr.
  - unfold change_password in Hr. start Hsession. take_event Hev.
    match goal with Hk : check_key _ _ _ = _ |- _ => apply check_key_ok in Hk as (-> & _ & _) end.
    match goal with Hc : call ?c ?s0 = (_, ?s2), Hv : revoke_others _ _ _ ?s = _ |- _ =>
      destruct (unspent_tail _ _ _ s _ _ s2 (proj1 (preserves_password (State d b) _ _ _ b ltac:(done) Hok)) Hv
        (moves_run _ _ _ _ _ (moves_call c) Hc) (moves_run _ _ _ _ _ (unmarked_call c) Hc) ltac:(by eexists)) as [Ho Hz] end.
    by eapply spent_update; [exact Ho|exact Hz| |exact Hev].
  - unfold regenerate_recovery_codes in Hr. start Hsession. take_event Hev.
    match goal with Hg : generate_recovery_batch _ _ _ _ = (_, ?sg), Hv : revoke_others _ _ _ _ = _,
        Hc : rotate_administrator_session ?i ?s0 = (_, ?s2) |- _ =>
      destruct (moves_run _ _ _ _ _ (moves_generate _ _ _) Hg Hok) as [Hokg Hag];
      destruct (adv_sessions _ _ Hag _ _ Hsession) as (zg & Hzg & _);
      destruct (unspent_tail _ _ _ sg _ _ s2 Hokg Hv
        (moves_run _ _ _ _ _ (moves_rotate i) Hc) (moves_run _ _ _ _ _ (unmarked_rotate i) Hc) ltac:(by eexists)) as [Ho Hz] end.
    by eapply spent_update; [exact Ho|exact Hz| |exact Hev].
  - unfold revoke_other_sessions in Hr. start Hsession. take_event Hev.
    match goal with Hv : revoke_others _ _ _ ?s = (_, ?s2) |- _ =>
      destruct (unspent_tail _ _ _ s _ _ s2 Hok Hv ltac:(reflexivity) ltac:(reflexivity) ltac:(by eexists)) as [Ho Hz] end.
    by eapply spent_update; [exact Ho|exact Hz| |exact Hev].
Qed.

End sensitive.

(** ** The properties *)

Section properties.
Context `{Sessions} `{Addresses} `{Cache} `{Cursors} `{Crypto.AESGCM} `{OneTimePasswords} `{Passwords}.
Context (proxies : gset string) (secret_key : string) (ring : option Crypto.IntegrationKeyRing).
#[local] Abbreviation reachable := (reachable proxies secret_key ring).
#[local] Abbreviation step := (step proxies secret_key ring).

(** C19 In every reachable state a session that is not restricted was established, or released
    from its restriction, at the instant at which an authenticator of its own owner accepted a
    code it had never accepted before; and its fresh verification, if it has one, is such an
    instant too. *)
Theorem sessions_need_second_factor s id z :
  reachable s -> sessions (rows s) !! id = Some z ->
  (z_recovery_restricted z = false ->
     exists t, z_mfa_verified_at z = Some t /\ proved (history s) (z_profile z) t) /\
  (forall t, z_fresh_verified_at z = Some t -> proved (history s) (z_profile z) t).
Proof.
  intros Hr Hz. destruct (sy_marks _ (reachable_sound _ _ _ _ Hr) id z Hz) as [Hm Hf]. split; [|done].
  intros Hres. destruct (z_mfa_verified_at z) as [t|]; [by exists t|congruence].
Qed.


(** C27 Guessing codes is slowed down exponentially: a device that has refused n codes since its
    last acceptance has existed for at least 2^(n-1) - 1 seconds. *)
Theorem guesses_are_slowed s id v :
  reachable s -> devices (rows s) !! id = Some v -> 0 < v_failures v ->
  2 ^ (v_failures v - 1) - 1 <= (clock (rows s) - v_created_at v) / SECOND.
Proof.
  intros Hr Hv Hpos. destruct (ok_devices _ (sy_tables _ (reachable_sound _ _ _ _ Hr)) id v Hv) as [[Hc [Hf|(t & _ & _ & Ht & Hle)]] _]; [lia|].
  apply Z.div_le_lower_bound; unfold SECOND in *; lia.
Qed.

(** C25 A request is served as an administrator only on a live session of an enabled owner: not
    revoked, of the browser's own session key, authenticated within the last twelve hours and
    active within the last thirty minutes. *)
Theorem enforced_session_is_live s user request b id z s1 :
  reachable s ->
  enforce_administrator_session proxies true (Some user) request (State (rows s) b) = (Ok (Some (id, z)), s1) ->
  exists z0 p authenticated activity,
    sessions (rows s) !! id = Some z0 /\ z_revoked_at z0 = None /\ s_key b = Some (z_session_key z0) /\
    profiles (rows s) !! z_profile z0 = Some p /\ Rows.a_user p = user /\ Rows.a_status p <> Rows.DISABLED /\
    z_authenticated_at z0 = Some authenticated /\ z_last_activity_at z0 = Some activity /\
    authenticated <= clock (rows s) < authenticated + 12 * 60 * 60 * SECOND /\
    activity <= clock (rows s) < activity + 30 * 60 * SECOND /\
    sessions (tables s1) !! id = Some z.
Proof.
  intros Hr He. destruct (enforce_runs _ _ _ _ _ _ _ _ He) as (z0 & p & Hz & Hp & Hu & Hs & Hk & Hn & He1 & He2 & _ & Hz1).
  destruct (ok_sessions _ (sy_tables _ (reachable_sound _ _ _ _ Hr)) id z0 Hz) as (a & act & e & Ha & Hact & Habs & Hexp & Ho & Hi & Hb).
  apply expired_false in He1 as (e1 & Ee1 & He1), He2 as (e2 & Ee2 & He2). simplify_eq.
  exists z0, p, a, act. unfold ADMIN_ABSOLUTE_SECONDS, ADMIN_IDLE_SECONDS in *. repeat split; try done; lia.
Qed.

(** C21 A session that has been revoked never serves a request again. *)
Theorem revoked_session_stays_out s s' user request b id z t z' :
  reachable s -> sessions (rows s) !! id = Some z -> z_revoked_at z = Some t -> rtc step s s' ->
  (enforce_administrator_session proxies true (Some user) request (State (rows s') b)).1 <> Ok (Some (id, z')).
Proof.
  intros Hr Hz Ht Hs He. destruct (enforce_administrator_session _ _ _ _ _) as [r s2] eqn:Hrun. cbn in He. subst.
  destruct (enforce_runs _ _ _ _ _ _ _ _ Hrun) as (z0 & p & Hz0 & _ & _ & _ & _ & Hn & _).
  destruct (later_ok _ _ _ _ _ Hr Hs) as [_ Ha]. destruct (adv_sessions _ _ Ha _ _ Hz) as (z2 & Hz2 & Hage).
  simplify_eq. by rewrite (sa_revoked _ _ Hage t Ht) in Hn.
Qed.

(** C24 A recovery that succeeds uses up a live recovery code of the owner that matches what was
    presented, revokes every other session of the owner, leaves the profile waiting for a new
    enrolment, and gives a session that no view but the four of the recovery serves. *)
Theorem recovery_takes_over s request p code b id z s1 :
  reachable s -> complete_recovery_authentication proxies secret_key request p code (State (rows s) b) = (Ok (id, z), s1) ->
  (exists cid y y', codes (rows s) !! cid = Some y /\ y_profile y = p.1 /\ y_consumed_at y = None /\
     y_invalidated_at y = None /\ check_password (upper (strip code)) (y_encoded_secret y) = true /\
     codes (tables s1) !! cid = Some y' /\ y_consumed_at y' = Some (clock (rows s))) /\
  only_session p.1 id (tables s1) /\
  (exists q, profiles (tables s1) !! p.1 = Some q /\ Rows.a_status q = Rows.RECOVERY_REQUIRED) /\
  sessions (rows s) !! id = None /\ sessions (tables s1) !! id = Some z /\ z_revoked_at z = None /\
  (forall view, process_view true (Some (id, z)) view = true <-> view ∈ RECOVERY_ROUTE_ALLOWLIST).
Proof.
  intros Hr Hrun. destruct (recovery_runs _ _ _ _ _ _ _ _ _ _ Hrun)
    as (_ & (cid & y & Hy & Hyp & Hyc & Hyi & Hpw & Ec) & Hq & Hid & Hzp & Hzm & Hzr & Hzv & Es).
  split; [exists cid, y, (consume_code (clock (rows s)) y); rewrite Ec, lookup_insert_eq; done|].
  split; [|split; [done|split; [|split; [by rewrite Es, lookup_insert_eq|split; [done|]]]]].
  - intros id' z'. rewrite Es. intros [[<- _]|[_ Hz']]%lookup_insert_Some Hp Hne; [done|].
    rewrite map_lookup_imap in Hz'. apply bind_Some in Hz' as (w & _ & [= <-]). unfold live_of in *.
    destruct (z_revoked_at w) eqn:Hw; [by rewrite andb_false_r, Hw|].
    destruct (z_profile w =? p.1) eqn:Hwp; cbn in *; [done|]. apply Z.eqb_neq in Hwp. by rewrite Hp in Hwp.
  - destruct (sessions (rows s) !! id) as [w|] eqn:Hw; [|done].
    pose proof (ok_session_ids _ (sy_tables _ (reachable_sound _ _ _ _ Hr)) id w Hw). lia.
  - intros view. unfold process_view. rewrite Hzr. cbn. rewrite negb_involutive. by rewrite bool_decide_eq_true.
Qed.

(** C20 Changing the password, drawing new recovery codes and revoking the other sessions succeed
    only on an unrestricted session freshly verified in the last ten minutes, by an accepted code
    of the owner; they use that verification up and leave no other session of the owner live. *)
Theorem sensitive_actions_need_freshness s {A} id (m : M A) b r s1 :
  reachable s -> sensitive proxies id m -> m (State (rows s) b) = (Ok r, s1) ->
  exists z t, sessions (rows s) !! id = Some z /\ z_recovery_restricted z = false /\ z_fresh_verified_at z = Some t /\
    t <= clock (rows s) < t + 10 * 60 * SECOND /\ proved (history s) (z_profile z) t /\
    only_session (z_profile z) id (tables s1) /\
    exists z', sessions (tables s1) !! id = Some z' /\ z_fresh_verified_at z' = None.
Proof.
  intros Hr Hs Hrun. pose proof (reachable_sound _ _ _ _ Hr) as Hok.
  destruct (sensitive_runs _ _ _ _ _ _ _ (sy_tables _ Hok) Hs Hrun) as (z & t & Hz & (Hres & Hf & Ht) & Ho & Hz').
  exists z, t. repeat split; try done; [lia|lia|]. by apply (sy_marks _ Hok id z Hz).
Qed.

(** C23 A recovery code works once: a code that is accepted, whatever has happened before, had not
    been used nor withdrawn at any earlier moment, and is used from then on. *)
Theorem recovery_code_works_once s s' owner presented t b id s1 :
  reachable s -> rtc step s s' ->
  consume_recovery_code owner presented t (State (rows s') b) = (Ok id, s1) ->
  (forall y, codes (rows s) !! id = Some y ->
     y_profile y = owner /\ y_consumed_at y = None /\ y_invalidated_at y = None /\
     check_password (upper (strip presented)) (y_encoded_secret y) = true) /\
  exists y', codes (tables s1) !! id = Some y' /\ y_consumed_at y' = Some t.
Proof.
  intros Hr Hs Hc. destruct (consume_runs _ _ _ _ _ _ Hc) as (y' & Hy' & Hp & Hn & Hi & Hpw & ->). split.
  - intros y Hy. destruct (later_ok _ _ _ _ _ Hr Hs) as [_ Ha]. destruct (adv_codes _ _ Ha _ _ Hy) as (y2 & Hy2 & Hage).
    cbn in Hy'. simplify_eq. destruct Hage as [Ep _ Es Ec Ei].
    split; [by symmetry|]. split; [|split; [|by rewrite <- Es]].
    + destruct (y_consumed_at y) as [u|]; [|done]. by rewrite (Ec u eq_refl) in Hn.
    + destruct (y_invalidated_at y) as [u|]; [|done]. by rewrite (Ei u eq_refl) in Hi.
  - exists (consume_code t y'). cbn. by rewrite lookup_insert_eq.
Qed.

(** C26 In every reachable state the identity tables are well formed: at most one profile is
    enabled, no two sessions share a session key and no two recovery codes a public part, and a
    session expires within thirty minutes of its last activity and twelve hours of its
    authentication. *)
Theorem identity_tables_are_well_formed s :
  reachable s ->
  (forall id id' p p', profiles (rows s) !! id = Some p -> profiles (rows s) !! id' = Some p' ->
     Rows.a_status p <> Rows.DISABLED -> Rows.a_status p' <> Rows.DISABLED -> id = id') /\
  (forall id id' z z', sessions (rows s) !! id = Some z -> sessions (rows s) !! id' = Some z' ->
     z_session_key z = z_session_key z' -> id = id') /\
  (forall id id' y y', codes (rows s) !! id = Some y -> codes (rows s) !! id' = Some y' ->
     y_public_id y = y_public_id y' -> id = id') /\
  (forall id z, sessions (rows s) !! id = Some z -> session_ok (clock (rows s)) z).
Proof.
  intros Hr. destruct (sy_tables _ (reachable_sound _ _ _ _ Hr)). repeat split.
  - intros id id' p p' Hp Hp' He He'. apply (ok_owner0 id id' p p' ()); [done|done| |]; unfold enabled; by rewrite bool_decide_false.
  - intros id id' z z' Hz Hz' He. apply (ok_keys0 id id' z z' (z_session_key z)); [done|done|done|]. cbn. congruence.
  - intros id id' y y' Hy Hy' He. apply (ok_public_ids0 id id' y y' (y_public_id y)); [done|done|done|]. cbn. congruence.
  - by apply ok_sessions0.
Qed.

End properties.
End IdentitySafety.
