(* ===== verification/IdentityWorld.v ===== *)
(** * A concrete owner

    Toy services that satisfy the laws of the interfaces, and a run from an empty
    installation: the owner is created, enrols an authenticator, signs in, verifies again,
    changes the password, and recovers with a recovery code. *)

From S2P Require Import Prelude PyValue ToolSchemas Uuid DraftProvider EventbriteDrafts DraftRows IdentityRows RateLimits SecurityEvents Crypto KeyRing Credentials AdminSessions Authentication Transactions IdentityFacts IdentityEffects IdentityMarks IdentitySystem DraftWorld.

Module IdentityWorld.
Import Provider IdentityRows RateLimits SecurityEvents Credentials AdminSessions Authentication IdentitySystem.

#[export] Existing Instance World.toy_cipher.
Abbreviation ring := World.toy_ring.

(** ** Passwords and codes *)

Definition toy_password (p : string) : string := "$" +:+ p.
Definition toy_authenticate (us : gmap Z user) (name p : string) : option Z :=
  fst <$> List.find (fun kv => String.eqb (u_username kv.2) name && u_is_active kv.2
    && String.eqb (toy_password p) (u_password kv.2)) (map_to_list us).
Lemma toy_authenticate_law us name p u : toy_authenticate us name p = Some u ->
  exists row, us !! u = Some row /\ u_is_active row = true /\ String.eqb (toy_password p) (u_password row) = true.
Proof.
  unfold toy_authenticate. intros ([id row] & [Hin Hf]%find_some & ->)%fmap_Some. cbn in *. bools. exists row.
  split; [by apply elem_of_map_to_list, list_elem_of_In|]. split; [done|]. by apply String.eqb_eq.
Qed.
#[export] Instance toy_passwords : Passwords := {|
  check_password p e := String.eqb (toy_password p) e;
  make_password _ p := toy_password p;
  authenticate := toy_authenticate;
  password_errors p _ := if String.eqb p "" then ["This password is too short."] else [];
  user_errors _ _ := [];
  normalize_username s := s;
  normalize_email s := s;
  check_make _ p := String.eqb_refl _;
  authenticate_law := toy_authenticate_law;
|}.

(** The code of a period is its number. *)
Definition toy_verify (seed : list Z) (step digits drift instant token tolerance min_t : Z) : option (Z * Z) :=
  let t := instant / SECOND / step + drift in
  if (token =? t mod 10 ^ digits) && (min_t <=? t) && (0 <=? tolerance) then Some (t, drift) else None.
Lemma toy_minimum seed step digits drift instant token tolerance min_t t drift' :
  toy_verify seed step digits drift instant token tolerance min_t = Some (t, drift') -> min_t <= t.
Proof. unfold toy_verify. destruct (_ && _) eqn:Hc; [|done]. intros [= <- _]. bools. lia. Qed.
Lemma toy_counter seed step digits drift instant token tolerance min_t t drift' :
  toy_verify seed step digits drift instant token tolerance min_t = Some (t, drift') ->
  t = instant / SECOND / step + drift' /\ drift - tolerance <= drift' <= drift + tolerance.
Proof. unfold toy_verify. destruct (_ && _) eqn:Hc; [|done]. intros [= <- <-]. bools. lia. Qed.
#[export] Instance toy_codes : OneTimePasswords := {|
  totp_verify := toy_verify; totp_minimum := toy_minimum; totp_counter := toy_counter;
|}.

(** ** Cursors *)

Definition toy_dumps (salt : string) (v : json) : string :=
  match v with
  | JList [JStr a; JStr b] => repeat_string (String.length a) "1" +:+ "0" +:+ a +:+ b
  | _ => ""
  end.
Fixpoint toy_count (s : string) : option (nat * string) :=
  match s with
  | String c s => if is_char 49 c then (fun p => (S p.1, p.2)) <$> toy_count s else Some (O, s)
  | EmptyString => None
  end.
Definition toy_loads (salt s : string) : option json :=
  p ← toy_count s;
  Some (JList [JStr (String.substring 0 p.1 p.2);
               JStr (String.substring p.1 (String.length p.2 - p.1) p.2)]).
Lemma toy_count_repeat n s : toy_count (repeat_string n "1" +:+ "0" +:+ s) = Some (n, s).
Proof.
  induction n as [|n IH]; [done|]. change (repeat_string (S n) "1" +:+ "0" +:+ s) with (String (chr 49) (repeat_string n "1" +:+ "0" +:+ s)).
  cbn [toy_count]. by rewrite IH.
Qed.
Lemma toy_loads_dumps salt a b : toy_loads salt (toy_dumps salt (JList [JStr a; JStr b])) = Some (JList [JStr a; JStr b]).
Proof.
  unfold toy_loads, toy_dumps. rewrite toy_count_repeat. cbn. rewrite substring_take, substring_skip.
  replace (String.length (a +:+ b) - String.length a)%nat with (String.length b) by (rewrite slength_app; lia).
  by rewrite substring_all.
Qed.
Definition toy_parse (s : string) : option (Z * bool) := (fun t => (t, true)) <$> Uuid.parse s.
Lemma toy_parse_isoformat t : 0 <= t <= MAX_DATETIME -> toy_parse (ToolSchemas.uuid_text t) = Some (t, true).
Proof. intros Ht. unfold toy_parse, MAX_DATETIME in *. by rewrite Uuid.parse_text by lia. Qed.
#[export] Instance toy_cursors : Cursors := {|
  isoformat := ToolSchemas.uuid_text; parse_datetime := toy_parse; signing_dumps := toy_dumps; signing_loads := toy_loads;
  parse_isoformat := toy_parse_isoformat; loads_dumps := toy_loads_dumps;
|}.

(** ** The cache *)

Definition toy_add (key : string) (v timeout now : Z) (m : entries) : option (bool * entries) :=
  match live m now key with
  | Some _ => Some (false, m)
  | None => Some (true, <[key := (v, now + timeout * SECOND)]> m)
  end.
Definition toy_incr (key : string) (now : Z) (m : entries) : option (Z * entries) :=
  match live m now key with Some (v, e) => Some (v + 1, <[key := (v + 1, e)]> m) | None => None end.
Lemma toy_add_law key v timeout now m b m' : toy_add key v timeout now m = Some (b, m') ->
  (b = true /\ live m now key = None /\ m' = <[key := (v, now + timeout * SECOND)]> m) \/
  (b = false /\ is_Some (live m now key) /\ m' = m).
Proof. unfold toy_add. destruct (live m now key); intros [= <- <-]; [by right|by left]. Qed.
Lemma toy_incr_law key now m n m' : toy_incr key now m = Some (n, m') ->
  exists v e, live m now key = Some (v, e) /\ n = v + 1 /\ m' = <[key := (v + 1, e)]> m.
Proof. unfold toy_incr. destruct (live m now key) as [[v e]|]; [|done]. intros [= <- <-]. by exists v, e. Qed.
Definition toy_get (key : string) (now : Z) (m : entries) : option (option Z) := Some (fst <$> live m now key).
Definition toy_set (key : string) (v timeout now : Z) (m : entries) : option entries := Some (<[key := (v, now + timeout * SECOND)]> m).
Lemma toy_get_law key now m v : toy_get key now m = Some v -> v = fst <$> live m now key.
Proof. by intros [= <-]. Qed.
Lemma toy_set_law key v timeout now m m' : toy_set key v timeout now m = Some m' -> m' = <[key := (v, now + timeout * SECOND)]> m.
Proof. by intros [= <-]. Qed.
Lemma toy_delete_law key (m m' : entries) : Some (delete key m) = Some m' -> m' = delete key m.
Proof. by intros [= <-]. Qed.
#[export] Instance toy_cache : Cache := {|
  cache_add := toy_add; cache_incr := toy_incr; cache_get := toy_get; cache_set := toy_set;
  cache_delete key m := Some (delete key m);
  add_law := toy_add_law; incr_law := toy_incr_law; get_law := toy_get_law; set_law := toy_set_law;
  delete_law := toy_delete_law;
|}.

(** ** Sessions

    Keys are numbered; the number in use is kept under a key that no browser has. *)

Definition EXPIRY : string := "_session_expiry".
Definition COUNTER : string := "#".
Definition toy_count_keys (m : gmap string items) : Z :=
  match m !! COUNTER with Some [(_, JInt n)] => n | _ => 0 end.
Definition toy_store (b : browser) (its : items) (renew : bool) (m : gmap string items) : browser * gmap string items :=
  let n := toy_count_keys m + 1 in
  let old := match s_key b with Some k => delete k m | None => m end in
  match s_key b, renew with
  | Some k, false => (Browser (Some k) its, <[k := its]> m)
  | _, _ => let k := "session-" +:+ str_of_Z n in (Browser (Some k) its, <[k := its]> (<[COUNTER := [(EXPIRY, JInt n)]]> old))
  end.
Definition toy_session (c : session_call) (b : browser) (m : gmap string items) : browser * gmap string items :=
  let its := s_items b in
  match c with
  | Save => toy_store b its false m
  | CycleKey => toy_store b its true m
  | Login u => toy_store b (dict_set "_auth_user_id" (JInt u) its) true m
  | UpdateAuthHash u => toy_store b (dict_set "_auth_user_hash" (JInt u) its) true m
  | SetExpiry => (Browser (s_key b) (dict_set EXPIRY (JInt 0) its), m)
  | Flush | Logout => (Browser None [], match s_key b with Some k => delete k m | None => m end)
  end.

Definition toy_load (m : gmap string items) (cookie : option string) : browser :=
  match cookie ≫= fun k => m !! k with Some its => Browser cookie its | None => Browser None [] end.
Lemma toy_load_stored m cookie key v : dict_get key (s_items (toy_load m cookie)) = Some v ->
  exists k data, cookie = Some k /\ m !! k = Some data /\ dict_get key data = Some v.
Proof.
  unfold toy_load. destruct cookie as [k|]; [|done]. cbn. destruct (m !! k) as [data|] eqn:Hm; [|done]. cbn. by exists k, data.
Qed.

Section laws.
Context (key : string) (v : json) (Hkey : key <> EXPIRY) (Hauth : String.prefix "_auth_user_" key = false).
Lemma toy_store_keeps b its renew m b' m' :
  toy_store b its renew m = (b', m') ->
  s_items b' = its /\ forall k data, m' !! k = Some data -> dict_get key data = Some v ->
    dict_get key its = Some v \/ m !! k = Some data.
Proof.
  unfold toy_store. intros Hs.
  assert (forall k, (if s_key b is Some o then delete o m else m) !! k = None \/
    (if s_key b is Some o then delete o m else m) !! k = m !! k) as Hold.
  { intros k. destruct (s_key b) as [o|]; [|by right]. destruct (decide (o = k)) as [-> |Hne]; [left; apply lookup_delete_eq|right].
    by apply lookup_delete_ne. }
  assert (forall k n t data, <[t := its]> (<[COUNTER := [(EXPIRY, JInt n)]]> (if s_key b is Some o then delete o m else m)) !! k = Some data ->
    dict_get key data = Some v -> dict_get key its = Some v \/ m !! k = Some data) as Hnew.
  { intros k n t data [[_ <-]|[_ [[_ <-]|[_ Hk]]%lookup_insert_Some]]%lookup_insert_Some Hd; [by left| |].
    - exfalso. cbn in Hd. destruct (String.eqb_spec key EXPIRY); congruence.
    - right. destruct (Hold k) as [Ho|Ho]; congruence. }
  destruct (s_key b) as [o|]; [destruct renew|]; injection Hs as <- <-; (split; [done|]).
  - intros k data. apply Hnew.
  - intros k data [[_ <-]|[_ Hk]]%lookup_insert_Some Hd; [by left|by right].
  - intros k data. apply Hnew.
Qed.
Lemma toy_keeps c b m b' m' : toy_session c b m = (b', m') ->
  (dict_get key (s_items b') = Some v -> dict_get key (s_items b) = Some v) /\
  (forall k data, m' !! k = Some data -> dict_get key data = Some v ->
     dict_get key (s_items b) = Some v \/ m !! k = Some data).
Proof.
  unfold toy_session. pose proof (toy_store_keeps b (s_items b)) as Hstore.
  assert (forall k x, String.prefix "_auth_user_" k = true \/ k = EXPIRY ->
    dict_get key (dict_set k x (s_items b)) = dict_get key (s_items b)) as Hset.
  { intros k x Hk. apply dict_get_set_ne. intros ->. by destruct Hk; [congruence|]. }
  destruct c as [| | | |u| |u]; intros Hs.
  - apply Hstore in Hs as [-> Hs]. done.
  - apply Hstore in Hs as [-> Hs]. done.
  - injection Hs as <- <-. split; [done|]. intros k data Hk Hd. right. destruct (s_key b); [|done].
    by apply lookup_delete_Some in Hk as [_ Hk].
  - injection Hs as <- <-. cbn. rewrite Hset by (by right). split; [done|]. intros k data Hk _. by right.
  - apply toy_store_keeps in Hs as [-> Hs]. rewrite Hset in * by (by left). by split.
  - injection Hs as <- <-. split; [done|]. intros k data Hk Hd. right. destruct (s_key b); [|done].
    by apply lookup_delete_Some in Hk as [_ Hk].
  - apply toy_store_keeps in Hs as [-> Hs]. rewrite Hset in * by (by left). by split.
Qed.
End laws.

Definition toy_call (c : session_call) (b : browser) (m : gmap string items) : result exn (browser * gmap string items) :=
  Ok (toy_session c b m).
Lemma toy_call_keeps call b m b' m' key v : toy_call call b m = Ok (b', m') -> key <> "_session_expiry" ->
  String.prefix "_auth_user_" key = false ->
  (dict_get key (s_items b') = Some v -> dict_get key (s_items b) = Some v) /\
  (forall k data, m' !! k = Some data -> dict_get key data = Some v ->
     dict_get key (s_items b) = Some v \/ m !! k = Some data).
Proof. intros [= Hs] Hk Ha. by apply (toy_keeps key v Hk Ha call b m). Qed.
Lemma toy_save_key b m b' m' : toy_call Save b m = Ok (b', m') -> is_Some (s_key b') /\ s_items b' = s_items b.
Proof. intros [= Hs]. unfold toy_session, toy_store in Hs. destruct (s_key b); injection Hs as <- <-; by split. Qed.
Lemma toy_flush_items call b m b' m' : toy_call call b m = Ok (b', m') -> call = Flush \/ call = Logout -> b' = Browser None [].
Proof. by intros [= Hs] [-> | ->]; injection Hs as <- <-. Qed.
#[export] Instance toy_sessions : Sessions := {|
  call_session := toy_call; load_session := toy_load;
  call_keeps := toy_call_keeps; save_key := toy_save_key; flush_items := toy_flush_items; load_stored := toy_load_stored;
|}.
#[export] Instance toy_addresses : Addresses := {| ip_address := Some |}.

(** ** The run *)

Abbreviation proxies := (∅ : gset string).
Abbreviation secret_key := "secret".
Definition request : http_request := Request (Some "192.0.2.1") None (Some "Firefox").
Definition stranger : browser := Browser None [].
Definition start : Z := 1700000000 * SECOND.
Definition empty : db := DB ∅ ∅ ∅ ∅ ∅ [] ∅ ∅ start 1.
Definition nonce : list Z := replicate 12 1.
Definition seed : list Z := replicate 20 2.
(** The i-th code that is drawn. *)
Definition draw (i : nat) : code_draw := CodeDraw ["AAAAAAA" +:+ char_string (chr (65 + Z.of_nat i))] (replicate 16 (Z.of_nat i)) "salt".
(** The code of the authenticator at an instant. *)
Definition digits (n : nat) (z : Z) : string := String.substring (String.length (str_of_Z (10 ^ Z.of_nat n + z mod 10 ^ Z.of_nat n)) - n) n
  (str_of_Z (10 ^ Z.of_nat n + z mod 10 ^ Z.of_nat n)).
Definition token (d : db) : string := digits 6 (clock d / SECOND / 30).

(** The tables after a call, and the value it returned. *)
Definition run {A : Type} (m : M A) (d : db) (b : browser) : db := tables (m (State d b)).2.
Definition browser_after {A : Type} (m : M A) (d : db) (b : browser) : browser := session (m (State d b)).2.
Definition value_of {A : Type} (default : A) (r : result exn A) : A := match r with Ok a => a | Err _ => default end.

(** A state of the run, as the steps make it. *)
Definition next {A : Type} (s : system) (m : M A) (b : browser) (new : result exn A -> list verification) : system :=
  after s (run m (rows s) b) (new (m (State (rows s) b)).1).
Abbreviation plain := (fun _ => []).
Definition verifies (w : purpose) (r : result exn Z) : list verification :=
  match r with Ok t => [Verified w 2 t] | Err _ => [] end.

(** The owner is created, and enrols an authenticator. *)
Abbreviation bootstrapping := (bootstrap_owner "maya" "maya@example.org" "pw" "salt").
Definition s0 : system := System empty [] [].
Definition s1 : system := Eval vm_compute in next s0 bootstrapping stranger plain.
Definition p1 : loaded_profile := (2, Rows.AdministratorProfile 1 Rows.ENROLLMENT_REQUIRED).
Abbreviation password_call := (verify_owner_password proxies secret_key request "maya" "pw").
Definition s2 : system := Eval vm_compute in next s1 password_call stranger plain.
Definition b2 : browser := Eval vm_compute in browser_after password_call (rows s1) stranger.
Abbreviation enrolling := (start_totp_enrollment proxies ring request p1 None "phone" nonce seed).
Definition device_id : Z := Eval vm_compute in value_of 0 (device <$> (enrolling (State (rows s2) b2)).1).
Definition s3 : system := Eval vm_compute in next s2 enrolling b2 plain.
Abbreviation confirming := (verify_enrollment proxies ring request p1 None device_id (token (rows s3))).
Definition s4 : system := Eval vm_compute in next s3 confirming b2 (verifies Enrol).
Abbreviation completing := (complete_enrollment proxies request p1 None device_id start draw).
Definition s5 : system := Eval vm_compute in next s4 completing b2 plain.
Definition recovery_code_1 : string := "AAAAAAAA-AAAAAAAAAAAAAAAAAAAAAAAAAA".

(** A minute later the owner signs in from another browser. *)
Definition s6 : system := Eval vm_compute in after s5 (set_clock (start + 60 * SECOND) (rows s5)) [].
Definition p2 : loaded_profile := (2, Rows.AdministratorProfile 1 Rows.ACTIVE).
Definition s7 : system := Eval vm_compute in next s6 password_call stranger plain.
Definition b7 : browser := Eval vm_compute in browser_after password_call (rows s6) stranger.
Abbreviation signing := (verify_owner_totp proxies ring request p2 (token (rows s7))).
Definition s8 : system := Eval vm_compute in next s7 signing b7 (verifies SignIn).
Abbreviation establishing := (establish_totp_session proxies request p2 (start + 60 * SECOND)).
Definition s9 : system := Eval vm_compute in next s8 establishing b7 plain.
Definition b9 : browser := Eval vm_compute in browser_after establishing (rows s8) b7.
Definition session_id : Z := Eval vm_compute in value_of 0 (fst <$> (establishing (State (rows s8) b7)).1).

(** The owner verifies again and changes the password. *)
Definition s10 : system := Eval vm_compute in after s9 (set_clock (start + 120 * SECOND) (rows s9)) [].
Abbreviation refreshing := (verify_fresh proxies secret_key ring request session_id p2 "pw" (token (rows s10))).
Definition scope : string := Eval vm_compute in value_of "" (fst <$> (refreshing (State (rows s10) b9)).1).
Definition s11 : system := Eval vm_compute in next s10 refreshing b9 (fun r => verifies Fresh (snd <$> r)).
Abbreviation granting := (grant_fresh proxies request session_id p2 scope (start + 120 * SECOND)).
Definition s12 : system := Eval vm_compute in next s11 granting b9 plain.
Definition b12 : browser := Eval vm_compute in browser_after granting (rows s11) b9.
Abbreviation changing := (change_password proxies request session_id "pw" "longer" "salt").
Definition s13 : system := Eval vm_compute in next s12 changing b12 plain.

(** Or recovers, from the browser of a stranger. *)
Abbreviation recovering := (complete_recovery_authentication proxies secret_key request p2 recovery_code_1).
Definition s14 : system := Eval vm_compute in next s9 recovering stranger plain.

(** A guess that is refused. *)
Abbreviation guessing := (verify_owner_totp proxies ring request p2 "000000").
Definition s15 : system := Eval vm_compute in next s7 guessing b7 (verifies SignIn).

(** The recovery commits between the verification of a sign-in and its session. *)
Definition s16 : system := Eval vm_compute in next s8 recovering stranger plain.
Definition s17 : system := Eval vm_compute in next s16 establishing b7 plain.

(** *** Every state is reachable *)

Abbreviation reachable := (reachable proxies secret_key ring).
Abbreviation step := (step proxies secret_key ring).

Lemma reached_0 : reachable s0.
Proof. exists s0. split; [by repeat split|constructor]. Qed.
Lemma reached_step s s' : reachable s -> step s s' -> reachable s'.
Proof. intros (s1 & Hi & Hs) Hstep. exists s1. split; [done|]. by eapply rtc_r. Qed.
Lemma step_by_service s s' {A} (m : M A) b :
  service proxies secret_key ring (rows s) m -> next s m b plain = s' -> step s s'.
Proof.
  intros Hm <-. unfold next, run. destruct (m (State (rows s) b)) as [r s1] eqn:Hr. by eapply step_service.
Qed.
Lemma service_steps : step s0 s1 /\ step s1 s2 /\ step s2 s3 /\ step s6 s7 /\ step s12 s13 /\ step s9 s14 /\ step s8 s16.
Proof.
  repeat split.
  - by apply (step_by_service s0 s1 bootstrapping stranger); [apply sv_bootstrap|vm_compute].
  - by apply (step_by_service s1 s2 password_call stranger); [apply sv_password|vm_compute].
  - by apply (step_by_service s2 s3 enrolling b2); [apply sv_start|vm_compute].
  - by apply (step_by_service s6 s7 password_call stranger); [apply sv_password|vm_compute].
  - by apply (step_by_service s12 s13 changing b12); [apply sv_change|vm_compute].
  - by apply (step_by_service s9 s14 recovering stranger); [apply sv_recovery|vm_compute].
  - by apply (step_by_service s8 s16 recovering stranger); [apply sv_recovery|vm_compute].
Qed.

Lemma next_4 : next s3 confirming b2 (verifies Enrol) = s4.
Proof. vm_cast_no_check (eq_refl s4). Qed.
Lemma next_8 : next s7 signing b7 (verifies SignIn) = s8.
Proof. vm_cast_no_check (eq_refl s8). Qed.
Lemma next_15 : next s7 guessing b7 (verifies SignIn) = s15.
Proof. vm_cast_no_check (eq_refl s15). Qed.
Lemma next_11 : next s10 refreshing b9 (fun r => verifies Fresh (snd <$> r)) = s11.
Proof. vm_cast_no_check (eq_refl s11). Qed.
Lemma next_5 : next s4 completing b2 plain = s5.
Proof. vm_cast_no_check (eq_refl s5). Qed.
Lemma next_9 : next s8 establishing b7 plain = s9.
Proof. vm_cast_no_check (eq_refl s9). Qed.
Lemma next_17 : next s16 establishing b7 plain = s17.
Proof. vm_cast_no_check (eq_refl s17). Qed.
Lemma next_12 : next s11 granting b9 plain = s12.
Proof. vm_cast_no_check (eq_refl s12). Qed.

Lemma verification_steps : step s3 s4 /\ step s7 s8 /\ step s7 s15 /\ step s10 s11.
Proof.
  repeat split.
  - rewrite <- next_4. apply (step_confirm proxies secret_key ring s3 request p1 None device_id (token (rows s3)) b2
      (confirming (State (rows s3) b2)).1 (confirming (State (rows s3) b2)).2), surjective_pairing.
  - rewrite <- next_8. apply (step_totp proxies secret_key ring s7 request p2 (token (rows s7)) b7
      (signing (State (rows s7) b7)).1 (signing (State (rows s7) b7)).2), surjective_pairing.
  - rewrite <- next_15. apply (step_totp proxies secret_key ring s7 request p2 "000000" b7
      (guessing (State (rows s7) b7)).1 (guessing (State (rows s7) b7)).2), surjective_pairing.
  - rewrite <- next_11.
    pose proof (step_fresh proxies secret_key ring s10 request session_id p2 "pw" (token (rows s10)) b9
      (refreshing (State (rows s10) b9)).1 (refreshing (State (rows s10) b9)).2 (surjective_pairing _)) as Hs.
    unfold next. destruct (refreshing (State (rows s10) b9)).1; exact Hs.
Qed.
Lemma use_steps : step s4 s5 /\ step s8 s9 /\ step s16 s17 /\ step s11 s12.
Proof.
  repeat split.
  - rewrite <- next_5. apply (step_enrol proxies secret_key ring s4 request p1 None device_id start draw b2
      (completing (State (rows s4) b2)).1 (completing (State (rows s4) b2)).2); [by left|done|apply surjective_pairing].
  - rewrite <- next_9. apply (step_sign_in proxies secret_key ring s8 request p2 (start + 60 * SECOND) b7
      (establishing (State (rows s8) b7)).1 (establishing (State (rows s8) b7)).2); [by left|apply surjective_pairing].
  - rewrite <- next_17. apply (step_sign_in proxies secret_key ring s16 request p2 (start + 60 * SECOND) b7
      (establishing (State (rows s16) b7)).1 (establishing (State (rows s16) b7)).2); [by left|apply surjective_pairing].
  - rewrite <- next_12. apply (step_grant proxies secret_key ring s11 request session_id p2 scope (start + 120 * SECOND) b9
      (granting (State (rows s11) b9)).1 (granting (State (rows s11) b9)).2); [by left| |apply surjective_pairing].
    intros z. vm_compute. by intros [= <-].
Qed.
Lemma clock_steps : step s5 s6 /\ step s9 s10.
Proof.
  split.
  - by refine (eq_rect _ (step s5) (step_tick proxies secret_key ring s5 (start + 60 * SECOND) _) _ _); [|vm_compute].
  - by refine (eq_rect _ (step s9) (step_tick proxies secret_key ring s9 (start + 120 * SECOND) _) _ _); [|vm_compute].
Qed.

Lemma steps_to_7 : rtc step s0 s7.
Proof.
  destruct service_steps as (S1 & S2 & S3 & S7 & _), verification_steps as (V4 & _), use_steps as (U5 & _), clock_steps as (C6 & _).
  do 7 (eapply rtc_l; [eassumption|]). constructor.
Qed.
Lemma steps_to_9 : rtc step s7 s9.
Proof. destruct verification_steps as (_ & V8 & _), use_steps as (_ & U9 & _). do 2 (eapply rtc_l; [eassumption|]). constructor. Qed.
Lemma steps_to_13 : rtc step s9 s13.
Proof.
  destruct service_steps as (_ & _ & _ & _ & S13 & _), verification_steps as (_ & _ & _ & V11), use_steps as (_ & _ & _ & U12), clock_steps as (_ & C10).
  do 4 (eapply rtc_l; [eassumption|]). constructor.
Qed.
Lemma reached_steps s s' : reachable s -> rtc step s s' -> reachable s'.
Proof. intros (i & Hi & Hs) Hs'. exists i. split; [done|by etrans]. Qed.
Lemma reached_7 : reachable s7.
Proof. exact (reached_steps _ _ reached_0 steps_to_7). Qed.
Lemma reached_8 : reachable s8.
Proof. exact (reached_step _ _ reached_7 (proj1 (proj2 verification_steps))). Qed.
Lemma reached_9 : reachable s9.
Proof. exact (reached_steps _ _ reached_7 steps_to_9). Qed.
Lemma reached_12 : reachable s12.
Proof.
  destruct verification_steps as (_ & _ & _ & V11), use_steps as (_ & _ & _ & U12), clock_steps as (_ & C10).
  exact (reached_step _ _ (reached_step _ _ (reached_step _ _ reached_9 C10) V11) U12).
Qed.
Lemma reached_13 : reachable s13.
Proof. exact (reached_steps _ _ reached_9 steps_to_13). Qed.
Lemma reached_15 : reachable s15.
Proof. exact (reached_step _ _ reached_7 (proj1 (proj2 (proj2 verification_steps)))). Qed.
Lemma reached_17 : reachable s17.
Proof.
  destruct service_steps as (_ & _ & _ & _ & _ & _ & S16), use_steps as (_ & _ & U17 & _).
  exact (reached_step _ _ (reached_step _ _ reached_8 S16) U17).
Qed.

End IdentityWorld.
