(* ===== verification/RateLimitsTheorems.v ===== *)
(** * How many attempts a counter lets through *)

From S2P Require Import Prelude PyValue ToolSchemas DraftRows IdentityRows RateLimits IdentityFacts.

Module LimitFacts.
Import IdentityRows RateLimits IdentityFacts.

(** How many of the times lie in an interval. *)
Definition within (lo hi : Z) (l : list Z) : Z := Z.of_nat (length (List.filter (fun t => (lo <=? t) && (t <? hi)) l)).

Lemma within_nonneg lo hi l : 0 <= within lo hi l.
Proof. unfold within. lia. Qed.
Lemma within_cons lo hi t l :
  within lo hi (t :: l) = (if (lo <=? t) && (t <? hi) then 1 else 0) + within lo hi l.
Proof. unfold within. cbn. destruct (_ && _); cbn; lia. Qed.
Lemma within_mono lo hi lo' hi' l : (forall t, t ∈ l -> lo <= t < hi -> lo' <= t < hi') -> within lo hi l <= within lo' hi' l.
Proof.
  induction l as [|t l IH]; intros Hl; [done|]. rewrite !within_cons. specialize (IH (fun u Hu => Hl u (proj2 (elem_of_cons _ _ _) (or_intror Hu)))).
  specialize (Hl t ltac:(by left)).
  destruct (Z.leb_spec lo t), (Z.ltb_spec t hi), (Z.leb_spec lo' t), (Z.ltb_spec t hi'); cbn; lia.
Qed.
Lemma within_split lo mid hi l : within lo hi l <= within lo mid l + within mid hi l.
Proof.
  induction l as [|t l IH]; [done|]. rewrite !within_cons.
  destruct (Z.leb_spec lo t), (Z.ltb_spec t hi), (Z.ltb_spec t mid), (Z.leb_spec mid t); cbn; lia.
Qed.
Lemma within_outside lo hi t l : ~ (lo <= t < hi) -> within lo hi (t :: l) = within lo hi l.
Proof. intros Ht. rewrite within_cons. destruct (Z.leb_spec lo t), (Z.ltb_spec t hi); cbn; lia. Qed.
Lemma within_add lo hi t l : within lo hi (t :: l) <= 1 + within lo hi l.
Proof. rewrite within_cons. destruct (_ && _); lia. Qed.
Lemma within_none lo hi l : (forall t, t ∈ l -> ~ (lo <= t < hi)) -> within lo hi l = 0.
Proof.
  induction l as [|t l IH]; intros Hl; [done|]. rewrite within_outside by (apply Hl; by left). apply IH.
  intros u Hu. apply Hl. by right.
Qed.

Section limit.
Context `{Cache} (key : string) (maximum window : Z).
#[local] Abbreviation W := (window * SECOND).

(** The life of a counter: attempts, and whatever else happens to the rest of the world while
    time goes by.  The times of the attempts that pass are kept, the last first. *)
Inductive traffic : db -> list Z -> Prop :=
| quiet d : cache d !! key = None -> traffic d []
| attempted d passes b r s : traffic d passes -> check_limit key maximum window (State d b) = (r, s) ->
    traffic (tables s) (if is_ok r then clock d :: passes else passes)
| elsewhere d passes d' : traffic d passes -> cache d' !! key = cache d !! key -> clock d <= clock d' -> traffic d' passes.

(** The counter's entry was made at [e - W]: what has passed since, and in the period before. *)
Record counter_ok (now : Z) (m : entries) (passes : list Z) : Prop := CounterOk {
  co_past : forall t, t ∈ passes -> t <= now;
  co_none : m !! key = None -> passes = [];
  co_entry : forall v e, m !! key = Some (v, e) -> e - W <= now /\ (forall t, t ∈ passes -> t < e) /\
    within (e - W) e passes <= v /\ within (e - W) e passes <= maximum /\ within (e - 2 * W + 1) (e - W) passes <= maximum;
  co_window : forall t, within t (t + W) passes <= 2 * maximum;
}.

Hypotheses (Hmax : 1 <= maximum) (Hwin : 0 < window).

Lemma W_pos : 0 < W.
Proof. unfold SECOND. lia. Qed.

(** The attempt that makes the entry. *)
Lemma counter_new now m passes :
  counter_ok now m passes -> live m now key = None -> counter_ok now (<[key := (1, now + W)]> m) (now :: passes).
Proof.
  intros [Hp Hn He Hw] Hl.
  assert (forall t, t ∈ passes -> t < now) as Hlt.
  { intros t Ht. unfold live in Hl. destruct (m !! key) as [[v e]|] eqn:Hm; [|by rewrite (Hn eq_refl) in Ht; apply not_elem_of_nil in Ht].
    destruct (Z.ltb_spec now e); [done|]. destruct (He v e eq_refl) as (_ & Hb & _). specialize (Hb t Ht). lia. }
  assert (forall lo, now - W < lo -> within lo now passes <= maximum) as Hlast.
  { intros lo Hlo. unfold live in Hl. destruct (m !! key) as [[v e]|] eqn:Hm; [|rewrite (Hn eq_refl); unfold within; cbn; lia].
    destruct (Z.ltb_spec now e); [done|]. destruct (He v e eq_refl) as (_ & Hb & _ & Hx & _).
    etrans; [|exact Hx]. apply within_mono. intros t Ht Hr. specialize (Hb t Ht). lia. }
  pose proof W_pos. split.
  - intros t [-> |Ht]%elem_of_cons; [lia|by apply Hp].
  - by rewrite lookup_insert_eq.
  - intros v e. rewrite lookup_insert_eq. intros [= <- <-].
    assert (within (now + W - W) (now + W) (now :: passes) <= 1) as H1.
    { etrans; [apply within_add|]. rewrite within_none; [lia|]. intros t Ht. specialize (Hlt t Ht). lia. }
    repeat split; try lia.
    + intros t [-> |Ht]%elem_of_cons; [lia|]. specialize (Hlt t Ht). lia.
    + rewrite within_outside by lia. etrans; [|apply (Hlast (now - W + 1)); lia]. apply within_mono. lia.
  - intros t. destruct (decide (t <= now < t + W)) as [Hin|Hout]; [|by rewrite within_outside].
    etrans; [apply within_add|]. pose proof (Hlast t ltac:(lia)).
    assert (within t (t + W) passes <= within t now passes) by (apply within_mono; intros u Hu ?; specialize (Hlt u Hu); lia). lia.
Qed.

(** A further attempt on the entry. *)
Lemma counter_more now m passes v e :
  counter_ok now m passes -> m !! key = Some (v, e) -> now < e ->
  counter_ok now (<[key := (v + 1, e)]> m) (if maximum <? v + 1 then passes else now :: passes).
Proof.
  intros [Hp Hn He Hw] Hm Hlt. pose proof W_pos. destruct (He v e Hm) as (Hs & Hb & Hv & Hx & Hy). destruct (Z.ltb_spec maximum (v + 1)) as [Hge|Hle].
  - split; [done|by rewrite lookup_insert_eq| |done]. intros v' e'. rewrite lookup_insert_eq. intros [= <- <-]. repeat split; try done; lia.
  - split.
    + intros t [-> |Ht]%elem_of_cons; [lia|by apply Hp].
    + by rewrite lookup_insert_eq.
    + intros v' e'. rewrite lookup_insert_eq. intros [= <- <-]. pose proof (within_add (e - W) e now passes).
      repeat split; try lia.
      * intros t [-> |Ht]%elem_of_cons; [lia|by apply Hb].
      * rewrite within_outside by lia. done.
    + intros t. destruct (decide (t <= now < t + W)) as [Hin|Hout]; [|by rewrite within_outside].
      pose proof (within_split t (e - W) (t + W) (now :: passes)).
      assert (within t (e - W) (now :: passes) <= maximum).
      { rewrite within_outside by lia. etrans; [|exact Hy]. apply within_mono. intros u Hu ?. lia. }
      assert (within (e - W) (t + W) (now :: passes) <= maximum).
      { pose proof (within_add (e - W) e now passes). etrans; [apply (within_mono _ _ (e - W) e)|lia].
        intros u [-> |Hu]%elem_of_cons ?; [lia|]. specialize (Hb u Hu). lia. }
      lia.
Qed.

Lemma counter_later now now' m m' passes :
  counter_ok now m passes -> m' !! key = m !! key -> now <= now' -> counter_ok now' m' passes.
Proof.
  intros [Hp Hn He Hw] Hm Hle. split; rewrite ?Hm; try done.
  - intros t Ht. specialize (Hp t Ht). lia.
  - intros v e Hk. destruct (He v e Hk) as (? & ? & ? & ? & ?). repeat split; try done; lia.
Qed.

Lemma traffic_ok d passes : traffic d passes -> counter_ok (clock d) (cache d) passes.
Proof.
  induction 1 as [d Hk|d passes b r s _ IH Hr|d passes d' _ IH Hk Hle].
  - split; [by intros t ?%not_elem_of_nil|done|congruence|]. intros t. unfold within. cbn. lia.
  - unfold check_limit in Hr. change (((match count_attempt key window (clock d) (cache d) with
      | Some (n, m) => _ ← write (set_cache m); _ ← fail_if (maximum <? n) (IdentityRateLimited window); mret key
      | None => raise IdentityUnavailable end) : M string) (State d b) = (r, s)) in Hr.
    unfold count_attempt in Hr. destruct (cache_add key 1 window (clock d) (cache d)) as [[added m]|] eqn:Ha; [|by injection Hr as <- <-].
    destruct (add_law _ _ _ _ _ _ _ Ha) as [(-> & Hl & ->)|(-> & [[v e] Hl] & ->)].
    + pose proof (counter_new _ _ _ IH Hl) as Hok. unfold mbind, ST_bind, write, modify, fail_if in Hr. cbn in Hr.
      destruct (Z.ltb_spec maximum 1); [lia|]. by injection Hr as <- <-.
    + destruct (cache_incr key (clock d) (cache d)) as [[n m]|] eqn:Hi; [|by injection Hr as <- <-].
      destruct (incr_law _ _ _ _ _ Hi) as (v' & e' & Hl' & -> & ->). rewrite Hl in Hl'. injection Hl' as <- <-.
      unfold live in Hl. destruct (cache d !! key) as [[v' e']|] eqn:Hk; [|done]. destruct (Z.ltb_spec (clock d) e'); [|done].
      injection Hl as -> ->. pose proof (counter_more _ _ _ _ _ IH Hk ltac:(done)) as Hok.
      unfold mbind, ST_bind, write, modify, fail_if in Hr. cbn in Hr. destruct (maximum <? v + 1); by injection Hr as <- <-.
  - by eapply counter_later.
Qed.


End limit.
End LimitFacts.
