(* ===== verification/SecurityEventsTheorems.v ===== *)
(** * What an event may hold, and that its pages miss nothing *)

From stdpp Require Import sorting.
From S2P Require Import Prelude PyValue JsonTree ToolSchemas ToolSchemasTheorems Uuid DraftRows IdentityRows SecurityEvents IdentityFacts.

Module EventFacts.
Import JsonTree IdentityRows SecurityEvents IdentityFacts.
#[local] Abbreviation node_count := SchemaFacts.node_count.

(** ** Details *)

(** What the sanitizer asks of one value: no float, short texts, harmless and distinct keys. *)
Definition own_plain (v : json) : bool :=
  match v with
  | JFloat _ => false
  | JStr s => slen s <=? MAX_DETAIL_STRING_LENGTH
  | JDict d => forallb (fun kv => key_allowed kv.1) d
  | _ => true
  end.
Fixpoint plain (v : json) : bool :=
  own_plain v &&
  match v with
  | JList l => forallb plain l
  | JDict d => forallb (fun kv => plain kv.2) d
  | _ => true
  end.
(** A Python dict has a key once. *)
Fixpoint dicts_ok (v : json) : bool :=
  match v with
  | JList l => forallb dicts_ok l
  | JDict d => bool_decide (NoDup (map fst d)) && forallb (fun kv => dicts_ok kv.2) d
  | _ => true
  end.

Definition details_fit (depth count : Z) (v : json) : bool :=
  (depth + node_depth v <=? MAX_DETAIL_DEPTH) && (count + node_count v <=? MAX_DETAIL_ITEMS) && plain v.

(** The two loops of the sanitizer. *)
Fixpoint each_item (l : list json) (depth : Z) (done : list json) (count : Z) : result exn (json * Z) :=
  match l with
  | [] => Ok (JList done, count)
  | x :: l' =>
      match sanitize_detail x depth count with
      | Ok (y, count) => each_item l' depth (done ++ [y]) count
      | Err e => Err e
      end
  end.
Fixpoint each_key (d : list (string * json)) (depth : Z) (done : list (string * json)) (count : Z) : result exn (json * Z) :=
  match d with
  | [] => Ok (JDict done, count)
  | (key, x) :: d' =>
      if negb (key_allowed key) then Err invalid_details
      else
        match sanitize_detail x depth count with
        | Ok (y, count) => each_key d' depth (dict_set key y done) count
        | Err e => Err e
        end
  end.

Lemma sanitize_step v depth count :
  sanitize_detail v depth count =
    if (MAX_DETAIL_ITEMS <? count + 1) || (MAX_DETAIL_DEPTH <? depth) then Err invalid_details
    else
      match v with
      | JList l => each_item l (depth + 1) [] (count + 1)
      | JDict d => each_key d (depth + 1) [] (count + 1)
      | _ => if own_plain v then Ok (v, count + 1) else Err invalid_details
      end.
Proof.
  destruct v as [| | | |s|l|d]; cbn [sanitize_detail own_plain]; destruct (_ || _); try done.
  - rewrite Z.ltb_antisym. by destruct (_ <=? _).
  - generalize (count + 1). generalize (@nil json) at 2 3. induction l as [|x l IH]; intros acc n; [done|]. cbn.
    destruct (sanitize_detail x _ n) as [[]|]; [apply IH|done].
  - generalize (count + 1) ([] : list (string * json)). induction d as [|[k x] d IH]; intros n acc; [done|]. cbn.
    destruct (negb _); [done|]. destruct (sanitize_detail x _ n) as [[]|]; [apply IH|done].
Qed.

(** The verdict for a value, with the count that goes on. *)
Definition exact (v : json) : Prop := forall depth count, count <= MAX_DETAIL_ITEMS ->
  sanitize_detail v depth count = if details_fit depth count v then Ok (v, count + node_count v) else Err invalid_details.

Lemma each_item_exact l depth : Forall exact l -> forall done count, count <= MAX_DETAIL_ITEMS ->
  each_item l depth done count =
    if forallb (fun v => depth + node_depth v <=? MAX_DETAIL_DEPTH) l
       && (count + sum (map node_count l) <=? MAX_DETAIL_ITEMS) && forallb plain l
    then Ok (JList (done ++ l), count + sum (map node_count l)) else Err invalid_details.
Proof.
  induction 1 as [|v l Hv Hl IH]; intros acc count Hc; cbn.
  - rewrite Z.add_0_r, app_nil_r. by apply Z.leb_le in Hc as ->.
  - rewrite (Hv _ _ Hc). unfold details_fit. pose proof (sum_of_nonneg node_count l SchemaFacts.node_count_nonneg).
    destruct (Z.leb_spec (depth + node_depth v) MAX_DETAIL_DEPTH); cbn [andb]; [|done].
    destruct (Z.leb_spec (count + node_count v) MAX_DETAIL_ITEMS); cbn [andb].
    + destruct (plain v); cbn; [|by rewrite andb_false_r]. rewrite IH by done. by rewrite Z.add_assoc, <- app_assoc.
    + destruct (Z.leb_spec (count + (node_count v + sum (map node_count l))) MAX_DETAIL_ITEMS); [lia|]. by rewrite andb_false_r.
Qed.
Lemma each_key_exact d depth : Forall exact (map snd d) -> forall done count, count <= MAX_DETAIL_ITEMS ->
  NoDup (map fst (done ++ d)) ->
  each_key d depth done count =
    if forallb (fun v => depth + node_depth v <=? MAX_DETAIL_DEPTH) (map snd d)
       && (count + sum (map node_count (map snd d)) <=? MAX_DETAIL_ITEMS)
       && (forallb (fun kv => key_allowed kv.1) d && forallb plain (map snd d))
    then Ok (JDict (done ++ d), count + sum (map node_count (map snd d))) else Err invalid_details.
Proof.
  induction d as [|[k v] d IH]; intros Hd acc count Hc Hn; cbn.
  - rewrite Z.add_0_r, app_nil_r. by apply Z.leb_le in Hc as ->.
  - cbn in Hd. apply Forall_cons in Hd as [Hv Hd]. destruct (key_allowed k); cbn [negb andb]; [|by rewrite andb_false_r].
    rewrite (Hv _ _ Hc). unfold details_fit.
    pose proof (sum_of_nonneg node_count (map snd d) SchemaFacts.node_count_nonneg).
    destruct (Z.leb_spec (depth + node_depth v) MAX_DETAIL_DEPTH); cbn [andb]; [|done].
    destruct (Z.leb_spec (count + node_count v) MAX_DETAIL_ITEMS); cbn [andb].
    + destruct (plain v); cbn; [|by rewrite !andb_false_r].
      assert (dict_get k acc = None) as Hk.
      { apply dict_get_absent. rewrite map_app in Hn. apply NoDup_app in Hn as (_ & Hn & _). intros Hin. apply (Hn k Hin). by left. }
      rewrite (dict_set_new _ _ _ Hk), IH; [by rewrite Z.add_assoc, <- app_assoc|done|done|by rewrite <- app_assoc].
    + destruct (Z.leb_spec (count + (node_count v + sum (map node_count (map snd d)))) MAX_DETAIL_ITEMS); [lia|]. by rewrite andb_false_r.
Qed.

Lemma sanitize_exact v : dicts_ok v = true -> exact v.
Proof.
  induction v as [v IH] using children_ind. intros Hd depth count Hc. rewrite sanitize_step. unfold details_fit.
  rewrite node_depth_children, SchemaFacts.node_count_children.
  destruct (Z.ltb_spec MAX_DETAIL_ITEMS (count + 1)) as [Hn|Hn]; cbn [orb].
  { destruct (children v) as [l|].
    - pose proof (sum_of_nonneg node_count l SchemaFacts.node_count_nonneg).
      destruct (Z.leb_spec (count + (1 + sum (map node_count l))) MAX_DETAIL_ITEMS); [lia|]. by rewrite andb_false_r.
    - destruct (Z.leb_spec (count + (1 + 0)) MAX_DETAIL_ITEMS); [lia|]. by rewrite andb_false_r. }
  destruct (Z.ltb_spec MAX_DETAIL_DEPTH depth) as [Hp|Hp].
  { destruct (children v) as [l|].
    - pose proof (deepest_nonneg (map node_depth l)). by destruct (Z.leb_spec (depth + deepest (map node_depth l)) MAX_DETAIL_DEPTH); [lia|].
    - by destruct (Z.leb_spec (depth + 0) MAX_DETAIL_DEPTH); [lia|]. }
  assert (Hleaf : (depth + 0 <=? MAX_DETAIL_DEPTH) && (count + (1 + 0) <=? MAX_DETAIL_ITEMS) = true).
  { rewrite !Z.add_0_r. by apply andb_true_iff; split; apply Z.leb_le. }
  destruct v as [| | | |s|l|d]; cbn [children plain own_plain]; rewrite ?Hleaf; try done.
  - cbn. by rewrite andb_true_r.
  - rewrite deepest_within, Z.add_assoc by done. rewrite each_item_exact; [done| |done].
    cbn in Hd. specialize (IH l eq_refl). rewrite forallb_forall in Hd. rewrite Forall_forall in *.
    intros x Hx. apply IH; [done|]. by apply Hd, list_elem_of_In.
  - rewrite deepest_within, Z.add_assoc by done. cbn in Hd. apply andb_true_iff in Hd as [Hnd Hd]. bools.
    rewrite each_key_exact; [|specialize (IH (map snd d) eq_refl)|done|done].
    + rewrite (forallb_map_ext plain (fun kv => plain kv.2) snd) by done. done.
    + rewrite forallb_forall in Hd. rewrite Forall_forall in *. intros x Hx. apply IH; [done|].
      apply list_elem_of_In, in_map_iff in Hx as (kv & <- & Hkv). by apply Hd.
Qed.

(** The details of a security event are recorded exactly when they are a dict of at most 50
    values, at most three levels deep, without floats, with texts of at most 256 characters,
    harmless keys that name no secret, and a JSON text of at most 4096 bytes; and they are
    recorded as they are. *)
Theorem recorded_details_are_exact details stored :
  dicts_ok details = true ->
  safe_details details = Ok stored <->
  stored = py_or details (JDict []) /\ (exists d, stored = JDict d) /\ node_depth stored <= MAX_DETAIL_DEPTH /\
  node_count stored <= MAX_DETAIL_ITEMS /\ plain stored = true /\
  slen (json_dumps true false stored) <= MAX_SERIALIZED_DETAIL_BYTES.
Proof.
  intros Hd. unfold safe_details.
  assert (dicts_ok (py_or details (JDict [])) = true) as Hv by (unfold py_or; by destruct (truthy details)).
  revert Hv. generalize (py_or details (JDict [])) as v. intros v Hv.
  rewrite (sanitize_exact v Hv 0 0) by done. unfold details_fit. rewrite !Z.add_0_l.
  destruct (Z.leb_spec (node_depth v) MAX_DETAIL_DEPTH); cbn [andb].
  2: { split; [done|]. intros (-> & _ & ? & _). lia. }
  destruct (Z.leb_spec (node_count v) MAX_DETAIL_ITEMS); cbn [andb].
  2: { split; [done|]. intros (-> & _ & _ & ? & _). lia. }
  destruct (plain v) eqn:Hp; cbn.
  2: { split; [done|]. intros (-> & _ & _ & _ & Hp' & _). congruence. }
  destruct v as [| | | | | |d]; try (split; [done|]; by intros (-> & [? ?] & _)).
  destruct (Z.ltb_spec MAX_SERIALIZED_DETAIL_BYTES (slen (json_dumps true false (JDict d)))).
  - split; [done|]. intros (-> & _ & _ & _ & _ & ?). lia.
  - split; [intros [= <-]|by intros (-> & _)]. repeat split; try done. by exists d.
Qed.

(** ** Pages *)

#[export] Instance newer_transitive : Transitive newer.
Proof. intros e1 e2 e3. unfold newer. lia. Qed.
#[export] Instance newer_total : Total newer.
Proof. intros e1 e2. unfold newer. lia. Qed.

#[local] Instance filter_permutation {A} (f : A -> bool) : Proper (Permutation ==> Permutation) (List.filter f).
Proof.
  intros l l' Hp. induction Hp as [|x l l' _ IH|x y l|l l' l'' _ IH _ IH']; cbn.
  - done.
  - destruct (f x); [by apply perm_skip|done].
  - destruct (f x), (f y); try done. apply perm_swap.
  - by etrans.
Qed.
Lemma filter_all {A} (f : A -> bool) l : (forall x, x ∈ l -> f x = true) -> List.filter f l = l.
Proof.
  induction l as [|x l IH]; intros Hf; [done|]. cbn. rewrite (Hf x) by (by left). f_equal. apply IH. intros y Hy. apply Hf. by right.
Qed.
Lemma filter_none {A} (f : A -> bool) l : (forall x, x ∈ l -> f x = false) -> List.filter f l = [].
Proof.
  induction l as [|x l IH]; intros Hf; [done|]. cbn. rewrite (Hf x) by (by left). apply IH. intros y Hy. apply Hf. by right.
Qed.

(** Rows that can be told apart. *)
Definition told_apart (l : list security_event) : Prop := NoDup (map e_id l).

Lemma told_apart_filter f l : told_apart l -> told_apart (List.filter f l).
Proof.
  unfold told_apart. induction l as [|e l IH]; [done|]. cbn. intros [Hn Hl]%NoDup_cons.
  destruct (f e); [|by apply IH]. cbn. apply NoDup_cons. split; [|by apply IH].
  intros (e' & Hid & Hin)%list_elem_of_fmap. apply Hn, list_elem_of_fmap. exists e'. split; [done|].
  apply list_elem_of_In, filter_In in Hin as [Hin _]. by apply list_elem_of_In.
Qed.
Lemma told_apart_eq l e e' : told_apart l -> e ∈ l -> e' ∈ l -> e_id e = e_id e' -> e = e'.
Proof.
  unfold told_apart. intros Hn [i Hi]%list_elem_of_lookup [j Hj]%list_elem_of_lookup He.
  assert (i = j) as ->; [|congruence]. eapply (NoDup_lookup (map e_id l)); [done|..].
  - rewrite list_lookup_fmap, Hi. reflexivity.
  - rewrite list_lookup_fmap, Hj. cbn. by rewrite He.
Qed.
Lemma sorted_once l l' :
  told_apart l -> StronglySorted newer l -> StronglySorted newer l' -> l ≡ₚ l' -> l = l'.
Proof.
  intros Hn Hl Hl' Hp. apply (StronglySorted_unique_strong newer); [|done..].
  intros e e' He He' H1 H2. rewrite <- Hp in He'. apply (told_apart_eq l); [done..|]. unfold newer in *. lia.
Qed.

(** What comes before a row in the query of the next page is what follows it in the list. *)
Lemma after_cursor l pre e post :
  told_apart l -> newest_first l = pre ++ e :: post ->
  newest_first (List.filter (before (e_created_at e) (e_id e)) l) = post.
Proof.
  intros Hn Hl. assert (l ≡ₚ pre ++ e :: post) as Hp by (rewrite <- Hl; symmetry; apply merge_sort_Permutation).
  assert (StronglySorted newer (pre ++ e :: post)) as Hs by (rewrite <- Hl; apply StronglySorted_merge_sort; apply _).
  assert (told_apart (pre ++ e :: post)) as Hn' by (unfold told_apart; by rewrite <- Hp).
  assert (List.filter (before (e_created_at e) (e_id e)) l ≡ₚ post) as Hq.
  { rewrite Hp, List.filter_app. cbn. replace (before _ _ e) with false by (unfold before; lia).
    rewrite filter_none, filter_all; [done|..]; intros e' He'; unfold before.
    - apply StronglySorted_app in Hs as (_ & _ & [Hf _]%StronglySorted_cons).
      rewrite Forall_forall in Hf. specialize (Hf e' He'). unfold newer in Hf.
      assert (e_id e' <> e_id e) as Hne; [|lia]. unfold told_apart in Hn'. rewrite map_app in Hn'.
      apply NoDup_app in Hn' as (_ & _ & [Hne _]%NoDup_cons). intros Hid. apply Hne. rewrite <- Hid.
      by apply list_elem_of_fmap_2.
    - apply StronglySorted_app in Hs as (Hf & _ & _). specialize (Hf e' e He' ltac:(by left)). unfold newer in Hf. lia. }
  symmetry. apply sorted_once.
  - unfold told_apart in *. rewrite map_app in Hn'. apply NoDup_app in Hn' as (_ & _ & [_ Hpost]%NoDup_cons). done.
  - apply StronglySorted_app in Hs as (_ & _ & [_ Hpost]%StronglySorted_cons). done.
  - apply StronglySorted_merge_sort; apply _.
  - unfold newest_first. rewrite merge_sort_Permutation. by symmetry.
Qed.

Section pages.
Context `{Cursors}.

Lemma cursor_round_trip e : 0 <= e_created_at e <= MAX_DATETIME -> 0 <= e_id e < 2 ^ 128 ->
  decode_cursor (encode_cursor CURSOR_SALT e) = Ok (e_created_at e, e_id e).
Proof.
  intros Ht Hid. unfold decode_cursor, encode_cursor. rewrite loads_dumps. cbn beta iota.
  by rewrite parse_isoformat, Uuid.parse_text.
Qed.

(** A client that follows the cursors. *)
Fixpoint read_pages (fuel : nat) (owner : Z) (cursor : option string) (limit : Z) : M (list security_event) :=
  match fuel with
  | O => raise cursor_invalid
  | S fuel =>
      page ← list_security_events owner cursor limit;
      match next_cursor page with
      | None => mret (page_events page)
      | Some c => rest ← read_pages fuel owner (Some c) limit; mret (page_events page ++ rest)
      end
  end.

(** The rows a cursor leaves. *)
Definition left_by (owner : Z) (d : db) (cursor : option string) (rest : list security_event) : Prop :=
  match cursor with
  | None => newest_first (List.filter (owned_by owner) (events d)) = rest
  | Some c => exists pre e,
      newest_first (List.filter (owned_by owner) (events d)) = pre ++ e :: rest /\ c = encode_cursor CURSOR_SALT e /\
      0 <= e_created_at e <= MAX_DATETIME /\ 0 <= e_id e < 2 ^ 128
  end.

Lemma one_page owner d b cursor rest limit :
  1 <= limit <= 100 -> told_apart (events d) -> left_by owner d cursor rest ->
  exists rows, newest_first rows = rest /\
    list_security_events owner cursor limit (State d b) = (Ok (page_of CURSOR_SALT limit rows), State d b).
Proof.
  intros Hl Hn Hc. unfold list_security_events.
  replace (negb ((1 <=? limit) && (limit <=? 100))) with false by lia.
  destruct cursor as [c|]; cbn in Hc.
  - destruct Hc as (pre & e & Hq & -> & Ht & Hid). exists (List.filter (before (e_created_at e) (e_id e)) (List.filter (owned_by owner) (events d))).
    split; [by apply (after_cursor _ pre e rest); [apply told_apart_filter|]|].
    unfold mbind, ST_bind, fail_if, tables_now, lift. cbn. by rewrite cursor_round_trip.
  - by eexists.
Qed.

Lemma pages_rest owner d b limit : 1 <= limit <= 100 -> told_apart (events d) ->
  (forall e, e ∈ events d -> 0 <= e_created_at e <= MAX_DATETIME /\ 0 <= e_id e < 2 ^ 128) ->
  forall fuel cursor rest, left_by owner d cursor rest -> (length rest < fuel)%nat ->
  (exists pre, newest_first (List.filter (owned_by owner) (events d)) = pre ++ rest) ->
  read_pages fuel owner cursor limit (State d b) = (Ok rest, State d b).
Proof.
  intros Hl Hn Hr fuel. induction fuel as [|fuel IH]; intros cursor rest Hc Hf [pre Hpre]; [lia|]. cbn [read_pages].
  destruct (one_page owner d b cursor rest limit Hl Hn Hc) as (rows & Hrows & Hpage).
  unfold mbind, ST_bind. rewrite Hpage. unfold page_of. cbn [next_cursor page_events]. rewrite Hrows, take_take, Nat.min_l by lia.
  set (n := Z.to_nat limit). rewrite length_take.
  destruct (Nat.ltb_spec n (S n `min` length rest)) as [Hlt|Hge].
  2: { by rewrite take_ge by lia. }
  destruct (take n rest) as [|e0 page0 _] eqn:Htake using rev_ind.
  { apply (f_equal length) in Htake. rewrite length_take in Htake. cbn in Htake. lia. }
  rewrite last_snoc. assert (rest = page0 ++ e0 :: drop n rest) as Hrest.
  { rewrite <- (take_drop n rest) at 1. by rewrite Htake, <- app_assoc. }
  assert (e0 ∈ events d) as He0.
  { assert (e0 ∈ newest_first (List.filter (owned_by owner) (events d))) as Hin by (rewrite Hpre, Hrest; set_solver).
    unfold newest_first in Hin. rewrite merge_sort_Permutation in Hin. apply list_elem_of_In, filter_In in Hin as [Hin _]. by apply list_elem_of_In. }
  rewrite (IH (Some (encode_cursor CURSOR_SALT e0)) (drop n rest)).
  - cbn. by rewrite <- Htake, take_drop.
  - exists (pre ++ page0), e0. split; [by rewrite <- app_assoc, Hpre, Hrest at 1|]. split; [done|]. by apply Hr.
  - rewrite length_drop. lia.
  - exists (pre ++ take n rest). by rewrite <- app_assoc, take_drop.
Qed.

(** C30 A client that follows the cursors of the security log, with pages of any size from 1 to
    100, comes to the end and has read every event of the owner exactly once, the newest first,
    and nobody else's. *)
Theorem pages_are_complete owner d b limit fuel :
  1 <= limit <= 100 -> NoDup (map e_id (events d)) ->
  (forall e, e ∈ events d -> 0 <= e_created_at e <= MAX_DATETIME /\ 0 <= e_id e < 2 ^ 128) ->
  (length (events d) < fuel)%nat ->
  exists log, read_pages fuel owner None limit (State d b) = (Ok log, State d b) /\
    log ≡ₚ List.filter (owned_by owner) (events d) /\ StronglySorted newer log.
Proof.
  intros Hl Hn Hr Hf. exists (newest_first (List.filter (owned_by owner) (events d))).
  assert (newest_first (List.filter (owned_by owner) (events d)) ≡ₚ List.filter (owned_by owner) (events d)) as Hp
    by apply merge_sort_Permutation.
  split; [|split; [done|apply StronglySorted_merge_sort; apply _]].
  apply pages_rest; try done; [|by exists []]. rewrite Hp. pose proof (filter_length_le (owned_by owner) (events d)). lia.
Qed.

End pages.
End EventFacts.
