(* ===== verification/KeyRingTheorems.v ===== *)
(** * What a key ring holds, and the round trip of an authenticator's seed *)

From S2P Require Import Prelude PyValue Sha256 Base64 JsonText JsonTextTheorems ToolSchemas ToolSchemasTheorems EventbriteDrafts Crypto DraftRows IdentityRows KeyRing.

Module KeyRingFacts.
Import IdentityRows KeyRing.

(** ** Loading *)

(** A key ring as the rest of the program relies on it. *)
Record ring_sound (ring : Crypto.IntegrationKeyRing) : Prop := RingSound {
  rs_active : is_Some (Crypto.keys ring !! Crypto.active_key_id ring);
  rs_size : (1 <= size (Crypto.keys ring) <= 16)%nat;
  rs_keys : map_Forall (fun id key => Crypto.KEY_ID_PATTERN id = true /\ length key = 32%nat) (Crypto.keys ring);
}.

Lemma read_entries l entries : traverse read_entry l = Ok entries ->
  map fst entries = map fst l /\
  Forall (fun e => Crypto.KEY_ID_PATTERN e.1 = true /\ length e.2 = 32%nat) entries.
Proof.
  revert entries. induction l as [|kv l IH]; intros entries He; cbn in He; [by apply Ok_inj in He as <-|].
  apply bind_result_ok in He as (e & Hkv & He). apply bind_result_ok in He as (es & Hl & He). apply Ok_inj in He as <-.
  destruct (IH es Hl) as [Hm Hf]. unfold read_entry in Hkv. destruct kv.2; try done.
  destruct (Crypto.KEY_ID_PATTERN kv.1) eqn:Hid; [|done]. cbn [negb] in Hkv. destruct (decode_base64url s) as [key|]; [|done].
  destruct (Nat.eqb_spec (length key) 32); [|done]. apply Ok_inj in Hkv as <-. cbn. split; [by f_equal|]. by constructor.
Qed.

Lemma size_of_entries {A : Type} (l : list (string * A)) : (size (list_to_map l : gmap string A) <= length l)%nat.
Proof.
  induction l as [|[k v] l IH]; [done|]. cbn [list_to_map foldr length fst snd].
  rewrite map_size_insert. destruct (_ !! k); cbn; lia.
Qed.
Lemma entry_present (l : list (string * list Z)) k : In k (map fst l) -> is_Some ((list_to_map l : gmap string (list Z)) !! k).
Proof.
  intros Hin. destruct ((list_to_map l : gmap string (list Z)) !! k) eqn:Hk; [done|].
  apply not_elem_of_list_to_map in Hk. by apply list_elem_of_In in Hin.
Qed.

Lemma entries_sound active raw_keys entries :
  traverse read_entry raw_keys = Ok entries -> 1 <= Z.of_nat (length raw_keys) <= MAX_KEYS ->
  dict_mem active raw_keys = true -> ring_sound (Crypto.KeyRing active (list_to_map entries)).
Proof.
  intros He Hn Ha. destruct (read_entries _ _ He) as [Hm Hf]. apply SchemaFacts.dict_mem_keys in Ha. rewrite <- Hm in Ha.
  pose proof (f_equal length Hm) as Hlen. rewrite !length_map in Hlen. destruct (entry_present entries active Ha) as [key Hkey].
  split; cbn [Crypto.keys Crypto.active_key_id].
  - by exists key.
  - pose proof (size_of_entries entries). unfold MAX_KEYS in Hn. split; [|lia].
    destruct (decide (size (list_to_map entries : gmap string (list Z)) = 0%nat)) as [H0|]; [|lia].
    apply map_size_empty_inv in H0. rewrite H0 in Hkey. done.
  - intros id k Hk. apply elem_of_list_to_map_2 in Hk. rewrite Forall_forall in Hf. exact (Hf _ Hk).
Qed.

(** ** Seeds *)

Section seeds.
Context `{Crypto.AESGCM}.

Lemma decode_base64url_encode l : forallb Sha256.is_byte l = true -> l <> [] ->
  decode_base64url (encode_base64url l) = Some l.
Proof.
  intros Hb Hne. unfold decode_base64url, encode_base64url. rewrite (Base64.encode_no_padding l Hb), (Base64.decode_encode l Hb).
  by destruct (Base64.encode_head l Hb Hne) as (c & s & -> & _).
Qed.

(** C29 What loading a key ring accepts is a key ring as the rest of the program relies on it:
    one to sixteen AES-256 keys under identifiers of the allowed form, the active one among
    them; so that every seed of 1 to 128 bytes can be encrypted. *)
Theorem loaded_ring_is_sound recursion raw ring :
  load_key_ring recursion raw = Ok ring ->
  ring_sound ring /\
  forall random seed owner_id device_id, (1 <= length seed <= 128)%nat ->
    is_ok (encrypt_totp_seed (Some ring) random seed owner_id device_id) = true.
Proof.
  intros Hl. assert (ring_sound ring) as Hs.
  { unfold load_key_ring in Hl. destruct raw as [raw|]; [|done].
    apply bind_result_ok in Hl as (? & _ & Hl). apply bind_result_ok in Hl as (parsed & _ & Hl).
    destruct parsed as [| | | | | |d]; try done. apply bind_result_ok in Hl as (? & _ & Hl).
    destruct (get_or_none d "active_key_id") as [| | | |active| |]; try done.
    destruct (get_or_none d "keys") as [| | | | | |raw_keys]; try done.
    apply bind_result_ok in Hl as (? & Hc & Hl). apply raise_if_inv in Hc.
    apply bind_result_ok in Hl as (entries & He & Hl). apply Ok_inj in Hl as <-.
    bools. apply entries_sound with raw_keys; [done| |done]. idtac. lia. }
  split; [done|]. intros random seed o v Hn. unfold encrypt_totp_seed, MAX_TOTP_SEED_BYTES. cbn zeta.
  replace (negb ((1 <=? Z.of_nat (length seed)) && (Z.of_nat (length seed) <=? 128))) with false by lia.
  by destruct (rs_active _ Hs) as [key ->].
Qed.

(** Encryption returns bytes. *)
Definition seals_bytes : Prop := forall key nonce data aad,
  forallb Sha256.is_byte data = true -> forallb Sha256.is_byte (Crypto.seal key nonce data aad) = true.

Lemma totp_aad_binds owner device owner' device' :
  0 <= owner < 2 ^ 128 -> 0 <= device < 2 ^ 128 -> 0 <= owner' < 2 ^ 128 -> 0 <= device' < 2 ^ 128 ->
  totp_aad owner' device' = totp_aad owner device -> owner' = owner /\ device' = device.
Proof.
  intros Ho Hd Ho' Hd' He. apply JsonFacts.bytes_of_string_inj in He. do 2 (apply sapp_inj in He as [_ He]; [|done]).
  apply sapp_inj in He as [Hu He]; [|by rewrite !SchemaFacts.uuid_text_length]. apply sapp_inj in He as [_ He]; [|done].
  split; by apply SchemaFacts.uuid_text_inj.
Qed.

(** An encrypted seed, kept as JSON text in base64url, decrypts to the same bytes, also
    under a later key ring with another active key that keeps the old ones; and it is bound to
    its owner and its device: the data authenticated with it are those of no other pair. *)
Theorem seed_round_trip ring ring' random seed owner device envelope :
  seals_bytes -> Crypto.keys ring ⊆ Crypto.keys ring' ->
  length random = 12%nat -> forallb Sha256.is_byte random = true -> forallb Sha256.is_byte seed = true ->
  encrypt_totp_seed (Some ring) random seed owner device = Ok envelope ->
  decrypt_totp_seed (Some ring') envelope owner device = Ok seed /\
  (exists key fields, Crypto.keys ring !! Crypto.active_key_id ring = Some key /\ envelope = JDict fields /\
    dict_get "ciphertext" fields = Some (JStr (encode_base64url (Crypto.seal key random seed (totp_aad owner device))))) /\
  forall owner' device', 0 <= owner < 2 ^ 128 -> 0 <= device < 2 ^ 128 -> 0 <= owner' < 2 ^ 128 -> 0 <= device' < 2 ^ 128 ->
    totp_aad owner' device' = totp_aad owner device -> owner' = owner /\ device' = device.
Proof.
  intros Hb Hrot Hn Hrb Hsb He. unfold encrypt_totp_seed in He. cbn zeta in He.
  destruct (negb _) eqn:Hsize; [done|]. destruct (Crypto.keys ring !! _) as [key|] eqn:Hk; [|done]. apply Ok_inj in He as <-.
  split; [|split; [by eexists key, _|by intros; apply totp_aad_binds]].
  set (sealed := Crypto.seal key random seed (totp_aad owner device)).
  assert (length sealed = (length seed + 16)%nat) as Hlen by apply Crypto.seal_length.
  cbn [decrypt_totp_seed]. change (negb (EventbriteDrafts.has_keys _ _) || _ || _) with false. cbn beta iota.
  change (get_or_none _ "key_id") with (JStr (Crypto.active_key_id ring)).
  change (get_or_none _ "nonce") with (JStr (encode_base64url random)).
  change (get_or_none _ "ciphertext") with (JStr (encode_base64url sealed)). cbn beta iota.
  rewrite (lookup_weaken _ _ _ _ Hk Hrot), !decode_base64url_encode.
  - rewrite Hn. apply negb_false_iff, andb_true_iff in Hsize as [Hsize%Z.leb_le _]. cbn [Nat.eqb negb orb].
    destruct (Nat.ltb_spec (length sealed) 17); [lia|].
    unfold sealed. by rewrite Crypto.open_seal.
  - by apply Hb.
  - intros Hnil. rewrite Hnil in Hlen. cbn in Hlen. lia.
  - done.
  - intros ->. done.
Qed.

End seeds.
End KeyRingFacts.
