(* ===== verification/IdentityWitnesses.v ===== *)
(** * The theorems of the owner's identity, at the concrete run *)

From S2P Require Import Prelude PyValue Sha256 ToolSchemas Uuid DraftProvider EventbriteDrafts DraftRows IdentityRows RateLimits SecurityEvents Crypto KeyRing Credentials AdminSessions Authentication Transactions IdentityFacts IdentityEffects IdentityMarks IdentitySystem IdentityTheorems DraftWorld IdentityWorld RateLimitsTheorems SecurityEventsTheorems KeyRingTheorems.

Module IdentityWitnesses.
Import Provider IdentityRows RateLimits SecurityEvents Credentials AdminSessions Authentication IdentityFacts IdentitySystem IdentitySafety IdentityWorld.

(** ** Rows of the run *)

Definition blank : admin_session := AdministratorSession 0 "" None None None None None None None "" "" None false.
Definition session_in (s : system) (id : Z) : admin_session := default blank (sessions (rows s) !! id).
Definition z12 : admin_session := Eval vm_compute in session_in s12 session_id.
Definition z13 : admin_session := Eval vm_compute in session_in s13 19.
Definition v15 : totp_device := Eval vm_compute in
  default (AdministratorTOTPDevice 0 0 "" false JNull 0 0 0 None 0 None None None None) (devices (rows s15) !! device_id).

Lemma sessions_need_second_factor_witness : exists t, z_mfa_verified_at z12 = Some t /\ proved (history s12) (z_profile z12) t.
Proof.
  exact (proj1 (sessions_need_second_factor proxies secret_key ring s12 session_id z12 reached_12 ltac:(by vm_compute)) eq_refl).
Defined.


Lemma guesses_are_slowed_witness : 0 < v_failures v15 /\ 2 ^ (v_failures v15 - 1) - 1 <= (clock (rows s15) - v_created_at v15) / SECOND.
Proof.
  split; [by vm_compute|]. exact (guesses_are_slowed proxies secret_key ring s15 device_id v15 reached_15 ltac:(by vm_compute) ltac:(by vm_compute)).
Defined.

(** A request of the session, a minute after it was established. *)
Abbreviation enforcing := (enforce_administrator_session proxies true (Some 1) request).
Definition enforced : admin_session := Eval vm_compute in
  match (enforcing (State (rows s12) b12)).1 with Ok (Some (_, z)) => z | _ => blank end.
Definition after_enforcing : state := Eval vm_compute in (enforcing (State (rows s12) b12)).2.
Lemma enforced_session_is_live_witness : exists z0 authenticated, sessions (rows s12) !! session_id = Some z0 /\
  z_authenticated_at z0 = Some authenticated /\ clock (rows s12) < authenticated + 12 * 60 * 60 * SECOND.
Proof.
  destruct (enforced_session_is_live proxies secret_key ring s12 1 request b12 session_id enforced after_enforcing reached_12 ltac:(by vm_compute))
    as (z0 & p & a & act & Hz & _ & _ & _ & _ & _ & Ha & _ & [_ Hlt] & _). by exists z0, a.
Defined.

Lemma revoked_session_stays_out_witness : z_revoked_at z13 = Some (start + 120 * SECOND) /\
  (enforcing (State (rows s13) b9)).1 <> Ok (Some (19, z13)).
Proof.
  split; [by vm_compute|].
  exact (revoked_session_stays_out proxies secret_key ring s13 s13 1 request b9 19 z13 (start + 120 * SECOND) z13 reached_13
    ltac:(by vm_compute) ltac:(by vm_compute) (rtc_refl _ _)).
Defined.

Definition recovered : admin_session := Eval vm_compute in
  match (recovering (State (rows s9) stranger)).1 with Ok (_, z) => z | Err _ => blank end.
Definition after_recovering : state := Eval vm_compute in (recovering (State (rows s9) stranger)).2.
Lemma recovery_takes_over_witness : only_session 2 25 (tables after_recovering) /\
  process_view true (Some (25, recovered)) "admin-totp-enrollment" = true.
Proof.
  destruct (recovery_takes_over proxies secret_key ring s9 request p2 recovery_code_1 stranger 25 recovered after_recovering reached_9 ltac:(by vm_compute))
    as (_ & Ho & _ & _ & _ & _ & Hv). split; [exact Ho|]. by apply Hv; vm_compute; repeat constructor.
Defined.

Definition after_changing : state := Eval vm_compute in (changing (State (rows s12) b12)).2.
Lemma sensitive_actions_need_freshness_witness : exists z t, sessions (rows s12) !! session_id = Some z /\
  z_fresh_verified_at z = Some t /\ only_session (z_profile z) session_id (tables after_changing).
Proof.
  destruct (sensitive_actions_need_freshness proxies secret_key ring s12 session_id changing b12 1 after_changing reached_12
    (sensitive_password proxies session_id request "pw" "longer" "salt") ltac:(by vm_compute)) as (z & t & Hz & _ & Hf & _ & _ & Ho & _).
  by exists z, t.
Defined.

Abbreviation consuming := (consume_recovery_code 2 recovery_code_1 (start + 60 * SECOND)).
Definition code_id : Z := Eval vm_compute in value_of 0 (consuming (State (rows s9) b9)).1.
Definition after_consuming : state := Eval vm_compute in (consuming (State (rows s9) b9)).2.
Lemma recovery_code_works_once_witness : exists y', codes (tables after_consuming) !! code_id = Some y' /\ y_consumed_at y' = Some (start + 60 * SECOND).
Proof.
  exact (proj2 (recovery_code_works_once proxies secret_key ring s7 s9 2 recovery_code_1 (start + 60 * SECOND) b9 code_id after_consuming
    reached_7 steps_to_9 ltac:(by vm_compute))).
Defined.

Lemma identity_tables_are_well_formed_witness : session_ok (clock (rows s13)) z13.
Proof.
  destruct (identity_tables_are_well_formed proxies secret_key ring s13 reached_13) as (_ & _ & _ & Hs).
  exact (Hs 19 z13 ltac:(by vm_compute)).
Defined.

(** ** Counters, events and keys *)

Abbreviation passing := (check_limit "k" 5 300).

Definition details : json := JDict [("reason", JStr "expired"); ("attempts", JList [JInt 1; JInt 2])].
Lemma recorded_details_are_exact_witness :
  EventFacts.dicts_ok details = true /\ safe_details details = Ok details.
Proof.
  split; [by vm_compute|]. apply (EventFacts.recorded_details_are_exact details details ltac:(by vm_compute)).
  split; [done|]. split; [by eexists|]. by vm_compute.
Defined.

Definition log : list security_event := Eval vm_compute in
  match (EventFacts.read_pages 100 2 None 2 (State (rows s13) b9)).1 with Ok l => l | Err _ => [] end.
Lemma log_ids : NoDup (map e_id (events (rows s13))).
Proof. by_decide. Qed.
Definition in_range (e : security_event) : bool :=
  (0 <=? e_created_at e) && (e_created_at e <=? MAX_DATETIME) && (0 <=? e_id e) && (e_id e <? 2 ^ 128).
Lemma log_range e : e ∈ events (rows s13) -> 0 <= e_created_at e <= MAX_DATETIME /\ 0 <= e_id e < 2 ^ 128.
Proof.
  intros He. assert (forallb in_range (events (rows s13)) = true) as Hall by (by vm_compute).
  rewrite forallb_forall in Hall. apply list_elem_of_In in He. specialize (Hall e He). unfold in_range in Hall. bools. lia.
Qed.
Abbreviation reading := (EventFacts.read_pages 100 2 None 2 (State (rows s13) b9)).
Lemma reading_log : reading = (Ok log, State (rows s13) b9).
Proof. vm_cast_no_check (eq_refl reading). Qed.
Lemma log_events : (length (events (rows s13)) < 100)%nat.
Proof. vm_compute. lia. Qed.
Lemma pages_are_complete_witness : log ≡ₚ List.filter (owned_by 2) (events (rows s13)) /\ length log = 8%nat.
Proof.
  destruct (EventFacts.pages_are_complete 2 (rows s13) b9 2 100 ltac:(lia) log_ids log_range log_events) as (l & Hl & Hp & _).
  rewrite reading_log in Hl. apply (f_equal fst), Ok_inj in Hl as <-. by split.
Defined.

Definition key_file : list Z := Sha256.bytes_of_string (json_dumps true false
  (JDict [("active_key_id", JStr "k1"); ("keys", JDict [("k1", JStr (KeyRing.encode_base64url (replicate 32 7)))])])).
Definition loaded : Crypto.IntegrationKeyRing := Eval vm_compute in
  match KeyRing.load_key_ring 10 (Some key_file) with Ok r => r | Err _ => Crypto.KeyRing "" ∅ end.
Lemma loaded_ring_is_sound_witness : KeyRingFacts.ring_sound loaded.
Proof. exact (proj1 (KeyRingFacts.loaded_ring_is_sound 10 (Some key_file) loaded ltac:(by vm_compute))). Defined.

Lemma toy_seals_bytes : KeyRingFacts.seals_bytes.
Proof. intros key nonce data aad Hb. cbn. by rewrite forallb_app, Hb. Qed.
Definition sealed : json := Eval vm_compute in
  match KeyRing.encrypt_totp_seed (Some loaded) (replicate 12 1) [1; 2; 3] 2 6 with Ok e => e | Err _ => JNull end.
Lemma seed_round_trip_witness : KeyRing.decrypt_totp_seed (Some loaded) sealed 2 6 = Ok [1; 2; 3].
Proof.
  exact (proj1 (KeyRingFacts.seed_round_trip loaded loaded (replicate 12 1) [1; 2; 3] 2 6 sealed toy_seals_bytes
    ltac:(reflexivity) ltac:(done) ltac:(done) ltac:(done) ltac:(by vm_compute))).
Defined.

(** ** A sign-in that a recovery does not reach *)

(** When a recovery commits between the verification of a code and the session it is for, the
    sign-in goes on with the profile as it was loaded: the owner is left with a live session
    without any restriction while the profile waits for a new enrolment. *)
Theorem stale_sign_in_survives_recovery : exists s id z p,
  reachable s /\ sessions (rows s) !! id = Some z /\ z_revoked_at z = None /\ z_recovery_restricted z = false /\
  profiles (rows s) !! z_profile z = Some p /\ Rows.a_status p = Rows.RECOVERY_REQUIRED.
Proof.
  exists s17, 25, (session_in s17 25), (Rows.AdministratorProfile 1 Rows.RECOVERY_REQUIRED).
  split; [exact reached_17|]. by repeat split; vm_compute.
Qed.

End IdentityWitnesses.
